(* ===== verification/_CoqProject ===== *)
-Q . S2P
Prelude.v
DList.v
Console.v
Kfifo.v
Bitmap.v
KStdlib.v
KTime.v
KString.v
Vsprintf.v
Keyboard.v
Mutex.v
Task.v
Timer.v
Fd.v
Process.v
Signal.v
Pages.v
Paging.v
Fork.v
Arena.v
Device.v
Ramdisk.v
Cache.v
CachedDisk.v
Path.v
Pipe.v
Blocks.v
BlockCache.v
Inode.v
Bmap.v
Namei.v
Files.v
Super.v
Fileops.v
Args.v
Exec.v
Ide.v
Ata.v
User.v
Shell.v
Programs.v
Syscalls.v
Interrupts.v
Serial.v
Tty.v
BootInfo.v
DevFiles.v
Ls.v
Diag.v
