(* ===== verification/Prelude.v ===== *)
(** * LightOS: a verification library for a 32-bit teaching kernel

    LightOS (src/src) is a small Unix-like kernel for one i386 processor, written in C with a
    little assembly.  This library models its parts as Rocq definitions that follow the code
    line by line, and proves what makes each part correct - or, where the code falls short,
    exactly how far it goes.

    ** The parts and how they interact

    The interrupt handlers and system calls run over a handful of shared structures: intrusive
    lists, byte rings and bitmaps (lib/); the task table with the scheduler, on which every
    blocking routine is built (kernel/task.c, schedule.c, lib/mutex.c); the page frames and
    page tables (kernel/memory.c), from which the kernel heap takes its pages (lib/arena.c);
    the device table with a queue of requests for each disk (kernel/device.c), whose drivers
    are the console, the keyboard, the terminal, the serial ports, the ramdisks and the IDE
    disks; the block cache (kernel/cache.c), which stands between the file system (fs/) and the
    disks; and the loader of programs (kernel/execve.c), which puts a file's segments into a
    new address space.  Above the kernel are the library's system calls (lib/syscall.c), the
    shell and the small programs of buildroot/.

    ** The files

    - Prelude: machine integers, the state monad with failure, lemmas on lists.
    - Lib level.  DList (lib/list.c, lib/list.h) over an explicit heap of cells; Kfifo
      (lib/kfifo.c); Bitmap (lib/bitmap.c); KString (lib/string.c) over a byte store; KStdlib
      (lib/stdlib.c); Vsprintf (lib/vsprintf.c); KTime (lib/time.c, kernel/time.c); Mutex
      (lib/mutex.c, the modules Mutex and RwLock), as interleaved atomic steps; Arena
      (lib/arena.c).
    - Tasks.  Task (kernel/task.c, schedule.c): table, choice, blocking; Process (the rest of
      task.c): fork, exit, wait, sessions; Signal (kernel/signal.c, lib/restorer.asm); Timer
      (kernel/timer.c, clock.c); Fd (file descriptors of task.c and fs/file.c).
    - Memory (kernel/memory.c).  Pages: frames, counts, the kernel's bitmap; Paging: tables,
      the kmap window, page faults, brk, mmap; Fork: copying an address space and freeing it.
    - Start and entry.  BootInfo (memory_init of kernel/memory.c): what the loader reports;
      Interrupts (kernel/interrupt.c, global.c, rtc.c): controllers, gates, descriptors, alarm;
      Syscalls (kernel/gate.c, syscall_handler of interrupt_handler.asm, lib/syscall.c).
    - Devices.  Console (kernel/console.c), with messages in Diag (lib/print.c, debug.c,
      kernel/assert.c); Keyboard (kernel/keyboard.c, tty.c) and Tty, the
      terminal as a device; Serial (kernel/serial.c); Device (kernel/device.c); Ramdisk
      (kernel/ramdisk.c); Ide (kernel/ide.c) and Ata, the driver on a channel that keeps the
      laws of the hardware - sectors by number or by cylinder and head, as the driver asks;
      Cache (kernel/cache.c); CachedDisk, cache, device table and
      ramdisks together.
    - File system.  Path (the texts of paths, fs/file.c, namei.c); Pipe (fs/pipe.c); Blocks,
      the block cache as the file system sees it, and BlockCache, which shows Cache to be
      that; Inode (fs/inode.c and the table of fs/super.c); Bmap (fs/bmap.c); Namei (first half
      of fs/namei.c: permissions, entries, walks); Files (its second half and the reading and
      writing of fs/inode.c); Super (fs/super.c); Fileops (fs/file.c, stat.c, ioctl.c):
      descriptors over files; DevFiles (fs/dev.c): /dev.
    - Programs.  Args (the arguments in kernel/execve.c); Exec (the rest of execve.c); User
      (lib/printf.c, crt1.c, and the interface of system calls); Shell (buildroot/lsh.c);
      Programs (cat, echo, env, touch, kill, count and init of buildroot/); Ls (ls.c).

    State is a [Record] with a field for each global variable of the C file or a map for its
    arrays; a routine is a function on it with the routine's name, in the monad [ST] of
    Prelude when it is long.  [Stop] is a kernel that stops: a failed assertion or panic, an
    access that C leaves undefined, or fuel used up.  Where routines are interrupted or give up the
    processor the model is a step relation (Mutex, the disk queue of Device) or ends the
    definition at the call of [schedule], with another definition for the continuation (Task,
    Process, Cache).  Hardware input is an argument, hardware output a list of events.

    Interfaces are classes.  [PageSource] (Arena) is what the heap asks of a page allocator,
    with Pages as the instance; [BlockDevice] (Cache) is what the cache asks of a disk, with
    the ramdisks behind [device_request] as the instance (CachedDisk); [Devices] (Super) is
    what the file system asks of the device table.  [Ports] (Ide) is the processor's access to
    the hardware; [Ata], [Pics] (Interrupts) and [Uart] (Serial) are the laws of the chips that
    the theorems on the drivers rely on, each with a small machine that keeps them.  [System]
    (User) is the kernel as a program sees it; [Source] and [Screen] (Programs), [Terminal]
    (Shell) and [Stats] (Ls) are what single programs rely on.

    ** What the theorems show

    - Memory: page counts, free pages and bitmap always agree; linking, unlinking, copy on
      write and fork do to the mappings, counts and contents what they should and nothing
      else; entries keep their 32-bit layout; brk on every branch; the heap hands out disjoint
      buffers, joins what is freed with every free neighbour it still knows, and has sizes for
      which it never returns.
    - Disks: at any moment one task with a request runs and the queue is served like an
      elevator; a cached block always holds what was last stored, which reaches the disk with
      the last release, down to the bytes of the ramdisk; and the interleavings in which the
      cache breaks.
    - Tasks: a ready task runs within 63 switches; a mutex excludes and, with interrupts off,
      loses no wake-up; fork, exit and wait on every branch; signals are delivered in order
      and the interrupted context comes back exactly; sleepers wake on time.
    - Terminal: no byte sequence makes the console write outside its memory; held keys are
      tracked; what is typed is what is read; a kernel message reaches the console.
    - File system: the pool of caches behaves like the map of blocks the rest is modelled
      over; bmap agrees with the recursion over the tree of blocks; balloc takes the first free
      block and bfree undoes it; a walk finds the first entry with the name; iput gives back
      what iget took; what is written is read, and consecutive reads of a descriptor deliver
      consecutive pieces; a pipe is a stream in every interleaving; abspath stays in its buffer
      and how far its treatment of .. goes; the files that are made in /dev.
    - Drivers: sectors written to an IDE disk are read back and no other changes; a request the
      drive refuses never returns; why the sectors were once off by one; partition tables are found; a serial reader gets what
      arrives, in order; the masks of the interrupt controllers are a set.
    - Programs: a segment is loaded with its bytes, zeros and protection and nothing else, and
      which program headers are never reached; name, arguments and environment stand at the
      stack pointer of the new program; each function of the library reaches its handler; the
      shell cuts a line into words, edits it, and redirects output with exactly the right
      calls; cat copies, echo and ls show what they should.
    - Start: the regions a loader reports are the ones the kernel reads; every vector has its
      gate and its handler, every segment its descriptor.
    - Library: the list, ring, bitmap, string, calendar and printing routines against their
      specifications, including the dates on which the calendar is wrong.

    ** Fuel and bounds

    A loop whose end is not structural takes fuel; the theorems either show how much is
    enough (string loops: the length of the string plus one; searches in a list: its length;
    digits of a number: 32; the retry loops of the cache: as many turns as there are caches;
    waiting for a disk or a serial port: more turns than the latency its laws allow; tags of
    the loader: their number; the files of /dev: 400, for five times 64 devices and five
    turns; the program headers: 65537, since their count has 16 bits) or that no amount is
    (kmalloc_edge_never, kfifo_put_one_byte_diverges, read_past_end_never_returns).  Sizes are those of the code: 64 tasks, 64 devices, 128 open
    files, 16 words and 256 characters in a command line, 32-bit words that wrap around.

    ** Not modelled

    - The boot sector, the loader and head.asm run before C and talk to the BIOS; the assembly
      of switching, of the interrupt entries and of starting a program saves and loads
      registers the model does not have.  exception_handler prints the registers and hangs.
    - init/main.c is the order in which the routines above are called; init/init.c fills the
      first frame of a program and calls sys_execve (Exec).
    - Messages (printk and debugk, modelled in Diag) are left out of the other routines, and a
      failed assertion or a panic, which would print one and hang, is [Stop Panic].
    - sys_test (gate.c), the test tasks of task.c and dir_test (namei.c) test other routines;
      err.c writes to a forbidden address.
    - Times the hardware needs (delays between port accesses) and messages on the serial port.
    - Floating point in vsprintf is a parameter, since there are no doubles in the model. *)

From stdpp Require Export base numbers list gmap relations sorting.
From Stdlib Require Export ZArith Lia.

#[global] Open Scope Z_scope.

(** ** Machine integers

    Every C integer is a [Z]; the conversions below are the places where the
    compiler truncates.  [u8], [u16] and [u32] are the unsigned types of
    [include/sys/types.h]; [s8] and [s32] are [char] and [int] as the x86
    target defines them (two's complement). *)

Definition u8 (x : Z) : Z := x mod 256.
Definition u16 (x : Z) : Z := x mod 65536.
Definition u32 (x : Z) : Z := x mod 4294967296.
Definition s8 (x : Z) : Z := (x + 128) mod 256 - 128.
Definition s32 (x : Z) : Z := (x + 2147483648) mod 4294967296 - 2147483648.

(** [EOF] of types.h, as an [int] and as an [u32]. *)
Definition EOF_ : Z := -1.
Definition EOFu : Z := 4294967295.

Lemma u32_small x : 0 <= x < 4294967296 → u32 x = x.
Proof. intros. by apply Z.mod_small. Qed.

Lemma u32_range x : 0 <= u32 x < 4294967296.
Proof. by apply Z.mod_pos_bound. Qed.

Lemma u8_small x : 0 <= x < 256 → u8 x = x.
Proof. intros. by apply Z.mod_small. Qed.

Lemma u8_range x : 0 <= u8 x < 256.
Proof. by apply Z.mod_pos_bound. Qed.

Lemma u16_range x : 0 <= u16 x < 65536.
Proof. by apply Z.mod_pos_bound. Qed.

Lemma u16_small x : 0 <= x < 65536 → u16 x = x.
Proof. intros. by apply Z.mod_small. Qed.

Lemma s32_small x : -2147483648 <= x < 2147483648 → s32 x = x.
Proof. intros. unfold s32. rewrite Z.mod_small; lia. Qed.

Lemma s32_range x : -2147483648 <= s32 x < 2147483648.
Proof.
  unfold s32. pose proof (Z.mod_pos_bound (x + 2147483648) 4294967296). lia.
Qed.

Lemma s8_small x : -128 <= x < 128 → s8 x = x.
Proof. intros. unfold s8. rewrite Z.mod_small; lia. Qed.

Lemma u32_idemp x : u32 (u32 x) = u32 x.
Proof. unfold u32. by rewrite Z.mod_mod. Qed.

Lemma u32_add_l x y : u32 (u32 x + y) = u32 (x + y).
Proof. unfold u32. by rewrite Z.add_mod_idemp_l. Qed.

Lemma u32_sub_l x y : u32 (u32 x - y) = u32 (x - y).
Proof. unfold u32. by rewrite Zminus_mod_idemp_l. Qed.

Lemma u32_mul_l x y : u32 (u32 x * y) = u32 (x * y).
Proof. unfold u32. by rewrite Z.mul_mod_idemp_l. Qed.

(** ** Outcomes

    A kernel routine either returns or stops: a failed [assert] or a call of
    [panic] spins for ever (kernel/assert.c), an access outside the object that
    is modelled is undefined, and a loop that uses up its fuel has not been
    shown to end. *)

Inductive stop := Panic | OutOfBounds | NoFuel.

#[export] Instance stop_eq_dec : EqDecision stop.
Proof. solve_decision. Defined.

Inductive res (A : Type) :=
  | Ok (a : A)
  | Stop (e : stop).
Arguments Ok {A} a.
Arguments Stop {A} e.

#[export] Instance res_ret : MRet res := @Ok.
#[export] Instance res_bind : MBind res := λ A B f m,
  match m with Ok a => f a | Stop e => Stop e end.

Definition kassert (b : bool) : res unit := if b then Ok () else Stop Panic.

Lemma res_bind_Ok {A B} (m : res A) (f : A → res B) b :
  (x ← m; f x) = Ok b ↔ ∃ a, m = Ok a ∧ f a = Ok b.
Proof.
  destruct m as [a|e]; simpl; split.
  - intros. by exists a.
  - by intros (a' & [= ->] & ?).
  - intros [=].
  - by intros (a' & [=] & _).
Qed.

Lemma kassert_Ok b x : kassert b = Ok x ↔ b = true.
Proof. destruct b, x; simpl; split; done. Qed.

(** Stateful code: explicit state passing, the state being the globals (or the
    structure) the C routine works on. *)

Definition ST (S A : Type) : Type := S → res (A * S).

#[export] Instance st_ret S : MRet (ST S) := λ A a s, Ok (a, s).
#[export] Instance st_bind S : MBind (ST S) := λ A B f m s,
  match m s with Ok (a, s') => f a s' | Stop e => Stop e end.

Definition get_st {S} : ST S S := λ s, Ok (s, s).
Definition put_st {S} (s : S) : ST S unit := λ _, Ok ((), s).
Definition modify_st {S} (f : S → S) : ST S unit := λ s, Ok ((), f s).
Definition lift_st {S A} (m : res A) : ST S A :=
  λ s, match m with Ok a => Ok (a, s) | Stop e => Stop e end.
Definition stop_st {S A} (e : stop) : ST S A := λ _, Stop e.
Definition sassert {S} (b : bool) : ST S unit :=
  λ s, if b then Ok ((), s) else Stop Panic.

Lemma st_bind_Ok {S A B} (m : ST S A) (f : A → ST S B) s b s' :
  (x ← m; f x) s = Ok (b, s') ↔ ∃ a s1, m s = Ok (a, s1) ∧ f a s1 = Ok (b, s').
Proof.
  unfold mbind, st_bind. destruct (m s) as [[a s1]|e]; split.
  - intros. by exists a, s1.
  - by intros (? & ? & [= -> ->] & ?).
  - intros [=].
  - by intros (? & ? & [=] & _).
Qed.

Lemma st_bind_eq {S A B} (m : ST S A) (f : A → ST S B) s a s1 :
  m s = Ok (a, s1) → (x ← m; f x) s = f a s1.
Proof. intros H. unfold mbind, st_bind. by rewrite H. Qed.

Lemma st_bind_assoc {S A B C} (m : ST S A) (f : A → ST S B) (g : B → ST S C) s :
  (x ← (y ← m; f y); g x) s = (y ← m; x ← f y; g x) s.
Proof. unfold mbind, st_bind. by destruct (m s) as [[a s1]|e]. Qed.

(** One step of a program whose result is known. *)
Lemma st_step {S X Y} (m : ST S X) (f : X → ST S Y) s x s1 r : m s = Ok (x, s1) → f x s1 = r → (m ≫= f) s = r.
Proof. intros E <-. exact (st_bind_eq m f s x s1 E). Qed.

Lemma st_ret_l {S X Y} (x : X) (f : X → ST S Y) s : (mret x ≫= f) s = f x s.
Proof. done. Qed.

Ltac st_go H := rewrite ?st_bind_assoc; eapply st_step; [exact H|]; cbv beta.

(** ** Arrays with C indices *)

Definition zget {A} (l : list A) (i : Z) : res A :=
  if 0 <=? i then
    match l !! Z.to_nat i with Some a => Ok a | None => Stop OutOfBounds end
  else Stop OutOfBounds.

Definition zset {A} (l : list A) (i : Z) (x : A) : res (list A) :=
  if (0 <=? i) && (i <? Z.of_nat (length l))
  then Ok (<[Z.to_nat i := x]> l) else Stop OutOfBounds.

Lemma zget_Ok {A} (l : list A) i x :
  zget l i = Ok x ↔ 0 <= i ∧ l !! Z.to_nat i = Some x.
Proof.
  unfold zget. destruct (Z.leb_spec 0 i); [|split; [done|lia]].
  destruct (l !! Z.to_nat i) as [y|]; split.
  - by intros [= ->].
  - by intros [_ [= ->]].
  - done.
  - by intros [_ [=]].
Qed.

Lemma zget_is_Ok {A} (l : list A) i :
  0 <= i < Z.of_nat (length l) → ∃ x, zget l i = Ok x ∧ l !! Z.to_nat i = Some x.
Proof.
  intros Hi. destruct (lookup_lt_is_Some_2 l (Z.to_nat i)) as [x Hx]; [lia|].
  exists x. split; [apply zget_Ok; split; [lia|done]|done].
Qed.

Lemma zset_Ok {A} (l : list A) i x :
  0 <= i < Z.of_nat (length l) → zset l i x = Ok (<[Z.to_nat i := x]> l).
Proof.
  intros. unfold zset.
  destruct (Z.leb_spec 0 i), (Z.ltb_spec i (Z.of_nat (length l))); simpl; done || lia.
Qed.

Lemma zset_length {A} (l l' : list A) i x :
  zset l i x = Ok l' → length l' = length l.
Proof.
  unfold zset. destruct (_ && _); [|done].
  intros [= <-]. apply length_insert.
Qed.

(** In a list without repeated keys a key has one place. *)
Lemma NoDup_fmap_split {A B} (f : A → B) l1 x l2 k1 y k2 :
  NoDup (f <$> l1 ++ x :: l2) → l1 ++ x :: l2 = k1 ++ y :: k2 → f x = f y → l1 = k1 ∧ x = y ∧ l2 = k2.
Proof.
  revert k1. induction l1 as [|a l1 IH]; intros [|b k1] N E F.
  - by injection E as -> ->.
  - injection E as -> ->. apply NoDup_cons in N as [N _]. exfalso. apply N. rewrite F. apply list_elem_of_fmap_2, elem_of_app. right. apply list_elem_of_here.
  - injection E as -> <-. apply NoDup_cons in N as [N _]. exfalso. apply N. rewrite <- F. apply list_elem_of_fmap_2, elem_of_app. right. apply list_elem_of_here.
  - injection E as -> E. apply NoDup_cons in N as [_ N]. by destruct (IH k1 N E F) as (-> & -> & ->).
Qed.

(** ** Tactics *)

Ltac inv_res :=
  repeat match goal with
  | H : Ok _ = Ok _ |- _ => injection H as H; subst
  | H : Ok _ = Stop _ |- _ => discriminate H
  | H : Stop _ = Ok _ |- _ => discriminate H
  | H : (_, _) = (_, _) |- _ => injection H as H; subst
  | H : mbind _ (Ok _) = _ |- _ => simpl in H
  end.

(** Case analysis on the boolean comparisons of [Z] in the goal, each case
    carrying the fact as an inequality. *)
Ltac zcases :=
  repeat match goal with
  | |- context [?a =? ?b] => destruct (Z.eqb_spec a b)
  | |- context [?a <? ?b] => destruct (Z.ltb_spec a b)
  | |- context [?a <=? ?b] => destruct (Z.leb_spec a b)
  end; simpl.

Ltac zcases_in H :=
  repeat match type of H with
  | context [?a =? ?b] => destruct (Z.eqb_spec a b)
  | context [?a <? ?b] => destruct (Z.ltb_spec a b)
  | context [?a <=? ?b] => destruct (Z.leb_spec a b)
  end; simpl in H.

Create HintDb lightos.
#[export] Hint Resolve u32_range u8_range u16_range s32_range : lightos.
