(* ===== verification/DList.v ===== *)
(** * The intrusive doubly linked list (src/lib/list.c)

    A [list_node_t] is a cell of a heap that maps addresses to the two pointers;
    a [list_t] at address [l] is its two sentinel nodes, [head] at [l] and
    [tail] eight bytes further.  Every operation of list.c is translated as a
    program over that heap, so that sharing and dangling links are visible, and
    is then shown to implement the corresponding operation on a Rocq list. *)

From S2P Require Import Prelude.

(** ** The store *)

Record list_node_t := Node { prev : Z; next : Z }.

Abbreviation nheap := (gmap Z list_node_t).

Definition NULL : Z := 0.
Definition head_of (l : Z) : Z := l.
Definition tail_of (l : Z) : Z := l + 8.

(** Reading and writing one field of a node; a node that is not in the store
    (a null or dangling pointer) is an undefined access. *)
Definition get_next (a : Z) : ST nheap Z := λ h,
  match h !! a with Some n => Ok (next n, h) | None => Stop OutOfBounds end.
Definition get_prev (a : Z) : ST nheap Z := λ h,
  match h !! a with Some n => Ok (prev n, h) | None => Stop OutOfBounds end.
Definition set_next (a v : Z) : ST nheap unit := λ h,
  match h !! a with
  | Some n => Ok ((), <[a := Node (prev n) v]> h) | None => Stop OutOfBounds end.
Definition set_prev (a v : Z) : ST nheap unit := λ h,
  match h !! a with
  | Some n => Ok ((), <[a := Node v (next n)]> h) | None => Stop OutOfBounds end.

(** ** The operations of list.c *)

Definition list_init (l : Z) : ST nheap unit :=
  set_prev (head_of l) NULL;;
  set_next (tail_of l) NULL;;
  set_next (head_of l) (tail_of l);;
  set_prev (tail_of l) (head_of l).

Definition list_insert_before (anchor node : Z) : ST nheap unit :=
  p ← get_prev anchor;
  set_prev node p;;
  set_next node anchor;;
  p ← get_prev anchor;
  set_next p node;;
  set_prev anchor node.

Definition list_insert_after (anchor node : Z) : ST nheap unit :=
  set_prev node anchor;;
  n ← get_next anchor;
  set_next node n;;
  n ← get_next anchor;
  set_prev n node;;
  set_next anchor node.

(** The loop of [list_search]; the store bounds the number of steps. *)
Fixpoint search_loop (fuel : nat) (tail node nxt : Z) : ST nheap bool :=
  match fuel with
  | O => stop_st NoFuel
  | S fuel =>
      if nxt =? tail then mret false
      else if nxt =? node then mret true
      else n ← get_next nxt; search_loop fuel tail node n
  end.

Definition list_search (l node : Z) : ST nheap bool :=
  h ← get_st;
  n ← get_next (head_of l);
  search_loop (S (size (h : nheap))) (tail_of l) node n.

Definition list_empty (l : Z) : ST nheap bool :=
  n ← get_next (head_of l); mret (n =? tail_of l).

Definition list_remove (node : Z) : ST nheap unit :=
  p ← get_prev node;
  sassert (negb (p =? NULL));;
  n ← get_next node;
  sassert (negb (n =? NULL));;
  set_next p n;;
  set_prev n p;;
  set_next node NULL;;
  set_prev node NULL.

Definition list_push (l node : Z) : ST nheap unit :=
  b ← list_search l node;
  sassert (negb b);;
  list_insert_after (head_of l) node.

Definition list_pushback (l node : Z) : ST nheap unit :=
  b ← list_search l node;
  sassert (negb b);;
  list_insert_before (tail_of l) node.

Definition list_pop (l : Z) : ST nheap Z :=
  b ← list_empty l;
  sassert (negb b);;
  node ← get_next (head_of l);
  list_remove node;;
  mret node.

Definition list_popback (l : Z) : ST nheap Z :=
  b ← list_empty l;
  sassert (negb b);;
  node ← get_prev (tail_of l);
  list_remove node;;
  mret node.

Fixpoint size_loop (fuel : nat) (tail nxt sz : Z) : ST nheap Z :=
  match fuel with
  | O => stop_st NoFuel
  | S fuel =>
      if nxt =? tail then mret sz
      else n ← get_next nxt; size_loop fuel tail n (u32 (sz + 1))
  end.

Definition list_size (l : Z) : ST nheap Z :=
  h ← get_st;
  n ← get_next (head_of l);
  size_loop (S (size (h : nheap))) (tail_of l) n 0.

(** [list_insert_sort]: [key a] is [element_node_key(a, offset)], the [int] at a
    fixed distance from the node. *)
Fixpoint sort_loop (fuel : nat) (key : Z → Z) (tail k ptr : Z) : ST nheap Z :=
  match fuel with
  | O => stop_st NoFuel
  | S fuel =>
      if ptr =? tail then mret tail
      else if k <? key ptr then mret ptr
      else n ← get_next ptr; sort_loop fuel key tail k n
  end.

Definition list_insert_sort (key : Z → Z) (l node : Z) : ST nheap unit :=
  h ← get_st;
  n ← get_next (head_of l);
  anchor ← sort_loop (S (size (h : nheap))) key (tail_of l) (key node) n;
  n ← get_next node;
  sassert (n =? NULL);;
  p ← get_prev node;
  sassert (p =? NULL);;
  list_insert_before anchor node.

(** ** The abstract list *)

Module AList.
(** First position whose key is larger than [k]. *)
Fixpoint insert_sort {A} (key : A → Z) (x : A) (xs : list A) : list A :=
  match xs with
  | [] => [x]
  | y :: ys => if key x <? key y then x :: y :: ys else y :: insert_sort key x ys
  end.

Fixpoint remove {A} `{EqDecision A} (x : A) (xs : list A) : list A :=
  match xs with
  | [] => []
  | y :: ys => if decide (y = x) then ys else y :: remove x ys
  end.
End AList.

(** ** Links and their updates *)

Definition nx (h : nheap) (a : Z) : option Z := next <$> h !! a.
Definition pv (h : nheap) (a : Z) : option Z := prev <$> h !! a.

Lemma get_next_Ok h a v : nx h a = Some v → get_next a h = Ok (v, h).
Proof. unfold nx, get_next. destruct (h !! a); [by intros [= <-]|done]. Qed.

Lemma get_prev_Ok h a v : pv h a = Some v → get_prev a h = Ok (v, h).
Proof. unfold pv, get_prev. destruct (h !! a); [by intros [= <-]|done]. Qed.

Definition upd_next (a v : Z) : nheap → nheap := alter (λ n, Node (prev n) v) a.
Definition upd_prev (a v : Z) : nheap → nheap := alter (λ n, Node v (next n)) a.

Lemma alter_known {A} (f : A → A) (m : gmap Z A) i x :
  m !! i = Some x → alter f i m = <[i := f x]> m.
Proof.
  intros Hx. apply map_eq. intros j. rewrite lookup_alter, lookup_insert.
  case_decide; subst; by rewrite ?Hx.
Qed.

Lemma set_next_Ok h a v : is_Some (h !! a) → set_next a v h = Ok ((), upd_next a v h).
Proof.
  intros [n Hn]. unfold set_next, upd_next. by rewrite (alter_known _ _ _ _ Hn), Hn.
Qed.

Lemma set_prev_Ok h a v : is_Some (h !! a) → set_prev a v h = Ok ((), upd_prev a v h).
Proof.
  intros [n Hn]. unfold set_prev, upd_prev. by rewrite (alter_known _ _ _ _ Hn), Hn.
Qed.

Lemma nx_upd_next h a v c :
  nx (upd_next a v h) c = if decide (a = c) then const v <$> h !! c else nx h c.
Proof.
  unfold nx, upd_next. rewrite lookup_alter. case_decide; [|done].
  subst. by destruct (h !! c).
Qed.

Lemma pv_upd_next h a v c : pv (upd_next a v h) c = pv h c.
Proof.
  unfold pv, upd_next. rewrite lookup_alter. case_decide; [|done].
  subst. by destruct (h !! c).
Qed.

Lemma nx_upd_prev h a v c : nx (upd_prev a v h) c = nx h c.
Proof.
  unfold nx, upd_prev. rewrite lookup_alter. case_decide; [|done].
  subst. by destruct (h !! c).
Qed.

Lemma pv_upd_prev h a v c :
  pv (upd_prev a v h) c = if decide (a = c) then const v <$> h !! c else pv h c.
Proof.
  unfold pv, upd_prev. rewrite lookup_alter. case_decide; [|done].
  subst. by destruct (h !! c).
Qed.

Lemma upd_next_is_Some h a v c : is_Some (upd_next a v h !! c) ↔ is_Some (h !! c).
Proof. unfold upd_next. by rewrite lookup_alter_is_Some. Qed.

Lemma upd_prev_is_Some h a v c : is_Some (upd_prev a v h !! c) ↔ is_Some (h !! c).
Proof. unfold upd_prev. by rewrite lookup_alter_is_Some. Qed.

Lemma upd_next_ne h a v c : a ≠ c → upd_next a v h !! c = h !! c.
Proof. intros. by apply lookup_alter_ne. Qed.

Lemma upd_prev_ne h a v c : a ≠ c → upd_prev a v h !! c = h !! c.
Proof. intros. by apply lookup_alter_ne. Qed.

Lemma nx_is_Some h a v : nx h a = Some v → is_Some (h !! a).
Proof. unfold nx. destruct (h !! a); [eauto|done]. Qed.

Lemma pv_is_Some h a v : pv h a = Some v → is_Some (h !! a).
Proof. unfold pv. destruct (h !! a); [eauto|done]. Qed.

(** One pass of rewriting with the update lemmas. *)
Ltac links :=
  repeat (rewrite ?nx_upd_next, ?nx_upd_prev, ?pv_upd_next, ?pv_upd_prev;
          try (case_decide; subst; simpl; try congruence)).

Ltac live :=
  repeat first [rewrite upd_next_is_Some | rewrite upd_prev_is_Some]; eauto using nx_is_Some, pv_is_Some.

(** The store after linking [n] between [p] and [q] (in either order of the
    writes) and after unlinking it, seen through its links. *)
Record spliced (h h' : nheap) (p n q : Z) : Prop := {
  sp_nx c : nx h' c = if decide (c = n) then Some q
                      else if decide (c = p) then Some n else nx h c;
  sp_pv c : pv h' c = if decide (c = n) then Some p
                      else if decide (c = q) then Some n else pv h c;
  sp_frame c : c ≠ p → c ≠ n → c ≠ q → h' !! c = h !! c
}.

Record unlinked (h h' : nheap) (p n q : Z) : Prop := {
  un_nx c : nx h' c = if decide (c = n) then Some NULL
                      else if decide (c = p) then Some q else nx h c;
  un_pv c : pv h' c = if decide (c = n) then Some NULL
                      else if decide (c = q) then Some p else pv h c;
  un_frame c : c ≠ p → c ≠ n → c ≠ q → h' !! c = h !! c
}.

Lemma const_is_Some {A B} (o : option A) (v : B) : is_Some o → const v <$> o = Some v.
Proof. by intros [x ->]. Qed.

Lemma insert_before_spliced h p n q :
  nx h p = Some q → pv h q = Some p → is_Some (h !! n) → n ≠ p → n ≠ q →
  ∃ h', list_insert_before q n h = Ok ((), h') ∧ spliced h h' p n q.
Proof.
  intros Hp Hq Hn Hnp Hnq. unfold list_insert_before.
  rewrite (st_bind_eq _ _ _ _ _ (get_prev_Ok _ _ _ Hq)).
  rewrite (st_bind_eq _ _ _ _ _ (set_prev_Ok h n p Hn)).
  rewrite (st_bind_eq _ _ _ _ _ (set_next_Ok (upd_prev n p h) n q ltac:(live))).
  erewrite (st_bind_eq (get_prev q)) by (apply get_prev_Ok; links; apply Hq).
  erewrite (st_bind_eq (set_next p n)) by (apply set_next_Ok; live).
  rewrite set_prev_Ok by live.
  eexists; split; [reflexivity|]. split; intros c.
  - links; try (rewrite const_is_Some by live); congruence.
  - links; try (rewrite const_is_Some by live); congruence.
  - intros. rewrite upd_prev_ne, upd_next_ne, upd_next_ne, upd_prev_ne by congruence. done.
Qed.

Lemma insert_after_spliced h p n q :
  nx h p = Some q → pv h q = Some p → is_Some (h !! n) → n ≠ p → n ≠ q →
  ∃ h', list_insert_after p n h = Ok ((), h') ∧ spliced h h' p n q.
Proof.
  intros Hp Hq Hn Hnp Hnq. unfold list_insert_after.
  rewrite (st_bind_eq _ _ _ _ _ (set_prev_Ok h n p Hn)).
  erewrite (st_bind_eq (get_next p)) by (apply get_next_Ok; links; apply Hp).
  erewrite (st_bind_eq (set_next n q)) by (apply set_next_Ok; live).
  erewrite (st_bind_eq (get_next p)) by (apply get_next_Ok; links; apply Hp).
  erewrite (st_bind_eq (set_prev q n)) by (apply set_prev_Ok; live).
  rewrite set_next_Ok by live.
  eexists; split; [reflexivity|]. split; intros c.
  - links; try (rewrite const_is_Some by live); congruence.
  - links; try (rewrite const_is_Some by live); congruence.
  - intros. rewrite upd_next_ne, upd_prev_ne, upd_next_ne, upd_prev_ne by congruence. done.
Qed.

Lemma remove_unlinked h p n q :
  pv h n = Some p → nx h n = Some q → is_Some (h !! p) → is_Some (h !! q) →
  p ≠ NULL → q ≠ NULL → n ≠ p → n ≠ q → p ≠ q →
  ∃ h', list_remove n h = Ok ((), h') ∧ unlinked h h' p n q.
Proof.
  intros Hp Hq Ip Iq Np Nq Hnp Hnq Hpq. unfold list_remove.
  rewrite (st_bind_eq _ _ _ _ _ (get_prev_Ok _ _ _ Hp)).
  rewrite (st_bind_eq (sassert _) _ _ () h)
    by (unfold sassert; by destruct (Z.eqb_spec p NULL)).
  rewrite (st_bind_eq _ _ _ _ _ (get_next_Ok _ _ _ Hq)).
  rewrite (st_bind_eq (sassert _) _ _ () h)
    by (unfold sassert; by destruct (Z.eqb_spec q NULL)).
  erewrite (st_bind_eq (set_next p q)) by (apply set_next_Ok; live).
  erewrite (st_bind_eq (set_prev q p)) by (apply set_prev_Ok; live).
  erewrite (st_bind_eq (set_next n NULL)) by (apply set_next_Ok; live).
  rewrite set_prev_Ok by live.
  eexists; split; [reflexivity|]. split; intros c.
  - links; try (rewrite const_is_Some by live); congruence.
  - links; try (rewrite const_is_Some by live); congruence.
  - intros. rewrite upd_prev_ne, upd_next_ne, upd_prev_ne, upd_next_ne by congruence. done.
Qed.

(** ** The representation predicate *)

(** Consecutive elements of [ys] are linked in both directions. *)
Fixpoint linked (h : nheap) (ys : list Z) : Prop :=
  match ys with
  | a :: (b :: _) as t => nx h a = Some b ∧ pv h b = Some a ∧ linked h t
  | _ => True
  end.

(** The list at [l] holds exactly the nodes [xs], in this order. *)
Definition is_list (h : nheap) (l : Z) (xs : list Z) : Prop :=
  linked h (head_of l :: xs ++ [tail_of l]) ∧
  pv h (head_of l) = Some NULL ∧ nx h (tail_of l) = Some NULL ∧
  NoDup (head_of l :: xs ++ [tail_of l]) ∧
  NULL ∉ head_of l :: xs ++ [tail_of l].

Lemma linked_cons2 h p q zs :
  linked h (p :: q :: zs) ↔ nx h p = Some q ∧ pv h q = Some p ∧ linked h (q :: zs).
Proof. done. Qed.

Lemma linked_app h ys p zs :
  linked h (ys ++ p :: zs) ↔ linked h (ys ++ [p]) ∧ linked h (p :: zs).
Proof.
  induction ys as [|a ys IH]; [simpl; tauto|].
  destruct ys as [|b ys].
  - simpl. tauto.
  - rewrite <-!app_comm_cons, !linked_cons2, app_comm_cons, IH. tauto.
Qed.

Lemma linked_ext_l h h' ys p :
  (∀ c, c ∈ ys → nx h' c = nx h c) →
  (∀ c, c ∈ ys ∨ c = p → pv h' c = pv h c) →
  linked h (ys ++ [p]) → linked h' (ys ++ [p]).
Proof.
  induction ys as [|a ys IH]; intros Hn Hp; [done|].
  destruct ys as [|b ys].
  - simpl. rewrite Hn, Hp by set_solver. done.
  - intros (E1 & E2 & E3). simpl. rewrite Hn, Hp by set_solver.
    split; [done|]. split; [done|].
    apply IH; [intros; apply Hn; set_solver|intros; apply Hp; set_solver|done].
Qed.

Lemma linked_ext_r h h' p ys :
  (∀ c, c ∈ ys ∨ c = p → nx h' c = nx h c) →
  (∀ c, c ∈ ys → pv h' c = pv h c) →
  linked h (p :: ys) → linked h' (p :: ys).
Proof.
  revert p. induction ys as [|b ys IH]; intros p Hn Hp; [done|].
  intros (E1 & E2 & E3). split; [|split].
  - rewrite Hn by set_solver. done.
  - rewrite Hp by set_solver. done.
  - apply IH; [intros; apply Hn; set_solver|intros; apply Hp; set_solver|done].
Qed.

(** The cells around a cut of the list, the sentinels included. *)
Lemma cut_cells (l : Z) (xs ys : list Z) (t : Z) :
  ∃ F p q G, l :: xs = F ++ [p] ∧ ys ++ [t] = q :: G ∧
             l :: (xs ++ ys) ++ [t] = F ++ p :: q :: G.
Proof.
  destruct (exists_last (l := l :: xs)) as (F & p & HF); [done|].
  destruct (ys ++ [t]) as [|q G] eqn:HG; [by destruct ys|].
  exists F, p, q, G. split; [done|]. split; [done|].
  rewrite app_comm_cons, app_comm_cons, HF, <-app_assoc, HG, <-app_assoc. done.
Qed.

Lemma is_list_insert h h' l xs ys F p n q G :
  is_list h l (xs ++ ys) → head_of l :: xs = F ++ [p] → ys ++ [tail_of l] = q :: G →
  spliced h h' p n q → n ∉ head_of l :: (xs ++ ys) ++ [tail_of l] → n ≠ NULL →
  is_list h' l (xs ++ n :: ys).
Proof.
  intros (Hl & Hh & Ht & Hnd & H0) HF HG Hsp Hn Hn0.
  assert (Hcut : ∀ zs, head_of l :: (xs ++ zs ++ ys) ++ [tail_of l] = F ++ p :: zs ++ q :: G).
  { intros zs. rewrite <-!app_assoc, HG, app_comm_cons, HF, <-app_assoc. done. }
  pose proof (Hcut []) as E; simpl in E. rewrite E in *.
  apply NoDup_app in Hnd as (HF1 & HF2 & HF3). apply NoDup_cons in HF3 as [Hp HF3].
  apply NoDup_cons in HF3 as [Hq HG1].
  destruct Hsp as [Snx Spv _].
  apply linked_app in Hl as [L1 L2]. apply linked_cons2 in L2 as (L2 & L3 & L4).
  assert (Hhead : head_of l ≠ n) by (intros <-; apply Hn; rewrite <-E; left).
  assert (Htail : tail_of l ≠ n) by (intros <-; apply Hn; rewrite <-E; set_solver).
  pose proof (Hcut [n]) as En; simpl in En.
  assert (Hhq : head_of l ≠ q).
  { intros Hc. assert (Hin : head_of l ∈ F ++ [p]) by (rewrite <-HF; left).
    rewrite Hc in Hin. set_solver. }
  assert (Htp : tail_of l ≠ p).
  { intros Hc. assert (Hin : tail_of l ∈ q :: G) by (rewrite <-HG; set_solver).
    rewrite Hc in Hin. apply Hp. done. }
  unfold is_list. rewrite En. split; [|split; [|split; [|split]]].
  - apply linked_app. split; [|apply linked_cons2; split; [|split; [|apply linked_cons2; split; [|split]]]].
    + eapply linked_ext_l; [| |exact L1]; intros c Hc; rewrite ?Snx, ?Spv;
        repeat case_decide; set_solver.
    + rewrite Snx. repeat case_decide; set_solver.
    + rewrite Spv. repeat case_decide; set_solver.
    + rewrite Snx. repeat case_decide; set_solver.
    + rewrite Spv. repeat case_decide; set_solver.
    + eapply linked_ext_r; [| |exact L4]; intros c Hc; rewrite ?Snx, ?Spv;
        repeat case_decide; set_solver.
  - rewrite Spv. by repeat case_decide; simplify_eq.
  - rewrite Snx. by repeat case_decide; simplify_eq.
  - apply NoDup_app. split; [done|]. split; [set_solver|].
    apply NoDup_cons. split; [set_solver|]. apply NoDup_cons. split; [set_solver|].
    apply NoDup_cons. done.
  - set_solver.
Qed.

Lemma is_list_remove h h' l xs ys F p n q G :
  is_list h l (xs ++ n :: ys) → head_of l :: xs = F ++ [p] → ys ++ [tail_of l] = q :: G →
  unlinked h h' p n q →
  is_list h' l (xs ++ ys).
Proof.
  intros (Hl & Hh & Ht & Hnd & H0) HF HG Hun.
  assert (Hcut : ∀ zs, head_of l :: (xs ++ zs ++ ys) ++ [tail_of l] = F ++ p :: zs ++ q :: G).
  { intros zs. rewrite <-!app_assoc, HG, app_comm_cons, HF, <-app_assoc. done. }
  pose proof (Hcut [n]) as E; simpl in E. rewrite E in *.
  apply NoDup_app in Hnd as (HF1 & HF2 & HF3). apply NoDup_cons in HF3 as [Hp HF3].
  apply NoDup_cons in HF3 as [Hn HF3]. apply NoDup_cons in HF3 as [Hq HG1].
  destruct Hun as [Unx Upv _].
  apply linked_app in Hl as [L1 L2]. apply linked_cons2 in L2 as (L2 & L3 & L4).
  apply linked_cons2 in L4 as (L4 & L5 & L6).
  assert (Hhd : head_of l ∈ F ++ [p]) by (rewrite <-HF; left).
  assert (Htl : tail_of l ∈ q :: G) by (rewrite <-HG; set_solver).
  pose proof (Hcut []) as En; simpl in En.
  unfold is_list. rewrite En. split; [|split; [|split; [|split]]].
  - apply linked_app. split; [|apply linked_cons2; split; [|split]].
    + eapply linked_ext_l; [| |exact L1]; intros c Hc; rewrite ?Unx, ?Upv;
        repeat case_decide; set_solver.
    + rewrite Unx. repeat case_decide; set_solver.
    + rewrite Upv. repeat case_decide; set_solver.
    + eapply linked_ext_r; [| |exact L6]; intros c Hc; rewrite ?Unx, ?Upv;
        repeat case_decide; set_solver.
  - rewrite Upv. repeat case_decide; set_solver.
  - rewrite Unx. repeat case_decide; set_solver.
  - apply NoDup_app. split; [done|]. split; [set_solver|].
    apply NoDup_cons. split; [set_solver|]. apply NoDup_cons. done.
  - set_solver.
Qed.

(** ** The traversals *)

Lemma linked_is_Some h ys c : (2 <= length ys)%nat → linked h ys → c ∈ ys → is_Some (h !! c).
Proof.
  induction ys as [|a ys IH]; intros Hlen Hl Hc; [set_solver|].
  destruct ys as [|b ys]; [simpl in Hlen; lia|]. destruct Hl as (E1 & E2 & E3).
  apply elem_of_cons in Hc as [->|Hc]; [eauto using nx_is_Some|].
  destruct ys as [|d ys].
  - apply list_elem_of_singleton in Hc as ->. eauto using pv_is_Some.
  - apply IH; [simpl; lia|done|done].
Qed.

Lemma linked_size h ys :
  (2 <= length ys)%nat → linked h ys → NoDup ys → (length ys <= size h)%nat.
Proof.
  intros Hlen Hl Hnd. rewrite <-(size_list_to_set (C := gset Z) ys) by done.
  rewrite <-size_dom. apply subseteq_size. intros c Hc.
  apply elem_of_list_to_set in Hc. apply elem_of_dom.
  eapply linked_is_Some; eauto.
Qed.

Lemma is_list_size h l xs : is_list h l xs → (length xs < size h)%nat.
Proof.
  intros (Hl & _ & _ & Hnd & _).
  apply linked_size in Hl; [|rewrite length_cons, length_app; simpl; lia|done].
  rewrite length_cons, length_app in Hl. simpl in Hl. lia.
Qed.

Lemma is_list_first h l xs :
  is_list h l xs → nx h (head_of l) = Some (default (tail_of l) (head xs)).
Proof. intros (Hl & _). destruct xs; apply Hl. Qed.

(** What every traversal sees: from [p] on, the nodes [xs] and then the tail. *)
Lemma search_loop_spec h t node xs p fuel :
  linked h (p :: xs ++ [t]) → t ∉ xs → (length xs < fuel)%nat →
  search_loop fuel t node (default t (head xs)) h = Ok (bool_decide (node ∈ xs), h).
Proof.
  revert p fuel. induction xs as [|x xs IH]; intros p fuel Hl Ht Hf;
    (destruct fuel as [|fuel]; [simpl in Hf; lia|]); simpl.
  - by rewrite Z.eqb_refl.
  - destruct Hl as (_ & _ & Hl).
    destruct (Z.eqb_spec x t) as [->|_]; [set_solver|].
    destruct (Z.eqb_spec x node) as [->|Hne].
    + by rewrite bool_decide_eq_true_2 by left.
    + assert (Hx : nx h x = Some (default t (head xs))).
      { destruct xs as [|y xs]; apply Hl. }
      rewrite (st_bind_eq _ _ _ _ _ (get_next_Ok _ _ _ Hx)).
      rewrite (IH x) by first [done | simpl in Hf; lia | set_solver].
      f_equal. f_equal. apply bool_decide_ext. set_solver.
Qed.

Lemma size_loop_spec h t xs p fuel n :
  linked h (p :: xs ++ [t]) → t ∉ xs → (length xs < fuel)%nat →
  size_loop fuel t (default t (head xs)) (u32 n) h = Ok (u32 (n + Z.of_nat (length xs)), h).
Proof.
  revert p fuel n. induction xs as [|x xs IH]; intros p fuel n Hl Ht Hf;
    (destruct fuel as [|fuel]; [simpl in Hf; lia|]); simpl.
  - rewrite Z.eqb_refl. by rewrite Z.add_0_r.
  - destruct Hl as (_ & _ & Hl).
    destruct (Z.eqb_spec x t) as [->|_]; [set_solver|].
    assert (Hx : nx h x = Some (default t (head xs))).
    { destruct xs as [|y xs]; apply Hl. }
    rewrite (st_bind_eq _ _ _ _ _ (get_next_Ok _ _ _ Hx)).
    rewrite u32_add_l, (IH x) by first [done | simpl in Hf; lia | set_solver].
    f_equal. f_equal. f_equal. lia.
Qed.

Lemma sort_loop_spec h key n t xs p fuel :
  linked h (p :: xs ++ [t]) → t ∉ xs → (length xs < fuel)%nat →
  ∃ xs1 xs2, xs = xs1 ++ xs2 ∧ AList.insert_sort key n xs = xs1 ++ n :: xs2 ∧
    sort_loop fuel key t (key n) (default t (head xs)) h = Ok (default t (head xs2), h).
Proof.
  revert p fuel. induction xs as [|x xs IH]; intros p fuel Hl Ht Hf;
    (destruct fuel as [|fuel]; [simpl in Hf; lia|]); simpl.
  - exists [], []. by rewrite Z.eqb_refl.
  - destruct Hl as (_ & _ & Hl). apply not_elem_of_cons in Ht as [Htx Ht].
    destruct (Z.eqb_spec x t) as [->|_]; [done|].
    destruct (key n <? key x); [by exists [], (x :: xs)|].
    assert (Hx : nx h x = Some (default t (head xs))).
    { destruct xs as [|y xs]; apply Hl. }
    rewrite (st_bind_eq _ _ _ _ _ (get_next_Ok _ _ _ Hx)).
    destruct (IH x fuel) as (xs1 & xs2 & -> & -> & ->); [done|done|simpl in Hf; lia|].
    by exists (x :: xs1), xs2.
Qed.

(** ** Facts about the abstract list *)

Lemma insert_sort_Permutation {A} (key : A → Z) x xs :
  AList.insert_sort key x xs ≡ₚ x :: xs.
Proof.
  induction xs as [|y xs IH]; simpl; [done|].
  destruct (key x <? key y); [done|]. rewrite IH. apply Permutation_swap.
Qed.

Lemma insert_sort_Sorted {A} (key : A → Z) x xs :
  Sorted (λ a b, key a <= key b) xs →
  Sorted (λ a b, key a <= key b) (AList.insert_sort key x xs).
Proof.
  induction 1 as [|y xs Hs IH Hhd]; simpl; [by repeat constructor|].
  destruct (Z.ltb_spec (key x) (key y)).
  - constructor; [by constructor|]. constructor. lia.
  - constructor; [done|]. destruct xs as [|z xs]; simpl; [by constructor; lia|].
    inversion Hhd; subst. destruct (key x <? key z); constructor; lia.
Qed.

Lemma remove_middle {A} `{EqDecision A} (n : A) xs ys :
  n ∉ xs → AList.remove n (xs ++ n :: ys) = xs ++ ys.
Proof.
  induction xs as [|x xs IH]; intros Hn; simpl; [by rewrite decide_True|].
  apply not_elem_of_cons in Hn as [Hne Hn]. rewrite decide_False by done.
  by rewrite IH.
Qed.

(** ** The store outside a list

    [frame_of h h' l xs n]: only the list's own cells and [n] were written. *)
Definition frame_of (h h' : nheap) (l : Z) (xs : list Z) (n : Z) : Prop :=
  ∀ c, c ≠ n → c ∉ head_of l :: xs ++ [tail_of l] → h' !! c = h !! c.

(** A node that can be put into the list [xs] at [l]. *)
Definition fresh (h : nheap) (l n : Z) (xs : list Z) : Prop :=
  is_Some (h !! n) ∧ n ≠ NULL ∧ n ∉ head_of l :: xs ++ [tail_of l].

Lemma is_list_tail_notin h l xs : is_list h l xs → tail_of l ∉ xs.
Proof.
  intros (_ & _ & _ & Hnd & _) Hin. apply NoDup_cons in Hnd as [_ Hnd].
  apply NoDup_app in Hnd as (_ & Hd & _). apply (Hd _ Hin). left.
Qed.

Lemma is_list_cut h l xs ys F p q G :
  is_list h l (xs ++ ys) → head_of l :: xs = F ++ [p] → ys ++ [tail_of l] = q :: G →
  nx h p = Some q ∧ pv h q = Some p ∧
  p ∈ head_of l :: (xs ++ ys) ++ [tail_of l] ∧ q ∈ head_of l :: (xs ++ ys) ++ [tail_of l].
Proof.
  intros (Hl & _) HF HG.
  assert (E : head_of l :: (xs ++ ys) ++ [tail_of l] = F ++ p :: q :: G).
  { rewrite <-app_assoc, HG, app_comm_cons, HF, <-app_assoc. done. }
  rewrite E in *. apply linked_app in Hl as [_ Hl]. destruct Hl as (? & ? & _).
  split; [done|]. split; [done|]. split; apply elem_of_app; right; [left|].
  right. left.
Qed.

(** Inserting before the first cell of [ys]. *)
Lemma insert_before_list h l n xs ys :
  is_list h l (xs ++ ys) → fresh h l n (xs ++ ys) →
  ∃ h', list_insert_before (default (tail_of l) (head ys)) n h = Ok ((), h') ∧
        is_list h' l (xs ++ n :: ys) ∧ frame_of h h' l (xs ++ ys) n.
Proof.
  intros Hl (Hn & Hn0 & Hf).
  destruct (cut_cells (head_of l) xs ys (tail_of l)) as (F & p & q & G & HF & HG & _).
  destruct (is_list_cut _ _ _ _ _ _ _ _ Hl HF HG) as (Hp & Hq & Ip & Iq).
  assert (Hd : default (tail_of l) (head ys) = q) by (destruct ys; simplify_eq/=; done).
  destruct (insert_before_spliced h p n q) as (h' & E & Hs); [done|done|done| | |].
  1,2: intros ->; done.
  exists h'. rewrite Hd. split; [done|]. split; [by eapply is_list_insert|].
  intros c Hcn Hc. apply Hs; try done; intros ->; done.
Qed.

Lemma list_search_spec h l n xs :
  is_list h l xs → list_search l n h = Ok (bool_decide (n ∈ xs), h).
Proof.
  intros Hl. unfold list_search. erewrite st_bind_eq by done.
  rewrite (st_bind_eq _ _ _ _ _ (get_next_Ok _ _ _ (is_list_first _ _ _ Hl))).
  eapply search_loop_spec; [apply Hl|by eapply is_list_tail_notin|].
  pose proof (is_list_size _ _ _ Hl). lia.
Qed.

(** ** The contract of list.c *)

(** [list_push] of a fresh node puts it first; pushing a node that is already
    in the list stops at the assertion, so a node is never linked twice. *)
Theorem list_push_refines h l n xs :
  is_list h l xs →
  (n ∈ xs → list_push l n h = Stop Panic) ∧
  (fresh h l n xs →
   ∃ h', list_push l n h = Ok ((), h') ∧ is_list h' l (n :: xs) ∧ frame_of h h' l xs n).
Proof.
  intros Hl. unfold list_push. rewrite (st_bind_eq _ _ _ _ _ (list_search_spec h l n xs Hl)).
  split; [intros Hin; by rewrite bool_decide_eq_true_2|].
  intros (Hn & Hn0 & Hf). rewrite bool_decide_eq_false_2 by set_solver.
  rewrite (st_bind_eq (sassert _) _ h () h) by done.
  destruct (cut_cells (head_of l) [] xs (tail_of l)) as (F & p & q & G & HF & HG & _).
  destruct (is_list_cut h l [] xs _ _ _ _ Hl HF HG) as (Hp & Hq & Ip & Iq).
  assert (Ep : head_of l = p) by (destruct F as [|? [|]]; by simplify_eq/=).
  rewrite Ep. destruct (insert_after_spliced h p n q) as (h' & E & Hs); [done|done|done| | |].
  1,2: intros ->; done.
  exists h'. split; [done|]. split; [by eapply (is_list_insert h h' l [] xs)|].
  intros c Hcn Hc. apply Hs; try done; intros ->; done.
Qed.

(** [list_pushback] of a fresh node puts it last. *)
Theorem list_pushback_refines h l n xs :
  is_list h l xs → fresh h l n xs →
  ∃ h', list_pushback l n h = Ok ((), h') ∧ is_list h' l (xs ++ [n]) ∧ frame_of h h' l xs n.
Proof.
  intros Hl Hf. unfold list_pushback.
  rewrite (st_bind_eq _ _ _ _ _ (list_search_spec h l n xs Hl)).
  rewrite bool_decide_eq_false_2 by (destruct Hf as (_ & _ & Hf); set_solver).
  rewrite (st_bind_eq (sassert _) _ h () h) by done.
  pose proof (insert_before_list h l n xs []) as H. rewrite app_nil_r in H. by apply H.
Qed.

(** [list_insert_sort] keeps the nodes and the order of [AList.insert_sort]:
    a list ordered by the key stays ordered, an equal key goes after the nodes
    that were there before, and no node is lost. *)
Theorem list_insert_sort_refines h key l n xs :
  is_list h l xs → fresh h l n xs → h !! n = Some (Node NULL NULL) →
  Sorted (λ a b, key a <= key b) xs →
  ∃ h', list_insert_sort key l n h = Ok ((), h') ∧
        is_list h' l (AList.insert_sort key n xs) ∧
        frame_of h h' l xs n ∧
        Sorted (λ a b, key a <= key b) (AList.insert_sort key n xs) ∧
        AList.insert_sort key n xs ≡ₚ n :: xs.
Proof.
  intros Hl Hf Hn HS. unfold list_insert_sort. erewrite st_bind_eq by done.
  rewrite (st_bind_eq _ _ _ _ _ (get_next_Ok _ _ _ (is_list_first _ _ _ Hl))).
  destruct (sort_loop_spec h key n (tail_of l) xs (head_of l) (S (size h)))
    as (xs1 & xs2 & -> & Hi & E); [apply Hl|by eapply is_list_tail_notin| |].
  { pose proof (is_list_size _ _ _ Hl). lia. }
  rewrite (st_bind_eq _ _ _ _ _ E).
  assert (Hx : nx h n = Some NULL ∧ pv h n = Some NULL) by (unfold nx, pv; by rewrite Hn).
  rewrite (st_bind_eq _ _ _ _ _ (get_next_Ok _ _ _ (proj1 Hx))).
  rewrite (st_bind_eq (sassert _) _ h () h) by done.
  rewrite (st_bind_eq _ _ _ _ _ (get_prev_Ok _ _ _ (proj2 Hx))).
  rewrite (st_bind_eq (sassert _) _ h () h) by done.
  destruct (insert_before_list h l n xs1 xs2 Hl Hf) as (h' & E' & Hl' & Hfr).
  exists h'. rewrite E', Hi. split; [done|]. split; [done|]. split; [done|].
  rewrite <-Hi. split; [by apply insert_sort_Sorted|apply insert_sort_Permutation].
Qed.

Lemma remove_list h l n xs ys :
  is_list h l (xs ++ n :: ys) →
  ∃ h', list_remove n h = Ok ((), h') ∧ is_list h' l (xs ++ ys) ∧
        h' !! n = Some (Node NULL NULL) ∧ frame_of h h' l (xs ++ n :: ys) n.
Proof.
  intros Hl.
  destruct (cut_cells (head_of l) xs ys (tail_of l)) as (F & p & q & G & HF & HG & _).
  assert (E : head_of l :: (xs ++ n :: ys) ++ [tail_of l] = F ++ p :: n :: q :: G).
  { rewrite <-app_assoc. simpl. rewrite HG, app_comm_cons, HF, <-app_assoc. done. }
  pose proof Hl as (L & _ & _ & Hnd & H0). rewrite E in L, Hnd, H0.
  apply linked_app in L as [_ L]. destruct L as (L1 & L2 & L3 & L4 & _).
  apply NoDup_app in Hnd as (_ & _ & Hnd).
  apply NoDup_cons in Hnd as [Hp Hnd]. apply NoDup_cons in Hnd as [Hq _].
  destruct (remove_unlinked h p n q) as (h' & E' & Hu); eauto using nx_is_Some, pv_is_Some.
  1,2: intros ->; set_solver. 1-3: intros ->; set_solver.
  exists h'. split; [done|]. split; [by eapply is_list_remove|]. split.
  - pose proof (un_nx _ _ _ _ _ Hu n) as Hx. pose proof (un_pv _ _ _ _ _ Hu n) as Hy.
    rewrite decide_True in Hx, Hy by done. unfold nx, pv in Hx, Hy.
    destruct (h' !! n) as [[]|]; by simplify_eq/=.
  - intros c Hcn Hc. rewrite E in Hc. apply Hu; set_solver.
Qed.

(** [list_remove] of a member unlinks exactly that node and clears its two
    pointers. *)
Theorem list_remove_refines h l n xs :
  is_list h l xs → n ∈ xs →
  ∃ h', list_remove n h = Ok ((), h') ∧ is_list h' l (AList.remove n xs) ∧
        h' !! n = Some (Node NULL NULL) ∧ frame_of h h' l xs n.
Proof.
  intros Hl Hin. apply list_elem_of_split in Hin as (xs1 & xs2 & ->).
  pose proof Hl as (_ & _ & _ & Hnd & _).
  rewrite remove_middle; [by apply remove_list|].
  apply NoDup_cons in Hnd as [_ Hnd]. rewrite <-app_assoc in Hnd.
  apply NoDup_app in Hnd as (_ & Hd & _). intros Hi. apply (Hd _ Hi). left.
Qed.

Lemma list_empty_spec h l xs :
  is_list h l xs → list_empty l h = Ok (bool_decide (xs = []), h).
Proof.
  intros Hl. unfold list_empty.
  rewrite (st_bind_eq _ _ _ _ _ (get_next_Ok _ _ _ (is_list_first _ _ _ Hl))).
  unfold mret, st_ret. f_equal. f_equal.
  destruct xs as [|x xs]; simpl; [by rewrite Z.eqb_refl|].
  apply Z.eqb_neq. intros ->. apply (is_list_tail_notin _ _ _ Hl). left.
Qed.

(** [list_pop] takes the first node, [list_popback] the last one, each leaves
    the rest in order, and both stop at the assertion on an empty list. *)
Theorem list_pop_refines h l xs :
  is_list h l xs →
  match xs with
  | [] => list_pop l h = Stop Panic ∧ list_popback l h = Stop Panic
  | x :: ys =>
      (∃ h', list_pop l h = Ok (x, h') ∧ is_list h' l ys ∧ frame_of h h' l xs x) ∧
      (∃ zs z h', xs = zs ++ [z] ∧ list_popback l h = Ok (z, h') ∧
                  is_list h' l zs ∧ frame_of h h' l xs z)
  end.
Proof.
  intros Hl. unfold list_pop, list_popback.
  rewrite !(st_bind_eq _ _ _ _ _ (list_empty_spec h l xs Hl)).
  destruct xs as [|x ys]; [done|]. rewrite bool_decide_eq_false_2 by done.
  rewrite !(st_bind_eq (sassert _) _ h () h) by done. split.
  - rewrite (st_bind_eq _ _ _ _ _ (get_next_Ok _ _ _ (is_list_first _ _ _ Hl))). simpl.
    destruct (remove_list h l x [] ys Hl) as (h' & E & Hl' & _ & Hf).
    rewrite (st_bind_eq _ _ _ _ _ E). by exists h'.
  - destruct (exists_last (l := x :: ys)) as (zs & z & Ez); [done|].
    assert (Hp : pv h (tail_of l) = Some z).
    { destruct Hl as (L & _). rewrite Ez, <-app_assoc, app_comm_cons in L.
      apply linked_app in L as [_ L]. apply L. }
    rewrite (st_bind_eq _ _ _ _ _ (get_prev_Ok _ _ _ Hp)). rewrite Ez in Hl |- *.
    destruct (remove_list h l z zs [] Hl) as (h' & E & Hl' & _ & Hf).
    rewrite (st_bind_eq _ _ _ _ _ E). exists zs, z, h'. by rewrite app_nil_r in Hl'.
Qed.

(** [list_size] counts the nodes (modulo the width of [u32]) and
    [list_search] and [list_empty] decide membership and emptiness; none of them
    writes, and every traversal reaches the tail. *)
Theorem list_queries_correct h l n xs :
  is_list h l xs →
  list_search l n h = Ok (bool_decide (n ∈ xs), h) ∧
  list_empty l h = Ok (bool_decide (xs = []), h) ∧
  list_size l h = Ok (u32 (Z.of_nat (length xs)), h).
Proof.
  intros Hl. split; [by apply list_search_spec|]. split; [by apply list_empty_spec|].
  unfold list_size. erewrite st_bind_eq by done.
  rewrite (st_bind_eq _ _ _ _ _ (get_next_Ok _ _ _ (is_list_first _ _ _ Hl))).
  change 0 with (u32 0).
  eapply (size_loop_spec h (tail_of l) xs (head_of l) _ 0);
    [apply Hl|by eapply is_list_tail_notin|].
  pose proof (is_list_size _ _ _ Hl). lia.
Qed.

Lemma list_init_is_list h l :
  is_Some (h !! l) → is_Some (h !! (l + 8)) → l ≠ 0 → l + 8 ≠ 0 →
  ∃ h', list_init l h = Ok ((), h') ∧ is_list h' l [] ∧
        (∀ c, c ≠ l → c ≠ l + 8 → h' !! c = h !! c).
Proof.
  intros H1 H2 N1 N2. unfold list_init, head_of, tail_of, NULL.
  erewrite (st_bind_eq (set_prev l 0)) by (apply set_prev_Ok; live).
  erewrite (st_bind_eq (set_next (l + 8) 0)) by (apply set_next_Ok; live).
  erewrite (st_bind_eq (set_next l (l + 8))) by (apply set_next_Ok; live).
  rewrite set_prev_Ok by live.
  eexists; split; [reflexivity|]. split.
  - unfold is_list, head_of, tail_of, NULL. simpl. split; [|split; [|split; [|split]]].
    + split; [|split; [|done]]; links; try (rewrite const_is_Some by live); congruence || lia.
    + links; try (rewrite const_is_Some by live); congruence || lia.
    + links; try (rewrite const_is_Some by live); congruence || lia.
    + apply NoDup_cons. split; [intros Hi; apply list_elem_of_singleton in Hi; lia|].
      apply NoDup_singleton.
    + rewrite elem_of_cons, list_elem_of_singleton. lia.
  - intros c Hc1 Hc2.
    rewrite upd_prev_ne, upd_next_ne, upd_next_ne, upd_prev_ne by congruence. done.
Qed.

(** ** A concrete store: two lists at 100 and 200, three nodes *)

Module Demo.
Definition h0 : nheap :=
  list_to_map ((λ a, (a, Node 0 0)) <$> [100; 108; 200; 208; 300; 316; 332]).
Definition st : res (unit * nheap) :=
  (list_init 100;; list_pushback 100 300;; list_pushback 100 316) h0.
Definition heap_of (r : res (unit * nheap)) : nheap :=
  match r with Ok (_, h) => h | Stop _ => ∅ end.
Definition h1 : nheap := heap_of st.

Lemma h1_list : is_list h1 100 [300; 316].
Proof.
  split; [by vm_compute|]. split; [by vm_compute|]. split; [by vm_compute|].
  split; [by apply (bool_decide_unpack (NoDup _))|by apply (bool_decide_unpack (_ ∉ _))].
Qed.
Lemma h1_fresh : fresh h1 100 332 [300; 316].
Proof.
  split; [by eexists; vm_compute|]. split; [done|by apply (bool_decide_unpack (_ ∉ _))].
Qed.
End Demo.

Lemma list_push_refines_witness :
  is_list Demo.h1 100 [300; 316] ∧
  list_push 100 316 Demo.h1 = Stop Panic ∧
  ∃ h', list_push 100 332 Demo.h1 = Ok ((), h') ∧ is_list h' 100 [332; 300; 316].
Proof.
  split; [exact Demo.h1_list|]. split.
  - apply (list_push_refines Demo.h1 100 316 [300; 316] Demo.h1_list). right. left.
  - destruct (list_push_refines Demo.h1 100 332 [300; 316] Demo.h1_list) as [_ H].
    destruct (H Demo.h1_fresh) as (h' & E & L & _). exists h'. exact (conj E L).
Defined.

Lemma list_pushback_refines_witness :
  ∃ h', list_pushback 100 332 Demo.h1 = Ok ((), h') ∧ is_list h' 100 [300; 316; 332].
Proof.
  destruct (list_pushback_refines Demo.h1 100 332 [300; 316] Demo.h1_list Demo.h1_fresh)
    as (h' & E & L & _). exists h'. exact (conj E L).
Defined.

Lemma list_insert_sort_refines_witness :
  ∃ h', list_insert_sort (λ a, if a =? 316 then 7 else 3) 100 332 Demo.h1 = Ok ((), h') ∧
        is_list h' 100 [300; 332; 316].
Proof.
  destruct (list_insert_sort_refines Demo.h1 (λ a, if a =? 316 then 7 else 3) 100 332 [300; 316]
              Demo.h1_list Demo.h1_fresh) as (h' & E & L & _).
  - reflexivity.
  - repeat constructor; simpl; lia.
  - exists h'. exact (conj E L).
Defined.

Lemma list_remove_refines_witness :
  ∃ h', list_remove 300 Demo.h1 = Ok ((), h') ∧ is_list h' 100 [316].
Proof.
  destruct (list_remove_refines Demo.h1 100 300 [300; 316] Demo.h1_list ltac:(left))
    as (h' & E & L & _). exists h'. exact (conj E L).
Defined.

Lemma list_pop_refines_witness :
  (∃ h', list_pop 100 Demo.h1 = Ok (300, h') ∧ is_list h' 100 [316]).
Proof.
  destruct (list_pop_refines Demo.h1 100 [300; 316] Demo.h1_list) as [(h' & E & L & _) _].
  exists h'. exact (conj E L).
Defined.

Lemma list_queries_correct_witness :
  list_size 100 Demo.h1 = Ok (2, Demo.h1) ∧ list_search 100 316 Demo.h1 = Ok (true, Demo.h1).
Proof.
  destruct (list_queries_correct Demo.h1 100 316 [300; 316] Demo.h1_list) as (S & _ & N).
  by split.
Defined.
