(* ===== verification/Console.v ===== *)
(** * The text console (src/kernel/console.c)

    The display memory is a map from addresses to bytes with the bounds that
    [console_init] computes: an access outside them stops the model.  The escape
    sequence parser, the cursor arithmetic and every editing operation are
    translated; port writes and the beep are recorded as events. *)

From S2P Require Import Prelude.

(** ** Constants *)

Definition MEM_BASE : Z := 0xB8000 + 0xC0000000.
Definition MEM_SIZE : Z := 0x4000.
Definition WIDTH : Z := 80.
Definition HEIGHT : Z := 25.
Definition ROW_SIZE : Z := WIDTH * 2.
Definition ERASE : Z := 0x0720.
Definition ARG_NR : Z := 16.
Definition STYLE : Z := 7.
Definition BLINK : Z := 0x80.
Definition BOLD : Z := 0x0F.

Definition ST_NORMAL : Z := 0.
Definition ST_BOLD : Z := 1.
Definition ST_REVERSE : Z := 7.

Definition STATE_NOR : Z := 0.
Definition STATE_ESC : Z := 1.
Definition STATE_QUE : Z := 2.
Definition STATE_ARG : Z := 3.
Definition STATE_CSI : Z := 4.

Definition CRT_ADDR_REG : Z := 0x3D4.
Definition CRT_DATA_REG : Z := 0x3D5.
Definition CRT_START_ADDR_H : Z := 0xC.
Definition CRT_START_ADDR_L : Z := 0xD.
Definition CRT_CURSOR_H : Z := 0xE.
Definition CRT_CURSOR_L : Z := 0xF.

(** ** The console structure *)

Record console_t := Console {
  mem_base : Z;
  mem_size : Z;
  mem_end : Z;
  screen : Z;
  scr_size : Z;
  pos : Z;
  cx : Z;
  cy : Z;
  saved_x : Z;
  saved_y : Z;
  width : Z;
  height : Z;
  row_size : Z;
  cstate : Z;
  args : list Z;
  argc : Z;
  ques : Z;
  erase : Z;
  style : Z
}.

(** Field updates: [c->f = v]. *)
Definition set_mem_base (v : Z) (c : console_t) : console_t :=
  Console v (mem_size c) (mem_end c) (screen c) (scr_size c) (pos c) (cx c) (cy c) (saved_x c) (saved_y c) (width c) (height c) (row_size c) (cstate c) (args c) (argc c) (ques c) (erase c) (style c).
Definition set_mem_size (v : Z) (c : console_t) : console_t :=
  Console (mem_base c) v (mem_end c) (screen c) (scr_size c) (pos c) (cx c) (cy c) (saved_x c) (saved_y c) (width c) (height c) (row_size c) (cstate c) (args c) (argc c) (ques c) (erase c) (style c).
Definition set_mem_end (v : Z) (c : console_t) : console_t :=
  Console (mem_base c) (mem_size c) v (screen c) (scr_size c) (pos c) (cx c) (cy c) (saved_x c) (saved_y c) (width c) (height c) (row_size c) (cstate c) (args c) (argc c) (ques c) (erase c) (style c).
Definition set_screen (v : Z) (c : console_t) : console_t :=
  Console (mem_base c) (mem_size c) (mem_end c) v (scr_size c) (pos c) (cx c) (cy c) (saved_x c) (saved_y c) (width c) (height c) (row_size c) (cstate c) (args c) (argc c) (ques c) (erase c) (style c).
Definition set_scr_size (v : Z) (c : console_t) : console_t :=
  Console (mem_base c) (mem_size c) (mem_end c) (screen c) v (pos c) (cx c) (cy c) (saved_x c) (saved_y c) (width c) (height c) (row_size c) (cstate c) (args c) (argc c) (ques c) (erase c) (style c).
Definition set_pos (v : Z) (c : console_t) : console_t :=
  Console (mem_base c) (mem_size c) (mem_end c) (screen c) (scr_size c) v (cx c) (cy c) (saved_x c) (saved_y c) (width c) (height c) (row_size c) (cstate c) (args c) (argc c) (ques c) (erase c) (style c).
Definition set_cx (v : Z) (c : console_t) : console_t :=
  Console (mem_base c) (mem_size c) (mem_end c) (screen c) (scr_size c) (pos c) v (cy c) (saved_x c) (saved_y c) (width c) (height c) (row_size c) (cstate c) (args c) (argc c) (ques c) (erase c) (style c).
Definition set_cy (v : Z) (c : console_t) : console_t :=
  Console (mem_base c) (mem_size c) (mem_end c) (screen c) (scr_size c) (pos c) (cx c) v (saved_x c) (saved_y c) (width c) (height c) (row_size c) (cstate c) (args c) (argc c) (ques c) (erase c) (style c).
Definition set_saved_x (v : Z) (c : console_t) : console_t :=
  Console (mem_base c) (mem_size c) (mem_end c) (screen c) (scr_size c) (pos c) (cx c) (cy c) v (saved_y c) (width c) (height c) (row_size c) (cstate c) (args c) (argc c) (ques c) (erase c) (style c).
Definition set_saved_y (v : Z) (c : console_t) : console_t :=
  Console (mem_base c) (mem_size c) (mem_end c) (screen c) (scr_size c) (pos c) (cx c) (cy c) (saved_x c) v (width c) (height c) (row_size c) (cstate c) (args c) (argc c) (ques c) (erase c) (style c).
Definition set_width (v : Z) (c : console_t) : console_t :=
  Console (mem_base c) (mem_size c) (mem_end c) (screen c) (scr_size c) (pos c) (cx c) (cy c) (saved_x c) (saved_y c) v (height c) (row_size c) (cstate c) (args c) (argc c) (ques c) (erase c) (style c).
Definition set_height (v : Z) (c : console_t) : console_t :=
  Console (mem_base c) (mem_size c) (mem_end c) (screen c) (scr_size c) (pos c) (cx c) (cy c) (saved_x c) (saved_y c) (width c) v (row_size c) (cstate c) (args c) (argc c) (ques c) (erase c) (style c).
Definition set_row_size (v : Z) (c : console_t) : console_t :=
  Console (mem_base c) (mem_size c) (mem_end c) (screen c) (scr_size c) (pos c) (cx c) (cy c) (saved_x c) (saved_y c) (width c) (height c) v (cstate c) (args c) (argc c) (ques c) (erase c) (style c).
Definition set_cstate (v : Z) (c : console_t) : console_t :=
  Console (mem_base c) (mem_size c) (mem_end c) (screen c) (scr_size c) (pos c) (cx c) (cy c) (saved_x c) (saved_y c) (width c) (height c) (row_size c) v (args c) (argc c) (ques c) (erase c) (style c).
Definition set_args (v : list Z) (c : console_t) : console_t :=
  Console (mem_base c) (mem_size c) (mem_end c) (screen c) (scr_size c) (pos c) (cx c) (cy c) (saved_x c) (saved_y c) (width c) (height c) (row_size c) (cstate c) v (argc c) (ques c) (erase c) (style c).
Definition set_argc (v : Z) (c : console_t) : console_t :=
  Console (mem_base c) (mem_size c) (mem_end c) (screen c) (scr_size c) (pos c) (cx c) (cy c) (saved_x c) (saved_y c) (width c) (height c) (row_size c) (cstate c) (args c) v (ques c) (erase c) (style c).
Definition set_ques (v : Z) (c : console_t) : console_t :=
  Console (mem_base c) (mem_size c) (mem_end c) (screen c) (scr_size c) (pos c) (cx c) (cy c) (saved_x c) (saved_y c) (width c) (height c) (row_size c) (cstate c) (args c) (argc c) v (erase c) (style c).
Definition set_erase (v : Z) (c : console_t) : console_t :=
  Console (mem_base c) (mem_size c) (mem_end c) (screen c) (scr_size c) (pos c) (cx c) (cy c) (saved_x c) (saved_y c) (width c) (height c) (row_size c) (cstate c) (args c) (argc c) (ques c) v (style c).
Definition set_style (v : Z) (c : console_t) : console_t :=
  Console (mem_base c) (mem_size c) (mem_end c) (screen c) (scr_size c) (pos c) (cx c) (cy c) (saved_x c) (saved_y c) (width c) (height c) (row_size c) (cstate c) (args c) (argc c) (ques c) (erase c) v.

(** Everything a console routine can touch. *)
Inductive event := Outb (port value : Z) | Beep.

Record world := World { con : console_t; vram : gmap Z Z; events : list event; eflags_if : bool }.

Definition C := ST world.

Definition get_con : C console_t := λ w, Ok (con w, w).
Definition upd (f : console_t → console_t) : C unit :=
  λ w, Ok ((), World (f (con w)) (vram w) (events w) (eflags_if w)).
Definition emit (e : event) : C unit :=
  λ w, Ok ((), World (con w) (vram w) (events w ++ [e]) (eflags_if w)).
Definition outb (port value : Z) : C unit := emit (Outb port value).
Definition start_beep : C unit := emit Beep.

(** Display memory runs from [MEM_BASE] for [MEM_SIZE / ROW_SIZE] whole rows. *)
Definition VRAM_END : Z := MEM_BASE + (MEM_SIZE / ROW_SIZE) * ROW_SIZE.

Definition rd8 (a : Z) : C Z := λ w,
  if (MEM_BASE <=? a) && (a <? VRAM_END)
  then Ok (default 0 (vram w !! a), w) else Stop OutOfBounds.
Definition wr8 (a v : Z) : C unit := λ w,
  if (MEM_BASE <=? a) && (a <? VRAM_END)
  then Ok ((), World (con w) (<[a := u8 v]> (vram w)) (events w) (eflags_if w))
  else Stop OutOfBounds.
Definition wr16 (a v : Z) : C unit := wr8 a v;; wr8 (a + 1) (Z.shiftr v 8).
Definition rd16 (a : Z) : C Z :=
  lo ← rd8 a; hi ← rd8 (a + 1); mret (lo + Z.shiftl hi 8).

(** The byte loop of [memcpy] (lib/string.c). *)
Fixpoint copy_bytes (n : nat) (dst src : Z) : C unit :=
  match n with
  | O => mret ()
  | S n => b ← rd8 src; wr8 dst b;; copy_bytes n (dst + 1) (src + 1)
  end.

(** ** Cursor and screen registers *)

Definition set_screen_regs : C unit :=
  c ← get_con;
  outb CRT_ADDR_REG CRT_START_ADDR_H;;
  outb CRT_DATA_REG (Z.land (Z.shiftr (u32 (screen c - mem_base c)) 9) 0xff);;
  outb CRT_ADDR_REG CRT_START_ADDR_L;;
  outb CRT_DATA_REG (Z.land (Z.shiftr (u32 (screen c - mem_base c)) 1) 0xff).

Definition set_cursor : C unit :=
  c ← get_con;
  outb CRT_ADDR_REG CRT_CURSOR_H;;
  outb CRT_DATA_REG (Z.land (Z.shiftr (u32 (pos c - mem_base c)) 9) 0xff);;
  outb CRT_ADDR_REG CRT_CURSOR_L;;
  outb CRT_DATA_REG (Z.land (Z.shiftr (u32 (pos c - mem_base c)) 1) 0xff).

Definition set_xy (x y : Z) : C unit :=
  c ← get_con;
  if (width c <? x) || (height c <=? y) then mret ()
  else upd (λ c, set_pos (u32 (screen c + y * row_size c + Z.shiftl x 1))
                   (set_cy y (set_cx x c))).

Definition save_cursor : C unit :=
  upd (λ c, set_saved_y (cy c) (set_saved_x (cx c) c)).

(** [erase_screen]: [count] cells from [start]. *)
Fixpoint erase_loop (n : nat) (start : Z) : C unit :=
  match n with
  | O => mret ()
  | S n => c ← get_con; wr16 start (erase c);; erase_loop n (start + 2)
  end.

Definition erase_screen (start count : Z) : C unit := erase_loop (Z.to_nat count) start.

Definition console_clear : C unit :=
  upd (λ c, set_cy 0 (set_cx 0 (set_pos (mem_base c) (set_screen (mem_base c) c))));;
  set_cursor;;
  set_screen_regs;;
  c ← get_con;
  erase_screen (mem_base c) (Z.shiftr (mem_size c) 1).

Definition scroll_up : C unit :=
  c ← get_con;
  (if mem_end c <=? u32 (screen c + scr_size c + row_size c) then
     copy_bytes (Z.to_nat (scr_size c)) (mem_base c) (screen c);;
     upd (λ c, set_pos (u32 (pos c - (screen c - mem_base c))) c);;
     upd (λ c, set_screen (mem_base c) c)
   else mret ());;
  c ← get_con;
  erase_screen (u32 (screen c + scr_size c)) (width c);;
  upd (λ c, set_screen (u32 (screen c + row_size c)) c);;
  upd (λ c, set_pos (u32 (pos c + row_size c)) c);;
  set_screen_regs.

Definition scroll_down : C unit :=
  upd (λ c, set_screen (u32 (screen c - row_size c)) c);;
  c ← get_con;
  (if screen c <? mem_base c then upd (λ c, set_screen (mem_base c) c) else mret ());;
  set_screen_regs.

Definition lf : C unit :=
  c ← get_con;
  if u32 (cy c + 1) <? height c then
    upd (λ c, set_pos (u32 (pos c + row_size c)) (set_cy (u32 (cy c + 1)) c))
  else scroll_up.

Definition cr : C unit :=
  upd (λ c, set_cx 0 (set_pos (u32 (pos c - Z.shiftl (cx c) 1)) c)).

Definition tab : C unit :=
  c ← get_con;
  let offset := 8 - Z.land (cx c) 7 in
  upd (λ c, set_pos (u32 (pos c + Z.shiftl offset 1)) (set_cx (u32 (cx c + offset)) c));;
  c ← get_con;
  if width c <=? cx c then
    upd (λ c, set_pos (u32 (pos c - row_size c)) (set_cx (u32 (cx c - width c)) c));;
    lf
  else mret ().

Definition bs : C unit :=
  c ← get_con;
  if cx c =? 0 then mret ()
  else
    upd (λ c, set_pos (u32 (pos c - 2)) (set_cx (u32 (cx c - 1)) c));;
    c ← get_con;
    wr16 (pos c) (erase c).

Definition del : C unit := c ← get_con; wr16 (pos c) (erase c).

Definition chr (ch : Z) : C unit :=
  c ← get_con;
  (if width c <=? cx c then
     upd (λ c, set_pos (u32 (pos c - row_size c)) (set_cx (u32 (cx c - width c)) c));;
     lf
   else mret ());;
  c ← get_con;
  wr8 (pos c) ch;;
  upd (λ c, set_pos (u32 (pos c + 1)) c);;
  c ← get_con;
  wr8 (pos c) (style c);;
  upd (λ c, set_pos (u32 (pos c + 1)) c);;
  upd (λ c, set_cx (u32 (cx c + 1)) c).

(** ** The parser states *)

Definition state_normal (ch : Z) : C unit :=
  if ch =? 0x00 then mret ()
  else if ch =? 0x07 then start_beep
  else if ch =? 0x08 then bs
  else if ch =? 0x09 then tab
  else if ch =? 0x0A then lf;; cr
  else if (ch =? 0x0B) || (ch =? 0x0C) then lf
  else if ch =? 0x0D then cr
  else if ch =? 0x7F then del
  else if ch =? 0x1B then upd (set_cstate STATE_ESC)
  else chr ch.

Definition state_esc (ch : Z) : C unit :=
  if ch =? 91 (* '[' *) then upd (set_cstate STATE_QUE)
  else if ch =? 69 (* 'E' *) then lf;; cr
  else if ch =? 77 (* 'M' *) then mret ()
  else if ch =? 68 (* 'D' *) then lf
  else if ch =? 90 (* 'Z' *) then mret ()
  else if ch =? 55 (* '7' *) then save_cursor
  else if ch =? 56 (* '8' *) then c ← get_con; set_xy (saved_x c) (saved_y c)
  else mret ().

(** [args[i]] of the fixed array of [ARG_NR] words. *)
Definition get_arg (i : Z) : C Z := c ← get_con; lift_st (zget (args c) i).
Definition put_arg (i v : Z) : C unit :=
  c ← get_con; a ← lift_st (zset (args c) i (u32 v)); upd (set_args a).

Definition state_arg (ch : Z) : C bool :=
  c ← get_con;
  if ARG_NR <=? argc c then mret false
  else if ch =? 59 (* ';' *) then
    upd (λ c, set_argc (u32 (argc c + 1)) c);; mret false
  else if (48 <=? ch) && (ch <=? 57) then
    a ← get_arg (argc c);
    put_arg (argc c) (a * 10 + ch - 48);;
    mret false
  else
    upd (λ c, set_argc (u32 (argc c + 1)) c);;
    upd (set_cstate STATE_CSI);;
    mret true.

Definition csi_J : C unit :=
  a ← get_arg 0;
  c ← get_con;
  if a =? 0 then
    erase_screen (pos c) (Z.shiftr (u32 (screen c + scr_size c - pos c)) 1)
  else if a =? 1 then
    erase_screen (screen c) (Z.shiftr (u32 (pos c - screen c)) 1)
  else if a =? 2 then
    erase_screen (screen c) (Z.shiftr (scr_size c) 1)
  else mret ().

Definition csi_K : C unit :=
  a ← get_arg 0;
  c ← get_con;
  if a =? 0 then erase_screen (pos c) (u32 (width c - cx c))
  else if a =? 1 then erase_screen (u32 (pos c - Z.shiftl (cx c) 1)) (cx c)
  else if a =? 2 then erase_screen (u32 (pos c - Z.shiftl (cx c) 1)) (width c)
  else mret ().

(** The loop of [insert_line]; the display has fewer than [fuel] rows. *)
Fixpoint insert_line_loop (fuel : nat) (i start : Z) : C unit :=
  match fuel with
  | O => stop_st NoFuel
  | S fuel =>
      c ← get_con;
      let src := u32 (mem_end c - i * row_size c) in
      if src <? start then mret ()
      else
        copy_bytes (Z.to_nat (row_size c)) (src + row_size c) src;;
        insert_line_loop fuel (i + 1) start
  end.

Definition line_fuel : nat := 128.

Definition insert_line : C unit :=
  c ← get_con;
  insert_line_loop line_fuel 2 (u32 (screen c + cy c * row_size c));;
  c ← get_con;
  erase_screen (u32 (screen c + cy c * row_size c)) (width c).

(** The argument of csi_L, csi_M, csi_P and csi_at: at most [height], at least 1. *)
Definition repeat_count (a h : Z) : Z := if h <? a then h else if a =? 0 then 1 else a.

Fixpoint repeat_st (n : nat) (m : C unit) : C unit :=
  match n with O => mret () | S n => m;; repeat_st n m end.

Definition csi_L : C unit :=
  a ← get_arg 0; c ← get_con;
  repeat_st (Z.to_nat (repeat_count a (height c))) insert_line.

(** [delete_line]: [start] is a [u16*], so that [start + i * row_size] is
    [2 * i * row_size] bytes further. *)
Fixpoint delete_line_loop (fuel : nat) (i start : Z) : C unit :=
  match fuel with
  | O => stop_st NoFuel
  | S fuel =>
      c ← get_con;
      let src := u32 (start + 2 * (i * row_size c)) in
      if mem_end c <=? src then mret ()
      else
        copy_bytes (Z.to_nat (row_size c)) (src - row_size c) src;;
        delete_line_loop fuel (i + 1) start
  end.

Definition delete_line : C unit :=
  c ← get_con;
  delete_line_loop line_fuel 1 (u32 (screen c + cy c * row_size c));;
  c ← get_con;
  erase_screen (u32 (mem_end c - row_size c)) (width c).

Definition csi_M : C unit :=
  a ← get_arg 0; c ← get_con;
  repeat_st (Z.to_nat (repeat_count a (height c))) delete_line.

(** [while (++i < width)]: the cells right of the cursor move left by one. *)
Fixpoint delete_char_loop (n : nat) (ptr : Z) : C Z :=
  match n with
  | O => mret ptr
  | S n => v ← rd16 (ptr + 2); wr16 ptr v;; delete_char_loop n (ptr + 2)
  end.

Definition delete_char : C unit :=
  c ← get_con;
  ptr ← delete_char_loop (Z.to_nat (width c - u16 (cx c) - 1)) (pos c);
  c ← get_con;
  wr16 ptr (erase c).

Definition csi_P : C unit :=
  a ← get_arg 0; c ← get_con;
  repeat_st (Z.to_nat (repeat_count a (height c))) delete_char.

(** [while (ptr > con->ptr)]: the cells from the cursor on move right by one. *)
Fixpoint insert_char_loop (fuel : nat) (ptr cur : Z) : C unit :=
  match fuel with
  | O => stop_st NoFuel
  | S fuel =>
      if cur <? ptr then
        v ← rd16 (ptr - 2); wr16 ptr v;; insert_char_loop fuel (ptr - 2) cur
      else mret ()
  end.

(** The last statement writes one byte, the low half of the erase cell. *)
Definition insert_char : C unit :=
  c ← get_con;
  insert_char_loop line_fuel (u32 (pos c + 2 * u32 (width c - cx c - 1))) (pos c);;
  wr8 (pos c) (erase c).

Definition csi_at : C unit :=
  a ← get_arg 0; c ← get_con;
  repeat_st (Z.to_nat (repeat_count a (height c))) insert_char.

(** One parameter of [csi_m]. *)
Definition style_of (a s : Z) : Z :=
  if a =? ST_NORMAL then STYLE
  else if a =? ST_BOLD then BOLD
  else if a =? BLINK then u8 (Z.lor s BLINK)
  else if a =? ST_REVERSE then u8 (Z.lor (Z.shiftr s 4) (Z.shiftl s 4))
  else if (30 <=? a) && (a <=? 37) then u8 (Z.lor (Z.land s 0xF8) (a - 30))
  else if (40 <=? a) && (a <=? 47) then u8 (Z.lor (Z.land s 0x8F) (Z.shiftl (a - 40) 4))
  else s.

Fixpoint csi_m_loop (n : nat) (i : Z) : C unit :=
  match n with
  | O => mret ()
  | S n =>
      a ← get_arg i;
      upd (λ c, set_style (style_of a (style c)) c);;
      csi_m_loop n (i + 1)
  end.

Definition csi_m : C unit :=
  upd (set_style 0);;
  c ← get_con;
  csi_m_loop (Z.to_nat (argc c)) 0;;
  upd (λ c, set_erase (u16 (Z.lor (Z.shiftl (style c) 8) 0x20)) c).

(** [if (args[i]) args[i]--] and [if (!args[i]) args[i]++]. *)
Definition arg_dec (i : Z) : C Z :=
  a ← get_arg i;
  if a =? 0 then mret 0 else put_arg i (a - 1);; mret (u32 (a - 1)).
Definition arg_one (i : Z) : C Z :=
  a ← get_arg i;
  if a =? 0 then put_arg i 1;; mret 1 else mret a.

Definition state_csi (ch : Z) : C unit :=
  upd (set_cstate STATE_NOR);;
  c ← get_con;
  if (ch =? 71) || (ch =? 96) (* 'G' '`' *) then
    a ← arg_dec 0; set_xy a (cy c)
  else if ch =? 65 (* 'A' *) then
    a ← arg_one 0; set_xy (cx c) (u32 (cy c - a))
  else if (ch =? 66) || (ch =? 101) (* 'B' 'e' *) then
    a ← arg_one 0; set_xy (cx c) (u32 (cy c + a))
  else if (ch =? 67) || (ch =? 97) (* 'C' 'a' *) then
    a ← arg_one 0; set_xy (u32 (cx c + a)) (cy c)
  else if ch =? 68 (* 'D' *) then
    a ← arg_one 0; set_xy (u32 (cx c - a)) (cy c)
  else if ch =? 69 (* 'E' *) then
    a ← arg_one 0; set_xy 0 (u32 (cy c + a))
  else if ch =? 70 (* 'F' *) then
    a ← arg_one 0; set_xy 0 (u32 (cy c - a))
  else if ch =? 100 (* 'd' *) then
    a ← arg_dec 0; set_xy (cx c) a
  else if (ch =? 72) || (ch =? 102) (* 'H' 'f' *) then
    a ← arg_dec 0; b ← arg_dec 1; set_xy b a
  else if ch =? 74 (* 'J' *) then csi_J
  else if ch =? 75 (* 'K' *) then csi_K
  else if ch =? 76 (* 'L' *) then csi_L
  else if ch =? 77 (* 'M' *) then csi_M
  else if ch =? 80 (* 'P' *) then csi_P
  else if ch =? 64 (* '@' *) then csi_at
  else if ch =? 109 (* 'm' *) then csi_m
  else if ch =? 114 (* 'r' *) then mret ()
  else if ch =? 115 (* 's', falls through to 'u' *) then
    save_cursor;; c ← get_con; set_xy (saved_x c) (saved_y c)
  else if ch =? 117 (* 'u' *) then set_xy (saved_x c) (saved_y c)
  else mret ().

(** ** Writing *)

(** The switch of [console_write] on one character, with its fall-throughs. *)
Definition console_char (ch : Z) : C unit :=
  c ← get_con;
  let arg_then_csi := b ← state_arg ch; if (b : bool) then state_csi ch else mret () in
  if cstate c =? STATE_NOR then state_normal ch
  else if cstate c =? STATE_ESC then state_esc ch
  else if cstate c =? STATE_QUE then
    upd (set_args (replicate 16 0));;
    upd (set_argc 0);;
    upd (set_cstate STATE_ARG);;
    upd (set_ques (if ch =? 63 then 1 else 0));;
    if ch =? 63 then mret () else arg_then_csi
  else if cstate c =? STATE_ARG then arg_then_csi
  else if cstate c =? STATE_CSI then state_csi ch
  else mret ().

Fixpoint write_loop (buf : list Z) : C unit :=
  match buf with [] => mret () | ch :: buf => console_char ch;; write_loop buf end.

Definition interrupt_disable : C bool := λ w,
  Ok (eflags_if w, World (con w) (vram w) (events w) false).
Definition set_interrupt_state (b : bool) : C unit := λ w,
  Ok ((), World (con w) (vram w) (events w) b).

(** [console_write(con, buf, count)] with the [count] characters of [buf] (a [char]
    is signed, so a byte above 127 is negative).  The counter has been advanced
    once more than it was tested true. *)
Definition console_write (buf : list Z) : C Z :=
  intr ← interrupt_disable;
  write_loop buf;;
  set_cursor;;
  set_interrupt_state intr;;
  mret (s32 (Z.of_nat (length buf) + 1)).

(** [console_init], up to the registration of the device. *)
Definition console_init : C unit :=
  upd (set_mem_base MEM_BASE);;
  upd (set_mem_size ((MEM_SIZE / ROW_SIZE) * ROW_SIZE));;
  upd (λ c, set_mem_end (mem_base c + mem_size c) c);;
  upd (set_width WIDTH);;
  upd (set_height HEIGHT);;
  upd (λ c, set_row_size (width c * 2) c);;
  upd (λ c, set_scr_size (width c * height c * 2) c);;
  upd (set_erase ERASE);;
  upd (set_style STYLE);;
  console_clear.

(** ** The invariant *)

(** The geometry [console_init] computes, the cursor inside the screen (column 80
    is the position after the last cell) and inside display memory, the position
    word equal to what row and column say, and the parameter array in bounds. *)
Record good (c : console_t) : Prop := {
  g_base : mem_base c = MEM_BASE;
  g_size : mem_size c = 16320;
  g_end : mem_end c = VRAM_END;
  g_scr : scr_size c = 4000;
  g_width : width c = 80;
  g_height : height c = 25;
  g_row : row_size c = 160;
  g_screen : ∃ k, screen c = MEM_BASE + 160 * k ∧ 0 <= k <= 76;
  g_x : 0 <= cx c <= 80;
  g_y : 0 <= cy c < 25;
  g_pos : pos c = screen c + 160 * cy c + 2 * cx c;
  g_saved : 0 <= saved_x c ∧ 0 <= saved_y c;
  g_args : length (args c) = 16%nat ∧ Forall (λ a, 0 <= a) (args c);
  g_argc : 0 <= argc c <= 16
}.

(** ** A calculus for the console part of the state

    [runs c m Q]: started on the console [c], whatever display memory holds, [m]
    returns and its result and final console satisfy [Q]. *)
Definition runs {A} (c : console_t) (m : C A) (Q : A → console_t → Prop) : Prop :=
  ∀ w, con w = c → ∃ a w', m w = Ok (a, w') ∧ Q a (con w') ∧ eflags_if w' = eflags_if w.

Lemma runs_bind {A B} c (m : C A) (f : A → C B) Q :
  runs c m (λ a c', runs c' (f a) Q) → runs c (a ← m; f a) Q.
Proof.
  intros H w Hw. destruct (H w Hw) as (a & w1 & E & H1 & F1).
  destruct (H1 w1 eq_refl) as (b & w2 & E2 & H2 & F2).
  exists b, w2. split; [|split; [done|congruence]].
  rewrite (st_bind_eq _ _ _ _ _ E). done.
Qed.

Lemma runs_conseq {A} c (m : C A) (Q Q' : A → console_t → Prop) :
  runs c m Q → (∀ a c', Q a c' → Q' a c') → runs c m Q'.
Proof. intros H HQ w Hw. destruct (H w Hw) as (a & w' & E & H1 & F). exists a, w'. auto. Qed.

Lemma runs_mret {A} c (a : A) (Q : A → console_t → Prop) : Q a c → runs c (mret a) Q.
Proof. intros H w <-. by exists a, w. Qed.

Lemma runs_get c (Q : console_t → console_t → Prop) : Q c c → runs c get_con Q.
Proof. intros H w <-. by exists (con w), w. Qed.

Lemma runs_upd f c (Q : unit → console_t → Prop) : Q () (f c) → runs c (upd f) Q.
Proof. intros H w <-. by eexists _, _. Qed.

Lemma runs_emit e c (Q : unit → console_t → Prop) : Q () c → runs c (emit e) Q.
Proof. intros H w <-. by eexists _, _. Qed.

Lemma in_vram a :
  MEM_BASE <= a < VRAM_END → (MEM_BASE <=? a) && (a <? VRAM_END) = true.
Proof. intros. apply andb_true_iff. rewrite Z.leb_le, Z.ltb_lt. lia. Qed.

Lemma runs_wr8 a v c (Q : unit → console_t → Prop) :
  MEM_BASE <= a < VRAM_END → Q () c → runs c (wr8 a v) Q.
Proof. intros Ha H w <-. unfold wr8. rewrite in_vram by done. by eexists _, _. Qed.

Lemma runs_rd8 a c (Q : Z → console_t → Prop) :
  MEM_BASE <= a < VRAM_END → (∀ b, Q b c) → runs c (rd8 a) Q.
Proof. intros Ha H w <-. unfold rd8. rewrite in_vram by done. by eexists _, _. Qed.

Lemma runs_wr16 a v c (Q : unit → console_t → Prop) :
  MEM_BASE <= a → a + 1 < VRAM_END → Q () c → runs c (wr16 a v) Q.
Proof.
  intros ? ? HQ. apply runs_bind, runs_wr8; [lia|]. apply runs_wr8; [lia|done].
Qed.

Lemma runs_rd16 a c (Q : Z → console_t → Prop) :
  MEM_BASE <= a → a + 1 < VRAM_END → (∀ b, Q b c) → runs c (rd16 a) Q.
Proof.
  intros ? ? HQ. apply runs_bind, runs_rd8; [lia|]. intros lo.
  apply runs_bind, runs_rd8; [lia|]. intros hi. by apply runs_mret.
Qed.

Lemma runs_copy n dst src c (Q : unit → console_t → Prop) :
  MEM_BASE <= dst → dst + Z.of_nat n <= VRAM_END →
  MEM_BASE <= src → src + Z.of_nat n <= VRAM_END →
  Q () c → runs c (copy_bytes n dst src) Q.
Proof.
  revert dst src. induction n as [|n IH]; intros dst src D1 D2 S1 S2 HQ; simpl.
  - by apply runs_mret.
  - apply runs_bind, runs_rd8; [lia|]. intros b.
    apply runs_bind, runs_wr8; [lia|]. apply IH; lia || done.
Qed.

Lemma runs_erase_loop n start c (Q : unit → console_t → Prop) :
  MEM_BASE <= start → start + 2 * Z.of_nat n <= VRAM_END →
  Q () c → runs c (erase_loop n start) Q.
Proof.
  revert start. induction n as [|n IH]; intros start S1 S2 HQ; simpl.
  - by apply runs_mret.
  - apply runs_bind, runs_get. apply runs_bind, runs_wr16; [lia..|].
    apply IH; lia || done.
Qed.

Lemma runs_erase start count c (Q : unit → console_t → Prop) :
  MEM_BASE <= start → start + 2 * Z.max 0 count <= VRAM_END →
  Q () c → runs c (erase_screen start count) Q.
Proof. intros. apply runs_erase_loop; lia || done. Qed.

(** Straight-line console code: open the next statement. *)
Ltac crun :=
  repeat lazymatch goal with
  | |- runs _ (mbind _ _) _ => apply runs_bind
  | |- runs _ get_con _ => apply runs_get
  | |- runs _ (upd _) _ => apply runs_upd
  | |- runs _ (emit _) _ => apply runs_emit
  | |- runs _ (outb _ _) _ => apply runs_emit
  | |- runs _ start_beep _ => apply runs_emit
  | |- runs _ (mret _) _ => apply runs_mret
  end.

Lemma runs_screen_regs c (Q : unit → console_t → Prop) : Q () c → runs c set_screen_regs Q.
Proof. intros. unfold set_screen_regs, outb. crun. done. Qed.

Lemma runs_cursor c (Q : unit → console_t → Prop) : Q () c → runs c set_cursor Q.
Proof. intros. unfold set_cursor, outb. crun. done. Qed.

Lemma runs_if {A} c (b : bool) (m1 m2 : C A) Q :
  (b = true → runs c m1 Q) → (b = false → runs c m2 Q) → runs c (if b then m1 else m2) Q.
Proof. destruct b; auto. Qed.

(** Values of the constants, for [lia]. *)
Lemma MEM_BASE_val : MEM_BASE = 3221979136.
Proof. reflexivity. Qed.
Lemma VRAM_END_val : VRAM_END = 3221995456.
Proof. reflexivity. Qed.

(** Open the invariant of the console in the context. *)
Ltac open_good H :=
  let k := fresh "k" in let Hk := fresh "Hk" in
  pose proof H as [?Hbase ?Hsize ?Hend ?Hscr ?Hwidth ?Hheight ?Hrow
                   (k & ?Hscreen & Hk) ?Hx ?Hy ?Hpos ?Hsaved ?Hargs ?Hargc].

(** Remove the wrap-around of the words that are in range, innermost first. *)
Ltac u32s :=
  repeat match goal with
  | |- context [u32 ?x] =>
      lazymatch x with
      | context [u32 _] => fail
      | _ => rewrite (u32_small x) by (rewrite ?MEM_BASE_val, ?VRAM_END_val in *; lia)
      end
  end.

(** Address bounds. *)
Ltac addr :=
  rewrite ?MEM_BASE_val, ?VRAM_END_val in *; first [lia | Z.to_euclidean_division_equations; lia].

(** [good] of an explicitly updated console, field by field. *)
Ltac close_good :=
  split; cbn -[u32 Z.mul Z.add Z.sub MEM_BASE VRAM_END Z.of_nat length];
  u32s;
  first [ done | lia | eexists; split; [reflexivity|lia] | eauto | idtac ].

Definition keeps {A} (m : C A) : Prop := ∀ c, good c → runs c m (λ _ c', good c').

Lemma keeps_set_xy x y : 0 <= x → 0 <= y → keeps (set_xy x y).
Proof.
  intros Hx0 Hy0 c Hg. unfold set_xy. crun. open_good Hg.
  destruct (Z.ltb_spec (width c) x), (Z.leb_spec (height c) y); simpl; crun; try done.
  rewrite Hrow, Hscreen, Z.shiftl_mul_pow2 by lia.
  close_good.
Qed.

Lemma keeps_save_cursor : keeps save_cursor.
Proof. intros c Hg. unfold save_cursor. crun. open_good Hg. close_good. Qed.

Lemma keeps_scroll_up c :
  good c → cy c = 24 → runs c scroll_up (λ _ c', good c' ∧ cx c' = cx c).
Proof.
  intros Hg Hlast. unfold scroll_up. crun. open_good Hg.
  rewrite Hscr, Hrow, Hend, Hscreen, Hbase.
  rewrite u32_small by (rewrite MEM_BASE_val; lia).
  destruct (Z.leb_spec VRAM_END (MEM_BASE + 160 * k + 4000 + 160)) as [Hw|Hw];
    rewrite MEM_BASE_val, VRAM_END_val in Hw; crun.
  - apply runs_copy; try addr. crun. simpl.
    rewrite Hwidth, Hscr, Hbase.
    rewrite (u32_small (MEM_BASE + 4000)) by (rewrite MEM_BASE_val; lia).
    apply runs_erase; try addr. crun.
    apply runs_screen_regs. simpl. rewrite Hrow, Hpos, Hscreen.
    split; [close_good; exists 1; lia|done].
  - rewrite Hwidth, Hscr, Hscreen.
    rewrite (u32_small (MEM_BASE + 160 * k + 4000)) by (rewrite MEM_BASE_val; lia).
    apply runs_erase; try addr. crun.
    apply runs_screen_regs. simpl. rewrite Hrow, Hpos, Hscreen.
    split; [close_good; exists (k + 1); lia|done].
Qed.

Lemma runs_lf c : good c → runs c lf (λ _ c', good c' ∧ cx c' = cx c).
Proof.
  intros Hg. unfold lf. crun. open_good Hg. rewrite Hheight, u32_small by lia.
  destruct (Z.ltb_spec (cy c + 1) 25); crun.
  - rewrite Hrow, Hpos, Hscreen. split; [close_good|done].
  - apply keeps_scroll_up; [done|lia].
Qed.

Lemma keeps_lf : keeps lf.
Proof. intros c Hg. eapply runs_conseq; [by apply runs_lf|]. by intros ? ? [? _]. Qed.

Lemma keeps_cr : keeps cr.
Proof.
  intros c Hg. unfold cr. crun. open_good Hg.
  rewrite Hpos, Hscreen, Z.shiftl_mul_pow2 by lia. close_good.
Qed.

(** Wrapping to the next row when the column has passed the right edge. *)
Lemma runs_wrap c Q :
  good (set_pos (pos c - row_size c) (set_cx (cx c - width c) c)) →
  pos c - row_size c >= MEM_BASE → pos c < VRAM_END → 80 <= cx c < 100 → width c = 80 → row_size c = 160 →
  (∀ c', good c' → cx c' = cx c - 80 → Q () c') →
  runs c (upd (λ c, set_pos (u32 (pos c - row_size c)) (set_cx (u32 (cx c - width c)) c));; lf) Q.
Proof.
  intros Hg H1 H2 H3 H4 H5 HQ. crun. u32s.
  eapply runs_conseq; [by apply runs_lf|]. intros [] c' [Hc' Hx]. apply HQ; [done|].
  rewrite Hx. simpl. lia.
Qed.

Lemma land7_mod x : Z.land x 7 = x mod 8.
Proof. change 7 with (Z.ones 3). by rewrite Z.land_ones by lia. Qed.

Lemma land7 x : 0 <= Z.land x 7 <= 7.
Proof. rewrite land7_mod. pose proof (Z.mod_pos_bound x 8). lia. Qed.

Lemma keeps_tab : keeps tab.
Proof.
  intros c Hg. unfold tab. crun. open_good Hg. simpl.
  assert (H7 : 0 <= Z.land (cx c) 7 <= 7) by apply land7.
  assert (Hm : Z.land (cx c) 7 = cx c mod 8) by apply land7_mod.
  rewrite Z.shiftl_mul_pow2 by lia. rewrite Hpos, Hscreen, Hwidth.
  generalize dependent (Z.land (cx c) 7); intros o H7 Hm. u32s.
  destruct (Z.leb_spec 80 (cx c + (8 - o))).
  - apply runs_wrap; simpl; try addr; [|done].
    rewrite Hwidth, Hrow. close_good.
  - crun. close_good.
Qed.

Lemma keeps_bs : keeps bs.
Proof.
  intros c Hg. unfold bs. crun. open_good Hg.
  destruct (Z.eqb_spec (cx c) 0); crun; [done|]. simpl. rewrite Hpos, Hscreen.
  rewrite !u32_small by (rewrite ?MEM_BASE_val; lia).
  apply runs_wr16; try addr. close_good.
Qed.

Lemma keeps_del : keeps del.
Proof.
  intros c Hg. unfold del. crun. open_good Hg. rewrite Hpos, Hscreen.
  apply runs_wr16; try addr. done.
Qed.

(** Two bytes of one cell, then the cursor one cell further. *)
Lemma runs_put_cell c ch :
  good c → cx c < 80 →
  runs c (c ← get_con; wr8 (pos c) ch;; upd (λ c, set_pos (u32 (pos c + 1)) c);;
          c ← get_con; wr8 (pos c) (style c);; upd (λ c, set_pos (u32 (pos c + 1)) c);;
          upd (λ c, set_cx (u32 (cx c + 1)) c))
    (λ _ c', good c').
Proof.
  intros Hg Hlt. open_good Hg. crun.
  apply runs_wr8; [rewrite Hpos, Hscreen; addr|]. crun. simpl.
  rewrite Hpos, Hscreen. u32s.
  apply runs_wr8; [addr|]. crun. close_good.
Qed.

Lemma keeps_chr ch : keeps (chr ch).
Proof.
  intros c Hg. unfold chr. apply runs_bind, runs_get. open_good Hg. apply runs_bind.
  rewrite Hwidth. destruct (Z.leb_spec 80 (cx c)).
  - apply runs_wrap; try (rewrite ?Hpos, ?Hrow, ?Hscreen; addr).
    + rewrite Hpos, Hrow, Hwidth, Hscreen. close_good.
    + intros c' Hc' Hx'. apply runs_put_cell; [done|lia].
  - apply runs_mret. by apply runs_put_cell.
Qed.

(** ** The parser keeps the invariant *)

Lemma keeps_bind {A B} (m : C A) (f : A → C B) :
  keeps m → (∀ a, keeps (f a)) → keeps (a ← m; f a).
Proof.
  intros Hm Hf c Hg. apply runs_bind. eapply runs_conseq; [by apply Hm|].
  intros a c' Hc'. by apply Hf.
Qed.

Lemma keeps_mret {A} (a : A) : keeps (mret a).
Proof. intros c Hg. by apply runs_mret. Qed.

Lemma keeps_get {A} (f : console_t → C A) :
  (∀ c, good c → runs c (f c) (λ _ c', good c')) → keeps (c ← get_con; f c).
Proof. intros H c Hg. apply runs_bind, runs_get. by apply H. Qed.

Lemma keeps_emit e : keeps (emit e).
Proof. intros c Hg. by apply runs_emit. Qed.

Lemma keeps_upd f : (∀ c, good c → good (f c)) → keeps (upd f).
Proof. intros H c Hg. apply runs_upd. by apply H. Qed.

(** The fields the geometry does not depend on. *)
Lemma good_set_cstate v c : good c → good (set_cstate v c).
Proof. intros Hg. open_good Hg. close_good. Qed.
Lemma good_set_ques v c : good c → good (set_ques v c).
Proof. intros Hg. open_good Hg. close_good. Qed.
Lemma good_set_style v c : good c → good (set_style v c).
Proof. intros Hg. open_good Hg. close_good. Qed.
Lemma good_set_erase v c : good c → good (set_erase v c).
Proof. intros Hg. open_good Hg. close_good. Qed.

Lemma good_set_argc v c : 0 <= v <= 16 → good c → good (set_argc v c).
Proof. intros Hv Hg. open_good Hg. close_good. Qed.
Lemma good_set_args v c :
  length v = 16%nat → Forall (λ a, 0 <= a) v → good c → good (set_args v c).
Proof. intros ? ? Hg. open_good Hg. close_good. Qed.

#[local] Hint Resolve good_set_cstate good_set_ques good_set_style good_set_erase : core.
#[local] Hint Resolve keeps_lf keeps_cr keeps_tab keeps_bs keeps_del keeps_chr keeps_mret
  keeps_emit keeps_save_cursor : core.

Lemma keeps_if {A} (b : bool) (m1 m2 : C A) :
  keeps m1 → keeps m2 → keeps (if b then m1 else m2).
Proof. by destruct b. Qed.

(** Decompose a routine that branches and sequences routines that keep [good]. *)
Ltac kstep :=
  repeat first [ progress auto | lazymatch goal with
  | |- keeps (if _ then _ else _) => apply keeps_if
  | |- keeps get_con => intros ? ?; apply runs_get
  | |- keeps (mbind _ _) => apply keeps_bind; [|intros ?]
  | |- keeps (upd _) => apply keeps_upd; intros ? ?
  end ].

Lemma keeps_state_normal ch : keeps (state_normal ch).
Proof. unfold state_normal, start_beep. kstep. Qed.

Lemma keeps_restore : keeps (c ← get_con; set_xy (saved_x c) (saved_y c)).
Proof. apply keeps_get. intros c Hg. apply keeps_set_xy; [| |done]; by apply g_saved. Qed.
#[local] Hint Resolve keeps_restore : core.

Lemma keeps_state_esc ch : keeps (state_esc ch).
Proof. unfold state_esc. kstep. Qed.

Lemma runs_get_arg c i Q :
  good c → 0 <= i < 16 → (∀ a, 0 <= a → Q a c) → runs c (get_arg i) Q.
Proof.
  intros Hg Hi HQ. unfold get_arg. apply runs_bind, runs_get.
  destruct (g_args _ Hg) as [Hl Hf].
  destruct (zget_is_Ok (args c) i) as (a & E & Hlk); [lia|].
  intros w <-. exists a, w. unfold lift_st. rewrite E. split; [done|]. split; [|done].
  apply HQ. by eapply (proj1 (Forall_lookup _ _)) in Hlk.
Qed.

Lemma runs_put_arg c i v Q :
  good c → 0 <= i < 16 → (∀ c', good c' → Q () c') → runs c (put_arg i v) Q.
Proof.
  intros Hg Hi HQ. unfold put_arg. apply runs_bind, runs_get.
  destruct (g_args _ Hg) as [Hl Hf]. rewrite zset_Ok by lia.
  apply runs_bind. intros w <-. exists (<[Z.to_nat i:=u32 v]> (args (con w))), w.
  split; [done|]. split; [|done]. apply runs_upd, HQ, good_set_args; [|..|done].
  - by rewrite length_insert.
  - apply Forall_insert; [done|]. apply u32_range.
Qed.

Lemma runs_arg_dec c i Q :
  good c → 0 <= i < 16 → (∀ a c', 0 <= a → good c' → Q a c') → runs c (arg_dec i) Q.
Proof.
  intros Hg Hi HQ. unfold arg_dec. apply runs_bind, runs_get_arg; [done..|].
  intros a Ha. destruct (a =? 0).
  - apply runs_mret. by apply HQ.
  - apply runs_bind, runs_put_arg; [done..|]. intros c' Hc'. apply runs_mret.
    apply HQ; [apply u32_range|done].
Qed.

Lemma runs_arg_one c i Q :
  good c → 0 <= i < 16 → (∀ a c', 0 <= a → good c' → Q a c') → runs c (arg_one i) Q.
Proof.
  intros Hg Hi HQ. unfold arg_one. apply runs_bind, runs_get_arg; [done..|].
  intros a Ha. destruct (a =? 0).
  - apply runs_bind, runs_put_arg; [done..|]. intros c' Hc'. apply runs_mret.
    by apply HQ.
  - apply runs_mret. by apply HQ.
Qed.

Lemma keeps_state_arg ch : keeps (state_arg ch).
Proof.
  intros c Hg. unfold state_arg. pose proof (g_argc _ Hg) as Hn.
  apply runs_bind, runs_get. unfold ARG_NR.
  destruct (Z.leb_spec 16 (argc c)); [by apply runs_mret|].
  destruct (ch =? 59); [|destruct ((48 <=? ch) && (ch <=? 57))].
  - crun. apply good_set_argc; [|done]. rewrite u32_small; lia.
  - apply runs_bind, runs_get_arg; [done|lia|]. intros a _.
    apply runs_bind, runs_put_arg; [done|lia|]. intros c' Hc'. by apply runs_mret.
  - crun. apply good_set_cstate, good_set_argc; [|done]. rewrite u32_small; lia.
Qed.

(** Repetition. *)
Lemma keeps_repeat n m : keeps m → keeps (repeat_st n m).
Proof. intros Hm. induction n as [|n IH]; simpl; [apply keeps_mret|]. by apply keeps_bind. Qed.

Lemma keeps_get_arg0 {A} (f : Z → C A) :
  (∀ a, keeps (f a)) → keeps (a ← get_arg 0; f a).
Proof. intros Hf. apply keeps_bind; [|done]. intros c Hg. by apply runs_get_arg. Qed.

Lemma keeps_csi_J : keeps csi_J.
Proof.
  apply keeps_get_arg0. intros a. apply keeps_get. intros c Hg. open_good Hg.
  rewrite Hscr, Hpos, Hscreen. u32s. rewrite !Z.shiftr_div_pow2 by lia. change (2 ^ 1) with 2.
  repeat (apply runs_if; intros _); first [apply runs_mret; done | apply runs_erase; [addr..|done]].
Qed.

Lemma keeps_csi_K : keeps csi_K.
Proof.
  apply keeps_get_arg0. intros a. apply keeps_get. intros c Hg. open_good Hg.
  rewrite Hwidth, Hpos, Hscreen, Z.shiftl_mul_pow2 by lia. u32s.
  repeat (apply runs_if; intros _); first [apply runs_mret; done | apply runs_erase; [addr..|done]].
Qed.

Lemma runs_insert_line_loop c fuel i start m Q :
  good c → start = MEM_BASE + 160 * m → 0 <= m → 2 <= i <= 103 → 110 <= i + Z.of_nat fuel →
  Q () c → runs c (insert_line_loop fuel i start) Q.
Proof.
  intros Hg Hstart Hm. revert i. induction fuel as [|fuel IH]; intros i Hi Hf HQ; [lia|].
  cbn [insert_line_loop]. apply runs_bind, runs_get. open_good Hg.
  rewrite Hend, Hrow, Hstart. u32s.
  destruct (Z.ltb_spec (VRAM_END - i * 160) (MEM_BASE + 160 * m)); [by apply runs_mret|].
  rewrite MEM_BASE_val, VRAM_END_val in *.
  apply runs_bind, runs_copy; [addr..|]. rewrite <- Hstart. apply IH; [lia..|done].
Qed.

Lemma runs_delete_line_loop c fuel i start m Q :
  good c → start = MEM_BASE + 160 * m → 0 <= m < 102 → 1 <= i <= 52 → 110 <= i + Z.of_nat fuel →
  Q () c → runs c (delete_line_loop fuel i start) Q.
Proof.
  intros Hg Hstart Hm. revert i. induction fuel as [|fuel IH]; intros i Hi Hf HQ; [lia|].
  cbn [delete_line_loop]. apply runs_bind, runs_get. open_good Hg.
  rewrite Hend, Hrow, Hstart. u32s.
  destruct (Z.leb_spec VRAM_END (MEM_BASE + 160 * m + 2 * (i * 160))); [by apply runs_mret|].
  rewrite MEM_BASE_val, VRAM_END_val in *.
  apply runs_bind, runs_copy; [addr..|]. rewrite <- Hstart. apply IH; [lia..|done].
Qed.

Lemma keeps_insert_line : keeps insert_line.
Proof.
  apply keeps_get. intros c Hg. open_good Hg. rewrite Hscreen, Hrow. u32s.
  apply runs_bind. unfold line_fuel. eapply (runs_insert_line_loop c _ _ _ (k + cy c)); [done|lia..|].
  apply runs_bind, runs_get. rewrite Hscreen, Hrow, Hwidth. u32s.
  apply runs_erase; [addr..|done].
Qed.

Lemma keeps_delete_line : keeps delete_line.
Proof.
  apply keeps_get. intros c Hg. open_good Hg. rewrite Hscreen, Hrow. u32s.
  apply runs_bind. unfold line_fuel. eapply (runs_delete_line_loop c _ _ _ (k + cy c)); [done|lia..|].
  apply runs_bind, runs_get. rewrite Hend, Hrow, Hwidth. u32s.
  apply runs_erase; [addr..|done].
Qed.

Lemma runs_delete_char_loop c n ptr Q :
  MEM_BASE <= ptr → ptr + 2 * Z.of_nat n + 1 < VRAM_END →
  Q (ptr + 2 * Z.of_nat n) c → runs c (delete_char_loop n ptr) Q.
Proof.
  revert ptr. induction n as [|n IH]; intros ptr H1 H2 HQ; cbn [delete_char_loop].
  - apply runs_mret. by replace (ptr + 2 * Z.of_nat 0) with ptr in HQ by lia.
  - apply runs_bind, runs_rd16; [lia..|]. intros v. apply runs_bind, runs_wr16; [lia..|].
    apply IH; [lia..|]. by replace (ptr + 2 + 2 * Z.of_nat n) with (ptr + 2 * Z.of_nat (S n)) by lia.
Qed.

Lemma keeps_delete_char : keeps delete_char.
Proof.
  apply keeps_get. intros c Hg. open_good Hg. rewrite Hpos, Hscreen, Hwidth, u16_small by lia.
  apply runs_bind, runs_delete_char_loop; [addr..|].
  apply runs_bind, runs_get, runs_wr16; [addr..|done].
Qed.

Lemma runs_insert_char_loop c fuel cur ptr n Q :
  ptr = cur + 2 * n → -1 <= n → Z.max 0 n < Z.of_nat fuel → MEM_BASE <= cur → cur + 2 * n + 1 < VRAM_END →
  Q () c → runs c (insert_char_loop fuel ptr cur) Q.
Proof.
  revert ptr n. induction fuel as [|fuel IH]; intros ptr n -> Hn Hm H1 H2 HQ; cbn [insert_char_loop].
  - lia.
  - destruct (Z.ltb_spec cur (cur + 2 * n)); [|by apply runs_mret].
    apply runs_bind, runs_rd16; [lia..|]. intros v. apply runs_bind, runs_wr16; [lia..|].
    apply (IH _ (n - 1)); [lia..|done].
Qed.

Lemma keeps_insert_char : keeps insert_char.
Proof.
  apply keeps_get. intros c Hg. open_good Hg. rewrite Hpos, Hscreen, Hwidth.
  apply runs_bind, (runs_insert_char_loop _ _ _ _ (80 - cx c - 1)).
  - unfold u32. rewrite MEM_BASE_val. Z.to_euclidean_division_equations; lia.
  - lia.
  - unfold line_fuel. lia.
  - addr.
  - addr.
  - apply runs_wr8; [addr|done].
Qed.

Lemma keeps_repeat_csi (m : C unit) :
  keeps m →
  keeps (a ← get_arg 0; c ← get_con; repeat_st (Z.to_nat (repeat_count a (height c))) m).
Proof.
  intros Hm. apply keeps_get_arg0. intros a. apply keeps_get. intros c Hg.
  by apply keeps_repeat.
Qed.

Lemma keeps_csi_m_loop n i c :
  good c → 0 <= i → i + Z.of_nat n <= 16 → runs c (csi_m_loop n i) (λ _ c', good c').
Proof.
  revert i c. induction n as [|n IH]; intros i c Hg Hi Hn; cbn [csi_m_loop].
  - by apply runs_mret.
  - apply runs_bind, runs_get_arg; [done|lia|]. intros a _. apply runs_bind, runs_upd.
    apply IH; [by apply good_set_style|lia..].
Qed.

Lemma keeps_csi_m : keeps csi_m.
Proof.
  intros c Hg. unfold csi_m. apply runs_bind, runs_upd, runs_bind, runs_get.
  pose proof (g_argc _ Hg) as Hn. cbn [argc set_style].
  apply runs_bind. eapply runs_conseq.
  - apply keeps_csi_m_loop; [by apply good_set_style|lia..].
  - intros ? c' Hc'. by apply runs_upd, good_set_erase.
Qed.

#[local] Hint Resolve keeps_csi_J keeps_csi_K keeps_csi_m keeps_repeat_csi
  keeps_insert_line keeps_delete_line keeps_delete_char keeps_insert_char : core.

(** A cursor motion by the first parameter. *)
Lemma keeps_move_dec i (fx fy : console_t → Z → Z) c :
  good c → 0 <= i < 16 →
  (∀ a, 0 <= a → 0 <= fx c a ∧ 0 <= fy c a) →
  runs c (a ← arg_dec i; set_xy (fx c a) (fy c a)) (λ _ c', good c').
Proof.
  intros Hg Hi Hf. apply runs_bind, runs_arg_dec; [done..|].
  intros a c' Ha Hc'. destruct (Hf a Ha). by apply keeps_set_xy.
Qed.

Lemma keeps_move_one i (fx fy : console_t → Z → Z) c :
  good c → 0 <= i < 16 →
  (∀ a, 0 <= a → 0 <= fx c a ∧ 0 <= fy c a) →
  runs c (a ← arg_one i; set_xy (fx c a) (fy c a)) (λ _ c', good c').
Proof.
  intros Hg Hi Hf. apply runs_bind, runs_arg_one; [done..|].
  intros a c' Ha Hc'. destruct (Hf a Ha). by apply keeps_set_xy.
Qed.

Lemma keeps_state_csi ch : keeps (state_csi ch).
Proof.
  apply keeps_bind; [apply keeps_upd; auto|]. intros []. apply keeps_get. intros c Hg.
  pose proof (g_x _ Hg) as Hx. pose proof (g_y _ Hg) as Hy.
  apply runs_if; intros _; [apply (keeps_move_dec 0 (λ _ a, a) (λ c _, cy c)); [done|lia|lia]|].
  apply runs_if; intros _; [apply (keeps_move_one 0 (λ c _, cx c) (λ c a, u32 (cy c - a))); [done|lia|split; [lia|apply u32_range]]|].
  apply runs_if; intros _; [apply (keeps_move_one 0 (λ c _, cx c) (λ c a, u32 (cy c + a))); [done|lia|split; [lia|apply u32_range]]|].
  apply runs_if; intros _; [apply (keeps_move_one 0 (λ c a, u32 (cx c + a)) (λ c _, cy c)); [done|lia|split; [apply u32_range|lia]]|].
  apply runs_if; intros _; [apply (keeps_move_one 0 (λ c a, u32 (cx c - a)) (λ c _, cy c)); [done|lia|split; [apply u32_range|lia]]|].
  apply runs_if; intros _; [apply (keeps_move_one 0 (λ _ _, 0) (λ c a, u32 (cy c + a))); [done|lia|split; [lia|apply u32_range]]|].
  apply runs_if; intros _; [apply (keeps_move_one 0 (λ _ _, 0) (λ c a, u32 (cy c - a))); [done|lia|split; [lia|apply u32_range]]|].
  apply runs_if; intros _; [apply (keeps_move_dec 0 (λ c _, cx c) (λ _ a, a)); [done|lia|lia]|].
  apply runs_if; intros _.
  { apply runs_bind, runs_arg_dec; [done|lia|]. intros a c1 Ha Hc1.
    apply runs_bind, runs_arg_dec; [done|lia|]. intros b c2 Hb Hc2. by apply keeps_set_xy. }
  apply runs_if; intros _; [by apply keeps_csi_J|].
  apply runs_if; intros _; [by apply keeps_csi_K|].
  do 4 (apply runs_if; intros _; [by apply keeps_repeat_csi; auto|]).
  apply runs_if; intros _; [by apply keeps_csi_m|].
  apply runs_if; intros _; [by apply runs_mret|].
  apply runs_if; intros _.
  { apply runs_bind. eapply runs_conseq; [by apply keeps_save_cursor|].
    intros ? c' Hc'. by apply keeps_restore. }
  apply runs_if; intros _; [|by apply runs_mret].
  apply keeps_set_xy; [apply (g_saved _ Hg)..|done].
Qed.

#[local] Hint Resolve keeps_state_normal keeps_state_esc keeps_state_arg keeps_state_csi : core.

Lemma keeps_console_char ch : keeps (console_char ch).
Proof.
  unfold console_char. kstep.
  - apply good_set_args; [done| |done]. by apply Forall_replicate.
  - apply good_set_argc; [lia|done].
Qed.

Lemma keeps_write_loop buf : keeps (write_loop buf).
Proof.
  induction buf as [|ch buf IH]; simpl; [apply keeps_mret|].
  apply keeps_bind; [apply keeps_console_char|done].
Qed.

Lemma console_write_Ok w buf :
  good (con w) →
  ∃ w', console_write buf w = Ok (s32 (Z.of_nat (length buf) + 1), w') ∧
        good (con w') ∧ eflags_if w' = eflags_if w.
Proof.
  intros Hg. unfold console_write.
  set (w0 := World (con w) (vram w) (events w) false).
  destruct (keeps_write_loop buf (con w) Hg w0 eq_refl) as ([] & w1 & E1 & H1 & F1).
  destruct (runs_cursor (con w1) (λ _ c, c = con w1) eq_refl w1 eq_refl) as ([] & w2 & E2 & H2 & F2).
  exists (World (con w2) (vram w2) (events w2) (eflags_if w)).
  split; [|split; [cbn; by rewrite H2|done]].
  rewrite (st_bind_eq _ _ w (eflags_if w) w0) by done.
  rewrite (st_bind_eq _ _ w0 () w1) by done.
  by rewrite (st_bind_eq _ _ w1 () w2) by done.
Qed.

(** C20. [console_write] is safe for every byte sequence: from a console whose
    cursor and geometry are consistent, whatever was written before and whatever
    escape sequences the text holds (complete, cut off, nested, with arguments of
    any size), the call returns - no access leaves display memory and no loop runs
    away -, the console is consistent again, the interrupt flag is what it was, and
    the result is one more than the number of characters. *)
Theorem console_write_safe w buf :
  good (con w) →
  ∃ w', console_write buf w = Ok (s32 (Z.of_nat (length buf) + 1), w') ∧
        good (con w') ∧ eflags_if w' = eflags_if w.
Proof. exact (console_write_Ok w buf). Qed.

(** ** Initialisation *)

(** The zeroed static structure and arbitrary display memory. *)
Definition console_zero : console_t :=
  Console 0 0 0 0 0 0 0 0 0 0 0 0 0 0 (replicate 16 0) 0 0 0 0.

(** [console_init] run on the zeroed structure returns with a consistent
    console in the normal state, the cursor at the origin of the first row, style
    and erase cell set - so that every later [console_write] is safe. *)
Theorem console_init_good v ev b :
  ∃ w', console_init (World console_zero v ev b) = Ok ((), w') ∧
        good (con w') ∧ cstate (con w') = STATE_NOR ∧ pos (con w') = MEM_BASE ∧
        style (con w') = STYLE ∧ erase (con w') = ERASE.
Proof.
  assert (R : runs console_zero console_init (λ _ c,
    good c ∧ cstate c = STATE_NOR ∧ pos c = MEM_BASE ∧ style c = STYLE ∧ erase c = ERASE)).
  { unfold console_init, console_clear. crun. apply runs_cursor.
    apply runs_bind, runs_screen_regs. crun.
    apply runs_erase; [by apply Z.leb_le..|].
    split_and!; try done. split; try done; cbn; try lia.
    - exists 0. lia.
    - split; [done|]. repeat constructor; lia. }
  destruct (R (World console_zero v ev b) eq_refl) as ([] & w' & E & H & _).
  exists w'. exact (conj E H).
Qed.

(** ** Plain text *)

(** Characters the normal state does not interpret. *)
Definition plain (ch : Z) : bool :=
  negb ((ch =? 0) || (ch =? 7) || (ch =? 8) || (ch =? 9) || (ch =? 10) || (ch =? 11) ||
        (ch =? 12) || (ch =? 13) || (ch =? 127) || (ch =? 27)).

(** Character and style bytes of consecutive cells from address [a]. *)
Fixpoint put_text (a st : Z) (s : list Z) (m : gmap Z Z) : gmap Z Z :=
  match s with
  | [] => m
  | ch :: s => put_text (a + 2) st s (<[a + 1 := u8 st]> (<[a := u8 ch]> m))
  end.

Lemma state_normal_plain ch : plain ch = true → state_normal ch = chr ch.
Proof.
  unfold plain, state_normal. rewrite negb_true_iff, !orb_false_iff.
  intros (((((((((H0 & H7) & H8) & H9) & H10) & H11) & H12) & H13) & H127) & H27).
  by rewrite H0, H7, H8, H9, H10, H11, H12, H13, H127, H27.
Qed.

(** The console after [n] cells of the current row have been written. *)
Definition advance (n : Z) (c : console_t) : console_t :=
  set_cx (cx c + n) (set_pos (pos c + 2 * n) c).

Lemma chr_inside w ch :
  good (con w) → cx (con w) < 80 →
  chr ch w = Ok ((), World (advance 1 (con w))
    (<[pos (con w) + 1 := u8 (style (con w))]> (<[pos (con w) := u8 ch]> (vram w)))
    (events w) (eflags_if w)).
Proof.
  intros Hg Hlt. open_good Hg. destruct w as [c v ev b]; cbn [con vram events eflags_if] in *.
  unfold chr, get_con, upd, wr8, mbind, st_bind. cbn -[u32 u8 Z.leb Z.ltb MEM_BASE VRAM_END].
  rewrite Hwidth. destruct (Z.leb_spec 80 (cx c)); [lia|].
  cbn -[u32 u8 Z.leb Z.ltb MEM_BASE VRAM_END].
  rewrite in_vram by (rewrite Hpos, Hscreen; addr).
  cbn -[u32 u8 Z.leb Z.ltb MEM_BASE VRAM_END].
  assert (Ep : u32 (pos c + 1) = pos c + 1) by (apply u32_small; rewrite Hpos, Hscreen; addr).
  assert (Ep2 : u32 (pos c + 1 + 1) = pos c + 2 * 1) by (rewrite u32_small; [lia|rewrite Hpos, Hscreen; addr]).
  rewrite Ep, in_vram by (rewrite Hpos, Hscreen; addr).
  cbn -[u32 u8 Z.leb Z.ltb MEM_BASE VRAM_END].
  by rewrite ?Ep, Ep2, (u32_small (cx c + 1)) by lia.
Qed.

Lemma advance_good n c : good c → 0 <= n → cx c + n <= 80 → good (advance n c).
Proof.
  intros Hg Hn Hx'. open_good Hg. unfold advance. split; cbn; try done; try lia; eauto.
Qed.

Lemma advance_advance n m c : advance m (advance n c) = advance (n + m) c.
Proof. unfold advance, set_cx, set_pos. cbn. f_equal; lia. Qed.

Lemma advance_0 c : advance 0 c = c.
Proof. destruct c. unfold advance, set_cx, set_pos. cbn. f_equal; lia. Qed.

(** Plain text appears as it was written: characters the terminal does not
    interpret, written in the normal state where they fit the rest of the row, put
    each character and the current style into consecutive cells from the cursor on,
    move the cursor past them, and change nothing else - no other cell, no
    register, no other field of the console. *)
Theorem plain_text_shown w buf :
  good (con w) → cstate (con w) = STATE_NOR → forallb plain buf = true →
  cx (con w) + Z.of_nat (length buf) <= 80 →
  write_loop buf w = Ok ((), World (advance (Z.of_nat (length buf)) (con w))
    (put_text (pos (con w)) (style (con w)) buf (vram w)) (events w) (eflags_if w)).
Proof.
  revert w. induction buf as [|ch buf IH]; intros w Hg Hs Hp Hfit.
  - cbn. rewrite advance_0. by destruct w.
  - cbn [forallb] in Hp. apply andb_true_iff in Hp as [Hch Hp].
    cbn [length] in Hfit. cbn [write_loop].
    assert (E : console_char ch w = chr ch w).
    { unfold console_char. rewrite (st_bind_eq _ _ _ (con w) w) by done.
      by rewrite Hs, state_normal_plain. }
    unfold mbind at 1, st_bind. rewrite E, chr_inside by (done || lia).
    rewrite IH; cbn [con vram events eflags_if].
    + rewrite advance_advance. replace (1 + Z.of_nat (length buf)) with (Z.of_nat (length (ch :: buf))) by (cbn [length]; lia).
      cbn [put_text]. do 3 f_equal.
    + apply advance_good; [done|lia..].
    + done.
    + done.
    + cbn. lia.
Qed.

(** ** Two states the parser does not leave *)

Lemma argc_full_ignores w ch :
  cstate (con w) = STATE_ARG → ARG_NR <= argc (con w) → console_char ch w = Ok ((), w).
Proof.
  intros Hs Hn. unfold console_char. rewrite (st_bind_eq _ _ _ (con w) w) by done.
  rewrite Hs.
  assert (E : state_arg ch w = Ok (false, w)).
  { unfold state_arg. rewrite (st_bind_eq _ _ _ (con w) w) by done.
    destruct (Z.leb_spec ARG_NR (argc (con w))); [done|lia]. }
  change ((b ← state_arg ch; if (b : bool) then state_csi ch else mret ()) w = Ok ((), w)).
  by rewrite (st_bind_eq _ _ _ _ _ E).
Qed.

(** A control sequence with sixteen separators is never finished: [state_arg]
    answers [false] without consuming the state, so from then on every character
    ever written - the final letter, a newline, another escape - is dropped and the
    display, the cursor and the parser stay as they are. *)
Theorem full_arguments_lock_console w buf :
  cstate (con w) = STATE_ARG → ARG_NR <= argc (con w) → write_loop buf w = Ok ((), w).
Proof.
  intros Hs Hn. induction buf as [|ch buf IH]; [done|].
  cbn [write_loop]. by rewrite (st_bind_eq _ _ _ _ _ (argc_full_ignores w ch Hs Hn)).
Qed.

(** Routines that leave the parser state alone. *)
Definition steady {A} (m : C A) : Prop :=
  ∀ w a w', m w = Ok (a, w') → cstate (con w') = cstate (con w).

Lemma steady_bind {A B} (m : C A) (f : A → C B) :
  steady m → (∀ a, steady (f a)) → steady (a ← m; f a).
Proof.
  intros Hm Hf w b w' (a & w1 & E1 & E2)%st_bind_Ok.
  rewrite (Hf _ _ _ _ E2). by apply (Hm _ _ _ E1).
Qed.
Lemma steady_mret {A} (a : A) : steady (mret a).
Proof. by intros w ? w' [= <- <-]. Qed.
Lemma steady_get : steady get_con.
Proof. by intros w ? w' [= <- <-]. Qed.
Lemma steady_upd f : (∀ c, cstate (f c) = cstate c) → steady (upd f).
Proof. intros H w ? w' [= <- <-]. apply H. Qed.
Lemma steady_emit e : steady (emit e).
Proof. by intros w ? w' [= <- <-]. Qed.
Lemma steady_wr8 a v : steady (wr8 a v).
Proof. intros w b w'. unfold wr8. case_match; [|done]. by intros [= <- <-]. Qed.
Lemma steady_rd8 a : steady (rd8 a).
Proof. intros w b w'. unfold rd8. case_match; [|done]. by intros [= <- <-]. Qed.
Lemma steady_if {A} (b : bool) (m1 m2 : C A) :
  steady m1 → steady m2 → steady (if b then m1 else m2).
Proof. by destruct b. Qed.

Ltac steadily :=
  repeat first [ assumption | lazymatch goal with
  | |- steady (mbind _ _) => apply steady_bind; [|intros ?]
  | |- steady (if _ then _ else _) => apply steady_if
  | |- steady (mret _) => apply steady_mret
  | |- steady get_con => apply steady_get
  | |- steady (upd _) => apply steady_upd; intros ?; reflexivity
  | |- steady (outb _ _) => apply steady_emit
  | |- steady (wr8 _ _) => apply steady_wr8
  | |- steady (rd8 _) => apply steady_rd8
  end ].

Lemma steady_copy n dst src : steady (copy_bytes n dst src).
Proof. revert dst src. induction n; intros; cbn [copy_bytes]; steadily. auto. Qed.
Lemma steady_erase n start : steady (erase_loop n start).
Proof. revert start. induction n; intros; cbn [erase_loop]; unfold wr16; steadily. auto. Qed.
Lemma steady_lf : steady lf.
Proof.
  unfold lf, scroll_up, erase_screen, set_screen_regs. steadily.
  - apply steady_copy.
  - apply steady_erase.
Qed.

Lemma steady_state_esc ch : ch <> 91 → steady (state_esc ch).
Proof.
  intros Hne. unfold state_esc. destruct (Z.eqb_spec ch 91); [done|].
  unfold cr, save_cursor, set_xy. steadily; apply steady_lf.
Qed.

(** The escape state has one exit: after ESC, a text without a left bracket
    leaves the parser in the escape state, however long it is.  In particular the
    completed two-character sequences (ESC E, ESC D, ESC 7, ESC 8, ...) do not
    return to the normal state, and all text after them is swallowed. *)
Theorem escape_state_stays w buf :
  good (con w) → cstate (con w) = STATE_ESC → 91 ∉ buf →
  ∃ w', write_loop buf w = Ok ((), w') ∧ cstate (con w') = STATE_ESC.
Proof.
  intros Hg Hs Hn.
  destruct (keeps_write_loop buf (con w) Hg w eq_refl) as ([] & w' & E & _ & _).
  exists w'. split; [done|]. clear Hg. revert w Hs E.
  induction buf as [|ch buf IH]; intros w Hs E.
  - by injection E as <-.
  - apply not_elem_of_cons in Hn as [Hch Hn]. cbn [write_loop] in E.
    apply st_bind_Ok in E as ([] & w1 & E1 & E2). apply (IH Hn w1); [|done].
    rewrite <- Hs. apply (steady_state_esc ch (not_eq_sym Hch) w () w1).
    unfold console_char in E1. rewrite (st_bind_eq _ _ _ (con w) w) in E1 by done.
    by rewrite Hs in E1.
Qed.

(** ** A console after [console_init], for the concrete runs *)

Definition booted : world :=
  World (Console MEM_BASE 16320 VRAM_END MEM_BASE 4000 MEM_BASE 0 0 0 0 80 25 160
           0 (replicate 16 0) 0 0 ERASE STYLE) ∅ [] true.

Lemma booted_good : good (con booted).
Proof.
  split; try done; cbn; try lia.
  - exists 0. lia.
  - split; [done|]. repeat constructor; lia.
Qed.

(** "ESC [ 2 J A newline" *)
Lemma console_write_safe_witness :
  good (con booted) ∧
  ∃ w', console_write [27; 91; 50; 74; 65; 10] booted = Ok (s32 (6 + 1), w') ∧
        good (con w') ∧ eflags_if w' = eflags_if booted.
Proof. exact (conj booted_good (console_write_safe booted [27; 91; 50; 74; 65; 10] booted_good)). Defined.

Lemma plain_text_shown_witness :
  good (con booted) ∧
  write_loop [72; 105] booted = Ok ((), World (advance (Z.of_nat (length [72; 105])) (con booted))
    (put_text (pos (con booted)) (style (con booted)) [72; 105] (vram booted)) (events booted) (eflags_if booted)).
Proof.
  split; [exact booted_good|].
  apply plain_text_shown; [exact booted_good|reflexivity|reflexivity|cbn; lia].
Defined.

Definition full_args_console : world :=
  World (set_argc 16 (set_cstate STATE_ARG (con booted))) ∅ [] true.

(** Sixteen separators lead there. *)
Example full_args_reached :
  write_loop ([27; 91] ++ replicate 16 59) booted = Ok ((), full_args_console).
Proof. vm_compute. reflexivity. Qed.

Lemma full_arguments_lock_console_witness :
  cstate (con full_args_console) = STATE_ARG ∧
  write_loop [109; 10; 72] full_args_console = Ok ((), full_args_console).
Proof.
  split; [reflexivity|]. apply full_arguments_lock_console; [reflexivity|].
  by apply Z.leb_le.
Defined.

Lemma escape_state_stays_witness :
  ∃ w', write_loop [69; 72; 105] (World (set_cstate STATE_ESC (con booted)) ∅ [] true) = Ok ((), w') ∧
        cstate (con w') = STATE_ESC.
Proof.
  apply escape_state_stays.
  - apply good_set_cstate. exact booted_good.
  - reflexivity.
  - intros H. repeat (apply list_elem_of_In in H; cbn in H). lia.
Defined.
