(* ===== verification/Kfifo.v ===== *)
(** * The byte ring buffer (src/lib/kfifo.c)

    The ring of [buf_size] bytes with its head and tail, refined to a bounded queue
    that drops its oldest byte when it is full. *)

From S2P Require Import Prelude.

Record kfifo_t := KFifo { head : Z; tail : Z; buf_size : Z; buf : list Z }.

Definition set_tail (v : Z) (f : kfifo_t) : kfifo_t := KFifo (head f) v (buf_size f) (buf f).
Definition set_head (v : Z) (f : kfifo_t) : kfifo_t := KFifo v (tail f) (buf_size f) (buf f).
Definition set_buf (v : list Z) (f : kfifo_t) : kfifo_t := KFifo (head f) (tail f) (buf_size f) v.

(** [(pos + 1) % fifo->buf_size]; a zero divisor raises the divide exception. *)
Definition kfifo_next (f : kfifo_t) (pos : Z) : res Z :=
  if buf_size f =? 0 then Stop Panic else Ok (u32 (pos + 1) mod buf_size f).

Definition kfifo_init (buf : list Z) (buf_size : Z) : kfifo_t := KFifo 0 0 buf_size buf.

Definition kfifo_full (f : kfifo_t) : res bool :=
  n ← kfifo_next f (head f); mret (n =? tail f).

Definition kfifo_empty (f : kfifo_t) : bool := head f =? tail f.

Definition kfifo_get : ST kfifo_t Z := λ f,
  if kfifo_empty f then Ok (0, f)
  else
    byte ← zget (buf f) (tail f);
    t ← kfifo_next f (tail f);
    mret (byte, set_tail t f).

(** [while (kfifo_full(fifo)) kfifo_get(fifo)]. *)
Fixpoint drop_loop (fuel : nat) (f : kfifo_t) : res kfifo_t :=
  match fuel with
  | O => Stop NoFuel
  | S fuel =>
      full ← kfifo_full f;
      if (full : bool) then '(_, f) ← kfifo_get f; drop_loop fuel f else mret f
  end.

Definition kfifo_put (fuel : nat) (byte : Z) : ST kfifo_t unit := λ f,
  f ← drop_loop fuel f;
  b ← zset (buf f) (head f) (s8 byte);
  h ← kfifo_next f (head f);
  mret ((), set_head h (set_buf b f)).

(** ** The queue a ring stands for *)

(** A ring of at least two cells with its positions inside. *)
Record ring (f : kfifo_t) : Prop := {
  r_size : 2 <= buf_size f < 4294967296;
  r_len : Z.of_nat (length (buf f)) = buf_size f;
  r_head : 0 <= head f < buf_size f;
  r_tail : 0 <= tail f < buf_size f
}.

Definition count (f : kfifo_t) : Z := (head f - tail f) mod buf_size f.

Definition cell (f : kfifo_t) (i : Z) : Z :=
  default 0 (buf f !! Z.to_nat ((tail f + i) mod buf_size f)).

Definition queue (f : kfifo_t) : list Z := cell f <$> seqZ 0 (count f).

(** The abstract operations. *)
Definition q_get (q : list Z) : Z * list Z :=
  match q with [] => (0, []) | x :: q => (x, q) end.
Definition q_put (cap : nat) (x : Z) (q : list Z) : list Z :=
  if decide (length q = cap) then drop 1 q ++ [x] else q ++ [x].

Lemma next_Ok f p :
  ring f → 0 <= p < buf_size f → kfifo_next f p = Ok ((p + 1) mod buf_size f).
Proof.
  intros [Hs _ _ _] Hp. unfold kfifo_next. destruct (Z.eqb_spec (buf_size f) 0); [lia|].
  rewrite u32_small; [done|lia].
Qed.

Lemma count_range f : ring f → 0 <= count f < buf_size f.
Proof. intros [Hs _ _ _]. apply Z.mod_pos_bound. lia. Qed.

Lemma queue_length f : ring f → Z.of_nat (length (queue f)) = count f.
Proof.
  intros Hr. pose proof (count_range f Hr). unfold queue.
  rewrite length_fmap, length_seqZ. lia.
Qed.

(** The sum of two positions of a ring, without the modulus. *)
Lemma mod_once n a b :
  0 <= a < n → 0 <= b < n → (a + b) mod n = if a + b <? n then a + b else a + b - n.
Proof.
  intros. destruct (Z.ltb_spec (a + b) n).
  - apply Z.mod_small. lia.
  - rewrite <- (Z.mod_small (a + b - n) n) by lia.
    replace (a + b) with (a + b - n + 1 * n) at 1 by lia. apply Z_mod_plus_full.
Qed.

Lemma diff_mod n a b :
  0 <= a < n → 0 <= b < n → (a - b) mod n = if b <=? a then a - b else a - b + n.
Proof.
  intros. destruct (Z.leb_spec b a).
  - apply Z.mod_small. lia.
  - rewrite <- (Z.mod_small (a - b + n) n) by lia.
    replace (a - b + n) with (a - b + 1 * n) by lia. by rewrite Z_mod_plus_full.
Qed.

(** Reduce the positions of a ring to cases on comparisons. *)
Ltac ring_cases :=
  unfold count, cell in *; cbn [head tail buf_size buf set_tail set_head set_buf] in *;
  repeat first [ rewrite mod_once in * by lia | rewrite diff_mod in * by lia
               | progress zcases ].

Lemma empty_spec f : ring f → kfifo_empty f = bool_decide (queue f = []).
Proof.
  intros Hr. pose proof (queue_length f Hr) as Hl. destruct Hr as [Hs Hb Hh Ht].
  unfold kfifo_empty. apply eq_bool_prop_intro. rewrite Is_true_true, Z.eqb_eq, bool_decide_spec.
  rewrite <- length_zero_iff_nil. unfold count in Hl. rewrite diff_mod in Hl by lia.
  zcases_in Hl; lia.
Qed.

Lemma full_spec f :
  ring f → kfifo_full f = Ok (bool_decide (Z.of_nat (length (queue f)) = buf_size f - 1)).
Proof.
  intros Hr. unfold kfifo_full. pose proof (queue_length f Hr) as Hl.
  rewrite next_Ok by (done || apply Hr). cbn. do 2 f_equal.
  destruct Hr as [Hs Hb Hh Ht]. apply eq_bool_prop_intro.
  rewrite Is_true_true, Z.eqb_eq, bool_decide_spec, Hl. unfold count.
  rewrite diff_mod, mod_once by lia. zcases; lia.
Qed.

Lemma cell_lookup f i :
  ring f → buf f !! Z.to_nat ((tail f + i) mod buf_size f) = Some (cell f i).
Proof.
  intros [Hs Hb Hh Ht]. unfold cell.
  pose proof (Z.mod_pos_bound (tail f + i) (buf_size f) ltac:(lia)) as Hm.
  destruct (lookup_lt_is_Some_2 (buf f) (Z.to_nat ((tail f + i) mod buf_size f))) as [x Hx]; [lia|].
  by rewrite Hx.
Qed.

(** The ring after its oldest byte is taken. *)
Definition popped (f : kfifo_t) : kfifo_t := set_tail ((tail f + 1) mod buf_size f) f.

Lemma popped_ring f : ring f → ring (popped f).
Proof.
  intros [Hs Hb Hh Ht]. split; cbn; try done. apply Z.mod_pos_bound. lia.
Qed.

Lemma popped_queue f : ring f → queue f ≠ [] → queue f = cell f 0 :: queue (popped f).
Proof.
  intros Hr Hne. pose proof (count_range f Hr) as Hc.
  assert (Hpos : 0 < count f).
  { pose proof (queue_length f Hr). destruct (queue f); [done|]. cbn [length] in *. lia. }
  assert (Hcp : count (popped f) = count f - 1).
  { destruct Hr as [Hs Hb Hh Ht]. unfold popped. ring_cases; lia. }
  unfold queue. rewrite Hcp, seqZ_cons by lia. cbn [fmap list_fmap]. f_equal.
  replace (Z.succ 0) with (1 + 0) by done. rewrite <- fmap_add_seqZ, <- list_fmap_compose.
  replace (Z.pred (count f)) with (count f - 1) by lia.
  apply list_fmap_ext. intros k i Hk. unfold compose, cell, popped. cbn.
  destruct Hr as [Hs Hb Hh Ht]. rewrite Zplus_mod_idemp_l.
  by replace (tail f + (1 + i)) with (tail f + 1 + i) by lia.
Qed.

Lemma get_spec f :
  ring f →
  ∃ f', kfifo_get f = Ok ((q_get (queue f)).1, f') ∧ ring f' ∧
        queue f' = (q_get (queue f)).2 ∧ buf_size f' = buf_size f ∧ head f' = head f ∧ buf f' = buf f ∧
        (queue f ≠ [] → f' = popped f).
Proof.
  intros Hr. unfold kfifo_get. rewrite empty_spec by done. case_bool_decide as Hq.
  - exists f. by rewrite Hq.
  - rewrite (popped_queue f Hr Hq). cbn [q_get fst snd].
    assert (E : zget (buf f) (tail f) = Ok (cell f 0)).
    { apply zget_Ok. pose proof (cell_lookup f 0 Hr) as Hc. destruct Hr as [Hs Hb Hh Ht].
      rewrite Z.add_0_r, Z.mod_small in Hc by lia. split; [lia|done]. }
    rewrite E. cbn. rewrite next_Ok by (done || apply Hr). cbn.
    exists (popped f). repeat split; try done; by apply popped_ring.
Qed.

(** The ring after [x] is stored at the head of a ring that has room. *)
Definition pushed (x : Z) (f : kfifo_t) : kfifo_t :=
  set_head ((head f + 1) mod buf_size f) (set_buf (<[Z.to_nat (head f) := x]> (buf f)) f).

Lemma pushed_ring x f : ring f → ring (pushed x f).
Proof.
  intros [Hs Hb Hh Ht]. split; cbn; try done; [by rewrite length_insert|].
  apply Z.mod_pos_bound. lia.
Qed.

Lemma pushed_queue x f :
  ring f → count f < buf_size f - 1 → queue (pushed x f) = queue f ++ [x].
Proof.
  intros Hr Hroom. pose proof (count_range f Hr) as Hc.
  assert (Hcp : count (pushed x f) = count f + 1).
  { destruct Hr as [Hs Hb Hh Ht]. unfold pushed. ring_cases; lia. }
  unfold queue. rewrite Hcp, seqZ_app, fmap_app by lia. f_equal.
  - apply list_fmap_ext. intros k i Hk. apply lookup_seqZ in Hk as [-> Hk].
    unfold cell, pushed. cbn. rewrite list_lookup_insert_ne; [done|].
    destruct Hr as [Hs Hb Hh Ht]. unfold count in *.
    rewrite mod_once by lia. rewrite diff_mod in * by lia.
    intros E%Z2Nat.inj; [|lia|zcases; lia]. zcases_in E; zcases_in Hk; lia.
  - destruct Hr as [Hs Hb Hh Ht].
    assert (Hat : (tail f + (0 + count f)) mod buf_size f = head f).
    { unfold count in *. rewrite Z.add_0_l, Zplus_mod_idemp_r.
      replace (tail f + (head f - tail f)) with (head f) by lia. by rewrite Z.mod_small by lia. }
    replace (seqZ (0 + count f) 1) with [0 + count f] by (cbn; f_equal; lia).
    cbn [fmap list_fmap]. unfold cell, pushed. cbn [tail buf buf_size set_head set_buf].
    rewrite Hat, list_lookup_insert_eq by lia. done.
Qed.

(** Dropping until the ring has room takes at most one round. *)
Lemma drop_spec fuel f :
  ring f → (2 <= fuel)%nat →
  ∃ f', drop_loop fuel f = Ok f' ∧ ring f' ∧ count f' < buf_size f' - 1 ∧
    buf_size f' = buf_size f ∧
    queue f' = if decide (Z.of_nat (length (queue f)) = buf_size f - 1) then drop 1 (queue f) else queue f.
Proof.
  intros Hr Hfuel. destruct fuel as [|[|fuel]]; try lia. cbn [drop_loop].
  rewrite full_spec by done. cbn. pose proof (count_range f Hr). pose proof (queue_length f Hr) as Hl.
  pose proof (r_size f Hr). case_bool_decide as Hfull; case_decide; try done.
  - destruct (get_spec f Hr) as (f' & E & Hr' & Hq & Hsz & _).
    rewrite E. cbn. rewrite full_spec by done. cbn.
    assert (Hl' : Z.of_nat (length (queue f')) = buf_size f - 2).
    { rewrite Hq. destruct (queue f); cbn in *; lia. }
    pose proof (queue_length f' Hr'). rewrite bool_decide_eq_false_2 by lia.
    exists f'. split_and!; try done; [lia|]. rewrite Hq. by destruct (queue f).
  - exists f. split_and!; try done. lia.
Qed.

Lemma put_spec fuel x f :
  ring f → (2 <= fuel)%nat →
  ∃ f', kfifo_put fuel x f = Ok ((), f') ∧ ring f' ∧ buf_size f' = buf_size f ∧
    queue f' = q_put (Z.to_nat (buf_size f - 1)) (s8 x) (queue f).
Proof.
  intros Hr Hfuel. destruct (drop_spec fuel f Hr Hfuel) as (g & E & Hg & Hroom & Hsz & Hq).
  unfold kfifo_put. rewrite E. cbn.
  rewrite zset_Ok by (destruct Hg; lia). cbn.
  rewrite next_Ok by (done || apply Hg). cbn.
  exists (pushed (s8 x) g). split_and!; [done|by apply pushed_ring|done|].
  rewrite pushed_queue by done. rewrite Hq. unfold q_put.
  pose proof (r_size f Hr). repeat case_decide; done || lia.
Qed.

(** ** Refinement *)

Inductive op := Put (x : Z) | Get.

(** A sequence of calls and the bytes [kfifo_get] answered. *)
Definition step (o : op) : ST kfifo_t (list Z) :=
  match o with
  | Put x => kfifo_put 2 x;; mret []
  | Get => x ← kfifo_get; mret [x]
  end.

Fixpoint run (os : list op) : ST kfifo_t (list Z) :=
  match os with [] => mret [] | o :: os => a ← step o; b ← run os; mret (a ++ b) end.

(** The same calls on the bounded queue. *)
Definition q_step (cap : nat) (o : op) (q : list Z) : list Z * list Z :=
  match o with
  | Put x => ([], q_put cap (s8 x) q)
  | Get => ([(q_get q).1], (q_get q).2)
  end.

Fixpoint q_run (cap : nat) (os : list op) (q : list Z) : list Z * list Z :=
  match os with
  | [] => ([], q)
  | o :: os => let '(a, q) := q_step cap o q in let '(b, q) := q_run cap os q in (a ++ b, q)
  end.

Lemma step_refines o f :
  ring f →
  ∃ f', step o f = Ok ((q_step (Z.to_nat (buf_size f - 1)) o (queue f)).1, f') ∧
    ring f' ∧ buf_size f' = buf_size f ∧
    queue f' = (q_step (Z.to_nat (buf_size f - 1)) o (queue f)).2.
Proof.
  intros Hr. destruct o as [x|]; unfold step.
  - destruct (put_spec 2 x f Hr (le_n _)) as (f' & E & Hr' & Hs & Hq).
    exists f'. by rewrite (st_bind_eq _ _ _ _ _ E).
  - destruct (get_spec f Hr) as (f' & E & Hr' & Hq & Hs & _).
    exists f'. by rewrite (st_bind_eq _ _ _ _ _ E).
Qed.

Lemma run_refines os f :
  ring f →
  ∃ f', run os f = Ok ((q_run (Z.to_nat (buf_size f - 1)) os (queue f)).1, f') ∧
    ring f' ∧ buf_size f' = buf_size f ∧
    queue f' = (q_run (Z.to_nat (buf_size f - 1)) os (queue f)).2.
Proof.
  revert f. induction os as [|o os IH]; intros f Hr; [by exists f|].
  destruct (step_refines o f Hr) as (f1 & E1 & Hr1 & Hs1 & Hq1).
  destruct (IH f1 Hr1) as (f2 & E2 & Hr2 & Hs2 & Hq2).
  exists f2. cbn [run q_run]. rewrite (st_bind_eq _ _ _ _ _ E1), (st_bind_eq _ _ _ _ _ E2).
  rewrite Hs1, Hq1 in E2, Hq2 |- *. destruct (q_step _ o _) as [a q1]; cbn [fst snd] in *.
  destruct (q_run _ os q1) as [b q2]; cbn [fst snd] in *. split_and!; [done..|congruence|done].
Qed.

(** The ring buffer is a bounded first-in-first-out queue that drops its oldest
    byte: for every buffer of at least two bytes and every sequence of [kfifo_put]
    and [kfifo_get] calls after [kfifo_init], all calls return (the dropping loop
    ends), the bytes answered are the ones a queue of capacity [buf_size - 1] answers
    (0 when it is empty), and the ring holds that queue. *)
Theorem kfifo_refines_queue b os :
  2 <= Z.of_nat (length b) < 4294967296 →
  ∃ f, run os (kfifo_init b (Z.of_nat (length b))) =
         Ok ((q_run (length b - 1) os []).1, f) ∧
       queue f = (q_run (length b - 1) os []).2 ∧
       kfifo_empty f = bool_decide (queue f = []) ∧
       kfifo_full f = Ok (bool_decide (length (queue f) = (length b - 1)%nat)).
Proof.
  intros Hb. set (f0 := kfifo_init b (Z.of_nat (length b))).
  assert (Hr : ring f0) by (split; cbn; lia).
  assert (Hq0 : queue f0 = []).
  { unfold queue, count, f0. cbn [head tail buf_size kfifo_init].
    by rewrite Z.mod_small by lia. }
  destruct (run_refines os f0 Hr) as (f & E & Hr' & Hs & Hq).
  replace (Z.to_nat (buf_size f0 - 1)) with (length b - 1)%nat in * by (cbn; lia).
  rewrite Hq0 in E, Hq. exists f. split_and!; [done..|by apply empty_spec|].
  rewrite full_spec, Hs by done. f_equal. cbn [f0 buf_size kfifo_init]. apply bool_decide_ext. lia.
Qed.

Lemma kfifo_refines_queue_witness :
  ∃ f, run [Put 65; Put 66; Put 67; Get; Get; Get] (kfifo_init [0; 0; 0] 3) =
         Ok ((q_run 2 [Put 65; Put 66; Put 67; Get; Get; Get] []).1, f) ∧
       queue f = (q_run 2 [Put 65; Put 66; Put 67; Get; Get; Get] []).2 ∧
       kfifo_empty f = bool_decide (queue f = []) ∧
       kfifo_full f = Ok (bool_decide (length (queue f) = 2%nat)).
Proof. apply (kfifo_refines_queue [0; 0; 0]). split; [by apply Z.leb_le|done]. Defined.

(** The oldest byte is the one that goes: the answers of the witness. *)
Example drops_oldest : (q_run 2 [Put 65; Put 66; Put 67; Get; Get; Get] []).1 = [66; 67; 0].
Proof. reflexivity. Qed.

(** A ring of one byte is unusable: it is full and empty at the same time, and
    [kfifo_put] drops from it for ever. *)
Theorem kfifo_put_one_byte_diverges fuel x b :
  kfifo_put fuel x (kfifo_init [b] 1) = Stop NoFuel.
Proof.
  unfold kfifo_put. assert (E : drop_loop fuel (kfifo_init [b] 1) = Stop NoFuel) by (by induction fuel).
  by rewrite E.
Qed.
