(* ===== verification/Bitmap.v ===== *)
(** * Bitmaps (src/lib/bitmap.c)

    A map of [length] bytes whose bit 0 stands for the index [offset].  The bytes are
    a list; an assertion that fails stops the model, an access outside the buffer
    cannot pass the assertions. *)

From S2P Require Import Prelude.

Record bitmap_t := BitMap { bits : list Z; blength : Z; offset : Z }.

Definition set_bits (b : list Z) (m : bitmap_t) : bitmap_t := BitMap b (blength m) (offset m).

Definition bitmap_make (bits : list Z) (length offset : Z) : bitmap_t := BitMap bits length offset.

(** [memset(bits, 0, length)] on a buffer of at least [length] bytes. *)
Definition bitmap_init (bits : list Z) (length offset : Z) : bitmap_t :=
  bitmap_make (replicate (Z.to_nat length) 0 ++ drop (Z.to_nat length) bits) length offset.

Definition bitmap_test (map : bitmap_t) (index : Z) : res bool :=
  kassert (offset map <=? index);;
  let idx := u32 (index - offset map) in
  let bytes := idx / 8 in
  let bit := u8 (idx mod 8) in
  kassert (bytes <? blength map);;
  b ← zget (bits map) bytes;
  mret (negb (Z.land b (Z.shiftl 1 bit) =? 0)).

Definition bitmap_set (index : Z) (value : bool) : ST bitmap_t unit := λ map,
  kassert (offset map <=? index);;
  let idx := u32 (index - offset map) in
  let bytes := idx / 8 in
  kassert (bytes <? blength map);;
  let bit := u8 (idx mod 8) in
  b ← zget (bits map) bytes;
  l ← zset (bits map) bytes
        (if value then u8 (Z.lor b (Z.shiftl 1 bit))
         else u8 (Z.land b (Z.lnot (Z.shiftl 1 bit))));
  mret ((), set_bits l map).

(** The search loop of [bitmap_scan]: the start of the run found, or [EOF]. *)
Fixpoint scan_loop (bits_left : nat) (map : bitmap_t) (count index counter : Z) : res Z :=
  match bits_left with
  | O => mret EOF_
  | S bits_left =>
      t ← bitmap_test map (u32 (offset map + index));
      let counter := if (t : bool) then 0 else u32 (counter + 1) in
      let index := u32 (index + 1) in
      if counter =? count then mret (s32 (index - count))
      else scan_loop bits_left map count index counter
  end.

(** The loop that sets the bits of the run. *)
Fixpoint mark_loop (bits_left : nat) (index : Z) : ST bitmap_t unit :=
  match bits_left with
  | O => mret ()
  | S bits_left =>
      map ← get_st;
      bitmap_set (u32 (offset map + index)) true;;
      mark_loop bits_left (u32 (index + 1))
  end.

Definition bitmap_scan (count : Z) : ST bitmap_t Z := λ map,
  start ← scan_loop (Z.to_nat (u32 (blength map * 8))) map count 0 0;
  if start =? EOF_ then mret (EOF_, map)
  else '(_, map) ← mark_loop (Z.to_nat count) (u32 start) map;
       mret (s32 (start + offset map), map).

(** ** Bits *)

(** The buffer has the bytes it promises, and every index fits in an [int]. *)
Record wf (m : bitmap_t) : Prop := {
  wf_len : Z.of_nat (length (bits m)) = blength m;
  wf_bytes : Forall (λ b, 0 <= b < 256) (bits m);
  wf_off : 0 <= offset m;
  wf_fits : offset m + blength m * 8 < 2147483648
}.

(** Bit [i] of the map, [i] counted from 0. *)
Definition bit (m : bitmap_t) (i : Z) : bool :=
  Z.testbit (default 0 (bits m !! Z.to_nat (i / 8))) (i mod 8).

Lemma land_pow2_testbit b n : 0 <= n → negb (Z.land b (Z.shiftl 1 n) =? 0) = Z.testbit b n.
Proof.
  intros Hn. rewrite Z.shiftl_1_l. destruct (Z.testbit b n) eqn:E.
  - apply negb_true_iff, Z.eqb_neq. intros H0.
    assert (Z.testbit (Z.land b (2 ^ n)) n = false) as Hb by (rewrite H0; apply Z.bits_0).
    by rewrite Z.land_spec, E, Z.pow2_bits_true in Hb.
  - apply negb_false_iff, Z.eqb_eq. apply Z.bits_inj'. intros k Hk.
    rewrite Z.land_spec, Z.bits_0. destruct (decide (k = n)) as [->|Hne].
    + by rewrite E.
    + rewrite Z.pow2_bits_false by lia. apply andb_false_r.
Qed.

Lemma byte_lookup m i :
  wf m → 0 <= i < blength m * 8 →
  ∃ b, zget (bits m) (i / 8) = Ok b ∧ bits m !! Z.to_nat (i / 8) = Some b ∧ 0 <= b < 256.
Proof.
  intros Hw Hi. destruct (zget_is_Ok (bits m) (i / 8)) as (b & E & Hl).
  - rewrite (wf_len _ Hw). split; [apply Z.div_pos; lia|]. apply Z.div_lt_upper_bound; lia.
  - exists b. split_and!; [done..| |]; apply (proj1 (Forall_lookup _ _) (wf_bytes _ Hw) _ _ Hl).
Qed.

(** The arithmetic common to test and set. *)
Lemma index_ok m i :
  wf m → 0 <= i < blength m * 8 →
  (offset m <=? offset m + i) = true ∧ u32 (offset m + i - offset m) = i ∧
  u32 (offset m + i) = offset m + i ∧ (i / 8 <? blength m) = true ∧ u8 (i mod 8) = i mod 8.
Proof.
  intros Hw Hi. pose proof (wf_off _ Hw). pose proof (wf_fits _ Hw).
  pose proof (Z.mod_pos_bound i 8).
  split_and!.
  - apply Z.leb_le. lia.
  - rewrite u32_small; lia.
  - apply u32_small. lia.
  - apply Z.ltb_lt. apply Z.div_lt_upper_bound; lia.
  - apply u8_small. lia.
Qed.

Lemma test_spec m i :
  wf m → 0 <= i < blength m * 8 → bitmap_test m (offset m + i) = Ok (bit m i).
Proof.
  intros Hw Hi. destruct (index_ok m i Hw Hi) as (E1 & E2 & _ & E3 & E4).
  unfold bitmap_test. rewrite E1, E2, E3, E4. cbn.
  destruct (byte_lookup m i Hw Hi) as (b & -> & Hb & _). cbn.
  rewrite land_pow2_testbit by (apply Z.mod_pos_bound; lia). unfold bit. by rewrite Hb.
Qed.

(** A byte is a number without bits from 8 on. *)
Lemma byte_high b l : 0 <= b < 256 → 8 <= l → Z.testbit b l = false.
Proof.
  intros [H0 H1] Hl. change 256 with (2 ^ 8) in H1.
  by apply (Z.bounded_iff_bits_nonneg 8 b).
Qed.

Lemma byte_bits b : 0 <= b → (∀ l, 8 <= l → Z.testbit b l = false) → 0 <= b < 256.
Proof.
  intros H0 Hl. split; [done|]. change 256 with (2 ^ 8).
  apply (Z.bounded_iff_bits_nonneg 8 b); done || lia.
Qed.

(** Setting and clearing one bit of a byte. *)
Lemma lor_bit b n :
  0 <= b < 256 → 0 <= n < 8 →
  0 <= Z.lor b (Z.shiftl 1 n) < 256 ∧
  ∀ k, 0 <= k → Z.testbit (Z.lor b (Z.shiftl 1 n)) k = if decide (k = n) then true else Z.testbit b k.
Proof.
  intros Hb Hn. assert (Hk : ∀ k, 0 <= k → Z.testbit (Z.lor b (Z.shiftl 1 n)) k = if decide (k = n) then true else Z.testbit b k).
  { intros k Hk. rewrite Z.lor_spec, Z.shiftl_1_l. case_decide as Hd.
    - subst. rewrite Z.pow2_bits_true by lia. apply orb_true_r.
    - rewrite Z.pow2_bits_false by lia. apply orb_false_r. }
  split; [|done]. apply byte_bits.
  - apply Z.lor_nonneg. split; [lia|]. apply Z.shiftl_nonneg. lia.
  - intros l Hl. rewrite Hk by lia. rewrite decide_False by lia. by apply byte_high.
Qed.

Lemma land_bit b n :
  0 <= b < 256 → 0 <= n < 8 →
  0 <= Z.land b (Z.lnot (Z.shiftl 1 n)) < 256 ∧
  ∀ k, 0 <= k → Z.testbit (Z.land b (Z.lnot (Z.shiftl 1 n))) k = if decide (k = n) then false else Z.testbit b k.
Proof.
  intros Hb Hn. assert (Hk : ∀ k, 0 <= k → Z.testbit (Z.land b (Z.lnot (Z.shiftl 1 n))) k = if decide (k = n) then false else Z.testbit b k).
  { intros k Hk. rewrite Z.land_spec, Z.lnot_spec, Z.shiftl_1_l by lia. case_decide as Hd.
    - subst. rewrite Z.pow2_bits_true by lia. apply andb_false_r.
    - rewrite Z.pow2_bits_false by lia. apply andb_true_r. }
  split; [|done]. apply byte_bits.
  - apply Z.land_nonneg. lia.
  - intros l Hl. rewrite Hk by lia. rewrite decide_False by lia. by apply byte_high.
Qed.

Lemma div_mod_8_inj i j : i / 8 = j / 8 → i mod 8 = j mod 8 → i = j.
Proof. intros H1 H2. rewrite (Z.div_mod i 8), (Z.div_mod j 8) by lia. by rewrite H1, H2. Qed.

Lemma set_spec m i v :
  wf m → 0 <= i < blength m * 8 →
  ∃ m', bitmap_set (offset m + i) v m = Ok ((), m') ∧ wf m' ∧
    blength m' = blength m ∧ offset m' = offset m ∧
    ∀ j, 0 <= j → bit m' j = if decide (j = i) then v else bit m j.
Proof.
  intros Hw Hi. destruct (index_ok m i Hw Hi) as (E1 & E2 & _ & E3 & E4).
  destruct (byte_lookup m i Hw Hi) as (b & Eb & Hb & Hrange).
  pose proof (Z.mod_pos_bound i 8 ltac:(lia)) as Hm8.
  unfold bitmap_set. rewrite E1, E2, E3, E4. cbn. rewrite Eb. cbn.
  pose proof (Z.div_pos i 8). pose proof (Z.div_lt_upper_bound i 8 (blength m)).
  rewrite zset_Ok by (rewrite (wf_len _ Hw); lia). cbn.
  set (b' := if v then _ else _).
  assert (Hb' : 0 <= b' < 256 ∧ ∀ k, 0 <= k → Z.testbit b' k = if decide (k = i mod 8) then v else Z.testbit b k).
  { unfold b'. destruct v.
    - destruct (lor_bit b (i mod 8)) as [R K]; [lia..|]. rewrite u8_small by done. done.
    - destruct (land_bit b (i mod 8)) as [R K]; [lia..|]. rewrite u8_small by done. done. }
  eexists. split; [done|]. split; [|split; [done|split; [done|]]].
  - destruct Hw as [W1 W2 W3 W4]. split; cbn; [by rewrite length_insert| |lia|lia].
    apply Forall_insert; [done|apply Hb'].
  - intros j Hj. unfold bit. cbn. destruct Hb' as [_ Hk].
    destruct (decide (j / 8 = i / 8)) as [E|E].
    + rewrite E, list_lookup_insert_eq by (pose proof (wf_len _ Hw); lia). cbn.
      rewrite Hk by (apply Z.mod_pos_bound; lia). rewrite Hb. cbn.
      repeat case_decide; try done; [|by subst]. exfalso. by eauto using div_mod_8_inj.
    + pose proof (Z.div_pos j 8 ltac:(lia) ltac:(lia)).
      rewrite list_lookup_insert_ne by (intros E'%Z2Nat.inj; lia).
      rewrite decide_False by (by intros ->). done.
Qed.

(** ** The scan *)

(** [n] clear bits from bit [s] on, inside the map. *)
Definition free (m : bitmap_t) (s n : Z) : Prop :=
  0 <= s ∧ s + n <= blength m * 8 ∧ ∀ j, s <= j < s + n → bit m j = false.

(** The loop at bit [index] with [counter] clear bits just behind it. *)
Lemma scan_loop_spec m count left index counter :
  wf m → 1 <= count < 4294967296 → 0 <= counter < count → counter <= index →
  index + Z.of_nat left = blength m * 8 →
  (∀ j, index - counter <= j < index → bit m j = false) →
  (counter = index ∨ bit m (index - counter - 1) = true) →
  (∀ s, s + count <= index → ¬ free m s count) →
  ∃ r, scan_loop left m count index counter = Ok r ∧
    ((r = EOF_ ∧ ∀ s, ¬ free m s count) ∨
     (free m r count ∧ ∀ s, s < r → ¬ free m s count)).
Proof.
  intros Hw Hc. revert index counter.
  induction left as [|left IH]; intros index counter Hcnt Hle Hidx Hclear Hmax Hnone.
  - exists EOF_. split; [done|]. left. split; [done|]. intros s Hf. apply (Hnone s); [|done].
    destruct Hf as (_ & ? & _). lia.
  - cbn [scan_loop]. pose proof (wf_fits _ Hw). pose proof (wf_off _ Hw).
    rewrite (u32_small (offset m + index)) by lia.
    rewrite (test_spec m index) by (done || lia). cbn.
    rewrite (u32_small (index + 1)) by lia. rewrite (u32_small (counter + 1)) by lia.
    destruct (bit m index) eqn:Eb.
    + destruct (Z.eqb_spec 0 count); [lia|].
      apply IH; try lia; [right; by replace (index + 1 - 0 - 1) with index by lia|].
      intros s Hs (F1 & F2 & F3). destruct (decide (s + count <= index)) as [|Hn].
      * by apply (Hnone s).
      * rewrite F3 in Eb; [done|lia].
    + assert (Hclear' : ∀ j, index - counter <= j < index + 1 → bit m j = false).
      { intros j Hj. destruct (decide (j = index)) as [->|]; [done|]. apply Hclear. lia. }
      destruct (Z.eqb_spec (counter + 1) count) as [<-|Hne].
      * rewrite s32_small by lia. eexists. split; [done|]. right.
        replace (index + 1 - (counter + 1)) with (index - counter) by lia. split.
        { split_and!; [lia|lia|]. intros j Hj. apply Hclear'. lia. }
        intros s Hs. apply Hnone. lia.
      * apply IH; try lia; [intros j Hj; apply Hclear'; lia| |].
        { destruct Hmax as [->|Hmax]; [left; lia|right].
          by replace (index + 1 - (counter + 1) - 1) with (index - counter - 1) by lia. }
        intros s Hs (F1 & F2 & F3). destruct (decide (s + count <= index)) as [|Hn].
        { by apply (Hnone s). }
        destruct Hmax as [->|Hmax]; [lia|]. rewrite F3 in Hmax; [done|lia].
Qed.

Lemma mark_loop_spec m n s :
  wf m → 0 <= s → s + Z.of_nat n <= blength m * 8 →
  ∃ m', mark_loop n s m = Ok ((), m') ∧ wf m' ∧ blength m' = blength m ∧ offset m' = offset m ∧
    ∀ j, 0 <= j → bit m' j = if decide (s <= j < s + Z.of_nat n) then true else bit m j.
Proof.
  revert m s. induction n as [|n IH]; intros m s Hw Hs Hn.
  - exists m. split_and!; try done. intros j Hj. by rewrite decide_False by lia.
  - pose proof (wf_fits _ Hw). pose proof (wf_off _ Hw).
    destruct (set_spec m s true Hw ltac:(lia)) as (m1 & E1 & Hw1 & L1 & O1 & B1).
    destruct (IH m1 (s + 1) Hw1 ltac:(lia) ltac:(lia)) as (m2 & E2 & Hw2 & L2 & O2 & B2).
    exists m2. cbn [mark_loop]. rewrite (st_bind_eq _ _ m m m) by done.
    cbn beta. rewrite (u32_small (offset m + s)), (u32_small (s + 1)) by lia.
    erewrite st_bind_eq by exact E1.
    split_and!; [done..|congruence|congruence|].
    intros j Hj. rewrite B2, B1 by done. repeat case_decide; done || lia.
Qed.

Lemma scan_first_fit m count :
  wf m → 1 <= count < 4294967296 →
  (∃ s m', bitmap_scan count m = Ok (offset m + s, m') ∧ free m s count ∧
      (∀ s', s' < s → ¬ free m s' count) ∧
      wf m' ∧ blength m' = blength m ∧ offset m' = offset m ∧
      ∀ j, 0 <= j → bit m' j = if decide (s <= j < s + count) then true else bit m j) ∨
  (bitmap_scan count m = Ok (EOF_, m) ∧ ∀ s, ¬ free m s count).
Proof.
  intros Hw Hc. pose proof (wf_fits _ Hw). pose proof (wf_off _ Hw). pose proof (wf_len _ Hw).
  unfold bitmap_scan. rewrite (u32_small (blength m * 8)) by lia.
  destruct (scan_loop_spec m count (Z.to_nat (blength m * 8)) 0 0) as (r & -> & Hr);
    [done|lia..|left; done| |].
  { intros s Hs (F1 & _). lia. }
  cbn. destruct Hr as [[-> Hnone]|[Hf Hmin]].
  - right. done.
  - left. pose proof Hf as (F1 & F2 & _). destruct (Z.eqb_spec r EOF_) as [->|]; [by unfold EOF_ in *|].
    rewrite (u32_small r) by lia.
    destruct (mark_loop_spec m (Z.to_nat count) r Hw F1 ltac:(lia)) as (m' & E & Hw' & L & O & B).
    exists r, m'. rewrite E. cbn. rewrite O, s32_small by lia.
    split_and!; try done.
    + unfold mret, res_ret. do 2 f_equal. lia.
    + intros j Hj. rewrite B by done. repeat case_decide; done || lia.
Qed.

(** A well-formed map is its bits. *)
Lemma bits_ext m m' :
  wf m → wf m' → blength m' = blength m → offset m' = offset m →
  (∀ i, 0 <= i < blength m * 8 → bit m' i = bit m i) → m' = m.
Proof.
  intros [L1 B1 O1 F1] [L2 B2 O2 F2] HL HO HB. destruct m as [l len off], m' as [l' len' off']. cbn in *.
  subst len' off'. assert (l' = l) as E; [|by rewrite HL, E]. apply (list_eq_same_length _ _ (length l)); [lia|lia|].
  intros i x y Hi Hx Hy. apply Z.bits_inj'. intros k Hk. destruct (decide (k < 8)).
  - specialize (HB (8 * Z.of_nat i + k) ltac:(lia)). unfold bit in HB. cbn in HB.
    replace ((8 * Z.of_nat i + k) / 8) with (Z.of_nat i) in HB by (apply (Z.div_unique _ _ _ k); lia).
    replace ((8 * Z.of_nat i + k) mod 8) with k in HB by (apply (Z.mod_unique _ _ (Z.of_nat i)); lia).
    rewrite Nat2Z.id, Hx, Hy in HB. done.
  - rewrite Forall_lookup in B1, B2. by rewrite !byte_high by (eauto || lia).
Qed.

(** [bitmap_scan] is first fit: on a well-formed map, for a positive [count], it
    either finds the lowest run of [count] clear bits, marks exactly these bits and
    answers the index of the first, or - when no such run exists - answers [EOF] and
    leaves the map alone.  It never fails an assertion and never runs past the map. *)
Theorem bitmap_scan_first_fit m count :
  wf m → 1 <= count < 4294967296 →
  (∃ s m', bitmap_scan count m = Ok (offset m + s, m') ∧ free m s count ∧
      (∀ s', s' < s → ¬ free m s' count) ∧
      wf m' ∧ blength m' = blength m ∧ offset m' = offset m ∧
      ∀ j, 0 <= j → bit m' j = if decide (s <= j < s + count) then true else bit m j) ∨
  (bitmap_scan count m = Ok (EOF_, m) ∧ ∀ s, ¬ free m s count).
Proof. apply scan_first_fit. Qed.

(** [bitmap_set] writes one bit and [bitmap_test] reads it: after
    [bitmap_set(offset + i, v)] bit [i] tests as [v] and every other bit as before. *)
Theorem bitmap_set_test m i v :
  wf m → 0 <= i < blength m * 8 →
  ∃ m', bitmap_set (offset m + i) v m = Ok ((), m') ∧ wf m' ∧
    ∀ j, 0 <= j < blength m * 8 →
      bitmap_test m' (offset m + j) = if decide (j = i) then Ok v else bitmap_test m (offset m + j).
Proof.
  intros Hw Hi. destruct (set_spec m i v Hw Hi) as (m' & E & Hw' & L & O & B).
  exists m'. split_and!; [done..|]. intros j Hj.
  rewrite <- O, test_spec by (done || lia). rewrite B by lia.
  case_decide; [done|]. by rewrite O, test_spec.
Qed.

(** The assertions of [bitmap_test] and [bitmap_set] are exactly the bounds: an
    index outside the map stops both. *)
Theorem bitmap_bounds_checked m i v :
  wf m → 0 <= i < 4294967296 →
  i < offset m ∨ offset m + blength m * 8 <= i →
  bitmap_test m i = Stop Panic ∧ bitmap_set i v m = Stop Panic.
Proof.
  intros Hw Hi Hout. pose proof (wf_fits _ Hw). pose proof (wf_off _ Hw).
  unfold bitmap_test, bitmap_set. destruct (Z.leb_spec (offset m) i); [|done].
  rewrite u32_small by lia. cbn.
  destruct (Z.ltb_spec ((i - offset m) / 8) (blength m)) as [Hlt|]; [|done].
  exfalso. assert (blength m <= (i - offset m) / 8); [|lia].
  apply Z.div_le_lower_bound; lia.
Qed.

(** Two bytes from index 16: bits 0, 1 and 4 taken. *)
Definition demo_map : bitmap_t := BitMap [19; 0] 2 16.

Lemma bitmap_demo_wf : wf demo_map.
Proof. split; cbn; try lia. repeat constructor; lia. Qed.

Example demo_scan : bitmap_scan 3 demo_map = Ok (21, BitMap [243; 0] 2 16).
Proof. reflexivity. Qed.

Lemma bitmap_scan_first_fit_witness :
  wf demo_map ∧ 1 <= 3 < 4294967296 ∧
  ((∃ s m', bitmap_scan 3 demo_map = Ok (offset demo_map + s, m') ∧ free demo_map s 3 ∧
      (∀ s', s' < s → ¬ free demo_map s' 3) ∧
      wf m' ∧ blength m' = blength demo_map ∧ offset m' = offset demo_map ∧
      ∀ j, 0 <= j → bit m' j = if decide (s <= j < s + 3) then true else bit demo_map j) ∨
   (bitmap_scan 3 demo_map = Ok (EOF_, demo_map) ∧ ∀ s, ¬ free demo_map s 3)).
Proof.
  split; [exact bitmap_demo_wf|]. split; [lia|].
  exact (bitmap_scan_first_fit demo_map 3 bitmap_demo_wf ltac:(lia)).
Defined.

Lemma bitmap_set_test_witness :
  ∃ m', bitmap_set (offset demo_map + 5) true demo_map = Ok ((), m') ∧ wf m' ∧
    ∀ j, 0 <= j < blength demo_map * 8 →
      bitmap_test m' (offset demo_map + j) = if decide (j = 5) then Ok true else bitmap_test demo_map (offset demo_map + j).
Proof. apply (bitmap_set_test demo_map 5 true bitmap_demo_wf). cbn. lia. Defined.

Lemma bitmap_bounds_checked_witness :
  bitmap_test demo_map 32 = Stop Panic ∧ bitmap_set 32 true demo_map = Stop Panic.
Proof. apply (bitmap_bounds_checked demo_map 32 true bitmap_demo_wf); cbn; lia. Defined.
