(* ===== verification/KStdlib.v ===== *)
(** * Small conversions (src/lib/stdlib.c) *)

From S2P Require Import Prelude.

Definition bcd_to_bin (value : Z) : Z := u8 (Z.land (u8 value) 0xf + Z.shiftr (u8 value) 4 * 10).

Definition bin_to_bcd (value : Z) : Z :=
  u8 (Z.shiftl (u8 value / 10) 4 + u8 value mod 10).

(** A zero divisor raises the divide exception. *)
Definition div_round_up (num size : Z) : res Z :=
  if size =? 0 then Stop Panic else Ok (u32 (u32 (num + size) - 1) / size).

(** [str[i]] of a string with its terminating zero: characters are signed. *)
Definition char_at (str : list Z) (i : Z) : res Z := zget str i.

Fixpoint skip_blanks (fuel : nat) (str : list Z) (i : Z) : res Z :=
  match fuel with
  | O => Stop NoFuel
  | S fuel => c ← char_at str i; if c =? 32 then skip_blanks fuel str (i + 1) else mret i
  end.

Fixpoint digits_loop (fuel : nat) (str : list Z) (i result : Z) : res Z :=
  match fuel with
  | O => Stop NoFuel
  | S fuel =>
      c ← char_at str i;
      if (48 <=? c) && (c <=? 57)
      then digits_loop fuel str (i + 1) (u32 (result * 10 + (c - 48)))
      else mret result
  end.

(** [None] is the null pointer. *)
Definition atoi (str : option (list Z)) : res Z :=
  match str with
  | None => mret 0
  | Some str =>
      let fuel := S (length str) in
      i ← skip_blanks fuel str 0;
      c ← char_at str i;
      let sign := if c =? 45 then -1 else 1 in
      let i := if (c =? 45) || (c =? 43) then i + 1 else i in
      r ← digits_loop fuel str i 0;
      mret (u32 (r * sign))
  end.

(** ** Binary coded decimals *)

(** The two conversions are inverse on two-digit numbers, and [bcd_to_bin] reads the two
    halves of the byte as decimal digits. *)
Theorem bcd_roundtrip v :
  0 <= v < 100 →
  bcd_to_bin (bin_to_bcd v) = v ∧ bin_to_bcd v = 16 * (v / 10) + v mod 10.
Proof.
  intros Hv. assert (E : v ∈ seqZ 0 100) by (apply elem_of_seqZ; lia).
  assert (W : forallb (λ v, (bcd_to_bin (bin_to_bcd v) =? v) && (bin_to_bcd v =? 16 * (v / 10) + v mod 10)) (seqZ 0 100) = true)
    by (vm_compute; reflexivity).
  rewrite forallb_forall in W. apply list_elem_of_In in E. specialize (W v E).
  rewrite andb_true_iff, !Z.eqb_eq in W. exact W.
Qed.

Lemma bcd_roundtrip_witness :
  0 <= 59 < 100 ∧ bcd_to_bin (bin_to_bcd 59) = 59 ∧ bin_to_bcd 59 = 16 * (59 / 10) + 59 mod 10.
Proof. split; [lia|]. exact (bcd_roundtrip 59 ltac:(lia)). Defined.

(** ** Rounding up *)

(** The least number of blocks of [size] that hold [num], as long as the sum does not wrap. *)
Lemma div_round_up_ceil num size :
  0 <= num → 0 < size → num + size <= 4294967296 →
  ∃ n, div_round_up num size = Ok n ∧ num <= n * size ∧ (∀ k, num <= k * size → n <= k).
Proof.
  intros Hn Hs Hsum. unfold div_round_up. destruct (Z.eqb_spec size 0); [lia|].
  rewrite u32_sub_l, u32_small by lia. exists ((num + size - 1) / size). split; [done|].
  pose proof (Z.div_mod (num + size - 1) size ltac:(lia)).
  pose proof (Z.mod_pos_bound (num + size - 1) size ltac:(lia)). split; [nia|].
  intros k Hk. apply Z.lt_succ_r, Z.div_lt_upper_bound; nia.
Qed.

(** ** atoi *)

Definition digit (c : Z) : bool := (48 <=? c) && (c <=? 57).

(** The value of a digit string, most significant digit first. *)
Definition value (ds : list Z) : Z := foldl (λ r c, r * 10 + (c - 48)) 0 ds.

Lemma char_at_app l1 c l2 : char_at (l1 ++ c :: l2) (Z.of_nat (length l1)) = Ok c.
Proof.
  apply zget_Ok. split; [lia|]. rewrite Nat2Z.id, lookup_app_r by lia.
  by rewrite Nat.sub_diag.
Qed.

Lemma skip_blanks_spec n fuel l1 c l2 :
  c ≠ 32 → (n < fuel)%nat →
  skip_blanks fuel (l1 ++ replicate n 32 ++ c :: l2) (Z.of_nat (length l1)) =
    Ok (Z.of_nat (length l1 + n)).
Proof.
  intros Hc. revert fuel l1. induction n as [|n IH]; intros fuel l1 Hf; (destruct fuel as [|fuel]; [lia|]).
  - cbn [skip_blanks replicate app]. rewrite char_at_app. cbn.
    destruct (Z.eqb_spec c 32); [done|]. by rewrite Nat.add_0_r.
  - cbn [skip_blanks replicate app]. rewrite char_at_app. cbn -[skip_blanks].
    replace (l1 ++ 32 :: replicate n 32 ++ c :: l2) with ((l1 ++ [32]) ++ replicate n 32 ++ c :: l2)
      by (by rewrite <- app_assoc).
    replace (Z.of_nat (length l1) + 1) with (Z.of_nat (length (l1 ++ [32]))) by (rewrite length_app; cbn; lia).
    rewrite IH by lia. f_equal. rewrite length_app. cbn. lia.
Qed.

Lemma value_mod ds x y :
  u32 x = u32 y →
  u32 (foldl (λ r c, r * 10 + (c - 48)) x ds) = u32 (foldl (λ r c, r * 10 + (c - 48)) y ds).
Proof.
  revert x y. induction ds as [|d ds IH]; intros x y E; [done|]. cbn [foldl]. apply IH.
  by rewrite <- (u32_add_l (x * 10)), <- (u32_add_l (y * 10)), <- (u32_mul_l x), <- (u32_mul_l y), E.
Qed.

Lemma digits_loop_spec ds fuel l1 c l2 r :
  forallb digit ds = true → digit c = false → (length ds < fuel)%nat →
  ∃ v, digits_loop fuel (l1 ++ ds ++ c :: l2) (Z.of_nat (length l1)) r = Ok v ∧
    u32 v = u32 (foldl (λ r c, r * 10 + (c - 48)) r ds).
Proof.
  intros Hds Hc. revert fuel l1 r Hds. induction ds as [|d ds IH]; intros fuel l1 r Hds Hf;
    (destruct fuel as [|fuel]; [cbn in Hf; lia|]); cbn [digits_loop app].
  - rewrite char_at_app. cbn. fold (digit c). rewrite Hc. by exists r.
  - cbn [forallb length foldl] in *. apply andb_true_iff in Hds as [Hd Hds].
    rewrite char_at_app. cbn -[digits_loop Z.add Z.sub Z.mul u32]. fold (digit d). rewrite Hd.
    replace (l1 ++ d :: ds ++ c :: l2) with ((l1 ++ [d]) ++ ds ++ c :: l2) by (by rewrite <- app_assoc).
    replace (Z.of_nat (length l1) + 1) with (Z.of_nat (length (l1 ++ [d]))) by (rewrite length_app; cbn; lia).
    destruct (IH fuel (l1 ++ [d]) (u32 (r * 10 + (d - 48))) Hds ltac:(lia)) as (v & E & Hv).
    exists v. split; [exact E|]. rewrite Hv. apply value_mod, u32_idemp.
Qed.

(** The sign characters of a number, and its factor. *)
Inductive sign := NoSign | Plus | Minus.
Definition sign_text (s : sign) : list Z :=
  match s with NoSign => [] | Plus => [43] | Minus => [45] end.
Definition sign_factor (s : sign) : Z := match s with Minus => -1 | _ => 1 end.

(** [atoi] reads a number: leading blanks, an optional sign, then the digits up to
    the first other character; the answer is the number modulo 2^32, and the scan stays
    inside the string. *)
Lemma atoi_spec blanks sg d ds c rest :
  forallb digit (d :: ds) = true → digit c = false →
  atoi (Some (replicate blanks 32 ++ sign_text sg ++ (d :: ds) ++ c :: rest)) =
    Ok (u32 (sign_factor sg * value (d :: ds))).
Proof.
  intros Hds Hc. set (str := replicate blanks 32 ++ sign_text sg ++ (d :: ds) ++ c :: rest).
  assert (Hd : 48 <= d <= 57).
  { cbn [forallb] in Hds. apply andb_true_iff in Hds as [Hd _]. unfold digit in Hd.
    apply andb_true_iff in Hd. rewrite !Z.leb_le in Hd. lia. }
  assert (Hlen : (blanks + length (d :: ds) < S (length str))%nat).
  { unfold str. rewrite !length_app, length_replicate. cbn [length]. lia. }
  assert (Hhead : ∃ h t, sign_text sg ++ (d :: ds) ++ c :: rest = h :: t ∧ h ≠ 32).
  { destruct sg; cbn; do 2 eexists; (split; [reflexivity|lia]). }
  destruct Hhead as (h & t & Eht & Hh).
  assert (Eskip : skip_blanks (S (length str)) str 0 = Ok (Z.of_nat blanks)).
  { unfold str. rewrite Eht. apply (skip_blanks_spec blanks _ [] h t Hh).
    rewrite <- Eht. fold str. lia. }
  assert (Echar : char_at str (Z.of_nat blanks) = Ok h).
  { unfold str. rewrite Eht. rewrite <- (length_replicate blanks 32) at 2. apply char_at_app. }
  assert (Edig : ∀ k, k = Z.of_nat (blanks + length (sign_text sg)) →
    ∃ v, digits_loop (S (length str)) str k 0 = Ok v ∧ u32 v = u32 (value (d :: ds))).
  { intros k ->. unfold str at 2. rewrite app_assoc.
    replace (blanks + length (sign_text sg))%nat with (length (replicate blanks 32 ++ sign_text sg))
      by (by rewrite length_app, length_replicate).
    apply digits_loop_spec; [done..|lia]. }
  unfold atoi. rewrite Eskip. cbn -[digits_loop u32 value Z.mul]. rewrite Echar.
  cbn -[digits_loop u32 value Z.mul].
  assert (Hi : (if (h =? 45) || (h =? 43) then Z.of_nat blanks + 1 else Z.of_nat blanks) =
               Z.of_nat (blanks + length (sign_text sg)) ∧ (if h =? 45 then -1 else 1) = sign_factor sg).
  { destruct sg; cbn in Eht; injection Eht as <- _; cbn.
    - destruct (Z.eqb_spec d 45), (Z.eqb_spec d 43); try lia. cbn. split; [lia|done].
    - split; [lia|done].
    - split; [lia|done]. }
  destruct Hi as [-> ->]. destruct (Edig _ eq_refl) as (v & -> & Hv).
  cbn -[u32 value Z.mul]. unfold mret, res_ret. f_equal.
  by rewrite <- u32_mul_l, Hv, u32_mul_l, Z.mul_comm.
Qed.

Example atoi_minus_42 : atoi (Some [32; 32; 45; 52; 50; 0]) = Ok 4294967254.
Proof. reflexivity. Qed.
