(* ===== verification/KTime.v ===== *)
(** * Calendar time (src/lib/time.c, src/kernel/time.c)

    [mktime], [localtime] and [get_yday] against an independent definition of the
    Gregorian calendar, and the reading of the CMOS clock. *)

From S2P Require Import Prelude KStdlib.

(** ** lib/time.c *)

Definition MINUTE : Z := 60.
Definition HOUR : Z := 60 * MINUTE.
Definition DAY : Z := 24 * HOUR.
Definition YEAR : Z := 365 * DAY.

(** Days before each month of a leap year; entry 0 is a place holder. *)
Definition month : list Z :=
  [0; 0; 31; 31 + 29; 31 + 29 + 31; 31 + 29 + 31 + 30; 31 + 29 + 31 + 30 + 31;
   31 + 29 + 31 + 30 + 31 + 30; 31 + 29 + 31 + 30 + 31 + 30 + 31;
   31 + 29 + 31 + 30 + 31 + 30 + 31 + 31; 31 + 29 + 31 + 30 + 31 + 30 + 31 + 31 + 30;
   31 + 29 + 31 + 30 + 31 + 30 + 31 + 31 + 30 + 31;
   31 + 29 + 31 + 30 + 31 + 30 + 31 + 31 + 30 + 31 + 30].

Record tm := Tm {
  tm_sec : Z; tm_min : Z; tm_hour : Z; tm_mday : Z; tm_mon : Z; tm_year : Z;
  tm_wday : Z; tm_yday : Z; tm_isdst : Z
}.

Definition elapsed_leap_years (year : Z) : Z :=
  Z.quot (year - 1) 4 - Z.quot (year - 1) 100 + Z.quot (year + 299) 400 - (1970 - 1900) ÷ 4.

Definition is_leap_year (year : Z) : bool :=
  ((Z.rem year 4 =? 0) && negb (Z.rem year 100 =? 0)) || (Z.rem (year + 1900) 400 =? 0).

(** The loop over the months: the first one that starts after the day. *)
Fixpoint month_loop (fuel : nat) (mon offset yday : Z) : res Z :=
  match fuel with
  | O => mret mon
  | S fuel =>
      m ← zget month mon;
      if yday <? m - offset then mret mon else month_loop fuel (mon + 1) offset yday
  end.

(** [stamp] and [days] are unsigned words; [tm_isdst] is not written. *)
Definition localtime (stamp : Z) (time : tm) : res tm :=
  let sec := stamp mod 60 in
  let remain := stamp / 60 in
  let min := remain mod 60 in
  let remain := remain / 60 in
  let hour := remain mod 24 in
  let days := remain / 24 in
  let wday := u32 (days + 4) mod 7 in
  let years := s32 (days / 365 + 70) in
  let offset := if is_leap_year years then 0 else 1 in
  let days := u32 (days - elapsed_leap_years years) in
  let yday := days mod (366 - offset) in
  mon ← month_loop 12 1 offset yday;
  let mon := mon - 1 in
  m ← zget month mon;
  mret (Tm sec min hour (yday - m + offset + 1) mon years wday yday (tm_isdst time)).

(** The number of years after 1970 that [tm_year] stands for. *)
Definition since_1970 (y : Z) : Z := if 70 <=? y then y - 70 else y - 70 + 100.

Definition mktime (time : tm) : res Z :=
  let year := since_1970 (tm_year time) in
  let r := u32 (s32 (YEAR * year)) in
  let r := u32 (r + s32 (DAY * Z.quot (year + 1) 4)) in
  m ← zget month (tm_mon time);
  let r := u32 (r + s32 (m * DAY)) in
  let r := if (2 <? tm_mon time) && negb (Z.rem (year + 2) 4 =? 0) then u32 (r - DAY) else r in
  let r := u32 (r + s32 (DAY * (tm_mday time - 1))) in
  let r := u32 (r + s32 (HOUR * tm_hour time)) in
  let r := u32 (r + s32 (MINUTE * tm_min time)) in
  mret (u32 (r + tm_sec time)).

Definition get_yday (time : tm) : res Z :=
  m ← zget month (tm_mon time);
  let r := s32 (m + tm_mday time) in
  let year := since_1970 (tm_year time) in
  mret (if negb (Z.rem (year + 2) 4 =? 0) && (2 <? tm_mon time) then r - 1 else r).

(** ** The calendar

    Days are counted from 1 January 1970, one day at a time. *)

Definition leap (y : Z) : bool :=
  (y mod 4 =? 0) && negb (y mod 100 =? 0) || (y mod 400 =? 0).

Definition days_in (y m : Z) : Z :=
  if m =? 2 then (if leap y then 29 else 28)
  else if (m =? 4) || (m =? 6) || (m =? 9) || (m =? 11) then 30 else 31.

(** A date is (year, month, day of the month). *)
Definition date := (Z * Z * Z)%type.

Definition next_day (t : date) : date :=
  let '(y, m, d) := t in
  if d <? days_in y m then (y, m, d + 1)
  else if m <? 12 then (y, m + 1, 1) else (y + 1, 1, 1).

Definition epoch : date := (1970, 1, 1).

Definition civil (k : Z) : date := Nat.iter (Z.to_nat k) next_day epoch.

Lemma civil_succ k : 0 <= k → civil (k + 1) = next_day (civil k).
Proof. intros. unfold civil. by rewrite Z2Nat.inj_add, Nat.add_comm by lia. Qed.

(** Check a property of every day number below [n], walking the calendar once. *)
Fixpoint walk (P : Z → date → bool) (n : nat) (k : Z) (t : date) : bool :=
  match n with O => true | S n => P k t && walk P n (k + 1) (next_day t) end.

Lemma walk_from P n j :
  0 <= j → walk P n j (civil j) = true →
  ∀ i, j <= i < j + Z.of_nat n → P i (civil i) = true.
Proof.
  revert j. induction n as [|n IH]; intros j Hj H i Hi; [lia|].
  cbn [walk] in H. apply andb_true_iff in H as [H1 H2].
  destruct (decide (i = j)) as [->|]; [done|].
  apply (IH (j + 1)); [lia| |lia]. by rewrite civil_succ.
Qed.

Lemma walk_all P n :
  walk P (Z.to_nat n) 0 epoch = true → ∀ i, 0 <= i < n → P i (civil i) = true.
Proof. intros H i Hi. apply (walk_from P (Z.to_nat n) 0); [lia|done|lia]. Qed.

(** ** mktime *)

Lemma u32_s32 x : u32 (s32 x) = u32 x.
Proof.
  unfold u32, s32. rewrite Zminus_mod_idemp_l. f_equal. lia.
Qed.

Lemma u32_acc x y : u32 (u32 x + s32 y) = u32 (x + y).
Proof. rewrite u32_add_l, Z.add_comm, <- u32_add_l, u32_s32, u32_add_l. f_equal. lia. Qed.

(** Drop the intermediate truncations of a chain of additions, innermost first. *)
Ltac no_u32 x := lazymatch x with context [u32 _] => fail | _ => idtac end.
Ltac u32_collect :=
  repeat match goal with
  | |- context [u32 (u32 ?x + s32 ?y)] => no_u32 x; rewrite (u32_acc x y)
  | |- context [u32 (u32 ?x - ?y)] => no_u32 x; rewrite (u32_sub_l x y)
  | |- context [u32 (u32 ?x + ?y)] => no_u32 x; rewrite (u32_add_l x y)
  end.

(** The day number [mktime] adds up, without the word arithmetic. *)
Definition day_number (year mon mday : Z) : Z :=
  365 * year + Z.quot (year + 1) 4 + nth (Z.to_nat mon) month 0
  - (if (2 <? mon) && negb (Z.rem (year + 2) 4 =? 0) then 1 else 0) + mday - 1.

Lemma month_lookup mon : 1 <= mon <= 12 → zget month mon = Ok (nth (Z.to_nat mon) month 0).
Proof.
  intros Hm. apply zget_Ok. split; [lia|].
  assert (H : Z.to_nat mon ∈ seq 1 12) by (apply elem_of_seq; lia).
  cbn in H. repeat (apply elem_of_cons in H as [->|H]; [done|]). by apply elem_of_nil in H.
Qed.

Lemma mktime_value t :
  1 <= tm_mon t <= 12 →
  mktime t = Ok (u32 (86400 * day_number (since_1970 (tm_year t)) (tm_mon t) (tm_mday t)
                      + 3600 * tm_hour t + 60 * tm_min t + tm_sec t)).
Proof.
  intros Hm. unfold mktime. rewrite month_lookup by done. cbn -[u32 s32 Z.mul Z.add Z.quot Z.rem nth month].
  unfold mret, res_ret. f_equal. unfold day_number.
  set (y := since_1970 (tm_year t)). set (m := nth _ _ _). set (q := Z.quot (y + 1) 4).
  destruct ((2 <? tm_mon t) && negb (Z.rem (y + 2) 4 =? 0));
    rewrite u32_s32; u32_collect; f_equal; unfold YEAR, DAY, HOUR, MINUTE; lia.
Qed.

(** A date of the calendar in the years the closed form is meant for. *)
Definition valid (t : date) : Prop :=
  let '(y, m, d) := t in 1970 <= y <= 2099 ∧ 1 <= m <= 12 ∧ 1 <= d <= days_in y m.

Lemma leap_4 y : 1970 <= y <= 2099 → leap y = (y mod 4 =? 0).
Proof. intros Hy. unfold leap. zcases; Z.to_euclidean_division_equations; lia. Qed.

Lemma days_in_range y m : 28 <= days_in y m <= 31.
Proof. unfold days_in. repeat case_match; lia. Qed.

(** Days of year [y] before month [m]. *)
Definition before (y m : Z) : Z :=
  nth (Z.to_nat m) month 0 - (if (2 <? m) && negb (y mod 4 =? 0) then 1 else 0).

Lemma day_number_before y m d :
  1970 <= y → day_number (y - 1970) m d = 365 * (y - 1970) + (y - 1969) / 4 + before y m + d - 1.
Proof.
  intros Hy. unfold day_number, before. rewrite Z.quot_div_nonneg, Z.rem_mod_nonneg by lia.
  replace (y - 1970 + 2) with (y + (-492) * 4) by lia. rewrite Z_mod_plus_full.
  replace (y - 1970 + 1) with (y - 1969) by lia. lia.
Qed.

Lemma before_step y m :
  1970 <= y <= 2099 → 1 <= m < 12 → before y (m + 1) = before y m + days_in y m.
Proof.
  intros Hy Hm. unfold before, days_in. rewrite leap_4 by done.
  assert (H : m = 1 ∨ m = 2 ∨ m = 3 ∨ m = 4 ∨ m = 5 ∨ m = 6 ∨ m = 7 ∨ m = 8 ∨ m = 9 ∨ m = 10 ∨ m = 11) by lia.
  destruct (y mod 4 =? 0); destruct_or! H; subst m; reflexivity.
Qed.

Lemma before_1 y : before y 1 = 0.
Proof. reflexivity. Qed.

Lemma before_12 y : before y 12 = 334 + (if y mod 4 =? 0 then 1 else 0).
Proof. unfold before. by destruct (y mod 4 =? 0). Qed.

(** No day of a year comes after the 366th. *)
Lemma before_le y m d : valid (y, m, d) → before y m + d <= 366.
Proof.
  intros (Hy & Hm & Hd). unfold before, days_in in *. rewrite leap_4 in Hd by done.
  assert (H : m = 1 ∨ m = 2 ∨ m = 3 ∨ m = 4 ∨ m = 5 ∨ m = 6 ∨ m = 7 ∨ m = 8 ∨ m = 9 ∨ m = 10 ∨ m = 11 ∨ m = 12) by lia.
  destruct (y mod 4 =? 0); destruct_or! H; subst m; cbn in Hd;
    match goal with |- context [nth ?k month 0] =>
      let v := eval vm_compute in (nth k month 0) in change (nth k month 0) with v end;
    cbn; lia.
Qed.

Lemma year_step y :
  1970 <= y → day_number (y + 1 - 1970) 1 1 = day_number (y - 1970) 12 31 + 1.
Proof.
  intros Hy. rewrite !day_number_before, before_1, before_12 by lia.
  destruct (Z.eqb_spec (y mod 4) 0); Z.to_euclidean_division_equations; lia.
Qed.

Lemma day_number_step y m d :
  valid (y, m, d) → (y, m, d) ≠ (2099, 12, 31) →
  let '(y', m', d') := next_day (y, m, d) in
  valid (y', m', d') ∧ day_number (y' - 1970) m' d' = day_number (y - 1970) m d + 1 ∧
  (y' = y ∨ (y', m', d') = (y + 1, 1, 1)).
Proof.
  intros (Hy & Hm & Hd) Hend. unfold next_day. pose proof (days_in_range y (m + 1)).
  destruct (Z.ltb_spec d (days_in y m)); [|destruct (Z.ltb_spec m 12)].
  - unfold valid, day_number. repeat split; lia.
  - split; [unfold valid; lia|]. split; [|by left].
    rewrite !day_number_before, before_step by lia. lia.
  - assert (m = 12) as -> by lia. change (days_in y 12) with 31 in *. assert (d = 31) as -> by lia.
    assert (y ≠ 2099) by congruence. split; [|split; [by apply year_step; lia|by right]].
    unfold valid. change (days_in (y + 1) 1) with 31. lia.
Qed.

(** Up to the end of 2099 the calendar is [day_number], and 1 January of the year is
    on the walk. *)
Lemma civil_day_number n :
  0 <= n < 47482 →
  let '(y, m, d) := civil n in
  valid (y, m, d) ∧ day_number (y - 1970) m d = n ∧
  ∃ n1, 0 <= n1 <= n ∧ civil n1 = (y, 1, 1).
Proof.
  intros Hn. destruct Hn as [Hn0 Hn]. revert Hn. pattern n. apply natlike_ind; [| |done].
  - intros _. cbn. repeat split; try (cbn; lia). exists 0. split; [lia|done].
  - intros k Hk IH Hlt. specialize (IH ltac:(lia)). rewrite <- Z.add_1_r, civil_succ by done.
    destruct (civil k) as [[y m] d] eqn:E. destruct IH as (Hv & Hdn & n1 & Hn1 & E1).
    pose proof (day_number_step y m d Hv) as S.
    destruct (next_day (y, m, d)) as [[y' m'] d'] eqn:En.
    destruct S as (Hv' & Hd' & Hyear).
    { intros [= -> -> ->]. vm_compute in Hdn. lia. }
    split; [done|]. split; [lia|]. destruct Hyear as [->|[= -> -> ->]].
    + exists n1. split; [lia|done].
    + exists (k + 1). split; [lia|]. by rewrite civil_succ, E.
Qed.

Lemma day_number_civil n :
  0 <= n < 47482 →
  let '(y, m, d) := civil n in
  day_number (y - 1970) m d = n ∧ 1 <= m <= 12 ∧ 1970 <= y <= 2099 ∧ 1 <= d <= 31.
Proof.
  intros Hn. pose proof (civil_day_number n Hn) as H. destruct (civil n) as [[y m] d].
  destruct H as ((Hy & Hm & Hd) & E & _). pose proof (days_in_range y m). lia.
Qed.

(** The year as [tm_year] gives it: years since 1900, or, for 2000 to 2069, the two
    digits the CMOS clock has. *)
Definition year_field (y f : Z) : Prop := f = y - 1900 ∨ (2000 <= y <= 2069 ∧ f = y - 2000).

Lemma since_1970_field y f : 1970 <= y → year_field y f → since_1970 f = y - 1970.
Proof. intros Hy [->|[? ->]]; unfold since_1970; zcases; lia. Qed.

(** [mktime] is the calendar: for every date from 1970 to the end of 2099, given
    with the full or with the two-digit year, and every time of day, the answer is the
    number of seconds since the epoch, [86400] for every day the Gregorian calendar
    counts up to the date. *)
Theorem mktime_correct t n y m d :
  civil n = (y, m, d) → 0 <= n < 47482 →
  tm_mon t = m → tm_mday t = d → year_field y (tm_year t) →
  0 <= tm_hour t < 24 → 0 <= tm_min t < 60 → 0 <= tm_sec t < 60 →
  mktime t = Ok (86400 * n + 3600 * tm_hour t + 60 * tm_min t + tm_sec t).
Proof.
  intros Hc Hn <- <- Hy Hh Hmi Hs. pose proof (day_number_civil n Hn) as H. rewrite Hc in H.
  destruct H as (E & Hm & Hy' & _).
  rewrite mktime_value by done. rewrite (since_1970_field y) by (done || lia). rewrite E.
  f_equal. apply u32_small. lia.
Qed.

Lemma mktime_correct_witness :
  civil 11016 = (2000, 2, 29) ∧
  mktime (Tm 56 34 12 29 2 0 0 0 0) = Ok (86400 * 11016 + 3600 * 12 + 60 * 34 + 56).
Proof.
  assert (E : civil 11016 = (2000, 2, 29)) by (vm_compute; reflexivity).
  split; [exact E|].
  apply (mktime_correct (Tm 56 34 12 29 2 0 0 0 0) 11016 2000 2 29 E); cbn; try lia.
  right. lia.
Defined.

(** ** get_yday *)

(** [get_yday] counts the days of the year from 1: for every date up to the end
    of 2099 it answers how many days ago 1 January of that year was, plus one. *)
Theorem get_yday_correct t n y m d :
  civil n = (y, m, d) → 0 <= n < 47482 →
  tm_mon t = m → tm_mday t = d → year_field y (tm_year t) →
  ∃ n1, n1 <= n < n1 + 366 ∧ civil n1 = (y, 1, 1) ∧ get_yday t = Ok (n - n1 + 1).
Proof.
  intros Hc Hn <- <- Hy. pose proof (civil_day_number n Hn) as H. rewrite Hc in H.
  destruct H as ((Hy' & Hm & Hd) & E & n1 & Hn1 & E1).
  pose proof (civil_day_number n1 ltac:(lia)) as H1. rewrite E1 in H1. destruct H1 as (_ & En1 & _).
  pose proof (days_in_range y (tm_mon t)).
  assert (Hlt : n < n1 + 366).
  { rewrite <- E, <- En1. rewrite !day_number_before, before_1 by lia.
    pose proof (before_le y (tm_mon t) (tm_mday t)). unfold valid in *. lia. }
  exists n1. split; [lia|]. split; [done|].
  unfold get_yday. rewrite month_lookup by done. cbn -[s32 nth month].
  rewrite (since_1970_field y) by (done || lia).
  assert (Hb : 0 <= nth (Z.to_nat (tm_mon t)) month 0 <= 335).
  { pose proof (month_lookup _ Hm) as Hl. apply zget_Ok in Hl as [_ Hl].
    assert (F : Forall (λ v, 0 <= v <= 335) month) by (repeat constructor; lia).
    apply (proj1 (Forall_lookup _ _) F _ _ Hl). }
  rewrite s32_small by lia. unfold mret, res_ret. f_equal.
  rewrite <- E, <- En1. unfold day_number. change (nth (Z.to_nat 1) month 0) with 0.
  change (2 <? 1) with false. rewrite (andb_comm (2 <? tm_mon t)). cbn [andb].
  destruct (negb _ && _); lia.
Qed.

Lemma get_yday_correct_witness :
  civil 11016 = (2000, 2, 29) ∧
  ∃ n1, n1 <= 11016 < n1 + 366 ∧ civil n1 = (2000, 1, 1) ∧
    get_yday (Tm 0 0 0 29 2 100 0 0 0) = Ok (11016 - n1 + 1).
Proof.
  assert (E : civil 11016 = (2000, 2, 29)) by (vm_compute; reflexivity).
  split; [exact E|].
  apply (get_yday_correct (Tm 0 0 0 29 2 100 0 0 0) 11016 2000 2 29 E); cbn; try lia.
  left. lia.
Defined.

(** ** localtime *)

(** The date [localtime] answers for a day number. *)
Definition lt_date (days : Z) : res (date * Z) :=
  let years := s32 (days / 365 + 70) in
  let offset := if is_leap_year years then 0 else 1 in
  let days := u32 (days - elapsed_leap_years years) in
  let yday := days mod (366 - offset) in
  mon ← month_loop 12 1 offset yday;
  m ← zget month (mon - 1);
  mret ((years + 1900, mon - 1, yday - m + offset + 1), yday).

(** The days whose date is right: from March on in a common year, except the days at
    its end on which [days / 365] is already the next year. *)
Definition lt_right (k : Z) (t : date) : bool :=
  let '(y, m, d) := t in negb (leap y) && (3 <=? m) && (k / 365 =? y - 1970).

Definition lt_check (k : Z) (t : date) : bool :=
  match lt_date k with
  | Ok (t', _) => eqb (bool_decide (t' = t)) (lt_right k t)
  | Stop _ => false
  end.

Lemma lt_date_spec n :
  0 <= n < 24856 →
  ∃ t' yd, lt_date n = Ok (t', yd) ∧ (t' = civil n ↔ lt_right n (civil n) = true).
Proof.
  intros Hn. assert (W : walk lt_check (Z.to_nat 24856) 0 epoch = true) by (vm_compute; reflexivity).
  pose proof (walk_all _ _ W n Hn) as H. clear W. unfold lt_check in H.
  destruct (lt_date n) as [[t' yd]|]; [|done]. exists t', yd. split; [done|].
  apply eqb_prop in H. rewrite <- H. symmetry. apply bool_decide_eq_true.
Qed.

Lemma localtime_lt stamp time :
  localtime stamp time =
    '((y, m, d), yd) ← lt_date (stamp / 86400);
    mret (Tm (stamp mod 60) (stamp / 60 mod 60) (stamp / 3600 mod 24) d m (y - 1900)
            (u32 (stamp / 86400 + 4) mod 7) yd (tm_isdst time)).
Proof.
  unfold localtime, lt_date. rewrite !Z.div_div by lia. change (60 * 60 * 24) with 86400.
  change (60 * 60) with 3600. cbv zeta. set (days := stamp / 86400).
  destruct (month_loop _ _ _ _) as [mon|]; [|done]. cbn -[s32 u32 zget month Z.sub Z.add].
  destruct (zget month (mon - 1)) as [v|]; [|done]. cbn -[s32 u32 Z.sub Z.add].
  unfold mret, res_ret. do 2 f_equal. lia.
Qed.

(** What [localtime] gets right: the time of day and the weekday for every stamp
    up to January 2038;
    the date exactly on the days from March on of a common year on which the number of
    365-day years is still the year.  It is a day late in January and February of every
    common year (stamp 0 is 2 January 1970), and wrong on every day of a leap year. *)
Theorem localtime_exact stamp time :
  0 <= stamp < 2147483648 →
  let n := stamp / 86400 in
  ∃ t', localtime stamp time = Ok t' ∧
    86400 * n + 3600 * tm_hour t' + 60 * tm_min t' + tm_sec t' = stamp ∧
    0 <= tm_hour t' < 24 ∧ 0 <= tm_min t' < 60 ∧ 0 <= tm_sec t' < 60 ∧
    tm_wday t' = (n + 4) mod 7 ∧
    ((tm_year t' + 1900, tm_mon t', tm_mday t') = civil n ↔
     (let '(y, m, _) := civil n in leap y = false ∧ 3 <= m ∧ n / 365 = y - 1970)).
Proof.
  intros Hs n. assert (Hn : 0 <= n < 24856).
  { split; [apply Z.div_pos; lia|]. apply Z.div_lt_upper_bound; lia. }
  destruct (lt_date_spec n Hn) as ([[y m] d] & yd & E & Hiff).
  rewrite localtime_lt. fold n. rewrite E. eexists. split; [reflexivity|].
  cbn [tm_sec tm_min tm_hour tm_mday tm_mon tm_year tm_wday].
  split; [unfold n; Z.to_euclidean_division_equations; lia|].
  split; [apply Z.mod_pos_bound; lia|]. split; [apply Z.mod_pos_bound; lia|].
  split; [apply Z.mod_pos_bound; lia|]. split; [by rewrite u32_small by lia|].
  replace (y - 1900 + 1900) with y by lia. rewrite Hiff.
  destruct (civil n) as [[y' m'] d']. unfold lt_right.
  rewrite !andb_true_iff, negb_true_iff, Z.leb_le, Z.eqb_eq. tauto.
Qed.

Example localtime_0 :
  localtime 0 (Tm 0 0 0 0 0 0 0 0 0) = Ok (Tm 0 0 0 2 1 70 4 0 0).
Proof. reflexivity. Qed.

Lemma localtime_exact_witness :
  let n := 951826000 / 86400 in
  ∃ t', localtime 951826000 (Tm 0 0 0 0 0 0 0 0 0) = Ok t' ∧
    86400 * n + 3600 * tm_hour t' + 60 * tm_min t' + tm_sec t' = 951826000 ∧
    0 <= tm_hour t' < 24 ∧ 0 <= tm_min t' < 60 ∧ 0 <= tm_sec t' < 60 ∧
    tm_wday t' = (n + 4) mod 7 ∧
    ((tm_year t' + 1900, tm_mon t', tm_mday t') = civil n ↔
     (let '(y, m, _) := civil n in leap y = false ∧ 3 <= m ∧ n / 365 = y - 1970)).
Proof. exact (localtime_exact 951826000 (Tm 0 0 0 0 0 0 0 0 0) ltac:(lia)). Defined.

(** ** kernel/time.c: reading the CMOS clock *)

Section Cmos.

(** The k-th register read since boot: [cmos_read] of kernel/rtc.c asks the device. *)
Context (cmos : nat → Z → Z).

Definition CMOS_SECOND : Z := 0x00.
Definition CMOS_MINUTE : Z := 0x02.
Definition CMOS_HOUR : Z := 0x04.
Definition CMOS_WEEKDAY : Z := 0x06.
Definition CMOS_DAY : Z := 0x07.
Definition CMOS_MONTH : Z := 0x08.
Definition CMOS_YEAR : Z := 0x09.
Definition CMOS_CENTURY : Z := 0x32.

(** The state counts the reads. *)
Definition cmos_read (r : Z) : ST nat Z := λ k, Ok (cmos k r, S k).

(** One round of the loop: the eight values, and whether the second changed. *)
Definition read_round : ST nat (tm * Z * bool) :=
  sec ← cmos_read CMOS_SECOND;
  min ← cmos_read CMOS_MINUTE;
  hour ← cmos_read CMOS_HOUR;
  wday ← cmos_read CMOS_WEEKDAY;
  mday ← cmos_read CMOS_DAY;
  mon ← cmos_read CMOS_MONTH;
  year ← cmos_read CMOS_YEAR;
  century ← cmos_read CMOS_CENTURY;
  sec2 ← cmos_read CMOS_SECOND;
  mret (Tm sec min hour mday mon year wday 0 0, century, negb (sec =? sec2)).

Fixpoint time_read_bcd (fuel : nat) : ST nat (tm * Z) :=
  match fuel with
  | O => stop_st NoFuel
  | S fuel =>
      '(t, century, again) ← read_round;
      if (again : bool) then time_read_bcd fuel else mret (t, century)
  end.



Definition time_read (fuel : nat) : ST nat (tm * Z) :=
  '(t, century) ← time_read_bcd fuel;
  let t := Tm (bcd_to_bin (tm_sec t)) (bcd_to_bin (tm_min t)) (bcd_to_bin (tm_hour t))
              (bcd_to_bin (tm_mday t)) (bcd_to_bin (tm_mon t)) (bcd_to_bin (tm_year t))
              (bcd_to_bin (tm_wday t)) 0 (-1) in
  yday ← lift_st (get_yday t);
  mret (Tm (tm_sec t) (tm_min t) (tm_hour t) (tm_mday t) (tm_mon t) (tm_year t)
           (tm_wday t) yday (-1), bcd_to_bin century).

Definition time_init (fuel : nat) : ST nat Z :=
  '(t, _) ← time_read fuel; lift_st (mktime t).

(** The device: at read [k] it is [now k] seconds, time does not run backwards, the
    registers are functions of the second, and the seconds register tells apart
    instants less than a minute apart. *)
Context (now : nat → Z) (reg : Z → Z → Z).
Hypothesis cmos_reg : ∀ k r, cmos k r = reg r (now k).
Hypothesis now_mono : ∀ j k, (j <= k)%nat → now j <= now k.
Hypothesis seconds_tell : ∀ t t', t <= t' < t + 60 → reg CMOS_SECOND t = reg CMOS_SECOND t' → t = t'.
(** Nine reads take less than a minute. *)
Hypothesis fast : ∀ k, now (k + 8)%nat < now k + 60.

(** The registers of one instant. *)
Definition snapshot (t : Z) : tm * Z :=
  (Tm (reg CMOS_SECOND t) (reg CMOS_MINUTE t) (reg CMOS_HOUR t) (reg CMOS_DAY t)
      (reg CMOS_MONTH t) (reg CMOS_YEAR t) (reg CMOS_WEEKDAY t) 0 0, reg CMOS_CENTURY t).

Lemma round_spec k :
  ∃ t c b, read_round k = Ok ((t, c, b), (9 + k)%nat) ∧
    b = negb (reg CMOS_SECOND (now k) =? reg CMOS_SECOND (now (k + 8)%nat)) ∧
    (b = false → (t, c) = snapshot (now k)).
Proof.
  do 3 eexists. split; [reflexivity|]. rewrite !cmos_reg.
  split; [by replace (k + 8)%nat with (S (S (S (S (S (S (S (S k)))))))) by lia|].
  rewrite negb_false_iff, Z.eqb_eq. intros E.
  assert (Hsame : now k = now (k + 8)%nat).
  { apply seconds_tell.
    - split; [apply now_mono; lia|apply fast].
    - by replace (k + 8)%nat with (S (S (S (S (S (S (S (S k)))))))) by lia. }
  assert (Hall : ∀ j, (j <= 8)%nat → now (j + k)%nat = now k).
  { intros j Hj. pose proof (now_mono k (j + k)%nat ltac:(lia)).
    pose proof (now_mono (j + k)%nat (k + 8)%nat ltac:(lia)). lia. }
  assert (E1 : now (S k) = now k) by (apply (Hall 1%nat); lia).
  assert (E2 : now (S (S k)) = now k) by (apply (Hall 2%nat); lia).
  assert (E3 : now (S (S (S k))) = now k) by (apply (Hall 3%nat); lia).
  assert (E4 : now (S (S (S (S k)))) = now k) by (apply (Hall 4%nat); lia).
  assert (E5 : now (S (S (S (S (S k))))) = now k) by (apply (Hall 5%nat); lia).
  assert (E6 : now (S (S (S (S (S (S k)))))) = now k) by (apply (Hall 6%nat); lia).
  assert (E7 : now (S (S (S (S (S (S (S k))))))) = now k) by (apply (Hall 7%nat); lia).
  unfold snapshot. by rewrite E1, E2, E3, E4, E5, E6, E7.
Qed.

(** The clock is read consistently: if during some round of at most [fuel] rounds
    the second does not change, [time_read_bcd] returns, and the values it returns are
    those of one single instant during the call, although the registers were read one
    after the other while the clock ran. *)
Theorem time_read_consistent k fuel j :
  (j < fuel)%nat → now (k + 9 * j)%nat = now (k + 9 * j + 8)%nat →
  ∃ i k', time_read_bcd fuel k = Ok (snapshot (now i), k') ∧ (k <= i < k')%nat.
Proof.
  revert k j. induction fuel as [|fuel IH]; intros k j Hj Hq; [lia|].
  destruct (round_spec k) as (t & c & b & E & Hb & Hs).
  cbn [time_read_bcd]. rewrite (st_bind_eq _ _ _ _ _ E).
  destruct b.
  - destruct j as [|j].
    + rewrite Nat.mul_0_r, Nat.add_0_r in Hq. rewrite <- Hq, Z.eqb_refl in Hb. done.
    + destruct (IH (9 + k)%nat j) as (i & k' & E' & Hi); [lia|
        replace (9 + k + 9 * j)%nat with (k + 9 * S j)%nat by lia; exact Hq|].
      exists i, k'. split; [exact E'|lia].
  - exists k, (9 + k)%nat. rewrite (Hs eq_refl). split; [done|lia].
Qed.

End Cmos.

(** A device that counts one second every 100 reads, in decimal registers. *)
Definition demo_now (k : nat) : Z := Z.of_nat k / 100.
Definition demo_reg (r t : Z) : Z := if r =? CMOS_SECOND then t mod 60 else t / 60.

Lemma time_read_consistent_witness :
  ∃ i k', time_read_bcd (λ k r, demo_reg r (demo_now k)) 3 95%nat = Ok (snapshot demo_reg (demo_now i), k') ∧
    (95 <= i < k')%nat.
Proof.
  apply (time_read_consistent (λ k r, demo_reg r (demo_now k)) demo_now demo_reg) with (j := 1%nat).
  - reflexivity.
  - intros j k Hjk. unfold demo_now. apply Z.div_le_mono; lia.
  - intros t t' Ht. unfold demo_reg, CMOS_SECOND. cbn. intros E.
    revert E. Z.to_euclidean_division_equations. lia.
  - intros k. unfold demo_now. Z.to_euclidean_division_equations. lia.
  - lia.
  - reflexivity.
Defined.
