(* ===== verification/KString.v ===== *)
(** * C strings and memory blocks (src/lib/string.c)

    Pointers are addresses of a byte store; an access to an address that holds
    nothing stops the model.  Every loop takes fuel, and every theorem shows how much
    is enough. *)

From S2P Require Import Prelude.

(** The bytes, as the signed [char] they are read as. *)
Abbreviation mem := (gmap Z Z).
Definition M := ST mem.

Definition EOS : Z := 0.
Definition NULL : Z := 0.
Definition IS_SEPARATOR (c : Z) : bool := (c =? 47) || (c =? 92).

Definition ld (p : Z) : M Z := λ m,
  match m !! p with Some c => Ok (c, m) | None => Stop OutOfBounds end.
Definition st (p c : Z) : M unit := λ m,
  match m !! p with Some _ => Ok ((), <[p := s8 c]> m) | None => Stop OutOfBounds end.

(** [*ptr++ = *src; if ( *src++ == EOS) return]. *)
Fixpoint strcpy_loop (fuel : nat) (ptr src : Z) : M unit :=
  match fuel with
  | O => stop_st NoFuel
  | S fuel =>
      c ← ld src;
      st ptr c;;
      c ← ld src;
      if c =? EOS then mret () else strcpy_loop fuel (ptr + 1) (src + 1)
  end.

Definition strcpy (fuel : nat) (dest src : Z) : M Z := strcpy_loop fuel dest src;; mret dest.

Fixpoint strncpy_loop (n : nat) (ptr src : Z) : M bool :=
  match n with
  | O => mret false
  | S n =>
      c ← ld src;
      st ptr c;;
      c ← ld src;
      if c =? EOS then mret true else strncpy_loop n (ptr + 1) (src + 1)
  end.

Definition strncpy (dest src count : Z) : M Z :=
  ended ← strncpy_loop (Z.to_nat count) dest src;
  if (ended : bool) then mret dest else st (dest + u32 (count - 1)) EOS;; mret dest.

(** [while ( *ptr != EOS) ptr++]. *)
Fixpoint to_end (fuel : nat) (ptr : Z) : M Z :=
  match fuel with
  | O => stop_st NoFuel
  | S fuel => c ← ld ptr; if c =? EOS then mret ptr else to_end fuel (ptr + 1)
  end.

Definition strcat (fuel : nat) (dest src : Z) : M Z :=
  ptr ← to_end fuel dest; strcpy_loop fuel ptr src;; mret dest.

Fixpoint strnlen_loop (fuel : nat) (ptr maxlen : Z) : M Z :=
  match fuel with
  | O => stop_st NoFuel
  | S fuel =>
      c ← ld ptr;
      if c =? EOS then mret ptr
      else if maxlen =? 0 then mret ptr
      else strnlen_loop fuel (ptr + 1) (maxlen - 1)
  end.

Definition strnlen (fuel : nat) (str maxlen : Z) : M Z :=
  ptr ← strnlen_loop fuel str maxlen; mret (u32 (ptr - str)).

Definition strlen (fuel : nat) (str : Z) : M Z :=
  ptr ← to_end fuel str; mret (u32 (ptr - str)).

Definition compare_chars (a b : Z) : Z := if a <? b then -1 else if b <? a then 1 else 0.

Fixpoint strcmp (fuel : nat) (lhs rhs : Z) : M Z :=
  match fuel with
  | O => stop_st NoFuel
  | S fuel =>
      a ← ld lhs;
      b ← ld rhs;
      if (a =? b) && negb (a =? EOS) && negb (b =? EOS)
      then strcmp fuel (lhs + 1) (rhs + 1)
      else mret (compare_chars a b)
  end.

Fixpoint strchr (fuel : nat) (ptr ch : Z) : M Z :=
  match fuel with
  | O => stop_st NoFuel
  | S fuel =>
      c ← ld ptr;
      if c =? ch then mret ptr
      else if c =? EOS then mret NULL
      else strchr fuel (ptr + 1) ch
  end.

Fixpoint strrchr_loop (fuel : nat) (ptr last ch : Z) : M Z :=
  match fuel with
  | O => stop_st NoFuel
  | S fuel =>
      c ← ld ptr;
      let last := if c =? ch then ptr else last in
      if c =? EOS then mret last else strrchr_loop fuel (ptr + 1) last ch
  end.

Definition strrchr (fuel : nat) (str ch : Z) : M Z := strrchr_loop fuel str NULL ch.

Fixpoint memcmp (count : nat) (lptr rptr : Z) : M Z :=
  match count with
  | O => mret 0
  | S count =>
      a ← ld lptr;
      b ← ld rptr;
      if a =? b then memcmp count (lptr + 1) (rptr + 1) else mret (compare_chars a b)
  end.

Fixpoint memset (ptr ch : Z) (count : nat) : M unit :=
  match count with O => mret () | S count => st ptr ch;; memset (ptr + 1) ch count end.

Fixpoint memcpy (ptr src : Z) (count : nat) : M unit :=
  match count with
  | O => mret ()
  | S count => c ← ld src; st ptr c;; memcpy (ptr + 1) (src + 1) count
  end.

(** [memchr] has no return after its loop: the value is then whatever the caller finds
    in the result register, the parameter [r]. *)
Fixpoint memchr (r : Z) (ptr ch : Z) (count : nat) : M Z :=
  match count with
  | O => mret r
  | S count => c ← ld ptr; if c =? ch then mret ptr else memchr r (ptr + 1) ch count
  end.

Fixpoint strsep (fuel : nat) (ptr : Z) : M Z :=
  match fuel with
  | O => stop_st NoFuel
  | S fuel =>
      c ← ld ptr;
      if IS_SEPARATOR c then mret ptr
      else if c =? EOS then mret NULL
      else strsep fuel (ptr + 1)
  end.

Fixpoint strrsep_loop (fuel : nat) (ptr last : Z) : M Z :=
  match fuel with
  | O => stop_st NoFuel
  | S fuel =>
      c ← ld ptr;
      let last := if IS_SEPARATOR c then ptr else last in
      if c =? EOS then mret last else strrsep_loop fuel (ptr + 1) last
  end.

Definition strrsep (fuel : nat) (str : Z) : M Z := strrsep_loop fuel str NULL.

(** ** Strings in the store *)

(** The bytes [l] at address [p]. *)
Fixpoint bytes_at (m : mem) (p : Z) (l : list Z) : Prop :=
  match l with [] => True | c :: l => m !! p = Some c ∧ bytes_at m (p + 1) l end.

Definition is_char (c : Z) : Prop := -128 <= c < 128.

(** A string: characters other than the terminator, then the terminator. *)
Definition str_at (m : mem) (p : Z) (s : list Z) : Prop :=
  bytes_at m p (s ++ [EOS]) ∧ Forall (λ c, is_char c ∧ c ≠ EOS) s.

(** The addresses from [p] on for [n] bytes hold something. *)
Definition room (m : mem) (p : Z) (n : nat) : Prop := ∀ i, p <= i < p + Z.of_nat n → is_Some (m !! i).

(** [m'] differs from [m] at most on the [n] bytes from [p]. *)
Definition only (m m' : mem) (p : Z) (n : nat) : Prop :=
  ∀ i, ¬ (p <= i < p + Z.of_nat n) → m' !! i = m !! i.

(** Writing a list of bytes. *)
Fixpoint write (p : Z) (l : list Z) (m : mem) : mem :=
  match l with [] => m | c :: l => write (p + 1) l (<[p := s8 c]> m) end.

Lemma bytes_at_app m p l1 l2 :
  bytes_at m p (l1 ++ l2) ↔ bytes_at m p l1 ∧ bytes_at m (p + Z.of_nat (length l1)) l2.
Proof.
  revert p. induction l1 as [|c l1 IH]; intros p; cbn [app bytes_at length].
  - replace (p + Z.of_nat 0) with p by lia. tauto.
  - rewrite IH. replace (p + 1 + Z.of_nat (length l1)) with (p + Z.of_nat (S (length l1))) by lia. tauto.
Qed.

Lemma bytes_at_lookup m p l i :
  bytes_at m p l → p <= i < p + Z.of_nat (length l) → m !! i = l !! Z.to_nat (i - p).
Proof.
  revert p. induction l as [|c l IH]; intros p H Hi; cbn [length] in Hi; [lia|].
  destruct H as [Hc Hl]. destruct (decide (i = p)) as [->|Hne].
  - by rewrite Z.sub_diag.
  - rewrite (IH _ Hl) by lia. replace (i - p) with (Z.succ (i - (p + 1))) by lia.
    by rewrite Z2Nat.inj_succ by lia.
Qed.

Lemma bytes_at_frame m m' p l :
  bytes_at m p l → (∀ i, p <= i < p + Z.of_nat (length l) → m' !! i = m !! i) → bytes_at m' p l.
Proof.
  revert p. induction l as [|c l IH]; intros p H Hf; [done|].
  destruct H as [Hc Hl]. cbn [length] in Hf. split.
  - rewrite Hf by lia. done.
  - apply IH; [done|]. intros i Hi. apply Hf. lia.
Qed.

Lemma write_only p l m : only m (write p l m) p (length l).
Proof.
  revert p m. induction l as [|c l IH]; intros p m i Hi; [done|].
  cbn [write length] in *. rewrite IH by lia. rewrite lookup_insert_ne by lia. done.
Qed.

Lemma write_bytes p l m : Forall is_char l → bytes_at (write p l m) p l.
Proof.
  revert p m. induction l as [|c l IH]; intros p m Hl; [done|].
  apply Forall_cons in Hl as [Hc Hl]. cbn [write bytes_at]. split; [|by apply IH].
  rewrite write_only by lia. rewrite lookup_insert_eq. unfold is_char in Hc. by rewrite s8_small.
Qed.

Lemma write_app p l1 l2 m :
  write p (l1 ++ l2) m = write (p + Z.of_nat (length l1)) l2 (write p l1 m).
Proof.
  revert p m. induction l1 as [|c l1 IH]; intros p m; cbn [app write length].
  - by replace (p + Z.of_nat 0) with p by lia.
  - rewrite IH. by replace (p + 1 + Z.of_nat (length l1)) with (p + Z.of_nat (S (length l1))) by lia.
Qed.

Lemma room_write m p n q l : room m p n → room (write q l m) p n.
Proof.
  intros H i Hi. revert q m H. induction l as [|c l IH]; intros q m H; [by apply H|].
  cbn [write]. apply IH. intros j Hj. destruct (decide (j = q)) as [->|].
  - rewrite lookup_insert_eq. by eexists.
  - rewrite lookup_insert_ne by done. by apply H.
Qed.

Lemma room_S m p n : room m p (S n) → is_Some (m !! p) ∧ room m (p + 1) n.
Proof. intros H. split; [apply H; lia|]. intros i Hi. apply H. lia. Qed.

Lemma room_le m p n k : room m p n → (k <= n)%nat → room m p k.
Proof. intros H Hk i Hi. apply H. lia. Qed.

Lemma ld_Ok m p c : m !! p = Some c → ld p m = Ok (c, m).
Proof. intros H. unfold ld. by rewrite H. Qed.

Lemma st_Ok m p c : is_Some (m !! p) → st p c m = Ok ((), <[p := s8 c]> m).
Proof. intros [x H]. unfold st. by rewrite H. Qed.

(** Two address ranges apart. *)
Definition apart (p : Z) (n : nat) (q : Z) (k : nat) : Prop :=
  p + Z.of_nat n <= q ∨ q + Z.of_nat k <= p.

Lemma apart_bytes m p l q k : apart p (length l) q (length k) → bytes_at m p l → bytes_at (write q k m) p l.
Proof.
  intros Ha Hl. eapply bytes_at_frame; [exact Hl|]. intros i Hi. apply write_only.
  unfold apart in Ha. lia.
Qed.

Lemma str_frame m p s q k :
  apart p (S (length s)) q (length k) → str_at m p s → str_at (write q k m) p s.
Proof.
  intros Ha [Hb Hs]. split; [|done]. apply apart_bytes; [|done]. rewrite length_app. cbn.
  by rewrite Nat.add_1_r.
Qed.

Lemma str_tail m p c s : str_at m p (c :: s) → m !! p = Some c ∧ c ≠ EOS ∧ is_char c ∧ str_at m (p + 1) s.
Proof. intros [[Hc Hb] [[H1 H2] Hs]%Forall_cons]. done. Qed.

Lemma str_nil m p : str_at m p [] → m !! p = Some EOS.
Proof. by intros [[H _] _]. Qed.

Lemma str_chars s : Forall (λ c, is_char c ∧ c ≠ EOS) s → Forall is_char (s ++ [EOS]).
Proof.
  intros H. apply Forall_app. split; [|repeat constructor; unfold is_char, EOS; lia].
  eapply Forall_impl; [exact H|]. by intros ? [].
Qed.

(** ** Length *)

Lemma to_end_spec fuel m p s :
  str_at m p s → (length s < fuel)%nat → to_end fuel p m = Ok (p + Z.of_nat (length s), m).
Proof.
  revert p s. induction fuel as [|fuel IH]; intros p s Hs Hf; [lia|]. cbn [to_end].
  destruct s as [|c s].
  - rewrite (st_bind_eq _ _ _ _ _ (ld_Ok _ _ _ (str_nil _ _ Hs))).
    by replace (p + Z.of_nat (length [])) with p by (cbn; lia).
  - apply str_tail in Hs as (Hc & Hne & _ & Hs).
    rewrite (st_bind_eq _ _ _ _ _ (ld_Ok _ _ _ Hc)). destruct (Z.eqb_spec c EOS); [done|].
    cbn [length] in *. rewrite (IH (p + 1) s) by (done || lia). do 2 f_equal. lia.
Qed.

Lemma strlen_spec fuel m p s :
  str_at m p s → (length s < fuel)%nat → Z.of_nat (length s) < 4294967296 →
  strlen fuel p m = Ok (Z.of_nat (length s), m).
Proof.
  intros Hs Hf Hl. unfold strlen. rewrite (st_bind_eq _ _ _ _ _ (to_end_spec _ _ _ _ Hs Hf)).
  unfold mret, st_ret. rewrite u32_small by lia. do 2 f_equal. lia.
Qed.

Lemma strnlen_spec fuel m p s k :
  str_at m p s → (length s < fuel)%nat → 0 <= k → Z.of_nat (length s) < 4294967296 →
  strnlen fuel p k m = Ok (Z.min (Z.of_nat (length s)) k, m).
Proof.
  intros Hs Hf Hk Hl. unfold strnlen.
  assert (E : strnlen_loop fuel p k m = Ok (p + Z.min (Z.of_nat (length s)) k, m)).
  { clear Hl. revert p s k Hs Hf Hk. induction fuel as [|fuel IH]; intros p s k Hs Hf Hk; [lia|].
    cbn [strnlen_loop]. destruct s as [|c s].
    - rewrite (st_bind_eq _ _ _ _ _ (ld_Ok _ _ _ (str_nil _ _ Hs))). cbn.
      unfold mret, st_ret. do 2 f_equal. lia.
    - apply str_tail in Hs as (Hc & Hne & _ & Hs).
      rewrite (st_bind_eq _ _ _ _ _ (ld_Ok _ _ _ Hc)). destruct (Z.eqb_spec c EOS); [done|].
      cbn [length] in *. destruct (Z.eqb_spec k 0) as [->|].
      + unfold mret, st_ret. do 2 f_equal. lia.
      + rewrite (IH (p + 1) s (k - 1)) by (done || lia). do 2 f_equal. lia. }
  rewrite (st_bind_eq _ _ _ _ _ E). unfold mret, st_ret. rewrite u32_small by lia.
  do 2 f_equal. lia.
Qed.

(** ** Copies *)

(** [strcpy] writes the string with its terminator. *)
Lemma strcpy_loop_spec fuel m q p s :
  str_at m p s → room m q (S (length s)) → apart p (S (length s)) q (S (length s)) →
  (length s < fuel)%nat →
  strcpy_loop fuel q p m = Ok ((), write q (s ++ [EOS]) m).
Proof.
  revert fuel m q p. induction s as [|c s IH]; intros fuel m q p Hs Hr Ha Hf;
    (destruct fuel as [|fuel]; [cbn in Hf; lia|]); cbn [strcpy_loop];
    apply room_S in Hr as [Hq Hr].
  - pose proof (str_nil _ _ Hs) as Hc.
    rewrite (st_bind_eq _ _ _ _ _ (ld_Ok _ _ _ Hc)), (st_bind_eq _ _ _ _ _ (st_Ok _ _ EOS Hq)).
    assert (Hc' : <[q:=s8 EOS]> m !! p = Some EOS).
    { rewrite lookup_insert_ne; [done|]. unfold apart in Ha. cbn in Ha. lia. }
    by rewrite (st_bind_eq _ _ _ _ _ (ld_Ok _ _ _ Hc')).
  - pose proof Hs as Hs0. apply str_tail in Hs as (Hc & Hne & Hch & Hs).
    unfold apart in Ha. cbn [length] in *.
    rewrite (st_bind_eq _ _ _ _ _ (ld_Ok _ _ _ Hc)), (st_bind_eq _ _ _ _ _ (st_Ok _ _ c Hq)).
    assert (Hc' : <[q:=s8 c]> m !! p = Some c) by (rewrite lookup_insert_ne; [done|lia]).
    rewrite (st_bind_eq _ _ _ _ _ (ld_Ok _ _ _ Hc')).
    destruct (Z.eqb_spec c EOS); [done|]. cbn [app write].
    apply IH.
    + apply (str_frame m (p + 1) s q [c]); [unfold apart; cbn; lia|done].
    + by apply (room_write _ _ _ q [c]).
    + unfold apart. lia.
    + lia.
Qed.

(** What a copy leaves behind. *)
Lemma copied m q p s :
  str_at m p s → apart p (S (length s)) q (S (length s)) →
  let m' := write q (s ++ [EOS]) m in
  str_at m' q s ∧ str_at m' p s ∧ only m m' q (S (length s)).
Proof.
  intros Hs Ha m'. destruct Hs as [Hb Hc]. split; [|split].
  - split; [|done]. by apply write_bytes, str_chars.
  - apply str_frame; [|done]. rewrite length_app. cbn. by rewrite Nat.add_1_r.
  - unfold m'. replace (S (length s)) with (length (s ++ [EOS])) by (rewrite length_app; cbn; lia).
    apply write_only.
Qed.

Lemma strcpy_spec fuel m q p s :
  str_at m p s → room m q (S (length s)) → apart p (S (length s)) q (S (length s)) →
  (length s < fuel)%nat →
  ∃ m', strcpy fuel q p m = Ok (q, m') ∧ str_at m' q s ∧ str_at m' p s ∧
    only m m' q (S (length s)).
Proof.
  intros Hs Hr Ha Hf. exists (write q (s ++ [EOS]) m). unfold strcpy.
  rewrite (st_bind_eq _ _ _ _ _ (strcpy_loop_spec fuel m q p s Hs Hr Ha Hf)).
  split; [done|]. by apply copied.
Qed.

(** [strcat] appends: with room behind the destination for the source and its
    terminator, and a source that does not overlap the result, the destination then
    holds its old string followed by the source, the source still stands, and no byte
    outside the appended part has changed.  [strcpy] is the case of an empty
    destination. *)
Theorem strcat_correct fuel m q d p s :
  str_at m q d → str_at m p s →
  room m (q + Z.of_nat (length d)) (S (length s)) →
  apart p (S (length s)) q (length d + S (length s)) →
  (length d < fuel)%nat → (length s < fuel)%nat →
  ∃ m', strcat fuel q p m = Ok (q, m') ∧ str_at m' q (d ++ s) ∧ str_at m' p s ∧
    only m m' (q + Z.of_nat (length d)) (S (length s)).
Proof.
  intros Hd Hs Hr Ha Hfd Hf. unfold strcat.
  rewrite (st_bind_eq _ _ _ _ _ (to_end_spec fuel m q d Hd Hfd)).
  set (q' := q + Z.of_nat (length d)) in *.
  assert (Ha' : apart p (S (length s)) q' (S (length s))) by (unfold apart in *; lia).
  rewrite (st_bind_eq _ _ _ _ _ (strcpy_loop_spec fuel m q' p s Hs Hr Ha' Hf)).
  destruct (copied m q' p s Hs Ha') as (C1 & C2 & C3).
  eexists. split; [reflexivity|]. split; [|done]. split.
  - rewrite <- app_assoc. apply bytes_at_app. split; [|apply C1].
    destruct Hd as [Hb _]. apply bytes_at_app in Hb as [Hb _].
    eapply bytes_at_frame; [exact Hb|]. intros i Hi. apply C3. lia.
  - apply Forall_app. split; [apply Hd|apply Hs].
Qed.

Lemma strncpy_loop_spec n m q p s :
  str_at m p s → room m q n → apart p (S (length s)) q n →
  strncpy_loop n q p m = Ok (bool_decide (length s < n)%nat, write q (take n (s ++ [EOS])) m).
Proof.
  revert m q p s. induction n as [|n IH]; intros m q p s Hs Hr Ha; [done|].
  cbn [strncpy_loop]. apply room_S in Hr as [Hq Hr]. destruct s as [|c s].
  - pose proof (str_nil _ _ Hs) as Hc.
    rewrite (st_bind_eq _ _ _ _ _ (ld_Ok _ _ _ Hc)), (st_bind_eq _ _ _ _ _ (st_Ok _ _ EOS Hq)).
    assert (Hc' : <[q:=s8 EOS]> m !! p = Some EOS).
    { rewrite lookup_insert_ne; [done|]. unfold apart in Ha. cbn in Ha. lia. }
    rewrite (st_bind_eq _ _ _ _ _ (ld_Ok _ _ _ Hc')).
    rewrite bool_decide_eq_true_2 by (cbn; lia). by destruct n.
  - apply str_tail in Hs as (Hc & Hne & Hch & Hs). unfold apart in Ha. cbn [length] in *.
    rewrite (st_bind_eq _ _ _ _ _ (ld_Ok _ _ _ Hc)), (st_bind_eq _ _ _ _ _ (st_Ok _ _ c Hq)).
    assert (Hc' : <[q:=s8 c]> m !! p = Some c) by (rewrite lookup_insert_ne; [done|lia]).
    rewrite (st_bind_eq _ _ _ _ _ (ld_Ok _ _ _ Hc')).
    destruct (Z.eqb_spec c EOS); [done|]. cbn [app take write]. rewrite (IH _ (q + 1) (p + 1) s).
    + do 3 f_equal. apply bool_decide_ext. lia.
    + apply (str_frame m (p + 1) s q [c]); [unfold apart; cbn; lia|done].
    + by apply (room_write _ _ _ q [c]).
    + unfold apart. lia.
Qed.

(** [strncpy] with a positive [count] writes only the [count] bytes of the
    destination and always leaves a terminated string there: the source when it fits,
    otherwise its first [count - 1] characters. *)
Theorem strncpy_correct m q p s count :
  str_at m p s → 0 < count < 4294967296 → room m q (Z.to_nat count) →
  apart p (S (length s)) q (Z.to_nat count) →
  ∃ m', strncpy q p count m = Ok (q, m') ∧
    str_at m' q (take (Z.to_nat count - 1) s) ∧ only m m' q (Z.to_nat count).
Proof.
  intros Hs Hc Hr Ha. set (n := Z.to_nat count) in *. unfold strncpy. fold n.
  rewrite (st_bind_eq _ _ _ _ _ (strncpy_loop_spec n m q p s Hs Hr Ha)).
  pose proof Hs as [Hb Hch]. pose proof (str_chars _ Hch) as Hall.
  set (m1 := write q (take n (s ++ [EOS])) m).
  assert (Hb1 : bytes_at m1 q (take n (s ++ [EOS]))) by by apply write_bytes, Forall_take.
  assert (Ho1 : only m m1 q n).
  { intros i Hi. unfold m1. rewrite write_only; [done|]. rewrite length_take, length_app. cbn. lia. }
  case_bool_decide as Hlt.
  - exists m1. split; [done|]. split; [|done].
    rewrite !take_ge in * by (rewrite ?length_app; cbn; lia). done.
  - assert (Hlast : is_Some (m1 !! (q + u32 (count - 1)))).
    { unfold m1. apply (room_write m q n); [done|]. rewrite u32_small by lia. lia. }
    rewrite (st_bind_eq _ _ _ _ _ (st_Ok _ _ EOS Hlast)). rewrite u32_small by lia.
    eexists. split; [reflexivity|]. split.
    + split; [|by apply Forall_take]. apply bytes_at_app. split.
      * apply (bytes_at_frame m1).
        -- rewrite take_app_le in Hb1 by lia.
           replace n with ((n - 1) + 1)%nat in Hb1 by lia.
           rewrite <- take_take_drop, bytes_at_app in Hb1. apply Hb1.
        -- intros i Hi. rewrite length_take in Hi. rewrite lookup_insert_ne by lia. done.
      * rewrite length_take. replace (q + Z.of_nat ((n - 1) `min` length s)) with (q + (count - 1)) by lia.
        split; [|done]. by rewrite lookup_insert_eq.
    + intros i Hi. rewrite lookup_insert_ne by lia. by apply Ho1.
Qed.

(** ** Comparison *)

(** Lexicographic order of signed characters, a proper prefix first. *)
Fixpoint lex (s t : list Z) : Z :=
  match s, t with
  | [], [] => 0
  | [], c :: _ => compare_chars EOS c
  | c :: _, [] => compare_chars c EOS
  | a :: s, b :: t => if a =? b then lex s t else compare_chars a b
  end.

Lemma strcmp_spec fuel m p q s t :
  str_at m p s → str_at m q t → (length s < fuel)%nat → strcmp fuel p q m = Ok (lex s t, m).
Proof.
  revert p q s t. induction fuel as [|fuel IH]; intros p q s t Hs Ht Hf; [lia|]. cbn [strcmp].
  destruct s as [|a s], t as [|b t].
  - by rewrite (st_bind_eq _ _ _ _ _ (ld_Ok _ _ _ (str_nil _ _ Hs))),
      (st_bind_eq _ _ _ _ _ (ld_Ok _ _ _ (str_nil _ _ Ht))).
  - apply str_tail in Ht as (Hb & Hne & _ & _).
    rewrite (st_bind_eq _ _ _ _ _ (ld_Ok _ _ _ (str_nil _ _ Hs))),
      (st_bind_eq _ _ _ _ _ (ld_Ok _ _ _ Hb)). by destruct (Z.eqb_spec EOS b).
  - apply str_tail in Hs as (Hb & Hne & _ & _).
    rewrite (st_bind_eq _ _ _ _ _ (ld_Ok _ _ _ Hb)),
      (st_bind_eq _ _ _ _ _ (ld_Ok _ _ _ (str_nil _ _ Ht))). by destruct (Z.eqb_spec a EOS).
  - apply str_tail in Hs as (Ha & Hnea & _ & Hs). apply str_tail in Ht as (Hb & Hneb & _ & Ht).
    rewrite (st_bind_eq _ _ _ _ _ (ld_Ok _ _ _ Ha)), (st_bind_eq _ _ _ _ _ (ld_Ok _ _ _ Hb)).
    cbn [lex length] in *. destruct (Z.eqb_spec a b) as [->|]; [|done].
    destruct (Z.eqb_spec b EOS); [done|]. cbn [andb negb]. apply IH; [done..|lia].
Qed.

Lemma compare_chars_0 a b : compare_chars a b = 0 ↔ a = b.
Proof. unfold compare_chars. zcases; lia. Qed.

Lemma compare_chars_opp a b : compare_chars b a = - compare_chars a b.
Proof. unfold compare_chars. zcases; lia. Qed.

Lemma lex_0 s t :
  Forall (λ c, is_char c ∧ c ≠ EOS) s → Forall (λ c, is_char c ∧ c ≠ EOS) t → lex s t = 0 ↔ s = t.
Proof.
  revert t. induction s as [|a s IH]; intros [|b t] Hs Ht; cbn [lex].
  - done.
  - rewrite compare_chars_0. apply Forall_cons in Ht as [[_ H] _]. split; congruence.
  - rewrite compare_chars_0. apply Forall_cons in Hs as [[_ H] _]. split; congruence.
  - apply Forall_cons in Hs as [_ Hs]. apply Forall_cons in Ht as [_ Ht].
    destruct (Z.eqb_spec a b) as [->|Hne].
    + rewrite IH by done. split; [by intros ->|by intros [= ->]].
    + rewrite compare_chars_0. split; congruence.
Qed.

Lemma lex_opp s t : lex t s = - lex s t.
Proof.
  revert t. induction s as [|a s IH]; intros [|b t]; cbn [lex]; try apply compare_chars_opp; [done|].
  rewrite Z.eqb_sym. destruct (a =? b); [apply IH|apply compare_chars_opp].
Qed.

(** [strcmp] is the lexicographic comparison of signed characters: it ends on any
    two strings, answers 0 exactly for equal strings, and swapping the arguments
    negates the answer. *)
Theorem strcmp_correct fuel m p q s t :
  str_at m p s → str_at m q t → (length s < fuel)%nat → (length t < fuel)%nat →
  ∃ r, strcmp fuel p q m = Ok (r, m) ∧ r = lex s t ∧ (r = 0 ↔ s = t) ∧
    strcmp fuel q p m = Ok (- r, m).
Proof.
  intros Hs Ht Hfs Hft. exists (lex s t). rewrite (strcmp_spec fuel m p q s t) by done.
  rewrite (strcmp_spec fuel m q p t s) by done. rewrite (lex_opp s t).
  split; [done|]. split; [done|]. split; [|done]. apply lex_0; [apply Hs|apply Ht].
Qed.

(** ** Searching *)

(** The loop [strchr] and [strsep] share, and the one of [strrchr] and [strrsep]. *)
Fixpoint scan (P : Z → bool) (fuel : nat) (ptr : Z) : M Z :=
  match fuel with
  | O => stop_st NoFuel
  | S fuel =>
      c ← ld ptr;
      if P c then mret ptr else if c =? EOS then mret NULL else scan P fuel (ptr + 1)
  end.

Fixpoint rscan (P : Z → bool) (fuel : nat) (ptr last : Z) : M Z :=
  match fuel with
  | O => stop_st NoFuel
  | S fuel =>
      c ← ld ptr;
      let last := if P c then ptr else last in
      if c =? EOS then mret last else rscan P fuel (ptr + 1) last
  end.

Ltac same_loop n :=
  let IH := fresh "IH" in
  induction n as [|n IH]; [done|]; intros; cbn; unfold mbind, st_bind;
  repeat case_match; simplify_eq; done || apply IH.

Lemma strchr_scan fuel ch : ∀ p m, strchr fuel p ch m = scan (λ c, c =? ch) fuel p m.
Proof. same_loop fuel. Qed.
Lemma strsep_scan fuel : ∀ p m, strsep fuel p m = scan IS_SEPARATOR fuel p m.
Proof. same_loop fuel. Qed.
Lemma strrchr_rscan fuel ch : ∀ p last m, strrchr_loop fuel p last ch m = rscan (λ c, c =? ch) fuel p last m.
Proof. same_loop fuel. Qed.
Lemma strrsep_rscan fuel : ∀ p last m, strrsep_loop fuel p last m = rscan IS_SEPARATOR fuel p last m.
Proof. same_loop fuel. Qed.

(** [r] points to the first (the last) character of [l] at [p] that satisfies [P], or is
    null when there is none. *)
Definition first_match (P : Z → bool) (l : list Z) (p r : Z) : Prop :=
  (∃ i c, l !! i = Some c ∧ P c = true ∧ r = p + Z.of_nat i ∧
          ∀ j d, (j < i)%nat → l !! j = Some d → P d = false) ∨
  (r = NULL ∧ Forall (λ c, P c = false) l).
Definition last_match (P : Z → bool) (l : list Z) (p r : Z) : Prop :=
  (∃ i c, l !! i = Some c ∧ P c = true ∧ r = p + Z.of_nat i ∧
          ∀ j d, (i < j)%nat → l !! j = Some d → P d = false) ∨
  (r = NULL ∧ Forall (λ c, P c = false) l).

Lemma scan_spec P fuel m p s :
  str_at m p s → (length s < fuel)%nat →
  ∃ r, scan P fuel p m = Ok (r, m) ∧ first_match P (s ++ [EOS]) p r.
Proof.
  revert p s. induction fuel as [|fuel IH]; intros p s Hs Hf; [lia|]. cbn [scan].
  assert (Hhd : ∃ c l, s ++ [EOS] = c :: l ∧ m !! p = Some c ∧ (c = EOS → l = [])).
  { destruct s as [|c s].
    - exists EOS, []. split_and!; [done|by apply str_nil|done].
    - apply str_tail in Hs as (Hc & Hne & _). exists c, (s ++ [EOS]). split_and!; [done..|by intros]. }
  destruct Hhd as (c & l & El & Hc & Hend).
  rewrite (st_bind_eq _ _ _ _ _ (ld_Ok _ _ _ Hc)). destruct (P c) eqn:HP.
  - exists p. split; [done|]. left. exists 0%nat, c. rewrite El. split_and!; [done..|lia|lia].
  - destruct (Z.eqb_spec c EOS) as [->|Hne].
    + exists NULL. split; [done|]. right. rewrite El, Hend by done. by repeat constructor.
    + destruct s as [|c' s]; [injection El as E1 E2; congruence|]. injection El as <- <-.
      apply str_tail in Hs as (_ & _ & _ & Hs). cbn [length] in Hf.
      destruct (IH (p + 1) s Hs ltac:(lia)) as (r & E & Hr). exists r. split; [done|].
      destruct Hr as [(i & d & Hi & Hd & -> & Hmin)|[-> Hall]].
      * left. exists (S i), d. split_and!; [done..|lia|].
        intros [|j] e Hj He; [by injection He as ->|]. apply (Hmin j); [lia|done].
      * right. split; [done|]. by constructor.
Qed.

Lemma rscan_spec P fuel m p s last :
  str_at m p s → (length s < fuel)%nat →
  ∃ r, rscan P fuel p last m = Ok (r, m) ∧
    ((∃ i c, (s ++ [EOS]) !! i = Some c ∧ P c = true ∧ r = p + Z.of_nat i ∧
        ∀ j d, (i < j)%nat → (s ++ [EOS]) !! j = Some d → P d = false) ∨
     (r = last ∧ Forall (λ c, P c = false) (s ++ [EOS]))).
Proof.
  revert p s last. induction fuel as [|fuel IH]; intros p s last Hs Hf; [lia|]. cbn [rscan].
  destruct s as [|c s].
  - rewrite (st_bind_eq _ _ _ _ _ (ld_Ok _ _ _ (str_nil _ _ Hs))). cbn [Z.eqb EOS].
    eexists. split; [reflexivity|]. destruct (P EOS) eqn:HP.
    + left. exists 0%nat, EOS. split_and!; [done..|lia|]. intros [|[|j]] d Hj; done || lia.
    + right. split; [done|]. by repeat constructor.
  - apply str_tail in Hs as (Hc & Hne & _ & Hs). cbn [length] in Hf.
    rewrite (st_bind_eq _ _ _ _ _ (ld_Ok _ _ _ Hc)). destruct (Z.eqb_spec c EOS); [done|].
    destruct (IH (p + 1) s (if P c then p else last) Hs ltac:(lia)) as (r & E & Hr).
    exists r. split; [done|]. destruct Hr as [(i & d & Hi & Hd & -> & Hmax)|[-> Hall]].
    + left. exists (S i), d. split_and!; [done..|lia|].
      intros [|j] e Hj He; [lia|]. apply (Hmax j); [lia|done].
    + destruct (P c) eqn:HP.
      * left. exists 0%nat, c. split_and!; [done..|lia|].
        intros [|j] e Hj He; [lia|]. exact (proj1 (Forall_lookup _ _) Hall _ _ He).
      * right. split; [done|]. by constructor.
Qed.

(** The searches find what they are named for, in any string: [strchr] and
    [strsep] the first, [strrchr] and [strrsep] the last occurrence of the character or
    of a path separator - the terminator counts as a character - and null when there is
    none. *)
Theorem search_correct fuel m p s ch :
  str_at m p s → (length s < fuel)%nat →
  ∃ r1 r2 r3 r4,
    strchr fuel p ch m = Ok (r1, m) ∧ first_match (λ c, c =? ch) (s ++ [EOS]) p r1 ∧
    strrchr fuel p ch m = Ok (r2, m) ∧ last_match (λ c, c =? ch) (s ++ [EOS]) p r2 ∧
    strsep fuel p m = Ok (r3, m) ∧ first_match IS_SEPARATOR (s ++ [EOS]) p r3 ∧
    strrsep fuel p m = Ok (r4, m) ∧ last_match IS_SEPARATOR (s ++ [EOS]) p r4.
Proof.
  intros Hs Hf.
  destruct (scan_spec (λ c, c =? ch) fuel m p s Hs Hf) as (r1 & E1 & H1).
  destruct (rscan_spec (λ c, c =? ch) fuel m p s NULL Hs Hf) as (r2 & E2 & H2).
  destruct (scan_spec IS_SEPARATOR fuel m p s Hs Hf) as (r3 & E3 & H3).
  destruct (rscan_spec IS_SEPARATOR fuel m p s NULL Hs Hf) as (r4 & E4 & H4).
  exists r1, r2, r3, r4. unfold strrchr, strrsep.
  by rewrite strchr_scan, strrchr_rscan, strsep_scan, strrsep_rscan.
Qed.

(** ** Memory blocks *)

Lemma memcpy_spec m q p l :
  bytes_at m p l → room m q (length l) → apart p (length l) q (length l) →
  memcpy q p (length l) m = Ok ((), write q l m).
Proof.
  revert m q p. induction l as [|c l IH]; intros m q p Hl Hr Ha; [done|].
  destruct Hl as [Hc Hl]. cbn [length memcpy write] in *. apply room_S in Hr as [Hq Hr].
  rewrite (st_bind_eq _ _ _ _ _ (ld_Ok _ _ _ Hc)), (st_bind_eq _ _ _ _ _ (st_Ok _ _ c Hq)).
  unfold apart in Ha. apply IH.
  - apply (apart_bytes m (p + 1) l q [c]); [unfold apart; cbn; lia|done].
  - by apply (room_write _ _ _ q [c]).
  - unfold apart. lia.
Qed.

Lemma memset_spec m q ch n : room m q n → memset q ch n m = Ok ((), write q (replicate n ch) m).
Proof.
  revert m q. induction n as [|n IH]; intros m q Hr; [done|]. apply room_S in Hr as [Hq Hr].
  cbn [memset replicate write]. rewrite (st_bind_eq _ _ _ _ _ (st_Ok _ _ ch Hq)).
  apply IH. by apply (room_write _ _ _ q [ch]).
Qed.

(** The order of two blocks of one length. *)
Fixpoint lex_bytes (s t : list Z) : Z :=
  match s, t with a :: s, b :: t => if a =? b then lex_bytes s t else compare_chars a b | _, _ => 0 end.

Lemma memcmp_spec m p q s t :
  bytes_at m p s → bytes_at m q t → length s = length t →
  memcmp (length s) p q m = Ok (lex_bytes s t, m).
Proof.
  revert p q t. induction s as [|a s IH]; intros p q [|b t] Hs Ht Hl; try done.
  destruct Hs as [Ha Hs], Ht as [Hb Ht]. cbn [length memcmp lex_bytes] in *.
  rewrite (st_bind_eq _ _ _ _ _ (ld_Ok _ _ _ Ha)), (st_bind_eq _ _ _ _ _ (ld_Ok _ _ _ Hb)).
  destruct (a =? b); [|done]. apply IH; [done..|lia].
Qed.

Lemma lex_bytes_0 s t : length s = length t → lex_bytes s t = 0 ↔ s = t.
Proof.
  revert t. induction s as [|a s IH]; intros [|b t] Hl; try done. cbn [lex_bytes length] in *.
  destruct (Z.eqb_spec a b) as [->|Hne].
  - rewrite IH by lia. split; [by intros ->|by intros [= ->]].
  - rewrite compare_chars_0. split; congruence.
Qed.

(** The block operations: [memcpy] makes the destination equal to the source block
    - so that [memcmp] of the two answers 0 - and [memset] fills it; nothing outside the
    destination changes. *)
Theorem memcpy_memset_memcmp m q p l ch :
  bytes_at m p l → Forall is_char l → room m q (length l) → apart p (length l) q (length l) →
  (∃ m', memcpy q p (length l) m = Ok ((), m') ∧ bytes_at m' q l ∧ only m m' q (length l) ∧
     memcmp (length l) q p m' = Ok (0, m')) ∧
  (∃ m', memset q ch (length l) m = Ok ((), m') ∧ bytes_at m' q (replicate (length l) (s8 ch)) ∧
     only m m' q (length l)).
Proof.
  intros Hl Hch Hr Ha. split.
  - rewrite (memcpy_spec m q p l) by done. eexists. split; [reflexivity|].
    pose proof (write_bytes q l m Hch) as Hq. split; [done|]. split; [apply write_only|].
    assert (Hp : bytes_at (write q l m) p l) by by apply apart_bytes.
    rewrite (memcmp_spec _ q p l l) by done. do 2 f_equal. by apply lex_bytes_0.
  - rewrite memset_spec by done. eexists. split; [reflexivity|]. split.
    + assert (E : ∀ n q m, write q (replicate n ch) m = write q (replicate n (s8 ch)) m).
      { clear. induction n as [|n IH]; intros q m; [done|]. cbn [replicate write].
        rewrite IH. do 2 f_equal. unfold s8.
        replace ((ch + 128) mod 256 - 128 + 128) with ((ch + 128) mod 256) by lia.
        by rewrite Z.mod_mod. }
      rewrite E. apply write_bytes, Forall_replicate. unfold is_char, s8.
      pose proof (Z.mod_pos_bound (ch + 128) 256). lia.
    + pose proof (write_only q (replicate (length l) ch) m) as Ho. by rewrite length_replicate in Ho.
Qed.

(** ** A concrete store

    "ab" at 100 with twelve bytes of room, "c/d" at 200. *)
Definition demo : mem :=
  write 200 [99; 47; 100; 0] (write 100 [97; 98; 0; 1; 1; 1; 1; 1; 1; 1; 1; 1] ∅).

Lemma room_check m p n :
  forallb (λ i, bool_decide (is_Some (m !! i))) (seqZ p (Z.of_nat n)) = true → room m p n.
Proof.
  intros H i Hi. rewrite forallb_forall in H. specialize (H i).
  rewrite bool_decide_eq_true in H. apply H, list_elem_of_In, elem_of_seqZ. lia.
Qed.

Lemma chars_check s :
  forallb (λ c, (-128 <=? c) && (c <? 128) && negb (c =? 0)) s = true →
  Forall (λ c, is_char c ∧ c ≠ EOS) s.
Proof.
  rewrite forallb_forall. intros H. apply Forall_forall. intros c Hc%list_elem_of_In.
  specialize (H c Hc). rewrite !andb_true_iff, negb_true_iff, Z.leb_le, Z.ltb_lt, Z.eqb_neq in H.
  unfold is_char, EOS. lia.
Qed.

Lemma demo_ab : str_at demo 100 [97; 98].
Proof. split; [cbn; repeat split; reflexivity|by apply chars_check]. Qed.
Lemma demo_cd : str_at demo 200 [99; 47; 100].
Proof. split; [cbn; repeat split; reflexivity|by apply chars_check]. Qed.

Lemma strcat_correct_witness :
  str_at demo 100 [97; 98] ∧
  ∃ m', strcat 10 100 200 demo = Ok (100, m') ∧ str_at m' 100 ([97; 98] ++ [99; 47; 100]) ∧
    str_at m' 200 [99; 47; 100] ∧ only demo m' (100 + Z.of_nat (length [97; 98])) (S (length [99; 47; 100])).
Proof.
  split; [exact demo_ab|].
  apply (strcat_correct 10 demo 100 [97; 98] 200 [99; 47; 100] demo_ab demo_cd).
  - by apply room_check.
  - unfold apart. cbn. lia.
  - cbn. lia.
  - cbn. lia.
Defined.

Lemma strncpy_correct_witness :
  ∃ m', strncpy 100 200 3 demo = Ok (100, m') ∧
    str_at m' 100 (take (Z.to_nat 3 - 1) [99; 47; 100]) ∧ only demo m' 100 (Z.to_nat 3).
Proof.
  apply (strncpy_correct demo 100 200 [99; 47; 100] 3 demo_cd).
  - lia.
  - by apply room_check.
  - unfold apart. cbn. lia.
Defined.

Lemma strcmp_correct_witness :
  ∃ r, strcmp 5 100 200 demo = Ok (r, demo) ∧ r = lex [97; 98] [99; 47; 100] ∧
    (r = 0 ↔ [97; 98] = [99; 47; 100]) ∧ strcmp 5 200 100 demo = Ok (- r, demo).
Proof. apply (strcmp_correct 5 demo 100 200 _ _ demo_ab demo_cd); cbn; lia. Defined.

Lemma search_correct_witness :
  ∃ r1 r2 r3 r4,
    strchr 5 200 100 demo = Ok (r1, demo) ∧ first_match (λ c, c =? 100) ([99; 47; 100] ++ [EOS]) 200 r1 ∧
    strrchr 5 200 100 demo = Ok (r2, demo) ∧ last_match (λ c, c =? 100) ([99; 47; 100] ++ [EOS]) 200 r2 ∧
    strsep 5 200 demo = Ok (r3, demo) ∧ first_match IS_SEPARATOR ([99; 47; 100] ++ [EOS]) 200 r3 ∧
    strrsep 5 200 demo = Ok (r4, demo) ∧ last_match IS_SEPARATOR ([99; 47; 100] ++ [EOS]) 200 r4.
Proof. apply (search_correct 5 demo 200 [99; 47; 100] 100 demo_cd). cbn. lia. Defined.

Lemma memcpy_memset_memcmp_witness :
  (∃ m', memcpy 100 200 (length [99; 47; 100]) demo = Ok ((), m') ∧ bytes_at m' 100 [99; 47; 100] ∧
     only demo m' 100 (length [99; 47; 100]) ∧
     memcmp (length [99; 47; 100]) 100 200 m' = Ok (0, m')) ∧
  (∃ m', memset 100 7 (length [99; 47; 100]) demo = Ok ((), m') ∧
     bytes_at m' 100 (replicate (length [99; 47; 100]) (s8 7)) ∧ only demo m' 100 (length [99; 47; 100])).
Proof.
  apply (memcpy_memset_memcmp demo 100 200 [99; 47; 100] 7).
  - cbn. repeat split; reflexivity.
  - repeat constructor; unfold is_char; lia.
  - by apply room_check.
  - unfold apart. cbn. lia.
Defined.
