(* ===== verification/Vsprintf.v ===== *)
(** * Formatted output (src/lib/vsprintf.c)

    [number] and [vsprintf].  The destination is the list of characters stored so far;
    an argument is what [va_arg] would fetch.  The four operations the source uses on
    [double] are parameters. *)

From S2P Require Import Prelude KStdlib.

Definition ZEROPAD : Z := 0x01.
Definition SIGN : Z := 0x02.
Definition PLUS : Z := 0x04.
Definition SPACE : Z := 0x08.
Definition LEFT : Z := 0x10.
Definition SPECIAL : Z := 0x20.
Definition SMALL : Z := 0x40.
Definition DOUBLE : Z := 0x80.

(** [flags & f] as a condition. *)
Definition has (flags f : Z) : bool := negb (Z.land flags f =? 0).

Definition is_digit (c : Z) : bool := (48 <=? c) && (c <=? 57).

(** The number at the head of the format, and the format behind it. *)
Fixpoint skip_atoi (s : list Z) (i : Z) : Z * list Z :=
  match s with
  | c :: r => if is_digit c then skip_atoi r (s32 (i * 10 + c - 48)) else (i, s)
  | [] => (i, [])
  end.

(** "0123456789ABC...Z" and its lower case version. *)
Definition upper_digits : list Z := seqZ 48 10 ++ seqZ 65 26.
Definition lower_digits : list Z := seqZ 48 10 ++ seqZ 97 26.

(** [tmp[i++] = c] with [char tmp[36]]; the list is in order of writing. *)
Definition push (c : Z) (tmp : list Z) : res (list Z) :=
  if decide (length tmp < 36)%nat then Ok (tmp ++ [c]) else Stop OutOfBounds.

(** [while (num != 0)] of the digits, least significant first. *)
Fixpoint digits_out (fuel : nat) (digits : list Z) (base num : Z) (tmp : list Z) : res (list Z) :=
  match fuel with
  | O => Stop NoFuel
  | S fuel =>
      if num =? 0 then mret tmp
      else d ← zget digits (num mod base);
           tmp ← push d tmp;
           digits_out fuel digits base (num / base) tmp
  end.

(** The same with the test at the end ([do ... while]). *)
Definition digits_do (fuel : nat) (digits : list Z) (base num : Z) (tmp : list Z) : res (list Z) :=
  d ← zget digits (num mod base);
  tmp ← push d tmp;
  digits_out fuel digits base (num / base) tmp.

(** [while (size-- > 0) *str++ = c]. *)
Definition pad_loop (c size : Z) : list Z * Z :=
  (replicate (Z.to_nat size) c, Z.min size 0 - 1).

Definition digit_fuel : nat := 33.

Section Doubles.

(** [double]: the comparison with zero, the negation, the conversion to [u32], and the
    six digits behind the point that the source computes with it. *)
Context {double : Type} (is_neg : double → bool) (opp : double → double)
        (to_u32 : double → Z) (frac6 : double → Z).

(** What [*num] is read as. *)
Inductive value_t := Word (n : Z) | Dbl (d : double).

Definition number (v : value_t) (base size precision flags : Z) : res (list Z) :=
  let digits := if has flags SMALL then lower_digits else upper_digits in
  let flags := if has flags LEFT then Z.land flags (Z.lnot ZEROPAD) else flags in
  if (base <? 2) || (36 <? base) then Stop OutOfBounds (* returns the null pointer *)
  else
    let pad := if has flags ZEROPAD then 48 else 32 in
    let plain_sign := if has flags PLUS then 43 else if has flags SPACE then 32 else 0 in
    let '(sign, v) :=
      match v with
      | Dbl d => if is_neg d then (45, Dbl (opp d)) else (plain_sign, v)
      | Word n => if has flags SIGN && (s32 n <? 0) then (45, Word (u32 (- s32 n))) else (plain_sign, v)
      end in
    let size := if sign =? 0 then size else size - 1 in
    let size := if has flags SPECIAL then
                  if base =? 16 then size - 2 else if base =? 8 then size - 1 else size
                else size in
    tmp ← match v with
          | Dbl d =>
              tmp ← digits_do digit_fuel digits base (frac6 d) [];
              tmp ← push 46 tmp;
              digits_do digit_fuel digits base (to_u32 d) tmp
          | Word n => if n =? 0 then mret [48] else digits_out digit_fuel digits base n []
          end;
    let i := Z.of_nat (length tmp) in
    let precision := if precision <? i then i else precision in
    let size := size - precision in
    let '(spaces, size) := if has flags (ZEROPAD + LEFT) then ([], size) else pad_loop 32 size in
    let prefix := if has flags SPECIAL then
                    if base =? 8 then [48]
                    else if base =? 16 then [48; default 0 (digits !! 33%nat)] else []
                  else [] in
    let '(pads, size) := if has flags LEFT then ([], size) else pad_loop pad size in
    let zeros := replicate (Z.to_nat (precision - i)) 48 in
    let '(trail, _) := pad_loop 32 size in
    mret (spaces ++ (if sign =? 0 then [] else [sign]) ++ prefix ++ pads ++ zeros ++ reverse tmp ++ trail).

(** What [va_arg] fetches: a word, a pointer to a string, a pointer to bytes, a pointer
    to an [int], or a [double].  A fetch of another kind is undefined. *)
Inductive arg := AInt (n : Z) | AStr (s : list Z) | ABytes (b : list Z) | AIntPtr | ADouble (d : double).

Definition arg_int (a : list arg) : res (Z * list arg) :=
  match a with AInt n :: a => Ok (n, a) | _ => Stop OutOfBounds end.

(** The flag characters behind a percent sign. *)
Fixpoint parse_flags (fmt : list Z) (flags : Z) : list Z * Z :=
  match fmt with
  | c :: r =>
      if c =? 45 then parse_flags r (Z.lor flags LEFT)
      else if c =? 43 then parse_flags r (Z.lor flags PLUS)
      else if c =? 32 then parse_flags r (Z.lor flags SPACE)
      else if c =? 35 then parse_flags r (Z.lor flags SPECIAL)
      else if c =? 48 then parse_flags r (Z.lor flags ZEROPAD)
      else (fmt, flags)
  | [] => ([], flags)
  end.

(** Field width; a star takes an argument, negative for left adjustment. *)
Definition parse_width (fmt : list Z) (flags : Z) (a : list arg) : res (Z * list Z * Z * list arg) :=
  match fmt with
  | c :: r =>
      if is_digit c then let '(w, r) := skip_atoi fmt 0 in Ok (w, r, flags, a)
      else if c =? 42 then
        '(w, a) ← arg_int a;
        let w := s32 w in
        if w <? 0 then Ok (s32 (- w), r, Z.lor flags LEFT, a) else Ok (w, r, flags, a)
      else Ok (-1, fmt, flags, a)
  | [] => Ok (-1, fmt, flags, a)
  end.

Definition parse_precision (fmt : list Z) (a : list arg) : res (Z * list Z * list arg) :=
  match fmt with
  | 46 :: r =>
      '(p, r, a) ← match r with
                   | c :: r' =>
                       if is_digit c then let '(p, r) := skip_atoi r 0 in Ok (p, r, a)
                       else if c =? 42 then '(p, a) ← arg_int a; Ok (s32 p, r, a)
                       else Ok (-1, r, a)
                   | [] => Ok (-1, r, a)
                   end;
      Ok (if p <? 0 then 0 else p, r, a)
  | _ => Ok (-1, fmt, a)
  end.

Definition skip_qualifier (fmt : list Z) : list Z :=
  match fmt with
  | c :: r => if (c =? 104) || (c =? 108) || (c =? 76) then r else fmt
  | [] => []
  end.

(** The bytes of a MAC or IP address, each followed by the separator. *)
Fixpoint address (n : nat) (b : list Z) (sep base width precision flags : Z) : res (list Z) :=
  match n with
  | O => mret []
  | S n =>
      match b with
      | [] => Stop OutOfBounds
      | x :: b =>
          s ← number (Word (u8 x)) base width precision flags;
          rest ← address n b sep base width precision flags;
          mret (s ++ sep :: rest)
      end
  end.

Definition drop_last (l : list Z) : list Z := take (length l - 1) l.

(** One conversion: its text, the arguments left, and whether the current length is
    stored through a pointer ([%n]).  [fmt] starts at the conversion character; the
    last component is the format behind it. *)
Definition convert (fmt : list Z) (width precision flags : Z) (a : list arg) :
    res (list Z * list arg * bool * list Z) :=
  match fmt with
  | [] => Ok ([37], a, false, [])
  | c :: rest =>
      if c =? 99 (* c *) then
        '(n, a) ← arg_int a;
        let pad := replicate (Z.to_nat (width - 1)) 32 in
        Ok (if has flags LEFT then s8 n :: pad else pad ++ [s8 n], a, false, rest)
      else if c =? 115 (* s *) then
        match a with
        | AStr s :: a =>
            let len := Z.of_nat (length s) in
            let len := if (0 <=? precision) && (precision <? len) then precision else len in
            let pad := replicate (Z.to_nat (width - len)) 32 in
            let s := take (Z.to_nat len) s in
            Ok (if has flags LEFT then s ++ pad else pad ++ s, a, false, rest)
        | _ => Stop OutOfBounds
        end
      else if c =? 111 (* o *) then
        '(n, a) ← arg_int a; s ← number (Word (u32 n)) 8 width precision flags; Ok (s, a, false, rest)
      else if c =? 112 (* p *) then
        let '(width, flags) := if width =? -1 then (8, Z.lor flags ZEROPAD) else (width, flags) in
        '(n, a) ← arg_int a; s ← number (Word (u32 n)) 16 width precision flags; Ok (s, a, false, rest)
      else if (c =? 120) || (c =? 88) (* x X *) then
        let flags := if c =? 120 then Z.lor flags SMALL else flags in
        '(n, a) ← arg_int a; s ← number (Word (u32 n)) 16 width precision flags; Ok (s, a, false, rest)
      else if (c =? 100) || (c =? 105) || (c =? 117) (* d i u *) then
        let flags := if c =? 117 then flags else Z.lor flags SIGN in
        '(n, a) ← arg_int a; s ← number (Word (u32 n)) 10 width precision flags; Ok (s, a, false, rest)
      else if c =? 110 (* n *) then
        match a with AIntPtr :: a => Ok ([], a, true, rest) | _ => Stop OutOfBounds end
      else if c =? 102 (* f *) then
        match a with
        | ADouble d :: a =>
            s ← number (Dbl d) 10 width precision (Z.lor (Z.lor flags SIGN) DOUBLE);
            Ok (s, a, false, rest)
        | _ => Stop OutOfBounds
        end
      else if c =? 98 (* b *) then
        '(n, a) ← arg_int a; s ← number (Word (u32 n)) 2 width precision flags; Ok (s, a, false, rest)
      else if c =? 109 (* m *) then
        match a with
        | ABytes b :: a =>
            s ← address 6 b 58 16 2 precision (Z.lor flags (Z.lor SMALL ZEROPAD));
            Ok (drop_last s, a, false, rest)
        | _ => Stop OutOfBounds
        end
      else if c =? 114 (* r *) then
        match a with
        | ABytes b :: a =>
            s ← address 4 b 46 10 width precision (Z.lor flags SMALL);
            Ok (drop_last s, a, false, rest)
        | _ => Stop OutOfBounds
        end
      else if c =? 37 then Ok ([37], a, false, rest)
      else Ok ([37; c], a, false, rest)
  end.

(** The loop over the format: the text stored so far and the lengths stored by [%n]. *)
Fixpoint format_loop (fuel : nat) (fmt out : list Z) (counts : list Z) (a : list arg) :
    res (list Z * list Z) :=
  match fuel with
  | O => Stop NoFuel
  | S fuel =>
      match fmt with
      | [] => mret (out, counts)
      | c :: r =>
          if negb (c =? 37) then format_loop fuel r (out ++ [c]) counts a
          else
            let '(r, flags) := parse_flags r 0 in
            '(width, r, flags, a) ← parse_width r flags a;
            '(precision, r, a) ← parse_precision r a;
            let r := skip_qualifier r in
            '(s, a, store, r) ← convert r width precision flags a;
            let out' := out ++ s in
            format_loop fuel r out'
              (if (store : bool) then counts ++ [Z.of_nat (length out')] else counts) a
      end
  end.

(** [vsprintf]: the text (the terminator follows it), the result, the stored counts. *)
Definition vsprintf (fmt : list Z) (a : list arg) : res (list Z * Z * list Z) :=
  '(out, counts) ← format_loop (S (length fmt)) fmt [] [] a;
  let i := Z.of_nat (length out) in
  kassert (i <? 2048);;
  mret (out, i, counts).

End Doubles.

Arguments AInt {double} n.
Arguments AStr {double} s.
Arguments ABytes {double} b.
Arguments AIntPtr {double}.
Arguments Word {double} n.

(** ** Digits *)

(** The value of digits, least significant first. *)
Fixpoint val_lsb (base : Z) (ds : list Z) : Z :=
  match ds with [] => 0 | d :: ds => d + base * val_lsb base ds end.

(** The value of digits as they are read. *)
Definition val (base : Z) (ds : list Z) : Z := foldl (λ r d, r * base + d) 0 ds.

Lemma val_snoc base ds d : val base (ds ++ [d]) = val base ds * base + d.
Proof. unfold val. by rewrite foldl_app. Qed.

Lemma val_reverse base ds : val base (reverse ds) = val_lsb base ds.
Proof.
  induction ds as [|d ds IH]; [done|]. rewrite reverse_cons, val_snoc, IH. cbn [val_lsb]. lia.
Qed.

(** The character of a digit. *)
Definition digit_char (digits : list Z) (d : Z) : Z := default 0 (digits !! Z.to_nat d).

Lemma digit_get digits d :
  length digits = 36%nat → 0 <= d < 36 → zget digits d = Ok (digit_char digits d).
Proof.
  intros Hl Hd. destruct (zget_is_Ok digits d) as (x & E & Hx); [lia|].
  rewrite E. unfold digit_char. by rewrite Hx.
Qed.

Lemma push_Ok c tmp : (length tmp < 36)%nat → push c tmp = Ok (tmp ++ [c]).
Proof. intros. unfold push. by rewrite decide_True. Qed.

(** Enough fuel and room for the binary length of the number. *)
Lemma digits_out_spec k fuel digits base n tmp :
  length digits = 36%nat → 2 <= base <= 36 → 0 <= n < 2 ^ Z.of_nat k →
  (k < fuel)%nat → (length tmp + k <= 36)%nat →
  ∃ ds, digits_out fuel digits base n tmp = Ok (tmp ++ (digit_char digits <$> ds)) ∧
    val_lsb base ds = n ∧ Forall (λ d, 0 <= d < base) ds ∧ (length ds <= k)%nat ∧
    (n ≠ 0 → ∃ l d, ds = l ++ [d] ∧ d ≠ 0) ∧ (n = 0 → ds = []).
Proof.
  intros Hd Hb. revert fuel n tmp. induction k as [|k IH]; intros fuel n tmp Hn Hf Ht;
    (destruct fuel as [|fuel]; [lia|]); cbn [digits_out].
  - assert (n = 0) as -> by (cbn in Hn; lia). exists []. cbn. rewrite app_nil_r. done.
  - destruct (Z.eqb_spec n 0) as [->|Hne].
    { exists []. cbn. rewrite app_nil_r. split_and!; try done. lia. }
    pose proof (Z.mod_pos_bound n base ltac:(lia)) as Hm.
    rewrite digit_get by (done || lia). cbn. rewrite push_Ok by lia. cbn.
    assert (Hq : 0 <= n / base < 2 ^ Z.of_nat k).
    { rewrite Nat2Z.inj_succ, Z.pow_succ_r in Hn by lia. split; [apply Z.div_pos; lia|].
      apply Z.div_lt_upper_bound; [lia|]. nia. }
    destruct (IH fuel (n / base) (tmp ++ [digit_char digits (n mod base)]) Hq) as (ds & E & Hv & Hr & Hl & Hnz & Hz);
      [lia|rewrite length_app; cbn; lia|].
    exists (n mod base :: ds). rewrite E. split_and!.
    + by rewrite <- app_assoc.
    + cbn [val_lsb]. rewrite Hv. pose proof (Z.div_mod n base). lia.
    + by constructor.
    + cbn. lia.
    + intros _. destruct (decide (n / base = 0)) as [E0|E0].
      * rewrite (Hz E0). exists [], (n mod base). split; [done|]. pose proof (Z.div_mod n base). lia.
      * destruct (Hnz E0) as (l & d & -> & Hd0). by exists (n mod base :: l), d.
    + done.
Qed.

(** ** The layout of one number *)

Definition alphabet (flags : Z) : list Z := if has flags SMALL then lower_digits else upper_digits.

Lemma alphabet_length flags : length (alphabet flags) = 36%nat.
Proof. unfold alphabet. by destruct (has flags SMALL). Qed.

(** The sign character, the magnitude, and the prefix of a number. *)
Definition negative (flags n : Z) : bool := has flags SIGN && (s32 n <? 0).
Definition magnitude (flags n : Z) : Z := if negative flags n then u32 (- s32 n) else n.
Definition sign_text (flags n : Z) : list Z :=
  if negative flags n then [45]
  else if has flags PLUS then [43] else if has flags SPACE then [32] else [].
Definition prefix_text (flags base : Z) : list Z :=
  if has flags SPECIAL then
    if base =? 8 then [48] else if base =? 16 then [48; if has flags SMALL then 120 else 88] else []
  else [].

(** The digits that represent a magnitude: the value, no leading zero. *)
Definition represents (base n : Z) (ds : list Z) : Prop :=
  val base ds = n ∧ Forall (λ d, 0 <= d < base) ds ∧
  (n = 0 → ds = [0]) ∧ (n ≠ 0 → ∃ d l, ds = d :: l ∧ d ≠ 0) ∧ (0 < length ds <= 32)%nat.

Definition total (l : list Z) : Z := Z.of_nat (length l).

(** The filling characters in front of the sign, between prefix and digits, and behind. *)
Definition fill (flags width : Z) : list Z * list Z * list Z :=
  let n := Z.to_nat width in
  if has flags LEFT then ([], [], replicate n 32)
  else if has flags ZEROPAD then ([], replicate n 48, [])
  else (replicate n 32, [], []).

Section Layout.
Context {double : Type} (is_neg : double → bool) (opp : double → double)
        (to_u32 : double → Z) (frac6 : double → Z).

Lemma digits_word base n flags :
  2 <= base <= 36 → 0 <= n < 4294967296 →
  ∃ ds, (if n =? 0 then mret [48] else digits_out digit_fuel (alphabet flags) base n []) =
          Ok (digit_char (alphabet flags) <$> reverse ds) ∧ represents base n ds.
Proof.
  intros Hb Hn. destruct (Z.eqb_spec n 0) as [->|Hne].
  - exists [0]. split.
    + unfold alphabet. by destruct (has flags SMALL).
    + unfold represents. split_and!; try done; [repeat constructor; lia|cbn; lia|cbn; lia].
  - destruct (digits_out_spec 32 digit_fuel (alphabet flags) base n [] (alphabet_length flags) Hb)
      as (ds & E & Hv & Hr & Hl & Hnz & _); [done|unfold digit_fuel; lia|cbn; lia|].
    exists (reverse ds). rewrite reverse_involutive. split; [done|].
    destruct (Hnz Hne) as (l & d & -> & Hd0). unfold represents.
    rewrite val_reverse, Forall_reverse, length_reverse. split_and!; try done.
    + intros _. rewrite reverse_snoc. by exists d, (reverse l).
    + rewrite length_app. cbn. lia.
Qed.

Lemma has_clear f x :
  Z.land (Z.lnot ZEROPAD) x = x → has (Z.land f (Z.lnot ZEROPAD)) x = has f x.
Proof. intros H. unfold has. by rewrite <- Z.land_assoc, H. Qed.

Lemma has_cleared f : has (Z.land f (Z.lnot ZEROPAD)) ZEROPAD = false.
Proof. unfold has. rewrite <- Z.land_assoc. change (Z.land (Z.lnot ZEROPAD) ZEROPAD) with 0. by rewrite Z.land_0_r. Qed.

Lemma has_pad_or_left f : has f (ZEROPAD + LEFT) = has f ZEROPAD || has f LEFT.
Proof.
  unfold has. change (ZEROPAD + LEFT) with (Z.lor ZEROPAD LEFT). rewrite Z.land_lor_distr_r.
  destruct (Z.eqb_spec (Z.land f ZEROPAD) 0) as [E|E], (Z.eqb_spec (Z.land f LEFT) 0) as [E'|E'];
    destruct (Z.eqb_spec (Z.lor (Z.land f ZEROPAD) (Z.land f LEFT)) 0) as [E3|E3]; try done;
    rewrite Z.lor_eq_0_iff in E3; tauto.
Qed.

(** The flags as [number] uses them, left adjustment having cleared the zero padding. *)
Definition effective (flags : Z) : Z :=
  if has flags LEFT then Z.land flags (Z.lnot ZEROPAD) else flags.

Lemma effective_has flags x :
  Z.land (Z.lnot ZEROPAD) x = x → has (effective flags) x = has flags x.
Proof. intros H. unfold effective. destruct (has flags LEFT); [by apply has_clear|done]. Qed.

Lemma effective_zeropad flags : has (effective flags) ZEROPAD = has flags ZEROPAD && negb (has flags LEFT).
Proof.
  unfold effective. destruct (has flags LEFT); [rewrite has_cleared|]; by destruct (has flags ZEROPAD).
Qed.

Lemma pads_spec flags size :
  let pad := if has (effective flags) ZEROPAD then 48 else 32 in
  let '(spaces, size1) := if has (effective flags) (ZEROPAD + LEFT) then ([], size) else pad_loop 32 size in
  let '(pads, size2) := if has (effective flags) LEFT then ([], size1) else pad_loop pad size1 in
  (spaces, pads, (pad_loop 32 size2).1) = fill flags size.
Proof.
  rewrite has_pad_or_left, effective_zeropad, (effective_has flags LEFT) by done.
  unfold fill, pad_loop.
  destruct (has flags LEFT), (has flags ZEROPAD); cbn; try done.
  - replace (Z.to_nat (size `min` 0 - 1)) with 0%nat by lia. done.
  - replace (Z.to_nat (size `min` 0 - 1)) with 0%nat by lia.
    by replace (Z.to_nat ((size `min` 0 - 1) `min` 0 - 1)) with 0%nat by lia.
Qed.

Lemma prefix_spec flags base :
  (if has (effective flags) SPECIAL then
     if base =? 8 then [48]
     else if base =? 16 then [48; default 0 (alphabet flags !! 33%nat)] else []
   else []) = prefix_text flags base.
Proof.
  rewrite effective_has by done. unfold prefix_text, alphabet.
  destruct (has flags SPECIAL), (base =? 8), (base =? 16), (has flags SMALL); done.
Qed.

Lemma size_spec flags base size :
  (if has (effective flags) SPECIAL then
     if base =? 16 then size - 2 else if base =? 8 then size - 1 else size
   else size) = size - total (prefix_text flags base).
Proof.
  rewrite effective_has by done. unfold prefix_text, total.
  destruct (has flags SPECIAL); [|cbn; lia].
  destruct (Z.eqb_spec base 16) as [->|]; [cbn; lia|]. destruct (base =? 8); cbn; lia.
Qed.

(** The exact text of a number: filling, sign, prefix, filling, zeros up to the
    precision, the digits, filling. *)
Lemma number_layout n base width precision flags :
  2 <= base <= 36 → 0 <= n < 4294967296 →
  ∃ ds, represents base (magnitude flags n) ds ∧
    let size := width - total (sign_text flags n) - total (prefix_text flags base)
                - Z.max precision (total ds) in
    let '(a, b, t) := fill flags size in
    number is_neg opp to_u32 frac6 (Word n) base width precision flags =
      Ok (a ++ sign_text flags n ++ prefix_text flags base ++ b ++
          replicate (Z.to_nat (precision - total ds)) 48 ++
          (digit_char (alphabet flags) <$> ds) ++ t).
Proof.
  intros Hb Hn.
  assert (Hm : 0 <= magnitude flags n < 4294967296).
  { unfold magnitude. destruct (negative flags n); [apply u32_range|done]. }
  destruct (digits_word base (magnitude flags n) flags Hb Hm) as (ds & E & Hds).
  exists ds. split; [done|]. cbv zeta.
  set (size := width - total (sign_text flags n) - total (prefix_text flags base) - Z.max precision (total ds)).
  destruct (fill flags size) as [[a b] t] eqn:Ef.
  unfold number. fold (alphabet flags). fold (effective flags).
  destruct (Z.ltb_spec base 2); [lia|]. destruct (Z.ltb_spec 36 base); [lia|]. cbn [orb].
  rewrite !(effective_has flags SIGN), !(effective_has flags PLUS), !(effective_has flags SPACE) by done.
  fold (negative flags n).
  set (sg := if negative flags n then 45 else if has flags PLUS then 43 else if has flags SPACE then 32 else 0).
  replace (if negative flags n then (45, Word (u32 (- s32 n)))
           else (if has flags PLUS then 43 else if has flags SPACE then 32 else 0, Word n))
    with (sg, @Word double (magnitude flags n)) by (unfold sg, magnitude; by destruct (negative flags n)).
  assert (Hsg : (if sg =? 0 then [] else [sg]) = sign_text flags n ∧
                (if sg =? 0 then width else width - 1) = width - total (sign_text flags n)).
  { unfold sg, sign_text, total. destruct (negative flags n), (has flags PLUS), (has flags SPACE); cbn; split; done || lia. }
  destruct Hsg as [Hsg1 Hsg2]. rewrite Hsg1, Hsg2, size_spec, prefix_spec, E.
  cbn -[Z.sub Z.ltb Z.max pad_loop]. rewrite length_fmap, length_reverse, <- (fmap_reverse _ (reverse ds)), reverse_involutive.
  fold (total ds).
  replace (if precision <? total ds then total ds else precision) with (Z.max precision (total ds))
    by (destruct (Z.ltb_spec precision (total ds)); lia).
  fold size. pose proof (pads_spec flags size) as Hp. cbv zeta in Hp. rewrite Ef in Hp.
  destruct (if has (effective flags) (ZEROPAD + LEFT) then _ else _) as [spaces size1].
  destruct (if has (effective flags) LEFT then _ else _) as [pads size2].
  destruct (pad_loop 32 size2) as [trail size3]. cbn [fst] in Hp. injection Hp as -> -> ->.
  replace (Z.max precision (total ds) - total ds) with (Z.max (precision - total ds) 0) by lia.
  replace (Z.to_nat (Z.max (precision - total ds) 0)) with (Z.to_nat (precision - total ds)) by lia.
  done.
Qed.

(** [number] prints the number: for every base from 2 to 36, every 32-bit word, width,
    precision and flags, the text is the filling the flags ask for, the sign, the prefix
    of the base, zeros up to the precision and the digits of the magnitude - which are
    digits of the base, stand for it, and have no leading zero; the 36 bytes of the
    scratch buffer are enough, and the text is as long as the width whenever it is not
    longer by itself. *)
Theorem number_correct n base width precision flags :
  2 <= base <= 36 → 0 <= n < 4294967296 →
  ∃ ds a b t out,
    represents base (magnitude flags n) ds ∧
    number is_neg opp to_u32 frac6 (Word n) base width precision flags = Ok out ∧
    out = a ++ sign_text flags n ++ prefix_text flags base ++ b ++
          replicate (Z.to_nat (precision - total ds)) 48 ++
          (digit_char (alphabet flags) <$> ds) ++ t ∧
    (∃ k, (a, b, t) = fill flags k) ∧
    total out = Z.max width (total (sign_text flags n) + total (prefix_text flags base)
                             + Z.max precision (total ds)).
Proof.
  intros Hb Hn. destruct (number_layout n base width precision flags Hb Hn) as (ds & Hds & H).
  cbv zeta in H. set (size := width - _ - _ - _) in H.
  destruct (fill flags size) as [[a b] t] eqn:Ef. exists ds, a, b, t. eexists.
  split; [done|]. split; [exact H|]. split; [done|]. split; [by exists size|].
  assert (Hf : total a + total b + total t = Z.max 0 size).
  { unfold fill in Ef. unfold total. destruct (has flags LEFT), (has flags ZEROPAD); simplify_eq;
      cbn; rewrite length_replicate; lia. }
  unfold total in *. rewrite !length_app, length_replicate, length_fmap.
  unfold size in Hf. lia.
Qed.

End Layout.

(** No doubles in the concrete runs. *)
Definition no_neg (d : Empty_set) : bool := false.
Definition no_opp (d : Empty_set) : Empty_set := d.
Definition no_int (d : Empty_set) : Z := 0.

(** -255 in base 16 with width 9 and the prefix *)
Lemma number_correct_witness :
  ∃ ds a b t out,
    represents 16 (magnitude 34 4294967041) ds ∧
    number no_neg no_opp no_int no_int (Word 4294967041) 16 9 (-1) 34 = Ok out ∧
    out = a ++ sign_text 34 4294967041 ++ prefix_text 34 16 ++ b ++
          replicate (Z.to_nat (-1 - total ds)) 48 ++ (digit_char (alphabet 34) <$> ds) ++ t ∧
    (∃ k, (a, b, t) = fill 34 k) ∧
    total out = Z.max 9 (total (sign_text 34 4294967041) + total (prefix_text 34 16) + Z.max (-1) (total ds)).
Proof. apply (number_correct no_neg no_opp no_int no_int 4294967041 16 9 (-1) 34); lia. Defined.

(** ** Printing and reading *)

Section Roundtrip.
Context {double : Type} (is_neg : double → bool) (opp : double → double)
        (to_u32 : double → Z) (frac6 : double → Z).

Lemma dec_digit flags d : 0 <= d < 10 → digit_char (alphabet flags) d = 48 + d.
Proof.
  intros Hd. assert (Hin : d ∈ seqZ 0 10) by (apply elem_of_seqZ; lia).
  unfold alphabet. destruct (has flags SMALL);
    repeat (apply elem_of_cons in Hin as [->|Hin]; [reflexivity|]); by apply elem_of_nil in Hin.
Qed.

Lemma dec_text flags n ds :
  represents 10 n ds →
  forallb digit (digit_char (alphabet flags) <$> ds) = true ∧
  value (digit_char (alphabet flags) <$> ds) = n ∧
  ∃ d l, digit_char (alphabet flags) <$> ds = d :: l.
Proof.
  intros (Hv & Hr & Hz & Hnz & Hl).
  assert (Hval : ∀ r, foldl (λ r c, r * 10 + (c - 48)) r (digit_char (alphabet flags) <$> ds) =
                 foldl (λ r d, r * 10 + d) r ds).
  { clear Hv Hz Hnz Hl. induction ds as [|d ds IH]; intros r; [done|].
    apply Forall_cons in Hr as [Hd Hr]. cbn [fmap list_fmap foldl]. rewrite IH, dec_digit by done.
    f_equal. lia. }
  split_and!.
  - clear -Hr. induction ds as [|d ds IH]; [done|]. apply Forall_cons in Hr as [Hd Hr].
    cbn [fmap list_fmap forallb]. rewrite dec_digit, IH by done. unfold digit.
    destruct (Z.leb_spec 48 (48 + d)), (Z.leb_spec (48 + d) 57); done || lia.
  - unfold value. by rewrite Hval.
  - destruct ds as [|d ds]; [cbn in Hl; lia|]. by do 2 eexists.
Qed.

Lemma u32_neg n : -2147483648 <= n < 0 → u32 (- n) = - n.
Proof. intros. apply u32_small. lia. Qed.

Lemma s32_u32 n : -2147483648 <= n < 2147483648 → s32 (u32 n) = n.
Proof.
  intros Hn. rewrite <- (s32_small n Hn) at 2. unfold s32, u32.
  by rewrite Zplus_mod_idemp_l.
Qed.

Lemma no_flags f n :
  has f SIGN = true → has f PLUS = false → has f SPACE = false → has f SPECIAL = false →
  -2147483648 <= n < 2147483648 →
  sign_text f (u32 n) = (if n <? 0 then [45] else []) ∧ magnitude f (u32 n) = Z.abs n ∧
  prefix_text f 10 = [].
Proof.
  intros H1 H2 H3 H4 Hn. unfold sign_text, magnitude, prefix_text, negative.
  rewrite H1, H2, H3, H4, s32_u32 by done. destruct (Z.ltb_spec n 0); cbn; split_and!; try done.
  - rewrite u32_neg; lia.
  - rewrite u32_small; lia.
Qed.

(** One directive of the format. *)
Lemma format_directive fuel r out counts a r1 f w r2 f2 a2 p r3 a3 s a4 store r4 :
  parse_flags r 0 = (r1, f) → parse_width r1 f a = Ok (w, r2, f2, a2) →
  parse_precision r2 a2 = Ok (p, r3, a3) →
  convert is_neg opp to_u32 frac6 (skip_qualifier r3) w p f2 a3 = Ok (s, a4, store, r4) →
  format_loop is_neg opp to_u32 frac6 (S fuel) (37 :: r) out counts a =
  format_loop is_neg opp to_u32 frac6 fuel r4 (out ++ s)
    (if (store : bool) then counts ++ [Z.of_nat (length (out ++ s))] else counts) a4.
Proof.
  intros H1 H2 H3 H4. cbn [format_loop Z.eqb Pos.eqb negb]. rewrite H1, H2. cbn [mbind res_bind].
  rewrite H3. cbn [mbind res_bind]. by rewrite H4.
Qed.

(** The text of [%*d]: blanks, the sign, the digits, blanks. *)
Lemma star_d w n :
  -2048 < w < 2048 → -2147483648 <= n < 2147483648 →
  ∃ k1 k2 ds, vsprintf is_neg opp to_u32 frac6 [37; 42; 100] [AInt w; AInt n] =
      Ok (replicate k1 32 ++ (if n <? 0 then [45] else []) ++
          (digit_char upper_digits <$> ds) ++ replicate k2 32,
          Z.max (Z.abs w) (total (if n <? 0 then [45] else []) + total ds), []) ∧
    represents 10 (Z.abs n) ds.
Proof.
  intros Hw Hn. set (f := if w <? 0 then Z.lor (Z.lor 0 LEFT) SIGN else Z.lor 0 SIGN).
  assert (Hf : has f SIGN = true ∧ has f PLUS = false ∧ has f SPACE = false ∧ has f SPECIAL = false ∧
               has f SMALL = false ∧ has f ZEROPAD = false) by (unfold f; by destruct (w <? 0)).
  destruct Hf as (F1 & F2 & F3 & F4 & F5 & F6).
  destruct (no_flags f n F1 F2 F3 F4 Hn) as (T1 & T2 & T3).
  destruct (number_layout is_neg opp to_u32 frac6 (u32 n) 10 (Z.abs w) (-1) f ltac:(lia) (u32_range n))
    as (ds & Hds & E).
  cbv zeta in E. rewrite T1, T2, T3 in *. unfold alphabet in E. rewrite F5 in E.
  pose proof Hds as (_ & _ & _ & _ & Hlen).
  set (sg := if n <? 0 then [45] else []) in *. set (sz := Z.abs w - _ - _ - _) in E.
  assert (Hfill : ∃ k1 k2, fill f sz = (replicate k1 32, [], replicate k2 32) ∧
                           Z.of_nat (k1 + k2) = Z.max 0 sz).
  { unfold fill. rewrite F6. destruct (has f LEFT).
    - exists 0%nat, (Z.to_nat sz). split; [done|lia].
    - exists (Z.to_nat sz), 0%nat. split; [done|lia]. }
  destruct Hfill as (k1 & k2 & Ef & Hk). rewrite Ef in E. cbn [app] in E.
  replace (Z.to_nat (-1 - total ds)) with 0%nat in E by (unfold total; lia). cbn [replicate app] in E.
  exists k1, k2, ds. split; [|done].
  assert (Hlen' : total (replicate k1 32 ++ sg ++ (digit_char upper_digits <$> ds) ++ replicate k2 32) =
                  Z.max (Z.abs w) (total sg + total ds)).
  { unfold total in *. rewrite !length_app, !length_replicate, length_fmap. cbn in *. lia. }
  assert (Hbound : Z.max (Z.abs w) (total sg + total ds) < 2048).
  { unfold sg, total. destruct (n <? 0); cbn; lia. }
  unfold vsprintf. cbn [length].
  rewrite (format_directive 3 [42; 100] [] [] [AInt w; AInt n] [42; 100] 0 (Z.abs w) [100]
    (if w <? 0 then Z.lor 0 LEFT else 0) [AInt n] (-1) [100] [AInt n]
    (replicate k1 32 ++ sg ++ (digit_char upper_digits <$> ds) ++ replicate k2 32) [] false []).
  - cbn [app format_loop]. cbn -[kassert total]. fold (total (replicate k1 32 ++ sg ++ (digit_char upper_digits <$> ds) ++ replicate k2 32)).
    rewrite Hlen'. by destruct (Z.ltb_spec (Z.max (Z.abs w) (total sg + total ds)) 2048); [|lia].
  - done.
  - cbn [parse_width is_digit]. change (is_digit 42) with false. cbn -[s32]. rewrite (s32_small w) by lia.
    destruct (Z.ltb_spec w 0); cbn -[s32]; [rewrite s32_small by lia|]; do 4 f_equal; lia.
  - done.
  - cbn -[number u32 Z.lor].
    replace (Z.lor (if w <? 0 then Z.lor 0 LEFT else 0) SIGN) with f by (unfold f; by destruct (w <? 0)).
    by rewrite E.
Qed.

(** C21. What is printed can be read back: for every field width below the buffer size,
    negative ones (left adjustment) included, and every [int], [vsprintf] with [%*d]
    succeeds, its result is the length of the text, which is the field width or more, and
    [atoi] of the text - with its terminator - is the number. *)
Theorem print_read_roundtrip w n :
  -2048 < w < 2048 → -2147483648 <= n < 2147483648 →
  ∃ t, vsprintf is_neg opp to_u32 frac6 [37; 42; 100] [AInt w; AInt n] = Ok (t, total t, []) ∧
    Z.abs w <= total t ∧ atoi (Some (t ++ [0])) = Ok (u32 n).
Proof.
  intros Hw Hn. destruct (star_d w n Hw Hn) as (k1 & k2 & ds & E & Hds).
  destruct (dec_text 0 (Z.abs n) ds Hds) as (Hdig & Hval & d & l & Edl).
  change (alphabet 0) with upper_digits in *.
  set (t := replicate k1 32 ++ (if n <? 0 then [45] else []) ++ (digit_char upper_digits <$> ds) ++ replicate k2 32) in *.
  assert (Ht : total t = Z.max (Z.abs w) (total (if n <? 0 then [45] else []) + total ds)).
  { unfold vsprintf in E. destruct (format_loop _ _ _ _ _ _ _ _ _) as [[out cs]|] eqn:El; [|done].
    cbn -[kassert] in E. destruct (kassert _); [|done]. by injection E as <- <- _. }
  exists t. rewrite Ht. split; [exact E|]. split; [lia|].
  unfold t. rewrite Edl in *. rewrite <- !app_assoc.
  assert (Htail : ∃ c rest, replicate k2 32 ++ [0] = c :: rest ∧ digit c = false).
  { destruct k2; cbn; by do 2 eexists. }
  destruct Htail as (c & rest & -> & Hc).
  pose proof (atoi_spec k1 (if n <? 0 then Minus else NoSign) d l c rest Hdig Hc) as Ha.
  replace (KStdlib.sign_text (if n <? 0 then Minus else NoSign)) with (if n <? 0 then [45] else []) in Ha
    by (by destruct (n <? 0)).
  cbn [app] in *. rewrite Ha. do 2 f_equal. rewrite Hval. destruct (Z.ltb_spec n 0); cbn [sign_factor]; lia.
Qed.

End Roundtrip.

Lemma print_read_roundtrip_witness :
  ∃ t, vsprintf no_neg no_opp no_int no_int [37; 42; 100] [AInt (-9); AInt (-1234)] = Ok (t, total t, []) ∧
    Z.abs (-9) <= total t ∧ atoi (Some (t ++ [0])) = Ok (u32 (-1234)).
Proof. apply (print_read_roundtrip no_neg no_opp no_int no_int (-9) (-1234)); lia. Defined.

(** ** Behaviour at the edges *)

(** A star in the precision takes its argument but stays in the format: the conversion
    character is then the star, which prints itself behind a percent sign. *)
Example precision_star_prints_itself :
  vsprintf no_neg no_opp no_int no_int [37; 46; 42; 100] [AInt 3; AInt 9] = Ok ([37; 42; 100], 3, []).
Proof. reflexivity. Qed.

(** 1.05: the digits behind the point are printed without leading zeros. *)
Example fraction_loses_zeros :
  vsprintf (λ _ : unit, false) id (λ _, 1) (λ _, 50000) [37; 102] [ADouble tt] =
    Ok ([49; 46; 53; 48; 48; 48; 48], 7, []).
Proof. reflexivity. Qed.
