(* ===== verification/Keyboard.v ===== *)
(** * The keyboard and the terminal (src/kernel/keyboard.c, src/kernel/tty.c)

    The interrupt handler with its key table and modifier state, the notification of
    the terminal, and the reading side.  Port input is the list of bytes the device
    will answer; port output, signals, wake-ups and writes to the console device are
    recorded as events. *)

From S2P Require Import Prelude Kfifo.

(** ** Key table *)

Definition KEY_PRINT_SCREEN : Z := 0x5F.
Definition CODE_PRINT_SCREEN_DOWN : Z := 0xB7.
Definition KEY_CTRL_L : Z := 0x1D.
Definition KEY_ALT_L : Z := 0x38.
Definition KEY_SHIFT_L : Z := 0x2A.
Definition KEY_SHIFT_R : Z := 0x36.
Definition KEY_SLASH : Z := 0x35.
Definition KEY_CAPSLOCK : Z := 0x3A.
Definition KEY_NUMLOCK : Z := 0x45.
Definition KEY_SCRLOCK : Z := 0x46.
Definition KEYBOARD_DATA_PORT : Z := 0x60.
Definition KEYBOARD_CTRL_PORT : Z := 0x64.
Definition KEYBOARD_CMD_LED : Z := 0xED.
Definition KEYBOARD_CMD_ACK : Z := 0xFA.
Definition KEYBOARD_CMD_RESEND : Z := 0xFE.
Definition KEYBOARD_BUFFER_SIZE : Z := 64.
Definition SIGINT : Z := 2.

(** Columns 0 and 1 of [keymap]: the character alone and with shift. *)
Definition keymap : list (Z * Z) :=
  [(0, 0); (27, 27); (49, 33); (50, 64); (51, 35); (52, 36); (53, 37); (54, 94);
   (55, 38); (56, 42); (57, 40); (48, 41); (45, 95); (61, 43); (8, 8); (9, 9);
   (113, 81); (119, 87); (101, 69); (114, 82); (116, 84); (121, 89); (117, 85); (105, 73);
   (111, 79); (112, 80); (91, 123); (93, 125); (10, 10); (0, 0); (97, 65); (115, 83);
   (100, 68); (102, 70); (103, 71); (104, 72); (106, 74); (107, 75); (108, 76); (59, 58);
   (39, 34); (96, 126); (0, 0); (92, 124); (122, 90); (120, 88); (99, 67); (118, 86);
   (98, 66); (110, 78); (109, 77); (44, 60); (46, 62); (47, 63); (0, 0); (42, 42);
   (0, 0); (32, 32); (0, 0); (0, 0); (0, 0); (0, 0); (0, 0); (0, 0);
   (0, 0); (0, 0); (0, 0); (0, 0); (0, 0); (0, 0); (0, 0); (55, 0);
   (56, 0); (57, 0); (45, 45); (52, 0); (53, 0); (54, 0); (43, 43); (49, 0);
   (50, 0); (51, 0); (48, 0); (46, 127); (0, 0); (0, 0); (0, 0); (0, 0);
   (0, 0); (0, 0); (0, 0); (0, 0); (0, 0); (0, 0); (0, 0); (0, 0)].

(** ** State *)

(** [tty_t]. *)
Record tty_t := Tty { rdev : Z; wdev : Z; tty_pgid : Z; echo : bool }.

Inductive event :=
  | Eoi (vector : Z)
  | Outb (port value : Z)
  | Kill (pid sig : Z)
  | DeviceWrite (dev : Z) (text : list Z)
  | Unblock (task : Z).

Record kb := Kb {
  pressed : list (bool * bool);      (* columns 2 and 3 of [keymap] *)
  capslock_state : bool;
  scrlock_state : bool;
  numlock_state : bool;
  extcode_state : bool;
  kb_fifo : kfifo_t;
  fg_task : option Z;
  typewriter : tty_t;
  tasks : list (option (Z * Z));     (* pid and process group of [task_list] *)
  inputs : list Z;
  events : list event
}.

Definition K := ST kb.

Definition set_pressed v k := Kb v (capslock_state k) (scrlock_state k) (numlock_state k) (extcode_state k) (kb_fifo k) (fg_task k) (typewriter k) (tasks k) (inputs k) (events k).
Definition set_caps v k := Kb (pressed k) v (scrlock_state k) (numlock_state k) (extcode_state k) (kb_fifo k) (fg_task k) (typewriter k) (tasks k) (inputs k) (events k).
Definition set_scr v k := Kb (pressed k) (capslock_state k) v (numlock_state k) (extcode_state k) (kb_fifo k) (fg_task k) (typewriter k) (tasks k) (inputs k) (events k).
Definition set_num v k := Kb (pressed k) (capslock_state k) (scrlock_state k) v (extcode_state k) (kb_fifo k) (fg_task k) (typewriter k) (tasks k) (inputs k) (events k).
Definition set_ext v k := Kb (pressed k) (capslock_state k) (scrlock_state k) (numlock_state k) v (kb_fifo k) (fg_task k) (typewriter k) (tasks k) (inputs k) (events k).
Definition set_fifo v k := Kb (pressed k) (capslock_state k) (scrlock_state k) (numlock_state k) (extcode_state k) v (fg_task k) (typewriter k) (tasks k) (inputs k) (events k).
Definition set_fg v k := Kb (pressed k) (capslock_state k) (scrlock_state k) (numlock_state k) (extcode_state k) (kb_fifo k) v (typewriter k) (tasks k) (inputs k) (events k).
Definition set_tty v k := Kb (pressed k) (capslock_state k) (scrlock_state k) (numlock_state k) (extcode_state k) (kb_fifo k) (fg_task k) v (tasks k) (inputs k) (events k).
Definition set_inputs v k := Kb (pressed k) (capslock_state k) (scrlock_state k) (numlock_state k) (extcode_state k) (kb_fifo k) (fg_task k) (typewriter k) (tasks k) v (events k).
Definition add_event e k := Kb (pressed k) (capslock_state k) (scrlock_state k) (numlock_state k) (extcode_state k) (kb_fifo k) (fg_task k) (typewriter k) (tasks k) (inputs k) (events k ++ [e]).

Definition emit (e : event) : K unit := modify_st (add_event e).
Definition outb (port v : Z) : K unit := emit (Outb port v).

(** The next byte of the device; a device that has none keeps the caller waiting. *)
Definition inb (port : Z) : K Z := λ k,
  match inputs k with [] => Stop NoFuel | x :: r => Ok (x, set_inputs r k) end.

(** ** The terminal *)

(** The loop of [tty_intr] over the task table. *)
Fixpoint intr_loop (ts : list (option (Z * Z))) (pgid : Z) : K unit :=
  match ts with
  | [] => mret ()
  | None :: ts => intr_loop ts pgid
  | Some (pid, g) :: ts =>
      (if g =? pgid then emit (Kill pid SIGINT) else mret ());; intr_loop ts pgid
  end.

Definition tty_intr : K Z :=
  k ← get_st;
  if tty_pgid (typewriter k) =? 0 then mret 0
  else intr_loop (tasks k) (tty_pgid (typewriter k));; mret 0.

(** ESC [2J ESC [0;0H CR and the terminator. *)
Definition clear_text : list Z := [27; 91; 50; 74; 27; 91; 48; 59; 48; 72; 13; 0].

(** The character is passed by address: the result is the answer and the character. *)
Definition tty_rx_notify (ch : Z) (ctrl shift alt : bool) : K (Z * Z) :=
  let ch := if ch =? 13 then 10 else ch in
  if negb ctrl then mret (0, ch)
  else if (ch =? 99) || (ch =? 67) then tty_intr;; mret (0, 10)
  else if (ch =? 108) || (ch =? 76) then
    k ← get_st; emit (DeviceWrite (wdev (typewriter k)) clear_text);; mret (0, 13)
  else mret (1, ch).

Definition TIOCSPGRP : Z := 0x5410.
Definition EINVAL : Z := 22.

Definition tty_ioctl (cmd args : Z) : K Z :=
  if cmd =? TIOCSPGRP then
    modify_st (λ k, set_tty (Tty (rdev (typewriter k)) (wdev (typewriter k)) args (echo (typewriter k))) k);;
    mret 0
  else mret (- EINVAL).

(** ** The keyboard *)

Fixpoint keyboard_wait (fuel : nat) : K unit :=
  match fuel with
  | O => stop_st NoFuel
  | S fuel =>
      state ← inb KEYBOARD_CTRL_PORT;
      if negb (Z.land state 0x02 =? 0) then keyboard_wait fuel else mret ()
  end.

Fixpoint keyboard_ack (fuel : nat) : K bool :=
  match fuel with
  | O => stop_st NoFuel
  | S fuel =>
      state ← inb KEYBOARD_DATA_PORT;
      if state =? KEYBOARD_CMD_RESEND then mret false
      else if state =? KEYBOARD_CMD_ACK then mret true
      else keyboard_ack fuel
  end.

Definition b2z (b : bool) : Z := if b then 1 else 0.

Definition set_led : K unit :=
  k ← get_st;
  let leds := Z.lor (Z.lor (Z.shiftl (b2z (capslock_state k)) 2) (Z.shiftl (b2z (numlock_state k)) 1))
                    (b2z (scrlock_state k)) in
  let fuel := S (length (inputs k)) in
  keyboard_wait fuel;;
  outb KEYBOARD_DATA_PORT KEYBOARD_CMD_LED;;
  ok ← keyboard_ack fuel;
  if negb ok then mret ()
  else
    keyboard_wait fuel;;
    outb KEYBOARD_DATA_PORT leds;;
    keyboard_ack fuel;; mret ().

(** [keymap[makecode][ext]], for [ext] 2 or 3. *)
Definition key_down (k : kb) (code : Z) (ext : bool) : bool :=
  let '(l, r) := default (false, false) (pressed k !! Z.to_nat code) in if ext then r else l.

Definition put_key (code : Z) (ext v : bool) (k : kb) : kb :=
  set_pressed (alter (λ '(l, r), if ext then (l, v) else (v, r)) (Z.to_nat code) (pressed k)) k.

Definition ctrl_state (k : kb) : bool := key_down k KEY_CTRL_L false || key_down k KEY_CTRL_L true.
Definition alt_state (k : kb) : bool := key_down k KEY_ALT_L false || key_down k KEY_ALT_L true.
Definition shift_state (k : kb) : bool := key_down k KEY_SHIFT_L false || key_down k KEY_SHIFT_R false.

(** [keymap[makecode][shifted]]. *)
Definition key_char (code : Z) (shifted : bool) : res Z :=
  '(a, b) ← zget keymap code; mret (if (shifted : bool) then b else a).

(** The character of a key. *)
Definition decode (k : kb) (ext : bool) (makecode : Z) : res Z :=
  if ext && negb (makecode =? KEY_SLASH) then key_char makecode true
  else if (0x47 <=? makecode) && (makecode <=? 0x53) then key_char makecode (negb (numlock_state k))
  else
    c ← key_char makecode false;
    if (97 <=? c) && (c <=? 122)
    then key_char makecode (xorb (capslock_state k) (shift_state k))
    else key_char makecode (shift_state k).

(** From the notification of the terminal on. *)
Definition deliver (ch : Z) : K unit :=
  k ← get_st;
  '(r, ch) ← tty_rx_notify ch (ctrl_state k) (shift_state k) (alt_state k);
  if 0 <? r then mret ()
  else
    k ← get_st;
    match fg_task k with
    | None => mret ()
    | Some t =>
        '(_, f) ← lift_st (kfifo_put (Z.to_nat KEYBOARD_BUFFER_SIZE) ch (kb_fifo k));
        modify_st (set_fifo f);;
        emit (Unblock t);;
        modify_st (set_fg None)
    end.

Definition keyboard_handler (vector : Z) : K unit :=
  sassert (vector =? 0x21);;
  emit (Eoi vector);;
  scancode ← inb KEYBOARD_DATA_PORT;
  if scancode =? 0xe0 then modify_st (set_ext true)
  else
    k ← get_st;
    let ext := extcode_state k in
    let scancode := if ext then Z.lor scancode 0xe000 else scancode in
    modify_st (set_ext false);;
    let makecode := Z.land scancode 0x7f in
    let makecode := if makecode =? CODE_PRINT_SCREEN_DOWN then KEY_PRINT_SCREEN else makecode in
    if KEY_PRINT_SCREEN <? makecode then mret ()
    else if negb (Z.land scancode 0x80 =? 0) then modify_st (put_key makecode ext false)
    else
      modify_st (put_key makecode ext true);;
      if makecode =? KEY_NUMLOCK then modify_st (λ k, set_num (negb (numlock_state k)) k);; set_led
      else if makecode =? KEY_CAPSLOCK then modify_st (λ k, set_caps (negb (capslock_state k)) k);; set_led
      else if makecode =? KEY_SCRLOCK then modify_st (λ k, set_scr (negb (scrlock_state k)) k);; set_led
      else
        k ← get_st;
        ch ← lift_st (decode k ext makecode);
        if ch =? 0 then mret () else deliver ch.

(** The reading side: the loop of [keyboard_read] until it has [count] characters or has
    to wait; [inl] is the finished buffer, [inr] the characters read so far, the caller
    being registered in [fg_task] and blocked. *)
Fixpoint read_loop (fuel : nat) (current : Z) (count : Z) (buf : list Z) : K (list Z + list Z) :=
  match fuel with
  | O => stop_st NoFuel
  | S fuel =>
      if Z.of_nat (length buf) <? count then
        k ← get_st;
        if kfifo_empty (kb_fifo k) then modify_st (set_fg (Some current));; mret (inr buf)
        else
          '(c, f) ← lift_st (kfifo_get (kb_fifo k));
          modify_st (set_fifo f);;
          read_loop fuel current count (buf ++ [c])
      else mret (inl buf)
  end.

Definition keyboard_read (current count : Z) (buf : list Z) : K (list Z + list Z) :=
  read_loop (S (Z.to_nat count)) current count buf.

Definition keyboard_init : K unit :=
  modify_st (set_fifo (kfifo_init (replicate (Z.to_nat KEYBOARD_BUFFER_SIZE) 0) KEYBOARD_BUFFER_SIZE));;
  modify_st (set_fg None);;
  set_led.

(** ** Runs of the handler *)

(** One interrupt: the device has the scancode ready, and acknowledges what a lock key
    sends to it. *)
Definition irq (sc : Z) : K unit :=
  modify_st (set_inputs [sc; 0; KEYBOARD_CMD_ACK; 0; KEYBOARD_CMD_ACK]);; keyboard_handler 0x21.

Fixpoint irqs (scs : list Z) : K unit :=
  match scs with [] => mret () | sc :: scs => irq sc;; irqs scs end.

(** A table of 96 keys and a usable ring of 64 bytes. *)
Record wf (k : kb) : Prop := {
  wf_keys : length (pressed k) = 96%nat;
  wf_ring : ring (kb_fifo k);
  wf_size : buf_size (kb_fifo k) = 64
}.

(** What the delivery of a character leaves alone. *)
Definition core (k : kb) :=
  (pressed k, capslock_state k, scrlock_state k, numlock_state k, extcode_state k, typewriter k, tasks k).

Lemma intr_loop_Ok ts g k :
  ∃ k', intr_loop ts g k = Ok ((), k') ∧ core k' = core k ∧ kb_fifo k' = kb_fifo k ∧ fg_task k' = fg_task k.
Proof.
  revert k. induction ts as [|[[p h]|] ts IH]; intros k; cbn [intr_loop]; [by exists k| |apply IH].
  destruct (h =? g).
  - destruct (IH (add_event (Kill p SIGINT) k)) as (k' & E & H). exists k'. by split.
  - destruct (IH k) as (k' & E & H). exists k'. by split.
Qed.

Lemma tty_rx_Ok ch ctrl shift alt k :
  ∃ r c k', tty_rx_notify ch ctrl shift alt k = Ok ((r, c), k') ∧ core k' = core k ∧
    kb_fifo k' = kb_fifo k ∧ fg_task k' = fg_task k ∧
    (ctrl = false → r = 0 ∧ c = (if ch =? 13 then 10 else ch) ∧ k' = k).
Proof.
  unfold tty_rx_notify. cbv zeta. set (c := if ch =? 13 then 10 else ch).
  destruct ctrl; cbn [negb]; [|by exists 0, c, k].
  destruct ((c =? 99) || (c =? 67)).
  - assert (H : ∃ k', tty_intr k = Ok (0, k') ∧ core k' = core k ∧ kb_fifo k' = kb_fifo k ∧ fg_task k' = fg_task k).
    { unfold tty_intr. rewrite (st_bind_eq _ _ k k k) by done. cbn beta.
      destruct (tty_pgid (typewriter k) =? 0); [by exists k|].
      destruct (intr_loop_Ok (tasks k) (tty_pgid (typewriter k)) k) as (k' & E & H).
      exists k'. by rewrite (st_bind_eq _ _ _ _ _ E). }
    destruct H as (k' & E & H1 & H2 & H3). exists 0, 10, k'. by rewrite (st_bind_eq _ _ _ _ _ E).
  - destruct ((c =? 108) || (c =? 76)).
    + by exists 0, 13, (add_event (DeviceWrite (wdev (typewriter k)) clear_text) k).
    + by exists 1, c, k.
Qed.

Lemma deliver_Ok ch k :
  wf k →
  ∃ k', deliver ch k = Ok ((), k') ∧ core k' = core k ∧ wf k' ∧
    (ctrl_state k = false → ch ≠ 13 →
       fg_task k' = None ∧
       queue (kb_fifo k') = match fg_task k with
                            | Some _ => q_put 63 (s8 ch) (queue (kb_fifo k))
                            | None => queue (kb_fifo k)
                            end ∧
       events k' = events k ++ match fg_task k with Some t => [Unblock t] | None => [] end).
Proof.
  intros [W1 W2 W3]. unfold deliver. rewrite (st_bind_eq _ _ k k k) by done. cbn beta.
  destruct (tty_rx_Ok ch (ctrl_state k) (shift_state k) (alt_state k) k)
    as (r & c & k1 & E & Hcore & Hf & Hg & Hc).
  rewrite (st_bind_eq _ _ _ _ _ E). cbn beta iota.
  assert (W' : wf k1).
  { split; [|by rewrite Hf..]. by injection Hcore as -> _. }
  destruct (Z.ltb_spec 0 r) as [Hr|Hr].
  { exists k1. split_and!; try done. intros Hct. destruct (Hc Hct) as (-> & _). lia. }
  rewrite (st_bind_eq _ _ k1 k1 k1) by done. cbn beta. rewrite Hg.
  destruct (fg_task k) as [t|] eqn:Et.
  - destruct (put_spec (Z.to_nat KEYBOARD_BUFFER_SIZE) c (kb_fifo k1)) as (f & Ef & Hr' & Hs & Hq);
      [apply W'|vm_compute; lia|].
    assert (El : lift_st (kfifo_put (Z.to_nat KEYBOARD_BUFFER_SIZE) c (kb_fifo k1)) k1 = Ok (((), f), k1)).
    { unfold lift_st. by rewrite Ef. }
    rewrite (st_bind_eq _ _ _ _ _ El). cbn beta iota. eexists. split; [reflexivity|].
    split; [done|]. split.
    + destruct W'. split; cbn; [done..|congruence].
    + intros Hct Hne. destruct (Hc Hct) as (_ & -> & ->). destruct (Z.eqb_spec ch 13); [done|].
      cbn. split_and!; [done| |done]. rewrite Hq, W3. done.
  - exists k1. split_and!; try done. intros Hct _. destruct (Hc Hct) as (_ & _ & ->).
    split_and!; [done..|by rewrite app_nil_r].
Qed.

(** ** The keys that are held *)

(** Key events of a stream of scancodes: code, extended or not, pressed or released. *)
Fixpoint key_events (ext : bool) (scs : list Z) : list (Z * bool * bool) :=
  match scs with
  | [] => []
  | sc :: scs =>
      if sc =? 0xe0 then key_events true scs
      else (sc mod 128, ext, sc <? 128) :: key_events false scs
  end.

(** Whether a key is held after a list of events: what its last event says. *)
Fixpoint held (evs : list (Z * bool * bool)) (code : Z) (ext down : bool) : bool :=
  match evs with
  | [] => down
  | (c, e, d) :: evs => held evs code ext (if (c =? code) && eqb e ext then d else down)
  end.

Lemma scan_byte_bits sc e :
  0 <= sc < 256 → let sc' := if (e : bool) then Z.lor sc 0xe000 else sc in
  Z.land sc' 0x7f = sc mod 128 ∧ (Z.land sc' 0x80 =? 0) = (sc <? 128).
Proof.
  intros Hsc. assert (Hin : sc ∈ seqZ 0 256) by (apply elem_of_seqZ; lia).
  assert (W : forallb (λ sc, forallb (λ e : bool, let sc' := if e then Z.lor sc 0xe000 else sc in
    (Z.land sc' 0x7f =? sc mod 128) && eqb (Z.land sc' 0x80 =? 0) (sc <? 128)) [true; false]) (seqZ 0 256) = true)
    by (vm_compute; reflexivity).
  rewrite forallb_forall in W. apply list_elem_of_In in Hin. specialize (W sc Hin).
  rewrite forallb_forall in W. specialize (W e). cbv zeta in *.
  rewrite andb_true_iff, Z.eqb_eq, eqb_true_iff in W. apply W. destruct e; cbn; auto.
Qed.

Lemma keymap_get code s : 0 <= code < 96 → ∃ c, key_char code s = Ok c.
Proof.
  intros Hc. unfold key_char. destruct (zget_is_Ok keymap code) as ([a b] & E & _); [cbn; lia|].
  rewrite E. by eexists.
Qed.

Lemma decode_Ok k e code : 0 <= code < 96 → ∃ c, decode k e code = Ok c.
Proof.
  intros Hc. unfold decode. destruct (e && _); [by apply keymap_get|].
  destruct ((0x47 <=? code) && (code <=? 0x53)); [by apply keymap_get|].
  destruct (keymap_get code false Hc) as [c ->]. cbn. destruct (_ && _); by apply keymap_get.
Qed.

Lemma put_key_wf code e v k : wf k → wf (put_key code e v k).
Proof. intros []. split; [by rewrite <- wf_keys0; apply length_alter|done..]. Qed.

Lemma put_key_down code e v k c' e' :
  wf k → 0 <= code < 96 → 0 <= c' →
  key_down (put_key code e v k) c' e' = if (code =? c') && eqb e e' then v else key_down k c' e'.
Proof.
  intros W Hc Hc'. unfold key_down, put_key. cbn. destruct (Z.eqb_spec code c') as [<-|Hne]; cbn [andb].
  - rewrite list_lookup_alter_eq. destruct (lookup_lt_is_Some_2 (pressed k) (Z.to_nat code)) as [[l r] E];
      [rewrite (wf_keys _ W); lia|]. rewrite E. by destruct e, e'.
  - by rewrite list_lookup_alter_ne by (intros E; apply Hne; lia).
Qed.

Lemma set_led_Ok k :
  inputs k = [0; KEYBOARD_CMD_ACK; 0; KEYBOARD_CMD_ACK] →
  ∃ k', set_led k = Ok ((), k') ∧ core k' = core k ∧ kb_fifo k' = kb_fifo k ∧ fg_task k' = fg_task k.
Proof.
  intros Hi. destruct k as [p c s n e f g t ts i ev]. cbn in Hi. subst i.
  remember (set_led _) as r eqn:E. vm_compute in E. subst r.
  eexists. split; [reflexivity|done].
Qed.

(** The state in which the handler has fetched a scancode. *)
Definition fetched (k : kb) : kb :=
  set_ext false (set_inputs [0; KEYBOARD_CMD_ACK; 0; KEYBOARD_CMD_ACK] (add_event (Eoi 0x21) (set_inputs [] k))).

(** What the handler does with a pressed key. *)
Definition key_action (ext : bool) (code : Z) : K unit :=
  modify_st (put_key code ext true);;
  if code =? KEY_NUMLOCK then modify_st (λ k, set_num (negb (numlock_state k)) k);; set_led
  else if code =? KEY_CAPSLOCK then modify_st (λ k, set_caps (negb (capslock_state k)) k);; set_led
  else if code =? KEY_SCRLOCK then modify_st (λ k, set_scr (negb (scrlock_state k)) k);; set_led
  else
    k ← get_st;
    ch ← lift_st (decode k ext code);
    if ch =? 0 then mret () else deliver ch.

(** The handler, by cases on the scancode. *)
Lemma irq_cases sc k :
  0 <= sc < 256 →
  irq sc k =
    if sc =? 0xe0 then Ok ((), set_ext true (set_inputs [0; KEYBOARD_CMD_ACK; 0; KEYBOARD_CMD_ACK]
                                 (add_event (Eoi 0x21) (set_inputs [] k))))
    else if KEY_PRINT_SCREEN <? sc mod 128 then Ok ((), fetched k)
    else if sc <? 128 then key_action (extcode_state k) (sc mod 128) (fetched k)
    else Ok ((), put_key (sc mod 128) (extcode_state k) false (fetched k)).
Proof.
  intros Hsc. destruct (scan_byte_bits sc (extcode_state k) Hsc) as [E1 E2]. cbv zeta in *.
  unfold irq, keyboard_handler, sassert, emit, inb, modify_st, get_st.
  unfold mbind, st_bind at 1. cbn [inputs set_inputs].
  destruct k as [p c s n e f g t ts i ev].
  cbn -[Z.land Z.lor Z.eqb Z.modulo KEY_PRINT_SCREEN CODE_PRINT_SCREEN_DOWN Z.ltb key_action put_key set_led decode].
  change (33 =? 33) with true. cbn -[Z.land Z.lor Z.eqb Z.modulo KEY_PRINT_SCREEN CODE_PRINT_SCREEN_DOWN Z.ltb key_action put_key set_led decode].
  destruct (sc =? 224); [done|]. cbn [extcode_state] in *. unfold st_bind.
  cbn -[Z.land Z.lor Z.eqb Z.modulo KEY_PRINT_SCREEN CODE_PRINT_SCREEN_DOWN Z.ltb key_action put_key set_led decode].
  rewrite E1, E2.
  pose proof (Z.mod_pos_bound sc 128 ltac:(lia)).
  destruct (Z.eqb_spec (sc mod 128) CODE_PRINT_SCREEN_DOWN) as [Hx|_]; [unfold CODE_PRINT_SCREEN_DOWN in Hx; lia|].
  destruct (KEY_PRINT_SCREEN <? sc mod 128); [done|]. destruct (sc <? 128); done.
Qed.

Lemma key_action_Ok ext code k :
  wf k → inputs k = [0; KEYBOARD_CMD_ACK; 0; KEYBOARD_CMD_ACK] → 0 <= code < 96 →
  ∃ k', key_action ext code k = Ok ((), k') ∧ wf k' ∧ extcode_state k' = extcode_state k ∧
    pressed k' = pressed (put_key code ext true k).
Proof.
  intros W Hi Hc. unfold key_action. set (k1 := put_key code ext true k).
  rewrite (st_bind_eq _ _ k () k1) by done. pose proof (put_key_wf code ext true k W) as W1. fold k1 in W1.
  assert (Hled : ∀ g : kb → kb, wf (g k1) → inputs (g k1) = inputs k1 → pressed (g k1) = pressed k1 →
    extcode_state (g k1) = extcode_state k1 →
    ∃ k', (modify_st g;; set_led) k1 = Ok ((), k') ∧ wf k' ∧ extcode_state k' = extcode_state k ∧ pressed k' = pressed k1).
  { intros g Wg Gi Gp Ge. rewrite (st_bind_eq _ _ k1 () (g k1)) by done.
    destruct (set_led_Ok (g k1)) as (k' & E & Hcore & Hf & _); [by rewrite Gi|].
    exists k'. injection Hcore as Hp _ _ _ He _ _. split_and!; [done| |by rewrite He, Ge|congruence].
    destruct Wg. split; [congruence|by rewrite Hf..]. }
  destruct (code =? KEY_NUMLOCK); [apply Hled; try done; by destruct W1|].
  destruct (code =? KEY_CAPSLOCK); [apply Hled; try done; by destruct W1|].
  destruct (code =? KEY_SCRLOCK); [apply Hled; try done; by destruct W1|].
  rewrite (st_bind_eq _ _ k1 k1 k1) by done. cbn beta.
  destruct (decode_Ok k1 ext code Hc) as [ch Ech].
  rewrite (st_bind_eq _ _ k1 ch k1) by (unfold lift_st; by rewrite Ech).
  destruct (ch =? 0); [by exists k1|].
  destruct (deliver_Ok ch k1 W1) as (k' & E & Hcore & W' & _). exists k'.
  injection Hcore as Hp _ _ _ He _ _. split_and!; [done..|by rewrite He|done].
Qed.

Lemma irq_Ok sc k :
  wf k → 0 <= sc < 256 →
  ∃ k', irq sc k = Ok ((), k') ∧ wf k' ∧ extcode_state k' = (sc =? 0xe0) ∧
    ∀ c e, 0 <= c < 96 → key_down k' c e = held (key_events (extcode_state k) [sc]) c e (key_down k c e).
Proof.
  intros W Hsc. rewrite irq_cases by done. cbn [key_events].
  assert (Wf : wf (fetched k)) by (by destruct W).
  destruct (sc =? 0xe0); [eexists; split_and!; [done|by destruct W|done|done]|].
  pose proof (Z.mod_pos_bound sc 128 ltac:(lia)) as Hm. cbn [held].
  assert (Hput : ∀ b k', pressed k' = pressed (put_key (sc mod 128) (extcode_state k) b (fetched k)) →
    sc mod 128 < 96 → ∀ c e, 0 <= c < 96 →
    key_down k' c e = if (sc mod 128 =? c) && eqb (extcode_state k) e then b else key_down k c e).
  { intros b k' Hp Hlt c e Hc. unfold key_down at 1. rewrite Hp.
    fold (key_down (put_key (sc mod 128) (extcode_state k) b (fetched k)) c e).
    rewrite put_key_down by (done || lia). done. }
  destruct (Z.ltb_spec KEY_PRINT_SCREEN (sc mod 128)) as [Hbig|Hsmall]; unfold KEY_PRINT_SCREEN in *.
  - exists (fetched k). split_and!; try done. intros c e Hc.
    destruct (Z.eqb_spec (sc mod 128) c); [lia|]. done.
  - destruct (Z.ltb_spec sc 128).
    + destruct (key_action_Ok (extcode_state k) (sc mod 128) (fetched k) Wf eq_refl ltac:(lia)) as (k' & E & W' & He & Hp).
      exists k'. split_and!; [done..|]. apply Hput; [done|lia].
    + eexists. split; [reflexivity|]. split; [by apply put_key_wf|]. split; [done|]. apply Hput; [done|lia].
Qed.

Lemma held_app l1 l2 c e b : held (l1 ++ l2) c e b = held l2 c e (held l1 c e b).
Proof. revert b. induction l1 as [|[[c' e'] d] l1 IH]; intros b; [done|]. apply IH. Qed.

(** The key table is the keyboard: whatever bytes the keyboard sends, in whatever
    order, every interrupt is handled to its end (the lamps being acknowledged), and
    afterwards a key - with or without the extension prefix - counts as held exactly
    when its last event was a press.  So the modifiers are those that are held. *)
Theorem held_keys scs k :
  wf k → Forall (λ sc, 0 <= sc < 256) scs →
  ∃ k', irqs scs k = Ok ((), k') ∧ wf k' ∧
    (∀ c e, 0 <= c < 96 → key_down k' c e = held (key_events (extcode_state k) scs) c e (key_down k c e)) ∧
    shift_state k' = (held (key_events (extcode_state k) scs) KEY_SHIFT_L false (key_down k KEY_SHIFT_L false)
                   || held (key_events (extcode_state k) scs) KEY_SHIFT_R false (key_down k KEY_SHIFT_R false)).
Proof.
  intros W Hscs.
  assert (H : ∃ k', irqs scs k = Ok ((), k') ∧ wf k' ∧
    (∀ c e, 0 <= c < 96 → key_down k' c e = held (key_events (extcode_state k) scs) c e (key_down k c e))).
  { revert k W. induction Hscs as [|sc scs Hsc Hscs IH]; intros k W; [by exists k|].
    destruct (irq_Ok sc k W Hsc) as (k1 & E1 & W1 & X1 & H1).
    destruct (IH k1 W1) as (k2 & E2 & W2 & H2). exists k2. cbn [irqs].
    rewrite (st_bind_eq _ _ _ _ _ E1). split_and!; [done..|].
    intros c e Hc. rewrite H2, H1 by done. rewrite X1, <- held_app. f_equal.
    cbn [key_events]. destruct (sc =? 0xe0); done. }
  destruct H as (k' & E & W' & H). exists k'. split_and!; [done..|].
  unfold shift_state. by rewrite !H by (unfold KEY_SHIFT_L, KEY_SHIFT_R; lia).
Qed.

(** ** Typing *)

(** No modifier is held, caps lock is off and num lock on. *)
Record calm (k : kb) : Prop := {
  calm_wf : wf k;
  calm_ext : extcode_state k = false;
  calm_caps : capslock_state k = false;
  calm_num : numlock_state k = true;
  calm_ctrl : ctrl_state k = false;
  calm_shift : shift_state k = false
}.

(** The keys that print: the first column of the table. *)
Definition prints (sc c : Z) : Prop := 0 <= sc ∧ ∃ d, keymap !! Z.to_nat sc = Some (c, d) ∧ c ≠ 0.

Lemma prints_facts sc c :
  prints sc c →
  0 <= sc < 96 ∧ 0 < c < 128 ∧ c ≠ 13 ∧
  sc ∉ [KEY_NUMLOCK; KEY_CAPSLOCK; KEY_SCRLOCK; KEY_CTRL_L; KEY_SHIFT_L; KEY_SHIFT_R].
Proof.
  intros (H0 & d & E & Hc). pose proof (lookup_lt_Some _ _ _ E) as Hl. cbn in Hl.
  assert (W : forallb (λ i, match keymap !! Z.to_nat i with
     | Some (c, _) => (c =? 0) || (bool_decide (0 < c < 128 ∧ c ≠ 13 ∧
         i ∉ [KEY_NUMLOCK; KEY_CAPSLOCK; KEY_SCRLOCK; KEY_CTRL_L; KEY_SHIFT_L; KEY_SHIFT_R]))
     | None => true end) (seqZ 0 96) = true) by (vm_compute; reflexivity).
  rewrite forallb_forall in W. specialize (W sc). rewrite E in W.
  destruct (Z.eqb_spec c 0); [done|]. cbn in W. rewrite bool_decide_eq_true in W.
  split; [lia|]. apply W, list_elem_of_In, elem_of_seqZ. lia.
Qed.

Lemma prints_char sc c s : prints sc c → s = false → key_char sc s = Ok c.
Proof.
  intros (H0 & d & E & Hc) ->. unfold key_char.
  assert (Ez : zget keymap sc = Ok (c, d)) by by apply zget_Ok.
  by rewrite Ez.
Qed.

Lemma decode_calm k sc c :
  prints sc c → capslock_state k = false → numlock_state k = true → shift_state k = false →
  decode k false sc = Ok c.
Proof.
  intros Hp H1 H2 H3. unfold decode. cbn [andb]. rewrite H1, H2, H3. cbn [negb xorb].
  destruct ((71 <=? sc) && (sc <=? 83)); [by apply prints_char|].
  rewrite (prints_char sc c false Hp eq_refl). cbn. by destruct (_ && _).
Qed.

(** Pressing a printing key changes no modifier. *)
Lemma put_key_calm sc c k :
  calm k → prints sc c →
  ctrl_state (put_key sc false true k) = false ∧ shift_state (put_key sc false true k) = false.
Proof.
  intros [W _ _ _ Hct Hsh] Hp. destruct (prints_facts sc c Hp) as (Hr & _ & _ & Hn).
  rewrite !not_elem_of_cons in Hn. destruct Hn as (_ & _ & _ & Hn1 & Hn2 & Hn3 & _).
  unfold ctrl_state, shift_state in *.
  rewrite !put_key_down by (done || unfold KEY_CTRL_L, KEY_SHIFT_L, KEY_SHIFT_R; lia).
  destruct (Z.eqb_spec sc KEY_CTRL_L), (Z.eqb_spec sc KEY_SHIFT_L), (Z.eqb_spec sc KEY_SHIFT_R); done.
Qed.

Lemma typed_Ok sc c k :
  calm k → prints sc c →
  ∃ k', irq sc k = Ok ((), k') ∧ calm k' ∧ fg_task k' = None ∧
    queue (kb_fifo k') = match fg_task k with
                         | Some _ => q_put 63 c (queue (kb_fifo k))
                         | None => queue (kb_fifo k)
                         end ∧
    events k' = events k ++ Eoi 0x21 :: match fg_task k with Some t => [Unblock t] | None => [] end.
Proof.
  intros Hk Hp. destruct (prints_facts sc c Hp) as (Hr & Hc & H13 & Hn).
  rewrite !not_elem_of_cons in Hn. destruct Hn as (Hn1 & Hn2 & Hn3 & _).
  rewrite irq_cases by lia. destruct (Z.eqb_spec sc 0xe0); [lia|].
  rewrite (Z.mod_small sc 128) by lia. unfold KEY_PRINT_SCREEN.
  destruct (Z.ltb_spec 0x5F sc); [lia|]. destruct (Z.ltb_spec sc 128); [|lia].
  rewrite (calm_ext _ Hk). unfold key_action.
  assert (Hkf : calm (fetched k)) by (destruct Hk as [[] ]; split; done).
  destruct (put_key_calm sc c (fetched k) Hkf Hp) as [Hct Hsh].
  set (k1 := put_key sc false true (fetched k)) in *.
  rewrite (st_bind_eq _ _ (fetched k) () k1) by done.
  destruct (Z.eqb_spec sc KEY_NUMLOCK); [done|]. destruct (Z.eqb_spec sc KEY_CAPSLOCK); [done|].
  destruct (Z.eqb_spec sc KEY_SCRLOCK); [done|].
  rewrite (st_bind_eq _ _ k1 k1 k1) by done. cbn beta.
  assert (Ed : decode k1 false sc = Ok c) by (apply decode_calm; [done|apply Hk|apply Hk|done]).
  rewrite (st_bind_eq _ _ k1 c k1) by (unfold lift_st; by rewrite Ed).
  destruct (Z.eqb_spec c 0); [lia|].
  assert (W1 : wf k1) by (apply put_key_wf, Hkf).
  destruct (deliver_Ok c k1 W1) as (k' & E & Hcore & W' & Hd).
  destruct (Hd Hct H13) as (Hfg & Hq & Hev). exists k'. split; [done|].
  assert (Hmod : ctrl_state k' = ctrl_state k1 ∧ shift_state k' = shift_state k1).
  { unfold ctrl_state, shift_state, key_down. injection Hcore as -> _. done. }
  injection Hcore as Hp' Hc' Hs' Hn' He' _ _. destruct Hmod as [M1 M2].
  split; [split; [done|rewrite He'; done|rewrite Hc'; apply Hk|rewrite Hn'; apply Hk|congruence|congruence]|].
  split; [done|]. rewrite s8_small in Hq by lia. split; [exact Hq|].
  rewrite Hev. cbn. by rewrite <- app_assoc.
Qed.

(** A key typed while no task waits for input is lost: the interrupt leaves the
    queue as it is, so nothing can be typed ahead. *)
Theorem type_ahead_lost sc c k :
  calm k → prints sc c → fg_task k = None →
  ∃ k', irq sc k = Ok ((), k') ∧ queue (kb_fifo k') = queue (kb_fifo k) ∧ fg_task k' = None.
Proof.
  intros Hk Hp Hfg. destruct (typed_Ok sc c k Hk Hp) as (k' & E & _ & Hf & Hq & _).
  exists k'. by rewrite Hfg in Hq.
Qed.

(** A reader that resumes after every interrupt. *)
Fixpoint session (t n : Z) (scs : list Z) (r : list Z + list Z) : K (list Z + list Z) :=
  match scs with
  | [] => mret r
  | sc :: scs =>
      irq sc;;
      match r with
      | inl b => session t n scs (inl b)
      | inr b => r ← keyboard_read t n b; session t n scs r
      end
  end.

Lemma read_empty t n b k :
  wf k → queue (kb_fifo k) = [] → Z.of_nat (length b) < n →
  ∀ fuel, read_loop (S fuel) t n b k = Ok (inr b, set_fg (Some t) k).
Proof.
  intros W Hq Hlt fuel. cbn [read_loop]. destruct (Z.ltb_spec (Z.of_nat (length b)) n); [|lia].
  rewrite (st_bind_eq _ _ k k k) by done. cbn beta. rewrite empty_spec by apply W.
  rewrite Hq. done.
Qed.

Lemma read_one t n b c k :
  wf k → queue (kb_fifo k) = [c] → Z.of_nat (length b) < n →
  ∃ k', keyboard_read t n b k =
      Ok (if Z.of_nat (length b) + 1 =? n then (inl (b ++ [c]), k') else (inr (b ++ [c]), set_fg (Some t) k')) ∧
    core k' = core k ∧ wf k' ∧ queue (kb_fifo k') = [] ∧ fg_task k' = fg_task k.
Proof.
  intros W Hq Hlt. destruct (get_spec (kb_fifo k) (wf_ring _ W)) as (f & E & Hr & Hqf & Hs & _).
  rewrite Hq in E, Hqf. cbn in E, Hqf. exists (set_fifo f k).
  assert (W' : wf (set_fifo f k)) by (destruct W; split; cbn; [done..|congruence]).
  split; [|done]. unfold keyboard_read. cbn [read_loop].
  destruct (Z.ltb_spec (Z.of_nat (length b)) n); [|lia].
  rewrite (st_bind_eq _ _ k k k) by done. cbn beta. rewrite empty_spec, Hq by apply W. cbn [bool_decide].
  rewrite bool_decide_eq_false_2 by done.
  rewrite (st_bind_eq _ _ k (c, f) k) by (unfold lift_st; by rewrite E). cbn beta iota.
  rewrite (st_bind_eq _ _ k () (set_fifo f k)) by done.
  destruct (Z.to_nat n) as [|m] eqn:Em; [lia|].
  assert (Hlen : Z.of_nat (length (b ++ [c])) = Z.of_nat (length b) + 1) by (rewrite length_app; cbn; lia).
  destruct (Z.eqb_spec (Z.of_nat (length b) + 1) n).
  - cbn [read_loop]. destruct (Z.ltb_spec (Z.of_nat (length (b ++ [c]))) n); [lia|done].
  - apply read_empty; [done|done|lia].
Qed.

(** What is typed reaches the reader: when a task waits for as many characters as
    printing keys are pressed (no modifier held) and runs again after each interrupt,
    its read returns exactly the characters of the keys, in order. *)
Theorem typing_reaches_reader t k keys :
  calm k → queue (kb_fifo k) = [] → fg_task k = Some t → keys ≠ [] →
  Forall (λ p, prints p.1 p.2) keys →
  ∃ k', session t (Z.of_nat (length keys)) keys.*1 (inr []) k = Ok (inl keys.*2, k').
Proof.
  intros Hk Hq Hfg Hne Hkeys.
  assert (G : ∀ b k, calm k → queue (kb_fifo k) = [] → fg_task k = Some t →
    ∃ k', session t (Z.of_nat (length b + length keys)) keys.*1 (inr b) k = Ok (inl (b ++ keys.*2), k')).
  { clear k Hk Hq Hfg. induction Hkeys as [|[sc c] keys Hp Hkeys IH]; [done|].
    intros b k Hk Hq Hfg. cbn [fmap list_fmap fst snd session length] in *.
    destruct (typed_Ok sc c k Hk Hp) as (k1 & E1 & Hk1 & Hf1 & Hq1 & _).
    rewrite (st_bind_eq _ _ _ _ _ E1). cbn beta iota. rewrite Hfg, Hq in Hq1. cbn in Hq1.
    destruct (read_one t (Z.of_nat (length b + S (length keys))) b c k1 (calm_wf _ Hk1) Hq1 ltac:(lia))
      as (k2 & E2 & Hcore & W2 & Hq2 & Hf2).
    destruct keys as [|key keys].
    - exists k2. cbn [length] in *.
      destruct (Z.eqb_spec (Z.of_nat (length b) + 1) (Z.of_nat (length b + 1))); [|lia].
      by rewrite (st_bind_eq _ _ _ _ _ E2).
    - destruct (Z.eqb_spec (Z.of_nat (length b) + 1) (Z.of_nat (length b + S (length (key :: keys)))));
        [cbn in *; lia|].
      rewrite (st_bind_eq _ _ _ _ _ E2).
      destruct (IH ltac:(done) (b ++ [c]) (set_fg (Some t) k2)) as (k3 & E3).
      + injection Hcore as Hp' Hc' Hs' Hn' He' _ _.
        assert (Hmod : ctrl_state k2 = ctrl_state k1 ∧ shift_state k2 = shift_state k1).
        { unfold ctrl_state, shift_state, key_down. by rewrite Hp'. }
        destruct Hmod as [M1 M2], Hk1 as [_ X1 X2 X3 X4 X5].
        split; cbn; [destruct W2; by split|congruence..|by rewrite <- X4, <- M1|by rewrite <- X5, <- M2].
      + done.
      + done.
      + exists k3. rewrite length_app in E3. cbn [length] in E3 |- *.
        replace (length b + S (S (length keys)))%nat with (length b + 1 + S (length keys))%nat by lia.
        by rewrite <- app_assoc in E3. }
  exact (G [] k Hk Hq Hfg).
Qed.

(** ** A concrete machine *)

Definition demo_kb : kb :=
  Kb (replicate 96 (false, false)) false false true false
     (kfifo_init (replicate 64 0) 64) (Some 7) (Tty 0 1 3 true)
     [Some (7, 3); None; Some (8, 4); Some (9, 3)] [] [].

Lemma kb_demo_wf : wf demo_kb.
Proof. split; [reflexivity|split; cbn; lia|reflexivity]. Qed.
Lemma demo_calm : calm demo_kb.
Proof. split; [exact kb_demo_wf|reflexivity..]. Qed.

(** Shift and the key A: held, then released. *)
Lemma held_keys_witness :
  ∃ k', irqs [0x2A; 0x1E; 0xAA] demo_kb = Ok ((), k') ∧ wf k' ∧
    (∀ c e, 0 <= c < 96 → key_down k' c e = held (key_events (extcode_state demo_kb) [0x2A; 0x1E; 0xAA]) c e (key_down demo_kb c e)) ∧
    shift_state k' = (held (key_events (extcode_state demo_kb) [0x2A; 0x1E; 0xAA]) KEY_SHIFT_L false (key_down demo_kb KEY_SHIFT_L false)
                   || held (key_events (extcode_state demo_kb) [0x2A; 0x1E; 0xAA]) KEY_SHIFT_R false (key_down demo_kb KEY_SHIFT_R false)).
Proof. apply (held_keys [0x2A; 0x1E; 0xAA] demo_kb kb_demo_wf). repeat constructor; lia. Defined.

Lemma prints_a : prints 0x1E 97.
Proof. split; [lia|]. exists 65. split; [reflexivity|lia]. Qed.
Lemma prints_s : prints 0x1F 115.
Proof. split; [lia|]. exists 83. split; [reflexivity|lia]. Qed.

Lemma type_ahead_lost_witness :
  ∃ k', irq 0x1E (set_fg None demo_kb) = Ok ((), k') ∧
    queue (kb_fifo k') = queue (kb_fifo (set_fg None demo_kb)) ∧ fg_task k' = None.
Proof.
  apply (type_ahead_lost 0x1E 97); [|exact prints_a|reflexivity].
  split; [destruct kb_demo_wf; by split|reflexivity..].
Defined.

Lemma typing_reaches_reader_witness :
  ∃ k', session 7 (Z.of_nat (length [(0x1E, 97); (0x1F, 115)])) [(0x1E, 97); (0x1F, 115)].*1 (inr []) demo_kb =
    Ok (inl [(0x1E, 97); (0x1F, 115)].*2, k').
Proof.
  apply (typing_reaches_reader 7 demo_kb [(0x1E, 97); (0x1F, 115)] demo_calm); [reflexivity|reflexivity|done|].
  constructor; [exact prints_a|]. constructor; [exact prints_s|constructor].
Defined.

(** Control C: SIGINT to the tasks of the foreground group, a newline to the reader. *)
Example control_c :
  match irqs [0x1D; 0x2E] demo_kb with
  | Ok (_, k) => (queue (kb_fifo k), events k)
  | Stop _ => ([], [])
  end = ([10], [Eoi 33; Eoi 33; Kill 7 SIGINT; Kill 9 SIGINT; Unblock 7]).
Proof. vm_compute. reflexivity. Qed.
