(* ===== verification/Mutex.v ===== *)
(** * Mutex and read-write lock (src/lib/mutex.c)

    Any number of tasks run the lock routines; a step is one atomic instruction - a
    locked [cmpxchg], [inc] or [dec], a test of a word, or the list operation that
    [task_block] and [task_unblock] protect by disabling interrupts.  Interrupts may
    come between any two of them, so any runnable task may take the next step; a
    blocked task has none.  The word of a lock is a number here.  In C it is a [bool] of one
    byte, on which [cmpxchg] and [dec] work with the four bytes that begin there: the three
    bytes of padding behind it, which [mutex_init] and [rwlock_init] do not write, are taken to
    be 0. *)

From S2P Require Import Prelude.

(** ** Counting tasks by their program counter *)

Fixpoint count {A} (P : A → bool) (l : list A) : Z :=
  match l with [] => 0 | x :: l => (if P x then 1 else 0) + count P l end.

Lemma count_nonneg {A} (P : A → bool) l : 0 <= count P l.
Proof. induction l as [|x l IH]; cbn; [lia|]. destruct (P x); lia. Qed.

Lemma count_insert {A} (P : A → bool) l i x y :
  l !! i = Some x →
  count P (<[i := y]> l) = count P l - (if P x then 1 else 0) + (if P y then 1 else 0).
Proof.
  revert i. induction l as [|z l IH]; intros i H; [done|]. destruct i as [|i].
  - injection H as ->. change (<[0%nat := y]> (x :: l)) with (y :: l). cbn [count]. lia.
  - change (<[S i := y]> (z :: l)) with (z :: <[i := y]> l). cbn [count]. rewrite (IH i H). lia.
Qed.

Lemma count_pos {A} (P : A → bool) l i x : l !! i = Some x → P x = true → 1 <= count P l.
Proof.
  revert i. induction l as [|z l IH]; intros i H HP; [done|]. destruct i as [|i]; cbn in *.
  - injection H as ->. rewrite HP. pose proof (count_nonneg P l). lia.
  - pose proof (IH i H HP). destruct (P z); lia.
Qed.

Lemma count_some {A} (P : A → bool) l : 0 < count P l → ∃ i x, l !! i = Some x ∧ P x = true.
Proof.
  induction l as [|z l IH]; cbn; [lia|]. destruct (P z) eqn:E.
  - intros _. by exists 0%nat, z.
  - intros H. destruct (IH H) as (i & x & Hi & Hx). by exists (S i), x.
Qed.

(** Two places that count twice. *)
Lemma count_two {A} (P : A → bool) l i j x y :
  i ≠ j → l !! i = Some x → l !! j = Some y → P x = true → P y = true → 2 <= count P l.
Proof.
  revert i j. induction l as [|z l IH]; intros i j Hne Hi Hj Hx Hy; [done|].
  destruct i as [|i], j as [|j]; cbn in *; try done.
  - injection Hi as ->. rewrite Hx. pose proof (count_pos P l j y Hj Hy). lia.
  - injection Hj as ->. rewrite Hy. pose proof (count_pos P l i x Hi Hx). lia.
  - pose proof (IH i j ltac:(congruence) Hi Hj Hx Hy). destruct (P z); lia.
Qed.

(** ** The mutex *)

Module Mutex.

(** Where a task is. *)
Inductive pc :=
  | Out          (* outside *)
  | Try          (* before the [cmpxchg] of [mutex_lock] *)
  | Failed       (* the [cmpxchg] failed, [task_block] is next *)
  | Blocked      (* in the list of waiters *)
  | Inside       (* holds the mutex *)
  | Wake.        (* the [dec] of [mutex_unlock] is done, [task_unblock] is next *)

#[export] Instance pc_eq_dec : EqDecision pc.
Proof. solve_decision. Defined.

(** [mutex_t] and the tasks. *)
Record state := State { value : Z; waiters : list nat; pcs : list pc }.

Definition mutex_init (n : nat) : state := State 0 [] (replicate n Out).

Definition goto (i : nat) (p : pc) (s : state) : state :=
  State (value s) (waiters s) (<[i := p]> (pcs s)).
Definition set_value (v : Z) (s : state) : state := State v (waiters s) (pcs s).
Definition set_waiters (w : list nat) (s : state) : state := State (value s) w (pcs s).

(** [lock cmpxchg] with 0 expected and 1 to store. *)
Definition mutex_lock_cmpxchg (i : nat) (s : state) : state :=
  if value s =? 0 then goto i Inside (set_value 1 s) else goto i Failed s.

(** [task_block(current, &mutex->waiters, TASK_BLOCKED)]: [list_pushback]. *)
Definition mutex_lock_block (i : nat) (s : state) : state :=
  goto i Blocked (set_waiters (waiters s ++ [i]) s).

(** [lock dec]. *)
Definition mutex_unlock_dec (i : nat) (s : state) : state :=
  goto i Wake (set_value (value s - 1) s).

(** [task_unblock(&mutex->waiters)]: [list_pop]; the task woken is in its loop again. *)
Definition mutex_unlock_wake (i : nat) (s : state) : state :=
  match waiters s with
  | [] => goto i Out s
  | j :: w => goto j Try (goto i Out (set_waiters w s))
  end.

(** One step of task [i]. *)
Definition step (i : nat) (s : state) : option state :=
  match pcs s !! i with
  | Some Out => Some (goto i Try s)
  | Some Try => Some (mutex_lock_cmpxchg i s)
  | Some Failed => Some (mutex_lock_block i s)
  | Some Blocked => None
  | Some Inside => Some (mutex_unlock_dec i s)
  | Some Wake => Some (mutex_unlock_wake i s)
  | None => None
  end.

(** [off]: the lock routines run with interrupts disabled, so that a task whose
    [cmpxchg] failed blocks before anybody else runs. *)
Inductive steps (off : bool) : state → state → Prop :=
  | steps_refl s : steps off s s
  | steps_step s s1 s2 i :
      steps off s s1 → step i s1 = Some s2 →
      (off = true → ∀ j, pcs s1 !! j = Some Failed → j = i) →
      steps off s s2.

Definition is_inside (p : pc) : bool := match p with Inside => true | _ => false end.

(** The mutex is 1 exactly when one task is inside; the waiters are the blocked tasks,
    each once. *)
Record inv (s : state) : Prop := {
  inv_value : value s = count is_inside (pcs s);
  inv_one : 0 <= value s <= 1;
  inv_waiters : ∀ i, i ∈ waiters s ↔ pcs s !! i = Some Blocked;
  inv_nodup : NoDup (waiters s)
}.

Lemma count_out P n : P Out = false → count P (replicate n Out) = 0.
Proof. intros HP. induction n as [|n IH]; [done|]. cbn. rewrite HP, IH. done. Qed.

Lemma inv_init n : inv (mutex_init n).
Proof.
  split; cbn; [by rewrite count_out| lia | |constructor].
  intros i. rewrite elem_of_nil, lookup_replicate. split; [done|by intros [[=] _]].
Qed.

(** A move between two places that are not [Blocked] leaves the waiters right. *)
Lemma waiters_goto s i p q :
  inv s → pcs s !! i = Some p → p ≠ Blocked → q ≠ Blocked →
  ∀ j, j ∈ waiters s ↔ <[i := q]> (pcs s) !! j = Some Blocked.
Proof.
  intros I Hi Hp Hq j. rewrite (inv_waiters _ I). destruct (decide (j = i)) as [->|Hne].
  - rewrite Hi, list_lookup_insert_eq by (by eapply lookup_lt_Some). split; intros [=]; done.
  - by rewrite list_lookup_insert_ne.
Qed.

Lemma inv_step s s' i : inv s → step i s = Some s' → inv s'.
Proof.
  intros I Hs. unfold step in Hs. destruct (pcs s !! i) as [p|] eqn:Hi; [|done].
  pose proof I as [I1 I2 I3 I4].
  assert (Hlt : (i < length (pcs s))%nat) by (by eapply lookup_lt_Some).
  destruct p; [| | |done| |]; injection Hs as <-.
  - split; cbn; [by rewrite (count_insert _ _ _ _ _ Hi); cbn; lia|done|by eapply waiters_goto|done].
  - unfold mutex_lock_cmpxchg. destruct (Z.eqb_spec (value s) 0) as [E|E].
    + split; cbn; [rewrite (count_insert _ _ _ _ _ Hi); cbn; lia|lia|by eapply waiters_goto|done].
    + split; cbn; [rewrite (count_insert _ _ _ _ _ Hi); cbn; lia|done|by eapply waiters_goto|done].
  - split; cbn; [rewrite (count_insert _ _ _ _ _ Hi); cbn; lia|done| |].
    + intros j. rewrite elem_of_app, list_elem_of_singleton, I3.
      destruct (decide (j = i)) as [->|Hne].
      * rewrite list_lookup_insert_eq by done. naive_solver.
      * rewrite list_lookup_insert_ne by done. naive_solver.
    + apply NoDup_app. split; [done|]. split; [|by apply NoDup_singleton].
      intros j Hj%I3 ->%list_elem_of_singleton. congruence.
  - pose proof (count_pos is_inside _ _ _ Hi eq_refl).
    split; cbn; [rewrite (count_insert _ _ _ _ _ Hi); cbn; lia|lia|by eapply waiters_goto|done].
  - unfold mutex_unlock_wake. destruct (waiters s) as [|j w] eqn:Hw.
    + split; cbn; rewrite ?Hw; [rewrite (count_insert _ _ _ _ _ Hi); cbn; lia|done| |constructor].
      rewrite <- Hw. by eapply waiters_goto.
    + assert (Hj : pcs s !! j = Some Blocked) by (apply I3; left).
      assert (Hji : j ≠ i) by (intros ->; congruence).
      assert (Hj' : <[i := Out]> (pcs s) !! j = Some Blocked) by by rewrite list_lookup_insert_ne.
      apply NoDup_cons in I4 as [Hnj Hnd].
      split; cbn; [rewrite (count_insert _ _ _ _ _ Hj'), (count_insert _ _ _ _ _ Hi); cbn; lia|done| |done].
      intros k. destruct (decide (k = j)) as [->|Hkj].
      * rewrite list_lookup_insert_eq by (rewrite length_insert; by eapply lookup_lt_Some). naive_solver.
      * rewrite list_lookup_insert_ne by done. destruct (decide (k = i)) as [->|Hki].
        -- rewrite list_lookup_insert_eq by done. split; [|done].
           intros Hk. assert (i ∈ j :: w) as Hk2 by (by right). apply I3 in Hk2. congruence.
        -- rewrite list_lookup_insert_ne, <- I3 by done. rewrite elem_of_cons. naive_solver.
Qed.

Lemma inv_steps off s s' : inv s → steps off s s' → inv s'.
Proof. intros I H. induction H; [done|]. eapply inv_step; [by apply IHsteps|done]. Qed.

Lemma value_inside off n s :
  steps off (mutex_init n) s → value s = 1 ↔ ∃ i, pcs s !! i = Some Inside.
Proof.
  intros H. destruct (inv_steps _ _ _ (inv_init n) H) as [I1 I2 I3 I4]. rewrite I1. split.
  - intros Hc. destruct (count_some is_inside (pcs s)) as (i & p & Hi & Hp); [lia|].
    exists i. by destruct p.
  - intros [i Hi]. pose proof (count_pos is_inside _ _ _ Hi eq_refl). lia.
Qed.

(** C18. Mutual exclusion: in every state that any number of tasks can reach, with
    interrupts coming anywhere between the instructions of the lock routines, at most one
    task is inside, the mutex word is 1 exactly when one is, and the list of waiters holds
    the blocked tasks, each once. *)
Theorem mutual_exclusion off n s :
  steps off (mutex_init n) s →
  (∀ i j, pcs s !! i = Some Inside → pcs s !! j = Some Inside → i = j) ∧
  (value s = 0 ∨ value s = 1) ∧ (value s = 1 ↔ ∃ i, pcs s !! i = Some Inside) ∧
  (∀ i, i ∈ waiters s ↔ pcs s !! i = Some Blocked) ∧ NoDup (waiters s).
Proof.
  intros H. destruct (inv_steps _ _ _ (inv_init n) H) as [I1 I2 I3 I4].
  split; [|split; [lia|split; [|done]]].
  - intros i j Hi Hj. destruct (decide (i = j)) as [|Hne]; [done|].
    pose proof (count_two is_inside _ i j _ _ Hne Hi Hj eq_refl eq_refl). lia.
  - by eapply value_inside.
Qed.

(** Somebody who will go on is there for the waiters. *)
Definition attended (s : state) : Prop :=
  waiters s = [] ∨ value s ≠ 0 ∨ ∃ j, pcs s !! j = Some Wake ∨ pcs s !! j = Some Try.

Lemma attended_steps n s :
  steps true (mutex_init n) s →
  attended s ∧ ∀ j, pcs s !! j = Some Failed → value s ≠ 0.
Proof.
  intros H. remember true as off eqn:Eoff. remember (mutex_init n) as s0 eqn:E0.
  induction H as [s|s0 s1 s2 i H IH Hs Hoff]; subst.
  - split; [by left|]. cbn. intros j. rewrite lookup_replicate. by intros [[=] _].
  - destruct (IH eq_refl) as [A F]. specialize (Hoff eq_refl).
    unfold step in Hs. destruct (pcs s1 !! i) as [p|] eqn:Hi; [|done].
    assert (Hlt : (i < length (pcs s1))%nat) by (by eapply lookup_lt_Some).
    assert (Fgoto : ∀ q v w, q ≠ Failed → v ≠ 0 ∨ v = value s1 →
      ∀ j, <[i:=q]> (pcs s1) !! j = Some Failed → value (State v w (<[i:=q]> (pcs s1))) ≠ 0).
    { intros q v w Hq Hv j. destruct (decide (j = i)) as [->|Hne].
      - rewrite list_lookup_insert_eq by done. by intros [=].
      - rewrite list_lookup_insert_ne by done. intros Hj%F. cbn. destruct Hv; congruence. }
    destruct p; [| | |done| |]; injection Hs as <-.
    + split; [|by apply (Fgoto Try (value s1) (waiters s1)); auto].
      right. right. exists i. right. by apply list_lookup_insert_eq.
    + unfold mutex_lock_cmpxchg. destruct (Z.eqb_spec (value s1) 0) as [E|E].
      * split; [by right; left|]. by apply (Fgoto Inside 1 (waiters s1)); auto.
      * split; [by right; left|]. by intros.
    + pose proof (F i Hi). split; [by right; left|]. by apply (Fgoto Blocked (value s1) (waiters s1 ++ [i])); auto.
    + split.
      * right. right. exists i. left. by apply list_lookup_insert_eq.
      * intros j. destruct (decide (j = i)) as [->|Hne]; cbn.
        -- rewrite list_lookup_insert_eq by done. by intros [=].
        -- rewrite list_lookup_insert_ne by done. intros Hj. by apply Hoff in Hj.
    + unfold mutex_unlock_wake. destruct (waiters s1) as [|j w] eqn:Hw.
      * split; [by left|]. by apply (Fgoto Out (value s1) (waiters s1)); auto.
      * assert (I : inv s1) by (eapply inv_steps; [apply (inv_init n)|exact H]).
        assert (Hj : pcs s1 !! j = Some Blocked) by (apply (inv_waiters _ I); rewrite Hw; left).
        split.
        -- right. right. exists j. right. cbn. apply list_lookup_insert_eq.
           rewrite length_insert. by eapply lookup_lt_Some.
        -- intros k. cbn. destruct (decide (k = j)) as [->|Hkj].
           ++ rewrite list_lookup_insert_eq by (rewrite length_insert; by eapply lookup_lt_Some). by intros [=].
           ++ rewrite list_lookup_insert_ne by done. by apply (Fgoto Out (value s1) w); auto.
Qed.

(** No wake-up is lost when the lock routines run with interrupts disabled, as they
    do inside system calls: while a task is blocked on the mutex, some task holds it, is
    about to wake a waiter, or is about to try again. *)
Theorem no_lost_wakeup_interrupts_off n s i :
  steps true (mutex_init n) s → pcs s !! i = Some Blocked →
  ∃ j, pcs s !! j = Some Inside ∨ pcs s !! j = Some Wake ∨ pcs s !! j = Some Try.
Proof.
  intros H Hi. destruct (attended_steps n s H) as [[A|[A|(j & A)]] _].
  - destruct (inv_steps _ _ _ (inv_init n) H) as [_ _ I3 _]. apply I3 in Hi. rewrite A in Hi.
    by apply elem_of_nil in Hi.
  - destruct (inv_steps _ _ _ (inv_init n) H) as [_ I2 _ _].
    destruct (proj1 (value_inside _ _ _ H) ltac:(lia)) as (j & Hj). exists j. by left.
  - exists j. by right.
Qed.

(** A run with interrupts disabled: no task has failed when another one moves. *)
Definition alone (i : nat) (s : state) : bool :=
  bool_decide (Forall (λ jp, jp.2 = Failed → jp.1 = i) (imap (λ j p, (j, p)) (pcs s))).

Lemma alone_spec i s : alone i s = true → ∀ j, pcs s !! j = Some Failed → j = i.
Proof.
  intros H%bool_decide_eq_true j Hj. rewrite Forall_lookup in H.
  apply (H j (j, Failed)); [|done]. by rewrite list_lookup_imap, Hj.
Qed.

Fixpoint run_off (ids : list nat) (s : state) : option state :=
  match ids with
  | [] => Some s
  | i :: ids => if alone i s then match step i s with Some s => run_off ids s | None => None end else None
  end.

Lemma run_off_steps ids s s' s0 : steps true s0 s → run_off ids s = Some s' → steps true s0 s'.
Proof.
  revert s. induction ids as [|i ids IH]; intros s H E; cbn in E; [by injection E as <-|].
  destruct (alone i s) eqn:Ea; [|done]. destruct (step i s) as [s1|] eqn:E1; [|done].
  apply (IH s1); [|done]. eapply steps_step; [exact H|exact E1|]. intros _. by apply alone_spec.
Qed.

(** Runs of named tasks. *)
Fixpoint run (ids : list nat) (s : state) : option state :=
  match ids with [] => Some s | i :: ids => match step i s with Some s => run ids s | None => None end end.

Lemma run_steps ids s s' s0 : steps false s0 s → run ids s = Some s' → steps false s0 s'.
Proof.
  revert s. induction ids as [|i ids IH]; intros s H E; cbn in E; [by injection E as <-|].
  destruct (step i s) as [s1|] eqn:E1; [|done]. apply (IH s1); [|done].
  eapply steps_step; [exact H|exact E1|done].
Qed.

(** The comment that interrupts need not be disabled is wrong: an interrupt between
    the failed [cmpxchg] and [task_block] loses the wake-up.  Two tasks reach a state in
    which the mutex is free, nobody uses it, and the second is blocked on it for good:
    no sequence of steps that does not lock the mutex again makes it runnable. *)
Theorem lost_wakeup :
  ∃ s, steps false (mutex_init 2) s ∧ value s = 0 ∧ pcs s = [Out; Blocked] ∧
    ∀ i s', step i s = Some s' → i = 0%nat ∧ pcs s' = [Try; Blocked].
Proof.
  exists (State 0 [1%nat] [Out; Blocked]). split; [|split; [done|split; [done|]]].
  - eapply (run_steps [0; 0; 1; 1; 0; 0; 1]%nat); [apply steps_refl|]. reflexivity.
  - intros [|[|i]] s' H; cbn in H; try done. by injection H as <-.
Qed.

(** Three tasks: one inside, one blocked, one about to try. *)
Lemma mutual_exclusion_witness :
  ∃ s, steps false (mutex_init 3) s ∧ pcs s = [Inside; Blocked; Try] ∧
  (∀ i j, pcs s !! i = Some Inside → pcs s !! j = Some Inside → i = j) ∧
  (value s = 0 ∨ value s = 1) ∧ (value s = 1 ↔ ∃ i, pcs s !! i = Some Inside) ∧
  (∀ i, i ∈ waiters s ↔ pcs s !! i = Some Blocked) ∧ NoDup (waiters s).
Proof.
  assert (H : steps false (mutex_init 3) (State 1 [1%nat] [Inside; Blocked; Try])).
  { eapply (run_steps [0; 0; 1; 1; 1; 2]%nat); [apply steps_refl|]. reflexivity. }
  eexists. split; [exact H|]. split; [reflexivity|]. exact (mutual_exclusion false 3 _ H).
Defined.

Lemma no_lost_wakeup_interrupts_off_witness :
  ∃ s, steps true (mutex_init 2) s ∧ pcs s !! 1%nat = Some Blocked ∧
  ∃ j, pcs s !! j = Some Inside ∨ pcs s !! j = Some Wake ∨ pcs s !! j = Some Try.
Proof.
  assert (H : steps true (mutex_init 2) (State 1 [1%nat] [Inside; Blocked])).
  { eapply (run_off_steps [0; 0; 1; 1; 1]%nat); [apply steps_refl|]. vm_compute. reflexivity. }
  eexists. split; [exact H|]. split; [reflexivity|].
  exact (no_lost_wakeup_interrupts_off 2 _ 1%nat H eq_refl).
Defined.

End Mutex.

(** ** The read-write lock *)

Module RwLock.

(** Where a task is. *)
Inductive pc :=
  | Out            (* outside *)
  | RTry           (* before the [cmpxchg] of [rwlock_read_lock] *)
  | RHold          (* holds [writer], before the [inc] of [readers] *)
  | RCounted       (* counted, before the [dec] of [writer] *)
  | Reading        (* inside as a reader *)
  | WTry           (* before the [cmpxchg] of [rwlock_write_lock] *)
  | WWait          (* holds [writer], in the loop on [readers] *)
  | Writing.       (* inside as the writer *)

Record state := State { writer : Z; readers : Z; pcs : list pc }.

Definition rwlock_init (n : nat) : state := State 0 0 (replicate n Out).

Definition goto (i : nat) (p : pc) (s : state) : state := State (writer s) (readers s) (<[i := p]> (pcs s)).
Definition set_writer (v : Z) (s : state) : state := State v (readers s) (pcs s).
Definition set_readers (v : Z) (s : state) : state := State (writer s) v (pcs s).

(** The instructions of [rwlock_read_lock]. *)
Definition read_cmpxchg (i : nat) (s : state) : state :=
  if writer s =? 0 then goto i RHold (set_writer 1 s) else s.
Definition read_inc (i : nat) (s : state) : state :=
  goto i RCounted (set_readers (u32 (readers s + 1)) s).
Definition read_dec_writer (i : nat) (s : state) : state :=
  goto i Reading (set_writer (writer s - 1) s).
Definition rwlock_read_unlock (i : nat) (s : state) : state :=
  goto i Out (set_readers (u32 (readers s - 1)) s).

(** The instructions of [rwlock_write_lock]. *)
Definition write_cmpxchg (i : nat) (s : state) : state :=
  if writer s =? 0 then goto i WWait (set_writer 1 s) else s.
Definition write_wait (i : nat) (s : state) : state :=
  if readers s =? 0 then goto i Writing s else s.
Definition rwlock_write_unlock (i : nat) (s : state) : state :=
  goto i Out (set_writer 0 s).

(** One step of task [i]; outside, it chooses a side. *)
Inductive step (i : nat) (s : state) : state → Prop :=
  | s_reader : pcs s !! i = Some Out → step i s (goto i RTry s)
  | s_writer : pcs s !! i = Some Out → step i s (goto i WTry s)
  | s_rtry : pcs s !! i = Some RTry → step i s (read_cmpxchg i s)
  | s_rhold : pcs s !! i = Some RHold → step i s (read_inc i s)
  | s_rcounted : pcs s !! i = Some RCounted → step i s (read_dec_writer i s)
  | s_reading : pcs s !! i = Some Reading → step i s (rwlock_read_unlock i s)
  | s_wtry : pcs s !! i = Some WTry → step i s (write_cmpxchg i s)
  | s_wwait : pcs s !! i = Some WWait → step i s (write_wait i s)
  | s_writing : pcs s !! i = Some Writing → step i s (rwlock_write_unlock i s).

Definition steps : state → state → Prop := rtc (λ s s', ∃ i, step i s s').

(** Who holds the [writer] word, who is counted in [readers], who writes. *)
Definition holds (p : pc) : bool := match p with RHold | RCounted | WWait | Writing => true | _ => false end.
Definition counted (p : pc) : bool := match p with RCounted | Reading => true | _ => false end.
Definition writes (p : pc) : bool := match p with Writing => true | _ => false end.

Record inv (n : nat) (s : state) : Prop := {
  inv_len : length (pcs s) = n;
  inv_writer : writer s = count holds (pcs s);
  inv_one : 0 <= writer s <= 1;
  inv_readers : readers s = count counted (pcs s);
  inv_excl : 0 < count writes (pcs s) → readers s = 0
}.

Lemma count_le {A} (P : A → bool) l : count P l <= Z.of_nat (length l).
Proof. induction l as [|x l IH]; cbn [count length]; [lia|]. destruct (P x); lia. Qed.

Lemma count_zero {A} (P : A → bool) n x : P x = false → count P (replicate n x) = 0.
Proof. intros HP. induction n as [|n IH]; [done|]. cbn [replicate count]. by rewrite HP, IH. Qed.

Lemma rw_inv_init n : inv n (rwlock_init n).
Proof. split; cbn; [by rewrite length_replicate|by rewrite count_zero|lia|by rewrite count_zero|done]. Qed.

(** What a writer and a holder exclude. *)
Lemma writes_holds l : count writes l <= count holds l.
Proof. induction l as [|[] l IH]; cbn; lia. Qed.

(** Move the counts of one step into the context. *)
Ltac counts Hi q :=
  pose proof (count_insert holds _ _ _ q Hi); pose proof (count_insert counted _ _ _ q Hi);
  pose proof (count_insert writes _ _ _ q Hi); cbn [holds counted writes] in *.

Lemma rw_inv_step n s s' i : Z.of_nat n < 4294967296 → inv n s → step i s s' → inv n s'.
Proof.
  intros Hn [I0 I1 I2 I3 I4] Hs.
  pose proof (count_le counted (pcs s)) as Hle. pose proof (writes_holds (pcs s)) as Hwh.
  destruct Hs as [Hi|Hi|Hi|Hi|Hi|Hi|Hi|Hi|Hi].
  - counts Hi RTry. split; cbn; rewrite ?length_insert; lia.
  - counts Hi WTry. split; cbn; rewrite ?length_insert; lia.
  - unfold read_cmpxchg. destruct (Z.eqb_spec (writer s) 0); [|by split].
    counts Hi RHold. split; cbn; rewrite ?length_insert; lia.
  - pose proof (count_pos holds _ _ _ Hi eq_refl). counts Hi RCounted.
    assert (Hw : count writes (pcs s) = 0).
    { destruct (decide (count writes (pcs s) = 0)) as [|Hne]; [done|].
      pose proof (count_nonneg writes (pcs s)).
      destruct (count_some writes (pcs s)) as (j & p & Hj & Hp); [lia|].
      assert (j ≠ i) by (intros ->; rewrite Hi in Hj; by injection Hj as <-).
      pose proof (count_two holds _ j i _ _ ltac:(done) Hj Hi ltac:(by destruct p) eq_refl). lia. }
    assert (Hc : count counted (<[i:=RCounted]> (pcs s)) <= Z.of_nat n).
    { rewrite <- I0, <- (length_insert (pcs s) i RCounted). apply count_le. }
    split; cbn; rewrite ?length_insert; try lia. rewrite u32_small; [lia|].
    pose proof (count_nonneg counted (pcs s)). lia.
  - pose proof (count_pos holds _ _ _ Hi eq_refl). counts Hi Reading. split; cbn; rewrite ?length_insert; lia.
  - pose proof (count_pos counted _ _ _ Hi eq_refl). counts Hi Out.
    split; cbn; rewrite ?length_insert; try lia.
    rewrite u32_small by lia. lia.
  - unfold write_cmpxchg. destruct (Z.eqb_spec (writer s) 0); [|by split].
    counts Hi WWait. split; cbn; rewrite ?length_insert; lia.
  - unfold write_wait. destruct (Z.eqb_spec (readers s) 0); [|by split].
    counts Hi Writing. split; cbn; rewrite ?length_insert; lia.
  - pose proof (count_pos holds _ _ _ Hi eq_refl). counts Hi Out.
    split; cbn; rewrite ?length_insert; lia.
Qed.

Lemma rw_inv_steps n s s' : Z.of_nat n < 4294967296 → inv n s → steps s s' → inv n s'.
Proof.
  intros Hn I H. induction H as [|s s1 s2 [i Hs] H IH]; [done|]. apply IH. by eapply rw_inv_step.
Qed.

(** Readers exclude the writer: in every state that up to 2^32 - 1 tasks can reach,
    with any interleaving of their instructions, while a task writes no other task
    writes and no task reads; and the reader count is the number of tasks that are
    inside as readers or about to be. *)
Theorem rwlock_exclusion n s :
  Z.of_nat n < 4294967296 → steps (rwlock_init n) s →
  (∀ i j, pcs s !! i = Some Writing → pcs s !! j = Some Writing → i = j) ∧
  (∀ i j, pcs s !! i = Some Writing → pcs s !! j ≠ Some Reading) ∧
  readers s = count counted (pcs s).
Proof.
  intros Hn H. destruct (rw_inv_steps n _ _ Hn (rw_inv_init n) H) as [I0 I1 I2 I3 I4].
  split; [|split; [|done]].
  - intros i j Hi Hj. destruct (decide (i = j)) as [|Hne]; [done|].
    pose proof (count_two holds _ i j _ _ Hne Hi Hj eq_refl eq_refl). lia.
  - intros i j Hi Hj. pose proof (count_pos writes _ _ _ Hi eq_refl).
    pose proof (count_pos counted _ _ _ Hj eq_refl). rewrite <- I3, I4 in * by lia. lia.
Qed.

(** A reader inside while a writer waits. *)
Lemma rwlock_exclusion_witness :
  ∃ s, steps (rwlock_init 2) s ∧ pcs s = [Reading; WWait] ∧
  (∀ i j, pcs s !! i = Some Writing → pcs s !! j = Some Writing → i = j) ∧
  (∀ i j, pcs s !! i = Some Writing → pcs s !! j ≠ Some Reading) ∧
  readers s = count counted (pcs s).
Proof.
  assert (H : steps (rwlock_init 2) (State 1 1 [Reading; WWait])).
  { eapply rtc_l; [exists 0%nat; by apply s_reader|]. eapply rtc_l; [exists 0%nat; by apply s_rtry|].
    eapply rtc_l; [exists 0%nat; by apply s_rhold|]. eapply rtc_l; [exists 0%nat; by apply s_rcounted|].
    eapply rtc_l; [exists 1%nat; by apply s_writer|]. eapply rtc_l; [exists 1%nat; by apply s_wtry|].
    apply rtc_refl. }
  eexists. split; [exact H|]. split; [reflexivity|].
  exact (rwlock_exclusion 2 _ ltac:(lia) H).
Defined.

End RwLock.
