(* ===== verification/Task.v ===== *)
(** * Tasks and the scheduler (src/kernel/task.c, src/kernel/schedule.c)

    The task table, the choice of the next task, blocking and waking.  A task is known by
    its slot in the table.  A waiting list is the list of slots of its nodes, which is
    what the doubly linked list of DList stands for.  [schedule] gives up the processor
    in the middle of a routine: the definition ends with the state at the switch, and
    what the routine does when it is resumed is the definition's next part. *)

From S2P Require Import Prelude DList.

Definition TASK_NR : Z := 64.
Definition TASK_FILE_NR : Z := 16.
Definition KERNEL_RING0 : Z := 0.
Definition USER_RING3 : Z := 1000.
Definition EPERM : Z := 1.
Definition ESRCH : Z := 3.
Definition EOK : Z := 0.
Definition MINSIG : Z := 1.
Definition MAXSIG : Z := 31.
Definition SIGHUP : Z := 1.
Definition SIGINT : Z := 2.
Definition SIGKILL : Z := 9.
Definition SIGCHLD : Z := 17.
Definition SIGMASK (sig : Z) : Z := Z.shiftl 1 (sig - 1).

Inductive task_state :=
  TASK_INIT | TASK_RUNNING | TASK_READY | TASK_BLOCKED | TASK_SLEEPING | TASK_WAITING | TASK_DEAD.

#[export] Instance task_state_eq_dec : EqDecision task_state.
Proof. solve_decision. Defined.

(** [sigaction_t]; the handlers 0 and 1 are the default and the ignoring one. *)
Record sigaction_t := SigAction { handler : Z; mask : Z; flags : Z; restorer : Z }.
Definition SIG_DFL : Z := 0.
Definition SIG_IGN : Z := 1.

(** The user registers the interrupt frame on the kernel stack holds, and what signal
    delivery has stored on the user stack: [signal_frame_t] by address. *)
Record signal_frame_t := SigFrame {
  f_restorer : Z; f_sig : Z; f_blocked : Z; f_eax : Z; f_ecx : Z; f_edx : Z; f_eflags : Z; f_eip : Z
}.
Record user_frame := UserFrame {
  r_esp : Z; r_eip : Z; r_eflags : Z; r_eax : Z; r_ecx : Z; r_edx : Z; user_stack : gmap Z signal_frame_t
}.

(** The task control block, less the fields only the memory manager uses ([pde], [vmap],
    the segment bounds), the name and the magic number; [on_list] is the waiting list the
    node is in, none when its pointers are null, and [eax] is [tss.eax]. *)
Record task_t := Task {
  state : task_state;
  priority : Z;
  ticks : Z;
  tjiffies : Z;
  uid : Z;
  gid : Z;
  pid : Z;
  ppid : Z;
  pgid : Z;
  sid : Z;
  tty : Z;
  on_list : option Z;
  eax : Z;
  brk : Z;
  status : Z;
  waitpid : Z;
  pwd : list Z;
  ipwd : Z;
  iroot : Z;
  iexec : Z;
  umask : Z;
  files : list (option Z);
  signal : Z;
  blocked : Z;
  actions : list sigaction_t;
  frame : user_frame
}.

Definition set_state (v : task_state) (t : task_t) : task_t :=
  Task v (priority t) (ticks t) (tjiffies t) (uid t) (gid t) (pid t) (ppid t) (pgid t) (sid t) (tty t) (on_list t) (eax t) (brk t) (status t) (waitpid t) (pwd t) (ipwd t) (iroot t) (iexec t) (umask t) (files t) (signal t) (blocked t) (actions t) (frame t).
Definition set_priority (v : Z) (t : task_t) : task_t :=
  Task (state t) v (ticks t) (tjiffies t) (uid t) (gid t) (pid t) (ppid t) (pgid t) (sid t) (tty t) (on_list t) (eax t) (brk t) (status t) (waitpid t) (pwd t) (ipwd t) (iroot t) (iexec t) (umask t) (files t) (signal t) (blocked t) (actions t) (frame t).
Definition set_ticks (v : Z) (t : task_t) : task_t :=
  Task (state t) (priority t) v (tjiffies t) (uid t) (gid t) (pid t) (ppid t) (pgid t) (sid t) (tty t) (on_list t) (eax t) (brk t) (status t) (waitpid t) (pwd t) (ipwd t) (iroot t) (iexec t) (umask t) (files t) (signal t) (blocked t) (actions t) (frame t).
Definition set_tjiffies (v : Z) (t : task_t) : task_t :=
  Task (state t) (priority t) (ticks t) v (uid t) (gid t) (pid t) (ppid t) (pgid t) (sid t) (tty t) (on_list t) (eax t) (brk t) (status t) (waitpid t) (pwd t) (ipwd t) (iroot t) (iexec t) (umask t) (files t) (signal t) (blocked t) (actions t) (frame t).
Definition set_uid (v : Z) (t : task_t) : task_t :=
  Task (state t) (priority t) (ticks t) (tjiffies t) v (gid t) (pid t) (ppid t) (pgid t) (sid t) (tty t) (on_list t) (eax t) (brk t) (status t) (waitpid t) (pwd t) (ipwd t) (iroot t) (iexec t) (umask t) (files t) (signal t) (blocked t) (actions t) (frame t).
Definition set_gid (v : Z) (t : task_t) : task_t :=
  Task (state t) (priority t) (ticks t) (tjiffies t) (uid t) v (pid t) (ppid t) (pgid t) (sid t) (tty t) (on_list t) (eax t) (brk t) (status t) (waitpid t) (pwd t) (ipwd t) (iroot t) (iexec t) (umask t) (files t) (signal t) (blocked t) (actions t) (frame t).
Definition set_pid (v : Z) (t : task_t) : task_t :=
  Task (state t) (priority t) (ticks t) (tjiffies t) (uid t) (gid t) v (ppid t) (pgid t) (sid t) (tty t) (on_list t) (eax t) (brk t) (status t) (waitpid t) (pwd t) (ipwd t) (iroot t) (iexec t) (umask t) (files t) (signal t) (blocked t) (actions t) (frame t).
Definition set_ppid (v : Z) (t : task_t) : task_t :=
  Task (state t) (priority t) (ticks t) (tjiffies t) (uid t) (gid t) (pid t) v (pgid t) (sid t) (tty t) (on_list t) (eax t) (brk t) (status t) (waitpid t) (pwd t) (ipwd t) (iroot t) (iexec t) (umask t) (files t) (signal t) (blocked t) (actions t) (frame t).
Definition set_pgid (v : Z) (t : task_t) : task_t :=
  Task (state t) (priority t) (ticks t) (tjiffies t) (uid t) (gid t) (pid t) (ppid t) v (sid t) (tty t) (on_list t) (eax t) (brk t) (status t) (waitpid t) (pwd t) (ipwd t) (iroot t) (iexec t) (umask t) (files t) (signal t) (blocked t) (actions t) (frame t).
Definition set_sid (v : Z) (t : task_t) : task_t :=
  Task (state t) (priority t) (ticks t) (tjiffies t) (uid t) (gid t) (pid t) (ppid t) (pgid t) v (tty t) (on_list t) (eax t) (brk t) (status t) (waitpid t) (pwd t) (ipwd t) (iroot t) (iexec t) (umask t) (files t) (signal t) (blocked t) (actions t) (frame t).
Definition set_tty (v : Z) (t : task_t) : task_t :=
  Task (state t) (priority t) (ticks t) (tjiffies t) (uid t) (gid t) (pid t) (ppid t) (pgid t) (sid t) v (on_list t) (eax t) (brk t) (status t) (waitpid t) (pwd t) (ipwd t) (iroot t) (iexec t) (umask t) (files t) (signal t) (blocked t) (actions t) (frame t).
Definition set_on_list (v : option Z) (t : task_t) : task_t :=
  Task (state t) (priority t) (ticks t) (tjiffies t) (uid t) (gid t) (pid t) (ppid t) (pgid t) (sid t) (tty t) v (eax t) (brk t) (status t) (waitpid t) (pwd t) (ipwd t) (iroot t) (iexec t) (umask t) (files t) (signal t) (blocked t) (actions t) (frame t).
Definition set_eax (v : Z) (t : task_t) : task_t :=
  Task (state t) (priority t) (ticks t) (tjiffies t) (uid t) (gid t) (pid t) (ppid t) (pgid t) (sid t) (tty t) (on_list t) v (brk t) (status t) (waitpid t) (pwd t) (ipwd t) (iroot t) (iexec t) (umask t) (files t) (signal t) (blocked t) (actions t) (frame t).
Definition set_brk (v : Z) (t : task_t) : task_t :=
  Task (state t) (priority t) (ticks t) (tjiffies t) (uid t) (gid t) (pid t) (ppid t) (pgid t) (sid t) (tty t) (on_list t) (eax t) v (status t) (waitpid t) (pwd t) (ipwd t) (iroot t) (iexec t) (umask t) (files t) (signal t) (blocked t) (actions t) (frame t).
Definition set_status (v : Z) (t : task_t) : task_t :=
  Task (state t) (priority t) (ticks t) (tjiffies t) (uid t) (gid t) (pid t) (ppid t) (pgid t) (sid t) (tty t) (on_list t) (eax t) (brk t) v (waitpid t) (pwd t) (ipwd t) (iroot t) (iexec t) (umask t) (files t) (signal t) (blocked t) (actions t) (frame t).
Definition set_waitpid (v : Z) (t : task_t) : task_t :=
  Task (state t) (priority t) (ticks t) (tjiffies t) (uid t) (gid t) (pid t) (ppid t) (pgid t) (sid t) (tty t) (on_list t) (eax t) (brk t) (status t) v (pwd t) (ipwd t) (iroot t) (iexec t) (umask t) (files t) (signal t) (blocked t) (actions t) (frame t).
Definition set_pwd (v : list Z) (t : task_t) : task_t :=
  Task (state t) (priority t) (ticks t) (tjiffies t) (uid t) (gid t) (pid t) (ppid t) (pgid t) (sid t) (tty t) (on_list t) (eax t) (brk t) (status t) (waitpid t) v (ipwd t) (iroot t) (iexec t) (umask t) (files t) (signal t) (blocked t) (actions t) (frame t).
Definition set_ipwd (v : Z) (t : task_t) : task_t :=
  Task (state t) (priority t) (ticks t) (tjiffies t) (uid t) (gid t) (pid t) (ppid t) (pgid t) (sid t) (tty t) (on_list t) (eax t) (brk t) (status t) (waitpid t) (pwd t) v (iroot t) (iexec t) (umask t) (files t) (signal t) (blocked t) (actions t) (frame t).
Definition set_iroot (v : Z) (t : task_t) : task_t :=
  Task (state t) (priority t) (ticks t) (tjiffies t) (uid t) (gid t) (pid t) (ppid t) (pgid t) (sid t) (tty t) (on_list t) (eax t) (brk t) (status t) (waitpid t) (pwd t) (ipwd t) v (iexec t) (umask t) (files t) (signal t) (blocked t) (actions t) (frame t).
Definition set_iexec (v : Z) (t : task_t) : task_t :=
  Task (state t) (priority t) (ticks t) (tjiffies t) (uid t) (gid t) (pid t) (ppid t) (pgid t) (sid t) (tty t) (on_list t) (eax t) (brk t) (status t) (waitpid t) (pwd t) (ipwd t) (iroot t) v (umask t) (files t) (signal t) (blocked t) (actions t) (frame t).
Definition set_umask (v : Z) (t : task_t) : task_t :=
  Task (state t) (priority t) (ticks t) (tjiffies t) (uid t) (gid t) (pid t) (ppid t) (pgid t) (sid t) (tty t) (on_list t) (eax t) (brk t) (status t) (waitpid t) (pwd t) (ipwd t) (iroot t) (iexec t) v (files t) (signal t) (blocked t) (actions t) (frame t).
Definition set_files (v : list (option Z)) (t : task_t) : task_t :=
  Task (state t) (priority t) (ticks t) (tjiffies t) (uid t) (gid t) (pid t) (ppid t) (pgid t) (sid t) (tty t) (on_list t) (eax t) (brk t) (status t) (waitpid t) (pwd t) (ipwd t) (iroot t) (iexec t) (umask t) v (signal t) (blocked t) (actions t) (frame t).
Definition set_signal (v : Z) (t : task_t) : task_t :=
  Task (state t) (priority t) (ticks t) (tjiffies t) (uid t) (gid t) (pid t) (ppid t) (pgid t) (sid t) (tty t) (on_list t) (eax t) (brk t) (status t) (waitpid t) (pwd t) (ipwd t) (iroot t) (iexec t) (umask t) (files t) v (blocked t) (actions t) (frame t).
Definition set_blocked (v : Z) (t : task_t) : task_t :=
  Task (state t) (priority t) (ticks t) (tjiffies t) (uid t) (gid t) (pid t) (ppid t) (pgid t) (sid t) (tty t) (on_list t) (eax t) (brk t) (status t) (waitpid t) (pwd t) (ipwd t) (iroot t) (iexec t) (umask t) (files t) (signal t) v (actions t) (frame t).
Definition set_actions (v : list sigaction_t) (t : task_t) : task_t :=
  Task (state t) (priority t) (ticks t) (tjiffies t) (uid t) (gid t) (pid t) (ppid t) (pgid t) (sid t) (tty t) (on_list t) (eax t) (brk t) (status t) (waitpid t) (pwd t) (ipwd t) (iroot t) (iexec t) (umask t) (files t) (signal t) (blocked t) v (frame t).
Definition set_frame (v : user_frame) (t : task_t) : task_t :=
  Task (state t) (priority t) (ticks t) (tjiffies t) (uid t) (gid t) (pid t) (ppid t) (pgid t) (sid t) (tty t) (on_list t) (eax t) (brk t) (status t) (waitpid t) (pwd t) (ipwd t) (iroot t) (iexec t) (umask t) (files t) (signal t) (blocked t) (actions t) v.

(** What a timer does when it expires: [task_wakeup], [stop_beep], or nothing but
    [default_timeout]. *)
Inductive timer_handler := TaskWakeup | StopBeep | DefaultTimeout.
Record timer_t := Timer {
  timer_task : Z; expires : Z; timer_action : timer_handler; timer_arg : Z; active : bool
}.

(** [file_t], an entry of the system's file table: the inode, the number of descriptors
    that refer to the entry, and how the file was opened. *)
Record file_t := File {
  file_inode : Z; file_count : Z; file_flags : Z; file_offset : Z; file_mode : Z
}.

(** What the routines below ask of the rest of the kernel: page tables, the kernel heap,
    reference counts of inodes, and the ports.  The requests are recorded in order. *)
Inductive call :=
  | CopyPte (child : Z) | CopyVmap (child : Z) | CopyPwd (child : Z)
  | FreePte (task : Z) | FreePde (task : Z) | FreeVmap (task : Z) | FreePwd (task : Z)
  | InodeRef (inode : Z) | Iput (inode : Z)
  | FreeTask (task : Z)
  | OutB (port value : Z) | SpeakerOn | SpeakerOff | SendEoi (vector : Z).

#[export] Instance call_eq_dec : EqDecision call.
Proof. solve_decision. Defined.

(** The globals; [ttys] is the foreground process group of each terminal device. *)
Record sys := Sys {
  task_list : list (option task_t);
  current : Z;
  lists : gmap Z (list Z);
  timers : list timer_t;
  jiffies : Z;
  beeping : bool;
  interrupts : bool;
  ttys : gmap Z Z;
  file_table : list file_t;
  calls : list call
}.

Definition put_task_list (v : list (option task_t)) (g : sys) : sys :=
  Sys v (current g) (lists g) (timers g) (jiffies g) (beeping g) (interrupts g) (ttys g) (file_table g) (calls g).
Definition put_current (v : Z) (g : sys) : sys :=
  Sys (task_list g) v (lists g) (timers g) (jiffies g) (beeping g) (interrupts g) (ttys g) (file_table g) (calls g).
Definition put_lists (v : gmap Z (list Z)) (g : sys) : sys :=
  Sys (task_list g) (current g) v (timers g) (jiffies g) (beeping g) (interrupts g) (ttys g) (file_table g) (calls g).
Definition put_timers (v : list timer_t) (g : sys) : sys :=
  Sys (task_list g) (current g) (lists g) v (jiffies g) (beeping g) (interrupts g) (ttys g) (file_table g) (calls g).
Definition put_jiffies (v : Z) (g : sys) : sys :=
  Sys (task_list g) (current g) (lists g) (timers g) v (beeping g) (interrupts g) (ttys g) (file_table g) (calls g).
Definition put_beeping (v : bool) (g : sys) : sys :=
  Sys (task_list g) (current g) (lists g) (timers g) (jiffies g) v (interrupts g) (ttys g) (file_table g) (calls g).
Definition put_interrupts (v : bool) (g : sys) : sys :=
  Sys (task_list g) (current g) (lists g) (timers g) (jiffies g) (beeping g) v (ttys g) (file_table g) (calls g).
Definition put_ttys (v : gmap Z Z) (g : sys) : sys :=
  Sys (task_list g) (current g) (lists g) (timers g) (jiffies g) (beeping g) (interrupts g) v (file_table g) (calls g).
Definition put_file_table (v : list file_t) (g : sys) : sys :=
  Sys (task_list g) (current g) (lists g) (timers g) (jiffies g) (beeping g) (interrupts g) (ttys g) v (calls g).
Definition put_calls (v : list call) (g : sys) : sys :=
  Sys (task_list g) (current g) (lists g) (timers g) (jiffies g) (beeping g) (interrupts g) (ttys g) (file_table g) v.

Definition K := ST sys.

Definition emit (c : call) : K unit := modify_st (λ g, put_calls (calls g ++ [c]) g).

(** [task_list[i]], for an index inside the table. *)
Definition slot (g : sys) (i : Z) : option task_t :=
  if 0 <=? i then mjoin (task_list g !! Z.to_nat i) else None.

Definition set_slot (i : Z) (t : option task_t) (g : sys) : sys :=
  put_task_list (<[Z.to_nat i := t]> (task_list g)) g.

(** A field update of the task in slot [i]: [task_list[i]->f = v]. *)
Definition upd_task (i : Z) (f : task_t → task_t) : K unit := λ g,
  match slot g i with
  | Some t => Ok ((), set_slot i (Some (f t)) g)
  | None => Stop OutOfBounds
  end.

Definition get_task_at (i : Z) : K task_t := λ g,
  match slot g i with Some t => Ok (t, g) | None => Stop OutOfBounds end.

Definition get_current : K task_t := λ g, get_task_at (current g) g.

(** [get_task]: the first slot whose task has the pid. *)
Fixpoint find_slot (P : task_t → bool) (n : nat) (i : Z) (g : sys) : option Z :=
  match n with
  | O => None
  | S n =>
      match slot g i with
      | Some t => if P t then Some i else find_slot P n (i + 1) g
      | None => find_slot P n (i + 1) g
      end
  end.

Definition get_task (p : Z) : K (option Z) := λ g,
  Ok (find_slot (λ t, pid t =? p) (Z.to_nat TASK_NR) 0 g, g).

(** [get_free_task]: the first empty slot; the page of the new task is not filled in. *)
Fixpoint free_slot (n : nat) (i : Z) (g : sys) : option Z :=
  match n with
  | O => None
  | S n => match slot g i with None => Some i | Some _ => free_slot n (i + 1) g end
  end.

Definition get_free_task : K Z := λ g,
  match free_slot (Z.to_nat TASK_NR) 0 g with
  | Some i => Ok (i, g)
  | None => Stop Panic
  end.

(** ** The scheduler *)

Definition runnable (g : sys) (n : Z) : bool :=
  match slot g n with
  | Some t => negb (ticks t =? 0) && bool_decide (state t = TASK_READY)
  | None => false
  end.

(** The loop of [schedule]. *)
Fixpoint choose (fuel : nat) (n : Z) (g : sys) : Z :=
  match fuel with
  | O => 0
  | S fuel =>
      let n := n mod TASK_NR in
      if negb (n =? 0) && runnable g n then n else choose fuel (n + 1) g
  end.

(** The registers are saved and restored by the context switch; what follows it in the
    caller runs when the caller's task is chosen again. *)
Definition switch_to (n : Z) : K unit := λ g,
  match slot g n with
  | None => Stop Panic
  | Some t =>
      if negb ((0 <=? n) && (n <? TASK_NR)) then Stop Panic
      else if current g =? n then Ok ((), g)
      else
        (c ← get_current;
         (if bool_decide (state c = TASK_RUNNING)
          then upd_task (current g) (set_state TASK_READY) else mret ());;
         modify_st (put_current n);;
         t ← get_current;
         sassert (bool_decide (state t = TASK_READY));;
         upd_task n (set_state TASK_RUNNING);;
         upd_task n (set_tjiffies (jiffies g))) g
  end.

Definition schedule : K unit :=
  c ← get_current;
  g ← get_st;
  switch_to (choose (Z.to_nat TASK_NR) (pid c + 1) g).

Definition sys_yield : K unit := schedule.

(** ** Blocking and waking *)

Definition interrupt_disable : K bool := λ g, Ok (interrupts g, put_interrupts false g).
Definition set_interrupt_state (b : bool) : K unit := modify_st (put_interrupts b).

Definition wait_list (g : sys) (l : Z) : list Z := default [] (lists g !! l).

(** [list_pushback(waiting_list, &task->node)] with its assertion. *)
Definition waiting_pushback (l i : Z) : K unit := λ g,
  if bool_decide (i ∈ wait_list g l) then Stop Panic
  else upd_task i (set_on_list (Some l)) (put_lists (<[l := wait_list g l ++ [i]]> (lists g)) g).

(** [task_block(task, waiting_list, task_state)] up to the switch; [None] is the null
    list.  The interrupt state before the call is the result, to be restored by
    [task_block_end] when the task runs again. *)
Definition task_block (i : Z) (waiting_list : option Z) (s : task_state) : K bool :=
  g ← get_st;
  match waiting_list with
  | None =>
      upd_task i (set_state s);;
      if current g =? i then schedule;; mret (interrupts g)
      else stop_st OutOfBounds          (* list_pushback on the null pointer *)
  | Some l =>
      intr ← interrupt_disable;
      waiting_pushback l i;;
      upd_task i (set_state s);;
      (if current g =? i then schedule else mret ());;
      mret intr
  end.
Definition task_block_end (intr : bool) : K unit := set_interrupt_state intr.

(** [list_pop(waiting_list)]. *)
Definition waiting_pop (l : Z) : K Z := λ g,
  match wait_list g l with
  | [] => Stop Panic
  | i :: w => (upd_task i (set_on_list None);; mret i) (put_lists (<[l := w]> (lists g)) g)
  end.

Definition task_unblock (l : Z) : K bool :=
  intr ← interrupt_disable;
  g ← get_st;
  (if bool_decide (wait_list g l = []) then mret ()
   else
     i ← waiting_pop l;
     upd_task i (set_state TASK_READY);;
     schedule);;
  mret intr.

(** [list_remove(&task->node)] of a node that is in a list. *)
Definition unlink (i : Z) : K unit :=
  t ← get_task_at i;
  match on_list t with
  | None => mret ()
  | Some l =>
      modify_st (λ g, put_lists (<[l := AList.remove i (wait_list g l)]> (lists g)) g);;
      upd_task i (set_on_list None)
  end.

Definition task_intr_unblock_no_waiting_list (i : Z) : K unit :=
  unlink i;; upd_task i (set_state TASK_READY).

(** ** Well-formed task tables *)

(** Every task knows its slot, has time left and a time slice; the current task exists; nobody else
    is marked as running; idle (slot 0) can always run. *)
Record wf (g : sys) : Prop := {
  wf_len : length (task_list g) = 64%nat;
  wf_pid : ∀ i t, slot g i = Some t → pid t = i ∧ 0 < ticks t < 4294967296 ∧ 0 < priority t < 4294967296;
  wf_cur : is_Some (slot g (current g));
  wf_running : ∀ i t, slot g i = Some t → state t = TASK_RUNNING → i = current g;
  wf_idle : ∃ t, slot g 0 = Some t ∧ (state t = TASK_READY ∨ (current g = 0 ∧ state t = TASK_RUNNING))
}.

Lemma slot_range g i t : length (task_list g) = 64%nat → slot g i = Some t → 0 <= i < 64.
Proof.
  intros Hl H. unfold slot in H. destruct (Z.leb_spec 0 i); [|done].
  destruct (task_list g !! Z.to_nat i) as [o|] eqn:E; [|done].
  apply lookup_lt_Some in E. lia.
Qed.

Lemma slot_set g i t j :
  0 <= i < Z.of_nat (length (task_list g)) →
  slot (set_slot i t g) j = if decide (j = i) then t else slot g j.
Proof.
  intros Hi. unfold slot, set_slot. cbn. destruct (Z.leb_spec 0 j).
  - case_decide as Hd.
    + subst. by rewrite list_lookup_insert_eq by lia.
    + by rewrite list_lookup_insert_ne by lia.
  - rewrite decide_False; [done|lia].
Qed.

(** Updating a task in its slot. *)
Definition with_task (g : sys) (i : Z) (f : task_t → task_t) : sys :=
  match slot g i with Some t => set_slot i (Some (f t)) g | None => g end.

Lemma upd_task_Ok g i f : is_Some (slot g i) → upd_task i f g = Ok ((), with_task g i f).
Proof. intros [t H]. unfold upd_task, with_task. by rewrite H. Qed.

Lemma slot_with g i f j :
  length (task_list g) = 64%nat → is_Some (slot g i) →
  slot (with_task g i f) j = if decide (j = i) then f <$> slot g i else slot g j.
Proof.
  intros Hl [t H]. unfold with_task. rewrite H. pose proof (slot_range g i t Hl H).
  by rewrite slot_set by lia.
Qed.

Lemma with_len g i f : length (task_list (with_task g i f)) = length (task_list g).
Proof. unfold with_task. destruct (slot g i); [|done]. cbn. apply length_insert. Qed.

Lemma with_other g i f :
  current (with_task g i f) = current g ∧ lists (with_task g i f) = lists g ∧
  timers (with_task g i f) = timers g ∧ jiffies (with_task g i f) = jiffies g ∧
  interrupts (with_task g i f) = interrupts g ∧ beeping (with_task g i f) = beeping g ∧ ttys (with_task g i f) = ttys g ∧
  file_table (with_task g i f) = file_table g ∧ calls (with_task g i f) = calls g.
Proof. unfold with_task. by destruct (slot g i). Qed.

(** ** What [schedule] chooses *)

Lemma runnable_spec g n :
  runnable g n = true ↔ ∃ t, slot g n = Some t ∧ ticks t ≠ 0 ∧ state t = TASK_READY.
Proof.
  unfold runnable. destruct (slot g n) as [t|]; [|split; [done|by intros (? & ? & _)]].
  rewrite andb_true_iff, negb_true_iff, Z.eqb_neq, bool_decide_eq_true. naive_solver.
Qed.

(** The slot after [n] in the ring. *)
Definition ring (n : Z) : Z := n mod TASK_NR.

Lemma choose_spec fuel n g :
  (∃ k, 0 <= k < Z.of_nat fuel ∧ choose fuel n g = ring (n + k) ∧ ring (n + k) ≠ 0 ∧
     runnable g (ring (n + k)) = true ∧
     ∀ j, 0 <= j < k → ring (n + j) = 0 ∨ runnable g (ring (n + j)) = false) ∨
  (choose fuel n g = 0 ∧ ∀ j, 0 <= j < Z.of_nat fuel → ring (n + j) = 0 ∨ runnable g (ring (n + j)) = false).
Proof.
  revert n. induction fuel as [|fuel IH]; intros n.
  - right. split; [done|]. lia.
  - cbn [choose]. fold (ring n). destruct (negb (ring n =? 0) && runnable g (ring n)) eqn:E.
    + apply andb_true_iff in E as [E1 E2]. apply negb_true_iff, Z.eqb_neq in E1.
      left. exists 0. rewrite Z.add_0_r. split_and!; try done; lia.
    + assert (H0 : ring n = 0 ∨ runnable g (ring n) = false).
      { apply andb_false_iff in E as [E|E]; [left|by right]. by apply negb_false_iff, Z.eqb_eq in E. }
      assert (Hr : ∀ k, ring (ring n + 1 + k) = ring (n + (1 + k))).
      { intros k. unfold ring. replace (n mod TASK_NR + 1 + k) with (n mod TASK_NR + (1 + k)) by lia.
        by rewrite Zplus_mod_idemp_l. }
      destruct (IH (ring n + 1)) as [(k & Hk & Hc & Hne & Hrun & Hmin)|[Hc Hall]].
      * left. exists (1 + k). rewrite <- Hr. split_and!; try done; [lia..|].
        intros j Hj. destruct (decide (j = 0)) as [->|]; [by rewrite Z.add_0_r|].
        replace j with (1 + (j - 1)) by lia. rewrite <- Hr. apply Hmin. lia.
      * right. split; [done|]. intros j Hj. destruct (decide (j = 0)) as [->|]; [by rewrite Z.add_0_r|].
        replace j with (1 + (j - 1)) by lia. rewrite <- Hr. apply Hall. lia.
Qed.

Lemma choose_range fuel n g : 0 <= choose fuel n g < 64.
Proof.
  destruct (choose_spec fuel n g) as [(k & _ & -> & _)|[-> _]]; [|lia].
  apply (Z.mod_pos_bound (n + k) 64). lia.
Qed.

(** The task [schedule] switches to. *)
Definition next (g : sys) : Z := choose 64 (current g + 1) g.

Lemma next_exists g : wf g → ∃ t, slot g (next g) = Some t ∧ (next g ≠ current g → state t = TASK_READY).
Proof.
  intros W. unfold next. destruct (choose_spec 64 (current g + 1) g) as [(k & _ & -> & _ & Hr & _)|[-> _]].
  - apply runnable_spec in Hr as (t & Ht & _ & Hs). by exists t.
  - destruct (wf_idle _ W) as (t & Ht & [Hs|[Hc Hs]]); exists t; (split; [done|]); [done|congruence].
Qed.

(** The state after a switch from the current task to [n]. *)
Definition switched (n : Z) (g : sys) : sys :=
  if current g =? n then g
  else
    let g1 := match slot g (current g) with
              | Some c => if decide (state c = TASK_RUNNING)
                          then with_task g (current g) (set_state TASK_READY) else g
              | None => g
              end in
    with_task (with_task (put_current n g1) n (set_state TASK_RUNNING)) n (set_tjiffies (jiffies g)).

(** What a switch does to the task in slot [j]. *)
Definition switched_task (n : Z) (g : sys) (j : Z) (t : task_t) : task_t :=
  if decide (current g = n) then t
  else if decide (j = n) then set_tjiffies (jiffies g) (set_state TASK_RUNNING t)
  else if decide (j = current g ∧ state t = TASK_RUNNING) then set_state TASK_READY t
  else t.

(** A task that does not run and is not chosen is left alone; and a switch changes nothing
    but the state and the time of the last run. *)
Lemma switched_idle n g j t : n ≠ j → state t ≠ TASK_RUNNING → switched_task n g j t = t.
Proof.
  intros Hn Hs. unfold switched_task. destruct (decide (current g = n)); [done|].
  rewrite decide_False by congruence. rewrite decide_False; [done|]. by intros [_ ?].
Qed.

Lemma switched_static n g j t :
  ppid (switched_task n g j t) = ppid t ∧ on_list (switched_task n g j t) = on_list t.
Proof. unfold switched_task. by repeat destruct (decide _). Qed.

(** A ready task stays ready or is the one that runs. *)
Lemma switched_ready n g j t :
  state t = TASK_READY → state (switched_task n g j t) = TASK_READY ∨ n = j.
Proof.
  intros Hs. unfold switched_task. destruct (decide (current g = n)); [by left|].
  destruct (decide (j = n)) as [->|]; [by right|]. destruct (decide _); by left.
Qed.

Lemma switched_slot n g j :
  wf g → is_Some (slot g n) → slot (switched n g) j = switched_task n g j <$> slot g j.
Proof.
  intros W Hn. unfold switched, switched_task. destruct (Z.eqb_spec (current g) n) as [E|E].
  { destruct (slot g j); cbn; [by rewrite decide_True|done]. }
  destruct (wf_cur _ W) as [c Hc]. rewrite Hc.
  set (g1 := if decide (state c = TASK_RUNNING) then _ else g).
  assert (H1 : ∀ k, slot g1 k = (λ t, if decide (k = current g ∧ state t = TASK_RUNNING) then set_state TASK_READY t else t) <$> slot g k).
  { intros k. unfold g1. case_decide as Hs.
    - rewrite slot_with by (apply W || by eexists). case_decide as Hk.
      + subst k. rewrite Hc. cbn. by rewrite decide_True.
      + destruct (slot g k); cbn; [|done]. rewrite decide_False; [done|]. by intros [].
    - destruct (slot g k) as [t|] eqn:Hk; cbn; [|done]. rewrite decide_False; [done|].
      intros [-> Ht]. congruence. }
  assert (Hl : length (task_list (put_current n g1)) = 64%nat).
  { unfold g1. destruct (decide _); cbn; rewrite ?with_len; apply W. }
  assert (H1n : is_Some (slot (put_current n g1) n)).
  { change (is_Some (slot g1 n)). rewrite H1. by apply fmap_is_Some. }
  assert (H2 : ∀ f k, slot (with_task (put_current n g1) n f) k = if decide (k = n) then f <$> slot g1 n else slot g1 k).
  { intros f k. by rewrite slot_with. }
  rewrite slot_with.
  - destruct (decide (j = n)) as [->|Hj]; rewrite H2.
    + rewrite decide_True, H1 by done. destruct (slot g n) as [t|]; cbn; [|done]. f_equal.
      destruct (decide (n = current g ∧ state t = TASK_RUNNING)) as [[-> _]|]; [done|].
      by destruct (decide (current g = n)).
    + rewrite decide_False, H1 by done. destruct (slot g j) as [t|]; cbn; [|done].
      by destruct (decide (current g = n)).
  - by rewrite with_len.
  - rewrite H2, decide_True by done. rewrite H1. by apply fmap_is_Some, fmap_is_Some.
Qed.

Lemma switched_other n g :
  current (switched n g) = n ∧ lists (switched n g) = lists g ∧ timers (switched n g) = timers g ∧
  jiffies (switched n g) = jiffies g ∧ interrupts (switched n g) = interrupts g ∧
  beeping (switched n g) = beeping g ∧ ttys (switched n g) = ttys g ∧
  file_table (switched n g) = file_table g ∧ calls (switched n g) = calls g ∧
  length (task_list (switched n g)) = length (task_list g).
Proof.
  unfold switched. destruct (Z.eqb_spec (current g) n) as [<-|]; [done|].
  set (g1 := match slot g (current g) with Some _ => _ | None => g end).
  assert (H1 : lists g1 = lists g ∧ timers g1 = timers g ∧ jiffies g1 = jiffies g ∧
    interrupts g1 = interrupts g ∧ beeping g1 = beeping g ∧ ttys g1 = ttys g ∧
    file_table g1 = file_table g ∧ calls g1 = calls g ∧
    length (task_list g1) = length (task_list g)).
  { unfold g1. destruct (slot g (current g)) as [c|]; [|done]. destruct (decide _); [|done].
    rewrite with_len. by destruct (with_other g (current g) (set_state TASK_READY)) as (? & ? & ? & ? & ? & ? & ? & ? & ?). }
  destruct H1 as (? & ? & ? & ? & ? & ? & ? & ? & ?).
  destruct (with_other (with_task (put_current n g1) n (set_state TASK_RUNNING)) n (set_tjiffies (jiffies g)))
    as (-> & -> & -> & -> & -> & -> & -> & -> & ->).
  destruct (with_other (put_current n g1) n (set_state TASK_RUNNING)) as (-> & -> & -> & -> & -> & -> & -> & -> & ->).
  rewrite !with_len. by cbn.
Qed.

Lemma switched_wf n g t :
  wf g → slot g n = Some t → (n ≠ current g → state t = TASK_READY) → wf (switched n g).
Proof.
  intros W Ht Hr. assert (Hn : is_Some (slot g n)) by by eexists.
  destruct (switched_other n g) as (Ec & _ & _ & _ & _ & _ & _ & _ & _ & El).
  split.
  - rewrite El. apply W.
  - intros i t' H. rewrite switched_slot in H by done.
    destruct (slot g i) as [t0|] eqn:E0; [|done]. injection H as <-.
    destruct (wf_pid _ W i t0 E0) as [H1 H2]. unfold switched_task. repeat case_decide; done.
  - rewrite Ec, switched_slot by done. by apply fmap_is_Some.
  - intros i t' H Hs. rewrite Ec. rewrite switched_slot in H by done.
    destruct (slot g i) as [t0|] eqn:E0; [|done]. injection H as <-. revert Hs. unfold switched_task.
    repeat case_decide; try done.
    + intros Hs. rewrite <- H. by apply (wf_running _ W i t0).
    + intros Hs. pose proof (wf_running _ W i t0 E0 Hs). tauto.
  - destruct (wf_idle _ W) as (t0 & H0 & Hs). rewrite Ec, switched_slot by done. rewrite H0. eexists. split; [reflexivity|].
    unfold switched_task. case_decide as D1.
    + destruct Hs as [Hs|[Hc Hs]]; [by left|right]. split; [congruence|done].
    + case_decide as D2; [right; done|]. case_decide as D3; [by left|].
      left. destruct Hs as [Hs|[Hc Hs]]; [done|]. exfalso. apply D3. done.
Qed.

Lemma switch_to_Ok n g t :
  wf g → slot g n = Some t → (n ≠ current g → state t = TASK_READY) →
  switch_to n g = Ok ((), switched n g).
Proof.
  intros W Ht Hr. unfold switch_to, switched. rewrite Ht.
  pose proof (slot_range g n t (wf_len _ W) Ht) as Hn.
  destruct (Z.leb_spec 0 n); [|lia]. destruct (Z.ltb_spec n TASK_NR); [|unfold TASK_NR in *; lia]. cbn [andb negb].
  destruct (Z.eqb_spec (current g) n) as [E|E]; [done|].
  destruct (wf_cur _ W) as [c Hc]. rewrite Hc.
  assert (Ecur : get_current g = Ok (c, g)) by (unfold get_current, get_task_at; by rewrite Hc).
  rewrite (st_bind_eq _ _ _ _ _ Ecur). set (g1 := if decide (state c = TASK_RUNNING) then _ else g).
  assert (E1 : (if bool_decide (state c = TASK_RUNNING) then upd_task (current g) (set_state TASK_READY) else mret ()) g
    = Ok ((), g1)).
  { unfold g1. destruct (decide (state c = TASK_RUNNING)).
    - rewrite bool_decide_eq_true_2 by done. apply upd_task_Ok. by eexists.
    - by rewrite bool_decide_eq_false_2. }
  rewrite (st_bind_eq _ _ _ _ _ E1). rewrite (st_bind_eq _ _ g1 () (put_current n g1)) by done.
  assert (Hn1 : slot (put_current n g1) n = Some t).
  { change (slot g1 n = Some t). unfold g1. destruct (decide _); [|done].
    rewrite slot_with by (apply W || by eexists). rewrite decide_False by done. done. }
  assert (Et : get_current (put_current n g1) = Ok (t, put_current n g1)).
  { unfold get_current, get_task_at. cbn [current put_current]. by rewrite Hn1. }
  rewrite (st_bind_eq _ _ _ _ _ Et). unfold sassert. rewrite bool_decide_eq_true_2 by (apply Hr; congruence).
  rewrite (st_bind_eq _ _ (put_current n g1) () (put_current n g1)) by done.
  assert (Hl1 : length (task_list g1) = 64%nat).
  { unfold g1. destruct (decide _); rewrite ?with_len; apply W. }
  rewrite (st_bind_eq _ _ _ _ _ (upd_task_Ok _ n _ ltac:(by eexists))).
  rewrite upd_task_Ok; [done|]. rewrite slot_with by (done || by eexists). rewrite decide_True, Hn1 by done. by eexists.
Qed.

Lemma schedule_Ok g :
  wf g → schedule g = Ok ((), switched (next g) g) ∧ wf (switched (next g) g).
Proof.
  intros W. destruct (wf_cur _ W) as [c Hc]. destruct (next_exists g W) as (t & Ht & Hr).
  unfold schedule.
  assert (Ecur : get_current g = Ok (c, g)) by (unfold get_current, get_task_at; by rewrite Hc).
  rewrite (st_bind_eq _ _ _ _ _ Ecur), (st_bind_eq _ _ g g g) by done. cbn beta.
  rewrite (proj1 (wf_pid _ W _ _ Hc)). change (Z.to_nat TASK_NR) with 64%nat. fold (next g).
  split; [by eapply switch_to_Ok|by eapply switched_wf].
Qed.

(** The difference of two slots in the ring. *)
Lemma slot_diff a b : 0 <= a < 64 → 0 <= b < 64 → (a - b) mod 64 = if b <=? a then a - b else a - b + 64.
Proof.
  intros. destruct (Z.leb_spec b a); [apply Z.mod_small; lia|].
  rewrite <- (Z.mod_small (a - b + 64) 64) by lia.
  replace (a - b + 64) with (a - b + 1 * 64) by lia. by rewrite Z_mod_plus_full.
Qed.

(** [schedule] is round robin: on a well-formed table it always returns (the
    assertions of [switch_to] hold), the task chosen is the first ready one after the
    current slot, idle only when no other task is ready; the old task becomes ready if it
    was running, the new one runs with the time noted, nobody else changes, and the table
    is well formed again. *)
Theorem schedule_round_robin g :
  wf g →
  ∃ g' n, schedule g = Ok ((), g') ∧ wf g' ∧ current g' = n ∧
    ((∃ k, 0 <= k < 64 ∧ n = ring (current g + 1 + k) ∧ n ≠ 0 ∧ runnable g n = true ∧
        ∀ j, 0 <= j < k → ring (current g + 1 + j) = 0 ∨ runnable g (ring (current g + 1 + j)) = false) ∨
     (n = 0 ∧ ∀ j, 0 <= j < 64 → j ≠ 0 → runnable g j = false)) ∧
    (∀ j, slot g' j = switched_task n g j <$> slot g j) ∧
    lists g' = lists g ∧ timers g' = timers g.
Proof.
  intros W. destruct (schedule_Ok g W) as [E W']. destruct (next_exists g W) as (t & Ht & _).
  exists (switched (next g) g), (next g). destruct (switched_other (next g) g) as (H1 & H2 & H3 & _).
  split_and!; try done.
  - unfold next. destruct (choose_spec 64 (current g + 1) g) as [(k & Hk & -> & Hne & Hr & Hmin)|[-> Hall]].
    + left. exists k. split_and!; try done; lia.
    + right. split; [done|]. intros j Hj Hj0.
      destruct (Hall (ring (j - (current g + 1)))) as [H|H].
      * apply Z.mod_pos_bound. done.
      * exfalso. apply Hj0. revert H. unfold ring. rewrite Zplus_mod_idemp_r.
        replace (current g + 1 + (j - (current g + 1))) with j by lia. by rewrite Z.mod_small.
      * revert H. unfold ring at 1. unfold ring. rewrite Zplus_mod_idemp_r.
        replace (current g + 1 + (j - (current g + 1))) with j by lia. by rewrite Z.mod_small.
  - intros j. apply switched_slot; [done|by eexists].
Qed.

(** [k] calls of [schedule] in a row, each from the task chosen by the one before. *)
Fixpoint schedules (k : nat) : K unit :=
  match k with O => mret () | S k => schedule;; schedules k end.

(** Slots from the current one to [i]. *)
Definition distance (g : sys) (i : Z) : Z := ring (i - current g).

Lemma schedules_reach d g i t :
  wf g → slot g i = Some t → state t = TASK_READY → i ≠ 0 → distance g i <= Z.of_nat d →
  ∃ k g', (k <= d)%nat ∧ schedules k g = Ok ((), g') ∧ wf g' ∧ current g' = i.
Proof.
  revert g t. induction d as [|d IH]; intros g t W Ht Hs Hi Hd;
    pose proof (slot_range g i t (wf_len _ W) Ht) as Hir;
    destruct (wf_cur _ W) as [c Hc]; pose proof (slot_range g _ c (wf_len _ W) Hc) as Hcr;
    (destruct (decide (current g = i)) as [E|E]; [by exists 0%nat, g; split; [lia|]|]).
  - exfalso. pose proof (Z.mod_pos_bound (i - current g) 64). unfold distance, ring, TASK_NR in Hd.
    assert (H0 : (i - current g) mod 64 = 0) by lia.
    rewrite slot_diff in H0 by lia. revert H0. destruct (Z.leb_spec (current g) i); lia.
  - destruct (schedule_Ok g W) as [Es W']. destruct (next_exists g W) as (tn & Htn & _).
    destruct (switched_other (next g) g) as (Ec & _).
    assert (Hrun : runnable g i = true).
    { apply runnable_spec. exists t. pose proof (wf_pid _ W i t Ht). split_and!; [done|lia|done]. }
    set (dd := distance g i) in *.
    assert (Hdd : 1 <= dd < 64 ∧ ring (current g + 1 + (dd - 1)) = i).
    { unfold dd, distance, ring, TASK_NR. rewrite slot_diff by lia. destruct (Z.leb_spec (current g) i).
      - split; [lia|]. replace (current g + 1 + (i - current g - 1)) with i by lia. by apply Z.mod_small.
      - split; [lia|]. replace (current g + 1 + (i - current g + 64 - 1)) with (i + 1 * 64) by lia.
        rewrite Z_mod_plus_full. by apply Z.mod_small. }
    assert (Hnext : ∃ k, 0 <= k <= dd - 1 ∧ next g = ring (current g + 1 + k) ∧ next g ≠ 0).
    { unfold next. destruct (choose_spec 64 (current g + 1) g) as [(k & Hk & -> & Hne & Hr & Hmin)|[-> Hall]].
      - exists k. split_and!; try done; [lia|]. destruct (decide (k <= dd - 1)) as [|Hbig]; [done|].
        destruct (Hmin (dd - 1) ltac:(lia)) as [H|H]; rewrite (proj2 Hdd) in H; congruence.
      - destruct (Hall (dd - 1) ltac:(lia)) as [H|H]; rewrite (proj2 Hdd) in H; congruence. }
    destruct Hnext as (k & Hk & En & Hn0).
    destruct (decide (next g = i)) as [Ei|Ei].
    { exists 1%nat, (switched (next g) g). split; [lia|]. cbn [schedules].
      rewrite (st_bind_eq _ _ _ _ _ Es). split_and!; [done..|congruence]. }
    assert (Hslot : slot (switched (next g) g) i = Some t).
    { rewrite switched_slot by (done || by eexists). rewrite Ht. cbn. f_equal. unfold switched_task.
      repeat case_decide; try done; destruct_and?; congruence. }
    assert (Hdist : distance (switched (next g) g) i = dd - 1 - k).
    { unfold distance. rewrite Ec, En. unfold ring at 2. unfold ring. rewrite Zminus_mod_idemp_r.
      rewrite <- (proj2 Hdd) at 1. unfold ring. rewrite Zminus_mod_idemp_l.
      replace (current g + 1 + (dd - 1) - (current g + 1 + k)) with (dd - 1 - k) by lia.
      apply Z.mod_small. unfold TASK_NR. lia. }
    destruct (IH _ t W' Hslot Hs Hi ltac:(lia)) as (k2 & g' & Hk2 & E2 & W2 & Ec2).
    exists (S k2), g'. split; [lia|]. cbn [schedules]. by rewrite (st_bind_eq _ _ _ _ _ Es).
Qed.

(** C39. No ready task starves: while the tasks only give up the processor, a ready task is
    running after at most 63 calls of [schedule], whatever the others are. *)
Theorem schedule_fair g i t :
  wf g → slot g i = Some t → state t = TASK_READY → i ≠ 0 →
  ∃ k g', (k <= 63)%nat ∧ schedules k g = Ok ((), g') ∧ wf g' ∧ current g' = i.
Proof.
  intros W Ht Hs Hi. apply (schedules_reach 63 g i t W Ht Hs Hi).
  pose proof (Z.mod_pos_bound (i - current g) 64). unfold distance, ring, TASK_NR. lia.
Qed.

(** ** A concrete machine *)

(** Deciding well-formedness. *)
Definition wf_check (g : sys) : bool :=
  bool_decide (length (task_list g) = 64%nat) &&
  forallb (λ i, match slot g i with
                | Some t => (pid t =? i) && ((0 <? ticks t) && (ticks t <? 4294967296)) &&
                            ((0 <? priority t) && (priority t <? 4294967296)) &&
                            (negb (bool_decide (state t = TASK_RUNNING)) || (i =? current g))
                | None => true
                end) (seqZ 0 64) &&
  bool_decide (is_Some (slot g (current g))) &&
  match slot g 0 with
  | Some t => bool_decide (state t = TASK_READY) || ((current g =? 0) && bool_decide (state t = TASK_RUNNING))
  | None => false
  end.

Lemma wf_checked g : wf_check g = true → wf g.
Proof.
  unfold wf_check. rewrite !andb_true_iff, !bool_decide_eq_true, forallb_forall.
  intros [[[Hl Hall] Hc] Hi].
  assert (H : ∀ i t, slot g i = Some t → pid t = i ∧ 0 < ticks t < 4294967296 ∧ 0 < priority t < 4294967296 ∧ (state t = TASK_RUNNING → i = current g)).
  { intros i t Ht. pose proof (slot_range g i t Hl Ht). specialize (Hall i). rewrite Ht in Hall.
    rewrite !andb_true_iff, orb_true_iff, negb_true_iff, !Z.eqb_eq, !Z.ltb_lt, bool_decide_eq_false in Hall.
    destruct Hall as [[[H1 [H2 H2']] [H4 H4']] H3]; [apply list_elem_of_In, elem_of_seqZ; lia|]. naive_solver. }
  split; [done|naive_solver|done|naive_solver|].
  destruct (slot g 0) as [t|]; [|done]. exists t. split; [done|].
  rewrite orb_true_iff, andb_true_iff, !bool_decide_eq_true, Z.eqb_eq in Hi. done.
Qed.

Definition demo_frame : user_frame := UserFrame 0x8000000 0x1000 0x202 1 2 3 ∅.

Definition demo_task (i : Z) (s : task_state) (parent : Z) (u : Z) : task_t :=
  Task s 5 5 0 u 0 i parent i 1 0 None 0 0x8048000 0 0 [47] 1 1 0 18
    ([Some 0; Some 1; Some 2] ++ replicate 13 None) 0 0 (replicate 31 (SigAction 0 0 0 0)) demo_frame.

(** Idle, init, and three user tasks; task 2 runs. *)
Definition demo : sys :=
  Sys ([Some (demo_task 0 TASK_READY 0 0); Some (demo_task 1 TASK_READY 0 0);
        Some (demo_task 2 TASK_RUNNING 1 1000); Some (demo_task 3 TASK_BLOCKED 2 1000);
        Some (demo_task 4 TASK_READY 2 1000)] ++ replicate 59 None)
      2 ∅ [] 100 false false ∅
      (replicate 3 (File 1 5 0 0 0) ++ replicate 125 (File 0 0 0 0 0)) [].

Lemma demo_wf : wf demo.
Proof. apply wf_checked. vm_compute. reflexivity. Qed.

Lemma schedule_round_robin_witness :
  ∃ g' n, schedule demo = Ok ((), g') ∧ wf g' ∧ current g' = n ∧
    ((∃ k, 0 <= k < 64 ∧ n = ring (current demo + 1 + k) ∧ n ≠ 0 ∧ runnable demo n = true ∧
        ∀ j, 0 <= j < k → ring (current demo + 1 + j) = 0 ∨ runnable demo (ring (current demo + 1 + j)) = false) ∨
     (n = 0 ∧ ∀ j, 0 <= j < 64 → j ≠ 0 → runnable demo j = false)) ∧
    (∀ j, slot g' j = switched_task n demo j <$> slot demo j) ∧
    lists g' = lists demo ∧ timers g' = timers demo.
Proof. exact (schedule_round_robin demo demo_wf). Defined.

Lemma schedule_fair_witness :
  ∃ k g', (k <= 63)%nat ∧ schedules k demo = Ok ((), g') ∧ wf g' ∧ current g' = 1.
Proof.
  apply (schedule_fair demo 1 (demo_task 1 TASK_READY 0 0) demo_wf); [reflexivity|reflexivity|done].
Defined.

(** ** Waiting lists *)

Lemma upd_wf_any g i t f :
  wf g → slot g i = Some t → (i = 0 → state (f t) = state t) → pid (f t) = pid t → 0 < ticks (f t) < 4294967296 → priority (f t) = priority t →
  (state (f t) = TASK_RUNNING → i = current g) → wf (with_task g i f).
Proof.
  intros W Ht Hi Hp Hk Hpr Hs. destruct (with_other g i f) as (Ec & _).
  assert (Hsl : ∀ j, slot (with_task g i f) j = if decide (j = i) then f <$> slot g i else slot g j).
  { intros j. apply slot_with; [apply W|by eexists]. }
  split.
  - rewrite with_len. apply W.
  - intros j t'. rewrite Hsl. case_decide as Hj; [|apply W].
    rewrite Ht. intros [= <-]. subst j. rewrite Hp, Hpr. destruct (wf_pid _ W i t Ht) as (? & _ & ?). done.
  - rewrite Ec, Hsl. case_decide; [rewrite Ht; by eexists|apply W].
  - intros j t'. rewrite Hsl, Ec. case_decide as Hj; [|apply W].
    rewrite Ht. intros [= <-]. subst j. done.
  - destruct (wf_idle _ W) as (t0 & H0 & H). rewrite Ec. setoid_rewrite Hsl. case_decide as H0i.
    + subst i. rewrite Ht in H0. injection H0 as <-. exists (f t). rewrite Ht. rewrite Hi by done. done.
    + by exists t0.
Qed.

Lemma upd_wf g i t f :
  wf g → slot g i = Some t → i ≠ 0 → pid (f t) = pid t → 0 < ticks (f t) < 4294967296 → priority (f t) = priority t →
  (state (f t) = TASK_RUNNING → i = current g) → wf (with_task g i f).
Proof. intros W Ht Hi. by apply upd_wf_any. Qed.

Lemma wf_globals g g' :
  task_list g' = task_list g → current g' = current g → wf g → wf g'.
Proof.
  intros E1 E2 [W1 W2 W3 W4 W5]. unfold slot in *.
  split; unfold slot; rewrite ?E1, ?E2; done.
Qed.

(** Taking the slots' view of a table whose lists have changed. *)
Lemma wf_put_lists ls g : wf g → wf (put_lists ls g).
Proof. by apply wf_globals. Qed.

Lemma wf_put_interrupts b g : wf g → wf (put_interrupts b g).
Proof. by apply wf_globals. Qed.

(** [upd_task] on a task whose state does not become RUNNING keeps the table well
    formed. *)
Lemma upd_step g i t f :
  wf g → slot g i = Some t → i ≠ 0 → pid (f t) = pid t → ticks (f t) = ticks t → priority (f t) = priority t →
  (state (f t) = TASK_RUNNING → state t = TASK_RUNNING) →
  upd_task i f g = Ok ((), with_task g i f) ∧ wf (with_task g i f) ∧
  slot (with_task g i f) i = Some (f t) ∧
  (∀ j, j ≠ i → slot (with_task g i f) j = slot g j).
Proof.
  intros W Ht Hi Hp Hk Hpr Hs. split_and!.
  - apply upd_task_Ok. by eexists.
  - eapply upd_wf; try done. { rewrite Hk. by apply (wf_pid _ W i). } intros H. eapply wf_running; eauto.
  - rewrite slot_with by (apply W || by eexists). by rewrite decide_True, Ht.
  - intros j Hj. rewrite slot_with by (apply W || by eexists). by rewrite decide_False.
Qed.

(** A task that cannot run is not chosen. *)
Lemma next_not g i t :
  wf g → slot g i = Some t → state t ≠ TASK_READY → i ≠ 0 → next g ≠ i.
Proof.
  intros W Ht Hs Hi En. unfold next in En.
  destruct (choose_spec 64 (current g + 1) g) as [(k & _ & E & _ & Hr & _)|[E _]]; [|congruence].
  rewrite <- E, En in Hr. apply runnable_spec in Hr as (t' & Ht' & _ & Hr). congruence.
Qed.

Lemma bind_Ok {A B} (m : K A) (f : A → K B) g a g1 r :
  m g = Ok (a, g1) → f a g1 = r → (x ← m; f x) g = r.
Proof. intros H <-. by apply st_bind_eq. Qed.

Lemma wait_list_put l w g : wait_list (put_lists (<[l := w]> (lists g)) g) l = w.
Proof. unfold wait_list. cbn. by rewrite lookup_insert_eq. Qed.

Lemma waiting_pushback_Ok g l i t :
  wf g → slot g i = Some t → i ≠ 0 → i ∉ wait_list g l →
  ∃ g', waiting_pushback l i g = Ok ((), g') ∧ wf g' ∧ slot g' i = Some (set_on_list (Some l) t) ∧
    wait_list g' l = wait_list g l ++ [i] ∧ current g' = current g ∧ interrupts g' = interrupts g.
Proof.
  intros W Ht Hi Hn. unfold waiting_pushback. rewrite bool_decide_eq_false_2 by done.
  set (g0 := put_lists _ g).
  destruct (upd_step g0 i t (set_on_list (Some l))) as (E & W' & Hs & _); try done.
  { by apply wf_put_lists. }
  destruct (with_other g0 i (set_on_list (Some l))) as (Ec & El & _ & _ & Ei & _).
  eexists. split_and!; [exact E|done..| |done|done].
  unfold wait_list at 1. rewrite El. apply wait_list_put.
Qed.

Lemma waiting_pop_Ok g l i w t :
  wf g → wait_list g l = i :: w → slot g i = Some t → i ≠ 0 →
  ∃ g', waiting_pop l g = Ok (i, g') ∧ wf g' ∧ slot g' i = Some (set_on_list None t) ∧
    wait_list g' l = w ∧ current g' = current g ∧ interrupts g' = interrupts g.
Proof.
  intros W Hw Ht Hi. unfold waiting_pop. rewrite Hw. set (g0 := put_lists _ g).
  destruct (upd_step g0 i t (set_on_list None)) as (E & W' & Hs & _); try done.
  { by apply wf_put_lists. }
  destruct (with_other g0 i (set_on_list None)) as (Ec & El & _ & _ & Ei & _).
  eexists. split_and!; [eapply bind_Ok; [exact E|reflexivity]|done..| |done|done].
  unfold wait_list at 1. rewrite El. apply wait_list_put.
Qed.

(** [task_block] and [task_unblock] one by one. *)
Lemma task_block_Ok g l i t s :
  wf g → current g = i → slot g i = Some t → i ≠ 0 → s ≠ TASK_RUNNING → s ≠ TASK_READY →
  i ∉ wait_list g l →
  ∃ g', task_block i (Some l) s g = Ok (interrupts g, g') ∧ wf g' ∧ current g' ≠ i ∧
    wait_list g' l = wait_list g l ++ [i] ∧ slot g' i = Some (set_state s (set_on_list (Some l) t)).
Proof.
  intros W Hc Ht Hi Hs1 Hs2 Hn.
  destruct (waiting_pushback_Ok (put_interrupts false g) l i t) as (g1 & E1 & W1 & H1 & Hl1 & Hc1 & _);
    [by apply wf_put_interrupts|done..|].
  destruct (upd_step g1 i _ (set_state s) W1 H1 Hi) as (E2 & W2 & H2 & _); [done..|].
  destruct (with_other g1 i (set_state s)) as (Hc2 & Hl2 & _). set (g2 := with_task g1 i (set_state s)) in *.
  destruct (schedule_Ok g2 W2) as [E3 W3]. destruct (switched_other (next g2) g2) as (Hc3 & Hl3 & _).
  assert (Hne : next g2 ≠ i) by (by eapply next_not).
  exists (switched (next g2) g2). split_and!; try done; [|congruence|..].
  - unfold task_block. rewrite (st_bind_eq _ _ g g g) by done. cbn beta iota.
    rewrite (st_bind_eq _ _ g (interrupts g) (put_interrupts false g)) by done.
    rewrite (st_bind_eq _ _ _ _ _ E1), (st_bind_eq _ _ _ _ _ E2). rewrite Hc, Z.eqb_refl.
    by rewrite (st_bind_eq _ _ _ _ _ E3).
  - unfold wait_list at 1. rewrite Hl3, Hl2. exact Hl1.
  - destruct (next_exists g2 W2) as (tn & Htn & _).
    rewrite switched_slot, H2 by (done || by eexists). cbn. f_equal. unfold switched_task.
    repeat case_decide; try done; destruct_and?; done.
Qed.

Lemma task_unblock_Ok g l i w t :
  wf g → wait_list g l = i :: w → slot g i = Some t → i ≠ 0 → i ≠ current g →
  ∃ g' t', task_unblock l g = Ok (interrupts g, g') ∧ wf g' ∧ wait_list g' l = w ∧
    slot g' i = Some t' ∧ (state t' = TASK_READY ∨ current g' = i) ∧ on_list t' = None.
Proof.
  intros W Hw Ht Hi Hc.
  destruct (waiting_pop_Ok (put_interrupts false g) l i w t) as (g1 & E1 & W1 & H1 & Hl1 & Hc1 & _);
    [by apply wf_put_interrupts|done..|].
  destruct (upd_step g1 i _ (set_state TASK_READY) W1 H1 Hi) as (E2 & W2 & H2 & _); [done..|].
  destruct (with_other g1 i (set_state TASK_READY)) as (Hc2 & Hl2 & _).
  set (g2 := with_task g1 i (set_state TASK_READY)) in *.
  destruct (schedule_Ok g2 W2) as [E3 W3]. destruct (switched_other (next g2) g2) as (Hc3 & Hl3 & _).
  destruct (next_exists g2 W2) as (tn & Htn & _).
  assert (Hs : slot (switched (next g2) g2) i = Some (switched_task (next g2) g2 i (set_state TASK_READY (set_on_list None t)))).
  { by rewrite switched_slot, H2 by (done || by eexists). }
  eexists _, _. split_and!; [|exact W3| |exact Hs|..].
  - unfold task_unblock. rewrite (st_bind_eq _ _ g (interrupts g) (put_interrupts false g)) by done.
    rewrite (st_bind_eq _ _ (put_interrupts false g) (put_interrupts false g) (put_interrupts false g)) by done.
    rewrite bool_decide_eq_false_2 by (change (wait_list g l ≠ []); by rewrite Hw).
    eapply bind_Ok; [|reflexivity].
    rewrite (st_bind_eq _ _ _ _ _ E1), (st_bind_eq _ _ _ _ _ E2). exact E3.
  - unfold wait_list. rewrite Hl3, Hl2. exact Hl1.
  - rewrite Hc3. by apply switched_ready.
  - by rewrite (proj2 (switched_static _ _ _ _)).
Qed.

(** Waiting lists are first in, first out: [task_block] puts the current task at the
    end of the list, marks it and switches to another task, on a well-formed table;
    [task_unblock] makes the first task of the list ready - so that [schedule] can choose
    it - and removes it, and does nothing on an empty list. *)
Theorem block_unblock_fifo g l i t s :
  wf g →
  (current g = i → slot g i = Some t → i ≠ 0 → s ≠ TASK_RUNNING → s ≠ TASK_READY → i ∉ wait_list g l →
     ∃ g', task_block i (Some l) s g = Ok (interrupts g, g') ∧ wf g' ∧ current g' ≠ i ∧
       wait_list g' l = wait_list g l ++ [i] ∧ slot g' i = Some (set_state s (set_on_list (Some l) t))) ∧
  (∀ w, wait_list g l = i :: w → slot g i = Some t → i ≠ 0 → i ≠ current g →
     ∃ g' t', task_unblock l g = Ok (interrupts g, g') ∧ wf g' ∧ wait_list g' l = w ∧
       slot g' i = Some t' ∧ (state t' = TASK_READY ∨ current g' = i) ∧ on_list t' = None) ∧
  (wait_list g l = [] → task_unblock l g = Ok (interrupts g, put_interrupts false g)).
Proof.
  intros W. split_and!.
  - intros. by apply task_block_Ok.
  - intros. by eapply task_unblock_Ok.
  - intros Hw. unfold task_unblock. rewrite (st_bind_eq _ _ g (interrupts g) (put_interrupts false g)) by done.
    rewrite (st_bind_eq _ _ (put_interrupts false g) (put_interrupts false g) (put_interrupts false g)) by done.
    by rewrite bool_decide_eq_true_2 by (change (wait_list g l = []); done).
Qed.

(** The running task of [demo] blocks on list 7. *)
Lemma block_unblock_fifo_witness :
  ∃ g', task_block 2 (Some 7) TASK_BLOCKED demo = Ok (false, g') ∧ wf g' ∧ current g' ≠ 2 ∧
    wait_list g' 7 = [] ++ [2] ∧
    slot g' 2 = Some (set_state TASK_BLOCKED (set_on_list (Some 7) (demo_task 2 TASK_RUNNING 1 1000))).
Proof.
  exact (proj1 (block_unblock_fifo demo 7 2 (demo_task 2 TASK_RUNNING 1 1000) TASK_BLOCKED demo_wf)
    eq_refl eq_refl ltac:(done) ltac:(done) ltac:(done) (not_elem_of_nil 2)).
Defined.
