(* ===== verification/Timer.v ===== *)
(** * Timers and the clock (src/kernel/timer.c, src/kernel/clock.c, sys_sleep of task.c)

    The list of timers is what the doubly linked list of DList stands for, in list order;
    [list_insert_sort] compares the expiry times as [int].  A timer is named by its
    position in the list. *)

From S2P Require Import Prelude DList Task.

Definition HZ : Z := 100.
Definition OSCILLATOR : Z := 1193182.
Definition CLOCK_COUNTER : Z := OSCILLATOR / HZ.
Definition JIFFY : Z := 1000 / HZ.
Definition jiffy : Z := JIFFY.
Definition BEEP_HZ : Z := 440.
Definition BEEP_COUNTER : Z := OSCILLATOR / BEEP_HZ.
Definition BEEP_LAST_MS : Z := 100.
Definition IRQ_CLOCK_VECTOR : Z := 0x20.
Definition PIT_CHAN0_REG : Z := 0x40.
Definition PIT_CHAN2_REG : Z := 0x42.
Definition PIT_CTRL_REG : Z := 0x43.

(** ** timer.c *)

Definition timer_expire_jiffies (expire_ms : Z) : K Z :=
  g ← get_st; mret (s32 (jiffies g + expire_ms / jiffy)).

Definition timer_is_expires (e : Z) : K bool :=
  g ← get_st; mret (e <? jiffies g).

(** [list_insert_sort] on the field [expires], read as an [int]. *)
Definition timer_key (t : timer_t) : Z := s32 (expires t).
Definition timer_insert (t : timer_t) : K unit :=
  modify_st (λ g, put_timers (AList.insert_sort timer_key t (timers g)) g).

Definition timer_add (expire_ms : Z) (h : timer_handler) (arg : Z) : K unit :=
  g ← get_st;
  e ← timer_expire_jiffies expire_ms;
  timer_insert (Timer (current g) (u32 e) h arg false).

(** [list_remove] and [kfree] of the timer at position [k]. *)
Definition timer_put (k : nat) : K unit :=
  modify_st (λ g, put_timers (delete k (timers g)) g).

Definition timer_update (k : nat) (expire_ms : Z) : K unit :=
  g ← get_st;
  match timers g !! k with
  | None => stop_st OutOfBounds
  | Some t =>
      timer_put k;;
      timer_insert (Timer (timer_task t) (u32 (jiffies g + expire_ms / jiffy))
                      (timer_action t) (timer_arg t) (active t))
  end.

Definition timer_expires : K Z :=
  g ← get_st;
  mret (match timers g with [] => EOFu | t :: _ => expires t end).

Fixpoint remove_loop (i : Z) (l : list timer_t) : list timer_t :=
  match l with
  | [] => []
  | t :: l => if timer_task t =? i then remove_loop i l else t :: remove_loop i l
  end.
Definition timer_remove (i : Z) : K unit :=
  modify_st (λ g, put_timers (remove_loop i (timers g)) g).

Definition default_timeout (t : timer_t) : K unit :=
  c ← get_task_at (timer_task t);
  sassert (bool_decide (is_Some (on_list c)));;
  task_intr_unblock_no_waiting_list (timer_task t).

(** [task_wakeup] of task.c. *)
Definition task_wakeup (t : timer_t) : K unit :=
  g ← get_st;
  sassert (negb (interrupts g));;
  upd_task (timer_task t) (λ c, set_ticks (priority c) c);;
  upd_task (timer_task t) (set_state TASK_READY).

(** [stop_beep] of clock.c. *)
Definition stop_beep : K unit :=
  g ← get_st;
  if beeping g then modify_st (put_beeping false);; emit SpeakerOff else mret ().

Definition run_handler (t : timer_t) : K unit :=
  match timer_action t with
  | TaskWakeup => task_wakeup t
  | StopBeep => stop_beep
  | DefaultTimeout => default_timeout t
  end.

(** The list sentinel is not a timer: with an empty list and [jiffies] equal to [EOF]
    the loop runs into it. *)
Fixpoint wakeup_loop (fuel : nat) : K unit :=
  match fuel with
  | O => stop_st NoFuel
  | S fuel =>
      g ← get_st;
      e ← timer_expires;
      if e <=? jiffies g then
        match timers g with
        | [] => stop_st OutOfBounds
        | t :: rest =>
            let t := Timer (timer_task t) (expires t) (timer_action t) (timer_arg t) true in
            modify_st (put_timers (t :: rest));;
            sassert (expires t <=? jiffies g);;
            run_handler t;;
            timer_put 0;;
            wakeup_loop fuel
        end
      else mret ()
  end.

Definition timer_wakeup : K unit := λ g, wakeup_loop (S (length (timers g))) g.

Definition timer_init : K unit := modify_st (put_timers []).

(** ** clock.c *)

Definition start_beep : K unit :=
  g ← get_st;
  if beeping g then mret ()
  else
    modify_st (put_beeping true);;
    emit SpeakerOn;;
    timer_add BEEP_LAST_MS StopBeep 0.

Definition clock_handler (vector : Z) : K unit :=
  sassert (vector =? IRQ_CLOCK_VECTOR);;
  modify_st (λ g, put_jiffies (u32 (jiffies g + 1)) g);;
  timer_wakeup;;
  g ← get_st;
  upd_task (current g) (set_tjiffies (jiffies g));;
  upd_task (current g) (λ c, set_ticks (u32 (ticks c - 1)) c);;
  emit (SendEoi vector);;
  c ← get_current;
  if ticks c <=? 0 then
    upd_task (current g) (λ c, set_ticks (priority c) c);;
    schedule
  else mret ().

Definition sys_time (startup_time : Z) : K Z :=
  g ← get_st; mret (u32 (startup_time + u32 (jiffies g * JIFFY) / 1000)).

Definition pit_init : K unit :=
  emit (OutB PIT_CTRL_REG 0x34);;
  emit (OutB PIT_CHAN0_REG (Z.land CLOCK_COUNTER 0xff));;
  emit (OutB PIT_CHAN0_REG (Z.land (Z.shiftr CLOCK_COUNTER 8) 0xff));;
  emit (OutB PIT_CTRL_REG 0xb6);;
  emit (OutB PIT_CHAN2_REG (u8 BEEP_COUNTER));;
  emit (OutB PIT_CHAN2_REG (u8 (Z.shiftr BEEP_COUNTER 8))).

(** ** task.c: sleeping *)

Definition sys_sleep (ms : Z) : K unit :=
  g ← get_st;
  sassert (negb (interrupts g));;
  c ← get_current;
  sassert (bool_decide (on_list c = None));;
  timer_add ms TaskWakeup 0;;
  upd_task (current g) (set_state TASK_SLEEPING);;
  schedule.

(** ** The invariant of the timer list *)

(** Every timer is one the kernel sets ([sys_sleep], [start_beep]), for a task that
    exists and is not idle; the list is sorted; no time has reached 2^31 yet, where the
    comparison as [int] and the comparison as [u32] part. *)
Definition timer_ok (g : sys) (t : timer_t) : Prop :=
  timer_action t ≠ DefaultTimeout ∧ is_Some (slot g (timer_task t)) ∧ timer_task t ≠ 0 ∧
  0 <= expires t < 2147483648.

Record timers_ok (g : sys) : Prop := {
  ok_timers : Forall (timer_ok g) (timers g);
  ok_sorted : Sorted (λ a b, expires a <= expires b) (timers g);
  ok_jiffies : 0 <= jiffies g < 2147483648;
  ok_interrupts : interrupts g = false
}.

(** The timers that have expired at time [j], and those that have not. *)
Definition expired (j : Z) (l : list timer_t) : list timer_t := filter (λ t, expires t <= j) l.
Definition pending (j : Z) (l : list timer_t) : list timer_t := filter (λ t, j < expires t) l.

Definition wakes (i : Z) (t : timer_t) : bool :=
  (timer_task t =? i) && match timer_action t with TaskWakeup => true | _ => false end.
Definition stops_beep (t : timer_t) : bool :=
  match timer_action t with StopBeep => true | _ => false end.

(** What the expiry of the timers [l] does to the task in slot [i]. *)
Definition wake (l : list timer_t) (i : Z) (t : task_t) : task_t :=
  if existsb (wakes i) l then set_state TASK_READY (set_ticks (priority t) t) else t.

(** What it does to the whole machine, the timer list apart. *)
Record woken (l : list timer_t) (g g' : sys) : Prop := {
  wk_slot : ∀ i, slot g' i = wake l i <$> slot g i;
  wk_len : length (task_list g') = length (task_list g);
  wk_current : current g' = current g;
  wk_lists : lists g' = lists g;
  wk_jiffies : jiffies g' = jiffies g;
  wk_interrupts : interrupts g' = interrupts g;
  wk_beeping : beeping g' = beeping g && negb (existsb stops_beep l);
  wk_calls : calls g' = calls g ++ (if beeping g && existsb stops_beep l then [SpeakerOff] else []);
  wk_wf : wf g'
}.

Lemma wake_nil i t : wake [] i t = t.
Proof. done. Qed.

Lemma wake_cons a l i t : wake l i (wake [a] i t) = wake (a :: l) i t.
Proof.
  unfold wake. cbn [existsb]. destruct (wakes i a); cbn; [|done].
  by destruct (existsb (wakes i) l).
Qed.

Lemma woken_nil g : wf g → woken [] g g.
Proof.
  intros W. split; try done.
  - intros i. by destruct (slot g i).
  - cbn. by rewrite andb_true_r.
  - cbn. by rewrite andb_false_r, app_nil_r.
Qed.

Lemma woken_cons a l g g1 g2 : woken [a] g g1 → woken l g1 g2 → woken (a :: l) g g2.
Proof.
  intros [A1 A2 A3 A4 A5 A6 A7 A8 A9] [B1 B2 B3 B4 B5 B6 B7 B8 B9]. split; try congruence.
  - intros i. rewrite B1, A1. destruct (slot g i) as [t|]; [|done]. cbn. by rewrite wake_cons.
  - rewrite B7, A7. cbn [existsb]. by destruct (beeping g), (stops_beep a), (existsb stops_beep l).
  - rewrite B8, A8, A7, <- app_assoc. f_equal. cbn [existsb].
    by destruct (beeping g), (stops_beep a), (existsb stops_beep l).
Qed.

Lemma woken_put_timers l ts g g' : woken l g g' → woken l g (put_timers ts g').
Proof. intros [A1 A2 A3 A4 A5 A6 A7 A8 A9]. split; try done. by apply (wf_globals g'). Qed.

Lemma woken_from_timers l ts g g' : woken l (put_timers ts g) g' → woken l g g'.
Proof. intros [A1 A2 A3 A4 A5 A6 A7 A8 A9]. by split. Qed.

(** One handler. *)
Lemma run_handler_Ok g t :
  wf g → interrupts g = false → timer_action t ≠ DefaultTimeout →
  is_Some (slot g (timer_task t)) → timer_task t ≠ 0 →
  ∃ g', run_handler t g = Ok ((), g') ∧ woken [t] g g' ∧ timers g' = timers g.
Proof.
  intros W Hi Ha [c Hc] H0. unfold run_handler. destruct (timer_action t) eqn:Ea; [| |done].
  - set (i := timer_task t) in *. set (f := λ c, set_ticks (priority c) c).
    destruct (wf_pid _ W i c Hc) as (_ & Hk & Hp).
    assert (W1 : wf (with_task g i f)).
    { eapply upd_wf; try done. intros. by eapply wf_running. }
    assert (H1 : ∀ j, slot (with_task g i f) j = if decide (j = i) then f <$> slot g i else slot g j).
    { intros j. apply slot_with; [apply W|by eexists]. }
    assert (H1i : slot (with_task g i f) i = Some (f c)) by (by rewrite H1, decide_True, Hc).
    assert (W2 : wf (with_task (with_task g i f) i (set_state TASK_READY))) by (by eapply upd_wf).
    exists (with_task (with_task g i f) i (set_state TASK_READY)). split_and!.
    + unfold task_wakeup. rewrite (st_bind_eq _ _ g g g) by done. cbn beta. rewrite Hi. cbn [negb].
      rewrite (st_bind_eq _ _ g () g) by done. fold f.
      rewrite (st_bind_eq _ _ _ _ _ (upd_task_Ok g i f ltac:(by eexists))).
      apply upd_task_Ok. by eexists.
    + destruct (with_other g i f) as (? & ? & ? & ? & ? & ? & ? & ? & ?).
      destruct (with_other (with_task g i f) i (set_state TASK_READY)) as (? & ? & ? & ? & ? & ? & ? & ? & ?).
      split; try congruence; [| |cbn [existsb]..].
      * intros j. rewrite slot_with by (rewrite ?with_len; apply W || by eexists). rewrite H1i, H1.
        unfold wake. cbn [existsb]. unfold wakes. rewrite Ea, orb_false_r, andb_true_r. fold i.
        case_decide as Hj.
        -- subst j. rewrite Hc, Z.eqb_refl. done.
        -- destruct (Z.eqb_spec i j); [congruence|]. by destruct (slot g j).
      * by rewrite !with_len.
      * unfold stops_beep. rewrite Ea. cbn. rewrite andb_true_r. congruence.
      * unfold stops_beep. rewrite Ea. cbn. rewrite andb_false_r, app_nil_r. congruence.
    + destruct (with_other g i f) as (_ & _ & ? & _).
      destruct (with_other (with_task g i f) i (set_state TASK_READY)) as (_ & _ & ? & _). congruence.
  - assert (Hw : ∀ i c, wake [t] i c = c).
    { intros i c'. unfold wake. cbn. unfold wakes. by rewrite Ea, andb_false_r. }
    unfold stop_beep. rewrite (st_bind_eq _ _ g g g) by done. cbn beta.
    destruct (beeping g) eqn:Eb.
    + eexists. split_and!; [reflexivity| |done]. split; try done.
      * intros i. cbn. change (slot _ i) with (slot g i). destruct (slot g i); cbn; by rewrite ?Hw.
      * cbn. unfold stops_beep. by rewrite Ea, Eb.
      * cbn. unfold stops_beep. by rewrite Ea, Eb.
      * by apply (wf_globals g).
    + exists g. split_and!; [reflexivity| |done]. split; try done.
      * intros i. destruct (slot g i); cbn; by rewrite ?Hw.
      * by rewrite Eb.
      * rewrite Eb. cbn. by rewrite app_nil_r.
Qed.

Lemma expired_none j l : Forall (λ x, j < expires x) l → expired j l = [].
Proof.
  induction 1 as [|x l Hx _ IH]; [done|]. unfold expired. rewrite filter_cons_False by lia. exact IH.
Qed.

(** A sorted list splits at the time [j]. *)
Lemma expired_sorted_cons j t l :
  Sorted (λ a b, expires a <= expires b) (t :: l) → j < expires t →
  expired j (t :: l) = [] ∧ pending j (t :: l) = t :: l.
Proof.
  intros Hs Ht. apply Sorted_StronglySorted in Hs; [|intros ?; lia].
  apply StronglySorted_inv in Hs as [_ Hall].
  assert (H : Forall (λ x, j < expires x) (t :: l)).
  { constructor; [done|]. eapply Forall_impl; [exact Hall|]. cbn. intros x Hx. cbn in *. lia. }
  split.
  - by apply expired_none.
  - unfold pending. clear -H. induction H as [|x xs Hx _ IH]; [done|].
    rewrite filter_cons_True by done. by rewrite IH.
Qed.

Lemma timer_ok_woken l g g' t : woken l g g' → timer_ok g t → timer_ok g' t.
Proof.
  intros Hw (H1 & H2 & H34). split; [done|]. split; [|done]. rewrite (wk_slot _ _ _ Hw).
  by apply fmap_is_Some.
Qed.

Lemma wakeup_loop_Ok fuel g :
  wf g → timers_ok g → (length (timers g) < fuel)%nat →
  ∃ g', wakeup_loop fuel g = Ok ((), g') ∧ woken (expired (jiffies g) (timers g)) g g' ∧
    timers g' = pending (jiffies g) (timers g).
Proof.
  revert g. induction fuel as [|fuel IH]; intros g W T Hf; [lia|]. cbn [wakeup_loop].
  rewrite (st_bind_eq _ _ g g g) by done. cbn beta.
  assert (Ee : ∀ v, v = match timers g with [] => EOFu | t :: _ => expires t end → timer_expires g = Ok (v, g))
    by (intros v ->; done).
  rewrite (st_bind_eq _ _ _ _ _ (Ee _ eq_refl)). cbn beta.
  destruct T as [T1 T2 T3 T4]. destruct (timers g) as [|t rest] eqn:Et.
  { destruct (Z.leb_spec EOFu (jiffies g)); [unfold EOFu in *; lia|].
    exists g. split_and!; [done|by apply woken_nil|done]. }
  destruct (Z.leb_spec (expires t) (jiffies g)) as [Hle|Hgt].
  2:{ destruct (expired_sorted_cons (jiffies g) t rest T2 Hgt) as [-> ->].
      exists g. split_and!; [done|by apply woken_nil|done]. }
  apply Forall_cons in T1 as [(Ha & Hs & H0 & Hr) T1].
  set (t' := Timer _ _ _ _ true). set (g0 := put_timers (t' :: rest) g).
  assert (W0 : wf g0) by by apply (wf_globals g).
  destruct (run_handler_Ok g0 t' W0 T4 Ha Hs H0) as (g1 & E1 & Hw1 & Et1).
  assert (Hok : timers_ok (put_timers rest g1)).
  { split; cbn.
    - eapply Forall_impl; [exact T1|]. intros x Hx. apply (timer_ok_woken [t'] g0); [|done]. by apply woken_put_timers.
    - apply Sorted_inv in T2. apply T2.
    - rewrite (wk_jiffies _ _ _ Hw1). exact T3.
    - rewrite (wk_interrupts _ _ _ Hw1). exact T4. }
  destruct (IH (put_timers rest g1)) as (g' & E' & Hw' & Et'); [|done|cbn in *; lia|].
  { apply (wf_globals g1); [done..|apply Hw1]. }
  cbn [timers put_timers] in Hw', Et'. change (jiffies (put_timers rest g1)) with (jiffies g1) in Hw', Et'.
  rewrite (wk_jiffies _ _ _ Hw1) in Hw', Et'. change (jiffies g0) with (jiffies g) in Hw', Et'.
  exists g'. split_and!.
  - rewrite (st_bind_eq _ _ g () g0) by done. cbn beta. unfold sassert at 1.
    rewrite (st_bind_eq _ _ g0 () g0) by (cbn; destruct (Z.leb_spec (expires t) (jiffies g)); [done|lia]).
    rewrite (st_bind_eq _ _ _ _ _ E1). rewrite (st_bind_eq _ _ g1 () (put_timers rest g1)); [exact E'|].
    unfold timer_put, modify_st. by rewrite Et1.
  - unfold expired. rewrite filter_cons_True by done.
    apply (woken_cons t _ g g1).
    + apply (woken_from_timers [t] (t' :: rest)). destruct Hw1. by split.
    + by apply (woken_from_timers _ rest g1).
  - rewrite Et'. unfold pending. rewrite filter_cons_False by lia. done.
Qed.

Lemma pending_sorted j l :
  Sorted (λ a b, expires a <= expires b) l → Sorted (λ a b, expires a <= expires b) (pending j l).
Proof.
  intros H. apply StronglySorted_Sorted. apply Sorted_StronglySorted in H; [|intros ?; lia].
  induction H as [|x l Hl IH Hall]; [constructor|]. unfold pending.
  rewrite filter_cons. case_decide; [|exact IH]. constructor; [exact IH|].
  rewrite Forall_forall in Hall |- *. intros y [_ Hy]%list_elem_of_filter. by apply Hall.
Qed.

Lemma timer_wakeup_runs g :
  wf g → timers_ok g →
  ∃ g', timer_wakeup g = Ok ((), g') ∧ woken (expired (jiffies g) (timers g)) g g' ∧
    timers g' = pending (jiffies g) (timers g) ∧ timers_ok g'.
Proof.
  intros W T. destruct (wakeup_loop_Ok (S (length (timers g))) g W T ltac:(lia)) as (g' & E & Hw & Et).
  exists g'. split_and!; [exact E|done|done|]. destruct T as [T1 T2 T3 T4]. split.
  - rewrite Et. apply Forall_forall. intros x [_ Hx]%list_elem_of_filter.
    rewrite Forall_forall in T1. eapply timer_ok_woken; eauto.
  - rewrite Et. by apply pending_sorted.
  - by rewrite (wk_jiffies _ _ _ Hw).
  - by rewrite (wk_interrupts _ _ _ Hw).
Qed.

(** The timer interrupt's work: from a sound timer list [timer_wakeup] always returns,
    having run exactly the handlers of the timers that have expired - their tasks are ready
    with a full time slice, the beep is off if its timer was among them - and the timers
    that remain are exactly the pending ones, in order; no other task changes. *)
Theorem timer_wakeup_fires_expired g :
  wf g → timers_ok g →
  ∃ g', timer_wakeup g = Ok ((), g') ∧ woken (expired (jiffies g) (timers g)) g g' ∧
    timers g' = pending (jiffies g) (timers g) ∧ timers_ok g'.
Proof. apply timer_wakeup_runs. Qed.

(** ** The clock interrupt *)

(** Two updates of one task are one. *)
Lemma with_with g i f h :
  length (task_list g) = 64%nat → is_Some (slot g i) →
  with_task (with_task g i f) i h = with_task g i (λ t, h (f t)).
Proof.
  intros Hl [t Ht]. unfold with_task at 1. rewrite slot_with, decide_True, Ht by (done || by eexists).
  cbn. unfold with_task. rewrite Ht. unfold set_slot, put_task_list. cbn. by rewrite list_insert_insert_eq.
Qed.

Lemma with_ext g i t f h : slot g i = Some t → f t = h t → with_task g i f = with_task g i h.
Proof. intros Ht E. unfold with_task. by rewrite Ht, E. Qed.

Lemma with_put_calls cs g i f : with_task (put_calls cs g) i f = put_calls cs (with_task g i f).
Proof. unfold with_task. change (slot (put_calls cs g) i) with (slot g i). by destruct (slot g i). Qed.

(** What an interrupt takes from the running task's time slice. *)
Definition tick (j : Z) (c : task_t) : task_t := set_ticks (u32 (ticks c - 1)) (set_tjiffies j c).
Definition sliced (j : Z) (c : task_t) : task_t :=
  if ticks (tick j c) <=? 0 then set_ticks (priority c) (tick j c) else tick j c.

Lemma tick_ticks j c : 0 < ticks c < 4294967296 → ticks (tick j c) = ticks c - 1.
Proof. intros. cbn. apply u32_small. lia. Qed.

Lemma wake_wf g l i c :
  wf g → slot g i = Some c →
  pid (wake l i c) = i ∧ 0 < ticks (wake l i c) < 4294967296 ∧ priority (wake l i c) = priority c.
Proof.
  intros W Hc. destruct (wf_pid _ W i c Hc) as (? & ? & ?). unfold wake. by destruct (existsb _ _).
Qed.

(** [clock_handler] up to the point where it may give up the processor. *)
Lemma clock_handler_runs g c :
  wf g → timers_ok g → jiffies g + 1 < 2147483648 → slot g (current g) = Some c →
  let j := jiffies g + 1 in
  let F := expired j (timers g) in
  let c1 := wake F (current g) c in
  ∃ g2, clock_handler IRQ_CLOCK_VECTOR g = (if ticks c1 =? 1 then schedule g2 else Ok ((), g2)) ∧
    wf g2 ∧ current g2 = current g ∧ jiffies g2 = j ∧ timers g2 = pending j (timers g) ∧ interrupts g2 = false ∧
    ∀ i, slot g2 i = (λ t, if decide (i = current g) then sliced j (wake F i t) else wake F i t) <$> slot g i.
Proof.
  intros W T Hj Hc j F c1. destruct T as [T1 T2 T3 T4].
  set (g0 := put_jiffies j g).
  assert (W0 : wf g0) by by apply (wf_globals g).
  destruct (timer_wakeup_runs g0) as (g1 & E1 & Hw & Et & _); [done|split; [exact T1|exact T2|cbn; unfold j; lia|exact T4]|].
  change (jiffies g0) with j in Hw, Et. change (timers g0) with (timers g) in Hw, Et. fold F in Hw.
  assert (Hl1 : length (task_list g1) = 64%nat) by (apply (wk_wf _ _ _ Hw)).
  assert (Hc1 : slot g1 (current g) = Some c1).
  { rewrite (wk_slot _ _ _ Hw). change (slot g0 (current g)) with (slot g (current g)). by rewrite Hc. }
  pose proof (wk_current _ _ _ Hw) as Ec1. change (current g0) with (current g) in Ec1.
  pose proof (wk_jiffies _ _ _ Hw) as Ej1. change (jiffies g0) with j in Ej1.
  destruct (wake_wf g F (current g) c W Hc) as (Hp & Hk & Hpr). fold c1 in Hp, Hk, Hpr.
  set (g2 := put_calls (calls g1 ++ [SendEoi IRQ_CLOCK_VECTOR]) (with_task g1 (current g) (sliced j))).
  assert (Hs2 : ∀ i, slot g2 i = if decide (i = current g) then Some (sliced j c1) else slot g1 i).
  { intros i. change (slot g2 i) with (slot (with_task g1 (current g) (sliced j)) i).
    rewrite slot_with by (done || by eexists). by rewrite Hc1. }
  assert (Hstate : state (sliced j c1) = state c1 ∧ pid (sliced j c1) = pid c1 ∧ priority (sliced j c1) = priority c1)
    by (unfold sliced; by destruct (_ <=? _)).
  assert (W2 : wf g2).
  { apply (wf_globals (with_task g1 (current g) (sliced j))); [done..|].
    apply (upd_wf_any g1 (current g) c1); [apply Hw|done|intros _; apply Hstate|apply Hstate| |apply Hstate|].
    - unfold sliced. destruct (Z.leb_spec (ticks (tick j c1)) 0) as [|Hlt]; [|rewrite tick_ticks in * by done; lia].
      cbn. destruct (wf_pid _ W _ _ Hc) as (_ & _ & ?). rewrite Hpr. done.
    - rewrite (proj1 Hstate). intros H. by apply (wf_running _ (wk_wf _ _ _ Hw) _ _ Hc1). }
  exists g2. split; [|split_and!; try done].
  - unfold clock_handler. rewrite (st_bind_eq _ _ g () g) by done.
    rewrite (st_bind_eq _ _ g () g0) by (unfold modify_st, g0, j; by rewrite u32_small by lia).
    rewrite (st_bind_eq _ _ _ _ _ E1), (st_bind_eq _ _ g1 g1 g1) by done. cbn beta. rewrite Ec1, Ej1.
    rewrite (st_bind_eq _ _ _ _ _ (upd_task_Ok g1 (current g) (set_tjiffies j) ltac:(by eexists))).
    set (dec := λ c : task_t, set_ticks (u32 (ticks c - 1)) c).
    assert (Hs3 : is_Some (slot (with_task g1 (current g) (set_tjiffies j)) (current g)))
      by (rewrite slot_with, decide_True, Hc1 by (done || by eexists); by eexists).
    rewrite (st_bind_eq _ _ _ _ _ (upd_task_Ok _ (current g) dec Hs3)).
    rewrite with_with by (done || by eexists). change (λ t, dec (set_tjiffies j t)) with (tick j).
    set (g3 := put_calls (calls g1 ++ [SendEoi IRQ_CLOCK_VECTOR]) (with_task g1 (current g) (tick j))).
    rewrite (st_bind_eq _ _ _ () g3).
    2:{ unfold emit, modify_st, g3. do 3 f_equal. by destruct (with_other g1 (current g) (tick j)) as (_&_&_&_&_&_&_&_&->). }
    assert (Hg3 : slot g3 (current g) = Some (tick j c1)).
    { change (slot g3 (current g)) with (slot (with_task g1 (current g) (tick j)) (current g)).
      by rewrite slot_with, decide_True, Hc1 by (done || by eexists). }
    assert (Ecur3 : current g3 = current g).
    { change (current (with_task g1 (current g) (tick j)) = current g).
      by destruct (with_other g1 (current g) (tick j)) as (->&_). }
    rewrite (st_bind_eq _ _ g3 (tick j c1) g3) by (unfold get_current, get_task_at; by rewrite Ecur3, Hg3).
    cbn beta. rewrite tick_ticks by done.
    destruct (Z.eqb_spec (ticks c1) 1) as [E|E], (Z.leb_spec (ticks c1 - 1) 0) as [E'|E']; try lia.
    + rewrite (st_bind_eq _ _ _ _ _ (upd_task_Ok g3 (current g) _ ltac:(by eexists))).
      f_equal. unfold g3, g2. rewrite with_put_calls. f_equal. rewrite with_with by (done || by eexists).
      apply (with_ext _ _ c1); [done|]. unfold sliced. rewrite tick_ticks by done.
      by destruct (Z.leb_spec (ticks c1 - 1) 0); [|lia].
    + unfold mret, st_ret. do 2 f_equal. unfold g3, g2. f_equal. apply (with_ext _ _ c1); [done|].
      unfold sliced. rewrite tick_ticks by done. by destruct (Z.leb_spec (ticks c1 - 1) 0); [lia|].
  - change (current (with_task g1 (current g) (sliced j)) = current g).
    destruct (with_other g1 (current g) (sliced j)) as (->&_). done.
  - change (jiffies (with_task g1 (current g) (sliced j)) = j).
    destruct (with_other g1 (current g) (sliced j)) as (_&_&_&->&_). done.
  - change (timers (with_task g1 (current g) (sliced j)) = pending j (timers g)).
    destruct (with_other g1 (current g) (sliced j)) as (_&_&->&_). done.
  - change (interrupts (with_task g1 (current g) (sliced j)) = false).
    destruct (with_other g1 (current g) (sliced j)) as (_&_&_&_&->&_). by rewrite (wk_interrupts _ _ _ Hw).
  - intros i. rewrite Hs2, (wk_slot _ _ _ Hw). change (slot g0 i) with (slot g i).
    case_decide as Hi; [|done]. subst i. by rewrite Hc.
Qed.

(** [timers_ok] speaks of which slots are taken, of the timers and of the clock only. *)
Lemma timers_ok_ext g g' :
  (∀ i, is_Some (slot g i) → is_Some (slot g' i)) → jiffies g' = jiffies g → interrupts g' = interrupts g →
  Forall (timer_ok g) (timers g') → Sorted (λ a b, expires a <= expires b) (timers g') →
  0 <= jiffies g < 2147483648 → interrupts g = false → timers_ok g'.
Proof.
  intros Hs Ej Ei HF HS Hj Hi. split; [|done|congruence..].
  eapply Forall_impl; [exact HF|]. intros t (? & ? & ?). split_and!; auto. all: tauto.
Qed.

Lemma schedule_ok g :
  wf g → timers_ok g →
  ∃ g', schedule g = Ok ((), g') ∧ g' = switched (next g) g ∧ wf g' ∧ timers_ok g' ∧
    jiffies g' = jiffies g ∧ timers g' = timers g ∧
    ∀ i, slot g' i = switched_task (next g) g i <$> slot g i.
Proof.
  intros W T. destruct (schedule_Ok g W) as [E W']. destruct (next_exists g W) as (t & Ht & _).
  assert (Hs : ∀ i, slot (switched (next g) g) i = switched_task (next g) g i <$> slot g i)
    by (intros; apply switched_slot; [done|by eexists]).
  destruct (switched_other (next g) g) as (_ & _ & Et & Ej & Ei & _).
  eexists. split_and!; [exact E|done..| |done|done|done]. destruct T.
  apply (timers_ok_ext g); try done; [|by rewrite Et..].
  intros i Hi. rewrite Hs. by apply fmap_is_Some.
Qed.

Lemma clock_handler_Ok g c :
  wf g → timers_ok g → jiffies g + 1 < 2147483648 → slot g (current g) = Some c →
  let j := jiffies g + 1 in
  let F := expired j (timers g) in
  ∃ g2 g', clock_handler IRQ_CLOCK_VECTOR g = Ok ((), g') ∧ wf g' ∧ timers_ok g' ∧ jiffies g' = j ∧
    timers g' = pending j (timers g) ∧ current g2 = current g ∧ wf g2 ∧
    (∀ i, slot g2 i = (λ t, if decide (i = current g) then sliced j (wake F i t) else wake F i t) <$> slot g i) ∧
    g' = if ticks (wake F (current g) c) =? 1 then switched (next g2) g2 else g2.
Proof.
  intros W T Hj Hc j F. destruct (clock_handler_runs g c W T Hj Hc) as (g2 & E & W2 & Ec & Ej & Et & Ei & Hs).
  fold j F in Hs, E, Et, Ej.
  assert (T2 : timers_ok g2).
  { destruct T as [T1 T2 T3 T4]. apply (timers_ok_ext (put_jiffies j g)); try done; cbn.
    - intros i Hi. change (is_Some (slot g i)) in Hi. rewrite Hs. by apply fmap_is_Some.
    - by rewrite Ei.
    - rewrite Et. apply Forall_forall. intros x [_ Hx]%list_elem_of_filter.
      rewrite Forall_forall in T1. by apply T1.
    - rewrite Et. by apply pending_sorted.
    - unfold j. lia. }
  rewrite E. destruct (ticks _ =? 1).
  - destruct (schedule_ok g2 W2 T2) as (g' & E' & -> & W' & T' & Ej' & Et' & Hs').
    exists g2, (switched (next g2) g2). split_and!; try done; congruence.
  - by exists g2, g2.
Qed.

(** The clock interrupt always returns on a sound machine.  It advances the clock,
    fires exactly the expired timers, and takes one tick from the running task: as long as
    ticks are left the task keeps the processor; with the last one it gets a new slice of
    [priority] ticks and [schedule] chooses.  The machine stays sound. *)
Theorem clock_interrupt g c :
  wf g → timers_ok g → jiffies g + 1 < 2147483648 → slot g (current g) = Some c →
  let j := jiffies g + 1 in
  let F := expired j (timers g) in
  ∃ g2 g', clock_handler IRQ_CLOCK_VECTOR g = Ok ((), g') ∧ wf g' ∧ timers_ok g' ∧ jiffies g' = j ∧
    timers g' = pending j (timers g) ∧ current g2 = current g ∧ wf g2 ∧
    (∀ i, slot g2 i = (λ t, if decide (i = current g) then sliced j (wake F i t) else wake F i t) <$> slot g i) ∧
    g' = if ticks (wake F (current g) c) =? 1 then switched (next g2) g2 else g2.
Proof. apply clock_handler_Ok. Qed.

(** ** Sleeping *)

Fixpoint clock_ticks (k : nat) : K unit :=
  match k with O => mret () | S k => clock_handler IRQ_CLOCK_VECTOR;; clock_ticks k end.

(** Task [i] has one reason to wake, at time [e]. *)
Definition sleeper (g : sys) (i e : Z) : Prop :=
  (∀ t, t ∈ timers g → wakes i t = true → expires t = e) ∧
  (∃ t, t ∈ timers g ∧ wakes i t = true) ∧ i ≠ current g ∧
  ∃ c, slot g i = Some c ∧ state c = TASK_SLEEPING.

Lemma existsb_expired i j l e :
  (∀ t, t ∈ l → wakes i t = true → expires t = e) → (∃ t, t ∈ l ∧ wakes i t = true) →
  existsb (wakes i) (expired j l) = (e <=? j).
Proof.
  intros Hall (t & Ht & Hw). destruct (Z.leb_spec e j) as [H|H].
  - apply existsb_exists. exists t. split; [|done]. apply list_elem_of_In, list_elem_of_filter.
    split; [|done]. by rewrite (Hall t).
  - apply not_true_is_false. intros (x & Hx & Hwx)%existsb_exists.
    apply list_elem_of_In, list_elem_of_filter in Hx as [Hx1 Hx2]. rewrite (Hall x) in Hx1 by done. lia.
Qed.

(** One interrupt: the sleeper goes on sleeping until its time, and then is ready or
    already runs. *)
Lemma sleeper_tick g i e :
  wf g → timers_ok g → jiffies g + 1 < 2147483648 → sleeper g i e →
  ∃ g', clock_handler IRQ_CLOCK_VECTOR g = Ok ((), g') ∧ wf g' ∧ timers_ok g' ∧ jiffies g' = jiffies g + 1 ∧
    if jiffies g + 1 <? e then sleeper g' i e
    else ∃ t, slot g' i = Some t ∧ (state t = TASK_READY ∨ (state t = TASK_RUNNING ∧ current g' = i)).
Proof.
  intros W T Hj (Hall & Hex & Hi & c & Hc & Hst). destruct (wf_cur _ W) as [cc Hcc].
  destruct (clock_handler_Ok g cc W T Hj Hcc) as (g2 & g' & E & W' & T' & Ej & Et & Ec2 & W2 & Hs2 & Eg').
  exists g'. split_and!; try done.
  assert (Hi2 : slot g2 i = Some (wake (expired (jiffies g + 1) (timers g)) i c)).
  { rewrite Hs2, Hc. cbn. by rewrite decide_False by done. }
  unfold wake in Hi2. rewrite (existsb_expired _ _ _ e Hall Hex) in Hi2.
  destruct (next_exists g2 W2) as (tn & Htn & _).
  destruct (Z.ltb_spec (jiffies g + 1) e), (Z.leb_spec e (jiffies g + 1)); try lia.
  - split; [|split; [|split]].
    + rewrite Et. intros t [_ Ht]%list_elem_of_filter. by apply Hall.
    + destruct Hex as (t & Ht & Hw). exists t. split; [|done]. rewrite Et. apply list_elem_of_filter.
      split; [|done]. by rewrite (Hall t).
    + subst g'. destruct (_ =? 1); [|congruence]. destruct (switched_other (next g2) g2) as (-> & _).
      intros En. symmetry in En. revert En. destruct (decide (i = 0)) as [->|].
      * (* idle does not sleep *) destruct (wf_idle _ W) as (t0 & Hidle & Hs0). exfalso.
        rewrite Hc in Hidle. injection Hidle as <-. destruct Hs0 as [|[? ?]]; congruence.
      * eapply next_not; try done. by rewrite Hst.
    + subst g'. destruct (_ =? 1); [|by exists c]. rewrite switched_slot by (done || by eexists).
      rewrite Hi2. eexists. split; [reflexivity|]. unfold switched_task. repeat case_decide; try done.
      * subst i. exfalso. destruct (decide (next g2 = 0)) as [E0|E0].
        -- destruct (wf_idle _ W) as (t0 & H0' & Hs0). rewrite E0 in Hc. rewrite Hc in H0'. injection H0' as <-.
           destruct Hs0 as [|[? ?]]; congruence.
        -- by eapply (next_not g2 (next g2) c); rewrite ?Hst.
      * destruct_and?. cbn. congruence.
  - subst g'. destruct (_ =? 1).
    + rewrite switched_slot by (done || by eexists). rewrite Hi2. eexists. split; [reflexivity|].
      destruct (switched_other (next g2) g2) as (-> & _). unfold switched_task. repeat case_decide; cbn; auto.
    + eexists. split; [exact Hi2|]. by left.
Qed.

Lemma ticks_reach k g i e :
  wf g → timers_ok g → 0 <= jiffies g → jiffies g + Z.of_nat k < 2147483648 → sleeper g i e →
  Z.of_nat k <= Z.max 1 (e - jiffies g) → (0 < k)%nat →
  ∃ g', clock_ticks k g = Ok ((), g') ∧ wf g' ∧ timers_ok g' ∧ jiffies g' = jiffies g + Z.of_nat k ∧
    if jiffies g + Z.of_nat k <? e then sleeper g' i e
    else ∃ t, slot g' i = Some t ∧ (state t = TASK_READY ∨ (state t = TASK_RUNNING ∧ current g' = i)).
Proof.
  revert g. induction k as [|k IH]; intros g W T Hj0 Hj Hs Hk Hpos; [lia|]. cbn [clock_ticks].
  destruct (sleeper_tick g i e W T ltac:(lia) Hs) as (g1 & E1 & W1 & T1 & Ej1 & H1).
  rewrite (st_bind_eq _ _ _ _ _ E1).
  destruct k as [|k].
  - exists g1. split_and!; done.
  - destruct (Z.ltb_spec (jiffies g + 1) e); [|lia].
    destruct (IH g1 W1 T1 ltac:(lia) ltac:(lia) H1 ltac:(lia) ltac:(lia)) as (g' & E' & W' & T' & Ej' & H').
    exists g'. split_and!; try done; [lia|]. rewrite Ej1 in H'.
    replace (jiffies g + Z.of_nat (S (S k))) with (jiffies g + 1 + Z.of_nat (S k)) by lia. exact H'.
Qed.

Lemma insert_sort_Sorted_key {A} (key key' : A → Z) x xs :
  Forall (λ y, key y = key' y) (x :: xs) →
  AList.insert_sort key x xs = AList.insert_sort key' x xs.
Proof.
  intros [Hx H]%Forall_cons. induction H as [|y xs Hy _ IH]; [done|]. cbn. by rewrite Hx, Hy, IH.
Qed.

(** [timer_add] keeps the timer list sound. *)
Lemma timer_add_Ok g ms h arg :
  timers_ok g → is_Some (slot g (current g)) → current g ≠ 0 → h ≠ DefaultTimeout →
  0 <= ms → jiffies g + ms / 10 < 2147483648 →
  let t := Timer (current g) (jiffies g + ms / 10) h arg false in
  ∃ ts, timer_add ms h arg g = Ok ((), put_timers ts g) ∧ timers_ok (put_timers ts g) ∧ ts ≡ₚ t :: timers g.
Proof.
  intros [T1 T2 T3 T4] Hc H0 Hh Hms Hr t.
  assert (Hdiv : 0 <= ms / 10) by (apply Z.div_pos; lia).
  assert (Ek : Forall (λ y, timer_key y = expires y) (t :: timers g)).
  { constructor; [apply s32_small; cbn; lia|]. eapply Forall_impl; [exact T1|].
    intros x (_ & _ & _ & ?). apply s32_small. lia. }
  exists (AList.insert_sort expires t (timers g)). split_and!.
  - unfold timer_add. rewrite (st_bind_eq _ _ g g g) by done. cbn beta.
    rewrite (st_bind_eq _ _ g (jiffies g + ms / 10) g).
    2:{ unfold timer_expire_jiffies. rewrite (st_bind_eq _ _ g g g) by done.
        unfold mret, st_ret. rewrite s32_small; [done|]. change jiffy with 10. lia. }
    rewrite u32_small by lia. unfold timer_insert, modify_st. by rewrite (insert_sort_Sorted_key _ expires).
  - apply (timers_ok_ext g); try done; cbn.
    + rewrite insert_sort_Permutation. constructor; [|done]. split_and!; try done; cbn; lia.
    + by apply insert_sort_Sorted.
  - apply insert_sort_Permutation.
Qed.

Lemma sys_sleep_Ok g i t ms :
  wf g → timers_ok g → current g = i → i ≠ 0 → slot g i = Some t → on_list t = None →
  (∀ x, x ∈ timers g → timer_task x ≠ i) → 0 <= ms → jiffies g + ms / 10 < 2147483648 →
  ∃ g1, sys_sleep ms g = Ok ((), g1) ∧ wf g1 ∧ timers_ok g1 ∧ jiffies g1 = jiffies g ∧
    sleeper g1 i (jiffies g + ms / 10).
Proof.
  intros W T Hc Hi Ht Hl Hno Hms Hr.
  destruct (timer_add_Ok g ms TaskWakeup 0 T ltac:(rewrite Hc; by eexists) ltac:(congruence) ltac:(done) Hms Hr)
    as (ts & E1 & T1 & Hts).
  set (g1 := put_timers ts g) in *. assert (W1 : wf g1) by by apply (wf_globals g).
  destruct (upd_step g1 i t (set_state TASK_SLEEPING) W1 Ht Hi) as (E2 & W2 & Hs2 & Ho2); [done..|].
  destruct (with_other g1 i (set_state TASK_SLEEPING)) as (Ec2 & _ & Et2 & Ej2 & Ei2 & _).
  set (g2 := with_task g1 i (set_state TASK_SLEEPING)) in *.
  assert (T2 : timers_ok g2).
  { destruct T1. apply (timers_ok_ext g1); try done; rewrite ?Et2; try done.
    intros j Hj. destruct (decide (j = i)) as [->|]; [by eexists|]. by rewrite Ho2. }
  destruct (schedule_ok g2 W2 T2) as (g3 & E3 & Eg3 & W3 & T3 & Ej3 & Et3 & Hs3).
  exists g3. split_and!; try done; [|by rewrite Ej3, Ej2|].
  - unfold sys_sleep. rewrite (st_bind_eq _ _ g g g) by done. cbn beta.
    rewrite (ok_interrupts _ T). cbn [negb]. rewrite (st_bind_eq _ _ g () g) by done.
    rewrite (st_bind_eq _ _ g t g) by (unfold get_current, get_task_at; by rewrite Hc, Ht).
    cbn beta. rewrite bool_decide_eq_true_2 by done. rewrite (st_bind_eq _ _ g () g) by done.
    rewrite (st_bind_eq _ _ _ _ _ E1), Hc, (st_bind_eq _ _ _ _ _ E2). exact E3.
  - assert (Hne : next g2 ≠ i) by (by eapply next_not).
    split; [|split; [|split]].
    + rewrite Et3, Et2. cbn. intros x Hx Hw. rewrite Hts in Hx. apply elem_of_cons in Hx as [->|Hx]; [done|].
      exfalso. apply (Hno x Hx). apply andb_true_iff in Hw as [Hw _]. by apply Z.eqb_eq.
    + rewrite Et3, Et2. cbn. eexists. split; [rewrite Hts; left|]. unfold wakes. cbn. by rewrite Hc, Z.eqb_refl.
    + rewrite Eg3. destruct (switched_other (next g2) g2) as (-> & _). done.
    + rewrite Hs3, Hs2. eexists. split; [reflexivity|]. unfold switched_task.
      repeat case_decide; try done. destruct_and?. done.
Qed.

(** A task sleeps exactly as long as it asked for: after [sys_sleep ms] another task
    runs and the caller sleeps; it is still asleep after [k] clock interrupts for every
    [k < ms / 10], and after [ms / 10] of them (one at least) it is ready or running. *)
Theorem sleep_wakes_on_time g i t ms k :
  wf g → timers_ok g → current g = i → i ≠ 0 → slot g i = Some t → on_list t = None →
  (∀ x, x ∈ timers g → timer_task x ≠ i) → 0 <= ms → jiffies g + ms / 10 + 1 < 2147483648 →
  (0 < k)%nat → Z.of_nat k <= Z.max 1 (ms / 10) →
  ∃ g1 g2 t', sys_sleep ms g = Ok ((), g1) ∧ current g1 ≠ i ∧ clock_ticks k g1 = Ok ((), g2) ∧ wf g2 ∧
    slot g2 i = Some t' ∧
    if Z.of_nat k <? ms / 10 then state t' = TASK_SLEEPING ∧ current g2 ≠ i
    else state t' = TASK_READY ∨ (state t' = TASK_RUNNING ∧ current g2 = i).
Proof.
  intros W T Hc Hi Ht Hl Hno Hms Hr Hk0 Hk. assert (0 <= ms / 10) by (apply Z.div_pos; lia).
  destruct (sys_sleep_Ok g i t ms W T Hc Hi Ht Hl Hno Hms ltac:(lia)) as (g1 & E1 & W1 & T1 & Ej & Hs).
  pose proof (ok_jiffies _ T1).
  destruct (ticks_reach k g1 i _ W1 T1 ltac:(lia) ltac:(lia) Hs ltac:(lia) Hk0) as (g2 & E2 & W2 & _ & _ & H2).
  destruct Hs as (_ & _ & Hne & _).
  destruct (Z.ltb_spec (jiffies g1 + Z.of_nat k) (jiffies g + ms / 10)), (Z.ltb_spec (Z.of_nat k) (ms / 10)); try lia.
  - destruct H2 as (_ & _ & Hne2 & t' & Ht' & Hst). exists g1, g2, t'. split_and!; try done; congruence.
  - destruct H2 as (t' & Ht' & Hst). exists g1, g2, t'. split_and!; try done; congruence.
Qed.

(** ** A concrete machine *)

(** The machine of Task with task 3 asleep until time 101, task 4 until time 107, and a
    beep of task 2 that ends at time 101. *)
Definition demo_clock : sys :=
  put_beeping true (put_timers
    [Timer 3 101 TaskWakeup 0 false; Timer 2 101 StopBeep 0 false; Timer 4 107 TaskWakeup 0 false] demo).

Lemma demo_clock_wf : wf demo_clock.
Proof. apply (wf_globals demo); [done..|exact demo_wf]. Qed.

Lemma demo_timers_ok : timers_ok demo.
Proof. split; cbn; [constructor|constructor|lia|done]. Qed.

Lemma demo_clock_ok : timers_ok demo_clock.
Proof.
  split; [|repeat constructor; cbn; lia|cbn; lia|done].
  repeat constructor; cbn; try done; by eexists.
Qed.

Lemma timer_wakeup_fires_expired_witness :
  ∃ g', timer_wakeup (put_jiffies 101 demo_clock) = Ok ((), g') ∧
    woken (expired 101 (timers demo_clock)) (put_jiffies 101 demo_clock) g' ∧
    timers g' = [Timer 4 107 TaskWakeup 0 false].
Proof.
  destruct (timer_wakeup_fires_expired (put_jiffies 101 demo_clock)) as (g' & E & Hw & Et & _).
  - apply (wf_globals demo_clock); [done..|exact demo_clock_wf].
  - destruct demo_clock_ok. split; [done|done|cbn; lia|done].
  - exists g'. exact (conj E (conj Hw Et)).
Defined.

Lemma clock_interrupt_witness :
  ∃ g', clock_handler IRQ_CLOCK_VECTOR demo_clock = Ok ((), g') ∧ wf g' ∧
    timers g' = [Timer 4 107 TaskWakeup 0 false].
Proof.
  destruct (clock_interrupt demo_clock (demo_task 2 TASK_RUNNING 1 1000) demo_clock_wf demo_clock_ok)
    as (g2 & g' & E & W & _ & _ & Et & _); [cbn; lia|done|].
  exists g'. exact (conj E (conj W Et)).
Defined.

(** Task 2 sleeps for 35 milliseconds and is still asleep after two interrupts. *)
Lemma sleep_wakes_on_time_witness :
  ∃ g1 g2 t', sys_sleep 35 demo = Ok ((), g1) ∧ current g1 ≠ 2 ∧ clock_ticks 2 g1 = Ok ((), g2) ∧ wf g2 ∧
    slot g2 2 = Some t' ∧ state t' = TASK_SLEEPING ∧ current g2 ≠ 2.
Proof.
  exact (sleep_wakes_on_time demo 2 (demo_task 2 TASK_RUNNING 1 1000) 35 2 demo_wf demo_timers_ok
    eq_refl ltac:(done) eq_refl eq_refl ltac:(intros x Hx; apply elem_of_nil in Hx; done) ltac:(lia)
    ltac:(vm_compute; reflexivity) ltac:(lia) ltac:(vm_compute; discriminate)).
Defined.

(** [sys_exit] calls [timer_remove], which also takes away the end of a beep the task has
    started: the flag stays set, and no later [start_beep] does anything. *)
Lemma beep_stuck :
  ∃ g1 g2, start_beep demo = Ok ((), g1) ∧ timer_remove 2 g1 = Ok ((), g2) ∧
    timers g2 = [] ∧ beeping g2 = true ∧ start_beep g2 = Ok ((), g2).
Proof.
  eexists _, _. split; [vm_compute; reflexivity|]. split; [vm_compute; reflexivity|]. split_and!; reflexivity.
Qed.
