(* ===== verification/Fd.v ===== *)
(** * File descriptors (src/kernel/task.c, src/fs/file.c)

    The descriptor table of a task, the file table of the system and the reference counts
    between them: getting, closing and duplicating descriptors.  The invariant says that
    the count of every entry of the file table is the number of descriptors, of all tasks,
    that refer to it. *)

From S2P Require Import Prelude DList Task.

Definition FILE_NR : Z := 128.

(** [file->count] is a [u32]. *)
Definition set_file_count (v : Z) (f : file_t) : file_t :=
  File (file_inode f) v (file_flags f) (file_offset f) (file_mode f).

Definition get_file_at (f : Z) : K file_t := λ g,
  match zget (file_table g) f with Ok e => Ok (e, g) | Stop e => Stop e end.
Definition put_file_at (f : Z) (e : file_t) : K unit := λ g,
  match zset (file_table g) f e with Ok l => Ok ((), put_file_table l g) | Stop e => Stop e end.

(** ** The file table *)

(** [get_file]: the first entry from 3 on whose count is 0. *)
Fixpoint file_loop (n : nat) (i : Z) : K Z :=
  match n with
  | O => stop_st Panic
  | S n =>
      e ← get_file_at i;
      if file_count e =? 0 then put_file_at i (set_file_count (u32 (file_count e + 1)) e);; mret i
      else file_loop n (i + 1)
  end.
Definition get_file : K Z := file_loop (Z.to_nat (FILE_NR - 3)) 3.

Definition put_file (f : Z) : K unit :=
  e ← get_file_at f;
  sassert (0 <? file_count e);;
  let n := u32 (file_count e - 1) in
  put_file_at f (set_file_count n e);;
  if n =? 0 then emit (Iput (file_inode e)) else mret ().

(** ** The descriptors of a task *)

Fixpoint fd_loop (n : nat) (fd : Z) (l : list (option Z)) : res Z :=
  match n with
  | O => Ok fd
  | S n => o ← zget l fd; match o with None => Ok fd | Some _ => fd_loop n (fd + 1) l end
  end.

Definition task_get_fd (i : Z) : K Z :=
  t ← get_task_at i;
  fd ← lift_st (fd_loop (Z.to_nat (TASK_FILE_NR - 3)) 3 (files t));
  sassert (negb (fd =? TASK_FILE_NR));;
  mret fd.

Definition set_fd (i fd : Z) (o : option Z) : K unit :=
  t ← get_task_at i;
  l ← lift_st (zset (files t) fd o);
  upd_task i (set_files l).

Definition task_put_fd (i fd : Z) : K unit :=
  sassert (fd <? TASK_FILE_NR);;
  set_fd i fd None.

(** [sys_open] once [inode_open] has found the inode; [desc_mode] and [desc_size] are
    what the inode's descriptor on disk says. *)
Definition O_APPEND : Z := 0x400.
Definition open_inode (inode flags desc_mode desc_size : Z) : K Z :=
  g ← get_st;
  fd ← task_get_fd (current g);
  f ← get_file;
  t ← get_current;
  o ← lift_st (zget (files t) fd);
  sassert (bool_decide (o = None));;
  set_fd (current g) fd (Some f);;
  put_file_at f (File inode 1 flags (if negb (Z.land flags O_APPEND =? 0) then s32 desc_size else 0) desc_mode);;
  mret fd.

Definition sys_close (fd : Z) : K unit :=
  sassert (0 <=? fd);;
  sassert (fd <? TASK_FILE_NR);;
  g ← get_st;
  t ← get_current;
  o ← lift_st (zget (files t) fd);
  match o with
  | None => mret ()
  | Some f =>
      e ← get_file_at f;
      sassert (negb (file_inode e =? 0));;
      put_file f;;
      task_put_fd (current g) fd
  end.

(** The search of [dupfd] for a free descriptor from [arg] on; [n] bounds the steps. *)
Fixpoint dup_loop (n : nat) (arg : Z) (l : list (option Z)) : res Z :=
  match n with
  | O => Ok arg
  | S n =>
      if arg <? TASK_FILE_NR then
        o ← zget l arg;
        match o with None => Ok arg | Some _ => dup_loop n (arg + 1) l end
      else Ok arg
  end.

Definition dupfd (fd arg : Z) : K Z :=
  g ← get_st;
  t ← get_current;
  if TASK_FILE_NR <=? fd then mret EOF_
  else
    o ← lift_st (zget (files t) fd);
    match o with
    | None => mret EOF_
    | Some f =>
        arg ← lift_st (dup_loop (Z.to_nat (TASK_FILE_NR - arg)) arg (files t));
        if TASK_FILE_NR <=? arg then mret EOF_
        else
          set_fd (current g) arg (Some f);;
          e ← get_file_at f;
          put_file_at f (set_file_count (u32 (file_count e + 1)) e);;
          mret arg
    end.

Definition sys_dup (oldfd : Z) : K Z := dupfd oldfd 0.

Definition sys_dup2 (oldfd newfd : Z) : K Z :=
  if oldfd =? newfd then mret newfd
  else sys_close newfd;; dupfd oldfd newfd.

(** [sys_lseek]; [desc_size] is the size of the file. *)
Inductive whence_t := SEEK_SET | SEEK_CUR | SEEK_END.
Definition set_file_offset (v : Z) (f : file_t) : file_t :=
  File (file_inode f) (file_count f) (file_flags f) v (file_mode f).

Definition sys_lseek (desc_size : Z) (fd offset : Z) (whence : whence_t) : K Z :=
  if (fd <=? 2) || (TASK_FILE_NR <=? fd) then mret EOF_
  else
    t ← get_current;
    o ← lift_st (zget (files t) fd);
    match o with
    | None => mret EOF_
    | Some f =>
        e ← get_file_at f;
        match whence with
        | SEEK_SET =>
            if offset <? 0 then mret EOF_
            else put_file_at f (set_file_offset offset e);; mret offset
        | SEEK_CUR =>
            let v := s32 (file_offset e + offset) in
            if v <? 0 then mret EOF_
            else put_file_at f (set_file_offset v e);; mret v
        | SEEK_END =>
            (* the sum is an unsigned one, so the test is never true *)
            let v := u32 (desc_size + offset) in
            if v <? 0 then mret EOF_
            else put_file_at f (set_file_offset (s32 v) e);; mret (s32 v)
        end
    end.

(** ** Counting references *)

Fixpoint nrefs (f : Z) (l : list (option Z)) : Z :=
  match l with
  | [] => 0
  | o :: l => (if decide (o = Some f) then 1 else 0) + nrefs f l
  end.

Fixpoint task_refs (f : Z) (l : list (option task_t)) : Z :=
  match l with
  | [] => 0
  | o :: l => match o with Some t => nrefs f (files t) | None => 0 end + task_refs f l
  end.

Definition refs (g : sys) (f : Z) : Z := task_refs f (task_list g).

(** The reference counts are right; [base] is what the kernel itself holds (and, half way
    through an operation, what has been counted but not yet entered). *)
Record refs_ok (base : Z → Z) (g : sys) : Prop := {
  rk_len : length (file_table g) = 128%nat;
  rk_files : ∀ i t, slot g i = Some t →
    length (files t) = 16%nat ∧ ∀ fd f, files t !! fd = Some (Some f) → 0 <= f < 128;
  rk_count : ∀ f e, zget (file_table g) f = Ok e → file_count e = base f + refs g f;
  rk_inode : ∀ f e, zget (file_table g) f = Ok e → file_count e ≠ 0 → file_inode e ≠ 0
}.

Definition known (f : Z) (o : option Z) : Z := if decide (o = Some f) then 1 else 0.

Lemma nrefs_insert f l k o o' :
  l !! k = Some o → nrefs f (<[k := o']> l) = nrefs f l - known f o + known f o'.
Proof.
  revert k. induction l as [|x l IH]; intros k H; [done|]. destruct k as [|k].
  - injection H as ->. cbn. unfold known. lia.
  - change (<[S k := o']> (x :: l)) with (x :: <[k := o']> l). cbn [nrefs]. rewrite (IH k H). lia.
Qed.

Lemma task_refs_insert f l k o o' :
  l !! k = Some o →
  let n := λ o, match o with Some t => nrefs f (files t) | None => 0 end in
  task_refs f (<[k := o']> l) = task_refs f l - n o + n o'.
Proof.
  revert k. induction l as [|x l IH]; intros k H n; [done|]. destruct k as [|k].
  - injection H as ->. unfold n. cbn. lia.
  - change (<[S k := o']> (x :: l)) with (x :: <[k := o']> l). cbn [task_refs].
    specialize (IH k H). cbn zeta in IH. rewrite IH. unfold n. lia.
Qed.

Lemma nrefs_range f l : 0 <= nrefs f l <= Z.of_nat (length l).
Proof. induction l as [|o l IH]; cbn [nrefs length]; [lia|]. destruct (decide (o = Some f)); lia. Qed.

Lemma nrefs_pos f l k : l !! k = Some (Some f) → 0 < nrefs f l.
Proof.
  revert k. induction l as [|o l IH]; intros k H; [done|]. cbn [nrefs].
  pose proof (nrefs_range f l). destruct k as [|k]; cbn in H.
  - injection H as ->. rewrite decide_True by done. lia.
  - specialize (IH k H). destruct (decide (o = Some f)); lia.
Qed.

Lemma task_refs_range f l :
  (∀ i t, l !! i = Some (Some t) → length (files t) = 16%nat) →
  0 <= task_refs f l <= 16 * Z.of_nat (length l).
Proof.
  induction l as [|o l IH]; intros H; cbn [task_refs length]; [lia|].
  assert (Hl : 0 <= task_refs f l <= 16 * Z.of_nat (length l)) by (apply IH; intros i t Ht; by apply (H (S i))).
  destruct o as [t|]; [|lia]. pose proof (nrefs_range f (files t)). rewrite (H 0%nat t eq_refl) in *. lia.
Qed.

Lemma task_refs_member f l k t :
  (∀ i t, l !! i = Some (Some t) → length (files t) = 16%nat) →
  l !! k = Some (Some t) → nrefs f (files t) <= task_refs f l.
Proof.
  revert k. induction l as [|o l IH]; intros k Hall H; [done|]. cbn [task_refs].
  assert (Hl : ∀ i t, l !! i = Some (Some t) → length (files t) = 16%nat) by (intros i x Hx; by apply (Hall (S i))).
  pose proof (task_refs_range f l Hl). destruct k as [|k]; cbn in H.
  - injection H as ->. lia.
  - specialize (IH k Hl H). destruct o as [x|]; [|lia]. pose proof (nrefs_range f (files x)). lia.
Qed.

(** ** Updates of one descriptor and of one count *)

(** The globals these routines leave alone. *)
Definition same_globals (g g' : sys) : Prop :=
  current g' = current g ∧ lists g' = lists g ∧ timers g' = timers g ∧ jiffies g' = jiffies g ∧
  beeping g' = beeping g ∧ interrupts g' = interrupts g ∧ ttys g' = ttys g.

Lemma same_globals_trans g1 g2 g3 : same_globals g1 g2 → same_globals g2 g3 → same_globals g1 g3.
Proof. unfold same_globals. intros. destruct_and!. split_and!; congruence. Qed.

Lemma same_globals_with g i f : same_globals g (with_task g i f).
Proof. destruct (with_other g i f) as (? & ? & ? & ? & ? & ? & ? & _). done. Qed.

Lemma slot_lookup g i t : slot g i = Some t → 0 <= i ∧ task_list g !! Z.to_nat i = Some (Some t).
Proof.
  unfold slot. destruct (Z.leb_spec 0 i); [|done]. destruct (task_list g !! Z.to_nat i) as [[x|]|]; cbn; try done.
  intros [= ->]. done.
Qed.

Lemma refs_with g i t h f :
  slot g i = Some t →
  refs (with_task g i h) f = refs g f - nrefs f (files t) + nrefs f (files (h t)).
Proof.
  intros Ht. destruct (slot_lookup g i t Ht) as [Hi Hl]. unfold refs, with_task. rewrite Ht.
  unfold set_slot. cbn. pose proof (task_refs_insert f _ _ _ (Some (h t)) Hl) as E. cbn in E. exact E.
Qed.

Lemma refs_ok_base base base' g : (∀ f, base f = base' f) → refs_ok base g → refs_ok base' g.
Proof. intros E [? ? Hc ?]. split; try done. intros f e He. rewrite <- E. by apply Hc. Qed.

Lemma refs_ok_globals base g g' :
  task_list g' = task_list g → file_table g' = file_table g → refs_ok base g → refs_ok base g'.
Proof. intros E1 E2 [? ? ? ?]. unfold slot, refs in *. split; unfold slot, refs; rewrite ?E1, ?E2; done. Qed.

(** A change of one task that keeps its descriptors. *)
Lemma refs_ok_task base g i t h :
  wf g → slot g i = Some t → files (h t) = files t → refs_ok base g → refs_ok base (with_task g i h).
Proof.
  intros W Ht Hf [R1 R2 R3 R4]. destruct (with_other g i h) as (_&_&_&_&_&_&_&Ef&_).
  split; rewrite ?Ef; try done.
  - intros j t'. rewrite slot_with by (apply W || by eexists). case_decide; [|apply R2].
    subst j. rewrite Ht. intros [= <-]. rewrite Hf. by apply R2 in Ht.
  - intros f e He. rewrite (refs_with g i t) by done. rewrite Hf, (R3 f e He). lia.
Qed.

Lemma lookup_fd (l : list (option Z)) fd o :
  zget l fd = Ok o → 0 <= fd ∧ l !! Z.to_nat fd = Some o ∧ fd < Z.of_nat (length l).
Proof. intros [? Hl]%zget_Ok. pose proof (lookup_lt_Some _ _ _ Hl). split_and!; [done..|lia]. Qed.

(** [set_fd]: the reference that is entered is not counted any more. *)
Lemma set_fd_Ok base g i fd t o o' :
  wf g → refs_ok base g → slot g i = Some t → zget (files t) fd = Ok o →
  (∀ f, o' = Some f → 0 <= f < 128) →
  let t' := set_files (<[Z.to_nat fd := o']> (files t)) t in
  ∃ g', set_fd i fd o' g = Ok ((), g') ∧ wf g' ∧ refs_ok (λ x, base x + known x o - known x o') g' ∧
    slot g' i = Some t' ∧ (∀ j, j ≠ i → slot g' j = slot g j) ∧ same_globals g g' ∧
    file_table g' = file_table g ∧ calls g' = calls g.
Proof.
  intros W R Ht Ho Hr t'. destruct (lookup_fd _ _ _ Ho) as (Hfd & Hl & Hlen).
  set (h := set_files (<[Z.to_nat fd := o']> (files t))).
  assert (Hs : ∀ j, slot (with_task g i h) j = if decide (j = i) then Some t' else slot g j).
  { intros j. rewrite slot_with by (apply W || by eexists). by rewrite Ht. }
  assert (W' : wf (with_task g i h)).
  { destruct (wf_pid _ W i t Ht) as (?&?&?). apply (upd_wf_any g i t); try done.
    intros Hrun. by apply (wf_running _ W i t). }
  destruct (with_other g i h) as (_&_&_&_&_&_&_&Ef&Ecalls).
  exists (with_task g i h). split_and!; try done.
  - unfold set_fd. rewrite (st_bind_eq _ _ g t g) by (unfold get_task_at; by rewrite Ht).
    rewrite (st_bind_eq _ _ g (<[Z.to_nat fd := o']> (files t)) g) by (unfold lift_st; by rewrite zset_Ok).
    apply upd_task_Ok. by eexists.
  - destruct R as [R1 R2 R3 R4]. split; rewrite ?Ef; try done.
    + intros j x. rewrite Hs. case_decide; [|apply R2]. intros [= <-]. destruct (R2 i t Ht) as [H1 H2].
      cbn. rewrite length_insert. split; [done|]. intros k f.
      destruct (decide (k = Z.to_nat fd)) as [->|].
      * rewrite list_lookup_insert_eq by lia. intros [= E]. by apply Hr.
      * rewrite list_lookup_insert_ne by done. apply H2.
    + intros f e He. rewrite (refs_with g i t), (R3 f e He) by done. cbn. rewrite (nrefs_insert f _ _ o) by done. lia.
  - rewrite Hs. by rewrite decide_True.
  - intros j Hj. rewrite Hs. by rewrite decide_False.
  - apply same_globals_with.
Qed.

(** One count changes by [d]. *)
Lemma set_count_Ok base g f e n :
  refs_ok base g → zget (file_table g) f = Ok e → (n ≠ 0 → file_inode e ≠ 0) →
  let g' := put_file_table (<[Z.to_nat f := set_file_count n e]> (file_table g)) g in
  put_file_at f (set_file_count n e) g = Ok ((), g') ∧
  refs_ok (λ x, base x + if decide (x = f) then n - file_count e else 0) g'.
Proof.
  intros [R1 R2 R3 R4] He Hn g'. pose proof He as [Hf Hl]%zget_Ok.
  pose proof (lookup_lt_Some _ _ _ Hl) as Hlt.
  assert (Hg : ∀ x, zget (file_table g') x = if decide (x = f) then Ok (set_file_count n e) else zget (file_table g) x).
  { intros x. unfold zget, g'. cbn. destruct (Z.leb_spec 0 x); [|by rewrite decide_False by lia].
    case_decide; [subst; by rewrite list_lookup_insert_eq|by rewrite list_lookup_insert_ne by lia]. }
  split; [unfold put_file_at; by rewrite zset_Ok by lia|]. split.
  - cbn. by rewrite length_insert.
  - exact R2.
  - intros x y. rewrite Hg. case_decide as Hx.
    + intros [= <-]. subst x. cbn [file_count set_file_count]. change (refs g' f) with (refs g f). pose proof (R3 f e He). lia.
    + intros Hy. change (refs g' x) with (refs g x). pose proof (R3 x y Hy). lia.
  - intros x y. rewrite Hg. case_decide; [|apply R4]. intros [= <-]. exact Hn.
Qed.

Lemma entry g base f : refs_ok base g → 0 <= f < 128 → ∃ e, zget (file_table g) f = Ok e.
Proof.
  intros R Hf. destruct (zget_is_Ok (file_table g) f) as (e & He & _); [rewrite (rk_len _ _ R); lia|by exists e].
Qed.

Lemma refs_range base g f : wf g → refs_ok base g → 0 <= refs g f <= 1024.
Proof.
  intros W R. pose proof (task_refs_range f (task_list g)) as H. unfold refs. rewrite (wf_len _ W) in H.
  change (16 * Z.of_nat 64) with 1024 in H. apply H.
  intros i t Ht. apply (rk_files _ _ R (Z.of_nat i) t). unfold slot.
  destruct (Z.leb_spec 0 (Z.of_nat i)); [|lia]. by rewrite Nat2Z.id, Ht.
Qed.

(** A descriptor refers to an entry that is counted. *)
Lemma fd_entry base g i t fd f :
  wf g → refs_ok base g → (∀ x, 0 <= base x <= 1000) → slot g i = Some t → zget (files t) fd = Ok (Some f) →
  ∃ e, zget (file_table g) f = Ok e ∧ 0 < file_count e <= 2024 ∧ file_inode e ≠ 0 ∧ 0 <= f < 128.
Proof.
  intros W R Hb Ht Ho. destruct (lookup_fd _ _ _ Ho) as (_ & Hl & _).
  destruct (rk_files _ _ R i t Ht) as [_ Hr]. specialize (Hr _ _ Hl).
  destruct (entry g base f R Hr) as [e He]. exists e.
  pose proof (rk_count _ _ R f e He). pose proof (refs_range _ _ f W R). pose proof (Hb f).
  pose proof (nrefs_pos f _ _ Hl). destruct (slot_lookup g i t Ht) as [Hi Hk].
  assert (nrefs f (files t) <= refs g f).
  { apply (task_refs_member f _ (Z.to_nat i) t); [|done]. intros k x Hx. apply (rk_files _ _ R (Z.of_nat k) x).
    unfold slot. destruct (Z.leb_spec 0 (Z.of_nat k)); [|lia]. by rewrite Nat2Z.id, Hx. }
  split_and!; try done; try lia. apply (rk_inode _ _ R f e He). lia.
Qed.

(** ** Closing *)

(** What an operation on descriptors of task [i] may change besides that task: the file
    table and the requests made to the inodes. *)
Definition only_task (i : Z) (g g' : sys) : Prop :=
  (∀ j, j ≠ i → slot g' j = slot g j) ∧ same_globals g g'.

Lemma put_file_Ok base g f e :
  refs_ok base g → zget (file_table g) f = Ok e → 0 < file_count e <= 2024 →
  ∃ g', put_file f g = Ok ((), g') ∧ refs_ok (λ x, base x + if decide (x = f) then -1 else 0) g' ∧
    task_list g' = task_list g ∧ same_globals g g' ∧
    calls g' = calls g ++ (if file_count e =? 1 then [Iput (file_inode e)] else []).
Proof.
  intros R He Hc.
  destruct (set_count_Ok base g f e (file_count e - 1) R He) as [E1 R1].
  { intros _. apply (rk_inode _ _ R f e He). lia. }
  set (g1 := put_file_table _ g) in *.
  assert (R1' : refs_ok (λ x, base x + if decide (x = f) then -1 else 0) g1).
  { eapply refs_ok_base; [|exact R1]. intros x. cbn. case_decide; lia. }
  unfold put_file. rewrite (st_bind_eq _ _ g e g) by (unfold get_file_at; by rewrite He).
  rewrite (st_bind_eq _ _ g () g) by (unfold sassert; by destruct (Z.ltb_spec 0 (file_count e)); [|lia]).
  rewrite u32_small by lia. rewrite (st_bind_eq _ _ _ _ _ E1).
  destruct (Z.eqb_spec (file_count e - 1) 0) as [Hz|Hz], (Z.eqb_spec (file_count e) 1) as [H1|H1]; try lia.
  - eexists. split_and!; [reflexivity|by eapply refs_ok_globals; [..|exact R1']|done..].
  - exists g1. split_and!; try done. by rewrite app_nil_r.
Qed.

Lemma sys_close_Ok base g i t fd :
  wf g → refs_ok base g → (∀ x, 0 <= base x <= 1000) → current g = i → slot g i = Some t →
  0 <= fd < 16 →
  ∃ g', sys_close fd g = Ok ((), g') ∧ wf g' ∧ refs_ok base g' ∧ only_task i g g' ∧
    slot g' i = Some (set_files (<[Z.to_nat fd := None]> (files t)) t) ∧
    ∃ cs, calls g' = calls g ++ cs ∧
      cs = match zget (files t) fd with
           | Ok (Some f) => match zget (file_table g) f with
                            | Ok e => if file_count e =? 1 then [Iput (file_inode e)] else []
                            | Stop _ => [] end
           | _ => [] end.
Proof.
  intros W R Hb Hc Ht Hfd. destruct (rk_files _ _ R i t Ht) as [Hlen _].
  destruct (zget_is_Ok (files t) fd) as (o & Ho & Hol); [lia|].
  unfold sys_close. rewrite (st_bind_eq _ _ g () g) by (unfold sassert; by destruct (Z.leb_spec 0 fd); [|lia]).
  rewrite (st_bind_eq _ _ g () g) by (unfold sassert; by destruct (Z.ltb_spec fd TASK_FILE_NR); [|unfold TASK_FILE_NR in *; lia]).
  rewrite (st_bind_eq _ _ g g g) by done.
  rewrite (st_bind_eq _ _ g t g) by (unfold get_current, get_task_at; by rewrite Hc, Ht).
  rewrite (st_bind_eq _ _ g o g) by (unfold lift_st; by rewrite Ho). rewrite Ho. cbn beta iota.
  destruct o as [f|].
  - destruct (fd_entry base g i t fd f W R Hb Ht Ho) as (e & He & Hce & Hie & Hf). rewrite He.
    destruct (put_file_Ok base g f e R He Hce) as (g1 & E1 & R1 & El1 & G1 & C1).
    assert (W1 : wf g1) by (apply (wf_globals g); [done|apply G1|done]).
    assert (Hs1 : ∀ j, slot g1 j = slot g j) by (intros j; unfold slot; by rewrite El1).
    assert (Ht1 : slot g1 i = Some t) by by rewrite Hs1.
    destruct (set_fd_Ok _ g1 i fd t (Some f) None W1 R1 Ht1 Ho ltac:(done)) as (g2 & E2 & W2 & R2 & H2 & O2 & G2 & _ & C2).
    exists g2. split_and!; try done.
    + rewrite (st_bind_eq _ _ g e g) by (unfold get_file_at; by rewrite He).
      rewrite (st_bind_eq _ _ g () g) by (unfold sassert; by destruct (Z.eqb_spec (file_inode e) 0)).
      rewrite (st_bind_eq _ _ _ _ _ E1). rewrite Hc. unfold task_put_fd.
      rewrite (st_bind_eq _ _ g1 () g1) by (unfold sassert; by destruct (Z.ltb_spec fd TASK_FILE_NR); [|unfold TASK_FILE_NR in *; lia]).
      exact E2.
    + eapply refs_ok_base; [|exact R2]. intros x. cbn. unfold known. repeat case_decide; try congruence; lia.
    + split; [|by eapply same_globals_trans]. intros j Hj. by rewrite O2, Hs1.
    + eexists. split; [by rewrite C2, C1|done].
  - exists g. split_and!; try done.
    + rewrite Ht. f_equal. rewrite list_insert_id by done. by destruct t.
    + exists []. by rewrite app_nil_r.
Qed.

(** ** Duplicating *)

(** The lowest free descriptor that is not below [arg]. *)
Definition lowest_free (arg : Z) (l : list (option Z)) (fd : Z) : Prop :=
  arg <= fd < TASK_FILE_NR ∧ zget l fd = Ok None ∧ ∀ k, arg <= k < fd → ∃ f, zget l k = Ok (Some f).

Lemma dup_loop_spec n arg l :
  length l = 16%nat → 0 <= arg → TASK_FILE_NR - arg <= Z.of_nat n →
  ∃ r, dup_loop n arg l = Ok r ∧
    (lowest_free arg l r ∨ (TASK_FILE_NR <= r ∧ ∀ k, arg <= k < TASK_FILE_NR → ∃ f, zget l k = Ok (Some f))).
Proof.
  intros Hl. revert arg. unfold TASK_FILE_NR. induction n as [|n IH]; intros arg Ha Hn.
  { exists arg. split; [done|]. right. split; [lia|]. lia. }
  cbn [dup_loop]. unfold TASK_FILE_NR. destruct (Z.ltb_spec arg 16).
  2:{ exists arg. split; [done|]. right. split; [lia|]. lia. }
  destruct (zget_is_Ok l arg) as (o & Ho & _); [lia|]. rewrite Ho. cbn. destruct o as [f|].
  - destruct (IH (arg + 1)) as (r & E & Hr); [lia..|]. exists r. split; [done|].
    assert (Hk : ∀ k b, (∀ k, arg + 1 <= k < b → ∃ f, zget l k = Ok (Some f)) → arg <= k < b → ∃ f, zget l k = Ok (Some f)).
    { intros k b H1 H2. destruct (decide (k = arg)) as [->|]; [by exists f|]. apply H1. lia. }
    destruct Hr as [(H1 & H2 & H3)|[H1 H2]]; [left|right].
    + split_and!; try done; [lia..|]. intros k Hk'. by apply (Hk k r).
    + split; [done|]. intros k Hk'. by apply (Hk k 16).
  - exists arg. split; [done|]. left. split_and!; try done; unfold TASK_FILE_NR; lia.
Qed.

Lemma dupfd_Ok base g i t fd arg :
  wf g → refs_ok base g → (∀ x, 0 <= base x <= 1000) → current g = i → slot g i = Some t →
  0 <= fd → 0 <= arg →
  ∃ r g', dupfd fd arg g = Ok (r, g') ∧ wf g' ∧ refs_ok base g' ∧ only_task i g g' ∧ calls g' = calls g ∧
    ((∃ f, zget (files t) fd = Ok (Some f) ∧ lowest_free arg (files t) r ∧
        slot g' i = Some (set_files (<[Z.to_nat r := Some f]> (files t)) t)) ∨
     (r = EOF_ ∧ g' = g ∧
        ((∀ f, zget (files t) fd ≠ Ok (Some f)) ∨
         ∀ k, arg <= k < TASK_FILE_NR → ∃ f, zget (files t) k = Ok (Some f)))).
Proof.
  intros W R Hb Hc Ht Hfd Ha. destruct (rk_files _ _ R i t Ht) as [Hlen _].
  unfold dupfd. rewrite (st_bind_eq _ _ g g g) by done.
  rewrite (st_bind_eq _ _ g t g) by (unfold get_current, get_task_at; by rewrite Hc, Ht). cbn beta.
  destruct (Z.leb_spec TASK_FILE_NR fd) as [Hbig|Hsmall]; unfold TASK_FILE_NR in *.
  { exists EOF_, g. split_and!; try done. right. split_and!; try done. left. intros f Hf.
    destruct (lookup_fd _ _ _ Hf) as (_ & _ & ?). lia. }
  destruct (zget_is_Ok (files t) fd) as (o & Ho & _); [lia|].
  rewrite (st_bind_eq _ _ g o g) by (unfold lift_st; by rewrite Ho). cbn beta iota.
  destruct o as [f|].
  2:{ exists EOF_, g. split_and!; try done. right. split_and!; try done. left. intros f. by rewrite Ho. }
  destruct (dup_loop_spec (Z.to_nat (16 - arg)) arg (files t) Hlen Ha) as (r & Er & Hr); [unfold TASK_FILE_NR; lia|].
  rewrite (st_bind_eq _ _ g r g) by (unfold lift_st; by rewrite Er). cbn beta.
  unfold TASK_FILE_NR in *. destruct Hr as [Hlow|[Hge Hall]].
  2:{ destruct (Z.leb_spec 16 r); [|lia]. exists EOF_, g. split_and!; try done. right. split_and!; try done. by right. }
  destruct Hlow as (H1 & H2 & H3). unfold TASK_FILE_NR in *. destruct (Z.leb_spec 16 r); [lia|].
  destruct (fd_entry base g i t fd f W R Hb Ht Ho) as (e & He & Hce & Hie & Hf).
  destruct (set_fd_Ok base g i r t None (Some f) W R Ht H2) as (g1 & E1 & W1 & R1 & Hs1 & O1 & G1 & F1 & C1).
  { by intros ? [= <-]. }
  destruct (set_count_Ok _ g1 f e (file_count e + 1) R1) as [E2 R2]; [by rewrite F1|done|].
  set (g2 := put_file_table _ g1) in *. exists r, g2. split_and!; try done.
  - rewrite Hc, (st_bind_eq _ _ _ _ _ E1).
    rewrite (st_bind_eq _ _ g1 e g1) by (unfold get_file_at; by rewrite F1, He).
    rewrite u32_small by lia. by rewrite (st_bind_eq _ _ _ _ _ E2).
  - by apply (wf_globals g1).
  - eapply refs_ok_base; [|exact R2]. intros x. cbn. unfold known. repeat case_decide; try congruence; lia.
  - left. exists f. done.
Qed.

(** Descriptors and reference counts: for a running task with sound reference counts,
    [sys_close] frees the descriptor - releasing the inode exactly when the last reference
    goes -, [sys_dup] gives the lowest free descriptor or [EOF] when the old one is not
    open or none is free, and the counts stay the numbers of descriptors that refer to
    each file. *)
Theorem descriptors_counted base g i t fd :
  wf g → refs_ok base g → (∀ x, 0 <= base x <= 1000) → current g = i → slot g i = Some t → 0 <= fd < 16 →
  (∃ g', sys_close fd g = Ok ((), g') ∧ wf g' ∧ refs_ok base g' ∧ only_task i g g' ∧
     slot g' i = Some (set_files (<[Z.to_nat fd := None]> (files t)) t) ∧
     calls g' = calls g ++
       match zget (files t) fd with
       | Ok (Some f) => match zget (file_table g) f with
                        | Ok e => if file_count e =? 1 then [Iput (file_inode e)] else []
                        | Stop _ => [] end
       | _ => [] end) ∧
  (∃ r g', sys_dup fd g = Ok (r, g') ∧ wf g' ∧ refs_ok base g' ∧ only_task i g g' ∧ calls g' = calls g ∧
     ((∃ f, zget (files t) fd = Ok (Some f) ∧ lowest_free 0 (files t) r ∧
         slot g' i = Some (set_files (<[Z.to_nat r := Some f]> (files t)) t)) ∨
      (r = EOF_ ∧ g' = g ∧
         ((∀ f, zget (files t) fd ≠ Ok (Some f)) ∨
          ∀ k, 0 <= k < TASK_FILE_NR → ∃ f, zget (files t) k = Ok (Some f))))).
Proof.
  intros W R Hb Hc Ht Hfd. split.
  - destruct (sys_close_Ok base g i t fd W R Hb Hc Ht Hfd) as (g' & ? & ? & ? & ? & ? & cs & ? & ->).
    by exists g'.
  - apply dupfd_Ok; try done; lia.
Qed.

(** ** A concrete machine *)

(** Deciding [refs_ok] with nothing held by the kernel itself. *)
Definition refs_check (g : sys) : bool :=
  bool_decide (length (task_list g) = 64%nat) && bool_decide (length (file_table g) = 128%nat) &&
  forallb (λ i, match slot g i with
                | Some t => bool_decide (length (files t) = 16%nat) &&
                            forallb (λ o, match o with Some f => (0 <=? f) && (f <? 128) | None => true end) (files t)
                | None => true end) (seqZ 0 64) &&
  forallb (λ f, match zget (file_table g) f with
                | Ok e => (file_count e =? refs g f) && ((file_count e =? 0) || negb (file_inode e =? 0))
                | Stop _ => true end) (seqZ 0 128).

Lemma refs_checked g : refs_check g = true → refs_ok (λ _, 0) g.
Proof.
  unfold refs_check. rewrite !andb_true_iff, !bool_decide_eq_true, !forallb_forall.
  intros [[[Hl Hf] Ht] Hc].
  assert (H : ∀ f e, zget (file_table g) f = Ok e →
    file_count e = refs g f ∧ (file_count e ≠ 0 → file_inode e ≠ 0)).
  { intros f e He. pose proof He as [Hp Hlk]%zget_Ok. apply lookup_lt_Some in Hlk.
    specialize (Hc f). rewrite He in Hc. rewrite andb_true_iff, Z.eqb_eq, orb_true_iff, negb_true_iff, Z.eqb_eq, Z.eqb_neq in Hc.
    destruct Hc as [H1 H2]; [apply list_elem_of_In, elem_of_seqZ; lia|]. split; [done|]. tauto. }
  split; [done| |intros f e He; apply (H f e He)|intros f e He; apply (H f e He)].
  intros i t Hi. pose proof (slot_range g i t Hl Hi) as Hr. specialize (Ht i). rewrite Hi in Ht.
  rewrite andb_true_iff, bool_decide_eq_true, forallb_forall in Ht.
  destruct Ht as [H1 H2]; [apply list_elem_of_In, elem_of_seqZ; lia|]. split; [done|].
  intros fd f Hfd. specialize (H2 (Some f)). apply list_elem_of_lookup_2, list_elem_of_In, H2 in Hfd. cbn in Hfd.
  apply andb_true_iff in Hfd as [?%Z.leb_le ?%Z.ltb_lt]. lia.
Qed.

Lemma demo_refs : refs_ok (λ _, 0) demo.
Proof. apply refs_checked. vm_compute. reflexivity. Qed.

Lemma descriptors_counted_witness :
  ∃ g', sys_close 1 demo = Ok ((), g') ∧ refs_ok (λ _, 0) g' ∧ calls g' = [] ∧
  ∃ r g'', sys_dup 1 demo = Ok (r, g'') ∧ refs_ok (λ _, 0) g''.
Proof.
  destruct (descriptors_counted (λ _, 0) demo 2 (demo_task 2 TASK_RUNNING 1 1000) 1 demo_wf demo_refs
    ltac:(intros; lia) eq_refl eq_refl ltac:(lia)) as [(g' & E & _ & R & _ & _ & C) (r & g'' & E2 & _ & R2 & _)].
  exists g'. exact (conj E (conj R (conj C (ex_intro _ r (ex_intro _ g'' (conj E2 R2)))))).
Defined.

(** A task that opens a fourteenth file stops the kernel: [task_get_fd] panics instead of
    returning an error. *)
Fixpoint opens (n : nat) : K unit :=
  match n with O => mret () | S n => open_inode 7 0 0 0;; opens n end.

Lemma fourteenth_open_panics :
  (∃ g, opens 13 demo = Ok ((), g)) ∧ opens 14 demo = Stop Panic.
Proof. split; [eexists; vm_compute; reflexivity|vm_compute; reflexivity]. Qed.
