(* ===== verification/Process.v ===== *)
(** * Processes (src/kernel/task.c)

    Creating tasks, fork, exit, wait, sessions and process groups, over the machine of
    Task.  What these routines ask of the memory manager and of the inodes is recorded as
    requests.  A fork returns twice: the definition is the parent's return, the child's is
    the [eax] it resumes with. *)

From S2P Require Import Prelude DList Task Timer Fd.

Definition USER_EXEC_ADDR : Z := 0x08048000.
Definition CHILD_SEARCH_START : Z := 2.

(** ** Loops over the task table *)

Fixpoint each_task (n : nat) (i : Z) (f : Z → task_t → K unit) : K unit :=
  match n with
  | O => mret ()
  | S n =>
      g ← get_st;
      match slot g i with None => mret () | Some t => f i t end;;
      each_task n (i + 1) f
  end.

Definition all_tasks (f : Z → task_t → K unit) : K unit := each_task (Z.to_nat TASK_NR) 0 f.

(** [file->count++] for each of the given entries. *)
Fixpoint count_files (l : list (option Z)) : K unit :=
  match l with
  | [] => mret ()
  | None :: l => count_files l
  | Some f :: l =>
      e ← get_file_at f;
      put_file_at f (set_file_count (u32 (file_count e + 1)) e);;
      count_files l
  end.

(** ** Creation *)

(** [root] is the root inode. *)
Definition task_create (root priority uid : Z) : K Z :=
  pid ← get_free_task;
  let fds := [Some 0; Some 1; Some 2] ++ replicate 13 None in
  modify_st (set_slot pid (Some
    (Task TASK_READY priority priority 0 uid 0 pid 0 0 0 0 None 0 USER_EXEC_ADDR 0 0 [47] root root 0 18
       fds 0 0 (replicate 31 (SigAction 0 0 0 0)) (UserFrame 0 0 0 0 0 0 ∅))));;
  emit (InodeRef root);; emit (InodeRef root);;
  count_files [Some 0; Some 1; Some 2];;
  mret pid.

Definition task_setup (root : Z) : K unit :=
  task_create root 1 KERNEL_RING0;;
  task_create root 5 KERNEL_RING0;;
  modify_st (put_current 0).

(** The child's control block: a copy of the parent's. *)
Definition forked (pid' : Z) (t : task_t) : task_t :=
  set_eax pid' (set_state TASK_READY (set_ticks (priority t) (set_ppid (pid t) (set_pid pid' t)))).

Definition sys_fork : K Z :=
  t ← get_current;
  sassert (uid t =? USER_RING3);;
  pid ← get_free_task;
  modify_st (set_slot pid (Some (forked pid t)));;
  emit (CopyPte pid);;
  emit (CopyVmap pid);;
  emit (CopyPwd pid);;
  emit (InodeRef (ipwd t));;
  emit (InodeRef (iroot t));;
  (if iexec t =? 0 then mret () else emit (InodeRef (iexec t)));;
  count_files (files t);;
  g ← get_st;
  upd_task (current g) (set_eax pid);;
  upd_task pid (set_eax 0);;
  t ← get_current;
  mret (eax t).

Definition sys_getpid : K Z := t ← get_current; mret (pid t).
Definition sys_getppid : K Z := t ← get_current; mret (ppid t).

(** ** Exit *)

Definition task_sess_leader (t : task_t) : bool := sid t =? pid t.

Definition raise_signal (sig : Z) (t : task_t) : task_t := set_signal (Z.lor (signal t) (SIGMASK sig)) t.

Definition task_tell_father (t : task_t) : K unit :=
  if ppid t =? 0 then mret ()
  else
    p ← get_task (ppid t);
    match p with
    | Some i => upd_task i (raise_signal SIGCHLD)
    | None => stop_st Panic
    end.

(** SIGHUP to the session, and its terminal loses the foreground group. *)
Definition end_session (t : task_t) : K unit :=
  if task_sess_leader t then
    all_tasks (λ i x, if negb (sid x =? sid t) || (pid x =? pid t) then mret ()
                      else upd_task i (raise_signal SIGHUP));;
    if 0 <? tty t then
      g ← get_st;
      match ttys g !! tty t with
      | None => stop_st Panic
      | Some _ => modify_st (put_ttys (<[tty t := 0]> (ttys g)))
      end
    else mret ()
  else mret ().

Fixpoint close_loop (n : nat) (fd : Z) : K unit :=
  match n with
  | O => mret ()
  | S n =>
      t ← get_current;
      o ← lift_st (zget (files t) fd);
      match o with Some _ => sys_close fd | None => mret () end;;
      close_loop n (fd + 1)
  end.

(** One round of the loop that hands the children on and wakes who waits. *)
Definition release (t : task_t) (i : Z) (x : task_t) : K unit :=
  if ppid x =? pid t then upd_task i (set_ppid (ppid t))
  else if waitpid x =? pid t then
    (if bool_decide (state x = TASK_WAITING) then task_intr_unblock_no_waiting_list i else mret ());;
    upd_task i (set_waitpid 0)
  else mret ().

Definition sys_exit (status : Z) : K unit :=
  t ← get_current;
  g ← get_st;
  let i := current g in
  sassert (bool_decide (state t = TASK_RUNNING));;
  sassert (negb (pid t =? 0) && negb (pid t =? 1));;
  upd_task i (set_state TASK_DEAD);;
  upd_task i (set_status (s32 status));;
  emit (FreePte i);; emit (FreePde i);; emit (FreeVmap i);; emit (FreePwd i);;
  emit (Iput (ipwd t));; emit (Iput (iroot t));; emit (Iput (iexec t));;
  timer_remove i;;
  task_tell_father t;;
  end_session t;;
  close_loop (Z.to_nat TASK_FILE_NR) 0;;
  all_tasks (release t);;
  schedule.

(** ** Wait *)

Inductive wait_result := Reaped (pid status : Z) | NoChild | Waits.

(** One round of the loop of [sys_waitpid]; after [Waits] the task has given up the
    processor, and does another round when it runs again.  The child is the first one in
    the table, whatever [pid] is. *)
Definition sys_waitpid_round (pid' : Z) : K wait_result :=
  t ← get_current;
  g ← get_st;
  match find_slot (λ x, ppid x =? pid t) (Z.to_nat (TASK_NR - CHILD_SEARCH_START)) CHILD_SEARCH_START g with
  | None => mret NoChild
  | Some i =>
      child ← get_task_at i;
      if bool_decide (state child = TASK_DEAD) then
        modify_st (set_slot (pid child) None);;
        emit (FreeTask (pid child));;
        mret (Reaped (pid child) (status child))
      else
        upd_task (current g) (set_waitpid (u32 pid'));;
        task_block (current g) None TASK_WAITING;;
        mret Waits
  end.

(** ** Sessions and groups *)

Definition sys_setsid : K Z :=
  t ← get_current;
  g ← get_st;
  if task_sess_leader t then mret (- EPERM)
  else
    upd_task (current g) (λ t, set_sid (pid t) t);;
    upd_task (current g) (λ t, set_pgid (pid t) t);;
    t ← get_current;
    mret (sid t).

Definition sys_setpgid (pid' pgid' : Z) : K Z :=
  c ← get_current;
  g ← get_st;
  target ← (if pid' =? 0 then mret (Some (current g)) else get_task pid');
  let pgid' := if pgid' =? 0 then pid c else pgid' in
  match target with
  | None => mret (- ESRCH)
  | Some i =>
      t ← get_task_at i;
      if task_sess_leader t then mret (- EPERM)
      else if negb (sid t =? sid c) then mret (- EPERM)
      else upd_task i (set_pgid pgid');; mret EOK
  end.

Definition sys_getpgrp : K Z := t ← get_current; mret (pgid t).

(** ** Loops, proved once *)

Lemma each_task_Ok (Q : Z → task_t → Prop) (f : Z → task_t → K unit) (h : Z → task_t → task_t) n i g :
  (∀ g j x, wf g → slot g j = Some x → Q j x →
     f j x g = Ok ((), with_task g j (h j)) ∧ wf (with_task g j (h j)) ∧ files (h j x) = files x) →
  wf g → 0 <= i → (∀ j x, i <= j → slot g j = Some x → Q j x) →
  ∃ g', each_task n i f g = Ok ((), g') ∧ wf g' ∧ same_globals g g' ∧
    file_table g' = file_table g ∧ calls g' = calls g ∧
    (∀ base, refs_ok base g → refs_ok base g') ∧
    ∀ j, slot g' j = if decide (i <= j < i + Z.of_nat n) then h j <$> slot g j else slot g j.
Proof.
  intros Hf. revert g i. induction n as [|n IH]; intros g i W Hi HQ.
  { exists g. split_and!; try done. intros j. by rewrite decide_False by lia. }
  cbn [each_task]. rewrite (st_bind_eq _ _ g g g) by done. cbn beta.
  destruct (slot g i) as [x|] eqn:Hx.
  - destruct (Hf g i x W Hx (HQ i x ltac:(lia) Hx)) as (E & W1 & Hfiles). rewrite (st_bind_eq _ _ _ _ _ E).
    assert (Hs1 : ∀ j, slot (with_task g i (h i)) j = if decide (j = i) then h i <$> slot g i else slot g j)
      by (intros j; apply slot_with; [apply W|by eexists]).
    destruct (IH (with_task g i (h i)) (i + 1) W1 ltac:(lia)) as (g' & E' & W' & G' & F' & C' & R' & S').
    { intros j y Hj. rewrite Hs1, decide_False by lia. apply HQ. lia. }
    destruct (with_other g i (h i)) as (_&_&_&_&_&_&_&Ef&Ec).
    exists g'. split_and!; try done.
    + eapply same_globals_trans; [apply same_globals_with|done].
    + by rewrite F', Ef.
    + by rewrite C', Ec.
    + intros base R. apply R'. by apply (refs_ok_task base g i x).
    + intros j. rewrite S', Hs1. repeat case_decide; subst; try done; lia.
  - rewrite (st_bind_eq _ _ g () g) by done.
    destruct (IH g (i + 1) W ltac:(lia)) as (g' & E' & W' & G' & F' & C' & R' & S').
    { intros j y Hj. apply HQ. lia. }
    exists g'. split_and!; try done. intros j. rewrite S'. repeat case_decide; try done; try lia.
    assert (j = i) as -> by lia. by rewrite Hx.
Qed.

(** All slots are in the table. *)
Lemma all_tasks_Ok (Q : Z → task_t → Prop) f h g :
  (∀ g j x, wf g → slot g j = Some x → Q j x →
     f j x g = Ok ((), with_task g j (h j)) ∧ wf (with_task g j (h j)) ∧ files (h j x) = files x) →
  wf g → (∀ j x, slot g j = Some x → Q j x) →
  ∃ g', all_tasks f g = Ok ((), g') ∧ wf g' ∧ same_globals g g' ∧
    file_table g' = file_table g ∧ calls g' = calls g ∧
    (∀ base, refs_ok base g → refs_ok base g') ∧
    ∀ j, slot g' j = h j <$> slot g j.
Proof.
  intros Hf W HQ. destruct (each_task_Ok Q f h (Z.to_nat TASK_NR) 0 g Hf W ltac:(lia)) as (g' & E & W' & G & F & C & R & S).
  { intros j x _. apply HQ. }
  exists g'. split_and!; try done. intros j. rewrite S. case_decide as Hj; [done|].
  destruct (slot g j) as [x|] eqn:Hx; [|done]. pose proof (slot_range g j x (wf_len _ W) Hx).
  change (Z.of_nat (Z.to_nat TASK_NR)) with 64 in Hj. lia.
Qed.

Lemma count_files_Ok base l g :
  refs_ok base g →
  (∀ f, Some f ∈ l → ∃ e, zget (file_table g) f = Ok e ∧ file_inode e ≠ 0 ∧
     0 <= file_count e < 4294967296 - Z.of_nat (length l)) →
  ∃ ft, count_files l g = Ok ((), put_file_table ft g) ∧
    refs_ok (λ x, base x + nrefs x l) (put_file_table ft g).
Proof.
  revert base g. induction l as [|o l IH]; intros base g R H.
  { exists (file_table g). split; [by destruct g|]. apply (refs_ok_base base); [intros; cbn; lia|].
    by apply (refs_ok_globals base g). }
  destruct o as [f|]; cbn [count_files].
  - destruct (H f ltac:(left)) as (e & He & Hi & Hc). cbn [length] in Hc.
    rewrite (st_bind_eq _ _ g e g) by (unfold get_file_at; by rewrite He).
    rewrite u32_small by lia.
    destruct (set_count_Ok base g f e (file_count e + 1) R He ltac:(done)) as [E R1].
    rewrite (st_bind_eq _ _ _ _ _ E). set (ft1 := <[_ := _]> _) in *.
    destruct (IH _ _ R1) as (ft & E' & R').
    { intros x Hx. destruct (H x ltac:(by right)) as (y & Hy & Hiy & Hcy). cbn [length] in Hcy.
      unfold zget in Hy |- *. unfold ft1. cbn. destruct (Z.leb_spec 0 x) as [Hx0|]; [|done].
      apply zget_Ok in He as [Hf0 Hl]. pose proof (lookup_lt_Some _ _ _ Hl).
      destruct (decide (x = f)) as [->|].
      - rewrite list_lookup_insert_eq by done. eexists. split; [done|]. cbn. lia.
      - rewrite list_lookup_insert_ne by lia. exists y. split; [done|]. lia. }
    exists ft. split; [exact E'|]. eapply refs_ok_base; [|exact R']. intros x. cbn [nrefs].
    repeat case_decide; simplify_eq; lia.
  - destruct (IH base g R) as (ft & E & R').
    { intros x Hx. destruct (H x ltac:(by right)) as (y & Hy & Hiy & Hcy). cbn [length] in Hcy. exists y.
      split_and!; try done; lia. }
    exists ft. split; [done|]. eapply refs_ok_base; [|exact R']. intros x. cbn [nrefs]. rewrite decide_False by done. lia.
Qed.

(** Requests, one after the other. *)
Lemma emit_first {B} c (k : K B) g : (emit c;; k) g = k (put_calls (calls g ++ [c]) g).
Proof. done. Qed.

Lemma emit_next {B} c l (k : K B) g : (emit c;; k) (put_calls l g) = k (put_calls (l ++ [c]) g).
Proof. done. Qed.

(** ** Fork *)

Lemma free_slot_spec n i g :
  match free_slot n i g with
  | Some k => i <= k < i + Z.of_nat n ∧ slot g k = None ∧ ∀ j, i <= j < k → is_Some (slot g j)
  | None => ∀ j, i <= j < i + Z.of_nat n → is_Some (slot g j)
  end.
Proof.
  revert i. induction n as [|n IH]; intros i; cbn [free_slot]; [intros j Hj; lia|].
  destruct (slot g i) as [t|] eqn:Hi.
  - specialize (IH (i + 1)). destruct (free_slot n (i + 1) g) as [k|].
    + destruct IH as (H1 & H2 & H3). split; [lia|]. split; [done|]. intros j Hj.
      destruct (decide (j = i)) as [->|]; [by eexists|]. apply H3. lia.
    + intros j Hj. destruct (decide (j = i)) as [->|]; [by eexists|]. apply IH. lia.
  - split; [lia|]. split; [done|]. intros j Hj. lia.
Qed.

Lemma slot_add g k t j :
  length (task_list g) = 64%nat → 0 <= k < 64 → slot (set_slot k (Some t) g) j = if decide (j = k) then Some t else slot g j.
Proof. intros Hl Hk. rewrite slot_set by lia. done. Qed.

Lemma wf_add g k t :
  wf g → slot g k = None → 0 <= k < 64 → pid t = k → 0 < ticks t < 4294967296 → 0 < priority t < 4294967296 →
  state t ≠ TASK_RUNNING → wf (set_slot k (Some t) g).
Proof.
  intros W Hk Hr Hp Ht Hpr Hs. destruct (wf_idle _ W) as (t0 & H0 & Hidle).
  assert (Hsl : ∀ j, slot (set_slot k (Some t) g) j = if decide (j = k) then Some t else slot g j)
    by (intros; apply slot_add; [apply W|done]).
  split.
  - cbn. rewrite length_insert. apply W.
  - intros j x. rewrite Hsl. case_decide; [intros [= <-]; subst; done|apply W].
  - change (current (set_slot k (Some t) g)) with (current g). rewrite Hsl. case_decide; [by eexists|apply W].
  - intros j x. rewrite Hsl. case_decide; [by intros [= <-]|]. apply (wf_running _ W).
  - exists t0. rewrite Hsl, decide_False by congruence. done.
Qed.

Lemma refs_add g k t f :
  0 <= k → slot g k = None → (Z.to_nat k < length (task_list g))%nat →
  refs (set_slot k (Some t) g) f = refs g f + nrefs f (files t).
Proof.
  intros Hk Hs Hl. unfold refs, set_slot. cbn.
  destruct (lookup_lt_is_Some_2 _ _ Hl) as [o Ho].
  rewrite (task_refs_insert f _ _ o (Some t) Ho).
  unfold slot in Hs. destruct (Z.leb_spec 0 k); [|lia]. rewrite Ho in Hs. cbn in Hs. subst o. lia.
Qed.

Lemma refs_ok_add base g k t :
  wf g → refs_ok base g → 0 <= k < 64 → slot g k = None →
  length (files t) = 16%nat → (∀ fd f, files t !! fd = Some (Some f) → 0 <= f < 128) →
  refs_ok (λ x, base x - nrefs x (files t)) (set_slot k (Some t) g).
Proof.
  intros W [R1 R2 R3 R4] Hk Hs Hl Hr. split; try done.
  - intros j x. rewrite slot_add by (apply W || done). case_decide; [intros [= <-]; done|apply R2].
  - intros f e He. change (file_table (set_slot k (Some t) g)) with (file_table g) in He.
    rewrite refs_add by (done || lia || (rewrite (wf_len _ W); lia)). rewrite (R3 f e He). lia.
Qed.

(** The requests of a fork. *)
Definition fork_calls (pid' : Z) (t : task_t) : list call :=
  [CopyPte pid'; CopyVmap pid'; CopyPwd pid'; InodeRef (ipwd t); InodeRef (iroot t)] ++
  (if iexec t =? 0 then [] else [InodeRef (iexec t)]).

(** The counts of the parent's files can take another child. *)
Lemma fork_count base g g1 i t :
  wf g → refs_ok base g → (∀ x, 0 <= base x <= 1000) → slot g i = Some t → file_table g1 = file_table g →
  ∀ f, Some f ∈ files t → ∃ e, zget (file_table g1) f = Ok e ∧ file_inode e ≠ 0 ∧
    0 <= file_count e < 4294967296 - Z.of_nat (length (files t)).
Proof.
  intros W R Hb Ht Ef f [k Hf]%list_elem_of_lookup. rewrite Ef.
  assert (Hg : zget (files t) (Z.of_nat k) = Ok (Some f)) by (apply zget_Ok; rewrite Nat2Z.id; split; [lia|done]).
  destruct (fd_entry base g i t (Z.of_nat k) f W R Hb Ht Hg) as (e & He & Hc & Hi & _).
  exists e. split_and!; try done; [lia|]. destruct (rk_files _ _ R i t Ht) as [-> _]. lia.
Qed.

Lemma sys_fork_Ok base g i t :
  wf g → refs_ok base g → (∀ x, 0 <= base x <= 1000) →
  current g = i → i ≠ 0 → slot g i = Some t → uid t = USER_RING3 →
  match free_slot 64 0 g with
  | None => sys_fork g = Stop Panic
  | Some c =>
      ∃ g', sys_fork g = Ok (c, g') ∧ wf g' ∧ refs_ok base g' ∧ same_globals g g' ∧
        slot g c = None ∧ slot g' i = Some (set_eax c t) ∧ slot g' c = Some (set_eax 0 (forked c t)) ∧
        (∀ j, j ≠ i → j ≠ c → slot g' j = slot g j) ∧ calls g' = calls g ++ fork_calls c t
  end.
Proof.
  intros W R Hb Hc Hi Ht Hu. pose proof (free_slot_spec 64 0 g) as Hfree.
  assert (Ecur : get_current g = Ok (t, g)) by (unfold get_current, get_task_at; by rewrite Hc, Ht).
  unfold sys_fork. rewrite (st_bind_eq _ _ _ _ _ Ecur).
  rewrite (st_bind_eq _ _ g () g) by (unfold sassert; by rewrite Hu).
  destruct (free_slot 64 0 g) as [c|] eqn:Ec.
  2:{ unfold mbind, st_bind, get_free_task. change (Z.to_nat TASK_NR) with 64%nat. by rewrite Ec. }
  rewrite (st_bind_eq _ _ g c g) by (unfold get_free_task; change (Z.to_nat TASK_NR) with 64%nat; by rewrite Ec).
  destruct Hfree as (Hcr & Hcn & _). change (Z.of_nat 64) with 64 in Hcr.
  destruct (wf_pid _ W i t Ht) as (Hp & Hk & Hpr). destruct (rk_files _ _ R i t Ht) as [Hl Hr].
  set (ch := forked c t). set (g1 := set_slot c (Some ch) g).
  assert (W1 : wf g1) by (apply wf_add; try done; lia).
  assert (R1 : refs_ok (λ x, base x - nrefs x (files t)) g1) by (apply (refs_ok_add base g c ch); try done; lia).
  set (g2 := put_calls (calls g ++ fork_calls c t) g1).
  assert (R2 : refs_ok (λ x, base x - nrefs x (files t)) g2) by by apply (refs_ok_globals _ g1).
  destruct (count_files_Ok _ (files t) g2 R2) as (ft & E3 & R3).
  { by apply (fork_count base g g2 i). }
  set (g3 := put_file_table ft g2) in *.
  assert (W3 : wf g3) by by apply (wf_globals g1).
  assert (Hs3 : ∀ j, slot g3 j = if decide (j = c) then Some ch else slot g j)
    by (intros j; apply slot_add; [apply W|lia]).
  assert (Hi3 : slot g3 i = Some t) by (rewrite Hs3, decide_False; [done|congruence]).
  assert (Hc0 : c ≠ 0) by (destruct (wf_idle _ W) as (t0 & H0 & _); congruence).
  destruct (upd_step g3 i t (set_eax c) W3 Hi3 Hi) as (E4 & W4 & H4 & O4); [done..|].
  set (g4 := with_task g3 i (set_eax c)) in *.
  assert (Hc4 : slot g4 c = Some ch) by (rewrite O4, Hs3, decide_True by congruence; done).
  destruct (upd_step g4 c ch (set_eax 0) W4 Hc4 Hc0) as (E5 & W5 & H5 & O5); [done..|].
  set (g5 := with_task g4 c (set_eax 0)) in *.
  assert (Hi5 : slot g5 i = Some (set_eax c t)) by (rewrite O5 by congruence; done).
  assert (G5 : same_globals g g5).
  { apply (same_globals_trans g g3); [done|]. eapply same_globals_trans; apply same_globals_with. }
  exists g5. split_and!; try done.
  - rewrite (st_bind_eq _ _ g () g1) by done.
    assert (Eem : ∀ {B} (k : K B), (emit (CopyPte c);; emit (CopyVmap c);; emit (CopyPwd c);;
      emit (InodeRef (ipwd t));; emit (InodeRef (iroot t));;
      (if iexec t =? 0 then mret () else emit (InodeRef (iexec t)));; k) g1 = k g2).
    { intros B k. unfold g2, fork_calls. rewrite emit_first, !emit_next. destruct (iexec t =? 0).
      - rewrite (st_bind_eq _ _ _ () (put_calls (((((calls g1 ++ [CopyPte c]) ++ [CopyVmap c]) ++ [CopyPwd c]) ++
          [InodeRef (ipwd t)]) ++ [InodeRef (iroot t)]) g1)) by done. by rewrite <- !app_assoc.
      - rewrite emit_next. by rewrite <- !app_assoc. }
    rewrite Eem, (st_bind_eq _ _ _ _ _ E3), (st_bind_eq _ _ g3 g3 g3) by done.
    change (current g3) with (current g). rewrite Hc, (st_bind_eq _ _ _ _ _ E4), (st_bind_eq _ _ _ _ _ E5).
    assert (Ecur5 : current g5 = i) by (destruct G5 as (-> & _); done).
    rewrite (st_bind_eq _ _ g5 (set_eax c t) g5) by (unfold get_current, get_task_at; by rewrite Ecur5, Hi5).
    done.
  - apply (refs_ok_task _ g4 c ch); [done..|]. apply (refs_ok_task _ g3 i t); [done..|].
    eapply refs_ok_base; [|exact R3]. intros x. cbn. lia.
  - intros j Hj1 Hj2. by rewrite O5, O4, Hs3, decide_False by congruence.
  - destruct (with_other g4 c (set_eax 0)) as (_&_&_&_&_&_&_&_&C5).
    destruct (with_other g3 i (set_eax c)) as (_&_&_&_&_&_&_&_&C4).
    unfold g5. rewrite C5. unfold g4. by rewrite C4.
Qed.

(** [fork]: a user task gets a copy of itself in the first free slot, whose pid the
    call returns in the parent while the child resumes with 0; the child is ready with a
    full time slice and the parent's files, every one of them counted once more; nobody
    else changes, and a full task table stops the kernel. *)
Theorem fork_copies_task base g i t :
  wf g → refs_ok base g → (∀ x, 0 <= base x <= 1000) →
  current g = i → i ≠ 0 → slot g i = Some t → uid t = USER_RING3 →
  match free_slot 64 0 g with
  | None => sys_fork g = Stop Panic
  | Some c =>
      ∃ g', sys_fork g = Ok (c, g') ∧ wf g' ∧ refs_ok base g' ∧ same_globals g g' ∧
        slot g c = None ∧ slot g' i = Some (set_eax c t) ∧ slot g' c = Some (set_eax 0 (forked c t)) ∧
        (∀ j, j ≠ i → j ≠ c → slot g' j = slot g j) ∧ calls g' = calls g ++ fork_calls c t
  end.
Proof. apply sys_fork_Ok. Qed.

(** ** Finding tasks *)

Lemma find_slot_spec P n i g :
  match find_slot P n i g with
  | Some k => i <= k < i + Z.of_nat n ∧ (∃ x, slot g k = Some x ∧ P x = true) ∧
              ∀ j x, i <= j < k → slot g j = Some x → P x = false
  | None => ∀ j x, i <= j < i + Z.of_nat n → slot g j = Some x → P x = false
  end.
Proof.
  revert i. induction n as [|n IH]; intros i; cbn [find_slot]; [intros j x Hj; lia|].
  specialize (IH (i + 1)).
  assert (Hnext : (∀ x, slot g i = Some x → P x = false) →
    match find_slot P n (i + 1) g with
    | Some k => i <= k < i + Z.of_nat (S n) ∧ (∃ x, slot g k = Some x ∧ P x = true) ∧
                ∀ j x, i <= j < k → slot g j = Some x → P x = false
    | None => ∀ j x, i <= j < i + Z.of_nat (S n) → slot g j = Some x → P x = false
    end).
  { intros Hi. destruct (find_slot P n (i + 1) g) as [k|].
    - destruct IH as (H1 & H2 & H3). split; [lia|]. split; [done|]. intros j x Hj.
      destruct (decide (j = i)) as [->|]; [apply Hi|apply H3; lia].
    - intros j x Hj. destruct (decide (j = i)) as [->|]; [apply Hi|apply IH; lia]. }
  destruct (slot g i) as [t|] eqn:Ht; [|by apply Hnext].
  destruct (P t) eqn:HP; [|apply Hnext; by intros ? [= <-]].
  split; [lia|]. split; [by exists t|]. intros j x Hj. lia.
Qed.

(** On a well-formed table a task is found in the slot its pid names. *)
Lemma get_task_Ok g p :
  wf g → get_task p g = Ok (match slot g p with Some _ => Some p | None => None end, g).
Proof.
  intros W. unfold get_task. do 2 f_equal. pose proof (find_slot_spec (λ t, pid t =? p) (Z.to_nat TASK_NR) 0 g) as H.
  change (Z.of_nat (Z.to_nat TASK_NR)) with 64 in H.
  destruct (find_slot _ _ 0 g) as [k|].
  - destruct H as (Hk & (x & Hx & HP%Z.eqb_eq) & _). destruct (wf_pid _ W k x Hx) as [Hp _].
    assert (k = p) as -> by congruence. by rewrite Hx.
  - destruct (slot g p) as [x|] eqn:Hx; [|done]. pose proof (slot_range g p x (wf_len _ W) Hx).
    specialize (H p x ltac:(lia) Hx). destruct (wf_pid _ W p x Hx) as [Hp _]. apply Z.eqb_neq in H. congruence.
Qed.

(** ** Exit *)

Definition dead (st : Z) (t : task_t) : task_t := set_status (s32 st) (set_state TASK_DEAD t).

Definition told (t : task_t) (j : Z) (x : task_t) : task_t :=
  if decide (ppid t ≠ 0 ∧ j = ppid t) then raise_signal SIGCHLD x else x.
Definition hung_up (t x : task_t) : task_t :=
  if task_sess_leader t && (sid x =? sid t) && negb (pid x =? pid t) then raise_signal SIGHUP x else x.
Definition released (t x : task_t) : task_t :=
  if ppid x =? pid t then set_ppid (ppid t) x
  else if waitpid x =? pid t then
    set_waitpid 0 (if bool_decide (state x = TASK_WAITING) then set_state TASK_READY x else x)
  else x.

(** What the exit of task [t] in slot [i] does to the task in slot [j]. *)
Definition exit_effect (st : Z) (i : Z) (t : task_t) (j : Z) (x : task_t) : task_t :=
  released t (if decide (j = i) then set_files (replicate 16 None) (dead st x) else hung_up t (told t j x)).

Definition waiting_off_list (g : sys) : Prop :=
  ∀ j x, slot g j = Some x → state x = TASK_WAITING → on_list x = None.

Lemma told_father t x : ppid t ≠ 0 → told t (ppid t) x = raise_signal SIGCHLD x.
Proof. intros. unfold told. by rewrite decide_True. Qed.

Lemma told_other t j x : ppid t = 0 ∨ j ≠ ppid t → told t j x = x.
Proof. intros. unfold told. rewrite decide_False; [done|tauto]. Qed.

Lemma told_same t j x : state (told t j x) = state x ∧ on_list (told t j x) = on_list x.
Proof. unfold told. by case_decide. Qed.

Lemma hung_up_same t x : state (hung_up t x) = state x ∧ on_list (hung_up t x) = on_list x.
Proof. unfold hung_up. by destruct (_ && _ && _). Qed.

Lemma tell_father_Ok g t :
  wf g → (ppid t = 0 ∨ is_Some (slot g (ppid t))) →
  ∃ g', task_tell_father t g = Ok ((), g') ∧ wf g' ∧ same_globals g g' ∧ calls g' = calls g ∧
    (∀ base, refs_ok base g → refs_ok base g') ∧ ∀ j, slot g' j = told t j <$> slot g j.
Proof.
  intros W Hp. unfold task_tell_father. destruct (Z.eqb_spec (ppid t) 0) as [E|E].
  - exists g. split_and!; try done. intros j. destruct (slot g j) as [y|]; [|done].
    cbn [fmap option_fmap option_map]. rewrite told_other; [done|tauto].
  - destruct Hp as [|[x Hx]]; [done|]. rewrite (st_bind_eq _ _ _ _ _ (get_task_Ok g (ppid t) W)). rewrite Hx. cbn beta iota.
    destruct (wf_pid _ W _ x Hx) as (? & ? & ?).
    destruct (with_other g (ppid t) (raise_signal SIGCHLD)) as (_&_&_&_&_&_&_&_&Ec).
    exists (with_task g (ppid t) (raise_signal SIGCHLD)). split_and!; try done.
    + apply upd_task_Ok. by eexists.
    + apply (upd_wf_any _ _ x); try done. intros. by apply (wf_running _ W _ x).
    + apply same_globals_with.
    + intros base R. by apply (refs_ok_task _ _ _ x).
    + intros j. rewrite slot_with by (apply W || by eexists). destruct (decide (j = ppid t)) as [->|Hj].
      * rewrite Hx. cbn [fmap option_fmap option_map]. by rewrite told_father.
      * destruct (slot g j) as [y|]; [|done]. cbn [fmap option_fmap option_map]. rewrite told_other; [done|tauto].
Qed.

(** Raising a signal, as a step of a loop over the table. *)
Lemma raise_step g j x sig :
  wf g → slot g j = Some x →
  upd_task j (raise_signal sig) g = Ok ((), with_task g j (raise_signal sig)) ∧ wf (with_task g j (raise_signal sig)).
Proof.
  intros W Hx. destruct (wf_pid _ W _ x Hx) as (? & ? & ?). split; [apply upd_task_Ok; by eexists|].
  apply (upd_wf_any _ _ x); try done. intros. by apply (wf_running _ W _ x).
Qed.

Lemma with_task_id g j x f : slot g j = Some x → f x = x → with_task g j f = g.
Proof.
  intros Hx Hf. unfold with_task. rewrite Hx, Hf. unfold set_slot.
  destruct (slot_lookup g j x Hx) as [_ Hl]. rewrite list_insert_id by done. by destruct g.
Qed.

Lemma end_session_Ok g t :
  wf g → (task_sess_leader t = true → 0 < tty t → is_Some (ttys g !! tty t)) →
  ∃ g', end_session t g = Ok ((), g') ∧ wf g' ∧ current g' = current g ∧ lists g' = lists g ∧ timers g' = timers g ∧
    jiffies g' = jiffies g ∧ beeping g' = beeping g ∧ interrupts g' = interrupts g ∧ calls g' = calls g ∧
    ttys g' = (if task_sess_leader t && (0 <? tty t) then <[tty t := 0]> (ttys g) else ttys g) ∧
    (∀ base, refs_ok base g → refs_ok base g') ∧ ∀ j, slot g' j = hung_up t <$> slot g j.
Proof.
  intros W Htty. unfold end_session, hung_up. destruct (task_sess_leader t).
  2:{ exists g. split_and!; try done. intros j. by destruct (slot g j). }
  destruct (all_tasks_Ok (λ _ _, True)
    (λ i x, if negb (sid x =? sid t) || (pid x =? pid t) then (mret () : ST sys unit) else upd_task i (raise_signal SIGHUP))
    (λ _ x, if (sid x =? sid t) && negb (pid x =? pid t) then raise_signal SIGHUP x else x) g) as (g1 & E & W1 & G & F & C & R & S).
  { intros g1 j x W1 Hx _. destruct (sid x =? sid t) eqn:E1, (pid x =? pid t) eqn:E2; cbn [negb orb andb];
      try (rewrite (with_task_id g1 j x) by (done || (by rewrite E1, E2) || by rewrite E1); done).
    destruct (raise_step g1 j x SIGHUP W1 Hx) as [E W2].
    rewrite (with_ext g1 j x _ (raise_signal SIGHUP) Hx) by (by rewrite E1, E2). done. }
  { done. } { done. }
  cbn [andb]. rewrite (st_bind_eq _ _ _ _ _ E). destruct G as (? & ? & ? & ? & ? & ? & Et).
  destruct (Z.ltb_spec 0 (tty t)) as [Hlt|].
  - destruct (Htty eq_refl Hlt) as [pg Hpg]. rewrite (st_bind_eq _ _ g1 g1 g1) by done. cbn beta. rewrite Et, Hpg.
    eexists. split_and!; [reflexivity|by apply (wf_globals g1)|done..| |done].
    intros base Hb. by apply (refs_ok_globals _ g1), R.
  - exists g1. by split_and!.
Qed.

(** Is the request one to release an inode? *)
Definition is_iput (c : call) : bool := match c with Iput _ => true | _ => false end.

Lemma close_loop_Ok base i n : ∀ fd g t,
  wf g → refs_ok base g → (∀ x, 0 <= base x <= 1000) → current g = i → slot g i = Some t →
  0 <= fd → fd + Z.of_nat n = 16 →
  ∃ g' l, close_loop n fd g = Ok ((), g') ∧ wf g' ∧ refs_ok base g' ∧ only_task i g g' ∧
    slot g' i = Some (set_files l t) ∧ length l = 16%nat ∧
    (∀ k, l !! k = if decide (fd <= Z.of_nat k < 16) then Some None else files t !! k) ∧
    ∃ cs, calls g' = calls g ++ cs ∧ forallb is_iput cs = true.
Proof.
  induction n as [|n IH]; intros fd g t W R Hb Hc Ht Hfd Hn.
  { exists g, (files t). destruct (rk_files _ _ R i t Ht) as [Hl _]. split_and!; try done.
    - rewrite Ht. by destruct t.
    - intros k. rewrite decide_False by lia. done.
    - exists []. by rewrite app_nil_r. }
  cbn [close_loop]. destruct (rk_files _ _ R i t Ht) as [Hl _].
  rewrite (st_bind_eq _ _ g t g) by (unfold get_current, get_task_at; by rewrite Hc, Ht).
  destruct (zget_is_Ok (files t) fd) as (o & Ho & Hol); [lia|].
  rewrite (st_bind_eq _ _ g o g) by (unfold lift_st; by rewrite Ho). cbn beta.
  assert (Hstep : ∃ g1 t1, (match o with Some _ => sys_close fd | None => (mret () : ST sys unit) end) g = Ok ((), g1) ∧
    wf g1 ∧ refs_ok base g1 ∧ only_task i g g1 ∧ slot g1 i = Some t1 ∧
    t1 = set_files (<[Z.to_nat fd := None]> (files t)) t ∧
    ∃ cs, calls g1 = calls g ++ cs ∧ forallb is_iput cs = true).
  { destruct o as [f|].
    - destruct (sys_close_Ok base g i t fd W R Hb Hc Ht ltac:(lia)) as (g1 & E & W1 & R1 & O1 & H1 & cs & C1 & Hcs).
      exists g1, (set_files (<[Z.to_nat fd := None]> (files t)) t). split_and!; try done. exists cs. split; [done|].
      subst cs. destruct (zget (files t) fd) as [[?|]|]; try done. destruct (zget (file_table g) _); [|done]. by destruct (_ =? 1).
    - exists g, t. split_and!; try done.
      + rewrite list_insert_id by done. by destruct t.
      + exists []. by rewrite app_nil_r. }
  destruct Hstep as (g1 & t1 & E1 & W1 & R1 & [O1 G1] & H1 & Et1 & cs1 & C1 & Hcs1).
  rewrite (st_bind_eq _ _ _ _ _ E1).
  destruct (IH (fd + 1) g1 t1 W1 R1 Hb) as (g' & l & E' & W' & R' & [O' G'] & H' & Hl' & Hk & cs & C' & Hcs);
    [destruct G1 as [-> _]; done|done|lia|lia|].
  exists g', l. split_and!; try done.
  - split; [intros j Hj; by rewrite O', O1|by eapply same_globals_trans].
  - rewrite H', Et1. by destruct t.
  - intros k. rewrite Hk, Et1. cbn. destruct (decide (k = Z.to_nat fd)) as [->|Hne].
    + rewrite list_lookup_insert_eq by lia. repeat case_decide; try done; lia.
    + rewrite list_lookup_insert_ne by done. repeat case_decide; try done; lia.
  - exists (cs1 ++ cs). rewrite C', C1, app_assoc, forallb_app. by rewrite Hcs1, Hcs.
Qed.

Lemma release_Ok g t :
  wf g → waiting_off_list g →
  ∃ g', all_tasks (release t) g = Ok ((), g') ∧ wf g' ∧ same_globals g g' ∧ calls g' = calls g ∧
    (∀ base, refs_ok base g → refs_ok base g') ∧ ∀ j, slot g' j = released t <$> slot g j.
Proof.
  intros W Hwait.
  destruct (all_tasks_Ok (λ j x, state x = TASK_WAITING → on_list x = None) (release t) (λ _, released t) g)
    as (g' & E & W' & G & _ & C & R & S); [|done|done|by exists g'].
  intros g1 j x W1 Hx HQ. destruct (wf_pid _ W1 j x Hx) as (? & ? & ?).
  assert (Hst : state (released t x) = state x ∨ (state x = TASK_WAITING ∧ state (released t x) = TASK_READY)).
  { unfold released. destruct (_ =? pid t); [by left|]. destruct (_ =? pid t); [|by left].
    case_bool_decide; [by right|by left]. }
  assert (Hsame : pid (released t x) = pid x ∧ ticks (released t x) = ticks x ∧
    priority (released t x) = priority x ∧ files (released t x) = files x).
  { unfold released. destruct (_ =? pid t); [done|]. destruct (_ =? pid t); [|done]. by case_bool_decide. }
  destruct Hsame as (Hp & Hk & Hpr & Hf). split; [|split; [|done]].
  2:{ apply (upd_wf_any _ _ x); try done; [|by rewrite Hk|].
      - intros ->. destruct Hst as [|[Hw _]]; [done|]. destruct (wf_idle _ W1) as (t0 & Hidle & Hi).
        destruct Hi as [|[]]; congruence.
      - intros Hr. destruct Hst as [E|[_ E]]; [|congruence]. rewrite E in Hr. by apply (wf_running _ W1 j x). }
  unfold release. destruct (Z.eqb_spec (ppid x) (pid t)) as [E|E].
  { rewrite (with_ext g1 j x (released t) (set_ppid (ppid t)) Hx); [apply upd_task_Ok; by eexists|].
    unfold released. by destruct (Z.eqb_spec (ppid x) (pid t)). }
  destruct (Z.eqb_spec (waitpid x) (pid t)) as [E2|E2].
  2:{ rewrite (with_task_id g1 j x); [done..|]. unfold released.
      by destruct (Z.eqb_spec (ppid x) (pid t)), (Z.eqb_spec (waitpid x) (pid t)). }
  case_bool_decide as Hw.
  - assert (Eu : task_intr_unblock_no_waiting_list j g1 = Ok ((), with_task g1 j (set_state TASK_READY))).
    { unfold task_intr_unblock_no_waiting_list, unlink. rewrite (st_bind_eq _ _ g1 () g1); [apply upd_task_Ok; by eexists|].
      rewrite (st_bind_eq _ _ g1 x g1) by (unfold get_task_at; by rewrite Hx). cbn beta. by rewrite HQ. }
    rewrite (st_bind_eq _ _ _ _ _ Eu).
    rewrite upd_task_Ok by (rewrite slot_with, decide_True, Hx by (apply W1 || by eexists); by eexists).
    rewrite with_with by (apply W1 || by eexists). do 2 f_equal. apply (with_ext g1 j x); [done|].
    unfold released. rewrite bool_decide_eq_true_2 by done.
    by destruct (Z.eqb_spec (ppid x) (pid t)), (Z.eqb_spec (waitpid x) (pid t)).
  - rewrite (st_bind_eq _ _ g1 () g1) by done. rewrite upd_task_Ok by by eexists. do 2 f_equal.
    apply (with_ext g1 j x); [done|]. unfold released. rewrite bool_decide_eq_false_2 by done.
    by destruct (Z.eqb_spec (ppid x) (pid t)), (Z.eqb_spec (waitpid x) (pid t)).
Qed.

(** A task that may exit: it runs, is neither idle nor init, has a father in the table (or
    none), and its terminal exists. *)
Record can_exit (g : sys) (i : Z) (t : task_t) : Prop := {
  ce_cur : current g = i;
  ce_slot : slot g i = Some t;
  ce_run : state t = TASK_RUNNING;
  ce_pid : i ≠ 0 ∧ i ≠ 1;
  ce_father : ppid t = 0 ∨ is_Some (slot g (ppid t));
  ce_self : ppid t ≠ i;
  ce_tty : task_sess_leader t = true → 0 < tty t → is_Some (ttys g !! tty t);
  ce_wait : waiting_off_list g
}.

Definition exit_requests (i : Z) (t : task_t) : list call :=
  [FreePte i; FreePde i; FreeVmap i; FreePwd i; Iput (ipwd t); Iput (iroot t); Iput (iexec t)].

(** [exit] up to the loop over the children. *)
Lemma sys_exit_front base g i t st :
  wf g → refs_ok base g → (∀ x, 0 <= base x <= 1000) → can_exit g i t →
  ∃ g4, (∀ k : K unit, (upd_task i (set_state TASK_DEAD);;
      upd_task i (set_status (s32 st));;
      emit (FreePte i);; emit (FreePde i);; emit (FreeVmap i);; emit (FreePwd i);;
      emit (Iput (ipwd t));; emit (Iput (iroot t));; emit (Iput (iexec t));;
      timer_remove i;; k) g = k g4) ∧
    wf g4 ∧ refs_ok base g4 ∧ current g4 = i ∧ timers g4 = remove_loop i (timers g) ∧ ttys g4 = ttys g ∧
    calls g4 = calls g ++ exit_requests i t ∧
    ∀ j, slot g4 j = (if decide (j = i) then dead st else id) <$> slot g j.
Proof.
  intros W R Hb [Hc Ht Hrun [Hi0 Hi1] _ _ _ _].
  destruct (upd_step g i t (set_state TASK_DEAD) W Ht Hi0) as (E1 & W1 & H1 & O1); [done..|].
  set (g1 := with_task g i (set_state TASK_DEAD)) in *.
  destruct (upd_step g1 i _ (set_status (s32 st)) W1 H1 Hi0) as (E2 & W2 & H2 & O2); [done..|].
  set (g2 := with_task g1 i (set_status (s32 st))) in *.
  assert (G2 : same_globals g g2) by (eapply same_globals_trans; apply same_globals_with).
  assert (C2 : calls g2 = calls g).
  { destruct (with_other g1 i (set_status (s32 st))) as (_&_&_&_&_&_&_&_&C).
    destruct (with_other g i (set_state TASK_DEAD)) as (_&_&_&_&_&_&_&_&C'). unfold g2. rewrite C. exact C'. }
  assert (R2 : refs_ok base g2) by (apply (refs_ok_task _ _ _ (set_state TASK_DEAD t)), (refs_ok_task _ _ _ t); done).
  destruct G2 as (Gc & _ & Gt & _ & _ & _ & Gy).
  set (g4 := put_timers (remove_loop i (timers g2)) (put_calls (calls g2 ++ exit_requests i t) g2)).
  exists g4. split_and!.
  - intros k. rewrite (st_bind_eq _ _ _ _ _ E1), (st_bind_eq _ _ _ _ _ E2).
    rewrite emit_first, !emit_next, <- !app_assoc. done.
  - by apply (wf_globals g2).
  - by apply (refs_ok_globals _ g2).
  - change (current g2 = i). congruence.
  - cbn. by rewrite Gt.
  - exact Gy.
  - cbn. by rewrite C2.
  - intros j. change (slot g4 j) with (slot g2 j). case_decide as Hj.
    + subst j. rewrite H2, Ht. done.
    + rewrite O2, O1 by done. by destruct (slot g j).
Qed.

Lemma sys_exit_Ok base g i t st :
  wf g → refs_ok base g → (∀ x, 0 <= base x <= 1000) → can_exit g i t →
  ∃ g', sys_exit st g = Ok ((), switched (next g') g') ∧ wf g' ∧ refs_ok base g' ∧ current g' = i ∧
    next g' ≠ i ∧ wf (switched (next g') g') ∧
    timers g' = remove_loop i (timers g) ∧
    ttys g' = (if task_sess_leader t && (0 <? tty t) then <[tty t := 0]> (ttys g) else ttys g) ∧
    (∃ cs, calls g' = calls g ++ exit_requests i t ++ cs ∧ forallb is_iput cs = true) ∧
    ∀ j, slot g' j = exit_effect st i t j <$> slot g j.
Proof.
  intros W R Hb CE. destruct (sys_exit_front base g i t st W R Hb CE) as (g4 & E4 & W4 & R4 & C4 & T4 & Y4 & Q4 & S4).
  destruct CE as [Hc Ht Hrun [Hi0 Hi1] Hfa Hself Htty Hwait].
  destruct (wf_pid _ W i t Ht) as (Hp & _ & _).
  (* the father *)
  assert (Hfa4 : ppid t = 0 ∨ is_Some (slot g4 (ppid t))).
  { destruct Hfa as [|[x Hx]]; [by left|right]. rewrite S4, Hx. by eexists. }
  destruct (tell_father_Ok g4 t W4 Hfa4) as (g5 & E5 & W5 & G5 & Q5 & R5 & S5).
  destruct G5 as (Gc5 & _ & Gt5 & _ & _ & _ & Gy5).
  (* the session *)
  destruct (end_session_Ok g5 t W5) as (g6 & E6 & W6 & C6 & _ & T6 & _ & _ & _ & Q6 & Y6 & R6 & S6).
  { by rewrite Gy5, Y4. }
  (* the descriptors *)
  assert (Ht6 : slot g6 i = Some (dead st t)).
  { rewrite S6, S5, S4, decide_True, Ht by done. cbn [fmap option_fmap option_map].
    rewrite told_other by (right; congruence). unfold hung_up. change (pid (dead st t)) with (pid t).
    rewrite !Z.eqb_refl. cbn [negb]. by rewrite andb_false_r. }
  destruct (close_loop_Ok base i (Z.to_nat TASK_FILE_NR) 0 g6 (dead st t) W6) as (g7 & l & E7 & W7 & R7 & [O7 G7] & H7 & Hll & Hl & cs & Q7 & Hcs);
    [by apply R6, R5|done|congruence|done|lia|done|].
  assert (l = replicate 16 None) as ->.
  { apply list_eq. intros k. rewrite Hl. case_decide; [rewrite lookup_replicate_2; [done|lia]|].
    destruct (rk_files _ _ R i t Ht) as [Hlen _]. rewrite !lookup_ge_None_2; rewrite ?length_replicate; cbn; lia || done. }
  (* the children and whoever waits *)
  assert (S7 : ∀ j, slot g7 j = (λ x, if decide (j = i) then set_files (replicate 16 None) (dead st x)
                                      else hung_up t (told t j x)) <$> slot g j).
  { intros j. destruct (decide (j = i)) as [->|Hj]; [by rewrite H7, Ht|].
    rewrite O7, S6, S5, S4, decide_False by done. by destruct (slot g j). }
  destruct (release_Ok g7 t W7) as (g8 & E8 & W8 & G8 & Q8 & R8 & S8).
  { intros j x. rewrite S7. destruct (slot g j) as [y|] eqn:Hy; [|done]. cbn [fmap option_fmap option_map].
    destruct (decide (j = i)); [by intros [= <-]|]. intros [= <-].
    destruct (hung_up_same t (told t j y)) as [-> ->], (told_same t j y) as [-> ->]. by apply (Hwait j y). }
  destruct G7 as (Gc7 & _ & Gt7 & _ & _ & _ & Gy7). destruct G8 as (Gc8 & _ & Gt8 & _ & _ & _ & Gy8).
  destruct (schedule_Ok g8 W8) as [E9 W9].
  assert (Hdead : state (released t (set_files (replicate 16 None) (dead st t))) = TASK_DEAD).
  { unfold released. cbn. destruct (_ =? _); [done|]. by destruct (_ =? _). }
  exists g8. split_and!; try done.
  - unfold sys_exit. rewrite (st_bind_eq _ _ g t g) by (unfold get_current, get_task_at; by rewrite Hc, Ht).
    rewrite (st_bind_eq _ _ g g g) by done. cbn beta. cbv zeta. rewrite Hc.
    rewrite (st_bind_eq _ _ g () g) by (unfold sassert; by rewrite bool_decide_eq_true_2).
    rewrite (st_bind_eq _ _ g () g)
      by (unfold sassert; rewrite Hp; by destruct (Z.eqb_spec i 0), (Z.eqb_spec i 1)).
    rewrite E4, (st_bind_eq _ _ _ _ _ E5), (st_bind_eq _ _ _ _ _ E6), (st_bind_eq _ _ _ _ _ E7), (st_bind_eq _ _ _ _ _ E8).
    exact E9.
  - by apply R8.
  - congruence.
  - eapply next_not; [done| |by rewrite Hdead|done].
    rewrite S8, S7, Ht. cbn [fmap option_fmap option_map]. by rewrite decide_True.
  - congruence.
  - rewrite Gy8, Gy7, Y6, Gy5, Y4. done.
  - exists cs. split; [|done]. by rewrite Q8, Q7, Q6, Q5, Q4, <- app_assoc.
  - intros j. rewrite S8, S7. by destruct (slot g j).
Qed.

(** C16. [exit]: the task is dead with its status, all its descriptors are closed and its
    timers gone; its father has SIGCHLD pending, the session of a session leader SIGHUP;
    its children belong to its father; whoever waits for it is ready; the reference counts
    stay right, and another task runs. *)
Theorem exit_effects base g i t st :
  wf g → refs_ok base g → (∀ x, 0 <= base x <= 1000) → can_exit g i t →
  ∃ g', sys_exit st g = Ok ((), switched (next g') g') ∧ wf g' ∧ refs_ok base g' ∧ current g' = i ∧
    next g' ≠ i ∧ wf (switched (next g') g') ∧
    timers g' = remove_loop i (timers g) ∧
    ttys g' = (if task_sess_leader t && (0 <? tty t) then <[tty t := 0]> (ttys g) else ttys g) ∧
    (∃ cs, calls g' = calls g ++ exit_requests i t ++ cs ∧ forallb is_iput cs = true) ∧
    ∀ j, slot g' j = exit_effect st i t j <$> slot g j.
Proof. apply sys_exit_Ok. Qed.

(** ** Wait *)

Definition no_files (t : task_t) : Prop := files t = replicate 16 None.

Lemma nrefs_none f n : nrefs f (replicate n None) = 0.
Proof. induction n as [|n IH]; [done|]. cbn [replicate nrefs]. rewrite decide_False by done. exact IH. Qed.

Lemma wf_remove g k : wf g → k ≠ 0 → k ≠ current g → 0 <= k < 64 → wf (set_slot k None g).
Proof.
  intros W Hk Hc Hr.
  assert (Hsl : ∀ j, slot (set_slot k None g) j = if decide (j = k) then None else slot g j)
    by (intros; apply slot_set; rewrite (wf_len _ W); lia).
  split.
  - cbn. rewrite length_insert. apply W.
  - intros j x. rewrite Hsl. case_decide; [done|apply W].
  - change (current (set_slot k None g)) with (current g). rewrite Hsl, decide_False by done. apply W.
  - intros j x. rewrite Hsl. case_decide; [done|]. apply (wf_running _ W).
  - destruct (wf_idle _ W) as (t0 & H0 & Hi). exists t0. by rewrite Hsl, decide_False by done.
Qed.

Lemma refs_ok_remove base g k c :
  wf g → refs_ok base g → slot g k = Some c → no_files c → refs_ok base (set_slot k None g).
Proof.
  intros W [R1 R2 R3 R4] Hk Hn. pose proof (slot_range g k c (wf_len _ W) Hk).
  destruct (slot_lookup g k c Hk) as [_ Hl]. split; try done.
  - intros j x. rewrite slot_set by (rewrite (wf_len _ W); lia). case_decide; [done|apply R2].
  - intros f e He. change (file_table (set_slot k None g)) with (file_table g) in He. rewrite (R3 f e He).
    unfold refs, set_slot. cbn. rewrite (task_refs_insert f _ _ _ None Hl), Hn, nrefs_none. lia.
Qed.

(** The child [waitpid] looks at: the first one in the table. *)
Definition first_child (g : sys) (p : Z) : option Z :=
  find_slot (λ x, ppid x =? p) (Z.to_nat (TASK_NR - CHILD_SEARCH_START)) CHILD_SEARCH_START g.

Lemma first_child_spec g p i : first_child g p = Some i → ∃ c, slot g i = Some c ∧ ppid c = p ∧ 2 <= i < 64.
Proof.
  intros H. unfold first_child in H.
  pose proof (find_slot_spec (λ x, ppid x =? p) (Z.to_nat (TASK_NR - CHILD_SEARCH_START)) CHILD_SEARCH_START g) as Hs.
  rewrite H in Hs. destruct Hs as (Hr & (c & Hc & E%Z.eqb_eq) & _). exists c.
  unfold CHILD_SEARCH_START, TASK_NR in Hr. split_and!; try done; lia.
Qed.

(** A child with no other in front of it. *)
Lemma first_child_least g p i :
  length (task_list g) = 64%nat → (∃ c, slot g i = Some c ∧ ppid c = p ∧ 2 <= i) →
  (∀ j x, 2 <= j < i → slot g j = Some x → ppid x = p → False) → first_child g p = Some i.
Proof.
  intros Hl (c & Hc & Hp & Hi) Hf. pose proof (slot_range g i c Hl Hc). unfold first_child.
  pose proof (find_slot_spec (λ x, ppid x =? p) (Z.to_nat (TASK_NR - CHILD_SEARCH_START)) CHILD_SEARCH_START g) as Hs.
  unfold CHILD_SEARCH_START, TASK_NR in *. destruct (find_slot _ _ _ g) as [m|].
  - destruct Hs as (Hr & (x & Hx & Ex%Z.eqb_eq) & Hlt). f_equal. destruct (Z.lt_trichotomy m i) as [Hmi|[?|Hmi]]; [|done|].
    + by destruct (Hf m x ltac:(lia) Hx Ex).
    + specialize (Hlt i c ltac:(lia) Hc). by rewrite Hp, Z.eqb_refl in Hlt.
  - specialize (Hs i c ltac:(lia) Hc). by rewrite Hp, Z.eqb_refl in Hs.
Qed.

Lemma waitpid_reaps g p t i c w :
  wf g → current g = p → slot g p = Some t → i ≠ p → first_child g p = Some i → slot g i = Some c →
  state c = TASK_DEAD →
  sys_waitpid_round w g = Ok (Reaped i (status c), put_calls (calls g ++ [FreeTask i]) (set_slot i None g)).
Proof.
  intros W Hc Ht Hne Hf Hic Hd. destruct (wf_pid _ W p t Ht) as [Hp _]. destruct (wf_pid _ W i c Hic) as [Hpi _].
  unfold sys_waitpid_round. rewrite (st_bind_eq _ _ g t g) by (unfold get_current, get_task_at; by rewrite Hc, Ht).
  rewrite (st_bind_eq _ _ g g g) by done. cbn beta. rewrite Hp. fold (first_child g p). rewrite Hf.
  rewrite (st_bind_eq _ _ g c g) by (unfold get_task_at; by rewrite Hic). cbn beta.
  rewrite bool_decide_eq_true_2, Hpi by done. done.
Qed.

Lemma waitpid_waits g p t i c w :
  wf g → current g = p → slot g p = Some t → p ≠ 0 → first_child g p = Some i → slot g i = Some c →
  state c ≠ TASK_DEAD →
  ∃ g', sys_waitpid_round w g = Ok (Waits, g') ∧ wf g' ∧ current g' ≠ p ∧
    slot g' p = Some (set_state TASK_WAITING (set_waitpid (u32 w) t)).
Proof.
  intros W Hc Ht Hp0 Hf Hic Hd. destruct (wf_pid _ W p t Ht) as [Hp _].
  destruct (upd_step g p t (set_waitpid (u32 w)) W Ht Hp0) as (E1 & W1 & H1 & _); [done..|].
  destruct (with_other g p (set_waitpid (u32 w))) as (C1 & _). set (g1 := with_task g p _) in *.
  destruct (upd_step g1 p _ (set_state TASK_WAITING) W1 H1 Hp0) as (E2 & W2 & H2 & _); [done..|].
  destruct (with_other g1 p (set_state TASK_WAITING)) as (C2 & _). set (g2 := with_task g1 p _) in *.
  destruct (schedule_Ok g2 W2) as [E3 W3]. destruct (next_exists g2 W2) as (tn & Htn & _).
  assert (Hne : next g2 ≠ p) by (by eapply next_not).
  destruct (switched_other (next g2) g2) as (C3 & _).
  exists (switched (next g2) g2). split_and!; [|done|congruence|].
  - unfold sys_waitpid_round. rewrite (st_bind_eq _ _ g t g) by (unfold get_current, get_task_at; by rewrite Hc, Ht).
    rewrite (st_bind_eq _ _ g g g) by done. cbn beta. rewrite Hp. fold (first_child g p). rewrite Hf.
    rewrite (st_bind_eq _ _ g c g) by (unfold get_task_at; by rewrite Hic). cbn beta.
    rewrite bool_decide_eq_false_2 by done. rewrite Hc, (st_bind_eq _ _ _ _ _ E1).
    rewrite (st_bind_eq _ _ g1 (interrupts g1) (switched (next g2) g2)); [done|].
    unfold task_block. rewrite (st_bind_eq _ _ g1 g1 g1) by done. cbn beta iota.
    rewrite (st_bind_eq _ _ _ _ _ E2). rewrite C1, Hc, Z.eqb_refl. by rewrite (st_bind_eq _ _ _ _ _ E3).
  - rewrite switched_slot, H2 by (done || by eexists). cbn [fmap option_fmap option_map]. f_equal.
    by apply switched_idle.
Qed.

(** ** What a run of context switches leaves alone *)

Lemma schedules_static k : ∀ g g',
  wf g → schedules k g = Ok ((), g') →
  (∀ j, ppid <$> slot g' j = ppid <$> slot g j) ∧
  (∀ j x, slot g j = Some x → state x = TASK_DEAD → j ≠ current g → slot g' j = Some x).
Proof.
  induction k as [|k IH]; intros g g' W E.
  { injection E as <-. done. }
  destruct (schedule_Ok g W) as [E1 W1]. cbn [schedules] in E. rewrite (st_bind_eq _ _ _ _ _ E1) in E.
  destruct (next_exists g W) as (tn & Htn & Hnr). destruct (switched_other (next g) g) as (C1 & _).
  destruct (IH _ _ W1 E) as [H1 H2]. split.
  - intros j. rewrite H1, switched_slot by (done || by eexists). destruct (slot g j) as [x|]; [|done].
    cbn [fmap option_fmap option_map]. f_equal. apply switched_static.
  - intros j x Hj Hd Hc. assert (Hne : next g ≠ j).
    { intros E0. subst j. rewrite Hj in Htn. injection Htn as <-. rewrite Hnr in Hd; done. }
    apply H2; [|done|congruence]. rewrite switched_slot, Hj by (done || by eexists).
    cbn [fmap option_fmap option_map]. f_equal. apply switched_idle; [done|by rewrite Hd].
Qed.

Lemma find_slot_ext P n i g g' :
  (∀ j, (P <$> slot g j) = (P <$> slot g' j)) → find_slot P n i g = find_slot P n i g'.
Proof.
  intros H. revert i. induction n as [|n IH]; intros i; [done|]. cbn [find_slot]. specialize (H i).
  destruct (slot g i), (slot g' i); cbn in H; simplify_eq; [|by rewrite IH].
  rewrite H, IH. done.
Qed.

Lemma exited_child st i t :
  pid t = i → ppid t ≠ i →
  let c := exit_effect st i t i t in state c = TASK_DEAD ∧ status c = s32 st ∧ ppid c = ppid t.
Proof.
  intros Hp Hs. unfold exit_effect. rewrite decide_True by done. unfold released. cbn.
  destruct (Z.eqb_spec (ppid t) (pid t)); [congruence|]. by destruct (_ =? _).
Qed.

(** The father, if it waits, is ready after the exit. *)
Lemma exited_father st i t p tp :
  pid t = i → p ≠ i → ppid tp ≠ i → waitpid tp = i → state tp = TASK_WAITING →
  state (exit_effect st i t p tp) = TASK_READY.
Proof.
  intros Hp Hne Hg Hw Hs. unfold exit_effect. rewrite decide_False by done.
  assert (H : ∀ x, ppid x = ppid tp → waitpid x = i → state x = TASK_WAITING → state (released t x) = TASK_READY).
  { intros x E1 E2 E3. unfold released. rewrite E1, E2, Hp, Z.eqb_refl, bool_decide_eq_true_2 by done.
    by destruct (Z.eqb_spec (ppid tp) i). }
  apply H; unfold hung_up, told; destruct (_ && _ && _), (decide _); done.
Qed.

(** The father of a task afterwards. *)
Lemma exited_ppid st i t j x :
  ppid (exit_effect st i t j x) = if ppid x =? pid t then ppid t else ppid x.
Proof.
  unfold exit_effect.
  assert (H : ∀ y, ppid y = ppid x → ppid (released t y) = if ppid x =? pid t then ppid t else ppid x).
  { intros y E. unfold released. rewrite E. destruct (_ =? pid t); [done|]. destruct (_ =? pid t); [|done].
    by case_bool_decide. }
  apply H. case_decide; [done|]. unfold hung_up, told. destruct (_ && _ && _), (decide _); done.
Qed.

(** A ready or running task runs soon. *)
Lemma runs_soon g p t :
  wf g → slot g p = Some t → p ≠ 0 → state t = TASK_READY ∨ current g = p →
  ∃ k g', (k <= 63)%nat ∧ schedules k g = Ok ((), g') ∧ wf g' ∧ current g' = p.
Proof.
  intros W Ht Hp [Hs|Hc]; [|by exists 0%nat, g; split; [lia|]].
  apply (schedules_reach 63 g p t W Ht Hs Hp).
  pose proof (Z.mod_pos_bound (p - current g) 64). unfold distance, ring, TASK_NR. lia.
Qed.

(** C17. The handshake of exit and wait: when a task exits whose father waits for it, the
    father is made ready; and if the other tasks only give up the processor, the father
    runs again after at most 63 switches and its [waitpid] then returns the pid of the
    child and the status it exited with, and frees the child's slot.  [waitpid] looks only at
    the first child in the table, from slot 2 on, and the children of the task that exits
    become the father's: so no slot in front of the task's may hold a child of either. *)
Theorem wait_gets_exit_status base g i t st p tp w :
  wf g → refs_ok base g → (∀ x, 0 <= base x <= 1000) → can_exit g i t →
  ppid t = p → p ≠ 0 → slot g p = Some tp → state tp = TASK_WAITING → waitpid tp = i → ppid tp ≠ i →
  2 <= i → (∀ j x, 2 <= j < i → slot g j = Some x → ppid x ≠ p ∧ ppid x ≠ i) →
  ∃ k g1 g2 g3, sys_exit st g = Ok ((), g1) ∧ (k <= 63)%nat ∧ schedules k g1 = Ok ((), g2) ∧ current g2 = p ∧
    sys_waitpid_round w g2 = Ok (Reaped i (s32 st), g3) ∧ slot g3 i = None ∧ wf g3 ∧ wf g2.
Proof.
  intros W R Hb CE Hpt Hp0 Htp Hwp Hwi Hgp Hi2 Hfront.
  destruct (sys_exit_Ok base g i t st W R Hb CE) as (ge & E & We & Re & Ce & Hne & Ws & _ & _ & _ & S).
  destruct CE as [Hc Ht Hrun [Hi0 Hi1] Hfa Hself Htty Hwait]. destruct (wf_pid _ W i t Ht) as [Hpi _].
  set (g1 := switched (next ge) ge) in *. destruct (next_exists ge We) as (tn & Htn & _).
  assert (C1 : current g1 = next ge) by apply switched_other.
  assert (S1 : ∀ j, slot g1 j = switched_task (next ge) ge j <$> slot ge j)
    by (intros j; apply switched_slot; [done|by eexists]).
  destruct (exited_child st i t Hpi Hself) as (Hd & Hst & Hcp). set (c := exit_effect st i t i t) in *.
  assert (Hie : slot ge i = Some c) by (by rewrite S, Ht).
  assert (Hi1' : slot g1 i = Some c).
  { rewrite S1, Hie. cbn [fmap option_fmap option_map]. f_equal. apply switched_idle; [done|by rewrite Hd]. }
  (* the father gets the processor *)
  assert (Hpi' : p ≠ i) by congruence.
  set (fa := exit_effect st i t p tp). assert (Hfr : state fa = TASK_READY) by by apply exited_father.
  assert (Hpe : slot ge p = Some fa) by by rewrite S, Htp.
  assert (Hsoon : ∃ k g2, (k <= 63)%nat ∧ schedules k g1 = Ok ((), g2) ∧ wf g2 ∧ current g2 = p).
  { eapply (runs_soon g1 p (switched_task (next ge) ge p fa)); [done|by rewrite S1, Hpe|done|].
    rewrite C1. by apply switched_ready. }
  destruct Hsoon as (k & g2 & Hk & E2 & W2 & C2). destruct (schedules_static k g1 g2 Ws E2) as [Hpp Hdd].
  assert (Hi2' : slot g2 i = Some c) by (apply Hdd; [done|done|congruence]).
  destruct (wf_cur _ W2) as [tp2 Htp2]. rewrite C2 in Htp2.
  (* the child is the one it finds *)
  assert (Hfirst : first_child g2 p = Some i).
  { apply first_child_least; [by rewrite (wf_len _ W2)|exists c; split; [done|split; [congruence|done]]|].
    intros m y Hm Hy Hyp. assert (Hym : ppid <$> slot g2 m = Some p) by (rewrite Hy; cbn [fmap option_fmap option_map]; by rewrite Hyp).
    rewrite Hpp, S1, S in Hym. destruct (slot g m) as [x|] eqn:Hx; [|done]. cbn [fmap option_fmap option_map] in Hym. apply (inj Some) in Hym.
    rewrite (proj1 (switched_static _ _ _ _)), exited_ppid, Hpi in Hym. destruct (Hfront m x Hm Hx) as [H1 H2].
    destruct (Z.eqb_spec (ppid x) i); [done|congruence]. }
  pose proof (waitpid_reaps g2 p tp2 i c w W2 C2 Htp2 ltac:(congruence) Hfirst Hi2' Hd) as E3. rewrite Hst in E3.
  pose proof (slot_range g2 i c (wf_len _ W2) Hi2').
  exists k, g1, g2, (put_calls (calls g2 ++ [FreeTask i]) (set_slot i None g2)). split_and!; try done.
  - change (slot (set_slot i None g2) i = None). rewrite slot_set by (rewrite (wf_len _ W2); lia). by rewrite decide_True.
  - apply (wf_globals (set_slot i None g2)); [done..|]. apply wf_remove; [done|lia|congruence|lia].
Qed.

(** ** A concrete machine *)

Definition slots_check (P : Z → task_t → bool) (g : sys) : bool :=
  forallb (λ j, match slot g j with Some x => P j x | None => true end) (seqZ 0 64).

Lemma slots_checked P g :
  length (task_list g) = 64%nat → slots_check P g = true → ∀ j x, slot g j = Some x → P j x = true.
Proof.
  unfold slots_check. rewrite forallb_forall. intros Hl H j x Hx. pose proof (slot_range g j x Hl Hx).
  specialize (H j). rewrite Hx in H. apply H, list_elem_of_In, elem_of_seqZ. lia.
Qed.

(** Idle, init, a shell that waits for its child, and the child, which runs. *)
Definition family : sys :=
  Sys ([Some (demo_task 0 TASK_READY 0 0); Some (demo_task 1 TASK_READY 0 0);
        Some (set_waitpid 3 (demo_task 2 TASK_WAITING 1 1000)); Some (demo_task 3 TASK_RUNNING 2 1000)] ++ replicate 60 None)
      3 ∅ [] 100 false false ∅
      (replicate 3 (File 1 4 0 0 0) ++ replicate 125 (File 0 0 0 0 0)) [].

Lemma family_wf : wf family.
Proof. apply wf_checked. vm_compute. reflexivity. Qed.

Lemma family_refs : refs_ok (λ _, 0) family.
Proof. apply refs_checked. vm_compute. reflexivity. Qed.

Lemma family_can_exit : can_exit family 3 (demo_task 3 TASK_RUNNING 2 1000).
Proof.
  split; try done.
  - right. by eexists.
  - intros j x Hx _.
    pose proof (slots_checked (λ _ x, match on_list x with None => true | Some _ => false end) family eq_refl ltac:(vm_compute; reflexivity) j x Hx) as H.
    cbn beta in H. by destruct (on_list x).
Qed.

Lemma fork_copies_task_witness :
  ∃ g', sys_fork demo = Ok (5, g') ∧ wf g' ∧ refs_ok (λ _, 0) g' ∧ same_globals demo g' ∧
    slot demo 5 = None ∧ slot g' 2 = Some (set_eax 5 (demo_task 2 TASK_RUNNING 1 1000)) ∧
    slot g' 5 = Some (set_eax 0 (forked 5 (demo_task 2 TASK_RUNNING 1 1000))) ∧
    (∀ j, j ≠ 2 → j ≠ 5 → slot g' j = slot demo j) ∧
    calls g' = calls demo ++ fork_calls 5 (demo_task 2 TASK_RUNNING 1 1000).
Proof.
  exact (fork_copies_task (λ _, 0) demo 2 (demo_task 2 TASK_RUNNING 1 1000) demo_wf demo_refs ltac:(intros; lia)
    eq_refl ltac:(done) eq_refl eq_refl).
Defined.

Lemma exit_effects_witness :
  ∃ g', sys_exit 7 family = Ok ((), switched (next g') g') ∧ refs_ok (λ _, 0) g' ∧
    slot g' 2 = Some (exit_effect 7 3 (demo_task 3 TASK_RUNNING 2 1000) 2 (set_waitpid 3 (demo_task 2 TASK_WAITING 1 1000))).
Proof.
  destruct (exit_effects (λ _, 0) family 3 (demo_task 3 TASK_RUNNING 2 1000) 7 family_wf family_refs ltac:(intros; lia) family_can_exit)
    as (g' & E & _ & R & _ & _ & _ & _ & _ & _ & S).
  exists g'. exact (conj E (conj R (S 2))).
Defined.

Lemma wait_gets_exit_status_witness :
  ∃ k g1 g2 g3, sys_exit 7 family = Ok ((), g1) ∧ (k <= 63)%nat ∧ schedules k g1 = Ok ((), g2) ∧ current g2 = 2 ∧
    sys_waitpid_round 3 g2 = Ok (Reaped 3 7, g3) ∧ slot g3 3 = None ∧ wf g3 ∧ wf g2.
Proof.
  apply (wait_gets_exit_status (λ _, 0) family 3 (demo_task 3 TASK_RUNNING 2 1000) 7 2
    (set_waitpid 3 (demo_task 2 TASK_WAITING 1 1000)) 3 family_wf family_refs ltac:(intros; lia) family_can_exit);
    try reflexivity; try discriminate.
  intros j x Hj Hx. assert (j = 2) as -> by lia. vm_compute in Hx. injection Hx as <-. by split.
Defined.

(** A father that waits for any child ([waitpid] with -1) is not woken by the exit of one:
    only the exact pid is compared. *)
Definition family_any : sys :=
  put_task_list (<[2%nat := Some (set_waitpid EOFu (demo_task 2 TASK_WAITING 1 1000))]> (task_list family)) family.

Lemma wait_any_not_woken :
  ∃ g', sys_exit 7 family_any = Ok ((), g') ∧
    match slot g' 2 with Some x => state x = TASK_WAITING | None => False end.
Proof. eexists. split; [vm_compute; reflexivity|]. reflexivity. Qed.
