(* ===== verification/Signal.v ===== *)
(** * Signals (src/kernel/signal.c, src/lib/restorer.asm)

    Masks and handlers, [kill], the delivery of a signal when the kernel returns to user
    mode, and the way back from the handler.  A signal frame on the user stack is kept by
    its address; the handler itself is user code: it may change eax, ecx, edx and the
    flags, and returns with the stack pointer it was entered with. *)

From S2P Require Import Prelude DList Bitmap Task Timer Fd Process.

Definition SIG_NOMASK : Z := 0x40000000.
Definition SIG_ONESHOT : Z := 0x80000000.
Definition FRAME_SIZE : Z := 32.

Definition has_signal (m sig : Z) : bool := negb (Z.land m (SIGMASK sig) =? 0).

Definition set_handler (h : Z) (a : sigaction_t) : sigaction_t := SigAction h (mask a) (flags a) (restorer a).

Definition upd_current (f : task_t → task_t) : K unit := λ g, upd_task (current g) f g.

(** ** The system calls *)

Definition sys_sgetmask : K Z := t ← get_current; mret (s32 (blocked t)).

Definition sys_ssetmask (newmask : Z) : K Z :=
  if newmask =? EOF_ then mret (- EPERM)
  else
    t ← get_current;
    let old := s32 (blocked t) in
    upd_current (set_blocked (u32 (Z.land newmask (Z.lnot (SIGMASK SIGKILL)))));;
    mret old.

Definition bad_signal (sig : Z) : bool := (sig <? MINSIG) || (MAXSIG <? sig).

(** [task->actions[sig - 1] = a] for the running task. *)
Definition put_action (sig : Z) (a : sigaction_t) : K unit :=
  t ← get_current;
  l ← lift_st (zset (actions t) (sig - 1) a);
  upd_current (set_actions l).

Definition sys_signal (sig handler' restorer' : Z) : K Z :=
  if bad_signal sig || (sig =? SIGKILL) then mret EOF_
  else
    put_action sig (SigAction (u32 handler') 0 (Z.lor SIG_ONESHOT SIG_NOMASK) (u32 restorer'));;
    mret handler'.

(** The result is the old action, which the call stores through its third argument. *)
Definition sys_sigaction (sig : Z) (action : sigaction_t) : K (Z * option sigaction_t) :=
  if bad_signal sig || (sig =? SIGKILL) then mret (EOF_, None)
  else
    t ← get_current;
    old ← lift_st (zget (actions t) (sig - 1));
    let m := if negb (Z.land (flags action) SIG_NOMASK =? 0) then 0 else Z.lor (mask action) (SIGMASK sig) in
    put_action sig (SigAction (handler action) m (flags action) (restorer action));;
    mret (0, Some old).

Definition sys_kill (p sig : Z) : K Z :=
  if bad_signal sig then mret EOF_
  else
    o ← get_task (u32 p);
    match o with
    | None => mret EOF_
    | Some i =>
        t ← get_task_at i;
        if (pid t =? 1) || (uid t =? KERNEL_RING0) then mret EOF_
        else
          upd_task i (raise_signal sig);;
          (if bool_decide (state t = TASK_WAITING) || bool_decide (state t = TASK_SLEEPING)
           then task_intr_unblock_no_waiting_list i else mret ());;
          mret 0
    end.

(** ** Delivery *)

Fixpoint first_signal (n : nat) (sig map : Z) : Z :=
  match n with
  | O => sig
  | S n => if has_signal map sig then sig else first_signal n (sig + 1) map
  end.

(** [task->signal &= ~SIGMASK(sig)]. *)
Definition clear_signal (sig : Z) (t : task_t) : task_t :=
  set_signal (Z.land (signal t) (Z.lnot (SIGMASK sig))) t.

Definition set_user_stack (v : gmap Z signal_frame_t) (r : user_frame) : user_frame :=
  UserFrame (r_esp r) (r_eip r) (r_eflags r) (r_eax r) (r_ecx r) (r_edx r) v.

(** The frame that is pushed, and the registers with which the handler is entered. *)
Definition signal_frame (sig : Z) (a : sigaction_t) (t : task_t) : signal_frame_t :=
  let r := frame t in
  SigFrame (restorer a) sig (if negb (Z.land (flags a) SIG_NOMASK =? 0) then blocked t else EOFu)
    (r_eax r) (r_ecx r) (r_edx r) (r_eflags r) (r_eip r).

Definition enter_handler (sig : Z) (a : sigaction_t) (t : task_t) : user_frame :=
  let r := frame t in
  let sp := u32 (r_esp r - FRAME_SIZE) in
  UserFrame sp (handler a) (r_eflags r) (r_eax r) (r_ecx r) (r_edx r)
    (<[sp := signal_frame sig a t]> (user_stack r)).

Definition task_signal : K unit :=
  t ← get_current;
  let map := Z.land (signal t) (Z.lnot (blocked t)) in
  if map =? 0 then mret ()
  else
    sassert (negb (uid t =? 0));;
    let sig := first_signal (Z.to_nat MAXSIG) 1 map in
    (if sig <=? MAXSIG then upd_current (clear_signal sig) else mret ());;
    t ← get_current;
    a ← lift_st (zget (actions t) (sig - 1));
    if handler a =? SIG_IGN then mret ()
    else if (handler a =? SIG_DFL) && (sig =? SIGCHLD) then mret ()
    else if handler a =? SIG_DFL then sys_exit (SIGMASK sig)
    else
      upd_current (λ t, set_frame (enter_handler sig a t) t);;
      (if negb (Z.land (flags a) SIG_ONESHOT =? 0) then put_action sig (set_handler SIG_DFL a) else mret ());;
      upd_current (λ t, set_blocked (Z.lor (blocked t) (mask a)) t).

(** ** The way back *)

(** The handler's [ret] takes the return address off the stack. *)
Definition handler_return (eax' ecx' edx' eflags' : Z) : K unit :=
  t ← get_current;
  let r := frame t in
  match user_stack r !! r_esp r with
  | None => stop_st OutOfBounds
  | Some f => upd_current (set_frame (UserFrame (u32 (r_esp r + 4)) (f_restorer f) eflags' eax' ecx' edx' (user_stack r)))
  end.

(** [restorer]: it skips [sig], passes [blocked] to [ssetmask], pops the registers and
    returns to the interrupted code. *)
Definition run_restorer : K unit :=
  t ← get_current;
  let sp := u32 (r_esp (frame t) - 4) in
  match user_stack (frame t) !! sp with
  | None => stop_st OutOfBounds
  | Some f =>
      sys_ssetmask (s32 (f_blocked f));;
      upd_current (λ t, set_frame (UserFrame (u32 (sp + FRAME_SIZE)) (f_eip f) (f_eflags f) (f_eax f) (f_ecx f) (f_edx f)
                                     (user_stack (frame t))) t)
  end.

(** ** Working on the running task *)

(** The running task is [t], in slot [i]. *)
Definition runs_as (g : sys) (i : Z) (t : task_t) : Prop :=
  length (task_list g) = 64%nat ∧ current g = i ∧ slot g i = Some t.

Lemma running_upd g i t f :
  runs_as g i t → upd_current f g = Ok ((), with_task g i f) ∧ runs_as (with_task g i f) i (f t).
Proof.
  intros (Hl & Hc & Ht). split; [unfold upd_current; rewrite Hc; apply upd_task_Ok; by eexists|].
  split; [by rewrite with_len|]. split; [by rewrite (proj1 (with_other g i f))|].
  rewrite slot_with by (done || by eexists). by rewrite decide_True, Ht.
Qed.

Lemma runs_others g i t f j : runs_as g i t → j ≠ i → slot (with_task g i f) j = slot g j.
Proof. intros (Hl & _ & Ht) Hj. rewrite slot_with by (done || by eexists). by rewrite decide_False. Qed.

Lemma running_get g i t : runs_as g i t → get_current g = Ok (t, g).
Proof. intros (_ & Hc & Ht). unfold get_current, get_task_at. by rewrite Hc, Ht. Qed.

Lemma runs_put_action g i t sig a :
  runs_as g i t → length (actions t) = 31%nat → 1 <= sig <= 31 →
  let f := set_actions (<[Z.to_nat (sig - 1) := a]> (actions t)) in
  put_action sig a g = Ok ((), with_task g i f) ∧ runs_as (with_task g i f) i (f t).
Proof.
  intros Hr Hl Hs f. unfold put_action. rewrite (st_bind_eq _ _ _ _ _ (running_get g i t Hr)).
  rewrite (st_bind_eq _ _ g (<[Z.to_nat (sig - 1) := a]> (actions t)) g) by (unfold lift_st; by rewrite zset_Ok by lia).
  by apply running_upd.
Qed.

(** ** Which signal *)

Lemma has_signal_bit m sig : 1 <= sig → has_signal m sig = Z.testbit m (sig - 1).
Proof. intros. apply land_pow2_testbit. lia. Qed.

Lemma first_signal_spec n sig m :
  let k := first_signal n sig m in
  sig <= k <= sig + Z.of_nat n ∧ (k < sig + Z.of_nat n → has_signal m k = true) ∧
  ∀ j, sig <= j < k → has_signal m j = false.
Proof.
  revert sig. induction n as [|n IH]; intros sig; cbn [first_signal].
  { split; [lia|]. split; [lia|]. intros j. lia. }
  destruct (has_signal m sig) eqn:E.
  { split; [lia|]. split; [done|]. intros j. lia. }
  destruct (IH (sig + 1)) as (H1 & H2 & H3). split; [lia|]. split; [intros; apply H2; lia|].
  intros j Hj. destruct (decide (j = sig)) as [->|]; [done|]. apply H3. lia.
Qed.

Lemma clear_signal_bits sig t k :
  1 <= sig <= 31 → 0 <= k →
  Z.testbit (signal (clear_signal sig t)) k = Z.testbit (signal t) k && negb (k =? sig - 1).
Proof.
  intros Hs Hk. cbn. rewrite Z.land_spec, Z.lnot_spec by done. do 2 f_equal.
  unfold SIGMASK. rewrite Z.shiftl_1_l, Z.pow2_bits_eqb by lia. by rewrite Z.eqb_sym.
Qed.

(** The lowest signal that is pending and not blocked. *)
Definition deliverable (t : task_t) (sig : Z) : Prop :=
  1 <= sig <= 31 ∧ Z.testbit (signal t) (sig - 1) = true ∧ Z.testbit (blocked t) (sig - 1) = false ∧
  ∀ j, 1 <= j < sig → Z.testbit (signal t) (j - 1) = true → Z.testbit (blocked t) (j - 1) = true.

Lemma deliverable_first t sig :
  deliverable t sig →
  let map := Z.land (signal t) (Z.lnot (blocked t)) in
  map ≠ 0 ∧ first_signal (Z.to_nat MAXSIG) 1 map = sig.
Proof.
  intros (Hs & H1 & H2 & H3) map.
  assert (Hb : ∀ k, 1 <= k → has_signal map k = Z.testbit (signal t) (k - 1) && negb (Z.testbit (blocked t) (k - 1))).
  { intros k Hk. rewrite has_signal_bit by lia. unfold map. rewrite Z.land_spec, Z.lnot_spec by lia. done. }
  assert (Hsig : has_signal map sig = true) by (rewrite Hb, H1, H2 by lia; done).
  split. { intros E. rewrite has_signal_bit, E, Z.bits_0 in Hsig by lia. done. }
  destruct (first_signal_spec (Z.to_nat MAXSIG) 1 map) as (Hr & Ht & Hf).
  set (k := first_signal _ 1 map) in *. change (Z.of_nat (Z.to_nat MAXSIG)) with 31 in *.
  destruct (Z.lt_trichotomy k sig) as [Hlt|[E|Hgt]]; [|done|].
  - specialize (Ht ltac:(lia)). rewrite Hb in Ht by lia. apply andb_true_iff in Ht as [Ht1 Ht2].
    apply negb_true_iff in Ht2. rewrite (H3 k ltac:(lia) Ht1) in Ht2. done.
  - rewrite (Hf sig) in Hsig by lia. done.
Qed.

(** The start of [task_signal] when there is something to deliver. *)
Lemma task_signal_picks g i t sig :
  runs_as g i t → uid t ≠ 0 → deliverable t sig → length (actions t) = 31%nat →
  ∃ a, zget (actions t) (sig - 1) = Ok a ∧
  task_signal g =
    (if handler a =? SIG_IGN then mret ()
     else if (handler a =? SIG_DFL) && (sig =? SIGCHLD) then mret ()
     else if handler a =? SIG_DFL then sys_exit (SIGMASK sig)
     else
       upd_current (λ t, set_frame (enter_handler sig a t) t);;
       (if negb (Z.land (flags a) SIG_ONESHOT =? 0) then put_action sig (set_handler SIG_DFL a) else mret ());;
       upd_current (λ t, set_blocked (Z.lor (blocked t) (mask a)) t))
      (with_task g i (clear_signal sig)).
Proof.
  intros Hr Hu Hd Hl. destruct (deliverable_first t sig Hd) as [Hmap Hfirst]. destruct Hd as (Hs & _).
  destruct (zget_is_Ok (actions t) (sig - 1)) as (a & Ha & _); [lia|]. exists a. split; [done|].
  unfold task_signal. rewrite (st_bind_eq _ _ _ _ _ (running_get g i t Hr)). cbn zeta.
  destruct (Z.eqb_spec (Z.land (signal t) (Z.lnot (blocked t))) 0); [done|].
  rewrite (st_bind_eq _ _ g () g) by (unfold sassert; by destruct (Z.eqb_spec (uid t) 0)).
  rewrite Hfirst. destruct (Z.leb_spec sig MAXSIG); [|unfold MAXSIG in *; lia].
  destruct (running_upd g i t (clear_signal sig) Hr) as [E1 Hr1]. rewrite (st_bind_eq _ _ _ _ _ E1).
  rewrite (st_bind_eq _ _ _ _ _ (running_get _ i _ Hr1)).
  rewrite (st_bind_eq _ _ _ a (with_task g i (clear_signal sig))) by (unfold lift_st; cbn; by rewrite Ha).
  done.
Qed.

(** ** Into the handler *)

Definition nomask (a : sigaction_t) : bool := negb (Z.land (flags a) SIG_NOMASK =? 0).
Definition oneshot (a : sigaction_t) : bool := negb (Z.land (flags a) SIG_ONESHOT =? 0).

(** The running task when it enters the handler. *)
Definition handled (sig : Z) (a : sigaction_t) (t : task_t) : task_t :=
  let t1 := set_frame (enter_handler sig a t) (clear_signal sig t) in
  set_blocked (Z.lor (blocked t) (mask a))
    (if oneshot a then set_actions (<[Z.to_nat (sig - 1) := set_handler SIG_DFL a]> (actions t)) t1 else t1).

Lemma task_signal_enters g i t sig a :
  runs_as g i t → uid t ≠ 0 → deliverable t sig → length (actions t) = 31%nat →
  zget (actions t) (sig - 1) = Ok a → handler a ≠ SIG_IGN → handler a ≠ SIG_DFL →
  ∃ g', task_signal g = Ok ((), g') ∧ runs_as g' i (handled sig a t) ∧ (∀ j, j ≠ i → slot g' j = slot g j).
Proof.
  intros Hr Hu Hd Hl Ha Hi Hdf. destruct (task_signal_picks g i t sig Hr Hu Hd Hl) as (a' & Ha' & E).
  assert (a' = a) as -> by congruence. clear Ha'. destruct Hd as (Hs & _).
  destruct (Z.eqb_spec (handler a) SIG_IGN), (Z.eqb_spec (handler a) SIG_DFL); try done. cbn [andb] in E.
  destruct (running_upd g i t (clear_signal sig) Hr) as [_ Hr1]. set (g1 := with_task g i (clear_signal sig)) in *.
  destruct (running_upd g1 i _ (λ t, set_frame (enter_handler sig a t) t) Hr1) as [E2 Hr2].
  set (g2 := with_task g1 i _) in *. rewrite E, (st_bind_eq _ _ _ _ _ E2).
  assert (O2 : ∀ j, j ≠ i → slot g2 j = slot g j).
  { intros j Hj. unfold g2. rewrite (runs_others g1 i _ _ j Hr1 Hj). by apply (runs_others g i t). }
  set (t2 := set_frame (enter_handler sig a (clear_signal sig t)) (clear_signal sig t)) in *.
  change (negb (Z.land (flags a) SIG_ONESHOT =? 0)) with (oneshot a).
  assert (E3 : ∃ g3, (if oneshot a then put_action sig (set_handler SIG_DFL a) else (mret () : ST sys unit)) g2 = Ok ((), g3) ∧
    runs_as g3 i (if oneshot a then set_actions (<[Z.to_nat (sig - 1) := set_handler SIG_DFL a]> (actions t)) t2 else t2) ∧
    ∀ j, j ≠ i → slot g3 j = slot g j).
  { destruct (oneshot a).
    - destruct (runs_put_action g2 i t2 sig (set_handler SIG_DFL a) Hr2 Hl Hs) as [E3 Hr3].
      eexists. split; [exact E3|]. split; [exact Hr3|]. intros j Hj. rewrite (runs_others g2 i _ _ j Hr2 Hj). by apply O2.
    - exists g2. done. }
  destruct E3 as (g3 & E3 & Hr3 & O3). rewrite (st_bind_eq _ _ _ _ _ E3).
  destruct (running_upd g3 i _ (λ t, set_blocked (Z.lor (blocked t) (mask a)) t) Hr3) as [E4 Hr4].
  eexists. split; [exact E4|]. split.
  - unfold handled. destruct (oneshot a); exact Hr4.
  - intros j Hj. rewrite (runs_others g3 i _ _ j Hr3 Hj). by apply O3.
Qed.

(** What [task_signal] does on the way back to user mode: with nothing deliverable it
    does nothing; otherwise the lowest deliverable signal is taken off the pending set, and
    is ignored, ends the task with the signal's bit as status, or enters the handler with a
    frame on the user stack. *)
Theorem task_signal_cases g i t :
  runs_as g i t → uid t ≠ 0 → length (actions t) = 31%nat →
  (Z.land (signal t) (Z.lnot (blocked t)) = 0 → task_signal g = Ok ((), g)) ∧
  (∀ sig, deliverable t sig → ∃ a, zget (actions t) (sig - 1) = Ok a ∧
     (∀ k, 0 <= k → Z.testbit (signal (clear_signal sig t)) k = Z.testbit (signal t) k && negb (k =? sig - 1)) ∧
     let g1 := with_task g i (clear_signal sig) in
     (handler a = SIG_IGN ∨ (handler a = SIG_DFL ∧ sig = SIGCHLD) → task_signal g = Ok ((), g1)) ∧
     (handler a = SIG_DFL ∧ sig ≠ SIGCHLD → task_signal g = sys_exit (SIGMASK sig) g1) ∧
     (handler a ≠ SIG_IGN ∧ handler a ≠ SIG_DFL →
        ∃ g', task_signal g = Ok ((), g') ∧ runs_as g' i (handled sig a t) ∧ ∀ j, j ≠ i → slot g' j = slot g j)).
Proof.
  intros Hr Hu Hl. split.
  - intros Hz. unfold task_signal. rewrite (st_bind_eq _ _ _ _ _ (running_get g i t Hr)). by rewrite Hz.
  - intros sig Hd. destruct (task_signal_picks g i t sig Hr Hu Hd Hl) as (a & Ha & E). exists a. split; [done|].
    split; [intros k Hk; apply clear_signal_bits; [apply Hd|done]|]. cbn zeta. split; [|split].
    + intros [H|[H1 H2]]; rewrite E; [by rewrite H|by rewrite H1, H2].
    + intros [H1 H2]. rewrite E, H1. by destruct (Z.eqb_spec sig SIGCHLD).
    + intros [H1 H2]. by apply task_signal_enters.
Qed.

(** ** And back *)

(** [ssetmask] as the restorer calls it. *)
Lemma ssetmask_restores g i t m :
  runs_as g i t → 0 <= m < 4294967296 → Z.testbit m 8 = false →
  ∃ r g', sys_ssetmask (s32 m) g = Ok (r, g') ∧ runs_as g' i (set_blocked m t).
Proof.
  intros Hr Hm Hb. unfold sys_ssetmask.
  assert (Hne : s32 m ≠ EOF_).
  { unfold s32, EOF_. intros E. assert (m = 4294967295) as ->; [|done].
    revert E. destruct (decide (m < 2147483648)).
    - rewrite Z.mod_small by lia. lia.
    - replace (m + 2147483648) with (m - 2147483648 + 1 * 4294967296) by lia.
      rewrite Z_mod_plus_full, Z.mod_small by lia. lia. }
  destruct (Z.eqb_spec (s32 m) EOF_) as [|Hneof]; [done|].
  rewrite (st_bind_eq _ _ _ _ _ (running_get g i t Hr)).
  set (v := u32 _). assert (v = m) as ->.
  { unfold v. apply Z.bits_inj'. intros n Hn. unfold u32. change 4294967296 with (2 ^ 32).
    destruct (decide (n < 32)).
    - rewrite Z.mod_pow2_bits_low, Z.land_spec, Z.lnot_spec by lia.
      assert (Z.testbit (s32 m) n = Z.testbit m n) as ->.
      { unfold s32. replace ((m + 2147483648) mod 4294967296 - 2147483648) with (if decide (m < 2147483648) then m else m - 4294967296).
        - case_decide; [done|]. rewrite <- (Z.mod_pow2_bits_low (m - 4294967296) 32) by lia.
          rewrite <- (Z.mod_pow2_bits_low m 32) by lia. f_equal.
          replace (m - 4294967296) with (m + (-1) * 2 ^ 32) by lia. by rewrite Z_mod_plus_full.
        - case_decide; [rewrite Z.mod_small by lia; lia|].
          replace (m + 2147483648) with (m - 2147483648 + 1 * 4294967296) by lia.
          rewrite Z_mod_plus_full, Z.mod_small by lia. lia. }
      change (SIGMASK SIGKILL) with (2 ^ 8). rewrite Z.pow2_bits_eqb by lia.
      destruct (Z.eqb_spec 8 n); [subst; by rewrite Hb|by rewrite andb_true_r].
    - rewrite Z.mod_pow2_bits_high by lia. symmetry. destruct (decide (m = 0)) as [->|]; [apply Z.bits_0|].
      apply Z.bits_above_log2; [lia|]. apply Z.log2_lt_pow2; [lia|].
      apply Z.lt_le_trans with (2 ^ 32); [change (2 ^ 32) with 4294967296; lia|]. apply Z.pow_le_mono_r; lia. }
  destruct (running_upd g i t (set_blocked m) Hr) as [E Hr'].
  eexists _, _. split; [rewrite (st_bind_eq _ _ _ _ _ E); reflexivity|done].
Qed.

(** Is the context restored? *)
Definition same_context (r r' : user_frame) : Prop :=
  r_esp r' = r_esp r ∧ r_eip r' = r_eip r ∧ r_eflags r' = r_eflags r ∧
  r_eax r' = r_eax r ∧ r_ecx r' = r_ecx r ∧ r_edx r' = r_edx r.

(** C23. Signal delivery and return: the handler is entered with the signal as its argument
    and the restorer as its return address; whatever it does to eax, ecx, edx and the
    flags, after it and the restorer the interrupted context is back exactly.  The mask is
    back too for an action with SIG_NOMASK; without it the mask of the action stays
    blocked, since the restorer asks for the mask [EOF], which [ssetmask] refuses. *)
Theorem signal_roundtrip g i t sig a eax' ecx' edx' eflags' :
  runs_as g i t → uid t ≠ 0 → deliverable t sig → length (actions t) = 31%nat →
  zget (actions t) (sig - 1) = Ok a → handler a ≠ SIG_IGN → handler a ≠ SIG_DFL →
  FRAME_SIZE <= r_esp (frame t) < 4294967296 → 0 <= blocked t < 4294967296 → Z.testbit (blocked t) 8 = false →
  ∃ g1 g2 g3 t1 t2 t3 f,
    task_signal g = Ok ((), g1) ∧ runs_as g1 i t1 ∧ r_eip (frame t1) = handler a ∧
    user_stack (frame t1) !! r_esp (frame t1) = Some f ∧ f_restorer f = restorer a ∧ f_sig f = sig ∧
    handler_return eax' ecx' edx' eflags' g1 = Ok ((), g2) ∧ runs_as g2 i t2 ∧ r_eip (frame t2) = restorer a ∧
    run_restorer g2 = Ok ((), g3) ∧ runs_as g3 i t3 ∧ same_context (frame t) (frame t3) ∧
    blocked t3 = (if nomask a then blocked t else Z.lor (blocked t) (mask a)).
Proof.
  intros Hr Hu Hd Hl Ha Hi Hdf Hsp Hbl Hb8.
  destruct (task_signal_enters g i t sig a Hr Hu Hd Hl Ha Hi Hdf) as (g1 & E1 & Hr1 & _).
  set (t1 := handled sig a t) in *. unfold FRAME_SIZE in Hsp.
  set (sp := r_esp (frame t) - 32). assert (Hu32 : u32 (r_esp (frame t) - FRAME_SIZE) = sp) by (apply u32_small; unfold FRAME_SIZE; lia).
  assert (Hf1 : frame t1 = enter_handler sig a t) by (unfold t1, handled; by destruct (oneshot a)).
  assert (Hb1 : blocked t1 = Z.lor (blocked t) (mask a)) by done.
  assert (Hesp1 : r_esp (frame t1) = sp) by (rewrite Hf1; exact Hu32).
  assert (Hst1 : user_stack (frame t1) !! sp = Some (signal_frame sig a t)).
  { rewrite Hf1. unfold enter_handler. cbn [user_stack]. rewrite Hu32. by rewrite lookup_insert_eq. }
  set (f := signal_frame sig a t) in *.
  set (r2 := UserFrame (u32 (r_esp (frame t1) + 4)) (f_restorer f) eflags' eax' ecx' edx' (user_stack (frame t1))).
  destruct (running_upd g1 i t1 (set_frame r2) Hr1) as [E2 Hr2]. set (g2 := with_task g1 i (set_frame r2)) in *.
  set (t2 := set_frame r2 t1) in *.
  assert (E2' : handler_return eax' ecx' edx' eflags' g1 = Ok ((), g2)).
  { unfold handler_return. rewrite (st_bind_eq _ _ _ _ _ (running_get g1 i t1 Hr1)). cbn zeta. rewrite Hesp1, Hst1.
    rewrite <- Hesp1. exact E2. }
  assert (Hsp2 : u32 (r_esp (frame t2) - 4) = sp).
  { change (r_esp (frame t2)) with (u32 (r_esp (frame t1) + 4)). rewrite Hesp1, u32_sub_l. replace (sp + 4 - 4) with sp by lia. apply u32_small. lia. }
  assert (E3 : ∃ r g3 m, sys_ssetmask (s32 (f_blocked f)) g2 = Ok (r, g3) ∧ runs_as g3 i (set_blocked m t2) ∧
    m = if nomask a then blocked t else Z.lor (blocked t) (mask a)).
  { unfold f, signal_frame. cbn [f_blocked]. fold (nomask a). destruct (nomask a).
    - destruct (ssetmask_restores g2 i t2 (blocked t) Hr2 Hbl Hb8) as (r & g3 & E3 & Hr3). by exists r, g3, (blocked t).
    - exists (- EPERM), g2, (Z.lor (blocked t) (mask a)). split; [done|]. split; [|done].
      replace (set_blocked (Z.lor (blocked t) (mask a)) t2) with t2 by (unfold t2; rewrite <- Hb1; by destruct t1). done. }
  destruct E3 as (r & g3 & m & E3 & Hr3 & Em).
  set (fin := λ t : task_t, set_frame (UserFrame (u32 (sp + FRAME_SIZE)) (f_eip f) (f_eflags f) (f_eax f) (f_ecx f) (f_edx f)
                                         (user_stack (frame t))) t).
  destruct (running_upd g3 i _ fin Hr3) as [E4 Hr4].
  exists g1, g2, (with_task g3 i fin), t1, t2, (fin (set_blocked m t2)), f. split_and!; try done.
  - by rewrite Hf1.
  - by rewrite Hesp1.
  - unfold run_restorer. rewrite (st_bind_eq _ _ _ _ _ (running_get g2 i t2 Hr2)). cbn zeta. rewrite Hsp2.
    change (user_stack (frame t2)) with (user_stack (frame t1)). rewrite Hst1.
    rewrite (st_bind_eq _ _ _ _ _ E3). exact E4.
  - cbn. unfold FRAME_SIZE. replace (sp + 32) with (r_esp (frame t)) by lia. rewrite u32_small by lia. done.
Qed.

(** ** kill *)

Definition interruptible (t : task_t) : bool :=
  bool_decide (state t = TASK_WAITING) || bool_decide (state t = TASK_SLEEPING).

(** A task after a signal has been sent to it. *)
Definition signalled (sig : Z) (t : task_t) : task_t :=
  if interruptible t then set_state TASK_READY (raise_signal sig t) else raise_signal sig t.

(** [kill]: a signal number out of range, a pid without a task, init and the kernel's
    own tasks are refused with [EOF], and nothing changes; otherwise the signal is pending
    for the task, which is made ready if it sleeps or waits, and nobody else changes. *)
Theorem kill_signals g p sig :
  wf g → 0 <= p < 4294967296 → (∀ j x, slot g j = Some x → interruptible x = true → on_list x = None) →
  (sig < 1 ∨ 31 < sig → sys_kill p sig g = Ok (EOF_, g)) ∧
  (1 <= sig <= 31 →
   match slot g p with
   | None => sys_kill p sig g = Ok (EOF_, g)
   | Some t =>
       if decide (p = 1 ∨ uid t = KERNEL_RING0) then sys_kill p sig g = Ok (EOF_, g)
       else p ≠ 0 → ∃ g', sys_kill p sig g = Ok (0, g') ∧ wf g' ∧ slot g' p = Some (signalled sig t) ∧
              same_globals g g' ∧ ∀ j, j ≠ p → slot g' j = slot g j
   end).
Proof.
  intros W Hp Hoff. unfold sys_kill, bad_signal, MINSIG, MAXSIG. split.
  { intros Hs. by destruct (Z.ltb_spec sig 1), (Z.ltb_spec 31 sig); try lia. }
  intros Hs. destruct (Z.ltb_spec sig 1), (Z.ltb_spec 31 sig); try lia. cbn [orb]. rewrite u32_small by lia.
  rewrite (st_bind_eq _ _ _ _ _ (get_task_Ok g p W)). destruct (slot g p) as [t|] eqn:Ht; [|done]. cbn beta iota.
  rewrite (st_bind_eq _ _ g t g) by (unfold get_task_at; by rewrite Ht). cbn beta.
  destruct (wf_pid _ W p t Ht) as (-> & _ & _). case_decide as Hd.
  { destruct Hd as [->| ->]; [done|]. by rewrite Z.eqb_refl, orb_true_r. }
  intros Hp0. destruct (Z.eqb_spec p 1), (Z.eqb_spec (uid t) KERNEL_RING0); try tauto. cbn [orb].
  destruct (raise_step g p t sig W Ht) as [E1 W1]. rewrite (st_bind_eq _ _ _ _ _ E1).
  set (g1 := with_task g p (raise_signal sig)) in *.
  assert (Hs1 : ∀ j, slot g1 j = if decide (j = p) then Some (raise_signal sig t) else slot g j)
    by (intros j; unfold g1; rewrite slot_with by (apply W || by eexists); by rewrite Ht).
  assert (H1p : slot g1 p = Some (raise_signal sig t)) by (by rewrite Hs1, decide_True).
  unfold signalled. fold (interruptible t). destruct (interruptible t) eqn:Hi.
  - destruct (upd_step g1 p _ (set_state TASK_READY) W1 H1p Hp0) as (E2 & W2 & H2 & O2); [done..|].
    exists (with_task g1 p (set_state TASK_READY)). split_and!; try done.
    + rewrite (st_bind_eq _ _ g1 () (with_task g1 p (set_state TASK_READY))); [done|].
      unfold task_intr_unblock_no_waiting_list, unlink.
      rewrite (st_bind_eq _ _ g1 () g1); [exact E2|].
      rewrite (st_bind_eq _ _ g1 _ g1) by (unfold get_task_at; by rewrite H1p). cbn beta.
      change (on_list (raise_signal sig t)) with (on_list t). by rewrite (Hoff p t Ht Hi).
    + eapply same_globals_trans; apply same_globals_with.
    + intros j Hj. by rewrite O2, Hs1, decide_False.
  - exists g1. split_and!; try done; [apply same_globals_with|]. intros j Hj. by rewrite Hs1, decide_False.
Qed.

(** ** A concrete machine *)

(** The running task has a handler at 0x5000 for SIGINT, which is pending. *)
Definition catcher : task_t :=
  set_signal 2 (set_actions (<[1%nat := SigAction 0x5000 0 0xC0000000 0x6000]> (replicate 31 (SigAction 0 0 0 0)))
    (demo_task 2 TASK_RUNNING 1 1000)).
Definition caught : sys := put_task_list (<[2%nat := Some catcher]> (task_list demo)) demo.

Lemma caught_runs : runs_as caught 2 catcher.
Proof. split_and!; reflexivity. Qed.

Lemma caught_deliverable : deliverable catcher 2.
Proof.
  split_and!; try done. intros j Hj Hb. assert (j = 1) as -> by lia. done.
Qed.

Lemma task_signal_cases_witness :
  ∃ g', task_signal caught = Ok ((), g') ∧ runs_as g' 2 (handled 2 (SigAction 0x5000 0 0xC0000000 0x6000) catcher).
Proof.
  destruct (task_signal_cases caught 2 catcher caught_runs ltac:(done) eq_refl) as [_ H].
  destruct (H 2 caught_deliverable) as (a & Ha & _ & _ & _ & He). injection Ha as <-.
  destruct (He ltac:(split; discriminate)) as (g' & E & Hr & _). exists g'. exact (conj E Hr).
Defined.

Lemma signal_roundtrip_witness :
  ∃ g1 g2 g3 t3, task_signal caught = Ok ((), g1) ∧ handler_return 9 9 9 9 g1 = Ok ((), g2) ∧
    run_restorer g2 = Ok ((), g3) ∧ runs_as g3 2 t3 ∧ same_context (frame catcher) (frame t3) ∧ blocked t3 = 0.
Proof.
  destruct (signal_roundtrip caught 2 catcher 2 (SigAction 0x5000 0 0xC0000000 0x6000) 9 9 9 9
    caught_runs ltac:(done) caught_deliverable eq_refl eq_refl ltac:(done) ltac:(done) ltac:(cbn; unfold FRAME_SIZE; lia)
    ltac:(cbn; lia) eq_refl) as (g1 & g2 & g3 & t1 & t2 & t3 & f & E1 & _ & _ & _ & _ & _ & E2 & _ & _ & E3 & R3 & C3 & B3).
  exists g1, g2, g3, t3. exact (conj E1 (conj E2 (conj E3 (conj R3 (conj C3 B3))))).
Defined.

Lemma kill_signals_witness :
  ∃ g', sys_kill 2 17 family = Ok (0, g') ∧ wf g' ∧
    slot g' 2 = Some (signalled 17 (set_waitpid 3 (demo_task 2 TASK_WAITING 1 1000))).
Proof.
  assert (Hoff : ∀ j x, slot family j = Some x → interruptible x = true → on_list x = None).
  { intros j x Hx _.
    pose proof (slots_checked (λ _ x, match on_list x with None => true | Some _ => false end) family eq_refl ltac:(vm_compute; reflexivity) j x Hx) as H.
    cbn beta in H. destruct (on_list x); [discriminate H|reflexivity]. }
  destruct (kill_signals family 2 17 family_wf ltac:(lia) Hoff) as [_ H].
  destruct (H ltac:(lia) ltac:(done)) as (g' & E & W & Hs & _). exists g'. exact (conj E (conj W Hs)).
Defined.

(** An action without SIG_NOMASK: after the handler has returned, SIGINT stays blocked. *)
Definition catcher_masked : task_t :=
  set_actions (<[1%nat := SigAction 0x5000 2 0 0x6000]> (actions catcher)) catcher.

Lemma mask_not_restored :
  ∃ g', (task_signal;; handler_return 0 0 0 0;; run_restorer)
          (put_task_list (<[2%nat := Some catcher_masked]> (task_list demo)) demo) = Ok ((), g') ∧
    match slot g' 2 with Some t => blocked t = 2 | None => False end.
Proof. eexists. split; [vm_compute; reflexivity|]. reflexivity. Qed.
