(* ===== verification/Pages.v ===== *)
(** * Page frames (src/kernel/memory.c)

    The array of reference counts of the physical pages, the bitmap of the kernel's own
    pages, and the routines that hand out and take back both kinds of pages. *)

From S2P Require Import Prelude Bitmap KStdlib.

Definition PAGE_SIZE : Z := 4096.
Definition MEMORY_BASE : Z := 0x100000.
Definition KERNEL_MEM_SIZE : Z := 0x1000000.
Definition KERNEL_VADDR_OFFSET : Z := 0xC0000000.
Definition ZONE_VALID : Z := 1.
Definition USED : Z := 100.

Definition IDX (addr : Z) : Z := Z.shiftr (u32 addr) 12.
Definition PAGE (idx : Z) : Z := u32 (Z.shiftl idx 12).
Definition ASSERT_PAGE (addr : Z) : bool := Z.land addr 0xfff =? 0.

Record frames := Frames {
  mem_map : list Z;
  kernel_map : bitmap_t;
  memory_base : Z;
  memory_size : Z;
  total_pages : Z;
  free_pages : Z;
  start_page_idx : Z;
  mem_map_pages : Z
}.

Definition set_mem_map (v : list Z) (f : frames) : frames :=
  Frames v (kernel_map f) (memory_base f) (memory_size f) (total_pages f) (free_pages f) (start_page_idx f) (mem_map_pages f).
Definition set_kernel_map (v : bitmap_t) (f : frames) : frames :=
  Frames (mem_map f) v (memory_base f) (memory_size f) (total_pages f) (free_pages f) (start_page_idx f) (mem_map_pages f).
Definition set_free_pages (v : Z) (f : frames) : frames :=
  Frames (mem_map f) (kernel_map f) (memory_base f) (memory_size f) (total_pages f) v (start_page_idx f) (mem_map_pages f).

Definition F := ST frames.

(** ** Start *)

(** A memory region as the boot loader reports it: base and size (both u64) and type. *)
Record region := Region { r_base : Z; r_size : Z; r_type : Z }.

(** The loops of [memory_init] over the regions: the largest valid one, truncated. *)
Fixpoint pick_region (l : list region) (base size : Z) : Z * Z :=
  match l with
  | [] => (base, size)
  | r :: l =>
      if (r_type r =? ZONE_VALID) && (size <? r_size r)
      then pick_region l (u32 (r_base r)) (u32 (r_size r))
      else pick_region l base size
  end.

(** [memory_init]; the state before it is zero. *)
Definition memory_init (l : list region) : res frames :=
  let '(base, size) := pick_region l 0 0 in
  if u32 (size + base) <? KERNEL_MEM_SIZE then Stop Panic
  else
    kassert (base =? MEMORY_BASE);;
    kassert (Z.land size 0xfff =? 0);;
    mret (Frames [] (BitMap [] 0 0) base size (u32 (IDX size + IDX MEMORY_BASE)) (IDX size) 0 0).

(** [memory_map_init]; [bits] is the memory the bitmap of the kernel is put into. *)
Definition memory_map_init (bits : list Z) (f : frames) : res frames :=
  pages ← div_round_up (total_pages f) PAGE_SIZE;
  let start := u32 (IDX MEMORY_BASE + pages) in
  let mm := replicate (Z.to_nat start) USED ++ replicate (Z.to_nat (pages * PAGE_SIZE - start)) 0 in
  let len := (IDX KERNEL_MEM_SIZE - IDX MEMORY_BASE) / 8 in
  '(_, map) ← bitmap_scan pages (bitmap_init bits len (IDX MEMORY_BASE + IDX KERNEL_VADDR_OFFSET));
  mret (Frames mm map (memory_base f) (memory_size f) (total_pages f) (u32 (free_pages f - pages)) start pages).

(** ** Kernel pages *)

Definition get_count (i : Z) : F Z := λ f,
  match zget (mem_map f) i with Ok c => Ok (c, f) | Stop e => Stop e end.
Definition put_count (i c : Z) : F unit := λ f,
  match zset (mem_map f) i c with Ok l => Ok ((), set_mem_map l f) | Stop e => Stop e end.

(** An operation on the kernel's bitmap. *)
Definition on_map {A} (m : ST bitmap_t A) : F A := λ f,
  match m (kernel_map f) with Ok (a, map) => Ok (a, set_kernel_map map f) | Stop e => Stop e end.

Fixpoint alloc_loop (n : nat) (index : Z) : F unit :=
  match n with
  | O => mret ()
  | S n =>
      c ← get_count index;
      sassert (c =? 0);;
      put_count index 1;;
      modify_st (λ f, set_free_pages (u32 (free_pages f - 1)) f);;
      alloc_loop n (index + 1)
  end.

Definition alloc_kpage (count : Z) : F Z :=
  sassert (0 <? count);;
  index ← on_map (bitmap_scan count);
  if index =? EOF_ then stop_st Panic
  else
    f ← get_st;
    alloc_loop (Z.to_nat count) (s32 (index - offset (kernel_map f) + IDX MEMORY_BASE));;
    mret (PAGE index).

(** The body of the loop of [_reset_kpage], and the loop. *)
Definition reset_one (index paddr_index : Z) : F unit :=
  c ← get_count paddr_index;
  sassert (negb (c =? 0));;
  put_count paddr_index (u8 (c - 1));;
  if u8 (c - 1) =? 0 then
    modify_st (λ f, set_free_pages (u32 (free_pages f + 1)) f);;
    f ← get_st;
    t ← lift_st (bitmap_test (kernel_map f) index);
    sassert t;;
    on_map (bitmap_set index false)
  else mret ().

Fixpoint reset_loop (n : nat) (index paddr_index : Z) : F unit :=
  match n with
  | O => mret ()
  | S n => reset_one (u32 index) paddr_index;; reset_loop n (index + 1) (u32 (paddr_index + 1))
  end.

Definition free_kpage (vaddr count : Z) : F unit :=
  sassert (ASSERT_PAGE vaddr);;
  sassert (0 <? count);;
  f ← get_st;
  let index := IDX vaddr in
  reset_loop (Z.to_nat count) index (u32 (index - offset (kernel_map f) + IDX MEMORY_BASE)).

(** ** User pages *)

Fixpoint user_loop (n : nat) (i : Z) : F Z :=
  match n with
  | O => stop_st Panic
  | S n =>
      c ← get_count i;
      if c =? 0 then
        put_count i 1;;
        modify_st (λ f, set_free_pages (u32 (free_pages f - 1)) f);;
        mret (PAGE i)
      else user_loop n (i + 1)
  end.

Definition get_user_page : F Z := λ f,
  user_loop (Z.to_nat (total_pages f - IDX KERNEL_MEM_SIZE)) (IDX KERNEL_MEM_SIZE) f.

Definition put_user_page (paddr : Z) : F unit :=
  sassert (ASSERT_PAGE paddr);;
  f ← get_st;
  let idx := IDX paddr in
  sassert ((IDX KERNEL_MEM_SIZE <=? idx) && (idx <? total_pages f));;
  c ← get_count idx;
  sassert (1 <=? c);;
  put_count idx (u8 (c - 1));;
  (if u8 (c - 1) =? 0 then modify_st (λ f, set_free_pages (u32 (free_pages f + 1)) f) else mret ());;
  f ← get_st;
  sassert ((0 <? free_pages f) && (free_pages f <? total_pages f)).

(** ** The invariant *)

(** The reference count of page [i], and the number of free ones among the first [n]. *)
Definition count_at (f : frames) (i : Z) : Z := default 0 (mem_map f !! Z.to_nat i).

Fixpoint zeros (n : nat) (l : list Z) : Z :=
  match n, l with
  | S n, c :: l => (if c =? 0 then 1 else 0) + zeros n l
  | _, _ => 0
  end.

(** The books of the physical pages. *)
Record accounts (f : frames) : Prop := {
  ac_len : total_pages f <= Z.of_nat (length (mem_map f)) <= 1048576;
  ac_total : 4096 <= total_pages f < 1048576;
  ac_bytes : Forall (λ c, 0 <= c < 255) (mem_map f);
  ac_free : free_pages f = zeros (Z.to_nat (total_pages f)) (mem_map f);
  ac_low : count_at f 0 ≠ 0;
  ac_high : ∀ j, total_pages f <= j → count_at f j = 0
}.

(** The kernel's bitmap covers the pages from 1M to 16M, and says which of them are used. *)
Record map_ok (f : frames) : Prop := {
  mk_wf : wf (kernel_map f);
  mk_len : blength (kernel_map f) = 480;
  mk_off : offset (kernel_map f) = 786688
}.

Record frames_ok (f : frames) : Prop := {
  fk_acc : accounts f;
  fk_map : map_ok f;
  fk_bits : ∀ i, 0 <= i < 3840 → bit (kernel_map f) i = negb (count_at f (256 + i) =? 0)
}.

Lemma zeros_insert n l k c c' :
  (k < n)%nat → l !! k = Some c →
  zeros n (<[k := c']> l) = zeros n l - (if c =? 0 then 1 else 0) + (if c' =? 0 then 1 else 0).
Proof.
  revert n k. induction l as [|x l IH]; intros n k Hk Hl; [done|].
  destruct n as [|n]; [lia|]. destruct k as [|k].
  - injection Hl as ->. cbn [zeros list_insert insert]. lia.
  - change (<[S k := c']> (x :: l)) with (x :: <[k := c']> l). cbn [zeros]. rewrite (IH n k); [lia|lia|done].
Qed.

Lemma zeros_range n l : 0 <= zeros n l <= Z.of_nat n.
Proof.
  revert n. induction l as [|x l IH]; intros [|n]; cbn [zeros]; try lia. specialize (IH n). destruct (x =? 0); lia.
Qed.

Lemma zeros_nonzero n l k c : (k < n)%nat → l !! k = Some c → c ≠ 0 → zeros n l < Z.of_nat n.
Proof.
  revert n k. induction l as [|x l IH]; intros [|n] k Hk Hl Hc; [done|done|lia|]. cbn [zeros].
  destruct k as [|k].
  - injection Hl as ->. destruct (Z.eqb_spec c 0); [done|]. pose proof (zeros_range n l). lia.
  - specialize (IH n k ltac:(lia) Hl Hc). destruct (x =? 0); lia.
Qed.

Lemma zeros_zero n l k : (k < n)%nat → l !! k = Some 0 → 0 < zeros n l.
Proof.
  intros Hk Hl. pose proof (zeros_insert n l k 0 1 Hk Hl) as E. cbn in E. pose proof (zeros_range n (<[k:=1]> l)). lia.
Qed.

Lemma count_lookup f i :
  accounts f → 0 <= i < total_pages f → mem_map f !! Z.to_nat i = Some (count_at f i) ∧ 0 <= count_at f i < 255.
Proof.
  intros A Hi. pose proof (ac_len _ A). unfold count_at.
  destruct (lookup_lt_is_Some_2 (mem_map f) (Z.to_nat i)) as [c Hc]; [lia|]. rewrite Hc. cbn. split; [done|].
  pose proof (ac_bytes _ A) as B. rewrite Forall_forall in B. apply (B c). by apply list_elem_of_lookup_2 in Hc.
Qed.

Lemma free_range f : accounts f → 0 <= free_pages f < total_pages f.
Proof.
  intros A. rewrite (ac_free _ A). pose proof (zeros_range (Z.to_nat (total_pages f)) (mem_map f)).
  pose proof (ac_total _ A). destruct (count_lookup f 0 A ltac:(lia)) as [Hl _].
  pose proof (zeros_nonzero (Z.to_nat (total_pages f)) _ (Z.to_nat 0) _ ltac:(lia) Hl (ac_low _ A)). lia.
Qed.

Lemma get_count_Ok f i : accounts f → 0 <= i < total_pages f → get_count i f = Ok (count_at f i, f).
Proof.
  intros A Hi. destruct (count_lookup f i A Hi) as [Hl _]. unfold get_count.
  by rewrite (proj2 (zget_Ok _ _ _) (conj (proj1 Hi) Hl)).
Qed.

(** A count and the number of free pages, changed together. *)
Definition recount (f : frames) (i c : Z) : frames :=
  set_free_pages (free_pages f - (if count_at f i =? 0 then 1 else 0) + (if c =? 0 then 1 else 0))
    (set_mem_map (<[Z.to_nat i := c]> (mem_map f)) f).

Lemma recount_at f i c j :
  accounts f → 0 <= i < total_pages f → 0 <= j →
  count_at (recount f i c) j = if decide (j = i) then c else count_at f j.
Proof.
  intros A Hi Hj. pose proof (ac_len _ A). unfold count_at at 1, recount. cbn. case_decide.
  - subst. rewrite list_lookup_insert_eq by lia. done.
  - rewrite list_lookup_insert_ne by lia. done.
Qed.

Lemma recount_ok f i c :
  accounts f → 0 <= i < total_pages f → 0 <= c < 255 → (i = 0 → c ≠ 0) → accounts (recount f i c).
Proof.
  intros A Hi Hc H0. destruct (count_lookup f i A Hi) as [Hl _]. pose proof (recount_at f i c 0 A Hi ltac:(lia)) as E0.
  pose proof (recount_at f i c) as Eh. pose proof A as A'. destruct A as [A1 A2 A3 A4 A5 A6]. split; cbn.
  - by rewrite length_insert.
  - done.
  - by apply Forall_insert.
  - rewrite A4. symmetry. apply zeros_insert; [lia|done].
  - rewrite E0. case_decide; [by apply H0|done].
  - intros j Hj. rewrite Eh by (done || lia). rewrite decide_False by lia. by apply A6.
Qed.

Lemma put_count_Ok f i c :
  accounts f → 0 <= i < total_pages f →
  put_count i c f = Ok ((), set_mem_map (<[Z.to_nat i := c]> (mem_map f)) f).
Proof. intros A Hi. unfold put_count. rewrite zset_Ok; [done|]. pose proof (ac_len _ A). lia. Qed.

(** Pages that are not touched, and what no routine changes. *)
Definition same_machine (f f' : frames) : Prop :=
  total_pages f' = total_pages f ∧ start_page_idx f' = start_page_idx f ∧ mem_map_pages f' = mem_map_pages f ∧
  memory_base f' = memory_base f ∧ memory_size f' = memory_size f ∧ length (mem_map f') = length (mem_map f).

Lemma recount_same f i c : same_machine f (recount f i c).
Proof. unfold same_machine. cbn. by rewrite length_insert. Qed.

Lemma same_machine_trans f f1 f2 : same_machine f f1 → same_machine f1 f2 → same_machine f f2.
Proof. unfold same_machine. intuition congruence. Qed.

(** ** Allocating kernel pages *)

Lemma alloc_loop_Ok n : ∀ f a,
  accounts f → 1 <= a → a + Z.of_nat n <= total_pages f →
  (∀ j, a <= j < a + Z.of_nat n → count_at f j = 0) →
  ∃ f', alloc_loop n a f = Ok ((), f') ∧ accounts f' ∧ same_machine f f' ∧ kernel_map f' = kernel_map f ∧
    free_pages f' = free_pages f - Z.of_nat n ∧
    ∀ j, 0 <= j → count_at f' j = if decide (a <= j < a + Z.of_nat n) then 1 else count_at f j.
Proof.
  induction n as [|n IH]; intros f a A Ha Hn Hz.
  { exists f. split_and!; try done; [lia|]. intros j Hj. by rewrite decide_False by lia. }
  cbn [alloc_loop]. rewrite (st_bind_eq _ _ _ _ _ (get_count_Ok f a A ltac:(lia))).
  rewrite (Hz a) by lia. rewrite (st_bind_eq _ _ f () f) by done.
  rewrite (st_bind_eq _ _ _ _ _ (put_count_Ok f a 1 A ltac:(lia))).
  pose proof (free_range f A) as Hfr. destruct (count_lookup f a A ltac:(lia)) as [Hl _]. rewrite Hz in Hl by lia.
  assert (Hpos : 0 < free_pages f) by (rewrite (ac_free _ A); apply (zeros_zero _ _ (Z.to_nat a)); [lia|done]).
  pose proof (ac_total _ A).
  set (f1 := recount f a 1).
  rewrite (st_bind_eq _ _ _ () f1).
  2:{ unfold modify_st, f1, recount. cbn. rewrite (Hz a) by lia. cbn. rewrite u32_small by lia. do 3 f_equal. lia. }
  assert (A1 : accounts f1) by (apply recount_ok; [done|lia..]).
  assert (H1 : ∀ j, 0 <= j → count_at f1 j = if decide (j = a) then 1 else count_at f j)
    by (intros j Hj; apply recount_at; [done|lia|done]).
  destruct (IH f1 (a + 1) A1 ltac:(lia) ltac:(cbn; lia)) as (f' & E & A' & S' & K' & F' & C').
  { intros j Hj. rewrite H1, decide_False by lia. apply Hz. lia. }
  exists f'. split; [done|]. split; [done|]. split; [by eapply same_machine_trans; [apply recount_same|]|].
  split; [done|]. split.
  - rewrite F'. unfold f1, recount. cbn. rewrite (Hz a) by lia. cbn. lia.
  - intros j Hj. rewrite C', H1 by done. repeat case_decide; try done; try lia.
Qed.

(** A run of [count] free pages of the kernel, [s] counted from 1M. *)
Definition free_run (f : frames) (s count : Z) : Prop :=
  0 <= s ∧ s + count <= 3840 ∧ ∀ i, s <= i < s + count → count_at f (256 + i) = 0.

Lemma free_run_bits f s count :
  frames_ok f → free_run f s count ↔ free (kernel_map f) s count.
Proof.
  intros [A [Mw Ml Mo] B]. unfold free_run, free. rewrite Ml. change (480 * 8) with 3840.
  split; intros (H1 & H2 & H3); (split; [done|]; split; [done|]); intros i Hi.
  - rewrite B by lia. by rewrite H3 by done.
  - specialize (H3 i Hi). rewrite B in H3 by lia. apply negb_false_iff, Z.eqb_eq in H3. done.
Qed.

(** What an allocation does to the machine. *)
Definition allocated (f f' : frames) (s count : Z) : Prop :=
  same_machine f f' ∧ free_pages f' = free_pages f - count ∧
  ∀ j, 0 <= j → count_at f' j = if decide (256 + s <= j < 256 + s + count) then 1 else count_at f j.

Lemma page_of i : 0 <= i < 1048576 → PAGE i = i * 4096.
Proof. intros. unfold PAGE. rewrite Z.shiftl_mul_pow2 by lia. apply u32_small. change (2 ^ 12) with 4096. lia. Qed.

Lemma idx_page i : 0 <= i < 1048576 → IDX (PAGE i) = i.
Proof.
  intros. rewrite page_of by done. unfold IDX. rewrite u32_small by lia. rewrite Z.shiftr_div_pow2 by lia.
  change (2 ^ 12) with 4096. by rewrite Z.div_mul.
Qed.

Lemma assert_page i : 0 <= i < 1048576 → ASSERT_PAGE (PAGE i) = true.
Proof.
  intros. rewrite page_of by done. unfold ASSERT_PAGE. change 0xfff with (Z.ones 12).
  rewrite Z.land_ones by lia. change (2 ^ 12) with 4096. by rewrite Z.mod_mul.
Qed.

Lemma alloc_kpage_Ok f count :
  frames_ok f → 1 <= count < 4294967296 →
  (∃ s f', alloc_kpage count f = Ok (PAGE (786688 + s), f') ∧ frames_ok f' ∧ free_run f s count ∧
      (∀ s', s' < s → ¬ free_run f s' count) ∧ allocated f f' s count) ∨
  (alloc_kpage count f = Stop Panic ∧ ∀ s, ¬ free_run f s count).
Proof.
  intros K Hc. pose proof K as [A [Mw Ml Mo] B].
  unfold alloc_kpage. rewrite (st_bind_eq _ _ f () f) by (unfold sassert; by destruct (Z.ltb_spec 0 count); [|lia]).
  destruct (scan_first_fit (kernel_map f) count Mw Hc) as [(s & m & E & Hf & Hmin & Hw & L & O & Bm)|[E Hnone]].
  - left. apply (free_run_bits f s count K) in Hf as Hrun. destruct Hrun as (Hs0 & Hs1 & Hz).
    set (f1 := set_kernel_map m f).
    rewrite (st_bind_eq _ _ f (offset (kernel_map f) + s) f1) by (unfold on_map; by rewrite E).
    rewrite Mo. destruct (Z.eqb_spec (786688 + s) EOF_) as [Hx|_]; [unfold EOF_ in Hx; lia|].
    rewrite (st_bind_eq _ _ f1 f1 f1) by done. change (kernel_map f1) with m. rewrite O, Mo.
    replace (s32 (786688 + s - 786688 + IDX MEMORY_BASE)) with (256 + s)
      by (change (IDX MEMORY_BASE) with 256; rewrite s32_small; lia).
    assert (A1 : accounts f1) by (destruct A; by split).
    pose proof (ac_total _ A).
    destruct (alloc_loop_Ok (Z.to_nat count) f1 (256 + s) A1 ltac:(lia) ltac:(cbn; lia)) as (f' & E' & A' & S' & K' & F' & C').
    { intros j Hj. replace j with (256 + (j - 256)) by lia. apply Hz. lia. }
    rewrite (st_bind_eq _ _ _ _ _ E'). exists s, f'.
    assert (HC : ∀ j, 0 <= j → count_at f' j = if decide (256 + s <= j < 256 + s + count) then 1 else count_at f j).
    { intros j Hj. rewrite C' by done. change (count_at f1 j) with (count_at f j). rewrite Z2Nat.id by lia. done. }
    split; [done|]. split; [|split; [done|split]].
    + split; [done|split; rewrite K'; cbn; congruence|]. intros i Hi. rewrite K'. cbn. rewrite Bm by lia. rewrite HC by lia.
      repeat case_decide; try done; try lia. by rewrite B.
    + intros s' Hs'. rewrite (free_run_bits f s' count K). by apply Hmin.
    + split; [exact S'|]. split; [rewrite F'; cbn; lia|exact HC].
  - right. split; [|intros s Hs; apply (Hnone s); by apply (free_run_bits f s count K)].
    rewrite (st_bind_eq _ _ f EOF_ f).
    + done.
    + unfold on_map. rewrite E. by destruct f.
Qed.

(** ** Giving pages back *)

(** The bits follow the counts. *)
Definition bits_follow (f : frames) : Prop :=
  ∀ i, 0 <= i < 3840 → bit (kernel_map f) i = negb (count_at f (256 + i) =? 0).

Lemma set_kernel_map_ok f m :
  accounts f → wf m → blength m = 480 → offset m = 786688 →
  (∀ i, 0 <= i < 3840 → bit m i = negb (count_at f (256 + i) =? 0)) → frames_ok (set_kernel_map m f).
Proof. intros [] Hw Hl Ho Hb. split; [by split|by split|done]. Qed.

(** Changing one count to a positive value keeps the books when the page was in use. *)
Lemma recount_used f p c :
  frames_ok f → 0 <= p < total_pages f → count_at f p ≠ 0 → 0 < c < 255 → frames_ok (recount f p c).
Proof.
  intros [A [Mw Ml Mo] B] Hp H0 Hc. split; [apply recount_ok; (done || lia)|by split|].
  intros i Hi. change (kernel_map (recount f p c)) with (kernel_map f). rewrite B, recount_at by (done || lia).
  case_decide; [|done]. subst p. destruct (Z.eqb_spec (count_at f (256 + i)) 0), (Z.eqb_spec c 0); done || lia.
Qed.

Definition unreferenced (f f' : frames) (p : Z) : Prop :=
  same_machine f f' ∧
  free_pages f' = free_pages f + (if count_at f p =? 1 then 1 else 0) ∧
  ∀ j, 0 <= j → count_at f' j = if decide (j = p) then count_at f p - 1 else count_at f j.

Lemma recount_unreferenced f p :
  accounts f → 0 <= p < total_pages f → count_at f p ≠ 0 → unreferenced f (recount f p (count_at f p - 1)) p.
Proof.
  intros A Hp H0. split; [apply recount_same|]. split; [|intros; by apply recount_at].
  cbn. zcases; lia.
Qed.

(** The pages a reference can be dropped from: the kernel's last reference must be
    dropped where the bitmap has its bit. *)
Definition droppable (f : frames) (p : Z) : Prop :=
  p < total_pages f ∧ count_at f p ≠ 0 ∧ (count_at f p = 1 → 256 <= p < 4096).

Lemma kernel_index p : 0 <= p < 1048576 → u32 (p + 786432) = p + 786432.
Proof. intros. apply u32_small. lia. Qed.

Lemma get_count_high f p : accounts f → total_pages f <= p → get_count p f = Ok (0, f) ∨ get_count p f = Stop OutOfBounds.
Proof.
  intros A Hp. pose proof (ac_total _ A). pose proof (ac_high _ A p Hp) as E. unfold count_at in E. unfold get_count, zget.
  destruct (Z.leb_spec 0 p); [|lia]. destruct (mem_map f !! Z.to_nat p) as [c|]; cbn in E; [subst; by left|by right].
Qed.

Lemma reset_one_Ok f p :
  frames_ok f → 0 <= p → droppable f p →
  ∃ f', reset_one (u32 (p + 786432)) p f = Ok ((), f') ∧ frames_ok f' ∧ unreferenced f f' p.
Proof.
  intros K Hp (Hd1 & Hd2 & Hd3). pose proof K as [A M B]. pose proof (ac_total _ A).
  destruct (count_lookup f p A ltac:(lia)) as [_ Hr].
  unfold reset_one. rewrite (st_bind_eq _ _ _ _ _ (get_count_Ok f p A ltac:(lia))).
  rewrite (st_bind_eq _ _ f () f) by (unfold sassert; by destruct (Z.eqb_spec (count_at f p) 0)).
  rewrite u8_small by lia. rewrite (st_bind_eq _ _ _ _ _ (put_count_Ok f p _ A ltac:(lia))).
  pose proof (recount_unreferenced f p A ltac:(lia) Hd2) as U.
  destruct (Z.eqb_spec (count_at f p - 1) 0) as [E|E].
  - set (f1 := recount f p (count_at f p - 1)) in *.
    assert (A1 : accounts f1) by (apply recount_ok; (done || lia)).
    pose proof (free_range f A). rewrite (st_bind_eq _ _ _ () f1).
    2:{ unfold modify_st, f1, recount. cbn. rewrite u32_small by lia. do 3 f_equal. zcases; lia. }
    rewrite (st_bind_eq _ _ f1 f1 f1) by done. destruct M as [Mw Ml Mo].
    assert (Hi : 0 <= p - 256 < blength (kernel_map f) * 8) by (rewrite Ml; lia).
    rewrite kernel_index by lia. replace (p + 786432) with (offset (kernel_map f) + (p - 256)) by lia.
    rewrite (st_bind_eq _ _ f1 true f1).
    2:{ unfold lift_st. change (kernel_map f1) with (kernel_map f). rewrite test_spec by done.
        rewrite B by lia. replace (256 + (p - 256)) with p by lia. by destruct (Z.eqb_spec (count_at f p) 0). }
    rewrite (st_bind_eq _ _ f1 () f1) by done.
    destruct (set_spec (kernel_map f) (p - 256) false Mw Hi) as (m & Em & Wm & Lm & Om & Bm).
    exists (set_kernel_map m f1). split; [unfold on_map; change (kernel_map f1) with (kernel_map f); by rewrite Em|].
    split; [|exact U]. apply set_kernel_map_ok; [done|done|congruence|congruence|].
    intros i Hi'. rewrite Bm by lia. unfold f1. rewrite recount_at by (done || lia). rewrite E. rewrite B by lia.
    repeat case_decide; done || lia.
  - exists (recount f p (count_at f p - 1)). split.
    { unfold mret, st_ret, recount. zcases; try lia. do 2 f_equal. cbn. unfold set_mem_map, set_free_pages. cbn. f_equal. lia. }
    split; [|done]. apply recount_used; (done || lia).
Qed.

Lemma reset_one_stop f p :
  frames_ok f → 0 <= p → ¬ droppable f p → ∃ e, reset_one (u32 (p + 786432)) p f = Stop e.
Proof.
  intros K Hp Hd. pose proof K as [A M B]. pose proof (ac_total _ A). unfold reset_one.
  destruct (decide (total_pages f <= p)) as [Hh|Hh].
  { destruct (get_count_high f p A Hh) as [E|E].
    - rewrite (st_bind_eq _ _ _ _ _ E). by exists Panic.
    - exists OutOfBounds. unfold mbind, st_bind. by rewrite E. }
  rewrite (st_bind_eq _ _ _ _ _ (get_count_Ok f p A ltac:(lia))).
  destruct (Z.eqb_spec (count_at f p) 0) as [H0|H0]; [by exists Panic|].
  assert (E1 : count_at f p = 1 ∧ ¬ 256 <= p < 4096).
  { destruct (decide (count_at f p = 1)); [split; [done|]|]; [intros ?|exfalso]; apply Hd; split_and!; done || lia. }
  destruct E1 as [E1 E2]. rewrite (st_bind_eq _ _ f () f) by done.
  rewrite E1. rewrite (st_bind_eq _ _ _ _ _ (put_count_Ok f p _ A ltac:(lia))).
  change (u8 (1 - 1) =? 0) with true. cbv iota.
  exists Panic. unfold modify_st, get_st, lift_st, mbind, st_bind. cbn. rewrite kernel_index by lia. destruct M as [Mw Ml Mo].
  destruct (bitmap_bounds_checked (kernel_map f) (p + 786432) true Mw) as [-> _]; [lia| |done]. rewrite Ml, Mo. lia.
Qed.

(** The loop drops one reference of each page of a run that is in use. *)
Lemma reset_loop_Ok n : ∀ f p,
  frames_ok f → 0 <= p → (∀ j, p <= j < p + Z.of_nat n → droppable f j) →
  ∃ f', reset_loop n (p + 786432) p f = Ok ((), f') ∧ frames_ok f' ∧ same_machine f f' ∧
    ∀ j, 0 <= j → count_at f' j = if decide (p <= j < p + Z.of_nat n) then count_at f j - 1 else count_at f j.
Proof.
  induction n as [|n IH]; intros f p K Hp Hd.
  { exists f. split_and!; try done. intros j Hj. by rewrite decide_False by lia. }
  destruct (reset_one_Ok f p K Hp (Hd p ltac:(lia))) as (f1 & E1 & K1 & S1 & _ & C1).
  cbn [reset_loop]. rewrite (st_bind_eq _ _ _ _ _ E1).
  assert (Hp1 : p < total_pages f) by apply (Hd p ltac:(lia)). pose proof (ac_total _ (fk_acc _ K)).
  rewrite (u32_small (p + 1)) by lia. replace (p + 786432 + 1) with (p + 1 + 786432) by lia.
  destruct (IH f1 (p + 1) K1 ltac:(lia)) as (f' & E' & K' & S' & C').
  { intros j Hj. destruct (Hd j ltac:(lia)) as (D1 & D2 & D3). destruct S1 as (S1 & _). unfold droppable.
    rewrite C1, decide_False by lia. rewrite S1. done. }
  exists f'. split; [done|]. split; [done|]. split; [by eapply same_machine_trans|].
  intros j Hj. rewrite C', C1 by done. repeat case_decide; try done; try lia. by subst.
Qed.

(** Whatever its arguments, the loop keeps the books or stops. *)
Lemma reset_loop_inv n : ∀ f p f',
  frames_ok f → 0 <= p → reset_loop n (p + 786432) p f = Ok ((), f') → frames_ok f' ∧ same_machine f f'.
Proof.
  induction n as [|n IH]; intros f p f' K Hp E; cbn [reset_loop] in E.
  { by injection E as <-. }
  destruct (decide (p < total_pages f ∧ count_at f p ≠ 0 ∧ (count_at f p = 1 → 256 <= p < 4096))) as [Hd|Hd].
  - destruct (reset_one_Ok f p K Hp Hd) as (f1 & E1 & K1 & S1 & _).
    rewrite (st_bind_eq _ _ _ _ _ E1) in E. pose proof (ac_total _ (fk_acc _ K)).
    rewrite u32_small in E by lia. replace (p + 786432 + 1) with (p + 1 + 786432) in E by lia.
    destruct (IH f1 (p + 1) f' K1 ltac:(lia) E) as [K' S']. split; [done|by eapply same_machine_trans].
  - destruct (reset_one_stop f p K Hp Hd) as [e E1]. unfold mbind, st_bind in E. by rewrite E1 in E.
Qed.

(** Two states with the same counts are the same. *)
Lemma frames_ext f f' :
  frames_ok f → frames_ok f' → same_machine f f' →
  (∀ j, 0 <= j → count_at f' j = count_at f j) → f' = f.
Proof.
  intros [A M B] [A' M' B'] (T & S1 & S2 & S3 & S4 & L) C.
  assert (Em : mem_map f' = mem_map f).
  { apply (list_eq_same_length _ _ (length (mem_map f))); [done|done|]. intros i x y Hi Hx Hy.
    specialize (C (Z.of_nat i) ltac:(lia)). unfold count_at in C. rewrite Nat2Z.id, Hx, Hy in C. done. }
  assert (Ek : kernel_map f' = kernel_map f).
  { destruct M as [M1 M2 M3], M' as [M1' M2' M3']. apply bits_ext; [done|done|congruence|congruence|].
    rewrite M2. intros i Hi. rewrite B, B' by lia. by rewrite C by lia. }
  pose proof (ac_free _ A) as F1. pose proof (ac_free _ A') as F2. rewrite Em, T, <- F1 in F2.
  destruct f, f'. cbn in *. congruence.
Qed.

(** [free_kpage] on the pages [s .. s + count] counted from 1M. *)
Lemma free_kpage_enter f v count :
  map_ok f → 0 <= v < 1048576 → 0 < count →
  free_kpage (PAGE v) count f = reset_loop (Z.to_nat count) v (u32 (v - 786688 + 256)) f.
Proof.
  intros [Mw Ml Mo] Hv Hc. unfold free_kpage. rewrite assert_page by done.
  rewrite (st_bind_eq _ _ f () f) by done.
  rewrite (st_bind_eq _ _ f () f) by (unfold sassert; destruct (Z.ltb_spec 0 count); [done|lia]).
  rewrite (st_bind_eq _ _ f f f) by done. rewrite idx_page by done. by rewrite Mo.
Qed.

Lemma free_kpage_Ok f s count :
  frames_ok f → 0 <= s → 1 <= count → s + count <= 3840 →
  (∀ i, s <= i < s + count → count_at f (256 + i) ≠ 0) →
  ∃ f', free_kpage (PAGE (786688 + s)) count f = Ok ((), f') ∧ frames_ok f' ∧ same_machine f f' ∧
    ∀ j, 0 <= j → count_at f' j = if decide (256 + s <= j < 256 + s + count) then count_at f j - 1 else count_at f j.
Proof.
  intros K Hs Hc Hn Hz. pose proof K as [A M B]. pose proof (ac_total _ A).
  rewrite free_kpage_enter by (done || lia). rewrite u32_small by lia.
  replace (786688 + s - 786688 + 256) with (256 + s) by lia. replace (786688 + s) with (256 + s + 786432) by lia.
  destruct (reset_loop_Ok (Z.to_nat count) f (256 + s) K ltac:(lia)) as (f' & E & K' & S' & C').
  { intros j Hj. split; [lia|]. split; [|lia]. replace j with (256 + (j - 256)) by lia. apply Hz. lia. }
  rewrite Z2Nat.id in C' by lia. by exists f'.
Qed.

(** Any call of [free_kpage] that returns. *)
Lemma free_kpage_inv f v count f' :
  frames_ok f → 0 <= v < 1048576 → free_kpage (PAGE v) count f = Ok ((), f') → frames_ok f' ∧ same_machine f f'.
Proof.
  intros K Hv E. pose proof K as [A M B]. pose proof (ac_total _ A). pose proof (ac_len _ A).
  destruct (decide (0 < count)) as [Hc|Hc].
  2:{ exfalso. unfold free_kpage in E. rewrite assert_page in E by done. rewrite (st_bind_eq _ _ f () f) in E by done.
      unfold sassert, mbind, st_bind in E. destruct (Z.ltb_spec 0 count); [lia|done]. }
  rewrite free_kpage_enter in E by done. destruct (decide (786432 <= v)) as [Hv'|Hv'].
  - rewrite u32_small in E by lia. apply (reset_loop_inv (Z.to_nat count) f (v - 786432) f' K ltac:(lia)).
    rewrite <- E. f_equal; lia.
  - exfalso. destruct (Z.to_nat count) as [|n] eqn:En; [lia|]. cbn [reset_loop] in E.
    assert (Hu : u32 (v - 786688 + 256) = v - 786432 + 4294967296).
    { unfold u32. symmetry. apply (Z.mod_unique _ _ (-1)); lia. }
    rewrite Hu in E. unfold reset_one, get_count, zget, mbind, st_bind in E.
    destruct (Z.leb_spec 0 (v - 786432 + 4294967296)); [|lia].
    rewrite lookup_ge_None_2 in E by lia. done.
Qed.

(** ** User pages *)

Lemma user_loop_Ok n : ∀ f i,
  accounts f → 1 <= i → i + Z.of_nat n <= total_pages f →
  (∃ p, user_loop n i f = Ok (PAGE p, recount f p 1) ∧ i <= p < i + Z.of_nat n ∧ count_at f p = 0 ∧
      ∀ j, i <= j < p → count_at f j ≠ 0) ∨
  (user_loop n i f = Stop Panic ∧ ∀ j, i <= j < i + Z.of_nat n → count_at f j ≠ 0).
Proof.
  induction n as [|n IH]; intros f i A Hi Hn; [right; split; [done|lia]|].
  cbn [user_loop]. rewrite (st_bind_eq _ _ _ _ _ (get_count_Ok f i A ltac:(lia))). pose proof (ac_total _ A).
  destruct (Z.eqb_spec (count_at f i) 0) as [E|E].
  - left. exists i. rewrite (st_bind_eq _ _ _ _ _ (put_count_Ok f i 1 A ltac:(lia))).
    destruct (count_lookup f i A ltac:(lia)) as [Hl _]. rewrite E in Hl.
    assert (Hpos : 0 < free_pages f) by (rewrite (ac_free _ A); apply (zeros_zero _ _ (Z.to_nat i)); [lia|done]).
    pose proof (free_range f A). split_and!; [|lia|lia|done|lia].
    rewrite (st_bind_eq _ _ _ () (recount f i 1)); [done|].
    unfold modify_st, recount. cbn. rewrite E. cbn. rewrite u32_small by lia. do 3 f_equal. lia.
  - destruct (IH f (i + 1) A ltac:(lia) ltac:(lia)) as [(p & -> & Hp & Hz & Hall)|[-> Hall]].
    + left. exists p. split_and!; [done|lia|lia|done|]. intros j Hj.
      destruct (decide (j = i)) as [->|]; [done|]. apply Hall. lia.
    + right. split; [done|]. intros j Hj. destruct (decide (j = i)) as [->|]; [done|]. apply Hall. lia.
Qed.

(** Counts of pages outside the kernel do not meet its bitmap. *)
Lemma recount_user f p c :
  frames_ok f → 4096 <= p < total_pages f → 0 <= c < 255 → frames_ok (recount f p c).
Proof.
  intros [A M B] Hp Hc. split; [apply recount_ok; (done || lia)|by destruct M|].
  intros i Hi. change (kernel_map (recount f p c)) with (kernel_map f).
  rewrite recount_at, decide_False by (done || lia). by apply B.
Qed.

Lemma get_user_page_Ok f :
  frames_ok f →
  (∃ p, get_user_page f = Ok (PAGE p, recount f p 1) ∧ 4096 <= p < total_pages f ∧ count_at f p = 0 ∧
      (∀ j, 4096 <= j < p → count_at f j ≠ 0) ∧ frames_ok (recount f p 1)) ∨
  (get_user_page f = Stop Panic ∧ ∀ j, 4096 <= j < total_pages f → count_at f j ≠ 0).
Proof.
  intros K. pose proof (fk_acc _ K) as A. pose proof (ac_total _ A). unfold get_user_page.
  change (IDX KERNEL_MEM_SIZE) with 4096.
  destruct (user_loop_Ok (Z.to_nat (total_pages f - 4096)) f 4096 A ltac:(lia) ltac:(lia))
    as [(p & -> & Hp & Hz & Hall)|[-> Hall]]; rewrite Z2Nat.id in * by lia.
  - left. exists p. split_and!; [done|lia|lia|done|done|]. apply recount_user; (done || lia).
  - right. split; [done|]. intros j Hj. apply Hall. lia.
Qed.

Lemma put_user_page_cases f p :
  frames_ok f → 0 <= p < 1048576 →
  (put_user_page (PAGE p) f = Ok ((), recount f p (count_at f p - 1)) ∧
     4096 <= p < total_pages f ∧ 1 <= count_at f p ∧ (count_at f p = 1 ∨ 0 < free_pages f)) ∨
  (put_user_page (PAGE p) f = Stop Panic ∧
     ¬ (4096 <= p < total_pages f ∧ 1 <= count_at f p ∧ (count_at f p = 1 ∨ 0 < free_pages f))).
Proof.
  intros K Hp. pose proof (fk_acc _ K) as A. pose proof (ac_total _ A). pose proof (free_range f A) as Hfr.
  unfold put_user_page. rewrite assert_page by done. rewrite (st_bind_eq _ _ f () f) by done.
  rewrite (st_bind_eq _ _ f f f) by done. cbv zeta. rewrite idx_page by done. change (IDX KERNEL_MEM_SIZE) with 4096.
  destruct (decide (4096 <= p < total_pages f)) as [Hr|Hr].
  2:{ right. split; [|tauto]. unfold sassert at 1, mbind at 1, st_bind at 1.
      destruct (Z.leb_spec 4096 p), (Z.ltb_spec p (total_pages f)); done || lia. }
  rewrite (st_bind_eq _ _ f () f).
  2:{ unfold sassert. destruct (Z.leb_spec 4096 p), (Z.ltb_spec p (total_pages f)); done || lia. }
  rewrite (st_bind_eq _ _ _ _ _ (get_count_Ok f p A ltac:(lia))).
  destruct (count_lookup f p A ltac:(lia)) as [Hl Hc].
  destruct (decide (1 <= count_at f p)) as [H1|H1].
  2:{ right. split; [|tauto]. unfold sassert at 1, mbind at 1, st_bind at 1. destruct (Z.leb_spec 1 (count_at f p)); done || lia. }
  rewrite (st_bind_eq _ _ f () f) by (unfold sassert; destruct (Z.leb_spec 1 (count_at f p)); done || lia).
  rewrite u8_small by lia. rewrite (st_bind_eq _ _ _ _ _ (put_count_Ok f p _ A ltac:(lia))).
  set (f1 := recount f p (count_at f p - 1)).
  assert (F1 : free_pages f1 = free_pages f + (if count_at f p =? 1 then 1 else 0))
    by (unfold f1, recount; cbn; zcases; lia).
  rewrite (st_bind_eq _ _ _ () f1).
  2:{ unfold modify_st, mret, st_ret, f1, recount. destruct (Z.eqb_spec (count_at f p - 1) 0), (Z.eqb_spec (count_at f p) 0); try lia; cbn.
      - rewrite u32_small by lia. do 3 f_equal. lia.
      - do 2 f_equal. unfold set_mem_map, set_free_pages. cbn. f_equal. lia. }
  rewrite (st_bind_eq _ _ f1 f1 f1) by done. unfold sassert. change (total_pages f1) with (total_pages f).
  assert (Hlt : free_pages f1 < total_pages f).
  { apply (free_range f1), recount_ok; (done || lia). }
  destruct (Z.ltb_spec (free_pages f1) (total_pages f)); [|lia]. rewrite andb_true_r.
  destruct (Z.ltb_spec 0 (free_pages f1)); [left|right]; (split; [done|]).
  - split; [lia|]. split; [lia|]. destruct (Z.eqb_spec (count_at f p) 1); [by left|right; lia].
  - intros (_ & _ & H'). destruct (Z.eqb_spec (count_at f p) 1); [lia|lia].
Qed.

(** ** From the start *)

Lemma zeros_boot a b n :
  (a <= n <= a + b)%nat → zeros n (replicate a USED ++ replicate b 0) = Z.of_nat n - Z.of_nat a.
Proof.
  revert n. induction a as [|a IH]; intros n Hn; cbn [replicate app].
  - revert n Hn. induction b as [|b IHb]; intros [|n] Hn; cbn [replicate zeros]; try lia. rewrite IHb by lia. cbn. lia.
  - destruct n as [|n]; [lia|]. cbn [zeros]. rewrite IH by lia. change (USED =? 0) with false. lia.
Qed.

Lemma boot_count a b j :
  0 <= j → default 0 ((replicate a USED ++ replicate b 0) !! Z.to_nat j) = if decide (j < Z.of_nat a) then USED else 0.
Proof.
  intros Hj. case_decide.
  - rewrite lookup_app_l by (rewrite length_replicate; lia). rewrite lookup_replicate_2 by lia. done.
  - rewrite lookup_app_r by (rewrite length_replicate; lia). rewrite length_replicate.
    destruct (decide (Z.to_nat j - a < b)%nat).
    + by rewrite lookup_replicate_2.
    + rewrite (proj1 (lookup_replicate_None _ _ _)) by lia. done.
Qed.

Lemma map_start bits0 i :
  length bits0 = 480%nat → let m := bitmap_init bits0 480 786688 in
  wf m ∧ blength m = 480 ∧ offset m = 786688 ∧ bit m i = false.
Proof.
  intros Hb. assert (E : bits (bitmap_init bits0 480 786688) = replicate 480 0).
  { unfold bitmap_init, bitmap_make. cbn [bits]. rewrite drop_ge by (rewrite Hb; lia). apply app_nil_r. }
  split_and!; try done.
  - split; rewrite ?E; try done; try (cbn; lia). by apply Forall_replicate.
  - unfold bit. rewrite E. destruct (replicate 480 0 !! Z.to_nat (i / 8)) eqn:El.
    + apply lookup_replicate_1 in El as [-> _]. apply Z.bits_0.
    + apply Z.bits_0.
Qed.

Lemma pick_region_range l : ∀ base size,
  0 <= base < 4294967296 → 0 <= size < 4294967296 →
  let '(b, s) := pick_region l base size in 0 <= b < 4294967296 ∧ 0 <= s < 4294967296.
Proof.
  induction l as [|r l IH]; intros base size Hb Hs; cbn [pick_region]; [done|].
  destruct (_ && _); [|by apply IH]. apply IH; apply u32_range.
Qed.

Lemma memory_init_Ok l f :
  memory_init l = Ok f →
  4096 <= total_pages f < 1048576 ∧ memory_size f = (total_pages f - 256) * 4096 ∧ memory_base f = MEMORY_BASE ∧
  free_pages f = total_pages f - 256.
Proof.
  unfold memory_init. pose proof (pick_region_range l 0 0 ltac:(lia) ltac:(lia)) as R.
  destruct (pick_region l 0 0) as [base size]. destruct R as [Rb Rs].
  destruct (Z.ltb_spec (u32 (size + base)) KERNEL_MEM_SIZE) as [|Hk]; [done|].
  destruct (Z.eqb_spec base MEMORY_BASE) as [->|]; [|done].
  destruct (Z.eqb_spec (Z.land size 0xfff) 0) as [Ha|]; [|done].
  change 0xfff with (Z.ones 12) in Ha. rewrite Z.land_ones in Ha by lia. change (2 ^ 12) with 4096 in Ha.
  intros E. cbn in E. injection E as <-. cbn [total_pages memory_size memory_base free_pages].
  unfold MEMORY_BASE, KERNEL_MEM_SIZE in *.
  assert (Hw : size + 1048576 < 4294967296).
  { destruct (decide (size + 1048576 < 4294967296)); [done|]. exfalso.
    assert (u32 (size + 1048576) = size + 1048576 - 4294967296); [|lia].
    unfold u32. symmetry. apply (Z.mod_unique _ _ 1); lia. }
  rewrite u32_small in Hk by lia.
  assert (Hd : size = size / 4096 * 4096) by (pose proof (Z.div_mod size 4096); lia).
  change (IDX 1048576) with 256. unfold IDX. rewrite (u32_small size) by lia. rewrite Z.shiftr_div_pow2 by lia.
  change (2 ^ 12) with 4096.
  assert (3840 <= size / 4096 < 1048320) by (split; [apply Z.div_le_lower_bound|apply Z.div_lt_upper_bound]; lia).
  rewrite u32_small by lia. lia.
Qed.

(** The machine after both steps: everything below the array, and the array, is used. *)
Lemma memory_map_init_Ok l bits0 f :
  memory_init l = Ok f → length bits0 = 480%nat →
  ∃ f', memory_map_init bits0 f = Ok f' ∧ frames_ok f' ∧ total_pages f' = total_pages f ∧
    start_page_idx f' = 256 + mem_map_pages f' ∧ 1 <= mem_map_pages f' <= 256 ∧
    total_pages f <= mem_map_pages f' * 4096 ∧
    ∀ j, 0 <= j → count_at f' j = if decide (j < start_page_idx f') then USED else 0.
Proof.
  intros E Hb. destruct (memory_init_Ok l f E) as (Ht & Hs & _ & Hfree). unfold memory_map_init.
  assert (Hp : ∃ pages, div_round_up (total_pages f) PAGE_SIZE = Ok pages ∧ 1 <= pages <= 256 ∧ total_pages f <= pages * 4096).
  { destruct (div_round_up_ceil (total_pages f) PAGE_SIZE) as (n & E1 & H1 & H2); unfold PAGE_SIZE in *; [lia..|].
    exists n. pose proof (H2 256 ltac:(lia)). split_and!; [done|lia|lia|lia]. }
  destruct Hp as (pages & Ep & Hp & Hpt). rewrite Ep. cbn [mbind res_bind]. cbv zeta. change (IDX MEMORY_BASE) with 256. change PAGE_SIZE with 4096.
  change ((IDX KERNEL_MEM_SIZE - 256) / 8) with 480. change (256 + IDX KERNEL_VADDR_OFFSET) with 786688.
  rewrite (u32_small (256 + pages)) by lia. set (m0 := bitmap_init bits0 480 786688).
  assert (B0 : ∀ i, bit m0 i = false) by (intros i; apply (map_start bits0 i Hb)).
  destruct (map_start bits0 0 Hb) as (W0 & L0 & O0 & _). fold m0 in W0, L0, O0.
  destruct (scan_first_fit m0 pages W0 ltac:(lia)) as [(s & m & -> & Hf & Hmin & Wm & Lm & Om & Bm)|[_ Hnone]].
  2:{ exfalso. apply (Hnone 0). unfold free. rewrite L0. split_and!; [lia|lia|]. intros. apply B0. }
  assert (s = 0) as ->.
  { destruct Hf as (F1 & _). destruct (decide (s = 0)); [done|]. exfalso. apply (Hmin 0 ltac:(lia)).
    unfold free. rewrite L0. split_and!; [lia|lia|]. intros. apply B0. }
  eexists. split; [done|].
  assert (C : ∀ j, 0 <= j → count_at (Frames (replicate (Z.to_nat (256 + pages)) USED ++ replicate (Z.to_nat (pages * 4096 - (256 + pages))) 0) m
     (memory_base f) (memory_size f) (total_pages f) (u32 (free_pages f - pages)) (256 + pages) pages) j =
     if decide (j < 256 + pages) then USED else 0).
  { intros j Hj. unfold count_at. cbn [mem_map]. rewrite boot_count by done. rewrite Z2Nat.id by lia. done. }
  split; [|split; [done|split; [done|split; [exact Hp|split; [exact Hpt|exact C]]]]].
  rewrite Hfree, u32_small in * by lia. split; [split|by split; cbn; congruence|].
  - cbn [mem_map total_pages]. rewrite length_app, !length_replicate. lia.
  - done.
  - cbn [mem_map]. apply Forall_app. split; apply Forall_replicate; unfold USED; lia.
  - cbn [mem_map total_pages free_pages]. rewrite zeros_boot by lia. lia.
  - rewrite C by lia. rewrite decide_True by lia. done.
  - intros j Hj. cbn in Hj. rewrite C by lia. rewrite decide_False by lia. done.
  - intros i Hi. cbn [kernel_map]. rewrite Bm by lia. rewrite C by lia. rewrite B0. repeat case_decide; done || lia.
Qed.

(** ** Every run of the allocator *)

Inductive frame_step : frames → frames → Prop :=
  | step_alloc f f' count v : count < 4294967296 → alloc_kpage count f = Ok (v, f') → frame_step f f'
  | step_free f f' v count : 0 <= v < 1048576 → free_kpage (PAGE v) count f = Ok ((), f') → frame_step f f'
  | step_get f f' p : get_user_page f = Ok (p, f') → frame_step f f'
  | step_put f f' p : 0 <= p < 1048576 → put_user_page (PAGE p) f = Ok ((), f') → frame_step f f'.

Lemma frame_step_ok f f' : frame_step f f' → frames_ok f → frames_ok f' ∧ same_machine f f'.
Proof.
  intros [f1 f2 count v Hc E|f1 f2 v count Hv E|f1 f2 p E|f1 f2 p Hp E] K.
  - destruct (decide (1 <= count)) as [H1|H1].
    + destruct (alloc_kpage_Ok f1 count K ltac:(lia)) as [(s & g & E' & K' & _ & _ & [S _])|[E' _]]; [|congruence].
      assert (f2 = g) as -> by congruence. done.
    + exfalso. unfold alloc_kpage, sassert, mbind, st_bind in E. destruct (Z.ltb_spec 0 count); [lia|done].
  - by apply (free_kpage_inv f1 v count).
  - destruct (get_user_page_Ok f1 K) as [(q & E' & _ & _ & _ & K')|[E' _]]; [|congruence].
    assert (f2 = recount f1 q 1) as -> by congruence. split; [done|apply recount_same].
  - destruct (put_user_page_cases f1 p K Hp) as [(E' & Hr & Hc & _)|[E' _]]; [|congruence].
    assert (f2 = recount f1 p (count_at f1 p - 1)) as -> by congruence.
    destruct (count_lookup f1 p (fk_acc _ K) ltac:(lia)) as [_ Hb]. split; [|apply recount_same]. apply recount_user; (done || lia).
Qed.

Lemma frame_steps_ok f f' : rtc frame_step f f' → frames_ok f → frames_ok f' ∧ same_machine f f'.
Proof.
  induction 1 as [f|f f1 f' S _ IH]; intros K; [done|]. destruct (frame_step_ok f f1 S K) as [K1 S1].
  destruct (IH K1) as [K' S']. split; [done|by eapply same_machine_trans].
Qed.

(** ** The number of free user pages *)

Lemma zeros_ext n l l' :
  length l = length l' → (∀ i c c', (i < n)%nat → l !! i = Some c → l' !! i = Some c' → c = 0 ↔ c' = 0) → zeros n l = zeros n l'.
Proof.
  revert n l'. induction l as [|x l IH]; intros [|n] [|y l'] Hl H; cbn [zeros length] in *; try done.
  rewrite (IH n l'); [|lia|intros i c c' Hi; apply (H (S i)); lia].
  specialize (H 0%nat x y ltac:(lia) eq_refl eq_refl).
  destruct (Z.eqb_spec x 0), (Z.eqb_spec y 0); tauto.
Qed.

Lemma zeros_all_used n l : (∀ i c, (i < n)%nat → l !! i = Some c → c ≠ 0) → zeros n l = 0.
Proof.
  revert n. induction l as [|x l IH]; intros [|n] H; cbn [zeros]; try done.
  rewrite (IH n) by (intros i c Hi; apply (H (S i)); lia). specialize (H 0%nat x ltac:(lia) eq_refl). by destruct (Z.eqb_spec x 0).
Qed.

Definition free_user (f : frames) : Z := zeros (Z.to_nat (total_pages f - 4096)) (drop (Z.to_nat 4096) (mem_map f)).

Lemma user_count f i c :
  (i < Z.to_nat (total_pages f - 4096))%nat → drop (Z.to_nat 4096) (mem_map f) !! i = Some c →
  4096 <= 4096 + Z.of_nat i < total_pages f ∧ count_at f (4096 + Z.of_nat i) = c.
Proof.
  intros Hi Hc. rewrite lookup_drop in Hc. split; [lia|]. unfold count_at.
  replace (Z.to_nat (4096 + Z.of_nat i)) with (Z.to_nat 4096 + i)%nat by lia. by rewrite Hc.
Qed.

Lemma free_user_ext f f' :
  same_machine f f' → (∀ j, 4096 <= j < total_pages f → count_at f j = 0 ↔ count_at f' j = 0) → free_user f' = free_user f.
Proof.
  intros (T & _ & _ & _ & _ & L) H. unfold free_user. rewrite T. symmetry. apply zeros_ext; [by rewrite !length_drop, L|].
  intros i c c' Hi Hc Hc'. destruct (user_count f i c Hi Hc) as [Hr <-]. destruct (user_count f' i c' ltac:(by rewrite T) Hc') as [_ <-].
  by apply H.
Qed.

Lemma free_user_none f : (∀ j, 4096 <= j < total_pages f → count_at f j ≠ 0) → free_user f = 0.
Proof.
  intros H. apply zeros_all_used. intros i c Hi Hc. destruct (user_count f i c Hi Hc) as [Hr <-]. by apply H.
Qed.

Lemma free_user_take f p :
  accounts f → 4096 <= p < total_pages f → count_at f p = 0 → free_user (recount f p 1) = free_user f - 1.
Proof.
  intros A Hp H0. destruct (count_lookup f p A ltac:(lia)) as [Hl _]. rewrite H0 in Hl. unfold free_user. cbn [total_pages mem_map recount set_free_pages set_mem_map].
  rewrite drop_insert_ge by lia. rewrite (zeros_insert _ _ _ 0 1); [cbn; lia|lia|].
  rewrite lookup_drop. replace (Z.to_nat 4096 + (Z.to_nat p - Z.to_nat 4096))%nat with (Z.to_nat p) by lia. done.
Qed.

(** ** Properties *)

(** C10. The books of physical memory are kept.  On every memory map the boot loader
    reports, either [memory_init] stops, or [memory_map_init] succeeds and from then on
    no sequence of allocations and releases of kernel and user pages, with any
    arguments, breaks them: [free_pages] is the number of zero counts below
    [total_pages] and never all of them, no page beyond is ever counted, and the bit of
    a kernel page is set exactly while its count is not zero. *)
Theorem page_accounts_invariant l bits0 f0 :
  memory_init l = Ok f0 → length bits0 = 480%nat →
  ∃ f1, memory_map_init bits0 f0 = Ok f1 ∧
    ∀ f, rtc frame_step f1 f → frames_ok f ∧ 0 <= free_pages f < total_pages f ∧ total_pages f = total_pages f0.
Proof.
  intros E Hb. destruct (memory_map_init_Ok l bits0 f0 E Hb) as (f1 & E1 & K1 & T1 & _).
  exists f1. split; [done|]. intros f Hf. rewrite <- T1.
  destruct (frame_steps_ok f1 f Hf K1) as [K (T & _)]. split; [done|]. split; [by apply free_range, fk_acc|done].
Qed.

(** [free_kpage] undoes [alloc_kpage]: whatever run of pages an allocation
    answered, freeing it succeeds and leads back to the very state before, counts,
    bitmap and number of free pages; freeing it a second time stops at the assertion. *)
Theorem alloc_free_roundtrip f count v f1 :
  frames_ok f → 1 <= count < 4294967296 → alloc_kpage count f = Ok (v, f1) →
  free_kpage v count f1 = Ok ((), f) ∧ ∃ e, free_kpage v count f = Stop e.
Proof.
  intros K Hc E. pose proof (ac_total _ (fk_acc _ K)) as Ht.
  destruct (alloc_kpage_Ok f count K Hc) as [(s & f' & E' & K' & (R1 & R2 & R3) & _ & S & F & C)|[E' _]]; [|congruence].
  assert (v = PAGE (786688 + s) ∧ f1 = f') as [-> ->] by (split; congruence). split.
  - destruct (free_kpage_Ok f' s count K' R1 ltac:(lia) R2) as (g & E2 & K2 & S2 & C2).
    { intros i Hi. rewrite C by lia. rewrite decide_True by lia. done. }
    rewrite E2. do 2 f_equal. apply (frames_ext f g K K2).
    + by eapply same_machine_trans.
    + intros j Hj. rewrite C2, C by done. repeat case_decide; try done.
      replace j with (256 + (j - 256)) by lia. rewrite R3 by lia. done.
  - rewrite free_kpage_enter by (apply K || lia). destruct (Z.to_nat count) as [|n] eqn:En; [lia|].
    cbn [reset_loop]. rewrite (u32_small (786688 + s - 786688 + 256)) by lia. replace (786688 + s - 786688 + 256) with (256 + s) by lia.
    replace (786688 + s) with (256 + s + 786432) by lia.
    destruct (reset_one_stop f (256 + s) K ltac:(lia)) as [e Ee].
    { intros (_ & H & _). apply H, R3. lia. }
    exists e. unfold mbind, st_bind. by rewrite Ee.
Qed.

(** User pages. [get_user_page] answers the lowest free page from 16M on, and
    stops exactly when there is none; [put_user_page] of it leads back to the state
    before. *)
Theorem user_page_roundtrip f :
  frames_ok f →
  (∃ p f1, get_user_page f = Ok (PAGE p, f1) ∧ 4096 <= p < total_pages f ∧ count_at f p = 0 ∧
     (∀ j, 4096 <= j < p → count_at f j ≠ 0) ∧ free_pages f1 = free_pages f - 1 ∧
     put_user_page (PAGE p) f1 = Ok ((), f)) ∨
  (get_user_page f = Stop Panic ∧ ∀ j, 4096 <= j < total_pages f → count_at f j ≠ 0).
Proof.
  intros K. pose proof (fk_acc _ K) as A. pose proof (ac_total _ A).
  destruct (get_user_page_Ok f K) as [(p & E & Hp & Hz & Hall & K1)|?]; [left|by right].
  exists p, (recount f p 1). split_and!; [done|lia|lia|done|done|cbn; rewrite Hz; cbn; lia|].
  assert (C1 : ∀ j, 0 <= j → count_at (recount f p 1) j = if decide (j = p) then 1 else count_at f j)
    by (intros; apply recount_at; (done || lia)).
  destruct (put_user_page_cases (recount f p 1) p K1 ltac:(lia)) as [(E1 & _)|[_ Hn]].
  - rewrite E1. do 2 f_equal. apply frames_ext; [done| | |].
    + apply recount_user; [done|done|]. rewrite C1, decide_True by lia. lia.
    + eapply same_machine_trans; apply recount_same.
    + intros j Hj. rewrite recount_at by (apply K1 || done || (cbn; lia)). rewrite !C1 by lia.
      repeat case_decide; try done. subst. by rewrite Hz.
  - exfalso. apply Hn. rewrite C1, decide_True by lia. cbn. lia.
Qed.

(** What makes [put_user_page] stop: a page below 16M or beyond memory, a page
    that nobody holds - and, in a machine whose memory is full, dropping one of several
    references of a shared page, which frees nothing. *)
Theorem put_user_page_errors f p :
  frames_ok f → 0 <= p < 1048576 →
  put_user_page (PAGE p) f =
    if decide (4096 <= p < total_pages f ∧ 1 <= count_at f p ∧ (count_at f p = 1 ∨ 0 < free_pages f))
    then Ok ((), recount f p (count_at f p - 1)) else Stop Panic.
Proof.
  intros K Hp. destruct (put_user_page_cases f p K Hp) as [[E H]|[E H]]; case_decide; done.
Qed.

(** ** A machine of 16M and sixteen pages *)

Definition demo_regions : list region :=
  [Region 0 0x9fc00 1; Region 0x100000 0xf10000 1; Region 0xf0000 0x10000 2].

Definition demo_frames : frames := Frames [] (BitMap [] 0 0) 0x100000 0xf10000 4112 3856 0 0.

Lemma demo_init : memory_init demo_regions = Ok demo_frames.
Proof. reflexivity. Qed.

Lemma demo_machine :
  ∃ f, memory_map_init (replicate 480 0) demo_frames = Ok f ∧ frames_ok f ∧ total_pages f = 4112 ∧
    ∀ j, 0 <= j → count_at f j = if decide (j < 258) then USED else 0.
Proof.
  destruct (memory_map_init_Ok demo_regions (replicate 480 0) demo_frames demo_init eq_refl)
    as (f & E & K & T & S & _ & _ & C).
  exists f. split; [done|]. split; [done|]. split; [done|]. intros j Hj. rewrite C by done.
  assert (start_page_idx f = 258) as ->; [|done].
  unfold memory_map_init in E. change (div_round_up (total_pages demo_frames) PAGE_SIZE) with (Ok 2 : res Z) in E.
  cbn [mbind res_bind] in E. destruct (bitmap_scan _ _) as [[? m]|]; [|done]. by injection E as <-.
Qed.

Lemma page_accounts_invariant_witness :
  ∃ f1, memory_map_init (replicate 480 0) demo_frames = Ok f1 ∧
    ∀ f, rtc frame_step f1 f → frames_ok f ∧ 0 <= free_pages f < total_pages f ∧ total_pages f = 4112.
Proof. exact (page_accounts_invariant demo_regions (replicate 480 0) demo_frames demo_init eq_refl). Defined.

Lemma alloc_free_roundtrip_witness :
  ∃ f v f1, alloc_kpage 3 f = Ok (v, f1) ∧ free_kpage v 3 f1 = Ok ((), f) ∧ ∃ e, free_kpage v 3 f = Stop e.
Proof.
  destruct demo_machine as (f & _ & K & _ & C).
  destruct (alloc_kpage_Ok f 3 K ltac:(lia)) as [(s & f1 & E & _)|[_ Hnone]].
  - exists f, (PAGE (786688 + s)), f1. split; [exact E|].
    exact (alloc_free_roundtrip f 3 _ f1 K ltac:(lia) E).
  - exfalso. apply (Hnone 2). split; [lia|]. split; [lia|]. intros i Hi. rewrite C by lia. by rewrite decide_False by lia.
Defined.

Lemma user_page_roundtrip_witness :
  ∃ f, frames_ok f ∧
  ((∃ p f1, get_user_page f = Ok (PAGE p, f1) ∧ 4096 <= p < total_pages f ∧ count_at f p = 0 ∧
     (∀ j, 4096 <= j < p → count_at f j ≠ 0) ∧ free_pages f1 = free_pages f - 1 ∧
     put_user_page (PAGE p) f1 = Ok ((), f)) ∨
  (get_user_page f = Stop Panic ∧ ∀ j, 4096 <= j < total_pages f → count_at f j ≠ 0)).
Proof.
  destruct demo_machine as (f & _ & K & _). exists f. split; [exact K|]. exact (user_page_roundtrip f K).
Defined.

Lemma put_user_page_errors_witness :
  ∃ f, frames_ok f ∧ put_user_page (PAGE 4096) f =
    if decide (4096 <= 4096 < total_pages f ∧ 1 <= count_at f 4096 ∧ (count_at f 4096 = 1 ∨ 0 < free_pages f))
    then Ok ((), recount f 4096 (count_at f 4096 - 1)) else Stop Panic.
Proof.
  destruct demo_machine as (f & _ & K & _). exists f. split; [exact K|].
  exact (put_user_page_errors f 4096 K ltac:(lia)).
Defined.
