(* ===== verification/Paging.v ===== *)
(** * Page tables and user memory (src/kernel/memory.c)

    Page table entries and their 32-bit layout, the boot mapping, the window [kmap] opens
    on memory above 16M, the page tables of the current task, the page fault handler with
    its copy on write, and the system calls [brk], [mmap] and [munmap].  Physical memory
    is a map from page numbers to the 1024 words of the page (a page not in it holds
    zeros); a kernel pointer into the window is resolved through the window's page table
    on every access, so that a pointer used after its slot was reused reads another page. *)

From S2P Require Import Prelude Bitmap KStdlib Task Pages.

Definition KERNEL_PAGE_TABLE_COUNT : Z := 4.
Definition USER_STACK_TOP : Z := KERNEL_VADDR_OFFSET - 1.
Definition USER_STACK_BOTTOM : Z := USER_STACK_TOP - 0x200000.
Definition USER_MMAP_ADDR : Z := 0x10000000.
Definition USER_MMAP_SIZE : Z := USER_STACK_BOTTOM - USER_MMAP_ADDR.
Definition KMAP_POOL_LEN : Z := 1024.
Definition PROT_WRITE : Z := 2.
Definition MAP_SHARED : Z := 1.
Definition MAP_PRIVATE : Z := 2.

Definition GET_PAGE (addr : Z) : Z := Z.land (u32 addr) 0xFFFFF000.
Definition PDE_IDX (addr : Z) : Z := Z.shiftr (u32 addr) 22.
Definition PTE_IDX (addr : Z) : Z := Z.land (Z.shiftr (u32 addr) 12) 0x3ff.

(** ** Entries *)

Record page_entry := PageEntry {
  present : bool; write : bool; user : bool; pwt : bool; pcd : bool; accessed : bool; dirty : bool; pat : bool;
  global : bool; shared : bool; privat : bool; readonly : bool; index : Z
}.

Definition set_present (v : bool) (e : page_entry) : page_entry :=
  PageEntry v (write e) (user e) (pwt e) (pcd e) (accessed e) (dirty e) (pat e) (global e) (shared e) (privat e) (readonly e) (index e).
Definition set_write (v : bool) (e : page_entry) : page_entry :=
  PageEntry (present e) v (user e) (pwt e) (pcd e) (accessed e) (dirty e) (pat e) (global e) (shared e) (privat e) (readonly e) (index e).
Definition set_user (v : bool) (e : page_entry) : page_entry :=
  PageEntry (present e) (write e) v (pwt e) (pcd e) (accessed e) (dirty e) (pat e) (global e) (shared e) (privat e) (readonly e) (index e).
Definition set_shared (v : bool) (e : page_entry) : page_entry :=
  PageEntry (present e) (write e) (user e) (pwt e) (pcd e) (accessed e) (dirty e) (pat e) (global e) v (privat e) (readonly e) (index e).
Definition set_privat (v : bool) (e : page_entry) : page_entry :=
  PageEntry (present e) (write e) (user e) (pwt e) (pcd e) (accessed e) (dirty e) (pat e) (global e) (shared e) v (readonly e) (index e).
Definition set_readonly (v : bool) (e : page_entry) : page_entry :=
  PageEntry (present e) (write e) (user e) (pwt e) (pcd e) (accessed e) (dirty e) (pat e) (global e) (shared e) (privat e) v (index e).

(** The bit-fields in the order of the structure, the lowest bit first. *)
Definition flag_bits (e : page_entry) : list bool :=
  [present e; write e; user e; pwt e; pcd e; accessed e; dirty e; pat e; global e; shared e; privat e; readonly e].

Definition push_bit (b : bool) (w : Z) : Z := Z.b2z b + 2 * w.
Definition encode (e : page_entry) : Z := foldr push_bit (index e) (flag_bits e).

Definition decode (w : Z) : page_entry :=
  PageEntry (Z.testbit w 0) (Z.testbit w 1) (Z.testbit w 2) (Z.testbit w 3) (Z.testbit w 4) (Z.testbit w 5) (Z.testbit w 6)
    (Z.testbit w 7) (Z.testbit w 8) (Z.testbit w 9) (Z.testbit w 10) (Z.testbit w 11) (Z.land (Z.shiftr w 12) 0xfffff).

Definition zero_entry : page_entry :=
  PageEntry false false false false false false false false false false false false 0.

(** [entry_init]: the field [index] keeps 20 bits. *)
Definition entry_init (index : Z) : page_entry :=
  PageEntry true true false false false false false false false false false false (Z.land index 0xfffff).

(** ** The state *)

Record kmap_mapping := KMapping { km_present : bool; km_cnt : Z; km_paddr : Z }.

(** The fields of the current task the memory manager works on. *)
Record task_mm := TaskMM { t_pde : Z; t_vmap : bitmap_t; t_end : Z; t_brk : Z; t_uid : Z }.

Record mm := MM {
  fr : frames;
  ram : gmap Z (list Z);
  kmap_pool : list kmap_mapping;
  kmap_pte : list page_entry;
  cur : task_mm
}.

Definition set_fr (v : frames) (m : mm) : mm := MM v (ram m) (kmap_pool m) (kmap_pte m) (cur m).
Definition set_ram (v : gmap Z (list Z)) (m : mm) : mm := MM (fr m) v (kmap_pool m) (kmap_pte m) (cur m).
Definition set_kmap_pool (v : list kmap_mapping) (m : mm) : mm := MM (fr m) (ram m) v (kmap_pte m) (cur m).
Definition set_kmap_pte (v : list page_entry) (m : mm) : mm := MM (fr m) (ram m) (kmap_pool m) v (cur m).
Definition set_cur (v : task_mm) (m : mm) : mm := MM (fr m) (ram m) (kmap_pool m) (kmap_pte m) v.
Definition set_vmap (v : bitmap_t) (t : task_mm) : task_mm := TaskMM (t_pde t) v (t_end t) (t_brk t) (t_uid t).
Definition set_brk (v : Z) (t : task_mm) : task_mm := TaskMM (t_pde t) (t_vmap t) (t_end t) v (t_uid t).

Definition M := ST mm.

Definition on_frames {A} (o : F A) : M A := λ m,
  match o (fr m) with Ok (a, f) => Ok (a, set_fr f m) | Stop e => Stop e end.

Definition on_vmap {A} (o : ST bitmap_t A) : M A := λ m,
  match o (t_vmap (cur m)) with Ok (a, v) => Ok (a, set_cur (set_vmap v (cur m)) m) | Stop e => Stop e end.

(** Physical memory, by page and word. *)
Definition zero_page : list Z := replicate 1024 0.
Definition words (m : mm) (p : Z) : list Z := default zero_page (ram m !! p).

Definition rd (p i : Z) : M Z := λ m, w ← zget (words m p) i; Ok (w, m).
Definition wr (p i w : Z) : M unit := λ m, l ← zset (words m p) i w; Ok ((), set_ram (<[p := l]> (ram m)) m).
Definition wr_page (p : Z) (l : list Z) : M unit := modify_st (λ m, set_ram (<[p := l]> (ram m)) m).

Definition get_entry (p i : Z) : M page_entry := w ← rd p i; mret (decode w).
Definition put_entry (p i : Z) (e : page_entry) : M unit := wr p i (encode e).

(** ** The boot mapping *)

(** The entries [tidx ..] of the page table in page [p]: the pages [index ..]. *)
Fixpoint fill_table (n : nat) (p tidx index : Z) : M unit :=
  match n with
  | O => mret ()
  | S n => put_entry p tidx (entry_init index);; fill_table n p (tidx + 1) (index + 1)
  end.

Fixpoint map_tables (n : nat) (i i2 index : Z) : M unit :=
  match n with
  | O => mret ()
  | S n =>
      let pte := PAGE_SIZE + PAGE_SIZE * i in
      wr_page (IDX pte) zero_page;;
      put_entry 0 i (entry_init (IDX pte));;
      put_entry 0 i2 (entry_init (IDX pte));;
      fill_table 1024 (IDX pte) 0 index;;
      map_tables n (i + 1) (i2 + 1) (index + 1024)
  end.

(** [mapping_init]; loading [cr3] and turning paging on are outside the model. *)
Definition mapping_init : M unit :=
  wr_page 0 zero_page;;
  map_tables (Z.to_nat KERNEL_PAGE_TABLE_COUNT) 0 (Z.shiftr KERNEL_VADDR_OFFSET 22) 0.

(** [memset] of the first entries of the page directory, as zero words. *)
Fixpoint clear_words (n : nat) (p i : Z) : M unit :=
  match n with O => mret () | S n => wr p i 0;; clear_words n p (i + 1) end.

Definition unset_low_mapping : M unit := clear_words (Z.to_nat KERNEL_PAGE_TABLE_COUNT) 0 0.

(** ** The window *)

Definition kmap_start_vaddr : Z := u32 (KERNEL_MEM_SIZE + KERNEL_VADDR_OFFSET).
Definition KMAP_GET_VADDR (i : Z) : Z := u32 (kmap_start_vaddr + PAGE i).
Definition KMAP_GET_INDEX (vaddr : Z) : Z := PTE_IDX (u32 (vaddr - kmap_start_vaddr)).

Definition get_pde : M Z := λ m, Ok (IDX (t_pde (cur m)), m).

Definition kmap_init : M unit :=
  pd ← get_pde;
  pte ← on_frames (alloc_kpage 1);
  put_entry pd (PDE_IDX kmap_start_vaddr) (entry_init (IDX (u32 (pte - KERNEL_VADDR_OFFSET))));;
  modify_st (set_kmap_pte (replicate 1024 zero_entry));;
  modify_st (set_kmap_pool (replicate 1024 (KMapping false 0 0))).

(** The loop of [kmap]: the slot it stops at, and whether the page is mapped there. *)
Fixpoint kmap_find (pool : list kmap_mapping) (i paddr : Z) : option (Z * bool) :=
  match pool with
  | [] => None
  | k :: pool =>
      if negb (km_present k) then Some (i, false)
      else if km_paddr k =? paddr then Some (i, true)
      else kmap_find pool (i + 1) paddr
  end.

Definition kmap (paddr : Z) : M Z :=
  sassert (KERNEL_MEM_SIZE <=? paddr);;
  sassert (ASSERT_PAGE paddr);;
  m ← get_st;
  match kmap_find (kmap_pool m) 0 paddr with
  | None => stop_st Panic
  | Some (i, true) =>
      k ← lift_st (zget (kmap_pool m) i);
      pool ← lift_st (zset (kmap_pool m) i (KMapping true ((km_cnt k + 1) mod 2147483648) (km_paddr k)));
      put_st (set_kmap_pool pool m);;
      mret (KMAP_GET_VADDR i)
  | Some (i, false) =>
      pool ← lift_st (zset (kmap_pool m) i (KMapping true 1 paddr));
      pte ← lift_st (zset (kmap_pte m) i (entry_init (IDX paddr)));
      put_st (set_kmap_pte pte (set_kmap_pool pool m));;
      mret (KMAP_GET_VADDR i)
  end.

Definition kunmap (vaddr : Z) : M unit :=
  sassert ((kmap_start_vaddr <=? vaddr) && (vaddr <? u32 (kmap_start_vaddr + KMAP_POOL_LEN * PAGE_SIZE)));;
  sassert (ASSERT_PAGE vaddr);;
  m ← get_st;
  let idx := KMAP_GET_INDEX vaddr in
  k ← lift_st (zget (kmap_pool m) idx);
  let cnt := (km_cnt k - 1) mod 2147483648 in
  pool ← lift_st (zset (kmap_pool m) idx (KMapping false cnt (km_paddr k)));
  put_st (set_kmap_pool pool m);;
  if cnt =? 0 then
    e ← lift_st (zget (kmap_pte m) idx);
    pte ← lift_st (zset (kmap_pte m) idx (set_present false e));
    modify_st (set_kmap_pte pte)
  else mret ().

(** What the processor does with a pointer into the window: the page and the word. *)
Definition resolve (v : Z) : M (Z * Z) := λ m,
  if (kmap_start_vaddr <=? v) && (v <? kmap_start_vaddr + KMAP_POOL_LEN * PAGE_SIZE) then
    e ← zget (kmap_pte m) (KMAP_GET_INDEX v);
    if present e then Ok ((index e, Z.land v 0xfff / 4), m) else Stop OutOfBounds
  else Stop OutOfBounds.

Definition load_entry (v : Z) : M page_entry := '(p, i) ← resolve v; get_entry p i.
Definition store_entry (v : Z) (e : page_entry) : M unit := '(p, i) ← resolve v; put_entry p i e.
Definition clear_page (v : Z) : M unit := '(p, _) ← resolve v; wr_page p zero_page.
Definition copy_page (dst src : Z) : M unit :=
  '(p, _) ← resolve dst; '(q, _) ← resolve src; m ← get_st; wr_page p (words m q).

(** ** The tables of the current task *)

(** The answer points to the entry, in the window: the caller has to [kunmap] it. *)
Definition get_pte (vaddr : Z) : M Z :=
  pde ← get_pde;
  let idx := PDE_IDX vaddr in
  entry ← get_entry pde idx;
  kvaddr ←
    (if negb (present entry) then
       paddr_page ← on_frames get_user_page;
       put_entry pde idx (set_user true (entry_init (IDX paddr_page)));;
       kvaddr ← kmap paddr_page;
       clear_page kvaddr;;
       mret kvaddr
     else kmap (PAGE (index entry)));
  mret (u32 (kvaddr + 4 * PTE_IDX vaddr)).

Definition link_user_page (vaddr : Z) : M unit :=
  pte ← get_pte vaddr;
  entry ← load_entry pte;
  (if present entry then mret ()
   else
     paddr_page ← on_frames get_user_page;
     store_entry pte (set_user true (entry_init (IDX paddr_page))));;
  kunmap (GET_PAGE pte).

Definition unlink_user_page (vaddr : Z) : M unit :=
  sassert (ASSERT_PAGE vaddr);;
  pte ← get_pte vaddr;
  entry ← load_entry pte;
  (if present entry then
     store_entry pte (set_present false entry);;
     on_frames (put_user_page (PAGE (index entry)))
   else mret ());;
  kunmap (GET_PAGE pte).

(** ** Copying and freeing the tables (fork, exit, execve) *)

(** The page directory of the new task, answered as its physical address. *)
Definition copy_pde : M Z :=
  pde ← on_frames (alloc_kpage 1);
  pd ← get_pde;
  m ← get_st;
  wr_page (IDX (u32 (pde - KERNEL_VADDR_OFFSET))) (words m pd);;
  mret (u32 (pde - KERNEL_VADDR_OFFSET)).

(** One more reference to the page of an entry; a page that is not [shared] loses the
    right to be written. *)
Definition share_entry (v : Z) : M unit :=
  e ← load_entry v;
  if negb (present e) then mret ()
  else
    (if negb (shared e) then store_entry v (set_write false e) else mret ());;
    c ← on_frames (get_count (index e));
    on_frames (put_count (index e) (u8 (c + 1)));;
    sassert (u8 (c + 1) <? 255).

Fixpoint share_loop (n : nat) (v : Z) : M unit :=
  match n with O => mret () | S n => share_entry v;; share_loop n (v + 4) end.

(** The loop of [copy_pte] over the entries of the current directory [cd] and of the
    new one [td]. *)
Definition copy_table (cd td i : Z) : M unit :=
  e ← get_entry cd i;
  if negb (present e) then mret ()
  else
    target ← on_frames get_user_page;
    put_entry td i (set_user true (entry_init (IDX target)));;
    current_pte ← kmap (PAGE (index e));
    target_pte ← kmap target;
    share_loop 1024 current_pte;;
    copy_page target_pte current_pte;;
    kunmap current_pte;;
    kunmap target_pte.

Fixpoint copy_tables (n : nat) (cd td i : Z) : M unit :=
  match n with O => mret () | S n => copy_table cd td i;; copy_tables n cd td (i + 1) end.

Definition USER_PDES : Z := PDE_IDX KERNEL_VADDR_OFFSET.

Definition copy_pte : M Z :=
  cd ← get_pde;
  pde ← copy_pde;
  copy_tables (Z.to_nat USER_PDES) cd (IDX pde) 0;;
  mret pde.

Definition free_entry (v : Z) : M unit :=
  e ← load_entry v;
  if negb (present e) then mret ()
  else on_frames (put_user_page (PAGE (index e)));; store_entry v (set_present false e).

Fixpoint free_loop (n : nat) (v : Z) : M unit :=
  match n with O => mret () | S n => free_entry v;; free_loop n (v + 4) end.

Definition free_table (pd i : Z) : M unit :=
  e ← get_entry pd i;
  if negb (present e) then mret ()
  else
    pte_base ← kmap (PAGE (index e));
    free_loop 1024 pte_base;;
    kunmap pte_base;;
    on_frames (put_user_page (PAGE (index e)));;
    put_entry pd i (set_present false e).

Fixpoint free_tables (n : nat) (pd i : Z) : M unit :=
  match n with O => mret () | S n => free_table pd i;; free_tables n pd (i + 1) end.

Definition free_pte : M unit :=
  pd ← get_pde;
  free_tables (Z.to_nat USER_PDES) pd 0.

(** ** Page faults *)

(** The handler either returns to the faulting instruction or does not return from
    [sys_exit]. *)
Inductive fault_end := Resumed | Exited (code : Z).

(** A write to a present page that may not be written. *)
Definition protection_fault (vaddr : Z) : M fault_end :=
  pte ← get_pte vaddr;
  e ← load_entry pte;
  sassert (present e);;
  sassert (IDX MEMORY_BASE <=? index e);;
  c ← on_frames (get_count (index e));
  sassert (negb (c =? 0));;
  sassert (negb (shared e));;
  if readonly e then mret (Exited 500)
  else
    (if c =? 1 then store_entry pte (set_write true e)
     else
       sassert (c =? 2);;
       on_frames (put_count (index e) (u8 (c - 1)));;
       paddr_page ← on_frames get_user_page;
       page_new_vaddr ← kmap paddr_page;
       page_old_vaddr ← kmap (PAGE (index e));
       copy_page page_new_vaddr page_old_vaddr;;
       store_entry pte (set_user true (entry_init (IDX paddr_page))));;
    kunmap (GET_PAGE pte);;
    mret Resumed.

(** [page_fault] at the address in [cr2] with the processor's error code; the messages
    it prints are outside the model. *)
Definition page_fault (vaddr error : Z) : M fault_end :=
  m ← get_st;
  sassert (t_uid (cur m) =? USER_RING3);;
  if USER_STACK_TOP <? vaddr then mret (Exited (-1))
  else if Z.testbit error 0 then
    sassert (Z.testbit error 1);;
    protection_fault vaddr
  else if (USER_STACK_BOTTOM <? vaddr) && (vaddr <=? USER_STACK_TOP) then
    link_user_page vaddr;;
    mret Resumed
  else mret (Exited (-1)).

(** ** System calls *)

(** Pages [page], [page + 4096] .. are unlinked. *)
Fixpoint unlink_loop (n : nat) (page : Z) : M unit :=
  match n with O => mret () | S n => unlink_user_page page;; unlink_loop n (u32 (page + PAGE_SIZE)) end.

Definition sys_brk (addr : Z) : M Z :=
  let brk := u32 addr in
  sassert (ASSERT_PAGE brk);;
  m ← get_st;
  sassert (t_uid (cur m) =? USER_RING3);;
  if USER_MMAP_ADDR <=? brk then mret EOF_
  else if brk <? t_end (cur m) then mret EOF_
  else if brk <? t_brk (cur m) then
    unlink_loop (Z.to_nat ((t_brk (cur m) - brk + PAGE_SIZE - 1) / PAGE_SIZE)) brk;;
    modify_st (λ m, set_cur (set_brk brk (cur m)) m);;
    mret 0
  else if PAGE (free_pages (fr m)) <? u32 (brk - t_brk (cur m)) then mret EOF_
  else
    modify_st (λ m, set_cur (set_brk brk (cur m)) m);;
    mret 0.

Record mmap_args := MmapArgs { a_addr : Z; a_length : Z; a_prot : Z; a_flags : Z; a_fd : Z; a_offset : Z }.

(** What [sys_mmap] writes into the entry of a page. *)
Definition mmap_entry (prot flags : Z) (e : page_entry) : page_entry :=
  let e := set_user true e in
  let e := if negb (Z.land prot PROT_WRITE =? 0) then set_readonly false (set_write true e)
           else set_readonly true (set_write false e) in
  if negb (Z.land flags MAP_SHARED =? 0) then set_shared true e
  else if negb (Z.land flags MAP_PRIVATE =? 0) then set_privat true e else e.

Fixpoint mmap_loop (n : nat) (page prot flags : Z) : M unit :=
  match n with
  | O => mret ()
  | S n =>
      link_user_page page;;
      on_vmap (bitmap_set (IDX page) true);;
      pte ← get_pte page;
      e ← load_entry pte;
      store_entry pte (mmap_entry prot flags e);;
      mmap_loop n (u32 (page + PAGE_SIZE)) prot flags
  end.

(** The address, and the file, offset and length of the [sys_lseek] and [sys_read] that
    end a mapping of a file. *)
Definition sys_mmap (args : mmap_args) : M (Z * option (Z * Z * Z)) :=
  let length := u32 (a_length args) in
  sassert (ASSERT_PAGE (u32 (a_addr args)));;
  sassert (0 <? length);;
  count ← lift_st (div_round_up length PAGE_SIZE);
  vaddr ←
    (if u32 (a_addr args) =? 0 then s ← on_vmap (bitmap_scan count); mret (u32 (s * PAGE_SIZE))
     else mret (u32 (a_addr args)));
  sassert ((USER_MMAP_ADDR <=? vaddr) && (u32 (vaddr + length) <=? USER_MMAP_ADDR + USER_MMAP_SIZE));;
  mmap_loop (Z.to_nat count) vaddr (a_prot args) (a_flags args);;
  mret (vaddr, if a_fd args =? EOF_ then None else Some (a_fd args, a_offset args, length)).

Fixpoint munmap_loop (n : nat) (page : Z) : M unit :=
  match n with
  | O => mret ()
  | S n =>
      unlink_user_page page;;
      m ← get_st;
      t ← lift_st (bitmap_test (t_vmap (cur m)) (IDX page));
      sassert t;;
      on_vmap (bitmap_set (IDX page) false);;
      munmap_loop n (u32 (page + PAGE_SIZE))
  end.

Definition sys_munmap (addr length : Z) : M Z :=
  let vaddr := u32 addr in
  sassert ((USER_MMAP_ADDR <=? vaddr) && (u32 (vaddr + length) <=? USER_MMAP_ADDR + USER_MMAP_SIZE));;
  sassert (ASSERT_PAGE vaddr);;
  count ← lift_st (div_round_up (u32 length) PAGE_SIZE);
  munmap_loop (Z.to_nat count) vaddr;;
  mret 0.

(** ** The layout of an entry *)

Lemma push_bits bs w n : (n < length bs)%nat → Z.testbit (foldr push_bit w bs) (Z.of_nat n) = nth n bs false.
Proof.
  revert n. induction bs as [|b bs IH]; intros [|n] Hn; cbn [foldr length nth] in *; try lia.
  - unfold push_bit. rewrite Z.add_comm. apply Z.testbit_0_r.
  - unfold push_bit. rewrite Nat2Z.inj_succ, Z.add_comm, Z.testbit_succ_r by lia. apply IH. lia.
Qed.

Lemma push_rest bs w n : Z.testbit (foldr push_bit w bs) (Z.of_nat (length bs + n)) = Z.testbit w (Z.of_nat n).
Proof.
  induction bs as [|b bs IH]; cbn [foldr length Nat.add]; [done|].
  unfold push_bit. rewrite Nat2Z.inj_succ, Z.add_comm, Z.testbit_succ_r by lia. apply IH.
Qed.

Lemma encode_flag e n : 0 <= n < 12 → Z.testbit (encode e) n = nth (Z.to_nat n) (flag_bits e) false.
Proof. intros. rewrite <- (Z2Nat.id n) at 1 by lia. apply push_bits. cbn. lia. Qed.

Lemma encode_index e n : 0 <= n → Z.testbit (encode e) (12 + n) = Z.testbit (index e) n.
Proof.
  intros Hn. pose proof (push_rest (flag_bits e) (index e) (Z.to_nat n)) as H.
  rewrite Z2Nat.id in H by done. rewrite <- H. f_equal. rewrite Nat2Z.inj_add, Z2Nat.id by done. done.
Qed.

Lemma low20 w : 0 <= w < 1048576 → Z.land w 0xfffff = w.
Proof.
  intros. change 0xfffff with (Z.ones 20). rewrite Z.land_ones by lia. apply Z.mod_small. change (2 ^ 20) with 1048576. lia.
Qed.

Lemma shift_encode e : Z.shiftr (encode e) 12 = index e.
Proof.
  apply Z.bits_inj'. intros n Hn. rewrite Z.shiftr_spec by done. rewrite <- (encode_index e n Hn). f_equal. lia.
Qed.

(** Reading back an entry that was written. *)
Lemma decode_encode e : 0 <= index e < 1048576 → decode (encode e) = e.
Proof.
  intros Hi. unfold decode. rewrite shift_encode, low20 by done.
  rewrite !encode_flag by lia. by destruct e.
Qed.

Lemma high_bits w n k : 0 <= w < 2 ^ k → 0 <= k <= n → Z.testbit w n = false.
Proof.
  intros Hw Hn. destruct (decide (w = 0)) as [->|]; [apply Z.bits_0|].
  apply Z.bits_above_log2; [lia|]. apply Z.log2_lt_pow2; [lia|].
  pose proof (Z.pow_le_mono_r 2 k n). lia.
Qed.

Lemma encode_decode w : 0 <= w < 4294967296 → encode (decode w) = w.
Proof.
  intros Hw. apply Z.bits_inj'. intros n Hn. destruct (decide (n < 12)) as [Hlt|Hge].
  - rewrite encode_flag by lia.
    assert (Hc : (Z.to_nat n < 12)%nat) by lia. rewrite <- (Z2Nat.id n) at 2 by lia. revert Hc.
    generalize (Z.to_nat n). intros k Hk. do 12 (destruct k as [|k]; [done|]). lia.
  - replace n with (12 + (n - 12)) at 1 by lia. rewrite encode_index by lia. cbn [decode index].
    rewrite Z.land_spec, Z.shiftr_spec by lia. replace (n - 12 + 12) with n by lia.
    change 0xfffff with (Z.ones 20). destruct (decide (n < 32)).
    + rewrite Z.ones_spec_low by lia. apply andb_true_r.
    + rewrite (high_bits w n 32) by lia. done.
Qed.

Lemma entry_init_index p : 0 <= p < 1048576 → index (entry_init p) = p.
Proof. intros. cbn. by apply low20. Qed.

(** ** Physical memory *)

Definition words_of (r : gmap Z (list Z)) (p : Z) : list Z := default zero_page (r !! p).
Definition entry_of (r : gmap Z (list Z)) (p i : Z) : page_entry := decode (default 0 (words_of r p !! Z.to_nat i)).
Definition ram_ok (r : gmap Z (list Z)) : Prop := ∀ p l, r !! p = Some l → length l = 1024%nat.
Definition poke (r : gmap Z (list Z)) (p i : Z) (e : page_entry) : gmap Z (list Z) :=
  <[p := <[Z.to_nat i := encode e]> (words_of r p)]> r.

Lemma words_length r p : ram_ok r → length (words_of r p) = 1024%nat.
Proof. intros H. unfold words_of. destruct (r !! p) eqn:E; cbn [default]; [by eapply H|]. apply length_replicate. Qed.

Lemma words_insert r p l q : words_of (<[p := l]> r) q = if decide (q = p) then l else words_of r q.
Proof.
  unfold words_of. case_decide; subst; [by rewrite lookup_insert_eq|by rewrite lookup_insert_ne].
Qed.

Lemma ram_insert r p l : ram_ok r → length l = 1024%nat → ram_ok (<[p := l]> r).
Proof.
  intros H Hl q l'. destruct (decide (q = p)) as [->|]; [rewrite lookup_insert_eq; by intros [= <-]|].
  rewrite lookup_insert_ne by done. apply H.
Qed.

Lemma poke_ok r p i e : ram_ok r → ram_ok (poke r p i e).
Proof. intros H. apply ram_insert; [done|]. rewrite length_insert. by apply words_length. Qed.

Lemma words_poke r p i e q : q ≠ p → words_of (poke r p i e) q = words_of r q.
Proof. intros. unfold poke. by rewrite words_insert, decide_False. Qed.

Lemma entry_poke r p i e q j :
  ram_ok r → 0 <= i < 1024 → 0 <= j → 0 <= index e < 1048576 →
  entry_of (poke r p i e) q j = if decide (q = p ∧ j = i) then e else entry_of r q j.
Proof.
  intros H Hi Hj He. unfold entry_of, poke. rewrite words_insert. pose proof (words_length r p H).
  destruct (decide (q = p)) as [->|Hq]; [|by rewrite decide_False by tauto].
  destruct (decide (j = i)) as [->|Hji].
  - rewrite decide_True by done. rewrite list_lookup_insert_eq by lia. cbn [default]. by apply decode_encode.
  - rewrite decide_False by tauto. by rewrite list_lookup_insert_ne by lia.
Qed.

Lemma entry_zero r p j : 0 <= j → words_of r p = zero_page → entry_of r p j = zero_entry.
Proof.
  intros Hj Hz. unfold entry_of. rewrite Hz. unfold zero_page. destruct (replicate 1024 0 !! Z.to_nat j) as [c|] eqn:E; [|done].
  apply lookup_replicate_1 in E as [-> _]. done.
Qed.

Lemma get_entry_Ok m p i : ram_ok (ram m) → 0 <= i < 1024 → get_entry p i m = Ok (entry_of (ram m) p i, m).
Proof.
  intros H Hi. pose proof (words_length (ram m) p H) as L. unfold get_entry, rd, entry_of.
  destruct (zget_is_Ok (words_of (ram m) p) i) as (w & E & Hl); [lia|].
  unfold mbind, st_bind. cbn beta. change (words m p) with (words_of (ram m) p). rewrite E, Hl. done.
Qed.

Lemma put_entry_Ok m p i e :
  ram_ok (ram m) → 0 <= i < 1024 → put_entry p i e m = Ok ((), set_ram (poke (ram m) p i e) m).
Proof.
  intros H Hi. pose proof (words_length (ram m) p H). unfold put_entry, wr. cbn beta. change (words m p) with (words_of (ram m) p).
  rewrite zset_Ok by lia. done.
Qed.

(** ** The window *)

(** Slot [i] is taken and shows the page [p]. *)
Definition mapped (m : mm) (i p : Z) : Prop :=
  ∃ k e, kmap_pool m !! Z.to_nat i = Some k ∧ km_present k = true ∧ km_paddr k = PAGE p ∧
    kmap_pte m !! Z.to_nat i = Some e ∧ present e = true ∧ index e = p.

Record pool_ok (m : mm) : Prop := {
  po_len : length (kmap_pool m) = 1024%nat;
  po_pte : length (kmap_pte m) = 1024%nat;
  po_map : ∀ i k, kmap_pool m !! i = Some k → km_present k = true →
    ∃ p, 4096 <= p < 1048576 ∧ mapped m (Z.of_nat i) p
}.

(** A slot is left. *)
Definition slot_free (m : mm) (i : Z) : Prop :=
  0 <= i ∧ ∃ k, kmap_pool m !! Z.to_nat i = Some k ∧ km_present k = false.

Definition same_mem (m m' : mm) : Prop := fr m' = fr m ∧ ram m' = ram m ∧ cur m' = cur m.

(** The address of slot [i]. *)
Definition kv (i : Z) : Z := 3238002688 + 4096 * i.

Lemma kv_get i : 0 <= i < 1024 → KMAP_GET_VADDR i = kv i.
Proof.
  intros. unfold KMAP_GET_VADDR. rewrite page_of by lia. change kmap_start_vaddr with 3238002688.
  rewrite u32_small by lia. unfold kv. lia.
Qed.

Lemma shift12 x : Z.shiftr x 12 = x / 4096.
Proof. rewrite Z.shiftr_div_pow2 by lia. done. Qed.

Lemma low12 x : Z.land x 0xfff = x mod 4096.
Proof. change 0xfff with (Z.ones 12). rewrite Z.land_ones by lia. done. Qed.

Lemma low10 x : Z.land x 0x3ff = x mod 1024.
Proof. change 0x3ff with (Z.ones 10). rewrite Z.land_ones by lia. done. Qed.

Lemma kv_word i j : 0 <= j < 1024 → (kv i + 4 * j) / 4096 = 790528 + i ∧ (kv i + 4 * j) mod 4096 = 4 * j.
Proof.
  intros Hj. unfold kv. split.
  - symmetry. apply (Z.div_unique _ _ _ (4 * j)); lia.
  - symmetry. apply (Z.mod_unique _ _ (790528 + i)); lia.
Qed.

Lemma kv_index i j : 0 <= i < 1024 → 0 <= j < 1024 → KMAP_GET_INDEX (kv i + 4 * j) = i.
Proof.
  intros Hi Hj. unfold KMAP_GET_INDEX, PTE_IDX. change kmap_start_vaddr with 3238002688.
  rewrite (u32_small (kv i + 4 * j - _)) by (unfold kv; lia). rewrite u32_small by (unfold kv; lia).
  rewrite low10, shift12. replace ((kv i + 4 * j - 3238002688) / 4096) with i; [apply Z.mod_small; lia|].
  apply (Z.div_unique _ _ _ (4 * j)); unfold kv; lia.
Qed.

Lemma get_page_div x : 0 <= x < 4294967296 → GET_PAGE x = x / 4096 * 4096.
Proof.
  intros Hx. unfold GET_PAGE. rewrite u32_small by done.
  change 0xFFFFF000 with (Z.shiftl (Z.ones 20) 12).
  replace (x / 4096 * 4096) with (Z.shiftl (x / 4096) 12) by (rewrite Z.shiftl_mul_pow2 by lia; done).
  rewrite <- shift12. apply Z.bits_inj'. intros n Hn. rewrite Z.land_spec. destruct (decide (n < 12)).
  - rewrite !Z.shiftl_spec_low by lia. apply andb_false_r.
  - rewrite !Z.shiftl_spec by lia. rewrite Z.shiftr_spec by lia. replace (n - 12 + 12) with n by lia.
    destruct (decide (n < 32)).
    + rewrite Z.ones_spec_low by lia. apply andb_true_r.
    + rewrite (high_bits x n 32) by lia. done.
Qed.

Lemma get_page_kv i j : 0 <= i < 1024 → 0 <= j < 1024 → GET_PAGE (kv i + 4 * j) = kv i.
Proof.
  intros Hi Hj. rewrite get_page_div by (unfold kv; lia). destruct (kv_word i j Hj) as [-> _]. unfold kv. lia.
Qed.

Lemma resolve_Ok m i p j :
  mapped m i p → 0 <= i < 1024 → 0 <= j < 1024 → resolve (kv i + 4 * j) m = Ok ((p, j), m).
Proof.
  intros (k & e & _ & _ & _ & He & Hp & <-) Hi Hj. unfold resolve. change (kmap_start_vaddr) with 3238002688.
  change (KMAP_POOL_LEN * PAGE_SIZE) with 4194304.
  destruct (Z.leb_spec 3238002688 (kv i + 4 * j)) as [_|]; [|unfold kv in *; lia].
  destruct (Z.ltb_spec (kv i + 4 * j) (3238002688 + 4194304)) as [_|]; [|unfold kv in *; lia]. cbn [andb].
  rewrite kv_index by done. rewrite (proj2 (zget_Ok _ _ _) (conj (proj1 Hi) He)). cbn [mbind res_bind]. rewrite Hp.
  rewrite low12. destruct (kv_word i j Hj) as [_ ->]. do 3 f_equal. by rewrite (Z.mul_comm 4), Z.div_mul.
Qed.

Lemma load_entry_Ok m i p j :
  ram_ok (ram m) → mapped m i p → 0 <= i < 1024 → 0 <= j < 1024 →
  load_entry (kv i + 4 * j) m = Ok (entry_of (ram m) p j, m).
Proof.
  intros. unfold load_entry. rewrite (st_bind_eq _ _ _ _ _ (resolve_Ok m i p j ltac:(done) ltac:(done) ltac:(done))).
  by apply get_entry_Ok.
Qed.

Lemma store_entry_Ok m i p j e :
  ram_ok (ram m) → mapped m i p → 0 <= i < 1024 → 0 <= j < 1024 →
  store_entry (kv i + 4 * j) e m = Ok ((), set_ram (poke (ram m) p j e) m).
Proof.
  intros. unfold store_entry. rewrite (st_bind_eq _ _ _ _ _ (resolve_Ok m i p j ltac:(done) ltac:(done) ltac:(done))).
  by apply put_entry_Ok.
Qed.

Lemma clear_page_Ok m i p :
  mapped m i p → 0 <= i < 1024 → clear_page (kv i) m = Ok ((), set_ram (<[p := zero_page]> (ram m)) m).
Proof.
  intros. unfold clear_page. replace (kv i) with (kv i + 4 * 0) by lia.
  by rewrite (st_bind_eq _ _ _ _ _ (resolve_Ok m i p 0 ltac:(done) ltac:(done) ltac:(lia))).
Qed.

Lemma copy_page_Ok m i p j q :
  mapped m i p → 0 <= i < 1024 → mapped m j q → 0 <= j < 1024 →
  copy_page (kv i) (kv j) m = Ok ((), set_ram (<[p := words_of (ram m) q]> (ram m)) m).
Proof.
  intros. unfold copy_page. replace (kv i) with (kv i + 4 * 0) by lia. replace (kv j) with (kv j + 4 * 0) by lia.
  rewrite (st_bind_eq _ _ _ _ _ (resolve_Ok m i p 0 ltac:(done) ltac:(done) ltac:(lia))).
  by rewrite (st_bind_eq _ _ _ _ _ (resolve_Ok m j q 0 ltac:(done) ltac:(done) ltac:(lia))).
Qed.

(** The slot [kmap] takes. *)
Lemma kmap_find_spec pool i0 paddr :
  match kmap_find pool i0 paddr with
  | Some (i, b) => i0 <= i ∧ ∃ k, pool !! Z.to_nat (i - i0) = Some k ∧ km_present k = b ∧ (b = true → km_paddr k = paddr)
  | None => ∀ k, k ∈ pool → km_present k = true
  end.
Proof.
  revert i0. induction pool as [|k pool IH]; intros i0; cbn [kmap_find]; [intros ? H; inversion H|].
  destruct (km_present k) eqn:Ep; cbn [negb].
  - destruct (Z.eqb_spec (km_paddr k) paddr).
    + split; [lia|]. exists k. rewrite Z.sub_diag. done.
    + specialize (IH (i0 + 1)). destruct (kmap_find pool (i0 + 1) paddr) as [[i b]|].
      * destruct IH as (Hi & k' & Hk & H). split; [lia|]. exists k'.
        replace (Z.to_nat (i - i0)) with (S (Z.to_nat (i - (i0 + 1)))) by lia. done.
      * intros k' [->|Hk]%elem_of_cons; [done|by apply IH].
  - split; [lia|]. exists k. rewrite Z.sub_diag. done.
Qed.

(** The number of slots that are not taken. *)
Definition idle_slot (k : kmap_mapping) : Z := if km_present k then 0 else 1.
Fixpoint idle (l : list kmap_mapping) : Z := match l with [] => 0 | k :: l => idle_slot k + idle l end.

Lemma idle_insert l i k k' : l !! i = Some k → idle (<[i := k']> l) = idle l - idle_slot k + idle_slot k'.
Proof.
  revert i. induction l as [|x l IH]; intros [|i] H; [done..| |].
  - injection H as ->. cbn [idle list_insert insert]. lia.
  - change (<[S i := k']> (x :: l)) with (x :: <[i := k']> l). cbn [idle]. rewrite (IH i H). lia.
Qed.

Lemma idle_none l : (∀ k, k ∈ l → km_present k = true) → idle l = 0.
Proof.
  induction l as [|k l IH]; intros H; cbn [idle]; [done|]. unfold idle_slot. rewrite (H k) by apply list_elem_of_here.
  rewrite IH; [done|]. intros k' Hk. apply H. by apply list_elem_of_further.
Qed.

Lemma page_inj p q : 0 <= p < 1048576 → 0 <= q < 1048576 → PAGE p = PAGE q → p = q.
Proof. intros Hp Hq E. rewrite <- (idx_page p), <- (idx_page q) by done. by rewrite E. Qed.

(** Changing a slot other than [i] leaves what [i] shows. *)
Lemma mapped_other m m' i j p :
  mapped m i p → 0 <= i → 0 <= j → i ≠ j →
  (∀ n, n ≠ Z.to_nat j → kmap_pool m' !! n = kmap_pool m !! n) →
  (∀ n, n ≠ Z.to_nat j → kmap_pte m' !! n = kmap_pte m !! n) → mapped m' i p.
Proof.
  intros (k & e & H) Hi Hj Hne Hp Ht. exists k, e. by rewrite Hp, Ht by (intros E; apply Z2Nat.inj in E; lia).
Qed.

(** A slot that now shows [p] and showed nothing else before. *)
Lemma pool_update m m' i k' e' p :
  pool_ok m → 0 <= i < 1024 →
  kmap_pool m' = <[Z.to_nat i := k']> (kmap_pool m) → kmap_pte m' = <[Z.to_nat i := e']> (kmap_pte m) →
  4096 <= p < 1048576 → km_present k' = true → km_paddr k' = PAGE p → present e' = true → index e' = p →
  (∀ q, mapped m i q → q = p) →
  pool_ok m' ∧ mapped m' i p ∧ ∀ j q, 0 <= j → mapped m j q → mapped m' j q.
Proof.
  intros [L1 L2 Hm] Hi Ep Et Hp H1 H2 H3 H4 Hold.
  assert (Hmi : mapped m' i p).
  { exists k', e'. rewrite Ep, Et, !list_lookup_insert_eq by lia. done. }
  assert (Hmj : ∀ j q, 0 <= j → mapped m j q → mapped m' j q).
  { intros j q Hj Hq. destruct (decide (j = i)) as [->|Hne]; [by rewrite (Hold q Hq)|].
    apply (mapped_other m m' j i q Hq Hj (proj1 Hi) Hne); intros n Hn; rewrite ?Ep, ?Et; by rewrite list_lookup_insert_ne. }
  split; [|done]. split; [by rewrite Ep, length_insert|by rewrite Et, length_insert|]. intros n k Hn Hk.
  destruct (decide (n = Z.to_nat i)) as [->|Hne]; [exists p; by rewrite Z2Nat.id by lia|].
  rewrite Ep, list_lookup_insert_ne in Hn by done. destruct (Hm n k Hn Hk) as (q & Hq & Hmq). exists q. split; [done|].
  apply Hmj; [lia|done].
Qed.

Lemma kmap_Ok m p :
  pool_ok m → 4096 <= p < 1048576 → 0 < idle (kmap_pool m) →
  ∃ i m', kmap (PAGE p) m = Ok (kv i, m') ∧ 0 <= i < 1024 ∧ mapped m' i p ∧ pool_ok m' ∧ same_mem m m' ∧
    idle (kmap_pool m) - 1 <= idle (kmap_pool m') ∧ ∀ j q, 0 <= j → mapped m j q → mapped m' j q.
Proof.
  intros PO Hp Hidle. pose proof PO as [L1 L2 Hm]. unfold kmap.
  rewrite (st_bind_eq _ _ m () m).
  2:{ unfold sassert. rewrite page_of by lia. unfold KERNEL_MEM_SIZE. destruct (Z.leb_spec 0x1000000 (p * 4096)); [done|lia]. }
  rewrite (st_bind_eq _ _ m () m) by (unfold sassert; by rewrite assert_page by lia).
  rewrite (st_bind_eq _ _ m m m) by done.
  pose proof (kmap_find_spec (kmap_pool m) 0 (PAGE p)) as F.
  destruct (kmap_find (kmap_pool m) 0 (PAGE p)) as [[i b]|]; [|apply idle_none in F; lia].
  destruct F as (Hi & k & Hk & Hb & Ha). rewrite Z.sub_0_r in Hk. pose proof (lookup_lt_Some _ _ _ Hk) as Hlt.
  assert (Hs : idle (kmap_pool m) - 1 <= idle (kmap_pool m) - idle_slot k) by (unfold idle_slot; destruct (km_present k); lia).
  destruct b.
  - rewrite (st_bind_eq _ _ m k m) by (unfold lift_st; by rewrite (proj2 (zget_Ok _ _ _) (conj Hi Hk))).
    rewrite (st_bind_eq _ _ m _ m) by (unfold lift_st; by rewrite zset_Ok by lia).
    rewrite (st_bind_eq _ _ m () _) by done. rewrite kv_get by lia. rewrite Ha by done.
    destruct (Hm _ _ Hk Hb) as (q & Hq & Hmq). pose proof Hmq as (k0 & e & Hk0 & _ & Hq0 & He & Hpe & Hie).
    rewrite Z2Nat.id in * by done. assert (k0 = k) as -> by congruence.
    rewrite Ha in Hq0 by done. apply page_inj in Hq0; [|lia..]. subst q.
    set (m' := set_kmap_pool _ m).
    destruct (pool_update m m' i (KMapping true ((km_cnt k + 1) mod 2147483648) (PAGE p)) e p) as (P' & M' & J'); try done; [lia| | |].
    + cbn. by rewrite list_insert_id.
    + intros q (k1 & e1 & H1 & _ & H2 & H3 & _ & H4). congruence.
    + exists i, m'. split_and!; try done; [lia|]. cbn. rewrite (idle_insert _ _ k) by done. unfold idle_slot at 2. cbn. lia.
  - rewrite (st_bind_eq _ _ m _ m) by (unfold lift_st; by rewrite zset_Ok by lia).
    rewrite (st_bind_eq _ _ m _ m) by (unfold lift_st; by rewrite zset_Ok by lia).
    rewrite (st_bind_eq _ _ m () _) by done. rewrite kv_get by lia. rewrite idx_page by lia.
    set (m' := set_kmap_pte _ _).
    destruct (pool_update m m' i (KMapping true 1 (PAGE p)) (entry_init p) p) as (P' & M' & J'); try done; [lia| | |].
    + apply entry_init_index. lia.
    + intros q (k1 & e1 & H1 & H1' & _). congruence.
    + exists i, m'. split_and!; try done; [lia|]. cbn. rewrite (idle_insert _ _ k) by done. unfold idle_slot at 2. cbn. lia.
Qed.

(** [kunmap] gives the slot back, whatever its count says. *)
Lemma kunmap_Ok m i p :
  pool_ok m → 0 <= i < 1024 → mapped m i p →
  ∃ m', kunmap (kv i) m = Ok ((), m') ∧ pool_ok m' ∧ same_mem m m' ∧ idle (kmap_pool m') = idle (kmap_pool m) + 1 ∧
    ∀ j q, 0 <= j → j ≠ i → mapped m j q → mapped m' j q.
Proof.
  intros [L1 L2 Hm] Hi (k & e & Hk & Hpr & Hpa & He & Hpe & Hie). unfold kunmap.
  rewrite (st_bind_eq _ _ m () m).
  2:{ unfold sassert. change kmap_start_vaddr with 3238002688. change (u32 (3238002688 + KMAP_POOL_LEN * PAGE_SIZE)) with 3242196992.
      unfold kv. destruct (Z.leb_spec 3238002688 (3238002688 + 4096 * i)), (Z.ltb_spec (3238002688 + 4096 * i) 3242196992); done || lia. }
  rewrite (st_bind_eq _ _ m () m).
  2:{ unfold sassert, ASSERT_PAGE. rewrite low12. replace (kv i) with (kv i + 4 * 0) by lia.
      by destruct (kv_word i 0 ltac:(lia)) as [_ ->]. }
  rewrite (st_bind_eq _ _ m m m) by done. replace (kv i) with (kv i + 4 * 0) by lia. rewrite kv_index by lia. cbv zeta.
  rewrite (st_bind_eq _ _ m k m) by (unfold lift_st; by rewrite (proj2 (zget_Ok _ _ _) (conj (proj1 Hi) Hk))).
  rewrite (st_bind_eq _ _ m _ m) by (unfold lift_st; by rewrite zset_Ok by lia).
  set (k' := KMapping false _ _). set (m1 := set_kmap_pool (<[Z.to_nat i:=k']> (kmap_pool m)) m).
  rewrite (st_bind_eq _ _ m () m1) by done.
  assert (R : ∀ m', kmap_pool m' = kmap_pool m1 → length (kmap_pte m') = 1024%nat →
    (∀ n, n ≠ Z.to_nat i → kmap_pte m' !! n = kmap_pte m !! n) →
    pool_ok m' ∧ idle (kmap_pool m') = idle (kmap_pool m) + 1 ∧ ∀ j q, 0 <= j → j ≠ i → mapped m j q → mapped m' j q).
  { intros m' Ep Lt Et. rewrite Ep. split; [split|split]; [by rewrite Ep; cbn; rewrite length_insert|done| | |].
    - intros n k1 Hn Hk1. rewrite Ep in Hn. cbn in Hn. destruct (decide (n = Z.to_nat i)) as [->|Hne].
      { rewrite list_lookup_insert_eq in Hn by lia. injection Hn as <-. done. }
      rewrite list_lookup_insert_ne in Hn by done. destruct (Hm n k1 Hn Hk1) as (q & Hq & Hmq). exists q. split; [done|].
      apply (mapped_other m m' (Z.of_nat n) i q Hmq); [lia..| |done]. intros n' Hn'. rewrite Ep. cbn. by rewrite list_lookup_insert_ne.
    - cbn. rewrite (idle_insert _ _ k) by done. unfold idle_slot. rewrite Hpr. cbn. lia.
    - intros j q Hj Hne Hmq. apply (mapped_other m m' j i q Hmq); [lia..| |done]. intros n' Hn'. rewrite Ep. cbn. by rewrite list_lookup_insert_ne. }
  destruct (_ =? 0).
  - rewrite (st_bind_eq _ _ m1 e m1) by (unfold lift_st; by rewrite (proj2 (zget_Ok _ _ _) (conj (proj1 Hi) He))).
    rewrite (st_bind_eq _ _ m1 _ m1) by (unfold lift_st; cbn [m1 kmap_pte set_kmap_pool]; by rewrite zset_Ok by lia).
    eexists. split; [done|]. destruct (R (set_kmap_pte (<[Z.to_nat i:=set_present false e]> (kmap_pte m)) m1)) as (R1 & R2 & R3).
    + done.
    + cbn. by rewrite length_insert.
    + intros n Hn. cbn. by rewrite list_lookup_insert_ne.
    + by split_and!.
  - exists m1. split; [done|]. destruct (R m1) as (R1 & R2 & R3); [done..|]. by split_and!.
Qed.

(** ** The tables of a task *)

(** The page table behind entry [i] of the directory [pd], and entry [j] of it: what the
    processor's walk finds. *)
Definition table (r : gmap Z (list Z)) (pd i : Z) : option Z :=
  let e := entry_of r pd i in if present e then Some (index e) else None.
Definition pte_of (r : gmap Z (list Z)) (pd i j : Z) : option page_entry :=
  match table r pd i with
  | Some t => let e := entry_of r t j in if present e then Some e else None
  | None => None
  end.
Definition user_entry (m : mm) (v : Z) : option page_entry :=
  pte_of (ram m) (IDX (t_pde (cur m))) (PDE_IDX v) (PTE_IDX v).

Definition user_page (f : frames) (p : Z) : Prop := 4096 <= p < total_pages f ∧ count_at f p ≠ 0.

(** The user half of an address space: tables and pages are user pages that somebody
    holds, no table is used twice or shown to the user, and no page is shown twice. *)
Record tables_ok (f : frames) (r : gmap Z (list Z)) (pd : Z) : Prop := {
  tb_ram : ram_ok r;
  tb_pd : 0 <= pd < 4096;
  tb_tab : ∀ i t, 0 <= i < 768 → table r pd i = Some t → user_page f t;
  tb_inj : ∀ i i' t, 0 <= i < 768 → 0 <= i' < 768 → table r pd i = Some t → table r pd i' = Some t → i = i';
  tb_data : ∀ i j e, 0 <= i < 768 → 0 <= j < 1024 → pte_of r pd i j = Some e →
    user_page f (index e) ∧ ∀ k, 0 <= k < 768 → table r pd k ≠ Some (index e);
  tb_once : ∀ i j e i' j' e', 0 <= i < 768 → 0 <= j < 1024 → 0 <= i' < 768 → 0 <= j' < 1024 →
    pte_of r pd i j = Some e → pte_of r pd i' j' = Some e' → index e = index e' → i = i' ∧ j = j'
}.

Record mm_ok (m : mm) : Prop := {
  mo_frames : frames_ok (fr m);
  mo_tables : tables_ok (fr m) (ram m) (IDX (t_pde (cur m)));
  mo_pool : pool_ok m
}.

Lemma table_poke r pd i t p j e :
  p ≠ pd → table r pd i = Some t → table (poke r p j e) pd i = Some t.
Proof. intros Hp. unfold table, entry_of. by rewrite words_poke by done. Qed.

Lemma table_poke_eq r pd p j e i : p ≠ pd → table (poke r p j e) pd i = table r pd i.
Proof. intros Hp. unfold table, entry_of. by rewrite words_poke by done. Qed.

(** Writing one entry of one table. *)
Lemma pte_poke f r pd i t j e a b :
  tables_ok f r pd → 0 <= i < 768 → 0 <= j < 1024 → table r pd i = Some t → 0 <= index e < 1048576 →
  0 <= a < 768 → 0 <= b < 1024 →
  pte_of (poke r t j e) pd a b =
    if decide (a = i ∧ b = j) then (if present e then Some e else None) else pte_of r pd a b.
Proof.
  intros T Hi Hj Ht He Ha Hb. pose proof (tb_tab _ _ _ T i t Hi Ht) as [Hu _]. pose proof (tb_pd _ _ _ T).
  unfold pte_of. rewrite table_poke_eq by lia. destruct (table r pd a) as [t'|] eqn:E.
  - rewrite entry_poke by (apply T || lia). destruct (decide (a = i)) as [->|Ha'].
    + assert (t' = t) as -> by congruence. repeat case_decide; try tauto.
    + rewrite (decide_False (P := a = i ∧ b = j)) by tauto. rewrite decide_False; [done|].
      intros [-> _]. apply Ha'. by apply (tb_inj _ _ _ T a i t).
  - rewrite decide_False; [done|]. intros [-> _]. congruence.
Qed.

Lemma poke_tables f f' r pd i t j e :
  tables_ok f r pd → 0 <= i < 768 → 0 <= j < 1024 → table r pd i = Some t → 0 <= index e < 1048576 →
  (∀ p, user_page f p → (∀ e0, pte_of r pd i j = Some e0 → index e0 ≠ p) → user_page f' p) →
  (present e = true → user_page f' (index e) ∧ (∀ k, 0 <= k < 768 → table r pd k ≠ Some (index e)) ∧
    ∀ a b e0, 0 <= a < 768 → 0 <= b < 1024 → ¬ (a = i ∧ b = j) → pte_of r pd a b = Some e0 → index e0 ≠ index e) →
  tables_ok f' (poke r t j e) pd.
Proof.
  intros T Hi Hj Ht He Hkeep Hnew. pose proof T as [T1 T2 T3 T4 T5 T6]. pose proof (T3 i t Hi Ht) as [Hu _].
  assert (Hold : ∀ a b e0, 0 <= a < 768 → 0 <= b < 1024 → pte_of (poke r t j e) pd a b = Some e0 →
    (a = i ∧ b = j ∧ present e = true ∧ e0 = e) ∨ (¬ (a = i ∧ b = j) ∧ pte_of r pd a b = Some e0)).
  { intros a b e0 Ha Hb. rewrite (pte_poke f r pd i) by done. case_decide as D; [|by right].
    destruct (present e) eqn:Ep; [|done]. intros [= <-]. left. tauto. }
  split.
  - by apply poke_ok.
  - done.
  - intros k t' Hk. rewrite table_poke_eq by lia. intros Hk'. apply Hkeep; [by apply (T3 k)|].
    intros e0 H0 E0. destruct (T5 i j e0 Hi Hj H0) as [_ Hn]. apply (Hn k Hk). by rewrite E0.
  - intros k k' t' Hk Hk'. rewrite !table_poke_eq by lia. by apply T4.
  - intros a b e0 Ha Hb E0. destruct (Hold a b e0 Ha Hb E0) as [(-> & -> & Ep & ->)|[Hne E]].
    + destruct (Hnew Ep) as (N1 & N2 & _). split; [done|]. intros k Hk. rewrite table_poke_eq by lia. by apply N2.
    + destruct (T5 a b e0 Ha Hb E) as [U1 U2]. split.
      * apply Hkeep; [done|]. intros e1 H1 E1. apply Hne. destruct (T6 i j e1 a b e0); done.
      * intros k Hk. rewrite table_poke_eq by lia. by apply U2.
  - intros a b e0 a' b' e0' Ha Hb Ha' Hb' E0 E0' Eq.
    destruct (Hold a b e0 Ha Hb E0) as [(-> & -> & Ep & ->)|[Hne E]], (Hold a' b' e0' Ha' Hb' E0') as [(-> & -> & Ep' & ->)|[Hne' E']].
    + done.
    + destruct (Hnew Ep) as (_ & _ & N3). exfalso. by apply (N3 a' b' e0').
    + destruct (Hnew Ep') as (_ & _ & N3). exfalso. by apply (N3 a b e0).
    + by apply (T6 a b e0 a' b' e0').
Qed.

(** A fresh page, emptied, as the table behind an entry of the directory that had none. *)
Definition with_table (r : gmap Z (list Z)) (pd i t : Z) : gmap Z (list Z) :=
  <[t := zero_page]> (poke r pd i (set_user true (entry_init t))).

Lemma with_table_Ok f r pd i t :
  frames_ok f → tables_ok f r pd → 0 <= i < 768 → table r pd i = None → 4096 <= t < total_pages f → count_at f t = 0 →
  tables_ok (recount f t 1) (with_table r pd i t) pd ∧ table (with_table r pd i t) pd i = Some t ∧
  ∀ a b, 0 <= a < 768 → 0 <= b < 1024 → pte_of (with_table r pd i t) pd a b = pte_of r pd a b.
Proof.
  intros K T Hi Hn Ht H0. pose proof T as [T1 T2 T3 T4 T5 T6]. pose proof (fk_acc _ K) as A. pose proof (ac_total _ A).
  set (e := set_user true (entry_init t)). assert (Ei : index e = t) by (apply entry_init_index; lia).
  assert (Hpd : ∀ k, 0 <= k → entry_of (with_table r pd i t) pd k = if decide (k = i) then e else entry_of r pd k).
  { intros k Hk. unfold with_table. fold e. unfold entry_of at 1. rewrite words_insert, decide_False by lia.
    change (decode _) with (entry_of (poke r pd i e) pd k). rewrite entry_poke by (done || lia). repeat case_decide; tauto. }
  assert (Htab : ∀ k, 0 <= k → table (with_table r pd i t) pd k = if decide (k = i) then Some t else table r pd k).
  { intros k Hk. unfold table. rewrite Hpd by done. case_decide; [|done]. cbv zeta. by rewrite Ei. }
  assert (Huse : ∀ p, user_page f p → user_page (recount f t 1) p ∧ p ≠ t).
  { intros p [Hp1 Hp2]. assert (p ≠ t) by congruence. split; [|done]. split; [done|]. rewrite recount_at by (done || lia).
    by rewrite decide_False. }
  assert (Hpte : ∀ a b, 0 <= a < 768 → 0 <= b < 1024 → pte_of (with_table r pd i t) pd a b = pte_of r pd a b).
  { intros a b Ha Hb. unfold pte_of. rewrite Htab by lia. case_decide as D; [subst a; rewrite Hn|].
    - unfold with_table. rewrite entry_zero; [done|lia|]. by rewrite words_insert, decide_True.
    - destruct (table r pd a) as [t'|] eqn:E; [|done]. destruct (Huse t' (T3 a t' Ha E)) as [_ Hne].
      destruct (T3 a t' Ha E) as [Hr _]. unfold with_table, entry_of. rewrite words_insert, decide_False by done.
      by rewrite words_poke by lia. }
  split; [|split; [rewrite Htab by lia; by rewrite decide_True|done]]. split.
  - unfold with_table. apply ram_insert; [by apply poke_ok|]. apply length_replicate.
  - done.
  - intros k t' Hk. rewrite Htab by lia. case_decide.
    + intros [= <-]. split; [done|]. rewrite recount_at by (done || lia). by rewrite decide_True.
    + intros E. by apply Huse, (T3 k).
  - intros k k' t' Hk Hk'. rewrite !Htab by lia.
    destruct (decide (k = i)) as [->|], (decide (k' = i)) as [->|]; [done| | |by apply T4].
    + intros [= <-] E. by destruct (Huse t (T3 k' t Hk' E)).
    + intros E [= <-]. by destruct (Huse t (T3 k t Hk E)).
  - intros a b e0 Ha Hb. rewrite Hpte by done. intros E. destruct (T5 a b e0 Ha Hb E) as [U1 U2]. apply Huse in U1 as [U1 U1'].
    split; [done|]. intros k Hk. rewrite Htab by lia. case_decide; [congruence|by apply U2].
  - intros a b e0 a' b' e0' Ha Hb Ha' Hb'. rewrite !Hpte by done. by apply T6.
Qed.

Lemma pde_idx_range v : 0 <= v < KERNEL_VADDR_OFFSET → 0 <= PDE_IDX v < 768.
Proof.
  unfold KERNEL_VADDR_OFFSET. intros Hv. unfold PDE_IDX. rewrite u32_small by lia. rewrite Z.shiftr_div_pow2 by lia.
  change (2 ^ 22) with 4194304. split; [apply Z.div_pos; lia|apply Z.div_lt_upper_bound; lia].
Qed.

Lemma pte_idx_range v : 0 <= PTE_IDX v < 1024.
Proof. unfold PTE_IDX. rewrite low10. apply Z.mod_pos_bound. lia. Qed.

Lemma pool_same m m' : kmap_pool m' = kmap_pool m → kmap_pte m' = kmap_pte m → pool_ok m → pool_ok m'.
Proof. intros E1 E2 [L1 L2 H]. split; [by rewrite E1|by rewrite E2|]. unfold mapped. rewrite E1, E2. done. Qed.

Lemma mapped_same m m' i p : kmap_pool m' = kmap_pool m → kmap_pte m' = kmap_pte m → mapped m i p → mapped m' i p.
Proof. unfold mapped. intros -> ->. done. Qed.

(** The directory of the current task, as a page. *)
Definition pd_of (m : mm) : Z := IDX (t_pde (cur m)).

Lemma get_pte_Ok m v :
  mm_ok m → 0 < idle (kmap_pool m) → 0 <= v < KERNEL_VADDR_OFFSET →
  (∃ i t m', get_pte v m = Ok (kv i + 4 * PTE_IDX v, m') ∧ 0 <= i < 1024 ∧ mapped m' i t ∧
     table (ram m') (pd_of m) (PDE_IDX v) = Some t ∧ mm_ok m' ∧ cur m' = cur m ∧
     idle (kmap_pool m) - 1 <= idle (kmap_pool m') ∧
     (∀ a b, 0 <= a < 768 → 0 <= b < 1024 → pte_of (ram m') (pd_of m) a b = pte_of (ram m) (pd_of m) a b) ∧
     ((fr m' = fr m ∧ ram m' = ram m) ∨
      (4096 <= t < total_pages (fr m) ∧ count_at (fr m) t = 0 ∧ fr m' = recount (fr m) t 1 ∧
       ram m' = with_table (ram m) (pd_of m) (PDE_IDX v) t))) ∨
  (get_pte v m = Stop Panic ∧ table (ram m) (pd_of m) (PDE_IDX v) = None ∧
     ∀ j, 4096 <= j < total_pages (fr m) → count_at (fr m) j ≠ 0).
Proof.
  intros [K T P] Hidle Hv. fold (pd_of m) in T. pose proof (pde_idx_range v Hv) as Hd. pose proof (pte_idx_range v) as Hj.
  pose proof (ac_total _ (fk_acc _ K)) as Htot.
  assert (Haddr : ∀ i, 0 <= i < 1024 → u32 (kv i + 4 * PTE_IDX v) = kv i + 4 * PTE_IDX v)
    by (intros i Hi; apply u32_small; unfold kv; lia).
  unfold get_pte. rewrite (st_bind_eq _ _ m (pd_of m) m) by done. cbv zeta.
  rewrite (st_bind_eq _ _ _ _ _ (get_entry_Ok m (pd_of m) (PDE_IDX v) (tb_ram _ _ _ T) ltac:(lia))).
  destruct (present (entry_of (ram m) (pd_of m) (PDE_IDX v))) eqn:Ep; cbn [negb].
  - left. set (t := index (entry_of (ram m) (pd_of m) (PDE_IDX v))).
    assert (Et : table (ram m) (pd_of m) (PDE_IDX v) = Some t) by (unfold table; by rewrite Ep).
    destruct (tb_tab _ _ _ T _ _ Hd Et) as [Ht _].
    destruct (kmap_Ok m t P ltac:(lia) Hidle) as (i & m' & E & Hi & Mi & P' & (S1 & S2 & S3) & Hid & _).
    rewrite (st_bind_eq _ _ _ _ _ E). exists i, t, m'. rewrite S1, S2, S3, Haddr by done.
    split_and!; try done; try lia; [|by left]. split; [by rewrite S1|rewrite S1, S2, S3; done|done].
  - assert (En : table (ram m) (pd_of m) (PDE_IDX v) = None) by (unfold table; by rewrite Ep).
    destruct (get_user_page_Ok (fr m) K) as [(t & E & Ht & H0 & _ & K')|[E Hnone]].
    2:{ right. split; [|done]. unfold on_frames, mbind, st_bind. by rewrite E. }
    left.
    destruct (with_table_Ok (fr m) (ram m) (pd_of m) (PDE_IDX v) t K T Hd En Ht H0) as (T' & Et & Hpte).
    set (m1 := set_fr (recount (fr m) t 1) m).
    set (m2 := set_ram (poke (ram m) (pd_of m) (PDE_IDX v) (set_user true (entry_init t))) m1).
    destruct (kmap_Ok m2 t) as (i & m3 & E3 & Hi & Mi & P3 & (S1 & S2 & S3) & Hid & _);
      [by apply (pool_same m)|lia|done|].
    set (m4 := set_ram (with_table (ram m) (pd_of m) (PDE_IDX v) t) m3).
    assert (E4 : (paddr_page ← on_frames get_user_page;
       put_entry (pd_of m) (PDE_IDX v) (set_user true (entry_init (IDX paddr_page)));;
       kvaddr ← kmap paddr_page; clear_page kvaddr;; mret kvaddr) m = Ok (kv i, m4)).
    { rewrite (st_bind_eq _ _ m (PAGE t) m1) by (unfold on_frames; by rewrite E). rewrite idx_page by lia.
      rewrite (st_bind_eq _ _ m1 () m2) by (by apply put_entry_Ok; [apply T|lia]).
      rewrite (st_bind_eq _ _ _ _ _ E3). rewrite (st_bind_eq _ _ m3 () m4); [done|].
      rewrite (clear_page_Ok m3 i t Mi Hi). by rewrite S2. }
    rewrite (st_bind_eq _ _ _ _ _ E4). exists i, t, m4. rewrite Haddr by done.
    split_and!; try done; try lia; [|by right; split_and!; (done || lia)].
    split; cbn; rewrite ?S1, ?S3; [done|exact T'|by apply (pool_same m3)].
Qed.

(** What an operation that only takes free pages leaves alone: the counts of the pages in
    use, and the contents of those that are neither the directory nor a table. *)
Definition keeps (m m' : mm) : Prop :=
  (∀ p, 0 <= p → count_at (fr m) p ≠ 0 → count_at (fr m') p = count_at (fr m) p) ∧
  (∀ p, 0 <= p → p ≠ pd_of m → count_at (fr m) p ≠ 0 → (∀ k, 0 <= k < 768 → table (ram m) (pd_of m) k ≠ Some p) →
     words_of (ram m') p = words_of (ram m) p).

Lemma recount_keeps f t c p :
  accounts f → 0 <= t < total_pages f → count_at f t = 0 → 0 <= p → count_at f p ≠ 0 → count_at (recount f t c) p = count_at f p.
Proof. intros A Ht H0 Hp Hc. rewrite recount_at, decide_False by congruence. done. Qed.

(** [get_pte] spelled out for its callers. *)
Lemma get_pte_keeps m m' v t :
  mm_ok m → 0 <= v < KERNEL_VADDR_OFFSET →
  ((fr m' = fr m ∧ ram m' = ram m) ∨
   (4096 <= t < total_pages (fr m) ∧ count_at (fr m) t = 0 ∧ fr m' = recount (fr m) t 1 ∧
    ram m' = with_table (ram m) (pd_of m) (PDE_IDX v) t)) → keeps m m'.
Proof.
  intros [K T P] Hv [[E1 E2]|(Ht & H0 & E1 & E2)]; unfold keeps; rewrite E1, E2; [done|]. pose proof (fk_acc _ K) as A. split.
  - intros p Hp Hc. by apply recount_keeps; [done|lia|..].
  - intros p Hp Hpd Hc _. unfold with_table. rewrite words_insert, decide_False by congruence. by apply words_poke.
Qed.

(** A free page behind an entry of a table: what [link_user_page] and the copy on write
    write. *)
Lemma fresh_pte_Ok f r pd i t j e :
  frames_ok f → tables_ok f r pd → 0 <= i < 768 → 0 <= j < 1024 → table r pd i = Some t → present e = true →
  4096 <= index e < total_pages f → count_at f (index e) = 0 →
  tables_ok (recount f (index e) 1) (poke r t j e) pd ∧
  ∀ a b, 0 <= a < 768 → 0 <= b < 1024 →
    pte_of (poke r t j e) pd a b = if decide (a = i ∧ b = j) then Some e else pte_of r pd a b.
Proof.
  intros K T Hi Hj Ht Hpr Hp H0. pose proof (fk_acc _ K) as A. pose proof (ac_total _ A).
  assert (Hnt : ∀ x, user_page f x → x ≠ index e) by (intros x [_ Hx] ->; done).
  split.
  - apply (poke_tables f _ _ _ i); try done; [lia| |].
    + intros x [Hx1 Hx2] _. split; [done|]. rewrite recount_at by (done || lia). rewrite decide_False by congruence. done.
    + intros _. split; [split; [done|]|split].
      * rewrite recount_at by (done || lia). by rewrite decide_True.
      * intros k Hk Hk'. by destruct (Hnt _ (tb_tab _ _ _ T k _ Hk Hk')).
      * intros a b e0 Ha Hb _ E0 Eq. destruct (tb_data _ _ _ T a b e0 Ha Hb E0) as [Hu _]. by destruct (Hnt _ Hu).
  - intros a b Ha Hb. rewrite (pte_poke f _ _ i) by (done || lia). by rewrite Hpr.
Qed.

Lemma link_Ok m v :
  mm_ok m → 0 < idle (kmap_pool m) → 0 <= v < KERNEL_VADDR_OFFSET →
  (∃ m' e, link_user_page v m = Ok ((), m') ∧ mm_ok m' ∧ cur m' = cur m ∧ idle (kmap_pool m) <= idle (kmap_pool m') ∧
     user_entry m' v = Some e ∧ keeps m m' ∧
     (∀ a b, 0 <= a < 768 → 0 <= b < 1024 → ¬ (a = PDE_IDX v ∧ b = PTE_IDX v) →
        pte_of (ram m') (pd_of m) a b = pte_of (ram m) (pd_of m) a b) ∧
     (user_entry m v = Some e ∨
      (user_entry m v = None ∧ e = set_user true (entry_init (index e)) ∧
       count_at (fr m) (index e) = 0 ∧ count_at (fr m') (index e) = 1))) ∨
  (link_user_page v m = Stop Panic ∧
     ∀ j k, 4096 <= j < total_pages (fr m) → 4096 <= k < total_pages (fr m) →
       count_at (fr m) j = 0 → count_at (fr m) k = 0 → j = k).
Proof.
  intros O Hidle Hv. pose proof (pde_idx_range v Hv) as Hd. pose proof (pte_idx_range v) as Hj.
  destruct (get_pte_Ok m v O Hidle Hv) as [(i & t & m1 & E1 & Hi & M1 & Et & O1 & C1 & Hid1 & Hpte & Hcase)|(E & En & Hnone)].
  2:{ right. split; [unfold link_user_page, mbind, st_bind; by rewrite E|]. intros j k Hjr _ H _. by destruct (Hnone j Hjr). }
  pose proof (get_pte_keeps m m1 v t O Hv Hcase) as [G1 G2].
  assert (Epd : pd_of m1 = pd_of m) by (unfold pd_of; by rewrite C1).
  destruct O1 as [K1 T1 P1]. fold (pd_of m1) in T1. rewrite Epd in T1.
  unfold link_user_page. rewrite (st_bind_eq _ _ _ _ _ E1).
  rewrite (st_bind_eq _ _ _ _ _ (load_entry_Ok m1 i t _ (tb_ram _ _ _ T1) M1 Hi Hj)).
  assert (Eold : pte_of (ram m1) (pd_of m) (PDE_IDX v) (PTE_IDX v) = user_entry m v) by (by apply Hpte).
  unfold pte_of in Eold. rewrite Et in Eold. cbv zeta in Eold.
  set (old := entry_of (ram m1) t (PTE_IDX v)) in *. rewrite get_page_kv by done.
  destruct (present old) eqn:Epr.
  - left. rewrite (st_bind_eq _ _ m1 () m1) by done.
    destruct (kunmap_Ok m1 i t P1 Hi M1) as (m2 & E2 & P2 & (S1 & S2 & S3) & Hid2 & _).
    assert (Epd2 : pd_of m2 = pd_of m) by (unfold pd_of; by rewrite S3, C1).
    exists m2, old. rewrite E2. split_and!; try done; try congruence; try lia.
    + split; fold (pd_of m2); rewrite ?S1, ?S2, ?Epd2; done.
    + unfold user_entry. fold (pd_of m2). rewrite Epd2, S2. unfold pte_of. rewrite Et. cbv zeta. fold old. by rewrite Epr.
    + unfold keeps. rewrite S1, S2. done.
    + intros a b Ha Hb _. rewrite S2. by apply Hpte.
    + by left.
  - pose proof (ac_total _ (fk_acc _ K1)) as Htot.
    destruct (get_user_page_Ok (fr m1) K1) as [(p & E & Hp & H0 & _ & K2)|[E Hnone]].
    2:{ right. split; [unfold on_frames, mbind, st_bind; by rewrite E|]. intros j k Hjr Hkr H1 H2.
        assert (Hz : ∀ x, 4096 <= x < total_pages (fr m) → count_at (fr m) x = 0 → x = t).
        { intros x Hx Hx0. destruct Hcase as [[F1 F2]|(Ht & _ & F1 & _)]; rewrite F1 in Hnone; [by destruct (Hnone x Hx)|].
          destruct (decide (x = t)) as [|Hne]; [done|]. destruct (Hnone x Hx).
          rewrite recount_at by (apply (fk_acc _ (mo_frames _ O)) || lia). by rewrite decide_False. }
        by rewrite (Hz j), (Hz k). }
    left. set (e := set_user true (entry_init p)). assert (Ei : index e = p) by (apply entry_init_index; lia).
    set (m2 := set_fr (recount (fr m1) p 1) m1). set (m3 := set_ram (poke (ram m1) t (PTE_IDX v) e) m2).
    rewrite (st_bind_eq _ _ m1 () m3).
    2:{ rewrite (st_bind_eq _ _ m1 (PAGE p) m2) by (unfold on_frames; by rewrite E). rewrite idx_page by lia.
        apply (store_entry_Ok m2 i t _ e); [apply T1|by apply (mapped_same m1)|done|done]. }
    destruct (kunmap_Ok m3 i t) as (m4 & E4 & P4 & (S1 & S2 & S3) & Hid2 & _); [by apply (pool_same m1)|done|by apply (mapped_same m1)|].
    assert (Epd4 : pd_of m4 = pd_of m) by (unfold pd_of; by rewrite S3).
    destruct (fresh_pte_Ok (fr m1) (ram m1) (pd_of m) (PDE_IDX v) t (PTE_IDX v) e) as [T3 Hnew]; rewrite ?Ei; try done.
    rewrite Ei in T3.
    assert (Hpoke : ∀ a b, 0 <= a < 768 → 0 <= b < 1024 → pte_of (ram m4) (pd_of m) a b =
      if decide (a = PDE_IDX v ∧ b = PTE_IDX v) then Some e else pte_of (ram m) (pd_of m) a b).
    { intros a b Ha Hb. rewrite S2. cbn [m3 ram set_ram]. rewrite Hnew by done. case_decide; [done|by apply Hpte]. }
    exists m4, e. rewrite E4, Ei. split_and!; try done; try congruence.
    + split; fold (pd_of m4); rewrite ?S1, ?S2, ?Epd4; done.
    + rewrite S3. exact C1.
    + change (kmap_pool m3) with (kmap_pool m1) in Hid2. lia.
    + unfold user_entry. fold (pd_of m4). rewrite Epd4, Hpoke by done. by rewrite decide_True.
    + unfold keeps. rewrite S1, S2. cbn [m3 m2 fr ram set_ram set_fr]. split.
      * intros x Hx Hc. rewrite recount_at by (apply (fk_acc _ K1) || lia). rewrite decide_False; [by apply G1|].
        intros ->. rewrite (G1 p) in H0 by done. done.
      * intros x Hx Hpd Hc Hk. rewrite words_poke; [by apply G2|]. intros ->.
        destruct Hcase as [[F1 F2]|(_ & F1 & _)]; [|done]. rewrite F2 in Et. by apply (Hk (PDE_IDX v)).
    + intros a b Ha Hb Hne. rewrite Hpoke by done. by rewrite decide_False.
    + right. split; [done|]. split; [done|]. rewrite S1. cbn [m3 m2 fr set_ram set_fr]. split.
      * destruct (decide (count_at (fr m) p = 0)) as [|Hc]; [done|]. rewrite <- (G1 p) by (done || lia). done.
      * rewrite recount_at by (apply (fk_acc _ K1) || lia). by rewrite decide_True.
Qed.

(** Clearing an entry of a table while its page loses one reference. *)
Lemma drop_pte_Ok f r pd i t j e :
  frames_ok f → tables_ok f r pd → 0 <= i < 768 → 0 <= j < 1024 → table r pd i = Some t → pte_of r pd i j = Some e →
  frames_ok (recount f (index e) (count_at f (index e) - 1)) ∧
  tables_ok (recount f (index e) (count_at f (index e) - 1)) (poke r t j (set_present false e)) pd ∧
  ∀ a b, 0 <= a < 768 → 0 <= b < 1024 →
    pte_of (poke r t j (set_present false e)) pd a b = if decide (a = i ∧ b = j) then None else pte_of r pd a b.
Proof.
  intros K T Hi Hj Ht He. pose proof (fk_acc _ K) as A. pose proof (ac_total _ A).
  destruct (tb_data _ _ _ T i j e Hi Hj He) as [[Hp Hc] _].
  destruct (count_lookup f (index e) A ltac:(lia)) as [_ Hb].
  split; [apply recount_user; (done || lia)|]. split.
  - apply (poke_tables f _ _ _ i); try done; [cbn; lia|].
    intros x [Hx1 Hx2] Hne. split; [done|]. rewrite recount_at by (done || lia). rewrite decide_False; [done|].
    intros ->. by apply (Hne e).
  - intros a b Ha Hb'. by rewrite (pte_poke f _ _ i) by (done || (cbn; lia)).
Qed.

Lemma unlink_Ok m v :
  mm_ok m → 0 < idle (kmap_pool m) → 0 <= v < KERNEL_VADDR_OFFSET → v mod 4096 = 0 →
  (∃ m', unlink_user_page v m = Ok ((), m') ∧ mm_ok m' ∧ cur m' = cur m ∧ idle (kmap_pool m) <= idle (kmap_pool m') ∧
     (∀ a b, 0 <= a < 768 → 0 <= b < 1024 → pte_of (ram m') (pd_of m) a b =
        if decide (a = PDE_IDX v ∧ b = PTE_IDX v) then None else pte_of (ram m) (pd_of m) a b) ∧
     match user_entry m v with
     | None => keeps m m'
     | Some e => fr m' = recount (fr m) (index e) (count_at (fr m) (index e) - 1)
     end) ∨
  (unlink_user_page v m = Stop Panic ∧
     match user_entry m v with
     | None => ∀ j, 4096 <= j < total_pages (fr m) → count_at (fr m) j ≠ 0
     | Some e => count_at (fr m) (index e) ≠ 1 ∧ free_pages (fr m) = 0
     end).
Proof.
  intros O Hidle Hv Hal. pose proof (pde_idx_range v Hv) as Hd. pose proof (pte_idx_range v) as Hj.
  unfold unlink_user_page.
  rewrite (st_bind_eq _ _ m () m) by (unfold sassert, ASSERT_PAGE; rewrite low12; by rewrite Hal).
  destruct (get_pte_Ok m v O Hidle Hv) as [(i & t & m1 & E1 & Hi & M1 & Et & O1 & C1 & Hid1 & Hpte & Hcase)|(E & En & Hnone)].
  2:{ right. split; [unfold mbind, st_bind; by rewrite E|]. unfold user_entry. fold (pd_of m).
      unfold pte_of. by rewrite En. }
  assert (Epd : pd_of m1 = pd_of m) by (unfold pd_of; by rewrite C1).
  pose proof (get_pte_keeps m m1 v t O Hv Hcase) as G.
  pose proof O1 as [K1 T1 P1]. fold (pd_of m1) in T1. rewrite Epd in T1.
  rewrite (st_bind_eq _ _ _ _ _ E1). rewrite (st_bind_eq _ _ _ _ _ (load_entry_Ok m1 i t _ (tb_ram _ _ _ T1) M1 Hi Hj)).
  assert (Eold : pte_of (ram m1) (pd_of m) (PDE_IDX v) (PTE_IDX v) = user_entry m v) by (by apply Hpte).
  pose proof Eold as Eold'. unfold pte_of in Eold'. rewrite Et in Eold'. cbv zeta in Eold'.
  set (old := entry_of (ram m1) t (PTE_IDX v)) in *. rewrite get_page_kv by done.
  destruct (present old) eqn:Epr; rewrite <- Eold'.
  - assert (Hsame : fr m1 = fr m ∧ ram m1 = ram m).
    { destruct Hcase as [H|(_ & _ & _ & H)]; [done|]. exfalso. unfold old in Epr. rewrite H in Epr.
      unfold with_table in Epr. rewrite entry_zero in Epr; [done|lia|]. by rewrite words_insert, decide_True. }
    destruct Hsame as [F1 R1]. rewrite F1, R1 in *. set (m2 := set_ram (poke (ram m) t (PTE_IDX v) (set_present false old)) m1).
    rewrite <- Eold' in Eold. destruct (tb_data _ _ _ T1 _ _ _ Hd Hj Eold) as [[Hp Hc] _].
    pose proof (ac_total _ (fk_acc _ K1)). destruct (count_lookup _ (index old) (fk_acc _ K1) ltac:(lia)) as [_ Hb].
    destruct (drop_pte_Ok (fr m) (ram m) (pd_of m) (PDE_IDX v) t (PTE_IDX v) old K1 T1 Hd Hj Et Eold) as (K3 & T3 & Hpk).
    destruct (put_user_page_cases (fr m) (index old) K1 ltac:(lia)) as [(E & _)|[E Hn]].
    2:{ right. split.
        - assert (E2 : (store_entry (kv i + 4 * PTE_IDX v) (set_present false old);; on_frames (put_user_page (PAGE (index old)))) m1 = Stop Panic).
          { rewrite (st_bind_eq _ _ m1 () m2) by (unfold m2; rewrite <- R1; by apply store_entry_Ok; rewrite ?R1; [apply T1|..]).
            unfold on_frames. change (fr m2) with (fr m1). rewrite F1. by rewrite E. }
          unfold mbind at 1, st_bind at 1. by rewrite E2.
        - split; [intros ?; apply Hn; lia|]. pose proof (free_range _ (fk_acc _ K1)).
          destruct (decide (free_pages (fr m) = 0)) as [|Hf]; [done|]. exfalso. apply Hn. lia. }
    left. set (m3 := set_fr (recount (fr m) (index old) (count_at (fr m) (index old) - 1)) m2).
    rewrite (st_bind_eq _ _ m1 () m3).
    2:{ rewrite (st_bind_eq _ _ m1 () m2) by (unfold m2; rewrite <- R1; by apply store_entry_Ok; rewrite ?R1; [apply T1|..]).
        unfold on_frames. change (fr m2) with (fr m1). rewrite F1. by rewrite E. }
    destruct (kunmap_Ok m3 i t) as (m4 & E4 & P4 & (S1 & S2 & S3) & Hid2 & _); [by apply (pool_same m1)|done|by apply (mapped_same m1)|].
    assert (Epd4 : pd_of m4 = pd_of m) by (unfold pd_of; rewrite S3; exact Epd).
    exists m4. rewrite E4. split_and!; try done.
    + split; fold (pd_of m4); rewrite ?S1, ?S2, ?Epd4; done.
    + rewrite S3. exact C1.
    + change (kmap_pool m3) with (kmap_pool m1) in Hid2. lia.
    + intros a b Ha Hb'. rewrite S2. cbn [m3 m2 ram set_ram set_fr]. by apply Hpk.
  - left. rewrite (st_bind_eq _ _ m1 () m1) by done.
    destruct (kunmap_Ok m1 i t P1 Hi M1) as (m2 & E2 & P2 & (S1 & S2 & S3) & Hid2 & _).
    assert (Epd2 : pd_of m2 = pd_of m) by (unfold pd_of; by rewrite S3, C1).
    exists m2. rewrite E2. split_and!; try done; try congruence; try lia.
    + split; fold (pd_of m2); rewrite ?S1, ?S2, ?Epd2; done.
    + intros a b Ha Hb. rewrite S2, Hpte by done. case_decide as D; [|done]. destruct D as [-> ->].
      change (user_entry m v = None). by rewrite <- Eold'.
    + unfold keeps. rewrite S1, S2. done.
Qed.

(** ** Faults *)

Lemma get_pte_old m v e :
  mm_ok m → 0 < idle (kmap_pool m) → 0 <= v < KERNEL_VADDR_OFFSET → user_entry m v = Some e →
  ∃ i t m1, get_pte v m = Ok (kv i + 4 * PTE_IDX v, m1) ∧ 0 <= i < 1024 ∧ mapped m1 i t ∧
    table (ram m) (pd_of m) (PDE_IDX v) = Some t ∧ pool_ok m1 ∧ same_mem m m1 ∧
    idle (kmap_pool m) - 1 <= idle (kmap_pool m1) ∧ load_entry (kv i + 4 * PTE_IDX v) m1 = Ok (e, m1).
Proof.
  intros O Hidle Hv He. pose proof (pde_idx_range v Hv) as Hd. pose proof (pte_idx_range v) as Hj.
  assert (Hnn : table (ram m) (pd_of m) (PDE_IDX v) ≠ None).
  { intros En. unfold user_entry in He. fold (pd_of m) in He. unfold pte_of in He. by rewrite En in He. }
  destruct (get_pte_Ok m v O Hidle Hv) as [(i & t & m1 & E1 & Hi & M1 & Et & O1 & C1 & Hid1 & Hpte & Hcase)|(_ & En & _)]; [|done].
  assert (He1 : pte_of (ram m1) (pd_of m) (PDE_IDX v) (PTE_IDX v) = Some e) by (by rewrite Hpte).
  unfold pte_of in He1. rewrite Et in He1. cbv zeta in He1.
  destruct (present (entry_of (ram m1) t (PTE_IDX v))) eqn:Epr; [|done].
  assert (Hsame : fr m1 = fr m ∧ ram m1 = ram m).
  { destruct Hcase as [H|(_ & _ & _ & H)]; [done|]. exfalso. rewrite H in Epr.
    unfold with_table in Epr. rewrite entry_zero in Epr; [done|lia|]. by rewrite words_insert, decide_True. }
  destruct Hsame as [F1 R1]. exists i, t, m1. split_and!; try done; try lia.
  - by rewrite <- R1.
  - apply O1.
  - rewrite (load_entry_Ok m1 i t _); [by injection He1 as ->|apply O1|done..].
Qed.

(** An entry that keeps its page. *)
Lemma rewrite_pte_Ok f r pd i t j e e' :
  tables_ok f r pd → total_pages f < 1048576 → 0 <= i < 768 → 0 <= j < 1024 → table r pd i = Some t → pte_of r pd i j = Some e →
  present e' = true → index e' = index e →
  tables_ok f (poke r t j e') pd ∧
  ∀ a b, 0 <= a < 768 → 0 <= b < 1024 → pte_of (poke r t j e') pd a b = if decide (a = i ∧ b = j) then Some e' else pte_of r pd a b.
Proof.
  intros T Htot Hi Hj Ht He Hp Hidx. destruct (tb_data _ _ _ T i j e Hi Hj He) as [U1 U2]. pose proof U1 as [Hr _]. split.
  - apply (poke_tables f _ _ _ i); try done; [lia|].
    intros _. rewrite Hidx. split; [done|]. split; [done|]. intros a b e0 Ha Hb Hne E0 Eq. apply Hne.
    by apply (tb_once _ _ _ T a b e0 i j e).
  - intros a b Ha Hb. rewrite (pte_poke f _ _ i) by (done || lia). by rewrite Hp.
Qed.

(** The prefix of [protection_fault] up to the decision. *)
Definition cow_step (pte : Z) (e : page_entry) (c : Z) : M fault_end :=
  (if c =? 1 then store_entry pte (set_write true e)
   else
     sassert (c =? 2);;
     on_frames (put_count (index e) (u8 (c - 1)));;
     paddr_page ← on_frames get_user_page;
     page_new_vaddr ← kmap paddr_page;
     page_old_vaddr ← kmap (PAGE (index e));
     copy_page page_new_vaddr page_old_vaddr;;
     store_entry pte (set_user true (entry_init (IDX paddr_page))));;
  kunmap (GET_PAGE pte);;
  mret Resumed.

Lemma fault_enter m v error e :
  mm_ok m → 0 < idle (kmap_pool m) → t_uid (cur m) = USER_RING3 → 0 <= v < KERNEL_VADDR_OFFSET →
  Z.testbit error 0 = true → Z.testbit error 1 = true → user_entry m v = Some e → shared e = false →
  ∃ i t m1, 0 <= i < 1024 ∧ mapped m1 i t ∧ table (ram m) (pd_of m) (PDE_IDX v) = Some t ∧ pool_ok m1 ∧ same_mem m m1 ∧
    idle (kmap_pool m) - 1 <= idle (kmap_pool m1) ∧
    page_fault v error m =
      (if readonly e then Ok (Exited 500, m1) else cow_step (kv i + 4 * PTE_IDX v) e (count_at (fr m) (index e)) m1).
Proof.
  intros O Hidle Hu Hv H0 H1 He Hsh.
  destruct (get_pte_old m v e O Hidle Hv He) as (i & t & m1 & E1 & Hi & M1 & Et & P1 & S1 & Hid & El).
  destruct (tb_data _ _ _ (mo_tables _ O) _ _ _ (pde_idx_range v Hv) (pte_idx_range v) He) as [[Hp Hc] _].
  exists i, t, m1. split_and!; try done; try lia.
  unfold page_fault. rewrite (st_bind_eq _ _ m m m) by done.
  rewrite (st_bind_eq _ _ m () m) by (unfold sassert; by rewrite Hu).
  destruct (Z.ltb_spec USER_STACK_TOP v) as [Hbad|_]; [unfold USER_STACK_TOP in Hbad; lia|].
  rewrite H0. rewrite (st_bind_eq _ _ m () m) by (unfold sassert; by rewrite H1).
  unfold protection_fault. rewrite (st_bind_eq _ _ _ _ _ E1), (st_bind_eq _ _ _ _ _ El).
  assert (Hpr : present e = true).
  { unfold user_entry, pte_of in He. destruct (table _ _ _); [|done]. cbv zeta in He.
    destruct (present (entry_of _ _ _)) eqn:E; [|done]. by injection He as <-. }
  rewrite (st_bind_eq _ _ m1 () m1) by (unfold sassert; by rewrite Hpr).
  rewrite (st_bind_eq _ _ m1 () m1).
  2:{ unfold sassert. change (IDX MEMORY_BASE) with 256. destruct (Z.leb_spec 256 (index e)); [done|lia]. }
  destruct S1 as (S1 & S2 & S3).
  rewrite (st_bind_eq _ _ m1 (count_at (fr m) (index e)) m1).
  2:{ unfold on_frames. rewrite S1. rewrite (get_count_Ok (fr m) (index e) (fk_acc _ (mo_frames _ O))) by lia.
      rewrite <- S1. by destruct m1. }
  rewrite (st_bind_eq _ _ m1 () m1) by (unfold sassert; by destruct (Z.eqb_spec (count_at (fr m) (index e)) 0)).
  rewrite (st_bind_eq _ _ m1 () m1) by (unfold sassert; by rewrite Hsh).
  by destruct (readonly e).
Qed.

(** The tables after one more or one less reference to a page that stays in use. *)
Lemma tables_recount f r pd p c :
  accounts f → tables_ok f r pd → 0 <= p < total_pages f → c ≠ 0 → tables_ok (recount f p c) r pd.
Proof.
  intros A T Hp Hc. pose proof (ac_total _ A).
  assert (Hu : ∀ x, user_page f x → user_page (recount f p c) x).
  { intros x [Hx1 Hx2]. split; [done|]. rewrite recount_at by (done || lia). by case_decide. }
  destruct T as [T1 T2 T3 T4 T5 T6]. split; try done.
  - intros i t Hi Ht. apply Hu. by apply (T3 i).
  - intros i j e Hi Hj He. destruct (T5 i j e Hi Hj He) as [U1 U2]. split; [by apply Hu|done].
Qed.

Lemma cow_last m m1 v e i t :
  mm_ok m → 0 <= v < KERNEL_VADDR_OFFSET → user_entry m v = Some e → count_at (fr m) (index e) = 1 →
  0 <= i < 1024 → mapped m1 i t → table (ram m) (pd_of m) (PDE_IDX v) = Some t → pool_ok m1 → same_mem m m1 →
  ∃ m', cow_step (kv i + 4 * PTE_IDX v) e 1 m1 = Ok (Resumed, m') ∧ mm_ok m' ∧ cur m' = cur m ∧ fr m' = fr m ∧
    ram m' = poke (ram m) t (PTE_IDX v) (set_write true e) ∧ idle (kmap_pool m') = idle (kmap_pool m1) + 1 ∧
    ∀ a b, 0 <= a < 768 → 0 <= b < 1024 →
      pte_of (ram m') (pd_of m) a b = if decide (a = PDE_IDX v ∧ b = PTE_IDX v) then Some (set_write true e) else pte_of (ram m) (pd_of m) a b.
Proof.
  intros O Hv He Hc Hi M1 Et P1 (S1 & S2 & S3). pose proof (pde_idx_range v Hv) as Hd. pose proof (pte_idx_range v) as Hj.
  destruct O as [K T P]. fold (pd_of m) in T. pose proof (ac_total _ (fk_acc _ K)).
  assert (Hpr : present e = true).
  { unfold user_entry, pte_of in He. destruct (table _ _ _); [|done]. cbv zeta in He.
    destruct (present (entry_of _ _ _)) eqn:E; [|done]. by injection He as <-. }
  destruct (rewrite_pte_Ok (fr m) (ram m) (pd_of m) (PDE_IDX v) t (PTE_IDX v) e (set_write true e)) as [T' Hnew]; try done; [lia|].
  unfold cow_step. change (1 =? 1) with true. cbv iota. rewrite get_page_kv by done.
  set (m2 := set_ram (poke (ram m) t (PTE_IDX v) (set_write true e)) m1).
  rewrite (st_bind_eq _ _ m1 () m2) by (unfold m2; rewrite <- S2; apply store_entry_Ok; rewrite ?S2; [apply T|done..]).
  destruct (kunmap_Ok m2 i t) as (m3 & E3 & P3 & (R1 & R2 & R3) & Hid & _); [by apply (pool_same m1)|done|by apply (mapped_same m1)|].
  rewrite (st_bind_eq _ _ _ _ _ E3).
  assert (Epd : pd_of m3 = pd_of m) by (unfold pd_of; rewrite R3; cbn; by rewrite S3).
  exists m3. split_and!; try done.
  - split; fold (pd_of m3); rewrite ?R1, ?R2, ?Epd; cbn [m2 fr ram set_ram]; rewrite ?S1; done.
  - rewrite R3. exact S3.
  - rewrite R1. exact S1.
  - intros a b Ha Hb. rewrite R2. by apply Hnew.
Qed.

(** A page that is neither the directory nor a table may hold anything. *)
Lemma table_insert_other r pd p l i : p ≠ pd → table (<[p := l]> r) pd i = table r pd i.
Proof. intros Hp. unfold table, entry_of. by rewrite words_insert, decide_False by done. Qed.

Lemma pte_insert_other r pd p l i j : p ≠ pd → table r pd i ≠ Some p → pte_of (<[p := l]> r) pd i j = pte_of r pd i j.
Proof.
  intros Hp Ht. unfold pte_of. rewrite table_insert_other by done. destruct (table r pd i) as [t|]; [|done].
  unfold entry_of. rewrite words_insert, decide_False by congruence. done.
Qed.

Lemma tables_other_page f r pd p l :
  tables_ok f r pd → p ≠ pd → length l = 1024%nat → (∀ k, 0 <= k < 768 → table r pd k ≠ Some p) → tables_ok f (<[p := l]> r) pd.
Proof.
  intros [T1 T2 T3 T4 T5 T6] Hp Hl Hk. split.
  - by apply ram_insert.
  - done.
  - intros i t Hi. rewrite table_insert_other by done. by apply T3.
  - intros i i' t Hi Hi'. rewrite !table_insert_other by done. by apply T4.
  - intros i j e Hi Hj. rewrite pte_insert_other by auto. intros He. destruct (T5 i j e Hi Hj He) as [U1 U2]. split; [done|].
    intros k Hk'. rewrite table_insert_other by done. by apply U2.
  - intros i j e i' j' e' Hi Hj Hi' Hj'. rewrite !pte_insert_other by auto. by apply T6.
Qed.

(** Two windows are opened for the copy and not closed. *)
Lemma cow_copy m m1 v e i t :
  mm_ok m → 0 <= v < KERNEL_VADDR_OFFSET → user_entry m v = Some e → count_at (fr m) (index e) = 2 →
  0 <= i < 1024 → mapped m1 i t → table (ram m) (pd_of m) (PDE_IDX v) = Some t → pool_ok m1 → same_mem m m1 →
  2 <= idle (kmap_pool m1) →
  (∃ m' p, cow_step (kv i + 4 * PTE_IDX v) e 2 m1 = Ok (Resumed, m') ∧ mm_ok m' ∧ cur m' = cur m ∧
    4096 <= p < total_pages (fr m) ∧ count_at (fr m) p = 0 ∧ fr m' = recount (recount (fr m) (index e) 1) p 1 ∧
    ram m' = poke (<[p := words_of (ram m) (index e)]> (ram m)) t (PTE_IDX v) (set_user true (entry_init p)) ∧
    idle (kmap_pool m1) - 1 <= idle (kmap_pool m') ∧
    ∀ a b, 0 <= a < 768 → 0 <= b < 1024 → pte_of (ram m') (pd_of m) a b =
      if decide (a = PDE_IDX v ∧ b = PTE_IDX v) then Some (set_user true (entry_init p)) else pte_of (ram m) (pd_of m) a b) ∨
  (cow_step (kv i + 4 * PTE_IDX v) e 2 m1 = Stop Panic ∧ ∀ j, 4096 <= j < total_pages (fr m) → count_at (fr m) j ≠ 0).
Proof.
  intros O Hv He Hc Hi M1 Et P1 (S1 & S2 & S3) Hid. pose proof (pde_idx_range v Hv) as Hd. pose proof (pte_idx_range v) as Hj.
  destruct O as [K T P]. fold (pd_of m) in T. pose proof (fk_acc _ K) as A. pose proof (ac_total _ A).
  destruct (tb_data _ _ _ T _ _ _ Hd Hj He) as [[Hp _] _]. set (q := index e) in *.
  assert (K1 : frames_ok (recount (fr m) q 1)) by (apply recount_user; (done || lia)).
  assert (T1 : tables_ok (recount (fr m) q 1) (ram m) (pd_of m)) by (apply tables_recount; (done || lia)).
  assert (C1 : ∀ j, 0 <= j → count_at (recount (fr m) q 1) j = if decide (j = q) then 1 else count_at (fr m) j)
    by (intros; apply recount_at; (done || lia)).
  unfold cow_step. change (2 =? 1) with false. cbv iota. set (m2 := set_fr (recount (fr m) q 1) m1).
  assert (Eput : on_frames (put_count q (u8 (2 - 1))) m1 = Ok ((), m2)).
  { unfold on_frames. change (u8 (2 - 1)) with 1. rewrite S1, (put_count_Ok (fr m) q 1 A) by lia. unfold m2. do 3 f_equal.
    unfold recount. rewrite Hc. cbn. unfold set_free_pages, set_mem_map. cbn. f_equal. lia. }
  destruct (get_user_page_Ok _ K1) as [(p & E & Hpr & H0 & _ & K2)|[E Hnone]].
  2:{ right. split.
      - unfold mbind at 1, st_bind at 1. rewrite (st_bind_eq _ _ m1 () m1) by done. rewrite (st_bind_eq _ _ _ _ _ Eput).
        unfold on_frames, mbind, st_bind. change (fr m2) with (recount (fr m) q 1). by rewrite E.
      - intros j Hj'. specialize (Hnone j Hj'). rewrite C1 in Hnone by lia. case_decide; [subst; lia|done]. }
  left. rewrite C1 in H0 by lia. case_decide as Hpq; [done|]. change (total_pages (recount (fr m) q 1)) with (total_pages (fr m)) in Hpr.
  set (m3 := set_fr (recount (recount (fr m) q 1) p 1) m2).
  destruct (kmap_Ok m3 p) as (i2 & m4 & E4 & Hi2 & M4 & P4 & (U1 & U2 & U3) & Hid4 & J4); [by apply (pool_same m1)|lia|cbn; lia|].
  destruct (kmap_Ok m4 q P4) as (i3 & m5 & E5 & Hi3 & M5 & P5 & (V1 & V2 & V3) & Hid5 & J5); [lia|cbn in Hid4; lia|].
  set (e' := set_user true (entry_init p)). assert (Ei : index e' = p) by (apply entry_init_index; lia).
  set (r' := <[p := words_of (ram m) q]> (ram m)).
  assert (R5 : ram m5 = ram m) by (rewrite V2, U2; exact S2).
  set (m6 := set_ram r' m5). set (m7 := set_ram (poke r' t (PTE_IDX v) e') m6).
  assert (Hnp : ∀ x, user_page (fr m) x → x ≠ p) by (intros x [_ Hx] ->; done).
  assert (Hppd : p ≠ pd_of m) by (pose proof (tb_pd _ _ _ T); lia).
  assert (T2 : tables_ok (recount (fr m) q 1) r' (pd_of m)).
  { apply tables_other_page; [done|done| |].
    - by apply words_length, T.
    - intros k Hk Hk'. by destruct (Hnp p (tb_tab _ _ _ T k p Hk Hk')). }
  assert (Et' : table r' (pd_of m) (PDE_IDX v) = Some t).
  { unfold r'. by rewrite table_insert_other. }
  assert (M5t : mapped m5 i t) by (apply J5; [lia|]; apply J4; [lia|]; by apply (mapped_same m1)).
  rewrite (st_bind_eq _ _ m1 () m7).
  2:{ rewrite (st_bind_eq _ _ m1 () m1) by done. rewrite (st_bind_eq _ _ _ _ _ Eput).
      rewrite (st_bind_eq _ _ m2 (PAGE p) m3) by (unfold on_frames; change (fr m2) with (recount (fr m) q 1); by rewrite E).
      rewrite (st_bind_eq _ _ _ _ _ E4), (st_bind_eq _ _ _ _ _ E5).
      rewrite (st_bind_eq _ _ m5 () m6) by (unfold m6, r'; rewrite <- R5; apply copy_page_Ok; [apply J5; [lia|done]|done..]).
      rewrite idx_page by lia. fold e'. apply store_entry_Ok; [apply T2|by apply (mapped_same m5)|done..]. }
  rewrite get_page_kv by done.
  destruct (kunmap_Ok m7 i t) as (m8 & E8 & P8 & (W1 & W2 & W3) & Hid8 & _); [by apply (pool_same m5)|done|by apply (mapped_same m5)|].
  rewrite (st_bind_eq _ _ _ _ _ E8).
  assert (C8 : cur m8 = cur m) by (rewrite W3; cbn; rewrite V3, U3; exact S3).
  assert (F8 : fr m8 = recount (recount (fr m) q 1) p 1) by (rewrite W1; cbn; rewrite V1, U1; done).
  destruct (fresh_pte_Ok (recount (fr m) q 1) r' (pd_of m) (PDE_IDX v) t (PTE_IDX v) e') as [T3 Hnew]; rewrite ?Ei; try done.
  { rewrite C1 by lia. by rewrite decide_False. }
  exists m8, p. split_and!; try done; try lia.
  - split; fold (pd_of m8); rewrite ?F8, ?W2; [done| |done]. replace (pd_of m8) with (pd_of m) by (unfold pd_of; by rewrite C8).
    by rewrite Ei in T3.
  - change (kmap_pool m7) with (kmap_pool m5) in Hid8. change (kmap_pool m3) with (kmap_pool m1) in Hid4. lia.
  - intros a b Ha Hb. rewrite W2. cbn [m7 ram set_ram]. rewrite Hnew by done. case_decide; [done|].
    apply pte_insert_other; [done|]. intros Hk. by destruct (Hnp p (tb_tab _ _ _ T a p Ha Hk)).
Qed.

(** ** Ranges of pages *)

Lemma walk_eq x y :
  0 <= x < KERNEL_VADDR_OFFSET → 0 <= y < KERNEL_VADDR_OFFSET →
  (PDE_IDX x = PDE_IDX y ∧ PTE_IDX x = PTE_IDX y) ↔ x / 4096 = y / 4096.
Proof.
  unfold KERNEL_VADDR_OFFSET. intros Hx Hy. unfold PDE_IDX, PTE_IDX. rewrite !u32_small by lia. rewrite !low10, !shift12.
  rewrite !Z.shiftr_div_pow2 by lia. change (2 ^ 22) with (4096 * 1024). rewrite <- !Z.div_div by lia.
  split; [intros [H1 H2]|by intros ->].
  rewrite (Z.div_mod (x / 4096) 1024), (Z.div_mod (y / 4096) 1024) by lia. by rewrite H1, H2.
Qed.

Lemma same_page x page : 0 <= x → page mod 4096 = 0 → x / 4096 = page / 4096 ↔ page <= x < page + 4096.
Proof.
  intros Hx Hp. pose proof (Z.div_mod page 4096 ltac:(lia)). pose proof (Z.div_mod x 4096 ltac:(lia)).
  pose proof (Z.mod_pos_bound x 4096 ltac:(lia)). lia.
Qed.

Lemma user_entry_pd m v : user_entry m v = pte_of (ram m) (pd_of m) (PDE_IDX v) (PTE_IDX v).
Proof. done. Qed.

Lemma unlink_loop_Ok n : ∀ m page,
  mm_ok m → 0 < idle (kmap_pool m) → 0 <= page → page mod 4096 = 0 → page + 4096 * Z.of_nat n <= KERNEL_VADDR_OFFSET →
  (∃ m', unlink_loop n page m = Ok ((), m') ∧ mm_ok m' ∧ cur m' = cur m ∧ idle (kmap_pool m) <= idle (kmap_pool m') ∧
     ∀ x, 0 <= x < KERNEL_VADDR_OFFSET →
       user_entry m' x = if decide (page <= x < page + 4096 * Z.of_nat n) then None else user_entry m x) ∨
  unlink_loop n page m = Stop Panic.
Proof.
  induction n as [|n IH]; intros m page O Hidle H0 Hal Hn.
  { left. exists m. split_and!; try done. intros x Hx. by rewrite decide_False by lia. }
  cbn [unlink_loop]. assert (Hv : 0 <= page < KERNEL_VADDR_OFFSET) by lia.
  destruct (unlink_Ok m page O Hidle Hv Hal) as [(m1 & E1 & O1 & C1 & Hid1 & Hp1 & _)|[E _]].
  2:{ right. unfold mbind, st_bind. by rewrite E. }
  rewrite (st_bind_eq _ _ _ _ _ E1). unfold PAGE_SIZE, KERNEL_VADDR_OFFSET in *. rewrite (u32_small (page + 4096)) by lia.
  destruct (IH m1 (page + 4096) O1 ltac:(lia) ltac:(lia)) as [(m' & E' & O' & C' & Hid' & Hx')|E'].
  - rewrite <- Z.add_mod_idemp_l, Hal by lia. done.
  - lia.
  - left. exists m'. split_and!; try done; try congruence; try lia. intros x Hx. rewrite Hx' by done.
    assert (Epd : pd_of m1 = pd_of m) by (unfold pd_of; by rewrite C1).
    rewrite !user_entry_pd, Epd. rewrite Hp1; [|exact (pde_idx_range x Hx)|exact (pte_idx_range x)].
    assert (W : (PDE_IDX x = PDE_IDX page ∧ PTE_IDX x = PTE_IDX page) ↔ page <= x < page + 4096)
      by (rewrite walk_eq by done; apply same_page; [lia|done]).
    destruct (decide (page <= x < page + 4096)) as [D|D].
    + rewrite (decide_False (P := page + 4096 <= x < _)) by lia. rewrite (decide_True (P := PDE_IDX x = _ ∧ _)) by (by apply W). by rewrite decide_True by lia.
    + rewrite (decide_False (P := PDE_IDX x = _ ∧ _)) by (by rewrite W). repeat case_decide; done || lia.
  - by right.
Qed.

(** ** The boot mapping *)

Lemma set_ram_set r r' m : set_ram r (set_ram r' m) = set_ram r m.
Proof. done. Qed.

Lemma fill_table_Ok n : ∀ m p t idx,
  ram_ok (ram m) → 0 <= t → t + Z.of_nat n <= 1024 → 0 <= idx → idx + Z.of_nat n <= 1048576 →
  ∃ r, fill_table n p t idx m = Ok ((), set_ram r m) ∧ ram_ok r ∧
    (∀ q, q ≠ p → words_of r q = words_of (ram m) q) ∧
    ∀ j, 0 <= j → entry_of r p j = if decide (t <= j < t + Z.of_nat n) then entry_init (idx + (j - t)) else entry_of (ram m) p j.
Proof.
  induction n as [|n IH]; intros m p t idx R Ht Hn Hi Hin.
  { exists (ram m). split; [by destruct m|]. split_and!; try done. intros j Hj. by rewrite decide_False by lia. }
  cbn [fill_table]. rewrite (st_bind_eq _ _ _ _ _ (put_entry_Ok m p t (entry_init idx) R ltac:(lia))).
  set (m1 := set_ram _ m).
  destruct (IH m1 p (t + 1) (idx + 1)) as (r & E & R' & Hq & He); [by apply poke_ok|lia..|].
  exists r. rewrite E. split; [done|]. split; [done|]. split.
  - intros q Hne. rewrite Hq by done. by apply words_poke.
  - intros j Hj. rewrite He by done. cbn [m1 ram set_ram].
    rewrite entry_poke by (done || lia || (rewrite entry_init_index; lia)). destruct (decide (j = t)) as [->|Hne].
    + rewrite decide_False by lia. rewrite decide_True by done. rewrite decide_True by lia. f_equal. lia.
    + rewrite (decide_False (P := p = p ∧ j = t)) by tauto. repeat case_decide; try done; try lia. f_equal. lia.
Qed.

(** The tables of the first [k] quarters are in place. *)
Definition quarters (r : gmap Z (list Z)) (k : Z) : Prop :=
  ram_ok r ∧ (∀ j, 0 <= j < 1024 → entry_of r 0 j =
    if decide (j < k) then entry_init (j + 1) else if decide (768 <= j < 768 + k) then entry_init (j - 767) else zero_entry) ∧
  ∀ i j, 0 <= i < k → 0 <= j < 1024 → entry_of r (1 + i) j = entry_init (1024 * i + j).

Lemma map_tables_Ok n : ∀ m i,
  0 <= i → i + Z.of_nat n = 4 → quarters (ram m) i →
  ∃ r, map_tables n i (768 + i) (1024 * i) m = Ok ((), set_ram r m) ∧ quarters r 4.
Proof.
  induction n as [|n IH]; intros m i Hi Hn (R & H0 & Ht).
  { exists (ram m). replace 4 with i by lia. split; [by destruct m|done]. }
  cbn [map_tables]. assert (EI : IDX (PAGE_SIZE + PAGE_SIZE * i) = 1 + i).
  { unfold PAGE_SIZE, IDX. rewrite u32_small by lia. rewrite shift12. replace (4096 + 4096 * i) with ((1 + i) * 4096) by lia. by apply Z.div_mul. }
  rewrite EI. set (m1 := set_ram (<[1 + i := zero_page]> (ram m)) m). rewrite (st_bind_eq _ _ m () m1) by done.
  assert (R1 : ram_ok (ram m1)) by (apply ram_insert; [done|apply length_replicate]).
  rewrite (st_bind_eq _ _ _ _ _ (put_entry_Ok m1 0 i (entry_init (1 + i)) R1 ltac:(lia))). set (m2 := set_ram _ m1).
  assert (R2 : ram_ok (ram m2)) by (by apply poke_ok).
  rewrite (st_bind_eq _ _ _ _ _ (put_entry_Ok m2 0 (768 + i) (entry_init (1 + i)) R2 ltac:(lia))). set (m3 := set_ram _ m2).
  assert (R3 : ram_ok (ram m3)) by (by apply poke_ok).
  destruct (fill_table_Ok 1024 m3 (1 + i) 0 (1024 * i)) as (r4 & E4 & R4 & Hq & He); [done|lia..|].
  rewrite (st_bind_eq _ _ _ _ _ E4).
  assert (Hx : index (entry_init (1 + i)) = 1 + i) by (apply entry_init_index; lia).
  destruct (IH (set_ram r4 m3) (i + 1)) as (r & E & Q); [lia|lia| |].
  - split; [done|]. split.
    + intros j Hj. change (ram (set_ram r4 m3)) with r4. unfold entry_of at 1. rewrite Hq by lia.
      change (decode _) with (entry_of (ram m3) 0 j). cbn [m3 ram set_ram].
      rewrite entry_poke by (done || lia). cbn [m2 ram set_ram]. rewrite entry_poke by (done || lia).
      assert (E1 : entry_of (ram m1) 0 j = entry_of (ram m) 0 j)
        by (unfold entry_of; cbn [m1 ram set_ram]; by rewrite words_insert, decide_False by lia).
      rewrite E1, H0 by done.
      repeat case_decide; try done; try lia; f_equal; lia.
    + intros k j Hk Hj. change (ram (set_ram r4 m3)) with r4. destruct (decide (k = i)) as [->|Hne].
      * rewrite He by lia. rewrite decide_True by lia. f_equal. lia.
      * unfold entry_of. rewrite Hq by lia. cbn [m3 m2 m1 ram set_ram]. rewrite !words_poke by lia.
        rewrite words_insert, decide_False by lia. apply Ht; lia.
  - exists r. split; [|done]. change (set_ram r m) with (set_ram r (set_ram r4 m3)). rewrite <- E. f_equal; lia.
Qed.

Lemma clear_words_Ok n : ∀ m p i,
  ram_ok (ram m) → 0 <= i → i + Z.of_nat n <= 1024 →
  ∃ r, clear_words n p i m = Ok ((), set_ram r m) ∧ ram_ok r ∧ (∀ q, q ≠ p → words_of r q = words_of (ram m) q) ∧
    ∀ j, 0 <= j → entry_of r p j = if decide (i <= j < i + Z.of_nat n) then zero_entry else entry_of (ram m) p j.
Proof.
  induction n as [|n IH]; intros m p i R Hi Hn.
  { exists (ram m). split; [by destruct m|]. split_and!; try done. intros j Hj. by rewrite decide_False by lia. }
  cbn [clear_words]. assert (E0 : wr p i 0 m = Ok ((), set_ram (poke (ram m) p i zero_entry) m))
    by (apply (put_entry_Ok m p i zero_entry R); lia).
  rewrite (st_bind_eq _ _ _ _ _ E0). set (m1 := set_ram _ m).
  destruct (IH m1 p (i + 1)) as (r & E & R' & Hq & He); [by apply poke_ok|lia..|].
  exists r. rewrite E. split; [done|]. split; [done|]. split.
  - intros q Hne. rewrite Hq by done. by apply words_poke.
  - intros j Hj. rewrite He by done. cbn [m1 ram set_ram]. rewrite entry_poke by (done || lia).
    repeat case_decide; try done; try lia; tauto.
Qed.

(** ** Properties *)

(** C32. The layout of a page table entry.  Every entry whose page number fits in 20 bits
    is a 32-bit word, present, write and user being bits 0, 1 and 2 and the page number
    the bits from 12 on, from which it is read back unchanged; and every word is the
    entry it is read as. *)
Theorem page_entry_layout e w :
  0 <= index e < 1048576 → 0 <= w < 4294967296 →
  0 <= encode e < 4294967296 ∧ decode (encode e) = e ∧
  encode e / 4096 = index e ∧ Z.testbit (encode e) 0 = present e ∧ Z.testbit (encode e) 1 = write e ∧
  Z.testbit (encode e) 2 = user e ∧ encode (decode w) = w ∧ 0 <= index (decode w) < 1048576.
Proof.
  intros He Hw. pose proof (shift_encode e) as Hs. rewrite shift12 in Hs.
  pose proof (Z.div_mod (encode e) 4096 ltac:(lia)). pose proof (Z.mod_pos_bound (encode e) 4096 ltac:(lia)).
  split; [lia|]. split; [by apply decode_encode|]. split; [done|]. rewrite !encode_flag by lia.
  split; [done|]. split; [done|]. split; [done|]. split; [by apply encode_decode|]. cbn [index decode].
  change 0xfffff with (Z.ones 20). rewrite Z.land_ones by lia. apply Z.mod_pos_bound. lia.
Qed.

(** C3. [link_user_page] makes an address usable and disturbs nothing.  In a consistent
    address space with a window slot left, it maps the page of the address - keeping the
    mapping that was there, or else to a page that was free, writable and the user's, now
    held once - while every other page of the address space stays mapped as it was, no
    page in use changes its count, and, tables apart, none its contents.  It stops
    only when fewer than two pages are free. *)
Theorem link_user_page_maps m v :
  mm_ok m → 0 < idle (kmap_pool m) → 0 <= v < KERNEL_VADDR_OFFSET →
  (∃ m' e, link_user_page v m = Ok ((), m') ∧ mm_ok m' ∧ idle (kmap_pool m) <= idle (kmap_pool m') ∧
     user_entry m' v = Some e ∧ keeps m m' ∧
     (∀ x, 0 <= x < KERNEL_VADDR_OFFSET → x / 4096 ≠ v / 4096 → user_entry m' x = user_entry m x) ∧
     (user_entry m v = Some e ∨
      (user_entry m v = None ∧ write e = true ∧ user e = true ∧
       count_at (fr m) (index e) = 0 ∧ count_at (fr m') (index e) = 1))) ∨
  (link_user_page v m = Stop Panic ∧
     ∀ j k, 4096 <= j < total_pages (fr m) → 4096 <= k < total_pages (fr m) →
       count_at (fr m) j = 0 → count_at (fr m) k = 0 → j = k).
Proof.
  intros O Hidle Hv. destruct (link_Ok m v O Hidle Hv) as [(m' & e & E & O' & C & Hid & He & G & Hp & Hcase)|H]; [left|by right].
  assert (Epd : pd_of m' = pd_of m) by (unfold pd_of; by rewrite C).
  exists m', e. split_and!; try done.
  - intros x Hx Hne. rewrite !user_entry_pd, Epd. apply Hp; [exact (pde_idx_range x Hx)|exact (pte_idx_range x)|].
    by rewrite walk_eq.
  - destruct Hcase as [?|(Hn & Hshape & H0 & H1)]; [by left|right]. rewrite Hshape at 1 2. done.
Qed.

(** [unlink_user_page] undoes [link_user_page]: on a page that was not mapped,
    linking and then unlinking leads back to an address space with the same mappings and
    the same counts of the pages in use, the page handed out being free again. *)
Theorem link_unlink_roundtrip m v m1 e :
  mm_ok m → 0 < idle (kmap_pool m) → 0 <= v < KERNEL_VADDR_OFFSET → v mod 4096 = 0 → user_entry m v = None →
  link_user_page v m = Ok ((), m1) → user_entry m1 v = Some e →
  ∃ m2, unlink_user_page v m1 = Ok ((), m2) ∧ mm_ok m2 ∧ count_at (fr m2) (index e) = 0 ∧
    (∀ x, 0 <= x < KERNEL_VADDR_OFFSET → user_entry m2 x = user_entry m x) ∧
    ∀ p, 0 <= p → count_at (fr m) p ≠ 0 → count_at (fr m2) p = count_at (fr m) p.
Proof.
  intros O Hidle Hv Hal Hnone E He.
  destruct (link_Ok m v O Hidle Hv) as [(m' & e' & E' & O' & C & Hid & He' & [G _] & Hp & Hcase)|[E' _]]; [|congruence].
  assert (m1 = m') as -> by congruence. assert (e' = e) as -> by congruence.
  destruct Hcase as [?|(_ & _ & H0 & H1)]; [congruence|].
  assert (Epd : pd_of m' = pd_of m) by (unfold pd_of; by rewrite C).
  destruct (tb_data _ _ _ (mo_tables _ O') _ _ _ (pde_idx_range v Hv) (pte_idx_range v) He) as [[Hr _] _].
  destruct (unlink_Ok m' v O' ltac:(lia) Hv Hal) as [(m2 & E2 & O2 & C2 & _ & Hp2 & Hf)|[_ Hbad]].
  2:{ exfalso. rewrite He in Hbad. destruct Hbad as [Hbad _]. done. }
  rewrite He in Hf. pose proof (ac_total _ (fk_acc _ (mo_frames _ O'))).
  assert (Epd2 : pd_of m2 = pd_of m) by (unfold pd_of; by rewrite C2, C).
  assert (HC : ∀ p, 0 <= p → count_at (fr m2) p = if decide (p = index e) then 0 else count_at (fr m') p).
  { intros p Hp'. rewrite Hf, recount_at by (apply (fk_acc _ (mo_frames _ O')) || lia). by rewrite H1. }
  exists m2. split_and!; try done.
  - rewrite HC by lia. by rewrite decide_True.
  - intros x Hx. rewrite !user_entry_pd, Epd2, <- Epd. pose proof (pde_idx_range x Hx). pose proof (pte_idx_range x).
    rewrite Hp2 by done. case_decide as D.
    + destruct D as [-> ->]. rewrite Epd. rewrite user_entry_pd in Hnone. by rewrite Hnone.
    + rewrite Epd. by apply Hp.
  - intros p Hp' Hc. rewrite HC by done. rewrite decide_False by congruence. by apply G.
Qed.

(** C8. Copy on write.  A write to a page the user may read but not write, in a consistent
    address space: when nobody else holds the page it simply becomes writable; when it is
    shared by two address spaces, the faulting one gets a page of its own that was free,
    with the same contents and writable, the old page keeps its contents and loses one
    holder, and all other mappings stay; a third holder is not provided for and stops the
    kernel. *)
Theorem copy_on_write m v error e :
  mm_ok m → 3 <= idle (kmap_pool m) → t_uid (cur m) = USER_RING3 → 0 <= v < KERNEL_VADDR_OFFSET →
  Z.testbit error 0 = true → Z.testbit error 1 = true →
  user_entry m v = Some e → shared e = false → readonly e = false →
  (∃ j, 4096 <= j < total_pages (fr m) ∧ count_at (fr m) j = 0) →
  match count_at (fr m) (index e) with
  | 1 => ∃ m', page_fault v error m = Ok (Resumed, m') ∧ mm_ok m' ∧ user_entry m' v = Some (set_write true e) ∧
      fr m' = fr m ∧ ∀ x, 0 <= x < KERNEL_VADDR_OFFSET → x / 4096 ≠ v / 4096 → user_entry m' x = user_entry m x
  | 2 => ∃ m' p, page_fault v error m = Ok (Resumed, m') ∧ mm_ok m' ∧ user_entry m' v = Some (set_user true (entry_init p)) ∧
      count_at (fr m) p = 0 ∧ count_at (fr m') p = 1 ∧ count_at (fr m') (index e) = 1 ∧
      words_of (ram m') p = words_of (ram m) (index e) ∧ words_of (ram m') (index e) = words_of (ram m) (index e) ∧
      ∀ x, 0 <= x < KERNEL_VADDR_OFFSET → x / 4096 ≠ v / 4096 → user_entry m' x = user_entry m x
  | _ => page_fault v error m = Stop Panic
  end.
Proof.
  intros O Hidle Hu Hv H0 H1 He Hsh Hro (j & Hj & Hfree). pose proof (pde_idx_range v Hv) as Hd. pose proof (pte_idx_range v) as Hpj.
  destruct (fault_enter m v error e O ltac:(lia) Hu Hv H0 H1 He Hsh) as (i & t & m1 & Hi & M1 & Et & P1 & S1 & Hid1 & ->).
  rewrite Hro. pose proof (mo_tables _ O) as T. fold (pd_of m) in T. pose proof (fk_acc _ (mo_frames _ O)) as A.
  destruct (tb_data _ _ _ T _ _ _ Hd Hpj He) as [[Hp Hc] Hnt]. destruct (tb_tab _ _ _ T _ _ Hd Et) as [_ Ht].
  pose proof (ac_total _ A). destruct (count_lookup _ (index e) A ltac:(lia)) as [_ Hb].
  assert (Hx : ∀ m' e', cur m' = cur m → (∀ a b, 0 <= a < 768 → 0 <= b < 1024 →
      pte_of (ram m') (pd_of m) a b = if decide (a = PDE_IDX v ∧ b = PTE_IDX v) then Some e' else pte_of (ram m) (pd_of m) a b) →
    user_entry m' v = Some e' ∧ ∀ x, 0 <= x < KERNEL_VADDR_OFFSET → x / 4096 ≠ v / 4096 → user_entry m' x = user_entry m x).
  { intros m' e' C Hpt. assert (Epd : pd_of m' = pd_of m) by (unfold pd_of; by rewrite C). split.
    - rewrite user_entry_pd, Epd, Hpt by done. by rewrite decide_True.
    - intros x Hx Hne. rewrite !user_entry_pd, Epd, Hpt by (exact (pde_idx_range x Hx) || exact (pte_idx_range x)).
      by rewrite decide_False by (by rewrite walk_eq). }
  destruct (decide (count_at (fr m) (index e) = 1)) as [E1|E1]; [rewrite E1|destruct (decide (count_at (fr m) (index e) = 2)) as [E2|E2]; [rewrite E2|]].
  - destruct (cow_last m m1 v e i t O Hv He E1 Hi M1 Et P1 S1) as (m' & E & O' & C & F & _ & _ & Hpt).
    destruct (Hx m' _ C Hpt) as [U1 U2]. exists m'. by split_and!.
  - destruct (cow_copy m m1 v e i t O Hv He E2 Hi M1 Et P1 S1 ltac:(lia)) as [(m' & p & E & O' & C & Hpr & Hp0 & F & R & _ & Hpt)|[_ Hno]];
      [|by destruct (Hno j Hj)].
    destruct (Hx m' _ C Hpt) as [U1 U2]. exists m', p. assert (p ≠ index e) by congruence. assert (p ≠ t) by congruence.
    assert (A1 : accounts (recount (fr m) (index e) 1)) by (apply recount_ok; (done || lia)).
    assert (index e ≠ t) by (intros <-; by apply (Hnt _ Hd)).
    split_and!; try done.
    + rewrite F, recount_at; [by rewrite decide_True|done|cbn; lia|lia].
    + rewrite F, recount_at; [|done|cbn; lia|lia]. rewrite decide_False, recount_at by (done || lia). by rewrite decide_True.
    + rewrite R, words_poke, words_insert by done. by rewrite decide_True.
    + rewrite R, words_poke, words_insert by done. by rewrite decide_False.
  - assert (Hstop : cow_step (kv i + 4 * PTE_IDX v) e (count_at (fr m) (index e)) m1 = Stop Panic).
    { unfold cow_step. destruct (Z.eqb_spec (count_at (fr m) (index e)) 1); [done|].
      unfold mbind at 1, st_bind at 1. unfold sassert, mbind at 1, st_bind at 1.
      destruct (Z.eqb_spec (count_at (fr m) (index e)) 2); done. }
    rewrite Hstop. destruct (count_at (fr m) (index e)) as [|[q|[q|q|]|]|q]; done.
Qed.

Lemma brk_fault m v error :
  t_uid (cur m) = USER_RING3 → 0 <= v < USER_MMAP_ADDR → Z.testbit error 0 = false →
  page_fault v error m = Ok (Exited (-1), m).
Proof.
  unfold USER_MMAP_ADDR. intros Hu Hv H0. unfold page_fault. rewrite (st_bind_eq _ _ m m m) by done.
  rewrite (st_bind_eq _ _ m () m) by (unfold sassert; by rewrite Hu). change USER_STACK_TOP with 3221225471.
  change USER_STACK_BOTTOM with 3219128319. rewrite H0.
  destruct (Z.ltb_spec 3221225471 v); [lia|]. destruct (Z.ltb_spec 3219128319 v); [lia|done].
Qed.

(** The two assertions of [sys_brk]. *)
Lemma brk_enter m a :
  t_uid (cur m) = USER_RING3 → 0 <= a < 4294967296 → a mod 4096 = 0 →
  sys_brk a m =
    (if USER_MMAP_ADDR <=? a then mret EOF_
     else if a <? t_end (cur m) then mret EOF_
     else if a <? t_brk (cur m) then
       unlink_loop (Z.to_nat ((t_brk (cur m) - a + PAGE_SIZE - 1) / PAGE_SIZE)) a;;
       modify_st (λ m, set_cur (set_brk a (cur m)) m);;
       mret 0
     else if PAGE (free_pages (fr m)) <? u32 (a - t_brk (cur m)) then mret EOF_
     else modify_st (λ m, set_cur (set_brk a (cur m)) m);; mret 0) m.
Proof.
  intros Hu Ha Hal. unfold sys_brk. rewrite (u32_small a) by done. cbv zeta.
  rewrite (st_bind_eq _ _ m () m) by (unfold sassert, ASSERT_PAGE; rewrite low12; by rewrite Hal).
  rewrite (st_bind_eq _ _ m m m) by done. by rewrite (st_bind_eq _ _ m () m) by (unfold sassert; by rewrite Hu).
Qed.

(** [sys_brk].  Moving the break up answers -1 and changes nothing when it would reach
    the mapping area or needs more bytes than there are free; otherwise only the break
    moves - nothing is mapped, so that the first access to the new memory ends the
    process.  Moving it below the end of the program is refused; moving it down to there
    unmaps exactly the pages given up, unless dropping one stops the kernel. *)
Theorem sys_brk_cases m a :
  mm_ok m → 0 < idle (kmap_pool m) → t_uid (cur m) = USER_RING3 → 0 <= a < 4294967296 → a mod 4096 = 0 →
  0 <= t_end (cur m) <= t_brk (cur m) → t_brk (cur m) <= USER_MMAP_ADDR →
  if decide (USER_MMAP_ADDR <= a ∨ a < t_end (cur m) ∨ 4096 * free_pages (fr m) < a - t_brk (cur m)) then
    sys_brk a m = Ok (-1, m)
  else if decide (t_brk (cur m) <= a) then
    ∃ m', sys_brk a m = Ok (0, m') ∧ t_brk (cur m') = a ∧ fr m' = fr m ∧ ram m' = ram m ∧
      ∀ v error, t_brk (cur m) <= v < a → Z.testbit error 0 = false → page_fault v error m' = Ok (Exited (-1), m')
  else
    (∃ m', sys_brk a m = Ok (0, m') ∧ t_brk (cur m') = a ∧ mm_ok m' ∧
      ∀ x, 0 <= x < KERNEL_VADDR_OFFSET → user_entry m' x =
        if decide (a <= x < a + 4096 * ((t_brk (cur m) - a + 4095) / 4096)) then None else user_entry m x) ∨
    sys_brk a m = Stop Panic.
Proof.
  intros O Hidle Hu Ha Hal Hend Hbrk. pose proof (free_range _ (fk_acc _ (mo_frames _ O))) as Hfr.
  pose proof (ac_total _ (fk_acc _ (mo_frames _ O))) as Htot. rewrite brk_enter by done. unfold USER_MMAP_ADDR in *.
  rewrite page_of by lia.
  destruct (Z.leb_spec 0x10000000 a) as [H1|H1]; [by rewrite decide_True by tauto|].
  destruct (Z.ltb_spec a (t_end (cur m))) as [H2|H2]; [by rewrite decide_True by tauto|].
  destruct (Z.ltb_spec a (t_brk (cur m))) as [H3|H3].
  - rewrite decide_False by lia. rewrite decide_False by lia. unfold PAGE_SIZE.
    replace (t_brk (cur m) - a + 4096 - 1) with (t_brk (cur m) - a + 4095) by lia.
    assert (Hn : 0 <= (t_brk (cur m) - a + 4095) / 4096 ∧ (t_brk (cur m) - a + 4095) / 4096 <= 65536).
    { split; [apply Z.div_pos; lia|]. apply Z.lt_succ_r, Z.div_lt_upper_bound; lia. }
    destruct (unlink_loop_Ok (Z.to_nat ((t_brk (cur m) - a + 4095) / 4096)) m a O Hidle) as [(m1 & E1 & O1 & C1 & _ & Hx)|E];
      [lia|done|unfold KERNEL_VADDR_OFFSET; lia| |right; unfold mbind, st_bind; by rewrite E].
    left. rewrite (st_bind_eq _ _ _ _ _ E1). eexists. split; [done|]. rewrite Z2Nat.id in Hx by lia. cbn [cur set_cur set_brk t_brk].
    split; [done|]. split; [|exact Hx]. destruct O1 as [K1 T1 P1]. split; [done|done|by apply (pool_same m1)].
  - rewrite u32_small by lia. destruct (Z.ltb_spec (free_pages (fr m) * 4096) (a - t_brk (cur m))) as [H4|H4].
    + rewrite decide_True by lia. done.
    + rewrite decide_False by lia. rewrite decide_True by lia. eexists. split; [done|]. split_and!; [done..|].
      intros v error Hv H0. apply brk_fault; [done|unfold USER_MMAP_ADDR; lia|done].
Qed.

(** The boot mapping.  [mapping_init] succeeds on any memory; after it every
    address below 16M, and the same address 3G higher, is mapped by the walk to the
    physical page of the lower one, writable and for the kernel only; and
    [unset_low_mapping] takes the lower half away - so that a null pointer faults - and
    leaves the upper half. *)
Theorem boot_mapping m :
  ram_ok (ram m) →
  ∃ r1 r2, mapping_init m = Ok ((), set_ram r1 m) ∧ unset_low_mapping (set_ram r1 m) = Ok ((), set_ram r2 m) ∧
    ∀ x, 0 <= x < KERNEL_MEM_SIZE →
      pte_of r1 0 (PDE_IDX x) (PTE_IDX x) = Some (entry_init (x / 4096)) ∧
      pte_of r1 0 (PDE_IDX (KERNEL_VADDR_OFFSET + x)) (PTE_IDX (KERNEL_VADDR_OFFSET + x)) = Some (entry_init (x / 4096)) ∧
      pte_of r2 0 (PDE_IDX x) (PTE_IDX x) = None ∧
      pte_of r2 0 (PDE_IDX (KERNEL_VADDR_OFFSET + x)) (PTE_IDX (KERNEL_VADDR_OFFSET + x)) = Some (entry_init (x / 4096)).
Proof.
  intros R. set (m0 := set_ram (<[0 := zero_page]> (ram m)) m).
  assert (Q0 : quarters (ram m0) 0).
  { split; [apply ram_insert; [done|apply length_replicate]|]. split; [|lia]. intros j Hj. rewrite !decide_False by lia.
    apply entry_zero; [lia|]. cbn [m0 ram set_ram]. by rewrite words_insert, decide_True. }
  destruct (map_tables_Ok 4 m0 0 ltac:(lia) ltac:(lia) Q0) as (r1 & E1 & R1 & D1 & T1).
  destruct (clear_words_Ok 4 (set_ram r1 m) 0 0 R1 ltac:(lia) ltac:(lia)) as (r2 & E2 & R2 & Q2 & D2).
  exists r1, r2. split; [|split; [exact E2|]].
  { unfold mapping_init. rewrite (st_bind_eq _ _ m () m0) by done. exact E1. }
  intros x Hx. unfold KERNEL_MEM_SIZE in Hx.
  assert (Hw : ∀ y, y = x ∨ y = KERNEL_VADDR_OFFSET + x → PTE_IDX y = (x / 4096) mod 1024 ∧
    PDE_IDX y = (if decide (y = x) then 0 else 768) + x / 4194304).
  { intros y Hy. unfold PTE_IDX, PDE_IDX, KERNEL_VADDR_OFFSET in *. rewrite u32_small by lia.
    rewrite low10, shift12, Z.shiftr_div_pow2 by lia. change (2 ^ 22) with 4194304. destruct Hy as [->| ->].
    - rewrite decide_True by done. done.
    - rewrite decide_False by lia. split.
      + replace (0xC0000000 + x) with (x + 786432 * 4096) by lia. rewrite Z.div_add by lia.
        replace (x / 4096 + 786432) with (x / 4096 + 768 * 1024) by lia. by rewrite Z.mod_add.
      + replace (0xC0000000 + x) with (x + 768 * 4194304) by lia. rewrite Z.div_add by lia. lia. }
  destruct (Hw x (or_introl eq_refl)) as [W1 W2]. destruct (Hw (KERNEL_VADDR_OFFSET + x) (or_intror eq_refl)) as [W3 W4].
  rewrite decide_True in W2 by done. rewrite decide_False in W4 by (unfold KERNEL_VADDR_OFFSET; lia). rewrite W1, W2, W3, W4.
  set (i := x / 4194304). set (j := (x / 4096) mod 1024).
  assert (Hi : 0 <= i < 4) by (unfold i; split; [apply Z.div_pos; lia|apply Z.div_lt_upper_bound; lia]).
  assert (Hj : 0 <= j < 1024) by (apply Z.mod_pos_bound; lia).
  assert (Hxi : 1024 * i + j = x / 4096).
  { unfold i, j. replace 4194304 with (4096 * 1024) by lia. rewrite <- Z.div_div by lia. symmetry. apply Z.div_mod. lia. }
  assert (Ti : entry_of r1 (1 + i) j = entry_init (x / 4096)) by (rewrite T1 by lia; by rewrite Hxi).
  assert (Ti2 : entry_of r2 (1 + i) j = entry_init (x / 4096)) by (unfold entry_of; rewrite Q2 by lia; exact Ti).
  assert (Hinit : ∀ r k, entry_of r 0 k = entry_init (1 + i) → entry_of r (1 + i) j = entry_init (x / 4096) →
    pte_of r 0 k j = Some (entry_init (x / 4096))).
  { intros r k Hk Hr. unfold pte_of, table. rewrite Hk. cbn [present entry_init]. cbv zeta iota.
    change (index _) with (index (entry_init (1 + i))). rewrite entry_init_index by lia. by rewrite Hr. }
  split_and!.
  - apply Hinit; [|done]. rewrite D1 by lia. rewrite decide_True by lia. f_equal. lia.
  - apply Hinit; [|done]. rewrite D1 by lia. rewrite decide_False by lia. rewrite decide_True by lia. f_equal. lia.
  - unfold pte_of, table. rewrite D2 by lia. by rewrite decide_True by lia.
  - apply Hinit; [|done]. rewrite D2 by lia. rewrite decide_False by lia. cbn [ram set_ram]. rewrite D1 by lia.
    rewrite decide_False by lia. rewrite decide_True by lia. f_equal. lia.
Qed.

(** ** A small machine *)

(** No user tables, the directory in page 0, a break of 64K. *)
Definition demo_mm (f : frames) : mm :=
  MM f ∅ (replicate 1024 (KMapping false 0 0)) (replicate 1024 zero_entry)
    (TaskMM 0 (BitMap [] 0 0) 0x8050000 0x8060000 USER_RING3).

Lemma idle_replicate n : idle (replicate n (KMapping false 0 0)) = Z.of_nat n.
Proof. induction n as [|n IH]; cbn [replicate idle]; [done|]. rewrite IH. unfold idle_slot. cbn. lia. Qed.

Lemma demo_pool f : pool_ok (demo_mm f).
Proof.
  split; [apply length_replicate|apply length_replicate|]. intros i k Hk Hp. apply lookup_replicate_1 in Hk as [-> _]. done.
Qed.

Lemma empty_tables f : tables_ok f ∅ 0.
Proof.
  assert (Ht : ∀ i, 0 <= i → table ∅ 0 i = None) by (intros i Hi; unfold table; by rewrite entry_zero by done).
  assert (Hp : ∀ i j, 0 <= i → pte_of ∅ 0 i j = None) by (intros i j Hi; unfold pte_of; by rewrite Ht).
  split.
  - intros p l H. by rewrite lookup_empty in H.
  - lia.
  - intros i t Hi. by rewrite Ht by lia.
  - intros i i' t Hi Hi'. by rewrite Ht by lia.
  - intros i j e Hi Hj. by rewrite Hp by lia.
  - intros i j e i' j' e' Hi Hj Hi' Hj'. by rewrite Hp by lia.
Qed.

Lemma demo_mm_ok f : frames_ok f → mm_ok (demo_mm f).
Proof. intros K. split; [done|apply empty_tables|apply demo_pool]. Qed.

Lemma demo_free :
  ∃ f, frames_ok f ∧ total_pages f = 4112 ∧ (∀ j, 4096 <= j → count_at f j = 0) ∧ count_at f 300 = 0.
Proof.
  destruct demo_machine as (f & _ & K & T & C). exists f. split; [done|]. split; [done|]. split.
  - intros j Hj. rewrite C by lia. by rewrite decide_False by lia.
  - rewrite C by lia. by rewrite decide_False by lia.
Qed.

Lemma page_entry_layout_witness :
  0 <= encode (entry_init 4097) < 4294967296 ∧ decode (encode (entry_init 4097)) = entry_init 4097 ∧
  encode (entry_init 4097) / 4096 = index (entry_init 4097) ∧ Z.testbit (encode (entry_init 4097)) 0 = present (entry_init 4097) ∧
  Z.testbit (encode (entry_init 4097)) 1 = write (entry_init 4097) ∧
  Z.testbit (encode (entry_init 4097)) 2 = user (entry_init 4097) ∧ encode (decode 16781315) = 16781315 ∧
  0 <= index (decode 16781315) < 1048576.
Proof. apply (page_entry_layout (entry_init 4097) 16781315); [rewrite entry_init_index; lia|lia]. Defined.

Lemma link_user_page_maps_witness :
  ∃ m, mm_ok m ∧
  ((∃ m' e, link_user_page 0xBFFFF000 m = Ok ((), m') ∧ mm_ok m' ∧ idle (kmap_pool m) <= idle (kmap_pool m') ∧
     user_entry m' 0xBFFFF000 = Some e ∧ keeps m m' ∧
     (∀ x, 0 <= x < KERNEL_VADDR_OFFSET → x / 4096 ≠ 0xBFFFF000 / 4096 → user_entry m' x = user_entry m x) ∧
     (user_entry m 0xBFFFF000 = Some e ∨
      (user_entry m 0xBFFFF000 = None ∧ write e = true ∧ user e = true ∧
       count_at (fr m) (index e) = 0 ∧ count_at (fr m') (index e) = 1))) ∨
  (link_user_page 0xBFFFF000 m = Stop Panic ∧
     ∀ j k, 4096 <= j < total_pages (fr m) → 4096 <= k < total_pages (fr m) →
       count_at (fr m) j = 0 → count_at (fr m) k = 0 → j = k)).
Proof.
  destruct demo_free as (f & K & _). exists (demo_mm f). split; [by apply demo_mm_ok|].
  apply (link_user_page_maps (demo_mm f) 0xBFFFF000); [by apply demo_mm_ok|cbn [demo_mm kmap_pool]; rewrite idle_replicate; lia|].
  unfold KERNEL_VADDR_OFFSET. lia.
Defined.

(** Linking a page of that machine succeeds. *)
Lemma demo_linked v :
  0 <= v < KERNEL_VADDR_OFFSET →
  ∃ f m1 e, frames_ok f ∧ link_user_page v (demo_mm f) = Ok ((), m1) ∧ user_entry m1 v = Some e ∧ user_entry (demo_mm f) v = None.
Proof.
  intros Hv. destruct demo_free as (f & K & T & C & _). pose proof (demo_mm_ok f K) as O.
  assert (Hnone : user_entry (demo_mm f) v = None).
  { rewrite user_entry_pd. unfold pte_of, table. rewrite entry_zero; [done|apply (pde_idx_range v Hv)|done]. }
  destruct (link_Ok (demo_mm f) v O) as [(m1 & e & E & _ & _ & _ & He & _)|[_ Hbad]].
  - cbn [demo_mm kmap_pool]. rewrite idle_replicate. lia.
  - done.
  - by exists f, m1, e.
  - specialize (Hbad 4096 4097). rewrite !C in Hbad by lia. cbn [demo_mm fr] in Hbad. rewrite T in Hbad. lia.
Qed.

Lemma link_unlink_roundtrip_witness :
  ∃ m m1 e m2, link_user_page 0xBFFFF000 m = Ok ((), m1) ∧ unlink_user_page 0xBFFFF000 m1 = Ok ((), m2) ∧ mm_ok m2 ∧
    count_at (fr m2) (index e) = 0 ∧
    (∀ x, 0 <= x < KERNEL_VADDR_OFFSET → user_entry m2 x = user_entry m x) ∧
    ∀ p, 0 <= p → count_at (fr m) p ≠ 0 → count_at (fr m2) p = count_at (fr m) p.
Proof.
  assert (Hv : 0 <= 0xBFFFF000 < KERNEL_VADDR_OFFSET) by (unfold KERNEL_VADDR_OFFSET; lia).
  destruct (demo_linked 0xBFFFF000 Hv) as (f & m1 & e & K & E & He & Hnone).
  destruct (link_unlink_roundtrip (demo_mm f) 0xBFFFF000 m1 e (demo_mm_ok f K)) as (m2 & H);
    [cbn [demo_mm kmap_pool]; rewrite idle_replicate; lia|exact Hv|reflexivity|exact Hnone|exact E|exact He|].
  exists (demo_mm f), m1, e, m2. split; [exact E|exact H].
Defined.

(** A page that [c] address spaces hold and this one may only read. *)
Definition demo_entry : page_entry := set_write false (set_user true (entry_init 4097)).
Definition demo_shared (f : frames) (c : Z) : mm :=
  set_fr (recount (recount (recount f 4096 1) 4097 1) 4097 c)
    (set_ram (poke (with_table ∅ 0 767 4096) 4096 1023 demo_entry) (demo_mm f)).

Lemma demo_shared_ok c :
  0 < c < 255 →
  ∃ f, mm_ok (demo_shared f c) ∧ user_entry (demo_shared f c) 0xBFFFF000 = Some demo_entry ∧
    count_at (fr (demo_shared f c)) 4097 = c ∧ total_pages f = 4112 ∧ count_at (fr (demo_shared f c)) 4098 = 0 ∧
    count_at (fr (demo_shared f c)) (pd_of (demo_shared f c)) ≠ 0 ∧ count_at (fr (demo_shared f c)) 300 = 0.
Proof.
  intros Hc. destruct demo_free as (f & K & T & C & C3). exists f. pose proof (fk_acc _ K) as A.
  assert (K1 : frames_ok (recount f 4096 1)) by (apply recount_user; [done|lia|lia]).
  assert (C1 : ∀ j, 4096 <= j → count_at (recount f 4096 1) j = if decide (j = 4096) then 1 else 0).
  { intros j Hj. rewrite recount_at by (done || lia). case_decide; [done|]. apply C. lia. }
  assert (K2 : frames_ok (recount (recount f 4096 1) 4097 1)) by (apply recount_user; [done|cbn; lia|lia]).
  pose proof (fk_acc _ K1) as A1. pose proof (fk_acc _ K2) as A2.
  assert (Tt : total_pages (recount f 4096 1) = 4112) by done.
  destruct (with_table_Ok f ∅ 0 767 4096 K (empty_tables f)) as (T1 & Et & _); [lia| |lia|by apply C|].
  { unfold table. by rewrite entry_zero. }
  destruct (fresh_pte_Ok (recount f 4096 1) (with_table ∅ 0 767 4096) 0 767 4096 1023 demo_entry K1 T1) as [T2 Hp];
    [lia|lia|done|done|change (index demo_entry) with 4097; lia|change (index demo_entry) with 4097; rewrite C1 by lia; done|].
  change (index demo_entry) with 4097 in T2.
  split; [split|].
  - apply recount_user; [done|cbn; lia|lia].
  - apply tables_recount; [done|exact T2|cbn; lia|lia].
  - by apply (pool_same (demo_mm f)); [..|apply demo_pool].
  - split; [|split; [|split; [done|split; [|split]]]].
    + rewrite user_entry_pd. change (pd_of (demo_shared f c)) with 0. change (PDE_IDX 0xBFFFF000) with 767. change (PTE_IDX 0xBFFFF000) with 1023.
      change (ram (demo_shared f c)) with (poke (with_table ∅ 0 767 4096) 4096 1023 demo_entry). rewrite Hp by lia. by rewrite decide_True.
    + cbn [demo_shared fr set_fr]. rewrite recount_at; [by rewrite decide_True|done|cbn; lia|lia].
    + cbn [demo_shared fr set_fr]. rewrite recount_at; [rewrite decide_False by lia|done|cbn; lia|lia].
      rewrite recount_at; [rewrite decide_False by lia|done|cbn; lia|lia]. by rewrite C1 by lia.
    + change (pd_of (demo_shared f c)) with 0. cbn [demo_shared fr set_fr].
      rewrite !recount_at by (done || lia || (cbn; lia)). rewrite !decide_False by lia. apply (ac_low _ A).
    + cbn [demo_shared fr set_fr]. rewrite !recount_at by (done || lia || (cbn; lia)). rewrite !decide_False by lia. by apply C3.
Qed.

Lemma copy_on_write_witness :
  ∃ m m' p, page_fault 0xBFFFF000 7 m = Ok (Resumed, m') ∧ mm_ok m' ∧
    user_entry m 0xBFFFF000 = Some demo_entry ∧ user_entry m' 0xBFFFF000 = Some (set_user true (entry_init p)) ∧
    words_of (ram m') p = words_of (ram m) 4097.
Proof.
  destruct (demo_shared_ok 2 ltac:(lia)) as (f & O & He & Hc & T & H8 & _).
  assert (Hfree : ∃ j, 4096 <= j < total_pages (fr (demo_shared f 2)) ∧ count_at (fr (demo_shared f 2)) j = 0)
    by (exists 4098; split; [cbn; lia|done]).
  pose proof (copy_on_write (demo_shared f 2) 0xBFFFF000 7 demo_entry O) as H.
  change (index demo_entry) with 4097 in H. rewrite Hc in H.
  destruct H as (m' & p & E & O' & He' & _ & _ & _ & Hw & _);
    [cbn [demo_shared demo_mm kmap_pool set_fr set_ram]; rewrite idle_replicate; lia|reflexivity|unfold KERNEL_VADDR_OFFSET; lia|
     reflexivity|reflexivity|exact He|reflexivity|reflexivity|exact Hfree|].
  exists (demo_shared f 2), m', p. split; [exact E|]. split; [exact O'|]. split; [exact He|]. split; [exact He'|exact Hw].
Defined.

Lemma sys_brk_cases_witness :
  ∃ m m', sys_brk 0x8062000 m = Ok (0, m') ∧ t_brk (cur m') = 0x8062000 ∧
    page_fault 0x8061000 6 m' = Ok (Exited (-1), m').
Proof.
  destruct demo_free as (f & K & T & C & _). pose proof (demo_mm_ok f K) as O.
  assert (Hfr : 2 <= free_pages f).
  { pose proof (ac_free _ (fk_acc _ K)) as E. destruct (count_lookup f 4096 (fk_acc _ K) ltac:(lia)) as [H1 _].
    destruct (count_lookup f 4097 (fk_acc _ K) ltac:(lia)) as [H2 _]. rewrite C in H1, H2 by lia. rewrite E.
    pose proof (zeros_insert (Z.to_nat (total_pages f)) (mem_map f) (Z.to_nat 4096) 0 1 ltac:(lia) H1) as Z1.
    assert (Z2 : 0 < zeros (Z.to_nat (total_pages f)) (<[Z.to_nat 4096:=1]> (mem_map f))).
    { apply (zeros_zero _ _ (Z.to_nat 4097)); [lia|]. rewrite list_lookup_insert_ne; [done|]. intros Ex%Z2Nat.inj; lia. }
    change (if 0 =? 0 then 1 else 0) with 1 in Z1. change (if 1 =? 0 then 1 else 0) with 0 in Z1. lia. }
  pose proof (sys_brk_cases (demo_mm f) 0x8062000 O) as H.
  rewrite decide_False in H by (cbn [demo_mm cur t_end t_brk fr]; unfold USER_MMAP_ADDR; lia).
  rewrite decide_True in H by (cbn; lia).
  destruct H as (m' & E & B & _ & _ & F); [cbn [demo_mm kmap_pool]; rewrite idle_replicate; lia|reflexivity|lia|reflexivity|cbn; lia|cbn; unfold USER_MMAP_ADDR; lia|].
  exists (demo_mm f), m'. split; [exact E|]. split; [exact B|]. apply F; [cbn; lia|reflexivity].
Defined.

Lemma boot_mapping_witness :
  ∃ m r1 r2, mapping_init m = Ok ((), set_ram r1 m) ∧ unset_low_mapping (set_ram r1 m) = Ok ((), set_ram r2 m) ∧
    pte_of r1 0 (PDE_IDX 0xB8000) (PTE_IDX 0xB8000) = Some (entry_init (0xB8000 / 4096)) ∧
    pte_of r2 0 (PDE_IDX 0xB8000) (PTE_IDX 0xB8000) = None.
Proof.
  destruct demo_free as (f & K & _).
  destruct (boot_mapping (demo_mm f) (tb_ram _ _ _ (empty_tables f))) as (r1 & r2 & E1 & E2 & H).
  exists (demo_mm f), r1, r2. destruct (H 0xB8000) as (H1 & _ & H2 & _); [unfold KERNEL_MEM_SIZE; lia|].
  split; [exact E1|]. split; [exact E2|]. split; [exact H1|exact H2].
Defined.
