(* ===== verification/Fork.v ===== *)
(** * Address spaces under fork and exit (src/kernel/memory.c)

    [copy_pte] gives a new task the mappings of the current one: the tables are copied,
    the pages shared, and what is not shared memory loses the right to be written on both
    sides. *)

From S2P Require Import Prelude Bitmap Task Pages Paging.

(** An entry as both sides have it after a fork. *)
Definition read_only (e : page_entry) : page_entry := if shared e then e else set_write false e.

Lemma read_only_index e : index (read_only e) = index e.
Proof. unfold read_only. by destruct (shared e). Qed.

Lemma read_only_present e : present (read_only e) = present e.
Proof. unfold read_only. by destruct (shared e). Qed.

Lemma pte_present r pd a b e : pte_of r pd a b = Some e → present e = true.
Proof.
  unfold pte_of. destruct (table r pd a); [|done]. cbv zeta. destruct (present (entry_of _ _ _)) eqn:E; [|done].
  by intros [= <-].
Qed.

(** An operation of the window's user: pool and task stay. *)
Definition same_pool (m m' : mm) : Prop := kmap_pool m' = kmap_pool m ∧ kmap_pte m' = kmap_pte m ∧ cur m' = cur m.

Section one_table.
Context (pd a i t : Z).
Hypothesis Ha : 0 <= a < 768.
Hypothesis Hi : 0 <= i < 1024.

(** One step of the loop over the entries of the table in page [t]. *)
Lemma share_entry_Ok m j :
  frames_ok (fr m) → tables_ok (fr m) (ram m) pd → table (ram m) pd a = Some t → mapped m i t → 0 <= j < 1024 →
  (∃ m', share_entry (kv i + 4 * j) m = Ok ((), m') ∧ same_pool m m' ∧ frames_ok (fr m') ∧ tables_ok (fr m') (ram m') pd ∧
    same_machine (fr m) (fr m') ∧
    (∀ q, q ≠ t → words_of (ram m') q = words_of (ram m) q) ∧
    (∀ x y, 0 <= x < 768 → 0 <= y < 1024 →
       pte_of (ram m') pd x y = if decide (x = a ∧ y = j) then read_only <$> pte_of (ram m) pd x y else pte_of (ram m) pd x y) ∧
    (∀ p, 0 <= p → count_at (fr m') p =
       if decide (index <$> pte_of (ram m) pd a j = Some p) then count_at (fr m) p + 1 else count_at (fr m) p)) ∨
  (share_entry (kv i + 4 * j) m = Stop Panic ∧ ∃ e, pte_of (ram m) pd a j = Some e ∧ count_at (fr m) (index e) = 254).
Proof.
  intros K T Et M Hj. pose proof (fk_acc _ K) as A. pose proof (ac_total _ A). unfold share_entry.
  rewrite (st_bind_eq _ _ _ _ _ (load_entry_Ok m i t j (tb_ram _ _ _ T) M Hi Hj)).
  assert (Ep : pte_of (ram m) pd a j = if present (entry_of (ram m) t j) then Some (entry_of (ram m) t j) else None)
    by (unfold pte_of; by rewrite Et).
  destruct (present (entry_of (ram m) t j)) eqn:Epr; cbn [negb].
  2:{ left. exists m. rewrite Ep. cbn [fmap option_fmap option_map]. split_and!; try done.
      intros x y Hx Hy. case_decide as D; [|done]. destruct D as [-> ->]. by rewrite Ep. }
  set (e := entry_of (ram m) t j) in *. destruct (tb_data _ _ _ T a j e Ha Hj Ep) as [[Hp Hc] _].
  destruct (count_lookup _ (index e) A ltac:(lia)) as [_ Hb].
  destruct (rewrite_pte_Ok (fr m) (ram m) pd a t j e (read_only e)) as [T1 Hnew]; try done;
    [lia|by rewrite read_only_present|apply read_only_index|].
  set (r1 := poke (ram m) t j (read_only e)) in *.
  assert (Hst : ∃ r2, (if negb (shared e) then store_entry (kv i + 4 * j) (set_write false e) else mret ()) m = Ok ((), set_ram r2 m) ∧
    tables_ok (fr m) r2 pd ∧ (∀ q, q ≠ t → words_of r2 q = words_of (ram m) q) ∧
    ∀ x y, 0 <= x < 768 → 0 <= y < 1024 → pte_of r2 pd x y = if decide (x = a ∧ y = j) then Some (read_only e) else pte_of (ram m) pd x y).
  { unfold read_only in *. destruct (shared e) eqn:Es; cbn [negb].
    - exists (ram m). split; [by destruct m|]. split_and!; try done. intros x y Hx Hy. case_decide as D; [|done].
      by destruct D as [-> ->].
    - exists r1. split; [apply store_entry_Ok; [apply T|done..]|]. split_and!; try done. intros q Hq. by apply words_poke. }
  destruct Hst as (r2 & Est & T2 & Hq & Hpt). rewrite (st_bind_eq _ _ _ _ _ Est).
  rewrite (st_bind_eq _ _ (set_ram r2 m) (count_at (fr m) (index e)) (set_ram r2 m)).
  2:{ unfold on_frames. cbn [fr set_ram]. rewrite get_count_Ok by (done || lia). by destruct m. }
  set (f2 := recount (fr m) (index e) (count_at (fr m) (index e) + 1)).
  rewrite (st_bind_eq _ _ (set_ram r2 m) () (set_fr f2 (set_ram r2 m))).
  2:{ unfold on_frames. cbn [fr set_ram]. rewrite u8_small by lia. rewrite put_count_Ok by (done || lia). do 3 f_equal.
      unfold f2, recount. destruct (Z.eqb_spec (count_at (fr m) (index e)) 0), (Z.eqb_spec (count_at (fr m) (index e) + 1) 0); try lia.
      unfold set_free_pages, set_mem_map. cbn. f_equal. lia. }
  rewrite u8_small by lia. unfold sassert. destruct (Z.ltb_spec (count_at (fr m) (index e) + 1) 255) as [Hlt|Hge]; [left|right; split; [done|exists e; split; [done|lia]]].
  exists (set_fr f2 (set_ram r2 m)). split_and!; try done.
  - apply recount_user; (done || lia).
  - apply tables_recount; (done || lia).
  - apply recount_same.
  - intros x y Hx Hy. cbn [ram set_fr set_ram]. rewrite Hpt by done. case_decide as D; [|done]. destruct D as [-> ->]. by rewrite Ep.
  - intros p Hp'. cbn [fr set_fr]. unfold f2. rewrite recount_at by (done || lia). rewrite Ep. cbn [fmap option_fmap option_map].
    destruct (decide (p = index e)) as [->|Hne]; [by rewrite decide_True|]. rewrite decide_False; [done|congruence].
Qed.

(** The pages the entries [j ..] of the table show. *)
Definition shows (r : gmap Z (list Z)) (j n p : Z) : Prop :=
  ∃ b e, j <= b < j + n ∧ pte_of r pd a b = Some e ∧ index e = p.

Lemma share_loop_Ok n : ∀ m j,
  frames_ok (fr m) → tables_ok (fr m) (ram m) pd → table (ram m) pd a = Some t → mapped m i t →
  0 <= j → j + Z.of_nat n <= 1024 → t ≠ pd →
  (∃ m', share_loop n (kv i + 4 * j) m = Ok ((), m') ∧ same_pool m m' ∧ frames_ok (fr m') ∧ tables_ok (fr m') (ram m') pd ∧
    same_machine (fr m) (fr m') ∧
    (∀ q, q ≠ t → words_of (ram m') q = words_of (ram m) q) ∧
    (∀ x y, 0 <= x < 768 → 0 <= y < 1024 → pte_of (ram m') pd x y =
       if decide (x = a ∧ j <= y < j + Z.of_nat n) then read_only <$> pte_of (ram m) pd x y else pte_of (ram m) pd x y) ∧
    (∀ p, 0 <= p → count_at (fr m) p <= count_at (fr m') p) ∧
    (∀ p, 0 <= p → shows (ram m) j (Z.of_nat n) p → count_at (fr m') p = count_at (fr m) p + 1) ∧
    (∀ p, 0 <= p → ¬ shows (ram m) j (Z.of_nat n) p → count_at (fr m') p = count_at (fr m) p)) ∨
  (share_loop n (kv i + 4 * j) m = Stop Panic ∧
   ∃ p, 0 <= p ∧ shows (ram m) j (Z.of_nat n) p ∧ count_at (fr m) p = 254).
Proof.
  induction n as [|n IH]; intros m j K T Et M Hj Hn Htp.
  { left. exists m. split_and!; try done.
    - intros x y Hx Hy. by rewrite decide_False by lia.
    - intros p _ (b & e & Hb & _). lia. }
  cbn [share_loop].
  destruct (share_entry_Ok m j K T Et M ltac:(lia)) as [(m1 & E1 & (S1 & S2 & S3) & K1 & T1 & Tt1 & W1 & P1 & C1)|(E & e & He & Hmax)];
    [|right; split; [unfold mbind, st_bind; by rewrite E|]; destruct (tb_data _ _ _ T a j e Ha ltac:(lia) He) as [[? _] _];
      exists (index e); split; [lia|]; split; [|done]; exists j, e; split; [lia|done]].
  rewrite (st_bind_eq _ _ _ _ _ E1). replace (kv i + 4 * j + 4) with (kv i + 4 * (j + 1)) by lia.
  assert (Htab : ∀ k, table (ram m1) pd k = table (ram m) pd k) by (intros k; unfold table, entry_of; by rewrite W1).
  assert (Hold : ∀ b, j + 1 <= b < 1024 → pte_of (ram m1) pd a b = pte_of (ram m) pd a b).
  { intros b Hb. rewrite P1 by lia. by rewrite decide_False by lia. }
  assert (Hsh : ∀ p, shows (ram m1) (j + 1) (Z.of_nat n) p ↔ shows (ram m) (j + 1) (Z.of_nat n) p).
  { intros p. unfold shows. split; intros (b & e & Hb & He & Hp); exists b, e; (split; [done|split; [|done]]).
    - by rewrite <- Hold by lia.
    - by rewrite Hold by lia. }
  assert (Hkeep : ∀ p, 0 <= p → shows (ram m) (j + 1) (Z.of_nat n) p → count_at (fr m1) p = count_at (fr m) p).
  { intros p Hp (b & e & Hb & He & Hpe). rewrite C1 by done. rewrite decide_False; [done|]. intros Hs.
    destruct (pte_of (ram m) pd a j) as [e0|] eqn:E0; [|done]. injection Hs as Hs.
    destruct (tb_once _ _ _ T a j e0 a b e) as [_ ?]; (done || lia || congruence). }
  destruct (IH m1 (j + 1) K1 T1) as [(m' & E' & (S1' & S2' & S3') & K' & T' & Tt' & W' & P' & G' & C' & N')|(E' & p & Hp & Hs & Hmax)];
    [by rewrite Htab|by apply (mapped_same m)|lia|lia|done| |].
  2:{ right. split; [done|]. apply Hsh in Hs. rewrite Hkeep in Hmax by done. exists p. split; [done|]. split; [|done].
      destruct Hs as (b & e & Hb & He). exists b, e. split; [lia|done]. }
  left. exists m'. split; [done|]. split; [unfold same_pool; split_and!; congruence|]. split; [done|]. split; [done|].
  split; [by eapply same_machine_trans|].
  split; [|split; [|split; [|split]]].
  - intros q Hq. by rewrite W', W1.
  - intros x y Hx Hy. rewrite P', P1 by done. destruct (decide (x = a ∧ y = j)) as [[-> ->]|D].
    + rewrite (decide_False (P := a = a ∧ j + 1 <= j < _)) by lia. by rewrite decide_True by lia.
    + repeat case_decide; try done; lia.
  - intros p Hp. specialize (G' p Hp). rewrite C1 in G' by done. case_decide; lia.
  - intros p Hp (b & e & Hb & He & Hpe). destruct (decide (b = j)) as [->|Hne].
    + rewrite N', C1 by (done || (intros Hs; apply Hsh in Hs as (b' & e' & Hb' & He' & Hpe');
        destruct (tb_once _ _ _ T a j e a b' e') as [_ ?]; (done || lia || congruence))).
      rewrite He. cbn [fmap option_fmap option_map]. by rewrite decide_True by congruence.
    + assert (Hs : shows (ram m) (j + 1) (Z.of_nat n) p) by (exists b, e; split; [lia|done]).
      rewrite C' by (done || by apply Hsh). by rewrite Hkeep.
  - intros p Hp Hs. rewrite N', C1 by (done || (intros Hs'%Hsh; apply Hs; destruct Hs' as (b & e & Hb & He); exists b, e; split; [lia|done])).
    rewrite decide_False; [done|]. intros He. apply Hs. destruct (pte_of (ram m) pd a j) as [e0|] eqn:E0; [|done].
    injection He as He. exists j, e0. split; [lia|done].
Qed.
End one_table.

(** ** The loop over the directory *)

(** The pages the first [k] tables of the directory show. *)
Definition shown (r : gmap Z (list Z)) (pd k p : Z) : Prop :=
  ∃ a b e, 0 <= a < k ∧ 0 <= b < 1024 ∧ pte_of r pd a b = Some e ∧ index e = p.

(** How many of the first [n] entries of the directory have a table. *)
Fixpoint ntables (r : gmap Z (list Z)) (pd : Z) (n : nat) : Z :=
  match n with
  | O => 0
  | S n => ntables r pd n + (if table r pd (Z.of_nat n) is Some _ then 1 else 0)
  end.

Lemma ntables_step r pd k :
  0 <= k → ntables r pd (Z.to_nat (k + 1)) = ntables r pd (Z.to_nat k) + (if table r pd k is Some _ then 1 else 0).
Proof. intros. replace (Z.to_nat (k + 1)) with (S (Z.to_nat k)) by lia. cbn [ntables]. by rewrite Z2Nat.id. Qed.

(** The state [m] after the first [k] entries, [m0] being the state before the loop and
    [td] the page of the new directory. *)
Record forked (m0 m : mm) (td k : Z) : Prop := {
  fo_ok : mm_ok m;
  fo_cur : cur m = cur m0;
  fo_idle : idle (kmap_pool m0) <= idle (kmap_pool m);
  fo_machine : same_machine (fr m0) (fr m);
  fo_free : free_user (fr m) = free_user (fr m0) - ntables (ram m0) (pd_of m0) (Z.to_nat k);
  fo_tab : ∀ a, 0 <= a < 768 → table (ram m) (pd_of m0) a = table (ram m0) (pd_of m0) a;
  fo_par : ∀ a b, 0 <= a < 768 → 0 <= b < 1024 → pte_of (ram m) (pd_of m0) a b =
    if decide (a < k) then read_only <$> pte_of (ram m0) (pd_of m0) a b else pte_of (ram m0) (pd_of m0) a b;
  fo_child : ∀ a b, 0 <= a < k → 0 <= b < 1024 → pte_of (ram m) td a b = read_only <$> pte_of (ram m0) (pd_of m0) a b;
  fo_fresh : ∀ a c, 0 <= a < k → table (ram m) td a = Some c →
    4096 <= c < total_pages (fr m) ∧ count_at (fr m0) c = 0 ∧ count_at (fr m) c = 1;
  fo_rest : ∀ a, k <= a < 1024 → entry_of (ram m) td a = entry_of (ram m0) (pd_of m0) a;
  fo_ge : ∀ p, 0 <= p → count_at (fr m0) p ≠ 0 → count_at (fr m0) p <= count_at (fr m) p;
  fo_more : ∀ p, 0 <= p → shown (ram m0) (pd_of m0) k p → count_at (fr m) p = count_at (fr m0) p + 1;
  fo_same : ∀ p, 0 <= p → count_at (fr m0) p ≠ 0 → ¬ shown (ram m0) (pd_of m0) k p → count_at (fr m) p = count_at (fr m0) p;
  fo_words : ∀ p, p ≠ td → count_at (fr m0) p ≠ 0 → (∀ a, 0 <= a < 768 → table (ram m0) (pd_of m0) a ≠ Some p) →
    words_of (ram m) p = words_of (ram m0) p
}.

Lemma shown_le r pd k k' p : k <= k' → shown r pd k p → shown r pd k' p.
Proof. intros Hk (a & b & e & H1 & H). exists a, b, e. split; [lia|done]. Qed.

Lemma shown_mono r pd k p : shown r pd k p → shown r pd (k + 1) p.
Proof. apply shown_le. lia. Qed.

Lemma ntables_mono r pd n n' : (n <= n')%nat → ntables r pd n <= ntables r pd n'.
Proof. induction 1 as [|n' _ IH]; [done|]. cbn [ntables]. destruct (table r pd (Z.of_nat n')); lia. Qed.

(** An entry of the directory that is not present. *)
Lemma forked_skip m0 m td k :
  forked m0 m td k → 0 <= k < 768 → table (ram m0) (pd_of m0) k = None → forked m0 m td (k + 1).
Proof.
  intros [] Hk Hn.
  assert (Hnone : ∀ b, pte_of (ram m0) (pd_of m0) k b = None) by (intros b; unfold pte_of; by rewrite Hn).
  assert (Htd : table (ram m) td k = None) by (unfold table in *; by rewrite fo_rest0 by lia).
  assert (Hsh : ∀ p, shown (ram m0) (pd_of m0) (k + 1) p → shown (ram m0) (pd_of m0) k p).
  { intros p (a & b & e & Ha & Hb & He & Hp). exists a, b, e. split; [|done].
    destruct (decide (a = k)) as [->|]; [by rewrite Hnone in He|lia]. }
  split; try done.
  - rewrite ntables_step, Hn by lia. lia.
  - intros a b Ha Hb. rewrite fo_par0 by done. destruct (decide (a = k)) as [->|].
    + rewrite Hnone. by case_decide; case_decide.
    + repeat case_decide; done || lia.
  - intros a b Ha Hb. destruct (decide (a = k)) as [->|]; [|apply fo_child0; lia].
    rewrite Hnone. unfold pte_of. by rewrite Htd.
  - intros a c Ha. destruct (decide (a = k)) as [->|]; [by rewrite Htd|]. apply fo_fresh0. lia.
  - intros a Ha. apply fo_rest0. lia.
  - intros p Hp Hs. apply fo_more0; auto.
  - intros p Hp Hc Hs. apply fo_same0; [done|done|]. intros H. apply Hs. by apply shown_mono.
Qed.

Lemma entry_insert_other r p l q j : q ≠ p → entry_of (<[p := l]> r) q j = entry_of r q j.
Proof. intros H. unfold entry_of. by rewrite words_insert, decide_False. Qed.

Lemma entry_words r r' q j : words_of r' q = words_of r q → entry_of r' q j = entry_of r q j.
Proof. unfold entry_of. by intros ->. Qed.

(** The machine's part of one step: what [copy_table] leaves behind for a table that is
    present in page [t], with [c] the page of the new table. *)
Lemma copy_table_run m td k t :
  mm_ok m → 2 <= idle (kmap_pool m) → 0 <= td < 4096 → td ≠ pd_of m → 0 <= k < 768 → table (ram m) (pd_of m) k = Some t →
  (∃ m' c r4, copy_table (pd_of m) td k m = Ok ((), m') ∧ mm_ok m' ∧ cur m' = cur m ∧
    idle (kmap_pool m) <= idle (kmap_pool m') ∧ same_machine (fr m) (fr m') ∧ free_user (fr m') = free_user (fr m) - 1 ∧
    4096 <= c < total_pages (fr m) ∧ count_at (fr m) c = 0 ∧ count_at (fr m') c = 1 ∧
    ram m' = <[c := words_of r4 t]> r4 ∧
    (∀ q, q ≠ t → words_of r4 q = words_of (poke (ram m) td k (set_user true (entry_init c))) q) ∧
    table r4 (pd_of m) k = Some t ∧
    (∀ x y, 0 <= x < 768 → 0 <= y < 1024 → pte_of r4 (pd_of m) x y =
       if decide (x = k) then read_only <$> pte_of (ram m) (pd_of m) x y else pte_of (ram m) (pd_of m) x y) ∧
    (∀ p, 0 <= p → p ≠ c → count_at (fr m) p <= count_at (fr m') p) ∧
    (∀ p, 0 <= p → p ≠ c → shows (pd_of m) k (ram m) 0 1024 p → count_at (fr m') p = count_at (fr m) p + 1) ∧
    (∀ p, 0 <= p → p ≠ c → ¬ shows (pd_of m) k (ram m) 0 1024 p → count_at (fr m') p = count_at (fr m) p)) ∨
  (copy_table (pd_of m) td k m = Stop Panic ∧
   (free_user (fr m) = 0 ∨ ∃ p, 0 <= p ∧ shows (pd_of m) k (ram m) 0 1024 p ∧ count_at (fr m) p = 254)).
Proof.
  intros [K T P] Hidle Htd Hne Hk Et. fold (pd_of m) in T. pose proof (fk_acc _ K) as A. pose proof (ac_total _ A).
  destruct (tb_tab _ _ _ T k t Hk Et) as [Ht Htc].
  assert (Ee : present (entry_of (ram m) (pd_of m) k) = true ∧ index (entry_of (ram m) (pd_of m) k) = t).
  { unfold table in Et. destruct (present (entry_of _ _ _)); [split; [done|congruence]|done]. }
  destruct Ee as [Ep Ei]. unfold copy_table.
  rewrite (st_bind_eq _ _ _ _ _ (get_entry_Ok m (pd_of m) k (tb_ram _ _ _ T) ltac:(lia))). rewrite Ep. cbn [negb]. rewrite Ei.
  destruct (get_user_page_Ok (fr m) K) as [(c & E & Hc & H0 & _ & K1)|[E Hnone]].
  2:{ right. split; [unfold on_frames, mbind, st_bind; by rewrite E|left; by apply free_user_none]. }
  set (m1 := set_fr (recount (fr m) c 1) m). rewrite (st_bind_eq _ _ m (PAGE c) m1) by (unfold on_frames; by rewrite E).
  rewrite idx_page by lia. set (e' := set_user true (entry_init c)). assert (Ei' : index e' = c) by (apply entry_init_index; lia).
  rewrite (st_bind_eq _ _ _ _ _ (put_entry_Ok m1 td k e' (tb_ram _ _ _ T) ltac:(lia))).
  set (r1 := poke (ram m) td k e'). set (m2 := set_ram (poke (ram m1) td k e') m1).
  assert (Hnt : ∀ x, 0 <= x < 768 → table (ram m) (pd_of m) x ≠ Some td ∧ table (ram m) (pd_of m) x ≠ Some c).
  { intros x Hx. split; intros Hx'; destruct (tb_tab _ _ _ T x _ Hx Hx'); [lia|done]. }
  assert (T1 : tables_ok (recount (fr m) c 1) r1 (pd_of m)).
  { apply tables_recount; [done| |lia|done]. apply tables_other_page; [done|done| |].
    - rewrite length_insert. by apply words_length, T.
    - intros x Hx. by apply Hnt. }
  assert (Hr1 : ∀ x y, 0 <= x < 768 → pte_of r1 (pd_of m) x y = pte_of (ram m) (pd_of m) x y)
    by (intros x y Hx; apply pte_insert_other; [done|by apply Hnt]).
  assert (Ht1 : table r1 (pd_of m) k = Some t) by (unfold r1, poke; by rewrite table_insert_other).
  destruct (kmap_Ok m2 t) as (i1 & m3 & E3 & Hi1 & M3 & P3 & (U1 & U2 & U3) & Hid3 & _); [by apply (pool_same m)|lia|cbn; lia|].
  rewrite (st_bind_eq _ _ _ _ _ E3). change (kmap_pool m2) with (kmap_pool m) in Hid3.
  destruct (kmap_Ok m3 c P3) as (i2 & m4 & E4 & Hi2 & M4 & P4 & (V1 & V2 & V3) & Hid4 & J4); [lia|lia|].
  rewrite (st_bind_eq _ _ _ _ _ E4). assert (M4t : mapped m4 i1 t) by (apply J4; [lia|done]).
  assert (Hi12 : i2 ≠ i1).
  { intros ->. destruct M4 as (k1 & e1 & _ & _ & _ & H1 & _ & H2), M4t as (k2 & e2 & _ & _ & _ & H3 & _ & H4). congruence. }
  assert (F4 : fr m4 = recount (fr m) c 1) by (rewrite V1, U1; done). assert (R4 : ram m4 = r1) by (rewrite V2, U2; done).
  assert (Cc : ∀ p, 0 <= p → p ≠ c → count_at (recount (fr m) c 1) p = count_at (fr m) p)
    by (intros p Hp Hpc; rewrite recount_at by (done || lia); by rewrite decide_False).
  assert (Hsh : ∀ p, shows (pd_of m) k r1 0 (Z.of_nat 1024) p ↔ shows (pd_of m) k (ram m) 0 1024 p).
  { intros p. unfold shows. split; intros (b & e & Hb & He & Hpe); exists b, e; (split; [exact Hb|split; [|done]]).
    - by rewrite <- Hr1.
    - by rewrite Hr1. }
  replace (kv i1) with (kv i1 + 4 * 0) by lia.
  destruct (share_loop_Ok (pd_of m) k i1 t Hk Hi1 1024 m4 0) as [(m5 & E5 & (S1 & S2 & S3) & K5 & T5 & Tt5 & W5 & P5 & G5 & C5 & N5)|(E5 & p & Hp & Hs & Hmax)];
    rewrite ?F4, ?R4; [done|done|done|done|lia|lia|pose proof (tb_pd _ _ _ T); lia| |].
  2:{ right. split; [unfold mbind at 1, st_bind at 1; by rewrite E5|]. right. exists p. rewrite F4, R4 in *. split; [done|].
      split; [by apply Hsh|]. rewrite <- Cc; [done|done|]. intros ->. rewrite recount_at in Hmax by (done || lia).
      by rewrite decide_True in Hmax. }
  rewrite (st_bind_eq _ _ _ _ _ E5). rewrite Z.add_0_r. rewrite F4, R4 in *.
  set (r6 := <[c := words_of (ram m5) t]> (ram m5)). set (m6 := set_ram r6 m5).
  rewrite (st_bind_eq _ _ m5 () m6) by (apply copy_page_Ok; [by apply (mapped_same m4)|done|by apply (mapped_same m4)|done]).
  destruct (kunmap_Ok m6 i1 t) as (m7 & E7 & P7 & (X1 & X2 & X3) & Hid7 & J7); [by apply (pool_same m4)|done|by apply (mapped_same m4)|].
  rewrite (st_bind_eq _ _ _ _ _ E7).
  destruct (kunmap_Ok m7 i2 c P7 Hi2) as (m8 & E8 & P8 & (Y1 & Y2 & Y3) & Hid8 & _); [apply J7; [lia|done|by apply (mapped_same m4)]|].
  left. exists m8, c, (ram m5). rewrite E8. change (kmap_pool m6) with (kmap_pool m5) in Hid7. rewrite S1 in Hid7.
  assert (Fe : fr m8 = fr m5) by (rewrite Y1, X1; done). assert (Re : ram m8 = r6) by (rewrite Y2, X2; done).
  assert (Ce : cur m8 = cur m) by (rewrite Y3, X3; cbn; rewrite S3, V3, U3; done).
  assert (Ht5 : ∀ x, table (ram m5) (pd_of m) x = table r1 (pd_of m) x).
  { intros x. unfold table. rewrite (entry_words r1); [done|]. apply W5. pose proof (tb_pd _ _ _ T). lia. }
  assert (Hz : free_user (fr m5) = free_user (fr m) - 1).
  { rewrite <- (free_user_take (fr m) c) by done. apply free_user_ext; [done|]. intros x Hx. cbn [total_pages recount set_free_pages set_mem_map] in Hx.
    destruct (count_lookup _ x (fk_acc _ K1) ltac:(cbn; lia)) as [_ ?]. specialize (G5 x ltac:(lia)).
    destruct (decide (count_at (recount (fr m) c 1) x = 0)) as [Hx0|Hx0]; [|split; [done|lia]].
    rewrite N5; [done|lia|]. intros (b & e & Hb & He & Hpe). destruct (tb_data _ _ _ T1 k b e Hk ltac:(lia) He) as [[_ Hbad] _].
    by rewrite Hpe in Hbad. }
  assert (Sm : same_machine (fr m) (fr m5)) by (eapply same_machine_trans; [apply recount_same|done]).
  split; [done|]. split; [|split; [done|split; [lia|split; [by rewrite Fe|split; [by rewrite Fe|split; [done|split; [done|split]]]]]]].
  - split; rewrite ?Fe, ?Re; [done| |done]. replace (IDX (t_pde (cur m8))) with (pd_of m) by (unfold pd_of; by rewrite Ce).
    apply tables_other_page; [done|pose proof (tb_pd _ _ _ T); lia|apply words_length, T5|]. intros x Hx. rewrite Ht5.
    unfold r1, poke. rewrite table_insert_other by done. by apply Hnt.
  - rewrite Fe, N5; [rewrite recount_at by (done || lia); by rewrite decide_True|lia|].
    intros (b & e & Hb & He & Hpe)%Hsh. destruct (tb_data _ _ _ T k b e Hk ltac:(lia) He) as [[_ Hbad] _]. by rewrite Hpe in Hbad.
  - split; [done|]. split; [done|]. split; [by rewrite Ht5|]. split; [|split; [|split]].
    + intros x y Hx Hy. rewrite P5, Hr1 by done. repeat case_decide; done || lia.
    + intros p Hp Hpc. rewrite Fe, <- (Cc p) by done. by apply G5.
    + intros p Hp Hpc Hs. rewrite Fe, C5 by (done || by apply Hsh). by rewrite Cc.
    + intros p Hp Hpc Hs. rewrite Fe, N5 by (done || by rewrite Hsh). by rewrite Cc.
Qed.

Section one_fork.
Context (m0 : mm) (td : Z).
Hypothesis O0 : mm_ok m0.
Hypothesis Htd : 0 <= td < 4096.
Hypothesis Hne : td ≠ pd_of m0.

Lemma shown_used k p : 0 <= k <= 768 → shown (ram m0) (pd_of m0) k p → count_at (fr m0) p ≠ 0.
Proof.
  intros Hk (a & b & e & Ha & Hb & He & <-). by destruct (tb_data _ _ _ (mo_tables _ O0) a b e ltac:(lia) Hb He) as [[_ ?] _].
Qed.

(** What the pages of one more table are. *)
Lemma shown_step m k p :
  forked m0 m td k → 0 <= k < 768 →
  shown (ram m0) (pd_of m0) (k + 1) p ↔ shown (ram m0) (pd_of m0) k p ∨ shows (pd_of m0) k (ram m) 0 1024 p.
Proof.
  intros Fo Hk. assert (Hp : ∀ b, 0 <= b < 1024 → pte_of (ram m) (pd_of m0) k b = pte_of (ram m0) (pd_of m0) k b).
  { intros b Hb. rewrite (fo_par _ _ _ _ Fo) by lia. by rewrite decide_False by lia. }
  split.
  - intros (a & b & e & Ha & Hb & He & Hpe). destruct (decide (a = k)) as [->|].
    + right. exists b, e. rewrite Hp by done. done.
    + left. exists a, b, e. split; [lia|done].
  - intros [Hs|(b & e & Hb & He & Hpe)]; [by apply shown_mono|]. rewrite Hp in He by lia. exists k, b, e. split; [lia|done].
Qed.

Lemma shown_once m k p :
  forked m0 m td k → 0 <= k < 768 → shown (ram m0) (pd_of m0) k p → ¬ shows (pd_of m0) k (ram m) 0 1024 p.
Proof.
  intros Fo Hk (a & b & e & Ha & Hb & He & Hpe) (b' & e' & Hb' & He' & Hpe').
  rewrite (fo_par _ _ _ _ Fo) in He' by lia. rewrite decide_False in He' by lia.
  destruct (tb_once _ _ _ (mo_tables _ O0) a b e k b' e') as [? _]; (done || lia || congruence).
Qed.

Lemma copy_table_forked m k :
  forked m0 m td k → 0 <= k < 768 → 2 <= idle (kmap_pool m) →
  (∃ m', copy_table (pd_of m0) td k m = Ok ((), m') ∧ forked m0 m' td (k + 1)) ∨
  (copy_table (pd_of m0) td k m = Stop Panic ∧ (free_user (fr m0) < ntables (ram m0) (pd_of m0) 768 ∨
     ∃ p, 0 <= p ∧ shown (ram m0) (pd_of m0) 768 p ∧ count_at (fr m0) p = 254)).
Proof.
  intros Fo Hk Hid. pose proof Fo as [F1 F2 F3 F4 Ff F5 F6 F7 F8 F9 Fge F10 F11 F12].
  assert (Epd : pd_of m = pd_of m0) by (unfold pd_of; by rewrite F2).
  destruct (table (ram m0) (pd_of m0) k) as [t|] eqn:Et.
  2:{ left. exists m. split; [|by apply forked_skip]. unfold copy_table. rewrite <- Epd.
      rewrite (st_bind_eq _ _ _ _ _ (get_entry_Ok m (pd_of m) k (tb_ram _ _ _ (mo_tables _ F1)) ltac:(lia))).
      rewrite <- F5 in Et by done. unfold table in Et. rewrite Epd. destruct (present (entry_of _ _ _)); done. }
  assert (Et' : table (ram m) (pd_of m) k = Some t) by (by rewrite Epd, F5).
  rewrite <- Epd. destruct (copy_table_run m td k t F1 Hid Htd ltac:(congruence) Hk Et')
    as [(m' & c & r4 & E & O' & C' & Hid' & Sm & Hz & Hc & Hc0 & Hc1 & R & W & T4 & P4 & G4 & C4 & N4)|[E Hwhy]]; [left|right].
  2:{ split; [done|]. rewrite Epd in Hwhy |- *. destruct Hwhy as [Hz|(p & Hp & Hs & Hmax)]; [left|right].
      - pose proof (ntables_mono (ram m0) (pd_of m0) (Z.to_nat (k + 1)) 768 ltac:(lia)) as Hm.
        rewrite ntables_step, Et in Hm by lia. lia.
      - exists p. split; [done|]. assert (Hs' : shown (ram m0) (pd_of m0) (k + 1) p) by (apply (shown_step m k p Fo Hk); by right).
        split; [by apply (shown_le _ _ (k + 1)); [lia|]|]. rewrite <- (F11 p Hp); [done|by apply (shown_used (k + 1)); [lia|]|].
        intros Hs2. by apply (shown_once m k p Fo Hk Hs2). }
  exists m'. split; [done|]. rewrite Epd in *. clear E. pose proof F4 as (T0 & _). pose proof Sm as (Tt & _).
  assert (Hc00 : count_at (fr m0) c = 0).
  { destruct (decide (count_at (fr m0) c = 0)) as [|Hx]; [done|]. specialize (Fge c ltac:(lia) Hx).
    destruct (count_lookup _ c (fk_acc _ (mo_frames _ O0)) ltac:(lia)) as [_ ?]. lia. }
  assert (Hct : c ≠ t).
  { intros ->. destruct (tb_tab _ _ _ (mo_tables _ O0) k t Hk Et) as [_ ?]. done. }
  pose proof (tb_pd _ _ _ (mo_tables _ O0)) as Hpd. fold (pd_of m0) in Hpd.
  assert (Ht : 4096 <= t) by (destruct (tb_tab _ _ _ (mo_tables _ O0) k t Hk Et) as [[? _] _]; done).
  set (e' := set_user true (entry_init c)) in *. pose proof (ac_total _ (fk_acc _ (mo_frames _ F1))) as Htot.
  assert (Ei : index e' = c) by (apply entry_init_index; lia).
  assert (Ri : ∀ q j, q ≠ c → q ≠ t → q ≠ td → entry_of (ram m') q j = entry_of (ram m) q j).
  { intros q j H1 H2 H3. rewrite R, entry_insert_other by done. apply entry_words. rewrite W by done. by apply words_poke. }
  assert (Rd : ∀ j, 0 <= j → entry_of (ram m') td j = if decide (j = k) then e' else entry_of (ram m) td j).
  { intros j Hj. rewrite R, entry_insert_other by lia. rewrite (entry_words (poke (ram m) td k e')) by (apply W; lia).
    rewrite entry_poke by (apply (mo_tables _ F1) || lia). repeat case_decide; tauto. }
  split; try done.
  - congruence.
  - lia.
  - by eapply same_machine_trans.
  - rewrite ntables_step, Et by lia. lia.
  - intros a Ha. rewrite <- F5 by done. unfold table. rewrite Ri by lia. done.
  - intros a b Ha Hb. rewrite R, pte_insert_other; [|lia|].
    + rewrite P4, F6 by done. repeat case_decide; done || lia.
    + intros Hx. assert (Hx' : table (ram m0) (pd_of m0) a = Some c).
      { rewrite <- Hx, <- F5 by done. unfold table. rewrite (entry_words (poke (ram m) td k e') r4) by (apply W; lia).
        unfold entry_of. by rewrite words_poke. }
      destruct (tb_tab _ _ _ (mo_tables _ O0) a c Ha Hx') as [_ ?]. done.
  - intros a b Ha Hb. unfold pte_of at 1, table. rewrite Rd by lia. destruct (decide (a = k)) as [->|Hak].
    + change (present e') with true. cbv iota. rewrite Ei. cbv zeta.
      assert (Ec : entry_of (ram m') c b = entry_of r4 t b) by (unfold entry_of; by rewrite R, words_insert, decide_True).
      rewrite Ec. specialize (P4 k b Hk Hb). rewrite decide_True in P4 by done. unfold pte_of at 1 in P4. rewrite T4 in P4. cbv zeta in P4.
      rewrite P4, F6 by done. by rewrite decide_False by lia.
    + rewrite <- F7 by lia. unfold pte_of, table. destruct (present (entry_of (ram m) td a)) eqn:Ep; [|done]. cbv zeta.
      destruct (F8 a (index (entry_of (ram m) td a))) as (H1 & H2 & H3); [lia|unfold table; by rewrite Ep|].
      rewrite Ri; [done| | |lia].
      * intros Ex. rewrite Ex in H3. lia.
      * intros Ex. rewrite Ex in H2. destruct (tb_tab _ _ _ (mo_tables _ O0) k t Hk Et) as [_ ?]. done.
  - intros a x Ha. unfold table. rewrite Rd by lia. destruct (decide (a = k)) as [->|Hak].
    + change (present e') with true. cbv iota. rewrite Ei. intros [= <-]. rewrite Tt. done.
    + intros Hx. destruct (F8 a x) as (H1 & H2 & H3); [lia|exact Hx|]. rewrite Tt. split; [done|]. split; [done|].
      rewrite N4; [done|lia|intros ->; lia|]. intros (b & e & Hb & He & Hpe). rewrite F6 in He by lia.
      rewrite decide_False in He by lia. destruct (tb_data _ _ _ (mo_tables _ O0) k b e Hk ltac:(lia) He) as [[_ Hbad] _].
      by rewrite Hpe in Hbad.
  - intros a Ha. rewrite Rd by lia. rewrite decide_False by lia. apply F9. lia.
  - intros p Hp Hc'. destruct (decide (p = c)) as [->|Hpc]; [done|]. specialize (Fge p Hp Hc'). specialize (G4 p Hp Hpc). lia.
  - intros p Hp Hs. assert (Hu : count_at (fr m0) p ≠ 0) by (apply (shown_used (k + 1)); [lia|done]).
    assert (Hpc : p ≠ c) by congruence. apply (shown_step m k p Fo Hk) in Hs as [Hs|Hs].
    + rewrite N4 by (done || by apply shown_once). by apply F10.
    + rewrite C4 by done. rewrite F11; [done|done|done|]. intros Hs'. by apply (shown_once m k p Fo Hk Hs').
  - intros p Hp Hu Hs. assert (Hpc : p ≠ c) by congruence. rewrite (shown_step m k p Fo Hk) in Hs.
    rewrite N4 by (done || tauto). apply F11; tauto.
  - intros p Hp Hu Hnt. assert (Hpc : p ≠ c) by congruence. assert (Hpt : p ≠ t) by (intros ->; by apply (Hnt k Hk)).
    rewrite R, words_insert, decide_False by done. rewrite W by done. rewrite words_poke by done. by apply F12.
Qed.

Lemma copy_tables_forked n : ∀ m k,
  forked m0 m td k → 0 <= k → k + Z.of_nat n = 768 → 2 <= idle (kmap_pool m0) →
  (∃ m', copy_tables n (pd_of m0) td k m = Ok ((), m') ∧ forked m0 m' td 768) ∨
  (copy_tables n (pd_of m0) td k m = Stop Panic ∧ (free_user (fr m0) < ntables (ram m0) (pd_of m0) 768 ∨
     ∃ p, 0 <= p ∧ shown (ram m0) (pd_of m0) 768 p ∧ count_at (fr m0) p = 254)).
Proof.
  induction n as [|n IH]; intros m k Fo Hk Hn Hid.
  { left. exists m. split; [done|]. by replace 768 with k by lia. }
  cbn [copy_tables]. pose proof (fo_idle _ _ _ _ Fo).
  destruct (copy_table_forked m k Fo ltac:(lia) ltac:(lia)) as [(m1 & E1 & F1)|[E Hwhy]].
  - rewrite (st_bind_eq _ _ _ _ _ E1). apply IH; [done|lia|lia|done].
  - right. split; [|done]. unfold mbind, st_bind. by rewrite E.
Qed.
End one_fork.

(** ** Properties *)

(** [copy_pde]: a fresh page of the kernel with the contents of the directory. *)
Lemma copy_pde_Ok m :
  mm_ok m → count_at (fr m) (pd_of m) ≠ 0 →
  (∃ s f, copy_pde m = Ok (PAGE (256 + s), set_ram (<[256 + s := words_of (ram m) (pd_of m)]> (ram m)) (set_fr f m)) ∧
     0 <= s < 3840 ∧ frames_ok f ∧ same_machine (fr m) f ∧ count_at (fr m) (256 + s) = 0 ∧
     (∀ j, 0 <= j → count_at f j = if decide (j = 256 + s) then 1 else count_at (fr m) j)) ∨
  (copy_pde m = Stop Panic ∧ ∀ s, ¬ free_run (fr m) s 1).
Proof.
  intros [K T P] Hpd. unfold copy_pde.
  destruct (alloc_kpage_Ok (fr m) 1 K ltac:(lia)) as [(s & f & E & K' & (R1 & R2 & R3) & _ & Sm & _ & C)|[E Hnone]].
  2:{ right. split; [unfold on_frames, mbind, st_bind; by rewrite E|done]. }
  left. exists s, f.
  rewrite (st_bind_eq _ _ m (PAGE (786688 + s)) (set_fr f m)) by (unfold on_frames; by rewrite E).
  assert (Eq : u32 (PAGE (786688 + s) - KERNEL_VADDR_OFFSET) = PAGE (256 + s)).
  { rewrite !page_of by lia. unfold KERNEL_VADDR_OFFSET. rewrite u32_small by lia. lia. }
  rewrite Eq, idx_page by lia. split; [done|]. split; [lia|]. split; [done|]. split; [done|].
  split; [apply R3; lia|]. intros j Hj. rewrite C by done. repeat case_decide; done || lia.
Qed.

(** The state [copy_pde] leaves: a copy of the page directory at a page nobody had. *)
Lemma fork_start m s f (td := 256 + s) (m1 := set_ram (<[td := words_of (ram m) (pd_of m)]> (ram m)) (set_fr f m)) :
  mm_ok m → count_at (fr m) (pd_of m) ≠ 0 → 0 <= s < 3840 → frames_ok f → same_machine (fr m) f → count_at (fr m) td = 0 →
  (∀ j, 0 <= j → count_at f j = if decide (j = td) then 1 else count_at (fr m) j) →
  td ≠ pd_of m ∧ (∀ x, 0 <= x < 768 → table (ram m) (pd_of m) x ≠ Some td) ∧ mm_ok m1 ∧
  (∀ a b, 0 <= a < 768 → pte_of (ram m1) (pd_of m) a b = pte_of (ram m) (pd_of m) a b) ∧
  (∀ p, shown (ram m1) (pd_of m) 768 p ↔ shown (ram m) (pd_of m) 768 p) ∧ forked m1 m1 td 0.
Proof.
  intros O Hpd Hs K1 Sm H0 C. pose proof Sm as (Tt & _).
  pose proof (tb_pd _ _ _ (mo_tables _ O)) as Hp. fold (pd_of m) in Hp.
  assert (Hne : td ≠ pd_of m) by congruence.
  assert (Hnt : ∀ x, 0 <= x < 768 → table (ram m) (pd_of m) x ≠ Some td).
  { intros x Hx Hx'. destruct (tb_tab _ _ _ (mo_tables _ O) x td Hx Hx') as [? _]. lia. }
  assert (O1 : mm_ok m1).
  { destruct O as [K T P]. fold (pd_of m) in T. split; [done| |by apply (pool_same m)].
    change (IDX (t_pde (cur m1))) with (pd_of m). cbn [m1 ram fr set_ram set_fr].
    apply tables_other_page; [|done|by apply words_length, T|done].
    assert (Hu : ∀ x, user_page (fr m) x → user_page f x).
    { intros x [Hx1 Hx2]. split; [lia|]. rewrite C by lia. rewrite decide_False by lia. done. }
    destruct T as [T1 T2 T3 T4 T5 T6]. split; try done.
    - intros i t Hi Ht. apply Hu. by apply (T3 i).
    - intros i j e Hi Hj He. destruct (T5 i j e Hi Hj He) as [U1 U2]. split; [by apply Hu|done]. }
  assert (Hpt : ∀ a b, 0 <= a < 768 → pte_of (ram m1) (pd_of m) a b = pte_of (ram m) (pd_of m) a b)
    by (intros a b Ha; apply pte_insert_other; [done|by apply Hnt]).
  assert (Hsh : ∀ p, shown (ram m1) (pd_of m) 768 p ↔ shown (ram m) (pd_of m) 768 p).
  { intros p. unfold shown. split; intros (a & b & e & Ha & Hb & He & Hpe); exists a, b, e;
      (split; [done|split; [done|split; [|done]]]); [by rewrite <- Hpt|by rewrite Hpt]. }
  assert (F0 : forked m1 m1 td 0).
  { split; try done; try lia.
    - change (ntables (ram m1) (pd_of m1) (Z.to_nat 0)) with 0. lia.
    - intros a b Ha Hb. by rewrite decide_False by lia.
    - intros a Ha. change (pd_of m1) with (pd_of m). cbn [m1 ram set_ram].
      rewrite (entry_insert_other _ td _ (pd_of m)) by done. unfold entry_of. by rewrite words_insert, decide_True.
    - intros p Hp' (a & b & e & Ha & _). lia. }
  done.
Qed.

(** C9. Fork shares memory.  [copy_pte] leaves a directory for the new task in which every
    address of the user half is mapped exactly as in the old task, to the same page, and
    the kernel half is the same; in both tasks what is not shared memory is now read-only;
    every page shown has one holder more, the other pages in use have as many as before,
    and no page changes its contents.  It stops only when the kernel has no page left for
    the directory, when there are fewer free pages than tables to copy, or when a page has
    254 holders already. *)
Theorem fork_shares_memory m :
  mm_ok m → 2 <= idle (kmap_pool m) → count_at (fr m) (pd_of m) ≠ 0 →
  (∃ td m', copy_pte m = Ok (PAGE td, m') ∧ mm_ok m' ∧ cur m' = cur m ∧ 256 <= td < 4096 ∧ count_at (fr m) td = 0 ∧
     (∀ x, 0 <= x < KERNEL_VADDR_OFFSET →
        user_entry m' x = read_only <$> user_entry m x ∧
        pte_of (ram m') td (PDE_IDX x) (PTE_IDX x) = read_only <$> user_entry m x) ∧
     (∀ a, 768 <= a < 1024 → entry_of (ram m') td a = entry_of (ram m) (pd_of m) a) ∧
     (∀ p, 0 <= p → shown (ram m) (pd_of m) 768 p →
        count_at (fr m') p = count_at (fr m) p + 1 ∧ words_of (ram m') p = words_of (ram m) p) ∧
     (∀ p, 0 <= p → count_at (fr m) p ≠ 0 → ¬ shown (ram m) (pd_of m) 768 p → count_at (fr m') p = count_at (fr m) p)) ∨
  (copy_pte m = Stop Panic ∧
     ((∀ s, ¬ free_run (fr m) s 1) ∨ free_user (fr m) < ntables (ram m) (pd_of m) 768 ∨
      ∃ p, 0 <= p ∧ shown (ram m) (pd_of m) 768 p ∧ count_at (fr m) p = 254)).
Proof.
  intros O Hid Hpd. unfold copy_pte. rewrite (st_bind_eq _ _ m (pd_of m) m) by done.
  destruct (copy_pde_Ok m O Hpd) as [(s & f & E & Hs & K1 & Sm & H0 & C)|[E Hnone]];
    [|right; split; [unfold mbind, st_bind; by rewrite E|by left]]. pose proof Sm as (Tt & _).
  rewrite (st_bind_eq _ _ _ _ _ E). set (td := 256 + s) in *. set (m1 := set_ram _ _).
  destruct (fork_start m s f O Hpd Hs K1 Sm H0 C) as (Hne & Hnt & O1 & Hpt & Hsh & F0). fold td in Hne, Hnt, O1, Hpt, Hsh, F0. fold m1 in O1, Hpt, Hsh, F0.
  rewrite idx_page by lia.
  destruct (copy_tables_forked m1 td O1 ltac:(lia) Hne (Z.to_nat USER_PDES) m1 0 F0) as [(m' & E' & Fo)|E']; [lia|done|done| |right].
  2:{ destruct E' as [E' Hwhy]. change (pd_of m1) with (pd_of m) in *. split; [unfold mbind, st_bind; by rewrite E'|]. right.
      destruct Hwhy as [Hw|(p & Hp' & Hsp & Hmax)]; [left|right].
      - assert (Hn : ∀ n, (n <= 768)%nat → ntables (ram m1) (pd_of m) n = ntables (ram m) (pd_of m) n).
        { induction n as [|n IHn]; intros Hn; cbn [ntables]; [done|]. rewrite IHn by lia. cbn [m1 ram set_ram].
          by rewrite table_insert_other. }
        rewrite Hn in Hw by lia. rewrite <- (free_user_ext (fr m) f Sm); [done|]. intros j Hj. rewrite C by lia. by rewrite decide_False by lia.
      - exists p. split; [done|]. apply Hsh in Hsp. split; [done|]. cbn [m1 fr set_ram set_fr] in Hmax. rewrite C in Hmax by done.
        case_decide; [lia|done]. }
  left. exists td, m'. change (pd_of m1) with (pd_of m) in *. rewrite (st_bind_eq _ _ _ _ _ E').
  destruct Fo as [F1 F2 F3 F4 Ff F5 F6 F7 F8 F9 Fge F10 F11 F12].
  assert (Epd : pd_of m' = pd_of m) by (unfold pd_of; by rewrite F2).
  split; [done|]. split; [done|]. split; [done|]. split; [lia|]. split; [done|]. split; [|split; [|split]].
  - intros x Hx. rewrite !user_entry_pd, Epd. pose proof (pde_idx_range x Hx). pose proof (pte_idx_range x).
    change (pd_of m1) with (pd_of m) in *. rewrite F6, F7, Hpt by done. by rewrite decide_True by lia.
  - intros a Ha. rewrite F9 by lia. change (pd_of m1) with (pd_of m). by apply entry_insert_other.
  - intros p Hp' Hsp. assert (Hu : count_at (fr m) p ≠ 0 ∧ ∀ a, 0 <= a < 768 → table (ram m) (pd_of m) a ≠ Some p).
    { destruct Hsp as (a & b & e & Ha & Hb & He & <-). destruct (tb_data _ _ _ (mo_tables _ O) a b e Ha Hb He) as [[_ U1] U2]. done. }
    destruct Hu as [U1 U2]. assert (Hptd : p ≠ td) by congruence. split.
    + rewrite F10 by (done || by apply Hsh). cbn [m1 fr set_ram set_fr]. rewrite C by done. by rewrite decide_False.
    + rewrite F12; [cbn [m1 ram set_ram]; by rewrite words_insert, decide_False|done| |].
      * cbn [m1 fr set_ram set_fr]. rewrite C by done. by rewrite decide_False.
      * intros a Ha. change (pd_of m1) with (pd_of m). cbn [m1 ram set_ram]. rewrite table_insert_other by done. by apply U2.
  - intros p Hp' Hu Hsp. assert (Hptd : p ≠ td) by congruence.
    assert (Ec : count_at (fr m1) p = count_at (fr m) p) by (cbn [m1 fr set_ram set_fr]; rewrite C by done; by rewrite decide_False).
    rewrite F11; [done|done|by rewrite Ec|change (pd_of m1) with (pd_of m); by rewrite Hsh].
Qed.

(** None of the three reasons to stop holds in the machine with one page mapped. *)
Lemma demo_fork_room f (m := demo_shared f 1) :
  mm_ok m → count_at (fr m) 4097 = 1 → total_pages f = 4112 → count_at (fr m) 4098 = 0 → count_at (fr m) 300 = 0 →
  ((∀ s, ¬ free_run (fr m) s 1) ∨ free_user (fr m) < ntables (ram m) (pd_of m) 768 ∨
      ∃ p, 0 <= p ∧ shown (ram m) (pd_of m) 768 p ∧ count_at (fr m) p = 254) → False.
Proof.
  intros O Hc T H8 Hlow. pose proof (fk_acc _ (mo_frames _ O)) as A.
  assert (Hd : ∀ k, 0 <= k → entry_of (ram m) 0 k = if decide (k = 767) then set_user true (entry_init 4096) else zero_entry).
  { intros k Hk. unfold m. cbn [demo_shared ram set_fr set_ram]. unfold with_table. rewrite (entry_words (<[4096:=zero_page]> (poke ∅ 0 767 (set_user true (entry_init 4096)))));
      [|by apply words_poke]. rewrite entry_insert_other by done.
    rewrite entry_poke by (apply (tb_ram _ _ _ (empty_tables f)) || lia || (change (0 <= 4096 < 1048576); lia)). rewrite (entry_zero ∅) by done.
    repeat case_decide; tauto. }
  assert (Htab : ∀ k, 0 <= k → table (ram m) 0 k = if decide (k = 767) then Some 4096 else None).
  { intros k Hk. unfold table. rewrite Hd by done. by case_decide. }
  change (pd_of m) with 0. intros [Hn|[Hn|(p & Hp & (a & b & e & Ha & Hb & He & Hpe) & Hmax)]].
  - apply (Hn 44). split; [lia|]. split; [lia|]. intros i Hi. by replace (256 + i) with 300 by lia.
  - assert (Hnt : ntables (ram m) 0 767 = 0).
    { assert (Hnn : ∀ n, (n <= 767)%nat → ntables (ram m) 0 n = 0); [|by apply Hnn].
      induction n as [|n IHn]; intros Hle; cbn [ntables]; [done|]. rewrite IHn, Htab by lia. by rewrite decide_False by lia. }
    pose proof (ntables_step (ram m) 0 767 ltac:(lia)) as Hs. change (Z.to_nat (767 + 1)) with 768%nat in Hs.
    change (Z.to_nat 767) with 767%nat in Hs. rewrite Hnt, Htab, decide_True in Hs by lia. rewrite Hs in Hn.
    assert (H9 : free_user (recount (fr m) 4098 1) = free_user (fr m) - 1) by (apply free_user_take; [done|cbn; lia|done]).
    pose proof (zeros_range (Z.to_nat (total_pages (recount (fr m) 4098 1) - 4096)) (drop (Z.to_nat 4096) (mem_map (recount (fr m) 4098 1)))) as Hz.
    unfold free_user at 1 in H9. lia.
  - destruct (decide (a = 767)) as [->|Hne]; [|unfold pte_of in He; rewrite Htab, decide_False in He by lia; done].
    unfold pte_of in He. rewrite Htab, decide_True in He by lia. cbv zeta in He.
    unfold m in He. cbn [demo_shared ram set_fr set_ram] in He.
    rewrite entry_poke in He by (lia || (change (0 <= 4097 < 1048576); lia) || (apply ram_insert; [apply poke_ok, (tb_ram _ _ _ (empty_tables f))|apply length_replicate])).
    destruct (decide (4096 = 4096 ∧ b = 1023)) as [_|_].
    + change (present demo_entry) with true in He. injection He as <-. change (index demo_entry) with 4097 in Hpe. subst p. lia.
    + unfold with_table in He. rewrite entry_zero in He; [done|lia|]. by rewrite words_insert, decide_True.
Qed.

(** One table and one page, mapped at the top of the stack: the fork succeeds. *)
Lemma fork_shares_memory_witness :
  ∃ m td m', mm_ok m ∧ user_entry m 0xBFFFF000 = Some demo_entry ∧ copy_pte m = Ok (PAGE td, m') ∧
    user_entry m' 0xBFFFF000 = Some (read_only demo_entry) ∧
    pte_of (ram m') td (PDE_IDX 0xBFFFF000) (PTE_IDX 0xBFFFF000) = Some (read_only demo_entry).
Proof.
  destruct (demo_shared_ok 1 ltac:(lia)) as (f & O & He & Hc & T & H8 & Hpd & Hlow).
  destruct (fork_shares_memory (demo_shared f 1) O) as [(td & m' & E & _ & _ & _ & _ & H & _)|[_ Hbad]];
    [cbn [demo_shared demo_mm kmap_pool set_fr set_ram]; rewrite idle_replicate; lia|exact Hpd| |].
  - exists (demo_shared f 1), td, m'. split; [exact O|]. split; [exact He|]. split; [exact E|].
    destruct (H 0xBFFFF000) as [H1 H2]; [unfold KERNEL_VADDR_OFFSET; lia|]. rewrite H1, H2, He. split; reflexivity.
  - exfalso. exact (demo_fork_room f O Hc T H8 Hlow Hbad).
Defined.
