(* ===== verification/Arena.v ===== *)
(** * The kernel heap (src/lib/arena.c)

    [kmalloc] and [kfree] over blocks with a header of 28 bytes in front of their buffer.
    A header is known by its address.  The free and the used list are the lists of the
    headers' addresses, which is what the doubly linked lists of DList stand for.  A
    header a merge has absorbed stays readable until a buffer that covers it is handed out:
    from then on it holds what the client stores there, and reading it is undefined in the
    model.  The pages come from an interface, which the page allocator of Pages implements;
    the lock around both routines is the Mutex component's. *)

From S2P Require Import Prelude Bitmap Pages.

Definition ARENA_MAGIC : Z := 0xA1B2C3.
Definition MIN_BLOCK_SIZE : Z := 16.
(** [sizeof(arena_t)]: a word of flags, two pointers, a list node, a length, a pointer. *)
Definition sizeof_arena : Z := 28.

(** ** The source of pages *)

(** What the heap asks for: runs of whole pages, that nobody else has. *)
Class PageSource (P : Type) := {
  page_alloc : Z → ST P Z;
  in_use : P → Z → Prop;
  page_ok : P → Prop;
  page_alloc_spec : ∀ n p v p',
    page_ok p → 1 <= n < 4294967296 → page_alloc n p = Ok (v, p') →
    page_ok p' ∧ 0 < v ∧ v + 4096 * n < 4294967296 ∧
    (∀ a, v <= a < v + 4096 * n → ¬ in_use p a) ∧
    ∀ a, in_use p' a ↔ in_use p a ∨ v <= a < v + 4096 * n
}.

(** The header; the field [buf], which always points behind the header, is left out. *)
Record arena_t := Arena {
  magic : Z; is_used : bool; is_head : bool; back_ptr : option Z; forward_ptr : option Z; blen : Z
}.

Definition set_used (v : bool) (b : arena_t) : arena_t :=
  Arena (magic b) v (is_head b) (back_ptr b) (forward_ptr b) (blen b).
Definition set_next (f : option Z) (len : Z) (b : arena_t) : arena_t :=
  Arena (magic b) (is_used b) (is_head b) (back_ptr b) f len.

Lemma list_filter_sub (l : list Z) p a : p <= a → filter (λ x, x < p) l = filter (λ x, x < p) (filter (λ x, x < a) l).
Proof.
  intros Hpa. induction l as [|x l IH]; [done|]. rewrite !filter_cons. case_decide.
  - rewrite decide_True by lia. rewrite filter_cons, decide_True by done. by rewrite IH.
  - case_decide; [|done]. by rewrite filter_cons, decide_False.
Qed.

Lemma filter_keeps {A} (P : A → Prop) `{∀ x, Decision (P x)} (l : list A) : (∀ x, x ∈ l → P x) → filter P l = l.
Proof.
  induction l as [|x l IH]; intros Hl; [done|]. rewrite filter_cons_True by apply Hl, list_elem_of_here.
  by rewrite IH by (intros; by apply Hl, list_elem_of_further).
Qed.

Section heap.
Context {P : Type} `{PS : PageSource P}.

Record heap := Heap { pages : P; hdrs : gmap Z arena_t; free_list : list Z; used_list : list Z }.

Definition set_pages (v : P) (h : heap) : heap := Heap v (hdrs h) (free_list h) (used_list h).
Definition set_hdrs (v : gmap Z arena_t) (h : heap) : heap := Heap (pages h) v (free_list h) (used_list h).
Definition set_lists (f u : list Z) (h : heap) : heap := Heap (pages h) (hdrs h) f u.

Definition HM := ST heap.

Definition header (a : Z) : HM arena_t := λ h,
  match hdrs h !! a with Some b => Ok (b, h) | None => Stop OutOfBounds end.
Definition put_header (a : Z) (b : arena_t) : HM unit := modify_st (λ h, set_hdrs (<[a := b]> (hdrs h)) h).

(** ** Allocation *)

Definition arena_add_new_pages (size : Z) : HM unit := λ h,
  let page_cnt := u32 (size + sizeof_arena) / PAGE_SIZE + 1 in
  match page_alloc page_cnt (pages h) with
  | Stop e => Stop e
  | Ok (a, p) =>
      let b := Arena ARENA_MAGIC false true None None (u32 (PAGE_SIZE * page_cnt - sizeof_arena)) in
      Ok ((), Heap p (<[a := b]> (hdrs h)) (a :: free_list h) (used_list h))
  end.

(** The search through the free list for the first block that is long enough. *)
Fixpoint find_fit (l : list Z) (size : Z) : HM (option Z) :=
  match l with
  | [] => mret None
  | a :: l => b ← header a; if u32 (sizeof_arena + size) <=? blen b then mret (Some a) else find_fit l size
  end.

(** From the label [refind] on; [fuel] bounds how often new pages are taken. *)
Fixpoint refind (fuel : nat) (size : Z) : HM Z :=
  match fuel with
  | O => stop_st NoFuel
  | S fuel =>
      h ← get_st;
      r ← find_fit (free_list h) size;
      match r with
      | Some a => mret a
      | None => arena_add_new_pages size;; refind fuel size
      end
  end.

(** [memset] of a buffer: the headers it covers are gone. *)
Definition covers (buf size a : Z) : bool := (buf <? a + sizeof_arena) && (a <? buf + size).
Definition clear_buf (buf size : Z) : HM unit :=
  modify_st (λ h, set_hdrs (filter (λ kv, covers buf size (fst kv) = false) (hdrs h)) h).

Definition take_block (a size : Z) : HM unit :=
  modify_st (λ h, set_lists (filter (λ x, x ≠ a) (free_list h)) (a :: used_list h) h);;
  b ← header a;
  if u32 (blen b - size) <? sizeof_arena + MIN_BLOCK_SIZE then put_header a (set_used true b)
  else
    let d := u32 (u32 (a + sizeof_arena) + size) in
    put_header d (Arena ARENA_MAGIC false false (Some a) (forward_ptr b) (u32 (blen b - size - sizeof_arena)));;
    put_header a (set_next (Some d) size (set_used true b));;
    modify_st (λ h, set_lists (d :: free_list h) (used_list h) h).

Definition kmalloc (fuel : nat) (size : Z) : HM (option Z) :=
  if size =? 0 then mret None
  else
    let size := Z.max size MIN_BLOCK_SIZE in
    h ← get_st;
    (if bool_decide (free_list h = []) then arena_add_new_pages size else mret ());;
    a ← refind fuel size;
    take_block a size;;
    clear_buf (u32 (a + sizeof_arena)) size;;
    mret (Some (u32 (a + sizeof_arena))).

(** ** Release *)

(** Up to the first block of a run of free ones. *)
Fixpoint walk_back (fuel : nat) (a : Z) : HM Z :=
  match fuel with
  | O => stop_st NoFuel
  | S fuel =>
      b ← header a;
      match back_ptr b with
      | None => mret a
      | Some p => c ← header p; if is_used c then mret a else walk_back fuel p
      end
  end.

(** The free blocks behind are joined to [a]. *)
Fixpoint merge_forward (fuel : nat) (a : Z) : HM unit :=
  match fuel with
  | O => stop_st NoFuel
  | S fuel =>
      b ← header a;
      match forward_ptr b with
      | None => mret ()
      | Some f =>
          c ← header f;
          if is_used c then mret ()
          else
            h ← get_st;
            sassert (bool_decide (f ∈ free_list h));;
            put_st (set_lists (filter (λ x, x ≠ f) (free_list h)) (used_list h) h);;
            put_header a (set_next (forward_ptr c) (u32 (blen b + (blen c + sizeof_arena))) b);;
            merge_forward fuel a
      end
  end.

(** [kfree]; a block whose right neighbour's magic number is gone stops the kernel. *)
Definition kfree (fuel : nat) (ptr : option Z) : HM unit :=
  match ptr with
  | None => mret ()
  | Some ptr =>
      let a := u32 (ptr - sizeof_arena) in
      b ← header a;
      (match forward_ptr b with
       | None => mret ()
       | Some f => c ← header f; sassert (magic c =? ARENA_MAGIC)
       end);;
      h ← get_st;
      sassert (bool_decide (a ∈ used_list h));;
      put_st (set_lists (a :: free_list h) (filter (λ x, x ≠ a) (used_list h)) h);;
      put_header a (set_used false b);;
      p ← walk_back fuel a;
      merge_forward fuel p
  end.

Definition aerna_init (p : P) : heap := Heap p ∅ [] [].

(** ** The invariant *)

Definition live (h : heap) (a : Z) : Prop := a ∈ free_list h ∨ a ∈ used_list h.
Definition fin (a : Z) (b : arena_t) : Z := a + sizeof_arena + blen b.

Record heap_ok (h : heap) : Prop := {
  ho_pages : page_ok (pages h);
  ho_nodup : NoDup (free_list h ++ used_list h);
  ho_live : ∀ a, live h a → ∃ b, hdrs h !! a = Some b ∧ magic b = ARENA_MAGIC ∧ 0 < a ∧ 0 <= blen b ∧ fin a b < 4294967296 ∧
    ∀ x, a <= x < fin a b → in_use (pages h) x;
  ho_used : ∀ a b, hdrs h !! a = Some b → (a ∈ used_list h → is_used b = true) ∧ (a ∈ free_list h → is_used b = false);
  ho_disj : ∀ a a' b b', live h a → live h a' → a ≠ a' → hdrs h !! a = Some b → hdrs h !! a' = Some b' → fin a b <= a' ∨ fin a' b' <= a;
  ho_next : ∀ a b f, live h a → hdrs h !! a = Some b → forward_ptr b = Some f → live h f ∧ f = fin a b;
  ho_back : ∀ a b p, live h a → hdrs h !! a = Some b → back_ptr b = Some p → p < a
}.

Lemma live_split h a : heap_ok h → (a ∈ free_list h → a ∉ used_list h).
Proof. intros O Hf Hu. pose proof (ho_nodup _ O) as N. apply NoDup_app in N as (_ & N & _). by apply (N a). Qed.

Lemma header_live h a : heap_ok h → live h a → ∃ b, header a h = Ok (b, h) ∧ hdrs h !! a = Some b.
Proof. intros O Ha. destruct (ho_live _ O a Ha) as (b & Hb & _). exists b. unfold header. by rewrite Hb. Qed.

(** ** kmalloc *)

Lemma find_fit_Ok l size h :
  heap_ok h → (∀ a, a ∈ l → live h a) →
  ∃ r, find_fit l size h = Ok (r, h) ∧
    match r with
    | Some a => a ∈ l ∧ ∃ b, hdrs h !! a = Some b ∧ u32 (sizeof_arena + size) <= blen b
    | None => ∀ a b, a ∈ l → hdrs h !! a = Some b → blen b < u32 (sizeof_arena + size)
    end.
Proof.
  intros O. induction l as [|a l IH]; intros Hl; cbn [find_fit]; [exists None; split; [done|]; intros a b Ha; inversion Ha|].
  destruct (header_live h a O) as (b & E & Hb); [apply Hl, list_elem_of_here|]. rewrite (st_bind_eq _ _ _ _ _ E).
  destruct (Z.leb_spec (u32 (sizeof_arena + size)) (blen b)).
  - exists (Some a). split; [done|]. split; [apply list_elem_of_here|by exists b].
  - destruct IH as (r & Er & Hr); [intros; by apply Hl, list_elem_of_further|]. exists r. split; [done|]. destruct r as [a'|].
    + destruct Hr as [Hr ?]. split; [by apply list_elem_of_further|done].
    + intros a' b' [->|Ha']%elem_of_cons Hb'; [congruence|by apply (Hr a')].
Qed.

(** The room a fresh run of pages has for a request. *)
Definition fresh_pages (size : Z) : Z := (size + 28) / 4096 + 1.
Definition fresh_room (size : Z) : Z := 4096 * fresh_pages size - 28.

Lemma fresh_room_pos size : 0 <= size → size < fresh_room size + 28 ∧ 4068 <= fresh_room size <= size + 4096.
Proof.
  intros. unfold fresh_room, fresh_pages. pose proof (Z.div_mod (size + 28) 4096 ltac:(lia)). pose proof (Z.mod_pos_bound (size + 28) 4096 ltac:(lia)).
  pose proof (Z.div_pos (size + 28) 4096 ltac:(lia) ltac:(lia)). lia.
Qed.

(** What [arena_add_new_pages] leads to: a free block nobody had. *)
Lemma add_pages_Ok h size h' :
  heap_ok h → 0 <= size < 2147483648 → arena_add_new_pages size h = Ok ((), h') →
  ∃ a b, heap_ok h' ∧ free_list h' = a :: free_list h ∧ used_list h' = used_list h ∧ hdrs h' = <[a := b]> (hdrs h) ∧
    blen b = fresh_room size ∧ ∀ x, live h x → x ≠ a.
Proof.
  intros O Hs E. unfold arena_add_new_pages in E. unfold sizeof_arena, PAGE_SIZE in E.
  rewrite (u32_small (size + 28)) in E by lia. pose proof (fresh_room_pos size ltac:(lia)) as [_ Hroom].
  unfold fresh_room in Hroom |- *. fold (fresh_pages size) in E. set (cnt := fresh_pages size) in *.
  assert (Hc : 1 <= cnt < 1048576) by lia.
  destruct (page_alloc cnt (pages h)) as [[a p]|e] eqn:Ea; [|done].
  destruct (page_alloc_spec cnt (pages h) a p (ho_pages _ O) ltac:(lia) Ea) as (Pk & Ha & Hend & Hfresh & Huse).
  rewrite u32_small in E by lia. injection E as <-. set (b := Arena ARENA_MAGIC false true None None (4096 * cnt - 28)).
  assert (Hout : ∀ x c, live h x → hdrs h !! x = Some c → fin x c <= a ∨ a + 4096 * cnt <= x).
  { intros x c Hx Hc'. destruct (ho_live _ O x Hx) as (c' & Hc2 & _ & _ & Hlen & _ & Hu). assert (c' = c) as -> by congruence.
    unfold fin, sizeof_arena in *. destruct (decide (x + 28 + blen c <= a)) as [|H1]; [by left|].
    destruct (decide (a + 4096 * cnt <= x)) as [|H2]; [by right|]. exfalso.
    apply (Hfresh (Z.max x a)); [lia|]. apply Hu. lia. }
  assert (Hne : ∀ x, live h x → x ≠ a).
  { intros x Hx ->. destruct (ho_live _ O a Hx) as (c & Hc' & _ & _ & Hlen & _). destruct (Hout a c Hx Hc'); unfold fin, sizeof_arena in *; lia. }
  exists a, b. split; [|done].
  assert (Hlook : ∀ x c, live h x → (<[a := b]> (hdrs h)) !! x = Some c ↔ hdrs h !! x = Some c).
  { intros x c Hx. rewrite lookup_insert_ne; [done|]. intros <-. by apply (Hne a). }
  assert (Hlive : ∀ x, live (Heap p (<[a:=b]> (hdrs h)) (a :: free_list h) (used_list h)) x → x = a ∨ live h x).
  { intros x [Hx|Hx]; cbn in Hx; [|right; by right]. apply elem_of_cons in Hx as [->|Hx]; [by left|right; by left]. }
  split; cbn [pages hdrs free_list used_list].
  - done.
  - cbn. constructor; [|apply O]. intros Hin. apply elem_of_app in Hin as [Hin|Hin]; apply (Hne a); [by left|done|by right|done].
  - intros x [->|Hx]%Hlive.
    + exists b. rewrite lookup_insert_eq. unfold fin, sizeof_arena. cbn [blen b]. split_and!; try done; try lia.
      intros y Hy. apply Huse. right. lia.
    + destruct (ho_live _ O x Hx) as (c & Hc' & H1 & H2 & H3 & H4 & H5). exists c. rewrite Hlook by done. split_and!; try done.
      intros y Hy. apply Huse. left. by apply H5.
  - intros x c Hc'. destruct (decide (x = a)) as [->|Hxa].
    + rewrite lookup_insert_eq in Hc'. injection Hc' as <-. split; [|done]. intros Hu. exfalso. by apply (Hne a); [right|].
    + rewrite lookup_insert_ne in Hc' by done. destruct (ho_used _ O x c Hc') as [U1 U2]. split; [done|].
      intros [->|Hin]%elem_of_cons; [done|by apply U2].
  - intros x x' c c' [->|Hx]%Hlive [->|Hx']%Hlive Hne' Hc1 Hc2; [done| | |].
    + rewrite lookup_insert_eq in Hc1. injection Hc1 as <-. apply Hlook in Hc2; [|done]. destruct (Hout x' c' Hx' Hc2); [by right|left].
      unfold fin, sizeof_arena. cbn [blen b]. lia.
    + rewrite lookup_insert_eq in Hc2. injection Hc2 as <-. apply Hlook in Hc1; [|done]. destruct (Hout x c Hx Hc1); [by left|right].
      unfold fin, sizeof_arena. cbn [blen b]. lia.
    + apply Hlook in Hc1; [|done]. apply Hlook in Hc2; [|done]. by apply (ho_disj _ O).
  - intros x c f [->|Hx]%Hlive Hc1 Hf.
    + rewrite lookup_insert_eq in Hc1. by injection Hc1 as <-.
    + apply Hlook in Hc1; [|done]. destruct (ho_next _ O x c f Hx Hc1 Hf) as [[Hl|Hl] ->]; (split; [|done]); [left; cbn; by apply list_elem_of_further|by right].
  - intros x c f [->|Hx]%Hlive Hc1 Hf.
    + rewrite lookup_insert_eq in Hc1. by injection Hc1 as <-.
    + apply Hlook in Hc1; [|done]. by apply (ho_back _ O x c).
Qed.

Lemma add_pages_Stop h size e :
  0 <= size < 2147483648 → arena_add_new_pages size h = Stop e → page_alloc (fresh_pages size) (pages h) = Stop e.
Proof.
  intros Hs. unfold arena_add_new_pages, sizeof_arena, PAGE_SIZE. rewrite u32_small by lia. fold (fresh_pages size).
  destruct (page_alloc _ (pages h)) as [[a p]|e']; [done|]. by intros [= ->].
Qed.

(** Only the headers of the live blocks matter. *)
Lemma heap_ok_hdrs h m :
  heap_ok h → (∀ x, live h x → m !! x = hdrs h !! x) → heap_ok (set_hdrs m h).
Proof.
  intros [H1 H2 H3 H4 H5 H6 H7] Hm. split; cbn [pages hdrs free_list used_list set_hdrs].
  - done.
  - done.
  - intros a Ha. change (live h a) in Ha. rewrite Hm by done. by apply H3.
  - intros a b Hb. split; intros Hin; (assert (Hl : live h a) by (by (left + right))); rewrite Hm in Hb by done; by apply (H4 a b).
  - intros a a' b b' Ha Ha' Hne Hb Hb'. change (live h a) in Ha. change (live h a') in Ha'. rewrite Hm in Hb, Hb' by done. by apply (H5 a a').
  - intros a b f Ha Hb. change (live h a) in Ha. rewrite Hm in Hb by done. by apply (H6 a b).
  - intros a b f Ha Hb. change (live h a) in Ha. rewrite Hm in Hb by done. by apply (H7 a b).
Qed.

Lemma elem_without (l : list Z) a x : x ∈ filter (λ x, x ≠ a) l ↔ x ≠ a ∧ x ∈ l.
Proof. by rewrite list_elem_of_filter. Qed.

(** A free block becomes a used one, its header otherwise unchanged. *)
Lemma use_block h a b :
  heap_ok h → a ∈ free_list h → hdrs h !! a = Some b →
  heap_ok (set_hdrs (<[a := set_used true b]> (hdrs h)) (set_lists (filter (λ x, x ≠ a) (free_list h)) (a :: used_list h) h)).
Proof.
  intros O Ha Hb. pose proof O as [H1 H2 H3 H4 H5 H6 H7]. assert (Hla : live h a) by (by left).
  set (h' := set_hdrs _ _).
  assert (Hl : ∀ x, live h' x ↔ live h x).
  { intros x. unfold live. cbn. rewrite elem_without, elem_of_cons. destruct (decide (x = a)) as [->|]; naive_solver. }
  assert (Hlook : ∀ x c, hdrs h' !! x = Some c → ∃ c0, hdrs h !! x = Some c0 ∧ (if decide (x = a) then c = set_used true c0 ∧ c0 = b else c = c0)).
  { intros x c. cbn. case_decide as D; [subst; rewrite lookup_insert_eq; intros [= <-]; by exists b|].
    rewrite lookup_insert_ne by done. by exists c. }
  assert (Hfin : ∀ x c, hdrs h' !! x = Some c → ∃ c0, hdrs h !! x = Some c0 ∧ fin x c = fin x c0 ∧ forward_ptr c = forward_ptr c0 ∧ back_ptr c = back_ptr c0).
  { intros x c (c0 & Hc0 & Hc)%Hlook. exists c0. split; [done|]. case_decide; [destruct Hc as [-> _]|subst]; done. }
  split.
  - done.
  - cbn. apply NoDup_app in H2 as (N1 & N2 & N3). apply NoDup_app. split; [by apply NoDup_filter|]. split.
    + intros x [Hx1 Hx2]%elem_without. rewrite elem_of_cons. intros [->|Hx3]; [done|]. by apply (N2 x).
    + constructor; [by apply (live_split h)|done].
  - intros x Hx%Hl. destruct (H3 x Hx) as (c & Hc & R1 & R2 & R3 & R4 & R5). cbn.
    destruct (decide (x = a)) as [->|Hne].
    + rewrite lookup_insert_eq. assert (c = b) as -> by congruence. eexists. split; [done|]. done.
    + rewrite lookup_insert_ne by done. by exists c.
  - intros x c Hc. destruct (Hlook x c Hc) as (c0 & Hc0 & Hcc). cbn. rewrite elem_without, elem_of_cons.
    destruct (decide (x = a)) as [->|Hne]; [destruct Hcc as [-> ->]; split; [done|by intros [? _]]|]. subst c0.
    destruct (H4 x c Hc0) as [U1 U2]. split; [intros [?|?]; [done|by apply U1]|intros [_ ?]; by apply U2].
  - intros x x' c c' Hx%Hl Hx'%Hl Hne (c0 & E0 & -> & _)%Hfin (c1 & E1 & -> & _)%Hfin. by apply (H5 x x').
  - intros x c f Hx%Hl (c0 & E0 & -> & -> & _)%Hfin Hf. destruct (H6 x c0 f Hx E0 Hf) as [? ?]. by rewrite Hl.
  - intros x c f Hx%Hl (c0 & E0 & _ & _ & ->)%Hfin. by apply (H7 x c0).
Qed.

(** The end of a used block becomes a free block of its own. *)
Lemma split_block h a b size (d := a + sizeof_arena + size)
  (nd := Arena ARENA_MAGIC false false (Some a) (forward_ptr b) (blen b - size - sizeof_arena)) :
  heap_ok h → a ∈ used_list h → hdrs h !! a = Some b → 0 <= size → size + sizeof_arena <= blen b →
  heap_ok (set_lists (d :: free_list h) (used_list h)
    (set_hdrs (<[a := set_next (Some d) size b]> (<[d := nd]> (hdrs h))) h)) ∧ ¬ live h d.
Proof.
  intros O Ha Hb Hs Hlen. pose proof O as [H1 H2 H3 H4 H5 H6 H7]. assert (Hla : live h a) by (by right).
  destruct (H3 a Hla) as (b0 & Hb0 & R1 & R2 & R3 & R4 & R5). assert (b0 = b) as -> by congruence.
  unfold fin, sizeof_arena in *.
  assert (Hd : ¬ live h d).
  { intros Hd. destruct (H3 d Hd) as (c & Hc & _ & _ & Hcl & _). destruct (H5 a d b c Hla Hd) as [?|?]; unfold d in *; (done || lia). }
  split; [|done]. set (h' := set_lists _ _ _).
  assert (Hl : ∀ x, live h' x ↔ x = d ∨ live h x) by (intros x; unfold live; cbn; rewrite elem_of_cons; tauto).
  assert (Had : a ≠ d) by (unfold d; lia).
  assert (Ea : hdrs h' !! a = Some (set_next (Some d) size b)) by (cbn; by rewrite lookup_insert_eq).
  assert (Ed : hdrs h' !! d = Some nd) by (cbn; rewrite lookup_insert_ne by done; by rewrite lookup_insert_eq).
  assert (Ex : ∀ x, x ≠ a → x ≠ d → hdrs h' !! x = hdrs h !! x) by (intros; cbn; by rewrite !lookup_insert_ne by done).
  assert (Hin : ∀ x c, live h x → x ≠ a → hdrs h !! x = Some c → x + 28 + blen c <= a ∨ a + 28 + blen b <= x).
  { intros x c Hx Hne Hc. destruct (H5 x a c b Hx Hla Hne Hc Hb); [by left|by right]. }
  assert (Hdx : ∀ x, live h x → x ≠ d) by (intros x Hx ->; done).
  split.
  - done.
  - cbn. constructor; [|done]. rewrite elem_of_app. intros Hx. by apply Hd.
  - intros x [->|Hx]%Hl; unfold fin, sizeof_arena.
    + exists nd. split; [done|]. cbn [magic blen nd]. unfold d in *. split_and!; try done; try lia. intros y Hy. apply R5. lia.
    + destruct (decide (x = a)) as [->|Hne].
      * eexists. split; [exact Ea|]. cbn [magic blen set_next]. split_and!; try done; try lia. intros y Hy. apply R5. lia.
      * rewrite Ex by (done || by apply Hdx). by apply H3.
  - intros x c Hc. cbn. rewrite elem_of_cons. destruct (decide (x = a)) as [->|Hne].
    + rewrite Ea in Hc. injection Hc as <-. destruct (H4 a b Hb) as [U1 U2]. split; [done|]. intros [?|?]; [done|by apply U2].
    + destruct (decide (x = d)) as [->|Hnd].
      * rewrite Ed in Hc. injection Hc as <-. split; [|done]. intros Hu. exfalso. apply Hd. by right.
      * rewrite Ex in Hc by done. destruct (H4 x c Hc) as [U1 U2]. split; [done|]. intros [?|?]; [done|by apply U2].
  - intros x x' c c' Hx%Hl Hx'%Hl Hne Hc Hc'. unfold d, fin, sizeof_arena in *.
    destruct (decide (x = a)) as [->|Hxa]; [rewrite Ea in Hc; injection Hc as <-|];
      (destruct (decide (x' = a)) as [->|Hxa']; [rewrite Ea in Hc'; injection Hc' as <-|]); cbn [blen set_next]; [done| | |].
    + destruct Hx' as [->|Hx']; [left; lia|]. rewrite Ex in Hc' by (done || by apply Hdx). destruct (Hin x' c' Hx' Hxa' Hc'); lia.
    + destruct Hx as [->|Hx]; [right; lia|]. rewrite Ex in Hc by (done || by apply Hdx). destruct (Hin x c Hx Hxa Hc); lia.
    + destruct Hx as [->|Hx], Hx' as [->|Hx']; [done| | |].
      * rewrite Ed in Hc. injection Hc as <-. rewrite Ex in Hc' by (done || by apply Hdx). cbn [blen nd].
        destruct (Hin x' c' Hx' Hxa' Hc'); lia.
      * rewrite Ed in Hc'. injection Hc' as <-. rewrite Ex in Hc by (done || by apply Hdx). cbn [blen nd].
        destruct (Hin x c Hx Hxa Hc); lia.
      * rewrite Ex in Hc, Hc' by (done || by apply Hdx). by apply (H5 x x').
  - intros x c f [->|Hx]%Hl Hc Hf; rewrite Hl; unfold fin, sizeof_arena.
    + rewrite Ed in Hc. injection Hc as <-. cbn [forward_ptr blen nd] in *. destruct (H6 a b f Hla Hb Hf) as [? ->]. split; [by right|unfold d; lia].
    + destruct (decide (x = a)) as [->|Hne].
      * rewrite Ea in Hc. injection Hc as <-. cbn in Hf. injection Hf as <-. split; [by left|done].
      * rewrite Ex in Hc by (done || by apply Hdx). destruct (H6 x c f Hx Hc Hf). by split; [right|].
  - intros x c f [->|Hx]%Hl Hc Hf.
    + rewrite Ed in Hc. injection Hc as <-. cbn in Hf. injection Hf as <-. unfold d. lia.
    + destruct (decide (x = a)) as [->|Hne].
      * rewrite Ea in Hc. injection Hc as <-. by apply (H7 a b).
      * rewrite Ex in Hc by (done || by apply Hdx). by apply (H7 x c).
Qed.

Lemma take_block_Ok h a b size :
  heap_ok h → a ∈ free_list h → hdrs h !! a = Some b → 16 <= size → size + 28 <= blen b →
  ∃ h' b', take_block a size h = Ok ((), h') ∧ heap_ok h' ∧ pages h' = pages h ∧ a ∈ used_list h' ∧
    hdrs h' !! a = Some b' ∧ size <= blen b' <= blen b ∧
    ∀ u c, u ∈ used_list h → hdrs h !! u = Some c → u ∈ used_list h' ∧ hdrs h' !! u = Some c.
Proof.
  intros O Ha Hb Hs Hlen. destruct (ho_live _ O a (or_introl Ha)) as (b0 & Hb0 & R1 & R2 & R3 & R4 & R5).
  assert (b0 = b) as -> by congruence. unfold fin, sizeof_arena in R4.
  set (h1 := set_lists (filter (λ x, x ≠ a) (free_list h)) (a :: used_list h) h).
  pose proof (use_block h a b O Ha Hb) as O1. unfold take_block. rewrite (st_bind_eq _ _ h () h1) by done.
  rewrite (st_bind_eq _ _ h1 b h1) by (unfold header; cbn; by rewrite Hb).
  assert (Hu : ∀ u, u ∈ used_list h → u ≠ a) by (intros u Hu ->; by apply (live_split h a O)).
  unfold sizeof_arena, MIN_BLOCK_SIZE. rewrite (u32_small (blen b - size)) by lia.
  destruct (Z.ltb_spec (blen b - size) (28 + 16)).
  - eexists _, _. split; [done|]. split; [exact O1|]. split; [done|]. split; [apply list_elem_of_here|].
    split; [cbn; by rewrite lookup_insert_eq|]. split; [cbn; lia|]. intros u c Hu' Hc. split; [by apply list_elem_of_further|].
    cbn. rewrite lookup_insert_ne by (by apply not_eq_sym, Hu). done.
  - set (h2 := set_hdrs (<[a := set_used true b]> (hdrs h)) h1).
    destruct (split_block h2 a (set_used true b) size O1) as [O2 Hd]; [apply list_elem_of_here|cbn; by rewrite lookup_insert_eq|lia|cbn; unfold sizeof_arena; lia|].
    unfold sizeof_arena in *. rewrite (u32_small (a + 28)) by lia. rewrite (u32_small (a + 28 + size)) by lia.
    rewrite (u32_small (blen b - size - 28)) by lia.
    set (nd := Arena ARENA_MAGIC false false (Some a) (forward_ptr b) (blen b - size - 28)).
    set (d := a + 28 + size) in *. assert (Hda : d ≠ a) by (unfold d; lia).
    rewrite (st_bind_eq _ _ h1 () (set_hdrs (<[d := nd]> (hdrs h)) h1)) by done.
    rewrite (st_bind_eq _ _ _ () (set_hdrs (<[a := set_next (Some d) size (set_used true b)]> (<[d := nd]> (hdrs h))) h1)) by done.
    eexists _, _. split; [done|]. cbn [used_list set_lists set_hdrs hdrs h1 free_list].
    split.
    { cbn [h2 h1 set_hdrs set_lists hdrs free_list used_list forward_ptr set_used blen] in O2.
      rewrite (insert_insert_ne (hdrs h)) in O2 by done. rewrite insert_insert_eq in O2. exact O2. }
    split; [done|]. split; [apply list_elem_of_here|]. split; [by rewrite lookup_insert_eq|]. split; [cbn; lia|].
    intros u c Hu' Hc. split; [by apply list_elem_of_further|]. rewrite lookup_insert_ne by (by apply not_eq_sym, Hu).
    rewrite lookup_insert_ne; [done|]. intros <-. apply Hd. right. cbn. by apply list_elem_of_further.
Qed.

Lemma clear_buf_Ok h a b size :
  heap_ok h → live h a → hdrs h !! a = Some b → size <= blen b →
  ∃ h', clear_buf (a + sizeof_arena) size h = Ok ((), h') ∧ heap_ok h' ∧ pages h' = pages h ∧ free_list h' = free_list h ∧
    used_list h' = used_list h ∧ ∀ x, live h x → hdrs h' !! x = hdrs h !! x.
Proof.
  intros O Ha Hb Hs. eexists. split; [done|].
  assert (Hx : ∀ x, live h x →
    filter (λ kv : Z * arena_t, covers (a + sizeof_arena) size (fst kv) = false) (hdrs h) !! x = hdrs h !! x).
  { intros x Hx. destruct (ho_live _ O x Hx) as (c & Hc & _ & _ & Hl & _). rewrite Hc. apply map_lookup_filter_Some. split; [done|].
    cbn [fst]. unfold covers, sizeof_arena. destruct (decide (x = a)) as [->|Hne].
    - destruct (Z.ltb_spec (a + 28) (a + 28)); [lia|done].
    - destruct (ho_disj _ O x a c b Hx Ha Hne Hc Hb) as [D|D]; unfold fin, sizeof_arena in D.
      + destruct (Z.ltb_spec (a + 28) (x + 28)); [lia|done].
      + destruct (Z.ltb_spec x (a + 28 + size)); [lia|apply andb_false_r]. }
  split; [by apply heap_ok_hdrs|]. done.
Qed.

(** Whether fresh pages are big enough for the request they were taken for. *)
Definition fits_fresh (size : Z) : Prop := size + 28 <= fresh_room size.

(** The first search, on pages that are there or just taken. *)
Lemma refind_Ok n size h :
  heap_ok h → 16 <= size < 2147483648 → fits_fresh size →
  (∃ a b h1, refind (S (S n)) size h = Ok (a, h1) ∧ heap_ok h1 ∧ a ∈ free_list h1 ∧ hdrs h1 !! a = Some b ∧ size + 28 <= blen b ∧
     used_list h1 = used_list h ∧ ∀ u, live h u → hdrs h1 !! u = hdrs h !! u) ∨
  (∃ e, refind (S (S n)) size h = Stop e ∧ page_alloc (fresh_pages size) (pages h) = Stop e ∧
     ∀ a b, a ∈ free_list h → hdrs h !! a = Some b → blen b < size + 28).
Proof.
  intros O Hs Hfit. remember (S n) as n1 eqn:En. cbn [refind]. rewrite (st_bind_eq _ _ h h h) by done.
  destruct (find_fit_Ok (free_list h) size h O ltac:(by left)) as (r & E & Hr). rewrite (st_bind_eq _ _ _ _ _ E).
  unfold sizeof_arena in Hr. rewrite u32_small in Hr by lia.
  destruct r as [a|].
  - left. destruct Hr as (Hin & b & Hb & Hlen). exists a, b, h. split_and!; try done. lia.
  - destruct (arena_add_new_pages size h) as [[[] h1]|e] eqn:Ea.
    + left. destruct (add_pages_Ok h size h1 O ltac:(lia) Ea) as (a & b & O1 & Hf & Hu & Hh & Hlen & Hne).
      rewrite (st_bind_eq _ _ _ _ _ Ea). subst n1. cbn [refind]. rewrite (st_bind_eq _ _ h1 h1 h1) by done. rewrite Hf. cbn [find_fit].
      assert (Hb : hdrs h1 !! a = Some b) by (rewrite Hh; by rewrite lookup_insert_eq).
      rewrite (st_bind_eq _ _ h1 (Some a) h1).
      2:{ rewrite (st_bind_eq _ _ h1 b h1) by (unfold header; by rewrite Hb). unfold sizeof_arena. rewrite u32_small by lia.
          unfold fits_fresh in Hfit. destruct (Z.leb_spec (28 + size) (blen b)); [done|lia]. }
      exists a, b, h1. split_and!; try done; [rewrite Hf; apply list_elem_of_here|unfold fits_fresh in Hfit; lia|].
      intros u Hu'. rewrite Hh. rewrite lookup_insert_ne; [done|]. intros <-. by apply (Hne a).
    + right. exists e. split; [unfold mbind, st_bind; by rewrite Ea|]. split; [apply add_pages_Stop; [lia|done]|].
      intros a b Ha Hb. specialize (Hr a b Ha Hb). lia.
Qed.

(** When neither the free blocks nor fresh pages are big enough, the search takes pages
    for ever. *)
Lemma refind_never n size : ∀ h,
  heap_ok h → 0 <= size < 2147483648 → ¬ fits_fresh size →
  (∀ a b, a ∈ free_list h → hdrs h !! a = Some b → blen b < size + 28) → ∀ r, refind n size h ≠ Ok r.
Proof.
  induction n as [|n IH]; intros h O Hs Hfit Hsmall r; cbn [refind]; [done|]. rewrite (st_bind_eq _ _ h h h) by done.
  destruct (find_fit_Ok (free_list h) size h O ltac:(by left)) as (q & E & Hq). rewrite (st_bind_eq _ _ _ _ _ E).
  unfold sizeof_arena in Hq. rewrite u32_small in Hq by lia. destruct q as [a|].
  { destruct Hq as (Hin & b & Hb & Hlen). specialize (Hsmall a b Hin Hb). lia. }
  destruct (arena_add_new_pages size h) as [[[] h1]|e] eqn:Ea; [|unfold mbind, st_bind; by rewrite Ea].
  rewrite (st_bind_eq _ _ _ _ _ Ea). destruct (add_pages_Ok h size h1 O Hs Ea) as (a & b & O1 & Hf & Hu & Hh & Hlen & Hne).
  apply (IH h1 O1 Hs Hfit). intros x c Hx Hc. rewrite Hf in Hx. rewrite Hh in Hc. apply elem_of_cons in Hx as [->|Hx].
  - rewrite lookup_insert_eq in Hc. injection Hc as <-. unfold fits_fresh in Hfit. lia.
  - rewrite lookup_insert_ne in Hc; [by apply (Hsmall x)|]. intros <-. apply (Hne a); [by left|done].
Qed.

Lemma kmalloc_Ok n size h :
  heap_ok h → 1 <= size < 2147483648 → fits_fresh (Z.max size 16) →
  (∃ a b h', kmalloc (S (S n)) size h = Ok (Some (a + 28), h') ∧ heap_ok h' ∧ a ∈ used_list h' ∧ (a ∉ used_list h) ∧
     hdrs h' !! a = Some b ∧ size <= blen b ∧
     ∀ u c, u ∈ used_list h → hdrs h !! u = Some c → u ∈ used_list h' ∧ hdrs h' !! u = Some c) ∨
  (∃ e, kmalloc (S (S n)) size h = Stop e ∧ page_alloc (fresh_pages (Z.max size 16)) (pages h) = Stop e ∧
     ∀ a b, a ∈ free_list h → hdrs h !! a = Some b → blen b < Z.max size 16 + 28).
Proof.
  intros O Hs Hfit. unfold kmalloc. destruct (Z.eqb_spec size 0); [lia|]. cbv zeta. change MIN_BLOCK_SIZE with 16.
  set (sz := Z.max size 16) in *. assert (Hsz : 16 <= sz < 2147483648) by lia. rewrite (st_bind_eq _ _ h h h) by done.
  (* the state after the first test *)
  assert (Hfirst : (∃ h1, (if bool_decide (free_list h = []) then arena_add_new_pages sz else mret ()) h = Ok ((), h1) ∧ heap_ok h1 ∧
      used_list h1 = used_list h ∧ (∀ u, live h u → hdrs h1 !! u = hdrs h !! u) ∧
      (h1 = h ∨ ∃ a b, a ∈ free_list h1 ∧ hdrs h1 !! a = Some b ∧ sz + 28 <= blen b)) ∨
    ((∃ e, (if bool_decide (free_list h = []) then arena_add_new_pages sz else mret ()) h = Stop e ∧
      page_alloc (fresh_pages sz) (pages h) = Stop e ∧ free_list h = []))).
  { case_bool_decide as Hf; [|left; exists h; split_and!; try done; by left]. destruct (arena_add_new_pages sz h) as [[[] h1]|e] eqn:Ea.
    - left. destruct (add_pages_Ok h sz h1 O ltac:(lia) Ea) as (a & b & O1 & Hfl & Hu & Hh & Hlen & Hne). exists h1. split_and!; try done.
      + intros u Hu'. rewrite Hh. rewrite lookup_insert_ne; [done|]. intros <-. by apply (Hne a).
      + right. exists a, b. rewrite Hfl, Hh, lookup_insert_eq, Hlen. split; [apply list_elem_of_here|]. done.
    - right. exists e. split; [done|]. split; [|done]. apply add_pages_Stop; [lia|done]. }
  destruct Hfirst as [(h1 & E1 & O1 & U1 & L1 & Hbig)|(e & E & Hk & Hf)].
  2:{ right. exists e. split; [unfold mbind at 1, st_bind at 1; by rewrite E|]. split; [done|]. rewrite Hf. intros a b Ha. inversion Ha. }
  rewrite (st_bind_eq _ _ _ _ _ E1).
  destruct (refind_Ok n sz h1 O1 Hsz Hfit) as [(a & b & h2 & E2 & O2 & Ha & Hb & Hlen & U2 & L2)|(e & E & Hk & Hsmall)].
  2:{ destruct Hbig as [->|(a & b & Ha & Hb & Hlen)]; [|specialize (Hsmall a b Ha Hb); lia].
      right. exists e. split; [unfold mbind, st_bind; by rewrite E|done]. }
  rewrite (st_bind_eq _ _ _ _ _ E2).
  destruct (take_block_Ok h2 a b sz O2 Ha Hb ltac:(lia) Hlen) as (h3 & b3 & E3 & O3 & _ & Ha3 & Hb3 & Hl3 & K3).
  rewrite (st_bind_eq _ _ _ _ _ E3).
  destruct (ho_live _ O3 a (or_intror Ha3)) as (c & Hc & _ & R2 & _ & R4 & _). assert (c = b3) as -> by congruence.
  unfold fin, sizeof_arena in R4. unfold sizeof_arena. rewrite (u32_small (a + 28)) by lia.
  destruct (clear_buf_Ok h3 a b3 sz O3 (or_intror Ha3) Hb3 ltac:(lia)) as (h4 & E4 & O4 & _ & _ & U4 & L4).
  rewrite (st_bind_eq _ _ _ _ _ E4). left. exists a, b3, h4.
  assert (Hnu : a ∉ used_list h) by (rewrite <- U1, <- U2; by apply (live_split h2)).
  split; [done|]. split; [done|]. split; [by rewrite U4|]. split; [done|]. split; [by rewrite L4 by (by right)|]. split; [lia|].
  intros u c Hu Hc'. assert (Hlu : live h u) by (by right).
  destruct (K3 u c) as [K K']; [by rewrite U2, U1|by rewrite L2, L1 by (done || (right; by rewrite U1))|].
  split; [by rewrite U4|]. by rewrite L4 by (by right).
Qed.

(** ** kfree *)

(** A used block becomes a free one. *)
Lemma free_block h a b :
  heap_ok h → a ∈ used_list h → hdrs h !! a = Some b →
  heap_ok (set_hdrs (<[a := set_used false b]> (hdrs h)) (set_lists (a :: free_list h) (filter (λ x, x ≠ a) (used_list h)) h)).
Proof.
  intros O Ha Hb. pose proof O as [H1 H2 H3 H4 H5 H6 H7]. assert (Hla : live h a) by (by right).
  set (h' := set_hdrs _ _).
  assert (Hl : ∀ x, live h' x ↔ live h x).
  { intros x. unfold live. cbn. rewrite elem_without, elem_of_cons. destruct (decide (x = a)) as [->|]; naive_solver. }
  assert (Hfin : ∀ x c, hdrs h' !! x = Some c → ∃ c0, hdrs h !! x = Some c0 ∧ fin x c = fin x c0 ∧ forward_ptr c = forward_ptr c0 ∧
    back_ptr c = back_ptr c0 ∧ is_used c = if decide (x = a) then false else is_used c0).
  { intros x c. cbn. case_decide as D; [subst; rewrite lookup_insert_eq; intros [= <-]; by exists b|].
    rewrite lookup_insert_ne by done. by exists c. }
  split.
  - done.
  - cbn. apply NoDup_app in H2 as (N1 & N2 & N3). constructor.
    + rewrite elem_of_app, elem_without. intros [Hx|[? _]]; [|done]. by apply (live_split h a O).
    + apply NoDup_app. split; [done|]. split; [|by apply NoDup_filter]. intros x Hx [_ Hx']%elem_without. by apply (N2 x).
  - intros x Hx%Hl. destruct (H3 x Hx) as (c & Hc & R). cbn. destruct (decide (x = a)) as [->|Hne].
    + rewrite lookup_insert_eq. assert (c = b) as -> by congruence. eexists. by split.
    + rewrite lookup_insert_ne by done. by exists c.
  - intros x c (c0 & Hc0 & _ & _ & _ & Eu)%Hfin. cbn. rewrite elem_without, elem_of_cons, Eu. destruct (H4 x c0 Hc0) as [U1 U2].
    destruct (decide (x = a)) as [->|Hne]; [by split; [intros [? _]|]|]. split; [intros [_ ?]; by apply U1|intros [?|?]; [done|by apply U2]].
  - intros x x' c c' Hx%Hl Hx'%Hl Hne (c0 & E0 & -> & _)%Hfin (c1 & E1 & -> & _)%Hfin. by apply (H5 x x').
  - intros x c f Hx%Hl (c0 & E0 & -> & -> & _)%Hfin Hf. destruct (H6 x c0 f Hx E0 Hf) as [? ?]. by rewrite Hl.
  - intros x c f Hx%Hl (c0 & E0 & _ & _ & -> & _)%Hfin. by apply (H7 x c0).
Qed.

(** Two neighbouring free blocks become one. *)
Lemma merge_block h p b f c :
  heap_ok h → p ∈ free_list h → hdrs h !! p = Some b → forward_ptr b = Some f → hdrs h !! f = Some c → is_used c = false →
  f ∈ free_list h ∧ p < f ∧ fin p b = f ∧ u32 (blen b + (blen c + sizeof_arena)) = blen b + blen c + 28 ∧
  heap_ok (set_hdrs (<[p := set_next (forward_ptr c) (blen b + blen c + 28) b]> (hdrs h))
    (set_lists (filter (λ x, x ≠ f) (free_list h)) (used_list h) h)).
Proof.
  intros O Hp Hb Hf Hc Hu. pose proof O as [H1 H2 H3 H4 H5 H6 H7]. assert (Hlp : live h p) by (by left).
  destruct (H6 p b f Hlp Hb Hf) as [Hlf Ef].
  assert (Hff : f ∈ free_list h).
  { destruct Hlf as [?|Hfu]; [done|]. destruct (H4 f c Hc) as [U1 _]. rewrite U1 in Hu by done. done. }
  destruct (H3 p Hlp) as (b0 & Hb0 & M1 & M2 & M3 & M4 & M5). assert (b0 = b) as -> by congruence.
  destruct (H3 f Hlf) as (c0 & Hc0 & N1 & N2 & N3 & N4 & N5). assert (c0 = c) as -> by congruence.
  unfold fin, sizeof_arena in *. assert (Hpf : p < f) by lia.
  split; [done|]. split; [done|]. split; [done|]. split; [rewrite u32_small; lia|].
  set (h' := set_hdrs _ _).
  assert (Hl : ∀ x, live h' x ↔ live h x ∧ x ≠ f).
  { intros x. unfold live. cbn. rewrite elem_without. split; [|tauto]. intros [[? ?]|Hx]; [tauto|]. split; [by right|]. intros ->.
    by apply (live_split h f O). }
  assert (Ep : hdrs h' !! p = Some (set_next (forward_ptr c) (blen b + blen c + 28) b)) by (cbn; by rewrite lookup_insert_eq).
  assert (Ex : ∀ x, x ≠ p → hdrs h' !! x = hdrs h !! x) by (intros; cbn; by rewrite lookup_insert_ne by done).
  assert (Hout : ∀ x d, live h x → x ≠ p → x ≠ f → hdrs h !! x = Some d → x + 28 + blen d <= p ∨ f + 28 + blen c <= x).
  { intros x d Hx Hxp Hxf Hd. destruct (H3 x Hx) as (d0 & Hd0 & _ & _ & D3 & _). assert (d0 = d) as -> by congruence.
    destruct (H5 x p d b Hx Hlp Hxp Hd Hb) as [?|?]; [by left|]. destruct (H5 x f d c Hx Hlf Hxf Hd Hc) as [?|?]; [|by right]. lia. }
  split.
  - done.
  - cbn. apply NoDup_app in H2 as (D1 & D2 & D3). apply NoDup_app. split; [by apply NoDup_filter|]. split; [|done].
    intros x [_ Hx]%elem_without. by apply D2.
  - intros x [Hx Hxf]%Hl. unfold fin, sizeof_arena. destruct (decide (x = p)) as [->|Hne].
    + eexists. split; [exact Ep|]. cbn [magic blen set_next]. split_and!; try done; try lia. intros y Hy.
      destruct (decide (y < f)); [apply M5; lia|apply N5; lia].
    + rewrite Ex by done. by apply H3.
  - intros x d Hd. cbn. rewrite elem_without. destruct (decide (x = p)) as [->|Hne].
    + rewrite Ep in Hd. injection Hd as <-. destruct (H4 p b Hb) as [U1 U2]. split; [done|]. intros [_ ?]. by apply U2.
    + rewrite Ex in Hd by done. destruct (H4 x d Hd) as [U1 U2]. split; [done|]. intros [_ ?]. by apply U2.
  - intros x x' d d' [Hx Hxf]%Hl [Hx' Hxf']%Hl Hne Hd Hd'. unfold fin, sizeof_arena.
    destruct (decide (x = p)) as [->|Hxp].
    + rewrite Ep in Hd. injection Hd as <-. rewrite Ex in Hd' by done. cbn [blen set_next].
      destruct (Hout x' d' Hx' ltac:(done) Hxf' Hd'); lia.
    + rewrite Ex in Hd by done. destruct (decide (x' = p)) as [->|Hxp'].
      * rewrite Ep in Hd'. injection Hd' as <-. cbn [blen set_next]. destruct (Hout x d Hx Hxp Hxf Hd); lia.
      * rewrite Ex in Hd' by done. by apply (H5 x x').
  - intros x d g [Hx Hxf]%Hl Hd Hg. rewrite Hl. unfold fin, sizeof_arena. destruct (decide (x = p)) as [->|Hxp].
    + rewrite Ep in Hd. injection Hd as <-. cbn [forward_ptr set_next blen] in *. destruct (H6 f c g Hlf Hc Hg) as [Hlg ->].
      split; [split; [done|lia]|lia].
    + rewrite Ex in Hd by done. destruct (H6 x d g Hx Hd Hg) as [Hlg Eg]. split; [|done]. split; [done|]. intros ->.
      destruct (H3 x Hx) as (d0 & Hd0 & _ & _ & D3 & _). assert (d0 = d) as -> by congruence.
      destruct (H5 x p d b Hx Hlp Hxp Hd Hb); lia.
  - intros x d g [Hx Hxf]%Hl Hd Hg. destruct (decide (x = p)) as [->|Hxp].
    + rewrite Ep in Hd. injection Hd as <-. by apply (H7 p b).
    + rewrite Ex in Hd by done. by apply (H7 x d).
Qed.

(** The bytes that are in some block, free or used. *)
Definition covered (h : heap) (x : Z) : Prop := ∃ a b, live h a ∧ hdrs h !! a = Some b ∧ a <= x < fin a b.

(** *** Runs of free blocks

    [right_run h o fs]: the free blocks from the one [o] points to on are [fs], and no free one
    follows them.  [left_run h b a ps]: the free blocks in front of block [a] with header [b],
    nearest first, are [ps], each linked with its neighbour in both directions, and none is in
    front of them. *)
Definition used_end (h : heap) (o : option Z) : Prop := match o with None => True | Some f => f ∈ used_list h end.

Fixpoint right_run (h : heap) (o : option Z) (fs : list Z) : Prop :=
  match fs with
  | [] => used_end h o
  | f :: fs => o = Some f ∧ f ∈ free_list h ∧ ∃ c, hdrs h !! f = Some c ∧ right_run h (forward_ptr c) fs
  end.

Fixpoint left_run (h : heap) (b : arena_t) (a : Z) (ps : list Z) : Prop :=
  match ps with
  | [] => used_end h (back_ptr b)
  | p :: ps => back_ptr b = Some p ∧ p ∈ free_list h ∧ ∃ c, hdrs h !! p = Some c ∧ forward_ptr c = Some a ∧ left_run h c p ps
  end.

(** The bytes of a run, headers included, and what is behind it. *)
Fixpoint run_size (h : heap) (l : list Z) : Z :=
  match l with [] => 0 | x :: l => sizeof_arena + from_option blen 0 (hdrs h !! x) + run_size h l end.
Fixpoint run_next (h : heap) (o : option Z) (l : list Z) : option Z :=
  match l with [] => o | x :: l => run_next h (c ← hdrs h !! x; forward_ptr c) l end.

Lemma right_run_end h l : ∀ o, right_run h o l → used_end h (run_next h o l).
Proof. induction l as [|f l IH]; intros o; [done|]. intros (_ & _ & c & Hc & R). cbn. rewrite Hc. by apply IH. Qed.

(** A run to the right, and what ends it, lies above the block it starts from. *)
Lemma right_run_above h l : ∀ p b, heap_ok h → live h p → hdrs h !! p = Some b → right_run h (forward_ptr b) l →
  Forall (λ x, p < x) l ∧ ∀ e, run_next h (forward_ptr b) l = Some e → p < e.
Proof.
  assert (Hnext : ∀ p b f, heap_ok h → live h p → hdrs h !! p = Some b → forward_ptr b = Some f → p < f).
  { intros p b f O Hp Hb Ef. destruct (ho_next _ O p b f Hp Hb Ef) as [_ Efin]. destruct (ho_live _ O p Hp) as (b0 & Hb0 & _ & _ & Hlen & _).
    assert (b0 = b) as -> by congruence. unfold fin, sizeof_arena in Efin. lia. }
  induction l as [|f l IH]; intros p b O Hp Hb; [intros _; split; [constructor|]; intros e Ee; by apply (Hnext p b)|].
  intros (Ef & Hf & c & Hc & R). specialize (Hnext p b f O Hp Hb Ef). destruct (IH f c O (or_introl Hf) Hc R) as [F E].
  cbn [run_next]. rewrite Hc. cbn [mbind option_bind]. split; [|intros e Ee; specialize (E e Ee); lia].
  constructor; [done|]. eapply Forall_impl; [exact F|]. cbn. intros. lia.
Qed.

(** A run holds no block twice. *)
Lemma right_run_length h l p b : heap_ok h → live h p → hdrs h !! p = Some b → right_run h (forward_ptr b) l → (length l <= length (free_list h))%nat.
Proof.
  intros O Hp Hb R. enough (NoDup l ∧ ∀ x, x ∈ l → x ∈ free_list h) as [N S] by by apply submseteq_length, NoDup_submseteq.
  revert p b Hp Hb R. induction l as [|f l IH]; intros p b Hp Hb; [split; [constructor|intros x Hx; inversion Hx]|].
  intros (_ & Hf & c & Hc & R). destruct (IH f c (or_introl Hf) Hc R) as [N S]. destruct (right_run_above h l f c O (or_introl Hf) Hc R) as [F _].
  rewrite Forall_forall in F. split; [constructor; [intros Hin; specialize (F f Hin); lia|done]|]. intros x [->|Hx]%elem_of_cons; [done|by apply S].
Qed.

(** Only the headers and the lists matter that the run meets. *)
Lemma right_run_frame h h' l : ∀ o,
  (∀ x, x ∈ l → hdrs h' !! x = hdrs h !! x ∧ (x ∈ free_list h → x ∈ free_list h')) → (∀ e, run_next h o l = Some e → e ∈ used_list h → e ∈ used_list h') →
  right_run h o l → right_run h' o l ∧ run_size h' l = run_size h l ∧ run_next h' o l = run_next h o l.
Proof.
  induction l as [|f l IH]; intros o Hl Hu; cbn [right_run run_size run_next]; [by destruct o as [e|]; [intros He; split; [by apply Hu|]|]|].
  intros (Ef & Hf & c & Hc & R). destruct (Hl f) as [Eh Hff]; [apply list_elem_of_here|]. rewrite Eh, Hc. cbn [mbind option_bind].
  cbn [run_next] in Hu. rewrite Hc in Hu. cbn [mbind option_bind] in Hu.
  destruct (IH (forward_ptr c)) as (R' & S' & N'); [intros; by apply Hl, list_elem_of_further|done|done|].
  split; [|split; [by rewrite S'|done]]. split; [done|]. split; [by apply Hff|]. by exists c.
Qed.

(** Every live block has a run to its right, of no more than the free blocks. *)
Lemma right_run_exists n : ∀ h p b, heap_ok h → live h p → hdrs h !! p = Some b → (length (filter (λ x, (p < x)%Z) (free_list h)) <= n)%nat →
  ∃ fs, right_run h (forward_ptr b) fs ∧ (length fs <= n)%nat.
Proof.
  induction n as [|n IH]; intros h p b O Hp Hb Hn.
  all: destruct (forward_ptr b) as [f|] eqn:Ef; [|exists []; split; [done|cbn; lia]].
  all: destruct (ho_next _ O p b f Hp Hb Ef) as [Hlf Efin].
  all: destruct (ho_live _ O p Hp) as (b0 & Hb0 & _ & _ & Hlen & _); assert (b0 = b) as -> by congruence; unfold fin, sizeof_arena in Efin.
  all: destruct Hlf as [Hf|Hf]; [|exists []; split; [done|cbn; lia]].
  - assert (Hin : f ∈ filter (λ x, (p < x)%Z) (free_list h)) by (rewrite list_elem_of_filter; split; [lia|done]).
    destruct (filter _ _); [inversion Hin|cbn in Hn; lia].
  - destruct (header_live h f O (or_introl Hf)) as (c & _ & Hc). destruct (IH h f c O (or_introl Hf) Hc) as (fs & R & Hfs).
    + enough (length (filter (λ x, (f < x)%Z) (free_list h)) < length (filter (λ x, (p < x)%Z) (free_list h)))%nat by lia.
      assert (E : filter (λ x, f < x) (free_list h) = filter (λ x, f < x) (filter (λ x, p < x) (free_list h))).
      { rewrite list_filter_filter. apply list_filter_iff. intros x. lia. }
      rewrite E. apply (length_filter_lt _ _ f); [rewrite list_elem_of_filter; split; [lia|done]|lia].
    + exists (f :: fs). split; [|cbn; lia]. split; [done|]. split; [done|]. by exists c.
Qed.

Lemma covered_merge h p b f c :
  heap_ok h → p ∈ free_list h → hdrs h !! p = Some b → forward_ptr b = Some f → hdrs h !! f = Some c → is_used c = false →
  ∀ x, covered (set_hdrs (<[p := set_next (forward_ptr c) (blen b + blen c + 28) b]> (hdrs h))
    (set_lists (filter (λ x, x ≠ f) (free_list h)) (used_list h) h)) x ↔ covered h x.
Proof.
  intros O Hp Hb Hf Hc Hu x. destruct (merge_block h p b f c O Hp Hb Hf Hc Hu) as (Hff & Hlt & Ef & _ & O').
  destruct (ho_live _ O p (or_introl Hp)) as (b0 & Hb0 & _ & _ & M3 & _). assert (b0 = b) as -> by congruence.
  destruct (ho_live _ O f (or_introl Hff)) as (c0 & Hc0 & _ & _ & N3 & _). assert (c0 = c) as -> by congruence.
  unfold covered, live, fin, sizeof_arena in *. cbn [free_list used_list hdrs set_hdrs set_lists]. split.
  - intros (a & d & Ha & Hd & Hx). rewrite elem_without in Ha. destruct (decide (a = p)) as [->|Hne].
    + rewrite lookup_insert_eq in Hd. injection Hd as <-. cbn [blen set_next] in Hx.
      destruct (decide (x < f)); [exists p, b|exists f, c]; (split; [by left|split; [done|lia]]).
    + rewrite lookup_insert_ne in Hd by done. exists a, d. split; [tauto|done].
  - intros (a & d & Ha & Hd & Hx). destruct (decide (a = p)) as [->|Hne].
    + assert (d = b) as -> by congruence. exists p. eexists. rewrite lookup_insert_eq, elem_without. split; [left; split; [lia|done]|].
      split; [done|cbn; lia].
    + destruct (decide (a = f)) as [->|Haf].
      * assert (d = c) as -> by congruence. exists p. eexists. rewrite lookup_insert_eq, elem_without. split; [left; split; [lia|done]|].
        split; [done|cbn; lia].
      * exists a, d. rewrite lookup_insert_ne by done. rewrite elem_without. split; [tauto|done].
Qed.

(** The block that comes of joining the blocks [l] to [p]. *)
Definition joined (h : heap) (b : arena_t) (l : list Z) : arena_t := set_next (run_next h (forward_ptr b) l) (blen b + run_size h l) b.

(** What a release leaves alone: the used blocks, and the bytes that are in blocks. *)
Record joins (h h' : heap) (p : Z) (b : arena_t) (l : list Z) : Prop := {
  jo_ok : heap_ok h'; jo_used : used_list h' = used_list h; jo_free : free_list h' = filter (λ x, x ∉ l) (free_list h);
  jo_hdr : hdrs h' !! p = Some (joined h b l); jo_other : ∀ x, x ≠ p → hdrs h' !! x = hdrs h !! x; jo_covered : ∀ x, covered h' x ↔ covered h x
}.

Lemma merge_forward_Ok l : ∀ h p b n,
  heap_ok h → p ∈ free_list h → hdrs h !! p = Some b → right_run h (forward_ptr b) l → (length l < n)%nat →
  ∃ h', merge_forward n p h = Ok ((), h') ∧ joins h h' p b l.
Proof.
  induction l as [|f l IH]; intros h p b n O Hp Hb R Hn; (destruct n as [|n]; [cbn in Hn; lia|]); cbn [merge_forward];
    rewrite (st_bind_eq _ _ h b h) by (unfold header; by rewrite Hb).
  - exists h. split; [|split; try done].
    + destruct (forward_ptr b) as [f|] eqn:Ef; [|done]. cbn in R. destruct (header_live h f O (or_intror R)) as (c & Ec & Hc).
      rewrite (st_bind_eq _ _ _ _ _ Ec). by rewrite (proj1 (ho_used _ O f c Hc) R).
    + by rewrite filter_keeps by (intros; apply not_elem_of_nil).
    + unfold joined. cbn. rewrite Z.add_0_r, Hb. by destruct b.
  - pose proof (right_run_above h (f :: l) p b O (or_introl Hp) Hb R) as Habove. destruct R as (Ef & Hf & c & Hc & R).
    pose proof (right_run_above h l f c O (or_introl Hf) Hc R) as Habove2. destruct Habove as [Habove _], Habove2 as [Habove2 _]. rewrite Forall_cons, Forall_forall in Habove. rewrite Forall_forall in Habove2. destruct Habove as [Hpf Habove].
    assert (Eu : is_used c = false) by by apply (ho_used _ O f c Hc).
    rewrite Ef, (st_bind_eq _ _ h c h) by (unfold header; by rewrite Hc). rewrite Eu.
    destruct (merge_block h p b f c O Hp Hb Ef Hc Eu) as (_ & _ & _ & Elen & O1). pose proof (covered_merge h p b f c O Hp Hb Ef Hc Eu) as Hcov.
    rewrite (st_bind_eq _ _ h h h) by done. rewrite (st_bind_eq _ _ h () h) by (unfold sassert; by rewrite bool_decide_true).
    rewrite (st_bind_eq _ _ h () (set_lists (filter (λ x, x ≠ f) (free_list h)) (used_list h) h)) by done. rewrite Elen in *.
    set (b1 := set_next (forward_ptr c) (blen b + blen c + 28) b) in *. set (h1 := set_hdrs _ _) in O1, Hcov.
    rewrite (st_bind_eq _ _ _ () h1) by done.
    assert (Hp1 : p ∈ free_list h1) by (cbn; rewrite elem_without; split; [lia|done]).
    assert (Hb1 : hdrs h1 !! p = Some b1) by (cbn; by rewrite lookup_insert_eq).
    destruct (right_run_frame h h1 l (forward_ptr c)) as (R1 & S1 & N1); [|done|done|].
    { intros x Hx. specialize (Habove x Hx). specialize (Habove2 x Hx). cbn in *. rewrite lookup_insert_ne by lia. split; [done|]. intros ?. rewrite elem_without. split; [lia|done]. }
    destruct (IH h1 p b1 n O1 Hp1 Hb1 R1 ltac:(cbn in Hn; lia)) as (h' & E & [J1 J2 J3 J4 J5 J6]). exists h'. split; [exact E|]. split.
    + exact J1.
    + exact J2.
    + rewrite J3. cbn. rewrite list_filter_filter. apply list_filter_iff. intros x. rewrite not_elem_of_cons. tauto.
    + rewrite J4. f_equal. unfold joined, b1, set_next. cbn [forward_ptr blen run_size run_next magic is_used is_head back_ptr]. rewrite S1, N1, Hc. cbn [mbind option_bind from_option].
      unfold sizeof_arena. f_equal. lia.
    + intros x Hx. rewrite J5 by done. cbn. by rewrite lookup_insert_ne.
    + intros x. by rewrite J6.
Qed.

(** The first block of a run and the others, [a] among its blocks, [ps] in front of it and [rs]
    behind it. *)
Fixpoint run_start (a : Z) (ps : list Z) : Z := match ps with [] => a | p :: ps => run_start p ps end.
Fixpoint run_rest (a : Z) (ps rs : list Z) : list Z := match ps with [] => rs | p :: ps => run_rest p ps (a :: rs) end.

Lemma run_size_app h l k : run_size h (l ++ k) = run_size h l + run_size h k.
Proof. induction l as [|x l IH]; [done|]. cbn. rewrite IH. lia. Qed.

Lemma run_rest_length ps : ∀ a rs, length (run_rest a ps rs) = (length ps + length rs)%nat.
Proof. induction ps as [|p ps IH]; intros a rs; [done|]. cbn. rewrite IH. cbn. lia. Qed.

Lemma run_rest_size h ps : ∀ a rs, run_size h (run_start a ps :: run_rest a ps rs) = run_size h (a :: ps ++ rs).
Proof. induction ps as [|p ps IH]; intros a rs; [done|]. cbn [run_start run_rest]. rewrite IH. cbn [run_size app]. rewrite !run_size_app. cbn [run_size]. lia. Qed.

(** Seen from its first block, a run reaches to the right only. *)
Lemma run_from_start h ps : ∀ a b rs, heap_ok h → a ∈ free_list h → hdrs h !! a = Some b → left_run h b a ps → right_run h (forward_ptr b) rs →
  let p := run_start a ps in p ∈ free_list h ∧ p <= a ∧ ∃ c, hdrs h !! p = Some c ∧ used_end h (back_ptr c) ∧ right_run h (forward_ptr c) (run_rest a ps rs).
Proof.
  induction ps as [|p ps IH]; intros a b rs O Ha Hb L R; cbn [run_start run_rest]; [split; [done|]; split; [lia|]; by exists b|].
  destruct L as (Eb & Hp & c & Hc & Ef & L). pose proof (ho_back _ O a b p (or_introl Ha) Hb Eb).
  destruct (IH p c (a :: rs) O Hp Hc L) as (H1 & H2 & H3); [split; [done|]; split; [done|]; by exists b|]. split; [done|]. split; [lia|done].
Qed.

Lemma walk_back_Ok h ps : ∀ a b n, heap_ok h → hdrs h !! a = Some b → left_run h b a ps → (length ps < n)%nat → walk_back n a h = Ok (run_start a ps, h).
Proof.
  induction ps as [|p ps IH]; intros a b n O Hb L Hn; (destruct n as [|n]; [cbn in Hn; lia|]); cbn [walk_back]; rewrite (st_bind_eq _ _ h b h) by (unfold header; by rewrite Hb).
  - cbn in L. destruct (back_ptr b) as [q|]; [|done]. destruct (header_live h q O (or_intror L)) as (c & Ec & Hc).
    rewrite (st_bind_eq _ _ _ _ _ Ec). by rewrite (proj1 (ho_used _ O q c Hc) L).
  - destruct L as (-> & Hp & c & Hc & _ & L). rewrite (st_bind_eq _ _ h c h) by (unfold header; by rewrite Hc).
    rewrite (proj2 (ho_used _ O p c Hc) Hp). apply (IH p c); [done..|cbn in Hn; lia].
Qed.

(** *** The release of a block *)

Section freed.
Context (h : heap) (a : Z) (b : arena_t) (O : heap_ok h) (Ha : a ∈ used_list h) (Hb : hdrs h !! a = Some b).
Definition freed : heap := set_hdrs (<[a := set_used false b]> (hdrs h)) (set_lists (a :: free_list h) (filter (λ x, x ≠ a) (used_list h)) h).

Lemma freed_other x : x ≠ a → hdrs freed !! x = hdrs h !! x.
Proof. intros Hx. cbn. by rewrite lookup_insert_ne. Qed.

Lemma free_not_released x : x ∈ free_list h → x ≠ a.
Proof. intros Hx ->. by apply (live_split h a O). Qed.

Lemma freed_left ps : ∀ x c, live h x → hdrs h !! x = Some c → x <= a → left_run h c x ps → left_run freed c x ps.
Proof.
  induction ps as [|p ps IH]; intros x c Hx Hc Hxa; cbn [left_run].
  - destruct (back_ptr c) as [q|] eqn:Eq; [|done]. pose proof (ho_back _ O x c q Hx Hc Eq). cbn. rewrite elem_without. split; [lia|done].
  - intros (Ep & Hp & d & Hd & Ef & L). pose proof (ho_back _ O x c p Hx Hc Ep). split; [done|]. split; [by apply list_elem_of_further|].
    exists d. rewrite freed_other by lia. split; [done|]. split; [done|]. apply (IH p d); [by left|done|lia|done].
Qed.

Lemma freed_right rs : right_run h (forward_ptr b) rs → right_run freed (forward_ptr b) rs ∧ run_size freed rs = run_size h rs.
Proof.
  intros R. destruct (right_run_above h rs a b O (or_intror Ha) Hb R) as [F E]. rewrite Forall_forall in F.
  destruct (right_run_frame h freed rs (forward_ptr b)) as (R' & S' & _); [| |done|done].
  - intros x Hx. specialize (F x Hx). split; [apply freed_other; lia|by apply list_elem_of_further].
  - intros e He Hu. specialize (E e He). cbn. rewrite elem_without. split; [lia|done].
Qed.

Lemma freed_size l : run_size freed l = run_size h l.
Proof.
  induction l as [|x l IH]; [done|]. cbn [run_size]. rewrite IH. destruct (decide (x = a)) as [->|]; [|by rewrite freed_other].
  cbn. by rewrite lookup_insert_eq, Hb.
Qed.

Lemma freed_covered x : covered freed x ↔ covered h x.
Proof.
  assert (Hl : ∀ x, live freed x ↔ live h x).
  { intros y. unfold live. cbn. rewrite elem_without, elem_of_cons. destruct (decide (y = a)) as [->|]; naive_solver. }
  split; intros (q & c & Hq & Hc & Hx); apply Hl in Hq; exists q.
  - destruct (decide (q = a)) as [->|Hne]; [|rewrite freed_other in Hc by done; by exists c].
    cbn in Hc. rewrite lookup_insert_eq in Hc. injection Hc as <-. by exists b.
  - destruct (decide (q = a)) as [->|Hne]; [|exists c; rewrite freed_other by done; by (split; [done|by split])].
    assert (c = b) as -> by congruence. exists (set_used false b). split; [done|]. cbn. rewrite lookup_insert_eq. by split.
Qed.

Lemma magic_ahead : (match forward_ptr b with None => mret () | Some f => c ← header f; sassert (magic c =? ARENA_MAGIC) end) h = Ok ((), h).
Proof.
  destruct (forward_ptr b) as [f|] eqn:Ef; [|done]. destruct (ho_next _ O a b f (or_intror Ha) Hb Ef) as [Hlf _].
  destruct (ho_live _ O f Hlf) as (c & Hc & Hm & _). rewrite (st_bind_eq _ _ h c h) by (unfold header; by rewrite Hc). unfold sassert. by rewrite Hm.
Qed.

Lemma kfree_steps n : kfree n (Some (a + 28)) h = (p ← walk_back n a; merge_forward n p) freed.
Proof.
  destruct (ho_live _ O a (or_intror Ha)) as (b0 & Hb0 & _ & R2 & R3 & R4 & _). assert (b0 = b) as -> by congruence. unfold fin, sizeof_arena in R4.
  unfold kfree. assert (Ea : u32 (a + 28 - sizeof_arena) = a) by (unfold sizeof_arena; rewrite u32_small; lia). cbv zeta. rewrite Ea. clear Ea.
  rewrite (st_bind_eq _ _ h b h) by (unfold header; by rewrite Hb). rewrite (st_bind_eq _ _ _ _ _ magic_ahead).
  rewrite (st_bind_eq _ _ h h h) by done. rewrite (st_bind_eq _ _ h () h) by (unfold sassert; by rewrite bool_decide_true). done.
Qed.
End freed.

Lemma kfree_Ok n h a b ps :
  heap_ok h → a ∈ used_list h → hdrs h !! a = Some b → left_run h b a ps → (S (length (free_list h)) < n)%nat →
  ∃ h' rs d, let p := run_start a ps in right_run h (forward_ptr b) rs ∧ kfree n (Some (a + 28)) h = Ok ((), h') ∧ heap_ok h' ∧
    used_list h' = filter (λ x, x ≠ a) (used_list h) ∧ free_list h' = filter (λ x, x ∉ run_rest a ps rs) (a :: free_list h) ∧
    p ∈ free_list h' ∧ p <= a ∧ hdrs h' !! p = Some d ∧ sizeof_arena + blen d = run_size h (a :: ps ++ rs) ∧ used_end h' (back_ptr d) ∧ used_end h' (forward_ptr d) ∧
    (∀ x, x ≠ p → x ≠ a → hdrs h' !! x = hdrs h !! x) ∧ ∀ x, covered h' x ↔ covered h x.
Proof.
  intros O Ha Hb L Hn. destruct (right_run_exists (length (free_list h)) h a b O (or_intror Ha) Hb (length_filter _ _)) as (rs & R & _).
  pose proof (free_block h a b O Ha Hb) as O1. fold (freed h a b) in O1. set (h1 := freed h a b) in *.
  assert (Ha1 : a ∈ free_list h1) by apply list_elem_of_here. assert (Hb1 : hdrs h1 !! a = Some (set_used false b)) by (cbn; by rewrite lookup_insert_eq).
  assert (L1 : left_run h1 (set_used false b) a ps).
  { pose proof (freed_left h a b O ps a b (or_intror Ha) Hb ltac:(lia) L) as L1. by destruct ps. }
  destruct (freed_right h a b O Ha Hb rs R) as [R1 _].
  destruct (run_from_start h1 ps a (set_used false b) rs O1 Ha1 Hb1 L1 R1) as (Hp & Hpa & c & Hc & Bc & Rc). set (p := run_start a ps) in *.
  pose proof (right_run_length h1 _ p c O1 (or_introl Hp) Hc Rc) as Hlen. cbn [h1 freed free_list set_hdrs set_lists length] in Hlen.
  destruct (merge_forward_Ok (run_rest a ps rs) h1 p c n O1 Hp Hc Rc ltac:(lia)) as (h' & E & [J1 J2 J3 J4 J5 J6]).
  exists h', rs, (joined h1 c (run_rest a ps rs)). cbv zeta. fold p. split_and!; try done.
  - rewrite (kfree_steps h a b O Ha Hb). rewrite run_rest_length in Hlen. rewrite (st_bind_eq _ _ _ _ _ (walk_back_Ok h1 ps a _ n O1 Hb1 L1 ltac:(lia))). exact E.
  - rewrite J3, list_elem_of_filter. split; [|done]. intros Hin. destruct (right_run_above h1 _ p c O1 (or_introl Hp) Hc Rc) as [F _].
    rewrite Forall_forall in F. specialize (F p Hin). lia.
  - rewrite <- (run_rest_size h ps a rs), <- (freed_size h a b Hb). fold h1 p. cbn [run_size]. rewrite Hc. cbn. lia.
  - unfold used_end. cbn. rewrite J2. exact Bc.
  - unfold used_end. cbn. rewrite J2. exact (right_run_end h1 _ _ Rc).
  - intros x Hxp Hxa. rewrite J5 by done. by apply freed_other.
  - intros x. rewrite J6. by apply freed_covered.
Qed.
End heap.
Arguments heap : clear implicits.
Arguments Heap {P} pages hdrs free_list used_list.

(** ** The page allocator as the source *)

#[export] Program Instance frames_source : PageSource frames := {
  page_alloc := alloc_kpage;
  in_use f a := 0xC0100000 <= a < 0xC1000000 ∧ count_at f ((a - 0xC0000000) / 4096) ≠ 0;
  page_ok := frames_ok
}.
Next Obligation.
  intros n f v f' K Hn E. destruct (alloc_kpage_Ok f n K Hn) as [(s & g & E' & K' & (R1 & R2 & R3) & _ & S & _ & C)|[E' _]]; [|congruence].
  assert (v = PAGE (786688 + s) ∧ f' = g) as [-> ->] by (split; congruence). rewrite page_of by lia.
  assert (Hpage : ∀ a, (786688 + s) * 4096 <= a < (786688 + s) * 4096 + 4096 * n → 256 + s <= (a - 0xC0000000) / 4096 < 256 + s + n).
  { intros a Ha. split; [apply Z.div_le_lower_bound; lia|apply Z.div_lt_upper_bound; lia]. }
  split; [done|]. split; [lia|]. split; [lia|]. split.
  - intros a Ha [_ Hc]. apply Hc. specialize (Hpage a Ha). replace ((a - 0xC0000000) / 4096) with (256 + ((a - 0xC0000000) / 4096 - 256)) by lia.
    apply R3. lia.
  - intros a. split.
    + intros [Ha Hc]. rewrite C in Hc by (apply Z.div_pos; lia). case_decide as D; [right|left; done].
      pose proof (Z.div_mod (a - 0xC0000000) 4096). pose proof (Z.mod_pos_bound (a - 0xC0000000) 4096). lia.
    + intros [[Ha Hc]|Ha].
      * split; [done|]. rewrite C by (apply Z.div_pos; lia). by case_decide.
      * split; [lia|]. specialize (Hpage a Ha). rewrite C by lia. rewrite decide_True by lia. done.
Qed.

(** ** Properties *)

(** A heap nothing has been taken from. *)
Lemma aerna_init_ok {P} `{PageSource P} p : page_ok p → heap_ok (aerna_init p).
Proof.
  intros Hp. split; cbn [pages hdrs free_list used_list aerna_init]; [done|constructor|..].
  - intros a [Ha|Ha]; inversion Ha.
  - intros a b. by rewrite lookup_empty.
  - intros a a' b b' [Ha|Ha]; inversion Ha.
  - intros a b f [Ha|Ha]; inversion Ha.
  - intros a b f [Ha|Ha]; inversion Ha.
Qed.

(** C4. [kmalloc] hands out memory nobody has.  For a size below 2 GiB whose fresh pages
    would hold it, on a heap in a good state, two rounds of the search are enough: the answer
    is a buffer of at least that size behind the header of a block that was not in use, the
    headers of the used blocks keep what they held, the buffer overlaps no used block, header
    or buffer, lies in pages the heap has, and the heap is in a good state again.  The other
    outcome is that no free block is long enough and the page allocator stops. *)
Theorem kmalloc_returns_fresh {P} `{PageSource P} n size (h : heap P) :
  heap_ok h → 1 <= size < 2147483648 → fits_fresh (Z.max size 16) →
  (∃ a b h', kmalloc (S (S n)) size h = Ok (Some (a + 28), h') ∧ heap_ok h' ∧ a ∈ used_list h' ∧ (a ∉ used_list h) ∧
     hdrs h' !! a = Some b ∧ size <= blen b ∧ (∀ x, a <= x < a + 28 + blen b → in_use (pages h') x) ∧
     ∀ u c, u ∈ used_list h → hdrs h !! u = Some c →
       u ∈ used_list h' ∧ hdrs h' !! u = Some c ∧ (a + 28 + blen b <= u ∨ u + 28 + blen c <= a)) ∨
  (∃ e, kmalloc (S (S n)) size h = Stop e ∧ page_alloc (fresh_pages (Z.max size 16)) (pages h) = Stop e ∧
     ∀ a b, a ∈ free_list h → hdrs h !! a = Some b → blen b < Z.max size 16 + 28).
Proof.
  intros O Hs Hfit. destruct (kmalloc_Ok n size h O Hs Hfit) as [(a & b & h' & E & O' & Ha & Hn & Hb & Hl & K)|R]; [left|by right].
  exists a, b, h'. split_and!; try done.
  - destruct (ho_live _ O' a (or_intror Ha)) as (c & Hc & _ & _ & _ & _ & Hu). assert (c = b) as -> by congruence. done.
  - intros u c Hu Hc. destruct (K u c Hu Hc) as [Hu' Hc']. split; [done|]. split; [done|].
    apply (ho_disj _ O' a u b c (or_intror Ha) (or_intror Hu')); [|done|done]. by intros ->.
Qed.

(** C15. [kfree] gives a block back and joins it with all free blocks next to it.  [ps] are the free
    blocks in front of it, each linked with its neighbour in both directions; those behind it, [rs],
    the invariant gives.  After at most one step for every free block the first block of the run is
    free and as long as all of them together, what is in front of it and what is behind it is in
    use, and the others of the run are out of the free list; only the released block leaves the used
    list, no header outside the first block and the released one changes, and the same bytes belong
    to blocks as before. *)
Theorem kfree_merges {P} `{PageSource P} n (h : heap P) a b ps :
  heap_ok h → a ∈ used_list h → hdrs h !! a = Some b → left_run h b a ps → (S (length (free_list h)) < n)%nat →
  ∃ h' rs d, let p := run_start a ps in right_run h (forward_ptr b) rs ∧ kfree n (Some (a + 28)) h = Ok ((), h') ∧ heap_ok h' ∧
    used_list h' = filter (λ x, x ≠ a) (used_list h) ∧ free_list h' = filter (λ x, x ∉ run_rest a ps rs) (a :: free_list h) ∧
    p ∈ free_list h' ∧ p <= a ∧ hdrs h' !! p = Some d ∧ sizeof_arena + blen d = run_size h (a :: ps ++ rs) ∧ used_end h' (back_ptr d) ∧ used_end h' (forward_ptr d) ∧
    (∀ x, x ≠ p → x ≠ a → hdrs h' !! x = hdrs h !! x) ∧ ∀ x, covered h' x ↔ covered h x.
Proof. exact (kfree_Ok n h a b ps). Qed.

(** Requests [kmalloc] never returns from.  When the size with a header leaves a remainder
    above 4068 modulo the page size, the pages taken for the request do not hold it: the block
    made of them is shorter than the search wants, and unless a free block happens to be long
    enough the search takes pages again and again, until the page allocator stops. *)
Theorem kmalloc_edge_never {P} `{PageSource P} n size (h : heap P) :
  heap_ok h → 16 <= size < 2147483648 → 4068 < (size + 28) mod 4096 →
  (∀ a b, a ∈ free_list h → hdrs h !! a = Some b → blen b < size + 28) → ∀ r, kmalloc n size h ≠ Ok r.
Proof.
  intros O Hs Hm Hsmall r. unfold kmalloc. destruct (Z.eqb_spec size 0); [lia|]. cbv zeta. unfold MIN_BLOCK_SIZE.
  rewrite Z.max_l by lia. rewrite (st_bind_eq _ _ h h h) by done.
  assert (Hfit : ¬ fits_fresh size).
  { unfold fits_fresh, fresh_room, fresh_pages. pose proof (Z.div_mod (size + 28) 4096 ltac:(lia)). lia. }
  assert (Hnever : ∀ h1, heap_ok h1 → (∀ a b, a ∈ free_list h1 → hdrs h1 !! a = Some b → blen b < size + 28) →
    ∀ k (q : Z → HM (option Z)), (refind k size ≫= q) h1 ≠ Ok r).
  { intros h1 O1 S1 k q. unfold mbind, st_bind. pose proof (refind_never k size h1 O1 ltac:(lia) Hfit S1) as Hn.
    destruct (refind k size h1) as [[a h2]|e]; [by destruct (Hn (a, h2))|done]. }
  case_bool_decide as Hf; [|rewrite (st_bind_eq _ _ h () h) by done; by apply Hnever].
  destruct (arena_add_new_pages size h) as [[[] h1]|e] eqn:Ea; [|unfold mbind, st_bind; by rewrite Ea].
  rewrite (st_bind_eq _ _ _ _ _ Ea). destruct (add_pages_Ok h size h1 O ltac:(lia) Ea) as (a & b & O1 & Hfl & _ & Hh & Hlen & _).
  apply Hnever; [done|]. intros x c Hx Hc. rewrite Hfl, Hf in Hx. apply list_elem_of_singleton in Hx as ->.
  rewrite Hh, lookup_insert_eq in Hc. injection Hc as <-. unfold fits_fresh in Hfit. lia.
Qed.

(** ** The pointer to the left neighbour goes stale *)

(** Pages handed out one after the other, for trying the heap out. *)
#[export] Program Instance bump_source : PageSource Z := {
  page_alloc n p := if (0 <? n) && (p + 4096 * n <? 4294967296) then Ok (p, p + 4096 * n) else Stop Panic;
  in_use p a := a < p;
  page_ok p := 0 < p
}.
Next Obligation.
  intros n p v p' Hp Hn E. cbn in *. destruct (Z.ltb_spec 0 n); [|lia]. cbn [andb] in E.
  destruct (Z.ltb_spec (p + 4096 * n) 4294967296); [|done]. assert (v = p ∧ p' = p + 4096 * n) as [-> ->] by (split; congruence).
  split; [lia|]. split; [lia|]. split; [lia|]. split; [intros; lia|]. intros a. lia.
Qed.

(** Three blocks of 100 bytes, of which the first two are given back, and one of 200. *)
Definition stale_run : HM (P := Z) (option Z * option Z) :=
  x ← kmalloc 2 100;
  y ← kmalloc 2 100;
  z ← kmalloc 2 100;
  kfree 4 x;;
  kfree 4 y;;
  w ← kmalloc 2 200;
  mret (w, z).

(** A merge leaves the right neighbour's pointer to its left neighbour as it is.  After
    the first two of three blocks have been given back, the third still points to the header
    of the second, which no longer is one: the next [kmalloc] hands out a buffer that covers
    it, and [kfree] of the third block, which is in use, reads what the owner of that buffer
    stored there. *)
Theorem stale_back_pointer :
  ∃ h, stale_run (aerna_init 1048576) = Ok ((Some 1048604, Some 1048860), h) ∧ 1048860 - 28 ∈ used_list h ∧
    (∃ b y, hdrs h !! (1048860 - 28) = Some b ∧ back_ptr b = Some y ∧ covers 1048604 200 y = true ∧ hdrs h !! y = None) ∧
    ∀ n, kfree (S n) (Some 1048860) h = Stop OutOfBounds.
Proof.
  eexists. split; [vm_compute; reflexivity|]. split; [apply (bool_decide_unpack _); vm_compute; exact I|]. split.
  - eexists _, _. split; [vm_compute; reflexivity|]. split; [vm_compute; reflexivity|]. split; vm_compute; reflexivity.
  - intros n. vm_compute. reflexivity.
Qed.

(** ** Witnesses *)

Lemma demo_heap : ∃ f : frames, heap_ok (aerna_init f) ∧ free_run f 2 1.
Proof.
  destruct demo_machine as (f & _ & K & _ & C). exists f. split; [by apply aerna_init_ok|].
  split; [lia|]. split; [lia|]. intros i Hi. rewrite C by lia. by rewrite decide_False by lia.
Qed.

Lemma kmalloc_returns_fresh_witness :
  ∃ h : heap Z, heap_ok h ∧ fits_fresh (Z.max 100 16) ∧ ∃ a b h', kmalloc 2 100 h = Ok (Some (a + 28), h') ∧ heap_ok h' ∧ a ∈ used_list h' ∧
    hdrs h' !! a = Some b ∧ 100 <= blen b.
Proof.
  exists (aerna_init 1048576). split; [by apply aerna_init_ok|]. split; [vm_compute; discriminate|].
  destruct (kmalloc_returns_fresh 0 100 (aerna_init 1048576)) as [(a & b & h' & E & O & Ha & _ & Hb & Hl & _)|(e & E & _)].
  - by apply aerna_init_ok.
  - lia.
  - vm_compute. discriminate.
  - by exists a, b, h'.
  - vm_compute in E. discriminate.
Defined.

(** Two blocks of 100 bytes with the rest of the page behind them, the first one given back. *)
Definition two_blocks : heap Z := match (kmalloc 2 100;; kmalloc 2 100) (aerna_init 1048576) with Ok (_, h) => h | Stop _ => aerna_init 0 end.
Definition first_back : heap Z := match kfree 4 (Some 1048604) two_blocks with Ok (_, h) => h | Stop _ => aerna_init 0 end.

Lemma kmalloc_keeps_ok (h h' : heap Z) v : heap_ok h → kmalloc 2 100 h = Ok (v, h') → heap_ok h'.
Proof. intros O E. destruct (kmalloc_Ok 0 100 h O) as [(a & b & h1 & E1 & O1 & _)|(e & E1 & _)]; [lia|vm_compute; discriminate|congruence|congruence]. Qed.

Lemma two_blocks_ok : heap_ok two_blocks.
Proof.
  destruct ((kmalloc 2 100;; kmalloc 2 100) (aerna_init 1048576)) as [[v h]|] eqn:E; [|vm_compute in E; discriminate].
  unfold two_blocks. rewrite E. apply st_bind_Ok in E as (v1 & h1 & E1 & E2). eapply kmalloc_keeps_ok; [|exact E2].
  eapply kmalloc_keeps_ok; [|exact E1]. by apply aerna_init_ok.
Qed.

Lemma first_back_ok : heap_ok first_back.
Proof.
  destruct (hdrs two_blocks !! 1048576) as [b|] eqn:Eb; [|vm_compute in Eb; discriminate].
  destruct (kfree_Ok 4 two_blocks 1048576 b [] two_blocks_ok) as (h' & rs & d & _ & E & O & _); [apply (bool_decide_unpack _); vm_compute; exact I|exact Eb| |vm_compute; lia|].
  - vm_compute in Eb. injection Eb as <-. exact I.
  - unfold first_back. change (1048576 + 28) with 1048604 in E. by rewrite E.
Qed.

(** The release of the second joins it with the first and with the rest of the page. *)
Lemma kfree_merges_witness : ∃ (h' : heap Z) d, kfree 4 (Some (1048704 + 28)) first_back = Ok ((), h') ∧ heap_ok h' ∧ used_list h' = [] ∧
  hdrs h' !! 1048576 = Some d ∧ blen d = 4068 ∧ forward_ptr d = None.
Proof.
  destruct (hdrs first_back !! 1048704) as [b|] eqn:Eb; [|vm_compute in Eb; discriminate].
  destruct (kfree_merges 4 first_back 1048704 b [1048576] first_back_ok) as (h' & rs & d & R & E & O & U & _ & _ & _ & D & S & _ & F & _).
  - apply (bool_decide_unpack _). vm_compute. exact I.
  - exact Eb.
  - vm_compute in Eb. injection Eb as <-. split; [reflexivity|]. split; [apply (bool_decide_unpack _); vm_compute; exact I|].
    eexists. split; [vm_compute; reflexivity|]. split; [reflexivity|exact I].
  - vm_compute. lia.
  - exists h', d. split; [exact E|]. split; [exact O|]. assert (U' : used_list h' = []) by (rewrite U; vm_compute; reflexivity). split; [exact U'|]. split; [exact D|].
    unfold used_end in F. rewrite U' in F. split; [|destruct (forward_ptr d); [by inversion F|done]].
    vm_compute in Eb. injection Eb as <-. cbn [forward_ptr] in R.
    destruct rs as [|r rs].
    { assert (Hu : used_list first_back = [1048704]) by (vm_compute; reflexivity). unfold right_run, used_end in R. rewrite Hu in R. apply list_elem_of_singleton in R. discriminate R. }
    destruct R as ([= <-] & _ & c & Hc & R). vm_compute in Hc. injection Hc as <-.
    destruct rs as [|r rs]; [|destruct R as [R _]; discriminate R]. replace (run_size first_back _) with 4096 in S by (vm_compute; reflexivity). unfold sizeof_arena in S. clear -S. lia.
Defined.

Lemma kmalloc_edge_never_witness :
  ∃ f : frames, heap_ok (aerna_init f) ∧ ∀ n r, kmalloc n 4060 (aerna_init f) ≠ Ok r.
Proof.
  destruct demo_heap as (f & O & _). exists f. split; [exact O|]. intros n.
  apply (kmalloc_edge_never n 4060 (aerna_init f) O); [lia|vm_compute; reflexivity|].
  intros a b Ha. inversion Ha.
Defined.
