(* ===== verification/Device.v ===== *)
(** * Devices and the disk queue (src/kernel/device.c)

    The device table, the dispatch of reads, writes and controls to the drivers, and the
    requests of the tasks to a disk: a queue sorted by sector, of which one request is
    carried out at a time while the tasks of the others are blocked.  A driver is a function
    on the state [D] of the machine it drives, and a null function pointer is [None].  A
    request is known by the address [kmalloc] gave it; the queue is the list of its requests,
    which is what the doubly linked list of DList stands for. *)

From S2P Require Import Prelude DList.

Definition NAMELEN : Z := 16.
Definition DEVICE_NR : Z := 64.
Definition DEV_NULL : Z := 0.
Definition DEV_CHAR : Z := 1.
Definition DEV_BLOCK : Z := 2.
Definition DEV_CONSOLE : Z := 1.
Definition DEV_RAMDISK : Z := 7.
Definition REQUEST_READ : Z := 0.
Definition REQUEST_WRITE : Z := 1.
(** [DIRECT_UP] and [DIRECT_DOWN] are the two values of a [bool]. *)
Definition DIRECT_UP : bool := false.
Definition DIRECT_DOWN : bool := true.
Definition EOF_int : Z := -1.

(** [request_t]; [addr] is where it lies. *)
Record request_t := Request {
  addr : Z; r_dev : Z; r_type : Z; r_idx : Z; r_count : Z; r_flags : Z; r_buf : Z; r_task : Z
}.

#[export] Instance request_eq_dec : EqDecision request_t.
Proof. solve_decision. Defined.

(** The key of [list_insert_sort] is the field [idx], read as an [int]. *)
Definition sort_key (r : request_t) : Z := s32 (r_idx r).

Section device.
Context {D : Type}.

(** [int ( *read)(void* dev, void* buf, size_t count, idx_t idx, int flags)] *)
Definition rw_fn : Type := Z → Z → Z → Z → Z → ST D Z.
(** [int ( *ioctl)(void* dev, int cmd, void* args, int flags)] *)
Definition ioctl_fn : Type := Z → Z → Z → Z → ST D Z.

(** [device_t]; [name] is the text before the terminator. *)
Record device_t := Device {
  name : list Z; type : Z; subtype : Z; dev : Z; parent : Z; ptr : Z;
  request_list : list request_t; direct : bool;
  ioctl : option ioctl_fn; read : option rw_fn; write : option rw_fn
}.

Definition set_type (v : Z) (d : device_t) : device_t :=
  Device (name d) v (subtype d) (dev d) (parent d) (ptr d) (request_list d) (direct d) (ioctl d) (read d) (write d).
Definition set_queue (q : list request_t) (v : bool) (d : device_t) : device_t :=
  Device (name d) (type d) (subtype d) (dev d) (parent d) (ptr d) q v (ioctl d) (read d) (write d).

Record devices := Devices { device_list : list device_t; machine : D }.
Definition DM := ST devices.

Definition at_slot (i : Z) : DM device_t := λ s, d ← zget (device_list s) i; Ok (d, s).
Definition put_slot (i : Z) (d : device_t) : DM unit := λ s,
  l ← zset (device_list s) i d; Ok ((), Devices l (machine s)).
Definition on_machine {A} (m : ST D A) : DM A := λ s,
  match m (machine s) with Ok (a, v) => Ok (a, Devices (device_list s) v) | Stop e => Stop e end.

(** ** The table *)

Definition device_init (d : D) : devices :=
  Devices (map (λ i, Device [110; 117; 108; 108] DEV_NULL DEV_NULL (Z.of_nat i) 0 0 [] DIRECT_UP None None None) (seq 0 64)) d.

Fixpoint null_loop (l : list device_t) (i : Z) : option Z :=
  match l with
  | [] => None
  | d :: l => if type d =? DEV_NULL then Some i else null_loop l (i + 1)
  end.

Definition get_new_device : DM Z := λ s,
  match null_loop (drop 1 (device_list s)) 1 with Some i => Ok (i, s) | None => Stop Panic end.

(** [device_find] answers the place in the table; [nr] counts the matches so far. *)
Fixpoint find_loop (l : list device_t) (i nr sub idx : Z) : option Z :=
  match l with
  | [] => None
  | d :: l =>
      if subtype d =? sub then if nr =? idx then Some i else find_loop l (i + 1) (nr + 1) sub idx
      else find_loop l (i + 1) nr sub idx
  end.

Definition device_find (sub idx : Z) (s : devices) : option Z := find_loop (device_list s) 0 0 sub idx.

Definition device_get (i : Z) : DM device_t :=
  sassert (i <? DEVICE_NR);;
  d ← at_slot i;
  sassert (negb (type d =? DEV_NULL));;
  mret d.

(** [strncpy(device->name, name, NAMELEN)]: at most 15 characters of the name are kept. *)
Definition device_install (ty sub p : Z) (nm : list Z) (par : Z) (io : option ioctl_fn) (rd wr : option rw_fn) : DM Z :=
  i ← get_new_device;
  d ← at_slot i;
  put_slot i (Device (take 15 nm) ty sub (dev d) par p (request_list d) (direct d) io rd wr);;
  mret (dev d).

(** ** Dispatch *)

Definition device_ioctl (i cmd args fl : Z) : DM Z :=
  d ← device_get i;
  match ioctl d with Some f => on_machine (f (ptr d) cmd args fl) | None => mret EOF_int end.

Definition device_read (i buf count idx fl : Z) : DM Z :=
  if (buf =? 0) || (count =? 0) then mret EOF_int
  else
    d ← device_get i;
    match read d with Some f => on_machine (f (ptr d) buf count idx fl) | None => mret EOF_int end.

Definition device_write (i buf count idx fl : Z) : DM Z :=
  if (buf =? 0) || (count =? 0) then mret EOF_int
  else
    d ← device_get i;
    match write d with
    | Some f => on_machine (f (ptr d) buf count idx fl)
    | None => sassert (negb (type d =? DEV_CONSOLE));; mret EOF_int
    end.

(** ** Requests *)

Definition do_request (r : request_t) : DM unit :=
  if r_type r =? REQUEST_READ then device_read (r_dev r) (r_buf r) (r_count r) (r_idx r) (r_flags r);; mret ()
  else if r_type r =? REQUEST_WRITE then device_write (r_dev r) (r_buf r) (r_count r) (r_idx r) (r_flags r);; mret ()
  else stop_st Panic.

(** What lies before (nearest first) and behind the node at [a]. *)
Fixpoint around (a : Z) (before l : list request_t) : option (list request_t * list request_t) :=
  match l with
  | [] => None
  | r :: l => if addr r =? a then Some (before, l) else around a (r :: before) l
  end.

Definition request_nextreq (root : Z) (r : request_t) : DM (option request_t) :=
  d ← at_slot root;
  match around (addr r) [] (request_list d) with
  | None => stop_st OutOfBounds
  | Some (before, behind) =>
      let v := if bool_decide (direct d = DIRECT_UP)
               then if bool_decide (behind = []) then DIRECT_DOWN else DIRECT_UP
               else if bool_decide (before = []) then DIRECT_UP else DIRECT_DOWN in
      put_slot root (set_queue (request_list d) v d);;
      mret (head (if bool_decide (v = DIRECT_UP) then behind else before))
  end.

(** The disk a device belongs to. *)
Definition root_of (i : Z) (d : device_t) : DM Z :=
  if parent d =? 0 then mret i else device_get (parent d);; mret (parent d).

(** [device_request] up to the point where the task blocks, or goes on at once when it
    found the queue empty: the answer is the disk, the request, and whether it blocks. *)
Definition request_submit (a i buf count idx fl ty task : Z) : DM (Z * request_t * bool) :=
  d ← device_get i;
  put_slot i (set_type DEV_BLOCK d);;           (* assert(device->type = DEV_BLOCK) *)
  root ← root_of i d;
  let r := Request a i ty idx (u8 count) fl buf task in
  rd ← at_slot root;
  put_slot root (set_queue (AList.insert_sort sort_key r (request_list rd)) (direct rd) rd);;
  mret (root, r, negb (bool_decide (request_list rd = []))).

(** What follows [do_request]: the answer is the request whose task is woken. *)
Definition request_release (root : Z) (r : request_t) : DM (option request_t) :=
  n ← request_nextreq root r;
  d ← at_slot root;
  put_slot root (set_queue (filter (λ q, addr q ≠ addr r) (request_list d)) (direct d) d);;
  mret n.

(** [device_request]; the answer is whether it ran through.  Otherwise the task is blocked,
    and when it is woken it goes on with [device_resume]. *)
Definition device_resume (root : Z) (r : request_t) : DM (option request_t) := do_request r;; request_release root r.

Definition device_request (a i buf count idx fl ty task : Z) : DM bool :=
  x ← request_submit a i buf count idx fl ty task;
  let '(root, r, blocks) := x in
  if (blocks : bool) then mret false else device_resume root r;; mret true.
End device.
Arguments device_t : clear implicits.
Arguments devices : clear implicits.
Arguments Devices {D} device_list machine.

(** ** The table: what installing does *)

Section table.
Context {D : Type}.
Implicit Types (s : devices D) (l : list (device_t D)).

(** The slots 1 to [n] are taken, the others are free. *)
Record installed (n : Z) (s : devices D) : Prop := {
  in_len : length (device_list s) = 64%nat;
  in_taken : ∀ i d, device_list s !! Z.to_nat i = Some d → 1 <= i <= n → type d ≠ DEV_NULL;
  in_free : ∀ i d, device_list s !! Z.to_nat i = Some d → (i = 0 ∨ n < i) → type d = DEV_NULL ∧ subtype d = DEV_NULL;
  in_dev : ∀ i d, 0 <= i → device_list s !! Z.to_nat i = Some d → dev d = i
}.

(** The number of devices of a subtype in a part of the table. *)
Definition matches (sub : Z) l : Z := Z.of_nat (length (filter (λ d, subtype d = sub) l)).

Lemma find_loop_Some l i nr sub idx k :
  find_loop l i nr sub idx = Some k ↔
    ∃ l1 d l2, l = l1 ++ d :: l2 ∧ subtype d = sub ∧ k = i + Z.of_nat (length l1) ∧ idx = nr + matches sub l1.
Proof.
  unfold matches. revert i nr. induction l as [|d l IH]; intros i nr; cbn [find_loop].
  { split; [done|]. intros (l1 & d & l2 & E & _). by destruct l1. }
  assert (Hcons : ∀ (P : Prop), (subtype d = sub → idx = nr → k = i → P) →
     (∀ nr', nr' = (if decide (subtype d = sub) then nr + 1 else nr) → find_loop l (i + 1) nr' sub idx = Some k → P) →
     (∃ l1 e l2, d :: l = l1 ++ e :: l2 ∧ subtype e = sub ∧ k = i + Z.of_nat (length l1) ∧
        idx = nr + Z.of_nat (length (filter (λ d, subtype d = sub) l1))) → P).
  { intros P H1 H2 ([|e0 l1] & e & l2 & E & He & Hk & Hi).
    - injection E as <- <-. apply H1; [done|cbn in Hi; lia|cbn in Hk; lia].
    - injection E as <- ->. apply (H2 _ eq_refl). apply IH. exists l1, e, l2. split; [done|]. split; [done|].
      cbn [length] in Hk. rewrite filter_cons in Hi. case_decide; cbn [length] in Hi; lia. }
  assert (Hback : ∀ nr', nr' = (if decide (subtype d = sub) then nr + 1 else nr) → find_loop l (i + 1) nr' sub idx = Some k →
     ∃ l1 e l2, d :: l = l1 ++ e :: l2 ∧ subtype e = sub ∧ k = i + Z.of_nat (length l1) ∧
        idx = nr + Z.of_nat (length (filter (λ d, subtype d = sub) l1))).
  { intros nr' -> (l1 & e & l2 & -> & He & -> & ->)%IH. exists (d :: l1), e, l2. split; [done|]. split; [done|].
    rewrite filter_cons. case_decide; cbn [length]; lia. }
  destruct (Z.eqb_spec (subtype d) sub) as [Hs|Hs].
  - rewrite decide_True in Hcons, Hback by done. destruct (Z.eqb_spec nr idx) as [Hn|Hn]; split.
    + intros [= <-]. exists [], d, l. cbn. split_and!; (done || lia).
    + intros H. apply Hcons; [by intros _ _ ->| |done]. intros nr' -> (l1 & _ & _ & _ & _ & _ & Hi)%IH. lia.
    + intros H. by apply (Hback _ eq_refl).
    + intros H. apply Hcons; [done| |done]. by intros nr' ->.
  - rewrite decide_False in Hcons, Hback by done. split.
    + intros H. by apply (Hback _ eq_refl).
    + intros H. apply Hcons; [done| |done]. by intros nr' ->.
Qed.

Lemma null_loop_spec l i :
  null_loop l i = None ∧ Forall (λ d, type d ≠ DEV_NULL) l ∨
  ∃ l1 d l2, l = l1 ++ d :: l2 ∧ type d = DEV_NULL ∧ Forall (λ d, type d ≠ DEV_NULL) l1 ∧ null_loop l i = Some (i + Z.of_nat (length l1)).
Proof.
  revert i. induction l as [|d l IH]; intros i; cbn [null_loop]; [by left|]. destruct (Z.eqb_spec (type d) DEV_NULL) as [Hd|Hd].
  - right. exists [], d, l. cbn. split_and!; try done. f_equal. lia.
  - destruct (IH (i + 1)) as [[-> H]|(l1 & e & l2 & -> & He & Hf & ->)]; [left; by split; [|constructor]|].
    right. exists (d :: l1), e, l2. split_and!; try done; [by constructor|cbn; f_equal; lia].
Qed.

(** The slot [device_install] takes, and when there is none. *)
Lemma get_new_device_Ok n s :
  installed n s → 0 <= n <= 63 → get_new_device s = if n <? 63 then Ok (n + 1, s) else Stop Panic.
Proof.
  intros [Hl Ht Hf _] Hn. unfold get_new_device.
  destruct (null_loop_spec (drop 1 (device_list s)) 1) as [[-> H]|(l1 & d & l2 & E & Hd & H1 & ->)].
  - destruct (Z.ltb_spec n 63); [|done]. exfalso.
    destruct (lookup_lt_is_Some_2 (device_list s) (Z.to_nat (n + 1))) as [d Hd]; [lia|].
    destruct (Hf (n + 1) d Hd) as [Hnull _]; [lia|]. rewrite Forall_lookup in H. apply (H (Z.to_nat n) d); [|done].
    rewrite lookup_drop. by replace (1 + Z.to_nat n)%nat with (Z.to_nat (n + 1)) by lia.
  - assert (Hlen : length (drop 1 (device_list s)) = 63%nat) by (rewrite length_drop; lia).
    rewrite E, length_app in Hlen. cbn in Hlen.
    assert (Hat : device_list s !! Z.to_nat (1 + Z.of_nat (length l1)) = Some d).
    { replace (Z.to_nat (1 + Z.of_nat (length l1))) with (1 + length l1)%nat by lia. rewrite <- lookup_drop, E. by apply list_lookup_middle. }
    assert (Hge : n < 1 + Z.of_nat (length l1)) by (destruct (decide (n < 1 + Z.of_nat (length l1))); [done|exfalso; apply (Ht _ _ Hat); [lia|done]]).
    assert (n = Z.of_nat (length l1)) as ->.
    { destruct (decide (n = Z.of_nat (length l1))) as [|Hne]; [done|exfalso].
      destruct (lookup_lt_is_Some_2 l1 (Z.to_nat n)) as [e He]; [lia|]. rewrite Forall_lookup in H1. apply (H1 _ _ He).
      apply (Hf (n + 1) e); [|lia]. replace (Z.to_nat (n + 1)) with (1 + Z.to_nat n)%nat by lia. rewrite <- lookup_drop, E. by apply lookup_app_l_Some. }
    destruct (Z.ltb_spec (Z.of_nat (length l1)) 63); [|lia]. by rewrite Z.add_comm.
Qed.

Lemma device_init_installed (d : D) : installed 0 (device_init d).
Proof.
  split.
  - done.
  - lia.
  - intros i e He _. cbn [device_list device_init] in He. apply list_lookup_fmap_Some in He as (j & -> & _). done.
  - intros i e Hi He. cbn [device_list device_init] in He. apply list_lookup_fmap_Some in He as (j & -> & Hj). cbn.
    apply lookup_seq in Hj as [-> _]. lia.
Qed.

Lemma device_install_Ok n s ty sub p nm par io rd wr :
  installed n s → 0 <= n <= 63 → ty ≠ DEV_NULL → sub ≠ DEV_NULL →
  if decide (n = 63) then device_install ty sub p nm par io rd wr s = Stop Panic
  else ∃ s' d, device_install ty sub p nm par io rd wr s = Ok (n + 1, s') ∧ installed (n + 1) s' ∧ machine s' = machine s ∧
    device_get (n + 1) s' = Ok (d, s') ∧ name d = take 15 nm ∧ type d = ty ∧ subtype d = sub ∧ ptr d = p ∧ parent d = par ∧
    ioctl d = io ∧ read d = rd ∧ write d = wr ∧
    (∀ k, k ≠ n + 1 → 0 <= k → device_list s' !! Z.to_nat k = device_list s !! Z.to_nat k) ∧
    device_find sub (matches sub (take (Z.to_nat (n + 1)) (device_list s))) s' = Some (n + 1) ∧
    (∀ sub' idx k, sub' ≠ DEV_NULL → device_find sub' idx s = Some k → device_find sub' idx s' = Some k).
Proof.
  intros I Hn Hty Hsub. pose proof I as [Hl Ht Hf Hd]. pose proof (get_new_device_Ok n s I Hn) as Hg. unfold device_install.
  case_decide as Hfull; [subst; unfold mbind, st_bind; by rewrite Hg|].
  destruct (Z.ltb_spec n 63) as [Hlt|]; [|lia]. rewrite (st_bind_eq _ _ _ _ _ Hg).
  destruct (zget_is_Ok (device_list s) (n + 1)) as (e & Ee & He); [lia|].
  rewrite (st_bind_eq _ _ s e s) by (unfold at_slot; by rewrite Ee).
  set (d := Device _ _ _ _ _ _ _ _ _ _ _). set (s' := Devices (<[Z.to_nat (n + 1) := d]> (device_list s)) (machine s)).
  rewrite (st_bind_eq _ _ s () s') by (unfold put_slot; by rewrite zset_Ok by lia).
  assert (Hnew : device_list s' !! Z.to_nat (n + 1) = Some d) by (cbn; by apply list_lookup_insert_eq; lia).
  assert (Hother : ∀ k, k ≠ n + 1 → 0 <= k → device_list s' !! Z.to_nat k = device_list s !! Z.to_nat k)
    by (intros k Hk H0; cbn; apply list_lookup_insert_ne; lia).
  assert (Hsplit : ∃ l1 l2, device_list s = l1 ++ e :: l2 ∧ device_list s' = l1 ++ d :: l2 ∧ length l1 = Z.to_nat (n + 1)).
  { exists (take (Z.to_nat (n + 1)) (device_list s)), (drop (S (Z.to_nat (n + 1))) (device_list s)). split; [by rewrite take_drop_middle|].
    split; [cbn; by apply insert_take_drop; lia|]. rewrite length_take. lia. }
  destruct Hsplit as (l1 & l2 & Es & Es' & Hl1).
  assert (dev e = n + 1) as -> by (apply Hd; [lia|done]). exists s', d. split; [done|]. split.
  { split.
    - cbn. by rewrite length_insert.
    - intros i c Hc Hi. destruct (decide (i = n + 1)) as [->|Hne]; [rewrite Hnew in Hc; by injection Hc as <-|].
      rewrite Hother in Hc by lia. apply (Ht i c); [done|lia].
    - intros i c Hc Hi. rewrite Hother in Hc by lia. apply (Hf i c); [done|lia].
    - intros i c H0 Hc. destruct (decide (i = n + 1)) as [->|Hne]; [rewrite Hnew in Hc; injection Hc as <-; cbn; by apply Hd|].
      rewrite Hother in Hc by lia. by apply Hd. }
  split; [done|]. split.
  { unfold device_get. rewrite (st_bind_eq _ _ s' () s') by (unfold sassert, DEVICE_NR; by destruct (Z.ltb_spec (n + 1) 64); [|lia]).
    rewrite (st_bind_eq _ _ s' d s') by (unfold at_slot, zget; destruct (Z.leb_spec 0 (n + 1)); [by rewrite Hnew|lia]).
    rewrite (st_bind_eq _ _ s' () s') by (unfold sassert; cbn; by destruct (Z.eqb_spec ty DEV_NULL)). done. }
  split_and!; try done.
  - unfold device_find. apply find_loop_Some. exists l1, d, l2. split; [done|]. split; [done|]. split; [lia|].
    rewrite Es, take_app_length' by done. lia.
  - intros sub' idx k Hsub' Hk. unfold device_find in *. apply find_loop_Some in Hk as (a1 & c & a2 & Ea & Hc & -> & Hi).
    apply find_loop_Some. assert (Hlt' : (length a1 < length l1)%nat).
    { rewrite Hl1. assert (Hat : device_list s !! length a1 = Some c) by (rewrite Ea; by apply list_lookup_middle).
      destruct (decide (length a1 < Z.to_nat (n + 1))%nat) as [|Hge]; [done|exfalso].
      destruct (Hf (Z.of_nat (length a1)) c) as [_ Hs]; [by rewrite Nat2Z.id|lia|]. congruence. }
    rewrite Es in Ea. destruct (app_eq_inv _ _ _ _ Ea) as [(k1 & -> & E2)|(k1 & -> & E2)]; [|rewrite length_app in Hlt'; lia].
    destruct k1 as [|c' k1]; [rewrite length_app in Hlt'; cbn in Hlt'; lia|]. injection E2 as <- ->.
    exists a1, c, (k1 ++ d :: l2). split; [rewrite Es'; by rewrite <- app_assoc|]. done.
Qed.

(** [device_install] takes the next free slot.  With [n] devices installed it stops when
    the table is full; otherwise it answers [n + 1], under which [device_get] then finds the
    device with what was passed and at most 15 characters of its name; the other slots keep
    what they held, [device_find] finds the new device behind the earlier ones of its subtype,
    and finds all of those as before. *)
Theorem device_install_find n s ty sub p nm par io rd wr :
  installed n s → 0 <= n <= 63 → ty ≠ DEV_NULL → sub ≠ DEV_NULL →
  if decide (n = 63) then device_install ty sub p nm par io rd wr s = Stop Panic
  else ∃ s' d, device_install ty sub p nm par io rd wr s = Ok (n + 1, s') ∧ installed (n + 1) s' ∧ machine s' = machine s ∧
    device_get (n + 1) s' = Ok (d, s') ∧ name d = take 15 nm ∧ type d = ty ∧ subtype d = sub ∧ ptr d = p ∧ parent d = par ∧
    ioctl d = io ∧ read d = rd ∧ write d = wr ∧
    (∀ k, k ≠ n + 1 → 0 <= k → device_list s' !! Z.to_nat k = device_list s !! Z.to_nat k) ∧
    device_find sub (matches sub (take (Z.to_nat (n + 1)) (device_list s))) s' = Some (n + 1) ∧
    (∀ sub' idx k, sub' ≠ DEV_NULL → device_find sub' idx s = Some k → device_find sub' idx s' = Some k).
Proof. exact (device_install_Ok n s ty sub p nm par io rd wr). Qed.
End table.

(** ** The queue of a disk *)

Section queue.
Context {D : Type}.
Implicit Types (s : devices D).

Definition queue_of (s : devices D) (k : Z) : list request_t := default [] (request_list <$> device_list s !! Z.to_nat k).

Lemma at_slot_inv k s d s' : at_slot k s = Ok (d, s') → 0 <= k ∧ device_list s !! Z.to_nat k = Some d ∧ s' = s.
Proof.
  unfold at_slot. intros (d0 & E & [= -> ->])%res_bind_Ok. apply zget_Ok in E as [H0 E]. done.
Qed.

Lemma put_slot_inv k d s x s' :
  put_slot k d s = Ok (x, s') → 0 <= k ∧ (Z.to_nat k < length (device_list s))%nat ∧ s' = Devices (<[Z.to_nat k := d]> (device_list s)) (machine s).
Proof.
  unfold put_slot, zset. destruct (Z.leb_spec 0 k), (Z.ltb_spec k (Z.of_nat (length (device_list s)))); cbn; try done.
  intros [= _ <-]. split; [done|]. split; [lia|done].
Qed.

Lemma queue_put s k d j :
  0 <= k → (Z.to_nat k < length (device_list s))%nat → 0 <= j →
  queue_of (Devices (<[Z.to_nat k := d]> (device_list s)) (machine s)) j = if decide (j = k) then request_list d else queue_of s j.
Proof.
  intros Hk Hl Hj. unfold queue_of. cbn [device_list]. case_decide as E.
  - subst. by rewrite list_lookup_insert_eq.
  - rewrite list_lookup_insert_ne; [done|lia].
Qed.

Lemma queue_at s k d : device_list s !! Z.to_nat k = Some d → queue_of s k = request_list d.
Proof. intros E. unfold queue_of. by rewrite E. Qed.

Lemma device_get_inv i s d s' : device_get i s = Ok (d, s') → s' = s ∧ device_list s !! Z.to_nat i = Some d ∧ type d ≠ DEV_NULL.
Proof.
  unfold device_get. intros (u & s1 & E1 & (d' & s2 & E2 & (v & s3 & E3 & E4)%st_bind_Ok)%st_bind_Ok)%st_bind_Ok.
  apply at_slot_inv in E2 as (_ & Hd & ->). unfold sassert in *. destruct (i <? DEVICE_NR); [|done]. destruct (Z.eqb_spec (type d') DEV_NULL); [done|].
  cbn [negb] in E3. injection E1 as _ <-. injection E3 as _ <-. by injection E4 as <- <-.
Qed.

(** Drivers leave the table alone. *)
Lemma do_request_table r s x s' : do_request r s = Ok (x, s') → device_list s' = device_list s.
Proof.
  assert (Hrw : ∀ i (f : option (rw_fn (D := D))) (d : device_t D) (k : DM Z) s v s', (∀ s v s', k s = Ok (v, s') → device_list s' = device_list s) →
    (match f with Some f => on_machine (f (ptr d) (r_buf r) (r_count r) (r_idx r) i) | None => k end) s = Ok (v, s') → device_list s' = device_list s).
  { intros i [f|] d k s0 v s1 Hk; [|by apply Hk]. unfold on_machine. destruct (f _ _ _ _ _ _) as [[y m]|]; [|done]. by intros [= <- <-]. }
  assert (Hret : ∀ (y : Z) s v s', (mret y : DM Z) s = Ok (v, s') → device_list s' = device_list s) by (intros y s0 v s1 [= _ <-]; done).
  unfold do_request. destruct (_ =? _); [|destruct (_ =? _); [|done]]; intros (v & s1 & E & Er)%st_bind_Ok; injection Er as _ <-; revert E.
  - unfold device_read. destruct (_ || _); [apply Hret|]. intros (d & s2 & [-> _]%device_get_inv & E)%st_bind_Ok. eapply Hrw; [|exact E]. by apply Hret.
  - unfold device_write. destruct (_ || _); [apply Hret|]. intros (d & s2 & [-> _]%device_get_inv & E)%st_bind_Ok. eapply Hrw; [|exact E].
    intros s3 w s4 (u & s5 & Ea & Eb)%st_bind_Ok. apply Hret in Eb. unfold sassert in Ea. case_match; [|done]. by simplify_eq.
Qed.

(** Submitting puts the request into the queue of its disk, nowhere else. *)
Lemma submit_inv a i buf count idx fl ty task s root r b s' :
  request_submit a i buf count idx fl ty task s = Ok ((root, r, b), s') →
  r = Request a i ty idx (u8 count) fl buf task ∧ 0 <= root ∧ b = negb (bool_decide (queue_of s root = [])) ∧ machine s' = machine s ∧
  ∀ k, 0 <= k → queue_of s' k = if decide (k = root) then AList.insert_sort sort_key r (queue_of s root) else queue_of s k.
Proof.
  unfold request_submit. intros (d & s1 & E1 & (x & s2 & E2 & (root' & s3 & E3 & (rd & s4 & E4 & (y & s5 & E5 & E6)%st_bind_Ok)%st_bind_Ok)%st_bind_Ok)%st_bind_Ok)%st_bind_Ok.
  injection E6 as <- <- <- <-. apply at_slot_inv in E4 as (H0 & Hr & ->). apply put_slot_inv in E5 as (_ & Hlen & ->).
  apply device_get_inv in E1 as (-> & Hd & _).
  apply put_slot_inv in E2 as (Hi & Hli & ->).
  assert (s3 = Devices (<[Z.to_nat i := set_type DEV_BLOCK d]> (device_list s)) (machine s)) as ->.
  { unfold root_of in E3. destruct (_ =? _); [by injection E3|]. apply st_bind_Ok in E3 as (d' & t1 & [-> _]%device_get_inv & A2).
    by injection A2. }
  set (s3 := Devices _ (machine s)) in *.
  assert (Hq : ∀ k, 0 <= k → queue_of s3 k = queue_of s k).
  { intros k Hk. unfold s3. rewrite queue_put by done. case_decide as E; [|done]. subst. by rewrite (queue_at s i d). }
  split; [done|]. split; [done|]. rewrite <- (queue_at _ _ _ Hr), Hq by done. split; [done|]. split; [done|].
  intros k Hk. rewrite queue_put by done. cbn [request_list set_queue]. by rewrite Hq by done.
Qed.

Lemma around_spec a before l :
  match around a before l with
  | Some (b, t) => ∃ b' r, b = b' ++ before ∧ l = rev b' ++ r :: t ∧ addr r = a
  | None => ∀ r, r ∈ l → addr r ≠ a
  end.
Proof.
  revert before. induction l as [|r l IH]; intros before; cbn [around]; [by intros r Hr%elem_of_nil|].
  destruct (Z.eqb_spec (addr r) a) as [Ha|Ha]; [by exists [], r|]. specialize (IH (r :: before)). destruct (around a (r :: before) l) as [[b t]|].
  - destruct IH as (b' & q & -> & -> & Hq). exists (b' ++ [r]), q. rewrite rev_app_distr, <- app_assoc. done.
  - intros q [->|Hq]%elem_of_cons; [done|by apply IH].
Qed.

Lemma around_at l1 r l2 : NoDup (addr <$> rev l1 ++ r :: l2) → around (addr r) [] (rev l1 ++ r :: l2) = Some (l1, l2).
Proof.
  intros N. pose proof (around_spec (addr r) [] (rev l1 ++ r :: l2)) as H. destruct (around _ _ _) as [[b t]|].
  - destruct H as (b' & q & Hb & E & Hq). rewrite app_nil_r in Hb. subst b'.
    destruct (NoDup_fmap_split addr (rev l1) r l2 (rev b) q t N E (eq_sym Hq)) as (E1 & _ & ->).
    by rewrite <- (rev_involutive l1), E1, rev_involutive.
  - exfalso. apply (H r); [|done]. apply elem_of_app. right. apply list_elem_of_here.
Qed.

(** Which way the queue is gone through after a request, and which request is next. *)
Definition turn (v : bool) (before behind : list request_t) : bool :=
  if bool_decide (v = DIRECT_UP) then if bool_decide (behind = []) then DIRECT_DOWN else DIRECT_UP
  else if bool_decide (before = []) then DIRECT_UP else DIRECT_DOWN.
Definition pick (v : bool) (before behind : list request_t) : option request_t :=
  head (if bool_decide (turn v before behind = DIRECT_UP) then behind else before).

Lemma pick_None v before behind : pick v before behind = None ↔ before = [] ∧ behind = [].
Proof.
  unfold pick, turn. split; [|intros [-> ->]; by destruct v].
  destruct v, before, behind; cbn; done.
Qed.

Lemma pick_in v before behind q : pick v before behind = Some q → q ∈ before ++ behind.
Proof.
  unfold pick, turn. destruct v, before as [|x before], behind as [|y behind]; cbn; intros [= <-]; rewrite ?elem_of_cons, ?elem_of_app, ?elem_of_cons; tauto.
Qed.

Lemma filter_out_middle l1 r l2 :
  NoDup (addr <$> l1 ++ r :: l2) → filter (λ q, addr q ≠ addr r) (l1 ++ r :: l2) = l1 ++ l2.
Proof.
  assert (Hid : ∀ l : list request_t, (∀ q, q ∈ l → addr q ≠ addr r) → filter (λ q, addr q ≠ addr r) l = l).
  { induction l as [|q l IH]; intros Hl; [done|]. rewrite filter_cons, decide_True by (apply Hl, list_elem_of_here).
    rewrite IH; [done|]. intros. by apply Hl, list_elem_of_further. }
  rewrite fmap_app, fmap_cons. intros (_ & N2 & N3)%NoDup_app. apply NoDup_cons in N3 as [N3 _].
  rewrite filter_app, filter_cons, decide_False by tauto. rewrite !Hid; [done|intros q Hq E..].
  - apply N3. rewrite <- E. by apply list_elem_of_fmap_2.
  - apply (N2 (addr q)); [by apply list_elem_of_fmap_2|]. rewrite E. apply list_elem_of_here.
Qed.

Lemma request_release_Ok root d l1 r l2 s :
  0 <= root → device_list s !! Z.to_nat root = Some d → request_list d = rev l1 ++ r :: l2 → NoDup (addr <$> request_list d) →
  ∃ s', request_release root r s = Ok (pick (direct d) l1 l2, s') ∧
    device_list s' = <[Z.to_nat root := set_queue (rev l1 ++ l2) (turn (direct d) l1 l2) d]> (device_list s) ∧ machine s' = machine s.
Proof.
  intros H0 Hd Hq N. pose proof (lookup_lt_Some _ _ _ Hd) as Hlen. unfold request_release, request_nextreq.
  assert (E0 : at_slot root s = Ok (d, s)) by (unfold at_slot, zget; destruct (Z.leb_spec 0 root); [by rewrite Hd|lia]).
  set (d1 := set_queue (request_list d) (turn (direct d) l1 l2) d). set (s1 := Devices (<[Z.to_nat root := d1]> (device_list s)) (machine s)).
  assert (Hd1 : device_list s1 !! Z.to_nat root = Some d1) by (cbn; by apply list_lookup_insert_eq).
  rewrite (st_bind_eq _ _ s (pick (direct d) l1 l2) s1).
  2:{ rewrite (st_bind_eq _ _ _ _ _ E0). 
      assert (around (addr r) [] (request_list d) = Some (l1, l2)) as -> by (rewrite Hq; apply around_at; by rewrite <- Hq). cbv zeta. fold (turn (direct d) l1 l2).
      rewrite (st_bind_eq _ _ s () s1); [done|]. unfold put_slot. rewrite zset_Ok by lia. done. }
  rewrite (st_bind_eq _ _ s1 d1 s1) by (unfold at_slot, zget; destruct (Z.leb_spec 0 root); [by rewrite Hd1|lia]).
  set (d2 := set_queue _ (direct d1) d1). set (s2 := Devices (<[Z.to_nat root := d2]> (device_list s1)) (machine s1)).
  rewrite (st_bind_eq _ _ s1 () s2) by (unfold put_slot; rewrite zset_Ok by (cbn; rewrite length_insert; lia); done).
  exists s2. split; [done|]. split; [|done]. cbn [device_list s2 s1]. rewrite list_insert_insert_eq. f_equal.
  unfold d2, d1, set_queue. cbn. f_equal. rewrite Hq. apply filter_out_middle. by rewrite <- Hq.
Qed.
End queue.

(** ** Serving a disk *)

Section serving.
Context {D : Type}.

(** The tasks between [request_submit] and the end of their request that are not blocked:
    the disk, the request, and whether the driver has carried it out. *)
Record disk_state := DiskState { table : devices D; running : list (Z * request_t * bool) }.

(** The request goes on with the task that is woken. *)
Definition woken (root : Z) (n : option request_t) : list (Z * request_t * bool) :=
  match n with Some q => [(root, q, false)] | None => [] end.

Inductive disk_step : disk_state → disk_state → Prop :=
  | step_submit s run a i buf count idx fl ty task root r b s' :
      request_submit a i buf count idx fl ty task s = Ok ((root, r, b), s') →
      (∀ k q, 0 <= k → q ∈ queue_of s k → addr q ≠ a) →
      disk_step (DiskState s run) (DiskState s' (if (b : bool) then run else (root, r, false) :: run))
  | step_serve s run1 run2 root r s' :
      do_request r s = Ok ((), s') →
      disk_step (DiskState s (run1 ++ (root, r, false) :: run2)) (DiskState s' (run1 ++ (root, r, true) :: run2))
  | step_release s run1 run2 root r n s' :
      request_release root r s = Ok (n, s') →
      disk_step (DiskState s (run1 ++ (root, r, true) :: run2)) (DiskState s' (run1 ++ woken root n ++ run2)).

Definition on_disk (k : Z) (run : list (Z * request_t * bool)) : list (Z * request_t * bool) := filter (λ x, fst (fst x) = k) run.

Record served_one (st : disk_state) : Prop := {
  so_queue : ∀ k, 0 <= k → NoDup (addr <$> queue_of (table st) k) ∧ Sorted (λ a b, sort_key a <= sort_key b) (queue_of (table st) k);
  so_run : ∀ k, 0 <= k →
    (queue_of (table st) k = [] ∧ on_disk k (running st) = []) ∨
    ∃ r b, r ∈ queue_of (table st) k ∧ on_disk k (running st) = [(k, r, b)];
  so_disk : ∀ x, x ∈ running st → 0 <= fst (fst x)
}.

Lemma on_disk_cons k x run : on_disk k (x :: run) = if decide (fst (fst x) = k) then x :: on_disk k run else on_disk k run.
Proof. unfold on_disk. by rewrite filter_cons. Qed.

Lemma on_disk_app k run1 run2 : on_disk k (run1 ++ run2) = on_disk k run1 ++ on_disk k run2.
Proof. apply filter_app. Qed.

(** The one running request of a disk, taken out of the list. *)
Lemma on_disk_alone (st : disk_state) root r b run1 run2 :
  served_one st → running st = run1 ++ (root, r, b) :: run2 →
  0 <= root ∧ r ∈ queue_of (table st) root ∧ on_disk root run1 = [] ∧ on_disk root run2 = [].
Proof.
  intros [_ Hr Hd] E. assert (H0 : 0 <= root).
  { apply (Hd (root, r, b)). rewrite E. apply elem_of_app. right. apply list_elem_of_here. }
  specialize (Hr root H0). rewrite E, on_disk_app, on_disk_cons, decide_True in Hr by done.
  destruct Hr as [[_ H]|(r' & b' & Hin & H)]; [by destruct (on_disk root run1)|].
  destruct (on_disk root run1) as [|x l1], (on_disk root run2) as [|y l2]; cbn in H; simplify_eq; [done| |]; by destruct l1.
Qed.

Lemma sorted_without l1 r (l2 : list request_t) :
  Sorted (λ a b, sort_key a <= sort_key b) (l1 ++ r :: l2) → Sorted (λ a b, sort_key a <= sort_key b) (l1 ++ l2).
Proof.
  intros H. apply StronglySorted_Sorted. apply Sorted_StronglySorted in H; [|intros a b c; lia].
  induction l1 as [|a l1 IH]; cbn in *; apply StronglySorted_inv in H as [H1 H2]; [done|].
  constructor; [by apply IH|]. rewrite Forall_app, Forall_cons in H2. apply Forall_app. tauto.
Qed.

Lemma serve_inv s run1 run2 root r s' :
  served_one (DiskState s (run1 ++ (root, r, false) :: run2)) → device_list s' = device_list s →
  served_one (DiskState s' (run1 ++ (root, r, true) :: run2)).
Proof.
  intros O E. destruct (on_disk_alone _ root r false run1 run2 O eq_refl) as (H0 & Hin & E1 & E2). destruct O as [Hq Hr Hd].
  assert (Hq' : ∀ k, queue_of s' k = queue_of s k) by (intros k; unfold queue_of; by rewrite E).
  split; cbn [table running] in *.
  - intros k Hk. rewrite Hq'. by apply Hq.
  - intros k Hk. specialize (Hr k Hk). rewrite Hq'. rewrite on_disk_app, on_disk_cons in Hr |- *. cbn [fst] in *. case_decide; [|done].
    subst k. right. exists r, true. rewrite E1, E2. done.
  - intros x. rewrite elem_of_app, elem_of_cons. intros [Hx|[->|Hx]]; [|done|]; apply Hd; apply elem_of_app; [by left|right; by apply list_elem_of_further].
Qed.

Lemma submit_served_one s run a i buf count idx fl ty task root r b s' :
  served_one (DiskState s run) → request_submit a i buf count idx fl ty task s = Ok ((root, r, b), s') →
  (∀ k q, 0 <= k → q ∈ queue_of s k → addr q ≠ a) →
  served_one (DiskState s' (if (b : bool) then run else (root, r, false) :: run)).
Proof.
  intros [Hq Hr Hd] (Er & H0 & Eb & _ & Q)%submit_inv Hfresh. cbn [table running] in *.
  assert (Hrun : ∀ k, on_disk k (if b then run else (root, r, false) :: run) =
    if decide (k = root ∧ b = false) then (root, r, false) :: on_disk k run else on_disk k run).
  { intros k. destruct b; [by rewrite decide_False by (by intros [_ ?])|]. rewrite on_disk_cons. cbn [fst].
    do 2 case_decide; try done; naive_solver. }
  split; cbn [table running].
  - intros k Hk. rewrite Q by done. destruct (Hq k Hk) as [N S]. destruct (decide (k = root)) as [->|]; [|done]. split; [|by apply insert_sort_Sorted].
    rewrite (fmap_Permutation addr _ _ (insert_sort_Permutation sort_key r (queue_of s root))). rewrite fmap_cons. apply NoDup_cons. split; [|done].
    intros (q & Hq1 & Hq2)%list_elem_of_fmap. apply (Hfresh root q H0 Hq2). by rewrite <- Hq1, Er.
  - intros k Hk. rewrite Q, Hrun by done. destruct (decide (k = root)) as [->|Hne].
    + destruct (decide (root = root)) as [_|]; [|done]. right. destruct (Hr root H0) as [[E1 E2]|(q & c & Hin & E2)].
      * rewrite E1 in Eb. cbn in Eb. subst b. rewrite decide_True by done. exists r, false. rewrite E1, E2. split; [apply list_elem_of_here|done].
      * destruct (queue_of s root) as [|q0 l] eqn:Eq; [by apply elem_of_nil in Hin|]. cbn in Eb. subst b. rewrite decide_False by (by intros [_ ?]).
        exists q, c. split; [|done]. rewrite (insert_sort_Permutation sort_key r (q0 :: l)). by apply list_elem_of_further.
    + rewrite decide_False by tauto. by apply Hr.
  - intros x Hx. destruct b; [by apply Hd|]. apply elem_of_cons in Hx as [->|Hx]; [done|by apply Hd].
Qed.

Lemma release_served_one s run1 run2 root r b n s' :
  served_one (DiskState s (run1 ++ (root, r, b) :: run2)) → request_release root r s = Ok (n, s') →
  served_one (DiskState s' (run1 ++ woken root n ++ run2)).
Proof.
  intros O E. destruct (on_disk_alone _ root r b run1 run2 O eq_refl) as (H0 & Hin & E1 & E2). destruct O as [Hq Hr Hd]. cbn [table running] in *.
  destruct (device_list s !! Z.to_nat root) as [d|] eqn:Ed; [|unfold queue_of in Hin; rewrite Ed in Hin; by apply elem_of_nil in Hin].
  rewrite (queue_at _ _ _ Ed) in Hin. destruct (list_elem_of_split _ _ Hin) as (l1 & l2 & El). destruct (Hq root H0) as [N S].
  rewrite (queue_at _ _ _ Ed) in N, S. rewrite <- (rev_involutive l1) in El.
  destruct (request_release_Ok root d (rev l1) r l2 s H0 Ed El N) as (s1 & Es & Ed' & _). rewrite rev_involutive in *.
  assert (n = pick (direct d) (rev l1) l2 ∧ s' = s1) as [-> ->] by (split; congruence).
  assert (Q : ∀ k, 0 <= k → queue_of s1 k = if decide (k = root) then l1 ++ l2 else queue_of s k).
  { intros k Hk. unfold queue_of. rewrite Ed'. case_decide as Ek; [subst; by rewrite list_lookup_insert_eq by (by eapply lookup_lt_Some)|].
    rewrite list_lookup_insert_ne by lia. done. }
  split; cbn [table running].
  - intros k Hk. rewrite Q by done. case_decide; [subst k|by apply Hq]. rewrite El in N, S. split; [|by eapply sorted_without].
    rewrite fmap_app in N |- *. rewrite fmap_cons in N. apply NoDup_app in N as (N1 & N2 & N3). apply NoDup_cons in N3 as [_ N3].
    apply NoDup_app. split; [done|]. split; [|done]. intros x Hx Hx'. apply (N2 x Hx). by apply list_elem_of_further.
  - intros k Hk. rewrite Q by done. rewrite !on_disk_app. case_decide as Ek.
    + subst k. rewrite E1, E2. cbn [app]. rewrite app_nil_r. destruct (pick (direct d) (rev l1) l2) as [q|] eqn:Ep.
      * right. exists q, false. apply pick_in in Ep. split; [|cbn [woken]; rewrite on_disk_cons; by rewrite decide_True].
        by rewrite <- (Permutation_rev l1) in Ep.
      * left. apply pick_None in Ep as [Ep ->]. destruct l1 as [|z l1]; [done|]. cbn in Ep. by destruct (rev l1).
    + specialize (Hr k Hk). rewrite on_disk_app, on_disk_cons in Hr. cbn [fst] in Hr. rewrite decide_False in Hr by congruence.
      replace (on_disk k (woken root _)) with ([] : list (Z * request_t * bool)); [done|]. destruct (pick _ _ _); [|done].
      cbn [woken]. rewrite on_disk_cons, decide_False by (cbn; congruence). done.
  - intros x. rewrite !elem_of_app. intros [Hx|[Hx|Hx]]; [apply Hd; apply elem_of_app; by left| |apply Hd; apply elem_of_app; right; by apply list_elem_of_further].
    destruct (pick _ _ _); [|by apply elem_of_nil in Hx]. by apply list_elem_of_singleton in Hx as ->.
Qed.

(** C2. One request at a time.  However the tasks submit requests, drivers work and requests
    end, the queue of every disk stays in the order of the sectors, and of the tasks with a
    request to a disk exactly one is not blocked as long as there is a request: two requests
    never overlap on a disk, and no task is left blocked in the queue with nobody to wake it. *)
Theorem one_request_at_a_time s st :
  (∀ k, 0 <= k → queue_of s k = []) → rtc disk_step (DiskState s []) st →
  ∀ k, 0 <= k → Sorted (λ a b, sort_key a <= sort_key b) (queue_of (table st) k) ∧
    ((queue_of (table st) k = [] ∧ on_disk k (running st) = []) ∨
     ∃ r b, r ∈ queue_of (table st) k ∧ on_disk k (running st) = [(k, r, b)]).
Proof.
  intros H0 R. enough (served_one st) as [Hq Hr _] by (intros k Hk; split; [by apply Hq|by apply Hr]).
  remember (DiskState s []) as st0 eqn:E0. assert (O : served_one st0).
  { subst. split; cbn [table running]; [|by left; split; [apply H0|]|by intros x Hx%elem_of_nil].
    intros k Hk. rewrite H0 by done. split; constructor. }
  clear E0 H0. induction R as [st0|st0 st1 st2 S _ IH]; [done|]. apply IH. destruct S.
  - by eapply submit_served_one.
  - eapply serve_inv; [done|]. by eapply do_request_table.
  - by eapply release_served_one.
Qed.

(** ** The order of service *)

(** The requests in the order in which their tasks get the disk, from the one that has it. *)
Fixpoint drain (fuel : nat) (root : Z) (r : request_t) : DM (D := D) (list request_t) :=
  match fuel with
  | O => stop_st NoFuel
  | S fuel =>
      n ← request_release root r;
      match n with
      | None => mret [r]
      | Some q => l ← drain fuel root q; mret (r :: l)
      end
  end.

(** The elevator.  When nothing new arrives, the queue of a disk runs empty after as many
    requests as it holds, and each is served once: from the request that has the disk upwards
    in the order of the sectors to the last, then down from there through those that lay
    below, or the other way round when the direction is down. *)
Theorem elevator_order root d l1 r l2 s fuel :
  0 <= root → device_list s !! Z.to_nat root = Some d → request_list d = rev l1 ++ r :: l2 → NoDup (addr <$> request_list d) →
  (length l1 + length l2 < fuel)%nat →
  ∃ s', drain fuel root r s = Ok (r :: (if bool_decide (direct d = DIRECT_UP) then l2 ++ l1 else l1 ++ l2), s') ∧
    queue_of s' root = [] ∧ machine s' = machine s.
Proof.
  revert d l1 r l2 s. induction fuel as [|fuel IH]; intros d l1 r l2 s H0 Hd Hq N Hf; [lia|]. cbn [drain].
  destruct (request_release_Ok root d l1 r l2 s H0 Hd Hq N) as (s1 & E & Ed & Em). rewrite (st_bind_eq _ _ _ _ _ E).
  assert (Hd1 : device_list s1 !! Z.to_nat root = Some (set_queue (rev l1 ++ l2) (turn (direct d) l1 l2) d))
    by (rewrite Ed; apply list_lookup_insert_eq; by eapply lookup_lt_Some).
  assert (N1 : NoDup (addr <$> rev l1 ++ l2)).
  { rewrite Hq, fmap_app, fmap_cons in N. rewrite fmap_app. apply NoDup_app in N as (N1 & N2 & N3). apply NoDup_cons in N3 as [_ N3].
    apply NoDup_app. split; [done|]. split; [|done]. intros x Hx Hx'. apply (N2 x Hx). by apply list_elem_of_further. }
  assert (Hstep : ∀ k1 q k2, rev l1 ++ l2 = rev k1 ++ q :: k2 → (length k1 + length k2 < fuel)%nat →
    ∃ s', drain fuel root q s1 = Ok (q :: (if bool_decide (turn (direct d) l1 l2 = DIRECT_UP) then k2 ++ k1 else k1 ++ k2), s') ∧
      queue_of s' root = [] ∧ machine s' = machine s).
  { intros k1 q k2 Ek Hk. destruct (IH _ k1 q k2 s1 H0 Hd1) as (s' & E' & Q' & M'); [done|done|done|]. exists s'. by rewrite <- Em. }
  assert (Hgo : ∀ k1 q k2, pick (direct d) l1 l2 = Some q → rev l1 ++ l2 = rev k1 ++ q :: k2 → (length k1 + length k2 < fuel)%nat →
    q :: (if bool_decide (turn (direct d) l1 l2 = DIRECT_UP) then k2 ++ k1 else k1 ++ k2) = (if bool_decide (direct d = DIRECT_UP) then l2 ++ l1 else l1 ++ l2) →
    ∃ s', match pick (direct d) l1 l2 with None => mret [r] | Some q => l ← drain fuel root q; mret (r :: l) end s1 =
      Ok (r :: (if bool_decide (direct d = DIRECT_UP) then l2 ++ l1 else l1 ++ l2), s') ∧ queue_of s' root = [] ∧ machine s' = machine s).
  { intros k1 q k2 Hp Ek Hk El. destruct (Hstep k1 q k2 Ek Hk) as (s' & E' & R). exists s'. rewrite Hp, (st_bind_eq _ _ _ _ _ E'). split; [|exact R].
    unfold mret, st_ret. by rewrite El. }
  assert (Hdone : l1 = [] → l2 = [] → ∃ s', (mret [r] : DM (list request_t)) s1 = Ok ([r], s') ∧ queue_of s' root = [] ∧ machine s' = machine s).
  { intros -> ->. exists s1. split; [done|]. split; [by rewrite (queue_at _ _ _ Hd1)|done]. }
  clear IH Hstep E Ed Hd Hd1 N Hq N1. destruct (direct d), l1 as [|x l1], l2 as [|y l2]; cbn [length] in Hf.
  all: try (by apply Hdone).
  - apply (Hgo [] y l2); [done|done|cbn; lia|cbn; by rewrite app_nil_r].
  - apply (Hgo l1 x []); [done|cbn; by rewrite !app_nil_r|cbn; lia|cbn; by rewrite app_nil_r].
  - apply (Hgo l1 x (y :: l2)); [done|cbn; by rewrite <- app_assoc|cbn; lia|done].
  - apply (Hgo [] y l2); [done|done|cbn; lia|done].
  - apply (Hgo l1 x []); [done|cbn; by rewrite !app_nil_r|cbn; lia|cbn; by rewrite app_nil_r].
  - apply (Hgo (x :: l1) y l2); [done|done|cbn; lia|done].
Qed.
End serving.

(** [device_write] compares the type of a device without a write routine with the subtype
    [DEV_CONSOLE], which has the number of [DEV_CHAR]: writing to a character device like the
    keyboard stops the kernel. *)
Lemma write_char_device_panics {D} i buf count idx fl (s : devices D) d :
  device_get i s = Ok (d, s) → type d = DEV_CHAR → write d = None → buf ≠ 0 → count ≠ 0 → device_write i buf count idx fl s = Stop Panic.
Proof.
  intros E Ht Hw Hb Hc. unfold device_write. destruct (Z.eqb_spec buf 0), (Z.eqb_spec count 0); try done. cbn [orb].
  rewrite (st_bind_eq _ _ _ _ _ E), Hw, Ht. done.
Qed.

(** ** Witnesses *)

(** A disk that does nothing, as the only device. *)
Definition demo_rw : rw_fn (D := unit) := λ _ _ count _ _, mret count.
Definition demo_disk : devices unit :=
  match device_install DEV_BLOCK DEV_RAMDISK 0 [117; 100; 101; 118] 0 None (Some demo_rw) (Some demo_rw) (device_init ()) with
  | Ok (_, s) => s | Stop _ => device_init () end.

Lemma device_install_find_witness :
  ∃ s' d, device_install DEV_BLOCK DEV_RAMDISK 0 [117; 100; 101; 118] 0 None (Some demo_rw) (Some demo_rw) (device_init ()) = Ok (1, s') ∧
    device_get 1 s' = Ok (d, s') ∧ name d = [117; 100; 101; 118] ∧ device_find DEV_RAMDISK 0 s' = Some 1.
Proof.
  pose proof (device_install_find 0 (device_init ()) DEV_BLOCK DEV_RAMDISK 0 [117; 100; 101; 118] 0 None (Some demo_rw) (Some demo_rw)
    (device_init_installed ()) ltac:(lia) ltac:(done) ltac:(done)) as H.
  rewrite decide_False in H by lia. destruct H as (s' & d & E & _ & _ & G & N & _ & _ & _ & _ & _ & _ & _ & _ & F & _).
  exists s', d. split; [exact E|]. split; [exact G|]. split; [exact N|exact F].
Defined.

Definition demo_request (a idx : Z) : request_t := Request a 1 REQUEST_READ idx 2 0 4096 a.
Definition after_submit (a idx : Z) (s : devices unit) : devices unit :=
  match request_submit a 1 4096 2 idx 0 REQUEST_READ a s with Ok (_, s) => s | Stop _ => s end.

Lemma demo_disk_idle : ∀ k, 0 <= k → queue_of demo_disk k = [].
Proof.
  assert (H : Forall (λ d, request_list d = []) (device_list demo_disk)) by (vm_compute; repeat constructor).
  intros k _. unfold queue_of. destruct (device_list demo_disk !! Z.to_nat k) as [d|] eqn:E; [|done]. cbn. by apply (Forall_lookup_1 _ _ _ _ H E).
Qed.

Lemma one_request_at_a_time_witness :
  ∃ st, rtc disk_step (DiskState demo_disk []) st ∧ queue_of (table st) 1 = [demo_request 12 10; demo_request 11 30] ∧
    on_disk 1 (running st) = [(1, demo_request 11 30, false)] ∧ Sorted (λ a b, sort_key a <= sort_key b) (queue_of (table st) 1).
Proof.
  set (s1 := after_submit 11 30 demo_disk). set (s2 := after_submit 12 10 s1).
  assert (R : rtc disk_step (DiskState demo_disk []) (DiskState s2 [(1, demo_request 11 30, false)])).
  { eapply rtc_l; [|eapply rtc_l; [|reflexivity]].
    - apply (step_submit demo_disk [] 11 1 4096 2 30 0 REQUEST_READ 11 1 (demo_request 11 30) false s1); [vm_compute; reflexivity|].
      intros k q Hk Hq. rewrite demo_disk_idle in Hq by done. inversion Hq.
    - apply (step_submit s1 _ 12 1 4096 2 10 0 REQUEST_READ 12 1 (demo_request 12 10) true s2); [vm_compute; reflexivity|].
      intros k q Hk Hq.
      assert (E1 : request_submit 11 1 4096 2 30 0 REQUEST_READ 11 demo_disk = Ok ((1, demo_request 11 30, false), s1)) by (vm_compute; reflexivity).
      destruct (submit_inv _ _ _ _ _ _ _ _ _ _ _ _ _ E1) as (_ & _ & _ & _ & Q). rewrite Q, !demo_disk_idle in Hq by (done || lia).
      case_decide; [|inversion Hq]. apply list_elem_of_singleton in Hq as ->. cbn. lia. }
  exists (DiskState s2 [(1, demo_request 11 30, false)]). split; [exact R|]. split; [vm_compute; reflexivity|]. split; [reflexivity|].
  exact (proj1 (one_request_at_a_time demo_disk _ demo_disk_idle R 1 ltac:(lia))).
Defined.

Lemma elevator_order_witness :
  ∃ s', drain 4 1 (demo_request 11 30) (after_submit 14 20 (after_submit 13 50 (after_submit 12 10 (after_submit 11 30 demo_disk)))) =
    Ok ([demo_request 11 30; demo_request 13 50; demo_request 14 20; demo_request 12 10], s') ∧ queue_of s' 1 = [].
Proof.
  set (s := after_submit 14 20 _).
  assert (Hd : ∃ d, device_list s !! Z.to_nat 1 = Some d ∧ request_list d = rev [demo_request 14 20; demo_request 12 10] ++ demo_request 11 30 :: [demo_request 13 50] ∧ direct d = DIRECT_UP)
    by (eexists; vm_compute; done).
  destruct Hd as (d & Ed & Eq & Eu).
  destruct (elevator_order 1 d [demo_request 14 20; demo_request 12 10] (demo_request 11 30) [demo_request 13 50] s 4) as (s' & E & Q & _).
  - lia.
  - exact Ed.
  - exact Eq.
  - rewrite Eq. apply (bool_decide_unpack _). vm_compute. exact I.
  - cbn. lia.
  - exists s'. rewrite Eu in E. split; [exact E|exact Q].
Defined.
