(* ===== verification/Ramdisk.v ===== *)
(** * The disks in memory (src/kernel/ramdisk.c)

    Four disks of one megabyte, one behind the other from 3G+12M on, as drivers of the device
    table: reading and writing sectors is copying between a buffer and the disk's memory, on
    the byte store of KString. *)

From S2P Require Import Prelude KString Device.

Definition SECOTR_SIZE : Z := 512.
Definition RAMDISK_NR : Z := 4.
Definition KERNEL_RAMDISK_VADDR : Z := 0xC0C00000.
Definition KERNEL_RAMDISK_SIZE : Z := 0x400000.
Definition DEV_CMD_SECTOR_START : Z := 1.
Definition DEV_CMD_SECTOR_COUNT : Z := 2.

Record ramdisk_t := RamDisk { start : Z; size : Z }.

(** The array [ramdisks] and the memory. *)
Record ram := Ram { ramdisks : list ramdisk_t; memory : mem }.
Definition R := ST ram.

Definition get_disk (p : Z) : R ramdisk_t := λ s, d ← zget (ramdisks s) p; Ok (d, s).
Definition set_disk (p : Z) (d : ramdisk_t) : R unit := λ s, l ← zset (ramdisks s) p d; Ok ((), Ram l (memory s)).
Definition on_memory {A} (m : M A) : R A := λ s,
  match m (memory s) with Ok (a, v) => Ok (a, Ram (ramdisks s) v) | Stop e => Stop e end.

(** The pointer to a disk is its place in the array. *)
Definition ramdisk_ioctl : ioctl_fn (D := ram) := λ p cmd _ _,
  disk ← get_disk p;
  if cmd =? DEV_CMD_SECTOR_START then mret 0
  else if cmd =? DEV_CMD_SECTOR_COUNT then mret (size disk / SECOTR_SIZE)
  else stop_st Panic.

(** [disk->start + lba * SECOTR_SIZE], in 32 bits. *)
Definition sector_addr (disk : ramdisk_t) (lba : Z) : Z := u32 (start disk + u32 (lba * SECOTR_SIZE)).
Definition past_end (a len : Z) : bool := KERNEL_RAMDISK_VADDR + KERNEL_RAMDISK_SIZE <=? u32 (a + len).

Definition ramdisk_read : rw_fn (D := ram) := λ p buf count lba _,
  disk ← get_disk p;
  let a := sector_addr disk lba in
  let len := u8 count * SECOTR_SIZE in
  if past_end a len then stop_st Panic else on_memory (memcpy buf a (Z.to_nat len));; mret (u8 count).

Definition ramdisk_write : rw_fn (D := ram) := λ p buf count lba _,
  disk ← get_disk p;
  let a := sector_addr disk lba in
  let len := u8 count * SECOTR_SIZE in
  if past_end a len then stop_st Panic else on_memory (memcpy a buf (Z.to_nat len));; mret (u8 count).

(** [sprintf(name, "tmpfs%c", i + 'a')], and "udev" for the first. *)
Definition ramdisk_name (i : Z) : list Z := if i =? 0 then [117; 100; 101; 118] else [116; 109; 112; 102; 115; i + 97].

Definition ramdisk_install (i : Z) : DM (D := ram) unit :=
  let sz := KERNEL_RAMDISK_SIZE / RAMDISK_NR in
  on_machine (set_disk i (RamDisk (KERNEL_RAMDISK_VADDR + sz * i) sz));;
  device_install DEV_BLOCK DEV_RAMDISK i (ramdisk_name i) 0 (Some ramdisk_ioctl) (Some ramdisk_read) (Some ramdisk_write);;
  mret ().

Definition ramdisk_init : DM (D := ram) unit :=
  sassert (KERNEL_RAMDISK_SIZE / RAMDISK_NR mod SECOTR_SIZE =? 0);;
  ramdisk_install 0;; ramdisk_install 1;; ramdisk_install 2;; ramdisk_install 3.

(** ** The disks after [ramdisk_init] *)

Definition the_disks : list ramdisk_t := map (λ i, RamDisk (KERNEL_RAMDISK_VADDR + 0x100000 * Z.of_nat i) 0x100000) (seq 0 4).

Definition is_ramdisk (k : Z) (d : device_t ram) : Prop :=
  type d = DEV_BLOCK ∧ subtype d = DEV_RAMDISK ∧ ptr d = k ∧ parent d = 0 ∧ ioctl d = Some ramdisk_ioctl ∧ read d = Some ramdisk_read ∧
  write d = Some ramdisk_write.

(** The disks are the devices [base] to [base + 3]. *)
Record ram_ready (base : Z) (s : devices ram) : Prop := {
  rr_disks : ramdisks (machine s) = the_disks;
  rr_base : 1 <= base <= 60;
  rr_dev : ∀ k, 0 <= k < 4 → ∃ d, device_list s !! Z.to_nat (base + k) = Some d ∧ is_ramdisk k d
}.

Lemma ramdisk_install_Ok n i s :
  installed n s → 0 <= n < 63 → 0 <= i < 4 → length (ramdisks (machine s)) = 4%nat →
  ∃ s', ramdisk_install i s = Ok ((), s') ∧ installed (n + 1) s' ∧
    machine s' = Ram (<[Z.to_nat i := RamDisk (KERNEL_RAMDISK_VADDR + 0x100000 * i) 0x100000]> (ramdisks (machine s))) (memory (machine s)) ∧
    (∃ d, device_list s' !! Z.to_nat (n + 1) = Some d ∧ is_ramdisk i d) ∧
    (∀ k, k ≠ n + 1 → 0 <= k → device_list s' !! Z.to_nat k = device_list s !! Z.to_nat k).
Proof.
  intros I Hn Hi Hl. unfold ramdisk_install. change (KERNEL_RAMDISK_SIZE / RAMDISK_NR) with 0x100000. cbv zeta.
  set (m1 := Ram (<[Z.to_nat i := _]> _) _). set (s1 := Devices (device_list s) m1).
  rewrite (st_bind_eq _ _ s () s1) by (unfold on_machine, set_disk; rewrite zset_Ok by lia; done).
  assert (I1 : installed n s1) by (destruct I; by split).
  pose proof (device_install_Ok n s1 DEV_BLOCK DEV_RAMDISK i (ramdisk_name i) 0 (Some ramdisk_ioctl) (Some ramdisk_read) (Some ramdisk_write)
    I1 ltac:(lia) ltac:(done) ltac:(done)) as H. rewrite decide_False in H by lia.
  destruct H as (s' & d & E & I' & Em & G & _ & H1 & H2 & H3 & H4 & H5 & H6 & H7 & Ho & _).
  exists s'. rewrite (st_bind_eq _ _ _ _ _ E). split; [done|]. split; [done|]. split; [done|]. split; [|done].
  exists d. split; [|done]. by destruct (device_get_inv _ _ _ _ G) as (_ & Hd & _).
Qed.

(** Starting the disks on a table with [n] devices. *)
Lemma ramdisk_init_Ok n s :
  installed n s → 0 <= n <= 59 → length (ramdisks (machine s)) = 4%nat →
  ∃ s', ramdisk_init s = Ok ((), s') ∧ installed (n + 4) s' ∧ ram_ready (n + 1) s' ∧ memory (machine s') = memory (machine s) ∧
    ∀ k, 0 <= k <= n → device_list s' !! Z.to_nat k = device_list s !! Z.to_nat k.
Proof.
  intros I Hn Hl. unfold ramdisk_init. rewrite (st_bind_eq _ _ s () s) by done.
  destruct (ramdisk_install_Ok n 0 s I ltac:(lia) ltac:(lia) Hl) as (s1 & E1 & I1 & M1 & D1 & O1). rewrite (st_bind_eq _ _ _ _ _ E1).
  assert (L1 : length (ramdisks (machine s1)) = 4%nat) by (rewrite M1; cbn; by rewrite length_insert).
  destruct (ramdisk_install_Ok (n + 1) 1 s1 I1 ltac:(lia) ltac:(lia) L1) as (s2 & E2 & I2 & M2 & D2 & O2). rewrite (st_bind_eq _ _ _ _ _ E2).
  assert (L2 : length (ramdisks (machine s2)) = 4%nat) by (rewrite M2; cbn; by rewrite length_insert).
  destruct (ramdisk_install_Ok (n + 1 + 1) 2 s2 I2 ltac:(lia) ltac:(lia) L2) as (s3 & E3 & I3 & M3 & D3 & O3). rewrite (st_bind_eq _ _ _ _ _ E3).
  assert (L3 : length (ramdisks (machine s3)) = 4%nat) by (rewrite M3; cbn; by rewrite length_insert).
  destruct (ramdisk_install_Ok (n + 1 + 1 + 1) 3 s3 I3 ltac:(lia) ltac:(lia) L3) as (s4 & E4 & I4 & M4 & D4 & O4).
  exists s4. split; [done|]. split; [by replace (n + 4) with (n + 1 + 1 + 1 + 1) by lia|]. split; [split|split].
  - rewrite M4, M3, M2, M1. cbn. destruct (ramdisks (machine s)) as [|a [|b [|c [|e [|f l]]]]]; try done.
  - lia.
  - intros k Hk. assert (k = 0 ∨ k = 1 ∨ k = 2 ∨ k = 3) as [-> | [-> | [-> | ->]]] by lia.
    + rewrite O4, O3, O2 by lia. by rewrite Z.add_0_r.
    + rewrite O4, O3 by lia. done.
    + rewrite O4 by lia. by replace (n + 1 + 2) with (n + 1 + 1 + 1) by lia.
    + by replace (n + 1 + 3) with (n + 1 + 1 + 1 + 1) by lia.
  - by rewrite M4, M3, M2, M1.
  - intros k Hk. by rewrite O4, O3, O2, O1 by lia.
Qed.

(** ** Reading and writing *)

(** Where sector [lba] of disk [k] lies. *)
Definition place (k lba : Z) : Z := KERNEL_RAMDISK_VADDR + 0x100000 * k + 512 * lba.

Lemma disk_at k s : ramdisks s = the_disks → 0 <= k < 4 → get_disk k s = Ok (RamDisk (place k 0) 0x100000, s).
Proof.
  intros E Hk. unfold get_disk. rewrite E. assert (k = 0 ∨ k = 1 ∨ k = 2 ∨ k = 3) as [-> | [-> | [-> | ->]]] by lia; reflexivity.
Qed.

Lemma sector_addr_place k lba sz : 0 <= k < 4 → 0 <= lba < 8388608 → sector_addr (RamDisk (place k 0) sz) lba = u32 (place k lba).
Proof.
  intros Hk Hl. unfold sector_addr, place, SECOTR_SIZE, KERNEL_RAMDISK_VADDR. cbn [start]. rewrite (u32_small (lba * 512)) by lia. f_equal. lia.
Qed.

(** When the check at the top of a transfer stops it. *)
Definition refused (k lba count : Z) : bool := (8192 <=? 2048 * k + lba + count) && (place k lba + 512 * count <? 4294967296).

Lemma past_end_refused k lba count :
  0 <= k < 4 → 0 <= lba < 8388608 → 0 <= count < 256 → past_end (u32 (place k lba)) (count * 512) = refused k lba count.
Proof.
  intros Hk Hl Hc. unfold past_end, refused. rewrite u32_add_l. change (KERNEL_RAMDISK_VADDR + KERNEL_RAMDISK_SIZE) with 0xC1000000.
  assert (Hp : place k lba = 0xC0C00000 + 0x100000 * k + 512 * lba) by done. rewrite Hp.
  destruct (Z.ltb_spec (0xC0C00000 + 0x100000 * k + 512 * lba + 512 * count) 4294967296) as [H|H].
  - rewrite u32_small, andb_true_r by lia. zcases; (done || lia).
  - rewrite andb_false_r. apply Z.leb_gt. unfold u32.
    replace (0xC0C00000 + 0x100000 * k + 512 * lba + count * 512)
      with (0xC0C00000 + 0x100000 * k + 512 * lba + 512 * count - 4294967296 + 1 * 4294967296) by lia.
    rewrite Z.mod_add, Z.mod_small by lia. lia.
Qed.

Lemma ramdisk_read_eq k buf count lba fl s :
  ramdisks s = the_disks → 0 <= k < 4 → 0 <= lba < 8388608 → 0 <= count < 256 →
  ramdisk_read k buf count lba fl s =
    if refused k lba count then Stop Panic
    else (on_memory (memcpy buf (u32 (place k lba)) (Z.to_nat (512 * count)));; mret count) s.
Proof.
  intros E Hk Hl Hc. unfold ramdisk_read. rewrite (st_bind_eq _ _ _ _ _ (disk_at k s E Hk)). cbv zeta.
  rewrite sector_addr_place, u8_small by lia. unfold SECOTR_SIZE. rewrite past_end_refused by done. rewrite (Z.mul_comm count). by destruct (refused k lba count).
Qed.

Lemma ramdisk_write_eq k buf count lba fl s :
  ramdisks s = the_disks → 0 <= k < 4 → 0 <= lba < 8388608 → 0 <= count < 256 →
  ramdisk_write k buf count lba fl s =
    if refused k lba count then Stop Panic
    else (on_memory (memcpy (u32 (place k lba)) buf (Z.to_nat (512 * count)));; mret count) s.
Proof.
  intros E Hk Hl Hc. unfold ramdisk_write. rewrite (st_bind_eq _ _ _ _ _ (disk_at k s E Hk)). cbv zeta.
  rewrite sector_addr_place, u8_small by lia. unfold SECOTR_SIZE. rewrite past_end_refused by done. rewrite (Z.mul_comm count). by destruct (refused k lba count).
Qed.

(** C34. What the check of a transfer lets pass.  It compares with the end of all four disks
    and not of the one addressed.  A transfer that ends before the last sector of the last
    disk is the copy of its bytes; one that reaches that sector, although [ramdisk_ioctl]
    counts it, stops the kernel; a sector beyond the end of one of the first three disks is
    the sector of the disk behind it; and since the address wraps at 32 bits, from sector
    2072576 - 2048 k of disk [k] on a transfer passes the check and copies from or to memory
    that is no disk, from address 0 upwards. *)
Theorem ramdisk_bounds k buf count lba fl s :
  ramdisks s = the_disks → 0 <= k < 4 → 0 <= lba < 8388608 → 1 <= count < 256 →
  let moves a := ramdisk_read k buf count lba fl s = (on_memory (memcpy buf a (Z.to_nat (512 * count)));; mret count) s ∧
    ramdisk_write k buf count lba fl s = (on_memory (memcpy a buf (Z.to_nat (512 * count)));; mret count) s in
  ramdisk_ioctl k DEV_CMD_SECTOR_COUNT 0 0 s = Ok (2048, s) ∧
  (2048 * k + lba + count < 8192 → moves (KERNEL_RAMDISK_VADDR + 0x100000 * k + 512 * lba)) ∧
  (8192 <= 2048 * k + lba + count → 2048 * k + lba + count < 2072576 →
     ramdisk_read k buf count lba fl s = Stop Panic ∧ ramdisk_write k buf count lba fl s = Stop Panic) ∧
  (2048 <= lba → k < 3 → ramdisk_read k buf count lba fl s = ramdisk_read (k + 1) buf count (lba - 2048) fl s ∧
     ramdisk_write k buf count lba fl s = ramdisk_write (k + 1) buf count (lba - 2048) fl s) ∧
  (2072576 - 2048 * k <= lba → moves (512 * (lba - (2072576 - 2048 * k)))).
Proof.
  intros E Hk Hl Hc moves. assert (Hplace : ∀ k lba, place k lba = 0xC0C00000 + 0x100000 * k + 512 * lba) by done.
  assert (Hmoves : refused k lba count = false → moves (u32 (place k lba))).
  { intros Hr. unfold moves. by rewrite ramdisk_read_eq, ramdisk_write_eq, Hr by (done || lia). }
  split; [|split; [|split; [|split]]].
  - unfold ramdisk_ioctl. by rewrite (st_bind_eq _ _ _ _ _ (disk_at k s E Hk)).
  - intros H. change (moves (place k lba)). rewrite <- (u32_small (place k lba)) by (rewrite Hplace; lia). apply Hmoves. unfold refused.
    by destruct (Z.leb_spec 8192 (2048 * k + lba + count)); [lia|].
  - intros H1 H2. rewrite ramdisk_read_eq, ramdisk_write_eq by (done || lia). unfold refused. rewrite Hplace.
    destruct (Z.leb_spec 8192 (2048 * k + lba + count)); [|lia].
    by destruct (Z.ltb_spec (0xC0C00000 + 0x100000 * k + 512 * lba + 512 * count) 4294967296); [|lia].
  - intros H1 H2. rewrite !ramdisk_read_eq, !ramdisk_write_eq by (done || lia).
    assert (place (k + 1) (lba - 2048) = place k lba) as Ep by (rewrite !Hplace; lia). unfold refused. rewrite Ep.
    by replace (2048 * (k + 1) + (lba - 2048) + count) with (2048 * k + lba + count) by lia.
  - intros H. assert (u32 (place k lba) = 512 * (lba - (2072576 - 2048 * k))) as <-.
    { unfold u32. rewrite Hplace.
      replace (0xC0C00000 + 0x100000 * k + 512 * lba) with (512 * (lba - (2072576 - 2048 * k)) + 1 * 4294967296) by lia.
      rewrite Z.mod_add, Z.mod_small by lia. done. }
    apply Hmoves. unfold refused. rewrite Hplace. apply andb_false_iff. right. apply Z.ltb_ge. lia.
Qed.

(** Copying through the driver. *)
Lemma on_memory_copy q p l s :
  bytes_at (memory s) p l → room (memory s) q (length l) → apart p (length l) q (length l) →
  on_memory (memcpy q p (length l)) s = Ok ((), Ram (ramdisks s) (KString.write q l (memory s))).
Proof. intros Hl Hr Ha. unfold on_memory. by rewrite (memcpy_spec (memory s) q p l Hl Hr Ha). Qed.

Lemma device_at base k s :
  ram_ready base s → 0 <= k < 4 → ∃ d, device_get (base + k) s = Ok (d, s) ∧ is_ramdisk k d.
Proof.
  intros [_ Hb Hd] Hk. destruct (Hd k Hk) as (d & Ed & I). exists d. split; [|done]. pose proof I as (Ht & _).
  unfold device_get. rewrite (st_bind_eq _ _ s () s) by (unfold sassert, DEVICE_NR; by destruct (Z.ltb_spec (base + k) 64); [|lia]).
  rewrite (st_bind_eq _ _ s d s) by (unfold at_slot, zget; destruct (Z.leb_spec 0 (base + k)); [by rewrite Ed|lia]).
  by rewrite (st_bind_eq _ _ s () s) by (rewrite Ht; done).
Qed.

(** What a transfer within the four disks does to memory. *)
Definition with_memory (v : mem) (s : devices ram) : devices ram := Devices (device_list s) (Ram (ramdisks (machine s)) v).

Lemma device_write_ram base k buf count lba fl s l :
  ram_ready base s → 0 <= k < 4 → 0 <= lba → 1 <= count < 256 → 2048 * k + lba + count < 8192 → buf ≠ 0 →
  Z.of_nat (length l) = 512 * count → bytes_at (memory (machine s)) buf l → room (memory (machine s)) (place k lba) (length l) →
  apart buf (length l) (place k lba) (length l) →
  device_write (base + k) buf count lba fl s = Ok (count, with_memory (KString.write (place k lba) l (memory (machine s))) s).
Proof.
  intros Rr Hk Hl Hc Hb Hn Hlen Hbytes Hroom Hap. unfold device_write.
  destruct (Z.eqb_spec buf 0), (Z.eqb_spec count 0); try lia. cbn [orb].
  destruct (device_at base k s Rr Hk) as (d & E & I). rewrite (st_bind_eq _ _ _ _ _ E). destruct I as (_ & _ & Hp & _ & _ & _ & ->). rewrite Hp.
  unfold on_machine. rewrite ramdisk_write_eq by (apply Rr || lia). unfold refused. destruct (Z.leb_spec 8192 (2048 * k + lba + count)); [lia|]. cbn [andb].
  rewrite u32_small by (unfold place, KERNEL_RAMDISK_VADDR; lia). rewrite <- Hlen, Nat2Z.id.
  by rewrite (st_bind_eq _ _ _ _ _ (on_memory_copy _ _ l (machine s) Hbytes Hroom Hap)).
Qed.

Lemma device_read_ram base k buf count lba fl s l :
  ram_ready base s → 0 <= k < 4 → 0 <= lba → 1 <= count < 256 → 2048 * k + lba + count < 8192 → buf ≠ 0 →
  Z.of_nat (length l) = 512 * count → bytes_at (memory (machine s)) (place k lba) l → room (memory (machine s)) buf (length l) →
  apart buf (length l) (place k lba) (length l) →
  device_read (base + k) buf count lba fl s = Ok (count, with_memory (KString.write buf l (memory (machine s))) s).
Proof.
  intros Rr Hk Hl Hc Hb Hn Hlen Hbytes Hroom Hap. unfold device_read.
  destruct (Z.eqb_spec buf 0), (Z.eqb_spec count 0); try lia. cbn [orb].
  destruct (device_at base k s Rr Hk) as (d & E & I). rewrite (st_bind_eq _ _ _ _ _ E). destruct I as (_ & _ & Hp & _ & _ & -> & _). rewrite Hp.
  unfold on_machine. rewrite ramdisk_read_eq by (apply Rr || lia). unfold refused. destruct (Z.leb_spec 8192 (2048 * k + lba + count)); [lia|]. cbn [andb].
  rewrite u32_small by (unfold place, KERNEL_RAMDISK_VADDR; lia). rewrite <- Hlen, Nat2Z.id.
  rewrite (st_bind_eq _ _ _ _ _ (on_memory_copy _ _ l (machine s) Hbytes Hroom ltac:(unfold apart in *; lia))). done.
Qed.

(** What is written to a disk is read back.  Through the device table, [count] sectors
    written to one of the disks that [ramdisk_init] made change memory at the place of these
    sectors only, which no other sector of any disk shares, and reading them into another
    buffer gives the bytes of the first one. *)
Theorem ramdisk_roundtrip base k buf buf2 count lba s l :
  ram_ready base s → 0 <= k < 4 → 0 <= lba → 1 <= count < 256 → 2048 * k + lba + count < 8192 → buf ≠ 0 → buf2 ≠ 0 →
  Z.of_nat (length l) = 512 * count → bytes_at (memory (machine s)) buf l → Forall is_char l →
  room (memory (machine s)) (place k lba) (length l) → room (memory (machine s)) buf2 (length l) →
  apart buf (length l) (place k lba) (length l) → apart buf2 (length l) (place k lba) (length l) →
  ∃ s1 s2, device_write (base + k) buf count lba 0 s = Ok (count, s1) ∧ device_read (base + k) buf2 count lba 0 s1 = Ok (count, s2) ∧
    only (memory (machine s)) (memory (machine s1)) (place k lba) (length l) ∧
    only (memory (machine s1)) (memory (machine s2)) buf2 (length l) ∧ bytes_at (memory (machine s2)) buf2 l ∧
    ∀ k' lba', 0 <= k' < 4 → 0 <= lba' < 2048 → lba + count <= 2048 → (k' ≠ k ∨ lba' < lba ∨ lba + count <= lba') →
      apart (place k' lba') 512 (place k lba) (length l).
Proof.
  intros Rr Hk Hl Hc Hb Hn Hn2 Hlen Hbytes Hchars Hroom Hroom2 Hap Hap2.
  set (m1 := KString.write (place k lba) l (memory (machine s))). set (s1 := with_memory m1 s).
  assert (Hdisk : bytes_at m1 (place k lba) l) by by apply write_bytes.
  assert (Rr1 : ram_ready base s1) by (destruct Rr; by split).
  exists s1, (with_memory (KString.write buf2 l m1) s1). split; [by apply device_write_ram|]. split.
  { apply (device_read_ram base k buf2 count lba 0 s1 l); try done. by apply room_write. }
  split; [apply write_only|]. split; [apply write_only|]. split; [by apply write_bytes|].
  intros k' lba' Hk' Hl' Hin Hdiff. unfold apart, place. lia.
Qed.

(** ** Witnesses *)

Definition demo_ram : ram := Ram (replicate 4 (RamDisk 0 0)) (list_to_map (map (λ i, (Z.of_nat i + 5000, 65)) (seq 0 1024) ++ map (λ i, (place 1 7 + Z.of_nat i, 0)) (seq 0 512))).

Lemma demo_ready : ∃ s, ramdisk_init (device_init demo_ram) = Ok ((), s) ∧ ram_ready 1 s ∧ memory (machine s) = memory demo_ram.
Proof.
  destruct (ramdisk_init_Ok 0 (device_init demo_ram) (device_init_installed _) ltac:(lia) eq_refl) as (s & E & _ & Rr & M & _). by exists s.
Qed.

Lemma ramdisk_bounds_witness :
  ∃ s, ramdisks s = the_disks ∧ ramdisk_read 3 4096 1 2047 0 s = Stop Panic ∧ ramdisk_ioctl 3 DEV_CMD_SECTOR_COUNT 0 0 s = Ok (2048, s).
Proof.
  exists (Ram the_disks ∅). split; [reflexivity|].
  destruct (ramdisk_bounds 3 4096 1 2047 0 (Ram the_disks ∅) eq_refl ltac:(lia) ltac:(lia) ltac:(lia)) as (E1 & _ & E2 & _).
  split; [exact (proj1 (E2 ltac:(lia) ltac:(lia)))|exact E1].
Defined.

Lemma ramdisk_roundtrip_witness :
  ∃ s s1 s2, ram_ready 1 s ∧ device_write (1 + 1) 5000 1 7 0 s = Ok (1, s1) ∧ device_read (1 + 1) 5512 1 7 0 s1 = Ok (1, s2) ∧
    bytes_at (memory (machine s2)) 5512 (replicate 512 65).
Proof.
  destruct demo_ready as (s & _ & Rr & M). exists s.
  destruct (ramdisk_roundtrip 1 1 5000 5512 1 7 s (replicate 512 65)) as (s1 & s2 & E1 & E2 & _ & _ & B & _).
  - exact Rr.
  - lia.
  - lia.
  - lia.
  - lia.
  - lia.
  - lia.
  - rewrite length_replicate. lia.
  - rewrite M. vm_compute. repeat split.
  - apply Forall_replicate. unfold is_char. lia.
  - rewrite M. apply room_check. vm_compute. reflexivity.
  - rewrite M. apply room_check. vm_compute. reflexivity.
  - rewrite length_replicate. vm_compute. left. discriminate.
  - rewrite length_replicate. vm_compute. left. discriminate.
  - exists s1, s2. split; [exact Rr|]. split; [exact E1|]. split; [exact E2|exact B].
Defined.
