(* ===== verification/Cache.v ===== *)
(** * The block cache (src/kernel/cache.c)

    Blocks of a kilobyte, kept in memory under their device and block number: a hash table
    for finding them, a list of those nobody uses, the least recently released at its end, and
    reference counts.  A cache is known by its place in the order of creation, which stands for
    its address; the lists hold these places.  The disk below is an interface, which the
    ramdisks implement (CachedDisk): its state holds the memory of the buffers as well, since
    the driver fills and empties them.  A task that finds every cache in use blocks; what it does
    when it is woken is [getblk_free] again.  The lock around filling a block is the Mutex
    component's and left out.  Reference counts are unbounded, in C they have 32 bits; and a cache
    made by [get_new_cache] is taken to be in no list: in C the memory its list nodes lie in, which
    nobody has written to, has to be zero. *)

From S2P Require Import Prelude DList.

Definition SECTOR_SIZE : Z := 512.
Definition BLOCK_SIZE : Z := 1024.
Definition BLOCK_SECS : Z := 2.
Definition HASH_COUNT : Z := 101.
Definition KERNEL_PAGE_CACHE_VADDR : Z := 0xC0800000.
Definition KERNEL_PAGE_CAHCE_SIZE : Z := 0x400000.
(** [sizeof(cache_t)]: four words, two list nodes, a lock of 20 bytes, two flags. *)
Definition sizeof_cache : Z := 56.
(** The first buffer is the last one of the area; the following ones lie below. *)
Definition first_data : Z := KERNEL_PAGE_CACHE_VADDR + KERNEL_PAGE_CAHCE_SIZE - BLOCK_SIZE.
Definition is_buffer (a : Z) : Prop := ∃ i : nat, a = first_data - 1024 * Z.of_nat i ∧ KERNEL_PAGE_CACHE_VADDR <= a.
Definition EOF_dev : Z := 4294967295.

(** ** The disk below *)

(** A disk of blocks, with the memory of the buffers: [transfer ty a dev idx] is
    [device_request] for the two sectors from [idx] on and the buffer at [a]. *)
Class BlockDevice (D : Type) := {
  transfer : bool → Z → Z → Z → ST D unit;
  buffer : D → Z → list Z;
  on_device : D → Z → Z → list Z;
  poke : Z → list Z → D → D;
  dev_ok : D → Prop;
  has_block : Z → Z → Prop;
  block_bytes : list Z → Prop;
  has_block_u32 : ∀ dv b, has_block dv b → 0 <= dv < 4294967295 ∧ 0 <= b < 2147483648;
  read_spec : ∀ a dv b d, dev_ok d → is_buffer a → has_block dv b →
    ∃ d', transfer false a dv (b * 2) d = Ok ((), d') ∧ dev_ok d' ∧ buffer d' a = on_device d dv b ∧
      (∀ a', is_buffer a' → a' ≠ a → buffer d' a' = buffer d a') ∧ (∀ e c, has_block e c → on_device d' e c = on_device d e c);
  write_spec : ∀ a dv b d, dev_ok d → is_buffer a → has_block dv b →
    ∃ d', transfer true a dv (b * 2) d = Ok ((), d') ∧ dev_ok d' ∧ on_device d' dv b = buffer d a ∧
      (∀ a', is_buffer a' → buffer d' a' = buffer d a') ∧
      (∀ e c, has_block e c → (e, c) ≠ (dv, b) → on_device d' e c = on_device d e c);
  poke_spec : ∀ a l d, dev_ok d → is_buffer a → block_bytes l →
    dev_ok (poke a l d) ∧ buffer (poke a l d) a = l ∧ (∀ a', is_buffer a' → a' ≠ a → buffer (poke a l d) a' = buffer d a') ∧
    (∀ e c, has_block e c → on_device (poke a l d) e c = on_device d e c)
}.

(** [cache_t], without the list nodes and the lock. *)
Record cache_t := Cache { data : Z; dev : Z; block : Z; count : Z; dirty : bool; valid : bool }.

Definition set_count (v : Z) (c : cache_t) : cache_t := Cache (data c) (dev c) (block c) v (dirty c) (valid c).
Definition set_flags (dirty' valid' : bool) (c : cache_t) : cache_t := Cache (data c) (dev c) (block c) (count c) dirty' valid'.

Definition hash (dv b : Z) : Z := Z.lxor dv b mod HASH_COUNT.

Section cache.
Context {D : Type} `{BD : BlockDevice D}.

(** The globals of the file, the tasks in [wait_list] by number. *)
Record pool := Pool {
  caches : list cache_t; cache_ptr : Z; cache_data : Z; free_list : list nat; wait_list : list Z;
  hash_table : list (list nat); disk : D
}.
Definition CM := ST pool.

Definition set_caches (v : list cache_t) (p : pool) : pool := Pool v (cache_ptr p) (cache_data p) (free_list p) (wait_list p) (hash_table p) (disk p).
Definition set_free (v : list nat) (p : pool) : pool := Pool (caches p) (cache_ptr p) (cache_data p) v (wait_list p) (hash_table p) (disk p).
Definition set_wait (v : list Z) (p : pool) : pool := Pool (caches p) (cache_ptr p) (cache_data p) (free_list p) v (hash_table p) (disk p).
Definition set_hash (v : list (list nat)) (p : pool) : pool := Pool (caches p) (cache_ptr p) (cache_data p) (free_list p) (wait_list p) v (disk p).
Definition set_disk (v : D) (p : pool) : pool := Pool (caches p) (cache_ptr p) (cache_data p) (free_list p) (wait_list p) (hash_table p) v.

Definition get_cache (i : nat) : CM cache_t := λ p, match caches p !! i with Some c => Ok (c, p) | None => Stop OutOfBounds end.
Definition upd_cache (i : nat) (f : cache_t → cache_t) : CM unit := λ p, (c ← get_cache i; modify_st (λ p, set_caches (<[i := f c]> (caches p)) p)) p.
Definition get_bucket (h : Z) : CM (list nat) := λ p, l ← zget (hash_table p) h; Ok (l, p).
Definition put_bucket (h : Z) (l : list nat) : CM unit := λ p, t ← zset (hash_table p) h l; Ok ((), set_hash t p).
Definition on_disk {A} (m : ST D A) : CM A := λ p,
  match m (disk p) with Ok (a, d) => Ok (a, set_disk d p) | Stop e => Stop e end.

(** ** The hash table *)

(** Along the chain of a bucket. *)
Fixpoint chain_find (l : list nat) (dv b : Z) : CM (option nat) :=
  match l with
  | [] => mret None
  | i :: l => c ← get_cache i; if (dev c =? dv) && (block c =? b) then mret (Some i) else chain_find l dv b
  end.

Definition get_from_hash_table (dv b : Z) : CM (option nat) :=
  l ← get_bucket (hash dv b);
  r ← chain_find l dv b;
  match r with
  | None => mret None
  | Some i => modify_st (λ p, set_free (filter (λ j, j ≠ i) (free_list p)) p);; mret (Some i)
  end.

Definition hash_locate (i : nat) : CM unit :=
  c ← get_cache i;
  l ← get_bucket (hash (dev c) (block c));
  sassert (bool_decide (i ∉ l));;
  put_bucket (hash (dev c) (block c)) (i :: l).

Definition hash_remove (i : nat) : CM unit :=
  c ← get_cache i;
  l ← get_bucket (hash (dev c) (block c));
  sassert (bool_decide (i ∈ l));;
  put_bucket (hash (dev c) (block c)) (filter (λ j, j ≠ i) l).

(** ** Getting a cache *)

Definition get_new_cache : CM (option nat) := λ p,
  if u32 (cache_ptr p + sizeof_cache) <? cache_data p then
    let c := Cache (cache_data p) EOF_dev 0 0 false false in
    Ok (Some (length (caches p)), Pool (caches p ++ [c]) (cache_ptr p + sizeof_cache) (cache_data p - BLOCK_SIZE) (free_list p) (wait_list p) (hash_table p) (disk p))
  else Ok (None, p).

(** One round of the loop; [None] when task [t] blocks on [wait_list]. *)
Definition get_free_cache (t : Z) : CM (option nat) :=
  r ← get_new_cache;
  match r with
  | Some i => mret (Some i)
  | None =>
      p ← get_st;
      match last (free_list p) with
      | Some i =>
          put_st (set_free (removelast (free_list p)) p);;          (* list_popback *)
          hash_remove i;;
          upd_cache i (λ c, set_flags (dirty c) false c);;
          mret (Some i)
      | None => put_st (set_wait (wait_list p ++ [t]) p);; mret None
      end
  end.

(** [getblk] from the call of [get_free_cache] on. *)
Definition getblk_free (t dv b : Z) : CM (option nat) :=
  r ← get_free_cache t;
  match r with
  | None => mret None
  | Some i =>
      c ← get_cache i;
      sassert (count c =? 0);;
      sassert (negb (dirty c));;
      upd_cache i (λ c, Cache (data c) dv b 1 (dirty c) (valid c));;
      hash_locate i;;
      mret (Some i)
  end.

Definition getblk (t dv b : Z) : CM (option nat) :=
  r ← get_from_hash_table dv b;
  match r with
  | Some i => upd_cache i (λ c, set_count (count c + 1) c);; mret (Some i)
  | None => getblk_free t dv b
  end.

(** [bread] from the point where it has its cache. *)
Definition fill (i : nat) : CM unit :=
  c ← get_cache i;
  if valid c then mret ()
  else on_disk (transfer false (data c) (dev c) (u32 (block c * BLOCK_SECS)));; upd_cache i (set_flags false true).

Definition bread (t dv b : Z) : CM (option nat) :=
  r ← getblk t dv b;
  match r with None => mret None | Some i => fill i;; mret (Some i) end.

Definition bwrite (i : nat) : CM unit :=
  c ← get_cache i;
  if dirty c then on_disk (transfer true (data c) (dev c) (u32 (block c * BLOCK_SECS)));; upd_cache i (set_flags false true)
  else mret ().

(** [brelse] up to the point where the block has been put into [free_list]; whether it goes on. *)
Definition brelse_push (i : nat) : CM bool :=
  upd_cache i (λ c, set_count (count c - 1) c);;
  c ← get_cache i;
  sassert (0 <=? count c);;
  if negb (count c =? 0) then mret false
  else
    p ← get_st;
    sassert (bool_decide (i ∉ free_list p));;
    put_st (set_free (i :: free_list p) p);;
    mret true.

(** The rest: the answer is the task that is woken. *)
Definition brelse_write (i : nat) : CM (option Z) :=
  bwrite i;;
  p ← get_st;
  match last (wait_list p) with
  | Some t => put_st (set_wait (removelast (wait_list p)) p);; mret (Some t)
  | None => mret None
  end.

Definition brelse (i : option nat) : CM (option Z) :=
  match i with
  | None => mret None
  | Some i => b ← brelse_push i; if (b : bool) then brelse_write i else mret None
  end.

Definition page_cache_init (d : D) : pool := Pool [] KERNEL_PAGE_CACHE_VADDR first_data [] [] (replicate 101 []) d.

(** What the file system does to a block it holds: new contents, marked dirty. *)
Definition store_block (i : nat) (l : list Z) : CM unit :=
  c ← get_cache i; modify_st (λ p, set_disk (poke (data c) l (disk p)) p);; upd_cache i (set_flags true (valid c)).

(** ** The invariant *)

(** How many caches the area holds: a header of 56 bytes and a buffer of 1024 for each. *)
Definition CAPACITY : nat := 3883.

(** The chains hold the caches of [H], each in the bucket of its key. *)
Definition hashed (H : nat → Prop) (p : pool) : Prop :=
  length (hash_table p) = 101%nat ∧
  ∀ h l, hash_table p !! h = Some l → NoDup l ∧
    ∀ i, i ∈ l ↔ H i ∧ ∃ c, caches p !! i = Some c ∧ Z.to_nat (hash (dev c) (block c)) = h.

Record cache_ok (i : nat) (c : cache_t) : Prop := {
  co_data : data c = first_data - 1024 * Z.of_nat i;
  co_key : has_block (dev c) (block c);
  co_count : 0 <= count c;
  co_clean : count c = 0 → dirty c = false;
  co_valid : dirty c = true → valid c = true
}.

Record pool_ok (p : pool) : Prop := {
  po_ptr : cache_ptr p = KERNEL_PAGE_CACHE_VADDR + 56 * Z.of_nat (length (caches p));
  po_data : cache_data p = first_data - 1024 * Z.of_nat (length (caches p));
  po_room : (length (caches p) <= CAPACITY)%nat;
  po_at : ∀ i c, caches p !! i = Some c → cache_ok i c;
  po_keys : ∀ i j c e, caches p !! i = Some c → caches p !! j = Some e → dev c = dev e → block c = block e → i = j;
  po_hash : hashed (λ _, True) p;
  po_free : NoDup (free_list p) ∧ ∀ i, i ∈ free_list p ↔ ∃ c, caches p !! i = Some c ∧ count c = 0;
  po_dev : dev_ok (disk p)
}.

(** What the file system takes for the contents of the disk: a valid block holds it, and so
    does the disk itself where no dirty block stands for it. *)
Definition represents (v : Z → Z → list Z) (p : pool) : Prop :=
  ∀ dv b, has_block dv b →
    (∀ i c, caches p !! i = Some c → dev c = dv → block c = b → valid c = true → buffer (disk p) (data c) = v dv b) ∧
    ((∀ i c, caches p !! i = Some c → dev c = dv → block c = b → dirty c = false) → on_device (disk p) dv b = v dv b).

Definition uncached (dv b : Z) (p : pool) : Prop := ∀ i c, caches p !! i = Some c → ¬ (dev c = dv ∧ block c = b).

Lemma buffer_at i : (i < CAPACITY)%nat → is_buffer (first_data - 1024 * Z.of_nat i).
Proof.
  intros H. exists i. split; [done|]. unfold CAPACITY, first_data, KERNEL_PAGE_CACHE_VADDR, KERNEL_PAGE_CAHCE_SIZE, BLOCK_SIZE in *. lia.
Qed.

Lemma cache_buffer p i c : pool_ok p → caches p !! i = Some c → is_buffer (data c).
Proof.
  intros O Hc. destruct (po_at _ O i c Hc) as [-> _ _ _ _]. apply buffer_at. pose proof (lookup_lt_Some _ _ _ Hc). pose proof (po_room _ O). lia.
Qed.

Lemma hash_range dv b : 0 <= hash dv b < 101.
Proof. by apply Z.mod_pos_bound. Qed.

Lemma bucket_at H p dv b : hashed H p → ∃ l, get_bucket (hash dv b) p = Ok (l, p) ∧ hash_table p !! Z.to_nat (hash dv b) = Some l.
Proof.
  intros [Hl _]. pose proof (hash_range dv b). destruct (zget_is_Ok (hash_table p) (hash dv b)) as (l & E & Hb); [lia|].
  exists l. split; [|done]. unfold get_bucket. by rewrite E.
Qed.

Lemma put_bucket_Ok h l p : 0 <= h < 101 → length (hash_table p) = 101%nat → put_bucket h l p = Ok ((), set_hash (<[Z.to_nat h := l]> (hash_table p)) p).
Proof. intros Hh Hl. unfold put_bucket. by rewrite zset_Ok by lia. Qed.

Lemma get_cache_Ok i c p : caches p !! i = Some c → get_cache i p = Ok (c, p).
Proof. intros H. unfold get_cache. by rewrite H. Qed.

Lemma upd_cache_Ok i c f p : caches p !! i = Some c → upd_cache i f p = Ok ((), set_caches (<[i := f c]> (caches p)) p).
Proof. intros H. unfold upd_cache. by rewrite (st_bind_eq _ _ _ _ _ (get_cache_Ok i c p H)). Qed.

Lemma hash_remove_Ok i c p :
  hashed (λ _, True) p → caches p !! i = Some c → ∃ t, hash_remove i p = Ok ((), set_hash t p) ∧ hashed (λ j, j ≠ i) (set_hash t p).
Proof.
  intros Hh Hc. unfold hash_remove. rewrite (st_bind_eq _ _ _ _ _ (get_cache_Ok i c p Hc)).
  destruct (bucket_at _ p (dev c) (block c) Hh) as (l & E & Hb). rewrite (st_bind_eq _ _ _ _ _ E). destruct Hh as [Hl Hh].
  destruct (Hh _ _ Hb) as [N Hin]. assert (Hi : i ∈ l) by (apply Hin; split; [done|by exists c]).
  rewrite (st_bind_eq _ _ p () p) by (unfold sassert; by rewrite bool_decide_true). rewrite put_bucket_Ok by (done || apply hash_range).
  eexists. split; [done|]. split; [cbn; by rewrite length_insert|]. cbn [hash_table caches set_hash]. intros h l' Hl'.
  destruct (decide (h = Z.to_nat (hash (dev c) (block c)))) as [->|Hne].
  - rewrite list_lookup_insert_eq in Hl' by (by eapply lookup_lt_Some). injection Hl' as <-. split; [by apply NoDup_filter|].
    intros j. rewrite list_elem_of_filter, Hin. tauto.
  - rewrite list_lookup_insert_ne in Hl' by done. destruct (Hh _ _ Hl') as [N' Hin']. split; [done|]. intros j. rewrite Hin'. split; [|tauto].
    intros [_ (e & He & Hk)]. split; [|by exists e]. intros ->. assert (e = c) as -> by congruence. done.
Qed.

Lemma hash_locate_Ok i c p :
  hashed (λ j, j ≠ i) p → caches p !! i = Some c → ∃ t, hash_locate i p = Ok ((), set_hash t p) ∧ hashed (λ _, True) (set_hash t p).
Proof.
  intros Hh Hc. unfold hash_locate. rewrite (st_bind_eq _ _ _ _ _ (get_cache_Ok i c p Hc)).
  destruct (bucket_at _ p (dev c) (block c) Hh) as (l & E & Hb). rewrite (st_bind_eq _ _ _ _ _ E). destruct Hh as [Hl Hh].
  destruct (Hh _ _ Hb) as [N Hin]. assert (Hi : i ∉ l) by (rewrite Hin; tauto).
  rewrite (st_bind_eq _ _ p () p) by (unfold sassert; by rewrite bool_decide_true). rewrite put_bucket_Ok by (done || apply hash_range).
  eexists. split; [done|]. split; [cbn; by rewrite length_insert|]. cbn [hash_table caches set_hash]. intros h l' Hl'.
  destruct (decide (h = Z.to_nat (hash (dev c) (block c)))) as [->|Hne].
  - rewrite list_lookup_insert_eq in Hl' by (by eapply lookup_lt_Some). injection Hl' as <-. split; [by constructor|].
    intros j. rewrite elem_of_cons, Hin. split; [intros [->|[_ H]]; [split; [done|by exists c]|done]|]. intros [_ H].
    destruct (decide (j = i)); [by left|by right].
  - rewrite list_lookup_insert_ne in Hl' by done. destruct (Hh _ _ Hl') as [N' Hin']. split; [done|]. intros j. rewrite Hin'. split; [tauto|].
    intros [_ (e & He & Hk)]. split; [|by exists e]. intros ->. assert (e = c) as -> by congruence. done.
Qed.

(** Changing a cache that is in no chain. *)
Lemma hashed_upd i c p : hashed (λ j, j ≠ i) p → hashed (λ j, j ≠ i) (set_caches (<[i := c]> (caches p)) p).
Proof.
  intros [Hl Hh]. split; [done|]. cbn [hash_table caches set_caches]. intros h l Hb. destruct (Hh h l Hb) as [N Hin]. split; [done|].
  intros j. rewrite Hin. split; intros [Hj H]; (split; [done|]); revert H; by rewrite list_lookup_insert_ne.
Qed.

(** Changing what does not matter to the chains. *)
Lemma hashed_same H i c c' p :
  hashed H p → caches p !! i = Some c → dev c' = dev c → block c' = block c → hashed H (set_caches (<[i := c']> (caches p)) p).
Proof.
  intros [Hl Hh] Hc Ed Eb. split; [done|]. cbn [hash_table caches set_caches]. intros h l Hb. destruct (Hh h l Hb) as [N Hin]. split; [done|].
  intros j. rewrite Hin. destruct (decide (j = i)) as [->|Hne]; [|by rewrite list_lookup_insert_ne].
  rewrite list_lookup_insert_eq by (by eapply lookup_lt_Some). split; intros [Hj (e & He & Hk)]; (split; [done|]).
  - exists c'. split; [done|]. rewrite Ed, Eb. by simplify_eq.
  - exists c. split; [done|]. simplify_eq. by rewrite <- Ed, <- Eb.
Qed.

(** ** What each operation does *)

(** One cache changes, keeping its key; the free list follows its count. *)
Lemma pool_ok_change i c c' F w d p :
  pool_ok p → caches p !! i = Some c → dev c' = dev c → block c' = block c → cache_ok i c' →
  NoDup F → (∀ j, j ∈ F ↔ ∃ e, <[i := c']> (caches p) !! j = Some e ∧ count e = 0) → dev_ok d →
  pool_ok (Pool (<[i := c']> (caches p)) (cache_ptr p) (cache_data p) F w (hash_table p) d).
Proof.
  intros [P1 P2 P3 P4 P5 P6 P7 P8] Hc Ed Eb Ok' N HF Hd.
  assert (Hkey : ∀ j e, <[i := c']> (caches p) !! j = Some e → ∃ e0, caches p !! j = Some e0 ∧ dev e = dev e0 ∧ block e = block e0).
  { intros j e. destruct (decide (j = i)) as [->|Hne]; [|rewrite list_lookup_insert_ne by done; by exists e].
    rewrite list_lookup_insert_eq by (by eapply lookup_lt_Some). intros [= <-]. by exists c. }
  split; cbn [caches cache_ptr cache_data free_list hash_table disk]; rewrite ?length_insert; try done.
  - intros j e He. destruct (decide (j = i)) as [->|Hne].
    + rewrite list_lookup_insert_eq in He by (by eapply lookup_lt_Some). by injection He as <-.
    + rewrite list_lookup_insert_ne in He by done. by apply P4.
  - intros j k e g (e0 & E1 & E2 & E3)%Hkey (g0 & G1 & G2 & G3)%Hkey H1 H2. apply (P5 j k e0 g0); congruence.
  - by apply (hashed_same (λ _, True) i c c' p).
Qed.

(** The counts of the other caches are as before. *)
Lemma free_change i c c' p :
  pool_ok p → caches p !! i = Some c →
  ∀ j, (∃ e, <[i := c']> (caches p) !! j = Some e ∧ count e = 0) ↔ (j ≠ i ∧ j ∈ free_list p) ∨ (j = i ∧ count c' = 0).
Proof.
  intros O Hc j. destruct (po_free _ O) as [_ HF]. destruct (decide (j = i)) as [->|Hne].
  - rewrite list_lookup_insert_eq by (by eapply lookup_lt_Some). naive_solver.
  - rewrite list_lookup_insert_ne by done. rewrite HF. naive_solver.
Qed.

Lemma represents_ext v p p' :
  represents v p → disk p' = disk p →
  (∀ i c', caches p' !! i = Some c' → valid c' = true →
     ∃ c, caches p !! i = Some c ∧ data c = data c' ∧ dev c = dev c' ∧ block c = block c' ∧ valid c = true) →
  (∀ i c, caches p !! i = Some c → dirty c = true →
     ∃ c', caches p' !! i = Some c' ∧ dev c = dev c' ∧ block c = block c' ∧ dirty c' = true) →
  represents v p'.
Proof.
  intros R Ed H1 H2 dv b Hb. rewrite Ed. destruct (R dv b Hb) as [R1 R2]. split.
  - intros i c' Hc' E1 E2 Hv. destruct (H1 i c' Hc' Hv) as (c & Hc & <- & E3 & E4 & Hv'). apply (R1 i c); congruence.
  - intros Hn. apply R2. intros i c Hc E1 E2. destruct (dirty c) eqn:Hd; [|done]. destruct (H2 i c Hc Hd) as (c' & Hc' & E3 & E4 & Hd').
    rewrite <- Hd'. apply (Hn i c'); congruence.
Qed.

Lemma chain_find_Ok l dv b p :
  (∀ i, i ∈ l → is_Some (caches p !! i)) →
  ∃ r, chain_find l dv b p = Ok (r, p) ∧
    match r with
    | Some i => i ∈ l ∧ ∃ c, caches p !! i = Some c ∧ dev c = dv ∧ block c = b
    | None => ∀ i c, i ∈ l → caches p !! i = Some c → ¬ (dev c = dv ∧ block c = b)
    end.
Proof.
  induction l as [|i l IH]; intros Hl; cbn [chain_find]; [exists None; split; [done|]; by intros i c Hi%elem_of_nil|].
  destruct (Hl i) as [c Hc]; [apply list_elem_of_here|]. rewrite (st_bind_eq _ _ _ _ _ (get_cache_Ok i c p Hc)).
  destruct (Z.eqb_spec (dev c) dv) as [E1|E1], (Z.eqb_spec (block c) b) as [E2|E2]; cbn [andb].
  1: { exists (Some i). split; [done|]. split; [apply list_elem_of_here|]. by exists c. }
  all: destruct IH as (r & Er & Hr); [intros j Hj; by apply Hl, list_elem_of_further|]; exists r; split; [done|]; destruct r as [j|];
    [destruct Hr as [Hj Hr]; split; [by apply list_elem_of_further|done]|];
    intros j e [->|Hj]%elem_of_cons He; [intros [? ?]; congruence|by apply (Hr j)].
Qed.

Lemma get_from_hash_table_Ok dv b p :
  hashed (λ _, True) p →
  (∃ i c, get_from_hash_table dv b p = Ok (Some i, set_free (filter (λ j, j ≠ i) (free_list p)) p) ∧ caches p !! i = Some c ∧ dev c = dv ∧ block c = b) ∨
  (get_from_hash_table dv b p = Ok (None, p) ∧ uncached dv b p).
Proof.
  intros O. unfold get_from_hash_table. destruct (bucket_at _ p dv b O) as (l & E & Hb). rewrite (st_bind_eq _ _ _ _ _ E).
  destruct O as [_ Hh]. destruct (Hh _ _ Hb) as [_ Hin].
  destruct (chain_find_Ok l dv b p) as (r & Er & Hr); [intros i Hi; apply Hin in Hi as (_ & c & Hc & _); by exists c|].
  rewrite (st_bind_eq _ _ _ _ _ Er). destruct r as [i|].
  - left. destruct Hr as (_ & c & Hc & H1 & H2). by exists i, c.
  - right. split; [done|]. intros i c Hc [H1 H2]. apply (Hr i c); [|done|done]. apply Hin. split; [done|]. exists c. split; [done|]. by rewrite H1, H2.
Qed.

(** The cache a block gets that was not cached. *)
Definition fresh_cache (i : nat) (dv b : Z) : cache_t := Cache (first_data - 1024 * Z.of_nat i) dv b 1 false false.

Lemma get_new_cache_Ok p :
  pool_ok p →
  get_new_cache p =
    if decide (length (caches p) < CAPACITY)%nat
    then Ok (Some (length (caches p)), Pool (caches p ++ [Cache (cache_data p) EOF_dev 0 0 false false])
      (cache_ptr p + sizeof_cache) (cache_data p - BLOCK_SIZE) (free_list p) (wait_list p) (hash_table p) (disk p))
    else Ok (None, p).
Proof.
  intros O. unfold get_new_cache. pose proof (po_room _ O) as Hr. rewrite (po_ptr _ O), (po_data _ O).
  unfold CAPACITY, sizeof_cache, first_data, KERNEL_PAGE_CACHE_VADDR, KERNEL_PAGE_CAHCE_SIZE, BLOCK_SIZE in *. rewrite u32_small by lia.
  destruct (Z.ltb_spec (0xC0800000 + 56 * Z.of_nat (length (caches p)) + 56) (0xC0800000 + 0x400000 - 1024 - 1024 * Z.of_nat (length (caches p)))).
  - by rewrite decide_True by lia.
  - by rewrite decide_False by lia.
Qed.

(** [p'] is [p] with a fresh cache for a block at place [i]. *)
Definition refilled (i : nat) (dv b : Z) (p p' : pool) : Prop :=
  ∀ j e, caches p' !! j = Some e ↔ (j = i ∧ e = fresh_cache i dv b) ∨ (j ≠ i ∧ caches p !! j = Some e).

Lemma refilled_ok p p' i dv b :
  pool_ok p → uncached dv b p → has_block dv b → refilled i dv b p p' →
  cache_ptr p' = KERNEL_PAGE_CACHE_VADDR + 56 * Z.of_nat (length (caches p')) →
  cache_data p' = first_data - 1024 * Z.of_nat (length (caches p')) → (length (caches p') <= CAPACITY)%nat →
  hashed (λ _, True) p' → NoDup (free_list p') → (∀ j, j ∈ free_list p' ↔ j ≠ i ∧ ∃ c, caches p !! j = Some c ∧ count c = 0) →
  disk p' = disk p → pool_ok p'.
Proof.
  intros O Hun Hb HR Q1 Q2 Q3 Hh N HF Ed. split; try done.
  - intros j e [[-> ->]|[_ He]]%HR; [by split|]. by apply (po_at _ O).
  - intros j k e g [[-> ->]|[Hj He]]%HR [[-> ->]|[Hk Hg]]%HR H1 H2; [done| | |by apply (po_keys _ O j k e g)].
    + exfalso. apply (Hun k g Hg). by rewrite <- H1, <- H2.
    + exfalso. apply (Hun j e He). by rewrite H1, H2.
  - split; [done|]. intros j. rewrite HF. split.
    + intros [Hj (c & Hc & H0)]. exists c. split; [apply HR; by right|done].
    + intros (c & [[-> ->]|[Hj Hc]]%HR & H0); [done|]. split; [done|by exists c].
  - rewrite Ed. apply (po_dev _ O).
Qed.

Lemma refilled_represents v p p' i dv b :
  represents v p → refilled i dv b p p' → disk p' = disk p → (∀ c, caches p !! i = Some c → dirty c = false) → represents v p'.
Proof.
  intros R HR Ed Hcl. apply (represents_ext v p); [done|done|..].
  - intros j e [[-> ->]|[_ He]]%HR Hv; [done|by exists e].
  - intros j c Hc Hd. exists c. split; [|done]. apply HR. right. split; [|done]. intros ->. rewrite (Hcl c Hc) in Hd. done.
Qed.

(** The end of [getblk], for a cache in no chain. *)
Lemma take_cache_Ok p i c dv b :
  hashed (λ j, j ≠ i) p → caches p !! i = Some c → count c = 0 → dirty c = false → valid c = false → data c = first_data - 1024 * Z.of_nat i →
  ∃ t, (c ← get_cache i; sassert (count c =? 0);; sassert (negb (dirty c));;
        upd_cache i (λ c, Cache (data c) dv b 1 (dirty c) (valid c));; hash_locate i;; mret (Some i)) p =
      Ok (Some i, set_hash t (set_caches (<[i := fresh_cache i dv b]> (caches p)) p)) ∧
    hashed (λ _, True) (set_hash t (set_caches (<[i := fresh_cache i dv b]> (caches p)) p)).
Proof.
  intros Hh Hc H0 Hd Hv Ha. rewrite (st_bind_eq _ _ _ _ _ (get_cache_Ok i c p Hc)), H0, Hd.
  rewrite (st_bind_eq _ _ p () p) by done. rewrite (st_bind_eq _ _ p () p) by done.
  rewrite (st_bind_eq _ _ _ _ _ (upd_cache_Ok i c _ p Hc)). rewrite Hd, Hv, Ha. fold (fresh_cache i dv b).
  set (p1 := set_caches _ p). destruct (hash_locate_Ok i (fresh_cache i dv b) p1) as (t & E & Ht).
  - by apply hashed_upd.
  - cbn. apply list_lookup_insert_eq. by eapply lookup_lt_Some.
  - exists t. by rewrite (st_bind_eq _ _ _ _ _ E).
Qed.

Lemma getblk_free_new t dv b p :
  pool_ok p → uncached dv b p → has_block dv b → (length (caches p) < CAPACITY)%nat →
  ∃ p', getblk_free t dv b p = Ok (Some (length (caches p)), p') ∧ pool_ok p' ∧ refilled (length (caches p)) dv b p p' ∧
    disk p' = disk p ∧ wait_list p' = wait_list p ∧ free_list p' = free_list p ∧ length (caches p') = S (length (caches p)).
Proof.
  intros O Hun Hb Hlen. set (n := length (caches p)). unfold getblk_free, get_free_cache.
  pose proof (get_new_cache_Ok p O) as En. rewrite decide_True in En by done. fold n in En. set (c0 := Cache _ _ _ _ _ _) in En.
  set (p1 := Pool (caches p ++ [c0]) _ _ _ _ _ _) in En.
  assert (Eg : (r ← get_new_cache; match r with Some i => mret (Some i) | None => (p ← get_st;
      match last (free_list p) with
      | Some i => put_st (set_free (removelast (free_list p)) p);; hash_remove i;; upd_cache i (λ c, set_flags (dirty c) false c);; mret (Some i)
      | None => put_st (set_wait (wait_list p ++ [t]) p);; mret None end) end) p = Ok (Some n, p1)) by (by rewrite (st_bind_eq _ _ _ _ _ En)).
  rewrite (st_bind_eq _ _ _ _ _ Eg). clear Eg.
  assert (Hc : caches p1 !! n = Some c0) by (cbn; by apply list_lookup_middle).
  assert (Hh : hashed (λ j, j ≠ n) p1).
  { destruct (po_hash _ O) as [Hl Hh]. split; [done|]. cbn [hash_table caches p1]. intros h l Hbk. destruct (Hh h l Hbk) as [N Hin]. split; [done|].
    intros j. rewrite Hin. split.
    - intros [_ (c & Hcj & Hk)]. pose proof (lookup_lt_Some _ _ _ Hcj). split; [unfold n; lia|]. exists c. by rewrite lookup_app_l by done.
    - intros [Hj (c & Hcj & Hk)]. split; [done|]. exists c. split; [|done]. apply lookup_app_Some in Hcj as [?|[Hge Hx]]; [done|].
      apply list_lookup_singleton_Some in Hx as [Hx _]. unfold n in Hj. lia. }
  destruct (take_cache_Ok p1 n c0 dv b Hh Hc) as (tb & Et & Ht); [done|done|done|by cbn; rewrite (po_data _ O)|].
  eexists. split; [exact Et|]. set (p' := set_hash tb _) in *.
  assert (Ecs : caches p' = caches p ++ [fresh_cache n dv b]) by (cbn; by rewrite insert_app_r_alt, Nat.sub_diag by done).
  assert (HR : refilled n dv b p p').
  { intros j e. rewrite Ecs, lookup_app_Some, list_lookup_singleton_Some. fold n. split.
    - intros [He|[Hge [Hj <-]]]; [right; split; [|done]; apply lookup_lt_Some in He; unfold n; lia|left; split; [lia|done]].
    - intros [[-> ->]|[Hj He]]; [right; split; [done|split; [lia|done]]|by left]. }
  assert (Hlen' : length (caches p') = S n) by (rewrite Ecs, length_app; cbn; unfold n; lia).
  split; [|done]. apply (refilled_ok p p' n dv b); try done.
  - cbn [cache_ptr p' p1 set_hash set_caches]. fold p1. fold p'. rewrite Hlen', (po_ptr _ O). fold n. unfold sizeof_cache. lia.
  - cbn [cache_data p' p1 set_hash set_caches]. fold p1. fold p'. rewrite Hlen', (po_data _ O). fold n. unfold BLOCK_SIZE. lia.
  - rewrite Hlen'. lia.
  - apply (po_free _ O).
  - intros j. cbn [free_list p' p1 set_hash set_caches]. rewrite (proj2 (po_free _ O) j). split; [|tauto]. intros (c & Hcj & H0).
    split; [apply lookup_lt_Some in Hcj; unfold n; lia|by exists c].
Qed.

Lemma getblk_free_evict t dv b p fl i :
  pool_ok p → has_block dv b → (CAPACITY <= length (caches p))%nat → free_list p = fl ++ [i] →
  ∃ p' c, getblk_free t dv b p = Ok (Some i, p') ∧ (uncached dv b p → pool_ok p') ∧ refilled i dv b p p' ∧ disk p' = disk p ∧ wait_list p' = wait_list p ∧
    free_list p' = fl ∧ caches p !! i = Some c ∧ count c = 0 ∧ length (caches p') = length (caches p).
Proof.
  intros O Hb Hlen HF. unfold getblk_free, get_free_cache.
  pose proof (get_new_cache_Ok p O) as En. rewrite decide_False in En by lia.
  destruct (proj2 (po_free _ O) i) as [Hi _]. destruct Hi as (c & Hc & H0); [rewrite HF; apply elem_of_app; right; apply list_elem_of_here|].
  destruct (po_at _ O i c Hc) as [Ha Hk Hn Hcl _]. specialize (Hcl H0).
  set (p1 := set_free fl p). destruct (hash_remove_Ok i c p1 (po_hash _ O) Hc) as (t1 & Er & Hh1).
  set (p2 := set_hash t1 p1) in *. set (c2 := set_flags (dirty c) false c). set (p3 := set_caches (<[i := c2]> (caches p2)) p2).
  assert (Eg : (r ← get_new_cache; match r with Some i => mret (Some i) | None => (p ← get_st;
      match last (free_list p) with
      | Some i => put_st (set_free (removelast (free_list p)) p);; hash_remove i;; upd_cache i (λ c, set_flags (dirty c) false c);; mret (Some i)
      | None => put_st (set_wait (wait_list p ++ [t]) p);; mret None end) end) p = Ok (Some i, p3)).
  { rewrite (st_bind_eq _ _ _ _ _ En). rewrite (st_bind_eq _ _ p p p) by done. rewrite HF, last_snoc, removelast_last.
    rewrite (st_bind_eq _ _ p () p1) by done. rewrite (st_bind_eq _ _ _ _ _ Er). by rewrite (st_bind_eq _ _ _ _ _ (upd_cache_Ok i c _ p2 Hc)). }
  rewrite (st_bind_eq _ _ _ _ _ Eg). clear Eg.
  assert (Hc3 : caches p3 !! i = Some c2) by (cbn; apply list_lookup_insert_eq; by eapply lookup_lt_Some).
  destruct (take_cache_Ok p3 i c2 dv b) as (tb & Et & Ht); [by apply hashed_upd|done|done|done|done|done|].
  eexists _, c. split; [exact Et|]. set (p' := set_hash tb _) in *.
  assert (Ecs : caches p' = <[i := fresh_cache i dv b]> (caches p)) by (cbn; by rewrite list_insert_insert_eq).
  assert (HR : refilled i dv b p p').
  { intros j e. rewrite Ecs. destruct (decide (j = i)) as [->|Hne].
    - rewrite list_lookup_insert_eq by (by eapply lookup_lt_Some). naive_solver.
    - rewrite list_lookup_insert_ne by done. naive_solver. }
  assert (Hlen' : length (caches p') = length (caches p)) by (by rewrite Ecs, length_insert).
  destruct (po_free _ O) as [N HFi]. rewrite HF in N. apply NoDup_app in N as (N1 & N2 & _).
  split; [|done]. intros Hun. apply (refilled_ok p p' i dv b); try done.
  - cbn [cache_ptr p' p3 p2 p1 set_hash set_caches set_free]. change (set_hash _ _) with p'. rewrite Hlen'. apply (po_ptr _ O).
  - rewrite Hlen'. apply (po_data _ O).
  - rewrite Hlen'. apply (po_room _ O).
  - intros j. change (free_list p') with fl. rewrite <- HFi, HF, elem_of_app, list_elem_of_singleton. split; [|naive_solver].
    intros Hj. split; [|by left]. intros ->. apply (N2 i Hj). apply list_elem_of_here.
Qed.

Lemma getblk_free_full t dv b p :
  pool_ok p → (CAPACITY <= length (caches p))%nat → free_list p = [] → getblk_free t dv b p = Ok (None, set_wait (wait_list p ++ [t]) p).
Proof.
  intros O Hlen HF. unfold getblk_free, get_free_cache. pose proof (get_new_cache_Ok p O) as En. rewrite decide_False in En by lia.
  unfold mbind at 1, st_bind at 1. rewrite (st_bind_eq _ _ _ _ _ En). rewrite (st_bind_eq _ _ p p p) by done. by rewrite HF.
Qed.

(** ** The operations keep the invariant *)

(** What [getblk] answers: the cached block with one holder more, a fresh cache for it, or the
    task has to wait since every cache of the full area is held. *)
Lemma getblk_Ok v t dv b p :
  pool_ok p → represents v p → has_block dv b →
  (∃ i c p', getblk t dv b p = Ok (Some i, p') ∧ pool_ok p' ∧ represents v p' ∧ caches p' !! i = Some c ∧ dev c = dv ∧ block c = b ∧
     0 < count c ∧ (∀ j e, j ≠ i → caches p !! j = Some e → caches p' !! j = Some e) ∧
     (∀ c0, caches p !! i = Some c0 → (dev c0 = dv ∧ block c0 = b ∧ count c = count c0 + 1) ∨
        (count c0 = 0 ∧ uncached dv b p ∧ last (free_list p) = Some i ∧ length (caches p) = CAPACITY))) ∨
  (getblk t dv b p = Ok (None, set_wait (wait_list p ++ [t]) p) ∧ length (caches p) = CAPACITY ∧ ∀ i c, caches p !! i = Some c → 0 < count c).
Proof.
  intros O R Hb. unfold getblk. destruct (get_from_hash_table_Ok dv b p (po_hash _ O)) as [(i & c & E & Hc & E1 & E2)|[E Hun]].
  - left. rewrite (st_bind_eq _ _ _ _ _ E). set (p1 := set_free _ p). rewrite (st_bind_eq _ _ _ _ _ (upd_cache_Ok i c _ p1 Hc)).
    set (c' := set_count (count c + 1) c). set (p' := set_caches _ p1). pose proof (lookup_lt_Some _ _ _ Hc) as Hlt.
    assert (Hc' : caches p' !! i = Some c') by (cbn; by apply list_lookup_insert_eq).
    assert (Ho : ∀ j e, j ≠ i → caches p !! j = Some e → caches p' !! j = Some e) by (intros j e Hj He; cbn; by rewrite list_lookup_insert_ne).
    destruct (po_at _ O i c Hc) as [C1 C2 C3 C4 C5]. exists i, c', p'. split; [done|]. split; [|split; [|split_and!; try done]].
    + apply (pool_ok_change i c c' (filter (λ j, j ≠ i) (free_list p)) (wait_list p) (disk p) p O Hc); try done.
      * split; cbn; [done..|lia|lia|done].
      * apply NoDup_filter, (po_free _ O).
      * intros j. rewrite (free_change i c c' p O Hc j), list_elem_of_filter. cbn [count c' set_count]. split; [by left|]. intros [?|[_ ?]]; [done|lia].
      * apply (po_dev _ O).
    + apply (represents_ext v p); [done|done|..]; intros j e He Hx; destruct (decide (j = i)) as [->|Hne].
      * rewrite Hc' in He. injection He as <-. by exists c.
      * cbn in He. rewrite list_lookup_insert_ne in He by done. by exists e.
      * exists c'. assert (e = c) as -> by congruence. done.
      * exists e. split; [by apply Ho|done].
    + cbn. lia.
    + intros c0 Hc0. left. assert (c0 = c) as -> by congruence. done.
  - rewrite (st_bind_eq _ _ _ _ _ E). destruct (decide (length (caches p) < CAPACITY)%nat) as [Hl|Hl].
    + left. destruct (getblk_free_new t dv b p O Hun Hb Hl) as (p' & E' & O' & HR & Ed & _). exists (length (caches p)), (fresh_cache (length (caches p)) dv b), p'.
      split; [done|]. split; [done|]. split; [apply (refilled_represents v p p' _ dv b R HR Ed); intros c Hc; apply lookup_lt_Some in Hc; lia|].
      split; [apply HR; by left|]. split_and!; try done; [intros j e Hj He; apply HR; by right|intros c0 Hc0; apply lookup_lt_Some in Hc0; lia].
    + destruct (free_list p) as [|i0 fl0] eqn:EF.
      * right. rewrite getblk_free_full by (done || lia). split; [done|]. pose proof (po_room _ O). split; [lia|]. intros i c Hc.
        pose proof (co_count _ _ (po_at _ O i c Hc)). destruct (decide (count c = 0)) as [Hz|]; [|lia].
        assert (Hi : i ∈ free_list p) by (apply (proj2 (po_free _ O)); by exists c). rewrite EF in Hi. by apply elem_of_nil in Hi.
      * left. destruct (exists_last (l := i0 :: fl0)) as (fl & i & El); [done|]. rewrite El in EF. assert (Hl' : (CAPACITY <= length (caches p))%nat) by lia.
        destruct (getblk_free_evict t dv b p fl i O Hb Hl' EF) as (p' & c & E' & O' & HR & Ed & _ & _ & Hc & H0 & _). specialize (O' Hun).
        exists i, (fresh_cache i dv b), p'. split; [done|]. split; [done|]. split.
        { apply (refilled_represents v p p' _ dv b R HR Ed). intros c1 Hc1. assert (c1 = c) as -> by congruence. by apply (po_at _ O i c Hc). }
        split; [apply HR; by left|]. split_and!; try done; [intros j e Hj He; apply HR; by right|]. intros c0 Hc0. right. assert (c0 = c) as -> by congruence.
        split; [done|]. split; [done|]. rewrite El, last_snoc. split; [done|]. pose proof (po_room _ O). lia.
Qed.

(** The disk and the flags of one cache change: filling and writing back. *)
Lemma transferred v i c c' d p :
  pool_ok p → represents v p → caches p !! i = Some c → c' = set_flags false true c → dev_ok d →
  (∀ j e, j ≠ i → caches p !! j = Some e → buffer d (data e) = buffer (disk p) (data e)) →
  buffer d (data c) = v (dev c) (block c) → on_device d (dev c) (block c) = v (dev c) (block c) →
  (∀ e g, has_block e g → (e, g) ≠ (dev c, block c) → on_device d e g = on_device (disk p) e g) →
  let p' := set_caches (<[i := c']> (caches p)) (set_disk d p) in pool_ok p' ∧ represents v p'.
Proof.
  intros O R Hc -> Hd H1 H2 H3 H4 p'. set (c' := set_flags false true c). destruct (po_at _ O i c Hc) as [C1 C2 C3 C4 C5].
  assert (Hlook : ∀ j e, caches p' !! j = Some e → (j = i ∧ e = c') ∨ (j ≠ i ∧ caches p !! j = Some e)).
  { intros j e. cbn. destruct (decide (j = i)) as [->|Hne]; [rewrite list_lookup_insert_eq by (by eapply lookup_lt_Some); intros [= <-]; by left|].
    rewrite list_lookup_insert_ne by done. by right. }
  split.
  - apply (pool_ok_change i c c' (free_list p) (wait_list p) d p O Hc); try done; [apply (po_free _ O)|].
    intros j. rewrite (free_change i c c' p O Hc j), (proj2 (po_free _ O) j). destruct (decide (j = i)) as [->|]; [|naive_solver].
    split; [intros (e & He & H0); right; assert (e = c) as -> by congruence; done|]. intros [[? _]|[_ H0]]; [done|]. by exists c.
  - intros dv b Hb. destruct (R dv b Hb) as [R1 R2]. split.
    + intros j e [[-> ->]|[Hj He]]%Hlook E1 E2 Hv.
      * cbn in E1, E2 |- *. by subst dv b.
      * cbn [disk p' set_caches set_disk]. rewrite (H1 j e Hj He). by apply (R1 j e).
    + intros Hn. cbn [disk p' set_caches set_disk]. destruct (decide ((dv, b) = (dev c, block c))) as [[= -> ->]|Hne]; [done|].
      rewrite H4 by done. apply R2. intros j e He E1 E2. apply (Hn j e); [|done|done]. cbn. rewrite list_lookup_insert_ne; [done|]. intros <-.
      apply Hne. assert (e = c) as -> by congruence. by rewrite E1, E2.
Qed.

(** No other block has the buffer. *)
Lemma other_buffer p i j c e : pool_ok p → caches p !! i = Some c → caches p !! j = Some e → j ≠ i → data e ≠ data c.
Proof. intros O Hc He Hne. destruct (po_at _ O i c Hc) as [-> _ _ _ _], (po_at _ O j e He) as [-> _ _ _ _]. lia. Qed.

Lemma on_disk_Ok {A} (m : ST D A) p a d : m (disk p) = Ok (a, d) → on_disk m p = Ok (a, set_disk d p).
Proof. intros H. unfold on_disk. by rewrite H. Qed.

Lemma fill_Ok v i c p :
  pool_ok p → represents v p → caches p !! i = Some c →
  ∃ p', fill i p = Ok ((), p') ∧ pool_ok p' ∧ represents v p' ∧ caches p' !! i = Some (if valid c then c else set_flags false true c) ∧
    (∀ j, j ≠ i → caches p' !! j = caches p !! j) ∧ free_list p' = free_list p ∧ wait_list p' = wait_list p.
Proof.
  intros O R Hc. unfold fill. rewrite (st_bind_eq _ _ _ _ _ (get_cache_Ok i c p Hc)). destruct (valid c) eqn:Ev; [by exists p|].
  destruct (po_at _ O i c Hc) as [C1 C2 C3 C4 C5]. assert (Hd : dirty c = false) by (destruct (dirty c) eqn:Hd; [specialize (C5 eq_refl); congruence|done]).
  destruct (has_block_u32 _ _ C2) as [_ Hb]. rewrite u32_small by (unfold BLOCK_SECS; lia).
  destruct (read_spec (data c) (dev c) (block c) (disk p) (po_dev _ O) (cache_buffer p i c O Hc) C2) as (d & E & Hok & Hbuf & Hother & Hdev).
  rewrite (st_bind_eq _ _ _ _ _ (on_disk_Ok _ p () d E)). rewrite (upd_cache_Ok i c _ (set_disk d p) Hc).
  assert (Hv : on_device (disk p) (dev c) (block c) = v (dev c) (block c)).
  { destruct (R _ _ C2) as [_ R2]. apply R2. intros j e He E1 E2. assert (j = i) as -> by exact (po_keys _ O j i e c He Hc E1 E2). by assert (e = c) as -> by congruence. }
  destruct (transferred v i c (set_flags false true c) d p O R Hc eq_refl Hok) as [O' R'].
  - intros j e Hj He. apply Hother; [by eapply cache_buffer|by apply (other_buffer p i j)].
  - by rewrite Hbuf.
  - by rewrite Hdev.
  - intros e g Hg _. by apply Hdev.
  - eexists. split; [reflexivity|]. split; [done|]. split; [done|]. cbn [caches set_caches set_disk]. split; [apply list_lookup_insert_eq; by eapply lookup_lt_Some|].
    split; [intros j Hj; by apply list_lookup_insert_ne|done].
Qed.

Lemma write_back v i c p :
  pool_ok p → represents v p → caches p !! i = Some c → dirty c = true →
  ∃ d, transfer true (data c) (dev c) (u32 (block c * BLOCK_SECS)) (disk p) = Ok ((), d) ∧
    let p' := set_caches (<[i := set_flags false true c]> (caches p)) (set_disk d p) in pool_ok p' ∧ represents v p'.
Proof.
  intros O R Hc Ed. destruct (po_at _ O i c Hc) as [C1 C2 C3 C4 C5]. specialize (C5 Ed).
  destruct (has_block_u32 _ _ C2) as [_ Hb]. rewrite u32_small by (unfold BLOCK_SECS; lia).
  destruct (write_spec (data c) (dev c) (block c) (disk p) (po_dev _ O) (cache_buffer p i c O Hc) C2) as (d & E & Hok & Hdev & Hbuf & Hother).
  assert (Hv : buffer (disk p) (data c) = v (dev c) (block c)) by (destruct (R _ _ C2) as [R1 _]; by apply (R1 i c)).
  exists d. split; [done|]. apply (transferred v i c (set_flags false true c) d p O R Hc eq_refl Hok).
  - intros j e Hj He. apply Hbuf. by eapply cache_buffer.
  - rewrite Hbuf by by eapply cache_buffer. done.
  - by rewrite Hdev.
  - done.
Qed.

Lemma bwrite_Ok v i c p :
  pool_ok p → represents v p → caches p !! i = Some c →
  ∃ p', bwrite i p = Ok ((), p') ∧ pool_ok p' ∧ represents v p' ∧ caches p' !! i = Some (if dirty c then set_flags false true c else c) ∧
    (∀ j, j ≠ i → caches p' !! j = caches p !! j) ∧ free_list p' = free_list p ∧ wait_list p' = wait_list p.
Proof.
  intros O R Hc. unfold bwrite. rewrite (st_bind_eq _ _ _ _ _ (get_cache_Ok i c p Hc)). destruct (dirty c) eqn:Ed; [|by exists p].
  destruct (write_back v i c p O R Hc Ed) as (d & E & O' & R'). rewrite (st_bind_eq _ _ _ _ _ (on_disk_Ok _ p () d E)).
  rewrite (upd_cache_Ok i c _ (set_disk d p) Hc). eexists. split; [reflexivity|]. split; [done|]. split; [done|]. cbn [caches set_caches set_disk].
  split; [apply list_lookup_insert_eq; by eapply lookup_lt_Some|]. split; [intros j Hj; by apply list_lookup_insert_ne|done].
Qed.

Lemma pool_ok_wait w p : pool_ok p → pool_ok (set_wait w p).
Proof. intros [P1 P2 P3 P4 P5 P6 P7 P8]. by split. Qed.

(** Fewer holders: what happens to the count and the free list. *)
Lemma released v i c p :
  pool_ok p → represents v p → caches p !! i = Some c → 0 < count c → (count c = 1 → dirty c = false) →
  let p' := set_free (if count c =? 1 then i :: free_list p else free_list p) (set_caches (<[i := set_count (count c - 1) c]> (caches p)) p) in
  pool_ok p' ∧ represents v p'.
Proof.
  intros O R Hc Hpos Hcl p'. set (c' := set_count (count c - 1) c). destruct (po_at _ O i c Hc) as [C1 C2 C3 C4 C5]. destruct (po_free _ O) as [N HF].
  assert (Hi : i ∉ free_list p) by (rewrite HF; intros (e & He & H0); assert (e = c) as -> by congruence; lia). split.
  - apply (pool_ok_change i c c' _ (wait_list p) (disk p) p O Hc); try done.
    + split; cbn; [done..|lia| |done]. intros H0. apply Hcl. lia.
    + destruct (count c =? 1); [by constructor|done].
    + intros j. rewrite (free_change i c c' p O Hc j). cbn [count c' set_count].
      destruct (Z.eqb_spec (count c) 1) as [E1|E1]; rewrite ?elem_of_cons; destruct (decide (j = i)) as [->|Hne]; split; try tauto.
      * intros _. right. split; [done|lia].
      * intros [[? _]|[_ Hz]]; [done|lia].
    + apply (po_dev _ O).
  - apply (represents_ext v p); [done|done|..]; intros j e He Hx; cbn [caches p' set_free set_caches] in *; destruct (decide (j = i)) as [->|Hne].
    + rewrite list_lookup_insert_eq in He by (by eapply lookup_lt_Some). injection He as <-. by exists c.
    + rewrite list_lookup_insert_ne in He by done. by exists e.
    + assert (e = c) as -> by congruence. exists c'. rewrite list_lookup_insert_eq by (by eapply lookup_lt_Some). done.
    + exists e. rewrite list_lookup_insert_ne by done. done.
Qed.

(** The list of waiting tasks after a release: the one that came last leaves. *)
Definition after_wake (w : list Z) : option Z * list Z :=
  match last w with Some t => (Some t, removelast w) | None => (None, w) end.

Lemma brelse_Ok v i c p :
  pool_ok p → represents v p → caches p !! i = Some c → 0 < count c →
  ∃ r p' c', brelse (Some i) p = Ok (r, p') ∧ pool_ok p' ∧ represents v p' ∧ caches p' !! i = Some c' ∧ dev c' = dev c ∧ block c' = block c ∧
    count c' = count c - 1 ∧ (∀ j, j ≠ i → caches p' !! j = caches p !! j) ∧
    (if count c =? 1 then free_list p' = i :: free_list p ∧ (r, wait_list p') = after_wake (wait_list p) ∧ dirty c' = false
     else free_list p' = free_list p ∧ r = None ∧ wait_list p' = wait_list p).
Proof.
  intros O R Hc Hpos. pose proof (lookup_lt_Some _ _ _ Hc) as Hlt. set (c1 := set_count (count c - 1) c). set (p1 := set_caches (<[i := c1]> (caches p)) p).
  assert (Hc1 : caches p1 !! i = Some c1) by (cbn; by apply list_lookup_insert_eq).
  assert (Hi : i ∉ free_list p) by (rewrite (proj2 (po_free _ O)); intros (e & He & H0); assert (e = c) as -> by congruence; lia).
  assert (Epush : brelse_push i p = Ok (count c =? 1, if count c =? 1 then set_free (i :: free_list p) p1 else p1)).
  { unfold brelse_push. rewrite (st_bind_eq _ _ _ _ _ (upd_cache_Ok i c _ p Hc)). fold c1 p1. rewrite (st_bind_eq _ _ _ _ _ (get_cache_Ok i c1 p1 Hc1)).
    rewrite (st_bind_eq _ _ p1 () p1) by (unfold sassert; cbn [count c1 set_count]; by destruct (Z.leb_spec 0 (count c - 1)); [|lia]). cbn [count c1 set_count].
    destruct (Z.eqb_spec (count c - 1) 0), (Z.eqb_spec (count c) 1); try lia; cbn [negb]; [|done].
    rewrite (st_bind_eq _ _ p1 p1 p1) by done. rewrite (st_bind_eq _ _ p1 () p1) by (unfold sassert; by rewrite bool_decide_true). done. }
  unfold brelse. rewrite (st_bind_eq _ _ _ _ _ Epush).
  assert (Hwake : ∀ p2, (p ← get_st; match last (wait_list p) with
      | Some t => put_st (set_wait (removelast (wait_list p)) p);; mret (Some t) | None => mret None end) p2 =
      Ok (fst (after_wake (wait_list p2)), set_wait (snd (after_wake (wait_list p2))) p2)).
  { intros p2. rewrite (st_bind_eq _ _ p2 p2 p2) by done. unfold after_wake. destruct (last (wait_list p2)); [done|]. by destruct p2. }
  destruct (Z.eqb_spec (count c) 1) as [E1|E1].
  - unfold brelse_write, bwrite. set (p2 := set_free _ p1). rewrite (st_bind_assoc _ _ _ p2). rewrite (st_bind_eq _ _ _ _ _ (get_cache_Ok i c1 p2 Hc1)).
    change (dirty c1) with (dirty c). destruct (dirty c) eqn:Ed.
    + destruct (write_back v i c p O R Hc Ed) as (d & E & O' & R'). set (c2 := set_flags false true c) in *. set (p3 := set_caches (<[i := c2]> (caches p)) (set_disk d p)) in *.
      assert (Hc2 : caches p3 !! i = Some c2) by (cbn; by apply list_lookup_insert_eq).
      destruct (released v i c2 p3 O' R' Hc2 Hpos (λ _, eq_refl)) as [O2 R2]. change (count c2) with (count c) in O2, R2. rewrite E1 in O2, R2. cbn [Z.eqb] in O2, R2.
      set (p4 := set_free _ (set_caches _ p3)) in O2, R2. rewrite (st_bind_assoc _ _ _ p2). rewrite (st_bind_eq _ _ _ _ _ (on_disk_Ok _ p2 () d E)).
      rewrite (st_bind_eq _ _ _ _ _ (upd_cache_Ok i c1 _ (set_disk d p2) Hc1)). rewrite Hwake.
      assert (Ep : set_caches (<[i := set_flags false true c1]> (caches (set_disk d p2))) (set_disk d p2) = p4).
      { unfold p4, p3, p2, p1, set_caches, set_free, set_disk. cbn. rewrite !list_insert_insert_eq. unfold c1, c2, set_flags, set_count. cbn. by rewrite E1. }
      rewrite Ep. exists (fst (after_wake (wait_list p))), (set_wait (snd (after_wake (wait_list p))) p4), (set_count 0 c2). split; [done|]. split; [by apply pool_ok_wait|].
      split; [exact R2|]. split; [cbn; rewrite list_insert_insert_eq; by apply list_lookup_insert_eq|]. split; [done|]. split; [done|]. split; [cbn; lia|].
      split; [intros j Hj; cbn; by rewrite !list_lookup_insert_ne|]. split; [done|]. split; [by destruct (after_wake _)|done].
    + destruct (released v i c p O R Hc Hpos (λ _, Ed)) as [O2 R2]. rewrite E1 in O2, R2. cbn [Z.eqb] in O2, R2.
      assert (Ep : p2 = set_free (i :: free_list p) (set_caches (<[i := set_count (1 - 1) c]> (caches p)) p)) by (unfold p2, p1, c1; by rewrite E1).
      assert (O3 : pool_ok p2) by (rewrite Ep; exact O2). assert (R3 : represents v p2) by (rewrite Ep; exact R2).
      rewrite (st_bind_eq _ _ p2 () p2) by done. rewrite Hwake.
      exists (fst (after_wake (wait_list p))), (set_wait (snd (after_wake (wait_list p))) p2), c1. split; [done|]. split; [by apply pool_ok_wait|].
      split; [exact R3|]. split; [done|]. split; [done|]. split; [done|]. split; [done|].
      split; [intros j Hj; cbn; by rewrite list_lookup_insert_ne|]. split; [done|]. split; [by destruct (after_wake _)|done].
  - destruct (released v i c p O R Hc Hpos ltac:(lia)) as [O2 R2]. destruct (Z.eqb_spec (count c) 1) as [|_]; [lia|].
    assert (Ep : p1 = set_free (free_list p) (set_caches (<[i := set_count (count c - 1) c]> (caches p)) p)) by done. rewrite <- Ep in O2, R2.
    exists None, p1, c1. split_and!; try done. intros j Hj. cbn. by rewrite list_lookup_insert_ne.
Qed.

(** A release makes no cache. *)
Lemma upd_length i f p x p' : upd_cache i f p = Ok (x, p') → length (caches p') = length (caches p).
Proof. unfold upd_cache. intros (c & p1 & E & [= _ <-])%st_bind_Ok. unfold get_cache in E. destruct (caches p !! i); [|done]. injection E as _ <-. cbn. by rewrite length_insert. Qed.

Lemma get_cache_same i p c p' : get_cache i p = Ok (c, p') → p' = p.
Proof. unfold get_cache. destruct (caches p !! i); [|done]. by intros [= _ <-]. Qed.

Lemma brelse_length r p x p' : brelse r p = Ok (x, p') → length (caches p') = length (caches p).
Proof.
  destruct r as [i|]; cbn [brelse]; [|by intros [= _ <-]]. intros (b & p1 & E1 & E2)%st_bind_Ok.
  assert (L1 : length (caches p1) = length (caches p)).
  { unfold brelse_push in E1. apply st_bind_Ok in E1 as (u & q1 & U%upd_length & (c & q2 & G%get_cache_same & (w & q3 & S & E1)%st_bind_Ok)%st_bind_Ok).
    unfold sassert in S. destruct (0 <=? count c); [|done]. injection S as _ <-. subst q2. rewrite <- U. destruct (negb _); [by injection E1 as _ <-|].
    apply st_bind_Ok in E1 as (q & q4 & [= <- <-] & (w' & q5 & S & (w2 & q6 & P & [= _ <-])%st_bind_Ok)%st_bind_Ok).
    unfold sassert in S. destruct (bool_decide _); [|done]. injection S as _ <-. by injection P as _ <-. }
  rewrite <- L1. destruct b; [|by injection E2 as _ <-]. unfold brelse_write in E2. apply st_bind_Ok in E2 as (u & p2 & W & E2).
  assert (L2 : length (caches p2) = length (caches p1)).
  { unfold bwrite in W. apply st_bind_Ok in W as (c & q1 & G%get_cache_same & W). subst q1. destruct (dirty c); [|by injection W as _ <-].
    apply st_bind_Ok in W as (w & q2 & T & U%upd_length). rewrite U. unfold on_disk in T. destruct (transfer _ _ _ _ _) as [[a d]|]; [|done].
    by injection T as _ <-. }
  rewrite <- L2. apply st_bind_Ok in E2 as (q & q1 & [= <- <-] & E2). destruct (last (wait_list p2)).
  - apply st_bind_Ok in E2 as (w & q2 & [= _ <-] & [= _ <-]). done.
  - by injection E2 as _ <-.
Qed.

Definition stored (dv b : Z) (l : list Z) (v : Z → Z → list Z) : Z → Z → list Z :=
  λ e g, if decide (e = dv ∧ g = b) then l else v e g.

Lemma store_block_Ok v i c l p :
  pool_ok p → represents v p → caches p !! i = Some c → 0 < count c → valid c = true → block_bytes l →
  ∃ p', store_block i l p = Ok ((), p') ∧ pool_ok p' ∧ represents (stored (dev c) (block c) l v) p' ∧
    caches p' = <[i := set_flags true true c]> (caches p).
Proof.
  intros O R Hc Hpos Hv Hl. unfold store_block. rewrite (st_bind_eq _ _ _ _ _ (get_cache_Ok i c p Hc)).
  set (p1 := set_disk (poke (data c) l (disk p)) p). rewrite (st_bind_eq _ _ p () p1) by done. rewrite (upd_cache_Ok i c _ p1 Hc). rewrite Hv.
  set (c' := set_flags true true c). destruct (po_at _ O i c Hc) as [C1 C2 C3 C4 C5]. pose proof (lookup_lt_Some _ _ _ Hc) as Hlt.
  destruct (poke_spec (data c) l (disk p) (po_dev _ O) (cache_buffer p i c O Hc) Hl) as (Hok & Hb & Hother & Hdev).
  eexists. split; [reflexivity|]. split; [|split; [|done]].
  - apply (pool_ok_change i c c' (free_list p) (wait_list p) _ p O Hc); try done.
    + split; cbn; [done..|lia|done].
    + apply (po_free _ O).
    + intros j. rewrite (free_change i c c' p O Hc j), (proj2 (po_free _ O) j). cbn [count c' set_flags]. destruct (decide (j = i)) as [->|]; [|naive_solver].
      split; [intros (e & He & Hz); assert (e = c) as -> by congruence; lia|]. intros [[? _]|[_ Hz]]; [done|lia].
  - intros dv b Hblk. destruct (R dv b Hblk) as [R1 R2]. cbn [disk caches set_caches p1 set_disk]. unfold stored. split.
    + intros j e He E1 E2 Hve. destruct (decide (j = i)) as [->|Hne].
      * rewrite list_lookup_insert_eq in He by done. injection He as <-. cbn in E1, E2 |- *. by rewrite decide_True.
      * rewrite list_lookup_insert_ne in He by done. rewrite Hother by (by eapply cache_buffer || by apply (other_buffer p i j)).
        rewrite decide_False; [by apply (R1 j e)|]. intros [-> ->]. apply Hne. exact (po_keys _ O j i e c He Hc E1 E2).
    + intros Hn. rewrite Hdev by done. destruct (decide (dv = dev c ∧ b = block c)) as [[-> ->]|Hne].
      * exfalso. assert (H : dirty c' = false); [|done]. apply (Hn i c'); [by apply list_lookup_insert_eq|done|done].
      * apply R2. intros j e He E1 E2. apply (Hn j e); [|done|done]. rewrite list_lookup_insert_ne; [done|]. intros <-. apply Hne.
        assert (e = c) as -> by congruence. done.
Qed.

(** ** The cache and the disk it stands for *)

(** The states the file system can bring the cache into, with what it has stored: reading
    blocks, storing into blocks it holds, writing back and releasing.  No task that had to
    wait is resumed, see [getblk_duplicates]. *)
Inductive reach : (Z → Z → list Z) → pool → Prop :=
  | reach_init d : dev_ok d → reach (on_device d) (page_cache_init d)
  | reach_bread v p t dv b r p' : reach v p → has_block dv b → bread t dv b p = Ok (r, p') → reach v p'
  | reach_store v p i c l p' :
      reach v p → caches p !! i = Some c → 0 < count c → valid c = true → block_bytes l → store_block i l p = Ok ((), p') →
      reach (stored (dev c) (block c) l v) p'
  | reach_bwrite v p i c p' : reach v p → caches p !! i = Some c → bwrite i p = Ok ((), p') → reach v p'
  | reach_brelse v p i c r p' : reach v p → caches p !! i = Some c → 0 < count c → brelse (Some i) p = Ok (r, p') → reach v p'.

Lemma init_ok d : dev_ok d → pool_ok (page_cache_init d) ∧ represents (on_device d) (page_cache_init d).
Proof.
  intros Hd. split.
  - split; cbn [page_cache_init caches cache_ptr cache_data free_list hash_table disk length]; try done.
    + unfold CAPACITY. lia.
    + split; [done|]. intros h l Hl. apply lookup_replicate in Hl as [-> _]. split; [constructor|]. intros i.
      split; [by intros ?%elem_of_nil|by intros [_ (c & Hc & _)]].
    + split; [constructor|]. intros i. split; [by intros ?%elem_of_nil|by intros (c & Hc & _)].
  - intros dv b Hb. by split.
Qed.

(** What [bread] answers. *)
Lemma bread_Ok v t dv b p :
  pool_ok p → represents v p → has_block dv b →
  (∃ i c p', bread t dv b p = Ok (Some i, p') ∧ pool_ok p' ∧ represents v p' ∧ caches p' !! i = Some c ∧ dev c = dv ∧ block c = b ∧
     0 < count c ∧ valid c = true ∧ buffer (disk p') (data c) = v dv b ∧
     (∀ j e, j ≠ i → caches p !! j = Some e → caches p' !! j = Some e) ∧
     (∀ c0, caches p !! i = Some c0 → (dev c0 = dv ∧ block c0 = b ∧ count c = count c0 + 1) ∨
        (count c0 = 0 ∧ uncached dv b p ∧ last (free_list p) = Some i ∧ length (caches p) = CAPACITY))) ∨
  (bread t dv b p = Ok (None, set_wait (wait_list p ++ [t]) p) ∧ length (caches p) = CAPACITY ∧ ∀ i c, caches p !! i = Some c → 0 < count c).
Proof.
  intros O R Hb. unfold bread. destruct (getblk_Ok v t dv b p O R Hb) as [(i & c & p1 & E & O1 & R1 & Hc & E1 & E2 & Hpos & Ho & Hold)|(E & Hl & Ha)].
  - left. rewrite (st_bind_eq _ _ _ _ _ E). destruct (fill_Ok v i c p1 O1 R1 Hc) as (p2 & Ef & O2 & R2 & Hc2 & Ho2 & _).
    rewrite (st_bind_eq _ _ _ _ _ Ef). set (c2 := if valid c then c else _) in Hc2.
    assert (Hc2' : dev c2 = dv ∧ block c2 = b ∧ count c2 = count c ∧ valid c2 = true) by (unfold c2; by destruct (valid c) eqn:?).
    destruct Hc2' as (K1 & K2 & K3 & K4). exists i, c2, p2. split_and!; try done; try lia.
    + destruct (R2 dv b Hb) as [R3 _]. by apply (R3 i c2).
    + intros j e Hj He. rewrite Ho2 by done. by apply Ho.
    + intros c0 Hc0. rewrite K3. by apply Hold.
  - right. by rewrite (st_bind_eq _ _ _ _ _ E).
Qed.

Lemma reach_ok v p : reach v p → pool_ok p ∧ represents v p.
Proof.
  induction 1 as [d Hd|v p t dv b r p' _ [O R] Hb E|v p i c l p' _ [O R] Hc Hp Hv Hl E|v p i c p' _ [O R] Hc E|v p i c r p' _ [O R] Hc Hp E].
  - by apply init_ok.
  - destruct (bread_Ok v t dv b p O R Hb) as [(i & c & q & E' & O' & R' & _)|(E' & _)]; rewrite E in E'; injection E' as -> ->; [done|].
    split; [by apply pool_ok_wait|exact R].
  - destruct (store_block_Ok v i c l p O R Hc Hp Hv Hl) as (q & E' & O' & R' & _). rewrite E in E'. by injection E' as ->.
  - destruct (bwrite_Ok v i c p O R Hc) as (q & E' & O' & R' & _). rewrite E in E'. by injection E' as ->.
  - destruct (brelse_Ok v i c p O R Hc Hp) as (r' & q & c' & E' & O' & R' & _). rewrite E in E'. by injection E' as -> ->.
Qed.

(** ** Properties *)

(** C1. The cache answers what the disk should hold.  After any reads, stores, write-backs and
    releases, [bread] of a block that exists returns: either a cache of exactly this block,
    with a holder more, whose buffer has what was last stored into the block - or what the
    disk held at the start -, or nothing, the task then being at the end of the waiting list,
    because every cache of the full area has a holder.  Nobody's held cache is touched, and
    when a cache is taken away from its block, nobody held it and it was the last one of the
    free list. *)
Theorem bread_returns_contents v p t dv b :
  reach v p → has_block dv b →
  (∃ i c p', bread t dv b p = Ok (Some i, p') ∧ reach v p' ∧ caches p' !! i = Some c ∧ dev c = dv ∧ block c = b ∧
     0 < count c ∧ valid c = true ∧ buffer (disk p') (data c) = v dv b ∧
     (∀ j e, j ≠ i → caches p !! j = Some e → caches p' !! j = Some e) ∧
     (∀ c0, caches p !! i = Some c0 → (dev c0 = dv ∧ block c0 = b ∧ count c = count c0 + 1) ∨
        (count c0 = 0 ∧ uncached dv b p ∧ last (free_list p) = Some i ∧ length (caches p) = CAPACITY))) ∨
  (bread t dv b p = Ok (None, set_wait (wait_list p ++ [t]) p) ∧ length (caches p) = CAPACITY ∧ ∀ i c, caches p !! i = Some c → 0 < count c).
Proof.
  intros H Hb. destruct (reach_ok v p H) as [O R]. destruct (bread_Ok v t dv b p O R Hb) as [(i & c & p' & E & _ & _ & Hr)|Hr]; [left|by right].
  exists i, c, p'. split; [done|]. split; [by eapply reach_bread|done].
Qed.

(** C13. Nothing is lost.  [brelse] of a held block returns; when the last holder leaves, the
    block goes to the front of the free list and the disk itself holds its contents.  While
    nobody holds a block that is marked dirty, the disk holds everything that was stored. *)
Theorem cache_durable v p i c :
  reach v p → caches p !! i = Some c → 0 < count c →
  (∃ r p', brelse (Some i) p = Ok (r, p') ∧ reach v p' ∧
     (count c = 1 → free_list p' = i :: free_list p ∧ on_device (disk p') (dev c) (block c) = v (dev c) (block c))) ∧
  ((∀ j e, caches p !! j = Some e → 0 < count e → dirty e = false) → ∀ dv b, has_block dv b → on_device (disk p) dv b = v dv b).
Proof.
  intros H Hc Hpos. destruct (reach_ok v p H) as [O R]. split.
  - destruct (brelse_Ok v i c p O R Hc Hpos) as (r & p' & c' & E & O' & R' & Hc' & K1 & K2 & K3 & _ & Hf). exists r, p'. split; [done|].
    split; [by eapply reach_brelse|]. intros E1. rewrite E1 in Hf. cbn in Hf. destruct Hf as (Hf & _ & Hd). split; [done|].
    destruct (R' (dev c) (block c) (co_key _ _ (po_at _ O i c Hc))) as [_ R2]. apply R2. intros j e He E2 E3.
    assert (j = i) as -> by (apply (po_keys _ O' j i e c' He Hc'); congruence). by assert (e = c') as -> by congruence.
  - intros Hcl dv b Hb. destruct (R dv b Hb) as [_ R2]. apply R2. intros j e He _ _. destruct (po_at _ O j e He) as [_ _ Hn H0 _].
    destruct (decide (count e = 0)) as [Hz|Hz]; [by apply H0|]. apply (Hcl j e He). lia.
Qed.

(** The area is never overrun.  There are at most 3883 caches; the headers end below the
    lowest buffer, every buffer lies inside the area, and two buffers do not overlap. *)
Theorem cache_area v p :
  reach v p → (length (caches p) <= 3883)%nat ∧ cache_ptr p = KERNEL_PAGE_CACHE_VADDR + sizeof_cache * Z.of_nat (length (caches p)) ∧
  ∀ i c, caches p !! i = Some c →
    cache_ptr p <= data c ∧ data c + BLOCK_SIZE <= KERNEL_PAGE_CACHE_VADDR + KERNEL_PAGE_CAHCE_SIZE ∧
    ∀ j e, caches p !! j = Some e → i ≠ j → data c + BLOCK_SIZE <= data e ∨ data e + BLOCK_SIZE <= data c.
Proof.
  intros H. destruct (reach_ok v p H) as [O _]. pose proof (po_room _ O) as Hr. unfold CAPACITY in Hr. split; [done|]. split; [apply (po_ptr _ O)|].
  intros i c Hc. pose proof (lookup_lt_Some _ _ _ Hc) as Hl. rewrite (po_ptr _ O). destruct (po_at _ O i c Hc) as [-> _ _ _ _].
  unfold first_data, KERNEL_PAGE_CACHE_VADDR, KERNEL_PAGE_CAHCE_SIZE, BLOCK_SIZE. split; [lia|]. split; [lia|].
  intros j e He Hne. destruct (po_at _ O j e He) as [-> _ _ _ _]. unfold first_data, KERNEL_PAGE_CACHE_VADDR, KERNEL_PAGE_CAHCE_SIZE, BLOCK_SIZE. lia.
Qed.

Lemma bread_full t dv b p :
  pool_ok p → uncached dv b p → (CAPACITY <= length (caches p))%nat → free_list p = [] →
  bread t dv b p = Ok (None, set_wait (wait_list p ++ [t]) p).
Proof.
  intros O Hun Hl Hf. unfold bread, getblk. destruct (get_from_hash_table_Ok dv b p (po_hash _ O)) as [(i & c & _ & Hc & E1 & E2)|[E _]].
  - exfalso. by apply (Hun i c Hc).
  - unfold mbind at 1, st_bind at 1. rewrite (st_bind_eq _ _ _ _ _ E). by rewrite getblk_free_full.
Qed.

(** Two caches for one block.  A task that waits for a free cache does not look into the
    hash table again when it is woken.  Two tasks that wait for the same block - the later
    one is woken first - therefore both get a cache for it, and what one of them stores the
    other does not see. *)
Theorem getblk_duplicates v p t1 t2 dv b i j ci cj :
  reach v p → length (caches p) = CAPACITY → free_list p = [] → wait_list p = [] → uncached dv b p → has_block dv b →
  i ≠ j → caches p !! i = Some ci → caches p !! j = Some cj → count ci = 1 → count cj = 1 →
  ∃ p1 p2 p3 p4 p5 p6,
    bread t1 dv b p = Ok (None, p1) ∧ bread t2 dv b p1 = Ok (None, p2) ∧
    brelse (Some i) p2 = Ok (Some t2, p3) ∧ getblk_free t2 dv b p3 = Ok (Some i, p4) ∧
    brelse (Some j) p4 = Ok (Some t1, p5) ∧ getblk_free t1 dv b p5 = Ok (Some j, p6) ∧
    caches p6 !! i = Some (fresh_cache i dv b) ∧ caches p6 !! j = Some (fresh_cache j dv b).
Proof.
  intros H Hl Hf Hw Hun Hb Hij Hci Hcj Ei Ej. destruct (reach_ok v p H) as [O R].
  set (p1 := set_wait [t1] p). assert (O1 : pool_ok p1) by by apply pool_ok_wait. set (p2 := set_wait [t1; t2] p). assert (O2 : pool_ok p2) by by apply pool_ok_wait.
  assert (E1 : bread t1 dv b p = Ok (None, p1)) by (rewrite bread_full by (done || lia); by rewrite Hw).
  assert (E2 : bread t2 dv b p1 = Ok (None, p2)) by (by rewrite bread_full by (done || (cbn; lia))).
  destruct (brelse_Ok v i ci p2 O2 R Hci ltac:(lia)) as (r3 & p3 & c3 & E3 & O3 & R3 & Hc3 & K1 & K2 & K3 & Ho3 & Hf3). rewrite Ei in Hf3. cbn in Hf3.
  destruct Hf3 as (F3 & W3 & D3). unfold after_wake in W3. cbn in W3. assert (r3 = Some t2 ∧ wait_list p3 = [t1]) as [-> W3'] by (split; congruence). clear W3.
  change (free_list p2) with (free_list p) in F3. rewrite Hf in F3.
  assert (L3 : length (caches p3) = CAPACITY) by (rewrite <- Hl; by apply (brelse_length (Some i) p2 (Some t2) p3)).
  assert (Hun3 : uncached dv b p3).
  { intros k e He [X1 X2]. destruct (decide (k = i)) as [->|Hk]; [|rewrite Ho3 in He by done; by apply (Hun k e He)].
    apply (Hun i ci Hci). assert (e = c3) as -> by congruence. by rewrite <- K1, <- K2. }
  destruct (getblk_free_evict t2 dv b p3 [] i O3 Hb ltac:(lia) F3) as (p4 & c4 & E4 & O4 & HR4 & D4 & W4 & F4 & _ & _ & L4). specialize (O4 Hun3).
  assert (Hcj4 : caches p4 !! j = Some cj) by (apply HR4; right; split; [done|]; by rewrite Ho3).
  assert (Hci4 : caches p4 !! i = Some (fresh_cache i dv b)) by (apply HR4; by left).
  assert (R4 : represents v p4) by (apply (refilled_represents v p3 p4 i dv b R3 HR4 D4); intros c Hc; assert (c = c3) as -> by congruence; done).
  destruct (brelse_Ok v j cj p4 O4 R4 Hcj4 ltac:(lia)) as (r5 & p5 & c5 & E5 & O5 & R5 & Hc5 & _ & _ & _ & Ho5 & Hf5). rewrite Ej in Hf5. cbn in Hf5.
  destruct Hf5 as (F5 & W5 & _). rewrite W4, W3' in W5. unfold after_wake in W5. cbn in W5. assert (r5 = Some t1) as -> by congruence. rewrite F4 in F5.
  assert (L5 : length (caches p5) = CAPACITY) by (rewrite <- L3, <- L4; by apply (brelse_length (Some j) p4 (Some t1) p5)).
  destruct (getblk_free_evict t1 dv b p5 [] j O5 Hb ltac:(lia) F5) as (p6 & c6 & E6 & _ & HR6 & _).
  exists p1, p2, p3, p4, p5, p6. split_and!; try done; [|apply HR6; by left]. apply HR6. right. split; [done|]. by rewrite Ho5.
Qed.

(** A release that has to wait for the disk.  [brelse] puts a block into the free list
    before it writes it back.  When that blocks, another task that needs a cache finds a
    dirty block in the free list and [getblk] stops the kernel at its assertion. *)
Theorem release_in_progress_panics v p i c t dv b :
  reach v p → length (caches p) = CAPACITY → free_list p = [] → caches p !! i = Some c → count c = 1 → dirty c = true → uncached dv b p →
  ∃ p1, brelse_push i p = Ok (true, p1) ∧ bread t dv b p1 = Stop Panic.
Proof.
  intros H Hl Hf Hc E1 Ed Hun. destruct (reach_ok v p H) as [O _]. pose proof (lookup_lt_Some _ _ _ Hc) as Hlt.
  set (c1 := set_count 0 c). set (p0 := set_caches (<[i := c1]> (caches p)) p). set (p1 := set_free [i] p0).
  assert (Hc1 : caches p1 !! i = Some c1) by (cbn; by apply list_lookup_insert_eq). exists p1. split.
  - unfold brelse_push. rewrite (st_bind_eq _ _ _ _ _ (upd_cache_Ok i c _ p Hc)), E1. change (set_count (1 - 1) c) with c1. fold p0.
    rewrite (st_bind_eq _ _ _ _ _ (get_cache_Ok i c1 p0 Hc1)). rewrite (st_bind_eq _ _ p0 () p0) by done. cbn [count c1 set_count negb Z.eqb].
    rewrite (st_bind_eq _ _ p0 p0 p0) by done. rewrite (st_bind_eq _ _ p0 () p0) by (unfold sassert; cbn [free_list p0 set_caches]; by rewrite Hf).
    cbn [free_list p0 set_caches]. by rewrite Hf.
  - assert (Hh : hashed (λ _, True) p1) by (pose proof (hashed_same (λ _, True) i c c1 p (po_hash _ O) Hc eq_refl eq_refl) as [? ?]; by split).
    assert (Hun1 : uncached dv b p1).
    { intros k e He. cbn in He. destruct (decide (k = i)) as [->|Hk].
      - rewrite list_lookup_insert_eq in He by done. injection He as <-. by apply (Hun i c).
      - rewrite list_lookup_insert_ne in He by done. by apply (Hun k e). }
    unfold bread, getblk. destruct (get_from_hash_table_Ok dv b p1 Hh) as [(k & e & _ & He & X1 & X2)|[E _]]; [exfalso; by apply (Hun1 k e He)|].
    unfold mbind at 1, st_bind at 1. rewrite (st_bind_eq _ _ _ _ _ E). unfold getblk_free, get_free_cache.
    assert (En : get_new_cache p1 = Ok (None, p1)).
    { pose proof (get_new_cache_Ok p O) as En. rewrite decide_False in En by lia. unfold get_new_cache in *. cbn [cache_ptr cache_data p1 p0 set_free set_caches].
      destruct (_ <? _); [by injection En|done]. }
    destruct (hash_remove_Ok i c1 (set_free [] p1)) as (t1 & Er & _); [exact Hh|done|].
    unfold mbind at 1, st_bind at 1. rewrite (st_bind_eq _ _ _ _ _ En). rewrite (st_bind_eq _ _ p1 p1 p1) by done. cbn [last free_list p1 set_free removelast].
    fold p1. rewrite (st_bind_eq _ _ p1 () (set_free [] p1)) by done. rewrite (st_bind_eq _ _ _ _ _ Er).
    rewrite (st_bind_eq _ _ _ _ _ (upd_cache_Ok i c1 _ (set_hash t1 (set_free [] p1)) Hc1)). unfold mret at 1, st_ret at 1.
    set (p2 := set_caches _ _). assert (Hc2 : caches p2 !! i = Some (set_flags (dirty c1) false c1)) by (cbn; rewrite list_insert_insert_eq; by apply list_lookup_insert_eq).
    rewrite (st_bind_eq _ _ _ _ _ (get_cache_Ok i _ p2 Hc2)). change (dirty c1) with (dirty c). rewrite Ed. done.
Qed.

(** ** A full cache *)

Lemma bread_new v t dv b p :
  pool_ok p → represents v p → uncached dv b p → has_block dv b → (length (caches p) < CAPACITY)%nat →
  ∃ p' c, bread t dv b p = Ok (Some (length (caches p)), p') ∧ length (caches p') = S (length (caches p)) ∧ free_list p' = free_list p ∧
    wait_list p' = wait_list p ∧ caches p' !! length (caches p) = Some c ∧ dev c = dv ∧ block c = b ∧ count c = 1 ∧ valid c = true ∧
    ∀ j e, caches p !! j = Some e → caches p' !! j = Some e.
Proof.
  intros O R Hun Hb Hl. unfold bread. destruct (get_from_hash_table_Ok dv b p (po_hash _ O)) as [(i & c & _ & Hc & X1 & X2)|[E _]];
    [exfalso; by apply (Hun i c Hc)|].
  destruct (getblk_free_new t dv b p O Hun Hb Hl) as (p1 & E1 & O1 & HR & Ed & W & F & L). 
  assert (Eg : getblk t dv b p = Ok (Some (length (caches p)), p1)) by (unfold getblk; by rewrite (st_bind_eq _ _ _ _ _ E)). rewrite (st_bind_eq _ _ _ _ _ Eg).
  assert (Hc : caches p1 !! length (caches p) = Some (fresh_cache (length (caches p)) dv b)) by (apply HR; by left).
  assert (R1 : represents v p1) by (apply (refilled_represents v p p1 _ dv b R HR Ed); intros c Hc'; apply lookup_lt_Some in Hc'; lia).
  destruct (fill_Ok v _ _ p1 O1 R1 Hc) as (p2 & E2 & O2 & _ & Hc2 & Ho2 & F2 & W2). rewrite (st_bind_eq _ _ _ _ _ E2).
  assert (L2 : length (caches p2) = length (caches p1)).
  { unfold fill in E2. apply st_bind_Ok in E2 as (c & q1 & G%get_cache_same & E2). subst q1. destruct (valid c); [by injection E2 as <-|].
    apply st_bind_Ok in E2 as (w & q2 & T & U%upd_length). rewrite U. unfold on_disk in T. destruct (transfer _ _ _ _ _) as [[a d]|]; [|done]. by injection T as _ <-. }
  eexists p2, _. split; [done|]. split; [by rewrite L2|]. split; [by rewrite F2|]. split; [by rewrite W2|]. split; [exact Hc2|]. split_and!; try done.
  intros j e He. pose proof (lookup_lt_Some _ _ _ He). rewrite Ho2 by lia. apply HR. right. split; [lia|done].
Qed.

(** Reading one block after the other fills the area. *)
Lemma filled n d :
  dev_ok d → (∀ k, (k < CAPACITY)%nat → has_block 1 (Z.of_nat k)) → (n <= CAPACITY)%nat →
  ∃ v p, reach v p ∧ length (caches p) = n ∧ free_list p = [] ∧ wait_list p = [] ∧
    ∀ i c, caches p !! i = Some c → dev c = 1 ∧ block c = Z.of_nat i ∧ count c = 1 ∧ valid c = true.
Proof.
  intros Hd Hb. induction n as [|n IH]; intros Hn.
  - exists (on_device d), (page_cache_init d). split; [by apply reach_init|]. split_and!; done.
  - destruct IH as (v & p & H & L & F & W & Hall); [lia|]. destruct (reach_ok v p H) as [O R].
    assert (Hun : uncached 1 (Z.of_nat n) p).
    { intros i c Hc [_ E]. destruct (Hall i c Hc) as (_ & E' & _). apply lookup_lt_Some in Hc. lia. }
    destruct (bread_new v 0 1 (Z.of_nat n) p O R Hun (Hb n ltac:(lia)) ltac:(lia)) as (p' & c & E & L' & F' & W' & Hc & K1 & K2 & K3 & K4 & Ho).
    exists v, p'. split; [by apply (reach_bread v p 0 1 (Z.of_nat n) (Some (length (caches p))) p' H (Hb n ltac:(lia)))|]. split; [by rewrite L', L|].
    split; [by rewrite F'|]. split; [by rewrite W'|]. intros i e He. destruct (decide (i = n)) as [->|Hne].
    + rewrite L in Hc. assert (e = c) as -> by congruence. done.
    + assert (Hi : (i < length (caches p))%nat) by (apply lookup_lt_Some in He; lia). destruct (lookup_lt_is_Some_2 _ _ Hi) as [e0 He0].
      assert (e = e0) as -> by (apply Ho in He0; congruence). by apply Hall.
Qed.
End cache.
Arguments pool : clear implicits.
Arguments Pool {D} caches cache_ptr cache_data free_list wait_list hash_table disk.

(** ** A disk for trying the cache out *)

Record toy := Toy { bufs : Z → list Z; blocks : Z → Z → list Z }.

#[export] Program Instance toy_disk : BlockDevice toy := {
  transfer wr a dv idx d := Ok ((),
    if (wr : bool) then Toy (bufs d) (λ e g, if decide (e = dv ∧ g = idx / 2) then bufs d a else blocks d e g)
    else Toy (λ x, if decide (x = a) then blocks d dv (idx / 2) else bufs d x) (blocks d));
  buffer := bufs;
  on_device := blocks;
  poke a l d := Toy (λ x, if decide (x = a) then l else bufs d x) (blocks d);
  dev_ok _ := True;
  has_block dv b := 0 <= dv < 4294967295 ∧ 0 <= b < 2147483648;
  block_bytes _ := True
}.
Next Obligation. done. Qed.
Next Obligation.
  intros a dv b d _ _ _. eexists. split; [reflexivity|]. rewrite Z.div_mul by lia. cbn. split; [done|]. split; [by rewrite decide_True|].
  split; [|done]. intros a' _ Hne. by rewrite decide_False.
Qed.
Next Obligation.
  intros a dv b d _ _ _. eexists. split; [reflexivity|]. rewrite Z.div_mul by lia. cbn. split; [done|]. split; [by rewrite decide_True|].
  split; [done|]. intros e c _ Hne. rewrite decide_False; [done|]. by intros [-> ->].
Qed.
Next Obligation.
  intros a l d _ _ _. cbn. split; [done|]. split; [by rewrite decide_True|]. split; [|done]. intros a' _ Hne. by rewrite decide_False.
Qed.

Definition blank : toy := Toy (λ _, []) (λ dv b, [dv; b]).

Lemma blank_ok : dev_ok blank.
Proof. exact I. Qed.

Lemma toy_filled : ∃ v (p : pool toy), reach v p ∧ length (caches p) = CAPACITY ∧ free_list p = [] ∧ wait_list p = [] ∧
  ∀ i c, caches p !! i = Some c → dev c = 1 ∧ block c = Z.of_nat i ∧ count c = 1 ∧ valid c = true.
Proof. apply (filled CAPACITY blank); [done| |lia]. intros k Hk. unfold CAPACITY in Hk. cbn. lia. Qed.

(** ** Witnesses *)

Lemma bread_returns_contents_witness :
  ∃ i c p', bread 0 3 5 (page_cache_init blank) = Ok (Some i, p') ∧ caches p' !! i = Some c ∧ buffer (disk p') (data c) = [3; 5].
Proof.
  destruct (bread_returns_contents (on_device blank) (page_cache_init blank) 0 3 5 (reach_init blank blank_ok) ltac:(cbn; lia))
    as [(i & c & p' & E & _ & Hc & _ & _ & _ & _ & Hb & _)|(_ & Hl & _)].
  - exists i, c, p'. split; [exact E|]. split; [exact Hc|exact Hb].
  - discriminate Hl.
Defined.

Lemma cache_durable_witness :
  ∃ v (p : pool toy) c r p', reach v p ∧ caches p !! 7%nat = Some c ∧ brelse (Some 7%nat) p = Ok (r, p') ∧ free_list p' = [7%nat] ∧
    on_device (disk p') 1 7 = v 1 7.
Proof.
  destruct toy_filled as (v & p & H & L & F & _ & Hall). destruct (lookup_lt_is_Some_2 (caches p) 7) as [c Hc]; [rewrite L; unfold CAPACITY; lia|].
  destruct (Hall _ _ Hc) as (K1 & K2 & K3 & _). destruct (cache_durable v p 7 c H Hc) as [(r & p' & E & _ & Hr) _]; [rewrite K3; lia|].
  exists v, p, c, r, p'. split; [exact H|]. split; [exact Hc|]. split; [exact E|]. destruct (Hr K3) as [F' Hd]. rewrite F in F'. rewrite K1, K2 in Hd.
  split; [exact F'|exact Hd].
Defined.

Lemma cache_area_witness : ∃ v (p : pool toy), reach v p ∧ length (caches p) = CAPACITY ∧ ∀ i c, caches p !! i = Some c → cache_ptr p <= data c.
Proof.
  destruct toy_filled as (v & p & H & L & _). exists v, p. split; [exact H|]. split; [exact L|].
  intros i c Hc. exact (proj1 (proj2 (proj2 (cache_area v p H)) i c Hc)).
Defined.

Lemma getblk_duplicates_witness :
  ∃ (p : pool toy) p1 p2 p3 p4 p5 p6, bread 1 2 9 p = Ok (None, p1) ∧ bread 2 2 9 p1 = Ok (None, p2) ∧
    brelse (Some 0%nat) p2 = Ok (Some 2, p3) ∧ getblk_free 2 2 9 p3 = Ok (Some 0%nat, p4) ∧
    brelse (Some 1%nat) p4 = Ok (Some 1, p5) ∧ getblk_free 1 2 9 p5 = Ok (Some 1%nat, p6) ∧
    caches p6 !! 0%nat = Some (fresh_cache 0 2 9) ∧ caches p6 !! 1%nat = Some (fresh_cache 1 2 9).
Proof.
  destruct toy_filled as (v & p & H & L & F & W & Hall). exists p.
  destruct (lookup_lt_is_Some_2 (caches p) 0) as [c0 Hc0]; [rewrite L; unfold CAPACITY; lia|].
  destruct (lookup_lt_is_Some_2 (caches p) 1) as [c1 Hc1]; [rewrite L; unfold CAPACITY; lia|].
  destruct (Hall _ _ Hc0) as (_ & _ & K0 & _). destruct (Hall _ _ Hc1) as (_ & _ & K1 & _).
  apply (getblk_duplicates v p 1 2 2 9 0 1 c0 c1 H L F W); [|cbn; lia|lia|exact Hc0|exact Hc1|exact K0|exact K1].
  intros i c Hc [E _]. destruct (Hall i c Hc) as (E' & _). lia.
Defined.

Lemma release_in_progress_panics_witness :
  ∃ (p p1 : pool toy), brelse_push 0 p = Ok (true, p1) ∧ bread 0 2 9 p1 = Stop Panic.
Proof.
  destruct toy_filled as (v & p & H & L & F & W & Hall). destruct (lookup_lt_is_Some_2 (caches p) 0) as [c0 Hc0]; [rewrite L; unfold CAPACITY; lia|].
  destruct (Hall _ _ Hc0) as (D0 & B0 & K0 & V0). destruct (reach_ok v p H) as [O R].
  destruct (store_block_Ok v 0 c0 [1; 2] p O R Hc0) as (p' & E & O' & _ & Ec); [lia|done|done|].
  assert (Hlt : (0 < length (caches p))%nat) by (rewrite L; unfold CAPACITY; lia).
  assert (Hf' : free_list p' = []).
  { destruct (po_free _ O') as [_ HF]. destruct (free_list p') as [|k l] eqn:Ef; [done|]. destruct (proj1 (HF k)) as (c & Hc & H0); [apply list_elem_of_here|].
    rewrite Ec in Hc. destruct (decide (k = 0%nat)) as [->|Hk].
    - rewrite list_lookup_insert_eq in Hc by done. injection Hc as <-. cbn in H0. lia.
    - rewrite list_lookup_insert_ne in Hc by done. destruct (Hall k c Hc) as (_ & _ & K & _). lia. }
  exists p'. apply (release_in_progress_panics _ p' 0 (set_flags true true c0) 0 2 9 (reach_store v p 0 c0 [1; 2] p' H Hc0 ltac:(lia) V0 I E)).
  - by rewrite Ec, length_insert.
  - exact Hf'.
  - rewrite Ec. by apply list_lookup_insert_eq.
  - exact K0.
  - done.
  - intros k c Hc [X _]. rewrite Ec in Hc. destruct (decide (k = 0%nat)) as [->|Hk].
    + rewrite list_lookup_insert_eq in Hc by done. injection Hc as <-. cbn in X. lia.
    + rewrite list_lookup_insert_ne in Hc by done. destruct (Hall k c Hc) as (X' & _). lia.
Defined.
