(* ===== verification/CachedDisk.v ===== *)
(** * The block cache over the disks in memory

    The composition of cache.c, device.c and ramdisk.c: [device_request] on a device of
    [ramdisk_init], whose queue is empty, is a disk in the sense of Cache, so everything shown
    there holds of blocks that end up in the memory of the ramdisks.  The buffers of the cache
    and the disks are parts of one byte store, 8M to 12M and 12M to 16M above 3G. *)

From S2P Require Import Prelude DList KString Device Ramdisk Cache.

(** [n] bytes of memory from [a]. *)
Definition peek (m : mem) (a : Z) (n : nat) : list Z := map (λ i, default 0 (m !! (a + Z.of_nat i))) (seq 0 n).

Lemma peek_length m a n : length (peek m a n) = n.
Proof. unfold peek. by rewrite length_map, length_seq. Qed.

Lemma peek_S m a n : peek m a (S n) = default 0 (m !! a) :: peek m (a + 1) n.
Proof.
  unfold peek. cbn [seq map]. replace (a + Z.of_nat 0) with a by lia. f_equal. rewrite <- seq_shift, map_map. apply map_ext. intros i.
  by replace (a + Z.of_nat (S i)) with (a + 1 + Z.of_nat i) by lia.
Qed.

Lemma peek_bytes m a n : room m a n → bytes_at m a (peek m a n).
Proof.
  revert a. induction n as [|n IH]; intros a Hr; [done|]. rewrite peek_S. apply room_S in Hr as [[c Hc] Hr]. rewrite Hc. split; [done|by apply IH].
Qed.

Lemma bytes_peek m a l n : length l = n → bytes_at m a l → peek m a n = l.
Proof.
  intros <-. revert a. induction l as [|c l IH]; intros a Hl; [done|]. destruct Hl as [Hc Hl]. cbn [length]. rewrite peek_S, Hc, IH by done. done.
Qed.

Lemma peek_only m m' p n a k : only m m' p n → apart a k p n → peek m' a k = peek m a k.
Proof.
  intros H Ha. unfold peek. apply map_ext_in. intros i Hi%in_seq. rewrite H; [done|]. unfold apart in Ha. lia.
Qed.

Section disk.
Variable base : Z.

(** The memory of buffers and disks is there, and holds characters. *)
Definition mem_ok (m : mem) : Prop := (∀ x, KERNEL_PAGE_CACHE_VADDR <= x < 0xC1000000 → is_Some (m !! x)) ∧ ∀ x c, m !! x = Some c → is_char c.

Definition idle (s : devices ram) : Prop :=
  ∀ k, 0 <= k < 4 → ∃ d, device_list s !! Z.to_nat (base + k) = Some d ∧ request_list d = [].

Record disks_ok (s : devices ram) : Prop := { dk_ready : ram_ready base s; dk_idle : idle s; dk_mem : mem_ok (memory (machine s)) }.

Definition disk_transfer (wr : bool) (a dv idx : Z) : DM (D := ram) unit :=
  ran ← device_request 1 dv a BLOCK_SECS idx 0 (if wr then REQUEST_WRITE else REQUEST_READ) 0;
  if (ran : bool) then mret () else stop_st NoFuel.

Definition disk_block (s : devices ram) (dv b : Z) : list Z := peek (memory (machine s)) (place (dv - base) (b * 2)) 1024.

Lemma mem_room m x n : mem_ok m → KERNEL_PAGE_CACHE_VADDR <= x → x + Z.of_nat n <= 0xC1000000 → room m x n.
Proof. intros [H _] H1 H2 i Hi. apply H. lia. Qed.

Lemma mem_chars m x n : mem_ok m → room m x n → Forall is_char (peek m x n).
Proof.
  intros [_ H] Hr. apply Forall_forall. intros c Hc. apply list_elem_of_In in Hc. unfold peek in Hc. apply in_map_iff in Hc as (i & <- & Hi%in_seq).
  destruct (Hr (x + Z.of_nat i)) as [c Hc]; [lia|]. rewrite Hc. by apply (H (x + Z.of_nat i)).
Qed.

#[local] Opaque peek.

Lemma mem_write m q l : mem_ok m → Forall is_char l → mem_ok (KString.write q l m).
Proof.
  revert q m. induction l as [|c l IH]; intros q m Hm Hl; [done|]. cbn [KString.write]. apply Forall_cons in Hl as [Hc Hl]. apply IH; [|done].
  destruct Hm as [H1 H2]. split.
  - intros x Hx. destruct (decide (x = q)) as [->|Hne]; [rewrite lookup_insert_eq|rewrite lookup_insert_ne by done; by apply H1]. by eexists.
  - intros x e. destruct (decide (x = q)) as [->|Hne]; [rewrite lookup_insert_eq; intros [= <-]|rewrite lookup_insert_ne by done; by apply H2].
    unfold is_char, s8. pose proof (Z.mod_pos_bound (c + 128) 256). lia.
Qed.

(** [device_request] on an idle disk: the transfer takes place, and the queue is empty again. *)
Lemma device_request_idle k a buf idx ty s m :
  disks_ok s → 0 <= k < 4 →
  (∀ s1, ram_ready base s1 → machine s1 = machine s → do_request (Request a (base + k) ty idx 2 0 buf 0) s1 = Ok ((), with_memory m s1)) →
  mem_ok m → ∃ s', device_request a (base + k) buf 2 idx 0 ty 0 s = Ok (true, s') ∧ disks_ok s' ∧ memory (machine s') = m.
Proof.
  intros [Rr Id Mok] Hk Hdo Hm. pose proof (rr_base _ _ Rr) as Hbase. set (r := Request a (base + k) ty idx 2 0 buf 0) in *.
  destruct (device_at base k s Rr Hk) as (d & Eg & I). destruct (device_get_inv _ _ _ _ Eg) as (_ & Hd & _). pose proof I as (I1 & I2 & I3 & I4 & I5 & I6 & I7).
  destruct (Id k Hk) as (d' & Hd' & Hq). assert (d' = d) as -> by congruence. pose proof (lookup_lt_Some _ _ _ Hd) as Hlt.
  set (d1 := set_type DEV_BLOCK d). set (s1 := Devices (<[Z.to_nat (base + k) := d1]> (device_list s)) (machine s)).
  set (d2 := set_queue [r] (direct d1) d1). set (s2 := Devices (<[Z.to_nat (base + k) := d2]> (device_list s1)) (machine s1)).
  assert (Hl1 : device_list s1 !! Z.to_nat (base + k) = Some d1) by (cbn; by apply list_lookup_insert_eq).
  assert (Hl2 : device_list s2 !! Z.to_nat (base + k) = Some d2) by (cbn; rewrite list_insert_insert_eq; by apply list_lookup_insert_eq).
  assert (Hready : ∀ q v m', ram_ready base (Devices (<[Z.to_nat (base + k) := set_queue q v d2]> (device_list s2)) (Ram (ramdisks (machine s)) m'))).
  { intros q v m'. destruct Rr as [R1 R2 R3]. split; [done|done|]. intros j Hj. cbn [device_list s2 s1]. rewrite !list_insert_insert_eq.
    destruct (decide (j = k)) as [->|Hne]; [rewrite list_lookup_insert_eq by done; eexists; split; [reflexivity|]; done|].
    rewrite list_lookup_insert_ne by lia. by apply R3. }
  assert (Hsub : request_submit a (base + k) buf 2 idx 0 ty 0 s = Ok ((base + k, r, false), s2)).
  { unfold request_submit. rewrite (st_bind_eq _ _ _ _ _ Eg). rewrite (st_bind_eq _ _ s () s1) by (unfold put_slot; by rewrite zset_Ok by lia).
    rewrite (st_bind_eq _ _ s1 (base + k) s1) by (unfold root_of; by rewrite I4). cbv zeta. change (u8 2) with 2. fold r.
    rewrite (st_bind_eq _ _ s1 d1 s1) by (unfold at_slot, zget; destruct (Z.leb_spec 0 (base + k)); [by rewrite Hl1|lia]).
    change (request_list d1) with (request_list d). rewrite Hq. cbn [AList.insert_sort]. fold d2.
    rewrite (st_bind_eq _ _ s1 () s2) by (unfold put_slot; rewrite zset_Ok by (cbn; rewrite length_insert; lia); done). done. }
  assert (Rr2 : ram_ready base s2).
  { pose proof (Hready [r] (direct d1) (memory (machine s))) as H. change (set_queue [r] (direct d1) d2) with d2 in H. rewrite list_insert_id in H by done. destruct H. by split. }
  set (s3 := with_memory m s2).
  destruct (request_release_Ok (base + k) d2 [] r [] s3) as (s4 & Er & El & Em); [lia|exact Hl2|done|apply NoDup_singleton|].
  unfold device_request. rewrite (st_bind_eq _ _ _ _ _ Hsub). unfold device_resume.
  exists s4. split.
  - rewrite (st_bind_eq _ _ s2 (pick (direct d2) [] []) s4); [done|]. rewrite (st_bind_eq _ _ _ _ _ (Hdo s2 Rr2 eq_refl)). exact Er.
  - assert (s4 = Devices (<[Z.to_nat (base + k) := set_queue [] (turn (direct d2) [] []) d2]> (device_list s2)) (Ram (ramdisks (machine s)) m)) as ->.
    { destruct s4 as [l4 m4]. cbn in El, Em. by subst. }
    split; [|done]. split; [apply Hready| |done]. intros j Hj. cbn [device_list s2 s1]. rewrite !list_insert_insert_eq.
    destruct (decide (j = k)) as [->|Hne]; [rewrite list_lookup_insert_eq by done; by eexists|]. rewrite list_lookup_insert_ne by lia. by apply Id.
Qed.

(** The blocks the disks have: the last one of the last disk cannot be reached. *)
Definition disk_has (dv b : Z) : Prop := 1 <= base <= 60 ∧ base <= dv < base + 4 ∧ 0 <= b < 1024 ∧ (dv - base = 3 → b < 1023).

Lemma buffer_range a : is_buffer a → KERNEL_PAGE_CACHE_VADDR <= a ∧ a + 1024 <= KERNEL_RAMDISK_VADDR.
Proof.
  intros (i & -> & H). unfold first_data, KERNEL_PAGE_CACHE_VADDR, KERNEL_PAGE_CAHCE_SIZE, BLOCK_SIZE, KERNEL_RAMDISK_VADDR in *. lia.
Qed.

Lemma place_range dv b : disk_has dv b →
  KERNEL_RAMDISK_VADDR <= place (dv - base) (b * 2) ∧ place (dv - base) (b * 2) + 1024 <= 0xC1000000 ∧ 2048 * (dv - base) + b * 2 + 2 < 8192.
Proof. intros (H1 & H2 & H3 & H4). unfold place, KERNEL_RAMDISK_VADDR. destruct (decide (dv - base = 3)); lia. Qed.

Lemma buffers_apart a a' : is_buffer a → is_buffer a' → a' ≠ a → apart a' 1024 a 1024.
Proof. intros (i & -> & _) (j & -> & _) Hne. unfold apart. lia. Qed.

Lemma places_apart dv b e c : disk_has dv b → disk_has e c → (e, c) ≠ (dv, b) → apart (place (e - base) (c * 2)) 1024 (place (dv - base) (b * 2)) 1024.
Proof.
  intros (_ & H2 & H3 & _) (_ & H2' & H3' & _) Hne. unfold apart, place. destruct (decide (e = dv)) as [->|]; [|lia]. assert (c ≠ b) by congruence. lia.
Qed.

Lemma disk_read_law a dv b s :
  disks_ok s → is_buffer a → disk_has dv b →
  ∃ s', disk_transfer false a dv (b * 2) s = Ok ((), s') ∧ disks_ok s' ∧ memory (machine s') = KString.write a (disk_block s dv b) (memory (machine s)).
Proof.
  intros O Ha Hb. pose proof (buffer_range a Ha) as [A1 A2]. pose proof (place_range dv b Hb) as (P1 & P2 & P3). pose proof Hb as (_ & B2 & B3 & _).
  set (m := memory (machine s)). set (l := disk_block s dv b). assert (Hl : length l = 1024%nat) by apply peek_length.
  unfold KERNEL_PAGE_CACHE_VADDR, KERNEL_RAMDISK_VADDR in *.
  assert (Rp : room m (place (dv - base) (b * 2)) 1024) by (apply mem_room; [apply O|unfold KERNEL_PAGE_CACHE_VADDR; lia|lia]).
  destruct (device_request_idle (dv - base) 1 a (b * 2) REQUEST_READ s (KString.write a l m) O ltac:(lia)) as (s' & E & O' & M').
  - intros s1 R1 E1. unfold do_request. cbn [r_type r_dev r_buf r_count r_idx r_flags]. change (REQUEST_READ =? REQUEST_READ) with true. cbv iota.
    assert (Em : memory (machine s1) = m) by (by rewrite E1).
    rewrite (st_bind_eq _ _ _ _ _ (device_read_ram base (dv - base) a 2 (b * 2) 0 s1 l R1 ltac:(lia) ltac:(lia) ltac:(lia) ltac:(lia) ltac:(lia) ltac:(lia)
      ltac:(rewrite Em; by apply peek_bytes) ltac:(rewrite Em; apply mem_room; [apply O|unfold KERNEL_PAGE_CACHE_VADDR; lia|lia]) ltac:(unfold apart; lia))).
    by rewrite Em.
  - apply mem_write; [apply O|]. apply mem_chars; [apply O|done].
  - exists s'. split; [|split; [exact O'|exact M']]. unfold disk_transfer. replace (base + (dv - base)) with dv in E by lia. by rewrite (st_bind_eq _ _ _ _ _ E).
Qed.

Lemma disk_write_law a dv b s :
  disks_ok s → is_buffer a → disk_has dv b →
  ∃ s', disk_transfer true a dv (b * 2) s = Ok ((), s') ∧ disks_ok s' ∧
    memory (machine s') = KString.write (place (dv - base) (b * 2)) (peek (memory (machine s)) a 1024) (memory (machine s)).
Proof.
  intros O Ha Hb. pose proof (buffer_range a Ha) as [A1 A2]. pose proof (place_range dv b Hb) as (P1 & P2 & P3). pose proof Hb as (_ & B2 & B3 & _).
  set (m := memory (machine s)). set (l := peek m a 1024). assert (Hl : length l = 1024%nat) by apply peek_length.
  unfold KERNEL_PAGE_CACHE_VADDR, KERNEL_RAMDISK_VADDR in *.
  assert (Rp : room m a 1024) by (apply mem_room; [apply O|unfold KERNEL_PAGE_CACHE_VADDR; lia|lia]).
  destruct (device_request_idle (dv - base) 1 a (b * 2) REQUEST_WRITE s (KString.write (place (dv - base) (b * 2)) l m) O ltac:(lia)) as (s' & E & O' & M').
  - intros s1 R1 E1. unfold do_request. cbn [r_type r_dev r_buf r_count r_idx r_flags]. change (REQUEST_WRITE =? REQUEST_READ) with false. change (REQUEST_WRITE =? REQUEST_WRITE) with true. cbv iota.
    assert (Em : memory (machine s1) = m) by (by rewrite E1).
    rewrite (st_bind_eq _ _ _ _ _ (device_write_ram base (dv - base) a 2 (b * 2) 0 s1 l R1 ltac:(lia) ltac:(lia) ltac:(lia) ltac:(lia) ltac:(lia) ltac:(lia)
      ltac:(rewrite Em; by apply peek_bytes) ltac:(rewrite Em; apply mem_room; [apply O|unfold KERNEL_PAGE_CACHE_VADDR; lia|lia]) ltac:(unfold apart; lia))).
    by rewrite Em.
  - apply mem_write; [apply O|]. apply mem_chars; [apply O|done].
  - exists s'. split; [|split; [exact O'|exact M']]. unfold disk_transfer. replace (base + (dv - base)) with dv in E by lia. by rewrite (st_bind_eq _ _ _ _ _ E).
Qed.

(** The implementation of Cache's interface. *)
#[program] Definition ramdisk_blocks : BlockDevice (devices ram) := {|
  transfer := disk_transfer;
  buffer s a := peek (memory (machine s)) a 1024;
  on_device := disk_block;
  poke a l s := with_memory (KString.write a l (memory (machine s))) s;
  dev_ok := disks_ok;
  has_block := disk_has;
  block_bytes l := length l = 1024%nat ∧ Forall is_char l
|}.
Next Obligation. intros dv b (H1 & H2 & H3 & _). lia. Qed.
Next Obligation.
  intros a dv b s O Ha Hb. destruct (disk_read_law a dv b s O Ha Hb) as (s' & E & O' & M). exists s'. split; [done|]. split; [done|].
  pose proof (peek_length (memory (machine s)) (place (dv - base) (b * 2)) 1024) as Hl. fold (disk_block s dv b) in Hl. rewrite M.
  pose proof (write_only a (disk_block s dv b) (memory (machine s))) as W. rewrite Hl in W. pose proof (buffer_range a Ha) as [_ A2].
  split; [|split].
  - apply bytes_peek; [exact Hl|]. apply write_bytes. apply mem_chars; [apply O|]. pose proof (place_range dv b Hb) as (P1 & P2 & _).
    unfold KERNEL_RAMDISK_VADDR in *. apply mem_room; [apply O|unfold KERNEL_PAGE_CACHE_VADDR; lia|lia].
  - intros a' Ha' Hne. apply (peek_only _ _ _ _ _ _ W). by apply buffers_apart.
  - intros e c Hc. unfold disk_block. rewrite M. apply (peek_only _ _ _ _ _ _ W). pose proof (place_range e c Hc) as (P1 & _). unfold apart. lia.
Qed.
Next Obligation.
  intros a dv b s O Ha Hb. destruct (disk_write_law a dv b s O Ha Hb) as (s' & E & O' & M). exists s'. split; [done|]. split; [done|].
  pose proof (peek_length (memory (machine s)) a 1024) as Hl. set (l := peek _ a 1024) in *.
  pose proof (write_only (place (dv - base) (b * 2)) l (memory (machine s))) as W. rewrite Hl in W. pose proof (buffer_range a Ha) as [A1 A2].
  pose proof (place_range dv b Hb) as (P1 & P2 & _). unfold KERNEL_RAMDISK_VADDR in *. split; [|split].
  - unfold disk_block. rewrite M. apply bytes_peek; [exact Hl|]. apply write_bytes. apply mem_chars; [apply O|]. apply mem_room; [apply O|done|lia].
  - intros a' Ha'. rewrite M. apply (peek_only _ _ _ _ _ _ W). pose proof (buffer_range a' Ha') as [_ A2']. unfold apart, KERNEL_RAMDISK_VADDR in *. lia.
  - intros e c Hc Hne. unfold disk_block. rewrite M. apply (peek_only _ _ _ _ _ _ W). by apply places_apart.
Qed.
Next Obligation.
  intros a l s [Rr Id Mok] Ha [Hl Hc]. cbn. pose proof (write_only a l (memory (machine s))) as W. rewrite Hl in W. pose proof (buffer_range a Ha) as [A1 A2].
  split; [|split; [|split]].
  - split; [destruct Rr; by split|done|by apply mem_write].
  - apply bytes_peek; [exact Hl|]. by apply write_bytes.
  - intros a' Ha' Hne. apply (peek_only _ _ _ _ _ _ W). by apply buffers_apart.
  - intros e c Hb. unfold disk_block. cbn. apply (peek_only _ _ _ _ _ _ W). pose proof (place_range e c Hb) as (P1 & _). unfold apart. lia.
Qed.
End disk.

(** ** From a start of the disks to a stored block *)

Lemma install_queues {D} ty sub p nm par io rd wr (s : devices D) x s' :
  device_install ty sub p nm par io rd wr s = Ok (x, s') → ∀ k, 0 <= k → queue_of s' k = queue_of s k.
Proof.
  unfold device_install. intros (i & s1 & E1 & (d & s2 & E2 & (u & s3 & E3 & [= _ <-])%st_bind_Ok)%st_bind_Ok)%st_bind_Ok k Hk.
  assert (s1 = s) as -> by (unfold get_new_device in E1; destruct (null_loop _ _); [by injection E1|done]).
  apply at_slot_inv in E2 as (H0 & Hd & ->). apply put_slot_inv in E3 as (_ & Hl & ->). rewrite queue_put by done. case_decide; [|done]. subst.
  by rewrite (queue_at _ _ _ Hd).
Qed.

Lemma init_queues s x s' : ramdisk_init s = Ok (x, s') → ∀ k, 0 <= k → queue_of s' k = queue_of s k.
Proof.
  assert (Hone : ∀ i s u s', ramdisk_install i s = Ok (u, s') → ∀ k, 0 <= k → queue_of s' k = queue_of s k).
  { intros i s0 u s1. unfold ramdisk_install. intros (v & s2 & E1 & (w & s3 & E2 & [= _ <-])%st_bind_Ok)%st_bind_Ok k Hk.
    rewrite (install_queues _ _ _ _ _ _ _ _ _ _ _ E2 k Hk). unfold on_machine in E1. destruct (Ramdisk.set_disk _ _ _) as [[a m]|]; [|done].
    by injection E1 as _ <-. }
  unfold ramdisk_init. intros (u & s1 & E1 & (a & s2 & E2 & (b & s3 & E3 & (c & s4 & E4 & E5)%st_bind_Ok)%st_bind_Ok)%st_bind_Ok)%st_bind_Ok k Hk.
  rewrite (Hone _ _ _ _ E5), (Hone _ _ _ _ E4), (Hone _ _ _ _ E3), (Hone _ _ _ _ E2) by done. unfold sassert in E1. destruct (_ =? _); [|done]. by injection E1 as _ <-.
Qed.

(** [ramdisk_init] on a table without disks makes disks that are idle. *)
Lemma init_disks m : mem_ok m → ∃ s, ramdisk_init (device_init (Ram (replicate 4 (RamDisk 0 0)) m)) = Ok ((), s) ∧ disks_ok 1 s.
Proof.
  intros Hm. set (s0 := device_init _). destruct (ramdisk_init_Ok 0 s0 (device_init_installed _) ltac:(lia) eq_refl) as (s & E & _ & Rr & M & _).
  exists s. split; [done|]. split; [exact Rr| |by rewrite M]. intros k Hk. destruct (rr_dev _ _ Rr k Hk) as (d & Hd & _). exists d. split; [done|].
  rewrite <- (queue_at _ _ _ Hd), (init_queues _ _ _ E) by lia.
  assert (H : Forall (λ d, request_list d = []) (device_list s0)) by (cbn; repeat constructor).
  unfold queue_of. destruct (device_list s0 !! Z.to_nat (0 + 1 + k)) as [e|] eqn:Ee; [|done]. exact (Forall_lookup_1 _ _ _ _ H Ee).
Qed.

(** C12. A stored block reaches the disk.  Over the ramdisks: when the only holder of a block
    stores into it and releases it, both return, and reading the block's two sectors with
    [device_read], past the cache and into any buffer, gives what was stored. *)
Theorem store_reaches_ramdisk base v (p : pool (devices ram)) t dv b i c p1 l buf :
  let _ := ramdisk_blocks base in
  reach v p → disk_has base dv b → bread t dv b p = Ok (Some i, p1) → caches p1 !! i = Some c → count c = 1 →
  length l = 1024%nat → Forall is_char l → is_buffer buf →
  ∃ p2 r p3 s, store_block i l p1 = Ok ((), p2) ∧ brelse (Some i) p2 = Ok (r, p3) ∧
    device_read dv buf 2 (b * 2) 0 (disk p3) = Ok (2, s) ∧ bytes_at (memory (machine s)) buf l.
Proof.
  intros BD H Hb E Hc H1 Hl Hch Hbuf. destruct (reach_ok v p H) as [O R].
  destruct (bread_Ok v t dv b p O R Hb) as [(i' & c' & p1' & E' & O1 & R1 & Hc' & K1 & K2 & K3 & K4 & _)|(E' & _)]; [|congruence].
  assert (i' = i ∧ p1' = p1) as [-> ->] by (split; congruence). assert (c' = c) as -> by congruence.
  destruct (store_block_Ok v i c l p1 O1 R1 Hc ltac:(lia) K4 (conj Hl Hch)) as (p2 & E2 & O2 & R2 & C2).
  set (c2 := set_flags true true c) in C2. assert (Hc2 : caches p2 !! i = Some c2) by (rewrite C2; apply list_lookup_insert_eq; by eapply lookup_lt_Some).
  destruct (brelse_Ok _ i c2 p2 O2 R2 Hc2 ltac:(cbn; lia)) as (r & p3 & c3 & E3 & O3 & R3 & Hc3 & K5 & K6 & K7 & _ & Hf).
  change (dev c2) with (dev c) in K5. change (block c2) with (block c) in K6. change (count c2) with (count c) in Hf. rewrite H1 in Hf. destruct Hf as (_ & _ & Hd3).
  assert (Hdisk : disk_block base (disk p3) dv b = l).
  { destruct (R3 dv b Hb) as [_ Hx]. cbn [on_device BD ramdisk_blocks] in Hx. rewrite Hx; [unfold stored; by rewrite decide_True by done|].
    intros j e He X1 X2. destruct (po_at _ O3 j e He) as [_ _ _ Hcl _]. destruct (decide (j = i)) as [->|Hne]; [by assert (e = c3) as -> by congruence|].
    exfalso. apply Hne. apply (po_keys _ O3 j i e c3 He Hc3); congruence. }
  exists p2, r, p3. pose proof (po_dev _ O3) as D3. cbn [dev_ok BD ramdisk_blocks] in D3. pose proof (buffer_range buf Hbuf) as [A1 A2].
  pose proof (place_range base dv b Hb) as (P1 & P2 & P3). pose proof Hb as (_ & B2 & B3 & _). unfold KERNEL_PAGE_CACHE_VADDR, KERNEL_RAMDISK_VADDR in *.
  assert (Hp : bytes_at (memory (machine (disk p3))) (place (dv - base) (b * 2)) l).
  { rewrite <- Hdisk. apply peek_bytes, mem_room; [apply D3|unfold KERNEL_PAGE_CACHE_VADDR; lia|lia]. }
  exists (with_memory (KString.write buf l (memory (machine (disk p3)))) (disk p3)). split; [exact E2|]. split; [exact E3|]. split; [|by apply write_bytes].
  replace dv with (base + (dv - base)) at 1 by lia. apply device_read_ram; try lia; [apply D3|exact Hp| |unfold apart; lia].
  apply mem_room; [apply D3|unfold KERNEL_PAGE_CACHE_VADDR; lia|lia].
Qed.

(** ** Witness *)

Lemma zeroed a n : ∃ m : mem, (∀ x, a <= x < a + n → is_Some (m !! x)) ∧ ∀ x c, m !! x = Some c → is_char c.
Proof.
  exists (list_to_map (map (λ x, (x, 0)) (seqZ a n))). split.
  - intros x Hx. exists 0. apply elem_of_list_to_map.
    + rewrite <- list_fmap_compose. apply (NoDup_fmap_2 (λ x, x)), NoDup_seqZ.
    + apply (list_elem_of_fmap_2 (λ x, (x, 0))), elem_of_seqZ. lia.
  - intros x c Hc. apply elem_of_list_to_map_2, list_elem_of_fmap in Hc as (y & [= _ ->] & _). unfold is_char. lia.
Qed.

(** Zeroed memory from 3G+8M to 3G+16M. *)
Lemma zeroed_mem : ∃ m, mem_ok m.
Proof. destruct (zeroed KERNEL_PAGE_CACHE_VADDR 0x800000) as (m & H1 & H2). exists m. split; [exact H1|exact H2]. Qed.

Lemma store_reaches_ramdisk_witness :
  let _ := ramdisk_blocks 1 in
  ∃ (p p1 p2 p3 : pool (devices ram)) r s, bread 0 2 5 p = Ok (Some 0%nat, p1) ∧ store_block 0 (replicate 1024 65) p1 = Ok ((), p2) ∧
    brelse (Some 0%nat) p2 = Ok (r, p3) ∧ device_read 2 first_data 2 (5 * 2) 0 (disk p3) = Ok (2, s) ∧
    bytes_at (memory (machine s)) first_data (replicate 1024 65).
Proof.
  intros BD. destruct zeroed_mem as [m Hm]. destruct (init_disks m Hm) as (s0 & _ & D0). set (p := page_cache_init s0).
  assert (H : reach (on_device s0) p) by (apply reach_init; exact D0). destruct (reach_ok _ p H) as [O R].
  assert (Hb : has_block 2 5) by (cbn; unfold disk_has; lia).
  destruct (bread_new _ 0 2 5 p O R) as (p1 & c & E & _ & _ & _ & Hc & _ & _ & K & _); [intros i c Hc; discriminate Hc|exact Hb|cbn; unfold CAPACITY; lia|].
  assert (Hbuf : is_buffer first_data) by (exists 0%nat; unfold first_data, KERNEL_PAGE_CACHE_VADDR, KERNEL_PAGE_CAHCE_SIZE, BLOCK_SIZE; lia).
  destruct (store_reaches_ramdisk 1 _ p 0 2 5 0 c p1 (replicate 1024 65) first_data H Hb E Hc K) as (p2 & r & p3 & s & E2 & E3 & E4 & B).
  - apply length_replicate.
  - apply Forall_replicate. unfold is_char. lia.
  - exact Hbuf.
  - exists p, p1, p2, p3, r, s. split; [exact E|]. split; [exact E2|]. split; [exact E3|]. split; [exact E4|exact B].
Defined.
