(* ===== verification/Path.v ===== *)
(** * Path names (src/fs/file.c, src/fs/namei.c)

    The parts of the file system that work on the text of a path alone, over the byte store of
    KString: [abspath], which [sys_chdir] and [sys_chroot] use to simplify a path, [match_name],
    which compares the next component of a path with the name in a directory entry, and
    [sys_getcwd].  A name in a directory entry is the list of bytes from its first character to
    the end of its block.  The buffer [kmalloc] answers is an argument. *)

From S2P Require Import Prelude KString.

Definition SEPARATOR1 : Z := 47.
Definition SEPARATOR2 : Z := 92.
Definition DOT : Z := 46.

(** ** Matching one component *)

(** [while (IS_SEPARATOR( *lhs)) lhs++]. *)
Fixpoint skip_seps (fuel : nat) (lhs : Z) : M Z :=
  match fuel with
  | O => stop_st NoFuel
  | S fuel => c ← ld lhs; if IS_SEPARATOR c then skip_seps fuel (lhs + 1) else mret lhs
  end.

(** [while ( *lhs == *rhs && *lhs != EOS && *rhs != EOS)]: where the two pointers end. *)
Fixpoint match_chars (rhs : list Z) (lhs : Z) : M (Z * list Z) :=
  match rhs with
  | [] => stop_st OutOfBounds
  | d :: rhs' =>
      c ← ld lhs;
      if (c =? s8 d) && negb (c =? EOS) && negb (s8 d =? EOS) then match_chars rhs' (lhs + 1)
      else mret (lhs, rhs)
  end.

(** The result is what [*next] becomes, or [None] for false, when [*next] stays as it is. *)
Definition match_name (fuel : nat) (name : Z) (entry_name : list Z) : M (option Z) :=
  lhs ← skip_seps fuel name;
  '(lhs, rhs) ← match_chars entry_name lhs;
  d ← lift_st (zget rhs 0);
  if negb (s8 d =? EOS) then mret None
  else
    c ← ld lhs;
    if negb (c =? EOS) then
      if negb (IS_SEPARATOR c) then mret None else mret (Some (lhs + 1))
    else mret (Some lhs).

(** ** Simplifying a path *)

(** The macro [IS_SEPARATOR] evaluates its argument a second time when the first comparison
    fails, so [IS_SEPARATOR( *(--t))] steps back once or twice. *)
Definition back_is_separator (t : Z) : M (bool * Z) :=
  c ← ld (t - 1);
  if c =? SEPARATOR1 then mret (true, t - 1)
  else c ← ld (t - 2); mret (c =? SEPARATOR2, t - 2).

(** [while (t > tmpstr && !IS_SEPARATOR( *(--t)))]. *)
Fixpoint back_loop (fuel : nat) (tmpstr t : Z) : M Z :=
  match fuel with
  | O => stop_st NoFuel
  | S fuel =>
      if tmpstr <? t then
        '(b, t) ← back_is_separator t;
        if (b : bool) then mret t else back_loop fuel tmpstr t
      else mret t
  end.

(** [while (!IS_SEPARATOR(c[1])) *(++t) = *(++c)]. *)
Fixpoint copy_loop (fuel : nat) (t c : Z) : M (Z * Z) :=
  match fuel with
  | O => stop_st NoFuel
  | S fuel =>
      x ← ld (c + 1);
      if IS_SEPARATOR x then mret (t, c)
      else x ← ld (c + 1); st (t + 1) x;; copy_loop fuel (t + 1) (c + 1)
  end.

(** [c[1] == '.' && IS_SEPARATOR(c[2])] and [c[1] == '.' && c[2] == '.' && IS_SEPARATOR(c[3])]. *)
Definition at_dot (c : Z) : M bool :=
  x ← ld (c + 1);
  if x =? DOT then y ← ld (c + 2); mret (IS_SEPARATOR y) else mret false.
Definition at_dotdot (c : Z) : M bool :=
  x ← ld (c + 1);
  if x =? DOT then
    y ← ld (c + 2);
    if y =? DOT then z ← ld (c + 3); mret (IS_SEPARATOR z) else mret false
  else mret false.

(** [while (c[1] != EOS)]: the final [t]. *)
Fixpoint abspath_loop (fuel : nat) (tmpstr t c : Z) : M Z :=
  match fuel with
  | O => stop_st NoFuel
  | S fuel =>
      x ← ld (c + 1);
      if x =? EOS then mret t
      else if IS_SEPARATOR x then abspath_loop fuel tmpstr t (c + 1)
      else
        dot ← at_dot c;
        if (dot : bool) then abspath_loop fuel tmpstr t (c + 2)
        else
          dots ← at_dotdot c;
          if (dots : bool) then t ← back_loop fuel tmpstr t; abspath_loop fuel tmpstr t (c + 3)
          else
            '(t, c) ← copy_loop fuel t c;
            st (t + 1) SEPARATOR1;;
            abspath_loop fuel tmpstr (t + 1) c
  end.

(** Filling the buffer [tmpstr] from the current directory [pwd] and the path. *)
Definition abspath_fill (fuel : nat) (tmpstr pwd pwd_len pathname pathname_len : Z) : M unit :=
  x ← ld pathname;
  if negb (IS_SEPARATOR x) then
    let pathname_len := u32 (pwd_len + pathname_len + 3) in
    strcpy fuel tmpstr pwd;;
    st (tmpstr + pwd_len) SEPARATOR1;;
    strcpy fuel (tmpstr + (pwd_len + 1)) pathname;;
    st (tmpstr + (pathname_len - 2)) SEPARATOR1;;
    st (tmpstr + (pathname_len - 1)) EOS
  else
    let pathname_len := u32 (pathname_len + 2) in
    strcpy fuel tmpstr pathname;;
    st (tmpstr + (pathname_len - 2)) SEPARATOR1;;
    st (tmpstr + (pathname_len - 1)) EOS.

Definition abspath (fuel : nat) (tmpstr pwd pwd_len pathname pathname_len : Z) : M Z :=
  abspath_fill fuel tmpstr pwd pwd_len pathname pathname_len;;
  x ← ld tmpstr;
  sassert (IS_SEPARATOR x);;
  t ← abspath_loop fuel tmpstr tmpstr tmpstr;
  if tmpstr <? t then st t EOS;; mret tmpstr else st (t + 1) EOS;; mret tmpstr.

(** [sys_getcwd]. *)
Definition sys_getcwd (pwd pwd_len buf size : Z) : M Z :=
  let len := Z.min (u32 (pwd_len + 1)) size in
  strncpy buf pwd len;; mret (s32 len).

(** ** Components *)

(** The components of a path, without the empty ones. *)
Fixpoint split_from (acc : list Z) (s : list Z) : list (list Z) :=
  match s with
  | [] => match acc with [] => [] | _ => [reverse acc] end
  | c :: s =>
      if IS_SEPARATOR c then match acc with [] => split_from [] s | _ => reverse acc :: split_from [] s end
      else split_from (c :: acc) s
  end.
Definition components (s : list Z) : list (list Z) := split_from [] s.

(** The path of a stack of components, the last one first: "/a/b". *)
Fixpoint render (st : list (list Z)) : list Z :=
  match st with [] => [SEPARATOR1] | c :: st => render st ++ c ++ [SEPARATOR1] end.
Definition path_of (st : list (list Z)) : list Z :=
  match st with [] => [SEPARATOR1] | _ => removelast (render st) end.

(** What ".." should take away, and what the code takes away: everything from the last
    component of even length on. *)
Definition pop (st : list (list Z)) : list (list Z) := tail st.
Fixpoint code_pop (st : list (list Z)) : list (list Z) :=
  match st with
  | [] => []
  | c :: st => if Nat.even (length c) then st else code_pop st
  end.

Definition walk (up : list (list Z) → list (list Z)) (st : list (list Z)) (c : list Z) : list (list Z) :=
  if decide (c = [DOT]) then st else if decide (c = [DOT; DOT]) then up st else c :: st.
Definition simplify (up : list (list Z) → list (list Z)) (s : list Z) : list (list Z) :=
  foldl (walk up) [] (components s).

(** A component: characters other than separators. *)
Definition plain (c : list Z) : Prop := Forall (λ x, (is_char x ∧ x ≠ EOS) ∧ IS_SEPARATOR x = false) c.
Definition ends_in_sep (w : list Z) : Prop := w = [] ∨ ∃ w' s, w = w' ++ [s] ∧ IS_SEPARATOR s = true.

Lemma first_component w :
  Forall (λ x, is_char x ∧ x ≠ EOS) w → ends_in_sep w → w ≠ [] →
  ∃ comp s rest, w = comp ++ s :: rest ∧ plain comp ∧ IS_SEPARATOR s = true ∧ ends_in_sep rest.
Proof.
  intros Hw He Hn. destruct He as [->|(w' & e & -> & Hs)]; [done|]. clear Hn.
  apply Forall_app in Hw as [Hw _]. induction w' as [|x w' IH].
  - exists [], e, []. split_and!; [done|by constructor|done|by left].
  - apply Forall_cons in Hw as [Hx Hw]. destruct (IS_SEPARATOR x) eqn:Ex.
    + exists [], x, (w' ++ [e]). split_and!; [done|by constructor|done|right; eauto].
    + destruct (IH Hw) as (comp & s & rest & E & Hc & H1 & H2). exists (x :: comp), s, rest.
      cbn [app]. rewrite E. split_and!; [done|by constructor|done..].
Qed.

Lemma split_from_plain acc comp s rest :
  plain comp → IS_SEPARATOR s = true →
  split_from acc (comp ++ s :: rest) = match reverse acc ++ comp with [] => [] | l => [l] end ++ components rest.
Proof.
  intros Hc Hs. revert acc. induction comp as [|x comp IH]; intros acc; cbn [app split_from].
  - rewrite Hs, app_nil_r. destruct acc as [|y acc]; [done|]. rewrite reverse_cons. by destruct (reverse acc).
  - apply Forall_cons in Hc as [[_ Hx] Hc]. rewrite Hx, (IH Hc). by rewrite reverse_cons, <- app_assoc.
Qed.

Lemma components_plain comp s rest :
  plain comp → IS_SEPARATOR s = true → components (comp ++ s :: rest) = match comp with [] => [] | l => [l] end ++ components rest.
Proof. intros Hc Hs. unfold components at 1. rewrite (split_from_plain [] comp s rest Hc Hs). by destruct comp. Qed.

(** A path that does not end in a separator is read the same with one put behind it. *)
Lemma components_slash s : components (s ++ [SEPARATOR1]) = components s.
Proof.
  unfold components. generalize (@nil Z) at 1 3 as acc. induction s as [|x s IH]; intros acc; cbn [app split_from].
  - destruct acc; [done|]. by cbn.
  - destruct (IS_SEPARATOR x); [destruct acc|]; by rewrite IH.
Qed.

Lemma render_last st : ∃ r, render st = r ++ [SEPARATOR1].
Proof. destruct st as [|c st]; [by exists []|]. exists (render st ++ c). cbn. by rewrite app_assoc. Qed.

Lemma render_length st : (0 < length (render st))%nat.
Proof. destruct (render_last st) as [r ->]. rewrite length_app. cbn. lia. Qed.

Lemma bytes_at_mid m a l1 x l2 : bytes_at m a (l1 ++ x :: l2) → m !! (a + Z.of_nat (length l1)) = Some x.
Proof. by intros [_ [H _]]%bytes_at_app. Qed.

(** ** Stepping back over components *)

Lemma snoc2 {A} (c : list A) n : length c = S (S n) → ∃ c' y x, c = c' ++ [y; x] ∧ length c' = n.
Proof.
  intros H. destruct c as [|x c _] using rev_ind; [done|]. destruct c as [|y c _] using rev_ind; [done|].
  rewrite !length_app in H. cbn in H. exists c, y, x. rewrite <- app_assoc. split; [done|lia].
Qed.

Lemma back_hit m t : m !! (t - 1) = Some SEPARATOR1 → back_is_separator t m = Ok ((true, t - 1), m).
Proof. intros H. unfold back_is_separator. by rewrite (st_bind_eq _ _ _ _ _ (ld_Ok _ _ _ H)). Qed.

Lemma back_miss m t x y :
  m !! (t - 1) = Some x → IS_SEPARATOR x = false → m !! (t - 2) = Some y → back_is_separator t m = Ok ((y =? SEPARATOR2, t - 2), m).
Proof.
  intros H1 [Hx _]%orb_false_iff H2. unfold back_is_separator. rewrite (st_bind_eq _ _ _ _ _ (ld_Ok _ _ _ H1)).
  unfold SEPARATOR1. rewrite Hx. by rewrite (st_bind_eq _ _ _ _ _ (ld_Ok _ _ _ H2)).
Qed.

(** From behind the [c] of [r ++ "/" ++ c]: an even number of characters brings the loop to the
    slash in front of it, an odd number past that slash. *)
Lemma back_slide n m a r c tl fuel :
  length c = n → plain c → bytes_at m a ((r ++ [SEPARATOR1]) ++ c ++ tl) → (length r + length c + 1 < fuel)%nat →
  if Nat.even n then back_loop fuel a (a + Z.of_nat (length r + 1 + n)) m = Ok (a + Z.of_nat (length r), m)
  else ∃ fuel', (length r + 1 < fuel' <= fuel)%nat ∧
    back_loop fuel a (a + Z.of_nat (length r + 1 + n)) m = back_loop fuel' a (a + Z.of_nat (length r)) m.
Proof.
  revert c tl fuel. induction n as [n IH] using lt_wf_ind. intros c tl fuel Hn Hc Hb Hf.
  assert (m !! (a + Z.of_nat (length r)) = Some SEPARATOR1) as Hsl.
  { eapply (bytes_at_mid m a r SEPARATOR1). by rewrite <- app_assoc in Hb. }
  destruct fuel as [|fuel]; [lia|]. cbn [back_loop]. zcases; [|lia].
  destruct n as [|[|n]]; cbn [Nat.even].
  - rewrite (st_bind_eq _ _ _ _ _ (back_hit m (a + Z.of_nat (length r + 1 + 0)) ltac:(replace (_ - 1) with (a + Z.of_nat (length r)) by lia; exact Hsl))).
    unfold mret, st_ret. do 2 f_equal. lia.
  - destruct c as [|x [|]]; [done| |done]. apply Forall_singleton in Hc as [_ Hx].
    rewrite <- app_assoc in Hb. pose proof (bytes_at_mid m a (r ++ [SEPARATOR1]) x tl) as Hm. rewrite <- app_assoc in Hm.
    specialize (Hm Hb). rewrite length_app in Hm. cbn [length] in Hm.
    rewrite (st_bind_eq _ _ _ _ _ (back_miss m (a + Z.of_nat (length r + 1 + 1)) x SEPARATOR1
      ltac:(replace (_ - 1) with (a + Z.of_nat (length r + 1)) by lia; exact Hm) Hx
      ltac:(replace (_ - 2) with (a + Z.of_nat (length r)) by lia; exact Hsl))).
    exists fuel. split; [cbn in Hf; lia|]. cbn. f_equal. lia.
  - destruct (snoc2 c n Hn) as (c' & y & x & -> & Hl).
    apply Forall_app in Hc as [Hc [[_ Hy] [[_ Hx] _]%Forall_cons]%Forall_cons].
    rewrite length_app in Hf. cbn [length] in Hf.
    assert (m !! (a + Z.of_nat (length r + 1 + S (S n)) - 1) = Some x ∧ m !! (a + Z.of_nat (length r + 1 + S (S n)) - 2) = Some y) as [H1 H2].
    { pose proof Hb as Hb1. replace ((r ++ [SEPARATOR1]) ++ (c' ++ [y; x]) ++ tl) with ((r ++ [SEPARATOR1] ++ c') ++ y :: [x] ++ tl) in Hb1
        by (by rewrite <- !app_assoc).
      pose proof (bytes_at_mid _ _ _ _ _ Hb1) as H2. change (y :: [x] ++ tl) with ([y] ++ x :: tl) in Hb1. rewrite app_assoc in Hb1.
      pose proof (bytes_at_mid _ _ _ _ _ Hb1) as H1. rewrite !length_app in H1, H2. cbn [app length] in H1, H2.
      split; [rewrite <- H1|rewrite <- H2]; f_equal; lia. }
    rewrite (st_bind_eq _ _ _ _ _ (back_miss m _ x y H1 Hx H2)).
    apply orb_false_iff in Hy as [_ Hy]. unfold SEPARATOR2. rewrite Hy.
    rewrite <- (app_assoc c') in Hb. specialize (IH n ltac:(lia) c' ([y; x] ++ tl) fuel Hl Hc Hb ltac:(lia)).
    replace (a + Z.of_nat (length r + 1 + S (S n)) - 2) with (a + Z.of_nat (length r + 1 + n)) by lia.
    destruct (Nat.even n); [done|]. destruct IH as (fuel' & ? & E). exists fuel'. split; [lia|done].
Qed.

(** Over the whole stack. *)
Lemma back_loop_spec m a st tl fuel :
  Forall plain st → bytes_at m a (render st ++ tl) → (length (render st) < fuel)%nat →
  back_loop fuel a (a + Z.of_nat (length (render st)) - 1) m = Ok (a + Z.of_nat (length (render (code_pop st))) - 1, m).
Proof.
  revert tl fuel. induction st as [|c st IH]; intros tl fuel Hp Hb Hf; cbn [render code_pop] in *.
  - destruct fuel as [|fuel]; [lia|]. cbn [back_loop length]. zcases; [lia|done].
  - apply Forall_cons in Hp as [Hc Hp]. destruct (render_last st) as [r Hr]. rewrite Hr in *.
    rewrite !length_app in *. cbn [length] in *. rewrite <- !app_assoc in Hb.
    pose proof (back_slide (length c) m a r c (SEPARATOR1 :: tl) fuel eq_refl Hc) as H.
    rewrite <- app_assoc in H. specialize (H Hb ltac:(lia)).
    replace (a + Z.of_nat (length r + 1 + (length c + 1)) - 1) with (a + Z.of_nat (length r + 1 + length c)) by lia.
    destruct (Nat.even (length c)).
    + rewrite H, Hr, length_app. cbn. do 2 f_equal. lia.
    + destruct H as (fuel' & Hf' & ->). rewrite <- (IH (c ++ SEPARATOR1 :: tl) fuel' Hp).
      * f_equal. lia.
      * by rewrite <- app_assoc.
      * lia.
Qed.

(** ** The main loop *)

Lemma only_refl m p n : only m m p n.
Proof. by intros i _. Qed.

Lemma only_trans m1 m2 m3 p n : only m1 m2 p n → only m2 m3 p n → only m1 m3 p n.
Proof. intros H1 H2 i Hi. by rewrite H2, H1. Qed.

Lemma only_sub m m' p n q k : only m m' q k → p <= q → q + Z.of_nat k <= p + Z.of_nat n → only m m' p n.
Proof. intros H ? ? i Hi. apply H. lia. Qed.

Lemma str_app m p s1 s2 : str_at m p (s1 ++ s2) → str_at m (p + Z.of_nat (length s1)) s2.
Proof. intros [Hb [_ Hs]%Forall_app]. split; [|done]. rewrite <- app_assoc in Hb. by apply bytes_at_app in Hb as [_ Hb]. Qed.

Lemma copy_loop_spec m t c comp s rest fuel :
  str_at m (c + 1) (comp ++ s :: rest) → plain comp → IS_SEPARATOR s = true → t <= c →
  room m (t + 1) (length comp) → (length comp < fuel)%nat →
  copy_loop fuel t c m = Ok ((t + Z.of_nat (length comp), c + Z.of_nat (length comp)), write (t + 1) comp m).
Proof.
  revert m t c fuel. induction comp as [|x comp IH]; intros m t c fuel Hs Hc Hsep Htc Hr Hf; (destruct fuel as [|fuel]; [cbn in Hf; lia|]);
    cbn [copy_loop app] in *; apply str_tail in Hs as (Hx & Hne & Hch & Hs); rewrite (st_bind_eq _ _ _ _ _ (ld_Ok _ _ _ Hx)).
  - rewrite Hsep. unfold mret, st_ret. cbn. by rewrite !Z.add_0_r.
  - apply Forall_cons in Hc as [[_ Hx0] Hc]. rewrite Hx0, (st_bind_eq _ _ _ _ _ (ld_Ok _ _ _ Hx)). cbn [length] in *.
    apply room_S in Hr as [Ht Hr]. rewrite (st_bind_eq _ _ _ _ _ (st_Ok _ _ x Ht)). rewrite IH; try done || lia.
    + cbn [write]. do 2 f_equal. f_equal; lia.
    + apply (str_frame m _ _ (t + 1) [x]); [unfold apart; cbn; lia|done].
    + by apply (room_write _ _ _ (t + 1) [x]).
Qed.

Lemma at_dot_spec m c comp s rest :
  str_at m (c + 1) (comp ++ s :: rest) → comp ≠ [] → plain comp → IS_SEPARATOR s = true →
  at_dot c m = Ok (bool_decide (comp = [DOT]), m).
Proof.
  intros H Hn Hc Hs. destruct comp as [|x comp]; [done|]. apply Forall_cons in Hc as [_ Hc]. cbn [app] in H.
  apply str_tail in H as (Hx & _ & _ & H). unfold at_dot. rewrite (st_bind_eq _ _ _ _ _ (ld_Ok _ _ _ Hx)).
  destruct (Z.eqb_spec x DOT) as [->|Hd]; [|rewrite bool_decide_eq_false_2; [done|congruence]].
  replace (c + 1 + 1) with (c + 2) in H by lia. destruct comp as [|y comp]; cbn [app] in H;
    apply str_tail in H as (Hy & _); rewrite (st_bind_eq _ _ _ _ _ (ld_Ok _ _ _ Hy)).
  - rewrite Hs. by rewrite bool_decide_eq_true_2.
  - apply Forall_cons in Hc as [[_ ->] _]. rewrite bool_decide_eq_false_2; [done|congruence].
Qed.

Lemma at_dotdot_spec m c comp s rest :
  str_at m (c + 1) (comp ++ s :: rest) → comp ≠ [] → plain comp → IS_SEPARATOR s = true →
  at_dotdot c m = Ok (bool_decide (comp = [DOT; DOT]), m).
Proof.
  intros H Hn Hc Hs. destruct comp as [|x comp]; [done|]. apply Forall_cons in Hc as [_ Hc]. cbn [app] in H.
  apply str_tail in H as (Hx & _ & _ & H). unfold at_dotdot. rewrite (st_bind_eq _ _ _ _ _ (ld_Ok _ _ _ Hx)).
  destruct (Z.eqb_spec x DOT) as [->|Hd]; [|rewrite bool_decide_eq_false_2; [done|congruence]].
  replace (c + 1 + 1) with (c + 2) in H by lia. destruct comp as [|y comp]; cbn [app] in H.
  - apply str_tail in H as (Hy & _). rewrite (st_bind_eq _ _ _ _ _ (ld_Ok _ _ _ Hy)).
    destruct (Z.eqb_spec s DOT) as [->|]; [done|]. by rewrite bool_decide_eq_false_2.
  - apply str_tail in H as (Hy & _ & _ & H). rewrite (st_bind_eq _ _ _ _ _ (ld_Ok _ _ _ Hy)).
    destruct (Z.eqb_spec y DOT) as [->|]; [|rewrite bool_decide_eq_false_2; [done|congruence]].
    replace (c + 2 + 1) with (c + 3) in H by lia. apply Forall_cons in Hc as [_ Hc].
    destruct comp as [|z comp]; cbn [app] in H; apply str_tail in H as (Hz & _); rewrite (st_bind_eq _ _ _ _ _ (ld_Ok _ _ _ Hz)).
    + rewrite Hs. by rewrite bool_decide_eq_true_2.
    + apply Forall_cons in Hc as [[_ ->] _]. rewrite bool_decide_eq_false_2; [done|congruence].
Qed.

Lemma code_pop_sub st : ∃ k, code_pop st = drop k st.
Proof. induction st as [|c st [k IH]]; cbn; [by exists 0%nat|]. destruct (Nat.even _); [by exists 1%nat|by exists (S k)]. Qed.

Lemma render_drop k st : ∃ l, render st = render (drop k st) ++ l.
Proof.
  revert k. induction st as [|c st IH]; intros [|k]; cbn [drop render]; try (exists []; by rewrite app_nil_r).
  destruct (IH k) as [l ->]. exists (l ++ c ++ [SEPARATOR1]). by rewrite <- app_assoc.
Qed.

(** The result of the loop from [c] on, with [t] at the end of the path simplified so far. *)
Record looped (a : Z) (n : nat) (st : list (list Z)) (lim t : Z) (m m' : mem) : Prop := {
  lp_t : t = a + Z.of_nat (length (render st)) - 1;
  lp_lim : t <= lim;
  lp_bytes : bytes_at m' a (render st);
  lp_plain : Forall plain st;
  lp_only : only m m' a n;
  lp_room : room m' a n
}.

Lemma looped_trans a n st lim t m1 m2 m3 : only m1 m2 a n → looped a n st lim t m2 m3 → looped a n st lim t m1 m3.
Proof. intros H []. split; try done. by eapply only_trans. Qed.

Lemma looped_lim a n st lim lim' t m m' : looped a n st lim t m m' → lim <= lim' → looped a n st lim' t m m'.
Proof. intros [] ?. split; try done. lia. Qed.

Lemma push_component a n st lim t m m' comp s rest c :
  looped a n st lim t m m' → t <= c → str_at m' (c + 1) (comp ++ s :: rest) → plain comp → IS_SEPARATOR s = true →
  c + 1 + Z.of_nat (length comp) < a + Z.of_nat n → c + Z.of_nat (length comp) + 1 <= lim →
  let m2 := write (t + 1) (comp ++ [SEPARATOR1]) m' in
  looped a n (comp :: st) lim (t + Z.of_nat (length comp) + 1) m m2 ∧
  ∃ s', IS_SEPARATOR s' = true ∧ str_at m2 (c + Z.of_nat (length comp) + 1) (s' :: rest).
Proof.
  intros [Ht Hl Hb Hp Ho Hr] Htc Hs Hc Hsep Hn Hlim m2. pose proof (render_length st) as Hrl. split.
  - split; cbn [render].
    + rewrite !length_app. cbn. lia.
    + lia.
    + apply bytes_at_app. split.
      * unfold m2. apply apart_bytes; [unfold apart; lia|done].
      * replace (a + Z.of_nat (length (render st))) with (t + 1) by lia. apply write_bytes, Forall_app.
        split; [|repeat constructor; unfold is_char, SEPARATOR1; lia]. eapply Forall_impl; [exact Hc|]. by intros ? [[] _].
    + by constructor.
    + eapply only_trans; [done|]. unfold m2. eapply only_sub; [apply write_only|lia|rewrite length_app; cbn; lia].
    + by apply room_write.
  - apply str_app in Hs. replace (c + 1 + Z.of_nat (length comp)) with (c + Z.of_nat (length comp) + 1) in Hs by lia.
    destruct (decide (t = c)) as [->|].
    + exists SEPARATOR1. split; [done|]. destruct Hs as [[_ Hs] [[Hch Hne] Hrest]%Forall_cons]. split.
      * cbn [app bytes_at]. unfold m2. rewrite write_app. split.
        -- replace (c + 1 + Z.of_nat (length comp)) with (c + Z.of_nat (length comp) + 1) by lia. cbn [write].
           by rewrite lookup_insert_eq.
        -- apply (apart_bytes _ _ _ _ [SEPARATOR1]); [unfold apart; cbn; lia|]. apply apart_bytes; [unfold apart; lia|done].
      * constructor; [|done]. unfold is_char, SEPARATOR1, EOS. lia.
    + exists s. split; [done|]. unfold m2. apply str_frame; [|done]. unfold apart. rewrite length_app. cbn. lia.
Qed.

Lemma sep_step fuel a t c m s rest :
  str_at m (c + 1) (s :: rest) → IS_SEPARATOR s = true → abspath_loop (S fuel) a t c m = abspath_loop fuel a t (c + 1) m.
Proof.
  intros H Hs. apply str_tail in H as (Hx & Hn & _). cbn [abspath_loop]. rewrite (st_bind_eq _ _ _ _ _ (ld_Ok _ _ _ Hx)).
  destruct (Z.eqb_spec s EOS); [done|]. by rewrite Hs.
Qed.

Lemma looped_pop a n st lim t m m' fuel :
  looped a n st lim t m m' → (length (render st) < fuel)%nat →
  ∃ t', back_loop fuel a t m' = Ok (t', m') ∧ looped a n (code_pop st) lim t' m m'.
Proof.
  intros [-> Hl Hb Hp Ho Hr] Hf. eexists. split; [apply (back_loop_spec _ _ _ [] _ Hp); [by rewrite app_nil_r|done]|].
  destruct (code_pop_sub st) as [k ->]. destruct (render_drop k st) as [l E]. rewrite E in Hb, Hl. rewrite length_app in Hl.
  apply bytes_at_app in Hb as [Hb _]. split; try done; [lia|]. by apply Forall_drop.
Qed.

Lemma abspath_loop_spec a n k : ∀ w m st c t lim fuel,
  length w = k → looped a n st c t m m → str_at m (c + 1) w → ends_in_sep w → lim = c + Z.of_nat k →
  lim + 1 < a + Z.of_nat n → (n + k < fuel)%nat →
  ∃ t' m', abspath_loop fuel a t c m = Ok (t', m') ∧ looped a n (foldl (walk code_pop) st (components w)) lim t' m m'.
Proof.
  induction k as [k IH] using lt_wf_ind. intros w m st c t lim fuel Hk Hlp Hs He Hlim Hn Hf.
  destruct fuel as [|fuel]; [lia|]. destruct (decide (w = [])) as [->|Hne].
  { cbn [abspath_loop]. rewrite (st_bind_eq _ _ _ _ _ (ld_Ok _ _ _ (str_nil _ _ Hs))). exists t, m. split; [done|]. cbn. eapply looped_lim; [done|]. lia. }
  destruct (first_component w (proj2 Hs) He Hne) as (comp & s & rest & -> & Hc & Hsep & Her).
  rewrite length_app in Hk. cbn [length] in Hk. rewrite components_plain by done. destruct comp as [|x comp].
  { rewrite (sep_step _ _ _ _ _ _ _ Hs Hsep). apply (IH (length rest)); try done; cbn in *; try lia.
    - eapply looped_lim; [done|]. lia.
    - by apply (str_app _ _ [s]) in Hs. }
  destruct (str_tail _ _ _ _ Hs) as (Hx & Hx0 & _). cbn [abspath_loop]. rewrite (st_bind_eq _ _ _ _ _ (ld_Ok _ _ _ Hx)).
  destruct (Z.eqb_spec x EOS); [done|]. pose proof Hc as [[_ Hxs] _]%Forall_cons. rewrite Hxs.
  rewrite (st_bind_eq _ _ _ _ _ (at_dot_spec _ _ _ _ _ Hs ltac:(done) Hc Hsep)).
  cbn [app foldl]. unfold walk at 2. pose proof (lp_t _ _ _ _ _ _ _ Hlp) as Ht. pose proof (lp_lim _ _ _ _ _ _ _ Hlp) as Htc.
  assert (str_at m (c + (Z.of_nat (length (x :: comp)) + 1) + 1) rest) as Hrest.
  { replace (c + (_ + 1) + 1) with (c + 1 + Z.of_nat (length ((x :: comp) ++ [s]))) by (rewrite length_app; cbn [length]; lia).
    apply str_app. by rewrite <- app_assoc. }
  destruct (decide (x :: comp = [DOT])) as [[= -> ->]|Hd]; [rewrite bool_decide_eq_true_2 by done|rewrite bool_decide_eq_false_2 by done].
  { apply (IH (length rest)); try done; cbn in *; try lia. eapply looped_lim; [done|]. lia. }
  rewrite (st_bind_eq _ _ _ _ _ (at_dotdot_spec _ _ _ _ _ Hs ltac:(done) Hc Hsep)).
  destruct (decide (x :: comp = [DOT; DOT])) as [[= -> ->]|Hdd]; [rewrite bool_decide_eq_true_2 by done|rewrite bool_decide_eq_false_2 by done].
  { destruct (looped_pop _ _ _ _ _ _ _ fuel Hlp) as (t1 & E & Hlp1); [lia|]. rewrite (st_bind_eq _ _ _ _ _ E).
    apply (IH (length rest)); try done; cbn in *; try lia. eapply looped_lim; [done|]. lia. }
  pose proof (render_length st) as Hrl. change (S (length comp)) with (length (x :: comp)) in *. set (cp := x :: comp) in *.
  assert (0 < length cp)%nat as Hcp by (cbn; lia).
  assert (room m (t + 1) (length cp)) as Hrm by (intros i Hi; apply (lp_room _ _ _ _ _ _ _ Hlp); lia).
  rewrite (st_bind_eq _ _ _ _ _ (copy_loop_spec _ t c cp s rest fuel Hs Hc Hsep Htc Hrm ltac:(lia))).
  destruct (push_component a n st (c + Z.of_nat (length cp) + 1) t m m cp s rest c
    (looped_lim _ _ _ c (c + Z.of_nat (length cp) + 1) _ _ _ Hlp ltac:(lia)) Htc Hs Hc Hsep ltac:(lia) ltac:(lia)) as (Hlp2 & s' & Hs' & Hr2).
  rewrite write_app in Hlp2, Hr2. cbn [write] in Hlp2, Hr2.
  replace (t + 1 + Z.of_nat (length cp)) with (t + Z.of_nat (length cp) + 1) in Hlp2, Hr2 by lia.
  rewrite (st_bind_eq _ _ _ _ _ (st_Ok _ _ _ (room_write _ a n _ _ (lp_room _ _ _ _ _ _ _ Hlp) (t + Z.of_nat (length cp) + 1) ltac:(lia)))).
  destruct fuel as [|fuel]; [lia|]. rewrite (sep_step _ _ _ _ _ _ _ Hr2 Hs'). set (m2 := insert _ _ _) in *.
  destruct (IH (length rest) ltac:(lia) rest m2 (cp :: st) (c + Z.of_nat (length cp) + 1) (t + Z.of_nat (length cp) + 1) lim fuel) as (t' & m' & E & L);
    [done| |by apply (str_app _ _ [s']) in Hr2|done|lia|lia|lia|].
  - destruct Hlp2. by split.
  - exists t', m'. split; [done|]. eapply looped_trans; [|done]. apply Hlp2.
Qed.

(** ** The whole routine *)

Definition path_ok (s : list Z) : Prop := Forall (λ x, is_char x ∧ x ≠ EOS) s.

Lemma render_ok st : Forall plain st → path_ok (render st).
Proof.
  unfold path_ok. induction 1 as [|c st Hc _ IH]; cbn [render]; [repeat constructor; unfold is_char, SEPARATOR1, EOS; lia|].
  apply Forall_app. split; [done|]. apply Forall_app. split; [eapply Forall_impl; [exact Hc|]; by intros ? []|].
  repeat constructor; unfold is_char, SEPARATOR1, EOS; lia.
Qed.

(** The terminator makes a path of what the loop leaves. *)
Lemma finish_path a n st lim t m m' :
  looped a n st lim t m m' → lim + 2 <= a + Z.of_nat n →
  ∃ m2, (if a <? t then KString.st t EOS;; mret a else KString.st (t + 1) EOS;; mret a) m' = Ok (a, m2) ∧
    str_at m2 a (path_of st) ∧ only m m2 a n.
Proof.
  intros [Ht Hlim Hb Hp Ho Hr] Hn. pose proof (render_ok st Hp) as Hk. destruct st as [|c st].
  - cbn [render length] in *. zcases; [lia|]. assert (t = a) as -> by lia.
    rewrite (st_bind_eq _ _ _ _ _ (st_Ok _ _ EOS (Hr (a + 1) ltac:(lia)))). eexists. split; [done|].
    destruct Hb as [Hb _]. split.
    + split; [|done]. cbn. rewrite lookup_insert_ne by lia. by rewrite lookup_insert_eq.
    + eapply only_trans; [done|]. eapply only_sub; [apply (write_only (a + 1) [EOS])|lia|cbn; lia].
  - pose proof (render_length st) as Hrl. cbn [path_of]. destruct (render_last (c :: st)) as [l E]. rewrite E in *.
    rewrite removelast_last. rewrite length_app in Ht. cbn [length] in Ht.
    assert (length (render (c :: st)) = length (l ++ [SEPARATOR1])) as El by (by rewrite E).
    cbn [render] in El. rewrite !length_app in El. cbn [length] in El. zcases; [|lia].
    apply bytes_at_app in Hb as [Hb _]. apply Forall_app in Hk as [Hk _].
    rewrite (st_bind_eq _ _ _ _ _ (st_Ok _ _ EOS (Hr t ltac:(lia)))). eexists. split; [done|]. split.
    + split; [|done]. apply bytes_at_app. split; [apply (apart_bytes _ _ _ t [EOS]); [unfold apart; cbn; lia|done]|].
      cbn. replace (a + Z.of_nat (length l)) with t by lia. by rewrite lookup_insert_eq.
    + eapply only_trans; [done|]. eapply only_sub; [apply (write_only t [EOS])|lia|cbn; lia].
Qed.

(** The buffer holds the text and a slash, from [tmpstr] on. *)
Lemma abspath_filled m fuel a text n :
  str_at m a (text ++ [SEPARATOR1]) → (∃ s, text = SEPARATOR1 :: s) → room m a n → (length text + 2 <= n)%nat →
  (2 * n < fuel)%nat →
  ∃ m', (x ← ld a; sassert (IS_SEPARATOR x);; t ← abspath_loop fuel a a a;
         if a <? t then st t EOS;; mret a else st (t + 1) EOS;; mret a) m = Ok (a, m') ∧
    str_at m' a (path_of (simplify code_pop text)) ∧ only m m' a n.
Proof.
  intros Hs [s ->] Hr Hl Hf. cbn [app length] in *. destruct (str_tail _ _ _ _ Hs) as (Hx & _ & _ & Hs1).
  rewrite (st_bind_eq _ _ _ _ _ (ld_Ok _ _ _ Hx)). change (IS_SEPARATOR SEPARATOR1) with true.
  rewrite (st_bind_eq (sassert true) _ m () m eq_refl).
  destruct (abspath_loop_spec a n (length (s ++ [SEPARATOR1])) (s ++ [SEPARATOR1]) m [] a a (a + Z.of_nat (length (s ++ [SEPARATOR1]))) fuel)
    as (t & m' & E & L).
  { done. }
  { split; cbn; try done; lia. }
  { done. }
  { right. by exists s, SEPARATOR1. }
  { done. }
  { rewrite length_app. cbn. lia. }
  { rewrite length_app. cbn. lia. }
  rewrite (st_bind_eq _ _ _ _ _ E). rewrite components_slash in *.
  unfold simplify. change (components (SEPARATOR1 :: s)) with (components s). set (r := foldl (walk code_pop) [] (components s)) in *.
  eapply (finish_path a n r); [done|]. rewrite length_app. cbn [length]. lia.
Qed.

(** Two bytes put behind a string of which the first replaces its terminator. *)
Lemma append_slash m a text n :
  str_at m a text → room m a n → (length text + 2 <= n)%nat →
  ∃ m', (st (a + Z.of_nat (length text)) SEPARATOR1;; st (a + (Z.of_nat (length text) + 1)) EOS) m = Ok ((), m') ∧
    str_at m' a (text ++ [SEPARATOR1]) ∧ only m m' a n ∧ room m' a n.
Proof.
  intros [Hb Hs] Hr Hn. rewrite (st_bind_eq _ _ _ _ _ (st_Ok _ _ SEPARATOR1 (Hr (a + Z.of_nat (length text)) ltac:(lia)))).
  rewrite st_Ok by (apply (room_write _ a n _ [SEPARATOR1] Hr); lia). eexists. split; [done|].
  apply bytes_at_app in Hb as [Hb _]. split_and!.
  - split; [|apply Forall_app; split; [done|repeat constructor; unfold is_char, SEPARATOR1, EOS; lia]].
    rewrite <- app_assoc. apply bytes_at_app. split.
    + apply (apart_bytes _ _ _ (a + (Z.of_nat (length text) + 1)) [EOS]); [unfold apart; cbn; lia|].
      apply (apart_bytes _ _ _ (a + Z.of_nat (length text)) [SEPARATOR1]); [unfold apart; cbn; lia|done].
    + cbn. rewrite lookup_insert_ne by lia. rewrite lookup_insert_eq. split; [done|]. split; [|done].
      replace (a + Z.of_nat (length text) + 1) with (a + (Z.of_nat (length text) + 1)) by lia. by rewrite lookup_insert_eq.
  - eapply only_trans; eapply only_sub; first [apply (write_only (a + Z.of_nat (length text)) [SEPARATOR1])|apply (write_only (a + (Z.of_nat (length text) + 1)) [EOS])|cbn; lia].
  - apply (room_write _ a n _ [EOS]), (room_write _ a n _ [SEPARATOR1] Hr).
Qed.

Definition absolute (s : list Z) : bool := match s with c :: _ => IS_SEPARATOR c | [] => false end.

(** The text [abspath] simplifies. *)
Definition full_text (d s : list Z) : list Z := if absolute s then s else d ++ SEPARATOR1 :: s.

Lemma strcpy_Ok fuel m q p s :
  str_at m p s → room m q (S (length s)) → apart p (S (length s)) q (S (length s)) → (length s < fuel)%nat →
  strcpy fuel q p m = Ok (q, write q (s ++ [EOS]) m).
Proof. intros. unfold strcpy. by rewrite (st_bind_eq _ _ _ _ _ (strcpy_loop_spec fuel m q p s ltac:(done) ltac:(done) ltac:(done) ltac:(done))). Qed.

(** The current directory, a slash and the path, in the buffer. *)
Lemma relative_fill m fuel a pwd d p s n :
  str_at m p s → str_at m pwd d → room m a n → apart p (S (length s)) a n → apart pwd (S (length d)) a n →
  (length d + length s + 2 <= n)%nat → (n < fuel)%nat →
  ∃ m', (strcpy fuel a pwd;; st (a + Z.of_nat (length d)) SEPARATOR1;; strcpy fuel (a + (Z.of_nat (length d) + 1)) p) m =
      Ok (a + (Z.of_nat (length d) + 1), m') ∧
    str_at m' a (d ++ SEPARATOR1 :: s) ∧ only m m' a n ∧ room m' a n.
Proof.
  intros Hs Hd Hr Ap Ad Hn Hf. unfold apart in *. set (b := a + (Z.of_nat (length d) + 1)).
  assert (room m a (S (length d))) as Hr0 by (intros i Hi; apply Hr; lia).
  rewrite (st_bind_eq _ _ _ _ _ (strcpy_Ok fuel m a pwd d Hd Hr0 ltac:(unfold apart in *; lia) ltac:(lia))).
  destruct (copied m a pwd d Hd ltac:(unfold apart in *; lia)) as ([Hd1 Hdc] & _ & Ho1). set (m1 := write a _ m) in *.
  assert (room m1 a n) as Hr1 by by apply room_write.
  rewrite (st_bind_eq _ _ _ _ _ (st_Ok _ _ SEPARATOR1 (Hr1 (a + Z.of_nat (length d)) ltac:(lia)))).
  set (m2 := <[_:=_]> m1). assert (m2 = write (a + Z.of_nat (length d)) [SEPARATOR1] m1) as E2 by done.
  assert (room m2 a n) as Hr2 by (rewrite E2; by apply room_write).
  assert (str_at m2 p s) as Hs2.
  { rewrite E2. apply str_frame; [unfold apart; cbn; lia|]. apply str_frame; [unfold apart; rewrite length_app; cbn; lia|done]. }
  rewrite (strcpy_Ok fuel m2 b p s Hs2); [|intros i Hi; apply Hr2; lia|unfold apart; lia|lia].
  destruct (copied m2 b p s Hs2 ltac:(unfold apart; lia)) as ([Hb3 Hsc] & _ & Ho3). eexists. split; [done|]. split_and!.
  - split; [|apply Forall_app; split; [done|constructor; [unfold is_char, SEPARATOR1, EOS; lia|done]]].
    rewrite <- app_assoc. apply bytes_at_app in Hd1 as [Hd1 _]. apply bytes_at_app. split.
    + apply apart_bytes; [unfold apart; lia|]. rewrite E2. apply apart_bytes; [unfold apart; lia|done].
    + cbn [app bytes_at]. split; [|by replace (a + Z.of_nat (length d) + 1) with b by lia].
      rewrite (write_only b) by lia. unfold m2. by rewrite lookup_insert_eq.
  - eapply only_trans; [eapply only_sub; [exact Ho1|lia..]|]. eapply only_trans.
    + apply (only_sub m1 m2 a n (a + Z.of_nat (length d)) 1); [rewrite E2; apply (write_only _ [SEPARATOR1])|lia|lia].
    + eapply only_sub; [exact Ho3|lia|lia].
  - by apply room_write.
Qed.

Lemma abspath_fill_spec m fuel a pwd d p s :
  str_at m p s → s ≠ [] → str_at m pwd d →
  let n := (length (full_text d s) + 2)%nat in
  room m a n → apart p (S (length s)) a n → apart pwd (S (length d)) a n → (n < fuel)%nat → Z.of_nat n < 4294967296 →
  ∃ m', abspath_fill fuel a pwd (Z.of_nat (length d)) p (Z.of_nat (length s)) m = Ok ((), m') ∧
    str_at m' a (full_text d s ++ [SEPARATOR1]) ∧ only m m' a n ∧ room m' a n.
Proof.
  intros Hs Hn Hd n Hr Ap Ad Hf Hz. unfold abspath_fill, full_text in *. destruct s as [|x s0]; [done|]. cbn [absolute] in *.
  destruct (str_tail _ _ _ _ Hs) as (Hx & _). rewrite (st_bind_eq _ _ _ _ _ (ld_Ok _ _ _ Hx)). set (s := x :: s0) in *.
  destruct (IS_SEPARATOR x); cbn [negb].
  - rewrite (u32_small (_ + 2)) by lia. assert (room m a (S (length s))) as Hr0 by (intros i Hi; apply Hr; lia).
    rewrite (st_bind_eq _ _ _ _ _ (strcpy_Ok fuel m a p s Hs Hr0 ltac:(unfold apart in *; lia) ltac:(lia))).
    set (m1 := write _ _ _). destruct (copied m a p s Hs ltac:(unfold apart in *; lia)) as (Hs1 & _ & Ho1).
    destruct (append_slash m1 a s n Hs1 (room_write _ _ _ _ _ Hr) ltac:(lia)) as (m2 & E2 & Hs2 & Ho2 & Hr2).
    replace (Z.of_nat (length s) + 2 - 2) with (Z.of_nat (length s)) by lia. replace (Z.of_nat (length s) + 2 - 1) with (Z.of_nat (length s) + 1) by lia.
    exists m2. split_and!; [done..| |done]. eapply only_trans; [eapply only_sub; [exact Ho1|lia..]|done].
  - assert (n = length d + S (length s) + 2)%nat as En by (unfold n; rewrite length_app; done). rewrite u32_small by lia.
    destruct (relative_fill m fuel a pwd d p s n Hs Hd Hr Ap Ad ltac:(lia) ltac:(lia)) as (m1 & E1 & Hs1 & Ho1 & Hr1).
    destruct (append_slash m1 a _ n Hs1 Hr1) as (m2 & E2 & Hs2 & Ho2 & Hr2); [rewrite length_app; cbn [length]; lia|].
    rewrite length_app in E2. cbn [length] in E2. exists m2. split_and!; [|done|by eapply only_trans|done].
    unfold mbind, st_bind in E1 |- *. destruct (strcpy fuel a pwd m) as [[? ?]|]; [|done]. destruct (st _ _ _) as [[? ?]|]; [|done].
    rewrite E1. unfold mbind, st_bind in E2. clear -E2.
    replace (a + (Z.of_nat (length d) + Z.of_nat (length s) + 3 - 2)) with (a + Z.of_nat (length d + S (length s))) by lia.
    by replace (a + (Z.of_nat (length d) + Z.of_nat (length s) + 3 - 1)) with (a + (Z.of_nat (length d + S (length s)) + 1)) by lia.
Qed.

Lemma abspath_run m fuel a pwd d p s :
  str_at m p s → s ≠ [] → str_at m pwd d → (∃ d', d = SEPARATOR1 :: d') → (absolute s = true → ∃ s', s = SEPARATOR1 :: s') →
  let n := (length (full_text d s) + 2)%nat in
  room m a n → apart p (S (length s)) a n → apart pwd (S (length d)) a n → (2 * n < fuel)%nat → Z.of_nat n < 4294967296 →
  ∃ m', abspath fuel a pwd (Z.of_nat (length d)) p (Z.of_nat (length s)) m = Ok (a, m') ∧
    str_at m' a (path_of (simplify code_pop (full_text d s))) ∧ only m m' a n.
Proof.
  intros Hs Hn Hd Hd0 Hs0 n Hr Ap Ad Hf Hz.
  destruct (abspath_fill_spec m fuel a pwd d p s Hs Hn Hd Hr Ap Ad ltac:(lia) Hz) as (m1 & E1 & Hs1 & Ho1 & Hr1).
  unfold abspath. rewrite (st_bind_eq _ _ _ _ _ E1).
  assert (∃ s', full_text d s = SEPARATOR1 :: s') as Hft.
  { unfold full_text. destruct (absolute s); [by apply Hs0|]. destruct Hd0 as [d' ->]. by eexists. }
  destruct (abspath_filled m1 fuel a (full_text d s) n Hs1 Hft) as (m2 & E2 & Hs2 & Ho2); [done|lia|lia|].
  exists m2. split_and!; [done..|by eapply only_trans].
Qed.


(** ** Normal paths *)

(** A component that names an entry. *)
Definition normal (c : list Z) : Prop := plain c ∧ c ≠ [] ∧ c ≠ [DOT] ∧ c ≠ [DOT; DOT].

Lemma Forall_code_pop (P : list Z → Prop) st : Forall P st → Forall P (code_pop st).
Proof. intros H. destruct (code_pop_sub st) as [k ->]. by apply Forall_drop. Qed.

Lemma reverse_ne {A} (l : list A) : l ≠ [] → reverse l ≠ [].
Proof. intros H E. apply H. by rewrite <- (reverse_involutive l), E. Qed.

Lemma split_from_ok acc s : path_ok s → plain acc → Forall (λ c, plain c ∧ c ≠ []) (split_from acc s).
Proof.
  revert acc. induction s as [|x s IH]; intros acc Hs Ha; cbn [split_from].
  - destruct acc as [|y acc]; [by apply Forall_nil|]. apply Forall_cons. split; [|done]. split; [by apply Forall_reverse|]. by apply reverse_ne.
  - apply Forall_cons in Hs as [Hx Hs]. destruct (IS_SEPARATOR x) eqn:E.
    + destruct acc as [|y acc]; [by apply IH, Forall_nil|]. apply Forall_cons. split; [|by apply IH, Forall_nil].
      split; [by apply Forall_reverse|]. by apply reverse_ne.
    + apply IH; [done|]. by apply Forall_cons.
Qed.

Lemma simplify_normal s : path_ok s → Forall normal (simplify code_pop s).
Proof.
  intros Hs. unfold simplify. pose proof (split_from_ok [] s Hs ltac:(constructor)) as Hc. unfold components.
  assert (Forall normal []) as H0 by apply Forall_nil_2. revert H0. generalize (@nil (list Z)) at 1 2 as st.
  induction Hc as [|c cs [Hp Hn] _ IH]; intros st Hst; cbn [foldl]; [done|]. apply IH. unfold walk.
  destruct (decide (c = [DOT])); [done|]. destruct (decide (c = [DOT; DOT])); [by apply Forall_code_pop|]. by constructor.
Qed.

Lemma components_render st w : Forall normal st → components (render st ++ w) = reverse st ++ components w.
Proof.
  revert w. induction st as [|c st IH]; intros w H; cbn [render app]; [done|].
  apply Forall_cons in H as [(Hc & Hn & _) H]. rewrite <- !app_assoc. cbn [app]. rewrite IH by done.
  rewrite components_plain by done. destruct c; [done|]. by rewrite reverse_cons, <- app_assoc.
Qed.

Lemma components_path_of st : Forall normal st → components (path_of st) = reverse st.
Proof.
  intros H. pose proof (components_render st [] H) as E. rewrite !app_nil_r in E. rewrite <- E. destruct st as [|c st]; [done|].
  cbn [path_of]. destruct (render_last (c :: st)) as [l ->]. rewrite removelast_last. by rewrite components_slash.
Qed.

Lemma foldl_walk_normal up st acc : Forall normal st → foldl (walk up) acc (reverse st) = st ++ acc.
Proof.
  induction 1 as [|c st (_ & _ & H1 & H2) _ IH]; [done|]. rewrite reverse_cons, foldl_app, IH. cbn. unfold walk.
  by rewrite !decide_False.
Qed.

Lemma simplify_render up st w : Forall normal st → simplify up (render st ++ w) = foldl (walk up) st (components w).
Proof. intros H. unfold simplify. rewrite components_render, foldl_app, foldl_walk_normal by done. by rewrite app_nil_r. Qed.

Lemma simplify_no_dotdot s : [DOT; DOT] ∉ components s → simplify code_pop s = simplify pop s.
Proof.
  unfold simplify. generalize (@nil (list Z)) as acc. induction (components s) as [|c cs IH]; intros acc H; cbn; [done|].
  apply not_elem_of_cons in H as [Hne H]. rewrite IH by done. f_equal. unfold walk. by repeat case_decide.
Qed.

Lemma full_text_ok d s : path_ok d → path_ok s → path_ok (full_text d s).
Proof.
  intros Hd Hs. unfold full_text. destruct (absolute s); [done|]. apply Forall_app. split; [done|].
  constructor; [unfold is_char, SEPARATOR1, EOS; lia|done].
Qed.

(** C40. [abspath] returns for every path, writes nothing outside its buffer - the length of the full
    path and two bytes -, and leaves there a path without empty, "." or ".." components: the
    path made of its components in order, each ".." of the text having taken away what
    [code_pop] says.  Without ".." that is the simplified path. *)
Theorem abspath_exact m fuel a pwd d p s :
  str_at m p s → s ≠ [] → str_at m pwd d → (∃ d', d = SEPARATOR1 :: d') → (absolute s = true → ∃ s', s = SEPARATOR1 :: s') →
  let n := (length (full_text d s) + 2)%nat in
  room m a n → apart p (S (length s)) a n → apart pwd (S (length d)) a n → (2 * n < fuel)%nat → Z.of_nat n < 4294967296 →
  ∃ m' st, abspath fuel a pwd (Z.of_nat (length d)) p (Z.of_nat (length s)) m = Ok (a, m') ∧ only m m' a n ∧
    str_at m' a (path_of st) ∧ components (path_of st) = reverse st ∧ Forall normal st ∧
    st = simplify code_pop (full_text d s) ∧
    ([DOT; DOT] ∉ components (full_text d s) → st = simplify pop (full_text d s)).
Proof.
  intros Hs Hn Hd Hd0 Hs0 n Hr Ap Ad Hf Hz. destruct (abspath_run m fuel a pwd d p s Hs Hn Hd Hd0 Hs0 Hr Ap Ad Hf Hz) as (m' & E & H1 & H2).
  assert (Forall normal (simplify code_pop (full_text d s))) as Hno by (apply simplify_normal, full_text_ok; [apply Hd|apply Hs]).
  exists m', (simplify code_pop (full_text d s)). split_and!; try done; [by apply components_path_of|apply simplify_no_dotdot].
Qed.

Lemma code_pop_right st : code_pop st = tail st ↔ (length st <= 1)%nat ∨ ∃ c r, st = c :: r ∧ Nat.even (length c) = true.
Proof.
  destruct st as [|c st]; cbn [code_pop tail length]; [split; [intros _; left; cbn; lia|done]|].
  destruct (Nat.even (length c)) eqn:E; [split; [intros _; right; by exists c, st|done]|]. destruct st as [|b st]; [split; [intros _; left; cbn; lia|done]|]. split.
  - intros H. exfalso. destruct (code_pop_sub st) as [k Hk]. assert (length (code_pop (b :: st)) <= length st)%nat as Hl.
    { cbn [code_pop]. destruct (Nat.even (length b)); [done|]. rewrite Hk, length_drop. lia. }
    rewrite H in Hl. cbn in Hl. lia.
  - intros [H|(? & ? & [= <- <-] & ?)]; [cbn in H; lia|congruence].
Qed.

(** "/c1/.../cn/..": what comes out is the directory above only if n is at most one or the last
    component has an even number of characters; otherwise further components are lost, up to and
    including the last one of even length.  (The macro [IS_SEPARATOR] is given an argument that
    steps back, and evaluates it twice.) *)
Theorem abspath_dotdot m fuel a pwd d p st :
  Forall normal st → str_at m p (render st ++ [DOT; DOT]) → str_at m pwd d → (∃ d', d = SEPARATOR1 :: d') →
  let s := render st ++ [DOT; DOT] in let n := (length s + 2)%nat in
  room m a n → apart p (S (length s)) a n → apart pwd (S (length d)) a n → (2 * n < fuel)%nat → Z.of_nat n < 4294967296 →
  ∃ m', abspath fuel a pwd (Z.of_nat (length d)) p (Z.of_nat (length s)) m = Ok (a, m') ∧
    str_at m' a (path_of (code_pop st)) ∧
    (code_pop st = tail st ↔ (length st <= 1)%nat ∨ ∃ c r, st = c :: r ∧ Nat.even (length c) = true).
Proof.
  intros Hst Hs Hd Hd0 s n Hr Ap Ad Hf Hz.
  assert (∃ s', s = SEPARATOR1 :: s') as [s' Hs'].
  { unfold s. destruct (render_drop (length st) st) as [l ->]. rewrite drop_all. by eexists. }
  assert (full_text d s = s) as Ef by (unfold full_text; by rewrite Hs').
  destruct (abspath_run m fuel a pwd d p s Hs ltac:(by rewrite Hs') Hd Hd0 ltac:(by eexists)) as (m' & E & H1 & _); rewrite ?Ef; try done.
  exists m'. split; [done|]. split; [|apply code_pop_right]. rewrite Ef in H1. unfold s in H1. rewrite simplify_render in H1 by done. exact H1.
Qed.

(** ** Matching *)

Lemma skip_seps_spec fuel m p k s :
  str_at m p (k ++ s) → Forall (λ x, IS_SEPARATOR x = true) k → absolute s = false → (length k < fuel)%nat →
  skip_seps fuel p m = Ok (p + Z.of_nat (length k), m).
Proof.
  revert p fuel. induction k as [|x k IH]; intros p fuel Hs Hk Ha Hf; (destruct fuel as [|fuel]; [cbn in Hf; lia|]); cbn [skip_seps].
  - destruct s as [|x s].
    + rewrite (st_bind_eq _ _ _ _ _ (ld_Ok _ _ _ (str_nil _ _ Hs))). cbn. by rewrite Z.add_0_r.
    + destruct (str_tail _ _ _ _ Hs) as (Hx & _). rewrite (st_bind_eq _ _ _ _ _ (ld_Ok _ _ _ Hx)). cbn in Ha. rewrite Ha. cbn. by rewrite Z.add_0_r.
  - apply str_tail in Hs as (Hx & _ & _ & Hs). apply Forall_cons in Hk as [Hx1 Hk]. cbn [length] in *.
    rewrite (st_bind_eq _ _ _ _ _ (ld_Ok _ _ _ Hx)), Hx1, (IH _ _ Hs) by (done || lia). do 2 f_equal. lia.
Qed.

(** The longest common beginning of a component and the name of an entry. *)
Lemma match_chars_spec m p comp rest e tl :
  str_at m p (comp ++ rest) → Forall (λ x, s8 x ≠ EOS) e → (rest = [] ∨ absolute rest = true) → Forall (λ x, IS_SEPARATOR (s8 x) = false) e →
  ∃ l c2 e1 e2, comp = l ++ c2 ∧ e = e1 ++ e2 ∧ s8 <$> e1 = l ∧
    match_chars (e ++ 0 :: tl) p m = Ok ((p + Z.of_nat (length l), e2 ++ 0 :: tl), m) ∧
    (e2 = [] ∨ c2 = [] ∨ ∃ x c3 y e3, c2 = x :: c3 ∧ e2 = y :: e3 ∧ x ≠ s8 y).
Proof.
  revert p comp. induction e as [|y e IH]; intros p comp Hs He Hr Hse.
  - exists [], comp, [], []. split_and!; try done; [|by left]. cbn [app match_chars].
    destruct (comp ++ rest) as [|x w]; [rewrite (st_bind_eq _ _ _ _ _ (ld_Ok _ _ _ (str_nil _ _ Hs)))|
      destruct (str_tail _ _ _ _ Hs) as (Hx & Hn & _); rewrite (st_bind_eq _ _ _ _ _ (ld_Ok _ _ _ Hx))];
      change (s8 0 =? EOS) with true; rewrite andb_false_r; cbn; by rewrite Z.add_0_r.
  - apply Forall_cons in He as [Hy He]. apply Forall_cons in Hse as [Hsy Hse]. cbn [app match_chars].
    destruct comp as [|x comp].
    + exists [], [], [], (y :: e). split_and!; try done; [|by right; left]. cbn [app length] in *. rewrite Z.add_0_r.
      destruct rest as [|x w].
      * rewrite (st_bind_eq _ _ _ _ _ (ld_Ok _ _ _ (str_nil _ _ Hs))). by rewrite andb_false_r.
      * destruct Hr as [|Ha]; [done|]. cbn in Ha. destruct (str_tail _ _ _ _ Hs) as (Hx & _). rewrite (st_bind_eq _ _ _ _ _ (ld_Ok _ _ _ Hx)).
        destruct (Z.eqb_spec x (s8 y)) as [->|]; [congruence|done].
    + cbn [app] in Hs. apply str_tail in Hs as (Hx & Hn & _ & Hs). rewrite (st_bind_eq _ _ _ _ _ (ld_Ok _ _ _ Hx)).
      destruct (Z.eqb_spec x (s8 y)) as [->|Hne].
      * destruct (Z.eqb_spec (s8 y) EOS); [done|]. cbn [andb negb].
        destruct (IH (p + 1) comp Hs He Hr Hse) as (l & c2 & e1 & e2 & -> & -> & <- & E & H).
        exists (s8 <$> y :: e1), c2, (y :: e1), e2. split_and!; try done. rewrite E. cbn [fmap list_fmap length]. do 3 f_equal. lia.
      * cbn. exists [], (x :: comp), [], (y :: e). split_and!; try done; [cbn; by rewrite Z.add_0_r|]. right; right. by eexists _, _, _, _.
Qed.

(** [match_name] says yes exactly when the component in front - behind any separators - is the
    name of the entry, whole; then [*next] is behind the component and one separator. *)
Theorem match_name_correct fuel m p k comp rest e tl :
  str_at m p (k ++ comp ++ rest) → Forall (λ x, IS_SEPARATOR x = true) k → plain comp → (rest = [] ∨ absolute rest = true) →
  absolute (comp ++ rest) = false →
  Forall (λ x, s8 x ≠ EOS) e → Forall (λ x, IS_SEPARATOR (s8 x) = false) e → (length k < fuel)%nat →
  match_name fuel p (e ++ 0 :: tl) m =
    Ok (if decide (s8 <$> e = comp) then Some (p + Z.of_nat (length k) + Z.of_nat (length comp) + match rest with [] => 0 | _ => 1 end) else None, m).
Proof.
  intros Hs Hk Hc Hr Ha He Hse Hf. unfold match_name. rewrite (st_bind_eq _ _ _ _ _ (skip_seps_spec _ _ _ _ _ Hs Hk Ha Hf)).
  apply str_app in Hs. set (q := p + Z.of_nat (length k)) in *.
  destruct (match_chars_spec m q comp rest e tl Hs He Hr Hse) as (l & c2 & e1 & e2 & -> & -> & <- & E & H).
  rewrite (st_bind_eq _ _ _ _ _ E). cbn beta iota. apply Forall_app in Hc as [_ Hc]. apply Forall_app in He as [_ He].
  rewrite <- app_assoc in Hs. apply str_app in Hs. set (q' := q + _) in *. rewrite fmap_app.
  destruct e2 as [|y e2].
  - change (lift_st (zget ([] ++ 0 :: tl) 0)) with (lift_st (S := mem) (Ok 0)). rewrite (st_bind_eq (lift_st (Ok 0)) _ m 0 m eq_refl).
    change (negb (s8 0 =? EOS)) with false. cbn iota. cbn [fmap list_fmap]. rewrite app_nil_r. destruct c2 as [|x c2]; cbn [app] in Hs.
    + rewrite app_nil_r. destruct (decide _) as [_|]; [|done]. destruct rest as [|x w].
      * rewrite (st_bind_eq _ _ _ _ _ (ld_Ok _ _ _ (str_nil _ _ Hs))). cbn. by rewrite Z.add_0_r.
      * destruct Hr as [|Hx0]; [done|]. cbn in Hx0. destruct (str_tail _ _ _ _ Hs) as (Hx & Hn & _). rewrite (st_bind_eq _ _ _ _ _ (ld_Ok _ _ _ Hx)).
        destruct (Z.eqb_spec x EOS); [done|]. cbn [negb]. by rewrite Hx0.
    + apply Forall_cons in Hc as [[_ Hx0] _]. destruct (str_tail _ _ _ _ Hs) as (Hx & Hn & _). rewrite (st_bind_eq _ _ _ _ _ (ld_Ok _ _ _ Hx)).
      destruct (Z.eqb_spec x EOS); [done|]. cbn [negb]. rewrite Hx0. cbn [negb].
      destruct (decide _) as [E2|]; [|done]. apply (f_equal length) in E2. rewrite length_app in E2. cbn in E2. lia.
  - apply Forall_cons in He as [Hy _].
    change (lift_st (zget ((y :: e2) ++ 0 :: tl) 0)) with (lift_st (S := mem) (Ok y)). rewrite (st_bind_eq (lift_st (Ok y)) _ m y m eq_refl).
    destruct (Z.eqb_spec (s8 y) EOS); [done|]. cbn [negb]. destruct (decide _) as [E2|]; [exfalso|done].
    apply app_inv_head in E2. destruct H as [|[->|(x & c3 & y' & e3 & -> & [= <- <-] & Hxy)]]; [done|done|]. cbn in E2. congruence.
Qed.

(** [sys_getcwd] gives the current directory, cut to the size of the buffer; the bytes behind
    [pwd], which is not terminated, are the [w]. *)
Theorem sys_getcwd_cuts m pwd d w buf size :
  str_at m pwd (d ++ w) → 0 < size < 2147483648 → Z.of_nat (length d) + 1 < 4294967296 →
  let len := Z.min (Z.of_nat (length d) + 1) size in
  room m buf (Z.to_nat len) → apart pwd (S (length (d ++ w))) buf (Z.to_nat len) →
  ∃ m', sys_getcwd pwd (Z.of_nat (length d)) buf size m = Ok (len, m') ∧ str_at m' buf (take (Z.to_nat len - 1) d) ∧
    only m m' buf (Z.to_nat len).
Proof.
  intros Hd Hsz Hl len Hr Ha. unfold sys_getcwd. rewrite u32_small by lia. fold len.
  destruct (strncpy_correct m buf pwd (d ++ w) len Hd ltac:(lia) Hr Ha) as (m' & E & Hs & Ho).
  exists m'. rewrite (st_bind_eq _ _ _ _ _ E), s32_small by lia. rewrite take_app_le in Hs by lia. done.
Qed.

(** ** A concrete store

    "/ab" at 300, the path "c/../d" at 200, "/ab/c/.." at 400, a buffer at 100. *)
Definition demo : mem :=
  write 400 [47; 97; 98; 47; 99; 47; 46; 46; 0]
    (write 300 [47; 97; 98; 0; 7] (write 200 [99; 47; 46; 46; 47; 100; 0] (write 100 (replicate 20 1) ∅))).

Lemma demo_pwd : str_at demo 300 [47; 97; 98].
Proof. split; [cbn; repeat split; reflexivity|by apply chars_check]. Qed.
Lemma demo_rel : str_at demo 200 [99; 47; 46; 46; 47; 100].
Proof. split; [cbn; repeat split; reflexivity|by apply chars_check]. Qed.
Lemma demo_up : str_at demo 400 [47; 97; 98; 47; 99; 47; 46; 46].
Proof. split; [cbn; repeat split; reflexivity|by apply chars_check]. Qed.

Lemma plain_check c : forallb (λ x, (-128 <=? x) && (x <? 128) && negb (x =? 0) && negb (IS_SEPARATOR x)) c = true → plain c.
Proof.
  rewrite forallb_forall. intros H. apply Forall_forall. intros x Hx%list_elem_of_In. specialize (H x Hx).
  rewrite !andb_true_iff, !negb_true_iff, Z.leb_le, Z.ltb_lt, Z.eqb_neq in H. unfold is_char, EOS. tauto.
Qed.

(** "c/../d" in "/ab" comes out as "/d", not "/ab/d". *)
Lemma abspath_exact_witness :
  str_at demo 200 [99; 47; 46; 46; 47; 100] ∧ str_at demo 300 [47; 97; 98] ∧
  ∃ m' st, abspath 40 100 300 3 200 6 demo = Ok (100, m') ∧ only demo m' 100 12 ∧
    str_at m' 100 (path_of st) ∧ components (path_of st) = reverse st ∧ Forall normal st ∧
    st = simplify code_pop (full_text [47; 97; 98] [99; 47; 46; 46; 47; 100]) ∧
    ([DOT; DOT] ∉ components (full_text [47; 97; 98] [99; 47; 46; 46; 47; 100]) →
       st = simplify pop (full_text [47; 97; 98] [99; 47; 46; 46; 47; 100])).
Proof.
  split; [exact demo_rel|]. split; [exact demo_pwd|].
  apply (abspath_exact demo 40 100 300 [47; 97; 98] 200 [99; 47; 46; 46; 47; 100] demo_rel); try done.
  - exact demo_pwd.
  - by exists [97; 98].
  - by apply room_check.
  - unfold apart. cbn. lia.
  - unfold apart. cbn. lia.
  - cbn. lia.
Defined.

Lemma abspath_dotdot_witness :
  Forall normal [[99]; [97; 98]] ∧
  ∃ m', abspath 40 100 300 3 400 8 demo = Ok (100, m') ∧ str_at m' 100 (path_of (code_pop [[99]; [97; 98]])) ∧
    (code_pop [[99]; [97; 98]] = tail [[99]; [97; 98]] ↔
      (length [[99]; [97; 98]] <= 1)%nat ∨ ∃ c r, [[99]; [97; 98]] = c :: r ∧ Nat.even (length c) = true).
Proof.
  assert (Forall normal [[99]; [97; 98]]) as H by (repeat constructor; first [by apply plain_check|done]).
  split; [exact H|].
  apply (abspath_dotdot demo 40 100 300 [47; 97; 98] 400 [[99]; [97; 98]] H demo_up demo_pwd).
  - by exists [97; 98].
  - by apply room_check.
  - unfold apart. cbn. lia.
  - unfold apart. cbn. lia.
  - cbn. lia.
  - done.
Defined.

(** The entry "ab" and the path "/ab/c/..". *)
Lemma match_name_correct_witness :
  str_at demo 400 ([47] ++ [97; 98] ++ [47; 99; 47; 46; 46]) ∧
  match_name 40 400 ([97; 98] ++ 0 :: [5]) demo =
    Ok (if decide (s8 <$> [97; 98] = [97; 98]) then Some (400 + Z.of_nat (length [47]) + Z.of_nat (length [97; 98]) + 1) else None, demo).
Proof.
  split; [exact demo_up|].
  apply (match_name_correct 40 demo 400 [47] [97; 98] [47; 99; 47; 46; 46] [97; 98] [5] demo_up); try (by repeat constructor).
Defined.

Lemma sys_getcwd_cuts_witness :
  str_at demo 300 ([47; 97; 98] ++ []) ∧
  ∃ m', sys_getcwd 300 3 100 3 demo = Ok (3, m') ∧ str_at m' 100 (take 2 [47; 97; 98]) ∧ only demo m' 100 3.
Proof.
  split; [exact demo_pwd|].
  apply (sys_getcwd_cuts demo 300 [47; 97; 98] [] 100 3 demo_pwd); [lia|cbn; lia| |].
  - by apply room_check.
  - unfold apart. cbn. lia.
Defined.
