(* ===== verification/Pipe.v ===== *)
(** * Pipes (src/fs/pipe.c)

    Reading and writing through the byte ring of Kfifo.  Both routines run with interrupts off,
    so they give up the processor only in [task_block]: a definition is what happens between
    two such points, its result says how much is left, and the loop test that follows
    [task_block] is where the same definition begins again.  The tasks whose state is
    [TASK_BLOCKED] are a set; neither a signal nor a timer wakes them. *)

From stdpp Require Import gmap sets.
From S2P Require Import Prelude Kfifo.

(** The part of [inode_t] that is in use for a pipe, with the blocked tasks. *)
Record pipe_t := Pipe { fifo : kfifo_t; rxwaiter : option Z; txwaiter : option Z; asleep : gset Z }.
Definition P := ST pipe_t.

Definition set_fifo (f : kfifo_t) (p : pipe_t) : pipe_t := Pipe f (rxwaiter p) (txwaiter p) (asleep p).
Definition on_fifo {A} (m : ST kfifo_t A) : P A := λ p,
  match m (fifo p) with Ok (a, f) => Ok (a, set_fifo f p) | Stop e => Stop e end.

(** [kfifo_init(inode->desc, inode->cache, PAGE_SIZE)] of [get_pipe_inode]. *)
Definition PAGE_SIZE : Z := 4096.
Definition new_pipe (page : list Z) : pipe_t := Pipe (kfifo_init page PAGE_SIZE) None None ∅.

(** [inode->rxwaiter = get_current(); task_block(inode->rxwaiter, NULL, TASK_BLOCKED)]. *)
Definition sleep_rx (me : Z) (p : pipe_t) : pipe_t := Pipe (fifo p) (Some me) (txwaiter p) ({[me]} ∪ asleep p).
Definition sleep_tx (me : Z) (p : pipe_t) : pipe_t := Pipe (fifo p) (rxwaiter p) (Some me) ({[me]} ∪ asleep p).

(** [if (inode->txwaiter) { task_intr_unblock_no_waiting_list(...); inode->txwaiter = NULL; }]. *)
Definition wake_tx (p : pipe_t) : pipe_t :=
  match txwaiter p with Some t => Pipe (fifo p) (rxwaiter p) None (asleep p ∖ {[t]}) | None => p end.
Definition wake_rx (p : pipe_t) : pipe_t :=
  match rxwaiter p with Some t => Pipe (fifo p) None (txwaiter p) (asleep p ∖ {[t]}) | None => p end.

(** The loop of [pipe_read] with [left] bytes still to come: the bytes stored into the buffer
    and how many are left when the task returns (0) or blocks. *)
Fixpoint pipe_read_loop (me : Z) (left : nat) : P (list Z * nat) :=
  match left with
  | O => mret ([], O)
  | S l =>
      p ← get_st;
      if kfifo_empty (fifo p) then
        sassert (bool_decide (rxwaiter p = None));;
        put_st (sleep_rx me p);;
        mret ([], left)
      else
        b ← on_fifo kfifo_get;
        modify_st wake_tx;;
        '(bs, k) ← pipe_read_loop me l;
        mret (b :: bs, k)
  end.

(** The loop of [pipe_write]: the bytes still to be written. *)
Fixpoint pipe_write_loop (me : Z) (bytes : list Z) : P (list Z) :=
  match bytes with
  | [] => mret []
  | b :: l =>
      p ← get_st;
      full ← lift_st (kfifo_full (fifo p));
      if (full : bool) then
        sassert (bool_decide (txwaiter p = None));;
        put_st (sleep_tx me p);;
        mret bytes
      else
        on_fifo (kfifo_put 2 b);;
        modify_st wake_rx;;
        pipe_write_loop me l
  end.

(** The calls.  [count] is an [int]: a negative one transfers nothing. *)
Definition pipe_read (me count : Z) : P (list Z * nat) := pipe_read_loop me (Z.to_nat (s32 count)).
Definition pipe_write (me : Z) (buf : list Z) (count : Z) : P (list Z) := pipe_write_loop me (take (Z.to_nat (s32 count)) buf).

(** ** One segment *)

Definition contents (p : pipe_t) : list Z := queue (fifo p).
Definition CAP : nat := Z.to_nat (PAGE_SIZE - 1).
Lemma CAP_val : Z.of_nat CAP = PAGE_SIZE - 1.
Proof. done. Qed.
#[local] Opaque CAP.

Record good (p : pipe_t) : Prop := { g_ring : ring (fifo p); g_size : buf_size (fifo p) = PAGE_SIZE }.

Lemma contents_length p : good p → (length (contents p) <= CAP)%nat.
Proof. intros [Hr Hs]. pose proof (queue_length _ Hr). pose proof (count_range _ Hr). pose proof CAP_val. unfold contents in *. lia. Qed.

Lemma wake_tx_fifo p : fifo (wake_tx p) = fifo p.
Proof. unfold wake_tx. by destruct (txwaiter p). Qed.
Lemma wake_tx_rx p : rxwaiter (wake_tx p) = rxwaiter p.
Proof. unfold wake_tx. by destruct (txwaiter p). Qed.
Lemma wake_tx_idem p : wake_tx (wake_tx p) = wake_tx p.
Proof. unfold wake_tx at 2 3. destruct (txwaiter p) eqn:E; unfold wake_tx; cbn; by rewrite ?E. Qed.
Lemma wake_tx_set f p : wake_tx (set_fifo f p) = set_fifo f (wake_tx p).
Proof. unfold wake_tx. cbn. by destruct (txwaiter p). Qed.
Lemma wake_rx_fifo p : fifo (wake_rx p) = fifo p.
Proof. unfold wake_rx. by destruct (rxwaiter p). Qed.
Lemma wake_rx_tx p : txwaiter (wake_rx p) = txwaiter p.
Proof. unfold wake_rx. by destruct (rxwaiter p). Qed.
Lemma wake_rx_idem p : wake_rx (wake_rx p) = wake_rx p.
Proof. unfold wake_rx at 2 3. destruct (rxwaiter p) eqn:E; unfold wake_rx; cbn; by rewrite ?E. Qed.
Lemma wake_rx_set f p : wake_rx (set_fifo f p) = set_fifo f (wake_rx p).
Proof. unfold wake_rx. cbn. by destruct (rxwaiter p). Qed.

(** Reading [left] bytes while nobody else waits to read. *)
Lemma read_segment me left p :
  good p → rxwaiter p = None →
  ∃ f, let q := contents p in let p1 := set_fifo f (match take left q with [] => p | _ => wake_tx p end) in
    pipe_read_loop me left p = Ok ((take left q, (left - length q)%nat), if decide (left <= length q)%nat then p1 else sleep_rx me p1) ∧
    good p1 ∧ contents p1 = drop left q.
Proof.
  revert p. induction left as [|left IH]; intros p Hg Hrx; cbn [pipe_read_loop].
  - exists (fifo p). cbn. rewrite decide_True by lia. by destruct p, Hg.
  - rewrite (st_bind_eq get_st _ p p p eq_refl). rewrite empty_spec by apply Hg. fold (contents p).
    case_bool_decide as Hq.
    + rewrite Hrx, bool_decide_eq_true_2 by done. exists (fifo p). rewrite Hq. cbn. by destruct p, Hg.
    + destruct (get_spec (fifo p) (g_ring _ Hg)) as (f & E & Hr & Hqf & Hs & _).
      fold (contents p) in *. destruct (contents p) as [|b q] eqn:Ec; [done|]. cbn [q_get fst snd] in E, Hqf.
      assert (on_fifo kfifo_get p = Ok (b, set_fifo f p)) as Eo by (unfold on_fifo; by rewrite E).
      rewrite (st_bind_eq _ _ _ _ _ Eo), (st_bind_eq (modify_st wake_tx) _ _ _ _ eq_refl), wake_tx_set.
      set (p' := set_fifo f (wake_tx p)).
      assert (good p') as Hg' by (split; cbn; [done|rewrite Hs; apply Hg]).
      destruct (IH p' Hg') as (f2 & E2 & Hg2 & Hc2); [cbn; by rewrite wake_tx_rx|].
      assert (contents p' = q) as Eq by done. rewrite Eq in E2, Hg2, Hc2.
      rewrite (st_bind_eq _ _ _ _ _ E2). cbn [take drop length]. exists f2.
      assert (∀ X : list Z, set_fifo f2 (match X with [] => p' | _ => wake_tx p' end) = set_fifo f2 (wake_tx p) :> pipe_t) as Ew.
      { intros X. unfold p'. destruct X; [done|]. by rewrite wake_tx_set, wake_tx_idem. }
      rewrite (Ew (take left q)) in *. cbn. split; [|done]. unfold mret, st_ret.
      destruct (decide (left <= length q)%nat); destruct (decide (S left <= S (length q))%nat); done || lia.
Qed.

Lemma write_segment me bytes p :
  good p → txwaiter p = None →
  ∃ f, let n := (CAP - length (contents p))%nat in let p1 := set_fifo f (match take n bytes with [] => p | _ => wake_rx p end) in
    pipe_write_loop me bytes p = Ok (drop n bytes, match drop n bytes with [] => p1 | _ => sleep_tx me p1 end) ∧
    good p1 ∧ contents p1 = contents p ++ (s8 <$> take n bytes).
Proof.
  revert p. induction bytes as [|b bytes IH]; intros p Hg Htx; cbn [pipe_write_loop].
  - exists (fifo p). rewrite take_nil, drop_nil, app_nil_r. by destruct p, Hg.
  - rewrite (st_bind_eq get_st _ p p p eq_refl). unfold lift_st. rewrite full_spec by apply Hg. fold (contents p).
    rewrite (st_bind_eq _ _ p (bool_decide (Z.of_nat (length (contents p)) = buf_size (fifo p) - 1)) p eq_refl).
    pose proof (contents_length _ Hg) as Hl. pose proof CAP_val as HC. rewrite (g_size _ Hg). case_bool_decide as Hq.
    + rewrite Htx, bool_decide_eq_true_2 by done. exists (fifo p).
      replace (CAP - length (contents p))%nat with 0%nat by lia. cbn [take drop fmap list_fmap]. rewrite app_nil_r. by destruct p, Hg.
    + destruct (put_spec 2 b (fifo p) (g_ring _ Hg) (le_n _)) as (f & E & Hr & Hs & Hqf).
      fold (contents p) in *. unfold q_put in Hqf. rewrite (g_size _ Hg) in Hqf. change (Z.to_nat (PAGE_SIZE - 1)) with CAP in Hqf.
      rewrite decide_False in Hqf by lia.
      assert (on_fifo (kfifo_put 2 b) p = Ok ((), set_fifo f p)) as Eo by (unfold on_fifo; by rewrite E).
      rewrite (st_bind_eq _ _ _ _ _ Eo), (st_bind_eq (modify_st wake_rx) _ _ _ _ eq_refl), wake_rx_set.
      set (p' := set_fifo f (wake_rx p)).
      assert (good p') as Hg' by (split; cbn; [done|rewrite Hs; apply Hg]).
      destruct (IH p' Hg') as (f2 & E2 & Hg2 & Hc2); [cbn; by rewrite wake_rx_tx|].
      assert (contents p' = contents p ++ [s8 b]) as Eq by done. rewrite Eq in E2, Hg2, Hc2.
      rewrite length_app in E2, Hg2, Hc2. cbn [length] in E2, Hg2, Hc2. exists f2.
      replace (CAP - length (contents p))%nat with (S (CAP - (length (contents p) + 1)))%nat by lia. cbn [take drop].
      set (n := (CAP - (length (contents p) + 1))%nat) in *.
      assert (∀ X : list Z, set_fifo f2 (match X with [] => p' | _ => wake_rx p' end) = set_fifo f2 (wake_rx p) :> pipe_t) as Ew.
      { intros X. unfold p'. destruct X; [done|]. by rewrite wake_rx_set, wake_rx_idem. }
      rewrite (Ew (take n bytes)) in *. rewrite E2. split; [done|]. split; [done|]. rewrite Hc2, <- app_assoc. done.
Qed.

(** ** A reader and a writer *)

(** What task [R] still has to read, what task [W] still has to write, and all bytes received
    and put into the pipe so far. *)
Record world := World { wp : pipe_t; rpend : nat; wpend : list Z; rcvd : list Z; sent : list Z }.

Definition consumed (l rest : list Z) : list Z := take (length l - length rest) l.

Section two_tasks.
Context (R W : Z) (Hne : R ≠ W).

(** A task that is not blocked goes on behind [task_block]. *)
Inductive resume (w : world) : world → Prop :=
  | resume_read bs k p : (0 < rpend w)%nat → R ∉ asleep (wp w) → pipe_read_loop R (rpend w) (wp w) = Ok ((bs, k), p) →
      resume w (World p k (wpend w) (rcvd w ++ bs) (sent w))
  | resume_write rest p : wpend w ≠ [] → W ∉ asleep (wp w) → pipe_write_loop W (wpend w) (wp w) = Ok (rest, p) →
      resume w (World p (rpend w) rest (rcvd w) (sent w ++ consumed (wpend w) rest)).

Inductive step (w : world) : world → Prop :=
  | step_resume w' : resume w w' → step w w'
  | step_read n bs k p : rpend w = O → pipe_read R n (wp w) = Ok ((bs, k), p) →
      step w (World p k (wpend w) (rcvd w ++ bs) (sent w))
  | step_write buf n rest p : wpend w = [] → pipe_write W buf n (wp w) = Ok (rest, p) →
      step w (World p (rpend w) rest (rcvd w) (sent w ++ consumed (take (Z.to_nat (s32 n)) buf) rest)).

Definition start (page : list Z) : world := World (new_pipe page) O [] [] [].

Definition reader_ok (w : world) : Prop :=
  (rxwaiter (wp w) = None ∧ R ∉ asleep (wp w) ∧ ((0 < rpend w)%nat → contents (wp w) ≠ [])) ∨
  (rxwaiter (wp w) = Some R ∧ R ∈ asleep (wp w) ∧ (0 < rpend w)%nat ∧ contents (wp w) = []).
Definition writer_ok (w : world) : Prop :=
  (txwaiter (wp w) = None ∧ W ∉ asleep (wp w) ∧ (wpend w ≠ [] → (length (contents (wp w)) < CAP)%nat)) ∨
  (txwaiter (wp w) = Some W ∧ W ∈ asleep (wp w) ∧ wpend w ≠ [] ∧ length (contents (wp w)) = CAP).
Record inv (w : world) : Prop := {
  i_good : good (wp w);
  i_stream : rcvd w ++ contents (wp w) = s8 <$> sent w;
  i_reader : reader_ok w;
  i_writer : writer_ok w
}.

Lemma reader_awake w : inv w → R ∉ asleep (wp w) → rxwaiter (wp w) = None.
Proof. intros [_ _ [(H & _)|(_ & H & _)] _] ?; [done|done]. Qed.
Lemma writer_awake w : inv w → W ∉ asleep (wp w) → txwaiter (wp w) = None.
Proof. intros [_ _ _ [(H & _)|(_ & H & _)]] ?; [done|done]. Qed.

Lemma read_inv w n :
  inv w → R ∉ asleep (wp w) →
  ∃ p, let q := contents (wp w) in pipe_read_loop R n (wp w) = Ok ((take n q, (n - length q)%nat), p) ∧ contents p = drop n q ∧
    inv (World p (n - length q) (wpend w) (rcvd w ++ take n q) (sent w)).
Proof.
  intros Hi Hr. destruct (read_segment R n (wp w) (i_good _ Hi) (reader_awake _ Hi Hr)) as (f & E & Hg & Hc).
  set (q := contents (wp w)) in *. eexists. split; [exact E|]. clear E.
  pose proof (i_stream _ Hi) as Hs. fold q in Hs. pose proof (reader_awake _ Hi Hr) as Hrx. pose proof (i_writer _ Hi) as Hw.
  pose proof (contents_length _ (i_good _ Hi)) as Hl. fold q in Hl. pose proof CAP_val as HC.
  set (p1 := set_fifo f _) in *.
  assert (rxwaiter p1 = None ∧ R ∉ asleep p1) as [Hrx1 Hr1].
  { unfold p1. destruct (take n q); cbn; [done|]. rewrite wake_tx_rx. unfold wake_tx. destruct (txwaiter (wp w)); cbn; set_solver. }
  assert (writer_ok (World p1 (n - length q) (wpend w) (rcvd w ++ take n q) (sent w))) as Hw1.
  { unfold writer_ok in *. cbn [wp wpend]. rewrite Hc, length_drop. fold q in Hw. unfold p1.
    destruct (take n q) as [|x t] eqn:Et.
    - apply (f_equal length) in Et. rewrite length_take in Et. cbn in Et. cbn [txwaiter asleep set_fifo]. destruct Hw as [(H1 & H2 & H3)|(H1 & H2 & H3 & H4)]; [left|right]; split_and!; try done; lia || (intros; specialize (H3 ltac:(done)); lia).
    - apply (f_equal length) in Et. rewrite length_take in Et. cbn in Et. left. unfold wake_tx.
      destruct Hw as [(H1 & H2 & H3)|(H1 & H2 & H3 & H4)]; rewrite H1; cbn.
      + split_and!; [done..|]. intros; specialize (H3 ltac:(done)); lia.
      + split_and!; [done|set_solver|lia]. }
  case_decide as Hd.
  - split; [done|]. split; [done| |left|done]; cbn [wp rcvd sent rpend].
    + rewrite Hc, <- app_assoc, take_drop. done.
    + split_and!; [done..|lia].
  - split; [done|]. assert (drop n q = []) as Hnil by (apply drop_ge; lia). split.
    + by destruct Hg.
    + cbn. change (contents (sleep_rx R p1)) with (contents p1). rewrite Hc, <- app_assoc, take_drop. done.
    + right. cbn. change (contents (sleep_rx R p1)) with (contents p1). rewrite Hc. split_and!; [done|set_solver|lia|done].
    + unfold writer_ok in *. cbn in *. change (contents (sleep_rx R p1)) with (contents p1). set_solver.
Qed.

Lemma write_inv w l :
  inv w → W ∉ asleep (wp w) →
  ∃ p, let n := (CAP - length (contents (wp w)))%nat in pipe_write_loop W l (wp w) = Ok (drop n l, p) ∧
    contents p = contents (wp w) ++ (s8 <$> take n l) ∧
    inv (World p (rpend w) (drop n l) (rcvd w) (sent w ++ consumed l (drop n l))).
Proof.
  intros Hi Hw. destruct (write_segment W l (wp w) (i_good _ Hi) (writer_awake _ Hi Hw)) as (f & E & Hg & Hc).
  set (n := (CAP - length (contents (wp w)))%nat) in *. eexists. split; [exact E|]. clear E.
  pose proof (i_stream _ Hi) as Hs. pose proof (writer_awake _ Hi Hw) as Htx. pose proof (i_reader _ Hi) as Hr.
  pose proof (contents_length _ (i_good _ Hi)) as Hl.
  assert (consumed l (drop n l) = take n l) as ->.
  { unfold consumed. rewrite length_drop. destruct (decide (n <= length l)%nat); [f_equal; lia|]. rewrite !take_ge by lia. done. }
  set (p1 := set_fifo f _) in *.
  assert (txwaiter p1 = None ∧ W ∉ asleep p1) as [Htx1 Hw1].
  { unfold p1. destruct (take n l); cbn; [done|]. rewrite wake_rx_tx. unfold wake_rx. destruct (rxwaiter (wp w)); cbn; set_solver. }
  assert (∀ s, reader_ok (World p1 (rpend w) (drop n l) (rcvd w) s)) as Hr1.
  { intros s. unfold reader_ok in *. cbn [wp rpend]. rewrite Hc. unfold p1.
    destruct (take n l) as [|x t] eqn:Et.
    - cbn [fmap list_fmap rxwaiter asleep set_fifo]. rewrite app_nil_r. exact Hr.
    - left. unfold wake_rx. destruct Hr as [(H1 & H2 & H3)|(H1 & H2 & H3 & H4)]; rewrite H1; cbn.
      + split_and!; [done..|]. intros _ E. by apply app_nil in E as [_ E].
      + split_and!; [done|set_solver|]. intros _ E. by apply app_nil in E as [_ E]. }
  destruct (drop n l) as [|y r] eqn:Ed.
  - split; [done|]. split; [done| |apply Hr1|left]; cbn [wp rcvd sent wpend].
    + by rewrite Hc, app_assoc, Hs, fmap_app.
    + by split_and!.
  - split; [done|]. split.
    + by destruct Hg.
    + cbn. change (contents (sleep_tx W p1)) with (contents p1). by rewrite Hc, app_assoc, Hs, fmap_app.
    + specialize (Hr1 []). unfold reader_ok in *. cbn in *. change (contents (sleep_tx W p1)) with (contents p1). set_solver.
    + right. cbn. change (contents (sleep_tx W p1)) with (contents p1). rewrite Hc, length_app, length_fmap, length_take.
      apply (f_equal length) in Ed. rewrite length_drop in Ed. cbn in Ed. split_and!; [done|set_solver|done|lia].
Qed.

Lemma inv_start page : length page = Z.to_nat PAGE_SIZE → inv (start page).
Proof.
  intros Hl. assert (ring (fifo (new_pipe page))) as Hr.
  { split; cbn; unfold PAGE_SIZE; try lia. rewrite Hl. done. }
  split; [by split| |left; split_and!; [done|set_solver|cbn; lia]|left; split_and!; [done|set_solver|done]].
  assert (contents (wp (start page)) = []) as ->; [|done].
  pose proof (empty_spec _ Hr) as E. change (kfifo_empty (fifo (new_pipe page))) with true in E. symmetry in E.
  by apply bool_decide_eq_true in E.
Qed.

Lemma idle_reader w : inv w → rpend w = O → R ∉ asleep (wp w).
Proof. intros [_ _ [(_ & H & _)|(_ & _ & H & _)] _] ?; [done|lia]. Qed.
Lemma idle_writer w : inv w → wpend w = [] → W ∉ asleep (wp w).
Proof. intros [_ _ _ [(_ & H & _)|(_ & _ & H & _)]] ?; done. Qed.

Lemma step_inv w w' : inv w → step w w' → inv w'.
Proof.
  intros Hi [w2 [bs k p H0 Hr E|rest p H0 Hw E]|n bs k p H0 E|buf n rest p H0 E].
  - destruct (read_inv w (rpend w) Hi Hr) as (p' & E' & _ & Hi'). rewrite E in E'. by injection E' as -> -> ->.
  - destruct (write_inv w (wpend w) Hi Hw) as (p' & E' & _ & Hi'). rewrite E in E'. by injection E' as -> ->.
  - destruct (read_inv w (Z.to_nat (s32 n)) Hi (idle_reader _ Hi H0)) as (p' & E' & _ & Hi').
    unfold pipe_read in E. rewrite E in E'. by injection E' as -> -> ->.
  - destruct (write_inv w (take (Z.to_nat (s32 n)) buf) Hi (idle_writer _ Hi H0)) as (p' & E' & _ & Hi').
    unfold pipe_write in E. rewrite E in E'. by injection E' as -> ->.
Qed.

Definition reachable (page : list Z) : world → Prop := rtc step (start page).

Lemma reachable_inv page w : length page = Z.to_nat PAGE_SIZE → reachable page w → inv w.
Proof.
  intros Hl H. pose proof (inv_start page Hl) as Hi. unfold reachable in H. revert Hi. induction H as [|a b c Hab _ IH]; [done|].
  intros. by eapply IH, step_inv.
Qed.

(** C31. Between one reader and one writer, whatever they ask for and however they are interleaved:
    what has been received, followed by what is in the pipe, is what has been put into it, and
    the pipe never holds more than 4095 bytes - so nothing is dropped or reordered.  No
    assertion fails: any call of an idle task and any continuation of a task that is not
    blocked returns or blocks again.  At most one of the two is blocked, the reader only before
    an empty pipe, the writer only before a full one. *)
Theorem pipe_stream page w :
  length page = Z.to_nat PAGE_SIZE → reachable page w →
  rcvd w ++ contents (wp w) = s8 <$> sent w ∧ (length (contents (wp w)) <= CAP)%nat ∧
  (R ∈ asleep (wp w) → contents (wp w) = [] ∧ W ∉ asleep (wp w)) ∧
  (W ∈ asleep (wp w) → length (contents (wp w)) = CAP ∧ R ∉ asleep (wp w)) ∧
  (R ∉ asleep (wp w) → ∀ n, ∃ bs k p, pipe_read_loop R n (wp w) = Ok ((bs, k), p)) ∧
  (W ∉ asleep (wp w) → ∀ l, ∃ rest p, pipe_write_loop W l (wp w) = Ok (rest, p)).
Proof.
  intros Hl H. pose proof (reachable_inv page w Hl H) as Hi. pose proof CAP_val as HC. split_and!.
  - apply Hi.
  - by apply contents_length, Hi.
  - intros Hr. destruct (i_reader _ Hi) as [(_ & ? & _)|(_ & _ & _ & Hc)]; [done|]. split; [done|].
    destruct (i_writer _ Hi) as [(_ & ? & _)|(_ & _ & _ & Hf)]; [done|]. rewrite Hc in Hf. cbn in Hf. unfold PAGE_SIZE in HC. lia.
  - intros Hw. destruct (i_writer _ Hi) as [(_ & ? & _)|(_ & _ & _ & Hf)]; [done|]. split; [done|].
    destruct (i_reader _ Hi) as [(_ & ? & _)|(_ & _ & _ & Hc)]; [done|]. rewrite Hc in Hf. cbn in Hf. unfold PAGE_SIZE in HC. lia.
  - intros Hr n. destruct (read_inv w n Hi Hr) as (p & E & _). by eexists _, _, _.
  - intros Hw l. destruct (write_inv w l Hi Hw) as (p & E & _). by eexists _, _.
Qed.

(** ** Every transfer ends *)

Lemma resume_progress w w' :
  inv w → resume w w' →
  (rpend w' + length (wpend w') < rpend w + length (wpend w))%nat ∧
  (rpend w' + length (rcvd w') = rpend w + length (rcvd w))%nat ∧
  (length (contents (wp w')) + length (wpend w') + length (rcvd w') = length (contents (wp w)) + length (wpend w) + length (rcvd w))%nat.
Proof.
  intros Hi [bs k p H0 Hr E|rest p H0 Hw E].
  - destruct (read_inv w (rpend w) Hi Hr) as (p' & E' & Hc & _). rewrite E in E'. injection E' as -> -> ->. cbn [rpend wpend rcvd wp].
    rewrite Hc, length_drop, length_app, length_take. destruct (i_reader _ Hi) as [(_ & _ & Hn)|(_ & ? & _)]; [|done].
    specialize (Hn H0). destruct (contents (wp w)); [done|]. cbn [length]. lia.
  - destruct (write_inv w (wpend w) Hi Hw) as (p' & E' & Hc & _). rewrite E in E'. injection E' as -> ->. cbn [rpend wpend rcvd wp].
    rewrite Hc, length_drop, length_app, length_fmap, length_take. destruct (i_writer _ Hi) as [(_ & _ & Hn)|(_ & ? & _)]; [|done].
    specialize (Hn H0). destruct (wpend w); [done|]. cbn [length]. lia.
Qed.

Lemma resume_possible w :
  inv w → (0 < rpend w <= length (contents (wp w)) + length (wpend w))%nat → ∃ w', resume w w'.
Proof.
  intros Hi Hp. destruct (i_reader _ Hi) as [(_ & Hr & _)|(_ & _ & _ & Hc)].
  - destruct (read_inv w (rpend w) Hi Hr) as (p & E & _). eexists. eapply resume_read; [lia|done|exact E].
  - destruct (i_writer _ Hi) as [(_ & Hw & _)|(_ & _ & _ & Hf)].
    + destruct (write_inv w (wpend w) Hi Hw) as (p & E & _). eexists. eapply resume_write; [|done|exact E].
      intros E0. rewrite Hc, E0 in Hp. cbn in Hp. lia.
    + pose proof CAP_val as HC. rewrite Hc in Hf. unfold PAGE_SIZE in HC. cbn in Hf. lia.
Qed.

(** A read gets what it asked for when the writer has enough for it: let [k > 0] bytes be
    outstanding, and the pipe and the writer together hold at least [k].  The two tasks can be
    resumed at most [k] plus the length of the writer's rest times; and when neither can be
    resumed any more, the read has returned and [k] bytes more have been received. *)
Theorem pipe_delivers page w n w' :
  length page = Z.to_nat PAGE_SIZE → reachable page w →
  (0 < rpend w <= length (contents (wp w)) + length (wpend w))%nat → nsteps resume n w w' →
  (n <= rpend w + length (wpend w))%nat ∧
  ((∀ w2, ¬ resume w' w2) → rpend w' = O ∧ length (rcvd w') = (length (rcvd w) + rpend w)%nat).
Proof.
  intros Hl H Hp Hn. pose proof (reachable_inv page w Hl H) as Hi. clear H Hl.
  assert (rpend w <= length (contents (wp w)) + length (wpend w))%nat as Hp' by lia. clear Hp. induction Hn as [w|n w w1 w2 H _ IH].
  - split; [lia|]. intros Hno. destruct (decide (rpend w = O)) as [E|E]; [lia|].
    destruct (resume_possible w Hi) as [w2 H]; [lia|]. by destruct (Hno w2).
  - destruct (resume_progress _ _ Hi H) as (H1 & H2 & H3).
    destruct IH as [IH1 IH2]; [by eapply step_inv, step_resume|lia|]. split; [lia|].
    intros Hno. destruct (IH2 Hno). split; [done|lia].
Qed.
End two_tasks.

(** ** More than two *)

(** Two tasks that read the same empty pipe - two ends inherited over [fork] - stop the kernel:
    the second one finds the place of the waiting reader taken. *)
Theorem second_reader_panics R1 R2 n1 n2 p :
  good p → rxwaiter p = None → contents p = [] → 0 < n1 < 2147483648 → 0 < n2 < 2147483648 →
  ∃ p', pipe_read R1 n1 p = Ok (([], Z.to_nat n1), p') ∧ pipe_read R2 n2 p' = Stop Panic.
Proof.
  intros Hg Hr Hc H1 H2. unfold pipe_read. rewrite !s32_small by lia.
  destruct (Z.to_nat n1) as [|m1] eqn:E1; [lia|]. destruct (Z.to_nat n2) as [|m2] eqn:E2; [lia|]. cbn [pipe_read_loop].
  rewrite (st_bind_eq get_st _ p p p eq_refl). rewrite empty_spec by apply Hg. fold (contents p).
  rewrite bool_decide_eq_true_2, Hr, bool_decide_eq_true_2 by done. exists (sleep_rx R1 p). split; [done|].
  rewrite (st_bind_eq get_st _ _ _ _ eq_refl). change (fifo (sleep_rx R1 p)) with (fifo p). rewrite empty_spec by apply Hg.
  fold (contents p). by rewrite bool_decide_eq_true_2 by done.
Qed.

(** ** A concrete run

    Task 1 asks for two bytes and blocks; task 2 writes "hi"; task 1 goes on. *)
Definition demo_page : list Z := replicate (Z.to_nat PAGE_SIZE) 0.
Definition demo_asked : world := World (sleep_rx 1 (new_pipe demo_page)) 2 [] [] [].
Definition demo_written : world :=
  match pipe_write 2 [104; 105] 2 (wp demo_asked) with
  | Ok (_, p) => World p 2 [] [] [104; 105]
  | Stop _ => demo_asked
  end.
Definition demo_done : world :=
  match pipe_read_loop 1 2 (wp demo_written) with
  | Ok (_, p) => World p 0 [] [104; 105] [104; 105]
  | Stop _ => demo_asked
  end.

Lemma demo_reachable : reachable 1 2 demo_page demo_written.
Proof.
  unfold reachable. eapply rtc_l; [apply (step_read 1 2 (start demo_page) 2 [] 2 (sleep_rx 1 (new_pipe demo_page)));
    [done|vm_compute; reflexivity]|].
  eapply rtc_l; [|apply rtc_refl].
  pose proof (step_write 1 2 demo_asked [104; 105] 2 [] (wp demo_written) eq_refl) as H. apply H. vm_compute. reflexivity.
Qed.

Lemma demo_resumes : resume 1 2 demo_written demo_done.
Proof.
  pose proof (resume_read 1 2 demo_written [104; 105] 0 (wp demo_done)) as H. apply H.
  - vm_compute. lia.
  - vm_compute. done.
  - vm_compute. reflexivity.
Qed.

Lemma demo_length : length demo_page = Z.to_nat PAGE_SIZE.
Proof. apply length_replicate. Qed.

Lemma pipe_stream_witness :
  reachable 1 2 demo_page demo_written ∧ rcvd demo_written ++ contents (wp demo_written) = s8 <$> [104; 105] ∧
  (length (contents (wp demo_written)) <= CAP)%nat.
Proof.
  split; [exact demo_reachable|].
  destruct (pipe_stream 1 2 ltac:(done) demo_page demo_written demo_length demo_reachable) as (H1 & H2 & _). by split.
Defined.

Lemma pipe_delivers_witness :
  reachable 1 2 demo_page demo_written ∧ nsteps (resume 1 2) 1 demo_written demo_done ∧
  ((∀ w2, ¬ resume 1 2 demo_done w2) → rpend demo_done = O ∧ length (rcvd demo_done) = 2%nat).
Proof.
  assert (nsteps (resume 1 2) 1 demo_written demo_done) as Hn by (eapply nsteps_l; [exact demo_resumes|apply nsteps_O]).
  split; [exact demo_reachable|]. split; [exact Hn|].
  apply (pipe_delivers 1 2 ltac:(done) demo_page demo_written 1 demo_done demo_length demo_reachable); [vm_compute; lia|exact Hn].
Defined.

Lemma second_reader_panics_witness :
  good (new_pipe demo_page) ∧
  ∃ p', pipe_read 1 5 (new_pipe demo_page) = Ok (([], Z.to_nat 5), p') ∧ pipe_read 2 7 p' = Stop Panic.
Proof.
  pose proof (i_good _ _ _ (inv_start 1 2 ltac:(done) demo_page demo_length)) as Hg. split; [exact Hg|].
  apply (second_reader_panics 1 2 5 7 (new_pipe demo_page) Hg); [done|vm_compute; reflexivity|lia|lia].
Defined.
