(* ===== verification/Blocks.v ===== *)
(** * Blocks as the file system uses them (src/kernel/cache.c seen from src/fs/)

    What the file system does with the block cache: it takes a block ([bread]), reads and changes
    the bytes of its buffer through pointers, sets the dirty flag, writes the block through
    ([bwrite]) and gives it back ([brelse]).  Here the cache is a map from device and block number
    to the bytes of the block, the number of holders, the dirty flag, and the bytes the disk has;
    a [cache_t *] is the key of its block.  BlockCache shows that the pool of caches of Cache.v
    behaves like this map.  Giving back a block that differs from the disk and is not marked dirty
    would lose the change when the cache is reused: the model stops there. *)

From stdpp Require Import gmap.
From S2P Require Import Prelude.

Definition BLOCK_SIZE : Z := 1024.
Abbreviation key := (Z * Z)%type.

Record buf_t := Buf { bytes : list Z; holders : Z; dirty : bool; saved : list Z }.
Abbreviation bufs := (gmap key buf_t).
Definition BM := ST bufs.

Definition set_bytes (l : list Z) (u : buf_t) : buf_t := Buf l (holders u) (dirty u) (saved u).
Definition set_holders (n : Z) (u : buf_t) : buf_t := Buf (bytes u) n (dirty u) (saved u).
Definition set_dirty (b : bool) (u : buf_t) : buf_t := Buf (bytes u) (holders u) b (saved u).
Definition written (u : buf_t) : buf_t := Buf (bytes u) (holders u) false (bytes u).

Definition get_buf (k : key) : BM buf_t := λ m,
  match m !! k with Some u => Ok (u, m) | None => Stop OutOfBounds end.
Definition upd_buf (k : key) (f : buf_t → buf_t) : BM unit := λ m,
  match m !! k with Some u => Ok ((), <[k := f u]> m) | None => Stop OutOfBounds end.

Definition bread (dv b : Z) : BM key := upd_buf (dv, b) (λ u, set_holders (holders u + 1) u);; mret (dv, b).

Definition bwrite (k : key) : BM unit := u ← get_buf k; if dirty u then upd_buf k written else mret ().

Definition brelse (k : option key) : BM unit :=
  match k with
  | None => mret ()
  | Some k =>
      upd_buf k (λ u, set_holders (holders u - 1) u);;
      u ← get_buf k;
      sassert (0 <=? holders u);;
      if negb (holders u =? 0) then mret ()
      else if dirty u then upd_buf k written
      else if bool_decide (bytes u = saved u) then mret () else stop_st OutOfBounds
  end.

(** ** Numbers in a block, the low byte first *)

Definition byte (l : list Z) (i : Z) : Z := default 0 (l !! Z.to_nat i).
Definition word (l : list Z) (i : Z) : Z := byte l i + 256 * byte l (i + 1).
Definition dword (l : list Z) (i : Z) : Z := word l i + 65536 * word l (i + 2).

(** [l] with the bytes from [i] on replaced by those of [d]. *)
Definition patch (l : list Z) (i : Z) (d : list Z) : list Z :=
  take (Z.to_nat i) l ++ d ++ drop (Z.to_nat i + length d) l.
Definition enc16 (v : Z) : list Z := [v mod 256; v / 256 mod 256].
Definition enc32 (v : Z) : list Z := [v mod 256; v / 256 mod 256; v / 65536 mod 256; v / 16777216 mod 256].

(** The access through a pointer to byte [i] of the buffer of block [k], [n] bytes long. *)
Definition in_block (l : list Z) (i n : Z) : bool := (0 <=? i) && (i + n <=? Z.of_nat (length l)).
Definition rd {A} (k : key) (i n : Z) (f : list Z → A) : BM A :=
  u ← get_buf k; if in_block (bytes u) i n then mret (f (bytes u)) else stop_st OutOfBounds.
Definition rd8 (k : key) (i : Z) : BM Z := rd k i 1 (λ l, byte l i).
Definition rd16 (k : key) (i : Z) : BM Z := rd k i 2 (λ l, word l i).
Definition rd32 (k : key) (i : Z) : BM Z := rd k i 4 (λ l, dword l i).
Definition rdn (k : key) (i n : Z) : BM (list Z) := rd k i n (λ l, take (Z.to_nat n) (drop (Z.to_nat i) l)).
Definition wr (k : key) (i : Z) (d : list Z) : BM unit :=
  u ← get_buf k;
  if in_block (bytes u) i (Z.of_nat (length d)) then upd_buf k (set_bytes (patch (bytes u) i d)) else stop_st OutOfBounds.
Definition wr8 (k : key) (i v : Z) : BM unit := wr k i [v mod 256].
Definition wr16 (k : key) (i v : Z) : BM unit := wr k i (enc16 v).
Definition wr32 (k : key) (i v : Z) : BM unit := wr k i (enc32 v).
Definition mark_dirty (k : key) : BM unit := upd_buf k (set_dirty true).

(** ** Lemmas on the numbers *)

Lemma patch_length l i d : 0 <= i → i + Z.of_nat (length d) <= Z.of_nat (length l) → length (patch l i d) = length l.
Proof. intros. unfold patch. rewrite !length_app, length_take, length_drop. lia. Qed.

Lemma patch_inside l i d j :
  0 <= i → i + Z.of_nat (length d) <= Z.of_nat (length l) → i <= j < i + Z.of_nat (length d) →
  byte (patch l i d) j = byte d (j - i).
Proof.
  intros. unfold byte, patch. rewrite lookup_app_r by (rewrite length_take; lia). rewrite lookup_app_l by (rewrite length_take; lia).
  do 2 f_equal. rewrite length_take. lia.
Qed.

Lemma patch_outside l i d j :
  0 <= i → i + Z.of_nat (length d) <= Z.of_nat (length l) → 0 <= j → j < i ∨ i + Z.of_nat (length d) <= j →
  byte (patch l i d) j = byte l j.
Proof.
  intros ??? [Hj|Hj]; unfold byte, patch; f_equal.
  - rewrite lookup_app_l by (rewrite length_take; lia). apply lookup_take_lt. lia.
  - rewrite lookup_app_r by (rewrite length_take; lia). rewrite lookup_app_r by (rewrite length_take; lia).
    rewrite lookup_drop. f_equal. rewrite length_take. lia.
Qed.

(** Reading a number elsewhere. *)
Lemma word_outside l i d j :
  0 <= i → i + Z.of_nat (length d) <= Z.of_nat (length l) → 0 <= j → j + 2 <= i ∨ i + Z.of_nat (length d) <= j →
  word (patch l i d) j = word l j.
Proof. intros. unfold word. rewrite !patch_outside by lia. done. Qed.

Lemma dword_outside l i d j :
  0 <= i → i + Z.of_nat (length d) <= Z.of_nat (length l) → 0 <= j → j + 4 <= i ∨ i + Z.of_nat (length d) <= j →
  dword (patch l i d) j = dword l j.
Proof. intros. unfold dword. rewrite !word_outside by lia. done. Qed.

Lemma word_inside l i v : 0 <= i → i + 2 <= Z.of_nat (length l) → 0 <= v < 65536 → word (patch l i (enc16 v)) i = v.
Proof.
  intros. unfold word. rewrite !patch_inside by (cbn; lia). replace (i - i) with 0 by lia. replace (i + 1 - i) with 1 by lia.
  change (byte (enc16 v) 0) with (v mod 256). change (byte (enc16 v) 1) with (v / 256 mod 256). pose proof (Z.div_mod v 256 ltac:(lia)).
  rewrite (Z.mod_small (v / 256)) by (split; [apply Z.div_pos; lia|apply Z.div_lt_upper_bound; lia]). lia.
Qed.

Lemma dword_inside l i v : 0 <= i → i + 4 <= Z.of_nat (length l) → 0 <= v < 4294967296 → dword (patch l i (enc32 v)) i = v.
Proof.
  intros. unfold dword, word. rewrite !patch_inside by (cbn; lia). replace (i - i) with 0 by lia. replace (i + 1 - i) with 1 by lia.
  replace (i + 2 - i) with 2 by lia. replace (i + 2 + 1 - i) with 3 by lia.
  change (byte (enc32 v) 0) with (v mod 256). change (byte (enc32 v) 1) with (v / 256 mod 256).
  change (byte (enc32 v) 2) with (v / 65536 mod 256). change (byte (enc32 v) 3) with (v / 16777216 mod 256).
  change 65536 with (256 * 256). change 16777216 with (256 * 256 * 256). rewrite <- !Z.div_div by lia.
  pose proof (Z.div_mod v 256 ltac:(lia)). pose proof (Z.div_mod (v / 256) 256 ltac:(lia)). pose proof (Z.div_mod (v / 256 / 256) 256 ltac:(lia)).
  rewrite (Z.mod_small (v / 256 / 256 / 256)); [lia|]. split; [repeat apply Z.div_pos; lia|].
  rewrite !Z.div_div by lia. apply Z.div_lt_upper_bound; lia.
Qed.

Definition is_byte (b : Z) : Prop := 0 <= b < 256.
Definition is_block (l : list Z) : Prop := Z.of_nat (length l) = BLOCK_SIZE ∧ Forall is_byte l.

Lemma byte_range l i : Forall is_byte l → is_byte (byte l i).
Proof.
  intros H. unfold byte. destruct (l !! Z.to_nat i) as [b|] eqn:E; cbn; [by eapply Forall_lookup_1|unfold is_byte; lia].
Qed.

Lemma word_range l i : Forall is_byte l → 0 <= word l i < 65536.
Proof. intros H. pose proof (byte_range l i H). pose proof (byte_range l (i + 1) H). unfold word, is_byte in *. lia. Qed.

Lemma dword_range l i : Forall is_byte l → 0 <= dword l i < 4294967296.
Proof. intros H. pose proof (word_range l i H). pose proof (word_range l (i + 2) H). unfold dword. lia. Qed.

Lemma patch_block l i d :
  is_block l → Forall is_byte d → 0 <= i → i + Z.of_nat (length d) <= BLOCK_SIZE → is_block (patch l i d).
Proof.
  intros [Hl Hb] Hd Hi Hn. split; [rewrite patch_length; lia|]. unfold patch. rewrite !Forall_app.
  split_and!; [by apply Forall_take|done|by apply Forall_drop].
Qed.

Lemma enc16_bytes v : Forall is_byte (enc16 v).
Proof. repeat constructor; apply Z.mod_pos_bound; lia. Qed.
Lemma enc32_bytes v : Forall is_byte (enc32 v).
Proof. repeat constructor; apply Z.mod_pos_bound; lia. Qed.

(** ** Lemmas on the operations *)

(** A block in good order; without holders it is on the disk. *)
Record buf_ok (u : buf_t) : Prop := {
  bo_block : is_block (bytes u);
  bo_count : 0 <= holders u;
  bo_clean : dirty u = false → bytes u = saved u;
  bo_free : holders u = 0 → dirty u = false
}.
Definition bufs_ok (m : bufs) : Prop := map_Forall (λ _, buf_ok) m.

Definition held (u : buf_t) : buf_t := set_holders (holders u + 1) u.

Lemma buf_ok_held u : buf_ok u → buf_ok (held u).
Proof. intros [H1 H2 H3 H4]. split; cbn; [done|lia|done|lia]. Qed.

Lemma get_buf_Ok m k u : m !! k = Some u → get_buf k m = Ok (u, m).
Proof. intros H. unfold get_buf. by rewrite H. Qed.

Lemma upd_buf_Ok m k f u : m !! k = Some u → upd_buf k f m = Ok ((), <[k := f u]> m).
Proof. intros H. unfold upd_buf. by rewrite H. Qed.

Lemma take_Ok m dv b u : m !! (dv, b) = Some u → bread dv b m = Ok ((dv, b), <[(dv, b) := held u]> m).
Proof. intros H. unfold bread. by rewrite (st_bind_eq _ _ _ _ _ (upd_buf_Ok m _ _ u H)). Qed.

(** Giving back one of the holds. *)
Definition released (u : buf_t) : buf_t :=
  let u' := set_holders (holders u - 1) u in if (holders u - 1 =? 0) && dirty u then written u' else u'.

Lemma give_Ok m k u : m !! k = Some u → 0 < holders u → (dirty u = false → bytes u = saved u) → brelse (Some k) m = Ok ((), <[k := released u]> m).
Proof.
  intros H Hp Hc. unfold brelse. rewrite (st_bind_eq _ _ _ _ _ (upd_buf_Ok m _ _ u H)). set (u' := set_holders _ u).
  rewrite (st_bind_eq _ _ _ _ _ (get_buf_Ok _ k u' (lookup_insert_eq _ _ _))). cbn [holders u' set_holders].
  rewrite (st_bind_eq (sassert _) _ (<[k := u']> m) () (<[k := u']> m)) by (unfold sassert; by destruct (Z.leb_spec 0 (holders u - 1)); [|lia]).
  unfold released. fold u'. destruct (Z.eqb_spec (holders u - 1) 0); cbn [negb andb]; [|done].
  change (dirty u') with (dirty u). destruct (dirty u).
  - rewrite (upd_buf_Ok _ _ _ u') by apply lookup_insert_eq. by rewrite insert_insert_eq.
  - rewrite bool_decide_eq_true_2; [done|]. by apply Hc.
Qed.

Lemma released_held u : buf_ok u → released (held u) = u.
Proof.
  intros [_ H1 _ H2]. unfold released, held. cbn. replace (holders u + 1 - 1) with (holders u) by lia.
  destruct (Z.eqb_spec (holders u) 0) as [E|]; cbn [andb]; [rewrite (H2 E)|]; destruct u; cbn; f_equal; lia.
Qed.

(** Taking a block and giving it back leaves everything as it was. *)
Lemma brelse_held m k u : m !! k = Some u → buf_ok u → brelse (Some k) (<[k := held u]> m) = Ok ((), m).
Proof.
  intros H Hu. rewrite (give_Ok _ k (held u)).
  - rewrite insert_insert_eq, released_held by done. f_equal. f_equal. by apply insert_id.
  - apply lookup_insert_eq.
  - pose proof (bo_count _ Hu). cbn. lia.
  - apply Hu.
Qed.

Lemma rd_Ok {A} m k i n (f : list Z → A) u : m !! k = Some u → 0 <= i → i + n <= Z.of_nat (length (bytes u)) → rd k i n f m = Ok (f (bytes u), m).
Proof.
  intros H Hi Hn. unfold rd. rewrite (st_bind_eq _ _ _ _ _ (get_buf_Ok _ _ _ H)). unfold in_block.
  destruct (Z.leb_spec 0 i), (Z.leb_spec (i + n) (Z.of_nat (length (bytes u)))); cbn; done || lia.
Qed.

Lemma wr_Ok m k i d u :
  m !! k = Some u → 0 <= i → i + Z.of_nat (length d) <= Z.of_nat (length (bytes u)) →
  wr k i d m = Ok ((), <[k := set_bytes (patch (bytes u) i d) u]> m).
Proof.
  intros H Hi Hn. unfold wr. rewrite (st_bind_eq _ _ _ _ _ (get_buf_Ok _ _ _ H)). unfold in_block.
  destruct (Z.leb_spec 0 i), (Z.leb_spec (i + Z.of_nat (length d)) (Z.of_nat (length (bytes u)))); cbn [andb]; try lia.
  by apply upd_buf_Ok.
Qed.
