(* ===== verification/BlockCache.v ===== *)
(** * The block cache behind the file system's view

    The pool of Cache.v - hash table, free list, eviction - answers like the map of Blocks.v: as
    long as a task need not wait for a free cache, each operation of cache.c has the effect its
    counterpart has on the map, and a block without holders is on the disk. *)

From stdpp Require Import gmap.
From S2P Require Import Prelude DList Blocks Cache.

Section refine.
Context {D : Type} `{BD : BlockDevice D}.
Implicit Types (p : pool D) (m : gmap (Z * Z) buf_t).

(** The map [m] describes the pool: the blocks there are, what they hold, and how many hold them. *)
Record describes (v : Z → Z → list Z) (p : pool D) (m : gmap (Z * Z) buf_t) : Prop := {
  ds_dom : ∀ dv b, is_Some (m !! (dv, b)) → has_block dv b;
  ds_bytes : ∀ dv b u, m !! (dv, b) = Some u → bytes u = v dv b ∧ (Blocks.dirty u = false → bytes u = saved u);
  ds_held : ∀ dv b u i c, m !! (dv, b) = Some u → caches p !! i = Some c → dev c = dv → block c = b → holders u = count c;
  ds_free : ∀ dv b u, m !! (dv, b) = Some u → uncached dv b p → holders u = 0
}.

Lemma cached_or_not e g p : (∃ j x, caches p !! j = Some x ∧ dev x = e ∧ block x = g) ∨ uncached e g p.
Proof.
  destruct (decide (Exists (λ c, dev c = e ∧ block c = g) (caches p))) as [H|H].
  - left. apply Exists_exists in H as (x & [j Hj]%list_elem_of_lookup & ?). by exists j, x.
  - right. intros j x Hx E. apply H, Exists_exists. exists x. split; [|done]. by eapply list_elem_of_lookup_2.
Qed.

Lemma upd_dom m k k' u u' : m !! k = Some u → is_Some (<[k := u']> m !! k') ↔ is_Some (m !! k').
Proof.
  intros Hu. destruct (decide (k = k')) as [<-|]; [|by rewrite lookup_insert_ne].
  rewrite lookup_insert_eq, Hu. split; intros _; by eexists.
Qed.

(** One cache changes its count, and the map with it. *)
Lemma describes_upd v v' p p' m dv b u u' i c :
  describes v p m → m !! (dv, b) = Some u → pool_ok p' → caches p' !! i = Some c → dev c = dv → block c = b →
  (∀ e g, (e, g) ≠ (dv, b) → v' e g = v e g) → bytes u' = v' dv b → (Blocks.dirty u' = false → bytes u' = saved u') → holders u' = count c →
  (∀ j e, j ≠ i → caches p !! j = Some e → caches p' !! j = Some e) →
  (∀ j e, j ≠ i → caches p' !! j = Some e → caches p !! j = Some e) →
  (∀ c0, caches p !! i = Some c0 → (dev c0 = dv ∧ block c0 = b) ∨ count c0 = 0) →
  describes v' p' (<[(dv, b) := u']> m).
Proof.
  intros [Hd Hb Hh Hf] Hu O Hc E1 E2 Ev Eb Es Eh Ho1 Ho2 Hold. split.
  - intros e g He. apply Hd. by rewrite (upd_dom m (dv, b) (e, g) u u' Hu) in He.
  - intros e g w Hw. destruct (decide ((dv, b) = (e, g))) as [E|Hne]; [|rewrite lookup_insert_ne in Hw by done; rewrite Ev by congruence; by apply Hb].
    injection E as <- <-. rewrite lookup_insert_eq in Hw. injection Hw as <-. by split.
  - intros e g w j x Hw Hx X1 X2. destruct (decide ((dv, b) = (e, g))) as [E|Hne].
    + injection E as <- <-. rewrite lookup_insert_eq in Hw. injection Hw as <-. assert (j = i) as -> by (apply (po_keys _ O j i x c Hx Hc); congruence). congruence.
    + rewrite lookup_insert_ne in Hw by done. destruct (decide (j = i)) as [->|Hj]; [exfalso; apply Hne; congruence|].
      by apply (Hh e g w j x Hw (Ho2 j x Hj Hx)).
  - intros e g w Hw Hun. destruct (decide ((dv, b) = (e, g))) as [E|Hne].
    + injection E as <- <-. by destruct (Hun i c Hc).
    + rewrite lookup_insert_ne in Hw by done. destruct (cached_or_not e g p) as [(j & x & Hx & X1 & X2)|Hp]; [|by apply (Hf e g)].
      destruct (decide (j = i)) as [->|Hj]; [|by destruct (Hun j x (Ho1 j x Hj Hx))].
      destruct (Hold x Hx) as [[Y1 Y2]|H0]; [exfalso; apply Hne; congruence|]. by rewrite (Hh e g w i x Hw Hx X1 X2).
Qed.

(** What [bread] leaves of the other caches, and the count of a block that was not cached. *)
Lemma bread_more v t dv b p i p' c :
  pool_ok p → represents v p → has_block dv b → bread t dv b p = Ok (Some i, p') → caches p' !! i = Some c →
  (uncached dv b p → count c = 1) ∧ (∀ j e, j ≠ i → caches p' !! j = Some e → caches p !! j = Some e).
Proof.
  intros O R Hb E Hc. unfold bread in E. apply st_bind_Ok in E as (r & p1 & E & E2).
  destruct (getblk_Ok v t dv b p O R Hb) as [(i' & c1 & q & E' & O1 & R1 & Hc1 & _)|(E' & _)]; rewrite E in E'; injection E' as -> ->; [|done].
  apply st_bind_Ok in E2 as (x & p2 & E2 & [= -> ->]). destruct (fill_Ok v i c1 q O1 R1 Hc1) as (p3 & E3 & _ & _ & Hc3 & Ho3 & _).
  rewrite E2 in E3. injection E3 as _ <-. assert (count c = count c1) as -> by (rewrite Hc in Hc3; injection Hc3 as ->; by destruct (valid c1)).
  assert ((uncached dv b p → count c1 = 1) ∧ (∀ j e, j ≠ i → caches q !! j = Some e → caches p !! j = Some e)) as [H1 H2].
  2:{ split; [done|]. intros j e Hj He. rewrite Ho3 in He by done. by apply H2. }
  clear E2 Hc3 Ho3 R1 O1. unfold getblk in E. destruct (get_from_hash_table_Ok dv b p (po_hash _ O)) as [(i' & c0 & E' & Hc0 & X1 & X2)|[E' Hun]];
    rewrite (st_bind_eq _ _ _ _ _ E') in E.
  - set (p0 := set_free _ p) in E. rewrite (st_bind_eq _ _ _ _ _ (upd_cache_Ok i' c0 _ p0 Hc0)) in E. injection E as <- <-. split.
    + intros Hun. by destruct (Hun i' c0 Hc0).
    + intros j e Hj. cbn. by rewrite list_lookup_insert_ne.
  - assert (∀ p', refilled i dv b p p' → caches p' !! i = Some c1 → (uncached dv b p → count c1 = 1) ∧ (∀ j e, j ≠ i → caches p' !! j = Some e → caches p !! j = Some e)) as Hre.
    { intros p2 HR Hi. split; [intros _|intros j e Hj He; apply HR in He as [[-> _]|[_ He]]; done].
      apply HR in Hi as [[_ ->]|[? _]]; done. }
    destruct (decide (length (caches p) < CAPACITY)%nat) as [Hl|Hl].
    + destruct (getblk_free_new t dv b p O Hun Hb Hl) as (q' & E3 & _ & HR & _). rewrite E in E3. injection E3 as -> ->. by apply Hre.
    + destruct (free_list p) as [|i0 fl0] eqn:EF; [rewrite getblk_free_full in E by (done || lia); done|].
      destruct (exists_last (l := i0 :: fl0)) as (fl & k & El); [done|]. rewrite El in EF.
      destruct (getblk_free_evict t dv b p fl k O Hb ltac:(lia) EF) as (q' & e & E3 & _ & HR & _). rewrite E in E3. injection E3 as -> ->. by apply Hre.
Qed.

Section operations.
Context (v : Z → Z → list Z) (p : pool D) (m : gmap (Z * Z) buf_t) (H : reach v p) (Hm : describes v p m).

Lemma refine_bread :
  ∀ t dv b i p', is_Some (m !! (dv, b)) → bread t dv b p = Ok (Some i, p') →
    ∃ m' c, Blocks.bread dv b m = Ok ((dv, b), m') ∧ describes v p' m' ∧ reach v p' ∧
      caches p' !! i = Some c ∧ dev c = dv ∧ block c = b ∧ ∀ u, m' !! (dv, b) = Some u → buffer (disk p') (data c) = bytes u.
Proof.
  destruct (reach_ok v p H) as [O R]. pose proof Hm as [Hd Hb Hh Hf].
  intros t dv b i p' Hin E. pose proof (Hd _ _ Hin) as Hblk. destruct (bread_Ok v t dv b p O R Hblk) as [(i' & c & q & E' & O' & R' & Hc & E1 & E2 & Hpos & Hv & Hbuf & Ho & Hold)|(E' & _)];
    rewrite E in E'; [injection E' as <- <-|done].
  destruct Hin as [u Hu]. exists (<[(dv, b) := held u]> m), c. split; [by apply take_Ok|].
  destruct (bread_more v t dv b p i p' c O R Hblk E Hc) as [H1 Ho2].
  split; [|split; [by eapply reach_bread|]]; [|split_and!; [done..|]; intros w; rewrite lookup_insert_eq; intros [= <-]; rewrite Hbuf; symmetry; by apply (Hb dv b u)].
  apply (describes_upd v v p p' m dv b u (held u) i c Hm Hu O' Hc E1 E2); try done.
  - apply (Hb dv b u Hu).
  - apply (Hb dv b u Hu).
  - change (holders (held u)) with (holders u + 1). destruct (cached_or_not dv b p) as [(j & x & Hx & X1 & X2)|Hun]; [|by rewrite (Hf dv b u Hu Hun), H1].
    destruct (decide (j = i)) as [->|Hj].
    + destruct (Hold x Hx) as [(_ & _ & ->)|(_ & Hun & _)]; [by rewrite (Hh dv b u i x Hu Hx X1 X2)|by destruct (Hun i x Hx)].
    + exfalso. apply Hj. apply (po_keys _ O' j i x c (Ho j x Hj Hx) Hc); congruence.
  - intros c0 Hc0. destruct (Hold c0 Hc0) as [(?&?&?)|(? & _)]; [by left|by right].
Qed.

Lemma refine_brelse :
  ∀ i c, caches p !! i = Some c → is_Some (m !! (dev c, block c)) → 0 < count c →
    ∃ r p' m', brelse (Some i) p = Ok (r, p') ∧ Blocks.brelse (Some (dev c, block c)) m = Ok ((), m') ∧ describes v p' m' ∧ reach v p'.
Proof.
  destruct (reach_ok v p H) as [O R]. pose proof Hm as [Hd Hb Hh Hf].
  intros i c Hc Hin Hpos. destruct (brelse_Ok v i c p O R Hc Hpos) as (r & p' & c' & E & O' & R' & Hc' & K1 & K2 & K3 & Ho & _).
  destruct Hin as [u Hu]. pose proof (Hb _ _ u Hu) as [Hb1 Hb2].
  pose proof (Hh _ _ u i c Hu Hc eq_refl eq_refl) as Hcu. exists r, p', (<[(dev c, block c) := Blocks.released u]> m).
  split; [done|]. split; [apply give_Ok; [done|lia|done]|]. split; [|by eapply reach_brelse].
  apply (describes_upd v v p p' m (dev c) (block c) u (Blocks.released u) i c' Hm Hu O' Hc' K1 K2).
  - done.
  - rewrite <- Hb1. unfold Blocks.released. by destruct (_ && _).
  - unfold Blocks.released. destruct (_ && _) eqn:Ea; [done|]. by cbn.
  - unfold Blocks.released. destruct (_ && _); cbn; lia.
  - intros j e Hj. by rewrite Ho.
  - intros j e Hj. by rewrite Ho.
  - intros c0 Hc0. left. assert (c0 = c) as -> by congruence. done.
Qed.

Lemma refine_bwrite :
  ∀ i c, caches p !! i = Some c → is_Some (m !! (dev c, block c)) →
    ∃ p' m', bwrite i p = Ok ((), p') ∧ Blocks.bwrite (dev c, block c) m = Ok ((), m') ∧ describes v p' m' ∧ reach v p'.
Proof.
  destruct (reach_ok v p H) as [O R]. pose proof Hm as [Hd Hb Hh Hf].
  intros i c Hc Hin. destruct (bwrite_Ok v i c p O R Hc) as (p' & E & O' & R' & Hc' & Ho & _).
  destruct Hin as [u Hu]. pose proof (Hb _ _ u Hu) as [Hb1 Hb2].
  pose proof (Hh _ _ u i c Hu Hc eq_refl eq_refl) as Hcu. set (u' := if Blocks.dirty u then written u else u).
  exists p', (<[(dev c, block c) := u']> m). split; [done|]. split.
  { unfold Blocks.bwrite. rewrite (st_bind_eq _ _ _ _ _ (get_buf_Ok m _ u Hu)). unfold u'. destruct (Blocks.dirty u); [by apply upd_buf_Ok|].
    by rewrite insert_id. }
  split; [|by eapply reach_bwrite]. assert (count (if dirty c then set_flags false true c else c) = count c) as Ect by by destruct (dirty c).
  apply (describes_upd v v p p' m (dev c) (block c) u u' i _ Hm Hu O' Hc').
  - by destruct (dirty c).
  - by destruct (dirty c).
  - done.
  - rewrite <- Hb1. unfold u'. by destruct (Blocks.dirty u).
  - unfold u'. destruct (Blocks.dirty u) eqn:Ed; cbn; [done|intros _; by apply Hb2].
  - rewrite Ect. unfold u'. by destruct (Blocks.dirty u).
  - intros j e Hj. by rewrite Ho.
  - intros j e Hj. by rewrite Ho.
  - intros c0 Hc0. left. assert (c0 = c) as -> by congruence. done.
Qed.

Lemma refine_store :
  ∀ i c l, caches p !! i = Some c → is_Some (m !! (dev c, block c)) → 0 < count c → valid c = true → block_bytes l →
    ∃ p' m', store_block i l p = Ok ((), p') ∧
      (upd_buf (dev c, block c) (set_bytes l);; mark_dirty (dev c, block c)) m = Ok ((), m') ∧
      describes (stored (dev c) (block c) l v) p' m' ∧ reach (stored (dev c) (block c) l v) p'.
Proof.
  destruct (reach_ok v p H) as [O R]. pose proof Hm as [Hd Hb Hh Hf].
  intros i c l Hc Hin Hpos Hv Hl. destruct (store_block_Ok v i c l p O R Hc Hpos Hv Hl) as (p' & E & O' & R' & Ec).
  destruct Hin as [u Hu].
  pose proof (Hh _ _ u i c Hu Hc eq_refl eq_refl) as Hcu. pose proof (lookup_lt_Some _ _ _ Hc) as Hlt.
  exists p', (<[(dev c, block c) := Blocks.set_dirty true (set_bytes l u)]> m). split; [done|]. split.
  { rewrite (st_bind_eq _ _ _ _ _ (upd_buf_Ok m _ _ u Hu)). unfold mark_dirty. rewrite (upd_buf_Ok _ _ _ (set_bytes l u)) by apply lookup_insert_eq.
    by rewrite insert_insert_eq. }
  split; [|by eapply reach_store]. apply (describes_upd v _ p p' m (dev c) (block c) u _ i (set_flags true true c) Hm Hu O').
  - rewrite Ec. by apply list_lookup_insert_eq.
  - done.
  - done.
  - intros e g Hne. unfold stored. by rewrite decide_False by (intros [-> ->]; by apply Hne).
  - unfold stored. by rewrite decide_True.
  - done.
  - done.
  - intros j e Hj. by rewrite Ec, list_lookup_insert_ne.
  - intros j e Hj. by rewrite Ec, list_lookup_insert_ne.
  - intros c0 Hc0. left. assert (c0 = c) as -> by congruence. done.
Qed.

Lemma refine_free :
  ∀ dv b u, m !! (dv, b) = Some u → holders u = 0 → on_device (disk p) dv b = bytes u.
Proof.
  destruct (reach_ok v p H) as [O R]. pose proof Hm as [Hd Hb Hh Hf].
  intros dv b u Hu H0. rewrite (proj1 (Hb dv b u Hu)). destruct (R dv b (Hd dv b ltac:(by eexists))) as [_ R2]. apply R2.
  intros i c Hc E1 E2. apply (po_at _ O i c Hc). by rewrite <- (Hh dv b u i c Hu Hc E1 E2).
Qed.

End operations.

(** C7. The four operations.  [bread] and [brelse] do to the holders what they do in the map, a
    store changes the bytes of this block only, and nothing else of the description changes. *)
Theorem blocks_refine v p m :
  reach v p → describes v p m →
  (∀ t dv b i p', is_Some (m !! (dv, b)) → bread t dv b p = Ok (Some i, p') →
     ∃ m' c, Blocks.bread dv b m = Ok ((dv, b), m') ∧ describes v p' m' ∧ reach v p' ∧
       caches p' !! i = Some c ∧ dev c = dv ∧ block c = b ∧ ∀ u, m' !! (dv, b) = Some u → buffer (disk p') (data c) = bytes u) ∧
  (∀ i c, caches p !! i = Some c → is_Some (m !! (dev c, block c)) → 0 < count c →
     ∃ r p' m', brelse (Some i) p = Ok (r, p') ∧ Blocks.brelse (Some (dev c, block c)) m = Ok ((), m') ∧ describes v p' m' ∧ reach v p') ∧
  (∀ i c, caches p !! i = Some c → is_Some (m !! (dev c, block c)) →
     ∃ p' m', bwrite i p = Ok ((), p') ∧ Blocks.bwrite (dev c, block c) m = Ok ((), m') ∧ describes v p' m' ∧ reach v p') ∧
  (∀ i c l, caches p !! i = Some c → is_Some (m !! (dev c, block c)) → 0 < count c → valid c = true → block_bytes l →
     ∃ p' m', store_block i l p = Ok ((), p') ∧
       (upd_buf (dev c, block c) (set_bytes l);; mark_dirty (dev c, block c)) m = Ok ((), m') ∧
       describes (stored (dev c) (block c) l v) p' m' ∧ reach (stored (dev c) (block c) l v) p') ∧
  (∀ dv b u, m !! (dv, b) = Some u → holders u = 0 → on_device (disk p) dv b = bytes u).
Proof. intros H Hm. split_and!; [by apply refine_bread|by apply refine_brelse|by apply refine_bwrite|by apply refine_store|by apply (refine_free v)]. Qed.
End refine.

(** ** A concrete pool

    The disk of Cache.v with nothing cached, of which the map describes one block. *)
Definition demo_map : gmap (Z * Z) buf_t := {[(1, 2) := Buf [1; 2] 0 false [1; 2]]}.

Lemma demo_describes : describes (on_device blank) (page_cache_init blank) demo_map.
Proof.
  assert (∀ dv b u, demo_map !! (dv, b) = Some u → dv = 1 ∧ b = 2 ∧ u = Buf [1; 2] 0 false [1; 2]) as H.
  { intros dv b u Hu. unfold demo_map in Hu. apply lookup_singleton_Some in Hu as [E <-]. by injection E as <- <-. }
  split.
  - intros dv b [u Hu]. destruct (H _ _ _ Hu) as (-> & -> & _). cbn. lia.
  - intros dv b u Hu. by destruct (H _ _ _ Hu) as (-> & -> & ->).
  - intros dv b u i c _ Hc. cbn in Hc. by rewrite lookup_nil in Hc.
  - intros dv b u Hu _. by destruct (H _ _ _ Hu) as (_ & _ & ->).
Qed.

Lemma blocks_refine_witness :
  reach (on_device blank) (page_cache_init blank) ∧
  ∃ p' m', bread 0 1 2 (page_cache_init blank) = Ok (Some 0%nat, p') ∧ Blocks.bread 1 2 demo_map = Ok ((1, 2), m') ∧
    describes (on_device blank) p' m'.
Proof.
  pose proof (reach_init blank blank_ok) as H0. split; [exact H0|].
  destruct (blocks_refine (on_device blank) (page_cache_init blank) demo_map H0 demo_describes) as (Hb & _).
  destruct (bread 0 1 2 (page_cache_init blank)) as [[[i|] p']|] eqn:E; [|done|done].
  assert (i = 0%nat) as -> by (vm_compute in E; congruence).
  destruct (Hb 0 1 2 0%nat p' ltac:(by eexists) E) as (m' & c & E' & Hd & _). by exists p', m'.
Defined.
