(* ===== verification/Inode.v ===== *)
(** * Inodes and super blocks in memory (src/fs/inode.c, the table of src/fs/super.c)

    The inode table, the super block table, the lists of the inodes of a device, reference counts,
    and the access to descriptors through pointers into cached blocks.  A pointer to an inode or a
    super block is its place in the table; a descriptor is the block it lies in and its offset. *)

From stdpp Require Import gmap.
From S2P Require Import Prelude KString Blocks.

Definition INODE_NR : Z := 64.
Definition SUPER_NR : Z := 16.
Definition IMAP_NR : Z := 8.
Definition ZMAP_NR : Z := 8.
Definition FS_SUPER_BLOCK_NR : Z := 1.
Definition FS_IMAP_BLOCK_NR : Z := 2.
Definition MINIX_V1_MAGIC : Z := 0x137F.
Definition BLOCK_INODES : Z := 32.
Definition BLOCK_DENTRIES : Z := 64.
(** [sizeof(inode_desc_t)] and [sizeof(dentry_t)]. *)
Definition sizeof_desc : Z := 32.
Definition sizeof_dentry : Z := 16.

(** [inode_t]; the list node is the place in the super block's list, the waiting tasks of a pipe
    are in Pipe.v. *)
Record inode_t := Inode {
  i_desc : option (key * Z); i_cache : option key; i_dev : Z; i_nr : Z; i_count : Z;
  i_atime : Z; i_ctime : Z; i_mount : Z; i_pipe : bool
}.
Definition set_icount (v : Z) (n : inode_t) : inode_t := Inode (i_desc n) (i_cache n) (i_dev n) (i_nr n) v (i_atime n) (i_ctime n) (i_mount n) (i_pipe n).
Definition set_idev (v : Z) (n : inode_t) : inode_t := Inode (i_desc n) (i_cache n) v (i_nr n) (i_count n) (i_atime n) (i_ctime n) (i_mount n) (i_pipe n).
Definition set_inr (v : Z) (n : inode_t) : inode_t := Inode (i_desc n) (i_cache n) (i_dev n) v (i_count n) (i_atime n) (i_ctime n) (i_mount n) (i_pipe n).
Definition set_atime (v : Z) (n : inode_t) : inode_t := Inode (i_desc n) (i_cache n) (i_dev n) (i_nr n) (i_count n) v (i_ctime n) (i_mount n) (i_pipe n).
Definition set_ctime (v : Z) (n : inode_t) : inode_t := Inode (i_desc n) (i_cache n) (i_dev n) (i_nr n) (i_count n) (i_atime n) v (i_mount n) (i_pipe n).
Definition set_mount (v : Z) (n : inode_t) : inode_t := Inode (i_desc n) (i_cache n) (i_dev n) (i_nr n) (i_count n) (i_atime n) (i_ctime n) v (i_pipe n).
Definition set_pipe (v : bool) (n : inode_t) : inode_t := Inode (i_desc n) (i_cache n) (i_dev n) (i_nr n) (i_count n) (i_atime n) (i_ctime n) (i_mount n) v.
Definition set_place (d : option (key * Z)) (c : option key) (n : inode_t) : inode_t := Inode d c (i_dev n) (i_nr n) (i_count n) (i_atime n) (i_ctime n) (i_mount n) (i_pipe n).

(** [super_block_t]; the descriptor is at the beginning of its block. *)
Record super_t := Super {
  s_block : option key; imaps : list (option key); zmaps : list (option key); s_dev : Z; s_count : Z;
  inode_list : list nat; s_iroot : option nat; s_imount : option nat
}.
Definition set_scount (v : Z) (s : super_t) : super_t := Super (s_block s) (imaps s) (zmaps s) (s_dev s) v (inode_list s) (s_iroot s) (s_imount s).
Definition set_sdev (v : Z) (s : super_t) : super_t := Super (s_block s) (imaps s) (zmaps s) v (s_count s) (inode_list s) (s_iroot s) (s_imount s).
Definition set_ilist (v : list nat) (s : super_t) : super_t := Super (s_block s) (imaps s) (zmaps s) (s_dev s) (s_count s) v (s_iroot s) (s_imount s).
Definition set_iroot (v : option nat) (s : super_t) : super_t := Super (s_block s) (imaps s) (zmaps s) (s_dev s) (s_count s) (inode_list s) v (s_imount s).
Definition set_imount (v : option nat) (s : super_t) : super_t := Super (s_block s) (imaps s) (zmaps s) (s_dev s) (s_count s) (inode_list s) (s_iroot s) v.
Definition set_sblock (v : option key) (s : super_t) : super_t := Super v (imaps s) (zmaps s) (s_dev s) (s_count s) (inode_list s) (s_iroot s) (s_imount s).
Definition set_maps (i z : list (option key)) (s : super_t) : super_t := Super (s_block s) i z (s_dev s) (s_count s) (inode_list s) (s_iroot s) (s_imount s).

(** The globals, the fields of the current task the file system uses, the memory with the paths
    the callers pass, and what [sys_time] will answer, call by call. *)
Record fs := Fs {
  cache : bufs; supers : list super_t; inodes : list inode_t; clock : nat → Z; user : mem;
  t_uid : Z; t_gid : Z; t_umask : Z; t_iroot : nat; t_ipwd : nat
}.
Definition FM := ST fs.
Definition set_cache (m : bufs) (s : fs) : fs := Fs m (supers s) (inodes s) (clock s) (user s) (t_uid s) (t_gid s) (t_umask s) (t_iroot s) (t_ipwd s).
Definition set_supers (l : list super_t) (s : fs) : fs := Fs (cache s) l (inodes s) (clock s) (user s) (t_uid s) (t_gid s) (t_umask s) (t_iroot s) (t_ipwd s).
Definition set_inodes (l : list inode_t) (s : fs) : fs := Fs (cache s) (supers s) l (clock s) (user s) (t_uid s) (t_gid s) (t_umask s) (t_iroot s) (t_ipwd s).
Definition set_clock (c : nat → Z) (s : fs) : fs := Fs (cache s) (supers s) (inodes s) c (user s) (t_uid s) (t_gid s) (t_umask s) (t_iroot s) (t_ipwd s).
Definition set_dirs (r p : nat) (s : fs) : fs := Fs (cache s) (supers s) (inodes s) (clock s) (user s) (t_uid s) (t_gid s) (t_umask s) r p.

Definition on_cache {A} (m : BM A) : FM A := λ s,
  match m (cache s) with Ok (a, c) => Ok (a, set_cache c s) | Stop e => Stop e end.
(** The paths are only read. *)
Definition on_user {A} (m : M A) : FM A := λ s,
  match m (user s) with Ok (a, _) => Ok (a, s) | Stop e => Stop e end.
Definition sys_time : FM Z := λ s, Ok (clock s 0, set_clock (λ n, clock s (S n)) s).

Definition get_inode (i : nat) : FM inode_t := λ s,
  match inodes s !! i with Some n => Ok (n, s) | None => Stop OutOfBounds end.
Definition upd_inode (i : nat) (f : inode_t → inode_t) : FM unit := λ s,
  match inodes s !! i with Some n => Ok ((), set_inodes (<[i := f n]> (inodes s)) s) | None => Stop OutOfBounds end.
Definition get_sb (j : nat) : FM super_t := λ s,
  match supers s !! j with Some b => Ok (b, s) | None => Stop OutOfBounds end.
Definition upd_sb (j : nat) (f : super_t → super_t) : FM unit := λ s,
  match supers s !! j with Some b => Ok ((), set_supers (<[j := f b]> (supers s)) s) | None => Stop OutOfBounds end.

(** A pointer that must not be null. *)
Definition deref {S A} (o : option A) : ST S A := match o with Some a => mret a | None => stop_st OutOfBounds end.

(** ** Descriptors *)

(** The fields of [inode_desc_t] by their offsets. *)
Definition MODE : Z := 0.
Definition UID : Z := 2.
Definition SIZE : Z := 4.
Definition MTIME : Z := 8.
Definition GID : Z := 12.
Definition NLINKS : Z := 13.
Definition ZONE : Z := 14.

Definition desc_of (i : nat) : FM (key * Z) := n ← get_inode i; deref (i_desc n).
Definition dget8 (i : nat) (f : Z) : FM Z := '(k, o) ← desc_of i; on_cache (rd8 k (o + f)).
Definition dget16 (i : nat) (f : Z) : FM Z := '(k, o) ← desc_of i; on_cache (rd16 k (o + f)).
Definition dget32 (i : nat) (f : Z) : FM Z := '(k, o) ← desc_of i; on_cache (rd32 k (o + f)).
Definition dset8 (i : nat) (f v : Z) : FM unit := '(k, o) ← desc_of i; on_cache (wr8 k (o + f) v).
Definition dset16 (i : nat) (f v : Z) : FM unit := '(k, o) ← desc_of i; on_cache (wr16 k (o + f) v).
Definition dset32 (i : nat) (f v : Z) : FM unit := '(k, o) ← desc_of i; on_cache (wr32 k (o + f) v).
(** [inode->cache->dirty = true]. *)
Definition idirty (i : nat) : FM unit := n ← get_inode i; k ← deref (i_cache n); on_cache (mark_dirty k).

(** The fields of [super_desc_t]. *)
Definition INODES : Z := 0.
Definition ZONES : Z := 2.
Definition IMAP_BLOCKS : Z := 4.
Definition ZMAP_BLOCKS : Z := 6.
Definition FIRSTDATAZONE : Z := 8.
Definition LOG_ZONE_SIZE : Z := 10.
Definition MAX_SIZE : Z := 12.
Definition MAGIC : Z := 16.
Definition sget16 (j : nat) (f : Z) : FM Z := b ← get_sb j; k ← deref (s_block b); on_cache (rd16 k f).

(** ** The inode table *)

Fixpoint free_from (k : nat) (l : list inode_t) : option nat :=
  match l with [] => None | n :: l => if i_dev n =? EOFu then Some k else free_from (S k) l end.
Definition get_free_inode : FM nat := λ s,
  match free_from 0 (inodes s) with Some i => Ok (i, s) | None => Stop Panic end.

Definition put_free_inode (i : nat) : FM unit :=
  sassert (negb (i =? 0)%nat);;
  n ← get_inode i;
  sassert (i_count n =? 0);;
  upd_inode i (set_idev EOFu).

Definition put_pipe_inode (o : option nat) : FM unit :=
  match o with
  | None => mret ()
  | Some i =>
      n ← get_inode i;
      sassert (i_pipe n);;
      upd_inode i (λ n, set_icount (u32 (i_count n - 1)) n);;
      n ← get_inode i;
      if negb (i_count n =? 0) then mret ()
      else upd_inode i (set_pipe false);; put_free_inode i           (* kfree(desc); free_kpage(cache) *)
  end.

(** [list_remove(&inode->node)]: the node is in at most one list. *)
Definition list_remove (i : nat) : FM unit :=
  modify_st (λ s, set_supers ((λ b, set_ilist (filter (λ j, j ≠ i) (inode_list b)) b) <$> supers s) s).

Definition iput (o : option nat) : FM unit :=
  match o with
  | None => mret ()
  | Some i =>
      n ← get_inode i;
      if i_pipe n then put_pipe_inode o
      else
        k ← deref (i_cache n);
        on_cache (u ← get_buf k; if dirty u then bwrite k else mret ());;
        upd_inode i (λ n, set_icount (u32 (i_count n - 1)) n);;
        n ← get_inode i;
        if negb (i_count n =? 0) then mret ()
        else
          on_cache (brelse (i_cache n));;
          list_remove i;;
          put_free_inode i
  end.

(** ** Super blocks *)

Fixpoint super_from (k : nat) (d : Z) (l : list super_t) : option nat :=
  match l with [] => None | b :: l => if s_dev b =? d then Some k else super_from (S k) d l end.
Definition get_free_super : FM nat := λ s,
  match super_from 0 EOFu (supers s) with Some j => Ok (j, s) | None => Stop Panic end.
Definition get_super (d : Z) : FM (option nat) := λ s,
  match super_from 0 d (supers s) with
  | Some j => (upd_sb j (λ b, set_scount (u32 (s_count b + 1)) b);; mret (Some j)) s
  | None => Ok (None, s)
  end.

(** [brelse] of the bitmaps from [i] on. *)
Fixpoint brelse_maps (l : list (option key)) : BM unit :=
  match l with [] => mret () | k :: l => brelse k;; brelse_maps l end.

Definition put_super (o : option nat) : FM unit :=
  match o with
  | None => mret ()
  | Some j =>
      b ← get_sb j;
      sassert (0 <? s_count b);;
      upd_sb j (λ b, set_scount (u32 (s_count b - 1)) b);;
      b ← get_sb j;
      if negb (s_count b =? 0) then mret ()
      else
        upd_sb j (set_sdev EOFu);;
        iput (s_imount b);;
        iput (s_iroot b);;
        im ← sget16 j IMAP_BLOCKS;
        on_cache (brelse_maps (take (Z.to_nat (Z.min im IMAP_NR)) (imaps b)));;
        zm ← sget16 j ZMAP_BLOCKS;
        on_cache (brelse_maps (take (Z.to_nat (Z.min zm ZMAP_NR)) (zmaps b)));;
        on_cache (brelse (s_block b))
  end.

(** ** Getting an inode *)

Definition get_root_inode : nat := 0.

Definition inode_block (j : nat) (nr : Z) : FM Z :=
  im ← sget16 j IMAP_BLOCKS;
  zm ← sget16 j ZMAP_BLOCKS;
  mret (u32 (FS_IMAP_BLOCK_NR + im + zm + u32 (nr - 1) / BLOCK_INODES)).

Fixpoint find_nr (l : list nat) (nr : Z) : FM (option nat) :=
  match l with [] => mret None | i :: l => n ← get_inode i; if i_nr n =? nr then mret (Some i) else find_nr l nr end.
Definition find_inode (d nr : Z) : FM (option nat) :=
  o ← get_super d;
  j ← (match o with Some j => mret j | None => stop_st Panic end);
  b ← get_sb j;
  r ← find_nr (inode_list b) nr;
  put_super (Some j);;
  mret r.

(** [fit_inode]: a mounted directory is exchanged for the root of what is mounted there. *)
Definition fit_inode (o : option nat) : FM (option nat) :=
  match o with
  | None => mret None
  | Some i =>
      n ← get_inode i;
      if i_mount n =? 0 then mret (Some i)
      else
        o ← get_super (i_mount n);
        j ← (match o with Some j => mret j | None => stop_st Panic end);
        iput (Some i);;
        b ← get_sb j;
        r ← deref (s_iroot b);
        upd_inode r (λ n, set_icount (u32 (i_count n + 1)) n);;
        put_super (Some j);;
        mret (Some r)
  end.

(** [iget] from the point where the inode is not in the table. *)
Definition iget_new (d nr : Z) : FM nat :=
  o ← get_super d;
  j ← (match o with Some j => mret j | None => stop_st Panic end);
  ni ← sget16 j INODES;
  sassert (nr <=? ni);;
  i ← get_free_inode;
  upd_inode i (λ n, set_inr nr (set_idev d n));;
  n ← get_inode i;
  (if (i =? get_root_inode)%nat then sassert (i_count n =? 4) else upd_inode i (set_icount 1));;
  upd_sb j (λ b, set_ilist (i :: inode_list b) b);;
  blk ← inode_block j nr;
  k ← on_cache (bread d blk);
  upd_inode i (set_place (Some (k, u32 (nr - 1) mod BLOCK_INODES * sizeof_desc)) (Some k));;
  mt ← dget32 i MTIME;
  upd_inode i (set_ctime mt);;
  now ← sys_time;
  upd_inode i (set_atime now);;
  put_super (Some j);;
  mret i.

Definition iget (d nr : Z) : FM nat :=
  o ← find_inode d nr;
  match o with
  | Some i =>
      upd_inode i (λ n, set_icount (u32 (i_count n + 1)) n);;
      now ← sys_time;
      upd_inode i (set_atime now);;
      o ← fit_inode (Some i);
      deref o
  | None => iget_new d nr
  end.

Definition new_inode (d nr : Z) : FM nat :=
  s ← get_st;
  i ← iget d nr;
  idirty i;;
  dset16 i MODE (Z.land 511 (Z.lnot (t_umask s)));;
  dset16 i UID (t_uid s);;
  dset32 i SIZE 0;;
  now ← sys_time;
  upd_inode i (set_atime now);;
  dset32 i MTIME now;;
  dset8 i GID (t_gid s);;
  dset8 i NLINKS 1;;
  mret i.

(** [get_pipe_inode]; the ring itself is [new_pipe] of Pipe. *)
Definition get_pipe_inode : FM nat :=
  i ← get_free_inode;
  upd_inode i (λ n, set_pipe true (set_icount 2 (set_place None None (set_idev (u32 (-2)) n))));;
  mret i.

Definition inode_init : FM unit :=
  modify_st (λ s, set_inodes ((λ n, set_icount 0 (set_idev EOFu n)) <$> inodes s) s).

(** ** Lemmas on the state *)

Lemma on_cache_Ok {A} (m : BM A) s a c : m (cache s) = Ok (a, c) → on_cache m s = Ok (a, set_cache c s).
Proof. intros H. unfold on_cache. by rewrite H. Qed.

Lemma set_cache_same s : set_cache (cache s) s = s.
Proof. by destruct s. Qed.

(** An access that changes no block. *)
Lemma on_cache_read {A} (m : BM A) s a : m (cache s) = Ok (a, cache s) → on_cache m s = Ok (a, s).
Proof. intros H. rewrite (on_cache_Ok _ _ _ _ H). by rewrite set_cache_same. Qed.

Lemma get_inode_Ok s i n : inodes s !! i = Some n → get_inode i s = Ok (n, s).
Proof. intros H. unfold get_inode. by rewrite H. Qed.

Lemma get_sb_Ok s j b : supers s !! j = Some b → get_sb j s = Ok (b, s).
Proof. intros H. unfold get_sb. by rewrite H. Qed.

Lemma upd_inode_Ok s i f n : inodes s !! i = Some n → upd_inode i f s = Ok ((), set_inodes (<[i := f n]> (inodes s)) s).
Proof. intros H. unfold upd_inode. by rewrite H. Qed.

Lemma upd_sb_Ok s j f b : supers s !! j = Some b → upd_sb j f s = Ok ((), set_supers (<[j := f b]> (supers s)) s).
Proof. intros H. unfold upd_sb. by rewrite H. Qed.

(** An inode in use with its descriptor: the block, the offset, and the block's buffer. *)
Record inode_at (s : fs) (i : nat) (n : inode_t) (k : key) (o : Z) (u : buf_t) : Prop := {
  ia_inode : inodes s !! i = Some n;
  ia_desc : i_desc n = Some (k, o);
  ia_cache : i_cache n = Some k;
  ia_block : cache s !! k = Some u;
  ia_off : 0 <= o ∧ o + sizeof_desc <= BLOCK_SIZE
}.

Lemma desc_of_Ok s i n k o u : inode_at s i n k o u → desc_of i s = Ok ((k, o), s).
Proof. intros []. unfold desc_of. rewrite (st_bind_eq _ _ _ _ _ (get_inode_Ok s i n ltac:(done))). by rewrite ia_desc0. Qed.

Lemma block_length u : buf_ok u → Z.of_nat (length (bytes u)) = BLOCK_SIZE.
Proof. intros [[H _] _ _ _]. done. Qed.

(** Reading a field of a descriptor or of a super block. *)
Lemma on_cache_rd {A} s k i n (f : list Z → A) u :
  cache s !! k = Some u → buf_ok u → 0 <= i → i + n <= BLOCK_SIZE → on_cache (rd k i n f) s = Ok (f (bytes u), s).
Proof. intros Hk Hu Hi Hn. apply on_cache_read. apply rd_Ok; [done..|]. by rewrite block_length. Qed.

Lemma dget_Ok {A} s i n k o u f w (g : list Z → A) :
  inode_at s i n k o u → buf_ok u → 0 <= f → f + w <= sizeof_desc → on_cache (rd k (o + f) w g) s = Ok (g (bytes u), s).
Proof. intros [_ _ _ Hb [Ho1 Ho2]] Hu H0 Hf. apply on_cache_rd; [done|done|lia..]. Qed.

Lemma dget16_Ok s i n k o u f :
  inode_at s i n k o u → buf_ok u → 0 <= f → f + 2 <= sizeof_desc → dget16 i f s = Ok (word (bytes u) (o + f), s).
Proof. intros H ???. unfold dget16. rewrite (st_bind_eq _ _ _ _ _ (desc_of_Ok _ _ _ _ _ _ H)). by eapply (dget_Ok s i n k o u f 2). Qed.
Lemma dget32_Ok s i n k o u f :
  inode_at s i n k o u → buf_ok u → 0 <= f → f + 4 <= sizeof_desc → dget32 i f s = Ok (dword (bytes u) (o + f), s).
Proof. intros H ???. unfold dget32. rewrite (st_bind_eq _ _ _ _ _ (desc_of_Ok _ _ _ _ _ _ H)). by eapply (dget_Ok s i n k o u f 4). Qed.
Lemma dget8_Ok s i n k o u f :
  inode_at s i n k o u → buf_ok u → 0 <= f → f + 1 <= sizeof_desc → dget8 i f s = Ok (byte (bytes u) (o + f), s).
Proof. intros H ???. unfold dget8. rewrite (st_bind_eq _ _ _ _ _ (desc_of_Ok _ _ _ _ _ _ H)). by eapply (dget_Ok s i n k o u f 1). Qed.

(** Storing a field of a descriptor. *)
Lemma dset_Ok s i n k o u f d :
  inode_at s i n k o u → buf_ok u → 0 <= f → f + Z.of_nat (length d) <= sizeof_desc →
  on_cache (wr k (o + f) d) s = Ok ((), set_cache (<[k := set_bytes (patch (bytes u) (o + f) d) u]> (cache s)) s).
Proof.
  intros [_ _ _ Hb [Ho1 Ho2]] Hu H0 Hf. apply on_cache_Ok. apply wr_Ok; [done|lia|]. rewrite (block_length u Hu). lia.
Qed.
Lemma dset32_Ok s i n k o u f v :
  inode_at s i n k o u → buf_ok u → 0 <= f → f + 4 <= sizeof_desc →
  dset32 i f v s = Ok ((), set_cache (<[k := set_bytes (patch (bytes u) (o + f) (enc32 v)) u]> (cache s)) s).
Proof. intros H ???. unfold dset32. rewrite (st_bind_eq _ _ _ _ _ (desc_of_Ok _ _ _ _ _ _ H)). by eapply (dset_Ok s i n k o u f (enc32 v)). Qed.

(** The block of a descriptor after a change of it, and the file system then. *)
Lemma inode_at_set s i n k o u u' : inode_at s i n k o u → inode_at (set_cache (<[k := u']> (cache s)) s) i n k o u'.
Proof. intros []. split; try done. apply lookup_insert_eq. Qed.

Lemma dset8_Ok s i n k o u f v :
  inode_at s i n k o u → buf_ok u → 0 <= f → f + 1 <= sizeof_desc →
  dset8 i f v s = Ok ((), set_cache (<[k := set_bytes (patch (bytes u) (o + f) [v mod 256]) u]> (cache s)) s).
Proof. intros H ???. unfold dset8. rewrite (st_bind_eq _ _ _ _ _ (desc_of_Ok _ _ _ _ _ _ H)). by eapply (dset_Ok s i n k o u f [v mod 256]). Qed.
Lemma dset16_Ok s i n k o u f v :
  inode_at s i n k o u → buf_ok u → 0 <= f → f + 2 <= sizeof_desc →
  dset16 i f v s = Ok ((), set_cache (<[k := set_bytes (patch (bytes u) (o + f) (enc16 v)) u]> (cache s)) s).
Proof. intros H ???. unfold dset16. rewrite (st_bind_eq _ _ _ _ _ (desc_of_Ok _ _ _ _ _ _ H)). by eapply (dset_Ok s i n k o u f (enc16 v)). Qed.

Lemma idirty_Ok s i n k o u : inode_at s i n k o u → idirty i s = Ok ((), set_cache (<[k := set_dirty true u]> (cache s)) s).
Proof.
  intros []. unfold idirty. rewrite (st_bind_eq _ _ _ _ _ (get_inode_Ok s i n ltac:(done))), ia_cache0.
  rewrite (st_bind_eq (deref (Some k)) _ s k s) by done. apply on_cache_Ok. by apply (upd_buf_Ok _ _ (set_dirty true)).
Qed.

(** A field stored in a block that is held and will be written. *)
Lemma patched_ok u o d : buf_ok u → dirty u = true → 0 <= o → o + Z.of_nat (length d) <= BLOCK_SIZE → Forall is_byte d →
  buf_ok (set_bytes (patch (bytes u) o d) u).
Proof. intros [H1 H2 H3 H4] Hd Ho Hl Hb. split; cbn; [by apply patch_block|done|congruence|done]. Qed.

(** ** The super block of a device *)

(** Super block [j] is the one of device [d] and is in use; [ub] holds its descriptor. *)
Record super_at (s : fs) (d : Z) (j : nat) (b : super_t) (k : key) (ub : buf_t) : Prop := {
  sa_find : super_from 0 d (supers s) = Some j;
  sa_super : supers s !! j = Some b;
  sa_dev : s_dev b = d;
  sa_count : 0 < s_count b < 4294967295;
  sa_block : s_block b = Some k;
  sa_cache : cache s !! k = Some ub;
  sa_ok : buf_ok ub
}.

Definition counted (j : nat) (b : super_t) (s : fs) : fs := set_supers (<[j := set_scount (s_count b + 1) b]> (supers s)) s.

Lemma get_super_Ok s d j b k ub : super_at s d j b k ub → get_super d s = Ok (Some j, counted j b s).
Proof.
  intros []. unfold get_super. rewrite sa_find0. rewrite (st_bind_eq _ _ _ _ _ (upd_sb_Ok s j _ b sa_super0)). rewrite u32_small by lia. done.
Qed.

Lemma counted_sb s d j b k ub : super_at s d j b k ub → supers (counted j b s) !! j = Some (set_scount (s_count b + 1) b).
Proof. intros []. cbn. apply list_lookup_insert_eq. by eapply lookup_lt_Some. Qed.

Lemma sget16_Ok s j b k ub f :
  supers s !! j = Some b → s_block b = Some k → cache s !! k = Some ub → buf_ok ub → 0 <= f <= 18 → sget16 j f s = Ok (word (bytes ub) f, s).
Proof.
  intros Hb Hk Hc Hu Hf. unfold sget16. rewrite (st_bind_eq _ _ _ _ _ (get_sb_Ok s j b Hb)). rewrite Hk. cbn [deref].
  rewrite (st_bind_eq (mret k) _ s k s eq_refl). exact (on_cache_rd s k f 2 (λ l, word l f) ub Hc Hu (proj1 Hf) ltac:(unfold BLOCK_SIZE; lia)).
Qed.

(** Giving the super block back, other things of the state having changed. *)
Lemma put_super_Ok s s' d j b k ub :
  super_at s d j b k ub → supers s' = supers (counted j b s) → put_super (Some j) s' = Ok ((), set_supers (supers s) s').
Proof.
  intros H Hs. pose proof (counted_sb _ _ _ _ _ _ H) as Hc. rewrite <- Hs in Hc. destruct H. unfold put_super.
  rewrite (st_bind_eq _ _ _ _ _ (get_sb_Ok s' j _ Hc)). cbn [s_count set_scount].
  rewrite (st_bind_eq (sassert _) _ s' () s') by (unfold sassert; by destruct (Z.ltb_spec 0 (s_count b + 1)); [|lia]).
  rewrite (st_bind_eq _ _ _ _ _ (upd_sb_Ok s' j _ _ Hc)). cbn [s_count set_scount]. set (b' := set_scount _ _).
  assert (b' = b) as Eb.
  { unfold b'. cbn [s_count set_scount]. rewrite u32_small by lia. replace (s_count b + 1 - 1) with (s_count b) by lia. by destruct b. }
  rewrite Eb. set (s2 := set_supers _ s').
  assert (s2 = set_supers (supers s) s') as E2.
  { unfold s2. rewrite Hs. cbn [supers counted set_supers]. rewrite list_insert_insert_eq. f_equal. by apply list_insert_id. }
  assert (supers s2 !! j = Some b) as Hb by by rewrite E2.
  rewrite (st_bind_eq _ _ _ _ _ (get_sb_Ok s2 j b Hb)). destruct (Z.eqb_spec (s_count b) 0); [lia|]. cbn [negb]. by rewrite E2.
Qed.

Lemma set_supers_same s l : supers s = l → set_supers l s = s.
Proof. intros <-. by destruct s. Qed.

(** ** Getting and giving back *)

Lemma the_super_step {A} s d j b k ub (f : nat → FM A) : super_at s d j b k ub →
  (o ← get_super d; j ← (match o with Some j => mret j | None => stop_st Panic end); f j) s = f j (counted j b s).
Proof. intros H. rewrite (st_bind_eq _ _ _ _ _ (get_super_Ok _ _ _ _ _ _ H)). by rewrite (st_bind_eq (mret j) _ (counted j b s) j (counted j b s)). Qed.

(** The first of the listed inodes with the number. *)
Fixpoint listed (l : list nat) (ns : list inode_t) (nr : Z) : option nat :=
  match l with [] => None | i :: l => match ns !! i with Some n => if i_nr n =? nr then Some i else listed l ns nr | None => None end end.

Lemma find_nr_Ok l nr s : Forall (λ i, is_Some (inodes s !! i)) l → find_nr l nr s = Ok (listed l (inodes s) nr, s).
Proof.
  induction 1 as [|i l [n Hn] Hl IH]; [done|]. cbn [find_nr listed]. rewrite (st_bind_eq _ _ _ _ _ (get_inode_Ok s i n Hn)), Hn.
  by destruct (i_nr n =? nr).
Qed.

Lemma find_inode_Ok s d j b k ub nr :
  super_at s d j b k ub → Forall (λ i, is_Some (inodes s !! i)) (inode_list b) →
  find_inode d nr s = Ok (listed (inode_list b) (inodes s) nr, s).
Proof.
  intros H Hl. unfold find_inode. rewrite (the_super_step _ _ _ _ _ _ _ H).
  rewrite (st_bind_eq _ _ _ _ _ (get_sb_Ok _ j _ (counted_sb _ _ _ _ _ _ H))).
  rewrite (st_bind_eq _ _ _ _ _ (find_nr_Ok (inode_list b) nr (counted j b s) Hl)).
  rewrite (st_bind_eq _ _ _ _ _ (put_super_Ok s (counted j b s) d j b k ub H eq_refl)). by destruct s.
Qed.

(** [iget] of an inode in use: it is counted once more, and nothing is read. *)
Lemma iget_listed s d j b k ub nr i n :
  super_at s d j b k ub → Forall (λ i, is_Some (inodes s !! i)) (inode_list b) →
  listed (inode_list b) (inodes s) nr = Some i → inodes s !! i = Some n → i_mount n = 0 →
  iget d nr s = Ok (i, set_clock (λ m, clock s (S m)) (set_inodes (<[i := set_atime (clock s 0) (set_icount (u32 (i_count n + 1)) n)]> (inodes s)) s)).
Proof.
  intros H Hl Hi Hn Hm. unfold iget. rewrite (st_bind_eq _ _ _ _ _ (find_inode_Ok _ _ _ _ _ _ _ H Hl)). rewrite Hi.
  rewrite (st_bind_eq _ _ _ _ _ (upd_inode_Ok s i _ n Hn)). set (s1 := set_inodes _ s).
  set (s2 := set_clock (λ m, clock s (S m)) s1). rewrite (st_bind_eq sys_time _ s1 (clock s 0) s2) by done.
  assert (inodes s2 !! i = Some (set_icount (u32 (i_count n + 1)) n)) as Hn2 by (apply list_lookup_insert_eq; by eapply lookup_lt_Some).
  rewrite (st_bind_eq _ _ _ _ _ (upd_inode_Ok s2 i _ _ Hn2)). set (s3 := set_inodes _ s2).
  assert (s3 = set_clock (λ m, clock s (S m)) (set_inodes (<[i := set_atime (clock s 0) (set_icount (u32 (i_count n + 1)) n)]> (inodes s)) s)) as <-.
  { unfold s3, s2, s1. cbn. by rewrite list_insert_insert_eq. }
  rewrite (st_bind_eq (fit_inode _) _ s3 (Some i) s3); [done|]. unfold fit_inode.
  rewrite (st_bind_eq _ _ _ _ _ (get_inode_Ok s3 i _ (list_lookup_insert_eq _ _ _ (lookup_lt_Some _ _ _ Hn2)))). cbn [i_mount set_atime set_icount]. by rewrite Hm.
Qed.

(** Where [iget] puts an inode it has to read. *)
Definition fresh_inode (d nr : Z) (k : key) (u : buf_t) (now : Z) (old : inode_t) : inode_t :=
  let off := u32 (nr - 1) mod BLOCK_INODES * sizeof_desc in
  Inode (Some (k, off)) (Some k) d nr 1 now (dword (bytes u) (off + MTIME)) (i_mount old) (i_pipe old).

(** The block of inode [nr] on the device. *)
Definition block_of (l : list Z) (nr : Z) : Z := FS_IMAP_BLOCK_NR + word l IMAP_BLOCKS + word l ZMAP_BLOCKS + (nr - 1) / BLOCK_INODES.

Lemma free_from_spec k l i : free_from k l = Some i → (k <= i)%nat ∧ ∃ n, l !! (i - k)%nat = Some n ∧ i_dev n = EOFu.
Proof.
  revert k. induction l as [|n l IH]; intros k; cbn [free_from]; [done|]. destruct (Z.eqb_spec (i_dev n) EOFu) as [E|E].
  - intros [= ->]. split; [done|]. exists n. by rewrite Nat.sub_diag.
  - intros H. destruct (IH _ H) as (H1 & n' & H2 & H3). split; [lia|]. exists n'. split; [|done]. by replace (i - k)%nat with (S (i - S k)) by lia.
Qed.

Lemma put_super_count s j b : supers s !! j = Some b → 1 < s_count b < 4294967296 →
  put_super (Some j) s = Ok ((), set_supers (<[j := set_scount (s_count b - 1) b]> (supers s)) s).
Proof.
  intros Hb Hc. unfold put_super. rewrite (st_bind_eq _ _ _ _ _ (get_sb_Ok s j b Hb)).
  rewrite (st_bind_eq (sassert _) _ s () s) by (unfold sassert; by destruct (Z.ltb_spec 0 (s_count b)); [|lia]).
  rewrite (st_bind_eq _ _ _ _ _ (upd_sb_Ok s j _ b Hb)), u32_small by lia. set (s1 := set_supers _ s).
  assert (supers s1 !! j = Some (set_scount (s_count b - 1) b)) as H1 by (apply list_lookup_insert_eq; by eapply lookup_lt_Some).
  rewrite (st_bind_eq _ _ _ _ _ (get_sb_Ok s1 j _ H1)). cbn [s_count set_scount]. by destruct (Z.eqb_spec (s_count b - 1) 0); [lia|].
Qed.

(** The file system with inode [nr] of device [d] read into place [i]. *)
Definition got (s : fs) (d nr : Z) (i j : nat) (b : super_t) (kb : key) (u : buf_t) (old : inode_t) : fs :=
  set_clock (λ m, clock s (S m)) (set_inodes (<[i := fresh_inode d nr kb u (clock s 0) old]> (inodes s))
    (set_supers (<[j := set_ilist (i :: inode_list b) b]> (supers s)) (set_cache (<[kb := held u]> (cache s)) s))).

(** The conditions under which [iget] has to read the inode, and finds a place for it. *)
Record gettable (s : fs) (d nr : Z) (j : nat) (b : super_t) (k : key) (ub : buf_t) (i : nat) (old : inode_t) (u : buf_t) : Prop := {
  gt_super : super_at s d j b k ub;
  gt_list : Forall (λ i, is_Some (inodes s !! i)) (inode_list b);
  gt_none : listed (inode_list b) (inodes s) nr = None;
  gt_nr : 1 <= nr <= word (bytes ub) INODES;
  gt_free : free_from 0 (inodes s) = Some i;
  gt_root : i ≠ get_root_inode;
  gt_old : inodes s !! i = Some old;
  gt_block : cache s !! (d, block_of (bytes ub) nr) = Some u;
  gt_ok : buf_ok u
}.

Lemma desc_offset nr : 1 <= nr < 65536 → u32 (nr - 1) mod BLOCK_INODES * sizeof_desc = (nr - 1) mod BLOCK_INODES * sizeof_desc ∧
  0 <= (nr - 1) mod BLOCK_INODES * sizeof_desc ∧ (nr - 1) mod BLOCK_INODES * sizeof_desc + sizeof_desc <= BLOCK_SIZE.
Proof.
  intros H. rewrite u32_small by lia. pose proof (Z.mod_pos_bound (nr - 1) BLOCK_INODES ltac:(done)).
  unfold BLOCK_INODES, sizeof_desc, BLOCK_SIZE in *. lia.
Qed.

Lemma inode_block_Ok s j b k ub nr :
  supers s !! j = Some b → s_block b = Some k → cache s !! k = Some ub → buf_ok ub → 1 <= nr < 65536 →
  inode_block j nr s = Ok (block_of (bytes ub) nr, s).
Proof.
  intros Hb Hk Hc Hub Hnr. pose proof (proj2 (bo_block _ Hub)) as Hby. pose proof (word_range _ IMAP_BLOCKS Hby). pose proof (word_range _ ZMAP_BLOCKS Hby).
  assert (0 <= (nr - 1) / BLOCK_INODES < 65536).
  { split; [apply Z.div_pos; unfold BLOCK_INODES; lia|apply Z.div_lt_upper_bound; unfold BLOCK_INODES; lia]. }
  unfold inode_block. rewrite (st_bind_eq _ _ _ _ _ (sget16_Ok s j b k ub IMAP_BLOCKS Hb Hk Hc Hub ltac:(by split))).
  rewrite (st_bind_eq _ _ _ _ _ (sget16_Ok s j b k ub ZMAP_BLOCKS Hb Hk Hc Hub ltac:(by split))). unfold mret, st_ret. do 2 f_equal.
  unfold block_of. rewrite (u32_small (nr - 1)) by lia. apply u32_small. unfold FS_IMAP_BLOCK_NR. lia.
Qed.

Lemma iget_new_Ok s d nr j b k ub i old u :
  gettable s d nr j b k ub i old u → iget_new d nr s = Ok (i, got s d nr i j b (d, block_of (bytes ub) nr) u old).
Proof.
  intros [Hs Hl Hno Hnr Hf Hr Hold Hu Hok]. pose proof (sa_ok _ _ _ _ _ _ Hs) as Hub. pose proof (proj2 (bo_block _ Hub)) as Hby.
  pose proof (word_range _ INODES Hby). destruct (desc_offset nr ltac:(lia)) as (Eo & Ho1 & Ho2).
  unfold iget_new. rewrite (the_super_step _ _ _ _ _ _ _ Hs). set (s1 := counted j b s).
  pose proof (counted_sb _ _ _ _ _ _ Hs) as Hb1. fold s1 in Hb1. set (b1 := set_scount _ b) in *.
  assert (∀ sx bx f, supers sx !! j = Some bx → s_block bx = s_block b → cache sx = cache s → 0 <= f <= 18 → sget16 j f sx = Ok (word (bytes ub) f, sx)) as SG.
  { intros sx bx f Hx Hbx Hcx Hf0. destruct Hs. apply (sget16_Ok sx j bx k ub); congruence || done. }
  rewrite (st_bind_eq _ _ _ _ _ (SG s1 b1 INODES Hb1 eq_refl eq_refl ltac:(by split))).
  rewrite (st_bind_eq (sassert _) _ s1 () s1) by (unfold sassert; by destruct (Z.leb_spec nr (word (bytes ub) INODES)); [|lia]).
  rewrite (st_bind_eq get_free_inode _ s1 i s1) by (unfold get_free_inode; cbn [inodes s1 counted set_supers]; by rewrite Hf).
  rewrite (st_bind_eq _ _ _ _ _ (upd_inode_Ok s1 i _ old Hold)). set (s2 := set_inodes _ s1).
  pose proof (lookup_lt_Some _ _ _ Hold) as Hlt.
  assert (inodes s2 !! i = Some (set_inr nr (set_idev d old))) as Hn2 by (by apply list_lookup_insert_eq).
  rewrite (st_bind_eq _ _ _ _ _ (get_inode_Ok s2 i _ Hn2)). destruct (Nat.eqb_spec i get_root_inode); [done|].
  rewrite (st_bind_eq _ _ _ _ _ (upd_inode_Ok s2 i _ _ Hn2)). set (s3 := set_inodes _ s2).
  rewrite (st_bind_eq _ _ _ _ _ (upd_sb_Ok s3 j _ b1 Hb1)). set (s4 := set_supers _ s3).
  assert (supers s4 !! j = Some (set_ilist (i :: inode_list b1) b1)) as Hb4 by (apply list_lookup_insert_eq; by eapply lookup_lt_Some).
  set (kb := (d, block_of (bytes ub) nr)) in *. rewrite (st_bind_eq (inode_block _ _) _ s4 (block_of (bytes ub) nr) s4).
  2: { destruct Hs. apply (inode_block_Ok s4 j _ k ub nr Hb4); done || lia. }
  rewrite (st_bind_eq _ _ s4 _ _ (on_cache_Ok _ s4 _ _ (take_Ok _ d _ u Hu))). fold kb. set (s5 := set_cache _ s4). rewrite Eo. set (off := (nr - 1) mod _ * _) in *.
  assert (inodes s5 !! i = Some (set_icount 1 (set_inr nr (set_idev d old)))) as Hn5 by (apply list_lookup_insert_eq; exact (lookup_lt_Some _ _ _ Hn2)).
  rewrite (st_bind_eq _ _ _ _ _ (upd_inode_Ok s5 i _ _ Hn5)). set (s6 := set_inodes _ s5). set (n6 := set_place _ _ _) in *.
  assert (length (inodes s5) = length (inodes s)) as L5 by (cbn; by rewrite !length_insert).
  assert (inode_at s6 i n6 kb off (held u)) as I6.
  { split; [apply list_lookup_insert_eq; by rewrite L5|done|done|apply lookup_insert_eq|done]. }
  rewrite (st_bind_eq _ _ _ _ _ (dget32_Ok s6 i n6 kb off (held u) MTIME I6 (buf_ok_held u Hok) ltac:(done) ltac:(done))).
  rewrite (st_bind_eq _ _ _ _ _ (upd_inode_Ok s6 i _ n6 (ia_inode _ _ _ _ _ _ I6))). set (s7 := set_inodes _ s6).
  set (s8 := set_clock (λ m, clock s (S m)) s7). rewrite (st_bind_eq sys_time _ s7 (clock s 0) s8) by done.
  assert (inodes s8 !! i = Some (set_ctime (dword (bytes u) (off + MTIME)) n6)) as Hn8 by (apply list_lookup_insert_eq; cbn; by rewrite !length_insert).
  rewrite (st_bind_eq _ _ _ _ _ (upd_inode_Ok s8 i _ _ Hn8)). set (s9 := set_inodes _ s8).
  assert (s_count (set_ilist (i :: inode_list b1) b1) = s_count b + 1) as Ec by done.
  pose proof (sa_count _ _ _ _ _ _ Hs). rewrite (st_bind_eq _ _ _ _ _ (put_super_count s9 j _ Hb4 ltac:(rewrite Ec; lia))). unfold mret, st_ret. do 2 f_equal.
  unfold got, fresh_inode. rewrite Eo. fold off. unfold s9, s8, s7, s6, s5, s4, s3, s2, s1, counted, n6, b1. cbn. rewrite !list_insert_insert_eq.
  rewrite Z.add_simpl_r. by destruct old.
Qed.

(** [list_remove] of an inode that is in no other list. *)
Lemma remove_pushed (l : list super_t) i j b :
  l !! j = Some b → Forall (λ b, i ∉ inode_list b) l →
  ((λ b, set_ilist (filter (λ x, x ≠ i) (inode_list b)) b) <$> <[j := set_ilist (i :: inode_list b) b]> l) = l.
Proof.
  intros Hj Hi. assert (∀ b, i ∉ inode_list b → set_ilist (filter (λ x, x ≠ i) (inode_list b)) b = b) as Hb.
  { intros [? ? ? ? ? il ? ?] Hn. unfold set_ilist. cbn in *. f_equal. induction il as [|x il IH]; [done|].
    apply not_elem_of_cons in Hn as [Hx Hn]. rewrite filter_cons_True by congruence. by rewrite IH. }
  rewrite list_fmap_insert. cbn [inode_list set_ilist]. rewrite filter_cons_False by (intros H; by apply H).
  assert (i ∉ inode_list b) as Hni by (by eapply (Forall_lookup_1 _ _ _ _ Hi)).
  assert (((λ b, set_ilist (filter (λ x, x ≠ i) (inode_list b)) b) <$> l) = l) as ->.
  { clear Hj Hni. induction Hi as [|b' l Hb' Hl IH]; [done|]. cbn. rewrite IH. f_equal. by apply Hb. }
  apply list_insert_id. rewrite Hj. f_equal. symmetry. exact (Hb b Hni).
Qed.

(** [iget] of an inode of the device that is in use nowhere takes the first free place of the
    table and reads the descriptor of the inode: the block [2 + imap_blocks + zmap_blocks +
    (nr - 1) / 32], 32 bytes each; the place points there, has one reference and heads the inode
    list of the device. *)
Theorem iget_reads s d nr j b k ub i old u :
  gettable s d nr j b k ub i old u →
  let kb := (d, block_of (bytes ub) nr) in
  let s' := got s d nr i j b kb u old in
  iget d nr s = Ok (i, s') ∧ inode_at s' i (fresh_inode d nr kb u (clock s 0) old) kb ((nr - 1) mod BLOCK_INODES * sizeof_desc) (held u) ∧
  supers s' !! j = Some (set_ilist (i :: inode_list b) b).
Proof.
  intros G kb s'. pose proof G as [Hs Hl Hno Hnr Hf Hr Hold Hu Hok]. pose proof (sa_ok _ _ _ _ _ _ Hs) as Hub.
  pose proof (word_range _ INODES (proj2 (bo_block _ Hub))). destruct (desc_offset nr ltac:(lia)) as (Eo & Ho1 & Ho2). split_and!.
  - unfold iget. rewrite (st_bind_eq _ _ _ _ _ (find_inode_Ok _ _ _ _ _ _ _ Hs Hl)), Hno. exact (iget_new_Ok _ _ _ _ _ _ _ _ _ _ G).
  - split; [apply list_lookup_insert_eq; by eapply lookup_lt_Some|cbn; by rewrite Eo|done|apply lookup_insert_eq|done].
  - apply list_lookup_insert_eq. eapply lookup_lt_Some. apply Hs.
Qed.

(** C19. What [iget] reads [iput] gives back: the blocks, the lists of the inodes and the super blocks
    are as before, and the place in the table is free again. *)
Theorem iget_iput s d nr j b k ub i old u :
  gettable s d nr j b k ub i old u → dirty u = false → i_pipe old = false → Forall (λ b, i ∉ inode_list b) (supers s) →
  ∃ s1 s2 n, iget d nr s = Ok (i, s1) ∧ iput (Some i) s1 = Ok ((), s2) ∧
    cache s2 = cache s ∧ supers s2 = supers s ∧ inodes s2 = <[i := n]> (inodes s) ∧ i_dev n = EOFu ∧ i_count n = 0.
Proof.
  intros G Hd Hp Hni. set (kb := (d, block_of (bytes ub) nr)). set (s1 := got s d nr i j b kb u old).
  set (f := fresh_inode d nr kb u (clock s 0) old). pose proof G as [Hs Hl Hno Hnr Hf Hr Hold Hu Hok].
  pose proof (lookup_lt_Some _ _ _ Hold) as Hlt.
  assert (inodes s1 !! i = Some f) as Hn1 by (by apply list_lookup_insert_eq).
  assert (cache s1 !! kb = Some (held u)) as Hk1 by apply lookup_insert_eq.
  eexists s1, _, (set_idev EOFu (set_icount 0 f)). split.
  { unfold iget. rewrite (st_bind_eq _ _ _ _ _ (find_inode_Ok _ _ _ _ _ _ _ Hs Hl)), Hno. exact (iget_new_Ok _ _ _ _ _ _ _ _ _ _ G). }
  split.
  { unfold iput. rewrite (st_bind_eq _ _ _ _ _ (get_inode_Ok s1 i f Hn1)). unfold f at 1. cbn [i_pipe fresh_inode]. rewrite Hp.
    change (i_cache f) with (Some kb). rewrite (st_bind_eq (deref (Some kb)) _ s1 kb s1) by done.
    rewrite (st_bind_eq _ _ s1 () s1).
    2: { apply on_cache_read. rewrite (st_bind_eq _ _ _ _ _ (get_buf_Ok _ _ _ Hk1)). change (dirty (held u)) with (dirty u). by rewrite Hd. }
    rewrite (st_bind_eq _ _ _ _ _ (upd_inode_Ok s1 i _ f Hn1)). set (s2 := set_inodes _ s1).
    change (set_icount (u32 (i_count f - 1)) f) with (set_icount 0 f) in s2.
    assert (inodes s2 !! i = Some (set_icount 0 f)) as Hn2 by (apply list_lookup_insert_eq; by eapply lookup_lt_Some).
    rewrite (st_bind_eq _ _ _ _ _ (get_inode_Ok s2 i _ Hn2)). cbn [i_count set_icount Z.eqb negb].
    change (i_cache f) with (Some kb). rewrite (st_bind_eq _ _ s2 _ _ (on_cache_Ok _ s2 _ _ (brelse_held (cache s) kb u Hu Hok))).
    set (s3 := set_cache _ s2). rewrite (st_bind_eq (list_remove i) _ s3 () (set_supers (supers s) s3)).
    2: { unfold list_remove, modify_st. do 2 f_equal. f_equal. apply remove_pushed; [apply Hs|done]. }
    set (s4 := set_supers _ s3). unfold put_free_inode. rewrite (st_bind_eq (sassert _) _ s4 () s4) by (unfold sassert; by destruct (Nat.eqb_spec i 0)).
    rewrite (st_bind_eq _ _ _ _ _ (get_inode_Ok s4 i _ Hn2)). cbn [i_count set_icount Z.eqb].
    rewrite (st_bind_eq (sassert true) _ s4 () s4) by done. exact (upd_inode_Ok s4 i _ _ Hn2). }
  cbn. rewrite !list_insert_insert_eq. done.
Qed.

(** The fields [new_inode] stores, in order. *)
Definition new_fields (s : fs) (now : Z) : list (Z * list Z) :=
  [(MODE, enc16 (Z.land 511 (Z.lnot (t_umask s)))); (UID, enc16 (t_uid s)); (SIZE, enc32 0); (MTIME, enc32 now);
   (GID, [t_gid s mod 256]); (NLINKS, [1 mod 256])].
Definition store_fields (o : Z) (fs : list (Z * list Z)) (u : buf_t) : buf_t :=
  foldl (λ u f, set_bytes (patch (bytes u) (o + f.1) f.2) u) u fs.

Lemma store_fields_ok o fs u :
  buf_ok u → dirty u = true → 0 <= o → o + sizeof_desc <= BLOCK_SIZE →
  Forall (λ f, 0 <= f.1 ∧ f.1 + Z.of_nat (length f.2) <= sizeof_desc ∧ Forall is_byte f.2) fs →
  buf_ok (store_fields o fs u) ∧ dirty (store_fields o fs u) = true ∧ holders (store_fields o fs u) = holders u ∧
  ∀ j, 0 <= j → Forall (λ f, j < o + f.1 ∨ o + f.1 + Z.of_nat (length f.2) <= j) fs → byte (bytes (store_fields o fs u)) j = byte (bytes u) j.
Proof.
  intros Hu Hd Ho Hl H. revert u Hu Hd. induction H as [|[f d] fs (F1 & F2 & F3) HF IH]; intros u Hu Hd; cbn [store_fields foldl fst snd] in *; [done|].
  destruct (IH (set_bytes (patch (bytes u) (o + f) d) u)) as (A & B & C & E); [by apply patched_ok; [..|lia|lia|]|done|].
  split_and!; [done..|]. intros j Hj Hf. apply Forall_cons in Hf as [Hf1 Hf]. cbn in Hf1. fold (store_fields o fs (set_bytes (patch (bytes u) (o + f) d) u)).
  rewrite E by done. cbn [bytes set_bytes]. apply patch_outside; [lia|rewrite (block_length u Hu); lia|done|done].
Qed.

(** [new_inode] writes mode, owner, size 0, time and one link into the descriptor, marks its block
    dirty - and leaves the nine block numbers in it as they are: what was left there by the last
    file, by a device file or by whatever was on the disk when the file system was made becomes the
    beginning of the new file. *)
Theorem new_inode_keeps_zones s d nr j b k ub i old u :
  gettable s d nr j b k ub i old u →
  let off := (nr - 1) mod BLOCK_INODES * sizeof_desc in
  let kb := (d, block_of (bytes ub) nr) in
  ∃ s' n' u', new_inode d nr s = Ok (i, s') ∧ inode_at s' i n' kb off u' ∧ i_nr n' = nr ∧ i_dev n' = d ∧ dirty u' = true ∧
    u' = store_fields off (new_fields s (clock s 1)) (set_dirty true (held u)) ∧
    ∀ x, 0 <= x < 9 → word (bytes u') (off + ZONE + 2 * x) = word (bytes u) (off + ZONE + 2 * x).
Proof.
  intros G off kb. pose proof G as [Hs Hl Hno Hnr Hf Hr Hold Hu Hok]. pose proof (sa_ok _ _ _ _ _ _ Hs) as Hub.
  pose proof (word_range _ INODES (proj2 (bo_block _ Hub))). destruct (desc_offset nr ltac:(lia)) as (Eo & Ho1 & Ho2). fold off in Ho1, Ho2, Eo.
  set (s1 := got s d nr i j b kb u old). set (n1 := fresh_inode d nr kb u (clock s 0) old).
  assert (inode_at s1 i n1 kb off (held u)) as I1.
  { split; [apply list_lookup_insert_eq; by eapply lookup_lt_Some|cbn; by rewrite Eo|done|apply lookup_insert_eq|done]. }
  set (u2 := set_dirty true (held u)). assert (buf_ok u2) as Hu2 by (pose proof Hok as [A B _ _]; split; cbn; [done|lia|done|lia]).
  set (F := new_fields s (clock s 1)).
  assert (Forall (λ f, 0 <= f.1 ∧ f.1 + Z.of_nat (length f.2) <= sizeof_desc ∧ Forall is_byte f.2) F) as HF.
  { repeat (apply Forall_cons; split; [split; [done|]; split; [done|]; first [apply enc16_bytes|apply enc32_bytes|repeat constructor; apply Z.mod_pos_bound; lia]|]). constructor. }
  assert (∀ m, buf_ok (store_fields off (take m F) u2)) as HU by (intros m; apply store_fields_ok; [done|done|done|done|by apply Forall_take]).
  set (n2 := set_atime (clock s 1) n1). eexists _, n2, (store_fields off F u2). split.
  { unfold new_inode. rewrite (st_bind_eq (get_st : FM fs) _ s s s) by done.
    rewrite (st_bind_eq (iget d nr) _ s i s1).
    2: { unfold iget. rewrite (st_bind_eq _ _ _ _ _ (find_inode_Ok _ _ _ _ _ _ _ Hs Hl)), Hno. exact (iget_new_Ok _ _ _ _ _ _ _ _ _ _ G). }
    rewrite (st_bind_eq _ _ _ _ _ (idirty_Ok s1 i n1 kb off (held u) I1)). fold u2. set (s2 := set_cache _ s1). pose proof (inode_at_set _ _ _ _ _ _ u2 I1) as I2. fold s2 in I2.
    rewrite (st_bind_eq _ _ _ _ _ (dset16_Ok s2 i n1 kb off u2 MODE _ I2 (HU 0%nat) ltac:(done) ltac:(done))). set (u3 := set_bytes _ u2). set (s3 := set_cache _ s2).
    pose proof (inode_at_set _ _ _ _ _ _ u3 I2) as I3. fold s3 in I3.
    rewrite (st_bind_eq _ _ _ _ _ (dset16_Ok s3 i n1 kb off u3 UID _ I3 (HU 1%nat) ltac:(done) ltac:(done))). set (u4 := set_bytes _ u3). set (s4 := set_cache _ s3).
    pose proof (inode_at_set _ _ _ _ _ _ u4 I3) as I4. fold s4 in I4.
    rewrite (st_bind_eq _ _ _ _ _ (dset32_Ok s4 i n1 kb off u4 SIZE _ I4 (HU 2%nat) ltac:(done) ltac:(done))). set (u5 := set_bytes _ u4). set (s5 := set_cache _ s4).
    pose proof (inode_at_set _ _ _ _ _ _ u5 I4) as I5. fold s5 in I5.
    set (s6 := set_clock (λ m, clock s (S (S m))) s5). rewrite (st_bind_eq sys_time _ s5 (clock s 1) s6) by done.
    rewrite (st_bind_eq _ _ _ _ _ (upd_inode_Ok s6 i _ n1 (ia_inode _ _ _ _ _ _ I5))). fold n2. set (s7 := set_inodes _ s6).
    assert (inode_at s7 i n2 kb off u5) as I7.
    { destruct I5 as [A1 A2 A3 A4 A5]. split; try done. apply list_lookup_insert_eq. by eapply lookup_lt_Some. }
    rewrite (st_bind_eq _ _ _ _ _ (dset32_Ok s7 i n2 kb off u5 MTIME _ I7 (HU 3%nat) ltac:(done) ltac:(done))). set (u8 := set_bytes _ u5). set (s8 := set_cache _ s7).
    pose proof (inode_at_set _ _ _ _ _ _ u8 I7) as I8. fold s8 in I8.
    rewrite (st_bind_eq _ _ _ _ _ (dset8_Ok s8 i n2 kb off u8 GID _ I8 (HU 4%nat) ltac:(done) ltac:(done))). set (u9 := set_bytes _ u8). set (s9 := set_cache _ s8).
    pose proof (inode_at_set _ _ _ _ _ _ u9 I8) as I9. fold s9 in I9.
    rewrite (st_bind_eq _ _ _ _ _ (dset8_Ok s9 i n2 kb off u9 NLINKS _ I9 (HU 5%nat) ltac:(done) ltac:(done))). reflexivity. }
  destruct (store_fields_ok off F u2 Hu2 eq_refl Ho1 Ho2 HF) as (A & B & C & E).
  split; [|split_and!; try done; intros x Hx; unfold word; rewrite !E; [done|..]; unfold ZONE; try lia;
    (repeat (apply Forall_cons; split; [cbn; unfold MODE, UID, SIZE, MTIME, GID, NLINKS; lia|]); constructor)].
  split; [|cbn; by rewrite Eo|done|apply lookup_insert_eq|done].
  cbn. apply list_lookup_insert_eq. rewrite length_insert. by eapply lookup_lt_Some.
Qed.

(** ** A small file system for the examples

    Device 3: the super block in block 1, the bitmaps in blocks 2 and 3, 64 inodes in blocks 4 and
    5, data from block 6 on.  Inode 1 is the root directory (block 6), inode 2 a file with blocks
    8 and 9, an indirect block 10 and a double indirect block 11; inode 3 was a device file with
    number 77. *)

Definition clean (h : Z) (l : list Z) : buf_t := Buf l h false l.
Definition zeros : list Z := replicate 1024 0.
Definition at_offset (o : Z) (d : list Z) (l : list Z) : list Z := patch l o d.
Definition demo_desc (mode uid size mtime gid nlinks : Z) (zones : list Z) : list Z :=
  enc16 mode ++ enc16 uid ++ enc32 size ++ enc32 mtime ++ [gid; nlinks] ++ concat (map enc16 zones).
Definition demo_super : list Z :=
  at_offset 0 (concat (map enc16 [64; 64; 1; 1; 6; 0]) ++ enc32 0 ++ enc16 MINIX_V1_MAGIC) zeros.
Definition demo_dentry (nr : Z) (name : list Z) : list Z := enc16 nr ++ name ++ replicate (14 - length name) 0.

Definition demo_blocks : list (key * buf_t) := [
  ((3, 1), clean 1 demo_super);
  ((3, 2), clean 1 (at_offset 0 [7] zeros));
  ((3, 3), clean 1 (at_offset 0 [255; 7] zeros));
  ((3, 4), clean 2 (at_offset 0 (demo_desc 16895 0 64 7 0 2 [6]) (at_offset 32 (demo_desc 33188 5 3000 9 6 1 [8; 9; 0; 0; 0; 0; 0; 10; 11])
    (at_offset 64 (demo_desc 24576 0 0 0 0 0 [77]) zeros))));
  ((3, 6), clean 0 (at_offset 0 (demo_dentry 1 [46] ++ demo_dentry 1 [46; 46] ++ demo_dentry 0 [120] ++ demo_dentry 2 [97; 98]) zeros));
  ((3, 8), clean 0 (replicate 1024 65));
  ((3, 9), clean 0 (replicate 1024 66));
  ((3, 10), clean 0 (at_offset 6 (enc16 12) zeros));
  ((3, 11), clean 0 (at_offset 2 (enc16 13) zeros));
  ((3, 12), clean 0 zeros);
  ((3, 13), clean 0 (at_offset 10 (enc16 14) zeros));
  ((3, 14), clean 0 zeros);
  ((3, 16), clean 0 (replicate 1024 77));
  ((3, 17), clean 0 zeros)].

Definition demo_inode (nr count off : Z) : inode_t := Inode (Some ((3, 4), off)) (Some (3, 4)) 3 nr count 0 0 0 false.
Definition free_inode : inode_t := Inode None None EOFu 0 0 0 0 0 false.
Definition free_super : super_t := Super None (replicate 8 None) (replicate 8 None) EOFu 0 [] None None.
Definition demo_sb : super_t := Super (Some (3, 1)) [Some (3, 2)] [Some (3, 3)] 3 1 [1%nat; 0%nat] (Some 0%nat) (Some 0%nat).
Definition demo_fs : fs := Fs (list_to_map demo_blocks)
  [demo_sb; free_super]
  ([demo_inode 1 5 0; demo_inode 2 1 32; free_inode; free_inode])
  (λ n, 100 + Z.of_nat n) (write 600 (replicate 16 7) (write 500 [47; 97; 98; 0] ∅)) 5 6 18 0 0.

Definition answer {A} (r : res (A * fs)) : option A := match r with Ok (a, _) => Some a | Stop _ => None end.

(** The decision whether a block is in good order. *)
Definition buf_okb (u : buf_t) : bool :=
  (Z.of_nat (length (bytes u)) =? BLOCK_SIZE) && forallb (λ b, (0 <=? b) && (b <? 256)) (bytes u) &&
  (0 <=? holders u) && (dirty u || bool_decide (bytes u = saved u)) && (negb (holders u =? 0) || negb (dirty u)).

Lemma buf_okb_ok u : buf_okb u = true → buf_ok u.
Proof.
  unfold buf_okb. rewrite !andb_true_iff, !orb_true_iff, !negb_true_iff, bool_decide_eq_true, forallb_forall.
  intros ((((H1 & H2) & H3) & H4) & H5). apply Z.eqb_eq in H1. apply Z.leb_le in H3. split.
  - split; [done|]. apply Forall_forall. intros b Hb. apply list_elem_of_In, H2 in Hb. apply andb_true_iff in Hb as [A%Z.leb_le B%Z.ltb_lt]. done.
  - done.
  - intros Hd. destruct H4; congruence.
  - intros Hz. destruct H5 as [H5|H5]; [|done]. by apply Z.eqb_neq in H5.
Qed.

Lemma bufs_okb_ok l : forallb (λ p : key * buf_t, buf_okb p.2) l = true → bufs_ok (list_to_map l).
Proof.
  intros H k u Hk. apply elem_of_list_to_map_2, list_elem_of_In in Hk. apply buf_okb_ok. by apply (proj1 (forallb_forall _ _) H _ Hk).
Qed.

Lemma demo_bufs_ok : bufs_ok (cache demo_fs).
Proof. apply bufs_okb_ok. vm_compute. reflexivity. Qed.

Lemma demo_inode_at i n u :
  inodes demo_fs !! i = Some n → i_desc n = Some ((3, 4), 32 * Z.of_nat i) → i_cache n = Some (3, 4) → (i < 2)%nat →
  cache demo_fs !! (3, 4) = Some u → inode_at demo_fs i n (3, 4) (32 * Z.of_nat i) u.
Proof. intros. split; [done..|]. unfold sizeof_desc, BLOCK_SIZE. lia. Qed.

Lemma demo_super_at :
  super_at demo_fs 3 0 demo_sb (3, 1) (clean 1 demo_super).
Proof. split; try done. apply buf_okb_ok. vm_compute. reflexivity. Qed.

(** The block of the descriptors. *)
Definition demo_inodes : buf_t := default (clean 0 []) (cache demo_fs !! (3, 4)).

Lemma demo_inodes_ok : buf_ok demo_inodes.
Proof. apply buf_okb_ok. vm_compute. reflexivity. Qed.

Lemma demo_gettable : gettable demo_fs 3 3 0 demo_sb (3, 1) (clean 1 demo_super) 2 free_inode demo_inodes.
Proof.
  split; [exact demo_super_at|by repeat (constructor; [by eexists|])|vm_compute; reflexivity|vm_compute; done|vm_compute; reflexivity|done|done|vm_compute; reflexivity|].
  exact demo_inodes_ok.
Qed.

Lemma iget_reads_witness : answer (iget 3 3 demo_fs) = Some 2%nat.
Proof. by rewrite (proj1 (iget_reads demo_fs 3 3 0 _ _ _ 2 _ _ demo_gettable)). Defined.

Lemma iget_iput_witness :
  ∃ s1 s2 n, iget 3 3 demo_fs = Ok (2%nat, s1) ∧ iput (Some 2%nat) s1 = Ok ((), s2) ∧
    cache s2 = cache demo_fs ∧ supers s2 = supers demo_fs ∧ inodes s2 = <[2%nat := n]> (inodes demo_fs) ∧ i_dev n = EOFu ∧ i_count n = 0.
Proof.
  apply (iget_iput demo_fs 3 3 0 _ _ _ 2 _ _ demo_gettable); [done|done|].
  repeat (constructor; [cbn; set_solver|]). constructor.
Defined.

Lemma new_inode_keeps_zones_witness :
  ∃ s' n' u', new_inode 3 3 demo_fs = Ok (2%nat, s') ∧ inode_at s' 2 n' (3, 4) 64 u' ∧ word (bytes u') (64 + ZONE) = 77.
Proof.
  destruct (new_inode_keeps_zones demo_fs 3 3 0 demo_sb _ _ 2 _ _ demo_gettable) as (s' & n' & u' & E & I & _ & _ & _ & _ & Z).
  exists s', n', u'. split; [exact E|]. split; [exact I|]. rewrite <- (Z.add_0_r (64 + ZONE)). change 0 with (2 * 0) at 1.
  transitivity (word (bytes demo_inodes) (64 + ZONE + 2 * 0)); [exact (Z 0 ltac:(lia))|]. vm_compute. reflexivity.
Defined.
