(* ===== verification/Bmap.v ===== *)
(** * Block bitmaps and the blocks of a file (src/fs/bmap.c, inode_truncate of src/fs/inode.c)

    Taking and releasing blocks and inodes in the bitmaps of a device, through the cached blocks
    of the bitmaps, and the tree of direct, indirect and double indirect blocks of a file. *)

From stdpp Require Import gmap.
From S2P Require Import Prelude Bitmap Blocks Inode.

Definition BLOCK_BITS : Z := 8192.
Definition DIRECT_BLOCKS : Z := 7.
Definition BLOCK_INDEXES : Z := 512.
Definition INDIRECT1_BLOCKS : Z := 512.
Definition INDIRECT2_BLOCKS : Z := 262144.
Definition TOTAL_BLOCKS : Z := 262663.

(** ** Bitmaps *)

(** [bitmap_make(&map, pcache->data, BLOCK_SIZE, offset)] and an operation on the map: the bits
    are the bytes of the block. *)
Definition on_bitmap {A} (k : key) (offset : Z) (m : ST bitmap_t A) : FM A :=
  u ← on_cache (get_buf k);
  '(a, map) ← lift_st (m (bitmap_make (bytes u) BLOCK_SIZE offset));
  on_cache (upd_buf k (set_bytes (bits map)));;
  mret a.

(** The loops of [balloc] and [ialloc] over the blocks [i] to [i + n - 1] of a bitmap that begins
    at block [bidx]; the answer is the last block read and the bit. *)
Fixpoint bit_loop (n : nat) (d bidx base limit i : Z) (last : option key) : FM (option key * Z) :=
  match n with
  | O => mret (last, EOFu)
  | S n =>
      k ← on_cache (bread d (u32 (bidx + i)));
      bit ← on_bitmap k (u32 (base + i * BLOCK_BITS)) (bitmap_scan 1);
      if negb (u32 bit =? EOFu) then
        sassert (u32 bit <? limit);;
        on_cache (mark_dirty k);;
        mret (Some k, u32 bit)
      else bit_loop n d bidx base limit (i + 1) (Some k)
  end.

Definition the_super (d : Z) : FM nat :=
  o ← get_super d;
  match o with Some j => mret j | None => stop_st Panic end.

(** [bwrite(pcache)] stops at its assertion when there is no block. *)
Definition bwrite_last (o : option key) : FM unit :=
  match o with Some k => on_cache (bwrite k) | None => stop_st Panic end.

Definition balloc (d : Z) : FM Z :=
  j ← the_super d;
  b ← get_sb j;
  im ← sget16 j IMAP_BLOCKS;
  zm ← sget16 j ZMAP_BLOCKS;
  first ← sget16 j FIRSTDATAZONE;
  zones ← sget16 j ZONES;
  '(pcache, bit) ← bit_loop (Z.to_nat zm) (s_dev b) (FS_IMAP_BLOCK_NR + im) (first - 1) zones 0 None;
  bwrite_last pcache;;
  put_super (Some j);;
  mret bit.

Definition ialloc (d : Z) : FM Z :=
  j ← the_super d;
  b ← get_sb j;
  im ← sget16 j IMAP_BLOCKS;
  ni ← sget16 j INODES;
  '(pcache, bit) ← bit_loop (Z.to_nat im) (s_dev b) FS_IMAP_BLOCK_NR 0 ni 0 None;
  bwrite_last pcache;;
  put_super (Some j);;
  mret bit.

(** Clearing bit [idx] in the map that begins at [offset] of block [k]. *)
Definition clear_bit (k : key) (offset idx : Z) : FM unit :=
  on_bitmap k offset (m ← get_st; t ← lift_st (bitmap_test m idx); sassert t;; bitmap_set idx false);;
  on_cache (mark_dirty k);;
  on_cache (bwrite k).

Definition map_block (l : list (option key)) (i : Z) : FM key :=
  o ← lift_st (zget l i);
  match o with Some k => mret k | None => stop_st Panic end.

Definition bfree (d idx : Z) : FM unit :=
  j ← the_super d;
  zones ← sget16 j ZONES;
  sassert (idx <? zones);;
  first ← sget16 j FIRSTDATAZONE;
  let block_idx := u32 (idx - (first - 1)) / BLOCK_BITS in
  b ← get_sb j;
  k ← map_block (zmaps b) block_idx;
  clear_bit k (u32 (first - 1 + block_idx * BLOCK_BITS)) idx;;
  put_super (Some j).

Definition ifree (d idx : Z) : FM unit :=
  j ← the_super d;
  zones ← sget16 j ZONES;
  sassert (idx <? zones);;
  let block_idx := idx / BLOCK_BITS in
  b ← get_sb j;
  k ← map_block (imaps b) block_idx;
  clear_bit k (u32 (block_idx * BLOCK_BITS)) idx;;
  put_super (Some j).

(** ** The blocks of a file *)

(** The loop of [bmap] from [level] down: the array of block numbers begins at offset [o] of
    block [a], [pcache] is the block that becomes dirty with it. *)
Fixpoint bmap_loop (level : nat) (d : Z) (a : key) (o index block divider : Z) (pcache : key) (create : bool) : FM Z :=
  z ← on_cache (rd16 a (o + 2 * index));
  (if (z =? 0) && create then
     n ← balloc d;
     on_cache (wr16 a (o + 2 * index) n);;
     on_cache (mark_dirty pcache)
   else mret ());;
  on_cache (brelse (Some pcache));;
  z ← on_cache (rd16 a (o + 2 * index));
  match level with
  | O => mret z
  | S level =>
      if z =? 0 then mret z
      else
        k ← on_cache (bread d z);
        bmap_loop level d k 0 (u16 (block / divider)) (block mod divider) (divider / BLOCK_INDEXES) k create
  end.

Definition bmap (i : nat) (block : Z) (create : bool) : FM Z :=
  sassert ((0 <=? block) && (block <? TOTAL_BLOCKS));;
  n ← get_inode i;
  '(k, o) ← desc_of i;
  c ← deref (i_cache n);
  on_cache (upd_buf c (λ u, set_holders (holders u + 1) u));;
  if block <? DIRECT_BLOCKS then bmap_loop 0 (i_dev n) k (o + ZONE) (u16 block) block 1 c create
  else
    let block := block - DIRECT_BLOCKS in
    if block <? INDIRECT1_BLOCKS then bmap_loop 1 (i_dev n) k (o + ZONE) DIRECT_BLOCKS block 1 c create
    else
      let block := block - INDIRECT1_BLOCKS in
      sassert (block <? INDIRECT2_BLOCKS);;
      bmap_loop 2 (i_dev n) k (o + ZONE) (DIRECT_BLOCKS + 1) block BLOCK_INDEXES c create.

(** [inode_bfree]: the block array[index] and, above level 0, all it points to. *)
Fixpoint inode_bfree (level : nat) (d : Z) (a : key) (o index : Z) : FM unit :=
  z ← on_cache (rd16 a (o + 2 * index));
  if z =? 0 then mret ()
  else
    match level with
    | O => bfree d z
    | S level =>
        k ← on_cache (bread d z);
        foldr (λ i rest, inode_bfree level d k 0 i;; rest) (mret ()) (seqZ 0 BLOCK_INDEXES);;
        on_cache (brelse (Some k));;
        z ← on_cache (rd16 a (o + 2 * index));
        bfree d z
    end.

Definition S_IFMT : Z := 61440.
Definition IFREG : Z := 32768.
Definition IFDIR : Z := 16384.
Definition IFCHR : Z := 8192.
Definition IFBLK : Z := 24576.
Definition ISDIR (m : Z) : bool := Z.land m S_IFMT =? IFDIR.
Definition ISFILE (m : Z) : bool := Z.land m S_IFMT =? IFREG.
Definition ISCHR (m : Z) : bool := Z.land m S_IFMT =? IFCHR.
Definition ISBLK (m : Z) : bool := Z.land m S_IFMT =? IFBLK.

Definition zone_at (j : Z) : Z := ZONE + 2 * j.

Definition inode_truncate (i : nat) : FM unit :=
  mode ← dget16 i MODE;
  if negb (ISFILE mode) && negb (ISDIR mode) then mret ()
  else
    n ← get_inode i;
    '(k, o) ← desc_of i;
    foldr (λ j rest, inode_bfree 0 (i_dev n) k (o + ZONE) j;; dset16 i (zone_at j) 0;; rest) (mret ()) (seqZ 0 DIRECT_BLOCKS);;
    inode_bfree 1 (i_dev n) k (o + ZONE) DIRECT_BLOCKS;;
    dset16 i (zone_at DIRECT_BLOCKS) 0;;
    inode_bfree 2 (i_dev n) k (o + ZONE) (DIRECT_BLOCKS + 1);;
    dset16 i (zone_at (DIRECT_BLOCKS + 1)) 0;;
    dset32 i SIZE 0;;
    now ← sys_time;
    dset32 i MTIME now;;
    idirty i;;
    c ← deref (i_cache n);
    on_cache (bwrite c).

(** ** The tree of blocks as a reference *)

(** Entry [i] of the tree of height [level] at block [z]: 0 where the tree has a hole, [None] where
    a block of the tree is not in the cache. *)
Fixpoint tree (c : bufs) (d : Z) (level : nat) (z i : Z) : option Z :=
  match level with
  | O => Some z
  | S l =>
      if z =? 0 then Some 0
      else u ← c !! (d, z); tree c d l (word (bytes u) (2 * (i / BLOCK_INDEXES ^ Z.of_nat l))) (i mod BLOCK_INDEXES ^ Z.of_nat l)
  end.

(** Block [block] of the file with the descriptor at offset [o] of the bytes [l]. *)
Definition file_block (c : bufs) (d : Z) (l : list Z) (o block : Z) : option Z :=
  let zone j := word l (o + zone_at j) in
  if block <? DIRECT_BLOCKS then tree c d 0 (zone block) 0
  else if block <? DIRECT_BLOCKS + INDIRECT1_BLOCKS then tree c d 1 (zone DIRECT_BLOCKS) (block - DIRECT_BLOCKS)
  else tree c d 2 (zone (DIRECT_BLOCKS + 1)) (block - DIRECT_BLOCKS - INDIRECT1_BLOCKS).

(** [divider] of [bmap] at [level]. *)
Definition divider_at (level : nat) : Z := match level with O => 0 | S l => BLOCK_INDEXES ^ Z.of_nat l end.

Lemma divider_next level : divider_at (S level) / BLOCK_INDEXES = divider_at level.
Proof.
  destruct level as [|l]; [done|]. cbn [divider_at]. rewrite Nat2Z.inj_succ, Z.pow_succ_r by lia.
  unfold BLOCK_INDEXES. rewrite Z.mul_comm. by rewrite Z.div_mul.
Qed.

(** What the loop does at one array: it reads an entry, gives the block back, and reads again. *)
Lemma bmap_entry d s k u o index create :
  cache s !! k = Some u → buf_ok u → 0 <= o + 2 * index → o + 2 * index + 2 <= BLOCK_SIZE →
  create = false ∨ word (bytes u) (o + 2 * index) ≠ 0 →
  ∀ {A} (f : Z → FM A),
  (z ← on_cache (rd16 k (o + 2 * index));
   (if (z =? 0) && create then
      n ← balloc d; on_cache (wr16 k (o + 2 * index) n);; on_cache (mark_dirty k)
    else mret ());;
   on_cache (brelse (Some k));;
   z ← on_cache (rd16 k (o + 2 * index));
   f z) (set_cache (<[k := held u]> (cache s)) s) = f (word (bytes u) (o + 2 * index)) s.
Proof.
  intros Hk Hu H0 H1 Hc A f. set (s1 := set_cache _ s).
  assert (cache s1 !! k = Some (held u)) as Hk1 by apply lookup_insert_eq.
  assert (0 <= o + 2 * index ∧ o + 2 * index + 2 <= Z.of_nat (length (bytes (held u)))) as [Hl1 Hl2].
  { cbn [bytes held set_holders]. rewrite block_length by done. done. }
  rewrite (st_bind_eq _ _ s1 (word (bytes u) (o + 2 * index)) s1).
  2: { apply on_cache_read. apply (rd_Ok _ _ _ 2 (λ l, word l (o + 2 * index)) (held u)); done. }
  assert ((word (bytes u) (o + 2 * index) =? 0) && create = false) as ->.
  { destruct Hc as [->|Hc]; [by rewrite andb_false_r|]. by destruct (Z.eqb_spec (word (bytes u) (o + 2 * index)) 0). }
  rewrite (st_bind_eq (mret ()) _ s1 () s1) by done.
  rewrite (st_bind_eq _ _ s1 () s).
  2: { rewrite (on_cache_Ok _ s1 () (cache s)); [by destruct s|]. by apply brelse_held. }
  rewrite (st_bind_eq _ _ s (word (bytes u) (o + 2 * index)) s); [done|].
  by apply (on_cache_rd s k (o + 2 * index) 2 (λ l, word l (o + 2 * index)) u).
Qed.

Lemma tree_in_block level i : 0 <= i < BLOCK_INDEXES ^ Z.of_nat (S level) →
  0 <= i / BLOCK_INDEXES ^ Z.of_nat level < BLOCK_INDEXES ∧ 0 <= i mod BLOCK_INDEXES ^ Z.of_nat level < BLOCK_INDEXES ^ Z.of_nat level.
Proof.
  intros Hi. rewrite Nat2Z.inj_succ, Z.pow_succ_r in Hi by lia.
  assert (0 < BLOCK_INDEXES ^ Z.of_nat level) by (apply Z.pow_pos_nonneg; unfold BLOCK_INDEXES; lia).
  split; [|by apply Z.mod_pos_bound]. split; [by apply Z.div_pos; lia|apply Z.div_lt_upper_bound; lia].
Qed.

Lemma bmap_loop_reference level d k u o index block s v create :
  bufs_ok (cache s) → cache s !! k = Some u → 0 <= o + 2 * index → o + 2 * index + 2 <= BLOCK_SIZE →
  0 <= block < BLOCK_INDEXES ^ Z.of_nat level →
  tree (cache s) d level (word (bytes u) (o + 2 * index)) block = Some v → create = false ∨ v ≠ 0 →
  bmap_loop level d k o index block (divider_at level) k create (set_cache (<[k := held u]> (cache s)) s) = Ok (v, s).
Proof.
  intros Hc. revert k u o index block. induction level as [|level IH]; intros k u o index block Hk H0 H1 Hb Ht Hv.
  - cbn [tree] in Ht. injection Ht as <-. cbn [bmap_loop]. by rewrite (bmap_entry d s k u o index create Hk) by (done || by eapply Hc).
  - cbn [tree] in Ht. assert (create = false ∨ word (bytes u) (o + 2 * index) ≠ 0) as Hv'.
    { destruct Hv as [Hv|Hv]; [by left|right]. intros E. rewrite E in Ht. cbn in Ht. congruence. }
    cbn [bmap_loop]. rewrite (bmap_entry d s k u o index create Hk) by (done || by eapply Hc).
    set (z := word (bytes u) (o + 2 * index)) in *. destruct (Z.eqb_spec z 0) as [E|]; [rewrite E; by injection Ht as <-|].
    destruct (cache s !! (d, z)) as [uz|] eqn:Hz; [cbn in Ht|done].
    rewrite (st_bind_eq _ _ s _ _ (on_cache_Ok _ s _ _ (take_Ok _ d z uz Hz))).
    destruct (tree_in_block level block Hb) as [Hq Hr]. pose proof Hq as [Hq0 Hq1]. unfold BLOCK_INDEXES in Hq1 at 2.
    rewrite divider_next. cbn [divider_at]. rewrite u16_small by (unfold BLOCK_INDEXES in *; lia).
    apply IH; [done|lia|unfold BLOCK_SIZE; lia|done| |done]. done.
Qed.

(** The part of [bmap] before the loop: the descriptor's block is held once more. *)
Lemma bmap_enter s i n k o u block create :
  inode_at s i n k o u → 0 <= block < TOTAL_BLOCKS →
  bmap i block create s =
    (let s1 := set_cache (<[k := held u]> (cache s)) s in
     if block <? DIRECT_BLOCKS then bmap_loop 0 (i_dev n) k (o + ZONE) block block 1 k create s1
     else if block <? DIRECT_BLOCKS + INDIRECT1_BLOCKS then
       bmap_loop 1 (i_dev n) k (o + ZONE) DIRECT_BLOCKS (block - DIRECT_BLOCKS) (divider_at 1) k create s1
     else bmap_loop 2 (i_dev n) k (o + ZONE) (DIRECT_BLOCKS + 1) (block - DIRECT_BLOCKS - INDIRECT1_BLOCKS) (divider_at 2) k create s1).
Proof.
  intros H Hb. pose proof H as [Hn Hd Hc Hk _]. unfold bmap.
  rewrite (st_bind_eq (sassert _) _ s () s) by (unfold sassert; by destruct (Z.leb_spec 0 block), (Z.ltb_spec block TOTAL_BLOCKS); try lia).
  rewrite (st_bind_eq _ _ _ _ _ (get_inode_Ok s i n Hn)). rewrite (st_bind_eq _ _ _ _ _ (desc_of_Ok _ _ _ _ _ _ H)). rewrite Hc.
  rewrite (st_bind_eq (deref (Some k)) _ s k s) by done.
  rewrite (st_bind_eq _ _ s _ _ (on_cache_Ok _ s _ _ (upd_buf_Ok _ k _ u Hk))). fold (held u). cbv zeta.
  destruct (Z.ltb_spec block DIRECT_BLOCKS) as [Hlt|Hge].
  { rewrite u16_small; [done|]. unfold DIRECT_BLOCKS in Hlt. lia. }
  destruct (Z.ltb_spec (block - DIRECT_BLOCKS) INDIRECT1_BLOCKS), (Z.ltb_spec block (DIRECT_BLOCKS + INDIRECT1_BLOCKS)); [done|lia|lia|].
  rewrite (st_bind_eq (sassert _) _ _ () (set_cache (<[k:=held u]> (cache s)) s)); [done|].
  unfold sassert, DIRECT_BLOCKS, INDIRECT1_BLOCKS, INDIRECT2_BLOCKS, TOTAL_BLOCKS in *.
  by destruct (Z.ltb_spec (block - 7 - 512) 262144); [|lia].
Qed.

Lemma bmap_Ok s i n k o u block v create :
  inode_at s i n k o u → bufs_ok (cache s) → 0 <= block < TOTAL_BLOCKS →
  file_block (cache s) (i_dev n) (bytes u) o block = Some v → create = false ∨ v ≠ 0 →
  bmap i block create s = Ok (v, s).
Proof.
  intros H Hok Hb Hv Hcr. pose proof H as [_ _ _ Hk [Ho1 Ho2]]. rewrite (bmap_enter s i n k o u block create H Hb). cbv zeta.
  unfold file_block, zone_at in Hv. rewrite !Z.add_assoc in Hv. unfold sizeof_desc, BLOCK_SIZE in Ho2.
  unfold DIRECT_BLOCKS, INDIRECT1_BLOCKS, TOTAL_BLOCKS in *.
  destruct (Z.ltb_spec block 7).
  { apply (bmap_loop_reference 0 (i_dev n) k u (o + ZONE) block 0); unfold ZONE, BLOCK_SIZE; cbn; done || lia. }
  destruct (Z.ltb_spec block (7 + 512)).
  { apply (bmap_loop_reference 1); unfold ZONE, BLOCK_SIZE, BLOCK_INDEXES; done || lia. }
  apply (bmap_loop_reference 2); unfold ZONE, BLOCK_SIZE, BLOCK_INDEXES; done || lia.
Qed.

(** ** Taking a block or an inode *)

(** The bits of a bitmap block. *)
Definition bit_of (l : list Z) (t : Z) : bool := bit (BitMap l BLOCK_SIZE 0) t.
Definition full (l : list Z) : Prop := ∀ t, 0 <= t < BLOCK_BITS → bit_of l t = true.
Definition first_clear (l : list Z) (t : Z) : Prop :=
  0 <= t < BLOCK_BITS ∧ bit_of l t = false ∧ ∀ t', 0 <= t' < t → bit_of l t' = true.
(** [l'] is [l] with bit [t] set, or cleared. *)
Definition with_bit (l : list Z) (t : Z) (v : bool) (l' : list Z) : Prop :=
  is_block l' ∧ ∀ t', 0 <= t' → bit_of l' t' = if decide (t' = t) then v else bit_of l t'.

(** The blocks [b] to [b + m - 1] of device [d] are held once more. *)
Definition hold (d b m : Z) (c : bufs) : bufs :=
  map_imap (λ k u, Some (if (k.1 =? d) && (b <=? k.2) && (k.2 <? b + m) then held u else u)) c.

Lemma hold_lookup d b m c k :
  hold d b m c !! k = (λ u, if (k.1 =? d) && (b <=? k.2) && (k.2 <? b + m) then held u else u) <$> c !! k.
Proof. unfold hold. rewrite map_lookup_imap. by destruct (c !! k). Qed.

Lemma hold_none d b c : hold d b 0 c = c.
Proof.
  apply map_eq. intros k. rewrite hold_lookup. destruct (c !! k) as [u|]; [cbn|done].
  destruct (Z.leb_spec b k.2), (Z.ltb_spec k.2 (b + 0)); try lia; by rewrite ?andb_false_r.
Qed.

Lemma hold_succ d b m c u : 0 <= m → c !! (d, b) = Some u → hold d (b + 1) m (<[(d, b) := held u]> c) = hold d b (m + 1) c.
Proof.
  intros Hm Hu. apply map_eq. intros [d' b']. rewrite !hold_lookup. cbn [fst snd]. destruct (decide ((d', b') = (d, b))) as [E|E].
  - injection E as -> ->. rewrite lookup_insert_eq, Hu. cbn. rewrite Z.eqb_refl.
    destruct (Z.leb_spec (b + 1) b), (Z.leb_spec b b), (Z.ltb_spec b (b + (m + 1))); done || lia.
  - rewrite lookup_insert_ne by done. destruct (c !! (d', b')); [cbn|done]. do 2 f_equal.
    destruct (Z.eqb_spec d' d); [subst d'|done]. assert (b' ≠ b) by congruence.
    destruct (Z.leb_spec (b + 1) b'), (Z.leb_spec b b'), (Z.ltb_spec b' (b + 1 + m)), (Z.ltb_spec b' (b + (m + 1))); done || lia.
Qed.

Lemma block_wf l off : is_block l → 0 <= off → off + BLOCK_BITS < 2147483648 → wf (bitmap_make l BLOCK_SIZE off).
Proof. intros [Hl Hb] H0 H1. split; cbn; [done|done|done|unfold BLOCK_SIZE, BLOCK_BITS in *; lia]. Qed.

Lemma bit_offset l len off t : bit (BitMap l len off) t = bit_of l t.
Proof. done. Qed.

Lemma on_bitmap_Ok {A} s k off (m : ST bitmap_t A) u a map :
  cache s !! k = Some u → m (bitmap_make (bytes u) BLOCK_SIZE off) = Ok (a, map) →
  on_bitmap k off m s = Ok (a, set_cache (<[k := set_bytes (bits map) u]> (cache s)) s).
Proof.
  intros Hk Hm. unfold on_bitmap. rewrite (st_bind_eq _ _ s u s) by (apply on_cache_read; by apply get_buf_Ok).
  rewrite (st_bind_eq _ _ s (a, map) s) by (unfold lift_st; by rewrite Hm).
  by rewrite (st_bind_eq _ _ s _ _ (on_cache_Ok _ s _ _ (upd_buf_Ok _ k _ u Hk))).
Qed.

Lemma set_bytes_same u : set_bytes (bytes u) u = u.
Proof. by destruct u. Qed.

(** The scan of one bitmap block. *)
Lemma scan_full s k off u :
  cache s !! k = Some u → buf_ok u → 0 <= off → off + BLOCK_BITS < 2147483648 → full (bytes u) →
  on_bitmap k off (bitmap_scan 1) s = Ok (EOF_, s).
Proof.
  intros Hk Hu H0 H1 Hf. destruct (scan_first_fit _ 1 (block_wf (bytes u) off (bo_block _ Hu) H0 H1) ltac:(lia)) as [(t & m' & _ & (Ha & Hb & Hc) & _)|[E _]].
  - specialize (Hc t ltac:(lia)). cbn in Hb. rewrite bit_offset, Hf in Hc; [done|]. unfold BLOCK_SIZE, BLOCK_BITS in *. lia.
  - rewrite (on_bitmap_Ok s k off _ u _ _ Hk E). cbn [bits bitmap_make]. rewrite set_bytes_same, insert_id by done. by rewrite set_cache_same.
Qed.

Lemma scan_clear s k off u t :
  cache s !! k = Some u → buf_ok u → 0 <= off → off + BLOCK_BITS < 2147483648 → first_clear (bytes u) t →
  ∃ l, with_bit (bytes u) t true l ∧
    on_bitmap k off (bitmap_scan 1) s = Ok (off + t, set_cache (<[k := set_bytes l u]> (cache s)) s).
Proof.
  intros Hk Hu H0 H1 (Ht & Hcl & Hset). pose proof (bo_block _ Hu) as [Hlen _].
  destruct (scan_first_fit _ 1 (block_wf (bytes u) off (bo_block _ Hu) H0 H1) ltac:(lia)) as [(t' & m' & E & (Ha & Hb & Hc) & Hmin & Hw & HL & HO & HB)|[_ Hno]].
  - cbn in Hb, HL, HO. specialize (Hc t' ltac:(lia)). rewrite bit_offset in Hc.
    assert (t' = t) as ->.
    { destruct (Z.lt_trichotomy t' t) as [Hlt|[?|Hgt]]; [|done|].
      - by rewrite Hset in Hc by lia.
      - exfalso. apply (Hmin t Hgt). split_and!; [lia|cbn; unfold BLOCK_SIZE, BLOCK_BITS in *; lia|].
        intros x Hx. rewrite bit_offset. by replace x with t by lia. }
    exists (bits m'). split; [|by apply on_bitmap_Ok].
    pose proof (wf_len _ Hw) as HL'. split; [split; [by rewrite HL', HL|apply (wf_bytes _ Hw)]|].
    intros x Hx. transitivity (bit m' x); [done|]. rewrite HB by done. repeat case_decide; done || lia.
  - exfalso. apply (Hno t). split_and!; [lia|cbn; unfold BLOCK_SIZE, BLOCK_BITS in *; lia|].
    intros x Hx. rewrite bit_offset. by replace x with t by lia.
Qed.

Section alloc.
Context (d bidx base limit : Z) (Hbidx : 0 <= bidx < 131072) (Hbase : 0 <= base < 65536).

(** Block [i] of the bitmap is in the cache; between operations it is as on the disk. *)
Definition map_at (c : bufs) (i : Z) (u : buf_t) : Prop := c !! (d, bidx + i) = Some u ∧ buf_ok u ∧ dirty u = false.
(** The first [i] blocks of the bitmap, from [i0] on, have no clear bit. *)
Definition full_from (c : bufs) (i0 i : Z) : Prop := ∀ x, i0 <= x < i → ∃ u, map_at c x u ∧ full (bytes u).

Lemma full_from_next c i0 i u : full_from c i0 i → full_from (<[(d, bidx + i0) := held u]> c) (i0 + 1) i.
Proof.
  intros Hf x Hx. destruct (Hf x ltac:(lia)) as (u' & [H1 H2] & H3). exists u'. split; [|done]. split; [|done].
  rewrite lookup_insert_ne; [done|]. intros [=]. lia.
Qed.

(** One full block of the bitmap. *)
Lemma bit_loop_full_block n i last s u :
  0 <= i < 65536 → map_at (cache s) i u → full (bytes u) →
  bit_loop (S n) d bidx base limit i last s =
  bit_loop n d bidx base limit (i + 1) (Some (d, bidx + i)) (set_cache (<[(d, bidx + i) := held u]> (cache s)) s).
Proof.
  intros Hi (Hu & Hok & _) Hf. cbn [bit_loop]. rewrite (u32_small (bidx + i)) by lia.
  rewrite (u32_small (base + i * BLOCK_BITS)) by (unfold BLOCK_BITS; lia).
  rewrite (st_bind_eq _ _ s _ _ (on_cache_Ok _ s _ _ (take_Ok _ d _ u Hu))). set (s1 := set_cache _ s).
  rewrite (st_bind_eq _ _ s1 EOF_ s1); [done|]. apply (scan_full s1 _ _ (held u)).
  - apply lookup_insert_eq.
  - by apply buf_ok_held.
  - unfold BLOCK_BITS. lia.
  - unfold BLOCK_BITS. lia.
  - done.
Qed.

(** What is left of the cache when the first clear bit is in block [m]. *)
Definition taken (c : bufs) (i0 m : Z) (u : buf_t) (l : list Z) : bufs :=
  <[(d, bidx + m) := set_dirty true (set_bytes l (held u))]> (hold d (bidx + i0) (m - i0) c).

Lemma bit_loop_found n i m last s u t :
  0 <= i <= m → m < i + Z.of_nat n → i + Z.of_nat n < 65536 →
  full_from (cache s) i m → map_at (cache s) m u → first_clear (bytes u) t →
  ∃ l, with_bit (bytes u) t true l ∧
    bit_loop n d bidx base limit i last s =
      if base + m * BLOCK_BITS + t <? limit then
        Ok ((Some (d, bidx + m), base + m * BLOCK_BITS + t), set_cache (taken (cache s) i m u l) s)
      else Stop Panic.
Proof.
  revert i last s. induction n as [|n IH]; [lia|]. intros i last s Hi Hm Hn Hf Hu Ht.
  destruct (decide (i = m)) as [->|Hne].
  - clear IH. cbn [bit_loop]. destruct Hu as (Hu & Hok & _). destruct Ht as [Ht Ht']. rewrite (u32_small (bidx + m)) by lia.
    rewrite (u32_small (base + m * BLOCK_BITS)) by (unfold BLOCK_BITS; lia).
    rewrite (st_bind_eq _ _ s _ _ (on_cache_Ok _ s _ _ (take_Ok _ d _ u Hu))). set (s1 := set_cache _ s).
    assert (cache s1 !! (d, bidx + m) = Some (held u)) as Hs1 by apply lookup_insert_eq.
    destruct (scan_clear s1 (d, bidx + m) (base + m * BLOCK_BITS) (held u) t Hs1 (buf_ok_held _ Hok)) as (l & Hl & E);
      [unfold BLOCK_BITS; lia..|done|].
    exists l. split; [done|]. rewrite (st_bind_eq _ _ s1 _ _ E). set (s2 := set_cache _ s1).
    rewrite u32_small by (unfold BLOCK_BITS in *; lia).
    destruct (Z.eqb_spec (base + m * BLOCK_BITS + t) EOFu); [unfold BLOCK_BITS, EOFu in *; lia|]. cbn [negb].
    destruct (_ <? limit); [|done]. rewrite (st_bind_eq (sassert true) _ s2 () s2) by done.
    rewrite (st_bind_eq (on_cache (mark_dirty _)) _ s2 _ _ (on_cache_Ok _ s2 () _ (upd_buf_Ok _ _ (set_dirty true) _ (lookup_insert_eq _ _ _)))).
    unfold taken. rewrite Z.sub_diag, hold_none. cbn [cache s2 s1 set_cache]. rewrite !insert_insert_eq. done.
  - destruct (Hf i ltac:(lia)) as (ui & Hui & Hfi). rewrite (bit_loop_full_block n i last s ui) by (done || lia).
    set (s1 := set_cache _ s). destruct (IH (i + 1) (Some (d, bidx + i)) s1) as (l & Hl & E); [lia..| | |done|].
    + by apply full_from_next.
    + destruct Hu as [Hu Hok]. split; [|done]. cbn. rewrite lookup_insert_ne; [done|]. intros [=]. lia.
    + exists l. split; [done|]. rewrite E. destruct (_ <? limit); [|done]. do 2 f_equal. unfold taken, s1. cbn [cache set_cache].
      replace (bidx + (i + 1)) with (bidx + i + 1) by lia. rewrite hold_succ by (lia || apply Hui).
      by replace (m - (i + 1) + 1) with (m - i) by lia.
Qed.

Lemma bit_loop_none n i last s :
  0 <= i → i + Z.of_nat n < 65536 → full_from (cache s) i (i + Z.of_nat n) →
  bit_loop n d bidx base limit i last s =
    Ok ((if decide (n = O) then last else Some (d, bidx + i + Z.of_nat n - 1), EOFu), set_cache (hold d (bidx + i) (Z.of_nat n) (cache s)) s).
Proof.
  revert i last s. induction n as [|n IH]; intros i last s Hi Hn Hf.
  - cbn [bit_loop]. rewrite hold_none. by rewrite set_cache_same.
  - destruct (Hf i ltac:(lia)) as (ui & Hui & Hfi). rewrite (bit_loop_full_block n i last s ui) by (done || lia).
    rewrite IH; [|lia..|apply full_from_next; by replace (i + 1 + Z.of_nat n) with (i + Z.of_nat (S n)) by lia].
    rewrite (decide_False (P := S n = O)) by done. cbn [cache set_cache].
    replace (bidx + (i + 1)) with (bidx + i + 1) by lia. rewrite hold_succ by (lia || apply Hui).
    replace (Z.of_nat n + 1) with (Z.of_nat (S n)) by lia. do 3 f_equal.
    case_decide; f_equal; f_equal; lia.
Qed.
End alloc.

(** [dirty] and written through, as the callers of the loop leave the block. *)
Lemma bwrite_taken s k u l c :
  bwrite_last (Some k) (set_cache (<[k := set_dirty true (set_bytes l (held u))]> c) s) =
    Ok ((), set_cache (<[k := Buf l (holders u + 1) false l]> c) s).
Proof.
  unfold bwrite_last. set (s1 := set_cache _ s). assert (cache s1 !! k = Some (set_dirty true (set_bytes l (held u)))) as Hk by apply lookup_insert_eq.
  unfold on_cache, bwrite. rewrite (st_bind_eq _ _ _ _ _ (get_buf_Ok _ _ _ Hk)). cbn [dirty set_dirty].
  rewrite (upd_buf_Ok _ _ _ _ Hk). unfold s1. cbn [cache set_cache]. by rewrite insert_insert_eq.
Qed.

Lemma bwrite_clean s k u : cache s !! k = Some u → dirty u = false → bwrite_last (Some k) s = Ok ((), s).
Proof.
  intros Hk Hd. unfold bwrite_last. apply on_cache_read. unfold bwrite. rewrite (st_bind_eq _ _ _ _ _ (get_buf_Ok _ _ _ Hk)). by rewrite Hd.
Qed.

Lemma the_super_Ok s d j b k ub : super_at s d j b k ub → the_super d s = Ok (j, counted j b s).
Proof. intros H. unfold the_super. by rewrite (st_bind_eq _ _ _ _ _ (get_super_Ok _ _ _ _ _ _ H)). Qed.

Lemma set_cache_again c c' s : set_cache c (set_cache c' s) = set_cache c s.
Proof. done. Qed.

Lemma set_cache_counted c s j b : set_supers (supers s) (set_cache c (counted j b s)) = set_cache c s.
Proof. by destruct s. Qed.

(** The fields of a super block while it is counted. *)
Lemma sget16_counted s d j b k ub f : super_at s d j b k ub → 0 <= f <= 18 → sget16 j f (counted j b s) = Ok (word (bytes ub) f, counted j b s).
Proof.
  intros H Hf. pose proof (counted_sb _ _ _ _ _ _ H). destruct H. by apply (sget16_Ok _ j (set_scount (s_count b + 1) b) k ub).
Qed.

Ltac step_sget f H :=
  rewrite (st_bind_eq _ _ _ _ _ (sget16_counted _ _ _ _ _ _ f H ltac:(by split))).

(** What [balloc] and [ialloc] have in common behind the loop. *)
Lemma alloc_done s d j b k ub n bidx base limit m u t :
  super_at s d j b k ub → 0 <= bidx < 131072 → 0 <= base < 65536 → 0 <= m < Z.of_nat n → Z.of_nat n < 65536 →
  full_from d bidx (cache s) 0 m → map_at d bidx (cache s) m u → first_clear (bytes u) t →
  ∃ l, with_bit (bytes u) t true l ∧
    ('(pcache, bit) ← bit_loop n d bidx base limit 0 None; bwrite_last pcache;; put_super (Some j);; mret bit) (counted j b s) =
      if base + m * BLOCK_BITS + t <? limit then
        Ok (base + m * BLOCK_BITS + t, set_cache (<[(d, bidx + m) := Buf l (holders u + 1) false l]> (hold d bidx m (cache s))) s)
      else Stop Panic.
Proof.
  intros H Hbi Hba Hm Hn Hf Hu Ht.
  destruct (bit_loop_found d bidx base limit Hbi Hba n 0 m None (counted j b s) u t) as (l & Hl & E); [lia..|done|done|done|].
  exists l. split; [done|]. destruct (_ <? limit); [|unfold mbind, st_bind; by rewrite E].
  rewrite (st_bind_eq _ _ _ _ _ E). cbn beta iota. unfold taken.
  rewrite (st_bind_eq _ _ _ _ _ (bwrite_taken _ _ _ _ _)).
  set (s1 := set_cache _ (counted j b s)). rewrite (st_bind_eq _ _ _ _ _ (put_super_Ok s s1 d j b k ub H eq_refl)). unfold s1. rewrite set_cache_counted.
  by rewrite Z.sub_0_r, Z.add_0_r.
Qed.

Lemma alloc_full s d j b k ub n bidx base limit :
  super_at s d j b k ub → 0 <= bidx < 131072 → 0 <= base < 65536 → 0 < Z.of_nat n < 65536 →
  full_from d bidx (cache s) 0 (Z.of_nat n) →
  ('(pcache, bit) ← bit_loop n d bidx base limit 0 None; bwrite_last pcache;; put_super (Some j);; mret bit) (counted j b s) =
    Ok (EOFu, set_cache (hold d bidx (Z.of_nat n) (cache s)) s).
Proof.
  intros H Hbi Hba Hn Hf. destruct (Hf (Z.of_nat n - 1) ltac:(lia)) as (u & (Hu & _ & Hd) & _).
  rewrite (st_bind_eq _ _ _ _ _ (bit_loop_none d bidx base limit Hbi Hba n 0 None (counted j b s) ltac:(lia) ltac:(lia) Hf)).
  rewrite decide_False by lia. cbn beta iota. rewrite Z.add_0_r. set (s1 := set_cache _ _).
  rewrite (st_bind_eq _ _ s1 () s1).
  - rewrite (st_bind_eq _ _ _ _ _ (put_super_Ok s s1 d j b k ub H eq_refl)). unfold s1. by rewrite set_cache_counted.
  - apply (bwrite_clean s1 _ (held u)); [|done]. unfold s1. cbn [cache set_cache counted]. rewrite hold_lookup.
    replace (bidx + (Z.of_nat n - 1)) with (bidx + Z.of_nat n - 1) in Hu by lia. change (cache (counted j b s)) with (cache s). rewrite Hu. cbn [fmap option_fmap option_map fst snd].
    rewrite Z.eqb_refl. destruct (Z.leb_spec bidx (bidx + Z.of_nat n - 1)), (Z.ltb_spec (bidx + Z.of_nat n - 1) (bidx + Z.of_nat n)); done || lia.
Qed.

(** The bitmap blocks of a device, and the bits a clear one stands for. *)
Definition zmap_block (l : list Z) : Z := FS_IMAP_BLOCK_NR + word l IMAP_BLOCKS.

Lemma balloc_Ok s d j b k ub :
  super_at s d j b k ub → 1 <= word (bytes ub) FIRSTDATAZONE → 0 < word (bytes ub) ZMAP_BLOCKS < 65535 →
  let first := word (bytes ub) FIRSTDATAZONE - 1 in
  let nr := word (bytes ub) ZMAP_BLOCKS in
  let map := zmap_block (bytes ub) in
  (∀ m u t, 0 <= m < nr → full_from d map (cache s) 0 m → map_at d map (cache s) m u → first_clear (bytes u) t →
     ∃ l, with_bit (bytes u) t true l ∧
       balloc d s = if first + m * BLOCK_BITS + t <? word (bytes ub) ZONES
                    then Ok (first + m * BLOCK_BITS + t, set_cache (<[(d, map + m) := Buf l (holders u + 1) false l]> (hold d map m (cache s))) s)
                    else Stop Panic) ∧
  (full_from d map (cache s) 0 nr → balloc d s = Ok (EOFu, set_cache (hold d map nr (cache s)) s)).
Proof.
  intros H Hfirst Hnr first nr map. pose proof (sa_ok _ _ _ _ _ _ H) as Hok. pose proof (bo_block _ Hok) as [_ Hby].
  pose proof (word_range _ IMAP_BLOCKS Hby). pose proof (word_range _ FIRSTDATAZONE Hby).
  assert (balloc d s = ('(pcache, bit) ← bit_loop (Z.to_nat nr) d map first (word (bytes ub) ZONES) 0 None;
            bwrite_last pcache;; put_super (Some j);; mret bit) (counted j b s)) as ->.
  { unfold balloc. rewrite (st_bind_eq _ _ _ _ _ (the_super_Ok _ _ _ _ _ _ H)).
    rewrite (st_bind_eq _ _ _ _ _ (get_sb_Ok _ j _ (counted_sb _ _ _ _ _ _ H))).
    step_sget IMAP_BLOCKS H. step_sget ZMAP_BLOCKS H. step_sget FIRSTDATAZONE H. step_sget ZONES H.
    cbn [s_dev set_scount]. by rewrite (sa_dev _ _ _ _ _ _ H). }
  assert (Z.of_nat (Z.to_nat nr) = nr) as En by lia. split.
  - intros m u t Hm Hf Hu Ht. apply (alloc_done s d j b k ub); unfold map, zmap_block, FS_IMAP_BLOCK_NR in *; done || lia.
  - intros Hf. rewrite <- En in Hf. rewrite (alloc_full s d j b k ub), En; unfold map, zmap_block, FS_IMAP_BLOCK_NR in *; done || lia.
Qed.

(** ** Giving a block back *)

Lemma clear_bit_Ok s k off u t :
  cache s !! k = Some u → is_block (bytes u) → 0 <= off → off + BLOCK_BITS < 2147483648 → 0 <= t < BLOCK_BITS →
  if bit_of (bytes u) t then
    ∃ l, with_bit (bytes u) t false l ∧ clear_bit k off (off + t) s = Ok ((), set_cache (<[k := Buf l (holders u) false l]> (cache s)) s)
  else clear_bit k off (off + t) s = Stop Panic.
Proof.
  intros Hk Hb H0 H1 Ht. pose proof (block_wf _ off Hb H0 H1) as Hw. set (m := bitmap_make _ _ _) in *.
  assert (0 <= t < blength m * 8) as Ht' by (cbn; unfold BLOCK_SIZE, BLOCK_BITS in *; lia).
  pose proof (test_spec m t Hw Ht') as Htest. change (offset m) with off in Htest. change (bit m t) with (bit_of (bytes u) t) in Htest.
  destruct (set_spec m t false Hw Ht') as (m' & E & Hw' & HL & HO & HB). change (offset m) with off in *.
  unfold clear_bit. destruct (bit_of (bytes u) t) eqn:Hbit.
  - exists (bits m'). split.
    { pose proof (wf_len _ Hw') as HL'. split; [split; [by rewrite HL', HL|apply (wf_bytes _ Hw')]|].
      intros x Hx. transitivity (bit m' x); [done|]. by rewrite HB. }
    rewrite (st_bind_eq _ _ s () (set_cache (<[k := set_bytes (bits m') u]> (cache s)) s)).
    2: { apply on_bitmap_Ok; [done|]. fold m. rewrite (st_bind_eq _ _ m m m) by done.
         rewrite (st_bind_eq _ _ m true m) by (unfold lift_st; by rewrite Htest). by rewrite (st_bind_eq (sassert true) _ m () m). }
    set (s1 := set_cache _ s). assert (cache s1 !! k = Some (set_bytes (bits m') u)) as Hk1 by apply lookup_insert_eq.
    rewrite (st_bind_eq (on_cache (mark_dirty k)) _ s1 _ _ (on_cache_Ok _ s1 () _ (upd_buf_Ok _ _ (set_dirty true) _ Hk1))).
    set (s2 := set_cache _ s1). assert (cache s2 !! k = Some (set_dirty true (set_bytes (bits m') u))) as Hk2 by apply lookup_insert_eq.
    unfold on_cache, bwrite. rewrite (st_bind_eq _ _ _ _ _ (get_buf_Ok _ _ _ Hk2)). cbn [dirty set_dirty].
    rewrite (upd_buf_Ok _ _ _ _ Hk2). unfold s2, s1. cbn [cache set_cache]. by rewrite !insert_insert_eq.
  - unfold on_bitmap, mbind, st_bind, on_cache, get_buf, lift_st. rewrite Hk. cbn [cache set_cache]. fold m. cbn [get_st]. by rewrite Htest.
Qed.

(** [zmaps] as [read_super] fills it. *)
Definition zmaps_at (d : Z) (l : list Z) (maps : list (option key)) : Prop :=
  ∀ m, 0 <= m < word l ZMAP_BLOCKS → maps !! Z.to_nat m = Some (Some (d, zmap_block l + m)).

Lemma bfree_Ok s d j b k ub m t u :
  super_at s d j b k ub → zmaps_at d (bytes ub) (zmaps b) → 1 <= word (bytes ub) FIRSTDATAZONE →
  let first := word (bytes ub) FIRSTDATAZONE - 1 in
  let map := zmap_block (bytes ub) in
  0 <= m < word (bytes ub) ZMAP_BLOCKS → 0 <= t < BLOCK_BITS → first + m * BLOCK_BITS + t < word (bytes ub) ZONES →
  cache s !! (d, map + m) = Some u → is_block (bytes u) →
  if bit_of (bytes u) t then
    ∃ l, with_bit (bytes u) t false l ∧
      bfree d (first + m * BLOCK_BITS + t) s = Ok ((), set_cache (<[(d, map + m) := Buf l (holders u) false l]> (cache s)) s)
  else bfree d (first + m * BLOCK_BITS + t) s = Stop Panic.
Proof.
  intros H Hz Hf first map Hm Ht Hlt Hu Hb. pose proof (sa_ok _ _ _ _ _ _ H) as Hok. pose proof (bo_block _ Hok) as [_ Hby].
  pose proof (word_range _ FIRSTDATAZONE Hby). pose proof (word_range _ ZMAP_BLOCKS Hby).
  assert (0 <= first < 65536) by (unfold first; lia). assert (m < 65536) by lia. set (z := first + m * BLOCK_BITS + t) in *. set (s1 := counted j b s).
  assert (bfree d z s = (clear_bit (d, map + m) (first + m * BLOCK_BITS) (first + m * BLOCK_BITS + t);; put_super (Some j)) s1) as ->.
  { unfold bfree. rewrite (st_bind_eq _ _ _ _ _ (the_super_Ok _ _ _ _ _ _ H)). step_sget ZONES H.
    rewrite (st_bind_eq (sassert _) _ s1 () s1) by (unfold sassert; by destruct (Z.ltb_spec z (word (bytes ub) ZONES)); [|lia]).
    step_sget FIRSTDATAZONE H. cbv zeta. fold first. rewrite (st_bind_eq _ _ _ _ _ (get_sb_Ok _ j _ (counted_sb _ _ _ _ _ _ H))).
    replace (z - first) with (t + m * BLOCK_BITS) by (unfold z; lia). unfold BLOCK_BITS in Ht. rewrite (u32_small (t + m * BLOCK_BITS)) by (unfold BLOCK_BITS; lia).
    replace ((t + m * BLOCK_BITS) / BLOCK_BITS) with m by (unfold BLOCK_BITS; rewrite Z.div_add by lia; rewrite Z.div_small by lia; lia).
    rewrite (st_bind_eq (map_block _ _) _ s1 (d, map + m) s1).
    2: { unfold map_block, mbind, st_bind, lift_st. change (zmaps (set_scount (s_count b + 1) b)) with (zmaps b).
         unfold zget. destruct (Z.leb_spec 0 m); [|lia]. by rewrite (Hz m Hm). }
    rewrite u32_small by (unfold BLOCK_BITS; lia). done. }
  pose proof (clear_bit_Ok s1 (d, map + m) (first + m * BLOCK_BITS) u t Hu Hb ltac:(unfold BLOCK_BITS; lia) ltac:(unfold BLOCK_BITS; lia) Ht) as HC.
  destruct (bit_of (bytes u) t).
  - destruct HC as (l & Hl & E). exists l. split; [done|]. rewrite (st_bind_eq _ _ _ _ _ E). set (s2 := set_cache _ s1).
    rewrite (put_super_Ok s s2 d j b k ub H eq_refl). unfold s2, s1. by rewrite set_cache_counted.
  - unfold mbind, st_bind. by rewrite HC.
Qed.

(** ** The bitmap operations *)

(** C14. [balloc] takes the first block of the device the bitmap shows as free: when the first [m]
    blocks of the bitmap have no clear bit and bit [t] is the first clear one of block [m], it sets
    this bit, has the bitmap on the disk when it returns, and answers
    [firstdatazone - 1 + m * BLOCK_BITS + t] - unless that is no block of the device, in which case
    the kernel stops; when no bit is clear it answers [EOF].  Every bitmap block it has looked at
    stays held once more, for good. *)
Theorem balloc_first_fit s d j b k ub :
  super_at s d j b k ub → 1 <= word (bytes ub) FIRSTDATAZONE → 0 < word (bytes ub) ZMAP_BLOCKS < 65535 →
  let first := word (bytes ub) FIRSTDATAZONE - 1 in
  let nr := word (bytes ub) ZMAP_BLOCKS in
  let map := zmap_block (bytes ub) in
  (∀ m u t, 0 <= m < nr → full_from d map (cache s) 0 m → map_at d map (cache s) m u → first_clear (bytes u) t →
     ∃ l, with_bit (bytes u) t true l ∧
       balloc d s = if first + m * BLOCK_BITS + t <? word (bytes ub) ZONES
                    then Ok (first + m * BLOCK_BITS + t, set_cache (<[(d, map + m) := Buf l (holders u + 1) false l]> (hold d map m (cache s))) s)
                    else Stop Panic) ∧
  (full_from d map (cache s) 0 nr → balloc d s = Ok (EOFu, set_cache (hold d map nr (cache s)) s)).
Proof. apply balloc_Ok. Qed.

(** C24. A block taken and given back: [bfree] of what [balloc] answered clears the same bit again, on
    the disk too, and the file system is exactly as before - except that every bitmap block
    [balloc] looked at is held once more than before, and never released. *)
Theorem balloc_bfree s d j b ub m u t :
  super_at s d j b (d, FS_SUPER_BLOCK_NR) ub → zmaps_at d (bytes ub) (zmaps b) →
  1 <= word (bytes ub) FIRSTDATAZONE → word (bytes ub) ZMAP_BLOCKS < 65535 →
  let map := zmap_block (bytes ub) in
  let z := word (bytes ub) FIRSTDATAZONE - 1 + m * BLOCK_BITS + t in
  0 <= m < word (bytes ub) ZMAP_BLOCKS → full_from d map (cache s) 0 m → map_at d map (cache s) m u → first_clear (bytes u) t →
  z < word (bytes ub) ZONES →
  ∃ s', balloc d s = Ok (z, s') ∧ bfree d z s' = Ok ((), set_cache (hold d map (m + 1) (cache s)) s).
Proof.
  intros H Hz Hf Hn map z Hm Hfull Hu Ht Hlt. pose proof (sa_ok _ _ _ _ _ _ H) as Hok. pose proof (bo_block _ Hok) as [_ Hby].
  pose proof (word_range _ IMAP_BLOCKS Hby). pose proof Hu as (Hu1 & Hu2 & Hu3).
  destruct (proj1 (balloc_Ok s d j b _ ub H Hf ltac:(lia)) m u t Hm Hfull Hu Ht) as (l & [Hl HB] & E).
  fold map z in E. destruct (Z.ltb_spec z (word (bytes ub) ZONES)); [|lia]. set (s1 := set_cache _ s) in E. exists s1. split; [exact E|].
  assert (super_at s1 d j b (d, FS_SUPER_BLOCK_NR) ub) as Hs1.
  { destruct H as [A1 A2 A3 A4 A5 A6 A7]. split; try done. unfold s1. cbn [cache set_cache]. unfold map, zmap_block, FS_IMAP_BLOCK_NR, FS_SUPER_BLOCK_NR in *.
    rewrite lookup_insert_ne by (intros [=]; lia). rewrite hold_lookup. cbn [fst snd]. rewrite A6. cbn.
    destruct (Z.leb_spec (2 + word (bytes ub) IMAP_BLOCKS) 1); [lia|]. by rewrite andb_false_r. }
  pose proof Ht as (Ht1 & Ht2 & _).
  pose proof (bfree_Ok s1 d j b _ ub m t _ Hs1 Hz Hf Hm Ht1 Hlt (lookup_insert_eq _ _ _) Hl) as HF.
  cbn [bytes] in HF. rewrite HB, decide_True in HF by (done || lia). destruct HF as (l' & [Hl' HB'] & E'). fold map z in E'. rewrite E'.
  assert (l' = bytes u) as ->.
  { pose proof (bits_ext (bitmap_make (bytes u) BLOCK_SIZE 0) (bitmap_make l' BLOCK_SIZE 0)) as HX.
    assert (bitmap_make l' BLOCK_SIZE 0 = bitmap_make (bytes u) BLOCK_SIZE 0) as [=]; [|done].
    apply HX; [apply block_wf; [apply Hu2|unfold BLOCK_BITS; lia..]|apply block_wf; [done|unfold BLOCK_BITS; lia..]|done|done|].
    intros x [Hx _]. transitivity (bit_of l' x); [done|]. rewrite HB', HB by done. repeat case_decide; subst; done. }
  unfold s1. cbn [cache set_cache holders]. rewrite insert_insert_eq, set_cache_again. do 3 f_equal. apply map_eq. intros k.
  destruct (decide (k = (d, map + m))) as [->|Hne].
  - rewrite lookup_insert_eq, hold_lookup, Hu1. cbn. rewrite Z.eqb_refl.
    destruct (Z.leb_spec map (map + m)), (Z.ltb_spec (map + m) (map + (m + 1))); try lia. cbn. do 2 f_equal.
    pose proof (bo_clean _ Hu2 Hu3) as Hs. destruct u; cbn in *. subst. done.
  - rewrite lookup_insert_ne, !hold_lookup by done. destruct (cache s !! k); [cbn|done]. do 2 f_equal. destruct k as [d' b']. cbn.
    destruct (Z.eqb_spec d' d); [subst d'|done]. assert (b' ≠ map + m) by congruence.
    destruct (Z.leb_spec map b'), (Z.ltb_spec b' (map + m)), (Z.ltb_spec b' (map + (m + 1))); done || lia.
Qed.

(** ** Looking a block up *)

(** C5. [bmap] is the look-up in the tree of direct, indirect and double indirect blocks: for every block
    number of a file the loop with its shrinking divider answers what the recursion over the tree
    finds - without [create] 0 for a hole at any level, with [create] the block that is there - and
    leaves the file system exactly as it was, every block it took given back. *)
Theorem bmap_reference s i n k o u block v create :
  inode_at s i n k o u → bufs_ok (cache s) → 0 <= block < TOTAL_BLOCKS →
  file_block (cache s) (i_dev n) (bytes u) o block = Some v → create = false ∨ v ≠ 0 →
  bmap i block create s = Ok (v, s).
Proof. apply bmap_Ok. Qed.

(** ** Filling a hole *)

(** The descriptor or the indirect block after the new block number is stored. *)
Definition filled (u : buf_t) (at_ z : Z) : buf_t := set_dirty true (set_bytes (patch (bytes u) at_ (enc16 z)) u).

Lemma bmap_entry_create d s k u o index z s2 :
  cache s !! k = Some u → buf_ok u → 0 < holders u → 0 <= o + 2 * index → o + 2 * index + 2 <= BLOCK_SIZE →
  word (bytes u) (o + 2 * index) = 0 → 0 <= z < 65536 →
  balloc d (set_cache (<[k := held u]> (cache s)) s) = Ok (z, s2) → cache s2 !! k = Some (held u) →
  ∀ {A} (f : Z → FM A),
  (z ← on_cache (rd16 k (o + 2 * index));
   (if (z =? 0) && true then
      n ← balloc d; on_cache (wr16 k (o + 2 * index) n);; on_cache (mark_dirty k)
    else mret ());;
   on_cache (brelse (Some k));;
   z ← on_cache (rd16 k (o + 2 * index));
   f z) (set_cache (<[k := held u]> (cache s)) s) = f z (set_cache (<[k := filled u (o + 2 * index) z]> (cache s2)) s2).
Proof.
  intros Hk Hu Hh H0 H1 Hw Hz HB Hk2 A f. set (s1 := set_cache _ s) in *. set (p := o + 2 * index) in *.
  assert (cache s1 !! k = Some (held u)) as Hk1 by apply lookup_insert_eq.
  pose proof (block_length _ (buf_ok_held _ Hu)) as HL. pose proof (block_length _ Hu) as HLu.
  rewrite (st_bind_eq _ _ s1 _ s1 (on_cache_rd s1 k p 2 (λ l, word l p) (held u) Hk1 (buf_ok_held _ Hu) H0 H1)).
  change (bytes (held u)) with (bytes u). rewrite Hw. cbn [Z.eqb andb].
  rewrite (st_bind_eq _ _ s1 () (set_cache (<[k := held (filled u p z)]> (cache s2)) s2)).
  2: { rewrite (st_bind_eq _ _ _ _ _ HB).
       rewrite (st_bind_eq _ _ s2 _ _ (on_cache_Ok _ s2 () _ (wr_Ok _ k p (enc16 z) _ Hk2 H0 ltac:(cbn; lia)))).
       set (s3 := set_cache _ s2). rewrite (on_cache_Ok (mark_dirty k) s3 () _ (upd_buf_Ok _ _ (set_dirty true) _ (lookup_insert_eq _ _ _))).
       unfold s3. cbn [cache set_cache]. rewrite insert_insert_eq. done. }
  set (s4 := set_cache _ s2). assert (cache s4 !! k = Some (held (filled u p z))) as Hk4 by apply lookup_insert_eq.
  rewrite (st_bind_eq _ _ s4 () (set_cache (<[k := filled u p z]> (cache s2)) s2)).
  2: { rewrite (on_cache_Ok _ s4 _ _ (give_Ok _ k _ Hk4 ltac:(cbn; lia) ltac:(done))). unfold s4. cbn [cache set_cache].
       rewrite insert_insert_eq. unfold released. cbn [holders held set_holders filled set_dirty set_bytes].
       destruct (Z.eqb_spec (holders u + 1 - 1) 0); [lia|]. cbn [andb]. replace (holders u + 1 - 1) with (holders u) by lia. done. }
  set (s5 := set_cache _ s2). rewrite (st_bind_eq _ _ s5 z s5); [done|]. apply on_cache_read.
  assert (cache s5 !! k = Some (filled u p z)) as Hk5 by apply lookup_insert_eq.
  unfold rd16. rewrite (rd_Ok _ k p 2 (λ l, word l p) _ Hk5).
  - cbn [bytes filled set_dirty set_bytes]. rewrite word_inside; [done|lia..].
  - lia.
  - cbn [bytes filled set_dirty set_bytes]. rewrite patch_length; cbn; lia.
Qed.

(** [bmap] with [create] fills a hole among the direct blocks: it stores the block [balloc] answers
    in the descriptor, marks the descriptor's block dirty, and answers the new block; looking the
    block up in the new descriptor finds it. *)
Theorem bmap_create_direct s i n k o u block z s2 :
  inode_at s i n k o u → buf_ok u → 0 < holders u → 0 <= block < DIRECT_BLOCKS →
  file_block (cache s) (i_dev n) (bytes u) o block = Some 0 →
  balloc (i_dev n) (set_cache (<[k := held u]> (cache s)) s) = Ok (z, s2) → cache s2 !! k = Some (held u) → 0 <= z < 65536 →
  let u' := filled u (o + zone_at block) z in
  bmap i block true s = Ok (z, set_cache (<[k := u']> (cache s2)) s2) ∧
  ∀ c b, 0 <= b < DIRECT_BLOCKS →
    file_block c (i_dev n) (bytes u') o b = if decide (b = block) then Some z else file_block c (i_dev n) (bytes u) o b.
Proof.
  intros H Hu Hh Hb Hv HB Hk2 Hz u'. pose proof H as [_ _ _ Hk [Ho1 Ho2]]. pose proof (block_length _ Hu) as HL.
  unfold file_block, sizeof_desc, BLOCK_SIZE, DIRECT_BLOCKS, TOTAL_BLOCKS in *. destruct (Z.ltb_spec block 7); [|lia]. cbn [tree] in Hv.
  injection Hv as Hv. unfold zone_at in *. rewrite Z.add_assoc in Hv. split.
  - rewrite (bmap_enter s i n k o u block true H ltac:(unfold TOTAL_BLOCKS; lia)). cbv zeta. unfold DIRECT_BLOCKS.
    destruct (Z.ltb_spec block 7); [|lia]. cbn [bmap_loop].
    rewrite (bmap_entry_create (i_dev n) s k u (o + ZONE) block z s2); unfold ZONE, BLOCK_SIZE in *; try done || lia.
    unfold u'. by rewrite Z.add_assoc.
  - intros c b Hb'. destruct (Z.ltb_spec b 7); [|lia]. cbn [tree]. unfold u'. cbn [bytes filled set_dirty set_bytes].
    assert (length (enc16 z) = 2%nat) as E2 by done. unfold ZONE in *. case_decide as Hd.
    + subst b. rewrite word_inside; [done|lia..].
    + rewrite word_outside; [done|lia|rewrite E2; lia|lia|rewrite E2; lia].
Qed.

(** A block taken for an indirect block is not cleared: when the file has no indirect block yet,
    [bmap] with [create] takes one and answers whatever number lies in it at the place of the block
    asked for, a number no [balloc] has given out. *)
Theorem bmap_stale_indirect s i n k o u block z s2 uz :
  inode_at s i n k o u → buf_ok u → 0 < holders u → DIRECT_BLOCKS <= block < DIRECT_BLOCKS + INDIRECT1_BLOCKS →
  word (bytes u) (o + zone_at DIRECT_BLOCKS) = 0 →
  balloc (i_dev n) (set_cache (<[k := held u]> (cache s)) s) = Ok (z, s2) → cache s2 !! k = Some (held u) → 0 < z < 65536 →
  k ≠ (i_dev n, z) → cache s2 !! (i_dev n, z) = Some uz → buf_ok uz → word (bytes uz) (2 * (block - DIRECT_BLOCKS)) ≠ 0 →
  answer (bmap i block true s) = Some (word (bytes uz) (2 * (block - DIRECT_BLOCKS))).
Proof.
  intros H Hu Hh Hb Hv HB Hk2 Hz Hne Huz Hoz Hst. pose proof H as [_ _ _ Hk [Ho1 Ho2]]. unfold zone_at in Hv. rewrite Z.add_assoc in Hv.
  rewrite (bmap_enter s i n k o u block true H ltac:(unfold DIRECT_BLOCKS, INDIRECT1_BLOCKS, TOTAL_BLOCKS in *; lia)). cbv zeta.
  destruct (Z.ltb_spec block DIRECT_BLOCKS); [lia|]. destruct (Z.ltb_spec block (DIRECT_BLOCKS + INDIRECT1_BLOCKS)); [|lia]. cbn [bmap_loop].
  unfold sizeof_desc, BLOCK_SIZE in Ho2.
  rewrite (bmap_entry_create (i_dev n) s k u (o + ZONE) DIRECT_BLOCKS z s2); try done; try (unfold ZONE, DIRECT_BLOCKS, BLOCK_SIZE; lia).
  destruct (Z.eqb_spec z 0); [lia|]. set (s3 := set_cache _ s2).
  assert (cache s3 !! (i_dev n, z) = Some uz) as Hz3 by (unfold s3; cbn [cache set_cache]; by rewrite lookup_insert_ne).
  rewrite (st_bind_eq _ _ s3 _ _ (on_cache_Ok _ s3 _ _ (take_Ok _ _ z uz Hz3))). set (s4 := set_cache _ s3). set (p := 2 * (block - DIRECT_BLOCKS)) in *.
  assert (0 + 2 * u16 ((block - DIRECT_BLOCKS) / divider_at 1) = p) as Ep.
  { cbn [divider_at]. change (BLOCK_INDEXES ^ Z.of_nat 0) with 1. rewrite Z.div_1_r.
    rewrite u16_small by (unfold DIRECT_BLOCKS, INDIRECT1_BLOCKS in *; lia). done. }
  rewrite Ep. assert (0 <= p ∧ p + 2 <= BLOCK_SIZE) as [Hp1 Hp2] by (unfold p, DIRECT_BLOCKS, INDIRECT1_BLOCKS, BLOCK_SIZE in *; lia).
  assert (cache s4 !! (i_dev n, z) = Some (held uz)) as Hz4 by apply lookup_insert_eq.
  rewrite (st_bind_eq _ _ s4 _ s4 (on_cache_rd s4 _ p 2 (λ l, word l p) _ Hz4 (buf_ok_held _ Hoz) Hp1 Hp2)).
  change (bytes (held uz)) with (bytes uz). destruct (Z.eqb_spec (word (bytes uz) p) 0); [done|]. cbn [andb].
  rewrite (st_bind_eq (mret ()) _ s4 () s4) by done.
  rewrite (st_bind_eq _ _ s4 _ _ (on_cache_Ok _ s4 _ _ (brelse_held (cache s3) _ uz Hz3 Hoz))). change (set_cache (cache s3) s4) with (set_cache (cache s3) s3). rewrite set_cache_same.
  by rewrite (st_bind_eq _ _ s3 _ s3 (on_cache_rd s3 _ p 2 (λ l, word l p) uz Hz3 Hoz Hp1 Hp2)).
Qed.

(** ** Examples *)

Example demo_bmap : (λ b, answer (bmap 1 b false demo_fs)) <$> [0; 1; 2; 10; 7 + 512 + 512 + 5; 7 + 512 + 3] =
  Some <$> [8; 9; 0; 12; 14; 0].
Proof. vm_compute. reflexivity. Qed.

Lemma bmap_reference_witness :
  inode_at demo_fs 1 (demo_inode 2 1 32) (3, 4) 32 (default (clean 0 []) (cache demo_fs !! (3, 4))) ∧
  bmap 1 (7 + 512 + 512 + 5) false demo_fs = Ok (14, demo_fs).
Proof.
  assert (inode_at demo_fs 1 (demo_inode 2 1 32) (3, 4) 32 (default (clean 0 []) (cache demo_fs !! (3, 4)))) as H.
  { split; [done..| |done]. vm_compute. reflexivity. }
  split; [exact H|]. apply (bmap_reference demo_fs 1 _ _ _ _ _ 14 false H demo_bufs_ok); [done| |by left]. vm_compute. reflexivity.
Defined.

Definition demo_zmap : buf_t := clean 1 (at_offset 0 [255; 7] zeros).

Lemma demo_first_clear : first_clear (bytes demo_zmap) 11.
Proof.
  split; [unfold BLOCK_BITS; lia|]. split; [done|]. intros t [H0 H1].
  assert (forallb (λ t, bit_of (bytes demo_zmap) t) (seqZ 0 11) = true) as H by (vm_compute; reflexivity).
  apply (proj1 (forallb_forall _ _) H). apply list_elem_of_In, elem_of_seqZ. lia.
Qed.

Lemma demo_map_at : map_at 3 3 (cache demo_fs) 0 demo_zmap.
Proof. split; [vm_compute; reflexivity|]. split; [|done]. apply buf_okb_ok. vm_compute. reflexivity. Qed.

Lemma balloc_first_fit_witness : answer (balloc 3 demo_fs) = Some 16.
Proof.
  destruct (proj1 (balloc_first_fit demo_fs 3 0 _ _ _ demo_super_at ltac:(done) ltac:(done)) 0 demo_zmap 11 ltac:(done) ltac:(intros x Hx; lia)
    demo_map_at demo_first_clear) as (l & _ & E).
  rewrite E. vm_compute. reflexivity.
Defined.

Lemma balloc_bfree_witness : ∃ s', balloc 3 demo_fs = Ok (16, s') ∧ bfree 3 16 s' = Ok ((), set_cache (hold 3 3 1 (cache demo_fs)) demo_fs).
Proof.
  apply (balloc_bfree demo_fs 3 0 _ (clean 1 demo_super) 0 demo_zmap 11 demo_super_at);
    [|done|done|done|intros x Hx; lia|exact demo_map_at|exact demo_first_clear|done].
  intros m Hm. assert (m = 0) as -> by (change (0 <= m < 1) in Hm; lia). done.
Defined.

(** The file system of the example after a block is taken. *)
Definition demo_taken : fs :=
  match balloc 3 (set_cache (<[(3, 4) := held demo_inodes]> (cache demo_fs)) demo_fs) with Ok (_, s) => s | Stop _ => demo_fs end.

Lemma demo_at (i : nat) (n : inode_t) :
  inodes demo_fs !! i = Some n → i_desc n = Some ((3, 4), 32 * Z.of_nat i) → i_cache n = Some (3, 4) → (i < 2)%nat →
  inode_at demo_fs i n (3, 4) (32 * Z.of_nat i) demo_inodes.
Proof. intros. apply demo_inode_at; done. Qed.

Lemma bmap_create_direct_witness : answer (bmap 1 2 true demo_fs) = Some 16.
Proof.
  destruct (bmap_create_direct demo_fs 1 (demo_inode 2 1 32) (3, 4) 32 demo_inodes 2 16 demo_taken
    (demo_at 1 _ eq_refl eq_refl eq_refl ltac:(lia)) demo_inodes_ok ltac:(done) ltac:(done) ltac:(vm_compute; reflexivity)
    ltac:(vm_compute; reflexivity) ltac:(vm_compute; reflexivity) ltac:(done)) as [E _].
  rewrite E. reflexivity.
Defined.

Definition demo_stale : buf_t := clean 0 (replicate 1024 77).

Lemma demo_stale_ok : buf_ok demo_stale.
Proof. apply buf_okb_ok. vm_compute. reflexivity. Qed.

Lemma bmap_stale_indirect_witness :
  word (bytes demo_stale) (2 * (10 - DIRECT_BLOCKS)) = 19789 ∧
  answer (bmap 0 10 true demo_fs) = Some (word (bytes demo_stale) (2 * (10 - DIRECT_BLOCKS))).
Proof.
  split; [vm_compute; reflexivity|].
  apply (bmap_stale_indirect demo_fs 0 (demo_inode 1 5 0) (3, 4) 0 demo_inodes 10 16 demo_taken demo_stale
    (demo_at 0 _ eq_refl eq_refl eq_refl ltac:(lia)) demo_inodes_ok ltac:(done) ltac:(done)
    ltac:(vm_compute; reflexivity) ltac:(vm_compute; reflexivity) ltac:(vm_compute; reflexivity) ltac:(done)
    ltac:(done) ltac:(vm_compute; reflexivity) demo_stale_ok).
  intros H. vm_compute in H. discriminate H.
Defined.
