(* ===== verification/Namei.v ===== *)
(** * Directories and paths (src/fs/namei.c, first half)

    Permissions, the entries of a directory, and the walk along a path.  An entry is known by the
    block it lies in and its offset there.  The fuel bounds the loops over the characters and the
    components of a path. *)

From stdpp Require Import gmap.
From S2P Require Import Prelude KString Path Blocks Inode Bmap.

Definition KERNEL_RING0 : Z := 0.
Definition P_EXEC : Z := 1.
Definition P_WRITE : Z := 2.
Definition P_READ : Z := 4.
Definition NAME_LEN : Z := 14.

Definition permission (i : nat) (mask : Z) : FM bool :=
  mode ← dget16 i MODE;
  nlinks ← dget8 i NLINKS;
  if nlinks =? 0 then mret false
  else
    s ← get_st;
    if t_uid s =? KERNEL_RING0 then mret true
    else
      uid ← dget16 i UID;
      gid ← dget8 i GID;
      let mode := if t_uid s =? uid then Z.shiftr mode 6 else if t_gid s =? gid then Z.shiftr mode 3 else mode in
      mret (Z.land (Z.land mode mask) 7 =? mask).

Section walk.
Context (fuel : nat).

(** ** Entries *)

Abbreviation dentry := (key * Z)%type (only parsing).
Definition entry_nr (e : dentry) : FM Z := on_cache (rd16 e.1 e.2).
Definition set_entry_nr (e : dentry) (nr : Z) : FM unit := on_cache (wr16 e.1 e.2 nr).
(** [entry->name], to the end of the block. *)
Definition entry_name (e : dentry) : FM (list Z) := on_cache (rdn e.1 (e.2 + 2) (BLOCK_SIZE - (e.2 + 2))).

(** Both loops over a directory go to the next block when they have none yet or are behind the
    last entry of it: the block and the offset of entry [i]. *)
Definition entry_block (dir : nat) (create : bool) (i : Z) (pcache : option key) (off : Z) : FM (key * Z) :=
  match pcache with
  | Some k =>
      if off <? BLOCK_SIZE then mret (k, off)
      else
        on_cache (brelse (Some k));;
        block ← bmap dir (i / BLOCK_DENTRIES) create;
        sassert (negb (block =? 0));;
        n ← get_inode dir;
        k ← on_cache (bread (i_dev n) block);
        mret (k, 0)
  | None =>
      block ← bmap dir (i / BLOCK_DENTRIES) create;
      sassert (negb (block =? 0));;
      n ← get_inode dir;
      k ← on_cache (bread (i_dev n) block);
      mret (k, 0)
  end.

(** The search from entry [i] on, with [n] entries to go: the entry and what [*next] becomes. *)
Fixpoint entry_loop (n : nat) (dir : nat) (name i : Z) (pcache : option key) (off : Z) : FM (option (dentry * Z)) :=
  match n with
  | O => on_cache (brelse pcache);; mret None
  | S n =>
      '(k, off) ← entry_block dir false i pcache off;
      nr ← entry_nr (k, off);
      if nr =? 0 then entry_loop n dir name (i + 1) (Some k) (off + sizeof_dentry)
      else
        nm ← entry_name (k, off);
        r ← on_user (match_name fuel name nm);
        match r with
        | Some next => mret (Some ((k, off), next))
        | None => entry_loop n dir name (i + 1) (Some k) (off + sizeof_dentry)
        end
  end.

(** The way out of a mounted root: [match_name(name, "..", next)] decides with the inode. *)
Definition leave_mount (dir : nat) (name : Z) : FM nat :=
  r ← on_user (match_name fuel name [DOT; DOT; EOS]);
  n ← get_inode dir;
  match r with
  | Some _ =>
      if (i_nr n =? 1) && negb (dir =? get_root_inode)%nat then
        o ← get_super (i_dev n);
        j ← deref o;
        b ← get_sb j;
        up ← deref (s_imount b);
        upd_inode up (λ n, set_icount (u32 (i_count n + 1)) n);;
        iput (Some dir);;
        put_super (Some j);;
        mret up
      else mret dir
  | None => mret dir
  end.

(** [find_entry]: the directory it ends in, and the entry with the rest of the path. *)
Definition find_entry (dir : nat) (name : Z) : FM (nat * option (dentry * Z)) :=
  mode ← dget16 dir MODE;
  sassert (ISDIR mode);;
  dir ← leave_mount dir name;
  size ← dget32 dir SIZE;
  r ← entry_loop (Z.to_nat (size / sizeof_dentry)) dir name 0 None 0;
  mret (dir, r).

(** [for (i = 0; i < NAME_LEN && name[i]; ++i) assert(!IS_SEPARATOR(name[i]))]. *)
Fixpoint no_separator (n : nat) (name : Z) : M unit :=
  match n with
  | O => mret ()
  | S n =>
      c ← ld name;
      if c =? EOS then mret ()
      else sassert (negb (IS_SEPARATOR c));; no_separator n (name + 1)
  end.

(** The bytes [strncpy(entry->name, name, NAME_LEN)] stores: the characters with the terminator,
    or the first 13 and a terminator. *)
Fixpoint name_chars (n : nat) (name : Z) : M (list Z * bool) :=
  match n with
  | O => mret ([], false)
  | S n =>
      c ← ld name;
      if c =? EOS then mret ([0], true)
      else '(l, b) ← name_chars n (name + 1); mret (u8 c :: l, b)
  end.
Definition stored_name (name : Z) : M (list Z) :=
  '(l, ended) ← name_chars (Z.to_nat NAME_LEN) name;
  mret (if (ended : bool) then l else take (Z.to_nat (NAME_LEN - 1)) l ++ [0]).

(** The search for a place: a free entry, or a new one behind the last. *)
Fixpoint add_loop (n : nat) (dir : nat) (name i : Z) (pcache : option key) (off : Z) : FM dentry :=
  match n with
  | O => stop_st NoFuel
  | S n =>
      '(k, off) ← entry_block dir true i pcache off;
      size ← dget32 dir SIZE;
      (if size <=? i * sizeof_dentry then
         set_entry_nr (k, off) 0;;
         dset32 dir SIZE ((i + 1) * sizeof_dentry)
       else mret ());;
      nr ← entry_nr (k, off);
      if negb (nr =? 0) then add_loop n dir name (i + 1) (Some k) (off + sizeof_dentry)
      else
        l ← on_user (stored_name name);
        on_cache (wr k (off + 2) l);;
        on_cache (mark_dirty k);;
        now ← sys_time;
        dset32 dir MTIME now;;
        idirty dir;;
        mret (k, off)
  end.

Definition add_entry (dir : nat) (name : Z) : FM dentry :=
  '(dir, r) ← find_entry dir name;
  match r with
  | Some (e, _) => mret e
  | None =>
      on_user (no_separator (Z.to_nat NAME_LEN) name);;
      size ← dget32 dir SIZE;
      add_loop (Z.to_nat (size / sizeof_dentry + 2)) dir name 0 None 0
  end.

(** ** The walk *)

(** The loop of [named] from component [left] on; [right] is behind the last separator. *)
Fixpoint named_loop (n : nat) (inode : nat) (left right : Z) : FM (option (nat * Z)) :=
  match n with
  | O => stop_st NoFuel
  | S n =>
      '(inode, r) ← find_entry inode left;
      match r with
      | None => iput (Some inode);; mret None
      | Some (e, next) =>
          d ← get_inode inode;
          iput (Some inode);;
          nr ← entry_nr e;
          inode ← iget (i_dev d) nr;
          on_cache (brelse (Some e.1));;
          mode ← dget16 inode MODE;
          if negb (ISDIR mode) then mret None
          else
            x ← permission inode P_EXEC;
            if negb x then mret None
            else if right =? next then mret (Some (inode, next))
            else named_loop n inode next right
      end
  end.

(** [named]: the directory of the last component, and the last component. *)
Definition named (pathname : Z) : FM (option (nat * Z)) :=
  if pathname =? NULL then mret None
  else
    c ← on_user (ld pathname);
    s ← get_st;
    if (c =? EOS) then mret None
    else
      left ← (if IS_SEPARATOR c then on_user (skip_seps fuel (pathname + 1)) else mret pathname);
      let inode := if IS_SEPARATOR c then t_iroot s else t_ipwd s in
      upd_inode inode (λ n, set_icount (u32 (i_count n + 1)) n);;
      c ← on_user (ld left);
      if c =? EOS then mret (Some (inode, left))
      else
        right ← on_user (strrsep fuel left);
        if (right =? NULL) || (right <? left) then mret (Some (inode, left))
        else named_loop fuel inode left (right + 1).

Definition namei (pathname : Z) : FM (option nat) :=
  r ← named pathname;
  match r with
  | None => mret None
  | Some (dir, name) =>
      c ← on_user (ld name);
      if c =? EOS then mret (Some dir)
      else
        '(dir, r) ← find_entry dir name;
        match r with
        | None => iput (Some dir);; mret None
        | Some (e, _) =>
            d ← get_inode dir;
            nr ← entry_nr e;
            inode ← iget (i_dev d) nr;
            iput (Some dir);;
            on_cache (brelse (Some e.1));;
            mret (Some inode)
        end
  end.
End walk.

(** ** Permission *)

(** The bits of the mode that apply to the task: those of the owner, the group or the others. *)
Definition mode_class (s : fs) (uid gid : Z) : Z := if t_uid s =? uid then 6 else if t_gid s =? gid then 3 else 0.

Lemma land_mask_testbit a mask : 0 <= mask < 8 → Z.land (Z.land a mask) 7 = mask ↔ ∀ p, 0 <= p < 3 → Z.testbit mask p = true → Z.testbit a p = true.
Proof.
  intros Hm. split.
  - intros E p Hp Ht. rewrite <- E, !Z.land_spec in Ht. by destruct (Z.testbit a p).
  - intros H. apply Z.bits_inj'. intros p Hp. rewrite !Z.land_spec. destruct (decide (p < 3)).
    + assert (Z.testbit 7 p = true) as -> by (assert (p = 0 ∨ p = 1 ∨ p = 2) as [->|[->| ->]] by lia; done).
      rewrite andb_true_r. destruct (Z.testbit mask p) eqn:E; [|by rewrite andb_false_r]. by rewrite H by (done || lia).
    + assert (Z.testbit mask p = false) as ->; [|by rewrite andb_false_r].
      destruct (decide (mask = 0)) as [->|]; [apply Z.bits_0|]. apply Z.bits_above_log2; [lia|].
      assert (Z.log2 mask < 3) by (apply Z.log2_lt_pow2; lia). lia.
Qed.

(** [permission] grants a mask exactly to the kernel and to a task for which the bits of the mode
    that apply to it - the owner's, else the group's, else the others' - contain every bit of the
    mask; an inode without links grants nothing to anyone.  It changes nothing. *)
Theorem permission_correct s i n k o u mask :
  inode_at s i n k o u → buf_ok u → 0 <= mask < 8 →
  let mode := word (bytes u) (o + MODE) in
  let class := mode_class s (word (bytes u) (o + UID)) (byte (bytes u) (o + GID)) in
  ∃ b : bool, permission i mask s = Ok (b, s) ∧
    (b = true ↔ byte (bytes u) (o + NLINKS) ≠ 0 ∧
       (t_uid s = KERNEL_RING0 ∨ ∀ p, 0 <= p < 3 → Z.testbit mask p = true → Z.testbit mode (p + class) = true)).
Proof.
  intros H Hu Hm mode class. unfold permission.
  rewrite (st_bind_eq _ _ _ _ _ (dget16_Ok s i n k o u MODE H Hu ltac:(done) ltac:(done))).
  rewrite (st_bind_eq _ _ _ _ _ (dget8_Ok s i n k o u NLINKS H Hu ltac:(done) ltac:(done))).
  destruct (Z.eqb_spec (byte (bytes u) (o + NLINKS)) 0) as [E|Hn]; [exists false; split; [done|]; split; [done|intros [? _]; done]|].
  rewrite (st_bind_eq get_st _ s s s) by done.
  destruct (Z.eqb_spec (t_uid s) KERNEL_RING0) as [E|Hr]; [exists true; split; [done|]; split; [intros _; split; [done|by left]|done]|].
  rewrite (st_bind_eq _ _ _ _ _ (dget16_Ok s i n k o u UID H Hu ltac:(done) ltac:(done))).
  rewrite (st_bind_eq _ _ _ _ _ (dget8_Ok s i n k o u GID H Hu ltac:(done) ltac:(done))). cbv zeta. fold mode.
  set (shifted := if t_uid s =? word (bytes u) (o + UID) then _ else _).
  assert (0 <= mode) as Hmode by (pose proof (word_range (bytes u) (o + MODE) (proj2 (bo_block _ Hu))); lia).
  assert (∀ p, 0 <= p → Z.testbit shifted p = Z.testbit mode (p + class)) as Hs.
  { intros p Hp. unfold shifted, class, mode_class. destruct (_ =? _); [by rewrite Z.shiftr_spec|]. destruct (_ =? _); [by rewrite Z.shiftr_spec|]. by rewrite Z.add_0_r. }
  exists (Z.land (Z.land shifted mask) 7 =? mask). split; [done|]. rewrite Z.eqb_eq, (land_mask_testbit _ _ Hm). split.
  - intros HH. split; [done|right]. intros p Hp Ht. rewrite <- Hs by lia. by apply HH.
  - intros [_ [?|HH]]; [done|]. intros p Hp Ht. rewrite Hs by lia. by apply HH.
Qed.

(** ** Directories as lists of entries *)

(** Where entry [i] of the directory with the descriptor at offset [o] of [l] lies. *)
Definition dentry_of (c : bufs) (d : Z) (l : list Z) (o i : Z) : option (key * Z) :=
  z ← file_block c d l o (i / BLOCK_DENTRIES);
  if z =? 0 then None else Some ((d, z), sizeof_dentry * (i mod BLOCK_DENTRIES)).

(** Number and name of the entry at offset [off] of a block: the name ends before its terminator
    and has no separator in it. *)
Definition entry_in (l : list Z) (off nr : Z) (nm : list Z) : Prop :=
  word l off = nr ∧ ∃ tl, take (Z.to_nat (BLOCK_SIZE - (off + 2))) (drop (Z.to_nat (off + 2)) l) = nm ++ 0 :: tl ∧
    Forall (λ x, s8 x ≠ EOS) nm ∧ Forall (λ x, IS_SEPARATOR (s8 x) = false) nm.

(** A directory: all entries [es] - numbers and names, 0 for a free one - can be read. *)
Record directory (s : fs) (dir : nat) (n : inode_t) (k : key) (o : Z) (u : buf_t) (es : list (Z * list Z)) : Prop := {
  dr_inode : inode_at s dir n k o u;
  dr_bufs : bufs_ok (cache s);
  dr_mode : ISDIR (word (bytes u) (o + MODE)) = true;
  dr_size : dword (bytes u) (o + SIZE) / sizeof_dentry = Z.of_nat (length es);
  dr_small : Z.of_nat (length es) <= TOTAL_BLOCKS * BLOCK_DENTRIES;
  dr_entries : ∀ i nr nm, es !! i = Some (nr, nm) →
    ∃ e ue, dentry_of (cache s) (i_dev n) (bytes u) o (Z.of_nat i) = Some e ∧ cache s !! e.1 = Some ue ∧
      word (bytes ue) e.2 = nr ∧ (nr ≠ 0 → entry_in (bytes ue) e.2 nr nm)
}.

(** The name of the next component [comp] of the path at [p], behind separators [seps]. *)
Record component (fuel : nat) (m : mem) (p : Z) (seps comp rest : list Z) : Prop := {
  cp_str : str_at m p (seps ++ comp ++ rest);
  cp_seps : Forall (λ x, IS_SEPARATOR x = true) seps;
  cp_plain : plain comp;
  cp_rest : rest = [] ∨ absolute rest = true;
  cp_start : absolute (comp ++ rest) = false;
  cp_fuel : (length seps < fuel)%nat
}.

(** Where the path goes on behind the component. *)
Definition next_of (p : Z) (seps comp rest : list Z) : Z :=
  p + Z.of_nat (length seps) + Z.of_nat (length comp) + match rest with [] => 0 | _ => 1 end.

(** The entry in use with the name. *)
Definition matches (comp : list Z) (e : Z * list Z) : bool := negb (e.1 =? 0) && bool_decide (s8 <$> e.2 = comp).

Definition hold_block (k : key) (s : fs) : fs :=
  match cache s !! k with Some u => set_cache (<[k := held u]> (cache s)) s | None => s end.

Lemma on_user_Ok {A} (m : M A) s a m' : m (user s) = Ok (a, m') → on_user m s = Ok (a, s).
Proof. intros H. unfold on_user. by rewrite H. Qed.

Section directory.
Context (fuel : nat) (s : fs) (dir : nat) (n : inode_t) (k : key) (o : Z) (u : buf_t) (es : list (Z * list Z)).
Context (D : directory s dir n k o u es).

(** What the loop holds when it comes to entry [i]: nothing, or the block of the entry before. *)
Definition walking (i : Z) (pc : option key) (off : Z) (st : fs) : Prop :=
  (pc = None ∧ i = 0 ∧ st = s) ∨
  (∃ e, 0 < i ∧ dentry_of (cache s) (i_dev n) (bytes u) o (i - 1) = Some e ∧ is_Some (cache s !! e.1) ∧
     pc = Some e.1 ∧ off = e.2 + sizeof_dentry ∧ st = hold_block e.1 s).

Lemma entry_new_block i e :
  0 <= i < Z.of_nat (length es) → i mod BLOCK_DENTRIES = 0 → dentry_of (cache s) (i_dev n) (bytes u) o i = Some e → is_Some (cache s !! e.1) →
  (block ← bmap dir (i / BLOCK_DENTRIES) false;
   sassert (negb (block =? 0));;
   n ← get_inode dir;
   k ← on_cache (bread (i_dev n) block);
   mret (k, 0)) s = Ok (e, hold_block e.1 s).
Proof.
  intros Hi Hz He [ue Hue]. pose proof (dr_inode _ _ _ _ _ _ _ D) as HI. pose proof (dr_small _ _ _ _ _ _ _ D).
  unfold dentry_of in He. destruct (file_block _ _ _ _ _) as [z|] eqn:Ef; [|done]. cbn in He.
  destruct (Z.eqb_spec z 0); [done|]. injection He as <-. cbn [fst] in *.
  rewrite (st_bind_eq _ _ s z s).
  2: { apply (bmap_Ok s dir n k o u); [done|apply D| |done|by left]. split; [apply Z.div_pos; unfold BLOCK_DENTRIES; lia|].
       apply Z.div_lt_upper_bound; [unfold BLOCK_DENTRIES; lia|]. rewrite Z.mul_comm. lia. }
  rewrite (st_bind_eq (sassert _) _ s () s) by (unfold sassert; by destruct (Z.eqb_spec z 0)).
  rewrite (st_bind_eq _ _ _ _ _ (get_inode_Ok s dir n (ia_inode _ _ _ _ _ _ HI))).
  rewrite (st_bind_eq _ _ s _ _ (on_cache_Ok _ s _ _ (take_Ok _ _ z ue Hue))). unfold hold_block. rewrite Hue. by rewrite Hz.
Qed.

Lemma div_mod_pred i : 0 < i → i mod BLOCK_DENTRIES ≠ 0 →
  (i - 1) / BLOCK_DENTRIES = i / BLOCK_DENTRIES ∧ i mod BLOCK_DENTRIES = (i - 1) mod BLOCK_DENTRIES + 1.
Proof.
  intros H0 H. pose proof (Z.div_mod i 64 ltac:(lia)). pose proof (Z.mod_pos_bound i 64 ltac:(lia)). unfold BLOCK_DENTRIES in *.
  split; symmetry.
  - apply (Z.div_unique _ _ _ (i mod 64 - 1)); lia.
  - pose proof (Z.mod_unique (i - 1) 64 (i / 64) (i mod 64 - 1)). lia.
Qed.

Lemma div_mod_pred_full i : 0 < i → i mod BLOCK_DENTRIES = 0 → (i - 1) mod BLOCK_DENTRIES = BLOCK_DENTRIES - 1.
Proof.
  intros H0 H. pose proof (Z.div_mod i 64 ltac:(lia)). unfold BLOCK_DENTRIES in *.
  symmetry. apply (Z.mod_unique _ _ (i / 64 - 1)); lia.
Qed.

Lemma entry_block_Ok i pc off st e :
  0 <= i < Z.of_nat (length es) → walking i pc off st → dentry_of (cache s) (i_dev n) (bytes u) o i = Some e → is_Some (cache s !! e.1) →
  entry_block dir false i pc off st = Ok (e, hold_block e.1 s).
Proof.
  intros Hi [(-> & -> & ->)|(e' & Hpos & He' & [ue Hue] & -> & -> & ->)] He Hs; unfold entry_block.
  - by apply entry_new_block.
  - assert (e'.2 = sizeof_dentry * ((i - 1) mod BLOCK_DENTRIES)) as E2.
    { unfold dentry_of in He'. destruct (file_block _ _ _ _ _) as [z|]; [|done]. cbn in He'. by destruct (z =? 0); simplify_eq. }
    destruct (decide (i mod BLOCK_DENTRIES = 0)) as [Hz|Hz].
    + rewrite E2, div_mod_pred_full by done. change (_ <? BLOCK_SIZE) with false. cbn iota.
      rewrite (st_bind_eq _ _ (hold_block e'.1 s) () s); [by apply entry_new_block|].
      unfold hold_block. rewrite Hue. rewrite (on_cache_Ok _ (set_cache (<[e'.1 := held ue]> (cache s)) s) _ _ (brelse_held (cache s) e'.1 ue Hue (dr_bufs _ _ _ _ _ _ _ D _ _ Hue))).
      by rewrite set_cache_again, set_cache_same.
    + destruct (div_mod_pred i Hpos Hz) as [Ed Em]. pose proof (Z.mod_pos_bound i BLOCK_DENTRIES ltac:(done)).
      unfold dentry_of in He, He'. rewrite Ed in He'. destruct (file_block _ _ _ _ _) as [z|]; [|done]. cbn in He, He'.
      destruct (z =? 0); [done|]. simplify_eq. cbn [fst snd] in *.
      destruct (Z.ltb_spec (sizeof_dentry * ((i - 1) mod BLOCK_DENTRIES) + sizeof_dentry) BLOCK_SIZE) as [Hlt|Hge].
      * unfold mret, st_ret. do 3 f_equal. rewrite Em. lia.
      * exfalso. unfold sizeof_dentry, BLOCK_SIZE, BLOCK_DENTRIES in *. lia.
Qed.

(** Reading the entry in the held block. *)
Lemma held_nr e ue : cache s !! e.1 = Some ue → 0 <= e.2 → e.2 + sizeof_dentry <= BLOCK_SIZE →
  entry_nr e (hold_block e.1 s) = Ok (word (bytes ue) e.2, hold_block e.1 s).
Proof.
  intros Hue H0 H1. pose proof (dr_bufs _ _ _ _ _ _ _ D _ _ Hue) as Hok. unfold hold_block. rewrite Hue.
  apply (on_cache_rd (set_cache _ s) e.1 e.2 2 (λ l, word l e.2) (held ue)); [apply lookup_insert_eq|by apply buf_ok_held|done|].
  unfold sizeof_dentry in H1. lia.
Qed.

Lemma held_name e ue : cache s !! e.1 = Some ue → 0 <= e.2 → e.2 + sizeof_dentry <= BLOCK_SIZE →
  entry_name e (hold_block e.1 s) = Ok (take (Z.to_nat (BLOCK_SIZE - (e.2 + 2))) (drop (Z.to_nat (e.2 + 2)) (bytes ue)), hold_block e.1 s).
Proof.
  intros Hue H0 H1. pose proof (dr_bufs _ _ _ _ _ _ _ D _ _ Hue) as Hok. unfold hold_block. rewrite Hue. unfold sizeof_dentry in H1.
  apply (on_cache_rd (set_cache _ s) e.1 (e.2 + 2) (BLOCK_SIZE - (e.2 + 2)) (λ l, take (Z.to_nat (BLOCK_SIZE - (e.2 + 2))) (drop (Z.to_nat (e.2 + 2)) l)) (held ue));
    [apply lookup_insert_eq|by apply buf_ok_held|lia..].
Qed.

Lemma dentry_place e i : dentry_of (cache s) (i_dev n) (bytes u) o i = Some e → 0 <= e.2 ∧ e.2 + sizeof_dentry <= BLOCK_SIZE.
Proof.
  unfold dentry_of. destruct (file_block _ _ _ _ _) as [z|]; [|done]. cbn. destruct (z =? 0); [done|]. intros [= <-]. cbn.
  pose proof (Z.mod_pos_bound i BLOCK_DENTRIES ltac:(done)). unfold sizeof_dentry, BLOCK_SIZE, BLOCK_DENTRIES in *. lia.
Qed.

Lemma walking_next i e : 0 <= i → dentry_of (cache s) (i_dev n) (bytes u) o i = Some e → is_Some (cache s !! e.1) →
  walking (i + 1) (Some e.1) (e.2 + sizeof_dentry) (hold_block e.1 s).
Proof. intros Hi He Hs. right. exists e. rewrite Z.add_simpl_r. split_and!; done || lia. Qed.

Lemma walking_end i pc off st : walking i pc off st → on_cache (brelse pc) st = Ok ((), s).
Proof.
  intros [(-> & -> & ->)|(e & Hpos & He & [ue Hue] & -> & -> & ->)].
  - apply on_cache_read. done.
  - unfold hold_block. rewrite Hue.
    rewrite (on_cache_Ok _ (set_cache (<[e.1 := held ue]> (cache s)) s) _ _ (brelse_held (cache s) e.1 ue Hue (dr_bufs _ _ _ _ _ _ _ D _ _ Hue))).
    by rewrite set_cache_again, set_cache_same.
Qed.

Context (p : Z) (seps comp rest : list Z) (C : component fuel (user s) p seps comp rest).

Lemma match_entry l off nr nm : entry_in l off nr nm →
  match_name fuel p (take (Z.to_nat (BLOCK_SIZE - (off + 2))) (drop (Z.to_nat (off + 2)) l)) (user s) =
    Ok (if bool_decide (s8 <$> nm = comp) then Some (next_of p seps comp rest) else None, user s).
Proof.
  intros (_ & tl & -> & Hn & Hs). destruct C as [C1 C2 C3 C4 C5 C6].
  rewrite (match_name_correct fuel (user s) p seps comp rest nm tl C1 C2 C3 C4 C5 Hn Hs C6). unfold next_of.
  do 2 f_equal. unfold bool_decide. by destruct (decide_rel _ _ _), (decide _).
Qed.

(** The place of the first entry with the name, from entry [i] on. *)
Fixpoint first_match (l : list (Z * list Z)) (i : nat) : option nat :=
  match l with [] => None | e :: l => if matches comp e then Some i else first_match l (S i) end.

Lemma entry_loop_Ok l i pc off st :
  drop i es = l → walking (Z.of_nat i) pc off st →
  match first_match l i with
  | Some j => ∃ e, dentry_of (cache s) (i_dev n) (bytes u) o (Z.of_nat j) = Some e ∧
      entry_loop fuel (length l) dir p (Z.of_nat i) pc off st = Ok (Some (e, next_of p seps comp rest), hold_block e.1 s)
  | None => entry_loop fuel (length l) dir p (Z.of_nat i) pc off st = Ok (None, s)
  end.
Proof.
  revert i pc off st. induction l as [|[nr nm] l IH]; intros i pc off st Hl W; cbn [first_match length entry_loop].
  { by rewrite (st_bind_eq _ _ _ _ _ (walking_end _ _ _ _ W)). }
  assert (es !! i = Some (nr, nm)) as Hi by (rewrite <- (Nat.add_0_r i), <- lookup_drop, Hl; done).
  assert (drop (S i) es = l) as Hl' by (rewrite <- Nat.add_1_r, <- drop_drop, Hl; done).
  destruct (dr_entries _ _ _ _ _ _ _ D _ _ _ Hi) as (e & ue & He & Hue & Hnr & Hen).
  apply lookup_lt_Some in Hi. destruct (dentry_place _ _ He) as [P1 P2].
  assert (entry_block dir false (Z.of_nat i) pc off st = Ok (e, hold_block e.1 s)) as EB by (apply entry_block_Ok; [lia|done|done|by eexists]).
  pose proof (walking_next (Z.of_nat i) e ltac:(lia) He ltac:(by eexists)) as W'. replace (Z.of_nat i + 1) with (Z.of_nat (S i)) in * by lia.
  specialize (IH (S i) _ _ _ Hl' W').
  destruct e as [ke oe]. cbn [fst snd] in *. rewrite (st_bind_eq _ _ _ _ _ EB). cbn beta iota.
  rewrite (st_bind_eq _ _ _ _ _ (held_nr (ke, oe) ue Hue P1 P2)). cbn [fst snd]. rewrite Hnr. unfold matches. cbn [fst snd].
  destruct (Z.eqb_spec nr 0) as [->|Hz]; cbn [negb andb]; [replace (Z.of_nat i + 1) with (Z.of_nat (S i)) by lia; exact IH|].
  rewrite (st_bind_eq _ _ _ _ _ (held_name (ke, oe) ue Hue P1 P2)). cbn [fst snd].
  assert (user (hold_block ke s) = user s) as EU by (unfold hold_block; by rewrite Hue).
  pose proof (match_entry _ _ _ _ (Hen Hz)) as EM. rewrite <- EU in EM at 1.
  rewrite (st_bind_eq _ _ _ _ _ (on_user_Ok _ _ _ _ EM)).
  case_bool_decide; [by exists (ke, oe)|]. replace (Z.of_nat i + 1) with (Z.of_nat (S i)) by lia. exact IH.
Qed.

(** The search of a directory that is not left on the way: by a name other than "..", or at a
    directory that is no mounted root. *)
Lemma leave_mount_stays :
  comp ≠ [DOT; DOT] ∨ i_nr n ≠ 1 ∨ dir = get_root_inode → leave_mount fuel dir p s = Ok (dir, s).
Proof.
  intros Hstay. unfold leave_mount. pose proof (ia_inode _ _ _ _ _ _ (dr_inode _ _ _ _ _ _ _ D)) as Hn.
  destruct C as [C1 C2 C3 C4 C5 C6].
  pose proof (match_name_correct fuel (user s) p seps comp rest [DOT; DOT] [] C1 C2 C3 C4 C5 ltac:(by repeat constructor) ltac:(by repeat constructor) C6) as EM.
  rewrite (st_bind_eq _ _ _ _ _ (on_user_Ok _ _ _ _ EM)), (st_bind_eq _ _ _ _ _ (get_inode_Ok s dir n Hn)).
  change (s8 <$> [DOT; DOT]) with [DOT; DOT] in *. destruct (decide _) as [Ec|]; [|done].
  destruct Hstay as [?|[Hr|Hr]]; [congruence| |].
  - by destruct (Z.eqb_spec (i_nr n) 1).
  - rewrite Hr. by rewrite Nat.eqb_refl, andb_false_r.
Qed.
End directory.

(** C11. [find_entry] answers the first entry in use of the directory whose name is the next component
    of the path, with the place the path goes on at and the block of the entry held; when no entry
    in use has the name it answers that, and every block it looked through is given back.  It
    changes nothing else. *)
Theorem find_entry_first fuel s dir n k o u es p seps comp rest :
  directory s dir n k o u es → component fuel (user s) p seps comp rest →
  comp ≠ [DOT; DOT] ∨ i_nr n ≠ 1 ∨ dir = get_root_inode →
  match first_match comp es 0 with
  | Some j => ∃ e, dentry_of (cache s) (i_dev n) (bytes u) o (Z.of_nat j) = Some e ∧
      find_entry fuel dir p s = Ok ((dir, Some (e, next_of p seps comp rest)), hold_block e.1 s)
  | None => find_entry fuel dir p s = Ok ((dir, None), s)
  end.
Proof.
  intros D C Hstay. pose proof (dr_inode _ _ _ _ _ _ _ D) as HI. pose proof (ia_block _ _ _ _ _ _ HI) as Hk.
  pose proof (dr_bufs _ _ _ _ _ _ _ D _ _ Hk) as Hu.
  assert (find_entry fuel dir p s = (r ← entry_loop fuel (length es) dir p 0 None 0; mret (dir, r)) s) as ->.
  { unfold find_entry. rewrite (st_bind_eq _ _ _ _ _ (dget16_Ok s dir n k o u MODE HI Hu ltac:(done) ltac:(done))).
    rewrite (dr_mode _ _ _ _ _ _ _ D), (st_bind_eq (sassert true) _ s () s) by done.
    rewrite (st_bind_eq _ _ _ _ _ (leave_mount_stays _ _ _ _ _ _ _ _ D _ _ _ _ C Hstay)).
    rewrite (st_bind_eq _ _ _ _ _ (dget32_Ok s dir n k o u SIZE HI Hu ltac:(done) ltac:(done))).
    by rewrite (dr_size _ _ _ _ _ _ _ D), Nat2Z.id. }
  pose proof (entry_loop_Ok fuel s dir n k o u es D p seps comp rest C es 0 None 0 s eq_refl ltac:(by left)) as HL.
  destruct (first_match comp es 0) as [j|].
  - destruct HL as (e & He & E). exists e. split; [done|]. by rewrite (st_bind_eq _ _ _ _ _ E).
  - by rewrite (st_bind_eq _ _ _ _ _ HL).
Qed.

(** ** Examples *)

Definition demo_root : list (Z * list Z) := [(1, [46]); (1, [46; 46]); (0, [120]); (2, [97; 98])].

Lemma entry_in_check l off nr nm :
  let bs := take (Z.to_nat (BLOCK_SIZE - (off + 2))) (drop (Z.to_nat (off + 2)) l) in
  word l off = nr → take (S (length nm)) bs = nm ++ [0] →
  forallb (λ x, negb (s8 x =? EOS) && negb (IS_SEPARATOR (s8 x))) nm = true → entry_in l off nr nm.
Proof.
  intros bs Hw Ht Hf. split; [done|]. fold bs. exists (drop (S (length nm)) bs). split.
  - rewrite <- (take_drop (S (length nm)) bs) at 1. rewrite Ht. by rewrite <- app_assoc.
  - pose proof (proj1 (forallb_forall _ _) Hf) as HF.
    split; apply Forall_forall; intros x Hx%list_elem_of_In%HF; apply andb_true_iff in Hx as [H1 H2]; [by apply negb_true_iff, Z.eqb_neq in H1|by apply negb_true_iff in H2].
Qed.

Definition demo_dir_block : buf_t := default (clean 0 []) (cache demo_fs !! (3, 6)).

Lemma demo_directory : directory demo_fs 0 (demo_inode 1 5 0) (3, 4) 0 demo_inodes demo_root.
Proof.
  split; [exact (demo_at 0 _ eq_refl eq_refl eq_refl ltac:(lia))|exact demo_bufs_ok|vm_compute; reflexivity|vm_compute; reflexivity|done|].
  intros i nr nm Hi. exists ((3, 6), sizeof_dentry * Z.of_nat i), demo_dir_block.
  destruct i as [|[|[|[|i]]]]; cbn in Hi; [injection Hi as <- <-..|done]; (split; [vm_compute; reflexivity|]; split; [vm_compute; reflexivity|]; split; [vm_compute; reflexivity|]);
    intros Hz; try done; apply entry_in_check; vm_compute; reflexivity.
Qed.

Lemma demo_component : component 8 (user demo_fs) 500 [47] [97; 98] [].
Proof.
  split; [|by repeat constructor|by repeat constructor|by left|done|cbn; lia].
  split; [repeat split; vm_compute; reflexivity|]. repeat constructor; (unfold is_char, EOS; lia).
Qed.

Lemma find_entry_first_witness : answer (find_entry 8 0 500 demo_fs) = Some (0%nat, Some (((3, 6), 48), 503)).
Proof.
  pose proof (find_entry_first 8 demo_fs 0 _ _ _ _ demo_root 500 [47] [97; 98] [] demo_directory demo_component ltac:(by left)) as H.
  change (first_match [97; 98] demo_root 0) with (Some 3%nat) in H. destruct H as (e & He & E). rewrite E.
  assert (dentry_of (cache demo_fs) 3 (bytes demo_inodes) 0 3 = Some ((3, 6), 48)) as He' by (vm_compute; reflexivity).
  change (dentry_of (cache demo_fs) 3 (bytes demo_inodes) 0 3 = Some e) in He. rewrite He' in He. injection He as <-. reflexivity.
Defined.

Lemma permission_correct_witness : ∃ b : bool, permission 1 2 demo_fs = Ok (b, demo_fs) ∧ b = true.
Proof.
  destruct (permission_correct demo_fs 1 (demo_inode 2 1 32) (3, 4) 32 demo_inodes 2 (demo_at 1 _ eq_refl eq_refl eq_refl ltac:(lia)) demo_inodes_ok ltac:(lia))
    as (b & E & H). exists b. split; [exact E|]. apply H. split; [by vm_compute|]. right. intros p Hp.
  assert (p = 0 ∨ p = 1 ∨ p = 2) as [->|[->| ->]] by lia; vm_compute; done.
Defined.
