(* ===== verification/Files.v ===== *)
(** * Files and directory entries (src/fs/namei.c, second half)

    Opening, reading and writing a file, and the system calls that make and remove directories,
    links and device files.  Each answers 0 or [EOF]; the paths out by [goto clean] give back what
    was taken so far.  A byte of a block is a number from 0 to 255, a byte of the task's memory a
    [char]. *)

From stdpp Require Import gmap.
From S2P Require Import Prelude KString Path Blocks Inode Bmap Namei.

Definition FILE_MAX_SIZE : Z := BLOCK_SIZE.
Definition O_RDONLY : Z := 0.
Definition O_WRONLY : Z := 1.
Definition O_RDWR : Z := 2.
Definition O_ACCMODE : Z := 3.
Definition O_CREAT : Z := 64.
Definition O_TRUNC : Z := 512.
Definition O_APPEND : Z := 1024.
Definition ISVTX : Z := 512.

(** [ACC_MODE(x)], the byte of the string at [x & O_ACCMODE]; the last is the [char] -1. *)
Definition ACC_MODE (x : Z) : Z :=
  u16 (default 0 ([4; 2; 6; -1] !! Z.to_nat (Z.land x O_ACCMODE))).

(** An access to the task's memory that may change it. *)
Definition set_user (m : mem) (s : fs) : fs := Fs (cache s) (supers s) (inodes s) (clock s) m (t_uid s) (t_gid s) (t_umask s) (t_iroot s) (t_ipwd s).
Definition upd_user {A} (m : M A) : FM A := λ s,
  match m (user s) with Ok (a, c) => Ok (a, set_user c s) | Stop e => Stop e end.

(** [memcpy] from a block to the memory, and from the memory to a block. *)
Fixpoint copy_out (buf : Z) (l : list Z) : M unit :=
  match l with [] => mret () | x :: l => st buf x;; copy_out (buf + 1) l end.
Fixpoint copy_in (n : nat) (buf : Z) : M (list Z) :=
  match n with O => mret [] | S n => x ← ld buf; l ← copy_in n (buf + 1); mret (u8 x :: l) end.

(** ** Reading and writing *)

Section rw.
Context (i : nat).

(** One turn of the reading loop is a piece of one block: at most [left] bytes from [offset]. *)
Fixpoint fread_loop (fuel : nat) (buf left offset : Z) : FM Z :=
  if left =? 0 then mret offset
  else
    match fuel with
    | O => stop_st NoFuel
    | S fuel =>
        nr ← bmap i (u32 (Z.quot offset BLOCK_SIZE)) false;
        sassert (negb (nr =? 0));;
        n ← get_inode i;
        k ← on_cache (bread (i_dev n) nr);
        let start := u32 (Z.rem offset BLOCK_SIZE) in
        let chars := if u32 (BLOCK_SIZE - start) <? left then u32 (BLOCK_SIZE - start) else left in
        l ← on_cache (rdn k start chars);
        upd_user (copy_out buf l);;
        on_cache (brelse (Some k));;
        fread_loop fuel (buf + chars) (u32 (left - chars)) (s32 (offset + chars))
    end.

Definition inode_read (buf len offset : Z) : FM Z :=
  mode ← dget16 i MODE;
  sassert (ISFILE mode || ISDIR mode);;
  size ← dget32 i SIZE;
  if size <=? u32 offset then mret EOF_
  else if len =? 0 then mret 0
  else
    let rest := u32 (size - offset) in
    let left := if len <? rest then len else rest in
    stop ← fread_loop (Z.to_nat left) buf left offset;
    now ← sys_time;
    upd_inode i (set_atime now);;
    mret (s32 (stop - offset)).

Fixpoint fwrite_loop (fuel : nat) (buf left offset : Z) : FM Z :=
  if left =? 0 then mret offset
  else
    match fuel with
    | O => stop_st NoFuel
    | S fuel =>
        nr ← bmap i (u32 (Z.quot offset BLOCK_SIZE)) true;
        sassert (negb (nr =? 0));;
        n ← get_inode i;
        k ← on_cache (bread (i_dev n) nr);
        let start := u32 (Z.rem offset BLOCK_SIZE) in
        let chars := if u32 (BLOCK_SIZE - start) <? left then u32 (BLOCK_SIZE - start) else left in
        let offset := s32 (offset + chars) in
        size ← dget32 i SIZE;
        (if size <? u32 offset then dset32 i SIZE offset else mret ());;
        l ← on_user (copy_in (Z.to_nat chars) buf);
        on_cache (wr k start l);;
        on_cache (mark_dirty k);;
        on_cache (brelse (Some k));;
        fwrite_loop fuel (buf + chars) (u32 (left - chars)) offset
    end.

Definition inode_write (buf len offset : Z) : FM Z :=
  mode ← dget16 i MODE;
  sassert (ISFILE mode);;
  if FILE_MAX_SIZE <=? u32 (len + offset) then mret EOF_
  else
    stop ← fwrite_loop (Z.to_nat len) buf len offset;
    now ← sys_time;
    upd_inode i (λ n, set_ctime now (set_atime now n));;
    dset32 i MTIME now;;
    idirty i;;
    n ← get_inode i;
    c ← deref (i_cache n);
    on_cache (bwrite c);;
    mret (s32 (stop - offset)).
End rw.

Section calls.
Context (fuel : nat).

Abbreviation dentry := (key * Z)%type (only parsing).

(** ** Opening *)

(** [makeup] and [clean]: the two ways out of [inode_open]. *)
Definition open_makeup (flag : Z) (dir inode : nat) (e : dentry) : FM (option nat) :=
  (if negb (Z.land flag O_TRUNC =? 0) then inode_truncate inode else mret ());;
  on_cache (brelse (Some e.1));;
  iput (Some dir);;
  mret (Some inode).
Definition open_clean (dir inode : option nat) (c : option key) : FM (option nat) :=
  on_cache (brelse c);;
  iput inode;;
  iput dir;;
  mret None.

(** [entry->nr = ialloc(dir->dev); inode = new_inode(dir->dev, entry->nr)]. *)
Definition entry_inode (dir : nat) (e : dentry) : FM nat :=
  d ← get_inode dir;
  nr ← ialloc (i_dev d);
  set_entry_nr e nr;;
  nr ← entry_nr e;
  d ← get_inode dir;
  new_inode (i_dev d) nr.

Definition inode_open (pathname flag mode : Z) : FM (option nat) :=
  if negb (Z.land flag O_TRUNC =? 0) && (Z.land flag O_ACCMODE =? O_RDONLY) then open_clean None None None
  else
    r ← named fuel pathname;
    match r with
    | None => open_clean None None None
    | Some (dir, next) =>
        c ← on_user (ld next);
        if c =? EOS then mret (Some dir)
        else
          '(dir, r) ← find_entry fuel dir next;
          match r with
          | Some (e, _) =>
              d ← get_inode dir;
              nr ← entry_nr e;
              inode ← iget (i_dev d) nr;
              p ← permission inode (ACC_MODE (Z.land flag O_ACCMODE));
              if negb p then open_makeup flag dir inode e
              else
                m ← dget16 inode MODE;
                if ISDIR m && negb (Z.land flag O_ACCMODE =? O_RDONLY) then open_clean (Some dir) (Some inode) (Some e.1)
                else open_makeup flag dir inode e
          | None =>
              if Z.land flag O_CREAT =? 0 then open_clean (Some dir) None None
              else
                p ← permission dir P_WRITE;
                if negb p then open_clean (Some dir) None None
                else
                  e ← add_entry fuel dir next;
                  inode ← entry_inode dir e;
                  s ← get_st;
                  dset16 inode MODE (Z.lor (Z.land mode (Z.land 511 (Z.lnot (t_umask s)))) IFREG);;
                  open_makeup flag dir inode e
          end
    end.

(** ** Making and removing directories *)

(** The beginning all the calls share: the directory of the last component of a path, which must
    exist, have something behind it and be writable.  Otherwise [k] gets what [clean] gives back. *)
Definition writable_dir {A} (pathname : Z) (clean : option nat → FM A) (k : nat → Z → FM A) : FM A :=
  r ← named fuel pathname;
  match r with
  | None => clean None
  | Some (dir, next) =>
      c ← on_user (ld next);
      if c =? EOS then clean (Some dir)
      else
        p ← permission dir P_WRITE;
        if negb p then clean (Some dir) else k dir next
  end.

Definition store_name (e : dentry) (name : list Z) : FM unit := on_cache (wr e.1 (e.2 + 2) (name ++ [EOS])).

Definition mkdir_clean (dir : option nat) (c : option key) : FM Z :=
  iput dir;; on_cache (brelse c);; mret EOF_.

Definition sys_mkdir (pathname mode : Z) : FM Z :=
  writable_dir pathname (λ dir, mkdir_clean dir None) (λ dir name,
    '(dir, r) ← find_entry fuel dir name;
    match r with
    | Some (e, _) => mkdir_clean (Some dir) (Some e.1)
    | None =>
        e ← add_entry fuel dir name;
        on_cache (mark_dirty e.1);;
        inode ← entry_inode dir e;
        s ← get_st;
        dset16 inode MODE (Z.lor (Z.land (Z.land mode 511) (Z.lnot (t_umask s))) IFDIR);;
        dset8 inode NLINKS 2;;
        dset32 inode SIZE (sizeof_dentry * 2);;
        nlinks ← dget8 dir NLINKS;
        dset8 dir NLINKS (nlinks + 1);;
        idirty dir;;
        z ← bmap inode 0 true;
        n ← get_inode inode;
        k ← on_cache (bread (i_dev n) z);
        on_cache (mark_dirty k);;
        store_name (k, 0) [DOT];;
        set_entry_nr (k, 0) (i_nr n);;
        store_name (k, sizeof_dentry) [DOT; DOT];;
        d ← get_inode dir;
        set_entry_nr (k, sizeof_dentry) (i_nr d);;
        iput (Some inode);;
        iput (Some dir);;
        on_cache (brelse (Some k));;
        on_cache (brelse (Some e.1));;
        mret 0
    end).

(** The loop of [is_dir_empty]: it asks for block [1 / BLOCK_DENTRIES] whenever it needs one. *)
Fixpoint count_loop (n : nat) (inode : nat) (pcache : option key) (off count : Z) : FM Z :=
  match n with
  | O => on_cache (brelse pcache);; mret count
  | S n =>
      '(k, off) ← entry_block inode false (1 / BLOCK_DENTRIES) pcache off;
      nr ← entry_nr (k, off);
      count_loop n inode (Some k) (off + sizeof_dentry) (if nr =? 0 then count else s32 (count + 1))
  end.

Definition is_dir_empty (inode : nat) : FM bool :=
  mode ← dget16 inode MODE;
  sassert (ISDIR mode);;
  size ← dget32 inode SIZE;
  let entries := s32 (size / sizeof_dentry) in
  z ← dget16 inode (zone_at 0);
  if (entries <? 2) || (z =? 0) then mret false
  else
    count ← count_loop (Z.to_nat entries) inode None 0 0;
    if count <? 2 then mret false else mret (count =? 2).

(** [strcmp(name, lit) == 0]. *)
Fixpoint is_literal (lit : list Z) (name : Z) : M bool :=
  match lit with
  | [] => c ← ld name; mret (c =? EOS)
  | x :: lit => c ← ld name; if c =? x then is_literal lit (name + 1) else mret false
  end.

Definition rmdir_clean (inode dir : option nat) (c : option key) (ret : Z) : FM Z :=
  iput inode;; iput dir;; on_cache (brelse c);; mret ret.

(** The removal itself, when nothing is in its way. *)
Definition remove_dir (dir inode : nat) (e : dentry) : FM unit :=
  nlinks ← dget8 inode NLINKS;
  sassert (nlinks =? 2);;
  inode_truncate inode;;
  n ← get_inode inode;
  ifree (i_dev n) (i_nr n);;
  idirty inode;;
  dset8 inode NLINKS 0;;
  upd_inode inode (set_inr 0);;
  nlinks ← dget8 dir NLINKS;
  dset8 dir NLINKS (nlinks - 1);;
  now ← sys_time;
  dset32 dir MTIME now;;
  upd_inode dir (λ n, set_ctime now (set_atime now n));;
  idirty dir;;
  nlinks ← dget8 dir NLINKS;
  sassert (0 <? nlinks);;
  set_entry_nr e 0;;
  on_cache (mark_dirty e.1).

Definition sys_rmdir (pathname : Z) : FM Z :=
  r ← named fuel pathname;
  match r with
  | None => rmdir_clean None None None EOF_
  | Some (dir, name) =>
      c ← on_user (ld name);
      if c =? EOS then rmdir_clean None (Some dir) None EOF_
      else
        dot ← on_user (is_literal [DOT] name);
        dots ← on_user (is_literal [DOT; DOT] name);
        if (dot : bool) || dots then rmdir_clean None (Some dir) None EOF_
        else
          p ← permission dir P_WRITE;
          if negb p then rmdir_clean None (Some dir) None EOF_
          else
            '(dir, r) ← find_entry fuel dir name;
            match r with
            | None => rmdir_clean None (Some dir) None EOF_
            | Some (e, _) =>
                d ← get_inode dir;
                nr ← entry_nr e;
                inode ← iget (i_dev d) nr;
                sassert (negb (inode =? dir)%nat);;
                mode ← dget16 inode MODE;
                if negb (ISDIR mode) then rmdir_clean (Some inode) (Some dir) (Some e.1) EOF_
                else
                  s ← get_st;
                  dmode ← dget16 dir MODE;
                  uid ← dget16 inode UID;
                  if negb (Z.land dmode ISVTX =? 0) && negb (t_uid s =? uid) then rmdir_clean (Some inode) (Some dir) (Some e.1) EOF_
                  else
                    n ← get_inode inode;
                    d ← get_inode dir;
                    if negb (i_dev d =? i_dev n) || (1 <? i_count n) then rmdir_clean (Some inode) (Some dir) (Some e.1) EOF_
                    else
                      empty ← is_dir_empty inode;
                      if negb empty then rmdir_clean (Some inode) (Some dir) (Some e.1) EOF_
                      else remove_dir dir inode e;; rmdir_clean (Some inode) (Some dir) (Some e.1) 0
            end
  end.

(** ** Links *)

Definition link_clean (c : option key) (dir inode : option nat) (ret : Z) : FM Z :=
  on_cache (brelse c);; iput dir;; iput inode;; mret ret.

Definition sys_link (oldname newname : Z) : FM Z :=
  o ← namei fuel oldname;
  match o with
  | None => link_clean None None None EOF_
  | Some inode =>
      mode ← dget16 inode MODE;
      if ISDIR mode then link_clean None None (Some inode) EOF_
      else
        r ← named fuel newname;
        match r with
        | None => link_clean None None (Some inode) EOF_
        | Some (dir, name) =>
            c ← on_user (ld name);
            d ← get_inode dir;
            n ← get_inode inode;
            if (c =? EOS) || negb (i_dev d =? i_dev n) then link_clean None (Some dir) (Some inode) EOF_
            else
              p ← permission dir P_WRITE;
              if negb p then link_clean None (Some dir) (Some inode) EOF_
              else
                '(dir, r) ← find_entry fuel dir name;
                match r with
                | Some (e, _) => link_clean (Some e.1) (Some dir) (Some inode) EOF_
                | None =>
                    e ← add_entry fuel dir name;
                    n ← get_inode inode;
                    set_entry_nr e (i_nr n);;
                    on_cache (mark_dirty e.1);;
                    nlinks ← dget8 inode NLINKS;
                    dset8 inode NLINKS (nlinks + 1);;
                    now ← sys_time;
                    upd_inode inode (set_ctime now);;
                    idirty inode;;
                    link_clean (Some e.1) (Some dir) (Some inode) 0
                end
        end
  end.

Definition unlink_clean (c : option key) (inode dir : option nat) (ret : Z) : FM Z :=
  on_cache (brelse c);; iput inode;; iput dir;; mret ret.

(** The removal of one link, and of the file with the last one. *)
Definition remove_link (inode : nat) (e : dentry) : FM unit :=
  nlinks ← dget8 inode NLINKS;
  sassert (negb (nlinks =? 0));;
  set_entry_nr e 0;;
  on_cache (mark_dirty e.1);;
  dset8 inode NLINKS (nlinks - 1);;
  idirty inode;;
  nlinks ← dget8 inode NLINKS;
  if nlinks =? 0 then inode_truncate inode;; n ← get_inode inode; ifree (i_dev n) (i_nr n) else mret ().

Definition sys_unlink (filename : Z) : FM Z :=
  writable_dir filename (λ dir, unlink_clean None None dir EOF_) (λ dir name,
    '(dir, r) ← find_entry fuel dir name;
    match r with
    | None => unlink_clean None None (Some dir) EOF_
    | Some (e, _) =>
        d ← get_inode dir;
        nr ← entry_nr e;
        inode ← iget (i_dev d) nr;
        mode ← dget16 inode MODE;
        s ← get_st;
        uid ← dget16 inode UID;
        if ISDIR mode || (negb (Z.land mode ISVTX =? 0) && negb (t_uid s =? uid)) then unlink_clean (Some e.1) (Some inode) (Some dir) EOF_
        else remove_link inode e;; unlink_clean (Some e.1) (Some inode) (Some dir) 0
    end).

Definition sys_mknod (filename mode dev : Z) : FM Z :=
  writable_dir filename (λ dir, unlink_clean None None dir EOF_) (λ dir name,
    '(dir, r) ← find_entry fuel dir name;
    match r with
    | Some (e, _) => unlink_clean (Some e.1) None (Some dir) EOF_
    | None =>
        e ← add_entry fuel dir name;
        on_cache (mark_dirty e.1);;
        inode ← entry_inode dir e;
        dset16 inode MODE mode;;
        (if ISBLK mode || ISCHR mode then dset16 inode (zone_at 0) dev else mret ());;
        unlink_clean (Some e.1) (Some inode) (Some dir) 0
    end).
End calls.

(** ** The bytes of a file *)

(** Byte [j] of the file with the descriptor at offset [o] of [l]; [None] in a hole. *)
Definition file_byte (c : bufs) (d : Z) (l : list Z) (o j : Z) : option Z :=
  z ← file_block c d l o (j / BLOCK_SIZE);
  if z =? 0 then None else u ← c !! (d, z); Some (byte (bytes u) (j mod BLOCK_SIZE)).

(** The [len] bytes from [off] on are [data]. *)
Definition file_data (c : bufs) (d : Z) (l : list Z) (o off : Z) (data : list Z) : Prop :=
  ∀ t, (t < length data)%nat → file_byte c d l o (off + Z.of_nat t) = data !! t.

Lemma file_data_app c d l o off l1 l2 :
  file_data c d l o off (l1 ++ l2) → file_data c d l o off l1 ∧ file_data c d l o (off + Z.of_nat (length l1)) l2.
Proof.
  intros H. split; intros t Ht.
  - rewrite H by (rewrite length_app; lia). by apply lookup_app_l.
  - replace (off + Z.of_nat (length l1) + Z.of_nat t) with (off + Z.of_nat (length l1 + t)) by lia.
    rewrite H by (rewrite length_app; lia). rewrite lookup_app_r by lia. f_equal. lia.
Qed.

(** A piece of one block. *)
Lemma file_data_block c d l o off data :
  bufs_ok c → file_data c d l o off data → data ≠ [] → 0 <= off → off mod BLOCK_SIZE + Z.of_nat (length data) <= BLOCK_SIZE →
  ∃ z u, file_block c d l o (off / BLOCK_SIZE) = Some z ∧ z ≠ 0 ∧ c !! (d, z) = Some u ∧ buf_ok u ∧
    take (length data) (drop (Z.to_nat (off mod BLOCK_SIZE)) (bytes u)) = data.
Proof.
  intros Hc H Hne H0 H1. assert (0 < length data)%nat as Hpos by (destruct data; cbn; done || lia).
  pose proof (H 0%nat Hpos) as E0. rewrite Z.add_0_r in E0. pose proof (lookup_lt_is_Some_2 _ _ Hpos) as [x Hx]. rewrite Hx in E0.
  unfold file_byte in E0. destruct (file_block c d l o (off / BLOCK_SIZE)) as [z|] eqn:Ef; [cbn in E0|done].
  destruct (Z.eqb_spec z 0); [done|]. destruct (c !! (d, z)) as [u|] eqn:Eu; [|done]. pose proof (Hc _ _ Eu) as Hok.
  exists z, u. split_and!; [done..|]. pose proof (block_length u Hok) as HL. pose proof (Z.mod_pos_bound off BLOCK_SIZE ltac:(done)).
  apply (list_eq_same_length _ _ (length data)); [done|rewrite length_take, length_drop; lia|].
  intros t a b Ht Ha Hb. rewrite lookup_take_lt, lookup_drop in Ha by done. specialize (H t Ht). rewrite Hb in H. unfold file_byte in H.
  pose proof (Z.div_mod off BLOCK_SIZE ltac:(done)).
  assert ((off + Z.of_nat t) / BLOCK_SIZE = off / BLOCK_SIZE) as Ed by (symmetry; apply (Z.div_unique _ _ _ (off mod BLOCK_SIZE + Z.of_nat t)); lia).
  assert ((off + Z.of_nat t) mod BLOCK_SIZE = off mod BLOCK_SIZE + Z.of_nat t) as Em by (symmetry; apply (Z.mod_unique _ _ (off / BLOCK_SIZE)); lia).
  rewrite Ed, Ef, Em in H. cbn in H. destruct (Z.eqb_spec z 0); [done|]. rewrite Eu in H. cbn in H. injection H as <-.
  unfold byte. replace (Z.to_nat (off mod BLOCK_SIZE + Z.of_nat t)) with (Z.to_nat (off mod BLOCK_SIZE) + t)%nat by lia. by rewrite Ha.
Qed.

Lemma copy_out_Ok m p l : room m p (length l) → copy_out p l m = Ok ((), write p l m).
Proof.
  revert m p. induction l as [|x l IH]; intros m p Hr; [done|]. apply room_S in Hr as [Hp Hr]. cbn [copy_out write].
  rewrite (st_bind_eq _ _ _ _ _ (st_Ok _ _ x Hp)). apply IH. by apply (room_write _ _ _ p [x]).
Qed.

Lemma copy_in_Ok m p l : bytes_at m p (s8 <$> l) → Forall is_byte l → copy_in (length l) p m = Ok (l, m).
Proof.
  revert p. induction l as [|x l IH]; intros p H Hb; [done|]. cbn [fmap list_fmap bytes_at] in H. destruct H as [Hx Hl].
  apply Forall_cons in Hb as [Hb Hbl]. cbn [copy_in length]. rewrite (st_bind_eq _ _ _ _ _ (ld_Ok _ _ _ Hx)), (st_bind_eq _ _ _ _ _ (IH _ Hl Hbl)).
  unfold mret, st_ret. do 3 f_equal. unfold u8, s8, is_byte in *. rewrite Zminus_mod, Z.mod_mod by lia. rewrite <- Zminus_mod.
  replace (x + 128 - 128) with x by lia. by apply Z.mod_small.
Qed.

Lemma upd_user_Ok {A} (m : M A) s a c : m (user s) = Ok (a, c) → upd_user m s = Ok (a, set_user c s).
Proof. intros H. unfold upd_user. by rewrite H. Qed.

(** A state that differs in the memory only. *)
Lemma inode_at_user s m i n k o u : inode_at s i n k o u → inode_at (set_user m s) i n k o u.
Proof. by intros []. Qed.

Section read.
Context (s : fs) (i : nat) (n : inode_t) (k : key) (o : Z) (u : buf_t).
Context (H : inode_at s i n k o u) (Hc : bufs_ok (cache s)).

Lemma fread_loop_Ok fuel buf data offset m :
  file_data (cache s) (i_dev n) (bytes u) o offset data → (length data <= fuel)%nat → 0 <= offset →
  offset + Z.of_nat (length data) <= TOTAL_BLOCKS * BLOCK_SIZE → room m buf (length data) →
  fread_loop i fuel buf (Z.of_nat (length data)) offset (set_user m s) = Ok (offset + Z.of_nat (length data), set_user (write buf data m) s).
Proof.
  revert buf data offset m. induction fuel as [|fuel IH]; intros buf data offset m Hd Hf H0 H1 Hr.
  { assert (data = []) as -> by (destruct data; cbn in Hf; done || lia). cbn. by rewrite Z.add_0_r. }
  cbn [fread_loop]. destruct (Z.eqb_spec (Z.of_nat (length data)) 0) as [E|E].
  { assert (data = []) as -> by (destruct data; cbn in E; done || lia). cbn. by rewrite Z.add_0_r. }
  pose proof (Z.mod_pos_bound offset BLOCK_SIZE ltac:(done)) as Hm. assert (offset < 2147483648 - 1024) by (unfold TOTAL_BLOCKS, BLOCK_SIZE in H1; lia).
  rewrite Z.quot_div_nonneg, Z.rem_mod_nonneg by done. rewrite (u32_small (offset mod BLOCK_SIZE)) by (unfold BLOCK_SIZE in *; lia).
  rewrite (u32_small (BLOCK_SIZE - _)) by (unfold BLOCK_SIZE in *; lia).
  set (r := BLOCK_SIZE - offset mod BLOCK_SIZE). set (chars := if r <? Z.of_nat (length data) then r else Z.of_nat (length data)).
  assert (0 < chars <= Z.of_nat (length data) ∧ chars <= r) as [Hch Hch2] by (unfold chars; destruct (Z.ltb_spec r (Z.of_nat (length data))); unfold r in *; lia).
  set (d1 := take (Z.to_nat chars) data). set (d2 := drop (Z.to_nat chars) data).
  assert (length d1 = Z.to_nat chars ∧ length d2 = (length data - Z.to_nat chars)%nat) as [L1 L2] by (unfold d1, d2; rewrite length_take, length_drop; lia).
  assert (data = d1 ++ d2) as Ed by (symmetry; apply take_drop). rewrite Ed in Hd. apply file_data_app in Hd as [Hd1 Hd2].
  destruct (file_data_block _ _ _ _ _ _ Hc Hd1 ltac:(intros E1%(f_equal length); change (length []) with 0%nat in E1; lia) H0 ltac:(unfold r in *; lia)) as (z & uz & Ef & Hz & Huz & Hok & Et).
  assert (0 <= offset / BLOCK_SIZE < TOTAL_BLOCKS) as Hq by (split; [by apply Z.div_pos|apply Z.div_lt_upper_bound; [done|lia]]).
  rewrite (u32_small (offset / BLOCK_SIZE)) by (unfold TOTAL_BLOCKS in Hq; lia). set (sm := set_user m s).
  rewrite (st_bind_eq _ _ sm z sm) by (apply (bmap_Ok sm i n k o u); [by apply inode_at_user|done|done|done|by left]).
  rewrite (st_bind_eq (sassert _) _ sm () sm) by (unfold sassert; by destruct (Z.eqb_spec z 0)).
  rewrite (st_bind_eq _ _ _ _ _ (get_inode_Ok sm i n (ia_inode _ _ _ _ _ _ H))).
  rewrite (st_bind_eq _ _ sm _ _ (on_cache_Ok _ sm _ _ (take_Ok _ _ z uz Huz))). set (s1 := set_cache _ sm).
  rewrite (st_bind_eq _ _ s1 d1 s1).
  2: { rewrite <- Et, L1. apply (on_cache_rd s1 _ (offset mod BLOCK_SIZE) chars (λ l, take (Z.to_nat chars) (drop (Z.to_nat (offset mod BLOCK_SIZE)) l)) (held uz));
         [apply lookup_insert_eq|by apply buf_ok_held|lia|unfold r in *; lia]. }
  assert (room m buf (length d1)) as Hr1 by (eapply room_le; [done|lia]).
  rewrite (st_bind_eq _ _ _ _ _ (upd_user_Ok _ s1 () _ (copy_out_Ok m buf d1 Hr1))). set (s2 := set_user _ s1).
  rewrite (st_bind_eq _ _ s2 _ _ (on_cache_Ok _ s2 _ _ (brelse_held (cache s) _ uz Huz Hok))).
  replace (set_cache (cache s) s2) with (set_user (write buf d1 m) s) by (unfold s2, s1, sm; by destruct s).
  assert (u32 (Z.of_nat (length data) - chars) = Z.of_nat (length d2)) as -> by (rewrite u32_small; [lia|unfold TOTAL_BLOCKS, BLOCK_SIZE in *; lia]).
  assert (s32 (offset + chars) = offset + Z.of_nat (length d1)) as -> by (rewrite s32_small; [lia|unfold r, BLOCK_SIZE in *; lia]).
  rewrite IH; [|done|lia|lia|lia|].
  - rewrite Ed at 2. rewrite write_app. rewrite L1, Z2Nat.id by lia. do 2 f_equal. lia.
  - apply room_write. intros x Hx. apply Hr. lia.
Qed.

End read.

Lemma file_block_bytes c d l l' o block :
  (∀ j, 0 <= j → o <= j < o + sizeof_desc → 14 <= j - o → byte l' j = byte l j) → 0 <= o → 0 <= block →
  file_block c d l' o block = file_block c d l o block.
Proof.
  intros Hl Ho Hb. assert (∀ z, 0 <= z <= 8 → word l' (o + zone_at z) = word l (o + zone_at z)) as Hw.
  { intros z Hz. unfold word, zone_at, ZONE, sizeof_desc in *. rewrite !Hl by lia. done. }
  unfold file_block. unfold DIRECT_BLOCKS in *. destruct (Z.ltb_spec block 7); [rewrite Hw by lia; done|]. rewrite !Hw by lia. done.
Qed.

(** What the size limit leaves of [inode_write]: a file is at most one block long. *)
Lemma one_block len offset : 0 < len → 0 <= offset → len + offset < FILE_MAX_SIZE →
  u32 (len + offset) = len + offset ∧ Z.quot offset BLOCK_SIZE = 0 ∧ Z.rem offset BLOCK_SIZE = offset ∧ (u32 (BLOCK_SIZE - offset) <? len) = false ∧
  s32 (offset + len) = offset + len ∧ u32 offset = offset ∧ u32 (offset + len) = offset + len.
Proof.
  unfold FILE_MAX_SIZE, BLOCK_SIZE. intros. rewrite !u32_small by lia. rewrite s32_small by lia. split_and!; try lia.
  - by rewrite Z.quot_small by lia.
  - by rewrite Z.rem_small by lia.
Qed.

(** The descriptor's block, and the data block, after a write of [data] to [offset]. *)
Definition grown (u : buf_t) (o offset : Z) (data : list Z) : buf_t :=
  let e := offset + Z.of_nat (length data) in
  if dword (bytes u) (o + SIZE) <? e then set_bytes (patch (bytes u) (o + SIZE) (enc32 e)) u else u.
Definition overwritten (u : buf_t) (offset : Z) (data : list Z) : buf_t :=
  released (set_dirty true (set_bytes (patch (bytes u) offset data) (held u))).

Lemma grown_ok u o offset data : buf_ok u → 0 <= o → o + sizeof_desc <= BLOCK_SIZE → 0 < holders u →
  buf_ok (set_dirty true (grown u o offset data)) ∧ holders (grown u o offset data) = holders u.
Proof.
  intros [H1 H2 H3 H4] Ho Ho2 Hh. unfold grown. destruct (_ <? _); (split; [split|]); cbn; try done || lia.
  apply patch_block; [done|apply enc32_bytes|unfold SIZE; lia|unfold SIZE, sizeof_desc in *; cbn; lia].
Qed.

Section write.
Context (s : fs) (i : nat) (n : inode_t) (k : key) (o : Z) (u : buf_t).
Context (H : inode_at s i n k o u) (Hc : bufs_ok (cache s)) (Hh : 0 < holders u).
Context (z : Z) (uz : buf_t) (Hz : z ≠ 0) (Hne : (i_dev n, z) ≠ k).
Context (Hf : file_block (cache s) (i_dev n) (bytes u) o 0 = Some z) (Huz : cache s !! (i_dev n, z) = Some uz).
Context (buf offset : Z) (data : list Z) (Hdata : Forall is_byte data).
Context (Hlen : 0 < Z.of_nat (length data)) (Hoff : 0 <= offset) (Hmax : Z.of_nat (length data) + offset < FILE_MAX_SIZE).
Context (Hbuf : bytes_at (user s) buf (s8 <$> data)).

Lemma fwrite_loop_Ok :
  fwrite_loop i (length data) buf (Z.of_nat (length data)) offset s =
    Ok (offset + Z.of_nat (length data),
        set_cache (<[(i_dev n, z) := overwritten uz offset data]> (<[k := grown u o offset data]> (cache s))) s).
Proof.
  destruct (one_block _ _ Hlen Hoff Hmax) as (E1 & E2 & E3 & E4 & E5 & E6 & E7). pose proof (Hc _ _ (ia_block _ _ _ _ _ _ H)) as Hu.
  pose proof (Hc _ _ Huz) as Hokz. pose proof (block_length _ Hokz) as HLz. pose proof H as [Hn Hd Hcc Hk [Ho1 Ho2]].
  destruct (length data) as [|len'] eqn:EL; [lia|]. cbn [fwrite_loop]. rewrite <- EL in *.
  destruct (Z.eqb_spec (Z.of_nat (length data)) 0); [lia|]. rewrite E2, E3, (u32_small 0) by lia.
  rewrite (st_bind_eq _ _ s z s) by (apply (bmap_Ok s i n k o u); [done|done|done|done|by right]).
  rewrite (st_bind_eq (sassert _) _ s () s) by (unfold sassert; by destruct (Z.eqb_spec z 0)).
  rewrite (st_bind_eq _ _ _ _ _ (get_inode_Ok s i n Hn)).
  rewrite (st_bind_eq _ _ s _ _ (on_cache_Ok _ s _ _ (take_Ok _ _ z uz Huz))). set (s1 := set_cache _ s).
  rewrite E6, E4, E5. cbv zeta. rewrite E7.
  assert (inode_at s1 i n k o u) as I1 by (split; try done; unfold s1; cbn [cache set_cache]; by rewrite lookup_insert_ne).
  rewrite (st_bind_eq _ _ _ _ _ (dget32_Ok s1 i n k o u SIZE I1 Hu ltac:(done) ltac:(done))).
  set (s2 := set_cache (<[k := grown u o offset data]> (cache s1)) s1).
  rewrite (st_bind_eq _ _ s1 () s2).
  2: { unfold s2, grown. destruct (dword (bytes u) (o + SIZE) <? offset + Z.of_nat (length data)); [exact (dset32_Ok s1 i n k o u SIZE _ I1 Hu ltac:(done) ltac:(done))|].
       rewrite insert_id by apply I1. by rewrite set_cache_same. }
  rewrite Nat2Z.id. pose proof (copy_in_Ok _ _ _ Hbuf Hdata) as HC.
  rewrite (st_bind_eq _ _ _ _ _ (on_user_Ok _ s2 _ _ HC)).
  assert (cache s2 !! (i_dev n, z) = Some (held uz)) as Hz2 by (unfold s2; cbn [cache set_cache]; rewrite lookup_insert_ne by done; apply lookup_insert_eq).
  assert (offset + Z.of_nat (length data) <= Z.of_nat (length (bytes (held uz)))) as Hfit by (cbn [bytes held set_holders]; rewrite HLz; unfold FILE_MAX_SIZE in *; lia).
  rewrite (st_bind_eq _ _ s2 _ _ (on_cache_Ok _ s2 _ _ (wr_Ok _ _ offset data _ Hz2 Hoff Hfit))). set (s3 := set_cache _ s2).
  rewrite (st_bind_eq (on_cache (mark_dirty _)) _ s3 _ _ (on_cache_Ok _ s3 () _ (upd_buf_Ok _ _ (set_dirty true) _ (lookup_insert_eq _ _ _)))). set (s4 := set_cache _ s3).
  rewrite (st_bind_eq _ _ s4 () (set_cache (<[(i_dev n, z) := overwritten uz offset data]> (cache s4)) s4)).
  2: { apply on_cache_Ok. apply (give_Ok _ _ (set_dirty true (set_bytes (patch (bytes uz) offset data) (held uz)))); [apply lookup_insert_eq| |done].
       cbn. pose proof (bo_count _ Hokz). lia. }
  set (s5 := set_cache _ s4). rewrite Z.sub_diag. change (u32 0) with 0.
  assert (set_cache (cache s5) s5 = set_cache (<[(i_dev n, z) := overwritten uz offset data]> (<[k := grown u o offset data]> (cache s))) s) as E.
  { unfold s5, s4, s3, s2, s1. rewrite !set_cache_again. cbn [cache set_cache]. rewrite !insert_insert_eq. f_equal.
    rewrite (insert_insert_ne _ k) by congruence. by rewrite insert_insert_eq. }
  rewrite set_cache_same in E. rewrite E. by destruct len'.
Qed.

(** The descriptor's block when the write is done. *)
Definition stamped (now : Z) : buf_t :=
  written (set_bytes (patch (bytes (grown u o offset data)) (o + MTIME) (enc32 now)) (grown u o offset data)).
Definition wrote : fs :=
  let now := clock s 0 in
  set_inodes (<[i := set_ctime now (set_atime now n)]> (inodes s)) (set_clock (λ m, clock s (S m))
    (set_cache (<[k := stamped now]> (<[(i_dev n, z) := overwritten uz offset data]> (cache s))) s)).

Lemma inode_write_Ok : ISFILE (word (bytes u) (o + MODE)) = true →
  inode_write i buf (Z.of_nat (length data)) offset s = Ok (Z.of_nat (length data), wrote).
Proof.
  intros Hm. destruct (one_block _ _ Hlen Hoff Hmax) as (E1 & _). pose proof (Hc _ _ (ia_block _ _ _ _ _ _ H)) as Hu.
  pose proof H as [Hn Hd Hcc Hk [Ho1 Ho2]]. destruct (grown_ok u o offset data Hu Ho1 Ho2 Hh) as [Hg _].
  unfold inode_write. rewrite (st_bind_eq _ _ _ _ _ (dget16_Ok s i n k o u MODE H Hu ltac:(done) ltac:(done))), Hm.
  rewrite (st_bind_eq (sassert true) _ s () s) by done. rewrite E1. destruct (Z.leb_spec FILE_MAX_SIZE (Z.of_nat (length data) + offset)); [lia|].
  rewrite Nat2Z.id. rewrite (st_bind_eq _ _ _ _ _ fwrite_loop_Ok). set (s1 := set_cache _ s). set (g := grown u o offset data) in *.
  set (s2 := set_clock (λ m, clock s (S m)) s1). rewrite (st_bind_eq sys_time _ s1 (clock s 0) s2) by done. set (now := clock s 0).
  rewrite (st_bind_eq _ _ _ _ _ (upd_inode_Ok s2 i _ n Hn)). set (s3 := set_inodes _ s2).
  assert (inode_at s3 i (set_ctime now (set_atime now n)) k o g) as I3.
  { split; try done; [apply list_lookup_insert_eq; by eapply lookup_lt_Some|]. unfold s3, s2, s1. cbn [cache set_cache set_inodes set_clock].
    rewrite lookup_insert_ne by done. apply lookup_insert_eq. }
  assert (patch (bytes g) (o + MTIME) (enc32 now) = patch (bytes (set_dirty true g)) (o + MTIME) (enc32 now)) as Eg by done.
  rewrite (st_bind_eq _ _ s3 () (set_cache (<[k := set_bytes (patch (bytes g) (o + MTIME) (enc32 now)) g]> (cache s3)) s3)).
  2: { unfold dset32. rewrite (st_bind_eq _ _ _ _ _ (desc_of_Ok _ _ _ _ _ _ I3)). apply on_cache_Ok. apply (wr_Ok _ k (o + MTIME) (enc32 now) g); [apply I3|unfold MTIME; lia|].
       pose proof (block_length _ Hg) as HL. cbn in HL. rewrite HL. unfold MTIME, sizeof_desc in *. cbn. lia. }
  set (s4 := set_cache _ s3). assert (inodes s4 !! i = Some (set_ctime now (set_atime now n))) as Hn4 by apply I3.
  rewrite (st_bind_eq (idirty i) _ s4 () (set_cache (<[k := set_dirty true (set_bytes (patch (bytes g) (o + MTIME) (enc32 now)) g)]> (cache s4)) s4)).
  2: { unfold idirty. rewrite (st_bind_eq _ _ _ _ _ (get_inode_Ok s4 i _ Hn4)). cbn [i_cache set_ctime set_atime]. rewrite Hcc.
       rewrite (st_bind_eq (deref (Some k)) _ s4 k s4) by done. apply on_cache_Ok. apply (upd_buf_Ok _ _ (set_dirty true)). apply lookup_insert_eq. }
  set (s5 := set_cache _ s4). rewrite (st_bind_eq _ _ _ _ _ (get_inode_Ok s5 i _ Hn4)). cbn [i_cache set_ctime set_atime]. rewrite Hcc.
  rewrite (st_bind_eq (deref (Some k)) _ s5 k s5) by done.
  rewrite (st_bind_eq _ _ s5 () wrote); [unfold mret, st_ret; do 2 f_equal; rewrite Z.add_simpl_l; apply s32_small; unfold FILE_MAX_SIZE, BLOCK_SIZE in *; lia|].
  assert (cache s5 !! k = Some (set_dirty true (set_bytes (patch (bytes g) (o + MTIME) (enc32 now)) g))) as Hk5 by apply lookup_insert_eq.
  unfold on_cache, bwrite. rewrite (st_bind_eq _ _ _ _ _ (get_buf_Ok _ _ _ Hk5)). cbn [dirty set_dirty]. rewrite (upd_buf_Ok _ _ _ _ Hk5).
  unfold wrote, s5, s4, s3, s2, s1. cbn [cache set_cache set_inodes set_clock]. rewrite !insert_insert_eq.
  rewrite (insert_insert_ne _ k) by congruence. rewrite !insert_insert_eq. rewrite (insert_insert_ne _ (i_dev n, z) k) by done. done.
Qed.

Lemma overwritten_ok : buf_ok (overwritten uz offset data) ∧ bytes (overwritten uz offset data) = patch (bytes uz) offset data.
Proof.
  pose proof (Hc _ _ Huz) as [B1 B2 B3 B4]. assert (is_block (patch (bytes uz) offset data)) as HB by (apply patch_block; unfold FILE_MAX_SIZE in *; done || lia).
  unfold overwritten, released. cbn. rewrite Z.add_simpl_r. destruct (Z.eqb_spec (holders uz) 0); cbn; (split; [split|]; cbn; try done; lia).
Qed.

Lemma wrote_at : inode_at wrote i (set_ctime (clock s 0) (set_atime (clock s 0) n)) k o (stamped (clock s 0)).
Proof.
  pose proof H as [Hn Hd Hcc Hk Ho]. split; try done; [apply list_lookup_insert_eq; by eapply lookup_lt_Some|]. unfold wrote. cbn [cache set_cache set_inodes set_clock].
  apply lookup_insert_eq.
Qed.

Lemma stamped_bytes : buf_ok (stamped (clock s 0)) ∧
  (∀ j, 0 <= j → o <= j < o + sizeof_desc → 14 <= j - o → byte (bytes (stamped (clock s 0))) j = byte (bytes u) j) ∧
  word (bytes (stamped (clock s 0))) (o + MODE) = word (bytes u) (o + MODE) ∧
  dword (bytes (stamped (clock s 0))) (o + SIZE) = Z.max (dword (bytes u) (o + SIZE)) (offset + Z.of_nat (length data)).
Proof.
  pose proof (Hc _ _ (ia_block _ _ _ _ _ _ H)) as Hu. pose proof H as [Hn Hd Hcc Hk [Ho1 Ho2]].
  destruct (grown_ok u o offset data Hu Ho1 Ho2 Hh) as [[G1 G2 G3 G4] G5]. cbn in G1. pose proof (proj1 G1) as HL. pose proof (block_length _ Hu) as HLu.
  assert (length (enc32 (clock s 0)) = 4%nat) as E4 by done. set (l := bytes (grown u o offset data)) in *.
  assert (bytes (stamped (clock s 0)) = patch l (o + MTIME) (enc32 (clock s 0))) as -> by done.
  unfold MODE, SIZE, MTIME, sizeof_desc in *. split_and!.
  - split; cbn.
    + apply patch_block; [done|apply enc32_bytes|unfold MTIME; lia|rewrite E4; unfold MTIME; lia].
    + lia.
    + done.
    + done.
  - intros j Hj Hj1 Hj2. rewrite patch_outside by (rewrite ?E4; lia). unfold l, grown. destruct (_ <? _); [|done]. cbn [bytes set_bytes].
    rewrite patch_outside; [done|unfold SIZE; lia|unfold SIZE; cbn; lia|lia|unfold SIZE; cbn; lia].
  - rewrite word_outside by (rewrite ?E4; lia). unfold l, grown. destruct (_ <? _); [|done]. cbn [bytes set_bytes].
    rewrite word_outside; [done|unfold SIZE; lia|unfold SIZE; cbn; lia|lia|unfold SIZE; cbn; lia].
  - rewrite dword_outside by (rewrite ?E4; lia). unfold l, grown. unfold SIZE. destruct (Z.ltb_spec (dword (bytes u) (o + 4)) (offset + Z.of_nat (length data))); [|lia].
    cbn [bytes set_bytes]. rewrite dword_inside; [lia|lia|lia|unfold FILE_MAX_SIZE, BLOCK_SIZE in *; lia].
Qed.
End write.

(** ** Reading and writing *)

Lemma inode_read_Ok s i n k o u buf len offset data :
  inode_at s i n k o u → bufs_ok (cache s) →
  ISFILE (word (bytes u) (o + MODE)) || ISDIR (word (bytes u) (o + MODE)) = true →
  0 <= offset < dword (bytes u) (o + SIZE) → dword (bytes u) (o + SIZE) <= TOTAL_BLOCKS * BLOCK_SIZE → 0 < len < 4294967296 →
  Z.of_nat (length data) = Z.min len (dword (bytes u) (o + SIZE) - offset) →
  file_data (cache s) (i_dev n) (bytes u) o offset data → room (user s) buf (length data) →
  inode_read i buf len offset s =
    Ok (Z.of_nat (length data), set_inodes (<[i := set_atime (clock s 0) n]> (inodes s)) (set_clock (λ m, clock s (S m)) (set_user (write buf data (user s)) s))).
Proof.
  intros H Hc Hm Hoff Hsize Hlen Hd Hdata Hr. pose proof (Hc _ _ (ia_block _ _ _ _ _ _ H)) as Hu. set (size := dword (bytes u) (o + SIZE)) in *.
  assert (size < 4294967296) by (unfold TOTAL_BLOCKS, BLOCK_SIZE in *; lia).
  unfold inode_read. rewrite (st_bind_eq _ _ _ _ _ (dget16_Ok s i n k o u MODE H Hu ltac:(done) ltac:(done))), Hm.
  rewrite (st_bind_eq (sassert true) _ s () s) by done.
  rewrite (st_bind_eq _ _ _ _ _ (dget32_Ok s i n k o u SIZE H Hu ltac:(done) ltac:(done))). fold size.
  rewrite (u32_small offset) by lia. destruct (Z.leb_spec size offset); [lia|]. destruct (Z.eqb_spec len 0); [lia|]. cbv zeta.
  rewrite (u32_small (size - offset)) by lia.
  assert ((if len <? size - offset then len else size - offset) = Z.of_nat (length data)) as -> by (destruct (Z.ltb_spec len (size - offset)); lia).
  rewrite Nat2Z.id. assert (s = set_user (user s) s) as Es by by destruct s.
  rewrite (st_bind_eq _ _ s (offset + Z.of_nat (length data)) (set_user (write buf data (user s)) s)).
  2: { rewrite Es at 1. apply (fread_loop_Ok s i n k o u H Hc); [done|done|lia|lia|done]. }
  set (s1 := set_user _ s). set (s2 := set_clock (λ m, clock s (S m)) s1). rewrite (st_bind_eq sys_time _ s1 (clock s 0) s2) by done.
  rewrite (st_bind_eq _ _ _ _ _ (upd_inode_Ok s2 i _ n (ia_inode _ _ _ _ _ _ H))). unfold mret, st_ret. do 2 f_equal.
  rewrite Z.add_simpl_l. apply s32_small. unfold TOTAL_BLOCKS, BLOCK_SIZE in *. lia.
Qed.

(** [inode_read] delivers the bytes of the file: for every offset inside the file and every length,
    it copies the bytes from there to the end of the piece asked for or of the file - through
    direct, indirect and double indirect blocks - to the buffer, answers their number, gives every
    block back, and changes nothing else but the access time. *)
Theorem inode_read_bytes s i n k o u buf len offset data :
  inode_at s i n k o u → bufs_ok (cache s) →
  ISFILE (word (bytes u) (o + MODE)) || ISDIR (word (bytes u) (o + MODE)) = true →
  0 <= offset < dword (bytes u) (o + SIZE) → dword (bytes u) (o + SIZE) <= TOTAL_BLOCKS * BLOCK_SIZE → 0 < len < 4294967296 →
  Z.of_nat (length data) = Z.min len (dword (bytes u) (o + SIZE) - offset) →
  file_data (cache s) (i_dev n) (bytes u) o offset data → room (user s) buf (length data) →
  inode_read i buf len offset s =
    Ok (Z.of_nat (length data), set_inodes (<[i := set_atime (clock s 0) n]> (inodes s)) (set_clock (λ m, clock s (S m)) (set_user (write buf data (user s)) s))).
Proof. apply inode_read_Ok. Qed.

(** The data of a block after a write. *)
Lemma overwritten_data c d l o z u offset data :
  file_block c d l o 0 = Some z → z ≠ 0 → c !! (d, z) = Some u → 0 <= offset → Z.of_nat (length data) + offset < FILE_MAX_SIZE →
  (∃ l0, bytes u = patch l0 offset data ∧ Z.of_nat (length l0) = BLOCK_SIZE) → file_data c d l o offset data.
Proof.
  intros Hf Hz Hu H0 H1 (l0 & El & HL) t Ht. unfold FILE_MAX_SIZE in H1. unfold file_byte.
  rewrite Z.div_small by lia. rewrite Hf. cbn. destruct (Z.eqb_spec z 0); [done|]. rewrite Hu. cbn. rewrite Z.mod_small by lia.
  rewrite El, patch_inside by lia. unfold byte. replace (Z.to_nat (offset + Z.of_nat t - offset)) with t by lia.
  destruct (data !! t) eqn:E; [done|]. apply lookup_ge_None in E. lia.
Qed.

(** C6. What [inode_write] stores [inode_read] delivers: bytes written into the first block of a file,
    which the size limit leaves as its only one, are read back at the same offset; the size has
    grown to the end of what was written, if that was beyond the old size. *)
Theorem write_read s i n k o u z uz buf buf' offset data :
  inode_at s i n k o u → bufs_ok (cache s) → 0 < holders u → ISFILE (word (bytes u) (o + MODE)) = true →
  file_block (cache s) (i_dev n) (bytes u) o 0 = Some z → z ≠ 0 → (i_dev n, z) ≠ k → cache s !! (i_dev n, z) = Some uz →
  Forall is_byte data → 0 < Z.of_nat (length data) → 0 <= offset → Z.of_nat (length data) + offset < FILE_MAX_SIZE →
  dword (bytes u) (o + SIZE) <= TOTAL_BLOCKS * BLOCK_SIZE →
  bytes_at (user s) buf (s8 <$> data) → room (user s) buf' (length data) →
  ∃ s1 s2 n1 u1, inode_write i buf (Z.of_nat (length data)) offset s = Ok (Z.of_nat (length data), s1) ∧
    inode_at s1 i n1 k o u1 ∧ dword (bytes u1) (o + SIZE) = Z.max (dword (bytes u) (o + SIZE)) (offset + Z.of_nat (length data)) ∧
    inode_read i buf' (Z.of_nat (length data)) offset s1 = Ok (Z.of_nat (length data), s2) ∧ user s2 = write buf' data (user s).
Proof.
  intros H Hc Hh Hm Hf Hz Hne Huz Hdata Hlen Hoff Hmax Hsize Hbuf Hroom.
  set (s1 := wrote s i n k o u z uz offset data). set (u1 := stamped o u offset data (clock s 0)).
  destruct (stamped_bytes s i n k o u H Hc Hh offset data Hlen Hoff Hmax) as (Hok1 & Hzones & Hmode & Hsz).
  pose proof (wrote_at s i n k o u H z uz offset data) as H1. pose proof H as [_ _ _ _ [Ho1 Ho2]].
  destruct (overwritten_ok s n Hc z uz Huz offset data Hdata Hoff Hmax) as [Hokz Hbz].
  assert (cache s1 !! (i_dev n, z) = Some (overwritten uz offset data)) as Huz1.
  { unfold s1, wrote. cbn [cache set_cache set_inodes set_clock]. rewrite lookup_insert_ne by congruence. apply lookup_insert_eq. }
  assert (bufs_ok (cache s1)) as Hc1.
  { unfold s1, wrote. cbn [cache set_cache set_inodes set_clock]. by repeat apply map_Forall_insert_2. }
  assert (file_block (cache s1) (i_dev n) (bytes u1) o 0 = Some z) as Hf1.
  { rewrite (file_block_bytes _ _ (bytes u) (bytes u1)); [exact Hf|exact Hzones|done|done]. }
  eexists s1, _, _, u1. split; [by apply inode_write_Ok|]. split; [exact H1|]. split; [exact Hsz|]. split.
  - apply (inode_read_Ok s1 i _ k o u1 buf' _ offset data H1 Hc1).
    + change (word (bytes u1) (o + MODE)) with (word (bytes (stamped o u offset data (clock s 0))) (o + MODE)). by rewrite Hmode, Hm.
    + unfold u1. rewrite Hsz. lia.
    + unfold u1. rewrite Hsz. unfold FILE_MAX_SIZE, TOTAL_BLOCKS, BLOCK_SIZE in *. lia.
    + unfold FILE_MAX_SIZE, BLOCK_SIZE in *. lia.
    + unfold u1. rewrite Hsz. lia.
    + apply (overwritten_data _ _ _ _ z (overwritten uz offset data)); [done..|]. exists (bytes uz). split; [done|]. by apply block_length, (Hc _ _ Huz).
    + done.
  - done.
Qed.

(** A write that would end at or behind [FILE_MAX_SIZE], one block, is refused without effect. *)
Theorem inode_write_limit s i n k o u buf len offset :
  inode_at s i n k o u → buf_ok u → ISFILE (word (bytes u) (o + MODE)) = true → FILE_MAX_SIZE <= u32 (len + offset) →
  inode_write i buf len offset s = Ok (EOF_, s).
Proof.
  intros H Hu Hm Hl. unfold inode_write. rewrite (st_bind_eq _ _ _ _ _ (dget16_Ok s i n k o u MODE H Hu ltac:(done) ltac:(done))), Hm.
  rewrite (st_bind_eq (sassert true) _ s () s) by done. by destruct (Z.leb_spec FILE_MAX_SIZE (u32 (len + offset))); [|lia].
Qed.

(** ** Examples *)

Lemma demo_file : inode_at demo_fs 1 (demo_inode 2 1 32) (3, 4) 32 demo_inodes.
Proof. exact (demo_at 1 _ eq_refl eq_refl eq_refl ltac:(lia)). Qed.

Lemma file_data_check c d l o off data :
  forallb (λ t, bool_decide (file_byte c d l o (off + Z.of_nat t) = data !! t)) (seq 0 (length data)) = true → file_data c d l o off data.
Proof. intros H t Ht. rewrite forallb_forall in H. apply (bool_decide_eq_true_1 (_ = _)), H, in_seq. lia. Qed.

Lemma demo_data : file_data (cache demo_fs) 3 (bytes demo_inodes) 32 1022 [65; 65; 66; 66].
Proof. apply file_data_check. vm_compute. reflexivity. Qed.

Lemma demo_room p : (600 <=? p) && (p <=? 612) = true → room (user demo_fs) p 4.
Proof.
  intros [H1%Z.leb_le H2%Z.leb_le]%andb_true_iff. intros i Hi. assert (room (user demo_fs) 600 16) as H by (apply room_check; vm_compute; reflexivity).
  apply H. lia.
Qed.

Lemma inode_read_bytes_witness :
  answer (inode_read 1 604 4 1022 demo_fs) = Some 4.
Proof.
  rewrite (inode_read_bytes demo_fs 1 (demo_inode 2 1 32) (3, 4) 32 demo_inodes 604 4 1022 [65; 65; 66; 66] demo_file demo_bufs_ok
    ltac:(vm_compute; reflexivity) ltac:(vm_compute; done) ltac:(vm_compute; done) ltac:(done) ltac:(vm_compute; reflexivity) demo_data (demo_room 604 eq_refl)).
  reflexivity.
Defined.

Lemma write_read_witness :
  ∃ s1 s2 n1 u1, inode_write 1 600 2 1000 demo_fs = Ok (2, s1) ∧
    inode_at s1 1 n1 (3, 4) 32 u1 ∧ dword (bytes u1) (32 + SIZE) = Z.max (dword (bytes demo_inodes) (32 + SIZE)) (1000 + 2) ∧
    inode_read 1 610 2 1000 s1 = Ok (2, s2) ∧ user s2 = write 610 [7; 7] (user demo_fs).
Proof.
  apply (write_read demo_fs 1 (demo_inode 2 1 32) (3, 4) 32 demo_inodes 8 (clean 0 (replicate 1024 65)) 600 610 1000 [7; 7] demo_file demo_bufs_ok
    ltac:(done) ltac:(vm_compute; reflexivity) ltac:(vm_compute; reflexivity) ltac:(done) ltac:(done) ltac:(vm_compute; reflexivity)
    ltac:(repeat constructor; lia) ltac:(done) ltac:(done) ltac:(done) ltac:(vm_compute; done) ltac:(repeat split; vm_compute; reflexivity)).
  apply (room_le _ _ 4); [by apply demo_room|cbn; lia].
Defined.

Lemma inode_write_limit_witness : inode_write 1 600 24 1000 demo_fs = Ok (EOF_, demo_fs).
Proof. apply (inode_write_limit demo_fs 1 _ _ _ _ 600 24 1000 demo_file demo_inodes_ok); [vm_compute; reflexivity|vm_compute; done]. Defined.
