(* ===== verification/Super.v ===== *)
(** * Super blocks, mounting and making file systems (src/fs/super.c)

    Reading the super block of a device, mounting and unmounting, and writing a new file system.
    What [device_find] and [device_ioctl] of device.c answer (Device) comes from a class; the
    super block of the root file system, a global of super.c, is an argument. *)

From stdpp Require Import gmap.
From S2P Require Import Prelude KString KStdlib Path Blocks Inode Bmap Namei Files.

Definition DEV_IDE_PART : Z := 6.
Definition DEV_RAMDISK : Z := 7.
Definition BLOCK_SECS : Z := 2.
Definition sizeof_inode_desc : Z := 32.

(** [device_find(subtype, idx)->dev] and [device_ioctl(dev, DEV_CMD_SECTOR_COUNT, NULL, 0)]. *)
Class Devices := { find_dev : Z → Z → option Z; sector_count : Z → Z }.

Section super.
Context `{Devices} (fuel : nat).

(** ** Reading a super block *)

(** [imaps] or [zmaps] filled from block [idx] on; the assertion bounds the places of the array. *)
Fixpoint read_maps (n : nat) (d idx i limit : Z) : FM (list (option key)) :=
  match n with
  | O => mret []
  | S n =>
      sassert (i <? limit);;
      k ← on_cache (bread d (u32 idx));
      l ← read_maps n d (idx + 1) (i + 1) limit;
      mret (Some k :: l)
  end.
Definition padded (n : Z) (l : list (option key)) : list (option key) := l ++ replicate (Z.to_nat n - length l) None.

Definition read_super (d : Z) : FM (option nat) :=
  o ← get_super d;
  match o with
  | Some j => mret (Some j)
  | None =>
      j ← get_free_super;
      k ← on_cache (bread d FS_SUPER_BLOCK_NR);
      upd_sb j (λ b, set_scount 1 (set_sdev d (set_sblock (Some k) b)));;
      magic ← sget16 j MAGIC;
      if negb (magic =? MINIX_V1_MAGIC) then mret None
      else
        im ← sget16 j IMAP_BLOCKS;
        zm ← sget16 j ZMAP_BLOCKS;
        imaps ← read_maps (Z.to_nat im) d FS_IMAP_BLOCK_NR 0 IMAP_NR;
        zmaps ← read_maps (Z.to_nat zm) d (FS_IMAP_BLOCK_NR + im) 0 ZMAP_NR;
        upd_sb j (set_maps (padded IMAP_NR imaps) (padded ZMAP_NR zmaps));;
        mret (Some j)
  end.

(** ** Mounting *)

(** The answer is [root]. *)
Definition mount_root : FM nat :=
  d ← deref (find_dev DEV_IDE_PART 0);
  o ← read_super d;
  match o with
  | None => stop_st Panic
  | Some root =>
      i ← iget d 1;
      upd_sb root (set_iroot (Some i));;
      m ← iget d 1;
      upd_sb root (set_imount (Some m));;
      upd_inode i (set_mount d);;
      mret root
  end.

Definition mount_clean (sb devinode dirinode : option nat) : FM Z :=
  put_super sb;; iput devinode;; iput dirinode;; mret EOF_.

Definition sys_mount (devname dirname : Z) : FM Z :=
  o ← namei fuel devname;
  match o with
  | None => mount_clean None None None
  | Some devinode =>
      mode ← dget16 devinode MODE;
      if negb (ISBLK mode) then mount_clean None (Some devinode) None
      else
        d ← dget16 devinode (zone_at 0);
        o ← namei fuel dirname;
        match o with
        | None => mount_clean None (Some devinode) None
        | Some dirinode =>
            mode ← dget16 dirinode MODE;
            n ← get_inode dirinode;
            if negb (ISDIR mode) || (negb (i_count n =? 1) || negb (i_mount n =? 0)) then mount_clean None (Some devinode) (Some dirinode)
            else
              o ← read_super d;
              match o with
              | None => mount_clean None (Some devinode) (Some dirinode)
              | Some sb =>
                  b ← get_sb sb;
                  match s_imount b with
                  | Some _ => mount_clean (Some sb) (Some devinode) (Some dirinode)
                  | None =>
                      i ← iget d 1;
                      upd_sb sb (set_iroot (Some i));;
                      upd_sb sb (set_imount (Some dirinode));;
                      upd_inode dirinode (set_mount d);;
                      iput (Some devinode);;
                      mret 0
                  end
              end
        end
  end.

Definition umount_clean (sb inode : option nat) (ret : Z) : FM Z :=
  put_super sb;; iput inode;; mret ret.

(** The device [sys_umount] is about: that of the directory, or the one of the device file. *)
Definition umount_device (inode : nat) : FM Z :=
  mode ← dget16 inode MODE;
  if ISBLK mode then dget16 inode (zone_at 0) else n ← get_inode inode; mret (i_dev n).

Definition sys_umount (root : nat) (target : Z) : FM Z :=
  o ← namei fuel target;
  match o with
  | None => umount_clean None None EOF_
  | Some inode =>
      mode ← dget16 inode MODE;
      n ← get_inode inode;
      r ← get_sb root;
      if (negb (ISBLK mode) && negb (i_nr n =? 1)) || bool_decide (Some inode = s_imount r) then umount_clean None (Some inode) EOF_
      else
        d ← umount_device inode;
        ram ← deref (find_dev DEV_RAMDISK 0);
        if ram =? d then umount_clean None (Some inode) EOF_
        else
          o ← get_super d;
          sb ← deref o;
          b ← get_sb sb;
          match s_imount b with
          | None => umount_clean (Some sb) (Some inode) EOF_
          | Some m =>
              if (1 <? length (inode_list b))%nat then umount_clean (Some sb) (Some inode) EOF_
              else
                iput (s_iroot b);;
                upd_sb sb (set_iroot None);;
                upd_inode m (set_mount 0);;
                iput (Some m);;
                upd_sb sb (set_imount None);;
                put_super (Some sb);;
                umount_clean (Some sb) (Some inode) 0
          end
  end.

(** ** Making a file system *)

(** The bits [data] of the byte in which the unused part of a bitmap begins. *)
Fixpoint tail_bits (remain : nat) (bits data : Z) : Z :=
  match remain with O => data | S remain => tail_bits remain (Z.shiftr bits 1) (Z.lor data bits) end.

(** The end of the last bitmap block, [count] being the number of bits in use. *)
Definition mark_tail (count : Z) (l : list Z) : list Z :=
  let offset := Z.rem count BLOCK_BITS in
  let begin := Z.quot offset 8 in
  patch (patch l (begin + 1) (replicate (Z.to_nat (BLOCK_SIZE - begin - 1)) 255)) begin [u8 (tail_bits (Z.to_nat (8 - Z.rem offset 8)) 128 0)].

(** Clearing the bitmaps and putting them at their places. *)
Fixpoint clear_maps (n : nat) (d : Z) (j : nat) (im i idx : Z) : FM unit :=
  match n with
  | O => mret ()
  | S n =>
      k ← on_cache (bread d (u32 idx));
      b ← get_sb j;
      (if i <? im then
         l ← lift_st (zset (imaps b) i (Some k)); upd_sb j (set_maps l (zmaps b))
       else
         l ← lift_st (zset (zmaps b) (i - im) (Some k)); upd_sb j (set_maps (imaps b) l));;
      on_cache (mark_dirty k);;
      on_cache (wr k 0 (replicate (Z.to_nat BLOCK_SIZE) 0));;
      clear_maps n d j im (i + 1) (idx + 1)
  end.

Definition mark_map (maps : list (option key)) (last count : Z) : FM unit :=
  o ← lift_st (zget maps last);
  k ← deref o;
  on_cache (mark_dirty k);;
  u ← on_cache (get_buf k);
  on_cache (upd_buf k (set_bytes (mark_tail count (bytes u)))).

(** The fields of the super block; the answer is the number of the bits of [zmap]. *)
Definition write_desc (d : Z) (j : nat) (k : key) (total icount : Z) : FM Z :=
  on_cache (wr16 k INODES icount);;
  inode_blocks ← lift_st (div_round_up (u32 (icount * sizeof_inode_desc)) BLOCK_SIZE);
  on_cache (wr16 k ZONES total);;
  im ← lift_st (div_round_up icount BLOCK_BITS);
  on_cache (wr16 k IMAP_BLOCKS im);;
  im ← sget16 j IMAP_BLOCKS;
  let zcount := s32 (total - FS_IMAP_BLOCK_NR - im - s32 inode_blocks) in
  zm ← lift_st (div_round_up (u32 zcount) BLOCK_BITS);
  on_cache (wr16 k ZMAP_BLOCKS zm);;
  zm ← sget16 j ZMAP_BLOCKS;
  on_cache (wr16 k FIRSTDATAZONE (FS_IMAP_BLOCK_NR + im + zm + s32 inode_blocks));;
  on_cache (wr16 k LOG_ZONE_SIZE 0);;
  on_cache (wr32 k MAX_SIZE (BLOCK_SIZE * TOTAL_BLOCKS));;
  on_cache (wr16 k MAGIC MINIX_V1_MAGIC);;
  mret zcount.

Definition make_root (d : Z) (j : nat) : FM unit :=
  i ← new_inode d 1;
  upd_sb j (set_iroot (Some i));;
  s ← get_st;
  dset16 i MODE (Z.lor (Z.land 511 (Z.lnot (t_umask s))) IFDIR);;
  dset32 i SIZE (sizeof_dentry * 2);;
  dset8 i NLINKS 2;;
  z ← bmap i 0 true;
  k ← on_cache (bread d z);
  on_cache (mark_dirty k);;
  on_cache (wr k 0 (replicate (Z.to_nat BLOCK_SIZE) 0));;
  n ← get_inode i;
  store_name (k, 0) [DOT];;
  set_entry_nr (k, 0) (i_nr n);;
  store_name (k, sizeof_dentry) [DOT; DOT];;
  set_entry_nr (k, sizeof_dentry) (i_nr n);;
  on_cache (brelse (Some k)).

(** [devmkfs] from the point where the device is known not to be mounted. *)
Definition format (d icount : Z) : FM Z :=
  let total := Z.quot (sector_count d) BLOCK_SECS in
  sassert (negb (total =? 0));;
  sassert (icount <? u32 total);;
  let icount := if icount =? 0 then u32 (Z.quot total 3) else icount in
  j ← get_free_super;
  upd_sb j (λ b, set_scount 1 (set_sdev d b));;
  k ← on_cache (bread d 1);
  on_cache (mark_dirty k);;
  upd_sb j (set_sblock (Some k));;
  zcount ← write_desc d j k total icount;
  im ← sget16 j IMAP_BLOCKS;
  zm ← sget16 j ZMAP_BLOCKS;
  clear_maps (Z.to_nat (im + zm)) d j im 0 FS_IMAP_BLOCK_NR;;
  balloc d;;
  ialloc d;;
  ialloc d;;
  b ← get_sb j;
  im ← sget16 j IMAP_BLOCKS;
  zm ← sget16 j ZMAP_BLOCKS;
  mark_map (imaps b) (im - 1) (s32 (icount + 1));;
  mark_map (zmaps b) (zm - 1) zcount;;
  make_root d j;;
  put_super (Some j);;
  mret 0.

Definition devmkfs (d icount : Z) : FM Z :=
  o ← get_super d;
  match o with
  | None => format d icount
  | Some j =>
      b ← get_sb j;
      match s_imount b with
      | Some _ => put_super (Some j);; mret EOF_
      | None => put_super (Some j);; format d icount
      end
  end.

Definition sys_mkfs (devname icount : Z) : FM Z :=
  o ← namei fuel devname;
  match o with
  | None => iput None;; mret EOF_
  | Some inode =>
      mode ← dget16 inode MODE;
      if negb (ISBLK mode) then iput (Some inode);; mret EOF_
      else
        d ← dget16 inode (zone_at 0);
        sassert (negb (d =? 0));;
        ret ← devmkfs d (u32 icount);
        iput (Some inode);;
        mret ret
  end.

Definition super_init : FM nat :=
  modify_st (λ s, set_supers ((λ b, Super None (imaps b) (zmaps b) EOFu (s_count b) [] None None) <$> supers s) s);;
  mount_root.
End super.

(** ** The unused end of a bitmap *)

Lemma tail_bits_byte : ∀ r, (r <= 8)%nat → ∀ t, 0 <= t < 8 →
  Z.testbit (tail_bits r 128 0) t = bool_decide (8 - Z.of_nat r <= t).
Proof.
  intros r Hr t Ht.
  assert (forallb (λ r, forallb (λ t, Bool.eqb (Z.testbit (tail_bits r 128 0) t) (bool_decide (8 - Z.of_nat r <= t))) (seqZ 0 8)) (seq 0 9) = true) as H by (vm_compute; reflexivity).
  rewrite forallb_forall in H. specialize (H r ltac:(apply in_seq; lia)). rewrite forallb_forall in H.
  apply eqb_prop, (H t). apply list_elem_of_In, elem_of_seqZ. lia.
Qed.

Lemma bit_of_byte l t : 0 <= t → bit_of l t = Z.testbit (byte l (t / 8)) (t mod 8).
Proof. done. Qed.

(** [devmkfs] takes the end of a bitmap out of use: with [count] bits in use, the bits from
    [count mod BLOCK_BITS] on are set in the last block, those before it in the same byte are
    cleared, and the bytes before are left as they are.  So when [count] is a multiple of
    [BLOCK_BITS] every bit of the last block is set, and nothing can be taken from it. *)
Theorem mark_tail_exact count l :
  is_block l → 0 <= count →
  let offset := count mod BLOCK_BITS in
  is_block (mark_tail count l) ∧
  (∀ t, 0 <= t < BLOCK_BITS →
     bit_of (mark_tail count l) t = if decide (offset <= t) then true else if decide (offset / 8 <= t / 8) then false else bit_of l t) ∧
  (offset = 0 → full (mark_tail count l)).
Proof.
  intros Hl Hc offset. unfold mark_tail. rewrite Z.rem_mod_nonneg by done. fold offset. pose proof (Z.mod_pos_bound count BLOCK_BITS ltac:(done)) as Ho. fold offset in Ho.
  rewrite Z.quot_div_nonneg, Z.rem_mod_nonneg by lia. set (begin := offset / 8) in *. pose proof (Z.div_mod offset 8 ltac:(lia)) as Eo. fold begin in Eo.
  pose proof (Z.mod_pos_bound offset 8 ltac:(lia)) as Hm. set (rest := replicate (Z.to_nat (BLOCK_SIZE - begin - 1)) 255). set (d := u8 _).
  assert (0 <= begin < 1024) as Hb by (unfold BLOCK_BITS in *; lia). assert (Z.of_nat (length rest) = BLOCK_SIZE - begin - 1) as HR by (unfold rest, BLOCK_SIZE in *; rewrite length_replicate; lia).
  assert (is_block (patch l (begin + 1) rest)) as H1.
  { apply patch_block; [done| |lia|lia]. apply Forall_replicate. unfold is_byte. lia. }
  assert (is_block (patch (patch l (begin + 1) rest) begin [d])) as H2.
  { apply patch_block; [done| |lia|unfold BLOCK_SIZE; cbn; lia]. repeat constructor; apply Z.mod_pos_bound; lia. }
  pose proof (proj1 Hl) as HL. pose proof (proj1 H1) as HL1.
  assert (∀ t, 0 <= t < BLOCK_BITS →
     bit_of (patch (patch l (begin + 1) rest) begin [d]) t = if decide (offset <= t) then true else if decide (begin <= t / 8) then false else bit_of l t) as HB.
  { intros t Ht. rewrite !bit_of_byte by lia. pose proof (Z.div_mod t 8 ltac:(lia)). pose proof (Z.mod_pos_bound t 8 ltac:(lia)).
    assert (t / 8 < 1024) by (unfold BLOCK_BITS in Ht; lia). destruct (Z.lt_trichotomy (t / 8) begin) as [Hlt|[Heq|Hgt]].
    - rewrite !patch_outside by (rewrite ?HR, ?HL, ?HL1; unfold BLOCK_SIZE; cbn; lia). rewrite !decide_False by lia. done.
    - rewrite Heq. rewrite patch_inside by (rewrite ?HL1; unfold BLOCK_SIZE; cbn; lia). rewrite Z.sub_diag. change (byte [d] 0) with d.
      assert (Z.testbit d (t mod 8) = bool_decide (offset mod 8 <= t mod 8)) as ->.
      { unfold d. assert (Z.to_nat (8 - offset mod 8) <= 8)%nat as Hr by lia. pose proof (tail_bits_byte _ Hr (t mod 8) ltac:(lia)) as HT.
        unfold u8. change 256 with (2 ^ 8). rewrite Z.mod_pow2_bits_low by lia. rewrite HT. apply bool_decide_ext. lia. }
      case_bool_decide; repeat case_decide; done || lia.
    - rewrite patch_outside by (rewrite ?HL1; unfold BLOCK_SIZE; cbn; lia). rewrite patch_inside by (rewrite ?HR, ?HL; unfold BLOCK_SIZE in *; lia).
      rewrite decide_True by lia. unfold byte, rest. rewrite lookup_replicate_2 by (unfold BLOCK_SIZE; lia). cbn [default].
      assert (t mod 8 = 0 ∨ t mod 8 = 1 ∨ t mod 8 = 2 ∨ t mod 8 = 3 ∨ t mod 8 = 4 ∨ t mod 8 = 5 ∨ t mod 8 = 6 ∨ t mod 8 = 7) as HH by lia.
      by destruct HH as [->|[->|[->|[->|[->|[->|[->| ->]]]]]]]. }
  split; [done|]. split; [done|]. intros E t Ht. rewrite HB by done. rewrite decide_True; [done|lia].
Qed.

(** ** A device without a file system *)

Lemma super_from_insert q l k d j b :
  super_from k q l = Some j → super_from k d l = None → s_dev b = d → super_from k d (<[(j - k)%nat := b]> l) = Some j ∧ (k <= j)%nat ∧ (j - k < length l)%nat.
Proof.
  revert k. induction l as [|x l IH]; intros k; cbn [super_from]; [done|]. intros Hq Hd Hb. destruct (Z.eqb_spec (s_dev x) d); [done|].
  destruct (Z.eqb_spec (s_dev x) q) as [E|E].
  - injection Hq as <-. rewrite Nat.sub_diag. cbn. destruct (Z.eqb_spec (s_dev b) d); [split_and!; done || lia|done].
  - destruct (IH (S k) Hq Hd Hb) as (A & B & C). replace (j - k)%nat with (S (j - S k)) by lia. cbn [list_insert insert super_from length].
    destruct (Z.eqb_spec (s_dev x) d); [done|]. split_and!; [done|lia|lia].
Qed.

(** [read_super] answers "no file system" for a device whose first block has another magic number -
    once: it leaves the place in the table taken, so the next call finds it there and answers it
    as the super block of the device, and [sys_mount] goes on with it. *)
Theorem read_super_second_time s d j b u :
  super_from 0 EOFu (supers s) = Some j → super_from 0 d (supers s) = None → supers s !! j = Some b →
  cache s !! (d, FS_SUPER_BLOCK_NR) = Some u → buf_ok u → word (bytes u) MAGIC ≠ MINIX_V1_MAGIC →
  ∃ s1 s2, read_super d s = Ok (None, s1) ∧ read_super d s1 = Ok (Some j, s2) ∧
    supers s2 = <[j := set_scount 2 (set_sdev d (set_sblock (Some (d, FS_SUPER_BLOCK_NR)) b))]> (supers s).
Proof.
  intros Hf Hno Hb Hu Hok Hm. set (b1 := set_scount 1 (set_sdev d (set_sblock (Some (d, FS_SUPER_BLOCK_NR)) b))).
  set (s0 := set_cache (<[(d, FS_SUPER_BLOCK_NR) := held u]> (cache s)) s). set (s1 := set_supers (<[j := b1]> (supers s)) s0).
  destruct (super_from_insert EOFu (supers s) 0 d j b1 Hf Hno eq_refl) as (F1 & _ & F3). rewrite Nat.sub_0_r in F1, F3.
  assert (supers s1 !! j = Some b1) as Hb1 by (by apply list_lookup_insert_eq).
  eexists s1, _. split; [|split].
  - unfold read_super. rewrite (st_bind_eq (get_super d) _ s None s) by (unfold get_super; by rewrite Hno).
    rewrite (st_bind_eq get_free_super _ s j s) by (unfold get_free_super; by rewrite Hf).
    rewrite (st_bind_eq _ _ s _ _ (on_cache_Ok _ s _ _ (take_Ok _ d FS_SUPER_BLOCK_NR u Hu))). fold s0.
    rewrite (st_bind_eq _ _ _ _ _ (upd_sb_Ok s0 j _ b Hb)). fold b1 s1.
    rewrite (st_bind_eq _ _ _ _ _ (sget16_Ok s1 j b1 (d, FS_SUPER_BLOCK_NR) (held u) MAGIC Hb1 eq_refl (lookup_insert_eq _ _ _) (buf_ok_held _ Hok) ltac:(by split))).
    change (bytes (held u)) with (bytes u). by destruct (Z.eqb_spec (word (bytes u) MAGIC) MINIX_V1_MAGIC).
  - unfold read_super. rewrite (st_bind_eq (get_super d) _ s1 (Some j) (set_supers (<[j := set_scount 2 b1]> (supers s1)) s1)); [reflexivity|].
    unfold get_super. unfold s1 at 1. cbn [supers set_supers]. rewrite F1. by rewrite (st_bind_eq _ _ _ _ _ (upd_sb_Ok s1 j _ b1 Hb1)).
  - cbn. by rewrite list_insert_insert_eq.
Qed.

(** ** Making a file system over an old one

    The device of the example of Inode, with its file system on it, is formatted. *)
Section example.
#[local] Instance demo_devices : Devices := {| find_dev := λ _ _, Some 9; sector_count := λ _, 128 |}.

Definition demo_unmounted : fs := set_inodes [Inode None None 9 1 5 0 0 0 false; free_inode; free_inode] (set_supers [free_super; free_super]
  (set_cache ((λ u, clean 0 (bytes u)) <$> list_to_map (((3, 5), clean 0 zeros) :: demo_blocks)) demo_fs)).

(** Format, read the super block, get the root directory, its first block, and two free blocks. *)
Definition demo_reformat : FM (Z * Z * Z) :=
  devmkfs 3 0;; read_super 3;; i ← iget 3 1; z ← bmap i 0 false; a ← balloc 3; b ← balloc 3; mret (z, a, b).

(** The root directory of the new file system lies in block 6, where the old one's was, and block 6
    is given away as free. *)
Example demo_reformat_root : answer (demo_reformat demo_unmounted) = Some (6, 5, 6).
Proof. vm_compute. reflexivity. Qed.

Definition demo_blank : fs := set_supers [free_super; free_super] (set_cache {[(4, 1) := clean 0 zeros]} demo_fs).

Lemma zeros_ok : buf_ok (clean 0 zeros).
Proof. apply buf_okb_ok. vm_compute. reflexivity. Qed.

Lemma read_super_second_time_witness :
  ∃ s1 s2, read_super 4 demo_blank = Ok (None, s1) ∧ read_super 4 s1 = Ok (Some 0%nat, s2) ∧
    supers s2 = <[0%nat := set_scount 2 (set_sdev 4 (set_sblock (Some (4, FS_SUPER_BLOCK_NR)) free_super))]> (supers demo_blank).
Proof.
  apply (read_super_second_time demo_blank 4 0 free_super (clean 0 zeros)); [done|done|done|vm_compute; reflexivity|exact zeros_ok|].
  intros E. vm_compute in E. discriminate E.
Defined.

Lemma mark_tail_exact_witness :
  is_block zeros ∧ full (mark_tail 8192 zeros).
Proof.
  pose proof (bo_block _ zeros_ok) as H. split; [exact H|]. apply (mark_tail_exact 8192 zeros H ltac:(lia)). done.
Defined.
End example.
