(* ===== verification/Fileops.v ===== *)
(** * File system calls on descriptors (src/fs/file.c, stat.c, ioctl.c, sys_pipe of src/fs/pipe.c)

    The calls that join the descriptors of Fd to the file system of Files: a descriptor of the
    running task refers to an entry of the file table, whose [inode] is the address of a place in
    the inode table.  Reading and writing a pipe or a device goes on in Pipe and Device; here the
    calls answer which routine they go on in, with which arguments.  The current directory's path
    [pwd] and its length are those of the running task. *)

From stdpp Require Import gmap.
From S2P Require Import Prelude KString Path Task Fd Blocks Inode Bmap Namei Files.

Record os := Os { kern : sys; fsys : fs; pwd : Z; pwd_len : Z }.
Definition OM := ST os.
Definition set_kern (g : sys) (s : os) : os := Os g (fsys s) (pwd s) (pwd_len s).
Definition set_fsys (f : fs) (s : os) : os := Os (kern s) f (pwd s) (pwd_len s).
Definition set_pwd_len (n : Z) (s : os) : os := Os (kern s) (fsys s) (pwd s) n.

Definition on_kern {A} (m : K A) : OM A := λ s,
  match m (kern s) with Ok (a, g) => Ok (a, set_kern g s) | Stop e => Stop e end.
Definition on_fs {A} (m : FM A) : OM A := λ s,
  match m (fsys s) with Ok (a, f) => Ok (a, set_fsys f s) | Stop e => Stop e end.

(** The address of a place in the inode table, as far as it matters: never null. *)
Definition ptr (i : nat) : Z := Z.of_nat i + 1.
Definition inode_of (p : Z) : nat := Z.to_nat (p - 1).

(** The calls a routine of Fd has asked for, carried out: [iput] of an inode whose last descriptor
    is gone. *)
Fixpoint do_iputs (l : list call) : OM unit :=
  match l with
  | [] => mret ()
  | Iput p :: l => on_fs (iput (if p =? 0 then None else Some (inode_of p)));; do_iputs l
  | _ :: l => do_iputs l
  end.
Definition with_iputs {A} (m : K A) : OM A :=
  s ← get_st;
  let before := calls (kern s) in
  on_kern (modify_st (put_calls []));;
  a ← on_kern m;
  s ← get_st;
  do_iputs (calls (kern s));;
  on_kern (modify_st (put_calls before));;
  mret a.

(** [sys_umask] of src/kernel/system.c. *)
Definition store_umask (v : Z) (s : fs) : fs := Fs (cache s) (supers s) (inodes s) (clock s) (user s) (t_uid s) (t_gid s) v (t_iroot s) (t_ipwd s).
Definition sys_umask (mask : Z) : FM Z := s ← get_st; modify_st (store_umask (Z.land mask 511));; mret (t_umask s).

(** The loop of [file_init]: its step does not change [i], but its condition is false at once. *)
Fixpoint init_entries (fuel : nat) (i : Z) : K unit :=
  if FILE_NR <? i then
    match fuel with O => stop_st NoFuel | S fuel => put_file_at i (File 0 0 0 0 0);; init_entries fuel i end
  else mret ().
Definition file_init : K unit := init_entries 1 3.

Lemma file_init_nothing g : file_init g = Ok ((), g).
Proof. done. Qed.

(** [task->files[fd]] of the running task. *)
Definition file_of (fd : Z) : OM (option Z) := t ← on_kern get_current; lift_st (zget (files t) fd).

Section fileops.
Context (fuel : nat).

(** ** Opening and closing *)

Definition sys_open (filename flags mode : Z) : OM Z :=
  o ← on_fs (inode_open fuel filename flags mode);
  match o with
  | None => mret EOF_
  | Some i =>
      m ← on_fs (dget16 i MODE);
      size ← on_fs (dget32 i SIZE);
      on_kern (open_inode (ptr i) flags m size)
  end.

Definition sys_creat (filename mode : Z) : OM Z := sys_open filename (Z.lor (Z.lor O_WRONLY O_CREAT) O_TRUNC) mode.

Definition close (fd : Z) : OM unit := with_iputs (sys_close fd).

(** ** Reading and writing *)

Inductive io :=
| Answer (ret : Z)
| PipeRead (i : nat) (buf count : Z)
| PipeWrite (i : nat) (buf count : Z)
| DeviceRead (dev buf count idx : Z)
| DeviceWrite (dev buf count idx : Z)
| DeviceIoctl (dev cmd args : Z).

Definition BLOCK_SECS : Z := 2.

(** What [sys_read] and [sys_write] have in common behind their checks: pipes, devices, files. *)
Definition transfer (pipe : nat → io) (device : Z → Z → Z → io) (file : nat → Z → FM Z) (f count : Z) : OM io :=
  e ← on_kern (get_file_at f);
  let i := inode_of (file_inode e) in
  n ← on_fs (get_inode i);
  if i_pipe n then mret (pipe i)
  else
    mode ← on_fs (dget16 i MODE);
    if ISCHR mode then
      z ← on_fs (dget16 i (zone_at 0));
      sassert (negb (z =? 0));;
      mret (device z count 0)
    else if ISBLK mode then
      z ← on_fs (dget16 i (zone_at 0));
      sassert (negb (z =? 0));;
      sassert (Z.rem (file_offset e) BLOCK_SECS =? 0);;
      sassert (count mod BLOCK_SIZE =? 0);;
      mret (device z (count / BLOCK_SIZE) (u32 (Z.quot (file_offset e) BLOCK_SIZE)))
    else
      ret ← on_fs (file i (file_offset e));
      (if ret =? EOF_ then mret () else on_kern (put_file_at f (set_file_offset (s32 (file_offset e + ret)) e)));;
      mret (Answer ret).

(** A descriptor opened for writing only: [ret] is returned before it gets a value. *)
Definition sys_read (fd buf count : Z) : OM io :=
  if (fd <? 0) || (TASK_FILE_NR <=? fd) then mret (Answer EOF_)
  else
    o ← file_of fd;
    match o with
    | None => stop_st Panic
    | Some f =>
        sassert (0 <? count);;
        e ← on_kern (get_file_at f);
        if Z.land (file_flags e) O_ACCMODE =? O_WRONLY then stop_st OutOfBounds
        else
          transfer (λ i, PipeRead i buf count) (λ d n idx, DeviceRead d buf n idx) (λ i off, inode_read i buf count off) f count
    end.

Definition sys_write (fd buf count : Z) : OM io :=
  if (fd <=? 0) || (TASK_FILE_NR <=? fd) then mret (Answer EOF_)
  else
    o ← file_of fd;
    match o with
    | None => stop_st Panic
    | Some f =>
        sassert (0 <? count);;
        e ← on_kern (get_file_at f);
        if Z.land (file_flags e) O_ACCMODE =? O_RDONLY then mret (Answer EOF_)
        else
          transfer (λ i, PipeWrite i buf count) (λ d n idx, DeviceWrite d buf n idx) (λ i off, inode_write i buf count off) f count
    end.

Definition sys_readdir (fd dir count : Z) : OM io := sys_read fd dir (u32 count).

(** ** Status and control *)

Record stat_t := Stat {
  st_dev : Z; st_nr : Z; st_mode : Z; st_nlinks : Z; st_uid : Z; st_gid : Z; st_rdev : Z; st_size : Z;
  st_atime : Z; st_mtime : Z; st_ctime : Z
}.

Definition copy_stat (i : nat) : FM stat_t :=
  n ← get_inode i;
  mode ← dget16 i MODE;
  nlinks ← dget8 i NLINKS;
  uid ← dget16 i UID;
  gid ← dget8 i GID;
  rdev ← dget16 i (zone_at 0);
  size ← dget32 i SIZE;
  mtime ← dget32 i MTIME;
  mret (Stat (i_dev n) (i_nr n) mode nlinks uid gid rdev size (i_atime n) mtime (i_ctime n)).

(** The answers are the result and what is stored into [statbuf]. *)
Definition sys_stat (filename : Z) : OM (Z * option stat_t) :=
  o ← on_fs (namei fuel filename);
  match o with
  | None => mret (EOFu, None)
  | Some i => b ← on_fs (copy_stat i); on_fs (iput (Some i));; mret (0, Some b)
  end.

Definition sys_fstat (fd : Z) : OM (Z * option stat_t) :=
  if (fd <? 0) || (TASK_FILE_NR <=? fd) then mret (EOFu, None)
  else
    o ← file_of fd;
    match o with
    | None => mret (EOFu, None)
    | Some f =>
        e ← on_kern (get_file_at f);
        sassert (negb (file_inode e =? 0));;
        b ← on_fs (copy_stat (inode_of (file_inode e)));
        mret (0, Some b)
    end.

Definition EBADF : Z := 9.
Definition EINVAL : Z := 22.
Definition ENOTTY : Z := 25.
Definition DEVICE_NR : Z := 64.

Definition sys_ioctl (fd cmd args : Z) : OM io :=
  if (fd <? 0) || (TASK_FILE_NR <=? fd) then mret (Answer (- EBADF))
  else
    o ← file_of fd;
    match o with
    | None => mret (Answer (- EBADF))
    | Some f =>
        e ← on_kern (get_file_at f);
        mode ← on_fs (dget16 (inode_of (file_inode e)) MODE);
        if negb (ISCHR mode) && negb (ISBLK mode) then mret (Answer (- EINVAL))
        else
          d ← on_fs (dget16 (inode_of (file_inode e)) (zone_at 0));
          if DEVICE_NR <=? d then mret (Answer (- ENOTTY)) else mret (DeviceIoctl d cmd args)
    end.

(** ** Pipes *)

Definition set_file_pipe (inode flags : Z) (f : file_t) : file_t := File inode (file_count f) flags (file_offset f) (file_mode f).

(** One end: a descriptor and an entry of the file table. *)
Definition pipe_end : K (Z * Z) :=
  g ← get_st;
  fd ← task_get_fd (current g);
  f ← get_file;
  set_fd (current g) fd (Some f);;
  mret (fd, f).

(** The answer is [pipefd]. *)
Definition sys_pipe : OM (Z * Z) :=
  i ← on_fs get_pipe_inode;
  '(fd0, f0) ← on_kern pipe_end;
  '(fd1, f1) ← on_kern pipe_end;
  e ← on_kern (get_file_at f0);
  on_kern (put_file_at f0 (set_file_pipe (ptr i) O_RDONLY e));;
  e ← on_kern (get_file_at f1);
  on_kern (put_file_at f1 (set_file_pipe (ptr i) O_WRONLY e));;
  mret (fd0, fd1).

(** ** Changing directory *)

Definition MAX_PATH_LEN : Z := 4096.

(** [tmpstr] is what [kmalloc] answers. *)
Definition chdir_path (tmpstr pathname len : Z) : OM Z :=
  s ← get_st;
  on_fs (upd_user (abspath fuel tmpstr (pwd s) (pwd_len s) pathname len)).

Definition sys_chdir (tmpstr pathname : Z) : OM Z :=
  len ← on_fs (on_user (strlen fuel pathname));
  sassert (len <? MAX_PATH_LEN);;
  if len <? 1 then mret EOF_
  else
    tmpstr ← chdir_path tmpstr pathname len;
    len ← on_fs (on_user (strlen fuel tmpstr));
    o ← on_fs (namei fuel tmpstr);
    match o with
    | None => mret EOF_
    | Some i =>
        mode ← on_fs (dget16 i MODE);
        s ← get_st;
        if negb (ISDIR mode) then on_fs (iput (Some i));; mret EOF_
        else if (i =? t_ipwd (fsys s))%nat then on_fs (iput (Some i));; mret 0
        else
          on_fs (iput (Some (t_ipwd (fsys s))));;
          on_fs (modify_st (λ f, set_dirs (t_iroot f) i f));;
          modify_st (set_pwd_len len);;
          on_fs (upd_user (memcpy (pwd s) tmpstr (Z.to_nat len)));;
          mret 0
    end.

Definition sys_chroot (tmpstr pathname : Z) : OM Z :=
  len ← on_fs (on_user (strlen fuel pathname));
  sassert (len <? MAX_PATH_LEN);;
  if len <? 1 then mret EOF_
  else
    tmpstr ← chdir_path tmpstr pathname len;
    o ← on_fs (namei fuel tmpstr);
    match o with
    | None => mret EOF_
    | Some i =>
        mode ← on_fs (dget16 i MODE);
        s ← get_st;
        if negb (ISDIR mode) || (i =? t_ipwd (fsys s))%nat then on_fs (iput (Some i));; mret EOF_
        else
          on_fs (iput (Some (t_iroot (fsys s))));;
          on_fs (modify_st (λ f, set_dirs i (t_ipwd f) f));;
          mret 0
    end.
End fileops.

(** ** Reading a file piece by piece *)

Lemma on_fs_Ok {A} (m : FM A) s a f : m (fsys s) = Ok (a, f) → on_fs m s = Ok (a, set_fsys f s).
Proof. intros H. unfold on_fs. by rewrite H. Qed.
Lemma on_kern_Ok {A} (m : K A) s a g : m (kern s) = Ok (a, g) → on_kern m s = Ok (a, set_kern g s).
Proof. intros H. unfold on_kern. by rewrite H. Qed.
Lemma set_fsys_same s : set_fsys (fsys s) s = s.
Proof. by destruct s. Qed.
Lemma set_kern_same s : set_kern (kern s) s = s.
Proof. by destruct s. Qed.
Lemma on_fs_read {A} (m : FM A) s a : m (fsys s) = Ok (a, fsys s) → on_fs m s = Ok (a, s).
Proof. intros H. rewrite (on_fs_Ok _ _ _ _ H). by rewrite set_fsys_same. Qed.
Lemma on_kern_read {A} (m : K A) s a : m (kern s) = Ok (a, kern s) → on_kern m s = Ok (a, s).
Proof. intros H. rewrite (on_kern_Ok _ _ _ _ H). by rewrite set_kern_same. Qed.

(** Descriptor [fd] of the running task is open on entry [f] of the file table, which is [e]. *)
Record open_on (s : os) (fd f : Z) (e : file_t) : Prop := {
  oo_fd : 0 <= fd < TASK_FILE_NR;
  oo_task : ∃ t, get_current (kern s) = Ok (t, kern s) ∧ zget (files t) fd = Ok (Some f);
  oo_file : zget (file_table (kern s)) f = Ok e
}.

Lemma file_of_Ok s fd f e : open_on s fd f e → file_of fd s = Ok (Some f, s).
Proof.
  intros [_ (t & Ht & Hf) _]. unfold file_of. rewrite (st_bind_eq _ _ _ _ _ (on_kern_read _ _ _ Ht)). unfold lift_st. by rewrite Hf.
Qed.

Lemma get_file_at_Ok s fd f e : open_on s fd f e → on_kern (get_file_at f) s = Ok (e, s).
Proof. intros [_ _ H]. apply on_kern_read. unfold get_file_at. by rewrite H. Qed.

(** The bytes [data] are those of the file behind the descriptor from [offset] on. *)
Record readable (s : os) (fd f : Z) (e : file_t) (n : inode_t) (k : key) (o : Z) (u : buf_t) (data : list Z) : Prop := {
  re_open : open_on s fd f e;
  re_flags : Z.land (file_flags e) O_ACCMODE ≠ O_WRONLY;
  re_inode : inode_at (fsys s) (inode_of (file_inode e)) n k o u;
  re_bufs : bufs_ok (cache (fsys s));
  re_pipe : i_pipe n = false;
  re_mode : ISFILE (word (bytes u) (o + MODE)) || ISDIR (word (bytes u) (o + MODE)) = true;
  re_off : 0 <= file_offset e;
  re_size : file_offset e + Z.of_nat (length data) <= dword (bytes u) (o + SIZE) <= TOTAL_BLOCKS * BLOCK_SIZE;
  re_data : file_data (cache (fsys s)) (i_dev n) (bytes u) o (file_offset e) data
}.

(** A file or directory is no device. *)
Lemma no_device m : ISFILE m || ISDIR m = true → ISCHR m = false ∧ ISBLK m = false.
Proof.
  unfold ISFILE, ISDIR, ISCHR, ISBLK. rewrite orb_true_iff, !Z.eqb_eq. intros [E|E]; rewrite E; done.
Qed.

(** The state after a read of [data] into [buf]. *)
Definition after_read (s : os) (f : Z) (e : file_t) (n : inode_t) (buf : Z) (data : list Z) : os :=
  let fs' := set_inodes (<[inode_of (file_inode e) := set_atime (clock (fsys s) 0) n]> (inodes (fsys s)))
    (set_clock (λ m, clock (fsys s) (S m)) (set_user (write buf data (user (fsys s))) (fsys s))) in
  Os (put_file_table (<[Z.to_nat f := set_file_offset (file_offset e + Z.of_nat (length data)) e]> (file_table (kern s))) (kern s)) fs' (pwd s) (pwd_len s).

Lemma sys_read_Ok s fd f e n k o u buf data :
  readable s fd f e n k o u data → 0 < Z.of_nat (length data) → room (user (fsys s)) buf (length data) →
  sys_read fd buf (Z.of_nat (length data)) s = Ok (Answer (Z.of_nat (length data)), after_read s f e n buf data).
Proof.
  intros [Ho Hfl HI Hc Hp Hm Hoff [Hs1 Hs2] Hd] Hpos Hr. pose proof (Hc _ _ (ia_block _ _ _ _ _ _ HI)) as Hu. destruct (no_device _ Hm) as [Hch Hbl].
  pose proof (oo_fd _ _ _ _ Ho) as Hfd. pose proof (oo_file _ _ _ _ Ho) as He. set (i := inode_of (file_inode e)) in *.
  unfold sys_read. destruct (Z.ltb_spec fd 0), (Z.leb_spec TASK_FILE_NR fd); try lia. cbn [orb].
  rewrite (st_bind_eq _ _ _ _ _ (file_of_Ok _ _ _ _ Ho)).
  rewrite (st_bind_eq (sassert _) _ s () s) by (unfold sassert; by destruct (Z.ltb_spec 0 (Z.of_nat (length data))); [|lia]).
  rewrite (st_bind_eq _ _ _ _ _ (get_file_at_Ok _ _ _ _ Ho)). destruct (Z.eqb_spec (Z.land (file_flags e) O_ACCMODE) O_WRONLY); [done|].
  unfold transfer. rewrite (st_bind_eq _ _ _ _ _ (get_file_at_Ok _ _ _ _ Ho)). cbv zeta. fold i.
  rewrite (st_bind_eq _ _ _ _ _ (on_fs_read _ _ _ (get_inode_Ok _ i n (ia_inode _ _ _ _ _ _ HI)))), Hp.
  rewrite (st_bind_eq _ _ _ _ _ (on_fs_read _ _ _ (dget16_Ok _ i n k o u MODE HI Hu ltac:(done) ltac:(done)))), Hch, Hbl.
  assert (Z.of_nat (length data) < 4294967296) by (unfold TOTAL_BLOCKS, BLOCK_SIZE in *; lia).
  rewrite (st_bind_eq _ _ _ _ _ (on_fs_Ok _ s _ _ (inode_read_Ok (fsys s) i n k o u buf (Z.of_nat (length data)) (file_offset e) data HI Hc Hm ltac:(lia) Hs2 ltac:(lia) ltac:(lia) Hd Hr))).
  destruct (Z.eqb_spec (Z.of_nat (length data)) EOF_); [unfold EOF_ in *; lia|]. set (s1 := set_fsys _ s).
  rewrite s32_small by (unfold TOTAL_BLOCKS, BLOCK_SIZE in *; lia). rewrite (st_bind_eq _ _ s1 () (after_read s f e n buf data)); [done|].
  unfold on_kern, put_file_at. cbn [kern s1 set_fsys]. apply zget_Ok in He as [Hf0 Hl]. pose proof (lookup_lt_Some _ _ _ Hl).
  rewrite zset_Ok by lia. done.
Qed.

(** C25. Reading goes through a file in order: two reads of a descriptor of [n1] and [n2] bytes deliver
    the next [n1 + n2] bytes of the file, the second going on where the first has ended, whatever
    blocks they lie in.  The state afterwards is the one before with three changes: the bytes are
    in the two buffers, the offset of the open file is behind them, and its inode has the time of
    the second read as its access time - the clock was read twice.  Every other open file, inode,
    task, block of the cache and byte of the user is as it was. *)
Theorem reads_in_order s fd f e n k o u buf1 buf2 data1 data2 :
  readable s fd f e n k o u (data1 ++ data2) → 0 < Z.of_nat (length data1) → 0 < Z.of_nat (length data2) →
  room (user (fsys s)) buf1 (length data1) → room (user (fsys s)) buf2 (length data2) →
  ∃ s1 s2, sys_read fd buf1 (Z.of_nat (length data1)) s = Ok (Answer (Z.of_nat (length data1)), s1) ∧
    sys_read fd buf2 (Z.of_nat (length data2)) s1 = Ok (Answer (Z.of_nat (length data2)), s2) ∧
    kern s2 = put_file_table (<[Z.to_nat f := set_file_offset (file_offset e + Z.of_nat (length (data1 ++ data2))) e]> (file_table (kern s))) (kern s) ∧
    fsys s2 = set_inodes (<[inode_of (file_inode e) := set_atime (clock (fsys s) 1) n]> (inodes (fsys s)))
      (set_clock (λ m, clock (fsys s) (S (S m))) (set_user (write buf2 data2 (write buf1 data1 (user (fsys s)))) (fsys s))) ∧
    pwd s2 = pwd s ∧ pwd_len s2 = pwd_len s.
Proof.
  intros [Ho Hfl HI Hc Hp Hm Hoff Hs Hd] H1 H2 Hr1 Hr2. rewrite length_app in *. apply file_data_app in Hd as [Hd1 Hd2].
  set (s1 := after_read s f e n buf1 data1). set (e1 := set_file_offset (file_offset e + Z.of_nat (length data1)) e).
  pose proof (oo_file _ _ _ _ Ho) as He. apply zget_Ok in He as [Hf0 Hl]. pose proof (lookup_lt_Some _ _ _ Hl) as Hlt.
  assert (∀ (l : list file_t) (x : file_t), (Z.to_nat f < length l)%nat → zget (<[Z.to_nat f := x]> l) f = Ok x) as HZ.
  { intros l x Hx. apply zget_Ok. split; [done|]. by apply list_lookup_insert_eq. }
  assert (readable s1 fd f e1 (set_atime (clock (fsys s) 0) n) k o u data2) as R2.
  { split; try done; cbn [file_offset e1 set_file_offset]; [|by destruct HI as [A1 A2 A3 A4 A5]; split; try done; apply list_lookup_insert_eq; eapply lookup_lt_Some|lia|lia].
    destruct Ho as [A1 (t & Ht & Hft) A3]. split; [done| |by apply HZ]. exists t. split; [|done]. cbn. unfold get_current, get_task_at, slot in *. cbn in *.
    destruct (if 0 <=? current (kern s) then _ else None) as [x|]; [|done]. by injection Ht as <-. }
  eexists s1, _. split; [apply (sys_read_Ok s fd f e n k o u buf1 data1); [|done|done]|split; [apply (sys_read_Ok s1 fd f e1 _ k o u buf2 data2 R2); [done|]|]].
  - split; try done. lia.
  - by apply room_write.
  - split_and!; [| |done|done]; unfold s1, after_read, e1; cbn [kern fsys file_table put_file_table set_fsys user clock inodes set_inodes set_clock set_user file_inode set_file_offset file_offset].
    + rewrite list_insert_insert_eq. unfold set_file_offset, put_file_table. cbn. do 3 f_equal. lia.
    + unfold set_inodes. cbn. by rewrite list_insert_insert_eq.
Qed.

(** ** Example: descriptor 0 of the running task on the file of the example of Inode *)

Definition demo_file_e : file_t := File (ptr 1) 1 O_RDONLY 1022 33188.
Definition demo_os : os := Os (put_file_table [demo_file_e] demo) demo_fs 500 1.

Lemma demo_readable : readable demo_os 0 0 demo_file_e (demo_inode 2 1 32) (3, 4) 32 demo_inodes ([65; 65] ++ [66; 66]).
Proof.
  split; [|done|exact demo_file|exact demo_bufs_ok|done|vm_compute; reflexivity|done|vm_compute; done|exact demo_data].
  split; [done| |done]. eexists. split; [vm_compute; reflexivity|reflexivity].
Qed.

Lemma reads_in_order_witness :
  ∃ s1 s2, sys_read 0 600 2 demo_os = Ok (Answer 2, s1) ∧ sys_read 0 604 2 s1 = Ok (Answer 2, s2) ∧
    kern s2 = put_file_table [set_file_offset 1026 demo_file_e] (kern demo_os) ∧ user (fsys s2) = write 604 [66; 66] (write 600 [65; 65] (user demo_fs)).
Proof.
  destruct (reads_in_order demo_os 0 0 demo_file_e _ _ _ _ 600 604 [65; 65] [66; 66] demo_readable) as (s1 & s2 & E1 & E2 & K & F & _); [done|done|..];
    [apply (room_le _ _ 4); [by apply demo_room|cbn; lia]..|].
  exists s1, s2. split; [exact E1|]. split; [exact E2|]. split; [exact K|]. by rewrite F.
Defined.
