(* ===== verification/Args.v ===== *)
(** * The arguments of a program (count_argv and set_env_and_clean_fork of src/kernel/execve.c)

    The new stack of a program is put together in kernel memory before the old address space goes:
    the strings of the environment and of the arguments from the top down, below them the two
    arrays of pointers - already in terms of the future stack - and the number of arguments. *)

From stdpp Require Import gmap.
From S2P Require Import Prelude Pages Paging Blocks Files KString.

(** A word of memory. *)
Definition ld32 (p : Z) : M Z :=
  a ← ld p; b ← ld (p + 1); c ← ld (p + 2); d ← ld (p + 3);
  mret (u8 a + 256 * u8 b + 65536 * u8 c + 16777216 * u8 d).
Definition st32 (p v : Z) : M unit := copy_out p (enc32 v).

Section args.
Context (fuel : nat).

Fixpoint argv_loop (fuel : nat) (argv i : Z) : M Z :=
  match fuel with
  | O => stop_st NoFuel
  | S fuel => p ← ld32 (argv + 4 * i); if p =? 0 then mret i else argv_loop fuel argv (i + 1)
  end.
Definition count_argv (argv : Z) : M Z := if argv =? 0 then mret 0 else argv_loop fuel argv 0.

(** The loops over the environment and the arguments: the strings of the array [src] are copied
    below [ktop], the last one first, and their future addresses go into the array [dst]. *)
Fixpoint copy_strings (n : nat) (src dst ktop utop : Z) : M (Z * Z) :=
  match n with
  | O => mret (ktop, utop)
  | S n =>
      s ← ld32 (src + 4 * Z.of_nat n);
      len ← strlen fuel s;
      memcpy (ktop - (len + 1)) s (Z.to_nat (len + 1));;
      st32 (dst + 4 * Z.of_nat n) (u32 (utop - (len + 1)));;
      copy_strings n src dst (ktop - (len + 1)) (utop - (len + 1))
  end.

(** The strings and the two arrays, in kernel memory: [pages] and [argvk] are the four pages and
    the page [alloc_kpage] has answered.  The answer is the numbers of both and [ktop]. *)
Definition build_strings (pages argvk filename argv envp : Z) : M (Z * Z * Z) :=
  c ← count_argv argv;
  let argc := c + 1 in
  envc ← count_argv envp;
  st32 (argvk + 4 * argc) NULL;;
  let envpk := argvk + 4 * (argc + 1) in
  st32 (envpk + 4 * envc) NULL;;
  '(ktop, utop) ← copy_strings (Z.to_nat envc) envp envpk (pages + 4 * PAGE_SIZE) USER_STACK_TOP;
  '(ktop, utop) ← copy_strings (Z.to_nat c) argv (argvk + 4) ktop utop;
  len ← strlen fuel filename;
  memcpy (ktop - (len + 1)) filename (Z.to_nat (len + 1));;
  st32 argvk (u32 (utop - (len + 1)));;
  mret (argc, envc, ktop - (len + 1)).

(** Everything before the old address space is given up; the answer is [ktop]. *)
Definition build_args (pages argvk filename argv envp : Z) : M Z :=
  '(argc, envc, ktop) ← build_strings pages argvk filename argv envp;
  let ktop := ktop - (envc + 1) * 4 in
  memcpy ktop (argvk + 4 * (argc + 1)) (Z.to_nat ((envc + 1) * 4));;
  let ktop := ktop - (argc + 1) * 4 in
  memcpy ktop argvk (Z.to_nat ((argc + 1) * 4));;
  let ktop := ktop - 4 in
  st32 ktop argc;;
  sassert (pages <? ktop);;
  mret ktop.
End args.

(** ** What the stack is to be *)

Definition w32 (v : Z) : list Z := s8 <$> enc32 v.
Definition w32s (vs : list Z) : list Z := mjoin (w32 <$> vs).
Definition strings (ss : list (list Z)) : list Z := mjoin ((λ s, s ++ [EOS]) <$> ss).

(** Where the strings of a list lie when the first is at [p]. *)
Fixpoint places (p : Z) (ss : list (list Z)) : list Z :=
  match ss with [] => [] | s :: ss => p :: places (p + Z.of_nat (length s) + 1) ss end.

(** The stack below [top]: the number of arguments, their addresses, those of the environment,
    each array ended by 0, and the strings. *)
Definition stack_image (top : Z) (args envs : list (list Z)) : list Z :=
  let block := strings args ++ strings envs in
  let p := top - Z.of_nat (length block) in
  w32 (Z.of_nat (length args)) ++ w32s (places p args ++ [0]) ++
  w32s (places (p + Z.of_nat (length (strings args))) envs ++ [0]) ++ block.

(** ** Words in memory *)

Lemma write_s8 p l m : write p (s8 <$> l) m = write p l m.
Proof.
  revert p m. induction l as [|c l IH]; intros p m; [done|]. cbn [fmap list_fmap write]. rewrite IH. do 2 f_equal.
  unfold s8. replace ((c + 128) mod 256 - 128 + 128) with ((c + 128) mod 256) by lia. by rewrite Z.mod_mod.
Qed.

Lemma s8_char c : is_char (s8 c).
Proof. unfold is_char, s8. pose proof (Z.mod_pos_bound (c + 128) 256). lia. Qed.

Lemma u8_s8 c : u8 (s8 c) = u8 c.
Proof.
  unfold u8, s8. rewrite Zminus_mod, Z.mod_mod by lia. rewrite <- Zminus_mod. f_equal. lia.
Qed.

Lemma length_w32 v : length (w32 v) = 4%nat.
Proof. done. Qed.

Lemma w32_chars v : Forall is_char (w32 v).
Proof. repeat constructor; apply s8_char. Qed.

Lemma words_app l k : w32s (l ++ k) = w32s l ++ w32s k.
Proof. unfold w32s. by rewrite fmap_app, join_app. Qed.

Lemma words_one v : w32s [v] = w32 v.
Proof. done. Qed.

Lemma length_words vs : length (w32s vs) = (4 * length vs)%nat.
Proof. induction vs as [|v vs IH]; [done|]. change (v :: vs) with ([v] ++ vs). rewrite words_app, length_app, IH, words_one, length_w32. cbn. lia. Qed.

Lemma words_chars vs : Forall is_char (w32s vs).
Proof. induction vs as [|v vs IH]; [done|]. change (v :: vs) with ([v] ++ vs). rewrite words_app. apply Forall_app. split; [apply w32_chars|done]. Qed.

Lemma strings_app l k : strings (l ++ k) = strings l ++ strings k.
Proof. unfold strings. by rewrite fmap_app, join_app. Qed.

Lemma strings_one s : strings [s] = s ++ [EOS].
Proof. unfold strings. cbn. by rewrite app_nil_r. Qed.

Lemma length_strings_one s : Z.of_nat (length (strings [s])) = Z.of_nat (length s) + 1.
Proof. rewrite strings_one, length_app. cbn. lia. Qed.

Lemma strings_chars ss : Forall (Forall (λ c, is_char c ∧ c ≠ EOS)) ss → Forall is_char (strings ss).
Proof.
  induction 1 as [|s ss Hs H IH]; [done|]. change (s :: ss) with ([s] ++ ss). rewrite strings_app, strings_one. apply Forall_app. split; [by apply str_chars|done].
Qed.

Lemma image_chars top args envs : Forall (Forall (λ c, is_char c ∧ c ≠ EOS)) (args ++ envs) → Forall is_char (stack_image top args envs).
Proof.
  intros [H1 H2]%Forall_app. unfold stack_image. repeat (apply Forall_app; split); try apply w32_chars; try apply words_chars; by apply strings_chars.
Qed.

Lemma length_places p ss : length (places p ss) = length ss.
Proof. revert p. induction ss as [|s ss IH]; intros p; [done|]. cbn. by rewrite IH. Qed.

Lemma places_app p l k : places p (l ++ k) = places p l ++ places (p + Z.of_nat (length (strings l))) k.
Proof.
  revert p. induction l as [|s l IH]; intros p; cbn [places app].
  - f_equal. unfold strings. cbn. lia.
  - f_equal. rewrite IH. f_equal. f_equal. change (s :: l) with ([s] ++ l). rewrite strings_app, length_app, Nat2Z.inj_add, length_strings_one. lia.
Qed.

Lemma word32_sum v : 0 <= v < 4294967296 → v mod 256 + 256 * (v / 256 mod 256) + 65536 * (v / 65536 mod 256) + 16777216 * (v / 16777216 mod 256) = v.
Proof.
  intros Hv. assert (v / 65536 = v / 256 / 256) as E1 by (by rewrite Z.div_div). assert (v / 16777216 = v / 65536 / 256) as E2 by (by rewrite Z.div_div).
  pose proof (Z.div_mod v 256 ltac:(lia)). pose proof (Z.div_mod (v / 256) 256 ltac:(lia)). pose proof (Z.div_mod (v / 65536) 256 ltac:(lia)).
  rewrite (Z.mod_small (v / 16777216)); [lia|]. split; [apply Z.div_pos; lia|apply Z.div_lt_upper_bound; lia].
Qed.

Lemma ld32_Ok m p v : bytes_at m p (w32 v) → 0 <= v < 4294967296 → ld32 p m = Ok (v, m).
Proof.
  intros (H0 & H1 & H2 & H3 & _) Hv. unfold ld32. rewrite (st_bind_eq _ _ _ _ _ (ld_Ok _ _ _ H0)), (st_bind_eq _ _ _ _ _ (ld_Ok _ _ _ H1)).
  replace (p + 1 + 1) with (p + 2) in * by lia. replace (p + 2 + 1) with (p + 3) in * by lia.
  rewrite (st_bind_eq _ _ _ _ _ (ld_Ok _ _ _ H2)), (st_bind_eq _ _ _ _ _ (ld_Ok _ _ _ H3)). unfold mret, st_ret. rewrite !u8_s8. do 2 f_equal.
  unfold u8. rewrite !Z.mod_mod by lia. apply word32_sum; lia.
Qed.

Lemma st32_Ok m p v : room m p 4 → st32 p v m = Ok ((), write p (w32 v) m).
Proof. intros Hr. unfold st32. rewrite copy_out_Ok by done. unfold w32. by rewrite write_s8. Qed.

(** A word of an array. *)
Lemma words_lookup m p vs i v : bytes_at m p (w32s vs) → vs !! i = Some v → bytes_at m (p + 4 * Z.of_nat i) (w32 v).
Proof.
  intros H Hi. rewrite <- (take_drop_middle vs i v Hi) in H. rewrite words_app in H. apply bytes_at_app in H as [_ H].
  rewrite length_words, length_take in H. pose proof (lookup_lt_Some _ _ _ Hi). replace (p + Z.of_nat _) with (p + 4 * Z.of_nat i) in H by lia.
  change (v :: drop (S i) vs) with ([v] ++ drop (S i) vs) in H. rewrite words_app, words_one in H. by apply bytes_at_app in H as [H _].
Qed.

Lemma count_loop_Ok fuel m argv ps i :
  bytes_at m argv (w32s (ps ++ [0])) → Forall (λ p, 0 < p < 4294967296) ps → (i <= length ps)%nat → (length ps - i < fuel)%nat →
  argv_loop fuel argv (Z.of_nat i) m = Ok (Z.of_nat (length ps), m).
Proof.
  intros H Hp. revert i. induction fuel as [|fuel IH]; intros i Hi Hf; [lia|]. cbn [argv_loop].
  destruct (decide (i = length ps)) as [->|Hne].
  - assert ((ps ++ [0]) !! length ps = Some 0) as HL by (by rewrite lookup_app_r, Nat.sub_diag by lia).
    by rewrite (st_bind_eq _ _ _ _ _ (ld32_Ok _ _ _ (words_lookup _ _ _ _ _ H HL) ltac:(lia))).
  - destruct (lookup_lt_is_Some_2 ps i ltac:(lia)) as [v Hv]. pose proof (Forall_lookup_1 _ _ _ _ Hp Hv) as Hb. cbn in Hb.
    assert ((ps ++ [0]) !! i = Some v) as HL by (by apply lookup_app_l_Some).
    rewrite (st_bind_eq _ _ _ _ _ (ld32_Ok _ _ _ (words_lookup _ _ _ _ _ H HL) ltac:(lia))). destruct (Z.eqb_spec v 0); [lia|].
    replace (Z.of_nat i + 1) with (Z.of_nat (S i)) by lia. apply IH; lia.
Qed.

(** ** Copying *)

(** [m'] differs from [m] on the addresses [P] only, and nothing is lost. *)
Definition touched (P : Z → Prop) (m m' : mem) : Prop :=
  (∀ i, ¬ P i → m' !! i = m !! i) ∧ ∀ i, is_Some (m !! i) → is_Some (m' !! i).
Definition range (p : Z) (n : nat) (i : Z) : Prop := p <= i < p + Z.of_nat n.
Definition clear (P : Z → Prop) (p : Z) (n : nat) : Prop := ∀ i, range p n i → ¬ P i.

Lemma touched_write p l m : touched (range p (length l)) m (write p l m).
Proof.
  split; [exact (write_only p l m)|]. intros i Hi. assert (room m i 1) as H by (intros j Hj; by replace j with i by lia).
  apply (room_write m i 1 p l H). lia.
Qed.

Lemma touched_trans (P Q R : Z → Prop) m1 m2 m3 :
  touched P m1 m2 → touched Q m2 m3 → (∀ i, P i → R i) → (∀ i, Q i → R i) → touched R m1 m3.
Proof.
  intros [A1 A2] [B1 B2] HP HQ. split; [|by auto]. intros i Hi. rewrite B1 by (intros ?; by apply Hi, HQ). apply A1. intros ?. by apply Hi, HP.
Qed.

Lemma touched_incl (P Q : Z → Prop) m m' : touched P m m' → (∀ i, P i → Q i) → touched Q m m'.
Proof. intros T H. apply (touched_trans P P Q m m' m'); [done|by split|done|done]. Qed.

Lemma touched_refl P m : touched P m m.
Proof. by split. Qed.

Lemma touched_bytes P m m' p l : touched P m m' → clear P p (length l) → bytes_at m p l → bytes_at m' p l.
Proof. intros [A _] Hc Hl. apply (bytes_at_frame _ _ _ _ Hl). intros i Hi. by apply A, Hc. Qed.

Lemma touched_str P m m' p s : touched P m m' → clear P p (S (length s)) → str_at m p s → str_at m' p s.
Proof. intros T Hc [Hb Hs]. split; [|done]. apply (touched_bytes P m); [done| |done]. rewrite length_app. cbn. by rewrite Nat.add_1_r. Qed.

Lemma touched_room P m m' p n : touched P m m' → room m p n → room m' p n.
Proof. intros [_ A] Hr i Hi. by apply A, Hr. Qed.

Lemma clear_incl (P Q : Z → Prop) p n : (∀ i, P i → Q i) → clear Q p n → clear P p n.
Proof. intros HPQ Hc i Hi HP. by apply (Hc i), HPQ. Qed.

(** A string whose bytes are not among the addresses [P]. *)
Definition string_clear (P : Z → Prop) (m : mem) (p : Z) (s : list Z) : Prop :=
  str_at m p s ∧ clear P p (S (length s)) ∧ Z.of_nat (length s) < 4294967295 ∧ 0 < p < 4294967296.

Lemma string_clear_touched (P Q : Z → Prop) m m' p s : touched Q m m' → (∀ i, Q i → P i) → string_clear P m p s → string_clear P m' p s.
Proof. intros T HQ (H1 & H2 & H3). split; [|done]. apply (touched_str Q m); [done| |done]. by apply (clear_incl Q P). Qed.

(** One string copied in place. *)
Lemma copy_string_Ok fuel (P : Z → Prop) m p s q (sl := S (length s)) :
  string_clear P m p s → (length s < fuel)%nat → (∀ i, range q sl i → P i) → room m q sl →
  strlen fuel p m = Ok (Z.of_nat (length s), m) ∧ memcpy q p (Z.to_nat (Z.of_nat (length s) + 1)) m = Ok ((), write q (s ++ [EOS]) m) ∧
  touched (range q sl) m (write q (s ++ [EOS]) m) ∧ bytes_at (write q (s ++ [EOS]) m) q (s ++ [EOS]).
Proof.
  intros (Hs & Hc & Hl & Hp) Hf HP Hr. assert (length (s ++ [EOS]) = sl) as E by (rewrite length_app; cbn; lia).
  split; [apply strlen_spec; done || lia|]. split; [|split].
  - replace (Z.to_nat (Z.of_nat (length s) + 1)) with (length (s ++ [EOS])) by lia. apply memcpy_spec; [apply Hs|by rewrite E|].
    rewrite E. unfold apart. destruct (decide (p + Z.of_nat sl <= q)); [by left|right]. apply Z.nlt_ge. intros Hlt.
    apply (Hc (Z.max p q)); [unfold range, sl in *; lia|]. apply HP. unfold range, sl in *. lia.
  - rewrite <- E. apply touched_write.
  - apply write_bytes, str_chars, Hs.
Qed.

Definition incl (P Q : Z → Prop) : Prop := ∀ i, P i → Q i.
Ltac ranges := unfold incl, clear, apart, room, range in *; intros; lia.

Lemma copy_strings_Ok fuel (P : Z → Prop) src dst ss :
  ∀ ps m ktop utop (len := length (strings ss)),
  bytes_at m src (w32s ps) → clear P src (4 * length ps) → Forall2 (string_clear P m) ps ss → Forall (λ s, (length s < fuel)%nat) ss →
  incl (range (ktop - Z.of_nat len) len) P → incl (range dst (4 * length ss)) P →
  room m (ktop - Z.of_nat len) len → room m dst (4 * length ss) → apart (ktop - Z.of_nat len) len dst (4 * length ss) →
  Z.of_nat len <= utop < 4294967296 →
  ∃ m', copy_strings fuel (length ss) src dst ktop utop m = Ok ((ktop - Z.of_nat len, utop - Z.of_nat len), m') ∧
    bytes_at m' (ktop - Z.of_nat len) (strings ss) ∧ bytes_at m' dst (w32s (places (utop - Z.of_nat len) ss)) ∧
    touched (λ i, range (ktop - Z.of_nat len) len i ∨ range dst (4 * length ss) i) m m'.
Proof.
  induction ss as [|s ss IH] using rev_ind; intros ps m ktop utop len Hw Hcw H2 Hfu HP1 HP2 Hr1 Hr2 Hap Hu.
  { exists m. cbn. rewrite !Z.sub_0_r. split; [done|]. split; [done|]. split; [done|apply touched_refl]. }
  apply Forall2_app_inv_r in H2 as (ps' & lp & H2 & Hlast & ->). apply Forall2_cons_inv_r in Hlast as (p & lp' & Hs & ->%Forall2_nil_inv_r & ->).
  apply Forall_app in Hfu as [Hfu [Hfs _]%Forall_cons]. set (l1 := length (strings ss)). set (sl := S (length s)).
  assert (Z.of_nat len = Z.of_nat l1 + Z.of_nat sl) as El by (unfold len; rewrite strings_app, length_app, Nat2Z.inj_add, length_strings_one; lia).
  pose proof (Forall2_length _ _ _ H2) as Elp. rewrite !length_app in *. cbn [length] in *. rewrite Nat.add_1_r in *. cbn [copy_strings].
  rewrite words_app, words_one in Hw. apply bytes_at_app in Hw as [Hw Hw1]. rewrite length_words in Hw1.
  replace (src + Z.of_nat (4 * length ps')) with (src + 4 * Z.of_nat (length ss)) in Hw1 by lia.
  set (q := ktop - Z.of_nat sl). set (u := utop - Z.of_nat sl). set (d := dst + 4 * Z.of_nat (length ss)).
  destruct (copy_string_Ok fuel P m p s q Hs Hfs) as (E1 & E2 & T1 & B1); fold sl; [intros i Hi; apply HP1; ranges|intros i Hi; apply Hr1; lia|].
  pose proof Hs as (_ & _ & _ & Hp). rewrite (st_bind_eq _ _ _ _ _ (ld32_Ok _ _ _ Hw1 ltac:(lia))), (st_bind_eq _ _ _ _ _ E1).
  replace (ktop - (Z.of_nat (length s) + 1)) with q by lia. replace (utop - (Z.of_nat (length s) + 1)) with u by lia.
  rewrite (st_bind_eq _ _ _ _ _ E2). set (m1 := write q (s ++ [EOS]) m) in *. rewrite u32_small by lia.
  assert (room m1 d 4) as Hrd by (apply (touched_room (range q sl) m); [done|]; intros i Hi; apply Hr2; lia).
  rewrite (st_bind_eq _ _ _ _ _ (st32_Ok m1 d u Hrd)). set (m2 := write d (w32 u) m1).
  pose proof (touched_write d (w32 u) m1) as T2. fold m2 in T2. rewrite length_w32 in T2. set (Q := λ i, range q sl i ∨ range d 4 i).
  assert (touched Q m m2) as T by (eapply touched_trans; [exact T1|exact T2|unfold Q; tauto|unfold Q; tauto]).
  assert (incl Q P) as HT by (intros i [Hi|Hi]; [apply HP1|apply HP2]; ranges).
  specialize (IH ps' m2 q u). cbv zeta in IH. fold l1 in IH. destruct IH as (m' & E & A1 & A2 & T3).
  - apply (touched_bytes Q m); [exact T| |done]. apply (clear_incl _ P); [done|]. rewrite length_words. intros i Hi. apply Hcw. ranges.
  - intros i Hi. apply Hcw. ranges.
  - eapply Forall2_impl; [exact H2|]. intros. by apply (string_clear_touched P Q m).
  - done.
  - intros i Hi. apply HP1. ranges.
  - intros i Hi. apply HP2. ranges.
  - apply (touched_room Q m); [exact T|]. intros i Hi. apply Hr1. lia.
  - apply (touched_room Q m); [exact T|]. intros i Hi. apply Hr2. lia.
  - ranges.
  - lia.
  - replace (q - Z.of_nat l1) with (ktop - Z.of_nat len) in * by lia. replace (u - Z.of_nat l1) with (utop - Z.of_nat len) in * by lia.
    exists m'. split; [by rewrite E|]. split; [|split].
    + rewrite strings_app, strings_one. apply bytes_at_app. fold l1. split; [done|]. replace (ktop - Z.of_nat len + Z.of_nat l1) with q by lia.
      apply (touched_bytes _ m2 _ _ _ T3); [rewrite length_app; cbn; ranges|]. apply (touched_bytes _ m1 _ _ _ T2); [rewrite length_app; cbn; ranges|done].
    + rewrite places_app, words_app. apply bytes_at_app. rewrite length_words, length_places. split; [done|]. fold l1. replace (utop - Z.of_nat len + Z.of_nat l1) with u by lia.
      cbn [places]. rewrite words_one. replace (dst + Z.of_nat (4 * length ss)) with d by lia.
      apply (touched_bytes _ m2 _ _ _ T3); [rewrite length_w32; ranges|]. apply write_bytes, w32_chars.
    + eapply touched_trans; [exact T|exact T3|intros i [Hi|Hi]; [left|right]; ranges|intros i [Hi|Hi]; [left|right]; ranges].
Qed.

(** ** What the program sees *)

Definition string_array_at (m : mem) (a : Z) (ss : list (list Z)) : Prop :=
  (∀ i s, ss !! i = Some s → ∃ p, ld32 (a + 4 * Z.of_nat i) m = Ok (p, m) ∧ p ≠ 0 ∧ str_at m p s) ∧
  ld32 (a + 4 * Z.of_nat (length ss)) m = Ok (0, m).

(** The stack pointer points to the number of arguments; the array of the arguments and that of the
    environment follow, each ended by a null pointer. *)
Definition program_sees (m : mem) (sp : Z) (args envs : list (list Z)) : Prop :=
  ld32 sp m = Ok (Z.of_nat (length args), m) ∧ string_array_at m (sp + 4) args ∧
  string_array_at m (sp + 4 + 4 * (Z.of_nat (length args) + 1)) envs.

Lemma places_lookup m p ss i s : bytes_at m p (strings ss) → ss !! i = Some s →
  ∃ q, places p ss !! i = Some q ∧ bytes_at m q (s ++ [EOS]) ∧ p <= q < p + Z.of_nat (length (strings ss)).
Proof.
  revert p i. induction ss as [|s' ss IH]; intros p i H Hi; [done|]. change (s' :: ss) with ([s'] ++ ss) in H. rewrite strings_app in H.
  apply bytes_at_app in H as [H1 H2]. pose proof (length_strings_one s') as El. change (s' :: ss) with ([s'] ++ ss) at 2. rewrite strings_app, length_app.
  destruct i as [|i]; cbn [places lookup list_lookup] in *.
  - injection Hi as ->. exists p. rewrite strings_one in H1. split; [done|]. split; [done|lia].
  - rewrite El in H2. replace (p + (Z.of_nat (length s') + 1)) with (p + Z.of_nat (length s') + 1) in H2 by lia.
    destruct (IH _ i H2 Hi) as (q & E & B & Hq). exists q. split; [done|]. split; [done|lia].
Qed.

Lemma array_sees m a p ss :
  bytes_at m a (w32s (places p ss ++ [0])) → bytes_at m p (strings ss) → Forall (Forall (λ c, is_char c ∧ c ≠ EOS)) ss →
  0 < p → p + Z.of_nat (length (strings ss)) <= 4294967296 → string_array_at m a ss.
Proof.
  intros Ha Hp Hc H0 H1. split.
  - intros i s Hi. destruct (places_lookup m p ss i s Hp Hi) as (q & E & B & Hq). exists q. split; [|split; [lia|]].
    + apply ld32_Ok; [|lia]. apply (words_lookup _ _ _ _ _ Ha). by apply lookup_app_l_Some.
    + split; [done|]. exact (Forall_lookup_1 _ _ _ _ Hc Hi).
  - apply ld32_Ok; [|lia]. apply (words_lookup _ _ _ _ _ Ha). by rewrite lookup_app_r, length_places, Nat.sub_diag by (rewrite length_places; lia).
Qed.

Lemma image_sees m top args envs (img := stack_image top args envs) :
  bytes_at m (top - Z.of_nat (length img)) img → Forall (Forall (λ c, is_char c ∧ c ≠ EOS)) (args ++ envs) →
  Z.of_nat (length img) < top <= 4294967296 → program_sees m (top - Z.of_nat (length img)) args envs.
Proof.
  intros H Hc Ht. apply Forall_app in Hc as [Hc1 Hc2]. unfold img, stack_image in *. set (block := strings args ++ strings envs) in *.
  rewrite !length_app, !length_words, !length_app, !length_places, length_w32 in *. cbn [length] in *. match goal with |- program_sees _ ?x _ _ => set (sp := x) in * end.
  assert (Z.of_nat (length block) = Z.of_nat (length (strings args)) + Z.of_nat (length (strings envs))) as Eb by (unfold block; rewrite length_app; lia).
  apply bytes_at_app in H as [H1 H]. rewrite length_w32 in H. change (Z.of_nat 4) with 4 in H.
  apply bytes_at_app in H as [H2 H]. rewrite length_words, length_app, length_places in H. cbn [length] in H.
  apply bytes_at_app in H as [H3 H]. rewrite length_words, length_app, length_places in H. cbn [length] in H. unfold block in H. apply bytes_at_app in H as [H4 H5].
  replace (sp + 4 + Z.of_nat (4 * (length args + 1)) + Z.of_nat (4 * (length envs + 1))) with (top - Z.of_nat (length block)) in * by (unfold sp; lia).
  replace (sp + 4 + Z.of_nat (4 * (length args + 1))) with (sp + 4 + 4 * (Z.of_nat (length args) + 1)) in H3 by lia.
  split; [by apply ld32_Ok; [|lia]|]. split.
  - apply (array_sees _ _ _ _ H2); [done|done|lia|lia].
  - apply (array_sees _ _ _ _ H3); [done|done|lia|lia].
Qed.

(** ** The whole stack *)

Section stack.
Context (fuel : nat) (pages argvk : Z).

(** The four pages and the page the kernel works in. *)
Definition buffers (i : Z) : Prop := range pages (Z.to_nat 16384) i ∨ range argvk (Z.to_nat 4096) i.

(** An array of strings ended by 0, outside the buffers; the null pointer is an empty one. *)
Inductive string_array (m : mem) : Z → list Z → list (list Z) → Prop :=
| no_array : string_array m 0 [] []
| an_array a ps ss : a ≠ 0 → bytes_at m a (w32s (ps ++ [0])) → clear buffers a (4 * S (length ps)) → Forall2 (string_clear buffers m) ps ss → string_array m a ps ss.

Lemma string_array_chars m a ps ss : string_array m a ps ss → Forall (Forall (λ c, is_char c ∧ c ≠ EOS)) ss.
Proof.
  intros [|a' ps' ss' _ _ _ H]; [done|]. induction H as [|p s ps' ss' Hs H IH]; constructor; [|done]. exact (proj2 (proj1 Hs)).
Qed.

Lemma string_array_touched (Q : Z → Prop) m m' a ps ss : touched Q m m' → incl Q buffers → string_array m a ps ss → string_array m' a ps ss.
Proof.
  intros T HQ [|a' ps' ss' Ha Hb Hc H2]; [apply no_array|]. apply an_array; [done| |done|].
  - apply (touched_bytes Q m); [done| |done]. apply (clear_incl _ buffers); [done|]. rewrite length_words, length_app. cbn. intros i Hi. apply Hc. ranges.
  - eapply Forall2_impl; [exact H2|]. intros. by apply (string_clear_touched buffers Q m).
Qed.

Lemma count_argv_Ok m a ps ss : string_array m a ps ss → (length ss < fuel)%nat → count_argv fuel a m = Ok (Z.of_nat (length ss), m).
Proof.
  intros [|a' ps' ss' Ha H _ H2] Hf; unfold count_argv; [done|]. destruct (Z.eqb_spec a' 0); [done|].
  pose proof (Forall2_length _ _ _ H2) as E. rewrite <- E in *. apply (count_loop_Ok fuel m a' ps' 0); [done| |lia|lia].
  apply Forall_forall. intros p [i Hi]%list_elem_of_lookup_1. destruct (Forall2_lookup_l _ _ _ _ _ H2 Hi) as (s & _ & _ & _ & _ & Hp). done.
Qed.

(** The strings of an array, copied below [ktop], with their addresses at [dst]. *)
Lemma copy_array_Ok m a ps ss dst ktop utop (len := length (strings ss)) :
  string_array m a ps ss → Forall (λ s, (length s < fuel)%nat) ss → pages <= ktop - Z.of_nat len → ktop <= pages + 16384 →
  argvk <= dst → dst + 4 * Z.of_nat (length ss) <= argvk + 4096 → room m pages (Z.to_nat 16384) → room m argvk (Z.to_nat 4096) → apart pages (Z.to_nat 16384) argvk (Z.to_nat 4096) →
  Z.of_nat len <= utop < 4294967296 →
  ∃ m', copy_strings fuel (length ss) a dst ktop utop m = Ok ((ktop - Z.of_nat len, utop - Z.of_nat len), m') ∧
    bytes_at m' (ktop - Z.of_nat len) (strings ss) ∧ bytes_at m' dst (w32s (places (utop - Z.of_nat len) ss)) ∧
    touched (λ i, range (ktop - Z.of_nat len) len i ∨ range dst (4 * length ss) i) m m'.
Proof.
  intros Ha Hf H1 H2 H3 H4 Hr1 Hr2 Hap Hu. destruct Ha as [|a ps ss Ha Hb Hc HF].
  { exists m. cbn. rewrite !Z.sub_0_r. split; [done|]. split; [done|]. split; [done|apply touched_refl]. }
  rewrite words_app in Hb. apply bytes_at_app in Hb as [Hb _]. apply (copy_strings_Ok fuel buffers a dst ss ps); try done.
  - intros i Hi. apply Hc. ranges.
  - intros i Hi. left. ranges.
  - intros i Hi. right. ranges.
  - intros i Hi. apply Hr1. unfold len in *. lia.
  - intros i Hi. apply Hr2. lia.
  - unfold apart, len in *. lia.
Qed.

Record args_ready (m : mem) (filename argv envp : Z) (file : list Z) (args envs : list (list Z)) : Prop := {
  ar_file : string_clear buffers m filename file;
  ar_args : ∃ ps, string_array m argv ps args;
  ar_envs : ∃ ps, string_array m envp ps envs;
  ar_room : room m pages (Z.to_nat 16384);
  ar_page : room m argvk (Z.to_nat 4096);
  ar_apart : apart pages (Z.to_nat 16384) argvk (Z.to_nat 4096);
  ar_fuel : Forall (λ s, (length s < fuel)%nat) (file :: args ++ envs) ∧ (length args < fuel)%nat ∧ (length envs < fuel)%nat;
  ar_fits : Z.of_nat (length (stack_image USER_STACK_TOP (file :: args) envs)) < 16384;
  ar_ptrs : 4 * (Z.of_nat (length args) + Z.of_nat (length envs) + 3) <= 4096
}.

Context (m : mem) (filename argv envp : Z) (file : list Z) (args envs : list (list Z)).
Context (R : args_ready m filename argv envp file args envs).

Local Definition argc : Z := Z.of_nat (length args) + 1.
Local Definition envc : Z := Z.of_nat (length envs).
Local Definition block : list Z := strings (file :: args) ++ strings envs.
Local Definition base : Z := USER_STACK_TOP - Z.of_nat (length block).
Local Definition arg_words : list Z := w32s (places base (file :: args) ++ [0]).
Local Definition env_words : list Z := w32s (places (base + Z.of_nat (length (strings (file :: args)))) envs ++ [0]).

Lemma sizes : Z.of_nat (length arg_words) = 4 * (argc + 1) ∧ Z.of_nat (length env_words) = 4 * (envc + 1) ∧
  stack_image USER_STACK_TOP (file :: args) envs = w32 argc ++ arg_words ++ env_words ++ block ∧
  Z.of_nat (length (stack_image USER_STACK_TOP (file :: args) envs)) = 4 + 4 * (argc + 1) + 4 * (envc + 1) + Z.of_nat (length block).
Proof.
  assert (Z.of_nat (length arg_words) = 4 * (argc + 1)) as E1 by (unfold arg_words, argc; rewrite length_words, length_app, length_places; cbn; lia).
  assert (Z.of_nat (length env_words) = 4 * (envc + 1)) as E2 by (unfold env_words, envc; rewrite length_words, length_app, length_places; cbn; lia).
  assert (stack_image USER_STACK_TOP (file :: args) envs = w32 argc ++ arg_words ++ env_words ++ block) as E3.
  { unfold stack_image. fold block base. cbn [length]. replace (Z.of_nat (S (length args))) with argc by (unfold argc; lia). done. }
  split; [done|]. split; [done|]. split; [done|]. rewrite E3, !length_app, length_w32. lia.
Qed.

(** The addresses written: the strings and the page of the arrays. *)
Local Definition area (i : Z) : Prop := range (pages + 16384 - Z.of_nat (length block)) (length block) i ∨ range argvk (Z.to_nat 4096) i.

Lemma block_parts : Z.of_nat (length block) = Z.of_nat (length file) + 1 + Z.of_nat (length (strings args)) + Z.of_nat (length (strings envs)) ∧
  Z.of_nat (length block) + 4 * (argc + envc + 3) < 16384 ∧ 0 <= envc ∧ 0 < argc.
Proof.
  destruct sizes as (_ & _ & _ & E). pose proof (ar_fits _ _ _ _ _ _ _ R). unfold envc, argc in *. split; [|lia].
  unfold block. rewrite length_app. change (file :: args) with ([file] ++ args). rewrite strings_app, length_app.
  rewrite !Nat2Z.inj_add, length_strings_one. lia.
Qed.

Lemma area_buffers : incl area buffers.
Proof. destruct block_parts as (E & H & He & Ha). intros i [Hi|Hi]; [left|by right]. unfold range in *. lia. Qed.

(** A word of the page of the arrays. *)
Lemma st_array_Ok m0 x v : touched area m m0 → 0 <= x → x + 4 <= 4096 →
  ∃ m1, st32 (argvk + x) v m0 = Ok ((), m1) ∧ touched (range (argvk + x) 4) m0 m1 ∧ touched area m m1 ∧ bytes_at m1 (argvk + x) (w32 v).
Proof.
  intros T H0 H1. exists (write (argvk + x) (w32 v) m0). pose proof (touched_write (argvk + x) (w32 v) m0) as T1. rewrite length_w32 in T1.
  split; [|split; [done|split]].
  - apply st32_Ok. apply (touched_room area m); [done|]. pose proof (ar_page _ _ _ _ _ _ _ R) as Hr. intros i Hi. apply Hr. lia.
  - eapply touched_trans; [exact T|exact T1|done|]. intros i Hi. right. ranges.
  - apply write_bytes, w32_chars.
Qed.

(** The strings of an array, at a place of the page and below [pages + 16384 - x]. *)
Lemma copy_area_Ok m0 a ps ss x y (len := Z.of_nat (length (strings ss))) :
  touched area m m0 → string_array m a ps ss → Forall (λ s, (length s < fuel)%nat) ss → 0 <= x → x + len <= Z.of_nat (length block) →
  0 <= y → y + 4 * Z.of_nat (length ss) <= 4096 →
  ∃ m1, copy_strings fuel (length ss) a (argvk + y) (pages + 16384 - x) (USER_STACK_TOP - x) m0 =
      Ok ((pages + 16384 - (x + len), USER_STACK_TOP - (x + len)), m1) ∧
    bytes_at m1 (pages + 16384 - (x + len)) (strings ss) ∧ bytes_at m1 (argvk + y) (w32s (places (USER_STACK_TOP - (x + len)) ss)) ∧
    touched (λ i, range (pages + 16384 - (x + len)) (Z.to_nat len) i ∨ range (argvk + y) (4 * length ss) i) m0 m1 ∧ touched area m m1.
Proof.
  intros T Ha Hf H0 H1 H2 H3. destruct block_parts as (Eb & Hb & He & Hc).
  destruct (copy_array_Ok m0 a ps ss (argvk + y) (pages + 16384 - x) (USER_STACK_TOP - x)) as (m1 & E & B1 & B2 & T1); try lia.
  - apply (string_array_touched area m); [done|exact area_buffers|done].
  - done.
  - by apply (touched_room area m), (ar_room _ _ _ _ _ _ _ R).
  - by apply (touched_room area m), (ar_page _ _ _ _ _ _ _ R).
  - exact (ar_apart _ _ _ _ _ _ _ R).
  - unfold USER_STACK_TOP, KERNEL_VADDR_OFFSET in *. lia.
  - fold len in E, B1, B2, T1. replace (pages + 16384 - x - len) with (pages + 16384 - (x + len)) in * by lia.
    replace (USER_STACK_TOP - x - len) with (USER_STACK_TOP - (x + len)) in * by lia. exists m1. split; [done|]. split; [done|]. split; [done|].
    replace (Z.to_nat len) with (length (strings ss)) by lia. split; [done|]. eapply touched_trans; [exact T|exact T1|done|].
    intros i [Hi|Hi]; [left|right]; ranges.
Qed.

(** What a step that has [touched] other addresses leaves in place. *)
Ltac through T := apply (touched_bytes _ _ _ _ _ T); [rewrite ?length_w32, ?length_words, ?length_places; ranges|].

(** The three results, piece by piece. *)
Lemma pieces m' (la := Z.of_nat (length (strings args))) (le := Z.of_nat (length (strings envs))) (kt := pages + 16384 - Z.of_nat (length block)) :
  bytes_at m' kt (file ++ [EOS]) → bytes_at m' (pages + 16384 - (le + la)) (strings args) → bytes_at m' (pages + 16384 - le) (strings envs) →
  bytes_at m' argvk (w32 base) → bytes_at m' (argvk + 4) (w32s (places (USER_STACK_TOP - (le + la)) args)) → bytes_at m' (argvk + 4 * argc) (w32 NULL) →
  bytes_at m' (argvk + 4 * (argc + 1)) (w32s (places (USER_STACK_TOP - le) envs)) → bytes_at m' (argvk + (4 * (argc + 1) + 4 * envc)) (w32 NULL) →
  bytes_at m' kt block ∧ bytes_at m' argvk arg_words ∧ bytes_at m' (argvk + 4 * (argc + 1)) env_words.
Proof.
  intros H1 H2 H3 H4 H5 H6 H7 H8. destruct block_parts as (Eb & _). fold la le in Eb.
  assert (Z.of_nat (length (file ++ [EOS])) = Z.of_nat (length file) + 1) as Ef by (rewrite length_app; cbn; lia).
  assert (Z.of_nat (length (strings (file :: args))) = Z.of_nat (length file) + 1 + la) as Ea.
  { change (file :: args) with ([file] ++ args). rewrite strings_app, length_app, Nat2Z.inj_add, length_strings_one. lia. }
  split; [|split].
  - unfold block. apply bytes_at_app. change (file :: args) with ([file] ++ args) at 1. rewrite strings_app, strings_one. rewrite Ea. split.
    + apply bytes_at_app. split; [done|]. rewrite Ef. by replace (kt + (Z.of_nat (length file) + 1)) with (pages + 16384 - (le + la)) by lia.
    + by replace (kt + (Z.of_nat (length file) + 1 + la)) with (pages + 16384 - le) by lia.
  - unfold arg_words. cbn [places]. rewrite words_app, words_one. change (base :: ?l) with ([base] ++ l). rewrite words_app, words_one.
    apply bytes_at_app. rewrite length_app, length_words, length_places, length_w32. split; [apply bytes_at_app; split; [done|]|].
    + rewrite length_w32. by replace (base + Z.of_nat (length file) + 1) with (USER_STACK_TOP - (le + la)) by (unfold base; lia).
    + by replace (argvk + Z.of_nat (4 + 4 * length args)) with (argvk + 4 * argc) by (unfold argc; lia).
  - unfold env_words. rewrite Ea, words_app, words_one. replace (base + _) with (USER_STACK_TOP - le) by (unfold base; lia). apply bytes_at_app.
    rewrite length_words, length_places. split; [done|]. by replace (argvk + 4 * (argc + 1) + Z.of_nat (4 * length envs)) with (argvk + (4 * (argc + 1) + 4 * envc)) by (unfold envc; lia).
Qed.

(** The two arrays of strings, the program's name and its address. *)
Lemma build_strings_Ok (kt := pages + 16384 - Z.of_nat (length block)) :
  ∃ m', build_strings fuel pages argvk filename argv envp m = Ok ((argc, envc, kt), m') ∧ touched area m m' ∧
    bytes_at m' kt block ∧ bytes_at m' argvk arg_words ∧ bytes_at m' (argvk + 4 * (argc + 1)) env_words.
Proof.
  pose proof R as [Hfile [ps Hargs] [qs Henvs] Hr1 Hr2 Hap (Hf & Hfa & Hfe) Hfit Hptr]. destruct block_parts as (Eb & Hb & He & Ha).
  apply Forall_cons in Hf as [Hff Hf]. apply Forall_app in Hf as [Hfs Hfes].
  unfold build_strings. rewrite (st_bind_eq _ _ _ _ _ (count_argv_Ok m argv ps args Hargs Hfa)), (st_bind_eq _ _ _ _ _ (count_argv_Ok m envp qs envs Henvs Hfe)).
  fold argc envc. assert (4 * (argc + envc + 2) <= 4096) as Hp by (unfold argc, envc; lia). set (la := Z.of_nat (length (strings args))) in *. set (le := Z.of_nat (length (strings envs))) in *.
  destruct (st_array_Ok m (4 * argc) NULL (touched_refl _ _) ltac:(lia) ltac:(lia)) as (m1 & E1 & T1 & A1 & B1). rewrite (st_bind_eq _ _ _ _ _ E1).
  destruct (st_array_Ok m1 (4 * (argc + 1) + 4 * envc) NULL A1 ltac:(lia) ltac:(lia)) as (m2 & E2 & T2 & A2 & B2).
  replace (argvk + 4 * (argc + 1) + 4 * envc) with (argvk + (4 * (argc + 1) + 4 * envc)) by lia. rewrite (st_bind_eq _ _ _ _ _ E2).
  destruct (copy_area_Ok m2 envp qs envs 0 (4 * (argc + 1)) A2 Henvs Hfes ltac:(lia) ltac:(lia) ltac:(lia) ltac:(unfold envc in *; lia)) as (m3 & E3 & S3 & P3 & T3 & A3).
  rewrite !Z.sub_0_r, !Z.add_0_l in *. fold le in E3, S3, P3, T3. replace (Z.to_nat envc) with (length envs) by (unfold envc; lia). change (4 * PAGE_SIZE) with 16384. rewrite (st_bind_eq _ _ _ _ _ E3). cbn beta iota.
  destruct (copy_area_Ok m3 argv ps args le 4 A3 Hargs Hfs ltac:(lia) ltac:(lia) ltac:(lia) ltac:(unfold argc in *; lia)) as (m4 & E4 & S4 & P4 & T4 & A4).
  fold la in E4, S4, P4, T4. rewrite Nat2Z.id. rewrite (st_bind_eq _ _ _ _ _ E4). cbn beta iota.
  destruct (copy_string_Ok fuel buffers m4 filename file kt) as (L5 & E5 & T5 & B5).
  { by apply (string_clear_touched buffers area m _ _ _ A4 area_buffers). }
  { done. }
  { intros i Hi. left. ranges. }
  { apply (touched_room area m); [done|]. intros i Hi. apply Hr1. lia. }
  rewrite (st_bind_eq _ _ _ _ _ L5). replace (pages + 16384 - (le + la) - (Z.of_nat (length file) + 1)) with kt by lia. rewrite (st_bind_eq _ _ _ _ _ E5).
  set (m5 := write kt (file ++ [EOS]) m4) in *.
  assert (touched area m m5) as A5 by (eapply touched_trans; [exact A4|exact T5|done|intros i Hi; left; ranges]).
  replace (USER_STACK_TOP - (le + la) - (Z.of_nat (length file) + 1)) with base by (unfold base; lia). rewrite u32_small by (unfold base, USER_STACK_TOP, KERNEL_VADDR_OFFSET; lia).
  destruct (st_array_Ok m5 0 base A5 ltac:(lia) ltac:(lia)) as (m6 & E6 & T6 & A6 & B6). rewrite !Z.add_0_r in *. rewrite (st_bind_eq _ _ _ _ _ E6).
  exists m6. split; [done|]. split; [done|].
  assert (Z.of_nat (length (file ++ [EOS])) = Z.of_nat (length file) + 1) as Ef by (rewrite length_app; cbn; lia).
  assert (Z.of_nat (length args) = argc - 1 ∧ Z.of_nat (length envs) = envc) as [Ela Ele] by (unfold argc, envc; lia).
  apply pieces; fold la le; fold kt.
  - by through T6.
  - through T6. through T5. done.
  - through T6. through T5. through T4. done.
  - done.
  - through T6. through T5. done.
  - through T6. through T5. through T4. through T3. by through T2.
  - through T6. through T5. through T4. done.
  - through T6. through T5. through T4. by through T3.
Qed.

(** The arrays and the number of arguments, below the strings. *)
Lemma build_args_Ok (img := stack_image USER_STACK_TOP (file :: args) envs) :
  ∃ m', build_args fuel pages argvk filename argv envp m = Ok (pages + 16384 - Z.of_nat (length img), m') ∧ touched buffers m m' ∧
    bytes_at m' (pages + 16384 - Z.of_nat (length img)) img.
Proof.
  pose proof R as [Hfile _ _ Hr1 Hr2 Hap _ Hfit Hptr]. destruct block_parts as (Eb & Hb & He & Ha). destruct sizes as (Sa & Se & Ei & Si). fold img in Ei, Si.
  destruct build_strings_Ok as (m1 & E1 & A1 & B1 & B2 & B3). unfold build_args. rewrite (st_bind_eq _ _ _ _ _ E1). cbn beta iota.
  set (kt := pages + 16384 - Z.of_nat (length block)) in *. assert (4 * (argc + envc + 2) <= 4096) as Hp by (unfold argc, envc; lia).
  assert (∀ p n, pages <= p → p + Z.of_nat n <= pages + 16384 → incl (range p n) buffers) as HB by (intros p n H1 H2 i Hi; left; ranges).
  pose proof (touched_incl _ _ _ _ A1 area_buffers) as T1.
  set (k2 := kt - (envc + 1) * 4). replace (Z.to_nat ((envc + 1) * 4)) with (length env_words) by lia.
  rewrite (st_bind_eq _ _ m1 () (write k2 env_words m1)).
  2: { apply memcpy_spec; [done| |ranges]. apply (touched_room buffers m); [done|]. intros i Hi. apply Hr1. lia. }
  set (m2 := write k2 env_words m1). pose proof (touched_write k2 env_words m1) as T2. fold m2 in T2.
  set (k3 := k2 - (argc + 1) * 4). replace (Z.to_nat ((argc + 1) * 4)) with (length arg_words) by lia.
  assert (bytes_at m2 argvk arg_words) as B2' by (through T2; done).
  rewrite (st_bind_eq _ _ m2 () (write k3 arg_words m2)).
  2: { apply memcpy_spec; [done| |ranges]. apply (touched_room _ m1 _ _ _ T2), (touched_room buffers m); [done|]. intros i Hi. apply Hr1. lia. }
  set (m3 := write k3 arg_words m2). pose proof (touched_write k3 arg_words m2) as T3. fold m3 in T3. set (k4 := k3 - 4).
  assert (room m3 k4 4) as R4 by (apply (touched_room _ m2 _ _ _ T3), (touched_room _ m1 _ _ _ T2), (touched_room buffers m); [done|]; intros i Hi; apply Hr1; lia).
  rewrite (st_bind_eq _ _ _ _ _ (st32_Ok m3 k4 argc R4)). set (m4 := write k4 (w32 argc) m3). pose proof (touched_write k4 (w32 argc) m3) as T4. fold m4 in T4. rewrite length_w32 in T4.
  replace (pages + 16384 - Z.of_nat (length img)) with k4 by lia. exists m4. split; [|split].
  - rewrite (st_bind_eq (sassert _) _ m4 () m4); [done|]. unfold sassert. by destruct (Z.ltb_spec pages k4); [|lia].
  - eapply touched_trans; [|exact T4|done|apply HB; lia]. eapply touched_trans; [|exact T3|done|apply HB; lia]. eapply touched_trans; [exact T1|exact T2|done|apply HB; lia].
  - rewrite Ei. apply bytes_at_app. split; [apply write_bytes, w32_chars|]. rewrite length_w32. replace (k4 + Z.of_nat 4) with k3 by lia.
    apply bytes_at_app. split; [through T4; apply write_bytes, words_chars|]. replace (k3 + Z.of_nat (length arg_words)) with k2 by lia.
    apply bytes_at_app. split; [through T4; through T3; apply write_bytes, words_chars|]. replace (k2 + Z.of_nat (length env_words)) with kt by lia. through T4. through T3. by through T2.
Qed.
End stack.

(** ** Properties *)

(** C30. [execve] hands its arguments to the program.  From strings and arrays anywhere outside the
    kernel's buffers, [set_env_and_clean_fork] makes in the kernel's pages an image of the new
    stack, writing nowhere else; whatever happens to the old address space, once the image is
    copied below [USER_STACK_TOP] the program finds at its stack pointer the number of its
    arguments, the array of the arguments - the name of the program first - and that of the
    environment, each string in place and each array ended by a null pointer. *)
Theorem arguments_reach_program fuel pages argvk m filename argv envp file args envs :
  args_ready fuel pages argvk m filename argv envp file args envs →
  ∃ ktop m1, build_args fuel pages argvk filename argv envp m = Ok (ktop, m1) ∧ pages < ktop ∧ touched (buffers pages argvk) m m1 ∧
    let len := pages + 4 * PAGE_SIZE - ktop in let utop := USER_STACK_TOP - len in
    ∀ m2, (∀ i, ktop <= i < ktop + len → m2 !! i = m1 !! i) → room m2 utop (Z.to_nat len) → apart ktop (Z.to_nat len) utop (Z.to_nat len) →
      ∃ m3, memcpy utop ktop (Z.to_nat len) m2 = Ok ((), m3) ∧ program_sees m3 utop (file :: args) envs.
Proof.
  intros R. destruct (build_args_Ok fuel pages argvk m filename argv envp file args envs R) as (m1 & E & T & B). pose proof (ar_fits _ _ _ _ _ _ _ _ _ _ R) as Hfit.
  set (img := stack_image USER_STACK_TOP (file :: args) envs) in *. exists (pages + 16384 - Z.of_nat (length img)), m1. split; [done|]. split; [lia|]. split; [done|].
  cbv zeta. change (4 * PAGE_SIZE) with 16384. replace (pages + 16384 - (pages + 16384 - Z.of_nat (length img))) with (Z.of_nat (length img)) by lia. rewrite Nat2Z.id.
  intros m2 Hm2 Hr Hap. eexists. split; [apply memcpy_spec; [|done|done]; by apply (bytes_at_frame m1)|].
  assert (Forall (Forall (λ c, is_char c ∧ c ≠ EOS)) ((file :: args) ++ envs)) as Hc.
  { destruct R as [Hf [ps Ha] [qs He] _ _ _ _ _ _]. apply Forall_app. split; [constructor; [exact (proj2 (proj1 Hf))|]|]; by eapply string_array_chars. }
  apply image_sees; [by apply write_bytes, image_chars|done|]. unfold img, USER_STACK_TOP, KERNEL_VADDR_OFFSET in *. lia.
Qed.

(** ** Example: [/bin/ls a bc] with the environment [HOME=/] *)

Definition blank (p n : Z) : mem := list_to_map ((λ a, (a, 0)) <$> seqZ p n).

Lemma blank_room p n : room (blank p n) p (Z.to_nat n).
Proof.
  intros i Hi. exists 0. apply elem_of_list_to_map_1.
  - rewrite <- list_fmap_compose. apply (NoDup_fmap_2 (λ x, x)), NoDup_seqZ.
  - apply (list_elem_of_fmap_2 (λ x, (x, 0))), elem_of_seqZ. lia.
Qed.

Definition demo_low : mem :=
  write 100 [47; 98; 105; 110; 47; 108; 115; 0] (write 120 [97; 0] (write 130 [98; 99; 0] (write 140 [72; 79; 77; 69; 61; 47; 0]
  (write 200 (w32s [120; 130; 0]) (write 220 (w32s [140; 0]) (blank 100 200)))))).
Definition demo_mem : mem := demo_low ∪ (blank 20000 16384 ∪ blank 40000 4096).

Lemma room_union_l m m' p n : room m p n → room (m ∪ m') p n.
Proof. intros H i Hi. apply lookup_union_is_Some. left. by apply H. Qed.
Lemma room_union_r m m' p n : room m' p n → room (m ∪ m') p n.
Proof. intros H i Hi. apply lookup_union_is_Some. right. by apply H. Qed.
Lemma bytes_union_l m m' p l : bytes_at m p l → bytes_at (m ∪ m') p l.
Proof. revert p. induction l as [|c l IH]; intros p; [done|]. intros [H1 H2]. split; [by apply lookup_union_Some_l|by apply IH]. Qed.

Definition check_bytes (m : mem) (p : Z) (l : list Z) : bool := forallb (λ x, bool_decide (m !! (p + Z.of_nat x.1) = Some x.2)) (zip (seq 0 (length l)) l).

Lemma check_bytes_Ok m p l : check_bytes m p l = true → bytes_at m p l.
Proof.
  intros H. unfold check_bytes in H. rewrite forallb_forall in H. assert (∀ i c, l !! i = Some c → m !! (p + Z.of_nat i) = Some c) as HL.
  { intros i c Hi. pose proof (lookup_lt_Some _ _ _ Hi). specialize (H (i, c)). cbn [fst snd] in H. rewrite bool_decide_eq_true in H. apply H.
    apply list_elem_of_In, (list_elem_of_lookup_2 _ i). apply lookup_zip_with_Some. exists i, c. split; [done|]. split; [|done]. by rewrite lookup_seq_lt. }
  clear H. revert p HL. induction l as [|c l IH]; intros p HL; [done|]. split; [by rewrite <- (Z.add_0_r p); apply (HL 0%nat)|].
  apply IH. intros i x Hi. replace (p + 1 + Z.of_nat i) with (p + Z.of_nat (S i)) by lia. by apply HL.
Qed.

Lemma demo_bytes p l : check_bytes demo_low p l = true → bytes_at demo_mem p l.
Proof. intros H. by apply bytes_union_l, check_bytes_Ok. Qed.

Lemma demo_string p s :
  (100 <=? p) && (p + Z.of_nat (length s) <? 300) && forallb (λ c, bool_decide (is_char c ∧ c ≠ EOS)) s && check_bytes demo_low p (s ++ [EOS]) = true →
  string_clear (buffers 20000 40000) demo_mem p s.
Proof.
  intros [[[H1 H2]%andb_true_iff H3]%andb_true_iff H4]%andb_true_iff. apply Z.leb_le in H1. apply Z.ltb_lt in H2.
  split; [split; [by apply demo_bytes|]|split; [|lia]].
  - apply Forall_forall. intros c Hc. rewrite forallb_forall in H3. specialize (H3 c). rewrite bool_decide_eq_true in H3. by apply H3, list_elem_of_In.
  - intros i Hi [Hb|Hb]; ranges.
Qed.

Lemma demo_array a ps ss :
  (100 <=? a) && (a + 4 * Z.of_nat (length ps) <? 290) && check_bytes demo_low a (w32s (ps ++ [0])) = true →
  Forall2 (string_clear (buffers 20000 40000) demo_mem) ps ss → string_array 20000 40000 demo_mem a ps ss.
Proof.
  intros [[H1 H2]%andb_true_iff H3]%andb_true_iff H. apply Z.leb_le in H1. apply Z.ltb_lt in H2.
  apply an_array; [lia|by apply demo_bytes| |done]. intros i Hi [Hb|Hb]; ranges.
Qed.

Lemma args_demo_ready : args_ready 100 20000 40000 demo_mem 100 200 220 [47; 98; 105; 110; 47; 108; 115] [[97]; [98; 99]] [[72; 79; 77; 69; 61; 47]].
Proof.
  split.
  - apply demo_string. vm_compute. reflexivity.
  - exists [120; 130]. apply demo_array; [vm_compute; reflexivity|]. do 2 (apply List.Forall2_cons; [apply demo_string; vm_compute; reflexivity|]). apply List.Forall2_nil.
  - exists [140]. apply demo_array; [vm_compute; reflexivity|]. apply List.Forall2_cons; [apply demo_string; vm_compute; reflexivity|]. apply List.Forall2_nil.
  - apply room_union_r, room_union_l, blank_room.
  - apply room_union_r, room_union_r, blank_room.
  - left. lia.
  - split; [|cbn; lia]. repeat constructor; cbn; lia.
  - vm_compute. reflexivity.
  - cbn. lia.
Qed.

Lemma arguments_reach_program_witness :
  ∃ ktop m1, build_args 100 20000 40000 100 200 220 demo_mem = Ok (ktop, m1) ∧ 20000 < ktop ∧ touched (buffers 20000 40000) demo_mem m1.
Proof.
  destruct (arguments_reach_program 100 20000 40000 demo_mem 100 200 220 _ _ _ args_demo_ready) as (ktop & m1 & E & H & T & _).
  exists ktop, m1. split; [exact E|]. split; [exact H|exact T].
Defined.
