(* ===== verification/Exec.v ===== *)
(** * Loading a program (src/kernel/execve.c)

    The file's headers, its segments, and the whole of [sys_execve]: over descriptors and files
    (Fileops), the page tables of the task (Paging) and its memory, of which the kernel's part
    stays.  The bytes of the address space are the store [user] of the file system; the tables
    carry the mappings.  A page that is linked has the bytes its frame happened to hold: [junk]. *)

From stdpp Require Import gmap.
From S2P Require Import Prelude Bitmap KString KStdlib Task Fd Pages Paging Blocks Inode Bmap Namei Files Fileops Args.

Definition USER_EXEC_ADDR : Z := 0x08048000.
Definition TASK_NAME_LEN : Z := 16.
Definition LIGHTOS_MAGIC : Z := 0x20240522.
Definition USER_CODE_SELECTOR : Z := 35.
Definition USER_DATA_SELECTOR : Z := 43.

Record xs := Xs { x_os : os; x_mm : mm; x_text : Z; x_data : Z; junk : Z → Z }.
Definition XM := ST xs.
Definition set_os (o : os) (s : xs) : xs := Xs o (x_mm s) (x_text s) (x_data s) (junk s).
Definition set_mm (m : mm) (s : xs) : xs := Xs (x_os s) m (x_text s) (x_data s) (junk s).
Definition set_text (v : Z) (s : xs) : xs := Xs (x_os s) (x_mm s) v (x_data s) (junk s).
Definition set_data (v : Z) (s : xs) : xs := Xs (x_os s) (x_mm s) (x_text s) v (junk s).
Definition set_end (v : Z) (t : task_mm) : task_mm := TaskMM (t_pde t) (t_vmap t) v (t_brk t) (Paging.t_uid t).

Definition on_os {A} (m : OM A) : XM A := λ s, match m (x_os s) with Ok (a, o) => Ok (a, set_os o s) | Stop e => Stop e end.
Definition on_mm {A} (m : Paging.M A) : XM A := λ s, match m (x_mm s) with Ok (a, c) => Ok (a, set_mm c s) | Stop e => Stop e end.
Definition on_file {A} (m : FM A) : XM A := on_os (on_fs m).
Definition on_mem {A} (m : KString.M A) : XM A := on_file (upd_user m).

(** ** Memory that comes and goes *)

Definition page_bytes (j : Z → Z) (v : Z) : mem := list_to_map ((λ a, (a, s8 (j a))) <$> seqZ (GET_PAGE v) PAGE_SIZE).
Definition map_bytes (v : Z) : XM unit := s ← get_st; on_file (modify_st (λ f, set_user (user f ∪ page_bytes (junk s) v) f)).
Definition link_page (v : Z) : XM unit := on_mm (link_user_page v);; map_bytes v.

Definition ld16 (p : Z) : KString.M Z := a ← ld p; b ← ld (p + 1); mret (u8 a + 256 * u8 b).
Definition mem16 (p : Z) : XM Z := on_mem (ld16 p).
Definition mem32 (p : Z) : XM Z := on_mem (ld32 p).

(** ** The file's headers *)

Definition e_type : Z := 16.
Definition e_machine : Z := 18.
Definition e_version : Z := 20.
Definition e_entry : Z := 24.
Definition e_phoff : Z := 28.
Definition e_phentsize : Z := 42.
Definition e_phnum : Z := 44.
Definition sizeof_Ehdr : Z := 52.

Definition p_type : Z := 0.
Definition p_offset : Z := 4.
Definition p_vaddr : Z := 8.
Definition p_filesz : Z := 16.
Definition p_memsz : Z := 20.
Definition p_flags : Z := 24.
Definition p_align : Z := 28.
Definition sizeof_Phdr : Z := 32.

Definition ET_EXEC : Z := 2.
Definition EM_386 : Z := 3.
Definition EV_CURRENT : Z := 1.
Definition PT_LOAD : Z := 1.
Definition PF_X : Z := 1.
Definition PF_W : Z := 2.
Definition PF_R : Z := 4.

Definition ident : list Z := [127; 69; 76; 70; 1; 1; 1].

Definition elf_validate (ehdr : Z) : KString.M bool :=
  id ← copy_in 7 ehdr;
  if negb (bool_decide (id = ident)) then mret false
  else
    v ← ld16 (ehdr + e_type);
    if negb (v =? ET_EXEC) then mret false
    else
      v ← ld16 (ehdr + e_machine);
      if negb (v =? EM_386) then mret false
      else
        v ← ld32 (ehdr + e_version);
        if negb (v =? EV_CURRENT) then mret false
        else
          v ← ld16 (ehdr + e_phentsize);
          mret (v =? sizeof_Phdr).

(** ** Segments *)

Fixpoint link_loop (n : nat) (addr : Z) : XM unit :=
  match n with
  | O => mret ()
  | S n =>
      sassert ((USER_EXEC_ADDR <=? addr) && (addr <? USER_MMAP_ADDR));;
      link_page addr;;
      link_loop n (u32 (addr + PAGE_SIZE))
  end.

Definition protect_page (addr : Z) : Paging.M unit :=
  pte ← get_pte addr;
  entry ← load_entry pte;
  store_entry pte (set_readonly true (set_write false entry));;
  kunmap (GET_PAGE pte).
Fixpoint protect_loop (n : nat) (addr : Z) : Paging.M unit :=
  match n with O => mret () | S n => protect_page addr;; protect_loop n (u32 (addr + PAGE_SIZE)) end.

(** [load_segment], the header being at [phdr] in the memory that is written. *)
Definition load_segment (i : nat) (phdr : Z) : XM unit :=
  align ← mem32 (phdr + p_align);
  sassert (align =? 0x1000);;
  vaddr ← mem32 (phdr + p_vaddr);
  sassert (Z.land vaddr 0xfff =? 0);;
  memsz ← mem32 (phdr + p_memsz);
  filesz ← mem32 (phdr + p_filesz);
  count ← lift_st (div_round_up (if memsz <? filesz then filesz else memsz) PAGE_SIZE);
  link_loop (Z.to_nat count) vaddr;;
  filesz ← mem32 (phdr + p_filesz);
  offset ← mem32 (phdr + p_offset);
  on_file (inode_read i vaddr filesz (s32 offset));;
  filesz ← mem32 (phdr + p_filesz);
  memsz ← mem32 (phdr + p_memsz);
  (if filesz <? memsz then on_mem (memset (vaddr + filesz) 0 (Z.to_nat (memsz - filesz))) else mret ());;
  flags ← mem32 (phdr + p_flags);
  (if Z.land flags PF_W =? 0 then on_mm (protect_loop (Z.to_nat count) vaddr) else mret ());;
  flags ← mem32 (phdr + p_flags);
  (if flags =? Z.lor PF_R PF_X then modify_st (set_text vaddr)
   else if flags =? Z.lor PF_R PF_W then modify_st (set_data vaddr) else mret ());;
  on_mm (modify_st (λ m, set_cur (set_end (u32 (vaddr + count * PAGE_SIZE)) (cur m)) m)).

(** The loop over the program headers; [e_phnum] is read again in every turn.  As it has 16 bits
    65536 turns are enough. *)
Fixpoint segment_loop (fuel : nat) (i : nat) (ehdr turn ptr : Z) : XM unit :=
  match fuel with
  | O => stop_st NoFuel
  | S fuel =>
      n ← mem16 (ehdr + e_phnum);
      if n <=? turn then mret ()
      else
        ty ← mem32 (ptr + p_type);
        if negb (ty =? PT_LOAD) then segment_loop fuel i ehdr (turn + 1) ptr
        else load_segment i ptr;; segment_loop fuel i ehdr (turn + 1) (ptr + sizeof_Phdr)
  end.
Definition max_turns : nat := Z.to_nat 65536.

(** The answer is the entry point, or [EOF]. *)
Definition load_elf (i : nat) : XM Z :=
  link_page USER_EXEC_ADDR;;
  n ← on_file (inode_read i USER_EXEC_ADDR sizeof_Ehdr 0);
  sassert (n =? sizeof_Ehdr);;
  let ehdr := USER_EXEC_ADDR in
  ok ← on_mem (elf_validate ehdr);
  if negb ok then mret EOFu
  else
    let phdr := USER_EXEC_ADDR + sizeof_Ehdr in
    num ← mem16 (ehdr + e_phnum);
    size ← mem16 (ehdr + e_phentsize);
    off ← mem32 (ehdr + e_phoff);
    on_file (inode_read i phdr (u32 (num * size)) (s32 off));;
    segment_loop (S max_turns) i ehdr 0 phdr;;
    mem32 (ehdr + e_entry).

(** ** The old program goes *)

Section exec.
Context (fuel : nat).

Fixpoint close_loop (n : nat) (fd : Z) : XM unit :=
  match n with
  | O => mret ()
  | S n =>
      o ← on_os (file_of fd);
      match o with Some _ => on_os (close fd) | None => mret () end;;
      close_loop n (fd + 1)
  end.

(** [free_pte] leaves no user page: what is left of the memory is the kernel's. *)
Definition fork_clean : XM unit :=
  t ← on_os (on_kern get_current);
  on_file (iput (if iexec t =? 0 then None else Some (inode_of (iexec t))));;
  close_loop (Z.to_nat (TASK_FILE_NR - 3)) 3;;
  on_mm free_pte;;
  on_file (modify_st (λ f, set_user (filter (λ x, KERNEL_VADDR_OFFSET <= x.1) (user f)) f)).

(** The faults of a copy to the pages of the new stack: the first address touched in each. *)
Fixpoint fault_in (n : nat) (v : Z) : XM unit :=
  match n with
  | O => mret ()
  | S n =>
      s ← get_st;
      (if bool_decide (is_Some (user (fsys (x_os s)) !! v)) then mret ()
       else
         r ← on_mm (page_fault v 2);
         match r with Resumed => map_bytes v | Exited _ => stop_st Panic end);;
      fault_in n (GET_PAGE v + PAGE_SIZE)
  end.

(** The answer is the new stack pointer. *)
Definition set_env_and_clean_fork (filename argv envp : Z) : XM Z :=
  pages ← on_mm (on_frames (alloc_kpage 4));
  argvk ← on_mm (on_frames (alloc_kpage 1));
  ktop ← on_mem (build_args fuel pages argvk filename argv envp);
  fork_clean;;
  let len := pages + 4 * PAGE_SIZE - ktop in
  let utop := USER_STACK_TOP - len in
  fault_in (Z.to_nat (IDX (USER_STACK_TOP - 1) - IDX utop + 1)) utop;;
  on_mem (memcpy utop ktop (Z.to_nat len));;
  on_mm (on_frames (free_kpage argvk 1));;
  on_mm (on_frames (free_kpage pages 4));;
  mret utop.

(** [intr_frame_t], with which the task enters the program; [vector0] is left as it is. *)
Record iframe := IFrame {
  if_vector : Z; if_edi : Z; if_esi : Z; if_ebp : Z; if_esp_dummy : Z; if_ebx : Z; if_edx : Z; if_ecx : Z; if_eax : Z;
  if_gs : Z; if_fs : Z; if_es : Z; if_ds : Z; if_error : Z; if_eip : Z; if_cs : Z; if_eflags : Z; if_esp : Z; if_ss : Z
}.
Definition entry_frame (entry utop : Z) : iframe :=
  IFrame 0x20 1 2 utop 4 5 0 7 8 0 USER_DATA_SELECTOR USER_DATA_SELECTOR USER_DATA_SELECTOR LIGHTOS_MAGIC entry USER_CODE_SELECTOR
    (Z.lor 2 (Z.shiftl 1 9)) utop USER_DATA_SELECTOR.

Inductive exec_end := Returned (ret : Z) | Entered (f : iframe).

(** [sys_execve]; [name] is the address of the task's name. *)
Definition sys_execve (name filename argv envp : Z) : XM exec_end :=
  o ← on_file (namei fuel filename);
  match o with
  | None => on_file (iput None);; mret (Returned EOF_)
  | Some i =>
      mode ← on_file (dget16 i MODE);
      if negb (ISFILE mode) then on_file (iput (Some i));; mret (Returned EOF_)
      else
        ok ← on_file (permission i P_EXEC);
        if negb ok then on_file (iput (Some i));; mret (Returned EOF_)
        else
          on_mem (strncpy name filename TASK_NAME_LEN);;
          utop ← set_env_and_clean_fork filename argv envp;
          entry ← load_elf i;
          if entry =? EOFu then on_file (iput (Some i));; mret (Returned EOF_)
          else
            on_mm (modify_st (λ m, set_cur (set_brk (t_end (cur m)) (cur m)) m));;
            on_os (on_kern (g ← get_st; upd_task (current g) (set_iexec (ptr i))));;
            mret (Entered (entry_frame entry utop))
  end.
End exec.

(** ** Linking and protecting pages *)

Definition pages_from (v : Z) (n : nat) (x : Z) : Prop := v <= x < v + 4096 * Z.of_nat n.

(** The pages of a range, one after the other. *)
Fixpoint with_pages (j : Z → Z) (n : nat) (v : Z) (m : mem) : mem :=
  match n with O => m | S n => with_pages j n (u32 (v + PAGE_SIZE)) (m ∪ page_bytes j v) end.

(** The state with other tables and another memory. *)
Definition remap (m : mm) (c : mem) (s : xs) : xs := set_os (set_fsys (set_user c (fsys (x_os s))) (x_os s)) (set_mm m s).

(** Two pages are free at most. *)
Definition exhausted (m : mm) : Prop :=
  ∀ j k, 4096 <= j < total_pages (fr m) → 4096 <= k < total_pages (fr m) → count_at (fr m) j = 0 → count_at (fr m) k = 0 → j = k.

Lemma link_page_Ok s v m' : link_user_page v (x_mm s) = Ok ((), m') →
  link_page v s = Ok ((), remap m' (user (fsys (x_os s)) ∪ page_bytes (junk s) v) s).
Proof. intros H. unfold link_page. rewrite (st_bind_eq _ _ s () (set_mm m' s)) by (unfold on_mm; by rewrite H). done. Qed.

Lemma pages_from_S v n x : v mod 4096 = 0 → pages_from v (S n) x ↔ x / 4096 = v / 4096 ∨ pages_from (v + 4096) n x.
Proof.
  intros Hv. unfold pages_from. pose proof (Z.div_mod v 4096 ltac:(lia)). pose proof (Z.div_mod x 4096 ltac:(lia)). pose proof (Z.mod_pos_bound x 4096 ltac:(lia)). lia.
Qed.

(** What [link_user_page] may leave at an address: the old entry, or one the user may write. *)
Definition linked (m m' : mm) (x : Z) : Prop :=
  ∃ e, user_entry m' x = Some e ∧ (user_entry m x = Some e ∨ (user_entry m x = None ∧ e = Paging.set_user true (entry_init (index e)))).

Lemma same_page_entry m x v : 0 <= x < KERNEL_VADDR_OFFSET → 0 <= v < KERNEL_VADDR_OFFSET → x / 4096 = v / 4096 → user_entry m x = user_entry m v.
Proof. intros Hx Hv E. apply (walk_eq x v Hx Hv) in E as [E1 E2]. unfold user_entry. by rewrite E1, E2. Qed.

Lemma link_loop_Ok n : ∀ v s, mm_ok (x_mm s) → 0 < idle (kmap_pool (x_mm s)) → USER_EXEC_ADDR <= v → v mod 4096 = 0 → v + 4096 * Z.of_nat n <= USER_MMAP_ADDR →
  (∃ m', link_loop n v s = Ok ((), remap m' (with_pages (junk s) n v (user (fsys (x_os s)))) s) ∧ mm_ok m' ∧ cur m' = cur (x_mm s) ∧
     idle (kmap_pool (x_mm s)) <= idle (kmap_pool m') ∧ (∀ x, pages_from v n x → linked (x_mm s) m' x) ∧
     ∀ x, 0 <= x < KERNEL_VADDR_OFFSET → ¬ pages_from v n x → user_entry m' x = user_entry (x_mm s) x) ∨
  (link_loop n v s = Stop Panic ∧ ∃ k s', (k < n)%nat ∧ link_loop k v s = Ok ((), s') ∧ exhausted (x_mm s')).
Proof.
  induction n as [|n IH]; intros v s O Hid Hv Hal Hend; cbn [link_loop with_pages].
  { left. exists (x_mm s). split_and!; try done. { destruct s as [o m t d j]. destruct o as [g f p l]. by destruct f. } intros x Hx. unfold pages_from in Hx. lia. }
  unfold USER_EXEC_ADDR, USER_MMAP_ADDR in *.
  assert (∀ A (k : XM A), (sassert ((134512640 <=? v) && (v <? 268435456));; k) s = k s) as Hg.
  { intros. unfold sassert, mbind, st_bind. by destruct (Z.leb_spec 134512640 v), (Z.ltb_spec v 268435456); [|lia..]. }
  assert (0 <= v < KERNEL_VADDR_OFFSET) as Hvk by (unfold KERNEL_VADDR_OFFSET; lia). pose proof (pde_idx_range v Hvk). pose proof (pte_idx_range v).
  rewrite Hg. destruct (link_Ok (x_mm s) v O Hid Hvk) as [(m1 & e & E & O1 & C1 & Hid1 & He & _ & Hp & Hcase)|[E Hx]].
  2: { right. split; [unfold link_page, mbind, st_bind, on_mm; by rewrite E|]. exists 0%nat, s. split; [lia|]. split; [done|exact Hx]. }
  rewrite (st_bind_eq _ _ _ _ _ (link_page_Ok s v m1 E)). set (s1 := remap m1 _ s).
  assert (∀ x, 0 <= x < KERNEL_VADDR_OFFSET → x / 4096 ≠ v / 4096 → user_entry m1 x = user_entry (x_mm s) x) as Hoth.
  { intros x Hx Hne. rewrite !user_entry_pd. assert (pd_of m1 = pd_of (x_mm s)) as -> by (unfold pd_of; by rewrite C1).
    apply Hp; [by apply pde_idx_range|apply pte_idx_range|]. by rewrite walk_eq. }
  assert (linked (x_mm s) m1 v) as Hlv by (exists e; split; [done|destruct Hcase as [|(H1 & H2 & _)]; [by left|by right]]).
  change PAGE_SIZE with 4096. rewrite u32_small by lia.
  destruct (IH (v + 4096) s1 O1 ltac:(cbn; lia) ltac:(lia)) as [(m2 & E2 & O2 & C2 & Hid2 & Hl2 & Hr2)|(E2 & k & s' & Hk & Ek & Hx)].
  { rewrite Z.add_mod, Hal by lia. done. } { lia. }
  - left. exists m2. split_and!; [by rewrite E2|done|by rewrite C2|cbn in Hid2; lia| |].
    + intros x [Hx|Hx]%pages_from_S; [| |done].
      * assert (0 <= x < KERNEL_VADDR_OFFSET) as Hxk by (pose proof (Z.div_mod v 4096); pose proof (Z.div_mod x 4096); pose proof (Z.mod_pos_bound x 4096); unfold KERNEL_VADDR_OFFSET in *; lia).
        destruct Hlv as (e' & H1 & H2). exists e'. rewrite !(same_page_entry _ x v) by done. split; [|done].
        assert (user_entry m2 v = user_entry m1 v) as ->; [|done]. apply Hr2; [done|]. unfold pages_from. lia.
      * assert (0 <= x < KERNEL_VADDR_OFFSET ∧ x / 4096 ≠ v / 4096) as [Hxk Hne].
        { unfold pages_from, KERNEL_VADDR_OFFSET in *. pose proof (Z.div_mod v 4096). pose proof (Z.div_mod x 4096). pose proof (Z.mod_pos_bound x 4096). lia. }
        destruct (Hl2 x Hx) as (e' & H1 & H2). exists e'. split; [done|]. cbn in H2. by rewrite Hoth in H2.
    + intros x Hx Hn. rewrite pages_from_S in Hn by done. rewrite Hr2 by tauto. apply Hoth; [done|tauto].
  - right. split; [done|]. exists (S k), s'. split; [lia|]. split; [|done]. cbn [link_loop]. unfold USER_EXEC_ADDR, USER_MMAP_ADDR. rewrite Hg.
    rewrite (st_bind_eq _ _ _ _ _ (link_page_Ok s v m1 E)). change PAGE_SIZE with 4096. by rewrite u32_small by lia.
Qed.

Definition sealed (e : page_entry) : page_entry := set_readonly true (set_write false e).

Lemma entry_present m v e : user_entry m v = Some e → present e = true.
Proof.
  unfold user_entry, pte_of. destruct (table _ _ _); [|done]. cbv zeta. destruct (present (entry_of _ _ _)) eqn:E; [|done]. by intros [= <-].
Qed.

Lemma protect_Ok m v e : mm_ok m → 0 < idle (kmap_pool m) → 0 <= v < KERNEL_VADDR_OFFSET → user_entry m v = Some e →
  ∃ m', protect_page v m = Ok ((), m') ∧ mm_ok m' ∧ cur m' = cur m ∧ idle (kmap_pool m) <= idle (kmap_pool m') ∧
    user_entry m' v = Some (sealed e) ∧ ∀ x, 0 <= x < KERNEL_VADDR_OFFSET → x / 4096 ≠ v / 4096 → user_entry m' x = user_entry m x.
Proof.
  intros O Hid Hv He. pose proof (pde_idx_range v Hv) as Hd. pose proof (pte_idx_range v) as Hj. pose proof (entry_present _ _ _ He) as Hpr.
  destruct (get_pte_old m v e O Hid Hv He) as (i & t & m1 & E1 & Hi & M1 & Et & P1 & (S1 & S2 & S3) & Hid1 & El).
  pose proof (mo_tables _ O) as T. fold (pd_of m) in T. pose proof (ac_total _ (fk_acc _ (mo_frames _ O))).
  unfold protect_page. rewrite (st_bind_eq _ _ _ _ _ E1), (st_bind_eq _ _ _ _ _ El). fold (sealed e). rewrite get_page_kv by done.
  set (m2 := set_ram (poke (ram m1) t (PTE_IDX v) (sealed e)) m1).
  rewrite (st_bind_eq _ _ m1 () m2) by (apply store_entry_Ok; [rewrite S2; apply T|done..]).
  destruct (kunmap_Ok m2 i t) as (m3 & E3 & P3 & (R1 & R2 & R3) & Hid3 & _); [by apply (pool_same m1)|done|by apply (mapped_same m1)|].
  assert (pd_of m3 = pd_of m) as Epd by (unfold pd_of; rewrite R3; cbn; by rewrite S3).
  destruct (rewrite_pte_Ok (fr m) (ram m) (pd_of m) (PDE_IDX v) t (PTE_IDX v) e (sealed e) T ltac:(lia) Hd Hj Et He Hpr eq_refl) as [T3 Hnew].
  assert (∀ x, 0 <= x < KERNEL_VADDR_OFFSET → user_entry m3 x = if decide (PDE_IDX x = PDE_IDX v ∧ PTE_IDX x = PTE_IDX v) then Some (sealed e) else user_entry m x) as Hall.
  { intros x Hx. rewrite !user_entry_pd, Epd, R2. cbn [m2 ram set_ram]. rewrite S2. by rewrite (Hnew (PDE_IDX x) (PTE_IDX x) (pde_idx_range x Hx) (pte_idx_range x)). }
  exists m3. split; [done|]. split.
  { split; [rewrite R1; cbn; rewrite S1; apply O| |done]. rewrite R1, R2. cbn [m2 fr ram set_ram]. rewrite S1, S2. fold (pd_of m3). by rewrite Epd. }
  split; [rewrite R3; exact S3|]. split; [change (kmap_pool m2) with (kmap_pool m1) in Hid3; lia|]. split.
  - rewrite Hall by done. by rewrite decide_True.
  - intros x Hx Hne. rewrite Hall by done. rewrite decide_False; [done|]. by rewrite walk_eq.
Qed.

Lemma protect_loop_Ok n : ∀ v m, mm_ok m → 0 < idle (kmap_pool m) → 0 <= v → v mod 4096 = 0 → v + 4096 * Z.of_nat n <= USER_MMAP_ADDR →
  (∀ x, pages_from v n x → is_Some (user_entry m x)) →
  ∃ m', protect_loop n v m = Ok ((), m') ∧ mm_ok m' ∧ cur m' = cur m ∧
    (∀ x, pages_from v n x → user_entry m' x = sealed <$> user_entry m x) ∧
    ∀ x, 0 <= x < KERNEL_VADDR_OFFSET → ¬ pages_from v n x → user_entry m' x = user_entry m x.
Proof.
  induction n as [|n IH]; intros v m O Hid Hv Hal Hend Hl; cbn [protect_loop].
  { exists m. split_and!; try done. intros x Hx. unfold pages_from in Hx. lia. }
  unfold USER_MMAP_ADDR in *. assert (0 <= v < KERNEL_VADDR_OFFSET) as Hvk by (unfold KERNEL_VADDR_OFFSET; lia).
  destruct (Hl v) as [e He]; [unfold pages_from; lia|].
  destruct (protect_Ok m v e O Hid Hvk He) as (m1 & E1 & O1 & C1 & Hid1 & He1 & Ho1). rewrite (st_bind_eq _ _ _ _ _ E1).
  change PAGE_SIZE with 4096. rewrite u32_small by lia.
  assert (∀ x, pages_from (v + 4096) n x → 0 <= x < KERNEL_VADDR_OFFSET ∧ x / 4096 ≠ v / 4096) as Hnext.
  { intros x Hx. unfold pages_from, KERNEL_VADDR_OFFSET in *. pose proof (Z.div_mod v 4096). pose proof (Z.div_mod x 4096). pose proof (Z.mod_pos_bound x 4096). lia. }
  destruct (IH (v + 4096) m1 O1 ltac:(lia) ltac:(lia)) as (m2 & E2 & O2 & C2 & Hl2 & Ho2).
  { by rewrite Z.add_mod, Hal by lia. } { lia. }
  { intros x Hx. destruct (Hnext x Hx). rewrite Ho1 by done. apply Hl, pages_from_S; [done|by right]. }
  exists m2. split; [done|]. split; [done|]. split; [by rewrite C2|]. split.
  - intros x [Hx|Hx]%pages_from_S; [| |done].
    + assert (0 <= x < KERNEL_VADDR_OFFSET) as Hxk by (pose proof (Z.div_mod v 4096); pose proof (Z.div_mod x 4096); pose proof (Z.mod_pos_bound x 4096); unfold KERNEL_VADDR_OFFSET in *; lia).
      rewrite !(same_page_entry _ x v) by done. rewrite Ho2, He1, He; [done|done|unfold pages_from; lia].
    + destruct (Hnext x Hx). rewrite Hl2 by done. by rewrite Ho1.
  - intros x Hx Hn. rewrite pages_from_S in Hn by done. rewrite Ho2 by tauto. apply Ho1; [done|tauto].
Qed.

(** ** Loading a segment *)

(** The fields of a program header in memory. *)
Record header (c : mem) (p off va fsz msz fl : Z) : Prop := {
  h_off : bytes_at c (p + p_offset) (w32 off);
  h_va : bytes_at c (p + p_vaddr) (w32 va);
  h_fsz : bytes_at c (p + p_filesz) (w32 fsz);
  h_msz : bytes_at c (p + p_memsz) (w32 msz);
  h_fl : bytes_at c (p + p_flags) (w32 fl);
  h_align : bytes_at c (p + p_align) (w32 0x1000)
}.

Lemma header_touched (P : Z → Prop) c c' p off va fsz msz fl :
  touched P c c' → clear P p (Z.to_nat sizeof_Phdr) → header c p off va fsz msz fl → header c' p off va fsz msz fl.
Proof.
  intros T Hc [H1 H2 H3 H4 H5 H6]. unfold sizeof_Phdr, p_offset, p_vaddr, p_filesz, p_memsz, p_flags, p_align in *.
  assert (∀ x v, 0 <= x <= 28 → bytes_at c (p + x) (w32 v) → bytes_at c' (p + x) (w32 v)) as Hx.
  { intros x v Hx. apply (touched_bytes P c); [done|]. rewrite length_w32. intros i Hi. apply Hc. ranges. }
  split; apply Hx; done || (unfold p_offset, p_vaddr, p_filesz, p_memsz, p_flags, p_align; lia).
Qed.

Lemma xs_eta s : set_os (set_fsys (set_user (user (fsys (x_os s))) (fsys (x_os s))) (x_os s)) s = s.
Proof. destruct s as [o m t d j]. destruct o as [g f p l]. by destruct f. Qed.

Lemma mem32_Ok s p v : bytes_at (user (fsys (x_os s))) p (w32 v) → 0 <= v < 4294967296 → mem32 p s = Ok (v, s).
Proof. intros H Hv. unfold mem32, on_mem, on_file, on_os, on_fs, upd_user. rewrite (ld32_Ok _ _ _ H Hv). by rewrite xs_eta. Qed.

Lemma page_bytes_lookup j v x : 0 <= v → v mod 4096 = 0 → v < 4294967296 → v <= x < v + 4096 → page_bytes j v !! x = Some (s8 (j x)).
Proof.
  intros H0 Hal Hv Hx. unfold page_bytes. apply elem_of_list_to_map_1.
  - rewrite <- list_fmap_compose. apply (NoDup_fmap_2 (λ x, x)), NoDup_seqZ.
  - apply (list_elem_of_fmap_2 (λ x, (x, s8 (j x)))), elem_of_seqZ. rewrite get_page_div by lia. pose proof (Z.div_mod v 4096). change PAGE_SIZE with 4096. lia.
Qed.

Lemma page_bytes_none j v x : 0 <= v → v mod 4096 = 0 → v < 4294967296 → ¬ (v <= x < v + 4096) → page_bytes j v !! x = None.
Proof.
  intros H0 Hal Hv Hx. unfold page_bytes. apply not_elem_of_list_to_map_1. rewrite <- list_fmap_compose. intros [y [-> Hy]]%list_elem_of_fmap. apply elem_of_seqZ in Hy. apply Hx.
  rewrite get_page_div in Hy by lia. pose proof (Z.div_mod v 4096). change PAGE_SIZE with 4096 in Hy. cbn. lia.
Qed.

Lemma with_pages_touched j n : ∀ v m, 0 <= v → v mod 4096 = 0 → v + 4096 * Z.of_nat n <= USER_MMAP_ADDR →
  touched (pages_from v n) m (with_pages j n v m) ∧ ∀ x, pages_from v n x → is_Some (with_pages j n v m !! x).
Proof.
  induction n as [|n IH]; intros v m H0 Hal Hend; cbn [with_pages].
  { split; [apply touched_refl|]. intros x Hx. unfold pages_from in Hx. lia. }
  unfold USER_MMAP_ADDR in *. change PAGE_SIZE with 4096. rewrite u32_small by lia.
  destruct (IH (v + 4096) (m ∪ page_bytes j v)) as [[A1 A2] A3]; [lia|by rewrite Z.add_mod, Hal by lia|lia|]. split; [split|].
  - intros x Hx. rewrite pages_from_S in Hx by done. rewrite A1 by tauto. apply lookup_union_l. apply (page_bytes_none j v x H0 Hal ltac:(lia)).
    intros Hr. apply Hx. left. pose proof (Z.div_mod v 4096). pose proof (Z.div_mod x 4096). pose proof (Z.mod_pos_bound x 4096). lia.
  - intros x Hx. apply A2, lookup_union_is_Some. by left.
  - intros x Hx. destruct (decide (v <= x < v + 4096)) as [Hr|Hr]; [|apply A3; unfold pages_from in *; lia].
    apply A2, lookup_union_is_Some. right. rewrite (page_bytes_lookup j v x H0 Hal ltac:(lia) Hr). by eexists.
Qed.

(** The segment [data] of the file open as inode [i], and the header that describes it, outside the pages it goes to. *)
Record segment (s : xs) (i : nat) (p off va msz fl : Z) (data : list Z) (n : inode_t) (k : key) (o : Z) (u : buf_t) (count : Z) : Prop := {
  sg_header : header (user (fsys (x_os s))) p off va (Z.of_nat (length data)) msz fl;
  sg_clear : clear (pages_from va (Z.to_nat count)) p (Z.to_nat sizeof_Phdr);
  sg_count : count = (msz + 4095) / 4096;
  sg_va : USER_EXEC_ADDR <= va ∧ va mod 4096 = 0 ∧ va + 4096 * count <= USER_MMAP_ADDR;
  sg_msz : 0 < Z.of_nat (length data) <= msz;
  sg_fl : 0 <= fl < 4294967296;
  sg_inode : inode_at (fsys (x_os s)) i n k o u;
  sg_bufs : bufs_ok (cache (fsys (x_os s)));
  sg_mode : ISFILE (word (bytes u) (o + MODE)) || ISDIR (word (bytes u) (o + MODE)) = true;
  sg_off : 0 <= off ∧ off + Z.of_nat (length data) <= dword (bytes u) (o + SIZE) <= TOTAL_BLOCKS * BLOCK_SIZE;
  sg_data : file_data (cache (fsys (x_os s))) (i_dev n) (bytes u) o off data;
  sg_mm : mm_ok (x_mm s) ∧ 0 < idle (kmap_pool (x_mm s))
}.

Definition memory (s : xs) : mem := user (fsys (x_os s)).

(** The segment is in memory: its bytes, zeros behind them, and the pages with their protection. *)
Record loaded (s s' : xs) (va msz fl : Z) (data : list Z) (count : Z) : Prop := {
  ld_bytes : bytes_at (memory s') va ((s8 <$> data) ++ replicate (Z.to_nat msz - length data) 0);
  ld_rest : touched (pages_from va (Z.to_nat count)) (memory s) (memory s');
  ld_pages : ∀ x, pages_from va (Z.to_nat count) x → ∃ e, user_entry (x_mm s') x = Some (if Z.land fl PF_W =? 0 then sealed e else e) ∧
    (user_entry (x_mm s) x = Some e ∨ (user_entry (x_mm s) x = None ∧ e = Paging.set_user true (entry_init (index e))));
  ld_other : ∀ x, 0 <= x < KERNEL_VADDR_OFFSET → ¬ pages_from va (Z.to_nat count) x → user_entry (x_mm s') x = user_entry (x_mm s) x;
  ld_end : t_end (cur (x_mm s')) = va + count * 4096;
  ld_mm : mm_ok (x_mm s')
}.

Section load.
Context (s : xs) (i : nat) (p off va msz fl : Z) (data : list Z) (n : inode_t) (k : key) (o : Z) (u : buf_t) (count : Z).
Context (G : segment s i p off va msz fl data n k o u count).

Local Definition fsz : Z := Z.of_nat (length data).
Local Definition zeros_behind : list Z := replicate (Z.to_nat (msz - fsz)) 0.
Local Definition c1 : mem := with_pages (junk s) (Z.to_nat count) va (memory s).
Local Definition c2 : mem := KString.write va data c1.
Local Definition c3 : mem := KString.write (va + fsz) zeros_behind c2.

Lemma segment_sizes : 0 < fsz <= msz ∧ msz <= 4096 * count ∧ count * 4096 < msz + 4096 ∧ va + 4096 * count <= 268435456 ∧ 134512640 <= va ∧ va mod 4096 = 0.
Proof.
  pose proof (sg_count _ _ _ _ _ _ _ _ _ _ _ _ _ G) as E. pose proof (sg_va _ _ _ _ _ _ _ _ _ _ _ _ _ G) as (H1 & H2 & H3). pose proof (sg_msz _ _ _ _ _ _ _ _ _ _ _ _ _ G).
  unfold fsz, USER_EXEC_ADDR, USER_MMAP_ADDR in *. pose proof (Z.div_mod (msz + 4095) 4096 ltac:(lia)). pose proof (Z.mod_pos_bound (msz + 4095) 4096 ltac:(lia)). lia.
Qed.

Lemma c1_pages : touched (pages_from va (Z.to_nat count)) (memory s) c1 ∧ ∀ x, pages_from va (Z.to_nat count) x → is_Some (c1 !! x).
Proof. destruct segment_sizes as (? & ? & ? & ? & ? & ?). apply with_pages_touched; unfold USER_MMAP_ADDR; lia. Qed.

Lemma c2_touched : touched (pages_from va (Z.to_nat count)) (memory s) c2 ∧ room c1 va (length data) ∧ room c2 (va + fsz) (length zeros_behind).
Proof.
  destruct segment_sizes as (? & ? & ? & ? & ? & ?). destruct c1_pages as [T Hr]. unfold fsz in *. split; [|split].
  - eapply touched_trans; [exact T|apply touched_write|done|]. unfold range, pages_from. lia.
  - intros x Hx. apply Hr. unfold pages_from. lia.
  - apply room_write. intros x Hx. apply Hr. unfold zeros_behind in Hx. rewrite length_replicate in Hx. unfold pages_from, fsz in *. lia.
Qed.

Lemma c3_touched : touched (pages_from va (Z.to_nat count)) (memory s) c3 ∧ bytes_at c3 va ((s8 <$> data) ++ replicate (Z.to_nat msz - length data) 0).
Proof.
  destruct segment_sizes as (? & ? & ? & ? & ? & ?). destruct c2_touched as (T & _ & _). pose proof (touched_write (va + fsz) zeros_behind c2) as T3. fold c3 in T3. split.
  - eapply touched_trans; [exact T|exact T3|done|]. unfold range, pages_from, zeros_behind, fsz in *. rewrite length_replicate. lia.
  - apply bytes_at_app. rewrite length_fmap. split.
    + apply (touched_bytes _ _ _ _ _ T3); [rewrite length_fmap; unfold clear, range, fsz; lia|]. unfold c2. rewrite <- write_s8. apply write_bytes, Forall_fmap, Forall_true. intros x. apply s8_char.
    + fold fsz. replace (Z.to_nat msz - length data)%nat with (Z.to_nat (msz - fsz)) by (unfold fsz; lia). unfold c3. apply write_bytes. fold zeros_behind.
      apply Forall_replicate. unfold is_char. lia.
Qed.

Lemma header_in c : touched (pages_from va (Z.to_nat count)) (memory s) c → header c p off va fsz msz fl.
Proof. intros T. apply (header_touched (pages_from va (Z.to_nat count)) (memory s) c); [exact T|exact (sg_clear _ _ _ _ _ _ _ _ _ _ _ _ _ G)|exact (sg_header _ _ _ _ _ _ _ _ _ _ _ _ _ G)]. Qed.

Lemma count_Ok {A} (f : Z → XM A) s0 : (count ← lift_st (div_round_up (if msz <? fsz then fsz else msz) PAGE_SIZE); f count) s0 = f count s0.
Proof.
  destruct segment_sizes as (? & ? & ? & ? & ? & ?). destruct (Z.ltb_spec msz fsz); [lia|]. unfold div_round_up. change (PAGE_SIZE =? 0) with false. cbv match. change PAGE_SIZE with 4096.
  rewrite !u32_small by (rewrite ?u32_small; lia). replace (msz + 4096 - 1) with (msz + 4095) by lia. by rewrite <- (sg_count _ _ _ _ _ _ _ _ _ _ _ _ _ G).
Qed.

(** The state after the file has been read and the rest cleared. *)
Local Definition read_fs : fs :=
  set_inodes (<[i := set_atime (clock (fsys (x_os s)) 0) n]> (inodes (fsys (x_os s)))) (set_clock (λ m, clock (fsys (x_os s)) (S m)) (set_user c3 (fsys (x_os s)))).
Local Definition filled_state (m : mm) : xs := set_os (set_fsys read_fs (x_os s)) (set_mm m s).

Lemma fill_segment_Ok {A} (f : XM A) m :
  (filesz ← mem32 (p + p_filesz); offset ← mem32 (p + p_offset); on_file (inode_read i va filesz (s32 offset));;
   filesz ← mem32 (p + p_filesz); memsz ← mem32 (p + p_memsz);
   (if filesz <? memsz then on_mem (memset (va + filesz) 0 (Z.to_nat (memsz - filesz))) else mret ());; f) (remap m c1 s) = f (filled_state m).
Proof.
  destruct segment_sizes as (? & ? & ? & ? & ? & ?). destruct c1_pages as [T1 _]. destruct c2_touched as (T2 & R1 & R2).
  pose proof G as [_ _ _ _ _ _ HI Hb Hm (Ho1 & Ho2 & Ho3) Hd _]. destruct (header_in c1 T1) as [A1 _ A3 _ _ _]. destruct (header_in c2 T2) as [_ _ B3 B4 _ _].
  assert (off < 268967936) by (unfold fsz, TOTAL_BLOCKS, BLOCK_SIZE in *; lia).
  rewrite (st_bind_eq _ _ _ _ _ (mem32_Ok (remap m c1 s) _ _ A3 ltac:(lia))), (st_bind_eq _ _ _ _ _ (mem32_Ok (remap m c1 s) _ _ A1 ltac:(lia))).
  rewrite s32_small by lia.
  pose proof (inode_read_Ok (set_user c1 (fsys (x_os s))) i n k o u va fsz off data (inode_at_user _ _ _ _ _ _ _ HI) Hb Hm ltac:(unfold fsz in *; lia) Ho3 ltac:(unfold fsz in *; lia) ltac:(unfold fsz in *; lia) Hd R1) as E.
  set (f2 := set_inodes _ _) in E. set (s2 := set_os (set_fsys f2 (x_os s)) (set_mm m s)).
  rewrite (st_bind_eq (on_file _) _ (remap m c1 s) fsz s2) by (unfold on_file, on_os, on_fs; cbn [x_os remap set_os fsys set_fsys]; rewrite E; done).
  rewrite (st_bind_eq _ _ _ _ _ (mem32_Ok s2 _ _ B3 ltac:(lia))), (st_bind_eq _ _ _ _ _ (mem32_Ok s2 _ _ B4 ltac:(lia))).
  rewrite (st_bind_eq _ _ s2 () (filled_state m)); [done|]. destruct (Z.ltb_spec fsz msz).
  - unfold on_mem, on_file, on_os, on_fs, upd_user. cbn [x_os s2 set_os fsys set_fsys user f2 set_inodes set_clock set_user]. fold c2.
    assert (length zeros_behind = Z.to_nat (msz - fsz)) as El by apply length_replicate. rewrite (memset_spec c2 (va + fsz) 0 (Z.to_nat (msz - fsz))) by (by rewrite <- El). done.
  - unfold filled_state, read_fs, c3, zeros_behind. replace (Z.to_nat (msz - fsz)) with 0%nat by lia. done.
Qed.

(** The end: protection, the bounds of the task. *)
Local Definition finished (m : mm) : xs :=
  let s1 := filled_state m in
  let s2 := if fl =? Z.lor PF_R PF_X then set_text va s1 else if fl =? Z.lor PF_R PF_W then set_data va s1 else s1 in
  set_mm (set_cur (set_end (va + count * 4096) (cur m)) m) s2.

Lemma finish_Ok m m2 : mm_ok m →
  (if Z.land fl PF_W =? 0 then protect_loop (Z.to_nat count) va m else Ok ((), m)) = Ok ((), m2) →
  (flags ← mem32 (p + p_flags);
   (if Z.land flags PF_W =? 0 then on_mm (protect_loop (Z.to_nat count) va) else mret ());;
   flags ← mem32 (p + p_flags);
   (if flags =? Z.lor PF_R PF_X then modify_st (set_text va) else if flags =? Z.lor PF_R PF_W then modify_st (set_data va) else mret ());;
   on_mm (modify_st (λ m, set_cur (set_end (u32 (va + count * PAGE_SIZE)) (cur m)) m))) (filled_state m) = Ok ((), finished m2).
Proof.
  intros O E. destruct segment_sizes as (? & ? & ? & ? & ? & ?). destruct c3_touched as [T3 _]. destruct (header_in c3 T3) as [_ _ _ _ B _].
  pose proof (sg_fl _ _ _ _ _ _ _ _ _ _ _ _ _ G) as Hfl. rewrite (st_bind_eq _ _ _ _ _ (mem32_Ok (filled_state m) _ _ B Hfl)).
  rewrite (st_bind_eq _ _ (filled_state m) () (filled_state m2)).
  2: { destruct (Z.land fl PF_W =? 0); [unfold on_mm; cbn [x_mm filled_state set_os set_mm]; by rewrite E|by injection E as <-]. }
  rewrite (st_bind_eq _ _ _ _ _ (mem32_Ok (filled_state m2) _ _ B Hfl)). change PAGE_SIZE with 4096. rewrite u32_small by lia. unfold finished.
  destruct (fl =? Z.lor PF_R PF_X); [done|]. by destruct (fl =? Z.lor PF_R PF_W).
Qed.

Lemma finished_memory m : memory (finished m) = c3.
Proof. unfold finished, memory. destruct (fl =? _); [done|]. by destruct (fl =? _). Qed.

Lemma finished_mm m : x_mm (finished m) = set_cur (set_end (va + count * 4096) (cur m)) m.
Proof. done. Qed.

Lemma load_segment_Ok :
  (∃ s', load_segment i p s = Ok ((), s') ∧ loaded s s' va msz fl data count) ∨
  (load_segment i p s = Stop Panic ∧ ∃ j s', (j < Z.to_nat count)%nat ∧ link_loop j va s = Ok ((), s') ∧ exhausted (x_mm s')).
Proof.
  destruct segment_sizes as (Hf & Hm & Hm' & Hend & Hva & Hal). destruct (sg_header _ _ _ _ _ _ _ _ _ _ _ _ _ G) as [H1 H2 H3 H4 H5 H6].
  destruct (sg_mm _ _ _ _ _ _ _ _ _ _ _ _ _ G) as [O Hid]. unfold load_segment.
  rewrite (st_bind_eq _ _ _ _ _ (mem32_Ok s _ _ H6 ltac:(lia))), (st_bind_eq (sassert _) _ s () s) by done.
  rewrite (st_bind_eq _ _ _ _ _ (mem32_Ok s _ _ H2 ltac:(lia))). rewrite (st_bind_eq (sassert _) _ s () s) by (unfold sassert; rewrite low12; by rewrite Hal).
  rewrite (st_bind_eq _ _ _ _ _ (mem32_Ok s _ _ H4 ltac:(lia))), (st_bind_eq _ _ _ _ _ (mem32_Ok s _ _ H3 ltac:(unfold fsz in *; lia))). rewrite count_Ok.
  destruct (link_loop_Ok (Z.to_nat count) va s O Hid) as [(m1 & E1 & O1 & C1 & Hid1 & Hl1 & Ho1)|(E1 & j & s' & Hj & Ej & Hx)]; [unfold USER_EXEC_ADDR; lia|done|unfold USER_MMAP_ADDR; lia| |].
  2: { right. split; [unfold mbind, st_bind; by rewrite E1|]. by exists j, s'. }
  left. rewrite (st_bind_eq _ _ _ _ _ E1). fold c1. rewrite fill_segment_Ok.
  assert (∃ m2, (if Z.land fl PF_W =? 0 then protect_loop (Z.to_nat count) va m1 else Ok ((), m1)) = Ok ((), m2) ∧ mm_ok m2 ∧ cur m2 = cur m1 ∧
    (∀ x, pages_from va (Z.to_nat count) x → user_entry m2 x = (if Z.land fl PF_W =? 0 then sealed else id) <$> user_entry m1 x) ∧
    ∀ x, 0 <= x < KERNEL_VADDR_OFFSET → ¬ pages_from va (Z.to_nat count) x → user_entry m2 x = user_entry m1 x) as (m2 & E2 & O2 & C2 & Hl2 & Ho2).
  { destruct (Z.land fl PF_W =? 0).
    - apply protect_loop_Ok; [done|lia|lia|done|unfold USER_MMAP_ADDR; lia|]. intros x Hx. destruct (Hl1 x Hx) as (e & He & _). by eexists.
    - exists m1. split_and!; try done. intros x Hx. by rewrite option_fmap_id. }
  exists (finished m2). split; [by apply finish_Ok|]. split.
  - rewrite finished_memory. apply c3_touched.
  - rewrite finished_memory. apply c3_touched.
  - intros x Hx. destruct (Hl1 x Hx) as (e & He & Hc). exists e. split; [|done]. change (user_entry (x_mm (finished m2)) x) with (user_entry m2 x).
    rewrite Hl2, He by done. by destruct (_ =? 0).
  - intros x Hx Hn. change (user_entry (x_mm (finished m2)) x) with (user_entry m2 x). rewrite Ho2 by done. by apply Ho1.
  - rewrite finished_mm. done.
  - rewrite finished_mm. destruct O2 as [A1 A2 A3]. split; [exact A1|exact A2|by apply (pool_same m2)].
Qed.
End load.

(** ** Properties *)

(** C28. [load_segment] brings a segment of the file into memory: the pages from its address on are
    linked, the bytes of the file stand there, zeros follow up to the size in memory, the pages can
    be written only if the header says so, the task's end is behind them, and neither the memory
    nor the mappings elsewhere change.  It stops only when the machine runs out of pages: some
    page short of the last, at most one user page is left free.  The program header, which is read
    through user memory while the segment is filled, must lie outside the pages of the segment:
    [load_elf] keeps the headers from USER_EXEC_ADDR + 52 on, so this leaves out a segment that
    starts at USER_EXEC_ADDR, whose bytes would replace the header. *)
Theorem load_segment_loads s i p off va msz fl data n k o u count :
  segment s i p off va msz fl data n k o u count →
  (∃ s', load_segment i p s = Ok ((), s') ∧ loaded s s' va msz fl data count) ∨
  (load_segment i p s = Stop Panic ∧ ∃ j s', (j < Z.to_nat count)%nat ∧ link_loop j va s = Ok ((), s') ∧ exhausted (x_mm s')).
Proof. apply load_segment_Ok. Qed.

Lemma mem16_Ok s p v : bytes_at (memory s) p (s8 <$> enc16 v) → 0 <= v < 65536 → mem16 p s = Ok (v, s).
Proof.
  intros (H0 & H1 & _) Hv. unfold mem16, on_mem, on_file, on_os, on_fs, upd_user, ld16. fold (memory s).
  rewrite (st_bind_eq _ _ _ _ _ (ld_Ok _ _ _ H0)), (st_bind_eq _ _ _ _ _ (ld_Ok _ _ _ H1)). unfold mret, st_ret. rewrite !u8_s8. unfold memory. rewrite xs_eta. do 2 f_equal.
  unfold u8. rewrite !Z.mod_mod by lia. rewrite (Z.mod_small (v / 256)) by (split; [apply Z.div_pos; lia|apply Z.div_lt_upper_bound; lia]). pose proof (Z.div_mod v 256). lia.
Qed.

Lemma segment_loop_stuck fuel i ehdr ptr s num ty : ∀ turn,
  bytes_at (memory s) (ehdr + e_phnum) (s8 <$> enc16 num) → 0 <= num < 65536 →
  bytes_at (memory s) (ptr + p_type) (w32 ty) → 0 <= ty < 4294967296 → ty ≠ PT_LOAD → num - turn < Z.of_nat fuel → (0 < fuel)%nat →
  segment_loop fuel i ehdr turn ptr s = Ok ((), s).
Proof.
  induction fuel as [|fuel IH]; intros turn Hn Hnum Ht Hty Hne Hf Hf0; [lia|]. cbn [segment_loop].
  rewrite (st_bind_eq _ _ _ _ _ (mem16_Ok s _ _ Hn Hnum)). destruct (Z.leb_spec num turn); [done|].
  rewrite (st_bind_eq _ _ _ _ _ (mem32_Ok s _ _ Ht Hty)). destruct (Z.eqb_spec ty PT_LOAD); [done|]. cbn [negb]. apply IH; done || lia.
Qed.

(** C33. The loop of [load_elf] does not advance past a header of another type than [PT_LOAD]: once it
    has come to one, it uses up its turns on it and ends, and none of the segments behind it is
    loaded; the program is entered without them.  (Its turns always end: 65537 of them are enough
    for every number of headers.) *)
Theorem load_stops_at_other_header i ehdr turn ptr s num ty :
  bytes_at (memory s) (ehdr + e_phnum) (s8 <$> enc16 num) → 0 <= num < 65536 → 0 <= turn →
  bytes_at (memory s) (ptr + p_type) (w32 ty) → 0 <= ty < 4294967296 → ty ≠ PT_LOAD →
  segment_loop (S max_turns) i ehdr turn ptr s = Ok ((), s).
Proof. intros Hn Hnum H0 Ht Hty Hne. apply (segment_loop_stuck _ i ehdr ptr s num ty); try done; unfold max_turns; lia. Qed.

(** ** Example: the bytes 1022 to 1025 of the file of Inode, as a program *)

Definition demo_headers : mem := KString.write 600 (w32s [1; 1022; 0x8048000; 0; 4; 4096; 5; 4096; 6; 0; 0; 3]) (blank 600 64).
Definition demo_exec (f : frames) : xs := Xs (Os demo (set_user demo_headers demo_fs) 500 1) (demo_mm f) 0 0 (λ _, 7).

Lemma demo_exec_bytes f p l : check_bytes demo_headers p l = true → bytes_at (memory (demo_exec f)) p l.
Proof. apply check_bytes_Ok. Qed.

Lemma demo_segment f : frames_ok f →
  segment (demo_exec f) 1 600 1022 0x8048000 4096 5 [65; 65; 66; 66] (demo_inode 2 1 32) (3, 4) 32 demo_inodes 1.
Proof.
  intros K. split.
  - split; apply (demo_exec_bytes f); vm_compute; reflexivity.
  - intros x Hx Hp. unfold range, pages_from, sizeof_Phdr in *. lia.
  - done.
  - unfold USER_EXEC_ADDR, USER_MMAP_ADDR. split; [lia|]. split; [reflexivity|lia].
  - cbn. lia.
  - lia.
  - exact (inode_at_user _ _ _ _ _ _ _ demo_file).
  - exact demo_bufs_ok.
  - vm_compute. reflexivity.
  - vm_compute. done.
  - exact demo_data.
  - split; [by apply demo_mm_ok|]. cbn [demo_exec x_mm demo_mm kmap_pool]. rewrite idle_replicate. lia.
Qed.

Lemma load_segment_loads_witness :
  ∃ s s', load_segment 1 600 s = Ok ((), s') ∧ bytes_at (memory s') 0x8048000 ([65; 65; 66; 66] ++ replicate 4092 0).
Proof.
  destruct demo_free as (f & K & T & C & _). exists (demo_exec f).
  destruct (load_segment_loads _ _ _ _ _ _ _ _ _ _ _ _ _ (demo_segment f K)) as [(s' & E & L)|(_ & j & s' & Hj & E & Hx)].
  - exists s'. split; [exact E|]. exact (ld_bytes _ _ _ _ _ _ _ L).
  - exfalso. assert (j = 0%nat) as -> by lia. injection E as <-. specialize (Hx 4096 4097). cbn [demo_exec x_mm demo_mm fr] in Hx. rewrite !C, T in Hx by lia. lia.
Defined.

Lemma load_stops_at_other_header_witness :
  ∃ s, segment_loop (S max_turns) 1 600 0 632 s = Ok ((), s).
Proof.
  destruct demo_free as (f & _). exists (demo_exec f).
  apply (load_stops_at_other_header 1 600 0 632 (demo_exec f) 3 6); [apply demo_exec_bytes; vm_compute; reflexivity|lia|lia|apply demo_exec_bytes; vm_compute; reflexivity|lia|done].
Defined.
