(* ===== verification/Ide.v ===== *)
(** * IDE disks (src/kernel/ide.c)

    The driver talks to a controller through ports; [Ports] is what the processor's port
    instructions do to the hardware [D].  A transfer that has to wait for an interrupt ends the
    definition with [Blocked]; the interrupt handler and the continuation are definitions of
    their own.  Times and messages are left out. *)

From stdpp Require Import gmap.
From S2P Require Import Prelude Device Files KString Args.

Definition IRQ_HARDDISK : Z := 14.
Definition SECTOR_SIZE : Z := 512.
Definition IDE_CTRL_NR : Z := 2.
Definition IDE_DISK_NR : Z := 2.
Definition IDE_PART_NR : Z := 4.
Definition EOK : Z := 0.
Definition IDE_IOBASE_PRIMARY : Z := 0x1F0.
Definition IDE_IOBASE_SECONDARY : Z := 0x170.
Definition IDE_DATA : Z := 0.
Definition IDE_ERR : Z := 1.
Definition IDE_SECTOR : Z := 2.
Definition IDE_LBA_LOW : Z := 3.
Definition IDE_LBA_MID : Z := 4.
Definition IDE_LBA_HIGH : Z := 5.
Definition IDE_HDDEVSEL : Z := 6.
Definition IDE_STATUS : Z := 7.
Definition IDE_COMMAND : Z := 7.
Definition IDE_ALT_STATUS : Z := 0x206.
Definition IDE_CONTROL : Z := 0x206.
Definition IDE_CMD_READ : Z := 0x20.
Definition IDE_CMD_WRITE : Z := 0x30.
Definition IDE_CMD_IDENTIFY : Z := 0xEC.
Definition IDE_SR_NULL : Z := 0.
Definition IDE_SR_ERR : Z := 1.
Definition IDE_SR_DRQ : Z := 8.
Definition IDE_SR_DRDY : Z := 0x40.
Definition IDE_SR_BSY : Z := 0x80.
Definition IDE_CTRL_SRST : Z := 4.
Definition IDE_LBA_MASTER : Z := 0xE0.
Definition IDE_LBA_SLAVE : Z := 0xF0.
Definition PART_FS_EXTENDED : Z := 5.
Definition DEV_IDE_DISK : Z := 5.
Definition DEV_IDE_PART : Z := 6.
Definition DEV_CMD_SECTOR_START : Z := 1.
Definition DEV_CMD_SECTOR_COUNT : Z := 2.

Class Ports (D : Type) := {
  inb : Z → D → Z * D;
  inw : Z → D → Z * D;
  outb : Z → Z → D → D;
  outw : Z → Z → D → D
}.

(** ** The state *)

Record ide_part_t := Part { part_name : list Z; part_system : Z; part_start : Z; part_count : Z }.
Record ide_disk_t := Disk {
  disk_name : list Z; selector : Z; master : bool; total_lba : Z; cylinders : Z; heads : Z; sectors : Z; sector_size : Z; parts : list ide_part_t
}.
Record ide_ctrl_t := Ctrl {
  ctrl_name : list Z; locked : bool; iobase : Z; disks : list ide_disk_t; active : option nat; control : Z; waiter : option Z
}.
Definition set_locked (v : bool) (c : ide_ctrl_t) : ide_ctrl_t := Ctrl (ctrl_name c) v (iobase c) (disks c) (active c) (control c) (waiter c).
Definition set_disks (v : list ide_disk_t) (c : ide_ctrl_t) : ide_ctrl_t := Ctrl (ctrl_name c) (locked c) (iobase c) v (active c) (control c) (waiter c).
Definition set_active (v : option nat) (c : ide_ctrl_t) : ide_ctrl_t := Ctrl (ctrl_name c) (locked c) (iobase c) (disks c) v (control c) (waiter c).
Definition set_waiter (v : option Z) (c : ide_ctrl_t) : ide_ctrl_t := Ctrl (ctrl_name c) (locked c) (iobase c) (disks c) (active c) (control c) v.
Definition set_parts (v : list ide_part_t) (d : ide_disk_t) : ide_disk_t :=
  Disk (disk_name d) (selector d) (master d) (total_lba d) (cylinders d) (heads d) (sectors d) (sector_size d) v.
Definition set_geometry (t c h n : Z) (d : ide_disk_t) : ide_disk_t :=
  Disk (disk_name d) (selector d) (master d) t c h n (sector_size d) (parts d).

(** A disk pointer: the controller and the place in it. *)
Abbreviation disk_ptr := (nat * nat)%type.

Section driver.
Context {D : Type} `{Ports D}.

Record ide := Ide { controllers : list ide_ctrl_t; hw : D; ram : mem; interrupts : bool }.
Abbreviation IM := (ST ide).
Definition set_hw (h : D) (s : ide) : ide := Ide (controllers s) h (ram s) (interrupts s).
Definition set_ram (m : mem) (s : ide) : ide := Ide (controllers s) (hw s) m (interrupts s).
Definition set_ctrls (l : list ide_ctrl_t) (s : ide) : ide := Ide l (hw s) (ram s) (interrupts s).

Definition in8 (p : Z) : IM Z := λ s, let (v, h) := inb p (hw s) in Ok (v, set_hw h s).
Definition in16 (p : Z) : IM Z := λ s, let (v, h) := inw p (hw s) in Ok (v, set_hw h s).
Definition out8 (p v : Z) : IM unit := modify_st (λ s, set_hw (outb p v (hw s)) s).
Definition out16 (p v : Z) : IM unit := modify_st (λ s, set_hw (outw p v (hw s)) s).
Definition on_ram {A} (m : KString.M A) : IM A := λ s, match m (ram s) with Ok (a, c) => Ok (a, set_ram c s) | Stop e => Stop e end.

Definition ctrl_at (c : nat) : IM ide_ctrl_t := λ s, match controllers s !! c with Some x => Ok (x, s) | None => Stop OutOfBounds end.
Definition upd_ctrl (c : nat) (f : ide_ctrl_t → ide_ctrl_t) : IM unit := λ s,
  match controllers s !! c with Some x => Ok ((), set_ctrls (<[c := f x]> (controllers s)) s) | None => Stop OutOfBounds end.
Definition disk_at (p : disk_ptr) : IM ide_disk_t := c ← ctrl_at p.1; match disks c !! p.2 with Some d => mret d | None => stop_st OutOfBounds end.
Definition upd_disk (p : disk_ptr) (f : ide_disk_t → ide_disk_t) : IM unit := d ← disk_at p; upd_ctrl p.1 (λ c, set_disks (<[p.2 := f d]> (disks c)) c).

(** ** Talking to the controller *)

(** The answer is the task that is woken. *)
Definition ide_handler (vector : Z) : IM (option Z) :=
  let i := vector - IRQ_HARDDISK - 0x20 in
  let c := Z.to_nat i in
  if i <? 0 then stop_st OutOfBounds else
  ctrl ← ctrl_at c;
  in8 (iobase ctrl + IDE_STATUS);;
  match waiter ctrl with
  | Some t => upd_ctrl c (set_waiter None);; mret (Some t)
  | None => mret None
  end.

Definition ide_error (base : Z) : IM unit := in8 (base + IDE_ERR);; mret ().

Fixpoint ide_busy_wait (fuel : nat) (base mask : Z) : IM Z :=
  match fuel with
  | O => stop_st NoFuel
  | S fuel =>
      state ← in8 (base + IDE_ALT_STATUS);
      (if Z.land state IDE_SR_ERR =? 0 then mret () else ide_error base);;
      if negb (Z.land state IDE_SR_BSY =? 0) then ide_busy_wait fuel base mask
      else if Z.land state mask =? mask then mret EOK
      else ide_busy_wait fuel base mask
  end.

Context (fuel : nat).

Definition ide_reset_controller (c : nat) : IM Z :=
  ctrl ← ctrl_at c;
  out8 (iobase ctrl + IDE_CONTROL) IDE_CTRL_SRST;;
  out8 (iobase ctrl + IDE_CONTROL) (control ctrl);;
  ide_busy_wait fuel (iobase ctrl) IDE_SR_NULL.

Definition ide_select_drive (p : disk_ptr) : IM unit :=
  ctrl ← ctrl_at p.1;
  d ← disk_at p;
  out8 (iobase ctrl + IDE_HDDEVSEL) (selector d);;
  upd_ctrl p.1 (set_active (Some p.2)).

Definition ide_select_sector (p : disk_ptr) (lba count : Z) : IM unit :=
  ctrl ← ctrl_at p.1;
  d ← disk_at p;
  let base := iobase ctrl in
  out8 (base + IDE_SECTOR) count;;
  out8 (base + IDE_LBA_LOW) (Z.land lba 0xff);;
  out8 (base + IDE_LBA_MID) (Z.land (Z.shiftr lba 8) 0xff);;
  out8 (base + IDE_LBA_HIGH) (Z.land (Z.shiftr lba 16) 0xff);;
  out8 (base + IDE_HDDEVSEL) (Z.lor (Z.land (Z.shiftr lba 24) 0xf) (selector d));;
  upd_ctrl p.1 (set_active (Some p.2)).

(** [buf[i] = inw(...)] for the words of a sector, and back. *)
Definition st16 (p v : Z) : KString.M unit := st p v;; st (p + 1) (v / 256).
Definition ld16 (p : Z) : KString.M Z := a ← ld p; b ← ld (p + 1); mret (u8 a + 256 * u8 b).
Fixpoint read_words (n : nat) (base buf : Z) : IM unit :=
  match n with O => mret () | S n => w ← in16 (base + IDE_DATA); on_ram (st16 buf w);; read_words n base (buf + 2) end.
Fixpoint write_words (n : nat) (base buf : Z) : IM unit :=
  match n with O => mret () | S n => w ← on_ram (ld16 buf); out16 (base + IDE_DATA) w;; write_words n base (buf + 2) end.

Definition ide_pio_read_sector (p : disk_ptr) (buf : Z) : IM unit :=
  ctrl ← ctrl_at p.1; d ← disk_at p; read_words (Z.to_nat (sector_size d / 2)) (iobase ctrl) buf.
Definition ide_pio_write_sector (p : disk_ptr) (buf : Z) : IM unit :=
  ctrl ← ctrl_at p.1; d ← disk_at p; write_words (Z.to_nat (sector_size d / 2)) (iobase ctrl) buf.

(** ** Transfers *)

(** A transfer is over, or waits for the interrupt that follows [i] sectors, or for the lock. *)
Inductive io_end := Done (ret : Z) | Blocked (i : Z) | WaitLock.

(** The loop of [ide_pio_read] for the [n] sectors from the [i]th on; a task other than the idle
    one waits for the interrupt before each. *)
Fixpoint pio_read_loop (n : nat) (p : disk_ptr) (buf i task : Z) : IM io_end :=
  match n with
  | O => upd_ctrl p.1 (set_locked false);; mret (Done EOK)
  | S n =>
      if negb (task =? 0) then upd_ctrl p.1 (set_waiter (Some task));; mret (Blocked i)
      else
        ctrl ← ctrl_at p.1;
        ide_busy_wait fuel (iobase ctrl) IDE_SR_DRQ;;
        ide_pio_read_sector p (buf + i * SECTOR_SIZE);;
        pio_read_loop n p buf (i + 1) task
  end.

Definition ide_pio_read (p : disk_ptr) (buf count lba task : Z) : IM io_end :=
  sassert (0 <? count);;
  s ← get_st;
  sassert (negb (interrupts s));;
  ctrl ← ctrl_at p.1;
  if locked ctrl then mret WaitLock
  else
    upd_ctrl p.1 (set_locked true);;
    ide_select_drive p;;
    ide_busy_wait fuel (iobase ctrl) IDE_SR_DRDY;;
    ide_select_sector p lba count;;
    out8 (iobase ctrl + IDE_COMMAND) IDE_CMD_READ;;
    pio_read_loop (Z.to_nat count) p buf 0 task.

(** What the task does when it is woken, having waited for sector [i]. *)
Definition ide_read_resume (p : disk_ptr) (buf count i task : Z) : IM io_end :=
  ctrl ← ctrl_at p.1;
  ide_busy_wait fuel (iobase ctrl) IDE_SR_DRQ;;
  ide_pio_read_sector p (buf + i * SECTOR_SIZE);;
  pio_read_loop (Z.to_nat (count - i - 1)) p buf (i + 1) task.

Fixpoint pio_write_loop (n : nat) (p : disk_ptr) (buf i task : Z) : IM io_end :=
  match n with
  | O => upd_ctrl p.1 (set_locked false);; mret (Done EOK)
  | S n =>
      ide_pio_write_sector p (buf + i * SECTOR_SIZE);;
      if negb (task =? 0) then upd_ctrl p.1 (set_waiter (Some task));; mret (Blocked i)
      else
        ctrl ← ctrl_at p.1;
        ide_busy_wait fuel (iobase ctrl) IDE_SR_NULL;;
        pio_write_loop n p buf (i + 1) task
  end.

Definition ide_pio_write (p : disk_ptr) (buf count lba task : Z) : IM io_end :=
  sassert (0 <? count);;
  s ← get_st;
  sassert (negb (interrupts s));;
  ctrl ← ctrl_at p.1;
  if locked ctrl then mret WaitLock
  else
    upd_ctrl p.1 (set_locked true);;
    ide_select_drive p;;
    ide_busy_wait fuel (iobase ctrl) IDE_SR_DRDY;;
    ide_select_sector p lba count;;
    out8 (iobase ctrl + IDE_COMMAND) IDE_CMD_WRITE;;
    pio_write_loop (Z.to_nat count) p buf 0 task.

Definition ide_write_resume (p : disk_ptr) (buf count i task : Z) : IM io_end :=
  ctrl ← ctrl_at p.1;
  ide_busy_wait fuel (iobase ctrl) IDE_SR_NULL;;
  pio_write_loop (Z.to_nat (count - i - 1)) p buf (i + 1) task.
(** ** Disks and partitions as devices *)

Definition ide_pio_ioctl (p : disk_ptr) (cmd : Z) : IM Z :=
  if cmd =? DEV_CMD_SECTOR_START then mret 0
  else if cmd =? DEV_CMD_SECTOR_COUNT then d ← disk_at p; mret (s32 (total_lba d))
  else stop_st Panic.

Definition part_at (p : disk_ptr) (i : nat) : IM ide_part_t := d ← disk_at p; match parts d !! i with Some t => mret t | None => stop_st OutOfBounds end.

Definition ide_pio_part_ioctl (p : disk_ptr) (i : nat) (cmd : Z) : IM Z :=
  if cmd =? DEV_CMD_SECTOR_START then t ← part_at p i; mret (s32 (part_start t))
  else if cmd =? DEV_CMD_SECTOR_COUNT then t ← part_at p i; mret (s32 (part_count t))
  else stop_st Panic.

Definition ide_pio_part_read (p : disk_ptr) (i : nat) (buf count lba task : Z) : IM io_end :=
  t ← part_at p i; ide_pio_read p buf count (u32 (part_start t + lba)) task.
Definition ide_pio_part_write (p : disk_ptr) (i : nat) (buf count lba task : Z) : IM io_end :=
  t ← part_at p i; ide_pio_write p buf count (u32 (part_start t + lba)) task.

(** ** A whole transfer

    Each time the task blocks the controller's interrupt comes, the handler wakes the task, and
    the task goes on.  A task that waits for the lock is not followed. *)

Fixpoint read_to_end (n : nat) (p : disk_ptr) (buf count task : Z) (e : io_end) : IM Z :=
  match n, e with
  | _, Done r => mret r
  | S n, Blocked i => ide_handler (IRQ_HARDDISK + Z.of_nat p.1 + 0x20);; e ← ide_read_resume p buf count i task; read_to_end n p buf count task e
  | _, _ => stop_st NoFuel
  end.
Fixpoint write_to_end (n : nat) (p : disk_ptr) (buf count task : Z) (e : io_end) : IM Z :=
  match n, e with
  | _, Done r => mret r
  | S n, Blocked i => ide_handler (IRQ_HARDDISK + Z.of_nat p.1 + 0x20);; e ← ide_write_resume p buf count i task; write_to_end n p buf count task e
  | _, _ => stop_st NoFuel
  end.
Definition read_served (p : disk_ptr) (buf count lba task : Z) : IM Z :=
  e ← ide_pio_read p buf count lba task; read_to_end (Z.to_nat count) p buf count task e.
Definition write_served (p : disk_ptr) (buf count lba task : Z) : IM Z :=
  e ← ide_pio_write p buf count lba task; write_to_end (Z.to_nat count) p buf count task e.

(** ** Initialization *)

(** The place of entry [i] of the partition table in a boot sector at [b]. *)
Definition entry_at (b : Z) (i : nat) : Z := b + 446 + 16 * Z.of_nat i.
Definition entry_system (e : Z) : KString.M Z := v ← ld (e + 4); mret (u8 v).
Definition entry_start (e : Z) : KString.M Z := ld32 (e + 8).
Definition entry_count (e : Z) : KString.M Z := ld32 (e + 12).

Definition set_part (p : disk_ptr) (i : nat) (t : ide_part_t) : IM unit := upd_disk p (λ d, set_parts (<[i := t]> (parts d)) d).

(** The loop over the entries of an extended boot sector only reads. *)
Fixpoint extended_entries (n : nat) (ebuf : Z) (j : nat) : IM unit :=
  match n with O => mret () | S n => on_ram (entry_count (entry_at ebuf j));; extended_entries n ebuf (S j) end.

Fixpoint part_entries (n : nat) (p : disk_ptr) (buf : Z) (i : nat) : IM unit :=
  match n with
  | O => mret ()
  | S n =>
      let e := entry_at buf i in
      count ← on_ram (entry_count e);
      if count =? 0 then part_entries n p buf (S i)
      else
        d ← disk_at p;
        system ← on_ram (entry_system e);
        start ← on_ram (entry_start e);
        set_part p i (Part (disk_name d ++ [49 + Z.of_nat i]) system start count);;
        (if system =? PART_FS_EXTENDED then
           let ebuf := buf + 2 * SECTOR_SIZE in
           ide_pio_read p ebuf 1 start 0;; extended_entries 4 ebuf 0
         else mret ());;
        part_entries n p buf (S i)
  end.

Definition ide_part_init (p : disk_ptr) (buf : Z) : IM unit :=
  ide_pio_read p buf 1 0 0;;
  sig ← on_ram (ld16 (buf + 510));
  if sig =? 0xaa55 then part_entries 4 p buf 0 else mret ().

Fixpoint swap_pairs (n : nat) (buf : Z) : KString.M unit :=
  match n with
  | O => mret ()
  | S n => ch ← ld buf; c ← ld (buf + 1); st buf c;; st (buf + 1) ch;; swap_pairs n (buf + 2)
  end.
Definition ide_fixstrings (buf len : Z) : KString.M unit := swap_pairs (Z.to_nat ((len + 1) / 2)) buf;; st (buf + len - 1) EOS.

Definition ide_identify (p : disk_ptr) (buf : Z) : IM Z :=
  ide_select_drive p;;
  ctrl ← ctrl_at p.1;
  out8 (iobase ctrl + IDE_COMMAND) IDE_CMD_IDENTIFY;;
  ide_busy_wait fuel (iobase ctrl) IDE_SR_NULL;;
  ide_pio_read_sector p buf;;
  total ← on_ram (ld32 (buf + 120));
  if total =? 0 then mret EOFu
  else
    on_ram (ide_fixstrings (buf + 20) 20);;
    on_ram (ide_fixstrings (buf + 46) 8);;
    on_ram (ide_fixstrings (buf + 20) 20);;
    total ← on_ram (ld32 (buf + 120));
    c ← on_ram (ld16 (buf + 2));
    h ← on_ram (ld16 (buf + 6));
    n ← on_ram (ld16 (buf + 12));
    upd_disk p (set_geometry total c h n);;
    mret 0.

Definition set_up_disk (p : disk_ptr) : IM unit := upd_disk p (λ d,
  Disk [104; 100; 97 + Z.of_nat p.1 * 2 + Z.of_nat p.2] (if (p.2 =? 0)%nat then IDE_LBA_MASTER else IDE_LBA_SLAVE) (p.2 =? 0)%nat
    (total_lba d) (cylinders d) (heads d) (sectors d) SECTOR_SIZE (parts d)).

Definition ctrl_init_disk (buf : Z) (p : disk_ptr) : IM unit :=
  set_up_disk p;;
  r ← ide_identify p buf;
  if r =? 0 then ide_part_init p buf else mret ().

Definition ctrl_init_ctrl (buf : Z) (c : nat) : IM unit :=
  let base := if (c =? 0)%nat then IDE_IOBASE_PRIMARY else IDE_IOBASE_SECONDARY in
  v ← in8 (base + IDE_CONTROL);
  upd_ctrl c (λ x, Ctrl [105; 100; 101; 48 + Z.of_nat c] false base (disks x) None v None);;
  ctrl_init_disk buf (c, 0%nat);;
  ctrl_init_disk buf (c, 1%nat).

(** [buf] is the page that [alloc_kpage] answers. *)
Definition ide_ctrl_init (buf : Z) : IM unit := ctrl_init_ctrl buf 0;; ctrl_init_ctrl buf 1.

(** The device table over this driver; a pointer to a disk or a partition is its place in
    [controllers].  The driver's [count] is the low byte of what [device_read] passes. *)
Section table.
Context (task : Z).

Definition disk_of (x : Z) : disk_ptr := (Z.to_nat (x / 2), Z.to_nat (x mod 2)).
Definition disk_ref (p : disk_ptr) : Z := 2 * Z.of_nat p.1 + Z.of_nat p.2.

Definition disk_ioctl_fn : @ioctl_fn ide := λ x cmd _ _, ide_pio_ioctl (disk_of x) cmd.
Definition disk_read_fn : @rw_fn ide := λ x buf count lba _, read_served (disk_of x) buf (u8 count) lba task.
Definition disk_write_fn : @rw_fn ide := λ x buf count lba _, write_served (disk_of x) buf (u8 count) lba task.
Definition part_ioctl_fn : @ioctl_fn ide := λ x cmd _ _, ide_pio_part_ioctl (disk_of (x / 4)) (Z.to_nat (x mod 4)) cmd.
Definition part_read_fn : @rw_fn ide := λ x buf count lba _,
  e ← ide_pio_part_read (disk_of (x / 4)) (Z.to_nat (x mod 4)) buf (u8 count) lba task; read_to_end (Z.to_nat (u8 count)) (disk_of (x / 4)) buf (u8 count) task e.
Definition part_write_fn : @rw_fn ide := λ x buf count lba _,
  e ← ide_pio_part_write (disk_of (x / 4)) (Z.to_nat (x mod 4)) buf (u8 count) lba task; write_to_end (Z.to_nat (u8 count)) (disk_of (x / 4)) buf (u8 count) task e.

Fixpoint install_parts (n : nat) (x par : Z) (l : list ide_part_t) (i : Z) : DM (D := ide) unit :=
  match n, l with
  | S n, t :: l =>
      (if part_count t =? 0 then mret ()
       else device_install DEV_BLOCK DEV_IDE_PART (4 * x + i) (part_name t) par (Some part_ioctl_fn) (Some part_read_fn) (Some part_write_fn);; mret ());;
      install_parts n x par l (i + 1)
  | _, _ => mret ()
  end.

Definition install_disk (p : disk_ptr) : DM (D := ide) unit :=
  d ← on_machine (disk_at p);
  if total_lba d =? 0 then mret ()
  else
    par ← device_install DEV_BLOCK DEV_IDE_DISK (disk_ref p) (disk_name d) 0 (Some disk_ioctl_fn) (Some disk_read_fn) (Some disk_write_fn);
    install_parts 4 (disk_ref p) par (parts d) 0.

Definition ide_install : DM (D := ide) unit :=
  install_disk (0, 0)%nat;; install_disk (0, 1)%nat;; install_disk (1, 0)%nat;; install_disk (1, 1)%nat.

(** [ide_init], without the registers of the interrupt controller. *)
Definition ide_init (buf : Z) : DM (D := ide) unit := on_machine (ide_ctrl_init buf);; ide_install.
End table.
End driver.

(** The controllers at start. *)
Definition no_disk : ide_disk_t := Disk [] 0 false 0 0 0 0 0 (replicate 4 (Part [] 0 0 0)).
Definition no_ctrl : ide_ctrl_t := Ctrl [] false 0 [no_disk; no_disk] None 0 None.
