(* ===== verification/Ata.v ===== *)
(** * The IDE driver on an ATA channel (src/kernel/ide.c)

    What the driver relies on of the hardware, as the laws of a class: a channel is seen as its
    registers, how long it is still busy, the phase of the command, and the sectors of its two
    drives.  Against these laws a read delivers the sectors asked for and a write stores the
    buffer, whether the task polls or sleeps; a command that fails leaves the driver waiting for
    ever.  A small controller satisfies the laws. *)

From stdpp Require Import gmap.
From S2P Require Import Prelude Ide Device Files Args KString.

(** The words of the sector being sent and the sectors behind it; where the next sector goes, how
    many are left and the words received. *)
Inductive phase_t := Idle | Sending (now : list Z) (rest : list (list Z)) | Receiving (at_ left : Z) (got : list Z) | Failed.

Record channel := Channel {
  busy : nat; nsect : Z; lba_low : Z; lba_mid : Z; lba_high : Z; devsel : Z; phase : phase_t;
  media : bool → Z → list Z; capacity : bool → Z; ident : bool → list Z;
  geometry : bool → Z * Z
}.
Definition set_busy (b : nat) (c : channel) : channel :=
  Channel b (nsect c) (lba_low c) (lba_mid c) (lba_high c) (devsel c) (phase c) (media c) (capacity c) (ident c) (geometry c).
Definition set_phase (f : phase_t) (c : channel) : channel :=
  Channel (busy c) (nsect c) (lba_low c) (lba_mid c) (lba_high c) (devsel c) f (media c) (capacity c) (ident c) (geometry c).
Definition set_media (m : bool → Z → list Z) (c : channel) : channel :=
  Channel (busy c) (nsect c) (lba_low c) (lba_mid c) (lba_high c) (devsel c) (phase c) m (capacity c) (ident c) (geometry c).
Definition set_reg (r v : Z) (c : channel) : channel :=
  let put k old := if r =? k then v else old in
  Channel (busy c) (put IDE_SECTOR (nsect c)) (put IDE_LBA_LOW (lba_low c)) (put IDE_LBA_MID (lba_mid c)) (put IDE_LBA_HIGH (lba_high c))
    (put IDE_HDDEVSEL (devsel c)) (phase c) (media c) (capacity c) (ident c) (geometry c).

(** Which drive is selected. *)
Definition slave (c : channel) : bool := Z.testbit (devsel c) 4.

(** The first sector of a command.  With bit 6 of the device register set the registers hold its
    number; without it they hold a cylinder, a head and the number of a sector in the track, which
    count from one - [geometry] gives the heads and the sectors of a track -, and a drive has no
    sector for what lies outside. *)
Definition lba_mode (c : channel) : bool := Z.testbit (devsel c) 6.
Definition lba_of (c : channel) : Z := lba_low c + 256 * lba_mid c + 65536 * lba_high c + 16777216 * Z.land (devsel c) 15.
Definition chs_of (c : channel) : option Z :=
  let (heads, sectors) := geometry c (slave c) in let head := Z.land (devsel c) 15 in
  if (0 <? lba_low c) && (lba_low c <=? sectors) && (head <? heads)
  then Some (((lba_mid c + 256 * lba_high c) * heads + head) * sectors + (lba_low c - 1)) else None.
Definition first_sector (c : channel) : option Z := if lba_mode c then Some (lba_of c) else chs_of c.

(** How many sectors: none mean 256. *)
Definition wanted (c : channel) : Z := if nsect c =? 0 then 256 else nsect c.
(** The first sector, if all sectors of the command are on the drive. *)
Definition addressed (c : channel) : option Z :=
  a ← first_sector c; if a + wanted c <=? capacity c (slave c) then Some a else None.
Definition sectors_from (m : bool → Z → list Z) (b : bool) (lba : Z) (n : nat) : list (list Z) := (λ i, m b (lba + Z.of_nat i)) <$> seq 0 n.
Definition store_sector (m : bool → Z → list Z) (b : bool) (lba : Z) (ws : list Z) : bool → Z → list Z :=
  λ b' x, if bool_decide (b' = b ∧ x = lba) then ws else m b' x.

Fixpoint store_sectors (m : bool → Z → list Z) (b : bool) (lba : Z) (secs : list (list Z)) : bool → Z → list Z :=
  match secs with [] => m | ws :: secs => store_sectors (store_sector m b lba ws) b (lba + 1) secs end.

Definition sent (rest : list (list Z)) : phase_t := match rest with [] => Idle | s :: rest => Sending s rest end.
Definition received (lba left : Z) : phase_t := if left =? 1 then Idle else Receiving (lba + 1) (left - 1) [].
Definition receiving (lba : Z) (n : nat) : phase_t := match n with O => Idle | S _ => Receiving lba (Z.of_nat n) [] end.
Definition transferring (f : phase_t) : bool := match f with Sending _ _ | Receiving _ _ _ => true | _ => false end.

Definition status_of (c : channel) (v : Z) : Prop :=
  match busy c with
  | S _ => Z.land v IDE_SR_BSY ≠ 0
  | O => Z.land v IDE_SR_BSY = 0 ∧ Z.land v IDE_SR_DRDY = IDE_SR_DRDY ∧ Z.land v IDE_SR_DRQ = (if transferring (phase c) then IDE_SR_DRQ else 0)
  end.

(** After an event the channel is busy for at most [latency] reads of its status. *)
Definition soon (latency : nat) (c c' : channel) : Prop := ∃ b, (b <= latency)%nat ∧ c' = set_busy b c.

Class Ata (D : Type) `{Ports D} (base : Z) (latency : nat) := {
  view : D → channel;
  ata_status p h : p = IDE_STATUS ∨ p = IDE_ALT_STATUS →
    ∃ v h', inb (base + p) h = (v, h') ∧ status_of (view h) v ∧ view h' = set_busy (pred (busy (view h))) (view h);
  ata_error h : ∃ v h', inb (base + IDE_ERR) h = (v, h') ∧ view h' = view h;
  ata_reg r v h : phase (view h) = Idle → IDE_SECTOR <= r <= IDE_LBA_HIGH → view (outb (base + r) v h) = set_reg r v (view h);
  ata_select v h : phase (view h) = Idle → soon latency (set_reg IDE_HDDEVSEL v (view h)) (view (outb (base + IDE_HDDEVSEL) v h));
  ata_read h : phase (view h) = Idle → let c := view h in
    soon latency (set_phase (match addressed c with
      | Some a => sent (sectors_from (media c) (slave c) a (Z.to_nat (wanted c))) | None => Failed end) c) (view (outb (base + IDE_COMMAND) IDE_CMD_READ h));
  ata_write h : phase (view h) = Idle → let c := view h in
    soon latency (set_phase (match addressed c with Some a => Receiving a (wanted c) [] | None => Failed end) c)
      (view (outb (base + IDE_COMMAND) IDE_CMD_WRITE h));
  ata_identify h : phase (view h) = Idle → soon latency (set_phase (sent [ident (view h) (slave (view h))]) (view h)) (view (outb (base + IDE_COMMAND) IDE_CMD_IDENTIFY h));
  ata_data_in h w ws rest : busy (view h) = 0%nat → phase (view h) = Sending (w :: ws) rest → ∃ h', inw (base + IDE_DATA) h = (w, h') ∧
    if bool_decide (ws = []) then soon latency (set_phase (sent rest) (view h)) (view h') else view h' = set_phase (Sending ws rest) (view h);
  ata_data_out h w lba left got : busy (view h) = 0%nat → phase (view h) = Receiving lba left got →
    if bool_decide (length (got ++ [w]) = 256%nat)
    then soon latency (set_phase (received lba left) (set_media (store_sector (media (view h)) (slave (view h)) lba (got ++ [w])) (view h))) (view (outw (base + IDE_DATA) w h))
    else view (outw (base + IDE_DATA) w h) = set_phase (Receiving lba left (got ++ [w])) (view h)
}.

(** The bytes of words, low byte first. *)
Definition w16 (v : Z) : list Z := s8 <$> [v; v / 256].
Definition w16s (vs : list Z) : list Z := mjoin (w16 <$> vs).

Lemma length_w16s ws : length (w16s ws) = (2 * length ws)%nat.
Proof. induction ws as [|w ws IH]; [done|]. change (w16s (w :: ws)) with (w16 w ++ w16s ws). rewrite length_app, IH. change (length (w16 w)) with 2%nat. cbn [length]. lia. Qed.

Lemma join_cons (now : list Z) rest : mjoin (w16s <$> now :: rest) = w16s now ++ mjoin (w16s <$> rest).
Proof. done. Qed.

(** ** The partition table *)

(** Numbers in the bytes of a sector, low byte first. *)
Definition byte_of (bs : list Z) (o : nat) : Z := u8 (default 0 (bs !! o)).
Definition word_of (bs : list Z) (o : nat) : Z := byte_of bs o + 256 * byte_of bs (o + 1).
Definition dword_of (bs : list Z) (o : nat) : Z := byte_of bs o + 256 * byte_of bs (o + 1) + 65536 * byte_of bs (o + 2) + 16777216 * byte_of bs (o + 3).
Definition entry_of (i : nat) : nat := (446 + 16 * i)%nat.

(** Partition [i], if the table has one there. *)
Definition part_of (bs name : list Z) (i : nat) (old : ide_part_t) : ide_part_t :=
  if dword_of bs (entry_of i + 12) =? 0 then old
  else Part (name ++ [49 + Z.of_nat i]) (byte_of bs (entry_of i + 4)) (dword_of bs (entry_of i + 8)) (dword_of bs (entry_of i + 12)).

Lemma ld_byte m buf bs o : bytes_at m buf bs → (o < length bs)%nat → ∃ v, ld (buf + Z.of_nat o) m = Ok (v, m) ∧ u8 v = byte_of bs o.
Proof.
  intros B Ho. destruct (lookup_lt_is_Some_2 bs o Ho) as [v Hv]. exists v. split; [|unfold byte_of; by rewrite Hv].
  apply ld_Ok. rewrite (bytes_at_lookup _ _ _ _ B) by lia. by replace (Z.to_nat (buf + Z.of_nat o - buf)) with o by lia.
Qed.

Lemma ld32_of m buf bs o p : p = buf + Z.of_nat o → bytes_at m buf bs → (o + 3 < length bs)%nat → ld32 p m = Ok (dword_of bs o, m).
Proof.
  intros -> B Ho. destruct (ld_byte m buf bs o B ltac:(lia)) as (a & Ea & Ha). destruct (ld_byte m buf bs (o + 1) B ltac:(lia)) as (b & Eb & Hb).
  destruct (ld_byte m buf bs (o + 2) B ltac:(lia)) as (e & Ee & He). destruct (ld_byte m buf bs (o + 3) B ltac:(lia)) as (f & Ef & Hf).
  replace (buf + Z.of_nat (o + 1)) with (buf + Z.of_nat o + 1) in Eb by lia. replace (buf + Z.of_nat (o + 2)) with (buf + Z.of_nat o + 2) in Ee by lia. replace (buf + Z.of_nat (o + 3)) with (buf + Z.of_nat o + 3) in Ef by lia.
  unfold dword_of. rewrite <- Ha, <- Hb, <- He, <- Hf. unfold ld32.
  eapply st_step; [exact Ea|]. eapply st_step; [exact Eb|]. eapply st_step; [exact Ee|]. by eapply st_step; [exact Ef|].
Qed.

Section channel.
Context {D : Type} {P : Ports D} (base : Z) (latency : nat) {A : Ata D base latency}.
Context (fuel : nat) (Hfuel : (latency < fuel)%nat).

(** The state, controller [k] picked out. *)
Definition state_of (cs : list ide_ctrl_t) (k : nat) (c : ide_ctrl_t) (h : D) (m : mem) : ide := Ide (<[k := c]> cs) h m false.

Section at_controller.
Context (cs : list ide_ctrl_t) (k : nat) (Hk : (k < length cs)%nat).
Abbreviation St := (state_of cs k).

Lemma ctrl_at_Ok c h m : ctrl_at k (St c h m) = Ok (c, St c h m).
Proof. unfold ctrl_at, state_of. cbn. by rewrite list_lookup_insert_eq. Qed.

Lemma upd_ctrl_Ok f c h m : upd_ctrl k f (St c h m) = Ok ((), St (f c) h m).
Proof. unfold upd_ctrl, state_of, set_ctrls. cbn. rewrite list_lookup_insert_eq by done. by rewrite list_insert_insert_eq. Qed.

Lemma disk_at_Ok j d c h m : disks c !! j = Some d → disk_at (k, j) (St c h m) = Ok (d, St c h m).
Proof. intros Hd. unfold disk_at. cbn. rewrite (st_bind_eq _ _ _ _ _ (ctrl_at_Ok c h m)). by rewrite Hd. Qed.

Lemma in8_Ok p v h h' c m : inb p h = (v, h') → in8 p (St c h m) = Ok (v, St c h' m).
Proof. intros E. unfold in8. cbn. by rewrite E. Qed.

Lemma in16_Ok p v h h' c m : inw p h = (v, h') → in16 p (St c h m) = Ok (v, St c h' m).
Proof. intros E. unfold in16. cbn. by rewrite E. Qed.

Lemma on_ram_Ok {X} (f : KString.M X) x m m' c h : f m = Ok (x, m') → on_ram f (St c h m) = Ok (x, St c h m').
Proof. intros E. unfold on_ram. cbn. by rewrite E. Qed.

(** ** Waiting *)

Definition reached (mask : Z) (f : phase_t) : Prop :=
  mask = IDE_SR_NULL ∨ mask = IDE_SR_DRDY ∨ (mask = IDE_SR_DRQ ∧ transferring f = true).

Lemma status_reached c v mask : busy c = 0%nat → status_of c v → reached mask (phase c) → Z.land v IDE_SR_BSY = 0 ∧ Z.land v mask = mask.
Proof.
  unfold status_of. intros -> (H1 & H2 & H3) [->|[->|[-> Ht]]]; (split; [done|]); [apply Z.land_0_r|done|]. by rewrite H3, Ht.
Qed.

Lemma error_Ok v c h m : ∃ h', (if Z.land v IDE_SR_ERR =? 0 then mret () else ide_error base) (St c h m) = Ok ((), St c h' m) ∧ view h' = view h.
Proof.
  zcases; [by exists h|]. destruct (ata_error h) as (e & h' & E & V). exists h'. split; [|done].
  unfold ide_error. by rewrite (st_bind_eq _ _ _ _ _ (in8_Ok _ _ _ _ c m E)).
Qed.

Lemma busy_wait_Ok mask c m : ∀ n h, busy (view h) = n → reached mask (phase (view h)) → ∀ fuel, (n < fuel)%nat →
  ∃ h', ide_busy_wait fuel base mask (St c h m) = Ok (EOK, St c h' m) ∧ view h' = set_busy 0 (view h).
Proof.
  intros n. induction n as [|n IH]; intros h Hb Hr fl Hf; (destruct fl as [|fl]; [lia|]); cbn [ide_busy_wait];
    destruct (ata_status IDE_ALT_STATUS h ltac:(by right)) as (v & h1 & E & S & V1);
    rewrite (st_bind_eq _ _ _ _ _ (in8_Ok _ _ _ _ c m E)); destruct (error_Ok v c h1 m) as (h2 & E2 & V2); rewrite (st_bind_eq _ _ _ _ _ E2);
    rewrite V1, Hb in V2; cbn [pred] in V2.
  - destruct (status_reached _ v mask Hb S Hr) as [-> ->]. cbn. rewrite Z.eqb_refl. by exists h2.
  - unfold status_of in S. rewrite Hb in S. rewrite (proj2 (Z.eqb_neq _ _) S). cbn [negb].
    destruct (IH h2 ltac:(by rewrite V2) ltac:(by rewrite V2) fl ltac:(lia)) as (h3 & E3 & V3). exists h3. split; [done|]. by rewrite V3, V2.
Qed.

Lemma wait_soon c' mask c h m : soon latency c' (view h) → reached mask (phase c') →
  ∃ h', ide_busy_wait fuel base mask (St c h m) = Ok (EOK, St c h' m) ∧ view h' = set_busy 0 c'.
Proof.
  intros (b & Hb & E) Hr. destruct (busy_wait_Ok mask c m b h ltac:(by rewrite E) ltac:(by rewrite E) fuel ltac:(lia)) as (h' & E1 & V).
  exists h'. split; [done|]. by rewrite V, E.
Qed.

(** The wait for a state the command never reaches uses up any fuel. *)
Lemma busy_wait_stuck mask c m (Hm : ∀ v ch, busy ch = 0%nat → phase ch = Failed → status_of ch v → Z.land v mask ≠ mask) :
  ∀ fuel h, phase (view h) = Failed → ide_busy_wait fuel base mask (St c h m) = Stop NoFuel.
Proof.
  intros fl. induction fl as [|fl IH]; intros h Hf; [done|]. cbn [ide_busy_wait].
  destruct (ata_status IDE_ALT_STATUS h ltac:(by right)) as (v & h1 & E & S & V1).
  rewrite (st_bind_eq _ _ _ _ _ (in8_Ok _ _ _ _ c m E)). destruct (error_Ok v c h1 m) as (h2 & E2 & V2). rewrite (st_bind_eq _ _ _ _ _ E2).
  assert (Hf2 : phase (view h2) = Failed) by (by rewrite V2, V1). destruct (busy (view h)) as [|n] eqn:Hb.
  - rewrite (proj2 (Z.eqb_neq _ _) (Hm v _ Hb Hf S)). destruct (negb _); by apply IH.
  - unfold status_of in S. rewrite Hb in S. rewrite (proj2 (Z.eqb_neq _ _) S). by apply IH.
Qed.

(** ** One sector *)

Lemma st16_Ok w m p : room m p 2 → st16 p w m = Ok ((), KString.write p (w16 w) m).
Proof.
  intros R. unfold st16, w16. rewrite write_s8. destruct (room_S m p _ R) as [R0 R1].
  rewrite (st_bind_eq _ _ _ _ _ (st_Ok m p w R0)). apply st_Ok. apply (room_write m (p + 1) 1 p [w] R1). lia.
Qed.

Lemma ld16_Ok w m p : bytes_at m p (w16 w) → 0 <= w < 65536 → ld16 p m = Ok (w, m).
Proof.
  intros (B0 & B1 & _) Hw. unfold ld16. rewrite (st_bind_eq _ _ _ _ _ (ld_Ok _ _ _ B0)), (st_bind_eq _ _ _ _ _ (ld_Ok _ _ _ B1)).
  rewrite !u8_s8. unfold u8, mret, st_ret. do 2 f_equal. rewrite (Z.mod_small (w / 256)) by (split; [apply Z.div_pos; lia|apply Z.div_lt_upper_bound; lia]). pose proof (Z.div_mod w 256 ltac:(lia)). lia.
Qed.

Lemma read_words_Ok c : ∀ ws rest h m buf, busy (view h) = 0%nat → phase (view h) = Sending ws rest → ws ≠ [] → room m buf (2 * length ws) →
  ∃ h', read_words (length ws) base buf (St c h m) = Ok ((), St c h' (KString.write buf (w16s ws) m)) ∧ soon latency (set_phase (sent rest) (view h)) (view h').
Proof.
  intros ws. induction ws as [|w ws IH]; intros rest h m buf Hb Hp Hn Hr; [done|]. cbn [read_words length] in *.
  destruct (ata_data_in h w ws rest Hb Hp) as (h1 & E & V). rewrite (st_bind_eq _ _ _ _ _ (in16_Ok _ _ _ _ c m E)).
  rewrite (st_bind_eq _ _ _ _ _ (on_ram_Ok _ _ _ _ c h1 (st16_Ok w m buf ltac:(by apply (room_le _ _ _ 2 Hr); lia)))).
  change (w16s (w :: ws)) with (w16 w ++ w16s ws). rewrite write_app. change (Z.of_nat (length (w16 w))) with 2.
  case_bool_decide as Hw; [subst ws; by exists h1|].
  destruct (IH rest h1 (KString.write buf (w16 w) m) (buf + 2)) as (h2 & E2 & V2); [by rewrite V|by rewrite V|done| |].
  { apply room_write. intros i Hi. apply Hr. lia. }
  exists h2. split; [done|]. by rewrite V in V2.
Qed.

Lemma write_words_Ok c m lba left : ∀ ws got h buf, busy (view h) = 0%nat → phase (view h) = Receiving lba left got → (length got + length ws = 256)%nat → ws ≠ [] →
  Forall (λ w, 0 <= w < 65536) ws → bytes_at m buf (w16s ws) →
  ∃ h', write_words (length ws) base buf (St c h m) = Ok ((), St c h' m) ∧
    soon latency (set_phase (received lba left) (set_media (store_sector (media (view h)) (slave (view h)) lba (got ++ ws)) (view h))) (view h').
Proof.
  intros ws. induction ws as [|w ws IH]; intros got h buf Hb Hp Hl Hn Hw Hm; [done|]. cbn [write_words length] in *.
  apply Forall_cons in Hw as [Hw0 Hw]. change (w16s (w :: ws)) with (w16 w ++ w16s ws) in Hm. apply bytes_at_app in Hm as [M0 M1]. change (Z.of_nat (length (w16 w))) with 2 in M1.
  rewrite (st_bind_eq _ _ _ _ _ (on_ram_Ok _ _ _ _ c h (ld16_Ok w m buf M0 Hw0))).
  set (h1 := outw (base + IDE_DATA) w h). assert (E1 : out16 (base + IDE_DATA) w (St c h m) = Ok ((), St c h1 m)) by done.
  rewrite (st_bind_eq _ _ _ _ _ E1). pose proof (ata_data_out h w lba left got Hb Hp) as V. fold h1 in V. rewrite length_app in V. cbn [length] in V.
  destruct (decide (ws = [])) as [->|Hne].
  - rewrite bool_decide_true in V by (cbn in Hl; lia). by exists h1.
  - rewrite bool_decide_false in V by (destruct ws; [done|cbn in Hl; lia]).
    destruct (IH (got ++ [w]) h1 (buf + 2)) as (h2 & E2 & V2); rewrite ?V; try done; [rewrite length_app; cbn; lia|].
    exists h2. split; [done|]. rewrite V, <- app_assoc in V2. exact V2.
Qed.
(** ** The start of a command *)

Section at_disk.
Context (j : nat) (d : ide_disk_t) (Hsize : sector_size d = SECTOR_SIZE) (Hsel : selector d = IDE_LBA_MASTER ∨ selector d = IDE_LBA_SLAVE).
Definition wired (c : ide_ctrl_t) : Prop := iobase c = base ∧ disks c !! j = Some d.
Abbreviation p := (k, j).

Definition pointed (ch : channel) (lba count : Z) : channel :=
  Channel 0 count (Z.land lba 0xff) (Z.land (Z.shiftr lba 8) 0xff) (Z.land (Z.shiftr lba 16) 0xff) (Z.lor (Z.land (Z.shiftr lba 24) 0xf) (selector d))
    Idle (media ch) (capacity ch) (ident ch) (geometry ch).

Lemma registers ch lba count b : phase ch = Idle → set_busy b (set_reg IDE_HDDEVSEL (Z.lor (Z.land (Z.shiftr lba 24) 0xf) (selector d)) (set_busy 0
    (set_reg IDE_LBA_HIGH (Z.land (Z.shiftr lba 16) 0xff) (set_reg IDE_LBA_MID (Z.land (Z.shiftr lba 8) 0xff) (set_reg IDE_LBA_LOW (Z.land lba 0xff) (set_reg IDE_SECTOR count ch))))))
  = set_busy b (pointed ch lba count).
Proof. destruct ch. cbn [phase]. intros ->. reflexivity. Qed.

Lemma top_nibble lba x : x = IDE_LBA_MASTER ∨ x = IDE_LBA_SLAVE → Z.land (Z.lor (Z.land (Z.shiftr lba 24) 0xf) x) 15 = Z.land (Z.shiftr lba 24) 0xf ∧
  Z.testbit (Z.lor (Z.land (Z.shiftr lba 24) 0xf) x) 4 = Z.testbit x 4 ∧ Z.testbit (Z.lor (Z.land (Z.shiftr lba 24) 0xf) x) 6 = true.
Proof.
  intros Hx. rewrite Z.land_lor_distr_l, <- Z.land_assoc, !Z.lor_spec, !Z.land_spec. change (Z.land 15 15) with 15.
  by destruct Hx as [-> | ->]; rewrite Z.lor_0_r, !andb_false_r.
Qed.

Lemma lba_bytes lba : 0 <= lba < 268435456 →
  Z.land lba 0xff + 256 * Z.land (Z.shiftr lba 8) 0xff + 65536 * Z.land (Z.shiftr lba 16) 0xff + 16777216 * Z.land (Z.shiftr lba 24) 0xf = lba.
Proof.
  intros Hl. rewrite !(Z.land_ones _ 8), (Z.land_ones _ 4) by done. rewrite !Z.shiftr_div_pow2 by done. change (2 ^ 4) with 16. change (2 ^ 8) with 256. change (2 ^ 16) with 65536. change (2 ^ 24) with 16777216.
  replace (lba / 16777216 mod 16) with (lba / 16777216) by (rewrite Z.mod_small; [done|split; [apply Z.div_pos; lia|apply Z.div_lt_upper_bound; lia]]).
  change 16777216 with (256 * 256 * 256). change 65536 with (256 * 256). rewrite <- !Z.div_div by lia.
  pose proof (Z.div_mod lba 256 ltac:(lia)). pose proof (Z.div_mod (lba / 256) 256 ltac:(lia)). pose proof (Z.div_mod (lba / 256 / 256) 256 ltac:(lia)). lia.
Qed.

Lemma pointed_at ch lba count b : 0 <= lba < 268435456 → 0 < count < 256 →
  addressed (set_busy b (pointed ch lba count)) = (if lba + count <=? capacity ch (Z.testbit (selector d) 4) then Some lba else None) ∧
  wanted (set_busy b (pointed ch lba count)) = count ∧ slave (set_busy b (pointed ch lba count)) = Z.testbit (selector d) 4.
Proof.
  intros Hl Hc. destruct (top_nibble lba (selector d) Hsel) as (N1 & N2 & N3).
  assert (Hw : wanted (set_busy b (pointed ch lba count)) = count) by (unfold wanted; cbn; by rewrite (proj2 (Z.eqb_neq _ _)) by lia).
  split; [|split; [exact Hw|exact N2]]. unfold addressed. rewrite Hw. unfold first_sector, lba_mode, lba_of, slave.
  cbn [set_busy pointed nsect lba_low lba_mid lba_high devsel capacity]. rewrite N1, N2, N3. cbn [mbind option_bind]. by rewrite lba_bytes.
Qed.

Lemma select_drive_Ok c h m : wired c → phase (view h) = Idle →
  ∃ h', ide_select_drive p (St c h m) = Ok ((), St (set_active (Some j) c) h' m) ∧ soon latency (set_reg IDE_HDDEVSEL (selector d) (view h)) (view h').
Proof.
  intros [Hb Hd] Hp. unfold ide_select_drive. cbn [fst snd]. exists (outb (base + IDE_HDDEVSEL) (selector d) h). split; [|by apply ata_select].
  eapply st_step; [apply ctrl_at_Ok|]. eapply st_step; [by apply disk_at_Ok|]. rewrite Hb. eapply st_step; [done|]. apply upd_ctrl_Ok.
Qed.

Lemma reg_Ok c h m r v ch b : view h = set_busy b ch → phase ch = Idle → IDE_SECTOR <= r <= IDE_LBA_HIGH →
  ∃ h', out8 (base + r) v (St c h m) = Ok ((), St c h' m) ∧ view h' = set_busy b (set_reg r v ch).
Proof. intros V Hp Hr. exists (outb (base + r) v h). split; [done|]. rewrite ata_reg; [|by rewrite V|done]. by rewrite V. Qed.

Lemma select_sector_Ok c h m ch lba count : wired c → view h = set_busy 0 ch → phase ch = Idle →
  ∃ h', ide_select_sector p lba count (St c h m) = Ok ((), St (set_active (Some j) c) h' m) ∧ soon latency (pointed ch lba count) (view h').
Proof.
  intros [Hb Hd] V Hp. unfold ide_select_sector. cbn [fst snd].
  destruct (reg_Ok c h m IDE_SECTOR count ch 0 V Hp ltac:(done)) as (h1 & E1 & V1).
  destruct (reg_Ok c h1 m IDE_LBA_LOW (Z.land lba 0xff) _ 0 V1 Hp ltac:(done)) as (h2 & E2 & V2).
  destruct (reg_Ok c h2 m IDE_LBA_MID (Z.land (Z.shiftr lba 8) 0xff) _ 0 V2 Hp ltac:(done)) as (h3 & E3 & V3).
  destruct (reg_Ok c h3 m IDE_LBA_HIGH (Z.land (Z.shiftr lba 16) 0xff) _ 0 V3 Hp ltac:(done)) as (h4 & E4 & V4).
  set (w := Z.lor (Z.land (Z.shiftr lba 24) 0xf) (selector d)). exists (outb (base + IDE_HDDEVSEL) w h4). split.
  - eapply st_step; [apply ctrl_at_Ok|]. eapply st_step; [by apply disk_at_Ok|]. rewrite Hb.
    eapply st_step; [exact E1|]. eapply st_step; [exact E2|]. eapply st_step; [exact E3|]. eapply st_step; [exact E4|]. eapply st_step; [done|]. apply upd_ctrl_Ok.
  - pose proof (ata_select w h4 ltac:(by rewrite V4)) as (b & Hl & E). exists b. split; [done|]. rewrite E, V4. apply registers, Hp.
Qed.

(** The offset a comment in [ide_select_sector] wonders about - sector 0 is refused, sector 1 is the
    first - is what a drive does whose [selector] was never set: the register lacks the bit that
    makes the number one of the whole disk, and the sectors of a track count from one. *)
Theorem unset_selector_one_off c h m ch lba count heads sectors :
  wired c → view h = set_busy 0 ch → phase ch = Idle → selector d = 0 → geometry ch false = (heads, sectors) → 0 < heads → 0 <= lba <= sectors → lba < 256 →
  0 < count < 256 → lba - 1 + count <= capacity ch false →
  ∃ h', ide_select_sector p lba count (St c h m) = Ok ((), St (set_active (Some j) c) h' m) ∧ addressed (view h') = if lba =? 0 then None else Some (lba - 1).
Proof.
  clear Hsel. intros Hw V Hp Hs Hg Hh Hl Hl2 Hc Hcap. destruct (select_sector_Ok c h m ch lba count Hw V Hp) as (h' & E & b & _ & V').
  exists h'. split; [exact E|]. rewrite V'. unfold addressed, first_sector, lba_mode, chs_of, slave, wanted.
  cbn [set_busy pointed nsect lba_low lba_mid lba_high devsel capacity geometry]. rewrite Hs.
  rewrite !(Z.land_ones _ 8), (Z.land_ones _ 4) by done. rewrite !Z.shiftr_div_pow2 by done. rewrite (Z.div_small lba (2 ^ 24)), (Z.div_small lba (2 ^ 16)), (Z.div_small lba (2 ^ 8)) by lia.
  rewrite (Z.mod_small lba) by lia. change (Z.lor (0 mod 2 ^ 4) 0) with 0. change (Z.testbit 0 6) with false. change (Z.testbit 0 4) with false. change (Z.land 0 15) with 0.
  rewrite Hg. change (0 mod 2 ^ 8) with 0. rewrite (proj2 (Z.leb_le _ _)), (proj2 (Z.ltb_lt 0 heads)) by lia. rewrite !andb_true_r, (proj2 (Z.eqb_neq count 0)) by lia.
  destruct (Z.eqb_spec lba 0) as [->|]; [done|]. rewrite (proj2 (Z.ltb_lt 0 lba)) by lia. cbn [mbind option_bind].
  rewrite (proj2 (Z.leb_le _ _)) by lia. f_equal; lia.
Qed.

(** What [ide_pio_read] and [ide_pio_write] do before the first sector. *)
Lemma command_Ok c h m lba count : wired c → phase (view h) = Idle →
  ∃ h1 h2 h3, ide_select_drive p (St (set_locked true c) h m) = Ok ((), St (set_active (Some j) (set_locked true c)) h1 m) ∧
    ide_busy_wait fuel base IDE_SR_DRDY (St (set_active (Some j) (set_locked true c)) h1 m) = Ok (EOK, St (set_active (Some j) (set_locked true c)) h2 m) ∧
    ide_select_sector p lba count (St (set_active (Some j) (set_locked true c)) h2 m) = Ok ((), St (set_active (Some j) (set_locked true c)) h3 m) ∧
    soon latency (pointed (view h) lba count) (view h3).
Proof.
  intros Hw Hp. destruct (select_drive_Ok (set_locked true c) h m Hw Hp) as (h1 & E1 & V1).
  destruct (wait_soon _ IDE_SR_DRDY (set_active (Some j) (set_locked true c)) h1 m V1 ltac:(by right; left)) as (h2 & E2 & V2).
  destruct (select_sector_Ok (set_active (Some j) (set_locked true c)) h2 m _ lba count Hw V2 Hp) as (h3 & E3 & V3).
  exists h1, h2, h3. done.
Qed.
(** ** Sectors and interrupts *)

Lemma words_of_sector : Z.to_nat (sector_size d / 2) = 256%nat.
Proof. by rewrite Hsize. Qed.

Lemma get_sector_Ok ch c h m buf now rest : wired c → soon latency (set_phase (Sending now rest) ch) (view h) → length now = 256%nat → room m buf 512 →
  ∃ h1 h2, ide_busy_wait fuel (iobase c) IDE_SR_DRQ (St c h m) = Ok (EOK, St c h1 m) ∧
    ide_pio_read_sector p buf (St c h1 m) = Ok ((), St c h2 (KString.write buf (w16s now) m)) ∧ soon latency (set_phase (sent rest) ch) (view h2).
Proof.
  intros [Hb Hd] V Hn Hr. destruct (wait_soon _ IDE_SR_DRQ c h m V ltac:(by right; right)) as (h1 & E1 & V1).
  destruct (read_words_Ok c now rest h1 m buf) as (h2 & E2 & V2); [by rewrite V1|by rewrite V1|by destruct now|by rewrite Hn|].
  exists h1, h2. split; [by rewrite Hb|]. split; [|by rewrite V1 in V2].
  unfold ide_pio_read_sector. cbn [fst snd]. eapply st_step; [apply ctrl_at_Ok|]. eapply st_step; [by apply disk_at_Ok|]. rewrite words_of_sector, Hb, <- Hn. exact E2.
Qed.

Lemma put_sector_Ok c h m buf lba left ws : wired c → busy (view h) = 0%nat → phase (view h) = Receiving lba left [] → length ws = 256%nat → Forall (λ w, 0 <= w < 65536) ws →
  bytes_at m buf (w16s ws) → ∃ h', ide_pio_write_sector p buf (St c h m) = Ok ((), St c h' m) ∧
    soon latency (set_phase (received lba left) (set_media (store_sector (media (view h)) (slave (view h)) lba ws) (view h))) (view h').
Proof.
  intros [Hb Hd] V Hp Hn Hw Hm. destruct (write_words_Ok c m lba left ws [] h buf V Hp ltac:(by rewrite Hn) ltac:(by destruct ws) Hw Hm) as (h1 & E1 & V1).
  exists h1. split; [|exact V1]. unfold ide_pio_write_sector. cbn [fst snd].
  eapply st_step; [apply ctrl_at_Ok|]. eapply st_step; [by apply disk_at_Ok|]. rewrite words_of_sector, Hb, <- Hn. exact E1.
Qed.

(** The interrupt wakes the task that waits, and nobody waits then. *)
Lemma handler_Ok c h m task ch : wired c → waiter c = None → soon latency ch (view h) →
  ∃ h', ide_handler (IRQ_HARDDISK + Z.of_nat k + 0x20) (St (set_waiter (Some task) c) h m) = Ok (Some task, St c h' m) ∧ soon latency ch (view h').
Proof.
  intros [Hb Hd] Hn (b & Hl & V). destruct (ata_status IDE_STATUS h ltac:(by left)) as (v & h1 & E & _ & V1).
  exists h1. split; [|exists (pred b); split; [lia|]; by rewrite V1, V].
  unfold ide_handler. replace (IRQ_HARDDISK + Z.of_nat k + 32 - IRQ_HARDDISK - 32) with (Z.of_nat k) by lia.
  rewrite (proj2 (Z.ltb_ge _ _)) by lia. rewrite Nat2Z.id. eapply st_step; [apply ctrl_at_Ok|]. cbn [iobase set_waiter waiter].
  eapply st_step; [apply in8_Ok; rewrite Hb; exact E|]. eapply st_step; [apply upd_ctrl_Ok|]. unfold mret, st_ret. do 2 f_equal. unfold state_of. do 2 f_equal. destruct c. cbn in Hn |- *. by rewrite Hn.
Qed.

Lemma read_rest ch c task buf count : wired c → waiter c = None → ∀ secs i n h m, soon latency (set_phase (sent secs) ch) (view h) →
  Forall (λ ws, length ws = 256%nat) secs → room m (buf + i * SECTOR_SIZE) (512 * length secs) → count - i = Z.of_nat (length secs) → (length secs <= n)%nat →
  ∃ h', (pio_read_loop fuel (length secs) p buf i task ≫= read_to_end fuel n p buf count task) (St c h m) =
      Ok (EOK, St (set_locked false c) h' (KString.write (buf + i * SECTOR_SIZE) (mjoin (w16s <$> secs)) m)) ∧ soon latency (set_phase Idle ch) (view h').
Proof.
  intros Hw Hn secs. induction secs as [|now rest IH]; intros i n h m V Hs Hr Hc Hle.
  { exists h. split; [|done]. destruct n; (eapply st_step; [eapply st_step; [apply upd_ctrl_Ok|done]|done]). }
  apply Forall_cons in Hs as [Hs0 Hs]. cbn [length sent] in *. destruct n as [|n]; [lia|]. rewrite join_cons.
  assert (Hstep : ∀ n h, (length rest <= n)%nat → soon latency (set_phase (Sending now rest) ch) (view h) → ∃ h1 h2 h3,
    ide_busy_wait fuel (iobase c) IDE_SR_DRQ (St c h m) = Ok (EOK, St c h1 m) ∧
    ide_pio_read_sector p (buf + i * SECTOR_SIZE) (St c h1 m) = Ok ((), St c h2 (KString.write (buf + i * SECTOR_SIZE) (w16s now) m)) ∧
    (pio_read_loop fuel (length rest) p buf (i + 1) task ≫= read_to_end fuel n p buf count task) (St c h2 (KString.write (buf + i * SECTOR_SIZE) (w16s now) m)) =
      Ok (EOK, St (set_locked false c) h3 (KString.write (buf + i * SECTOR_SIZE) (w16s now ++ mjoin (w16s <$> rest)) m)) ∧ soon latency (set_phase Idle ch) (view h3)).
  { intros n' h0 Hn' V0. destruct (get_sector_Ok ch c h0 m (buf + i * SECTOR_SIZE) now rest Hw V0 Hs0 ltac:(apply (room_le _ _ _ _ Hr); lia)) as (h1 & h2 & E1 & E2 & V2).
    destruct (IH (i + 1) n' h2 (KString.write (buf + i * SECTOR_SIZE) (w16s now) m) V2 Hs) as (h3 & E3 & V3); [|lia|lia|].
    { apply room_write. intros x Hx. apply Hr. unfold SECTOR_SIZE in *. lia. }
    exists h1, h2, h3. do 2 (split; [done|]). split; [|done]. rewrite E3. rewrite write_app. rewrite length_w16s, Hs0. do 4 f_equal. unfold SECTOR_SIZE. lia. }
  cbn [pio_read_loop]. destruct (task =? 0) eqn:Ht; cbn [negb].
  - destruct (Hstep (S n) h ltac:(lia) V) as (h1 & h2 & h3 & E1 & E2 & E3 & V3). exists h3. split; [|done].
    st_go (ctrl_at_Ok c h m). st_go E1. st_go E2. exact E3.
  - destruct (handler_Ok c h m task _ Hw Hn V) as (h0 & E0 & V0). destruct (Hstep n h0 ltac:(lia) V0) as (h1 & h2 & h3 & E1 & E2 & E3 & V3).
    exists h3. split; [|done]. st_go (upd_ctrl_Ok (set_waiter (Some task)) c h m). rewrite st_ret_l. cbn [read_to_end fst].
    st_go E0. unfold ide_read_resume. cbn [fst]. st_go (ctrl_at_Ok c h0 m). st_go E1. st_go E2. replace (Z.to_nat (count - i - 1)) with (length rest) by lia. exact E3.
Qed.
Lemma write_rest ch c task buf count m : wired c → waiter c = None → ∀ secs i n lba md h,
  view h = set_busy 0 (set_phase (receiving lba (length secs)) (set_media md ch)) → Forall (λ ws, length ws = 256%nat ∧ Forall (λ w, 0 <= w < 65536) ws) secs →
  bytes_at m (buf + i * SECTOR_SIZE) (mjoin (w16s <$> secs)) → count - i = Z.of_nat (length secs) → (length secs <= n)%nat →
  ∃ h', (pio_write_loop fuel (length secs) p buf i task ≫= write_to_end fuel n p buf count task) (St c h m) = Ok (EOK, St (set_locked false c) h' m) ∧
    view h' = set_busy 0 (set_phase Idle (set_media (store_sectors md (slave ch) lba secs) ch)).
Proof.
  intros Hw Hn secs. induction secs as [|now rest IH]; intros i n lba md h V Hs Hm Hc Hle.
  { exists h. split; [|done]. destruct n; (eapply st_step; [eapply st_step; [apply upd_ctrl_Ok|done]|done]). }
  apply Forall_cons in Hs as [[Hs0 Hsw] Hs]. cbn [length] in *. destruct n as [|n]; [lia|]. rewrite join_cons in Hm. apply bytes_at_app in Hm as [M0 M1]. rewrite length_w16s, Hs0 in M1.
  destruct (put_sector_Ok c h m (buf + i * SECTOR_SIZE) lba (Z.of_nat (S (length rest))) now Hw ltac:(by rewrite V) ltac:(by rewrite V) Hs0 Hsw M0) as (h1 & E1 & V1).
  rewrite V in V1. cbn [media set_busy set_phase set_media slave devsel] in V1.
  set (md' := store_sector md (slave ch) lba now). set (ch' := set_phase (receiving (lba + 1) (length rest)) (set_media md' ch)).
  assert (soon latency ch' (view h1)) as V1'.
  { destruct V1 as (b & Hb & V1). exists b. split; [done|]. rewrite V1. unfold ch', received. destruct rest as [|x rest]; [done|]. cbn [length].
    rewrite (proj2 (Z.eqb_neq _ _)) by lia. replace (Z.of_nat (S (S (length rest))) - 1) with (Z.of_nat (S (length rest))) by lia. done. }
  assert (Hstep : ∀ n h, (length rest <= n)%nat → soon latency ch' (view h) → ∃ h2 h3, ide_busy_wait fuel (iobase c) IDE_SR_NULL (St c h m) = Ok (EOK, St c h2 m) ∧
    (pio_write_loop fuel (length rest) p buf (i + 1) task ≫= write_to_end fuel n p buf count task) (St c h2 m) = Ok (EOK, St (set_locked false c) h3 m) ∧
    view h3 = set_busy 0 (set_phase Idle (set_media (store_sectors md (slave ch) lba (now :: rest)) ch))).
  { intros n' h0 Hn' V0. destruct (wait_soon _ IDE_SR_NULL c h0 m V0 ltac:(by left)) as (h2 & E2 & V2).
    destruct (IH (i + 1) n' (lba + 1) md' h2 V2 Hs) as (h3 & E3 & V3); [|lia|lia|].
    { replace (buf + (i + 1) * SECTOR_SIZE) with (buf + i * SECTOR_SIZE + Z.of_nat (2 * 256)) by (unfold SECTOR_SIZE; lia). exact M1. }
    exists h2, h3. split; [by rewrite (proj1 Hw)|]. split; [exact E3|exact V3]. }
  cbn [pio_write_loop]. destruct (task =? 0) eqn:Ht; cbn [negb].
  - destruct (Hstep (S n) h1 ltac:(lia) V1') as (h2 & h3 & E2 & E3 & V3). exists h3. split; [|done]. st_go E1. st_go (ctrl_at_Ok c h1 m). st_go E2. exact E3.
  - destruct (handler_Ok c h1 m task _ Hw Hn V1') as (h0 & E0 & V0). destruct (Hstep n h0 ltac:(lia) V0) as (h2 & h3 & E2 & E3 & V3). exists h3. split; [|done].
    st_go E1. st_go (upd_ctrl_Ok (set_waiter (Some task)) c h1 m). rewrite st_ret_l. cbn [write_to_end fst]. st_go E0. unfold ide_write_resume. cbn [fst].
    st_go (ctrl_at_Ok c h0 m). st_go E2. replace (Z.to_nat (count - i - 1)) with (length rest) by lia. exact E3.
Qed.

(** ** The entries of the partition table *)

Section table.
Context (buf : Z) (m : mem) (bs : list Z) (Hbs : bytes_at m buf bs) (Hlen : length bs = 512%nat).

Definition with_parts (ps : list ide_part_t) (c : ide_ctrl_t) : ide_ctrl_t := set_disks (<[j := set_parts ps d]> (disks c)) c.

Lemma upd_disk_Ok f x c h : disks c !! j = Some x → upd_disk p f (St c h m) = Ok ((), St (set_disks (<[j := f x]> (disks c)) c) h m).
Proof. intros Hx. unfold upd_disk. eapply st_step; [by apply disk_at_Ok|]. exact (upd_ctrl_Ok (λ c0, set_disks (<[j := f x]> (disks c0)) c0) c h m). Qed.

Lemma set_parts_parts ps c : (j < length (disks c))%nat → with_parts ps (with_parts (parts d) c) = with_parts ps c.
Proof. intros Hj. unfold with_parts, set_disks. cbn. by rewrite list_insert_insert_eq. Qed.

Lemma same_parts c : disks c !! j = Some d → with_parts (parts d) c = c.
Proof.
  intros Hd. unfold with_parts, set_disks. rewrite list_insert_id; [by destruct c|]. rewrite Hd. clear. by destruct d.
Qed.

Definition fill_part (i : nat) (ps : list ide_part_t) : list ide_part_t := alter (part_of bs (disk_name d) i) i ps.

Lemma fill_same i ps : (dword_of bs (entry_of i + 12) =? 0) = true → fill_part i ps = ps.
Proof.
  intros Ez. unfold fill_part, part_of. rewrite Ez. apply list_eq. intros x. destruct (decide (x = i)) as [->|]; [rewrite list_lookup_alter_eq; by destruct (ps !! i)|by rewrite list_lookup_alter_ne].
Qed.

Lemma fill_insert i ps old : ps !! i = Some old → (dword_of bs (entry_of i + 12) =? 0) = false →
  <[i := Part (disk_name d ++ [49 + Z.of_nat i]) (byte_of bs (entry_of i + 4)) (dword_of bs (entry_of i + 8)) (dword_of bs (entry_of i + 12))]> ps = fill_part i ps.
Proof.
  intros Hold Ez. assert (i < length ps)%nat by by apply lookup_lt_Some in Hold. unfold fill_part. apply list_eq. intros x. destruct (decide (x = i)) as [->|].
  - rewrite list_lookup_insert_eq by done. rewrite list_lookup_alter_eq, Hold. unfold part_of. cbn [fmap option_fmap option_map]. by rewrite Ez.
  - by rewrite list_lookup_insert_ne, list_lookup_alter_ne.
Qed.

Lemma entry_Ok c h ps i n : (j < length (disks c))%nat → (i < 4)%nat → length ps = 4%nat → (dword_of bs (entry_of i + 12) ≠ 0 → byte_of bs (entry_of i + 4) ≠ PART_FS_EXTENDED) →
  part_entries fuel (S n) p buf i (St (with_parts ps c) h m) = part_entries fuel n p buf (S i) (St (with_parts (fill_part i ps) c) h m).
Proof.
  intros Hj Hi Hps Hx. assert (En : entry_at buf i = buf + Z.of_nat (entry_of i)) by (unfold entry_at, entry_of; lia). assert (Hb : (entry_of i + 16 <= 512)%nat) by (unfold entry_of; lia).
  cbn [part_entries]. eapply st_step; [apply on_ram_Ok; unfold entry_count; apply (ld32_of m buf bs (entry_of i + 12)); [rewrite En; lia|exact Hbs|lia]|]. cbv beta.
  destruct (lookup_lt_is_Some_2 ps i ltac:(lia)) as [old Hold]. destruct (dword_of bs (entry_of i + 12) =? 0) eqn:Ez; [by rewrite fill_same|].
  assert (Hd : disks (with_parts ps c) !! j = Some (set_parts ps d)) by (cbn; by rewrite list_lookup_insert_eq).
  st_go (disk_at_Ok j _ _ h m Hd). destruct (ld_byte m buf bs (entry_of i + 4) Hbs ltac:(lia)) as (v & Ev & Hv).
  assert (Es : entry_system (entry_at buf i) m = Ok (byte_of bs (entry_of i + 4), m)).
  { unfold entry_system. eapply st_step; [rewrite En, <- Z.add_assoc; rewrite Nat2Z.inj_add in Ev; exact Ev|]. by rewrite Hv. }
  st_go (on_ram_Ok _ _ _ _ (with_parts ps c) h Es).
  assert (Et : entry_start (entry_at buf i) m = Ok (dword_of bs (entry_of i + 8), m)) by (apply (ld32_of m buf bs); [rewrite En; lia|exact Hbs|lia]).
  st_go (on_ram_Ok _ _ _ _ (with_parts ps c) h Et). unfold set_part. st_go (upd_disk_Ok (λ d0, set_parts (<[i := Part (disk_name (set_parts ps d) ++ [49 + Z.of_nat i]) (byte_of bs (entry_of i + 4)) (dword_of bs (entry_of i + 8)) (dword_of bs (entry_of i + 12))]> (parts d0)) d0) _ _ h Hd).
  rewrite (proj2 (Z.eqb_neq (byte_of _ _) _)) by (apply Hx; by apply Z.eqb_neq). rewrite st_ret_l.
  change (parts (set_parts ps d)) with ps. change (disk_name (set_parts ps d)) with (disk_name d). rewrite (fill_insert i ps old Hold Ez).
  f_equal. f_equal. unfold with_parts, set_disks. cbn [disks ctrl_name locked iobase active control waiter]. by rewrite list_insert_insert_eq.
Qed.
End table.

(** ** Transfers *)

Section transfer.
Context (c : ide_ctrl_t) (h : D) (m : mem) (lba count : Z).
Context (Hw : wired c) (Hfree : locked c = false) (Hwait : waiter c = None) (Hidle : phase (view h) = Idle).
Context (Hlba : 0 <= lba < 268435456) (Hcount : 0 < count < 256).
Local Definition side : bool := Z.testbit (selector d) 4.
Local Definition during : ide_ctrl_t := set_active (Some j) (set_locked true c).

Lemma unlocked : set_locked false during = set_active (Some j) c.
Proof. clear -Hfree. unfold during. destruct c. cbn in *. by rewrite Hfree. Qed.

(** Both transfers up to their loop; [v] is the command. *)
Lemma command_sent v : ∃ h1 h2 h3, let h4 := outb (base + IDE_COMMAND) v h3 in
  ide_select_drive p (St (set_locked true c) h m) = Ok ((), St during h1 m) ∧ ide_busy_wait fuel base IDE_SR_DRDY (St during h1 m) = Ok (EOK, St during h2 m) ∧
  ide_select_sector p lba count (St during h2 m) = Ok ((), St during h3 m) ∧ out8 (base + IDE_COMMAND) v (St during h3 m) = Ok ((), St during h4 m) ∧
  phase (view h3) = Idle ∧ addressed (view h3) = (if lba + count <=? capacity (view h) side then Some lba else None) ∧ wanted (view h3) = count ∧ slave (view h3) = side ∧
  media (view h3) = media (view h) ∧ capacity (view h3) = capacity (view h).
Proof.
  destruct (command_Ok c h m lba count Hw Hidle) as (h1 & h2 & h3 & E1 & E2 & E3 & b & _ & V). exists h1, h2, h3. do 4 (split; [done|]). rewrite V.
  destruct (pointed_at (view h) lba count b Hlba Hcount) as (-> & -> & ->). done.
Qed.

Lemma read_enters task buf : ∃ h4, ide_pio_read fuel p buf count lba task (St c h m) = pio_read_loop fuel (Z.to_nat count) p buf 0 task (St during h4 m) ∧
  ∃ ch, soon latency (set_phase (if lba + count <=? capacity (view h) side then sent (sectors_from (media (view h)) side lba (Z.to_nat count)) else Failed) ch) (view h4) ∧
    media ch = media (view h) ∧ capacity ch = capacity (view h).
Proof.
  destruct (command_sent IDE_CMD_READ) as (h1 & h2 & h3 & E1 & E2 & E3 & E4 & F1 & F2 & F3 & F4 & F5 & F6). exists (outb (base + IDE_COMMAND) IDE_CMD_READ h3). split.
  - unfold ide_pio_read. rewrite (proj2 (Z.ltb_lt 0 count)) by lia. change (sassert true ≫= ?f) with (mret () ≫= f). rewrite st_ret_l.
    eapply st_step; [done|]. eapply st_step; [done|]. cbn [fst]. st_go (ctrl_at_Ok c h m). rewrite Hfree. st_go (upd_ctrl_Ok (set_locked true) c h m).
    st_go E1. rewrite (proj1 Hw). st_go E2. st_go E3. st_go E4. done.
  - exists (view h3). pose proof (ata_read h3 F1) as R. cbv zeta in R. rewrite F2, F3, F4, F5 in R. by destruct (_ <=? _).
Qed.

Lemma write_enters task buf : ∃ h4, ide_pio_write fuel p buf count lba task (St c h m) = pio_write_loop fuel (Z.to_nat count) p buf 0 task (St during h4 m) ∧
  ∃ ch h3, h4 = outb (base + IDE_COMMAND) IDE_CMD_WRITE h3 ∧ phase (view h3) = Idle ∧ slave ch = side ∧
    soon latency (set_phase (if lba + count <=? capacity (view h) side then Receiving lba count [] else Failed) ch) (view h4) ∧ media ch = media (view h) ∧ capacity ch = capacity (view h).
Proof.
  destruct (command_sent IDE_CMD_WRITE) as (h1 & h2 & h3 & E1 & E2 & E3 & E4 & F1 & F2 & F3 & F4 & F5 & F6). exists (outb (base + IDE_COMMAND) IDE_CMD_WRITE h3). split.
  - unfold ide_pio_write. rewrite (proj2 (Z.ltb_lt 0 count)) by lia. change (sassert true ≫= ?f) with (mret () ≫= f). rewrite st_ret_l.
    eapply st_step; [done|]. eapply st_step; [done|]. cbn [fst]. st_go (ctrl_at_Ok c h m). rewrite Hfree. st_go (upd_ctrl_Ok (set_locked true) c h m).
    st_go E1. rewrite (proj1 Hw). st_go E2. st_go E3. st_go E4. done.
  - exists (view h3), h3. pose proof (ata_write h3 F1) as R. cbv zeta in R. rewrite F2, F3 in R. split_and!; try done. by destruct (_ <=? _).
Qed.
End transfer.
End at_disk.
End at_controller.
(** ** Disks that are ready *)

(** Disk [d] of the free controller [c], on this channel, with no command under way and its
    selector set, as [ide_ctrl_init] does. *)
Record attached (s : ide) (p : disk_ptr) (c : ide_ctrl_t) (d : ide_disk_t) : Prop := {
  at_ctrl : controllers s !! p.1 = Some c; at_wired : wired p.2 d c; at_free : locked c = false; at_wait : waiter c = None;
  at_size : sector_size d = SECTOR_SIZE; at_sel : selector d = IDE_LBA_MASTER ∨ selector d = IDE_LBA_SLAVE; at_ints : interrupts s = false;
  at_idle : phase (view (hw s)) = Idle
}.

Lemma attached_state s p c d : attached s p c d → s = state_of (controllers s) p.1 c (hw s) (ram s) ∧ (p.1 < length (controllers s))%nat.
Proof.
  intros At. destruct At as [Hc _ _ _ _ _ Hi _]. split; [|by apply lookup_lt_Some in Hc]. unfold state_of. rewrite list_insert_id by done. destruct s. cbn in *. by subst.
Qed.

Lemma attached_after s p c d h m : attached s p c d → phase (view h) = Idle → attached (state_of (controllers s) p.1 (set_active (Some p.2) c) h m) p (set_active (Some p.2) c) d.
Proof.
  intros At Hp. destruct (attached_state s p c d At) as [_ Hl]. destruct At. split; try done. cbn. by rewrite list_lookup_insert_eq.
Qed.

Lemma read_served_Ok s p c d buf count lba task (md := media (view (hw s))) (secs := sectors_from md (side d) lba (Z.to_nat count)) :
  attached s p c d → 0 <= lba < 268435456 → 0 < count < 256 → lba + count <= capacity (view (hw s)) (side d) → Forall (λ ws, length ws = 256%nat) secs →
  room (ram s) buf (512 * Z.to_nat count) → ∃ h', phase (view h') = Idle ∧ media (view h') = md ∧ capacity (view h') = capacity (view (hw s)) ∧
    read_served fuel p buf count lba task s = Ok (EOK, state_of (controllers s) p.1 (set_active (Some p.2) c) h' (KString.write buf (mjoin (w16s <$> secs)) (ram s))).
Proof.
  intros At Hl Hc Hcap Hs Hr. destruct (attached_state s p c d At) as [Es Hk]. destruct At as [_ Hw Hf Hwt Hsz Hsel _ Hid]. destruct p as [k j]. cbn [fst snd] in *.
  destruct (read_enters (controllers s) k Hk j d Hsel c (hw s) (ram s) lba count Hw Hf Hid Hl Hc task buf) as (h4 & E & ch & V & M & C).
  rewrite (proj2 (Z.leb_le _ _) Hcap) in V. fold md secs in V. assert (Hlen : length secs = Z.to_nat count) by (unfold secs, sectors_from; by rewrite length_fmap, length_seq).
  assert (Hwd : wired j d (during j c)) by done.
  destruct (read_rest (controllers s) k Hk j d Hsz ch (during j c) task buf count Hwd Hwt secs 0 (Z.to_nat count) h4 (ram s) V Hs) as (h' & E' & b & _ & V'); [|lia|lia|].
  { rewrite Hlen. by replace (buf + 0 * SECTOR_SIZE) with buf by lia. }
  exists h'. rewrite V'. do 3 (split; [done|]). unfold read_served. rewrite Hlen in E'. replace (buf + 0 * SECTOR_SIZE) with buf in E' by lia.
  rewrite unlocked in E' by done. rewrite <- E'. rewrite Es at 1. unfold mbind, st_bind. rewrite E. done.
Qed.

Definition answers_at_once : Prop := ∀ h, phase (view h) = Idle → busy (view (outb (base + IDE_COMMAND) IDE_CMD_WRITE h)) = 0%nat.

Lemma write_served_Ok s p c d buf count lba task secs : answers_at_once →
  attached s p c d → 0 <= lba < 268435456 → 0 < count < 256 → lba + count <= capacity (view (hw s)) (side d) → length secs = Z.to_nat count →
  Forall (λ ws, length ws = 256%nat ∧ Forall (λ w, 0 <= w < 65536) ws) secs → bytes_at (ram s) buf (mjoin (w16s <$> secs)) → 
  ∃ h', phase (view h') = Idle ∧ media (view h') = store_sectors (media (view (hw s))) (side d) lba secs ∧ capacity (view h') = capacity (view (hw s)) ∧
    write_served fuel p buf count lba task s = Ok (EOK, state_of (controllers s) p.1 (set_active (Some p.2) c) h' (ram s)).
Proof.
  intros Once At Hl Hc Hcap Hlen Hs Hm. destruct (attached_state s p c d At) as [Es Hk]. destruct At as [_ Hw Hf Hwt Hsz Hsel _ Hid]. destruct p as [k j]. cbn [fst snd] in *.
  destruct (write_enters (controllers s) k Hk j d Hsel c (hw s) (ram s) lba count Hw Hf Hid Hl Hc task buf) as (h4 & E & ch & h3 & E4 & P3 & Sl & V & M & C).
  rewrite (proj2 (Z.leb_le _ _) Hcap) in V. assert (Hwd : wired j d (during j c)) by done.
  assert (V0 : view h4 = set_busy 0 (set_phase (receiving lba (length secs)) (set_media (media ch) ch))).
  { pose proof (Once h3 P3) as B. rewrite <- E4 in B. destruct V as (b & _ & V). rewrite V in B |- *. cbn [busy set_busy] in B. subst b.
    replace (receiving lba (length secs)) with (Receiving lba count []) by (rewrite Hlen; destruct (Z.to_nat count) eqn:Hn; [lia|]; cbn [receiving]; f_equal; lia). by destruct ch. }
  destruct (write_rest (controllers s) k Hk j d Hsz ch (during j c) task buf count (ram s) Hwd Hwt secs 0 (Z.to_nat count) lba (media ch) h4 V0 Hs) as (h' & E' & V'); [|lia|lia|].
  { by replace (buf + 0 * SECTOR_SIZE) with buf by lia. }
  exists h'. rewrite V'. split; [done|]. split; [cbn [media set_busy set_phase set_media]; by rewrite Sl, M|]. split; [done|]. unfold write_served. rewrite Hlen in E'.
  rewrite unlocked in E' by done. rewrite <- E'. rewrite Es at 1. unfold mbind, st_bind. rewrite E. done.
Qed.
Lemma store_other md b : ∀ secs lba b' x, (b' ≠ b ∨ x < lba ∨ lba + Z.of_nat (length secs) <= x) → store_sectors md b lba secs b' x = md b' x.
Proof.
  intros secs. revert md. induction secs as [|ws secs IH]; intros md lba b' x Hx; [done|]. cbn [store_sectors length] in *. rewrite IH by (destruct Hx as [?|[?|?]]; [by left|right; left; lia|right; right; lia]).
  unfold store_sector. rewrite bool_decide_eq_false_2; [done|]. intros [-> ->]. destruct Hx as [?|[?|?]]; [done|lia|lia].
Qed.

Lemma stored md b : ∀ secs lba, sectors_from (store_sectors md b lba secs) b lba (length secs) = secs.
Proof.
  intros secs. revert md. induction secs as [|ws secs IH]; intros md lba; [done|]. cbn [length store_sectors]. unfold sectors_from in *. cbn [seq fmap list_fmap].
  f_equal.
  - rewrite Z.add_0_r. rewrite store_other by (right; left; lia). unfold store_sector. by rewrite bool_decide_eq_true_2.
  - rewrite <- fmap_S_seq, <- list_fmap_compose. rewrite <- (IH (store_sector md b lba ws) (lba + 1)) at 2. apply list_fmap_ext. intros n x _. cbn. f_equal. lia.
Qed.

Lemma word_chars vs : Forall is_char (w16s vs).
Proof. unfold w16s. induction vs as [|v vs IH]; [constructor|]. cbn [fmap list_fmap mjoin list_join]. apply Forall_app. split; [|done]. repeat constructor; apply s8_char. Qed.

Lemma sectors_chars secs : Forall is_char (mjoin (w16s <$> secs)).
Proof. induction secs as [|ws secs IH]; [constructor|]. rewrite join_cons. apply Forall_app. split; [apply word_chars|done]. Qed.

Lemma sectors_length secs : Forall (λ ws, length ws = 256%nat) secs → length (mjoin (w16s <$> secs)) = (512 * length secs)%nat.
Proof. induction 1 as [|ws secs Hw _ IH]; [done|]. rewrite join_cons, length_app, IH, length_w16s, Hw. cbn [length]. lia. Qed.

(** C35. Reading [count] sectors from [lba] on of a disk that is ready puts them into the buffer and
    changes nothing else of the memory, for the idle task, which polls, as for a task that sleeps
    until each interrupt; the controller is free afterwards and the medium unchanged.  Sectors count
    from 0: the driver sends the selector, and with it the bit for this, along with the number; a
    drive without it would count from 1 ([unset_selector_one_off], the comment in the code). *)
Theorem read_delivers s p c d buf count lba task (md := media (view (hw s))) (secs := sectors_from md (side d) lba (Z.to_nat count)) :
  attached s p c d → 0 <= lba < 268435456 → 0 < count < 256 → lba + count <= capacity (view (hw s)) (side d) → Forall (λ ws, length ws = 256%nat) secs →
  room (ram s) buf (512 * Z.to_nat count) →
  ∃ s', read_served fuel p buf count lba task s = Ok (EOK, s') ∧ bytes_at (ram s') buf (mjoin (w16s <$> secs)) ∧ only (ram s) (ram s') buf (512 * Z.to_nat count) ∧
    attached s' p (set_active (Some p.2) c) d ∧ media (view (hw s')) = md.
Proof.
  intros At Hl Hc Hcap Hs Hr. destruct (read_served_Ok s p c d buf count lba task At Hl Hc Hcap Hs Hr) as (h' & P' & M & _ & E).
  eexists. split; [exact E|]. split; [apply write_bytes, sectors_chars|]. split; [|split; [by apply attached_after|done]].
  assert (length (mjoin (w16s <$> secs)) = (512 * Z.to_nat count)%nat) as <-; [|apply write_only].
  rewrite sectors_length by done. unfold secs, sectors_from. by rewrite length_fmap, length_seq.
Qed.

(** C36. What is written is read back: sectors written from one buffer, by whatever task, and read into
    another are the same bytes, and no other sector of either disk changes - provided the drive
    takes data at once after the command, for which the driver does not wait. *)
Theorem write_read_sectors s p c d buf buf2 count lba task task2 secs : answers_at_once →
  attached s p c d → 0 <= lba < 268435456 → 0 < count < 256 → lba + count <= capacity (view (hw s)) (side d) → length secs = Z.to_nat count →
  Forall (λ ws, length ws = 256%nat ∧ Forall (λ w, 0 <= w < 65536) ws) secs → bytes_at (ram s) buf (mjoin (w16s <$> secs)) → room (ram s) buf2 (512 * Z.to_nat count) →
  ∃ s1 s2, write_served fuel p buf count lba task s = Ok (EOK, s1) ∧ read_served fuel p buf2 count lba task2 s1 = Ok (EOK, s2) ∧
    bytes_at (ram s2) buf2 (mjoin (w16s <$> secs)) ∧ attached s2 p (set_active (Some p.2) c) d ∧
    ∀ b x, (b ≠ side d ∨ x < lba ∨ lba + count <= x) → media (view (hw s2)) b x = media (view (hw s)) b x.
Proof.
  intros Once At Hl Hc Hcap Hlen Hs Hm Hr. destruct (write_served_Ok s p c d buf count lba task secs Once At Hl Hc Hcap Hlen Hs Hm) as (h1 & P1 & M1 & C1 & E1).
  set (s1 := state_of (controllers s) p.1 (set_active (Some p.2) c) h1 (ram s)) in E1. assert (At1 : attached s1 p (set_active (Some p.2) c) d) by by apply attached_after.
  assert (Es : sectors_from (media (view (hw s1))) (side d) lba (Z.to_nat count) = secs) by (cbn [s1 state_of hw]; rewrite M1, <- Hlen; apply stored).
  destruct (read_served_Ok s1 p (set_active (Some p.2) c) d buf2 count lba task2 At1 Hl Hc) as (h2 & P2 & M2 & _ & E2); [cbn [s1 state_of hw]; by rewrite C1| |done|].
  { rewrite Es. eapply Forall_impl; [exact Hs|]. by intros ? []. }
  rewrite Es in E2. exists s1. eexists. split; [exact E1|]. split; [exact E2|]. split; [apply write_bytes, sectors_chars|]. split; [by apply (attached_after s1 p (set_active (Some p.2) c) d)|].
  intros b x Hx. cbn [state_of hw]. rewrite M2. cbn [s1 state_of hw]. rewrite M1. apply store_other. rewrite Hlen, Z2Nat.id by lia. exact Hx.
Qed.

Lemma idle_read_done p buf : ∀ n i s e s', pio_read_loop fuel n p buf i 0 s = Ok (e, s') → e = Done EOK.
Proof.
  intros n. induction n as [|n IH]; intros i s e s' E; cbn [pio_read_loop] in E.
  - apply st_bind_Ok in E as (? & ? & ? & [= <- <-]). done.
  - cbn [Z.eqb negb] in E. apply st_bind_Ok in E as (? & ? & _ & E). apply st_bind_Ok in E as (? & ? & _ & E). apply st_bind_Ok in E as (? & ? & _ & E). by apply IH in E.
Qed.

Lemma idle_read_Ok s p c d buf count lba s' : attached s p c d → 0 <= lba < 268435456 → 0 < count < 256 →
  read_served fuel p buf count lba 0 s = Ok (EOK, s') → ide_pio_read fuel p buf count lba 0 s = Ok (Done EOK, s').
Proof.
  intros At Hl Hc E. destruct (attached_state s p c d At) as [Es Hk]. destruct At as [_ Hw Hf _ _ Hsel _ Hid]. destruct p as [k j]. cbn [fst snd] in *.
  destruct (read_enters (controllers s) k Hk j d Hsel c (hw s) (ram s) lba count Hw Hf Hid Hl Hc 0 buf) as (h4 & E4 & _). rewrite <- Es in E4.
  unfold read_served in E. apply st_bind_Ok in E as (e & s1 & E1 & E). pose proof E1 as E2. rewrite E4 in E1. apply idle_read_done in E1 as ->. rewrite E2.
  by destruct (Z.to_nat count); injection E as ->.
Qed.

(** C37. What [ide_part_init] finds on a disk whose boot sector holds [bs]: with the signature, the four
    entries become the partitions, named after the disk, where the entry is not empty; without it
    nothing changes.  No entry may be an extended partition, for which another sector is read. *)
Theorem partitions_found s p c d buf (bs := w16s (media (view (hw s)) (side d) 0))
    (ps := if word_of bs 510 =? 0xaa55 then imap (part_of bs (disk_name d)) (parts d) else parts d) :
  attached s p c d → 1 <= capacity (view (hw s)) (side d) → length (media (view (hw s)) (side d) 0) = 256%nat → length (parts d) = 4%nat → room (ram s) buf 512 →
  (∀ i, (i < 4)%nat → dword_of bs (entry_of i + 12) ≠ 0 → byte_of bs (entry_of i + 4) ≠ PART_FS_EXTENDED) →
  ∃ s', ide_part_init fuel p buf s = Ok ((), s') ∧ controllers s' = <[p.1 := set_active (Some p.2) (with_parts p.2 d ps c)]> (controllers s) ∧
    bytes_at (ram s') buf bs ∧ only (ram s) (ram s') buf 512.
Proof.
  intros At Hcap Hlen Hps Hr Hx. destruct (attached_state s p c d At) as [_ Hk].
  destruct (read_served_Ok s p c d buf 1 0 0 At ltac:(lia) ltac:(lia) ltac:(lia)) as (h' & P' & M & _ & E); [by repeat constructor|exact Hr|].
  apply (idle_read_Ok s p c d) in E; [|done|lia|lia]. destruct (at_wired _ _ _ _ At) as [_ Hd]. destruct p as [k j]. cbn [fst snd] in *. set (c1 := set_active (Some j) c) in *.
  change (mjoin _) with (bs ++ []) in E. rewrite app_nil_r in E. set (m := KString.write buf bs (ram s)) in *.
  assert (Hb : length bs = 512%nat) by (unfold bs; by rewrite length_w16s, Hlen). assert (Bs : bytes_at m buf bs) by (apply write_bytes, word_chars).
  assert (Hj : (j < length (disks c))%nat) by by apply lookup_lt_Some in Hd.
  assert (Hsame : with_parts j d (parts d) c1 = c1) by (apply same_parts; exact Hd).
  assert (Hsig : on_ram (ld16 (buf + 510)) (state_of (controllers s) k c1 h' m) = Ok (word_of bs 510, state_of (controllers s) k c1 h' m)).
  { apply on_ram_Ok. destruct (ld_byte m buf bs 510 Bs ltac:(lia)) as (a & Ea & Ha). destruct (ld_byte m buf bs 511 Bs ltac:(lia)) as (b & Eb & Hbb).
    unfold word_of. rewrite <- Ha. change (510 + 1)%nat with 511%nat. rewrite <- Hbb. unfold ld16. eapply st_step; [exact Ea|]. eapply st_step; [replace (buf + 510 + 1) with (buf + Z.of_nat 511) by lia; exact Eb|done]. }
  exists (state_of (controllers s) k (with_parts j d ps c1) h' m). split; [|split; [done|split; [exact Bs|]]]; [|rewrite <- Hb; apply write_only].
  unfold ide_part_init. st_go E. st_go Hsig. unfold ps. destruct (word_of bs 510 =? 43605); [|by rewrite Hsame].
  assert (Hstep : ∀ i n qs, (i < 4)%nat → length qs = 4%nat → part_entries fuel (S n) (k, j) buf i (state_of (controllers s) k (with_parts j d qs c1) h' m) =
    part_entries fuel n (k, j) buf (S i) (state_of (controllers s) k (with_parts j d (fill_part d bs i qs) c1) h' m)).
  { intros i n qs Hi Hq. apply entry_Ok; auto. }
  assert (Hfl : ∀ i qs, length qs = 4%nat → length (fill_part d bs i qs) = 4%nat) by (intros i qs Hq; unfold fill_part; by rewrite length_alter).
  rewrite <- Hsame at 1. rewrite !Hstep by (lia || auto). cbn [part_entries]. unfold mret, st_ret. do 4 f_equal.
  unfold fill_part. destruct (parts d) as [|q0 [|q1 [|q2 [|q3 [|]]]]]; try done.
Qed.

(** C38. A read that the drive refuses, because it goes past the last sector, never comes back: the
    error is looked at and the driver waits on for data, whatever the fuel. *)
Theorem read_past_end_never_returns s p c d buf count lba task :
  attached s p c d → 0 <= lba < 268435456 → 0 < count < 256 → capacity (view (hw s)) (side d) < lba + count →
  read_served fuel p buf count lba task s = Stop NoFuel.
Proof.
  intros At Hl Hc Hcap. destruct (attached_state s p c d At) as [Es Hk]. destruct At as [_ Hw Hf Hwt Hsz Hsel _ Hid]. destruct p as [k j]. cbn [fst snd] in *.
  destruct (read_enters (controllers s) k Hk j d Hsel c (hw s) (ram s) lba count Hw Hf Hid Hl Hc task buf) as (h4 & E & ch & V & M & C).
  rewrite (proj2 (Z.leb_gt _ _) Hcap) in V. unfold read_served. rewrite Es at 1. unfold mbind at 1, st_bind at 1. rewrite E. clear E.
  assert (Hm : ∀ v ch, busy ch = 0%nat → phase ch = Failed → status_of ch v → Z.land v IDE_SR_DRQ ≠ IDE_SR_DRQ).
  { intros v ch0 B F S. unfold status_of in S. rewrite B, F in S. destruct S as (_ & _ & ->). done. }
  assert (Hst : ∀ h, soon latency (set_phase Failed ch) (view h) → ide_busy_wait fuel base IDE_SR_DRQ (state_of (controllers s) k (during j c) h (ram s)) = Stop NoFuel).
  { intros h (b & _ & Vh). apply busy_wait_stuck; [done|]. by rewrite Vh. }
  destruct (Z.to_nat count) as [|n] eqn:Hn; [lia|]. cbn [pio_read_loop]. destruct (task =? 0) eqn:Ht; cbn [negb].
  - unfold mbind, st_bind. cbn [fst]. rewrite ctrl_at_Ok by done. rewrite (proj1 Hw : iobase (during j c) = base). by rewrite Hst.
  - assert (Hwd : wired j d (during j c)) by done.
    destruct (handler_Ok (controllers s) k Hk j d (during j c) h4 (ram s) task _ Hwd Hwt V) as (h0 & E0 & V0).
    unfold mbind, st_bind. rewrite upd_ctrl_Ok by done. unfold mret, st_ret. cbn [read_to_end fst]. unfold mbind, st_bind. rewrite E0.
    unfold ide_read_resume, mbind, st_bind. cbn [fst]. rewrite ctrl_at_Ok by done. rewrite (proj1 Hw : iobase (during j c) = base). by rewrite Hst.
Qed.
End channel.

(** ** A small controller *)

Definition small_base : Z := IDE_IOBASE_PRIMARY.
Definition small_latency : nat := 2.
Definition small_status (c : channel) : Z :=
  match busy c with S _ => IDE_SR_BSY | O => IDE_SR_DRDY + (if transferring (phase c) then IDE_SR_DRQ else 0) + (match phase c with Failed => IDE_SR_ERR | _ => 0 end) end.
Definition small_inb (p : Z) (c : channel) : Z * channel :=
  if (p =? small_base + IDE_STATUS) || (p =? small_base + IDE_ALT_STATUS) then (small_status c, set_busy (pred (busy c)) c) else (0, c).
Definition small_inw (p : Z) (c : channel) : Z * channel :=
  match phase c with
  | Sending (w :: ws) rest => (w, if bool_decide (ws = []) then set_busy 2 (set_phase (sent rest) c) else set_phase (Sending ws rest) c)
  | _ => (0, c)
  end.
Definition small_command (v : Z) (c : channel) : channel :=
  if v =? IDE_CMD_READ then set_busy 2 (set_phase (match addressed c with Some a => sent (sectors_from (media c) (slave c) a (Z.to_nat (wanted c))) | None => Failed end) c)
  else if v =? IDE_CMD_WRITE then set_busy 0 (set_phase (match addressed c with Some a => Receiving a (wanted c) [] | None => Failed end) c)
  else set_busy 1 (set_phase (sent [ident c (slave c)]) c).
Definition small_outb (p v : Z) (c : channel) : channel :=
  let r := p - small_base in
  if r =? IDE_COMMAND then small_command v c
  else if r =? IDE_HDDEVSEL then set_busy 1 (set_reg r v c)
  else set_reg r v c.
Definition small_outw (p w : Z) (c : channel) : channel :=
  match phase c with
  | Receiving lba rem got =>
      if bool_decide (length (got ++ [w]) = 256%nat)
      then set_busy 2 (set_phase (received lba rem) (set_media (store_sector (media c) (slave c) lba (got ++ [w])) c))
      else set_phase (Receiving lba rem (got ++ [w])) c
  | _ => c
  end.

#[export] Instance small_ports : Ports channel := {| inb := small_inb; inw := small_inw; outb := small_outb; outw := small_outw |}.

Lemma small_status_of c : status_of c (small_status c).
Proof. unfold status_of, small_status. destruct (busy c); [destruct (phase c); done|done]. Qed.

#[export, program] Instance small_ata : Ata channel small_base small_latency := {| view := id |}.
Next Obligation. intros p h Hp. exists (small_status h), (set_busy (pred (busy h)) h). split; [|split; [apply small_status_of|done]]. destruct Hp as [-> | ->]; done. Qed.
Next Obligation. intros h. by exists 0, h. Qed.
Next Obligation.
  intros r v h Hp Hr. cbn [outb small_ports id]. unfold small_outb. replace (small_base + r - small_base) with r by lia.
  unfold IDE_SECTOR, IDE_LBA_HIGH in Hr. rewrite !(proj2 (Z.eqb_neq r _)) by (unfold IDE_COMMAND, IDE_HDDEVSEL; lia). done.
Qed.
Next Obligation. intros v h Hp. exists 1%nat. split; [unfold small_latency; lia|done]. Qed.
Next Obligation. intros h Hp. exists 2%nat. by split. Qed.
Next Obligation. intros h Hp. exists 0%nat. split; [unfold small_latency; lia|done]. Qed.
Next Obligation. intros h Hp. exists 1%nat. split; [unfold small_latency; lia|done]. Qed.
Next Obligation.
  intros h w ws rest Hb Hp. eexists. split; [cbn [inw small_ports]; unfold small_inw; cbn [id] in Hp; rewrite Hp; reflexivity|].
  case_bool_decide; [|done]. exists 2%nat. by split.
Qed.
Next Obligation.
  intros h w lba left got Hb Hp. cbn [outw small_ports]. unfold small_outw. cbn [id] in *. rewrite Hp. case_bool_decide; [|done]. exists 2%nat. by split.
Qed.

Definition demo_part : ide_part_t := Part [] 0 0 0.
Definition demo_disk : ide_disk_t := Disk [104; 100; 97] IDE_LBA_MASTER true 100 0 0 0 SECTOR_SIZE (replicate 4 demo_part).
Definition demo_ctrl : ide_ctrl_t := Ctrl [105; 100; 101; 48] false small_base [demo_disk; no_disk] None 0 None.
Definition demo_channel : channel := Channel 0 0 0 0 0 0 Idle (λ _ x, replicate 256 (u16 x)) (λ b, if b then 0 else 100) (λ _, replicate 256 0) (λ _, (16, 63)).
Definition demo_ide : ide := Ide [demo_ctrl; no_ctrl] demo_channel (blank 4096 1024) false.

Lemma demo_attached : attached small_base small_latency demo_ide (0, 0)%nat demo_ctrl demo_disk.
Proof. split; try done. by left. Qed.

Lemma small_at_once : answers_at_once small_base small_latency.
Proof. done. Qed.

(** The same disk with its selector never set: a read of sector 1 delivers sector 0. *)
Definition unset_disk : ide_disk_t := Disk [104; 100; 97] 0 true 100 0 0 0 SECTOR_SIZE (replicate 4 demo_part).
Definition unset_ide : ide := Ide [Ctrl [105; 100; 101; 48] false small_base [unset_disk; no_disk] None 0 None; no_ctrl] (set_media (λ _ x, replicate 256 (1000 + x)) demo_channel) (blank 4096 512) false.

Example unset_selector_reads_before :
  match (read_served 3 (0, 0)%nat 4096 1 1 0;; on_ram (ld16 4096)) unset_ide with Ok (v, _) => v | Stop _ => 0 end = 1000.
Proof. vm_compute. reflexivity. Qed.

Lemma read_delivers_witness : ∃ s', read_served 3 (0, 0)%nat 4096 2 97 5 demo_ide = Ok (EOK, s') ∧ bytes_at (ram s') 4096 (w16s (replicate 256 97) ++ w16s (replicate 256 98)).
Proof.
  destruct (read_delivers small_base small_latency 3 ltac:(unfold small_latency; lia) demo_ide (0, 0)%nat demo_ctrl demo_disk 4096 2 97 5) as (s' & E & B & _); try lia.
  - exact demo_attached.
  - vm_compute. discriminate.
  - repeat constructor.
  - exact (blank_room 4096 1024).
  - exists s'. split; [exact E|exact B].
Defined.

Lemma write_read_sectors_witness : ∃ s1 s2, write_served 3 (0, 0)%nat 4096 1 7 0 demo_ide = Ok (EOK, s1) ∧ read_served 3 (0, 0)%nat 4608 1 7 3 s1 = Ok (EOK, s2) ∧
  bytes_at (ram s2) 4608 (w16s (replicate 256 0)).
Proof.
  destruct (write_read_sectors small_base small_latency 3 ltac:(unfold small_latency; lia) demo_ide (0, 0)%nat demo_ctrl demo_disk 4096 4608 1 7 0 3 [replicate 256 0]) as (s1 & s2 & E1 & E2 & B & _); try lia.
  - exact small_at_once.
  - exact demo_attached.
  - vm_compute. discriminate.
  - reflexivity.
  - repeat constructor; lia.
  - apply check_bytes_Ok. vm_compute. reflexivity.
  - intros i Hi. apply (blank_room 4096 1024). change (Z.to_nat 1024) with 1024%nat. change (512 * Z.to_nat 1)%nat with 512%nat in Hi. lia.
  - exists s1, s2. split; [exact E1|]. split; [exact E2|]. cbn [fmap list_fmap mjoin list_join] in B. rewrite app_nil_r in B. exact B.
Defined.

Lemma read_past_end_never_returns_witness : read_served 1000 (0, 0)%nat 4096 4 97 1 demo_ide = Stop NoFuel.
Proof.
  apply (read_past_end_never_returns small_base small_latency 1000 ltac:(unfold small_latency; lia) demo_ide (0, 0)%nat demo_ctrl demo_disk 4096 4 97 1); [exact demo_attached|lia|lia|vm_compute; reflexivity].
Defined.

(** A boot sector with one partition of 50 sectors, for a MINIX file system. *)
Definition demo_mbr : list Z := <[225%nat := 0x80]> (<[227%nat := 1]> (<[229%nat := 50]> (<[255%nat := 0xaa55]> (replicate 256 0)))).
Definition mbr_channel : channel := set_media (λ _ x, if x =? 0 then demo_mbr else replicate 256 0) demo_channel.
Definition mbr_ide : ide := Ide [demo_ctrl; no_ctrl] mbr_channel (blank 4096 1024) false.

Lemma mbr_attached : attached small_base small_latency mbr_ide (0, 0)%nat demo_ctrl demo_disk.
Proof. split; try done. by left. Qed.

Lemma partitions_found_witness : ∃ s', ide_part_init 3 (0, 0)%nat 4096 mbr_ide = Ok ((), s') ∧
  (c ← head (controllers s'); d ← head (disks c); mret (parts d)) = Some [Part [104; 100; 97; 49] 0x80 1 50; demo_part; demo_part; demo_part].
Proof.
  destruct (partitions_found small_base small_latency 3 ltac:(unfold small_latency; lia) mbr_ide (0, 0)%nat demo_ctrl demo_disk 4096) as (s' & E & C & _).
  - exact mbr_attached.
  - vm_compute. discriminate.
  - reflexivity.
  - reflexivity.
  - intros x Hx. apply (blank_room 4096 1024). lia.
  - intros x Hx _. do 4 (destruct x as [|x]; [vm_compute; discriminate|]). lia.
  - exists s'. split; [exact E|]. rewrite C. vm_compute. reflexivity.
Defined.
