(* ===== verification/User.v ===== *)
(** * User programs and the system calls they make (src/lib/printf.c, src/lib/crt1.c)

    A program runs over the byte store of its process; the system calls are an interface over
    what lies behind them, the world [W].  [exit] does not return: what a program does answers
    [None] once the process is over. *)

From Stdlib Require Import String Ascii.
From stdpp Require Import gmap.
From S2P Require Import Prelude Vsprintf Files KString.

Definition STDIN_FILENO : Z := 0.
Definition STDOUT_FILENO : Z := 1.
Definition STDERR_FILENO : Z := 2.

(** The text of a literal. *)
Definition chars (s : string) : list Z := (λ a, Z.of_N (N_of_ascii a)) <$> list_ascii_of_string s.
#[global] Arguments chars s%_string_scope.

(** Strings are given by their characters; [read] and [getcwd], which write into the memory of the
    process, are operations of their own. *)
Inductive call :=
| Write (fd : Z) (l : list Z) | Open (path : list Z) (flags mode : Z) | Close (fd : Z) | Dup2 (oldfd newfd : Z)
| Fork | Waitpid (pid options : Z) | Execve (file : list Z) (args envs : list (list Z)) | Exit (code : Z)
| Chdir (path : list Z) | Mkdir (path : list Z) (mode : Z) | Rmdir (path : list Z) | Unlink (path : list Z)
| Mount (dev dir : list Z) (flags : Z) | Umount (target : list Z) | Mkfs (dev : list Z) (nr : Z) | Stat (path : list Z)
| Ioctl (fd cmd arg : Z) | Getpid | Setpgid (pid pgid : Z) | Setsid | Signal (sig handler : Z) | Time | Sleep (ms : Z) | Kill (pid sig : Z).

Class System (W : Type) := {
  sys : call → W → Z * W;
  sys_read : Z → Z → W → Z * list Z * W;
  sys_getcwd : W → list Z
}.

(** The programs print no fractions: there are no doubles. *)
Abbreviation arg := (Vsprintf.arg (double := Empty_set)).
Definition text_of (fmt : list Z) (args : list arg) : res (list Z * Z * list Z) :=
  vsprintf (double := Empty_set) (λ _, false) id (λ _, 0) (λ _, 0) fmt args.

Section process.
Context {W : Type} `{System W}.

Record process := Process { memory : mem; world : W }.
Abbreviation PM := (ST process).
Definition set_world (w : W) (s : process) : process := Process (memory s) w.
Definition set_memory (m : mem) (s : process) : process := Process m (world s).

Definition invoke (c : call) : PM Z := λ s, let (r, w) := sys c (world s) in Ok (r, set_world w s).
Definition on_memory {A} (f : KString.M A) : PM A := λ s, match f (memory s) with Ok (a, m) => Ok (a, set_memory m s) | Stop e => Stop e end.

(** [read]: the bytes go to [buf]. *)
Definition read (fd buf n : Z) : PM Z := λ s,
  let '(r, l, w) := sys_read fd n (world s) in
  match copy_out buf l (memory s) with Ok (_, m) => Ok (r, Process m w) | Stop e => Stop e end.

(** [getcwd]: the directory, cut to the size of the buffer (Path.sys_getcwd_cuts). *)
Definition getcwd (buf size : Z) : PM unit := λ s, on_memory (copy_out buf (take (Z.to_nat (size - 1)) (sys_getcwd (world s)) ++ [EOS])) s.

(** The string a system call is given. *)
Fixpoint load_string (fuel : nat) (p : Z) : KString.M (list Z) :=
  match fuel with
  | O => stop_st NoFuel
  | S fuel => c ← ld p; if c =? EOS then mret [] else l ← load_string fuel (p + 1); mret (c :: l)
  end.

(** [printf]: the text has room in a buffer of 1024 characters. *)
Definition printf (fmt : list Z) (args : list arg) : PM unit :=
  '(text, i, _) ← lift_st (text_of fmt args);
  if i <? 1024 then invoke (Write STDOUT_FILENO text);; mret () else stop_st OutOfBounds.

(** [sprintf] into the memory. *)
Definition sprintf (buf : Z) (fmt : list Z) (args : list arg) : PM unit :=
  '(text, i, _) ← lift_st (text_of fmt args);
  on_memory (copy_out buf (text ++ [EOS])).

(** A program's [main] is called by [_start], which exits with what it answers. *)
Definition libc_start_main (main : PM (option Z)) : PM unit :=
  r ← main;
  match r with Some code => invoke (Exit code);; mret () | None => mret () end.
End process.

(** ** Texts with strings in them *)

Abbreviation format := (format_loop (double := Empty_set) (λ _, false) id (λ _, 0) (λ _, 0)).

Lemma plain_text pre : ∀ n r out counts a, Forall (λ c, c ≠ 37) pre → format (length pre + n)%nat (pre ++ r) out counts a = format n r (out ++ pre) counts a.
Proof.
  induction pre as [|c pre IH]; intros n r out counts a Hp; [by rewrite app_nil_r|]. apply Forall_cons in Hp as [Hc Hp]. cbn [length Nat.add app format_loop].
  rewrite (proj2 (Z.eqb_neq c 37) Hc). cbn [negb]. rewrite IH by done. by rewrite <- app_assoc.
Qed.

(** [%s] is the string. *)
Lemma string_text n r s out counts a : format (S n) (37 :: 115 :: r) out counts (AStr s :: a) = format n r (out ++ s) counts a.
Proof.
  rewrite (format_directive _ _ _ _ n (115 :: r) out counts (AStr s :: a) (115 :: r) 0 (-1) (115 :: r) 0 (AStr s :: a) (-1) (115 :: r) (AStr s :: a) s a false r); try done.
  change (skip_qualifier (115 :: r)) with (115 :: r). unfold convert. change (115 =? 99) with false. change (115 =? 115) with true. cbv match.
  change ((0 <=? -1) && (-1 <? Z.of_nat (length s))) with false. cbv match. rewrite Nat2Z.id, take_ge by done. replace (Z.to_nat (-1 - Z.of_nat (length s))) with 0%nat by lia. done.
Qed.

(** ** A small system

    Keys to be read, what was written to the screen, and the other calls made. *)
Record tape := Tape { keys : list Z; screen : list Z; log : list call; child : Z }.
Definition note (c : call) (t : tape) : tape := Tape (keys t) (screen t) (log t ++ [c]) (child t).
Definition tape_sys (c : call) (t : tape) : Z * tape :=
  match c with
  | Write 1 l => (Z.of_nat (length l), Tape (keys t) (screen t ++ l) (log t) (child t))
  | Open _ _ _ => (3, note c t)
  | Fork => (child t, note c t)
  | Getpid => (7, note c t)
  | _ => (0, note c t)
  end.
Definition tape_read (fd n : Z) (t : tape) : Z * list Z * tape :=
  match keys t with c :: r => if fd =? STDIN_FILENO then (1, [c], Tape r (screen t) (log t) (child t)) else (-1, [], t) | [] => (-1, [], t) end.
#[export] Instance tape_system : System tape := {| sys := tape_sys; sys_read := tape_read; sys_getcwd := λ _, [47] |}.
