(* ===== verification/Shell.v ===== *)
(** * The shell (src/buildroot/lsh.c)

    [cmd], [cwd] and [buf] are arrays in the memory of the process, [argv] an array of pointers of
    its own.  The keyboard's Ctrl-C runs [signal_handler] between two steps of the program. *)

From Stdlib Require Import String.
From stdpp Require Import gmap.
From S2P Require Import Prelude KStdlib KTime Vsprintf Files Args KString User.

Definition MAX_CMD_LEN : Z := 256.
Definition MAX_ARG_NR : Z := 16.
Definition MAX_PATH_LEN : Z := 4096.
Definition TIOCSPGRP : Z := 0x5410.
Definition SIGINT : Z := 2.
Definition SIG_DFL : Z := 0.
Definition EOF_fd : Z := -1.

(** ** Texts *)

(** The ANSI colours [RED] to [WHITE] are 31 to 37, [RESET] is 0. *)
Definition colour (n : Z) : list Z := 27 :: 91 :: (if n =? 0 then [48] else [48 + n / 10; 48 + n mod 10]) ++ [109].
Definition logo_line (n : Z) (s : string) : list Z := 9 :: colour n ++ chars s ++ colour 0 ++ [10].
Definition lightos_logo : list Z := 10 :: mjoin [
   logo_line 31 "   /$$       /$$           /$$         /$$      /$$$$$$   /$$$$$$  ";
   logo_line 31 "  | $$      |__/          | $$        | $$     /$$__  $$ /$$__  $$ ";
   logo_line 32 "  | $$       /$$  /$$$$$$ | $$$$$$$  /$$$$$$  | $$  \ $$| $$  \__/ ";
   logo_line 33 "  | $$      | $$ /$$__  $$| $$__  $$|_  $$_/  | $$  | $$|  $$$$$$  ";
   logo_line 34 "  | $$      | $$| $$  \ $$| $$  \ $$  | $$    | $$  | $$ \____  $$ ";
   logo_line 35 "  | $$      | $$| $$  | $$| $$  | $$  | $$ /$$| $$  | $$ /$$  \ $$ ";
   logo_line 36 "  | $$$$$$$$| $$|  $$$$$$$| $$  | $$  |  $$$$/|  $$$$$$/|  $$$$$$/ ";
   logo_line 37 "  |________/|__/ \____  $$|__/  |__/   \___/   \______/  \______/  ";
   logo_line 37 "                 /$$  \ $$                                        ";
   logo_line 37 "                |  $$$$$$/                                        ";
   logo_line 37 "                 \______/                                         "].

Definition envp : list (list Z) := [chars "HOME=/"; chars "PATH=/bin"].

(** ** The state *)

Section shell.
Context {W : Type} `{System W}.
Context (fuel : nat) (cmd cwd buf handler : Z).

Record shell := Shell { proc : process (W := W); argv : list Z; interrupt : bool }.
Abbreviation SM := (ST shell).
Definition set_argv (l : list Z) (s : shell) : shell := Shell (proc s) l (interrupt s).
Definition set_interrupt (b : bool) (s : shell) : shell := Shell (proc s) (argv s) b.
Definition on_proc {A} (f : ST (process (W := W)) A) : SM A := λ s, match f (proc s) with Ok (a, p) => Ok (a, Shell p (argv s) (interrupt s)) | Stop e => Stop e end.
Definition in_memory {A} (f : KString.M A) : SM A := on_proc (on_memory f).
Definition call_ (c : call) : SM Z := on_proc (invoke c).
(** [printf] of a text and a line feed. *)
Definition say (fmt : string) (args : list arg) : SM unit := on_proc (printf (chars fmt ++ [10]) args).
Definition arg_at (i : Z) : SM Z := λ s, p ← zget (argv s) i; Ok (p, s).
Definition put_arg (i p : Z) : SM unit := λ s, l ← zset (argv s) i p; Ok ((), set_argv l s).
Definition arg_text (i : Z) : SM (list Z) := p ← arg_at i; in_memory (load_string fuel p).

(** [!strcmp(p, lit)]. *)
Fixpoint str_is (lit : list Z) (p : Z) : KString.M bool :=
  match lit with
  | [] => c ← ld p; mret (c =? EOS)
  | x :: lit => c ← ld p; if c =? x then str_is lit (p + 1) else mret false
  end.

(** ** Reading a line *)

Definition print_prompt : SM unit :=
  on_proc (getcwd cwd MAX_PATH_LEN);;
  ptr ← in_memory (strrsep fuel cwd);
  c ← in_memory (ld (ptr + 1));
  s ← in_memory (load_string fuel (if c =? EOS then ptr else ptr + 1));
  on_proc (printf (colour 35 ++ chars "[root %s]# " ++ colour 0) [AStr s]).

Definition builtin_logo : SM unit := on_proc (printf lightos_logo []).

Fixpoint readline_loop (n : nat) (line idx count : Z) : SM unit :=
  match n with
  | O => stop_st NoFuel
  | S n =>
      if idx <? count then
        let ptr := line + idx in
        ret ← on_proc (read STDIN_FILENO ptr 1);
        if ret =? -1 then in_memory (st ptr 0)
        else
          c ← in_memory (ld ptr);
          if (c =? 10) || (c =? 13) then in_memory (st ptr 0);; call_ (Write STDOUT_FILENO [10]);; mret ()
          else if c =? 8 then
            if 0 <? idx then call_ (Write STDOUT_FILENO [8]);; readline_loop n line (idx - 1) count else readline_loop n line idx count
          else if c =? 9 then readline_loop n line idx count
          else call_ (Write STDOUT_FILENO [c]);; readline_loop n line (idx + 1) count
      else in_memory (st (line + idx) 0)
  end.
Definition readline (line count : Z) : SM unit := if line =? NULL then mret () else readline_loop fuel line 0 count.

(** ** Taking it apart *)

Fixpoint advance (P : Z → bool) (n : nat) (ptr : Z) : KString.M Z :=
  match n with
  | O => stop_st NoFuel
  | S n => c ← ld ptr; if P c then advance P n (ptr + 1) else mret ptr
  end.

Fixpoint parse_loop (n : nat) (token next argc : Z) : SM Z :=
  match n with
  | O => stop_st NoFuel
  | S n =>
      c ← in_memory (ld next);
      if negb (c =? 0) && (argc <? MAX_ARG_NR) then
        next ← in_memory (advance (λ c, c =? token) fuel next);
        c ← in_memory (ld next);
        if c =? 0 then mret argc
        else
          put_arg argc next;;
          next ← in_memory (advance (λ c, negb (c =? 0) && negb (c =? token)) fuel next);
          c ← in_memory (ld next);
          if c =? 0 then parse_loop n token next (argc + 1)
          else in_memory (st next 0);; parse_loop n token (next + 1) (argc + 1)
      else mret argc
  end.
Definition cmd_parse (line token : Z) : SM Z :=
  if line =? NULL then mret 0
  else argc ← parse_loop fuel token line 0; put_arg argc NULL;; mret argc.
(** ** The commands of the shell itself

    The answer is [None] when the process is over. *)

Definition done_ : SM (option unit) := mret (Some ()).

Definition builtin_pwd : SM (option unit) :=
  on_proc (getcwd cwd MAX_PATH_LEN);; s ← in_memory (load_string fuel cwd); say "%s" [AStr s];; done_.

Definition builtin_exit (argc : Z) : SM (option unit) :=
  code ← (if argc =? 2 then s ← arg_text 1; lift_st (atoi (Some (s ++ [EOS]))) else mret 0);
  call_ (Exit code);; mret None.

Definition builtin_cd (argc : Z) : SM (option unit) :=
  if 1 <? argc then
    s ← arg_text 1;
    r ← call_ (Chdir s);
    if r <? 0 then say "cd: no such dir %s" [AStr s];; done_ else done_
  else done_.

(** The loops over the arguments behind the name. *)
Fixpoint each_arg (n : nat) (f : list Z → SM unit) (i : Z) : SM unit :=
  match n with O => mret () | S n => s ← arg_text i; f s;; each_arg n f (i + 1) end.

Definition builtin_mkdir (argc : Z) : SM (option unit) :=
  if argc <? 2 then say "mkdir: no input dir" [];; done_
  else each_arg (Z.to_nat (argc - 1)) (λ s, r ← call_ (Mkdir s 493); if r <? 0 then say "mkdir: error creating dir %s" [AStr s] else mret ()) 1;; done_.

Definition builtin_rmdir (argc : Z) : SM (option unit) :=
  if argc <? 2 then say "rmdir: no input dir" [];; done_
  else each_arg (Z.to_nat (argc - 1)) (λ s, r ← call_ (Rmdir s); if r <? 0 then say "rmdir: error removing dir %s" [AStr s] else say "rmdir: %s" [AStr s]) 1;; done_.

Definition builtin_rm (argc : Z) : SM (option unit) :=
  if argc <? 2 then say "rm: no input dir" [];; done_
  else each_arg (Z.to_nat (argc - 1)) (λ s, call_ (Unlink s);; mret ()) 1;; done_.

(** [strftime] leaves its text in [buf]. *)
Definition strftime (time : Z) : SM unit :=
  t ← lift_st (localtime time (Tm 0 0 0 0 0 0 0 0 0));
  on_proc (sprintf buf (chars "%04d-%02d-%02d %02d:%02d:%02d")
    [AInt (u32 (tm_year t + 1900)); AInt (u32 (tm_mon t)); AInt (u32 (tm_mday t)); AInt (u32 (tm_hour t)); AInt (u32 (tm_min t)); AInt (u32 (tm_sec t))]).

Definition builtin_date : SM (option unit) :=
  t ← call_ Time; strftime t;; s ← in_memory (load_string fuel buf); say "%s" [AStr s];; done_.

Definition builtin_mount (argc : Z) : SM (option unit) :=
  if argc <? 3 then done_
  else
    a ← arg_text 1; b ← arg_text 2;
    r ← call_ (Mount a b 0);
    if r =? 0 then done_ else say "error mount %s to %s" [AStr a; AStr b];; done_.

Definition builtin_umount (argc : Z) : SM (option unit) :=
  if argc <? 2 then done_
  else a ← arg_text 1; r ← call_ (Umount a); if r =? 0 then done_ else say "error umount %s" [AStr a];; done_.

Definition builtin_mkfs (argc : Z) : SM (option unit) :=
  if argc <? 3 then done_
  else
    a ← arg_text 1; b ← arg_text 2;
    n ← lift_st (atoi (Some (b ++ [EOS])));
    r ← call_ (Mkfs a n);
    if r =? 0 then say "success" [];; done_ else say "error mkfs %s" [AStr a];; done_.

(** ** Redirections *)

(** What the loop of [dupfile] finds: the three file names, as pointers, and the flags. *)
Record redirect := Redirect { infile : Z; outfile : Z; errfile : Z; outappend : Z; errappend : Z }.

(** The operators in the order in which they are tried. *)
Definition operators : list (list Z * (Z → redirect → redirect)) := [
  (chars "<", λ f r, Redirect f (outfile r) (errfile r) (outappend r) (errappend r));
  (chars ">", λ f r, Redirect (infile r) f (errfile r) O_TRUNC (errappend r));
  (chars ">>", λ f r, Redirect (infile r) f (errfile r) O_APPEND (errappend r));
  (chars "2>", λ f r, Redirect (infile r) (outfile r) f (outappend r) (errappend r));
  (chars "2>>", λ f r, Redirect (infile r) (outfile r) f (outappend r) O_APPEND)].

Fixpoint find_operator (ops : list (list Z * (Z → redirect → redirect))) (argc i p : Z) : KString.M (option (Z → redirect → redirect)) :=
  match ops with
  | [] => mret None
  | (lit, f) :: ops =>
      b ← str_is lit p;
      if (b : bool) && (i + 1 <? argc) then mret (Some f) else find_operator ops argc i p
  end.

Fixpoint redirect_loop (n : nat) (argc i : Z) (r : redirect) : SM redirect :=
  match n with
  | O => stop_st NoFuel
  | S n =>
      if i <? argc then
        p ← arg_at i;
        o ← in_memory (find_operator operators argc i p);
        match o with
        | Some f => file ← arg_at (i + 1); put_arg i NULL;; redirect_loop n argc (i + 2) (f file r)
        | None => redirect_loop n argc (i + 1) r
        end
      else mret r
  end.

Definition close_if (fd : Z) : SM unit := if fd =? EOF_fd then mret () else call_ (Close fd);; mret ().

(** The answers are the three descriptors, with [None] when [exit] has been called. *)
Definition dupfile (argc : Z) : SM (option (Z * Z * Z)) :=
  r ← redirect_loop fuel argc 0 (Redirect NULL NULL NULL 0 0);
  let clean d0 d1 := close_if d0;; close_if d1;; mret (Some (d0, d1, EOF_fd)) in
  let errors d0 d1 :=
    if errfile r =? NULL then mret (Some (d0, d1, EOF_fd))
    else
      s ← in_memory (load_string fuel (outfile r));
      fd ← call_ (Open s (Z.lor (Z.lor O_WRONLY (errappend r)) O_CREAT) 493);
      if fd =? EOF_fd then say "open errfile %s failure" [AStr s];; call_ (Exit EOF_fd);; mret None
      else mret (Some (d0, d1, fd)) in
  let outputs d0 :=
    if outfile r =? NULL then errors d0 EOF_fd
    else
      s ← in_memory (load_string fuel (outfile r));
      fd ← call_ (Open s (Z.lor (Z.lor O_WRONLY (outappend r)) O_CREAT) 493);
      if fd =? EOF_fd then say "open outfile %s failure" [AStr s];; clean d0 EOF_fd
      else errors d0 fd in
  if infile r =? NULL then outputs EOF_fd
  else
    s ← in_memory (load_string fuel (infile r));
    fd ← call_ (Open s (Z.lor O_RDONLY O_CREAT) 493);
    if fd =? EOF_fd then say "open infile %s failure" [AStr s];; clean EOF_fd EOF_fd
    else outputs fd.

(** ** Programs *)

(** The arguments [execve] takes over: up to the null pointer. *)
Fixpoint load_args (l : list Z) : KString.M (list (list Z)) :=
  match l with
  | [] => stop_st OutOfBounds
  | p :: l => if p =? NULL then mret [] else s ← load_string fuel p; r ← load_args l; mret (s :: r)
  end.

(** Where [fd] was opened, [from] takes the place of [target], and [fd] is closed. *)
Definition dup_if (fd from target : Z) : SM unit := if fd =? EOF_fd then mret () else call_ (Dup2 from target);; call_ (Close fd);; mret ().

(** The parent gets the child; the child ends in the program, or in [exit] when [execve] comes
    back with a negative number.  For the standard error the descriptor of the output file is
    duplicated. *)
Definition builtin_command (filename : Z) (infd outfd errfd : Z) : SM (option Z) :=
  pid ← call_ Fork;
  if negb (pid =? 0) then close_if infd;; close_if outfd;; close_if errfd;; mret (Some pid)
  else
    dup_if infd infd STDIN_FILENO;; dup_if outfd outfd STDOUT_FILENO;; dup_if errfd outfd STDERR_FILENO;;
    call_ (Signal SIGINT SIG_DFL);;
    p ← call_ Getpid;
    call_ (Ioctl STDIN_FILENO TIOCSPGRP p);;
    p ← call_ Getpid; q ← call_ Getpid;
    call_ (Setpgid p q);;
    file ← in_memory (load_string fuel filename);
    s ← get_st;
    args ← in_memory (load_args (drop 1 (argv s)));
    i ← call_ (Execve file args envp);
    if i <? 0 then call_ (Exit i);; mret None else mret None.

Definition builtin_exec (argc : Z) : SM (option unit) :=
  name ← arg_text 0;
  on_proc (sprintf buf (chars "/bin/%s.out") [AStr name]);;
  path ← in_memory (load_string fuel buf);
  r ← call_ (Stat path);
  if r =? EOF_fd then say "lsh: commnand not fount: %s" [AStr name];; done_
  else
    fds ← dupfile argc;
    match fds with
    | None => mret None
    | Some (d0, d1, d2) =>
        pid ← builtin_command buf d0 d1 d2;
        match pid with
        | None => mret None
        | Some pid => call_ (Waitpid pid 0);; p ← call_ Getpid; call_ (Ioctl STDIN_FILENO TIOCSPGRP p);; done_
        end
    end.

(** ** The loop *)

Definition commands (argc : Z) : list (list Z * SM (option unit)) := [
  (chars "logo", builtin_logo;; done_); (chars "pwd", builtin_pwd); (chars "clear", done_); (chars "exit", builtin_exit argc);
  (chars "cd", builtin_cd argc); (chars "mkdir", builtin_mkdir argc); (chars "rmdir", builtin_rmdir argc); (chars "rm", builtin_rm argc);
  (chars "date", builtin_date); (chars "mount", builtin_mount argc); (chars "umount", builtin_umount argc); (chars "mkfs", builtin_mkfs argc)].

Fixpoint dispatch (l : list (list Z * SM (option unit))) (argc line : Z) : SM (option unit) :=
  match l with
  | [] => builtin_exec argc
  | (name, run) :: l => b ← in_memory (str_is name line); if (b : bool) then run else dispatch l argc line
  end.
Definition execute (argc : Z) : SM (option unit) := line ← arg_at 0; dispatch (commands argc) argc line.

(** One turn of the loop of [main]. *)
Definition main_turn : SM (option unit) :=
  print_prompt;;
  readline cmd MAX_CMD_LEN;;
  s ← get_st;
  if interrupt s then modify_st (set_interrupt false);; done_
  else
    c ← in_memory (ld cmd);
    if c =? 0 then done_
    else
      argc ← cmd_parse cmd 32;
      if (argc <? 0) || (MAX_ARG_NR <=? argc) then done_ else execute argc.

Fixpoint turns (n : nat) : SM (option unit) :=
  match n with O => done_ | S n => r ← main_turn; match r with None => mret None | Some _ => turns n end end.

(** [main] up to its loop, and [n] turns of it. *)
Definition main (n : nat) : SM (option unit) :=
  call_ (Signal SIGINT handler);;
  call_ Setsid;;
  p ← call_ Getpid;
  call_ (Ioctl STDIN_FILENO TIOCSPGRP p);;
  in_memory (memset cmd 0 (Z.to_nat MAX_CMD_LEN));;
  in_memory (memset cwd 0 (Z.to_nat MAX_PATH_LEN));;
  builtin_logo;;
  turns n.

Definition signal_handler : SM unit := call_ (Signal SIGINT handler);; modify_st (set_interrupt true).
(** ** Words *)

Definition state_of (m : mem) (w : W) (l : list Z) (b : bool) : shell := Shell (Process m w) l b.
Abbreviation St := state_of.

Lemma in_memory_Ok {A} (f : KString.M A) a m m' w l b : f m = Ok (a, m') → in_memory f (St m w l b) = Ok (a, St m' w l b).
Proof. intros E. unfold in_memory, on_proc, on_memory. cbn. by rewrite E. Qed.

Lemma advance_Ok P m : ∀ a n p x, bytes_at m p (a ++ [x]) → Forall (λ c, P c = true) a → P x = false → (length a < n)%nat →
  advance P n p m = Ok (p + Z.of_nat (length a), m).
Proof.
  intros a. induction a as [|c a IH]; intros n p x B Ha Hx Hn; (destruct n as [|n]; [cbn in Hn; lia|]); cbn [advance app] in *; destruct B as [Hc B];
    rewrite (st_bind_eq _ _ _ _ _ (ld_Ok _ _ _ Hc)).
  - rewrite Hx. cbn. by rewrite Z.add_0_r.
  - apply Forall_cons in Ha as [-> Ha]. cbn [length] in *. rewrite (IH n (p + 1) x) by (done || lia). do 2 f_equal. lia.
Qed.

(** The words of a line, [now] being the characters of the one begun. *)
Fixpoint split (token : Z) (now : list Z) (s : list Z) : list (list Z) :=
  let word := match now with [] => [] | _ => [now] end in
  match s with
  | [] => word
  | c :: s => if c =? token then word ++ split token [] s else split token (now ++ [c]) s
  end.
Definition words (token : Z) (s : list Z) : list (list Z) := split token [] s.

Lemma span_split (P : Z → bool) (s : list Z) : ∃ a b, s = a ++ b ∧ Forall (λ c, P c = true) a ∧ match b with [] => True | c :: _ => P c = false end.
Proof.
  induction s as [|c s (a & b & -> & Ha & Hb)]; [by exists [], []|]. destruct (P c) eqn:E.
  - exists (c :: a), b. split; [done|]. split; [by constructor|done].
  - by exists [], (c :: a ++ b).
Qed.

Lemma split_skip token k s : Forall (λ c, (c =? token) = true) k → words token (k ++ s) = words token s.
Proof. induction 1 as [|c k Hc _ IH]; [done|]. cbn. by rewrite Hc. Qed.

Lemma split_word token w s : ∀ now, now ++ w ≠ [] → Forall (λ c, (c =? token) = false) w →
  split token now (w ++ s) = match s with [] => [now ++ w] | c :: r => if c =? token then (now ++ w) :: split token [] r else split token (now ++ w) s end.
Proof.
  induction w as [|c w IH]; intros now Hn Hw.
  - rewrite app_nil_r in *. cbn [app]. destruct s as [|c r]; cbn [split]; destruct now; try done. by destruct (c =? token).
  - apply Forall_cons in Hw as [Hc Hw]. cbn [app split]. rewrite Hc, IH by (done || by destruct now). by rewrite <- app_assoc.
Qed.
Section parsing.
Context (token : Z) (Htok : token ≠ 0) (w : W) (b : bool).
Local Definition blank (c : Z) : bool := c =? token.
Local Definition inside (c : Z) : bool := negb (c =? 0) && negb (c =? token).

(** The terminator or the character behind a part of a string. *)
Lemma str_part m p a r : str_at m p (a ++ r) → ∃ x, bytes_at m p (a ++ [x]) ∧ m !! (p + Z.of_nat (length a)) = Some x ∧ (x = 0 ∧ r = [] ∨ x ≠ 0 ∧ ∃ r', r = x :: r').
Proof.
  intros [B F]. rewrite <- app_assoc in B. apply bytes_at_app in B as [Ba Br]. destruct r as [|x r]; cbn [app] in Br; destruct Br as [Hx _].
  - exists 0. split; [apply bytes_at_app; split; [done|by split]|]. split; [done|by left].
  - apply Forall_app in F as [_ F]. apply Forall_cons in F as [[_ Hne] _]. exists x. split; [apply bytes_at_app; split; [done|by split]|]. split; [done|right]. split; [done|by exists r].
Qed.

Lemma str_suffix m p a r : str_at m p (a ++ r) → str_at m (p + Z.of_nat (length a)) r.
Proof. intros [B F]. rewrite <- app_assoc in B. apply bytes_at_app in B as [_ B]. apply Forall_app in F as [_ F]. done. Qed.

Lemma not_blank_inside c : c ≠ 0 → blank c = false → inside c = true.
Proof. unfold blank, inside. intros H1 ->. by rewrite (proj2 (Z.eqb_neq _ _) H1). Qed.

(** A word is cut off: the separator behind it becomes a terminator. *)
Lemma cut_word m q x t : str_at m q (x ++ token :: t) → let e := q + Z.of_nat (length x) in
  st e 0 m = Ok ((), <[e := 0]> m) ∧ str_at (<[e := 0]> m) q x ∧ str_at (<[e := 0]> m) (e + 1) t.
Proof.
  intros Hs e. destruct (str_part m q x (token :: t) Hs) as (y & _ & Hy & _). pose proof (str_suffix m q x _ Hs) as Ht. fold e in Hy, Ht.
  split; [by apply st_Ok|]. split.
  - destruct Hs as [B F]. apply Forall_app in F as [F _]. split; [|done]. rewrite <- app_assoc in B. apply bytes_at_app in B as [B _]. apply bytes_at_app. split.
    + apply (bytes_at_frame m); [done|]. intros i Hi. rewrite lookup_insert_ne by (unfold e; lia). done.
    + split; [by rewrite lookup_insert_eq|done].
  - apply str_tail in Ht as (_ & _ & _ & [B F]). split; [|done]. apply (bytes_at_frame m); [done|]. intros i Hi. rewrite lookup_insert_ne by lia. done.
Qed.

Lemma put_arg_Ok k p m l : (k < length l)%nat → put_arg (Z.of_nat k) p (St m w l b) = Ok ((), St m w (<[k := p]> l) b).
Proof. intros Hk. unfold put_arg. cbn. rewrite zset_Ok by lia. by rewrite Nat2Z.id. Qed.

(** One turn of the loop: nothing is left, or the next word is taken. *)
Lemma one_turn n s m next k l : str_at m next s → (length s < fuel)%nat → (k < 16)%nat → length l = 16%nat →
  (words token s = [] ∧ parse_loop (S n) token next (Z.of_nat k) (St m w l b) = Ok (Z.of_nat k, St m w l b)) ∨
  ∃ q x e t m1, parse_loop (S n) token next (Z.of_nat k) (St m w l b) = parse_loop n token e (Z.of_nat (S k)) (St m1 w (<[k := q]> l) b) ∧
    words token s = x :: words token t ∧ str_at m1 q x ∧ str_at m1 e t ∧ touched (range next (length s)) m m1 ∧
    next <= q ∧ e + Z.of_nat (length t) = next + Z.of_nat (length s) ∧ (length t < length s)%nat ∧ q + Z.of_nat (length x) <= e ∧ (q + Z.of_nat (length x) < e ∨ t = []).
Proof.
  intros Hs Hf Hk Hl. destruct (decide (s = [])) as [->|Hne].
  { left. split; [done|]. cbn [parse_loop]. st_go (in_memory_Ok _ _ _ _ w l b (ld_Ok _ _ _ (str_nil _ _ Hs))). done. }
  assert (∃ c0, m !! next = Some c0 ∧ c0 ≠ 0) as (c0 & Hc0 & Hz) by (destruct s as [|c0 s]; [done|]; apply str_tail in Hs as (? & ? & _); by exists c0).
  destruct (span_split blank s) as (a & r & Es & Ha & Hr). pose proof Hs as Hs'. rewrite Es in Hs'.
  destruct (str_part m next a r Hs') as (c & Ba & Hc & Hcr). pose proof (str_suffix m next a r Hs') as Hq.
  assert (Hw : words token s = words token r) by (rewrite Es; by apply split_skip). assert (Hlen : length s = (length a + length r)%nat) by (rewrite Es; apply length_app).
  set (q := next + Z.of_nat (length a)) in *.
  assert (Ea : advance blank fuel next m = Ok (q, m)).
  { apply (advance_Ok _ m a _ _ c); [done|done| |lia]. destruct Hcr as [[-> _]|[_ (r' & ->)]]; [apply Z.eqb_neq; congruence|done]. }
  assert (Estart : parse_loop (S n) token next (Z.of_nat k) (St m w l b) = (if c =? 0 then mret (Z.of_nat k) else put_arg (Z.of_nat k) q;;
      next ← in_memory (advance inside fuel q); c ← in_memory (ld next);
      if c =? 0 then parse_loop n token next (Z.of_nat k + 1) else in_memory (st next 0);; parse_loop n token (next + 1) (Z.of_nat k + 1)) (St m w l b)).
  { cbn [parse_loop]. st_go (in_memory_Ok _ _ _ _ w l b (ld_Ok _ _ _ Hc0)).
    rewrite (proj2 (Z.eqb_neq _ _) Hz), (proj2 (Z.ltb_lt (Z.of_nat k) MAX_ARG_NR)) by (unfold MAX_ARG_NR; lia). cbn [negb andb].
    st_go (in_memory_Ok _ _ _ _ w l b Ea). by st_go (in_memory_Ok _ _ _ _ w l b (ld_Ok _ _ _ Hc)). }
  rewrite Estart. clear Estart.
  destruct Hcr as [[-> ->]|[Hcne (r' & Er')]]; [by left|right]. rewrite (proj2 (Z.eqb_neq _ _) Hcne).
  destruct (span_split inside r) as (x & t & Er & Hx & Ht). rewrite Er in Hq.
  assert (Hxne : x ≠ []) by (intros ->; cbn in Er; rewrite <- Er, Er' in Ht; rewrite (not_blank_inside c) in Ht; [done|done|by rewrite Er' in Hr]).
  assert (Hxt : Forall (λ c, (c =? token) = false) x) by (eapply Forall_impl; [exact Hx|]; unfold inside; intros y Hy; apply andb_true_iff in Hy as [_ Hy]; by apply negb_true_iff).
  destruct (str_part m q x t Hq) as (y & By & Hy & Hyt). rewrite Er, length_app in Hlen.
  assert (Ex : advance inside fuel q m = Ok (q + Z.of_nat (length x), m)).
  { apply (advance_Ok _ m x _ _ y); [done|done| |lia]. destruct Hyt as [[-> _]|[_ (t' & ->)]]; [done|done]. }
  rewrite Hw, Er. unfold words. rewrite (split_word token x t [] ltac:(done) Hxt). replace (Z.of_nat k + 1) with (Z.of_nat (S k)) by lia. assert (Hk' : (k < length l)%nat) by lia.
  destruct Hyt as [[-> ->]|[Hyne (t' & ->)]].
  - exists q, x, (q + Z.of_nat (length x)), [], m. rewrite app_nil_r in Hq. split; [by st_go (put_arg_Ok k q m l Hk'); st_go (in_memory_Ok _ _ _ _ w (<[k := q]> l) b Ex); st_go (in_memory_Ok _ _ _ _ w (<[k := q]> l) b (ld_Ok _ _ _ Hy))|]. split; [done|]. split; [done|]. split; [exact (str_suffix m q x [] ltac:(by rewrite app_nil_r))|].
    split; [apply touched_refl|]. cbn [length] in *. split; [lia|]. split; [lia|]. split; [destruct x; [done|cbn in *; lia]|]. split; [lia|by right].
  - assert (y = token) as ->. { unfold inside in Ht. rewrite (proj2 (Z.eqb_neq _ _) Hyne) in Ht. cbn in Ht. by apply negb_false_iff, Z.eqb_eq in Ht. }
    rewrite Z.eqb_refl. destruct (cut_word m q x t' Hq) as (E & S1 & S2). set (e := q + Z.of_nat (length x)) in *.
    exists q, x, (e + 1), t', (<[e := 0]> m). split. { st_go (put_arg_Ok k q m l Hk'). st_go (in_memory_Ok _ _ _ _ w (<[k := q]> l) b Ex). st_go (in_memory_Ok _ _ _ _ w (<[k := q]> l) b (ld_Ok _ _ _ Hy)). rewrite (proj2 (Z.eqb_neq _ _) Hyne). by st_go (in_memory_Ok _ _ _ _ w (<[k := q]> l) b E). } split; [done|]. split; [done|]. split; [done|].
    split. { split; [intros i Hi; rewrite lookup_insert_ne; [done|]|intros i Hi; apply lookup_insert_is_Some; destruct (decide (e = i)); [by left|by right]]. intros <-. apply Hi. unfold range. cbn [length] in Hlen. lia. }
    cbn [length] in Hlen. split; [lia|]. split; [lia|]. split; [lia|]. split; [lia|left; lia].
Qed.
Lemma put_word k q (l ps : list Z) n : (k < length l)%nat → take (S k) (<[k := q]> l) ++ ps ++ drop (S k + n) (<[k := q]> l) = take k l ++ (q :: ps) ++ drop (k + S n) l.
Proof.
  intros Hk. rewrite (take_S_r _ _ q) by (by rewrite list_lookup_insert_eq). rewrite take_insert_ge, drop_insert_lt by lia.
  rewrite <- app_assoc. cbn [app]. do 4 f_equal. lia.
Qed.

Lemma parse_loop_Ok : ∀ n s m next k l, str_at m next s → (length s < n)%nat → (length s < fuel)%nat → (k <= 16)%nat → length l = 16%nat →
  let ws := take (16 - k) (words token s) in
  ∃ m' ps, parse_loop n token next (Z.of_nat k) (St m w l b) = Ok (Z.of_nat (k + length ws), St m' w (take k l ++ ps ++ drop (k + length ws) l) b) ∧
    List.Forall2 (λ p x, str_at m' p x ∧ next <= p ∧ p + Z.of_nat (length x) <= next + Z.of_nat (length s)) ps ws ∧ touched (range next (length s)) m m'.
Proof.
  intros n. induction n as [|n IH]; intros s m next k l Hs Hn Hf Hk Hl ws; [lia|]. destruct (decide (k = 16%nat)) as [->|Hne].
  { exists m, []. unfold ws. cbn [take Nat.sub length app]. rewrite Nat.add_0_r. split; [|split; [constructor|apply touched_refl]]. rewrite take_drop. cbn [parse_loop].
    assert (is_Some (m !! next)) as [c Hc] by (destruct Hs as [B _]; destruct s; destruct B as [B _]; by eexists).
    st_go (in_memory_Ok _ _ _ _ w l b (ld_Ok _ _ _ Hc)). change (Z.of_nat 16 <? MAX_ARG_NR) with false. by rewrite andb_false_r. }
  destruct (one_turn n s m next k l Hs Hf ltac:(lia) Hl) as [[Hw E]|(q & x & e & t & m1 & E & Hw & Sx & St & T & Hq & He & Ht & Hxe & Hx)].
  { exists m, []. unfold ws. rewrite Hw, take_nil. cbn [length app]. rewrite Nat.add_0_r, take_drop. split; [done|]. split; [constructor|apply touched_refl]. }
  destruct (IH t m1 e (S k) (<[k := q]> l) St ltac:(lia) ltac:(lia) ltac:(lia) ltac:(by rewrite length_insert)) as (m' & ps & E' & F & T').
  exists m', (q :: ps). unfold ws. replace (16 - k)%nat with (S (16 - S k)) by lia. rewrite Hw. cbn [take length]. split; [|split].
  - rewrite E, E', put_word by lia. do 3 f_equal. lia.
  - constructor.
    + split; [|split; [done|]].
      * apply (touched_str _ _ _ _ _ T'); [|done]. intros i Hi. unfold range in *. destruct Hx as [Hx| ->]; cbn [length]; lia.
      * lia.
    + eapply List.Forall2_impl; [|exact F]. intros p y (H1 & H2 & H3). split; [done|]. lia.
  - apply (touched_trans _ _ _ _ _ _ T T'); [done|]. intros i Hi. unfold range in *. lia.
Qed.
End parsing.

(** C26. A line of fewer than sixteen words is taken apart: the pointers lead to the words, in order,
    each a string of its own, a null pointer follows them, and nothing but the line is written. *)
Theorem line_becomes_words line token s m w l b (ws := words token s) :
  line ≠ NULL → token ≠ 0 → str_at m line s → (length s < fuel)%nat → length l = 16%nat → (length ws < 16)%nat →
  ∃ m' ps, cmd_parse line token (St m w l b) = Ok (Z.of_nat (length ws), St m' w (ps ++ NULL :: drop (S (length ws)) l) b) ∧
    List.Forall2 (λ p x, str_at m' p x ∧ line <= p ∧ p + Z.of_nat (length x) <= line + Z.of_nat (length s)) ps ws ∧ touched (range line (length s)) m m'.
Proof.
  intros Hn Ht Hs Hf Hl Hw. destruct (parse_loop_Ok token Ht w b fuel s m line 0 l Hs Hf Hf ltac:(lia) Hl) as (m' & ps & E & F & T).
  change (16 - 0)%nat with 16%nat in *. rewrite take_ge in E, F by (fold ws; lia). fold ws in E, F. pose proof (List.Forall2_length F) as Hps. exists m', ps. split; [|done].
  unfold cmd_parse. rewrite (proj2 (Z.eqb_neq line NULL) Hn). eapply st_step; [exact E|]. cbv beta. change (take 0 l) with (@nil Z). cbn [app Nat.add].
  eapply st_step; [apply put_arg_Ok; rewrite length_app, length_drop; lia|]. unfold mret, st_ret, state_of. do 4 f_equal.
  rewrite <- Hps. rewrite insert_app_r_alt by lia. rewrite Nat.sub_diag. f_equal. destruct (drop (length ps) l) as [|y r] eqn:Ed.
  - apply (f_equal length) in Ed. rewrite length_drop in Ed. cbn in Ed. lia.
  - cbn. f_equal. apply (f_equal (drop 1)) in Ed. rewrite drop_drop in Ed. cbn in Ed. by rewrite Nat.add_1_r in Ed.
Qed.

(** With sixteen words or more the null pointer is written behind the array. *)
Theorem sixteen_words_overflow line token s m w l b :
  line ≠ NULL → token ≠ 0 → str_at m line s → (length s < fuel)%nat → length l = 16%nat → (16 <= length (words token s))%nat →
  cmd_parse line token (St m w l b) = Stop OutOfBounds.
Proof.
  intros Hn Ht Hs Hf Hl Hw. destruct (parse_loop_Ok token Ht w b fuel s m line 0 l Hs Hf Hf ltac:(lia) Hl) as (m' & ps & E & F & _).
  change (16 - 0)%nat with 16%nat in *. assert (H16 : length (take 16 (words token s)) = 16%nat) by (rewrite length_take; lia). rewrite H16 in E.
  pose proof (List.Forall2_length F) as Hps. rewrite H16 in Hps. unfold cmd_parse. rewrite (proj2 (Z.eqb_neq line NULL) Hn). eapply st_step; [exact E|]. cbv beta.
  unfold put_arg, mbind, st_bind. unfold state_of. cbn [argv]. change (take 0 l) with (@nil Z). cbn [app Nat.add]. rewrite (drop_ge l) by lia. rewrite app_nil_r. unfold zset. rewrite Hps. done.
Qed.
(** ** The line editor *)

(** A terminal: what is typed and what is shown. *)
Class Terminal := {
  input : W → list Z;
  output : W → list Z;
  typed w c r : input w = c :: r → ∃ w', sys_read STDIN_FILENO 1 w = (1, [c], w') ∧ input w' = r ∧ output w' = output w;
  shown w l : ∃ v w', sys (Write STDOUT_FILENO l) w = (v, w') ∧ input w' = input w ∧ output w' = output w ++ l
}.

(** The line behind each key, and what it shows. *)
Definition key (line : list Z) (c : Z) : list Z := if c =? 8 then take (length line - 1) line else if c =? 9 then line else line ++ [c].
Definition key_echo (line : list Z) (c : Z) : list Z := if c =? 8 then (if bool_decide (line = []) then [] else [8]) else if c =? 9 then [] else [c].
Fixpoint echoes (line l : list Z) : list Z := match l with [] => [] | c :: l => key_echo line c ++ echoes (key line c) l end.
Fixpoint fits (count : nat) (line l : list Z) : bool := match l with [] => true | c :: l => bool_decide (length line < count)%nat && fits count (key line c) l end.

Definition plain (c : Z) : Prop := is_char c ∧ c ≠ 0 ∧ c ≠ 10 ∧ c ≠ 13.

Section typing.
Context {TM : Terminal} (line : Z) (count : nat) (a : list Z) (b : bool).

Lemma read_key m w c r p : input w = c :: r → is_char c → is_Some (m !! p) → ∃ w1, on_proc (read STDIN_FILENO p 1) (St m w a b) = Ok (1, St (<[p := c]> m) w1 a b) ∧ input w1 = r ∧ output w1 = output w.
Proof.
  intros Hi Hc Hp. destruct (typed w c r Hi) as (w1 & E & I & O). exists w1. split; [|done]. unfold on_proc, read. cbn [proc state_of world memory]. rewrite E.
  rewrite (copy_out_Ok m p [c]) by (intros i Hi'; by replace i with p by (cbn in Hi'; lia)). cbn [write]. unfold is_char in Hc. by rewrite s8_small.
Qed.

Lemma write_out m w l : ∃ v w1, call_ (Write STDOUT_FILENO l) (St m w a b) = Ok (v, St m w1 a b) ∧ input w1 = input w ∧ output w1 = output w ++ l.
Proof. destruct (shown w l) as (v & w1 & E & I & O). exists v, w1. split; [|done]. unfold call_, on_proc, invoke. cbn. by rewrite E. Qed.

(** One key that does not end the line. *)
Lemma one_key n acc m w c r : input w = c :: r → plain c → bytes_at m line acc → (length acc < count)%nat → room m line count →
  ∃ m1 w1, readline_loop (S n) line (Z.of_nat (length acc)) (Z.of_nat count) (St m w a b) = readline_loop n line (Z.of_nat (length (key acc c))) (Z.of_nat count) (St m1 w1 a b) ∧
    bytes_at m1 line (key acc c) ∧ touched (range line count) m m1 ∧ input w1 = r ∧ output w1 = output w ++ key_echo acc c.
Proof.
  intros Hi (Hc & H0 & H10 & H13) Hb Hl Hr. set (p := line + Z.of_nat (length acc)). set (m1 := <[p := c]> m).
  destruct (read_key m w c r p Hi Hc ltac:(apply Hr; lia)) as (w1 & E1 & I1 & O1).
  assert (T : touched (range line count) m m1).
  { split; [intros i Hx; unfold m1; rewrite lookup_insert_ne; [done|]|intros i Hx; apply lookup_insert_is_Some; destruct (decide (p = i)); [by left|by right]]. intros <-. apply Hx. unfold range, p. lia. }
  assert (Ha : bytes_at m1 line acc) by (apply (bytes_at_frame m); [done|]; intros i Hx; unfold m1; rewrite lookup_insert_ne by (unfold p; lia); done).
  assert (Hld : in_memory (ld p) (St m1 w1 a b) = Ok (c, St m1 w1 a b)) by (apply in_memory_Ok, ld_Ok; unfold m1; by rewrite lookup_insert_eq).
  assert (Estart : readline_loop (S n) line (Z.of_nat (length acc)) (Z.of_nat count) (St m w a b) =
    (if c =? 8 then if 0 <? Z.of_nat (length acc) then call_ (Write STDOUT_FILENO [8]);; readline_loop n line (Z.of_nat (length acc) - 1) (Z.of_nat count) else readline_loop n line (Z.of_nat (length acc)) (Z.of_nat count)
     else if c =? 9 then readline_loop n line (Z.of_nat (length acc)) (Z.of_nat count) else call_ (Write STDOUT_FILENO [c]);; readline_loop n line (Z.of_nat (length acc) + 1) (Z.of_nat count)) (St m1 w1 a b)).
  { cbn [readline_loop]. rewrite (proj2 (Z.ltb_lt _ _)) by lia. st_go E1. change (1 =? -1) with false. st_go Hld.
    by rewrite (proj2 (Z.eqb_neq _ _) H10), (proj2 (Z.eqb_neq _ _) H13). }
  rewrite Estart. unfold key, key_echo. destruct (c =? 8) eqn:E8.
  - destruct (decide (acc = [])) as [->|Hne].
    + exists m1, w1. rewrite bool_decide_true, app_nil_r by done. done.
    + destruct (write_out m1 w1 [8]) as (v & w2 & E2 & I2 & O2). exists m1, w2. assert (0 < length acc)%nat by (destruct acc; [done|cbn; lia]).
      rewrite bool_decide_false by done. split; [|split; [|split; [done|split; [congruence|congruence]]]].
      * rewrite (proj2 (Z.ltb_lt _ _)) by lia. st_go E2. rewrite length_take. f_equal. lia.
      * rewrite <- (take_drop (length acc - 1) acc) in Ha. by apply bytes_at_app in Ha as [Ha _].
  - destruct (c =? 9) eqn:E9.
    + exists m1, w1. rewrite app_nil_r. done.
    + destruct (write_out m1 w1 [c]) as (v & w2 & E2 & I2 & O2). exists m1, w2. split; [|split; [|split; [done|split; [congruence|congruence]]]].
      * st_go E2. rewrite length_app. f_equal. cbn. lia.
      * apply bytes_at_app. split; [done|]. split; [unfold m1; by rewrite lookup_insert_eq|done].
Qed.

Lemma keys_Ok : ∀ l n acc m w r, input w = l ++ r → Forall plain l → bytes_at m line acc → fits count acc l = true → room m line count →
  ∃ m1 w1, readline_loop (length l + n) line (Z.of_nat (length acc)) (Z.of_nat count) (St m w a b) = readline_loop n line (Z.of_nat (length (foldl key acc l))) (Z.of_nat count) (St m1 w1 a b) ∧
    bytes_at m1 line (foldl key acc l) ∧ touched (range line count) m m1 ∧ input w1 = r ∧ output w1 = output w ++ echoes acc l.
Proof.
  intros l. induction l as [|c l IH]; intros n acc m w r Hi Hp Hb Hf Hr.
  { exists m, w. cbn [echoes foldl]. rewrite app_nil_r. split; [done|]. split; [done|]. split; [apply touched_refl|done]. }
  cbn [fits] in Hf. apply andb_true_iff in Hf as [Hf1%bool_decide_eq_true Hf]. apply Forall_cons in Hp as [Hc Hp]. destruct (one_key (length l + n) acc m w c (l ++ r) Hi Hc Hb Hf1 Hr) as (m1 & w1 & E1 & B1 & T1 & I1 & O1).
  destruct (IH n (key acc c) m1 w1 r I1 Hp B1 Hf ltac:(by apply (touched_room _ _ _ _ _ T1))) as (m2 & w2 & E2 & B2 & T2 & I2 & O2).
  exists m2, w2. cbn [length Nat.add foldl echoes]. rewrite E1, E2. split; [done|]. split; [done|]. split; [by apply (touched_trans _ _ _ _ _ _ T1 T2)|]. split; [done|]. rewrite O2, O1, <- app_assoc. done.
Qed.

Lemma key_plain l : ∀ acc, Forall (λ c, is_char c ∧ c ≠ EOS) acc → Forall plain l → Forall (λ c, is_char c ∧ c ≠ EOS) (foldl key acc l).
Proof.
  induction l as [|c l IH]; intros acc Ha Hl; [done|]. apply Forall_cons in Hl as [(H1 & H2 & _) Hl]. apply IH; [|done]. unfold key. destruct (c =? 8); [by apply Forall_take|].
  destruct (c =? 9); [done|]. apply Forall_app. split; [done|]. apply Forall_singleton. by split.
Qed.
End typing.

(** A line that always fits: the buffer holds what is left of it after the deletions, the screen
    has seen each key, the line feed last, and no key behind the line is taken. *)
Theorem readline_edits {TM : Terminal} line count l e r m w a b :
  line ≠ NULL → input w = l ++ e :: r → Forall plain l → e = 10 ∨ e = 13 → fits count [] l = true → (length (foldl key [] l) < count)%nat → room m line count → (length l < fuel)%nat →
  ∃ m' w', readline line (Z.of_nat count) (St m w a b) = Ok ((), St m' w' a b) ∧ str_at m' line (foldl key [] l) ∧ touched (range line count) m m' ∧
    input w' = r ∧ output w' = output w ++ echoes [] l ++ [10].
Proof.
  intros Hn Hi Hp He Hf Hlt Hr Hfu. destruct (keys_Ok line count a b l (fuel - length l) [] m w (e :: r) Hi Hp I Hf Hr) as (m1 & w1 & E1 & B1 & T1 & I1 & O1).
  unfold readline. rewrite (proj2 (Z.eqb_neq line NULL) Hn). replace fuel with (length l + (fuel - length l))%nat by lia. change 0 with (Z.of_nat (length (@nil Z))). rewrite E1.
  destruct (fuel - length l)%nat as [|n] eqn:En; [lia|]. set (acc := foldl key [] l) in *. set (p := line + Z.of_nat (length acc)).
  assert (Hrm : room m1 line count) by by apply (touched_room _ _ _ _ _ T1). assert (Hc : is_char e) by (destruct He as [-> | ->]; unfold is_char; lia).
  destruct (read_key a b m1 w1 e r p I1 Hc ltac:(apply Hrm; unfold p; lia)) as (w2 & E2 & I2 & O2). set (m2 := <[p := e]> m1) in *.
  assert (Hst : st p 0 m2 = Ok ((), <[p := 0]> m1)) by (rewrite st_Ok by (unfold m2; rewrite lookup_insert_eq; by eexists); unfold m2; by rewrite insert_insert_eq).
  destruct (write_out a b (<[p := 0]> m1) w2 [10]) as (v & w3 & E3 & I3 & O3). exists (<[p := 0]> m1), w3. split; [|split; [|split; [|split; [congruence|]]]].
  - cbn [readline_loop]. rewrite (proj2 (Z.ltb_lt _ _)) by lia. st_go E2. change (1 =? -1) with false.
    assert (Hld : in_memory (ld p) (St m2 w2 a b) = Ok (e, St m2 w2 a b)) by (apply in_memory_Ok, ld_Ok; unfold m2; by rewrite lookup_insert_eq). st_go Hld.
    replace ((e =? 10) || (e =? 13)) with true by (destruct He as [-> | ->]; done). st_go (in_memory_Ok _ _ _ _ w2 a b Hst). by st_go E3.
  - split; [|apply key_plain; [constructor|done]]. apply bytes_at_app. split; [|split; [by rewrite lookup_insert_eq|done]].
    apply (bytes_at_frame m1); [done|]. intros i Hx. rewrite lookup_insert_ne; [done|unfold p; lia].
  - apply (touched_trans (range line count) (range line count) _ _ m1); [done| |done|done]. split; [intros i Hx; rewrite lookup_insert_ne; [done|]|intros i Hx; apply lookup_insert_is_Some; destruct (decide (p = i)); [by left|by right]].
    intros <-. apply Hx. unfold range, p. lia.
  - rewrite O3, O2, O1. by rewrite <- app_assoc.
Qed.

(** When as many characters are left as the buffer has, the terminator goes behind it. *)
Theorem readline_overflows {TM : Terminal} line count l r m w a b :
  line ≠ NULL → input w = l ++ r → Forall plain l → fits count [] l = true → length (foldl key [] l) = count → room m line count → m !! (line + Z.of_nat count) = None → (length l < fuel)%nat →
  readline line (Z.of_nat count) (St m w a b) = Stop OutOfBounds.
Proof.
  intros Hn Hi Hp Hf Hl Hr Hno Hfu. destruct (keys_Ok line count a b l (fuel - length l) [] m w r Hi Hp I Hf Hr) as (m1 & w1 & E1 & _ & T1 & _).
  unfold readline. rewrite (proj2 (Z.eqb_neq line NULL) Hn). replace fuel with (length l + (fuel - length l))%nat by lia. change 0 with (Z.of_nat (length (@nil Z))). rewrite E1.
  destruct (fuel - length l)%nat as [|n] eqn:En; [lia|]. cbn [readline_loop]. rewrite (proj2 (Z.ltb_ge _ _)) by lia. rewrite Hl.
  unfold in_memory, on_proc, on_memory, st. cbn [proc memory state_of]. destruct T1 as [T1 _]. rewrite T1, Hno by (unfold range; lia). done.
Qed.
(** ** Output into a file *)

(** The system calls that lead from one world to another, with their answers. *)
Fixpoint calls (w : W) (l : list (call * Z)) (w' : W) : Prop :=
  match l with [] => w' = w | (c, v) :: l => ∃ w1, sys c w = (v, w1) ∧ calls w1 l w' end.

Lemma call_Ok c v w w1 m l b : sys c w = (v, w1) → call_ c (St m w l b) = Ok (v, St m w1 l b).
Proof. intros E. unfold call_, on_proc, invoke. cbn. by rewrite E. Qed.

Lemma str_is_Ok m : ∀ lit x p, str_at m p x → Forall (λ c, c ≠ EOS) lit → str_is lit p m = Ok (bool_decide (x = lit), m).
Proof.
  intros lit. induction lit as [|y lit IH]; intros x p Hs Hl; cbn [str_is]; destruct x as [|c x].
  - st_go (ld_Ok _ _ _ (str_nil _ _ Hs)). done.
  - apply str_tail in Hs as (Hc & Hne & _). st_go (ld_Ok _ _ _ Hc). by rewrite (proj2 (Z.eqb_neq _ _) Hne).
  - apply Forall_cons in Hl as [Hy _]. st_go (ld_Ok _ _ _ (str_nil _ _ Hs)). by rewrite (proj2 (Z.eqb_neq _ _)) by congruence.
  - apply Forall_cons in Hl as [Hy Hl]. apply str_tail in Hs as (Hc & Hne & _ & Hs). st_go (ld_Ok _ _ _ Hc). destruct (Z.eqb_spec c y) as [->|Hcy].
    + rewrite (IH x (p + 1) Hs Hl). do 2 f_equal. apply bool_decide_ext. split; [by intros ->|by intros [= ->]].
    + rewrite bool_decide_false; [done|by intros [= ? _]].
Qed.

Lemma load_string_Ok m : ∀ x n p, str_at m p x → (length x < n)%nat → load_string n p m = Ok (x, m).
Proof.
  intros x. induction x as [|c x IH]; intros n p Hs Hn; (destruct n as [|n]; [cbn in Hn; lia|]); cbn [load_string].
  - st_go (ld_Ok _ _ _ (str_nil _ _ Hs)). done.
  - apply str_tail in Hs as (Hc & Hne & _ & Hs). st_go (ld_Ok _ _ _ Hc). rewrite (proj2 (Z.eqb_neq _ _) Hne). cbn [length] in Hn. by st_go (IH n (p + 1) Hs ltac:(lia)).
Qed.

Lemma load_args_Ok m : ∀ ps xs l, List.Forall2 (λ p x, str_at m p x ∧ (length x < fuel)%nat ∧ p ≠ NULL) ps xs → load_args (ps ++ NULL :: l) m = Ok (xs, m).
Proof.
  intros ps xs l F. induction F as [|p x ps xs (Hs & Hl & Hp) F IH]; [done|]. cbn [load_args app]. rewrite (proj2 (Z.eqb_neq p NULL) Hp).
  st_go (load_string_Ok m x fuel p Hs Hl). by st_go IH.
Qed.

Definition operator (x : list Z) : bool := existsb (λ o, bool_decide (x = o.1)) operators.

Lemma no_operator m p x argc i : str_at m p x → operator x = false → find_operator operators argc i p m = Ok (None, m).
Proof.
  intros Hs Ho. assert (HA : Forall (λ o, Forall (λ c, c ≠ EOS) o.1) operators) by (repeat constructor; done).
  unfold operator in Ho. revert Ho HA. generalize operators. intros ops. induction ops as [|[lit f] ops IH]; intros Ho HA; [done|]. cbn [existsb fst] in Ho. apply orb_false_iff in Ho as [H1 H2].
  apply Forall_cons in HA as [Hl HA]. cbn [find_operator]. st_go (str_is_Ok m lit x p Hs Hl). rewrite H1. cbn [andb]. by apply IH.
Qed.

Lemma arg_at_Ok k p m w l b : l !! k = Some p → arg_at (Z.of_nat k) (St m w l b) = Ok (p, St m w l b).
Proof.
  intros E. unfold arg_at. cbn. assert (zget l (Z.of_nat k) = Ok p) as ->; [|done]. apply zget_Ok. split; [lia|]. by rewrite Nat2Z.id.
Qed.

(** Words that are no operators are passed over. *)
Lemma dup_words m w b argc r n : ∀ ps xs l k, List.Forall2 (λ p x, str_at m p x ∧ operator x = false) ps xs → Z.of_nat (k + length ps) <= argc → (∀ j p, ps !! j = Some p → l !! (k + j)%nat = Some p) →
  redirect_loop (length ps + n) argc (Z.of_nat k) r (St m w l b) = redirect_loop n argc (Z.of_nat (k + length ps)) r (St m w l b).
Proof.
  intros ps xs l k F. revert k. induction F as [|p x ps xs [Hs Ho] F IH]; intros k Hk Hl; [by rewrite Nat.add_0_r|]. cbn [length Nat.add redirect_loop] in *.
  rewrite (proj2 (Z.ltb_lt _ _)) by lia. st_go (arg_at_Ok k p m w l b ltac:(by rewrite <- (Hl 0%nat p eq_refl), Nat.add_0_r)).
  st_go (in_memory_Ok _ _ _ _ w l b (no_operator m p x argc (Z.of_nat k) Hs Ho)). replace (Z.of_nat k + 1) with (Z.of_nat (S k)) by lia.
  rewrite IH by (lia || intros j q Hq; rewrite <- (Hl (S j) q Hq); f_equal; lia). do 2 f_equal. lia.
Qed.
Lemma find_first m p x argc i : str_at m p x → i + 1 < argc → find_operator operators argc i p m = Ok (snd <$> List.find (λ o, bool_decide (x = o.1)) operators, m).
Proof.
  intros Hs Hi. assert (HA : Forall (λ o, Forall (λ c, c ≠ EOS) o.1) operators) by (repeat constructor; done).
  revert HA. generalize operators. intros ops. induction ops as [|[lit f] ops IH]; intros HA; [done|].
  apply Forall_cons in HA as [Hl HA]. cbn [find_operator List.find fst]. st_go (str_is_Ok m lit x p Hs Hl). rewrite (proj2 (Z.ltb_lt _ _) Hi), andb_true_r.
  destruct (bool_decide (x = lit)); [done|]. by apply IH.
Qed.

Definition command_path (name : list Z) : list Z := chars "/bin/" ++ name ++ chars ".out".

Lemma command_text name : Z.of_nat (length name) < 1000 → text_of (chars "/bin/%s.out") [AStr name] = Ok (command_path name, Z.of_nat (length (command_path name)), []).
Proof.
  intros Hl. unfold text_of, vsprintf. change (S (length (chars "/bin/%s.out"))) with (length (chars "/bin/") + S (length (chars ".out") + 2))%nat.
  change (chars "/bin/%s.out") with (chars "/bin/" ++ 37 :: 115 :: chars ".out"). rewrite plain_text by (repeat constructor; done). rewrite string_text.
  rewrite <- (app_nil_r (chars ".out")) at 2. rewrite plain_text by (repeat constructor; done). cbn [format_loop Nat.add app mbind res_bind].
  rewrite <- app_assoc. change (chars "/bin/" ++ name ++ chars ".out") with (command_path name).
  assert ((Z.of_nat (length (command_path name)) <? 2048) = true) as Hlt.
  { apply Z.ltb_lt. unfold command_path. rewrite !length_app. change (length (chars "/bin/")) with 5%nat. change (length (chars ".out")) with 4%nat. lia. }
  unfold mret, res_ret, mbind, res_bind. by rewrite Hlt.
Qed.

(** A command line [name args > file], taken apart: [ps] are the pointers to the words, [po] and
    [pf] those to the operator and the file. *)
Record redirected (m : mem) (ps : list Z) (po pf : Z) (name : list Z) (args : list (list Z)) (op file : list Z) : Prop := {
  rd_words : List.Forall2 (λ p x, string_clear (range buf 1024) m p x ∧ operator x = false ∧ (length x < fuel)%nat) ps (name :: args);
  rd_op : string_clear (range buf 1024) m po op; rd_file : string_clear (range buf 1024) m pf file;
  rd_name : Z.of_nat (length name) < 1000; rd_room : room m buf 1024; rd_fuel : (1024 + length ps + length file < fuel)%nat
}.

(** The memory when the path of the command is in [buf]. *)
Definition with_path (m : mem) (name : list Z) : mem := KString.write buf (command_path name ++ [EOS]) m.

Lemma command_path_length name : length (command_path name) = (9 + length name)%nat.
Proof. unfold command_path. rewrite !length_app. change (length (chars "/bin/")) with 5%nat. change (length (chars ".out")) with 4%nat. lia. Qed.

Lemma with_path_str m name p x : Z.of_nat (length name) < 1000 → string_clear (range buf 1024) m p x → str_at (with_path m name) p x.
Proof.
  intros Hn (Hs & Hc & _). apply (touched_str (range buf (length (command_path name ++ [EOS]))) m); [apply touched_write| |done].
  eapply clear_incl; [|exact Hc]. intros i Hi. unfold range in *. rewrite length_app, command_path_length in Hi. cbn in Hi. lia.
Qed.

Lemma with_path_path m name : Forall (λ c, is_char c ∧ c ≠ EOS) name → str_at (with_path m name) buf (command_path name).
Proof.
  intros Hn. assert (F : Forall (λ c, is_char c ∧ c ≠ EOS) (command_path name)).
  { unfold command_path. apply Forall_app. split; [apply chars_check; reflexivity|apply Forall_app; split; [done|apply chars_check; reflexivity]]. }
  split; [|done]. apply write_bytes. apply Forall_app. split; [|apply Forall_singleton; unfold is_char, EOS; lia]. eapply Forall_impl; [exact F|]. by intros ? [].
Qed.
Section redirection.
Context (m : mem) (ps : list Z) (po pf : Z) (name : list Z) (args : list (list Z)) (op file : list Z) (flag : Z) (rest : list Z) (b : bool).
Context (Rd : redirected m ps po pf name args op file) (Hop : op = chars ">" ∧ flag = O_TRUNC ∨ op = chars ">>" ∧ flag = O_APPEND).
Local Definition m1 : mem := with_path m name.
Local Definition line_args : list Z := ps ++ po :: pf :: NULL :: rest.
Local Definition cut_args : list Z := ps ++ NULL :: pf :: NULL :: rest.
Local Definition nargs : Z := Z.of_nat (length ps) + 2.

Lemma words_there : List.Forall2 (λ p x, str_at m1 p x ∧ (length x < fuel)%nat ∧ p ≠ NULL) ps (name :: args) ∧ List.Forall2 (λ p x, str_at m1 p x ∧ operator x = false) ps (name :: args).
Proof.
  destruct Rd as [F _ _ Hn _ _]. split; (eapply List.Forall2_impl; [|exact F]); intros p x (Hs & Ho & Hf); pose proof (with_path_str m name p x Hn Hs) as Hs'.
  - destruct Hs as (_ & _ & _ & Hp). split; [done|]. split; [done|]. unfold NULL. lia.
  - done.
Qed.

Lemma dup_scanned w : redirect_loop fuel nargs 0 (Redirect NULL NULL NULL 0 0) (St m1 w line_args b) = Ok (Redirect NULL pf NULL flag 0, St m1 w cut_args b).
Proof.
  destruct words_there as [_ F]. pose proof (rd_fuel _ _ _ _ _ _ _ _ Rd) as Hf. pose proof (with_path_str m name po op (rd_name _ _ _ _ _ _ _ _ Rd) (rd_op _ _ _ _ _ _ _ _ Rd)) as So.
  replace fuel with (length ps + S (S (fuel - length ps - 2)))%nat by lia. change 0 with (Z.of_nat 0).
  rewrite (dup_words m1 w b nargs _ _ ps (name :: args) line_args 0 F) by (unfold nargs; lia || (intros j p Hp; unfold line_args; cbn; rewrite lookup_app_l by (by apply lookup_lt_Some in Hp); exact Hp)).
  rewrite Nat.add_0_l. generalize (fuel - length ps - 2)%nat. intros n. cbn [redirect_loop]. rewrite (proj2 (Z.ltb_lt _ _)) by (unfold nargs; lia).
  st_go (arg_at_Ok (length ps) po m1 w line_args b ltac:(unfold line_args; by rewrite list_lookup_middle)).
  st_go (in_memory_Ok _ _ _ _ w line_args b (find_first m1 po op nargs (Z.of_nat (length ps)) So ltac:(unfold nargs; lia))).
  replace (Z.of_nat (length ps) + 1) with (Z.of_nat (S (length ps))) by lia. replace (Z.of_nat (length ps) + 2) with nargs by done.
  assert (Hpf : line_args !! S (length ps) = Some pf) by (unfold line_args; rewrite lookup_app_r by lia; by replace (S (length ps) - length ps)%nat with 1%nat by lia).
  assert (Hput : put_arg (Z.of_nat (length ps)) NULL (St m1 w line_args b) = Ok ((), St m1 w cut_args b)).
  { rewrite put_arg_Ok by (unfold line_args; rewrite length_app; cbn; lia). unfold line_args, cut_args. rewrite insert_app_r_alt, Nat.sub_diag by lia. done. }
  destruct Hop as [[-> ->]|[-> ->]]; cbn [List.find fmap option_fmap option_map snd operators];
    (st_go (arg_at_Ok _ _ m1 w line_args b Hpf)); st_go Hput; by rewrite Z.ltb_irrefl.
Qed.

Lemma dupfile_Ok w w1 fd : sys (Open file (Z.lor (Z.lor O_WRONLY flag) O_CREAT) 493) w = (fd, w1) → fd ≠ EOF_fd →
  dupfile nargs (St m1 w line_args b) = Ok (Some (EOF_fd, fd, EOF_fd), St m1 w1 cut_args b).
Proof.
  intros E Hfd. unfold dupfile. st_go (dup_scanned w). cbn [infile outfile errfile outappend errappend]. change (NULL =? NULL) with true. cbv match.
  destruct (rd_file _ _ _ _ _ _ _ _ Rd) as (_ & _ & _ & Hp). rewrite (proj2 (Z.eqb_neq pf NULL)) by (unfold NULL; lia).
  pose proof (rd_fuel _ _ _ _ _ _ _ _ Rd) as Hf.
  st_go (in_memory_Ok _ _ _ _ w cut_args b (load_string_Ok m1 file fuel pf (with_path_str m name pf file (rd_name _ _ _ _ _ _ _ _ Rd) (rd_file _ _ _ _ _ _ _ _ Rd)) ltac:(lia))).
  st_go (call_Ok _ _ _ _ m1 cut_args b E). by rewrite (proj2 (Z.eqb_neq _ _) Hfd).
Qed.

Lemma path_there : Forall (λ c, is_char c ∧ c ≠ EOS) name → load_string fuel buf m1 = Ok (command_path name, m1).
Proof. intros Hn. apply load_string_Ok; [by apply with_path_path|]. pose proof (rd_fuel _ _ _ _ _ _ _ _ Rd). pose proof (rd_name _ _ _ _ _ _ _ _ Rd). rewrite command_path_length. lia. Qed.

Lemma put_path w : on_proc (sprintf buf (chars "/bin/%s.out") [AStr name]) (St m w line_args b) = Ok ((), St m1 w line_args b).
Proof.
  unfold on_proc, sprintf. cbn [proc state_of]. unfold lift_st, mbind, st_bind. rewrite command_text by apply Rd. unfold on_memory. cbn [memory].
  rewrite copy_out_Ok; [done|]. rewrite length_app, command_path_length. cbn. apply (room_le _ _ 1024); [apply Rd|]. pose proof (rd_name _ _ _ _ _ _ _ _ Rd). lia.
Qed.

(** What the shell asks of the system for [name args > file]: the parent closes the file and waits,
    the child has it as its output and becomes the program, with the words in front of the operator
    as its arguments. *)
Definition starts (r fd pid : Z) : list (call * Z) := [(Stat (command_path name), r); (Open file (Z.lor (Z.lor O_WRONLY flag) O_CREAT) 493, fd); (Fork, pid)].
Definition child_calls (fd v1 v2 v3 p1 v4 p2 p3 v5 : Z) : list (call * Z) :=
  [(Dup2 fd STDOUT_FILENO, v1); (Close fd, v2); (Signal SIGINT SIG_DFL, v3); (Getpid, p1); (Ioctl STDIN_FILENO TIOCSPGRP p1, v4); (Getpid, p2); (Getpid, p3); (Setpgid p2 p3, v5);
   (Execve (command_path name) args envp, 0)].
Definition parent_calls (fd pid v1 v2 p1 v3 : Z) : list (call * Z) := [(Close fd, v1); (Waitpid pid 0, v2); (Getpid, p1); (Ioctl STDIN_FILENO TIOCSPGRP p1, v3)].

Lemma builtin_command_starts w w1 pid fd : sys Fork w = (pid, w1) → pid = 0 → fd ≠ EOF_fd → Forall (λ c, is_char c ∧ c ≠ EOS) name → ∀ w' v1 v2 v3 p1 v4 p2 p3 v5, calls w1 (child_calls fd v1 v2 v3 p1 v4 p2 p3 v5) w' →
  builtin_command buf EOF_fd fd EOF_fd (St m1 w cut_args b) = Ok (None, St m1 w' cut_args b).
Proof.
  intros Ef -> Hfd Hn w' v1 v2 v3 p1 v4 p2 p3 v5 (x1 & E1 & x2 & E2 & x3 & E3 & x4 & E4 & x5 & E5 & x6 & E6 & x7 & E7 & x8 & E8 & x9 & E9 & ->).
  unfold builtin_command. st_go (call_Ok _ _ _ _ m1 cut_args b Ef). change (negb (0 =? 0)) with false. cbv match. unfold dup_if. change (EOF_fd =? EOF_fd) with true. cbv match. rewrite st_ret_l.
  rewrite (proj2 (Z.eqb_neq _ _) Hfd). st_go (call_Ok _ _ _ _ m1 cut_args b E1). st_go (call_Ok _ _ _ _ m1 cut_args b E2). rewrite !st_ret_l.
  st_go (call_Ok _ _ _ _ m1 cut_args b E3). st_go (call_Ok _ _ _ _ m1 cut_args b E4). st_go (call_Ok _ _ _ _ m1 cut_args b E5).
  st_go (call_Ok _ _ _ _ m1 cut_args b E6). st_go (call_Ok _ _ _ _ m1 cut_args b E7). st_go (call_Ok _ _ _ _ m1 cut_args b E8).
  st_go (in_memory_Ok _ _ _ _ x8 cut_args b (path_there Hn)). destruct words_there as [F _]. 
  assert (Ha : load_args (drop 1 cut_args) m1 = Ok (args, m1)).
  { unfold cut_args. inversion F as [|p x ps' xs Hp F' E1' E2']. subst. cbn [app drop]. by apply load_args_Ok. }
  eapply st_step; [reflexivity|]. cbv beta. cbn [argv state_of]. st_go (in_memory_Ok _ _ _ _ x8 cut_args b Ha). by st_go (call_Ok _ _ _ _ m1 cut_args b E9).
Qed.
Lemma builtin_exec_starts w w1 r fd pid : Forall (λ c, is_char c ∧ c ≠ EOS) name → calls w (starts r fd pid) w1 → r ≠ EOF_fd → fd ≠ EOF_fd → ∃ w0, sys Fork w0 = (pid, w1) ∧
  builtin_exec nargs (St m w line_args b) = (pid ← builtin_command buf EOF_fd fd EOF_fd; match pid with None => mret None | Some pid => call_ (Waitpid pid 0);; p ← call_ Getpid; call_ (Ioctl STDIN_FILENO TIOCSPGRP p);; done_ end) (St m1 w0 cut_args b).
Proof.
  intros Hn (x1 & E1 & x2 & E2 & x3 & E3 & ->) Hr Hfd. exists x2. split; [done|]. unfold builtin_exec.
  assert (Hname : arg_text 0 (St m w line_args b) = Ok (name, St m w line_args b)).
  { destruct Rd as [F _ _ _ _ _]. inversion F as [|p x ps' xs (Hs & _ & Hf) F' E1' E2']. subst. unfold arg_text. change 0 with (Z.of_nat 0).
    st_go (arg_at_Ok 0 p m w line_args b ltac:(unfold line_args; by rewrite <- E1')). apply in_memory_Ok, load_string_Ok; [apply Hs|done]. }
  st_go Hname. st_go (put_path w). st_go (in_memory_Ok _ _ _ _ w line_args b (path_there Hn)). st_go (call_Ok _ _ _ _ m1 line_args b E1).
  rewrite (proj2 (Z.eqb_neq _ _) Hr). st_go (dupfile_Ok x1 x2 fd E2 Hfd). done.
Qed.

Lemma output_to_file_Ok w w1 r fd pid : Forall (λ c, is_char c ∧ c ≠ EOS) name → calls w (starts r fd pid) w1 → r ≠ EOF_fd → fd ≠ EOF_fd →
  (pid = 0 → ∀ w' v1 v2 v3 p1 v4 p2 p3 v5, calls w1 (child_calls fd v1 v2 v3 p1 v4 p2 p3 v5) w' → builtin_exec nargs (St m w line_args b) = Ok (None, St m1 w' cut_args b)) ∧
  (pid ≠ 0 → ∀ w' v1 v2 p1 v3, calls w1 (parent_calls fd pid v1 v2 p1 v3) w' → builtin_exec nargs (St m w line_args b) = Ok (Some (), St m1 w' cut_args b)).
Proof.
  intros Hn Hc Hr Hfd. destruct (builtin_exec_starts w w1 r fd pid Hn Hc Hr Hfd) as (w0 & Ef & ->). split.
  - intros Hp w' v1 v2 v3 p1 v4 p2 p3 v5 Hl. by st_go (builtin_command_starts w0 w1 pid fd Ef Hp Hfd Hn w' v1 v2 v3 p1 v4 p2 p3 v5 Hl).
  - intros Hp w' v1 v2 p1 v3 (x1 & E1 & x2 & E2 & x3 & E3 & x4 & E4 & ->). unfold builtin_command. st_go (call_Ok _ _ _ _ m1 cut_args b Ef).
    rewrite (proj2 (Z.eqb_neq _ _) Hp). cbn [negb]. unfold close_if. change (EOF_fd =? EOF_fd) with true. cbv match. rewrite !st_bind_assoc, st_ret_l, (proj2 (Z.eqb_neq _ _) Hfd).
    st_go (call_Ok _ _ _ _ m1 cut_args b E1). repeat (rewrite st_bind_assoc || rewrite st_ret_l). st_go (call_Ok _ _ _ _ m1 cut_args b E2). st_go (call_Ok _ _ _ _ m1 cut_args b E3). by st_go (call_Ok _ _ _ _ m1 cut_args b E4).
Qed.
End redirection.

(** C27. [name args > file] and [name args >> file], once taken apart: the path of the command is looked
    up, the file is opened - cut to nothing or for appending - and the shell forks; the child has the
    file as its output and becomes the program with the words in front of the operator, the parent
    closes the file, waits for the child and takes the terminal back.  No other system call is made. *)
Theorem output_to_file m ps po pf name args op file flag rest b w w1 r fd pid :
  redirected m ps po pf name args op file → op = chars ">" ∧ flag = O_TRUNC ∨ op = chars ">>" ∧ flag = O_APPEND → Forall (λ c, is_char c ∧ c ≠ EOS) name →
  calls w (starts name file flag r fd pid) w1 → r ≠ EOF_fd → fd ≠ EOF_fd →
  let s := St m w (ps ++ po :: pf :: NULL :: rest) b in let s' w' := St (with_path m name) w' (ps ++ NULL :: pf :: NULL :: rest) b in
  (pid = 0 → ∀ w' v1 v2 v3 p1 v4 p2 p3 v5, calls w1 (child_calls name args fd v1 v2 v3 p1 v4 p2 p3 v5) w' → builtin_exec (Z.of_nat (length ps) + 2) s = Ok (None, s' w')) ∧
  (pid ≠ 0 → ∀ w' v1 v2 p1 v3, calls w1 (parent_calls fd pid v1 v2 p1 v3) w' → builtin_exec (Z.of_nat (length ps) + 2) s = Ok (Some (), s' w')).
Proof. intros Rd Hop Hn Hc Hr Hfd s s'. exact (output_to_file_Ok m ps po pf name args op file flag rest b Rd Hop w w1 r fd pid Hn Hc Hr Hfd). Qed.
End shell.

(** ** Witnesses *)

#[export, program] Instance tape_terminal : Terminal (W := tape) := {| input := keys; output := screen |}.
Next Obligation. intros w c r E. eexists. split; [cbn; unfold tape_read; by rewrite E|done]. Qed.
Next Obligation. intros w l. eexists _, _. split; [reflexivity|done]. Qed.

Definition demo_line (s : list Z) : mem := write 100 s (Args.blank 100 64).
Definition demo_argv : list Z := replicate 16 0.
Definition typing (l : list Z) : tape := Tape l [] [] 0.

Lemma demo_line_str s : check_bytes (demo_line s) 100 (s ++ [0]) = true → forallb (λ c, (-128 <=? c) && (c <? 128) && negb (c =? 0)) s = true → str_at (demo_line s) 100 s.
Proof. intros H1 H2. split; [by apply check_bytes_Ok|by apply chars_check]. Qed.

Lemma line_becomes_words_witness : ∃ m' p q, cmd_parse 40 100 32 (state_of (demo_line (chars "  ls -l ")) (typing []) demo_argv false) = Ok (2, state_of m' (typing []) (p :: q :: replicate 14 0) false) ∧
  str_at m' p (chars "ls") ∧ str_at m' q (chars "-l").
Proof.
  destruct (line_becomes_words 40 100 32 (chars "  ls -l ") (demo_line (chars "  ls -l ")) (typing []) demo_argv false) as (m' & ps & E & F & _).
  - discriminate.
  - discriminate.
  - apply demo_line_str; vm_compute; reflexivity.
  - vm_compute. lia.
  - reflexivity.
  - vm_compute. lia.
  - change (words 32 (chars "  ls -l ")) with [chars "ls"; chars "-l"] in E, F. inversion F as [|p ? ps1 ? [Hp _] F1]. subst. inversion F1 as [|q ? ps2 ? [Hq _] F2]. subst. inversion F2. subst.
    exists m', p, q. split; [exact E|]. split; [exact Hp|exact Hq].
Defined.

Lemma sixteen_words_overflow_witness : cmd_parse 40 100 32 (state_of (demo_line (chars "a b c d e f g h i j k l m n o p")) (typing []) demo_argv false) = Stop OutOfBounds.
Proof.
  apply (sixteen_words_overflow 40 100 32 (chars "a b c d e f g h i j k l m n o p")).
  - discriminate.
  - discriminate.
  - apply demo_line_str; vm_compute; reflexivity.
  - vm_compute. lia.
  - reflexivity.
  - vm_compute. lia.
Defined.

Lemma readline_edits_witness : ∃ m' w', readline 20 100 8 (state_of (Args.blank 100 8) (typing (chars "lx" ++ [8] ++ chars "s" ++ [10])) [] false) = Ok ((), state_of m' w' [] false) ∧ str_at m' 100 (chars "ls") ∧
  output w' = chars "lx" ++ [8] ++ chars "s" ++ [10].
Proof.
  destruct (readline_edits 20 100 8 (chars "lx" ++ [8] ++ chars "s") 10 [] (Args.blank 100 8) (typing (chars "lx" ++ [8] ++ chars "s" ++ [10])) [] false) as (m' & w' & E & Hs & _ & _ & O).
  - discriminate.
  - reflexivity.
  - change (chars "lx" ++ [8] ++ chars "s") with [108; 120; 8; 115]. unfold plain, is_char. repeat apply Forall_cons_2; [lia|lia|lia|lia|apply Forall_nil_2].
  - left. reflexivity.
  - reflexivity.
  - vm_compute. lia.
  - exact (blank_room 100 8).
  - vm_compute. lia.
  - exists m', w'. split; [exact E|]. split; [exact Hs|exact O].
Defined.

Lemma readline_overflows_witness : readline 20 100 3 (state_of (Args.blank 100 3) (typing (chars "pwd")) [] false) = Stop OutOfBounds.
Proof.
  apply (readline_overflows 20 100 3 (chars "pwd") [] (Args.blank 100 3) (typing (chars "pwd")) [] false).
  - discriminate.
  - reflexivity.
  - change (chars "pwd") with [112; 119; 100]. unfold plain, is_char. repeat apply Forall_cons_2; [lia|lia|lia|apply Forall_nil_2].
  - reflexivity.
  - reflexivity.
  - exact (blank_room 100 3).
  - vm_compute. reflexivity.
  - vm_compute. lia.
Defined.

Definition demo_words : mem := write 100 (chars "cat" ++ [0]) (write 110 (chars "f" ++ [0]) (write 120 (chars ">" ++ [0]) (write 130 (chars "out" ++ [0]) (Args.blank 100 40)))).
Definition demo_shell_mem : mem := demo_words ∪ Args.blank 2000 1024.

Lemma demo_word p s : check_bytes demo_words p (s ++ [0]) = true → forallb (λ c, (-128 <=? c) && (c <? 128) && negb (c =? 0)) s = true → 0 < p < 1000 → (length s < 100)%nat →
  string_clear (range 2000 1024) demo_shell_mem p s.
Proof.
  intros H1 H2 Hp Hl. split; [split; [|by apply chars_check]|split; [|lia]].
  - apply bytes_union_l. by apply check_bytes_Ok.
  - intros i Hi. unfold range in *. lia.
Qed.

Lemma demo_redirected : redirected 3000 2000 demo_shell_mem [100; 110] 120 130 (chars "cat") [chars "f"] (chars ">") (chars "out").
Proof.
  split.
  - repeat (apply List.Forall2_cons; [split; [apply demo_word; [vm_compute; reflexivity|reflexivity|lia|cbn; lia]|split; [reflexivity|cbn; lia]]|]). apply List.Forall2_nil.
  - apply demo_word; [vm_compute; reflexivity|reflexivity|lia|cbn; lia].
  - apply demo_word; [vm_compute; reflexivity|reflexivity|lia|cbn; lia].
  - cbn. lia.
  - apply room_union_r. exact (blank_room 2000 1024).
  - cbn. lia.
Qed.

Lemma output_to_file_witness : ∃ s', builtin_exec 3000 2000 4 (state_of demo_shell_mem (typing []) ([100; 110] ++ 120 :: 130 :: NULL :: []) false) = Ok (None, s') ∧
  List.last (log (world (proc s'))) Fork = Execve (chars "/bin/cat.out") [chars "f"] envp.
Proof.
  destruct (output_to_file 3000 2000 demo_shell_mem [100; 110] 120 130 (chars "cat") [chars "f"] (chars ">") (chars "out") O_TRUNC [] false (typing []) (Tape [] [] [Stat (command_path (chars "cat")); Open (chars "out") 577 493; Fork] 0) 0 3 0 demo_redirected) as [HC _].
  - left. split; reflexivity.
  - apply chars_check. reflexivity.
  - do 3 (eexists; split; [reflexivity|]). reflexivity.
  - discriminate.
  - discriminate.
  - eexists. split; [eapply HC; [reflexivity|]|].
    + do 9 (eexists; split; [reflexivity|]). reflexivity.
    + reflexivity.
Defined.
