(* ===== verification/Programs.v ===== *)
(** * The small user programs (src/buildroot/{cat,echo,env,touch,kill,count,init}.c, parsemode of ls.c)

    A program is what its [main] does, given its arguments as strings; it answers what [main]
    returns, which [libc_start_main] hands to [exit], or [None] when it has called [exit] itself. *)

From Stdlib Require Import String.
From stdpp Require Import gmap.
From S2P Require Import Prelude KStdlib Vsprintf Blocks Files Args KString User.

Definition BUFLEN : Z := 1024.
Definition SIGTERM : Z := 15.
Definition EOF : Z := -1.

(** ** [ls -l]: the text of a mode *)

Definition mode_list : list Z := [32768; 24576; 16384; 8192; 4096; 40960; 49152].
Definition mode_char : list Z := chars "-bdcpls".

Fixpoint type_loop (l : list (Z * Z)) (mode : Z) : Z :=
  match l with [] => 45 | (t, c) :: l => if Z.land mode 61440 =? t then c else type_loop l mode end.
Definition triple (fmt : Z) : list Z :=
  [if Z.land fmt 4 =? 0 then 45 else 114; if Z.land fmt 2 =? 0 then 45 else 119; if fmt * 1 =? 0 then 45 else 120].
Definition parsemode (mode : Z) : list Z :=
  type_loop (zip mode_list mode_char) mode :: triple (Z.land (Z.shiftr mode 6) 7) ++ triple (Z.land (Z.shiftr mode 3) 7) ++ triple (Z.land mode 7).

(** ** Programs *)

Section programs.
Context {W : Type} `{System W}.
Abbreviation PM := (ST (process (W := W))).
Definition say (fmt : string) (args : list arg) : PM unit := printf (chars fmt ++ [10]) args.

(** [write(fd, buf, len)]. *)
Definition write_from (fd buf len : Z) : PM Z := l ← on_memory (copy_in (Z.to_nat len) buf); invoke (Write fd l).

Fixpoint cat_loop (n : nat) (fd buf : Z) : PM unit :=
  match n with
  | O => stop_st NoFuel
  | S n =>
      len ← read fd buf BUFLEN;
      if len <? 0 then mret ()
      else write_from STDOUT_FILENO buf len;; cat_loop n fd buf
  end.

Definition cat (fuel : nat) (buf : Z) (argv : list (list Z)) : PM (option Z) :=
  match argv with
  | _ :: name :: _ =>
      fd ← invoke (Open name O_RDONLY 0);
      if fd <? 0 then say "file %s not exists." [AStr name];; mret (Some fd)
      else cat_loop fuel fd buf;; invoke (Close fd);; mret (Some 0)
  | _ => mret (Some EOF)
  end.

(** The argument is the format. *)
Fixpoint echo_loop (l : list (list Z)) : PM unit :=
  match l with
  | [] => mret ()
  | x :: l => printf x [];; (if bool_decide (l = []) then mret () else printf (chars " ") []);; echo_loop l
  end.
Definition echo (argv : list (list Z)) : PM (option Z) := echo_loop (drop 1 argv);; printf [10] [];; mret (Some 0).

Fixpoint env_args (l : list (list Z)) : PM unit := match l with [] => mret () | x :: l => say "%s" [AStr x];; env_args l end.
Fixpoint env_loop (l : list (list Z)) : PM unit :=
  match l with [] => mret () | x :: l => (if 1022 <=? Z.of_nat (length x) then mret () else say "%s" [AStr x]);; env_loop l end.
Definition env (argv envp : list (list Z)) : PM (option Z) := say "env start!" [];; env_args argv;; env_loop envp;; say "env end!" [];; mret (Some 0).

(** Behind [close] the function ends without a value: the parameter [r]. *)
Definition touch (r : Z) (argv : list (list Z)) : PM (option Z) :=
  match argv with
  | _ :: name :: _ =>
      fd ← invoke (Open name O_CREAT 493);
      if fd <? 0 then say "touch failed with return %d" [AInt (u32 fd)];; mret (Some fd)
      else invoke (Close fd);; mret (Some r)
  | _ => say "no filename input." [];; mret (Some EOF)
  end.

Definition kill (argv : list (list Z)) : PM (option Z) :=
  match argv with
  | _ :: pid :: _ => n ← lift_st (atoi (Some (pid ++ [EOS]))); r ← invoke (Kill (s32 n) SIGTERM); mret (Some r)
  | _ => mret (Some (-1))
  end.

(** [n] turns of the loop of [count]. *)
Fixpoint count (n : nat) (counter : Z) : PM unit :=
  match n with
  | O => mret ()
  | S n => if counter =? 0 then mret () else printf (chars "counter %d" ++ [7; 10]) [AInt (u32 counter)];; invoke (Sleep 1000);; count n (s32 (counter + 1))
  end.

(** [n] turns of the loop of [init]; the status [waitpid] stores is the parameter [status]. *)
Fixpoint init_loop (n : nat) (status : Z) : PM (option Z) :=
  match n with
  | O => mret (Some 0)
  | S n =>
      pid ← invoke Fork;
      if negb (pid =? 0) then
        child ← invoke (Waitpid pid (-1));
        t ← invoke Time;
        say "[init] wait pid %d status %d at time %d" [AInt (u32 child); AInt status; AInt (u32 t)];;
        init_loop n status
      else
        err ← invoke (Execve (chars "/bin/lsh.out") [] []);
        if err <? 0 then
          say "[init] execve /bin/lsh.out error with return %d" [AInt (u32 err)];;
          say "[init] exit" [];;
          invoke (Exit err);; mret None
        else mret None
  end.
Definition init (n : nat) (status : Z) : PM (option Z) :=
  pid ← invoke Getpid;
  if negb (pid =? 1) then say "cannot run multiple init" [];; mret (Some 0) else init_loop n status.
(** ** [cat] *)

(** A file being read through a descriptor, up to its end, where [read] answers -1
    (Fileops.reads_in_order), and what the standard output has received. *)
Class Source (fd : Z) := {
  unread : W → list Z;
  shown : W → list Z;
  reads w n : 0 < n → ∃ w', unread w' = drop (Z.to_nat n) (unread w) ∧ shown w' = shown w ∧
    sys_read fd n w = (if bool_decide (unread w = []) then (-1, [], w') else (Z.of_nat (length (take (Z.to_nat n) (unread w))), take (Z.to_nat n) (unread w), w'));
  writes w l : ∃ v w', sys (Write STDOUT_FILENO l) w = (v, w') ∧ unread w' = unread w ∧ shown w' = shown w ++ l;
  closes w : ∃ v w', sys (Close fd) w = (v, w') ∧ shown w' = shown w
}.

Lemma cat_loop_Ok fd `{Source fd} buf : ∀ n m w, (length (unread w) < n)%nat → Forall is_byte (unread w) → room m buf 1024 →
  ∃ m' w', cat_loop n fd buf (Process m w) = Ok ((), Process m' w') ∧ shown w' = shown w ++ unread w ∧ touched (range buf 1024) m m'.
Proof.
  intros n. induction n as [|n IH]; intros m w Hn Hb Hr; [lia|]. cbn [cat_loop]. destruct (reads w BUFLEN ltac:(done)) as (w1 & U1 & S1 & E1). unfold mbind at 1, st_bind at 1. unfold read. cbn [world memory]. rewrite E1.
  case_bool_decide as Hu.
  { exists m, w1. rewrite Hu, app_nil_r. split; [done|]. split; [done|apply touched_refl]. }
  assert (Hne : (0 < length (unread w))%nat) by (destruct (unread w); [done|cbn; lia]). set (l := take (Z.to_nat BUFLEN) (unread w)) in *. assert (Hl : (0 < length l ≤ 1024)%nat).
  { unfold l. rewrite length_take. change (Z.to_nat BUFLEN) with 1024%nat. lia. }
  rewrite copy_out_Ok by (apply (room_le _ _ _ _ Hr); lia). rewrite (proj2 (Z.ltb_ge _ _)) by lia.
  assert (Hlb : Forall is_byte l) by (by apply Forall_take). set (m1 := KString.write buf l m).
  assert (Eb : bytes_at m1 buf (s8 <$> l)) by (unfold m1; rewrite <- write_s8; apply write_bytes, Forall_fmap; eapply Forall_impl; [exact Hlb|]; intros; apply s8_char).
  destruct (writes w1 l) as (v & w2 & E2 & U2 & S2). assert (T : touched (range buf 1024) m m1).
  { eapply touched_incl; [apply touched_write|]. unfold range. lia. }
  assert (Ew : write_from STDOUT_FILENO buf (Z.of_nat (length l)) (Process m1 w1) = Ok (v, Process m1 w2)).
  { unfold write_from. rewrite Nat2Z.id. eapply st_step; [unfold on_memory; cbn [memory]; by rewrite (copy_in_Ok m1 buf l Eb Hlb)|]. unfold invoke. cbn. by rewrite E2. }
  rewrite (st_bind_eq _ _ _ _ _ Ew). destruct (IH m1 w2) as (m' & w' & E3 & S3 & T3).
  - rewrite U2, U1, length_drop. change (Z.to_nat BUFLEN) with 1024%nat. lia.
  - rewrite U2, U1. by apply Forall_drop.
  - by apply (touched_room _ _ _ _ _ T).
  - exists m', w'. split; [done|]. split; [|by apply (touched_trans _ _ _ _ _ _ T T3)]. rewrite S3, S2, U2, U1, S1, <- app_assoc. unfold l. by rewrite take_drop.
Qed.

(** C22. [cat] writes the whole file, in order, and nothing else, and ends with success. *)
Theorem cat_copies fuel buf name rest prog m w w0 fd `{Source fd} :
  sys (Open name O_RDONLY 0) w = (fd, w0) → 0 <= fd → (length (unread w0) < fuel)%nat → Forall is_byte (unread w0) → room m buf 1024 →
  ∃ m' w', cat fuel buf (prog :: name :: rest) (Process m w) = Ok (Some 0, Process m' w') ∧ shown w' = shown w0 ++ unread w0 ∧ touched (range buf 1024) m m'.
Proof.
  intros E Hfd Hf Hb Hr. destruct (cat_loop_Ok fd buf fuel m w0 Hf Hb Hr) as (m' & w1 & E1 & S1 & T). destruct (closes w1) as (v & w2 & E2 & S2).
  exists m', w2. split; [|split; [congruence|done]]. unfold cat. eapply st_step; [unfold invoke; cbn [world]; by rewrite E|]. cbv beta. rewrite (proj2 (Z.ltb_ge _ _) Hfd).
  unfold set_world. cbn [memory]. st_go E1. eapply st_step; [unfold invoke; cbn [world]; by rewrite E2|]. done.
Qed.

(** ** [echo] *)

Lemma print_plain x m w v w1 : Forall (λ c, c ≠ 37) x → Z.of_nat (length x) < 1024 → sys (Write STDOUT_FILENO x) w = (v, w1) → printf x [] (Process m w) = Ok ((), Process m w1).
Proof.
  intros Hx Hl E. unfold printf, text_of, vsprintf. replace (S (length x)) with (length x + 1)%nat by lia. rewrite <- (app_nil_r x) at 2. rewrite plain_text by done. cbn [format_loop app].
  unfold lift_st, mbind, st_bind, mret, res_ret, res_bind. rewrite (proj2 (Z.ltb_lt _ 2048)) by lia. cbn. rewrite (proj2 (Z.ltb_lt _ 1024)) by lia. unfold invoke. cbn. by rewrite E.
Qed.

(** The words that [echo] puts on the standard output, one write for each and for each blank. *)
Class Screen := { seen : W → list Z; sees w l : ∃ v w', sys (Write STDOUT_FILENO l) w = (v, w') ∧ seen w' = seen w ++ l }.

Fixpoint with_blanks (l : list (list Z)) : list Z := match l with [] => [] | x :: l => x ++ (if bool_decide (l = []) then [] else [32]) ++ with_blanks l end.

Definition printable (x : list Z) : Prop := Forall (λ c, c ≠ 37) x ∧ Z.of_nat (length x) < 1024.

Lemma echo_loop_Ok `{Screen} m : ∀ l w, Forall printable l → ∃ w', echo_loop l (Process m w) = Ok ((), Process m w') ∧ seen w' = seen w ++ with_blanks l.
Proof.
  intros l. induction l as [|x l IH]; intros w Hl; [exists w; by rewrite app_nil_r|]. apply Forall_cons in Hl as [[Hx Hn] Hl]. cbn [echo_loop with_blanks].
  destruct (sees w x) as (v & w1 & E1 & S1). rewrite (st_bind_eq _ _ _ _ _ (print_plain x m w v w1 Hx Hn E1)). case_bool_decide as Hnil.
  - subst l. exists w1. split; [done|]. cbn. by rewrite S1, app_nil_r.
  - destruct (sees w1 (chars " ")) as (v2 & w2 & E2 & S2). rewrite (st_bind_eq _ _ _ _ _ (print_plain (chars " ") m w1 v2 w2 ltac:(by repeat constructor) ltac:(done) E2)).
    destruct (IH w2 Hl) as (w3 & E3 & S3). exists w3. split; [done|]. rewrite S3, S2, S1, <- !app_assoc. done.
Qed.

(** Without percent signs [echo] shows its arguments with blanks between them and a line feed. *)
Theorem echo_shows `{Screen} prog l m w : Forall printable l →
  ∃ w', echo (prog :: l) (Process m w) = Ok (Some 0, Process m w') ∧ seen w' = seen w ++ with_blanks l ++ [10].
Proof.
  intros Hl. destruct (echo_loop_Ok m l w Hl) as (w1 & E1 & S1). destruct (sees w1 [10]) as (v & w2 & E2 & S2). exists w2. split; [|by rewrite S2, S1, <- app_assoc].
  unfold echo. cbn [drop]. st_go E1. st_go (print_plain [10] m w1 v w2 ltac:(by repeat constructor) ltac:(done) E2). done.
Qed.

(** An argument [%s] makes [printf] fetch a string nobody has passed. *)
Theorem echo_takes_formats prog l m w : echo (prog :: [37; 115] :: l) (Process m w) = Stop OutOfBounds.
Proof. done. Qed.
End programs.

(** In the text of a mode the letter for executing stands wherever any of the three bits is set. *)
Theorem execute_letter fmt : 0 <= fmt < 8 → triple fmt !! 2%nat = Some (if fmt =? 0 then 45 else 120) ∧ triple fmt !! 0%nat = Some (if Z.testbit fmt 2 then 114 else 45) ∧ triple fmt !! 1%nat = Some (if Z.testbit fmt 1 then 119 else 45).
Proof.
  intros Hf. assert (fmt = 0 ∨ fmt = 1 ∨ fmt = 2 ∨ fmt = 3 ∨ fmt = 4 ∨ fmt = 5 ∨ fmt = 6 ∨ fmt = 7) as Hc by lia.
  repeat (destruct Hc as [->|Hc]; [done|]). by subst.
Qed.

Example mode_of_text_file : parsemode 33188 = chars "-rwxr-xr-x".
Proof. reflexivity. Qed.

(** ** Witnesses: what is left of a file, and what was written *)

Definition file_sys (c : call) (w : list Z * list Z) : Z * (list Z * list Z) :=
  match c with Write 1 l => (Z.of_nat (length l), (w.1, w.2 ++ l)) | Open _ _ _ => (3, w) | _ => (0, w) end.
Definition file_read (fd n : Z) (w : list Z * list Z) : Z * list Z * (list Z * list Z) :=
  if bool_decide (w.1 = []) then (-1, [], w) else (Z.of_nat (length (take (Z.to_nat n) w.1)), take (Z.to_nat n) w.1, (drop (Z.to_nat n) w.1, w.2)).
#[export] Instance file_system : System (list Z * list Z) := {| sys := file_sys; sys_read := file_read; sys_getcwd := λ _, [] |}.

#[export, program] Instance file_source : Source (W := list Z * list Z) 3 := {| unread := fst; shown := snd |}.
Next Obligation.
  intros w n Hn. cbn [sys_read file_system]. unfold file_read. case_bool_decide as E; [exists w|by exists (drop (Z.to_nat n) w.1, w.2)]. rewrite E, drop_nil. done.
Qed.
Next Obligation. intros w l. eexists _, _. split; [reflexivity|done]. Qed.
Next Obligation. intros w. eexists _, _. split; [reflexivity|done]. Qed.

#[export, program] Instance file_screen : Screen (W := list Z * list Z) := {| seen := snd |}.
Next Obligation. intros w l. eexists _, _. split; [reflexivity|done]. Qed.

Lemma cat_copies_witness : ∃ m' w', cat 10 100 [chars "cat"; chars "f"] (Process (blank 100 1024) (chars "text", [])) = Ok (Some 0, Process m' w') ∧ w'.2 = chars "text".
Proof.
  destruct (cat_copies 10 100 (chars "f") [] (chars "cat") (blank 100 1024) (chars "text", []) (chars "text", []) 3) as (m' & w' & E & S & _).
  - reflexivity.
  - lia.
  - vm_compute. lia.
  - change (unread (chars "text", [])) with [116; 101; 120; 116]. unfold is_byte. repeat apply Forall_cons_2; [lia|lia|lia|lia|apply Forall_nil_2].
  - exact (blank_room 100 1024).
  - exists m', w'. split; [exact E|exact S].
Defined.

Lemma echo_shows_witness : ∃ w', echo [chars "echo"; chars "a"; chars "b"] (Process ∅ ([], [])) = Ok (Some 0, Process ∅ w') ∧ w'.2 = chars "a b" ++ [10].
Proof.
  destruct (echo_shows (W := list Z * list Z) (chars "echo") [chars "a"; chars "b"] ∅ ([], [])) as (w' & E & S).
  - unfold printable. repeat apply Forall_cons_2; [split; [repeat constructor; discriminate|vm_compute; reflexivity]|split; [repeat constructor; discriminate|vm_compute; reflexivity]|apply Forall_nil_2].
  - exists w'. split; [exact E|exact S].
Defined.

Lemma execute_letter_witness : triple 6 !! 2%nat = Some 120.
Proof. exact (proj1 (execute_letter 6 ltac:(lia))). Defined.
