(* ===== verification/Syscalls.v ===== *)
(** * System calls: the numbers, the gate and the library (src/kernel/gate.c, src/lib/syscall.c, syscall_handler of src/kernel/interrupt_handler.asm)

    A program puts the number and the arguments into registers and traps; the entry takes the
    handler from the table and pushes the five registers as its arguments.  What a handler does is
    the business of the other files: here it is a parameter. *)

From stdpp Require Import list.
From S2P Require Import Prelude.

Definition NR_SYSCALL : Z := 256.
Definition SYS_NR_TEST : Z := 0.
Definition SYS_NR_EXIT : Z := 1.
Definition SYS_NR_FORK : Z := 2.
Definition SYS_NR_READ : Z := 3.
Definition SYS_NR_WRITE : Z := 4.
Definition SYS_NR_OPEN : Z := 5.
Definition SYS_NR_CLOSE : Z := 6.
Definition SYS_NR_WAITPID : Z := 7.
Definition SYS_NR_CREAT : Z := 8.
Definition SYS_NR_LINK : Z := 9.
Definition SYS_NR_UNLINK : Z := 10.
Definition SYS_NR_EXECVE : Z := 11.
Definition SYS_NR_CHDIR : Z := 12.
Definition SYS_NR_TIME : Z := 13.
Definition SYS_NR_MKNOD : Z := 14.
Definition SYS_NR_STAT : Z := 18.
Definition SYS_NR_LSEEK : Z := 19.
Definition SYS_NR_GETPID : Z := 20.
Definition SYS_NR_MOUNT : Z := 21.
Definition SYS_NR_UMOUNT : Z := 22.
Definition SYS_NR_FSTAT : Z := 28.
Definition SYS_NR_STTY : Z := 31.
Definition SYS_NR_GTTY : Z := 32.
Definition SYS_NR_KILL : Z := 37.
Definition SYS_NR_MKDIR : Z := 39.
Definition SYS_NR_RMDIR : Z := 40.
Definition SYS_NR_DUP : Z := 41.
Definition SYS_NR_PIPE : Z := 42.
Definition SYS_NR_BRK : Z := 45.
Definition SYS_NR_SIGNAL : Z := 48.
Definition SYS_NR_IOCTL : Z := 54.
Definition SYS_NR_SETPGID : Z := 57.
Definition SYS_NR_UMASK : Z := 60.
Definition SYS_NR_CHROOT : Z := 61.
Definition SYS_NR_DUP2 : Z := 63.
Definition SYS_NR_GETPPID : Z := 64.
Definition SYS_NR_GETPGRP : Z := 65.
Definition SYS_NR_SETSID : Z := 66.
Definition SYS_NR_SIGACTION : Z := 67.
Definition SYS_NR_SGETMASK : Z := 68.
Definition SYS_NR_SSETMASK : Z := 69.
Definition SYS_NR_READDIR : Z := 89.
Definition SYS_NR_MMAP : Z := 90.
Definition SYS_NR_MUNMAP : Z := 91.
Definition SYS_NR_YIELD : Z := 158.
Definition SYS_NR_SLEEP : Z := 162.
Definition SYS_NR_GETCWD : Z := 183.
Definition SYS_NR_MKFS : Z := 255.

Inductive handler := sys_default | sys_test | sys_yield | sys_sleep | sys_read | sys_write | sys_brk | sys_getpid | sys_getppid | sys_fork | sys_exit | sys_waitpid | sys_time | sys_umask | sys_mkdir | sys_rmdir | sys_link | sys_unlink | sys_open | sys_creat | sys_close | sys_lseek | sys_getcwd | sys_chdir | sys_chroot | sys_readdir | sys_stat | sys_fstat | sys_mknod | sys_mount | sys_umount | sys_mkfs | sys_mmap | sys_munmap | sys_execve | sys_dup | sys_dup2 | sys_pipe | sys_setsid | sys_setpgid | sys_getpgrp | sys_ioctl | sys_stty | sys_gtty | sys_kill | sys_signal | sys_sgetmask | sys_ssetmask | sys_sigaction.
#[export] Instance handler_eq_dec : EqDecision handler.
Proof. solve_decision. Defined.

(** The number of parameters in the declarations of the handlers. *)
Definition arity (h : handler) : nat :=
  match h with
  | sys_default => 5
  | sys_test | sys_yield | sys_getpid | sys_getppid | sys_fork | sys_time | sys_setsid | sys_getpgrp | sys_stty | sys_gtty | sys_sgetmask => 0
  | sys_sleep | sys_brk | sys_exit | sys_umask | sys_rmdir | sys_unlink | sys_close | sys_chdir | sys_chroot | sys_umount | sys_mmap | sys_dup | sys_pipe | sys_ssetmask => 1
  | sys_mkdir | sys_link | sys_creat | sys_getcwd | sys_stat | sys_fstat | sys_mkfs | sys_munmap | sys_dup2 | sys_setpgid | sys_kill => 2
  | sys_read | sys_write | sys_waitpid | sys_open | sys_lseek | sys_readdir | sys_mknod | sys_mount | sys_execve | sys_ioctl | sys_signal | sys_sigaction => 3
  end.

(** ** The table *)

Definition put (t : list handler) (e : Z * handler) : list handler := <[Z.to_nat e.1 := e.2]> t.
Definition entries : list (Z * handler) := [
  (SYS_NR_TEST, sys_test); (SYS_NR_YIELD, sys_yield); (SYS_NR_SLEEP, sys_sleep);
  (SYS_NR_READ, sys_read); (SYS_NR_WRITE, sys_write); (SYS_NR_BRK, sys_brk);
  (SYS_NR_GETPID, sys_getpid); (SYS_NR_GETPPID, sys_getppid); (SYS_NR_FORK, sys_fork);
  (SYS_NR_EXIT, sys_exit); (SYS_NR_WAITPID, sys_waitpid); (SYS_NR_TIME, sys_time);
  (SYS_NR_UMASK, sys_umask); (SYS_NR_MKDIR, sys_mkdir); (SYS_NR_RMDIR, sys_rmdir);
  (SYS_NR_LINK, sys_link); (SYS_NR_UNLINK, sys_unlink); (SYS_NR_OPEN, sys_open);
  (SYS_NR_CREAT, sys_creat); (SYS_NR_CLOSE, sys_close); (SYS_NR_LSEEK, sys_lseek);
  (SYS_NR_GETCWD, sys_getcwd); (SYS_NR_CHDIR, sys_chdir); (SYS_NR_CHROOT, sys_chroot);
  (SYS_NR_READDIR, sys_readdir); (SYS_NR_STAT, sys_stat); (SYS_NR_FSTAT, sys_fstat);
  (SYS_NR_MKNOD, sys_mknod); (SYS_NR_MOUNT, sys_mount); (SYS_NR_UMOUNT, sys_umount);
  (SYS_NR_MKFS, sys_mkfs); (SYS_NR_MMAP, sys_mmap); (SYS_NR_MUNMAP, sys_munmap);
  (SYS_NR_EXECVE, sys_execve); (SYS_NR_DUP, sys_dup); (SYS_NR_DUP2, sys_dup2);
  (SYS_NR_PIPE, sys_pipe); (SYS_NR_SETSID, sys_setsid); (SYS_NR_SETPGID, sys_setpgid);
  (SYS_NR_GETPGRP, sys_getpgrp); (SYS_NR_IOCTL, sys_ioctl); (SYS_NR_STTY, sys_stty);
  (SYS_NR_GTTY, sys_gtty); (SYS_NR_KILL, sys_kill); (SYS_NR_SIGNAL, sys_signal);
  (SYS_NR_SGETMASK, sys_sgetmask); (SYS_NR_SSETMASK, sys_ssetmask); (SYS_NR_SIGACTION, sys_sigaction)].
(** [syscall_init]. *)
Definition syscall_table : list handler := foldl put (replicate (Z.to_nat NR_SYSCALL) sys_default) entries.

(** ** The gate *)

Record registers := Regs { eax : Z; ebx : Z; ecx : Z; edx : Z; esi : Z; edi : Z }.
Definition with_eax (v : Z) (r : registers) : registers := Regs v (ebx r) (ecx r) (edx r) (esi r) (edi r).

Section gate.
Context {K : Type} (run : handler → list Z → ST K Z).

(** The entry compares the number with [nr_syscall - 1], which in the assembler is an address: the
    parameter is where the variable [nr_syscall] lies. *)
Context (nr_syscall : Z).

Definition syscall_handler (r : registers) : ST K registers :=
  if u32 (nr_syscall - 1) <? eax r then mret (with_eax (u32 (-1)) r)
  else
    h ← lift_st (zget syscall_table (eax r));
    v ← run h (take (arity h) [ebx r; ecx r; edx r; esi r; edi r]);
    mret (with_eax (u32 v) r).

(** ** The library *)

(** What the registers held before the call. *)
Context (before : registers).

Definition _syscall0 (nr : Z) : ST K Z := r ← syscall_handler (with_eax nr before); mret (eax r).
Definition _syscall1 (nr a : Z) : ST K Z := r ← syscall_handler (Regs nr (u32 a) (ecx before) (edx before) (esi before) (edi before)); mret (eax r).
Definition _syscall2 (nr a b : Z) : ST K Z := r ← syscall_handler (Regs nr (u32 a) (u32 b) (edx before) (esi before) (edi before)); mret (eax r).
Definition _syscall3 (nr a b c : Z) : ST K Z := r ← syscall_handler (Regs nr (u32 a) (u32 b) (u32 c) (esi before) (edi before)); mret (eax r).
Definition _syscall4 (nr a b c d : Z) : ST K Z := r ← syscall_handler (Regs nr (u32 a) (u32 b) (u32 c) (u32 d) (edi before)); mret (eax r).
Definition _syscall5 (nr a b c d e : Z) : ST K Z := r ← syscall_handler (Regs nr (u32 a) (u32 b) (u32 c) (u32 d) (u32 e)); mret (eax r).

Definition test : ST K Z := _syscall0 SYS_NR_TEST.
Definition yield : ST K Z := _syscall0 SYS_NR_YIELD.
Definition sleep (ms : Z) : ST K Z := _syscall1 SYS_NR_SLEEP ms.
Definition read (fd buf len : Z) : ST K Z := _syscall3 SYS_NR_READ fd buf len.
Definition write (fd buf len : Z) : ST K Z := _syscall3 SYS_NR_WRITE fd buf len.
Definition brk (addr : Z) : ST K Z := _syscall1 SYS_NR_BRK addr.
Definition getpid : ST K Z := _syscall0 SYS_NR_GETPID.
Definition getppid : ST K Z := _syscall0 SYS_NR_GETPPID.
Definition fork : ST K Z := _syscall0 SYS_NR_FORK.
Definition exit (status : Z) : ST K Z := _syscall1 SYS_NR_EXIT status.
Definition waitpid (pid status options : Z) : ST K Z := _syscall3 SYS_NR_WAITPID pid status options.
Definition time : ST K Z := _syscall0 SYS_NR_TIME.
Definition umask (mask : Z) : ST K Z := _syscall1 SYS_NR_UMASK mask.
Definition mkdir (pathname mode : Z) : ST K Z := _syscall2 SYS_NR_MKDIR pathname mode.
Definition rmdir (pathname : Z) : ST K Z := _syscall1 SYS_NR_RMDIR pathname.
Definition link (oldname newname : Z) : ST K Z := _syscall2 SYS_NR_LINK oldname newname.
Definition unlink (filename : Z) : ST K Z := _syscall1 SYS_NR_UNLINK filename.
Definition open (filename flags mode : Z) : ST K Z := _syscall3 SYS_NR_OPEN filename flags mode.
Definition creat (filename mode : Z) : ST K Z := _syscall2 SYS_NR_CREAT filename mode.
Definition close (fd : Z) : ST K Z := _syscall1 SYS_NR_CLOSE fd.
Definition lseek (fd offset whence : Z) : ST K Z := _syscall3 SYS_NR_LSEEK fd offset whence.
Definition getcwd (buf size : Z) : ST K Z := _syscall2 SYS_NR_GETCWD buf size.
Definition chdir (pathname : Z) : ST K Z := _syscall1 SYS_NR_CHDIR pathname.
Definition chroot (pathname : Z) : ST K Z := _syscall1 SYS_NR_CHROOT pathname.
Definition readdir (fd dir count : Z) : ST K Z := _syscall3 SYS_NR_READDIR fd dir count.
Definition stat (filename statbuf : Z) : ST K Z := _syscall2 SYS_NR_STAT filename statbuf.
Definition fstat (fd statbuf : Z) : ST K Z := _syscall2 SYS_NR_FSTAT fd statbuf.
Definition mknod (filename mode dev : Z) : ST K Z := _syscall3 SYS_NR_MKNOD filename mode dev.
Definition mount (devname dirname flags : Z) : ST K Z := _syscall3 SYS_NR_MOUNT devname dirname flags.
Definition umount (target : Z) : ST K Z := _syscall1 SYS_NR_UMOUNT target.
Definition mkfs (devname icount : Z) : ST K Z := _syscall2 SYS_NR_MKFS devname icount.
Definition munmap (addr length : Z) : ST K Z := _syscall2 SYS_NR_MUNMAP addr length.
Definition execve (filename argv envp : Z) : ST K Z := _syscall3 SYS_NR_EXECVE filename argv envp.
Definition dup (oldfd : Z) : ST K Z := _syscall1 SYS_NR_DUP oldfd.
Definition dup2 (oldfd newfd : Z) : ST K Z := _syscall2 SYS_NR_DUP2 oldfd newfd.
Definition pipe (pipefd : Z) : ST K Z := _syscall1 SYS_NR_PIPE pipefd.
Definition setsid : ST K Z := _syscall0 SYS_NR_SETSID.
Definition setpgid (pid pgid : Z) : ST K Z := _syscall2 SYS_NR_SETPGID pid pgid.
Definition getpgrp : ST K Z := _syscall0 SYS_NR_GETPGRP.
Definition stty : ST K Z := _syscall0 SYS_NR_STTY.
Definition gtty : ST K Z := _syscall0 SYS_NR_GTTY.
Definition ioctl (fd cmd args : Z) : ST K Z := _syscall3 SYS_NR_IOCTL fd cmd args.
Definition kill (pid signal : Z) : ST K Z := _syscall2 SYS_NR_KILL pid signal.
Definition sgetmask : ST K Z := _syscall0 SYS_NR_SGETMASK.
Definition ssetmask (newmask : Z) : ST K Z := _syscall1 SYS_NR_SSETMASK newmask.
Definition signal (restorer sig handler : Z) : ST K Z := _syscall3 SYS_NR_SIGNAL sig handler restorer.
Definition sigaction (sig action oldaction : Z) : ST K Z := _syscall3 SYS_NR_SIGACTION sig action oldaction.

(** [mmap] passes the address of a structure on its stack. *)
Definition mmap (args : Z) : ST K Z := _syscall1 SYS_NR_MMAP args.
Definition setpgrp : ST K Z := setpgid 0 0.

(** ** Theorems *)

(** The call of a handler with these arguments, and its answer as a register. *)
Definition answer (h : handler) (args : list Z) : ST K Z := v ← run h args; mret (u32 v).

(** What a call does once its number has passed the comparison. *)
Lemma served r h : eax r <= u32 (nr_syscall - 1) → zget syscall_table (eax r) = Ok h → ∀ s,
  (r ← syscall_handler r; mret (eax r)) s = answer h (take (arity h) [ebx r; ecx r; edx r; esi r; edi r]) s.
Proof.
  intros Hn Hz s. unfold syscall_handler. rewrite (proj2 (Z.ltb_ge _ _) Hn). unfold answer, lift_st, mbind, st_bind. rewrite Hz. by destruct (run _ _ s) as [[v s']|].
Qed.

(** Every function of the library reaches the handler of its own name with its arguments in their
    order, wherever the kernel lies behind the numbers, and answers what the handler answers. *)
Theorem library_reaches_handlers : 256 <= u32 (nr_syscall - 1) →
  (∀ s, test s = answer sys_test [] s) ∧
  (∀ s, yield s = answer sys_yield [] s) ∧
  (∀ ms s, sleep ms s = answer sys_sleep [u32 ms] s) ∧
  (∀ fd buf len s, read fd buf len s = answer sys_read [u32 fd; u32 buf; u32 len] s) ∧
  (∀ fd buf len s, write fd buf len s = answer sys_write [u32 fd; u32 buf; u32 len] s) ∧
  (∀ addr s, brk addr s = answer sys_brk [u32 addr] s) ∧
  (∀ s, getpid s = answer sys_getpid [] s) ∧
  (∀ s, getppid s = answer sys_getppid [] s) ∧
  (∀ s, fork s = answer sys_fork [] s) ∧
  (∀ status s, exit status s = answer sys_exit [u32 status] s) ∧
  (∀ pid status options s, waitpid pid status options s = answer sys_waitpid [u32 pid; u32 status; u32 options] s) ∧
  (∀ s, time s = answer sys_time [] s) ∧
  (∀ mask s, umask mask s = answer sys_umask [u32 mask] s) ∧
  (∀ pathname mode s, mkdir pathname mode s = answer sys_mkdir [u32 pathname; u32 mode] s) ∧
  (∀ pathname s, rmdir pathname s = answer sys_rmdir [u32 pathname] s) ∧
  (∀ oldname newname s, link oldname newname s = answer sys_link [u32 oldname; u32 newname] s) ∧
  (∀ filename s, unlink filename s = answer sys_unlink [u32 filename] s) ∧
  (∀ filename flags mode s, open filename flags mode s = answer sys_open [u32 filename; u32 flags; u32 mode] s) ∧
  (∀ filename mode s, creat filename mode s = answer sys_creat [u32 filename; u32 mode] s) ∧
  (∀ fd s, close fd s = answer sys_close [u32 fd] s) ∧
  (∀ fd offset whence s, lseek fd offset whence s = answer sys_lseek [u32 fd; u32 offset; u32 whence] s) ∧
  (∀ buf size s, getcwd buf size s = answer sys_getcwd [u32 buf; u32 size] s) ∧
  (∀ pathname s, chdir pathname s = answer sys_chdir [u32 pathname] s) ∧
  (∀ pathname s, chroot pathname s = answer sys_chroot [u32 pathname] s) ∧
  (∀ fd dir count s, readdir fd dir count s = answer sys_readdir [u32 fd; u32 dir; u32 count] s) ∧
  (∀ filename statbuf s, stat filename statbuf s = answer sys_stat [u32 filename; u32 statbuf] s) ∧
  (∀ fd statbuf s, fstat fd statbuf s = answer sys_fstat [u32 fd; u32 statbuf] s) ∧
  (∀ filename mode dev s, mknod filename mode dev s = answer sys_mknod [u32 filename; u32 mode; u32 dev] s) ∧
  (∀ devname dirname flags s, mount devname dirname flags s = answer sys_mount [u32 devname; u32 dirname; u32 flags] s) ∧
  (∀ target s, umount target s = answer sys_umount [u32 target] s) ∧
  (∀ devname icount s, mkfs devname icount s = answer sys_mkfs [u32 devname; u32 icount] s) ∧
  (∀ addr length s, munmap addr length s = answer sys_munmap [u32 addr; u32 length] s) ∧
  (∀ filename argv envp s, execve filename argv envp s = answer sys_execve [u32 filename; u32 argv; u32 envp] s) ∧
  (∀ oldfd s, dup oldfd s = answer sys_dup [u32 oldfd] s) ∧
  (∀ oldfd newfd s, dup2 oldfd newfd s = answer sys_dup2 [u32 oldfd; u32 newfd] s) ∧
  (∀ pipefd s, pipe pipefd s = answer sys_pipe [u32 pipefd] s) ∧
  (∀ s, setsid s = answer sys_setsid [] s) ∧
  (∀ pid pgid s, setpgid pid pgid s = answer sys_setpgid [u32 pid; u32 pgid] s) ∧
  (∀ s, getpgrp s = answer sys_getpgrp [] s) ∧
  (∀ s, stty s = answer sys_stty [] s) ∧
  (∀ s, gtty s = answer sys_gtty [] s) ∧
  (∀ fd cmd args s, ioctl fd cmd args s = answer sys_ioctl [u32 fd; u32 cmd; u32 args] s) ∧
  (∀ pid signal s, kill pid signal s = answer sys_kill [u32 pid; u32 signal] s) ∧
  (∀ s, sgetmask s = answer sys_sgetmask [] s) ∧
  (∀ newmask s, ssetmask newmask s = answer sys_ssetmask [u32 newmask] s) ∧
  (∀ restorer sig handler s, signal restorer sig handler s = answer sys_signal [u32 sig; u32 handler; u32 restorer] s) ∧
  (∀ sig action oldaction s, sigaction sig action oldaction s = answer sys_sigaction [u32 sig; u32 action; u32 oldaction] s) ∧
  (∀ args s, mmap args s = answer sys_mmap [u32 args] s).
Proof. intros Hn. repeat split; intros; (etransitivity; [apply served; [refine (Z.le_trans _ 256 _ _ Hn); discriminate|reflexivity]|reflexivity]). Qed.

Lemma zget_behind {X} (l : list X) i : Z.of_nat (length l) <= i → zget l i = Stop OutOfBounds.
Proof. intros Hi. unfold zget. rewrite lookup_ge_None_2 by lia. by destruct (0 <=? i). Qed.

(** Since an address is compared in place of the number of entries, a number behind the table is
    not refused: the entry is read from whatever lies there. *)
Theorem number_behind_table r s : NR_SYSCALL <= eax r → eax r <= u32 (nr_syscall - 1) → syscall_handler r s = Stop OutOfBounds.
Proof.
  intros H1 H2. unfold syscall_handler. rewrite (proj2 (Z.ltb_ge _ _) H2). unfold lift_st, mbind, st_bind.
  destruct (zget syscall_table (eax r)) as [h|e] eqn:E.
  - apply zget_Ok in E as [Hr E]. apply lookup_lt_Some in E. change (length syscall_table) with 256%nat in E. unfold NR_SYSCALL in H1. lia.
  - rewrite zget_behind in E by (change (length syscall_table) with 256%nat; unfold NR_SYSCALL in H1; lia). by injection E as <-.
Qed.
End gate.

(** No two handlers have one number, and every other number below 256 is refused by [sys_default]. *)
Theorem table_entries : NoDup (fst <$> entries) ∧
  ∀ nr, 0 <= nr < NR_SYSCALL → zget syscall_table nr = Ok (match List.find (λ e, e.1 =? nr) entries with Some e => e.2 | None => sys_default end).
Proof.
  split; [apply (bool_decide_unpack _); vm_compute; exact I|]. intros nr Hn. assert (E : nr ∈ seqZ 0 256) by (apply elem_of_seqZ; unfold NR_SYSCALL in Hn; lia).
  set (named := λ nr, match List.find (λ e, e.1 =? nr) entries with Some e => e.2 | None => sys_default end). change (zget syscall_table nr = Ok (named nr)).
  assert (W : forallb (λ nr, match zget syscall_table nr with Ok h => bool_decide (h = named nr) | Stop _ => false end) (seqZ 0 256) = true) by (vm_compute; reflexivity).
  rewrite forallb_forall in W. apply list_elem_of_In in E. specialize (W nr E). cbv beta in W. destruct (zget syscall_table nr) as [h|]; [|done]. by apply bool_decide_eq_true in W as ->.
Qed.

(** The kernel lies above 0xC0000000. *)
Lemma library_reaches_handlers_witness : ∀ s : unit,
  read (λ _ args s, Ok (Z.of_nat (length args), s)) 0xC0012344 (Regs 1 2 3 4 5 6) 0 100 10 s = Ok (3, s).
Proof.
  intros s. destruct (library_reaches_handlers (K := unit) (λ _ args s, Ok (Z.of_nat (length args), s)) 0xC0012344 (Regs 1 2 3 4 5 6)) as (_ & _ & _ & H & _).
  - vm_compute. discriminate.
  - exact (H 0 100 10 s).
Defined.

Lemma number_behind_table_witness : syscall_handler (λ _ _ s, Ok (0, s)) 0xC0012344 (Regs 300 0 0 0 0 0) tt = Stop OutOfBounds.
Proof. apply (number_behind_table (K := unit) (λ _ _ s, Ok (0, s)) 0xC0012344 (Regs 300 0 0 0 0 0) tt); vm_compute; discriminate. Defined.

Lemma table_entries_witness : zget syscall_table 3 = Ok sys_read.
Proof. exact (proj2 table_entries 3 (conj (Zle_bool_imp_le 0 3 eq_refl) (proj1 (Z.ltb_lt 3 NR_SYSCALL) eq_refl))). Defined.
