(* ===== verification/Interrupts.v ===== *)
(** * Interrupts and descriptors (src/kernel/interrupt.c, global.c, rtc.c)

    The two interrupt controllers behind their ports, the tables of gates and of segment
    descriptors as the processor reads them, and the alarm of the real-time clock. *)

From S2P Require Import Prelude KStdlib KTime Ide.

Definition IDT_SIZE : Z := 256.
Definition TRAP_TABLE_SIZE : Z := 0x30.
Definition IRQ_MASTER_NR : Z := 0x20.
Definition IRQ_CASCADE : Z := 2.
Definition IRQ_RTC : Z := 8.
Definition PIC_M_CTRL : Z := 0x20.
Definition PIC_M_DATA : Z := 0x21.
Definition PIC_S_CTRL : Z := 0xa0.
Definition PIC_S_DATA : Z := 0xa1.
Definition PIC_EOI : Z := 0x20.

(** ** The interrupt controllers *)

Section pic.
Context {D : Type} `{Ports D}.

Definition po (port v : Z) : ST D unit := modify_st (outb port v).
Definition pi (port : Z) : ST D Z := λ h, Ok (inb port h).

Definition send_eoi (vector : Z) : ST D unit :=
  (if (0x20 <=? vector) && (vector <? 0x28) then po PIC_M_CTRL PIC_EOI else mret ());;
  (if (0x28 <=? vector) && (vector <? 0x30) then po PIC_M_CTRL PIC_EOI;; po PIC_S_CTRL PIC_EOI else mret ()).

Definition set_interrupt_mask (irq : Z) (enable : bool) : ST D unit :=
  sassert ((0 <=? irq) && (irq <? 16));;
  let '(port, irq) := if irq <? 8 then (PIC_M_DATA, irq) else (PIC_S_DATA, irq - 8) in
  v ← pi port;
  if enable then po port (u8 (Z.land v (Z.lnot (Z.shiftl 1 irq)))) else po port (u8 (Z.lor v (Z.shiftl 1 irq))).

Definition pic_init : ST D unit :=
  po PIC_M_CTRL 0x11;; po PIC_M_DATA 0x20;; po PIC_M_DATA 4;; po PIC_M_DATA 1;;
  po PIC_S_CTRL 0x11;; po PIC_S_DATA 0x28;; po PIC_S_DATA 2;; po PIC_S_DATA 1;;
  po PIC_M_DATA 0xff;; po PIC_S_DATA 0xff.

(** An interrupt without a handler of its own; [counter] numbers them in a message. *)
Definition outer_interrupt_handler (vector counter : Z) : ST D Z := send_eoi vector;; mret (u32 (counter + 1)).
Definition default_handler (vector : Z) : ST D unit := stop_st Panic.
End pic.

(** ** Gates *)

(** Handlers and entries are addresses; those of the assembler and of other files are parameters. *)
Record gate_t := Gate { offset0 : Z; selector_ : Z; gtype : Z; gsegment : Z; gDPL : Z; gpresent : Z; offset1 : Z }.
Record tables := Tables { idt : list gate_t; trap_handler_table : list Z }.

Definition make_gate (handler dpl : Z) : gate_t :=
  Gate (Z.land handler 0xffff) (Z.shiftl 1 3) 14 0 dpl 1 (Z.land (Z.shiftr handler 16) 0xffff).

Definition set_exception_handler (intr handler : Z) : ST tables unit := λ s,
  kassert ((0 <=? intr) && (intr <=? 17));; l ← zset (trap_handler_table s) intr handler; Ok ((), Tables (idt s) l).
Definition set_interrupt_handler (irq handler : Z) : ST tables unit := λ s,
  kassert ((0 <=? irq) && (irq <? 16));; l ← zset (trap_handler_table s) (IRQ_MASTER_NR + irq) handler; Ok ((), Tables (idt s) l).

Section idt.
Context (trap_entry_table : list Z) (default exception page_fault outer keyboard syscall_entry : Z).

(** The loop over the gates. *)
Definition gate_handler (i : Z) : res Z := if i <? TRAP_TABLE_SIZE then zget trap_entry_table i else Ok default.
Fixpoint gate_loop (n : nat) (i : Z) : res (list gate_t) :=
  match n with O => mret [] | S n => h ← gate_handler i; l ← gate_loop n (i + 1); mret (make_gate h 0 :: l) end.

Definition trap_handlers : list Z := <[14%nat := page_fault]> (replicate 32 exception) ++ replicate 16 outer.

(** [idt_init]; of [keyboard_init] what concerns the table. *)
Definition idt_init : res tables :=
  l ← gate_loop (Z.to_nat IDT_SIZE) 0;
  '(_, s) ← set_interrupt_handler 1 keyboard (Tables l trap_handlers);
  g ← zset (idt s) 0x80 (make_gate syscall_entry 3);
  mret (Tables g (trap_handler_table s)).
End idt.

(** ** Segment descriptors *)

Record descriptor_t := Desc {
  limit_low : Z; base_low : Z; dtype : Z; segment : Z; DPL : Z; present : Z; limit_high : Z; available : Z; long_mode : Z; big : Z; granularity : Z; base_high : Z
}.
Definition KERNEL_CODE_IDX : nat := 1.
Definition KERNEL_DATA_IDX : nat := 2.
Definition KERNEL_TSS_IDX : nat := 3.
Definition USER_CODE_IDX : nat := 4.
Definition USER_DATA_IDX : nat := 5.
Definition GDT_SIZE : nat := 128.
Definition sizeof_tss : Z := 106.
Definition no_desc : descriptor_t := Desc 0 0 0 0 0 0 0 0 0 0 0 0.

Definition descriptor_init (base limit : Z) (d : descriptor_t) : descriptor_t :=
  Desc (Z.land limit 0xffff) (Z.land base 0xffffff) (dtype d) (segment d) (DPL d) (present d) (Z.land (Z.shiftr limit 16) 0xf)
    (available d) (long_mode d) (big d) (granularity d) (Z.land (Z.shiftr base 24) 0xff).
Definition set_kind (seg gran b dpl ty : Z) (d : descriptor_t) : descriptor_t :=
  Desc (limit_low d) (base_low d) ty seg dpl 1 (limit_high d) (available d) 0 b gran (base_high d).

Definition code_segment (dpl : Z) (d : descriptor_t) : descriptor_t := set_kind 1 1 1 dpl 10 (descriptor_init 0 0xFFFFF d).
Definition data_segment (dpl : Z) (d : descriptor_t) : descriptor_t := set_kind 1 1 1 dpl 2 (descriptor_init 0 0xFFFFF d).

(** [gdt_init] clears the whole table; [tss_init] adds the task state at address [tss]. *)
Definition gdt_init : list descriptor_t :=
  alter (data_segment 3) USER_DATA_IDX (alter (code_segment 3) USER_CODE_IDX (alter (data_segment 0) KERNEL_DATA_IDX (alter (code_segment 0) KERNEL_CODE_IDX (replicate GDT_SIZE no_desc)))).
Definition tss_init (tss : Z) (gdt : list descriptor_t) : list descriptor_t :=
  alter (λ d, set_kind 0 0 0 0 9 (descriptor_init tss (sizeof_tss - 1) d)) KERNEL_TSS_IDX gdt.

(** The eight bytes of a descriptor, as the number the processor reads. *)
Definition descriptor_word (d : descriptor_t) : Z :=
  limit_low d + Z.shiftl (base_low d) 16 + Z.shiftl (dtype d) 40 + Z.shiftl (segment d) 44 + Z.shiftl (DPL d) 45 + Z.shiftl (present d) 47 +
  Z.shiftl (limit_high d) 48 + Z.shiftl (available d) 52 + Z.shiftl (long_mode d) 53 + Z.shiftl (big d) 54 + Z.shiftl (granularity d) 55 + Z.shiftl (base_high d) 56.

(** ** The alarm *)

Section rtc.
Context {D : Type} `{Ports D}.
Definition CMOS_ADDR : Z := 0x70.
Definition CMOS_DATA : Z := 0x71.
Definition CMOS_NMI : Z := 0x80.
Definition ALARM_SECOND : Z := 1.
Definition ALARM_MINUTE : Z := 3.
Definition ALARM_HOUR : Z := 5.
Definition CMOS_B : Z := 0x0b.
Definition CMOS_C : Z := 0x0c.

Definition cmos_read (addr : Z) : ST D Z := po CMOS_ADDR (Z.lor CMOS_NMI addr);; pi CMOS_DATA.
Definition cmos_write (addr value : Z) : ST D unit := po CMOS_ADDR (Z.lor CMOS_NMI addr);; po CMOS_DATA value.

(** Hour, minute and second of the alarm; the time is what [time_read] has answered. *)
Definition alarm_time (secs : Z) (t : tm) : Z * Z * Z :=
  let sec := secs mod 60 in
  let secs := secs / 60 in
  let min := secs mod 60 in
  let hour := secs / 60 in
  let s := tm_sec t + sec in
  let '(s, m) := if 60 <=? s then (s mod 60, tm_min t + 1) else (s, tm_min t) in
  let m := m + min in
  let '(m, h) := if 60 <=? m then (m mod 60, tm_hour t + 1) else (m, tm_hour t) in
  let h := h + hour in
  let h := if 24 <=? h then h mod 24 else h in
  (h, m, s).

Definition set_alarm (secs : Z) (t : tm) : ST D unit :=
  let '(h, m, s) := alarm_time secs t in
  cmos_write ALARM_HOUR (bin_to_bcd h);;
  cmos_write ALARM_MINUTE (bin_to_bcd m);;
  cmos_write ALARM_SECOND (bin_to_bcd s);;
  cmos_write CMOS_B 0x22;;
  cmos_read CMOS_C;; mret ().

(** The handler clears the flag [set_alarm] was given: the answer is its new value. *)
Definition rtc_handler (vector : Z) : ST D bool :=
  sassert (vector =? 0x28);; send_eoi vector;; cmos_read CMOS_C;; mret false.

Definition rtc_init (rtc_address : Z) (s : tables) : ST D tables :=
  '(_, s) ← lift_st (set_interrupt_handler IRQ_RTC rtc_address s);
  set_interrupt_mask IRQ_RTC true;; set_interrupt_mask IRQ_CASCADE true;; mret s.
End rtc.

(** ** The controllers as sets of requests *)

(** How many words of the initialization are still to come, the first vector, the masked requests,
    the ends of interrupts received. *)
Record chip_t := Chip { expect : nat; first_vector : Z; imask : Z; acks : nat }.
Definition write_ctrl (v : Z) (c : chip_t) : chip_t :=
  if Z.testbit v 4 then Chip 3 (first_vector c) 0 (acks c) else if v =? PIC_EOI then Chip (expect c) (first_vector c) (imask c) (S (acks c)) else c.
Definition write_data (v : Z) (c : chip_t) : chip_t :=
  match expect c with O => Chip 0 (first_vector c) v (acks c) | S n => Chip n (if (n =? 2)%nat then v else first_vector c) (imask c) (acks c) end.
Definition ctrl_port (second : bool) : Z := if second then PIC_S_CTRL else PIC_M_CTRL.
Definition data_port (second : bool) : Z := if second then PIC_S_DATA else PIC_M_DATA.

Class Pics (D : Type) `{Ports D} := {
  chip : bool → D → chip_t;
  chip_ctrl b b' v h : chip b (outb (ctrl_port b') v h) = if bool_decide (b = b') then write_ctrl v (chip b h) else chip b h;
  chip_data b b' v h : chip b (outb (data_port b') v h) = if bool_decide (b = b') then write_data v (chip b h) else chip b h;
  chip_read b h : expect (chip b h) = 0%nat → ∃ h', inb (data_port b) h = (imask (chip b h), h') ∧ ∀ b', chip b' h' = chip b' h
}.

Section masks.
Context {D : Type} `{Pics D}.

(** Both chips expect masks, which are bytes. *)
Definition pics_ready (h : D) : Prop := ∀ b, expect (chip b h) = 0%nat ∧ 0 <= imask (chip b h) < 256.
Definition enabled (h : D) (irq : Z) : bool := negb (Z.testbit (imask (chip (8 <=? irq) h)) (irq mod 8)).

Lemma po_ctrl b v h : po (ctrl_port b) v h = Ok ((), outb (ctrl_port b) v h).
Proof. done. Qed.

Lemma mask_bits v n : 0 <= v < 256 → 0 <= n < 8 → 0 <= Z.lor v (Z.shiftl 1 n) < 256 ∧ 0 <= Z.land v (Z.lnot (Z.shiftl 1 n)) < 256.
Proof.
  intros Hv Hn. assert (V : v ∈ seqZ 0 256) by (apply elem_of_seqZ; lia). assert (N : n ∈ seqZ 0 8) by (apply elem_of_seqZ; lia).
  assert (W : forallb (λ v, forallb (λ n, (0 <=? Z.lor v (Z.shiftl 1 n)) && (Z.lor v (Z.shiftl 1 n) <? 256) && (0 <=? Z.land v (Z.lnot (Z.shiftl 1 n))) && (Z.land v (Z.lnot (Z.shiftl 1 n)) <? 256)) (seqZ 0 8)) (seqZ 0 256) = true) by (vm_compute; reflexivity).
  rewrite forallb_forall in W. apply list_elem_of_In in V, N. specialize (W v V). cbv beta in W. rewrite forallb_forall in W. specialize (W n N). cbv beta in W. lia.
Qed.

Lemma bit_changed v n i (on : bool) : 0 <= n < 8 → 0 <= i < 8 →
  Z.testbit (if on then Z.land v (Z.lnot (Z.shiftl 1 n)) else Z.lor v (Z.shiftl 1 n)) i = if i =? n then negb on else Z.testbit v i.
Proof.
  intros Hn Hi. assert (B : Z.testbit (Z.shiftl 1 n) i = (i =? n)).
  { rewrite Z.shiftl_1_l, Z.pow2_bits_eqb by lia. apply Z.eqb_sym. }
  destruct on; [rewrite Z.land_spec, Z.lnot_spec by lia|rewrite Z.lor_spec]; rewrite B; destruct (i =? n); cbn; [apply andb_false_r|apply andb_true_r|apply orb_true_r|apply orb_false_r].
Qed.

Lemma low_three i : 0 <= i < 16 → i mod 8 = if i <? 8 then i else i - 8.
Proof. intros Hi. destruct (Z.ltb_spec i 8); [apply Z.mod_small; lia|symmetry; apply (Z.mod_unique i 8 1); lia]. Qed.

Lemma set_mask_Ok irq on h : pics_ready h → 0 <= irq < 16 →
  ∃ h', set_interrupt_mask irq on h = Ok ((), h') ∧ pics_ready h' ∧ (∀ b, first_vector (chip b h') = first_vector (chip b h)) ∧ ∀ i, 0 <= i < 16 → enabled h' i = if i =? irq then on else enabled h i.
Proof.
  intros Hr Hi. set (b := 8 <=? irq). set (n := irq mod 8). assert (Hn : 0 <= n < 8) by (apply Z.mod_pos_bound; lia).
  assert (Hnv : n = if irq <? 8 then irq else irq - 8) by (unfold n; apply low_three; lia).
  destruct (chip_read b h (proj1 (Hr b))) as (h1 & E1 & S1). set (v := imask (chip b h)) in *.
  set (w := if on then Z.land v (Z.lnot (Z.shiftl 1 n)) else Z.lor v (Z.shiftl 1 n)). pose proof (mask_bits v n (proj2 (Hr b)) Hn) as [B1 B2].
  assert (Hw : 0 <= w < 256) by (unfold w; by destruct on). exists (outb (data_port b) w h1).
  assert (C : ∀ b', chip b' (outb (data_port b) w h1) = if bool_decide (b' = b) then Chip 0 (first_vector (chip b h)) w (acks (chip b h)) else chip b' h).
  { intros b'. rewrite chip_data, !S1. case_bool_decide as Hb; [subst b'|done]. unfold write_data. by rewrite (proj1 (Hr b)). }
  split; [|split; [|split]].
  - unfold set_interrupt_mask, sassert. replace ((0 <=? irq) && (irq <? 16)) with true by lia. unfold lift_st, mbind, st_bind. cbn [kassert].
    assert ((if irq <? 8 then (PIC_M_DATA, irq) else (PIC_S_DATA, irq - 8)) = (data_port b, n)) as ->.
    { rewrite Hnv. unfold b. destruct (Z.ltb_spec irq 8); destruct (Z.leb_spec 8 irq); try lia; done. }
    unfold pi. rewrite E1. unfold po, modify_st, w. destruct on; rewrite u8_small by lia; done.
  - intros b'. rewrite C. case_bool_decide; [by split|apply Hr].
  - intros b'. rewrite C. case_bool_decide; [by subst|done].
  - intros i Hi'. unfold enabled. rewrite C. fold b n. destruct (Z.eqb_spec i irq) as [->|Hne].
    + rewrite bool_decide_true by done. cbn [imask]. unfold w. rewrite bit_changed by lia. rewrite Z.eqb_refl. by destruct on.
    + case_bool_decide as Hb; [|done]. cbn [imask]. unfold w. rewrite bit_changed by (apply Z.mod_pos_bound || lia; lia).
      rewrite (proj2 (Z.eqb_neq _ _)).
      * fold v. by rewrite Hb.
      * rewrite (low_three i) by lia. rewrite Hnv. unfold b in Hb. intros Hm. apply Hne.
        destruct (Z.leb_spec 8 i); destruct (Z.leb_spec 8 irq); destruct (Z.ltb_spec i 8); destruct (Z.ltb_spec irq 8); try done; lia.
Qed.
Lemma pic_init_Ok h : ∃ h', pic_init h = Ok ((), h') ∧ ∀ b, chip b h' = Chip 0 (if b : bool then 0x28 else 0x20) 0xff (acks (chip b h)).
Proof.
  eexists. split; [reflexivity|]. intros b. unfold PIC_M_CTRL, PIC_M_DATA, PIC_S_CTRL, PIC_S_DATA.
  change 0x21 with (data_port false). change 0xa1 with (data_port true). change (outb 0x20) with (outb (ctrl_port false)). change (outb 0xa0) with (outb (ctrl_port true)).
  rewrite !chip_data, !chip_ctrl, !chip_data, !chip_ctrl. destruct b; reflexivity.
Qed.

Fixpoint set_masks (ops : list (Z * bool)) : ST D unit :=
  match ops with [] => mret () | (irq, on) :: ops => set_interrupt_mask irq on;; set_masks ops end.

Lemma set_masks_Ok ops : Forall (λ o, 0 <= o.1 < 16) ops → ∀ h, pics_ready h →
  ∃ h', set_masks ops h = Ok ((), h') ∧ (∀ b, first_vector (chip b h') = first_vector (chip b h)) ∧ ∀ i, 0 <= i < 16 → enabled h' i = foldl (λ e o, if i =? o.1 then o.2 else e) (enabled h i) ops.
Proof.
  intros Ho. induction Ho as [|[irq on] ops Hi Ho IH]; intros h Hr; [by exists h|]. destruct (set_mask_Ok irq on h Hr Hi) as (h1 & E1 & R1 & V1 & M1).
  destruct (IH h1 R1) as (h2 & E2 & V2 & M2). exists h2. split; [cbn [set_masks]; by rewrite (st_bind_eq _ _ _ _ _ E1)|]. split; [intros b; by rewrite V2, V1|].
  intros i Hi'. rewrite M2 by done. cbn [foldl fst snd]. by rewrite M1.
Qed.

(** After the initialization and any sequence of enabling and disabling, a request gets through
    exactly when it was enabled last; the vectors begin at 0x20 and 0x28. *)
Theorem masks_are_a_set ops h : Forall (λ o, 0 <= o.1 < 16) ops →
  ∃ h', (pic_init;; set_masks ops) h = Ok ((), h') ∧ (∀ b, first_vector (chip b h') = if b : bool then 0x28 else 0x20) ∧
    ∀ i, 0 <= i < 16 → enabled h' i = foldl (λ e o, if i =? o.1 then o.2 else e) false ops.
Proof.
  intros Ho. destruct (pic_init_Ok h) as (h1 & E1 & C1). destruct (set_masks_Ok ops Ho h1) as (h2 & E2 & V2 & M2).
  { intros b. rewrite C1. cbn. lia. }
  exists h2. split; [by rewrite (st_bind_eq _ _ _ _ _ E1)|]. split; [intros b; by rewrite V2, C1|]. intros i Hi. rewrite M2 by done. f_equal. unfold enabled. rewrite C1. cbn [imask].
  assert (Hm : 0 <= i mod 8 < 8) by (apply Z.mod_pos_bound; lia). change 255 with (Z.ones 8). by rewrite Z.ones_spec_low by lia.
Qed.

(** The end of an interrupt goes to the chip it came from, and to the first as well when it came
    through the second; a vector of no controller goes to none. *)
Theorem eoi_reaches_chips v h : ∃ h', send_eoi v h = Ok ((), h') ∧ ∀ b, chip b h' =
  if (if b : bool then (0x28 <=? v) && (v <? 0x30) else (0x20 <=? v) && (v <? 0x30)) then write_ctrl PIC_EOI (chip b h) else chip b h.
Proof.
  unfold send_eoi. destruct (Z.leb_spec 0x20 v), (Z.ltb_spec v 0x28), (Z.leb_spec 0x28 v), (Z.ltb_spec v 0x30); try lia; (eexists; split; [reflexivity|]; intros b; try (by destruct b));
    change PIC_M_CTRL with (ctrl_port false); change PIC_S_CTRL with (ctrl_port true); rewrite ?chip_ctrl; destruct b; done.
Qed.
End masks.

(** ** Where an interrupt goes *)

Lemma gate_loop_Ok te d : ∀ n i, (i + n <= 256)%nat → length te = 48%nat → ∃ l, gate_loop te d n (Z.of_nat i) = Ok l ∧ length l = n ∧
  ∀ k, (k < n)%nat → l !! k = Some (make_gate (if (i + k <? 48)%nat then default 0 (te !! (i + k)%nat) else d) 0).
Proof.
  intros n. induction n as [|n IH]; intros i Hn Ht; [exists []; split; [done|split; [done|lia]]|]. destruct (IH (S i) ltac:(lia) Ht) as (l & E & Hl & H).
  set (h := if (i <? 48)%nat then default 0 (te !! i) else d). assert (Eh : gate_handler te d (Z.of_nat i) = Ok h).
  { unfold gate_handler, h, TRAP_TABLE_SIZE. destruct (Nat.ltb_spec i 48) as [Hi|Hi]; [rewrite (proj2 (Z.ltb_lt _ _)) by lia|by rewrite (proj2 (Z.ltb_ge _ _)) by lia].
    apply zget_Ok. split; [lia|]. rewrite Nat2Z.id. by destruct (lookup_lt_is_Some_2 te i ltac:(lia)) as [x ->]. }
  exists (make_gate h 0 :: l). split; [|split; [by cbn; rewrite Hl|]].
  - cbn [gate_loop]. rewrite Eh. cbn [mbind res_bind]. replace (Z.of_nat i + 1) with (Z.of_nat (S i)) by lia. by rewrite E.
  - intros [|k] Hk; cbn; [by rewrite Nat.add_0_r|]. rewrite H by lia. by replace (S i + k)%nat with (i + S k)%nat by lia.
Qed.

Definition gate_target (g : gate_t) : Z := offset0 g + 65536 * offset1 g.

Lemma make_gate_target h dpl : 0 <= h < 4294967296 → gate_target (make_gate h dpl) = h.
Proof.
  intros Hh. unfold gate_target, make_gate. cbn [offset0 offset1]. rewrite !(Z.land_ones _ 16) by lia. rewrite Z.shiftr_div_pow2 by lia. change (2 ^ 16) with 65536.
  rewrite (Z.mod_small (h / 65536)) by (split; [apply Z.div_pos; lia|apply Z.div_lt_upper_bound; lia]). pose proof (Z.div_mod h 65536 ltac:(lia)). lia.
Qed.

(** Every vector below 48 has its assembler entry, 0x80 the entry of the system calls - the only gate
    a program may use -, the others the default handler; behind the entries stand the page fault at
    14, the exceptions, the keyboard and the handler that only acknowledges. *)
Theorem idt_routes te d ex pf outer kb sc : length te = 48%nat → Forall (λ h, 0 <= h < 4294967296) (d :: sc :: te) →
  ∃ s, idt_init te d ex pf outer kb sc = Ok s ∧ length (idt s) = 256%nat ∧
    (∀ v, (v < 256)%nat → ∃ g, idt s !! v = Some g ∧ gpresent g = 1 ∧ gDPL g = (if (v =? 128)%nat then 3 else 0) ∧
       gate_target g = if (v =? 128)%nat then sc else if (v <? 48)%nat then default 0 (te !! v) else d) ∧
    (∀ v, (v < 48)%nat → trap_handler_table s !! v = Some (if (v =? 14)%nat then pf else if (v <? 32)%nat then ex else if (v =? 33)%nat then kb else outer)).
Proof.
  intros Ht Ha. destruct (gate_loop_Ok te d 256 0 ltac:(lia) Ht) as (l & E & Hl & H). apply Forall_cons in Ha as [Hd Ha]. apply Forall_cons in Ha as [Hs Ha].
  unfold idt_init. change (Z.to_nat IDT_SIZE) with 256%nat. change 0 with (Z.of_nat 0) at 1. rewrite E. cbn [mbind res_bind]. unfold set_interrupt_handler. change (kassert ((0 <=? 1) && (1 <? 16))) with (Ok ()).
  cbn [mbind res_bind idt trap_handler_table]. rewrite zset_Ok by (unfold trap_handlers; rewrite length_app, length_insert, !length_replicate; unfold IRQ_MASTER_NR; lia). cbn [mbind res_bind idt trap_handler_table].
  rewrite zset_Ok by lia. cbn [mbind res_bind]. eexists. split; [reflexivity|]. cbn [idt trap_handler_table]. split; [by rewrite length_insert|]. split.
  - intros v Hv. change (Z.to_nat 128) with 128%nat. destruct (Nat.eqb_spec v 128) as [->|Hne].
    + eexists. split; [by rewrite list_lookup_insert_eq by lia|]. split; [done|]. split; [done|]. by apply make_gate_target.
    + rewrite list_lookup_insert_ne by done. rewrite H by done. eexists. split; [reflexivity|]. split; [done|]. split; [done|]. cbn [Nat.add]. apply make_gate_target.
      destruct (Nat.ltb_spec v 48); [|done]. destruct (lookup_lt_is_Some_2 te v ltac:(lia)) as [x Hx]. rewrite Hx. cbn. by apply (Forall_lookup_1 _ _ v x Ha).
  - intros v Hv. unfold trap_handlers. change (Z.to_nat (IRQ_MASTER_NR + 1)) with 33%nat. do 48 (destruct v as [|v]; [reflexivity|]). lia.
Qed.

(** The four flat segments as the processor reads them; the task state keeps its address and size. *)
Theorem segment_words tss : 0 <= tss < 4294967296 →
  ((λ i, descriptor_word <$> gdt_init !! i) <$> [KERNEL_CODE_IDX; KERNEL_DATA_IDX; USER_CODE_IDX; USER_DATA_IDX]) =
    [Some 0x00CF9A000000FFFF; Some 0x00CF92000000FFFF; Some 0x00CFFA000000FFFF; Some 0x00CFF2000000FFFF] ∧
  ∃ d, tss_init tss gdt_init !! KERNEL_TSS_IDX = Some d ∧ base_low d + 16777216 * base_high d = tss ∧ limit_low d + 65536 * limit_high d = 105 ∧ granularity d = 0.
Proof.
  intros Ht. split; [reflexivity|]. eexists. split; [reflexivity|]. cbn [base_low base_high limit_low limit_high granularity set_kind descriptor_init]. split; [|split; reflexivity].
  rewrite (Z.land_ones _ 24), (Z.land_ones _ 8), Z.shiftr_div_pow2 by lia. change (2 ^ 24) with 16777216. change (2 ^ 8) with 256.
  rewrite (Z.mod_small (tss / 16777216)) by (split; [apply Z.div_pos; lia|apply Z.div_lt_upper_bound; lia]). pose proof (Z.div_mod tss 16777216 ltac:(lia)). lia.
Qed.

(** The alarm is set to the time of day that many seconds later. *)
Theorem alarm_correct secs t : 0 <= secs < 4294967296 → 0 <= tm_sec t < 60 → 0 <= tm_min t < 60 → 0 <= tm_hour t < 24 →
  let '(h, m, s) := alarm_time secs t in 0 <= s < 60 ∧ 0 <= m < 60 ∧ 0 <= h < 24 ∧ 3600 * h + 60 * m + s = (3600 * tm_hour t + 60 * tm_min t + tm_sec t + secs) mod 86400.
Proof.
  intros Hs H1 H2 H3. unfold alarm_time. pose proof (Z.div_mod secs 60 ltac:(lia)). pose proof (Z.mod_pos_bound secs 60 ltac:(lia)).
  pose proof (Z.div_mod (secs / 60) 60 ltac:(lia)). pose proof (Z.mod_pos_bound (secs / 60) 60 ltac:(lia)). assert (0 <= secs / 60) by (apply Z.div_pos; lia). assert (0 <= secs / 60 / 60) by (apply Z.div_pos; lia).
  set (a := secs mod 60) in *. set (b := (secs / 60) mod 60) in *. set (c := secs / 60 / 60) in *.
  assert (M60 : ∀ x, 60 <= x < 120 → x mod 60 = x - 60) by (intros x Hx; symmetry; apply (Z.mod_unique x 60 1); lia).
  assert (M24 : ∀ h m s q, 0 <= h → 0 <= m < 60 → 0 <= s < 60 → 3600 * h + 60 * m + s = q → 3600 * (h mod 24) + 60 * m + s = q mod 86400).
  { intros h m s q Hh Hm Hsx <-. apply (Z.mod_unique _ _ (h / 24)); [left; pose proof (Z.mod_pos_bound h 24); lia|]. pose proof (Z.div_mod h 24 ltac:(lia)). lia. }
  assert (M24' : ∀ h m s q, 0 <= h < 24 → 0 <= m < 60 → 0 <= s < 60 → 3600 * h + 60 * m + s = q → 3600 * h + 60 * m + s = q mod 86400).
  { intros h m s q Hh Hm Hsx <-. symmetry. apply Z.mod_small. lia. }
  destruct (Z.leb_spec 60 (tm_sec t + a)); [rewrite (M60 (tm_sec t + a)) by lia|].
  all: match goal with |- context [60 <=? ?m] => destruct (Z.leb_spec 60 m); [rewrite (M60 m) by lia|] end.
  all: match goal with |- context [24 <=? ?h] => destruct (Z.leb_spec 24 h); [pose proof (Z.mod_pos_bound h 24 ltac:(lia))|] end.
  all: repeat (split; [lia|]); first [apply M24|apply M24']; lia.
Qed.

(** ** Witnesses *)

Definition two_chips : Type := chip_t * chip_t.
Definition two_outb (p v : Z) (h : two_chips) : two_chips :=
  if p =? PIC_M_CTRL then (write_ctrl v h.1, h.2) else if p =? PIC_M_DATA then (write_data v h.1, h.2)
  else if p =? PIC_S_CTRL then (h.1, write_ctrl v h.2) else if p =? PIC_S_DATA then (h.1, write_data v h.2) else h.
Definition two_inb (p : Z) (h : two_chips) : Z * two_chips := (if p =? PIC_M_DATA then imask h.1 else if p =? PIC_S_DATA then imask h.2 else 0, h).
#[export] Instance two_ports : Ports two_chips := {| inb := two_inb; inw := λ _ h, (0, h); outb := two_outb; outw := λ _ _ h, h |}.
#[export, program] Instance two_pics : Pics two_chips := {| chip := λ b h, if b : bool then h.2 else h.1 |}.
Next Obligation. by intros [] [] v h. Qed.
Next Obligation. by intros [] [] v h. Qed.
Next Obligation. intros [] h _; by exists h. Qed.

Lemma masks_are_a_set_witness : ∃ h', (pic_init;; set_masks [(1, true); (14, true); (1, false)]) (Chip 0 0 0 0, Chip 0 0 0 0) = Ok ((), h') ∧ enabled h' 14 = true ∧ enabled h' 1 = false.
Proof.
  destruct (masks_are_a_set (D := two_chips) [(1, true); (14, true); (1, false)] (Chip 0 0 0 0, Chip 0 0 0 0)) as (h' & E & _ & M).
  - repeat constructor; cbn; lia.
  - exists h'. split; [exact E|]. split; [exact (M 14 ltac:(lia))|exact (M 1 ltac:(lia))].
Defined.

Lemma idt_routes_witness : ∃ s, idt_init (replicate 48 0xC0001000) 0xC0002000 1 2 3 4 0xC0003000 = Ok s ∧ trap_handler_table s !! 14%nat = Some 2.
Proof.
  destruct (idt_routes (replicate 48 0xC0001000) 0xC0002000 1 2 3 4 0xC0003000) as (s & E & _ & _ & T).
  - reflexivity.
  - apply Forall_cons. split; [lia|]. apply Forall_cons. split; [lia|]. apply Forall_replicate. lia.
  - exists s. split; [exact E|exact (T 14%nat ltac:(lia))].
Defined.

Lemma segment_words_witness : ∃ d, tss_init 0xC0104000 gdt_init !! KERNEL_TSS_IDX = Some d ∧ base_low d + 16777216 * base_high d = 0xC0104000.
Proof. destruct (segment_words 0xC0104000 ltac:(lia)) as (_ & d & E & B & _). exists d. split; [exact E|exact B]. Defined.

Lemma alarm_correct_witness : alarm_time 3661 (Tm 59 59 22 0 0 0 0 0 0) = (0, 1, 0) ∧ (3600 * 22 + 60 * 59 + 59 + 3661) mod 86400 = 60.
Proof. pose proof (alarm_correct 3661 (Tm 59 59 22 0 0 0 0 0 0) ltac:(lia) ltac:(cbn; lia) ltac:(cbn; lia) ltac:(cbn; lia)) as H. split; [reflexivity|]. destruct H as (_ & _ & _ & E). symmetry. exact E. Defined.
