(* ===== verification/Serial.v ===== *)
(** * Serial ports (src/kernel/serial.c)

    Two ports behind their registers; what arrives goes through an interrupt into a ring, a reader
    waits for it.  A read that has to wait ends the definition with [Waiting]; the continuation is
    a definition of its own. *)

From S2P Require Import Prelude Kfifo Ide Interrupts.

Definition COM1_IOBASE : Z := 0x3F8.
Definition COM2_IOBASE : Z := 0x2F8.
Definition COM_DATA : Z := 0.
Definition COM_INTR_ENABLE : Z := 1.
Definition COM_BAUD_LSB : Z := 0.
Definition COM_BAUD_MSB : Z := 1.
Definition COM_INTR_IDENTIFY : Z := 2.
Definition COM_LINE_CONTROL : Z := 3.
Definition COM_MODEM_CONTROL : Z := 4.
Definition COM_LINE_STATUS : Z := 5.
Definition LSR_DR : Z := 1.
Definition LSR_THRE : Z := 0x20.
Definition BUF_LEN : Z := 64.
Definition IRQ_SERIAL_2 : Z := 3.
Definition IRQ_SERIAL_1 : Z := 4.

(** The locks are free or taken; the waiting tasks are identifiers. *)
Record serial_t := Serial { com_base : Z; rx_fifo : kfifo_t; rlock : bool; rx_waiter : option Z; wlock : bool; tx_waiter : option Z }.
Definition set_rx_fifo (f : kfifo_t) (s : serial_t) : serial_t := Serial (com_base s) f (rlock s) (rx_waiter s) (wlock s) (tx_waiter s).
Definition set_rlock (v : bool) (s : serial_t) : serial_t := Serial (com_base s) (rx_fifo s) v (rx_waiter s) (wlock s) (tx_waiter s).
Definition set_rx_waiter (v : option Z) (s : serial_t) : serial_t := Serial (com_base s) (rx_fifo s) (rlock s) v (wlock s) (tx_waiter s).
Definition set_wlock (v : bool) (s : serial_t) : serial_t := Serial (com_base s) (rx_fifo s) (rlock s) (rx_waiter s) v (tx_waiter s).
Definition set_tx_waiter (v : option Z) (s : serial_t) : serial_t := Serial (com_base s) (rx_fifo s) (rlock s) (rx_waiter s) (wlock s) v.

(** What a read or a write ends with: its result, waiting for characters, waiting for the lock. *)
Inductive serial_end := Finished (buf : list Z) | Waiting (buf : list Z) | LockTaken.

Section serial.
Context {D : Type} `{Ports D}.

Record state := State { serials : list serial_t; hw : D; traps : tables }.
Abbreviation SM := (ST state).

Definition on_hw {A} (m : ST D A) : SM A := λ s, '(a, h) ← m (hw s); Ok (a, State (serials s) h (traps s)).
Definition on_traps {A} (m : ST tables A) : SM A := λ s, '(a, t) ← m (traps s); Ok (a, State (serials s) (hw s) t).
Definition at_serial (i : Z) : SM serial_t := λ s, x ← zget (serials s) i; Ok (x, s).
Definition upd_serial (i : Z) (f : serial_t → serial_t) : SM unit := λ s,
  x ← zget (serials s) i; l ← zset (serials s) i (f x); Ok ((), State l (hw s) (traps s)).

(** The answer of the handlers is the tasks they wake. *)
Definition recv_data (i : Z) : SM (list Z) :=
  serial ← at_serial i;
  ch ← on_hw (pi (com_base serial));
  let ch := if s8 ch =? 13 then 10 else s8 ch in
  '(_, f) ← lift_st (kfifo_put 2 ch (rx_fifo serial));
  upd_serial i (set_rx_fifo f);;
  match rx_waiter serial with
  | Some t => upd_serial i (set_rx_waiter None);; mret [t]
  | None => mret []
  end.

Definition serial_handler (vector : Z) : SM (list Z) :=
  let irq := u32 (vector - 0x20) in
  sassert ((irq =? IRQ_SERIAL_1) || (irq =? IRQ_SERIAL_2));;
  on_hw (send_eoi vector);;
  let i := irq - IRQ_SERIAL_1 in
  serial ← at_serial i;
  v ← on_hw (pi (com_base serial + COM_LINE_STATUS));
  woken ← (if negb (Z.land v LSR_DR =? 0) then recv_data i else mret []);
  match (if Z.land v LSR_THRE =? 0 then None else tx_waiter serial) with
  | Some t => upd_serial i (set_tx_waiter None);; mret (woken ++ [t])
  | None => mret woken
  end.

(** The loop of [serial_read] with [buf] read so far; it takes a character in each turn or waits. *)
Fixpoint serial_read_loop (fuel : nat) (i current count : Z) (buf : list Z) : SM serial_end :=
  match fuel with
  | O => stop_st NoFuel
  | S fuel =>
      if Z.of_nat (length buf) <? count then
        serial ← at_serial i;
        if kfifo_empty (rx_fifo serial) then
          sassert (bool_decide (rx_waiter serial = None));;
          upd_serial i (set_rx_waiter (Some current));; mret (Waiting buf)
        else
          '(c, f) ← lift_st (kfifo_get (rx_fifo serial));
          upd_serial i (set_rx_fifo f);;
          serial_read_loop fuel i current count (buf ++ [c])
      else upd_serial i (set_rlock false);; mret (Finished buf)
  end.

Definition serial_read_resume (i current count : Z) (buf : list Z) : SM serial_end := serial_read_loop (S (Z.to_nat count)) i current count buf.
Definition serial_read (i current count : Z) : SM serial_end :=
  serial ← at_serial i;
  if rlock serial then mret LockTaken else upd_serial i (set_rlock true);; serial_read_resume i current count [].

(** [serial_write] asks for the state until the port takes the next character. *)
Fixpoint serial_write_loop (fuel : nat) (i : Z) (buf : list Z) (nr : Z) : SM Z :=
  match fuel with
  | O => stop_st NoFuel
  | S fuel =>
      match buf with
      | [] => upd_serial i (set_wlock false);; mret nr
      | c :: rest =>
          serial ← at_serial i;
          v ← on_hw (pi (com_base serial + COM_LINE_STATUS));
          if Z.land v LSR_THRE =? 0 then serial_write_loop fuel i buf nr
          else on_hw (po (com_base serial) (u8 c));; serial_write_loop fuel i rest (nr + 1)
      end
  end.
Definition serial_write (fuel : nat) (i : Z) (buf : list Z) : SM (option Z) :=
  serial ← at_serial i;
  if wlock serial then mret None else upd_serial i (set_wlock true);; r ← serial_write_loop fuel i buf 0; mret (Some r).

(** The answer of [serial_init] is what it installs: the place of the port and the name of the
    device, a character device of the kind DEV_SERIAL with the two operations above. *)
Definition init_port (handler : Z) (i : Z) : SM (list (Z * list Z)) :=
  let irq := if i =? 0 then IRQ_SERIAL_1 else IRQ_SERIAL_2 in
  let base := if i =? 0 then COM1_IOBASE else COM2_IOBASE in
  upd_serial i (λ s, Serial base (kfifo_init (buf (rx_fifo s)) BUF_LEN) false None false None);;
  on_hw (
    po (base + COM_INTR_ENABLE) 0;;
    po (base + COM_LINE_CONTROL) 0x80;;
    po (base + COM_BAUD_LSB) 0x30;; po (base + COM_BAUD_MSB) 0;;
    po (base + COM_LINE_CONTROL) 3;;
    po (base + COM_INTR_ENABLE) 0x0d;;
    po (base + COM_INTR_IDENTIFY) 0xC7;;
    po (base + COM_MODEM_CONTROL) 27;;
    po base 0xAE);;
  v ← on_hw (pi base);
  if negb (v =? 0xAE) then mret []
  else
    on_hw (po (base + COM_MODEM_CONTROL) 11);;
    on_traps (set_interrupt_handler irq handler);;
    on_hw (set_interrupt_mask irq true);;
    mret [(i, [99; 111; 109; 48 + (i + 1)])].
Definition serial_init (handler : Z) : SM (list (Z * list Z)) :=
  a ← init_port handler 0; b ← init_port handler 1; mret (a ++ b).
End serial.
Arguments state : clear implicits.

(** ** The chips *)

Definition port_base (b : bool) : Z := if b then COM2_IOBASE else COM1_IOBASE.

(** Characters that have arrived and not been read, characters sent, and how often the state will
    be answered with busy; [latency] bounds the last. *)
Class Uart (D : Type) `{Ports D} := {
  arrived : bool → D → list Z;
  sent : bool → D → list Z;
  busy : bool → D → nat;
  latency : nat;
  status_read b h : ∃ v h', inb (port_base b + COM_LINE_STATUS) h = (v, h') ∧ (Z.land v LSR_DR =? 0) = bool_decide (arrived b h = []) ∧
    (Z.land v LSR_THRE =? 0) = negb (busy b h =? 0)%nat ∧ arrived b h' = arrived b h ∧ sent b h' = sent b h ∧ busy b h' = pred (busy b h);
  data_read b h x q : arrived b h = x :: q → ∃ h', inb (port_base b) h = (x, h') ∧ arrived b h' = q;
  data_write b h v : busy b h = 0%nat → sent b (outb (port_base b) v h) = sent b h ++ [v] ∧ (busy b (outb (port_base b) v h) <= latency)%nat;
  eoi_apart b h v : arrived b (outb PIC_M_CTRL v h) = arrived b h
}.

(** The characters a reader gets for what arrives. *)
Definition line_of (cs : list Z) : list Z := (λ c, if s8 c =? 13 then 10 else s8 c) <$> cs.

(** [recv_data] and [serial_handler] for each interrupt of the first port; the task runs on as soon
    as it is woken. *)
(** A step that evaluates. *)
Ltac st_now := rewrite ?st_bind_assoc; eapply st_step; [reflexivity|]; cbv beta.

Section session.
Context {D : Type} `{Ports D} (task count : Z).

Fixpoint session (n : nat) (e : serial_end) : ST (state D) serial_end :=
  match n with
  | O => mret e
  | S n =>
      woken ← serial_handler (0x20 + IRQ_SERIAL_1);
      e ← match e with Waiting b => if bool_decide (task ∈ woken) then serial_read_resume 0 task count b else mret e | _ => mret e end;
      session n e
  end.
End session.

(** The interrupt of the second port is served with the port before the first. *)
Theorem com2_out_of_bounds {D} `{Ports D} (s : state D) : serial_handler (0x20 + IRQ_SERIAL_2) s = Stop OutOfBounds.
Proof. reflexivity. Qed.

Section reading.
Context {D : Type} `{Uart D} (task : Z).

Lemma put_get f c : ring f → queue f = [] → buf_size f = BUF_LEN →
  ∃ f1 f2, kfifo_put 2 c f = Ok ((), f1) ∧ kfifo_get f1 = Ok (s8 c, f2) ∧ kfifo_empty f1 = false ∧ ring f2 ∧ queue f2 = [] ∧ buf_size f2 = BUF_LEN ∧ kfifo_empty f2 = true.
Proof.
  intros Hr Hq Hs. destruct (put_spec 2 c f Hr ltac:(lia)) as (f1 & E1 & R1 & S1 & Q1). rewrite Hq, Hs in Q1. unfold q_put in Q1. cbn in Q1.
  destruct (get_spec f1 R1) as (f2 & E2 & R2 & Q2 & S2 & _). rewrite Q1 in E2, Q2. cbn in E2, Q2. exists f1, f2. split; [done|]. split; [done|].
  split; [rewrite empty_spec, Q1 by done; done|]. split; [done|]. split; [done|]. split; [congruence|]. by rewrite empty_spec, Q2.
Qed.

Lemma eoi_arrived b v (h : D) : 0x20 <= v < 0x28 → ∃ h', send_eoi v h = Ok ((), h') ∧ arrived b h' = arrived b h.
Proof.
  intros Hv. unfold send_eoi. replace ((0x20 <=? v) && (v <? 0x28)) with true by lia. replace ((0x28 <=? v) && (v <? 0x30)) with false by lia.
  eexists. split; [reflexivity|apply eoi_apart].
Qed.

(** The first port of a task that has its lock, with and without waiting. *)
Definition port (f : kfifo_t) (w : option Z) : serial_t := Serial COM1_IOBASE f true w false None.
Definition got (c : Z) : Z := if s8 c =? 13 then 10 else s8 c.

Lemma got_s8 c : s8 (got c) = got c.
Proof. unfold got. destruct (Z.eqb_spec (s8 c) 13); [done|]. unfold s8. pose proof (Z.mod_pos_bound (c + 128) 256). rewrite Z.sub_add, Z.mod_mod by lia. done. Qed.

Lemma received_Ok f1 f rest (h : D) t x q : arrived false h = x :: q → kfifo_put 2 (got x) f = Ok ((), f1) →
  ∃ h', serial_handler (0x20 + IRQ_SERIAL_1) (State (port f (Some task) :: rest) h t) = Ok ([task], State (port f1 None :: rest) h' t) ∧ arrived false h' = q.
Proof.
  intros Ha Hf. destruct (eoi_arrived false (0x20 + IRQ_SERIAL_1) h ltac:(done)) as (h1 & E1 & A1).
  destruct (status_read false h1) as (v & h2 & E2 & V & _ & A2 & _). rewrite A1, Ha in V, A2.
  destruct (data_read false h2 x q A2) as (h3 & E3 & A3). exists h3. split; [|done].
  unfold serial_handler. st_now.
  assert (on_hw (send_eoi (0x20 + IRQ_SERIAL_1)) (State (port f (Some task) :: rest) h t) = Ok ((), State (port f (Some task) :: rest) h1 t)) as G by (unfold on_hw; cbn [hw]; by rewrite E1). st_go G.
  change (u32 (0x20 + IRQ_SERIAL_1 - 0x20) - IRQ_SERIAL_1) with 0. st_now.
  assert (on_hw (pi (com_base (port f (Some task)) + COM_LINE_STATUS)) (State (port f (Some task) :: rest) h1 t) = Ok (v, State (port f (Some task) :: rest) h2 t)) as G2.
  { unfold on_hw, pi. cbn [hw]. change (com_base (port f (Some task))) with (port_base false). by rewrite E2. }
  st_go G2. rewrite V. change (negb (bool_decide (x :: q = []))) with true. cbv iota.
  assert (recv_data 0 (State (port f (Some task) :: rest) h2 t) = Ok ([task], State (port f1 None :: rest) h3 t)) as G3.
  { unfold recv_data. st_now.
    assert (on_hw (pi (com_base (port f (Some task)))) (State (port f (Some task) :: rest) h2 t) = Ok (x, State (port f (Some task) :: rest) h3 t)) as G4.
    { unfold on_hw, pi. cbn [hw]. change (com_base (port f (Some task))) with (port_base false). by rewrite E3. }
    st_go G4. change (if s8 x =? 13 then 10 else s8 x) with (got x).
    assert (lift_st (kfifo_put 2 (got x) (rx_fifo (port f (Some task)))) (State (port f (Some task) :: rest) h3 t) = Ok (((), f1), State (port f (Some task) :: rest) h3 t)) as G5 by (unfold lift_st; cbn [rx_fifo port]; by rewrite Hf).
    st_go G5. cbv iota. reflexivity. }
  st_go G3. cbn [tx_waiter port]. by destruct (Z.land v LSR_THRE =? 0).
Qed.

Lemma loop_waits fuel f rest (h : D) t count b : kfifo_empty f = true → Z.of_nat (length b) < count →
  serial_read_loop (S fuel) 0 task count b (State (port f None :: rest) h t) = Ok (Waiting b, State (port f (Some task) :: rest) h t).
Proof. intros He Hb. cbn [serial_read_loop]. rewrite (proj2 (Z.ltb_lt _ _) Hb). st_now. cbn [rx_fifo port]. rewrite He. reflexivity. Qed.

Lemma session_Ok cs : ∀ f rest (h : D) t b, ring f → queue f = [] → buf_size f = BUF_LEN → cs ≠ [] → arrived false h = cs →
  ∃ s', session task (Z.of_nat (length b + length cs)) (length cs) (Waiting b) (State (port f (Some task) :: rest) h t) = Ok (Finished (b ++ line_of cs), s').
Proof.
  induction cs as [|c cs IH]; [done|]. intros f rest h t b Hr Hq Hs _ Ha. destruct (put_get f (got c) Hr Hq Hs) as (f1 & f2 & E1 & E2 & M1 & R2 & Q2 & S2 & M2).
  destruct (received_Ok f1 f rest h t c cs Ha E1) as (h' & E & A). cbn [session length]. rewrite (st_bind_eq _ _ _ _ _ E). cbv iota. rewrite bool_decide_true by apply list_elem_of_here.
  rewrite got_s8 in E2. unfold serial_read_resume. set (n := Z.of_nat (length b + S (length cs))). set (s1 := State (port f1 None :: rest) h' t).
  assert (L : ∃ e s2, serial_read_loop (S (Z.to_nat n)) 0 task n b s1 = Ok (e, s2) ∧ session task n (length cs) e s2 = session task n (length cs) e s2 ∧
    (if decide (cs = []) then e = Finished (b ++ [got c]) else e = Waiting (b ++ [got c]) ∧ s2 = State (port f2 (Some task) :: rest) h' t)).
  { cbn [serial_read_loop]. rewrite (proj2 (Z.ltb_lt _ _)) by lia. unfold s1. rewrite (st_bind_eq _ _ _ (port f1 None) (State (port f1 None :: rest) h' t)) by reflexivity. cbn [rx_fifo port]. rewrite M1.
    rewrite (st_bind_eq _ _ _ (got c, f2) (State (port f1 None :: rest) h' t)) by (unfold lift_st; by rewrite E2). cbv iota.
    rewrite (st_bind_eq _ _ _ () (State (port f2 None :: rest) h' t)) by reflexivity. assert (Hl : length (b ++ [got c]) = S (length b)) by (rewrite length_app; cbn; lia).
    destruct (Z.to_nat n) as [|m] eqn:Hm; [lia|]. destruct (decide (cs = [])) as [->|Hne].
    - eexists _, _. split; [|done]. cbn [serial_read_loop]. rewrite Hl. unfold n. cbn [length]. rewrite (proj2 (Z.ltb_ge _ _)) by lia. reflexivity.
    - eexists _, _. split; [|done]. apply loop_waits; [done|]. rewrite Hl. destruct cs; [done|]. unfold n. cbn [length]. lia. }
  destruct L as (e & s2 & EL & _ & He). rewrite (st_bind_eq _ _ _ _ _ EL). destruct (decide (cs = [])) as [->|Hne].
  - subst e. by exists s2.
  - destruct He as [-> ->]. destruct (IH f2 rest h' t (b ++ [got c]) R2 Q2 S2 Hne A) as (s' & E'). exists s'.
    assert (n = Z.of_nat (length (b ++ [got c]) + length cs)) as -> by (rewrite length_app; cbn; lia). rewrite E'. by rewrite <- app_assoc.
Qed.
End reading.

(** C29. A read of the first port returns what arrives, in order and with each carriage return as a line
    feed, as soon as there is enough of it. *)
Theorem reader_gets_arrivals {D} `{Uart D} task cs f rest (h : D) t : cs ≠ [] → ring f → queue f = [] → buf_size f = BUF_LEN → arrived false h = cs →
  ∃ s', (e ← serial_read 0 task (Z.of_nat (length cs)); session task (Z.of_nat (length cs)) (length cs) e) (State (Serial COM1_IOBASE f false None false None :: rest) h t) = Ok (Finished (line_of cs), s').
Proof.
  intros Hne Hr Hq Hs Ha. assert (He : kfifo_empty f = true) by (rewrite empty_spec, Hq by done; done).
  assert (E : serial_read 0 task (Z.of_nat (length cs)) (State (Serial COM1_IOBASE f false None false None :: rest) h t) = Ok (Waiting [], State (port f (Some task) :: rest) h t)).
  { unfold serial_read. st_now. cbn [rlock]. st_now. apply (loop_waits task); [done|]. destruct cs; [done|]. cbn. lia. }
  rewrite (st_bind_eq _ _ _ _ _ E). exact (session_Ok task cs f rest h t [] Hr Hq Hs Hne Ha).
Qed.

(** ** Writing *)

Section writing.
Context {D : Type} `{Uart D} (b : bool).

Lemma write_loop_Ok rest t g : ∀ fuel buf nr (h : D), (busy b h + length buf * S latency < fuel)%nat →
  ∃ h', serial_write_loop fuel 0 buf nr (State (Serial (port_base b) g false None true None :: rest) h t) = Ok (nr + Z.of_nat (length buf), State (Serial (port_base b) g false None false None :: rest) h' t) ∧
    sent b h' = sent b h ++ (u8 <$> buf).
Proof.
  set (p := Serial (port_base b) g false None true None). induction fuel as [|fuel IH]; intros [|c buf] nr h Hf; try (cbn in Hf; lia).
  - exists h. rewrite Z.add_0_r, app_nil_r. by split.
  - destruct (status_read b h) as (v & h1 & E1 & _ & V & _ & S1 & B1). cbn [serial_write_loop].
    assert (on_hw (pi (com_base p + COM_LINE_STATUS)) (State (p :: rest) h t) = Ok (v, State (p :: rest) h1 t)) as G by (unfold on_hw, pi; cbn [hw com_base p]; by rewrite E1).
    rewrite (st_bind_eq _ _ _ p (State (p :: rest) h t)) by reflexivity. rewrite (st_bind_eq _ _ _ _ _ G), V. destruct (Nat.eqb_spec (busy b h) 0) as [Hb|Hb]; cbn [negb].
    + destruct (data_write b h1 (u8 c) ltac:(lia)) as [S2 B2]. set (h2 := outb (port_base b) (u8 c) h1) in *.
      rewrite (st_bind_eq _ _ _ () (State (p :: rest) h2 t)) by reflexivity. destruct (IH buf (nr + 1) h2) as (h' & E & S'); [cbn in Hf; lia|].
      exists h'. rewrite E, S', S2, S1, <- app_assoc. split; [do 2 f_equal; cbn [length]; lia|done].
    + destruct (IH (c :: buf) nr h1) as (h' & E & S'); [lia|]. exists h'. by rewrite E, S', S1.
Qed.
End writing.

(** A write returns the number of its characters and has sent them all, in order, after at most as
    many turns as the port is busy. *)
Theorem write_sends {D} `{Uart D} b g rest (h : D) t buf fuel : (busy b h + length buf * S latency < fuel)%nat →
  ∃ s', serial_write fuel 0 buf (State (Serial (port_base b) g false None false None :: rest) h t) = Ok (Some (Z.of_nat (length buf)), s') ∧ sent b (hw s') = sent b h ++ (u8 <$> buf).
Proof.
  intros Hf. destruct (write_loop_Ok b rest t g fuel buf 0 h Hf) as (h' & E & S'). exists (State (Serial (port_base b) g false None false None :: rest) h' t). split; [|exact S'].
  unfold serial_write. st_now. cbn [wlock]. st_now. st_go E. reflexivity.
Qed.

(** ** Witnesses *)

(** Two chips, each with what has arrived and what has been sent; the state is busy once after each
    character.  Only the registers the laws speak of do something. *)
Record chip := Line { l_in : list Z; l_out : list Z; l_busy : nat }.
Definition chips : Type := chip * chip.
Definition of_line (b : bool) (h : chips) : chip := if b then h.2 else h.1.
Definition set_line (b : bool) (c : chip) (h : chips) : chips := if b then (h.1, c) else (c, h.2).
Definition line_status (c : chip) : Z := (match l_in c with [] => 0 | _ => LSR_DR end) + (if (l_busy c =? 0)%nat then LSR_THRE else 0).
Definition line_inb (p : Z) (h : chips) : Z * chips :=
  match List.find (λ b, (p =? port_base b) || (p =? port_base b + COM_LINE_STATUS)) [false; true] with
  | Some b =>
      let c := of_line b h in
      if p =? port_base b then (List.hd 0 (l_in c), set_line b (Line (List.tl (l_in c)) (l_out c) (l_busy c)) h)
      else (line_status c, set_line b (Line (l_in c) (l_out c) (pred (l_busy c))) h)
  | None => (0, h)
  end.
Definition line_outb (p v : Z) (h : chips) : chips :=
  match List.find (λ b, p =? port_base b) [false; true] with
  | Some b => let c := of_line b h in set_line b (Line (l_in c) (l_out c ++ [v]) 1) h
  | None => h
  end.
#[export] Instance line_ports : Ports chips := {| inb := line_inb; inw := λ _ h, (0, h); outb := line_outb; outw := λ _ _ h, h |}.
#[export, program] Instance line_uart : Uart chips :=
  {| arrived := λ b h, l_in (of_line b h); sent := λ b h, l_out (of_line b h); busy := λ b h, l_busy (of_line b h); latency := 1 |}.
Next Obligation.
  intros b [c1 c2]. exists (line_status (of_line b (c1, c2))), (set_line b (Line (l_in (of_line b (c1, c2))) (l_out (of_line b (c1, c2))) (pred (l_busy (of_line b (c1, c2))))) (c1, c2)).
  split; [by destruct b|]. set (c := of_line b (c1, c2)). split; [|split; [|by destruct b]]; unfold line_status; destruct (l_in c), (l_busy c); reflexivity.
Qed.
Next Obligation. intros [] [[i1 o1 b1] [i2 o2 b2]] x q E; cbn in E; subst; eexists; (split; [reflexivity|reflexivity]). Qed.
Next Obligation. intros [] [c1 c2] v _; by split. Qed.
Next Obligation. by intros [] [c1 c2] v. Qed.

Definition no_port : serial_t := Serial 0 (KFifo 0 0 0 (replicate 64 0)) false None false None.
Definition open_port : serial_t := Serial COM1_IOBASE (kfifo_init (replicate 64 0) BUF_LEN) false None false None.

Lemma reader_gets_arrivals_witness : ∃ s', (e ← serial_read 0 7 3; session 7 3 3 e) (State [open_port; no_port] (Line [104; 105; 13] [] 0, Line [] [] 0) (Tables [] [])) = Ok (Finished [104; 105; 10], s').
Proof.
  apply (reader_gets_arrivals (D := chips) 7 [104; 105; 13] (kfifo_init (replicate 64 0) BUF_LEN) [no_port] (Line [104; 105; 13] [] 0, Line [] [] 0) (Tables [] [])).
  - discriminate.
  - split; vm_compute; try discriminate; repeat split; discriminate.
  - reflexivity.
  - reflexivity.
  - reflexivity.
Defined.

Lemma write_sends_witness : ∃ s', serial_write 100 0 [111; 107] (State [open_port; no_port] (Line [] [33] 3, Line [] [] 0) (Tables [] [])) = Ok (Some 2, s') ∧ sent false (hw s') = [33; 111; 107].
Proof.
  destruct (write_sends (D := chips) false (kfifo_init (replicate 64 0) BUF_LEN) [no_port] (Line [] [33] 3, Line [] [] 0) (Tables [] []) [111; 107] 100) as (s' & E & S').
  - cbn. lia.
  - exists s'. split; [exact E|exact S'].
Defined.

(** The two ports as [serial_init] leaves them, when both answer its test. *)
Definition echo_inb (p : Z) (h : chips) : Z * chips := if (p =? COM1_IOBASE) || (p =? COM2_IOBASE) then (0xAE, h) else (0, h).
Lemma both_ports_installed : ∃ s', serial_init (H := {| inb := echo_inb; inw := λ _ h, (0, h); outb := line_outb; outw := λ _ _ h, h |}) 0xC0005000
    (State [no_port; no_port] (Line [] [] 0, Line [] [] 0) (Tables [] (replicate 48 0))) = Ok ([(0, [99; 111; 109; 49]); (1, [99; 111; 109; 50])], s') ∧
  trap_handler_table (traps s') !! 36%nat = Some 0xC0005000 ∧ com_base <$> serials s' = [COM1_IOBASE; COM2_IOBASE].
Proof. eexists. split; [vm_compute; reflexivity|]. split; vm_compute; reflexivity. Qed.
