(* ===== verification/Tty.v ===== *)
(** * The terminal as a device (src/kernel/tty.c, second half)

    Reading from the terminal is reading from the keyboard, writing to it is writing to the console:
    both go through the device table of Device.  What the terminal does with keys is in Keyboard. *)

From S2P Require Import Prelude Inode Keyboard Device.

Definition ENOSYS : Z := 38.
Definition DEV_KEYBOARD : Z := 2.
Definition DEV_TTY : Z := 4.

Definition sys_stty : Z := - ENOSYS.
Definition sys_gtty : Z := - ENOSYS.

Section tty.
Context {D : Type}.

Definition tty_read (tty : tty_t) (buf count : Z) : DM (D := D) Z := device_read (rdev tty) buf count 0 0.
Definition tty_write (tty : tty_t) (buf count : Z) : DM (D := D) Z := device_write (wdev tty) buf count 0 0.

(** [tty] is at address [p]; the table holds the operations [io], [rd] and [wr], which call the three
    functions. *)
Definition tty_init (p : Z) (tty : tty_t) (io : ioctl_fn) (rd wr : rw_fn) : DM (D := D) tty_t :=
  s ← get_st;
  i ← deref (device_find DEV_KEYBOARD 0 s);
  k ← at_slot i;
  j ← deref (device_find DEV_CONSOLE 0 s);
  c ← at_slot j;
  device_install DEV_CHAR DEV_TTY p [116; 116; 121] 0 (Some io) (Some rd) (Some wr);;
  mret (Tty (dev k) (dev c) (tty_pgid tty) true).

(** A device of the table. *)
Lemma find_slot sub idx i (s : devices D) : device_find sub idx s = Some i → 0 <= i ∧ ∃ d, device_list s !! Z.to_nat i = Some d ∧ subtype d = sub.
Proof.
  intros (l1 & d & l2 & E & Hd & -> & _)%find_loop_Some. split; [lia|]. exists d. rewrite E. split; [|done]. replace (Z.to_nat (0 + Z.of_nat (length l1))) with (length l1) by lia. by apply list_lookup_middle.
Qed.

Lemma at_slot_Ok i d (s : devices D) : 0 <= i → device_list s !! Z.to_nat i = Some d → at_slot i s = Ok (d, s).
Proof. intros Hi H. unfold at_slot. by rewrite (proj2 (zget_Ok _ _ _) (conj Hi H)). Qed.

Lemma get_Ok n i d (s : devices D) : installed n s → 1 <= i <= n → n <= 63 → device_list s !! Z.to_nat i = Some d → device_get i s = Ok (d, s).
Proof.
  intros [_ Ht _ _] Hi Hn H. unfold device_get. rewrite (st_bind_eq _ _ s () s) by (unfold sassert, DEVICE_NR; by rewrite (proj2 (Z.ltb_lt _ _)) by lia).
  rewrite (st_bind_eq _ _ _ _ _ (at_slot_Ok i d s ltac:(lia) H)). rewrite (st_bind_eq _ _ s () s); [done|]. unfold sassert. by rewrite (proj2 (Z.eqb_neq _ _) (Ht i d H Hi)).
Qed.

(** After the start the terminal is a device; reading from it is one call of the keyboard's read
    operation and writing to it one of the console's, with the pointers of those two devices. *)
Theorem tty_forwards n s p tty io rd wr i k rk j c wc buf count :
  installed n s → 0 <= n < 63 → device_find DEV_KEYBOARD 0 s = Some i → device_list s !! Z.to_nat i = Some k → Device.read k = Some rk →
  device_find DEV_CONSOLE 0 s = Some j → device_list s !! Z.to_nat j = Some c → Device.write c = Some wc → buf ≠ 0 → count ≠ 0 →
  ∃ t s', tty_init p tty io rd wr s = Ok (t, s') ∧ device_find DEV_TTY (matches DEV_TTY (take (Z.to_nat (n + 1)) (device_list s))) s' = Some (n + 1) ∧
    tty_read t buf count s' = on_machine (rk (ptr k) buf count 0 0) s' ∧ tty_write t buf count s' = on_machine (wc (ptr c) buf count 0 0) s'.
Proof.
  intros I Hn Fk Hk Hrk Fc Hc Hwc Hb Hcnt. destruct (find_slot _ _ _ _ Fk) as (Pi & k' & Hk' & Sk). rewrite Hk in Hk'. injection Hk' as <-. destruct (find_slot _ _ _ _ Fc) as (Pj & c' & Hc' & Sc). rewrite Hc in Hc'. injection Hc' as <-.
  assert (Ri : 1 <= i <= n). { destruct (decide (1 <= i <= n)) as [|Hx]; [done|]. destruct (in_free _ _ I i k Hk ltac:(lia)) as [_ E]. rewrite Sk in E. done. }
  assert (Rj : 1 <= j <= n). { destruct (decide (1 <= j <= n)) as [|Hx]; [done|]. destruct (in_free _ _ I j c Hc ltac:(lia)) as [_ E]. rewrite Sc in E. done. }
  pose proof (device_install_Ok n s DEV_CHAR DEV_TTY p [116; 116; 121] 0 (Some io) (Some rd) (Some wr) I ltac:(lia) ltac:(done) ltac:(done)) as HI. rewrite decide_False in HI by lia.
  destruct HI as (s' & d & E & I' & _ & _ & _ & _ & _ & _ & _ & _ & _ & _ & Ho & Ff & _). exists (Tty (dev k) (dev c) (tty_pgid tty) true), s'.
  rewrite (in_dev _ _ I i k Pi Hk), (in_dev _ _ I j c Pj Hc). split; [|split; [done|]].
  - unfold tty_init. rewrite (st_bind_eq _ _ s s s) by done. rewrite Fk, Fc. rewrite (st_bind_eq _ _ s i s) by done. rewrite (st_bind_eq _ _ _ _ _ (at_slot_Ok i k s Pi Hk)). rewrite (st_bind_eq _ _ s j s) by done.
    rewrite (st_bind_eq _ _ _ _ _ (at_slot_Ok j c s Pj Hc)). rewrite (st_bind_eq _ _ _ _ _ E). by rewrite (in_dev _ _ I i k Pi Hk), (in_dev _ _ I j c Pj Hc).
  - rewrite <- (Ho i) in Hk by lia. rewrite <- (Ho j) in Hc by lia. unfold tty_read, tty_write, device_read, device_write. cbn [rdev wdev].
    rewrite (proj2 (Z.eqb_neq buf 0) Hb), (proj2 (Z.eqb_neq count 0) Hcnt). cbn [orb]. rewrite (st_bind_eq _ _ _ _ _ (get_Ok (n + 1) i k s' I' ltac:(lia) ltac:(lia) Hk)), Hrk.
    split; [done|]. by rewrite (st_bind_eq _ _ _ _ _ (get_Ok (n + 1) j c s' I' ltac:(lia) ltac:(lia) Hc)), Hwc.
Qed.
End tty.

(** ** Witness: a machine that lists what its devices are asked for *)

Definition asked : Type := list (Z * Z * Z).
Definition asking (who : Z) : @rw_fn asked := λ p buf count _ _ s, Ok (count, s ++ [(who, buf, count)]).
Definition two_devices : devices asked :=
  match (device_install DEV_CHAR DEV_CONSOLE 11 [99] 0 None None (Some (asking 1));; device_install DEV_CHAR DEV_KEYBOARD 22 [107] 0 None (Some (asking 2)) None) (device_init []) with Ok (_, s) => s | Stop _ => device_init [] end.

Lemma two_installed : installed 2 two_devices.
Proof.
  pose proof (device_install_Ok 0 (device_init ([] : asked)) DEV_CHAR DEV_CONSOLE 11 [99] 0 None None (Some (asking 1)) (device_init_installed _) ltac:(lia) ltac:(done) ltac:(done)) as H1. rewrite decide_False in H1 by lia.
  destruct H1 as (s1 & d1 & E1 & I1 & _). change (0 + 1) with 1 in *.
  pose proof (device_install_Ok 1 s1 DEV_CHAR DEV_KEYBOARD 22 [107] 0 None (Some (asking 2)) None I1 ltac:(lia) ltac:(done) ltac:(done)) as H2. rewrite decide_False in H2 by lia.
  destruct H2 as (s2 & d2 & E2 & I2 & _). unfold two_devices. rewrite (st_bind_eq _ _ _ _ _ E1), E2. exact I2.
Qed.

Lemma tty_forwards_witness : ∃ t s', tty_init 33 (Tty 0 0 0 false) (λ _ _ _ _ s, Ok (0, s)) (asking 3) (asking 4) two_devices = Ok (t, s') ∧ machine s' = [] ∧
  tty_write t 4096 5 s' = on_machine (asking 1 11 4096 5 0 0) s'.
Proof.
  destruct (tty_forwards 2 two_devices 33 (Tty 0 0 0 false) (λ _ _ _ _ s, Ok (0, s)) (asking 3) (asking 4) 2 (Device [107] DEV_CHAR DEV_KEYBOARD 2 0 22 [] DIRECT_UP None (Some (asking 2)) None) (asking 2)
    1 (Device [99] DEV_CHAR DEV_CONSOLE 1 0 11 [] DIRECT_UP None None (Some (asking 1))) (asking 1) 4096 5 two_installed ltac:(lia)) as (t & s' & E & _ & _ & W); try reflexivity; try discriminate.
  exists t, s'. split; [exact E|]. split; [|exact W]. apply (f_equal (λ r : res (tty_t * devices asked), match r with Ok (_, s) => machine s | Stop _ => [] end)) in E. rewrite <- E. reflexivity.
Defined.
