(* ===== verification/BootInfo.v ===== *)
(** * What the boot loader reports (memory_init of src/kernel/memory.c, src/include/lightos/multiboot2.h)

    The first half of [memory_init]: the memory regions read from the table of the own loader or
    from the tags of a multiboot loader.  The second half, the choice of a region, is in Pages. *)

From stdpp Require Import gmap.
From S2P Require Import Prelude KString Args Pages.

Definition LIGHTOS_MAGIC : Z := 0x20240522.
Definition MULTIBOOT2_MAGIC : Z := 0x36d76289.
Definition MULTIBOOT_TAG_TYPE_END : Z := 0.
Definition MULTIBOOT_TAG_TYPE_MMAP : Z := 6.
Definition sizeof_ards : Z := 20.

Definition ld64 (p : Z) : KString.M Z := lo ← ld32 p; hi ← ld32 (p + 4); mret (lo + 4294967296 * hi).

(** A region at [p], as [ards_t] and as [multi_mmap_entry_t]. *)
Definition ld_region (p : Z) : KString.M region := b ← ld64 p; s ← ld64 (p + 8); t ← ld32 (p + 16); mret (Region b s t).

Fixpoint ards_loop (count : nat) (ptr : Z) : KString.M (list region) :=
  match count with
  | O => mret []
  | S count => r ← ld_region ptr; l ← ards_loop count (ptr + sizeof_ards); mret (r :: l)
  end.

Section multiboot.
Context (fuel : nat).

(** The loop over the tags answers the tag it stops at. *)
Fixpoint tag_loop (fuel : nat) (tag : Z) : KString.M Z :=
  match fuel with
  | O => stop_st NoFuel
  | S fuel =>
      type ← ld32 tag;
      if type =? MULTIBOOT_TAG_TYPE_END then mret tag
      else if type =? MULTIBOOT_TAG_TYPE_MMAP then mret tag
      else size ← ld32 (tag + 4); tag_loop fuel (u32 (tag + Z.land (u32 (size + 7)) (Z.lnot 7)))
  end.

Fixpoint map_loop (fuel : nat) (tag entry : Z) : KString.M (list region) :=
  match fuel with
  | O => stop_st NoFuel
  | S fuel =>
      size ← ld32 (tag + 4);
      if entry <? u32 (tag + size) then
        r ← ld_region entry;
        step ← ld32 (tag + 8);
        l ← map_loop fuel tag (u32 (entry + step));
        mret (r :: l)
      else mret []
  end.

(** The regions in the order in which [memory_init] looks at them. *)
Definition boot_regions (magic addr : Z) : KString.M (list region) :=
  if magic =? LIGHTOS_MAGIC then count ← ld32 addr; ards_loop (Z.to_nat count) (addr + 4)
  else if magic =? MULTIBOOT2_MAGIC then ld32 addr;; tag ← tag_loop fuel (addr + 8); map_loop fuel tag (tag + 16)
  else stop_st Panic.

Definition memory_init_at (magic addr : Z) (m : mem) : res frames := '(l, _) ← boot_regions magic addr m; memory_init l.
End multiboot.

(** ** What a loader puts into memory *)

Definition w64 (v : Z) : list Z := w32 (v mod 4294967296) ++ w32 (v / 4294967296).
Definition region_image (r : region) : list Z := w64 (r_base r) ++ w64 (r_size r) ++ w32 (r_type r).
Definition ards_image (l : list region) : list Z := w32 (Z.of_nat (length l)) ++ mjoin (region_image <$> l).

(** A tag with its contents, filled up to a multiple of eight. *)
Definition padding (n : nat) : nat := Z.to_nat ((- Z.of_nat n) mod 8).
Definition tag_image (t : Z * list Z) : list Z := w32 t.1 ++ w32 (Z.of_nat (8 + length t.2)) ++ t.2 ++ replicate (padding (length t.2)) 0.

(** The memory map: entries of [24 + extra] bytes. *)
Definition entry_image (extra : nat) (r : region) : list Z := region_image r ++ w32 0 ++ replicate extra 0.
Definition mmap_image (extra : nat) (l : list region) : list Z :=
  w32 MULTIBOOT_TAG_TYPE_MMAP ++ w32 (Z.of_nat (16 + length l * (24 + extra))) ++ w32 (Z.of_nat (24 + extra)) ++ w32 0 ++ mjoin (entry_image extra <$> l).
Definition multiboot_image (total extra : nat) (tags : list (Z * list Z)) (l : list region) : list Z :=
  w32 (Z.of_nat total) ++ w32 0 ++ mjoin (tag_image <$> tags) ++ mmap_image extra l.

Definition wf_region (r : region) : Prop := 0 <= r_base r < 18446744073709551616 ∧ 0 <= r_size r < 18446744073709551616 ∧ 0 <= r_type r < 4294967296.
Definition other_tag (t : Z * list Z) : Prop := 0 < t.1 < 4294967296 ∧ t.1 ≠ MULTIBOOT_TAG_TYPE_MMAP.

Lemma length_region_image r : length (region_image r) = 20%nat.
Proof. unfold region_image, w64. by rewrite !length_app, !length_w32. Qed.

Lemma length_tag_image t : Z.of_nat (length (tag_image t)) = Z.land (Z.of_nat (8 + length t.2) + 7) (Z.lnot 7).
Proof.
  unfold tag_image, padding. rewrite !length_app, !length_w32, length_replicate. set (n := length t.2). pose proof (Z.mod_pos_bound (- Z.of_nat n) 8 ltac:(lia)).
  rewrite !Nat2Z.inj_add, Z2Nat.id by lia. change 7 with (Z.ones 3). rewrite <- Z.ldiff_land, Z.ldiff_ones_r by lia. rewrite Z.shiftl_mul_pow2, Z.shiftr_div_pow2 by lia. change (2 ^ 3) with 8.
  change (Z.ones 3) with 7. pose proof (Z.div_mod (Z.of_nat 8 + Z.of_nat n + 7) 8 ltac:(lia)). pose proof (Z.mod_pos_bound (Z.of_nat 8 + Z.of_nat n + 7) 8 ltac:(lia)).
  pose proof (Z.div_mod (- Z.of_nat n) 8 ltac:(lia)). lia.
Qed.

Lemma ld64_Ok m p v : bytes_at m p (w64 v) → 0 <= v < 18446744073709551616 → ld64 p m = Ok (v, m).
Proof.
  intros [H1 H2]%bytes_at_app Hv. rewrite length_w32 in H2. pose proof (Z.mod_pos_bound v 4294967296 ltac:(lia)). unfold ld64.
  rewrite (st_bind_eq _ _ _ _ _ (ld32_Ok _ _ _ H1 ltac:(lia))). rewrite (st_bind_eq _ _ _ _ _ (ld32_Ok _ _ _ H2 ltac:(split; [apply Z.div_pos; lia|apply Z.div_lt_upper_bound; lia]))).
  unfold mret, st_ret. do 2 f_equal. pose proof (Z.div_mod v 4294967296 ltac:(lia)). lia.
Qed.

Lemma ld_region_Ok m p r : bytes_at m p (region_image r) → wf_region r → ld_region p m = Ok (r, m).
Proof.
  intros H (Hb & Hs & Ht). unfold region_image in H. apply bytes_at_app in H as [H1 H]. apply bytes_at_app in H as [H2 H3]. unfold w64 in H2, H3. rewrite !length_app, !length_w32 in *.
  unfold ld_region. rewrite (st_bind_eq _ _ _ _ _ (ld64_Ok _ _ _ H1 Hb)), (st_bind_eq _ _ _ _ _ (ld64_Ok _ _ _ H2 Hs)). replace (p + Z.of_nat (4 + 4) + Z.of_nat (4 + 4)) with (p + 16) in H3 by lia.
  rewrite (st_bind_eq _ _ _ _ _ (ld32_Ok _ _ _ H3 Ht)). by destruct r.
Qed.

Lemma ards_loop_Ok m l : ∀ p, bytes_at m p (mjoin (region_image <$> l)) → Forall wf_region l → ards_loop (length l) p m = Ok (l, m).
Proof.
  induction l as [|r l IH]; intros p H Hw; [done|]. apply Forall_cons in Hw as [Hr Hw]. change (mjoin (region_image <$> r :: l)) with (region_image r ++ mjoin (region_image <$> l)) in H. apply bytes_at_app in H as [H1 H2]. rewrite length_region_image in H2.
  cbn [ards_loop length]. rewrite (st_bind_eq _ _ _ _ _ (ld_region_Ok _ _ _ H1 Hr)). by rewrite (st_bind_eq _ _ _ _ _ (IH _ H2 Hw)).
Qed.

Lemma tag_step m p t rest : bytes_at m p (tag_image t ++ rest) → other_tag t → 0 <= p → p + Z.of_nat (length (tag_image t)) < 4294967296 →
  ld32 p m = Ok (t.1, m) ∧ ld32 (p + 4) m = Ok (Z.of_nat (8 + length t.2), m) ∧ u32 (p + Z.land (u32 (Z.of_nat (8 + length t.2) + 7)) (Z.lnot 7)) = p + Z.of_nat (length (tag_image t)).
Proof.
  intros [H _]%bytes_at_app [Ht _] Hp Hb. pose proof (length_tag_image t) as Hl. unfold tag_image in H, Hb. apply bytes_at_app in H as [H1 H]. apply bytes_at_app in H as [H2 _]. rewrite length_w32 in H2.
  rewrite !length_app, !length_w32, length_replicate in Hb. assert (Hn : (length t.2 + padding (length t.2) <= length t.2 + 7)%nat).
  { unfold padding. pose proof (Z.mod_pos_bound (- Z.of_nat (length t.2)) 8 ltac:(lia)). lia. }
  assert (Hs : Z.of_nat (8 + length t.2) + 7 < 4294967296 + 8) by lia.
  split; [apply ld32_Ok; [done|lia]|]. split; [apply ld32_Ok; [done|lia]|].
  destruct (Z.ltb_spec (Z.of_nat (8 + length t.2) + 7) 4294967296) as [Hlt|Hge].
  - rewrite (u32_small (_ + 7)) by lia. rewrite <- Hl. apply u32_small. split; [lia|]. unfold tag_image. rewrite !length_app, !length_w32, length_replicate. lia.
  - exfalso. unfold padding in Hb. pose proof (Z.div_mod (- Z.of_nat (length t.2)) 8 ltac:(lia)). pose proof (Z.mod_pos_bound (- Z.of_nat (length t.2)) 8 ltac:(lia)). lia.
Qed.

(** The loop passes the tags that are neither the map nor the end and stops at the next. *)
Lemma tag_loop_stops m tags ty rest : ty = MULTIBOOT_TAG_TYPE_END ∨ ty = MULTIBOOT_TAG_TYPE_MMAP → ∀ fuel p, bytes_at m p (mjoin (tag_image <$> tags) ++ w32 ty ++ rest) → Forall other_tag tags → 0 <= p →
  p + Z.of_nat (length (mjoin (tag_image <$> tags))) < 4294967296 → (length tags < fuel)%nat → tag_loop fuel p m = Ok (p + Z.of_nat (length (mjoin (tag_image <$> tags))), m).
Proof.
  intros Hty. induction tags as [|t tags IH]; intros [|fuel] p H Ho Hp Hb Hf; try (cbn in Hf; lia); cbn [tag_loop].
  - cbn in H |- *. apply (bytes_at_app m p (w32 _)) in H as [H _]. rewrite (st_bind_eq _ _ _ _ _ (ld32_Ok _ _ _ H ltac:(by destruct Hty as [-> | ->]))). destruct Hty as [-> | ->]; cbn; by rewrite Z.add_0_r.
  - apply Forall_cons in Ho as [Ht Ho]. change (mjoin (tag_image <$> t :: tags)) with (tag_image t ++ mjoin (tag_image <$> tags)) in *. rewrite length_app, Nat2Z.inj_add in Hb |- *. rewrite <- app_assoc in H.
    destruct (tag_step m p t _ H Ht Hp ltac:(lia)) as (E1 & E2 & E3). rewrite (st_bind_eq _ _ _ _ _ E1). destruct Ht as [Ht1 Ht2]. unfold MULTIBOOT_TAG_TYPE_END. rewrite (proj2 (Z.eqb_neq _ 0)), (proj2 (Z.eqb_neq _ _) Ht2) by lia.
    rewrite (st_bind_eq _ _ _ _ _ E2), E3. apply bytes_at_app in H as [_ H]. refine (eq_trans (IH fuel _ H Ho _ _ _) _); [lia|lia|cbn in Hf; lia|do 2 f_equal; lia].
Qed.

Lemma map_loop_Ok m tag extra size l : ld32 (tag + 4) m = Ok (size, m) → ld32 (tag + 8) m = Ok (Z.of_nat (24 + extra), m) → 0 <= tag → tag + size < 4294967296 → 0 <= size →
  ∀ fuel e, bytes_at m e (mjoin (entry_image extra <$> l)) → Forall wf_region l → 0 <= e → e + Z.of_nat (length l * (24 + extra)) = tag + size → (length l < fuel)%nat → map_loop fuel tag e m = Ok (l, m).
Proof.
  intros E1 E2 H1 H2 H3. induction l as [|r l IH]; intros [|fuel] e H Hw He Hs Hf; try (cbn in Hf; lia); cbn [map_loop]; rewrite (st_bind_eq _ _ _ _ _ E1), u32_small by lia.
  - rewrite (proj2 (Z.ltb_ge _ _)) by (cbn in Hs; lia). done.
  - rewrite (proj2 (Z.ltb_lt _ _)) by (cbn in Hs; lia). apply Forall_cons in Hw as [Hr Hw]. change (mjoin (entry_image extra <$> r :: l)) with (entry_image extra r ++ mjoin (entry_image extra <$> l)) in H. apply bytes_at_app in H as [Ha H].
    assert (Hl : length (entry_image extra r) = (24 + extra)%nat) by (unfold entry_image; rewrite !length_app, length_region_image, length_w32, length_replicate; lia). rewrite Hl in H.
    unfold entry_image in Ha. apply bytes_at_app in Ha as [Ha _]. rewrite (st_bind_eq _ _ _ _ _ (ld_region_Ok _ _ _ Ha Hr)), (st_bind_eq _ _ _ _ _ E2), u32_small by (cbn in Hs; lia).
    by rewrite (st_bind_eq _ _ _ _ _ (IH fuel _ H Hw ltac:(lia) ltac:(cbn [length] in Hs; lia) ltac:(cbn in Hf; lia))).
Qed.

Lemma length_mmap_entries extra l : length (mjoin (entry_image extra <$> l)) = (length l * (24 + extra))%nat.
Proof. induction l as [|r l IH]; [done|]. change (mjoin (entry_image extra <$> r :: l)) with (entry_image extra r ++ mjoin (entry_image extra <$> l)). cbn [length]. rewrite length_app, IH. unfold entry_image. rewrite !length_app, length_region_image, length_w32, length_replicate. lia. Qed.

(** The kernel reads exactly the regions a multiboot loader has put into its memory map, whatever
    tags stand before the map and however long its entries are. *)
Theorem multiboot_map_read m addr total extra tags l fuel :
  bytes_at m addr (multiboot_image total extra tags l) → 0 <= addr → addr + Z.of_nat (length (multiboot_image total extra tags l)) < 4294967296 → Z.of_nat total < 4294967296 →
  Z.of_nat (24 + extra) < 4294967296 → Forall other_tag tags → Forall wf_region l → (length tags < fuel)%nat → (length l < fuel)%nat →
  boot_regions fuel MULTIBOOT2_MAGIC addr m = Ok (l, m).
Proof.
  intros H Ha Hb Ht Hx Ho Hw Hf1 Hf2. unfold multiboot_image in H, Hb. apply bytes_at_app in H as [H0 H]. apply bytes_at_app in H as [_ H]. rewrite !length_w32 in H. replace (addr + Z.of_nat 4 + Z.of_nat 4) with (addr + 8) in H by lia.
  rewrite !length_app, !length_w32 in Hb. unfold boot_regions. change (MULTIBOOT2_MAGIC =? LIGHTOS_MAGIC) with false. rewrite Z.eqb_refl. rewrite (st_bind_eq _ _ _ _ _ (ld32_Ok _ _ _ H0 ltac:(lia))).
  pose proof H as H'. unfold mmap_image in H'. rewrite (st_bind_eq _ _ _ _ _ (tag_loop_stops m tags _ _ (or_intror eq_refl) fuel (addr + 8) H' Ho ltac:(lia) ltac:(lia) Hf1)). set (tag := addr + 8 + _).
  apply bytes_at_app in H as [_ H]. fold tag in H. unfold mmap_image in H, Hb. rewrite !length_app, !length_w32, length_mmap_entries in Hb. set (size := Z.of_nat (16 + length l * (24 + extra))) in *.
  apply bytes_at_app in H as [_ H]. apply bytes_at_app in H as [H1 H]. apply bytes_at_app in H as [H2 H]. apply bytes_at_app in H as [_ H]. rewrite !length_w32 in *.
  replace (tag + Z.of_nat 4 + Z.of_nat 4) with (tag + 8) in H2 by lia. replace (tag + Z.of_nat 4 + Z.of_nat 4 + Z.of_nat 4 + Z.of_nat 4) with (tag + 16) in H by lia.
  apply (map_loop_Ok m tag extra size l); try done; try lia; apply ld32_Ok; first [done|lia].
Qed.

(** Without a memory map, the end of the tags is read as one without entries, and the kernel stops. *)
Theorem no_map_panics m addr total tags fuel :
  bytes_at m addr (w32 (Z.of_nat total) ++ w32 0 ++ mjoin (tag_image <$> tags) ++ w32 MULTIBOOT_TAG_TYPE_END ++ w32 8) → 0 <= addr → Z.of_nat total < 4294967296 →
  addr + 24 + Z.of_nat (length (mjoin (tag_image <$> tags))) < 4294967296 → Forall other_tag tags → (length tags < fuel)%nat →
  memory_init_at fuel MULTIBOOT2_MAGIC addr m = Stop Panic.
Proof.
  intros H Ha Ht Hb Ho Hf. apply bytes_at_app in H as [H0 H]. apply bytes_at_app in H as [_ H]. rewrite !length_w32 in H. replace (addr + Z.of_nat 4 + Z.of_nat 4) with (addr + 8) in H by lia.
  unfold memory_init_at, boot_regions. change (MULTIBOOT2_MAGIC =? LIGHTOS_MAGIC) with false. rewrite Z.eqb_refl. rewrite (st_bind_eq _ _ _ _ _ (ld32_Ok _ _ _ H0 ltac:(lia))).
  rewrite (st_bind_eq _ _ _ _ _ (tag_loop_stops m tags _ _ (or_introl eq_refl) fuel (addr + 8) H Ho ltac:(lia) ltac:(lia) Hf)). set (tag := addr + 8 + _).
  apply bytes_at_app in H as [_ H]. apply (bytes_at_app m _ (w32 _)) in H as [_ H]. rewrite length_w32 in H. fold tag in H. change (Z.of_nat 4) with 4 in H. destruct fuel as [|fuel]; [lia|]. cbn [map_loop].
  rewrite (st_bind_eq _ _ _ _ _ (ld32_Ok _ _ _ H ltac:(lia))), u32_small by (unfold tag; lia). rewrite (proj2 (Z.ltb_ge _ _)) by lia. reflexivity.
Qed.

(** The table of the own loader. *)
Theorem loader_table_read m addr l fuel :
  bytes_at m addr (ards_image l) → Z.of_nat (length l) < 4294967296 → Forall wf_region l → boot_regions fuel LIGHTOS_MAGIC addr m = Ok (l, m).
Proof.
  intros [H1 H2]%bytes_at_app Hl Hw. rewrite length_w32 in H2. unfold boot_regions. rewrite Z.eqb_refl. rewrite (st_bind_eq _ _ _ _ _ (ld32_Ok _ _ _ H1 ltac:(lia))). rewrite Nat2Z.id. by apply ards_loop_Ok.
Qed.

(** ** Witnesses *)

Definition pc_memory : list region := [Region 0 654336 1; Region 0x100000 0x1FE0000 1; Region 4294705152 262144 2].
Definition grub_tags : list (Z * list Z) := [(1, [113; 117; 105; 101; 116]); (4, replicate 8 0)].
Definition grub_store : mem := write 0x10000 (multiboot_image 160 0 grub_tags pc_memory) ∅.

Lemma chars_by_test l : forallb (λ c, (-128 <=? c) && (c <? 128)) l = true → Forall is_char l.
Proof. intros H. apply Forall_forall. intros c Hc. rewrite forallb_forall in H. apply list_elem_of_In in Hc. specialize (H c Hc). unfold is_char. lia. Qed.

Lemma multiboot_map_read_witness : boot_regions 10 MULTIBOOT2_MAGIC 0x10000 grub_store = Ok (pc_memory, grub_store).
Proof.
  apply (multiboot_map_read grub_store 0x10000 160 0 grub_tags pc_memory 10).
  - apply write_bytes, chars_by_test. vm_compute. reflexivity.
  - lia.
  - vm_compute. reflexivity.
  - reflexivity.
  - reflexivity.
  - repeat constructor; discriminate.
  - repeat constructor; discriminate.
  - cbn. lia.
  - cbn. lia.
Defined.

Definition bare_store : mem := write 0x10000 (w32 16 ++ w32 0 ++ mjoin (tag_image <$> grub_tags) ++ w32 MULTIBOOT_TAG_TYPE_END ++ w32 8) ∅.
Lemma no_map_panics_witness : memory_init_at 10 MULTIBOOT2_MAGIC 0x10000 bare_store = Stop Panic.
Proof.
  apply (no_map_panics bare_store 0x10000 16 grub_tags 10).
  - apply write_bytes, chars_by_test. vm_compute. reflexivity.
  - lia.
  - reflexivity.
  - vm_compute. reflexivity.
  - repeat constructor; discriminate.
  - cbn. lia.
Defined.

Lemma loader_table_read_witness : ∃ m, boot_regions 0 LIGHTOS_MAGIC 0x7e00 m = Ok (pc_memory, m).
Proof.
  exists (write 0x7e00 (ards_image pc_memory) ∅). apply loader_table_read.
  - apply write_bytes, chars_by_test. vm_compute. reflexivity.
  - reflexivity.
  - repeat constructor; discriminate.
Defined.

(** From the loader's bytes to the page frames. *)
Lemma grub_memory_accepted : ∃ f, memory_init_at 10 MULTIBOOT2_MAGIC 0x10000 grub_store = Ok f ∧ (memory_base f, memory_size f, free_pages f) = (0x100000, 0x1FE0000, 0x1FE0).
Proof. eexists. split; [vm_compute; reflexivity|reflexivity]. Qed.
