(* ===== verification/DevFiles.v ===== *)
(** * Device files (src/fs/dev.c)

    At the start a file system is made on the first ramdisk and mounted on /dev, with a file for every
    device; the three standard descriptors are opened on the terminal.  The device table is that of
    Device, the calls are those of Files and Super. *)

From stdpp Require Import gmap.
From S2P Require Import Prelude KString Device Path Blocks Inode Bmap Namei Files Super Ide.

Definition DEV_KEYBOARD : Z := 2.
Definition DEV_SERIAL : Z := 3.
Definition DEV_TTY : Z := 4.
Definition IRUSR : Z := 256.
Definition IWUSR : Z := 128.
Definition subtype_list : list Z := [DEV_IDE_DISK; DEV_IDE_PART; Super.DEV_RAMDISK; DEV_SERIAL].

Definition slash_dev : list Z := [47; 100; 101; 118].
Definition in_dev (nm : list Z) : list Z := slash_dev ++ [47] ++ nm.
Definition t_console : list Z := [99; 111; 110; 115; 111; 108; 101].
Definition t_keyboard : list Z := [107; 101; 121; 98; 111; 97; 114; 100].
Definition t_tty : list Z := [116; 116; 121].
Definition t_stdin : list Z := [115; 116; 100; 105; 110].
Definition t_stdout : list Z := [115; 116; 100; 111; 117; 116].
Definition t_stderr : list Z := [115; 116; 100; 101; 114; 114].

Section devfiles.
Context `{Super.Devices} (fuel : nat) {D : Type} (table : devices D).

(** Where the texts of the function lie, one at a time or two for a link; and the number that stands
    behind [subtype_list] in the memory. *)
Context (text text2 behind : Z).

Definition lay_text (p : Z) (t : list Z) : FM unit := upd_user (copy_out p (t ++ [EOS])).
Definition found (sub idx : Z) : option (device_t D) := i ← device_find sub idx table; device_list table !! Z.to_nat i.

Definition mknod (nm : list Z) (mode d : Z) : FM unit := lay_text text (in_dev nm);; sys_mknod fuel text mode d;; mret ().
Definition link_tty (nm : list Z) : FM unit := lay_text text (in_dev t_tty);; lay_text text2 (in_dev nm);; sys_link fuel text text2;; mret ().

(** The loop over the devices: [mk] makes a file with a name, a mode and a device.  The array for
    the name has [NAMELEN] bytes. *)
Definition subtype_at (target : nat) : Z := default behind (subtype_list !! target).
Fixpoint node_loop (mk : list Z → Z → Z → FM unit) (fuel : nat) (target : nat) (i : Z) : FM unit :=
  match fuel with
  | O => stop_st NoFuel
  | S fuel =>
      match found (subtype_at target) i with
      | None => if (4 <? S target)%nat then mret () else node_loop mk fuel (S target) 0
      | Some d =>
          let i := i + 1 in
          if (subtype_at target =? Super.DEV_RAMDISK) && (i =? 0) then node_loop mk fuel target i
          else
            sassert (Z.of_nat (length (in_dev (name d))) <? NAMELEN);;
            mk (name d) (Z.lor (if subtype_at target =? DEV_SERIAL then IFCHR else IFBLK) (Z.lor IRUSR IWUSR)) (dev d);;
            node_loop mk fuel target i
      end
  end.

Definition make_nodes : FM unit := node_loop mknod 400 0 0.

(** A descriptor's inode, mode and flags. *)
Definition std_file (nm : list Z) (flags : Z) : FM (nat * Z * Z) :=
  lay_text text (in_dev nm);;
  o ← namei fuel text;
  i ← deref o;
  mode ← dget16 i MODE;
  mret (i, mode, flags).

(** The answer is what goes into the first three entries of [file_table]. *)
Definition dev_init : FM (list (nat * Z * Z)) :=
  lay_text text slash_dev;;
  sys_mkdir fuel text 493;;
  d ← deref (found Super.DEV_RAMDISK 0);
  devmkfs (dev d) 0;;
  o ← read_super (dev d);
  sb ← deref o;
  i ← iget (dev d) 1;
  upd_sb sb (set_iroot (Some i));;
  lay_text text slash_dev;;
  o ← namei fuel text;
  upd_sb sb (set_imount o);;
  m ← deref o;
  upd_inode m (set_mount (dev d));;
  c ← deref (found DEV_CONSOLE 0);
  mknod t_console (Z.lor IFCHR IWUSR) (dev c);;
  k ← deref (found DEV_KEYBOARD 0);
  mknod t_keyboard (Z.lor IFCHR IRUSR) (dev k);;
  t ← deref (found DEV_TTY 0);
  mknod t_tty (Z.lor IFCHR (Z.lor IRUSR IWUSR)) (dev t);;
  make_nodes;;
  link_tty t_stdout;;
  link_tty t_stderr;;
  link_tty t_stdin;;
  fin ← std_file t_stdin O_RDONLY;
  fout ← std_file t_stdout O_WRONLY;
  ferr ← std_file t_stderr O_WRONLY;
  mret [fin; fout; ferr].
End devfiles.

(** ** Which files are made *)

Section nodes.
Context {D : Type} (table : devices D) (behind : Z).
Context (mk : list Z → Z → Z → FM unit).

Definition of_subtype (sub : Z) : list (device_t D) := filter (λ d, subtype d = sub) (device_list table).
Definition node_of (target : nat) (d : device_t D) : list Z * Z * Z :=
  (name d, Z.lor (if subtype_at behind target =? DEV_SERIAL then IFCHR else IFBLK) (Z.lor IRUSR IWUSR), dev d).
Definition nodes_at (target : nat) : list (list Z * Z * Z) := node_of target <$> of_subtype (subtype_at behind target).
Fixpoint make_all (l : list (list Z * Z * Z)) : FM unit :=
  match l with [] => mret () | (nm, mode, d) :: l => mk nm mode d;; make_all l end.

Lemma bind_same {S A B} (m : ST S A) (f g : A → ST S B) s : (∀ a s', f a s' = g a s') → (m ≫= f) s = (m ≫= g) s.
Proof. intros E. unfold mbind, st_bind. destruct (m s) as [[a s']|]; [apply E|done]. Qed.

Lemma find_loop_filter sub idx (l : list (device_t D)) : ∀ pre nr, nr <= idx →
  (i ← find_loop l (Z.of_nat (length pre)) nr sub idx; (pre ++ l) !! Z.to_nat i) = filter (λ d : device_t D, subtype d = sub) l !! Z.to_nat (idx - nr).
Proof.
  induction l as [|d l IH]; intros pre nr Hn; [done|]. cbn [find_loop]. rewrite filter_cons.
  assert (E : ∀ nr, nr <= idx → (i ← find_loop l (Z.of_nat (length pre) + 1) nr sub idx; (pre ++ d :: l) !! Z.to_nat i) = filter (λ d : device_t D, subtype d = sub) l !! Z.to_nat (idx - nr)).
  { intros nr' Hn'. rewrite <- (IH (pre ++ [d]) nr' Hn'). rewrite length_app, Nat2Z.inj_add, <- app_assoc. done. }
  destruct (Z.eqb_spec (subtype d) sub) as [Hd|Hd]; [rewrite decide_True by done|rewrite decide_False by done; by apply E].
  destruct (Z.eqb_spec nr idx) as [->|Hne].
  - rewrite Z.sub_diag. cbn. rewrite Nat2Z.id. by apply list_lookup_middle.
  - rewrite E by lia. replace (Z.to_nat (idx - nr)) with (S (Z.to_nat (idx - (nr + 1)))) by lia. done.
Qed.

Lemma found_filter sub idx : 0 <= idx → found table sub idx = of_subtype sub !! Z.to_nat idx.
Proof. intros Hi. pose proof (find_loop_filter sub idx (device_list table) [] 0 Hi) as E. rewrite Z.sub_0_r in E. exact E. Qed.

(** The files still to be made, and the turns they take. *)
Definition to_make (target i : nat) : list (list Z * Z * Z) := drop i (nodes_at target) ++ mjoin (nodes_at <$> seq (S target) (4 - target)).
Definition turns (target i : nat) : nat := length (to_make target i) + (5 - target).

Definition short_names : Prop := Forall (λ d, (length (name d) <= 10)%nat) (device_list table).

Lemma node_loop_Ok (Hs : short_names) : ∀ fuel target i s, (target <= 4)%nat → (turns target i <= fuel)%nat →
  node_loop table behind mk fuel target (Z.of_nat i) s = make_all (to_make target i) s.
Proof.
  induction fuel as [|fuel IH]; intros target i s Ht Hf; [unfold turns in Hf; lia|]. cbn [node_loop]. rewrite found_filter, Nat2Z.id by lia.
  destruct (of_subtype _ !! i) as [d|] eqn:E.
  - rewrite (proj2 (Z.eqb_neq (Z.of_nat i + 1) 0)), andb_false_r by lia.
    assert (Hd : (length (name d) <= 10)%nat).
    { apply list_elem_of_lookup_2, list_elem_of_filter in E as [_ E]. by apply (proj1 (Forall_forall _ _) Hs). }
    rewrite (st_bind_eq _ _ s () s).
    2: { unfold sassert. replace (Z.of_nat (length (in_dev (name d))) <? NAMELEN) with true; [done|]. symmetry. apply Z.ltb_lt. unfold in_dev, NAMELEN. rewrite !length_app. cbn. lia. }
    assert (Em : to_make target i = node_of target d :: to_make target (S i)).
    { unfold to_make. rewrite (drop_S (nodes_at target) (node_of target d) i); [done|]. unfold nodes_at. by rewrite list_lookup_fmap, E. }
    rewrite Em. cbn [make_all node_of]. apply bind_same. intros [] s'. replace (Z.of_nat i + 1) with (Z.of_nat (S i)) by lia. apply IH; [done|]. unfold turns in *. rewrite Em in Hf. cbn in Hf. lia.
  - assert (Hd : drop i (nodes_at target) = []) by (apply drop_ge; unfold nodes_at; rewrite length_fmap; by apply lookup_ge_None_1).
    unfold turns, to_make in Hf |- *. rewrite Hd in Hf |- *. cbn [app] in Hf |- *. destruct (Nat.ltb_spec 4 (S target)) as [Hlt|Hge].
    + assert (target = 4%nat) as -> by lia. done.
    + change 0 with (Z.of_nat 0). replace (4 - target)%nat with (S (4 - S target)) in Hf |- * by lia. cbn [seq] in Hf |- *. rewrite fmap_cons in Hf |- *. set (rest := nodes_at <$> seq (S (S target)) (4 - S target)) in *.
      change (mjoin (nodes_at (S target) :: rest)) with (nodes_at (S target) ++ mjoin rest) in Hf |- *. rewrite (IH (S target) 0%nat s); unfold turns, to_make; rewrite ?drop_0; fold rest; [done|lia|lia].
Qed.

(** A file for every device of the listed subtypes, in the order of the table - the ramdisk that
    carries /dev among them -, and then for every device whose subtype happens to be the number
    that stands behind the list. *)
Theorem nodes_of_table s : short_names → length (device_list table) = 64%nat → node_loop table behind mk 400 0 0 s = make_all (mjoin (nodes_at <$> seq 0 5)) s.
Proof.
  intros Hs Hl. assert (Hn : ∀ t, (length (nodes_at t) <= 64)%nat) by (intros t; unfold nodes_at; rewrite length_fmap, <- Hl; apply length_filter).
  change 0 with (Z.of_nat 0). rewrite (node_loop_Ok Hs 400 0 0 s); [done|lia|]. unfold turns, to_make. rewrite drop_0.
  assert (Hj : ∀ l, (length (mjoin (nodes_at <$> l)) <= 64 * length l)%nat).
  { induction l as [|x l IH]; [done|]. change (mjoin (nodes_at <$> x :: l)) with (nodes_at x ++ mjoin (nodes_at <$> l)). rewrite length_app. specialize (Hn x). cbn [length]. lia. }
  rewrite length_app. specialize (Hn 0%nat). specialize (Hj (seq 1 (4 - 0))). cbn [length seq Nat.sub] in Hj |- *. lia.
Qed.
End nodes.

(** ** A start

    The file system of the example of Inode gets /dev on a small ramdisk; the table has a console, a
    keyboard, the terminal, a disk with a partition, the ramdisk and a serial port. *)
Section example.
Definition demo_device (nm : list Z) (sub d : Z) : device_t unit := Device nm 1 sub d 0 0 [] DIRECT_UP None None None.
Definition demo_table : devices unit := Device.Devices ([demo_device [110; 117; 108; 108] 0 0; demo_device t_console 1 1; demo_device t_keyboard 2 2; demo_device t_tty 4 5; demo_device [104; 100; 97] 5 3; demo_device [104; 100; 97; 49] 6 6;
  demo_device [109; 100; 48] 7 4; demo_device [99; 111; 109; 49] 3 7] ++ replicate 56 (demo_device [110; 117; 108; 108] 0 0)) tt.
#[local] Instance small_ramdisk : Super.Devices := {| find_dev := λ _ _, Some 3; sector_count := λ _, 80 |}.
Definition demo_start : fs :=
  Fs (list_to_map (((3, 2), clean 1 (at_offset 0 [15] zeros)) :: ((λ k, ((4, Z.of_nat k), clean 0 zeros)) <$> seq 0 40) ++ demo_blocks)) [demo_sb; free_super; free_super]
    ([demo_inode 1 5 0; demo_inode 2 1 32] ++ replicate 12 free_inode) (λ n, Z.of_nat n) (KString.write 700 (replicate 64 0) ∅) 0 0 18 0 0.

(** The three descriptors stand on the file of the terminal, device 5, which has four names; the file
    of the partition carries its device. *)
Definition after_start : FM (list (nat * Z * Z) * Z * Z * Z) :=
  l ← dev_init 64 demo_table 700 732 9; d ← dget16 4 (zone_at 0); n ← dget8 4 NLINKS;
  lay_text 700 (in_dev [104; 100; 97; 49]);; o ← namei 64 700; i ← deref o; h ← dget16 i (zone_at 0); mret (l, d, n, h).
Example demo_dev_init : answer (after_start demo_start) = Some ([(4%nat, 8576, 0); (4%nat, 8576, 1); (4%nat, 8576, 1)], 5, 4, 6).
Proof. vm_compute. reflexivity. Qed.

(** The files of the loop, and what is made when a zero stands behind the list: a file for each of
    the free places of the table, which are called null. *)
Lemma demo_short : short_names demo_table.
Proof. unfold short_names. apply (bool_decide_unpack _). vm_compute. exact I. Qed.
Lemma nodes_of_table_witness : node_loop demo_table 0 (λ nm m d, mret ()) 400 0 0 demo_start = Ok ((), demo_start) ∧
  (λ n : list Z * Z * Z, n.1.1) <$> mjoin (nodes_at demo_table 9 <$> seq 0 5) = [[104; 100; 97]; [104; 100; 97; 49]; [109; 100; 48]; [99; 111; 109; 49]] ∧
  length (mjoin (nodes_at demo_table 0 <$> seq 0 5)) = 61%nat.
Proof.
  split; [|split; vm_compute; reflexivity]. rewrite (nodes_of_table demo_table 0 (λ nm m d, mret ()) demo_start).
  - generalize (mjoin (nodes_at demo_table 0 <$> seq 0 5)). induction l as [|[[nm m] d] l IH]; [reflexivity|exact IH].
  - exact demo_short.
  - vm_compute. reflexivity.
Defined.
End example.
