(* ===== verification/Ls.v ===== *)
(** * ls (src/buildroot/ls.c)

    The directory is read once into a buffer of 1024 bytes, and with [-l] the texts of the mode and of
    the time are put together in the same buffer, over the entries already shown. *)

From Stdlib Require Import String.
From stdpp Require Import gmap.
From S2P Require Import Prelude KTime Vsprintf Blocks Files Args KString Ide Ata User Shell Programs.

Definition BUF_LEN : Z := 1024.
Definition MAX_CMD_LEN : Z := 256.
Definition NAME_LEN : Z := 14.
Definition sizeof_dirent : Z := 16.

(** What the program uses of [ls_stat]. *)
Record ls_stat := StatBuf { st_mode : Z; st_nlinks : Z; st_uid : Z; st_gid : Z; st_size : Z; st_mtime : Z }.
(** [stat] answers a structure, or a negative number. *)
Class Stats (W : Type) := { sys_stat : list Z → W → option ls_stat }.

Section ls.
Context {W : Type} `{System W} `{Stats W} (fuel : nat).
(** Where the two arrays of the program lie. *)
Context (buf cwd : Z).
Abbreviation PM := (ST (process (W := W))).

Definition show (fmt : string) (args : list arg) : PM unit := printf (chars fmt) args.

Definition ls_strftime (time : Z) : PM unit :=
  t ← lift_st (localtime time (Tm 0 0 0 0 0 0 0 0 0));
  sprintf buf (chars "%04d-%02d-%02d %02d:%02d:%02d") [AInt (u32 (tm_year t + 1900)); AInt (u32 (tm_mon t)); AInt (u32 (tm_mday t)); AInt (u32 (tm_hour t)); AInt (u32 (tm_min t)); AInt (u32 (tm_sec t))].

(** One entry at [p] with [-l]; the name is read again for the last line. *)
Definition long_entry (dir : list Z) (p : Z) : PM unit :=
  name ← on_memory (load_string fuel (p + 2));
  '(path, n, _) ← lift_st (text_of (chars "%s/%s") [AStr dir; AStr name]);
  if MAX_CMD_LEN + NAME_LEN <=? n then stop_st OutOfBounds
  else
    s ← get_st;
    match sys_stat path (world s) with
    | None => printf (chars "ls: error checking stat of %s" ++ [10]) [AStr name]
    | Some st =>
        on_memory (copy_out buf (parsemode (st_mode st) ++ [EOS]));;
        mode ← on_memory (load_string fuel buf);
        show "%s " [AStr mode];;
        ls_strftime (st_mtime st);;
        time ← on_memory (load_string fuel buf);
        name ← on_memory (load_string fuel (p + 2));
        printf (chars "% 2d %4d %4d %4d %s %s" ++ [10]) [AInt (st_nlinks st); AInt (st_uid st); AInt (st_gid st); AInt (st_size st); AStr time; AStr name]
    end.

Fixpoint dirent_loop (n : nat) (dir : list Z) (is_list is_first : bool) (p : Z) : PM unit :=
  match n with
  | O => mret ()
  | S n =>
      name ← on_memory (load_string fuel (p + 2));
      if bool_decide (name = chars ".") || bool_decide (name = chars "..") then dirent_loop n dir is_list is_first (p + sizeof_dirent)
      else
        nr ← on_memory (ld16 p);
        if nr =? 0 then dirent_loop n dir is_list is_first (p + sizeof_dirent)
        else if is_list then long_entry dir p;; dirent_loop n dir is_list is_first (p + sizeof_dirent)
        else
          (if is_first then show "%s" [AStr name] else show " %s" [AStr name]);;
          dirent_loop n dir is_list false (p + sizeof_dirent)
  end.

(** [readdir] is [read] for the kernel. *)
Definition list_dir (is_list : bool) (dir : list Z) : PM unit :=
  if bool_decide (head dir = Some 45) then mret ()
  else
    fd ← invoke (Open dir O_RDONLY 0);
    len ← read fd buf BUF_LEN;
    invoke (Close fd);;
    if len <? 0 then printf (chars "ls: error reading dir" ++ [10]) []
    else
      dirent_loop (Z.to_nat (len / sizeof_dirent)) dir is_list true buf;;
      (if is_list then mret () else printf [10] []).

Fixpoint list_dirs (is_list : bool) (l : list (list Z)) : PM unit := match l with [] => mret () | d :: l => list_dir is_list d;; list_dirs is_list l end.

Definition ls (argv : list (list Z)) : PM (option Z) :=
  let args := drop 1 argv in
  let is_list := existsb (λ a, bool_decide (a = chars "-l")) args in
  let is_pwd := forallb (λ a, bool_decide (a = chars "-l")) args in
  here ← (if is_pwd then getcwd cwd MAX_PATH_LEN;; s ← on_memory (load_string fuel cwd); mret [s] else mret []);
  list_dirs is_list (args ++ here);;
  mret (Some 0).
End ls.

(** ** A directory without [-l] *)

(** An entry as the directory file has it, and a name as it stands in one. *)
Definition dirent (e : Z * list Z) : list Z := enc16 e.1 ++ e.2 ++ replicate (14 - length e.2) 0.
Definition good_name (x : list Z) : Prop := Forall (λ c, 0 < c < 128) x ∧ (length x <= 13)%nat.
Definition good_entry (e : Z * list Z) : Prop := 0 <= e.1 < 65536 ∧ good_name e.2.

#[export] Instance good_entry_dec e : Decision (good_entry e).
Proof. unfold good_entry, good_name. apply _. Defined.

(** The names [ls] shows. *)
Definition visible (e : Z * list Z) : bool := negb (bool_decide (e.2 = chars ".") || bool_decide (e.2 = chars "..")) && negb (e.1 =? 0).
Definition names (l : list (Z * list Z)) : list (list Z) := snd <$> List.filter visible l.

Lemma length_dirent e : good_entry e → length (dirent e) = 16%nat.
Proof. intros [_ [_ Hl]]. unfold dirent, enc16. rewrite !length_app, length_replicate. cbn. lia. Qed.

Lemma dirent_bytes m p e : good_entry e → bytes_at m p (s8 <$> dirent e) → bytes_at m p (w16 e.1) ∧ str_at m (p + 2) e.2.
Proof.
  intros [Hn [Hc Hl]] H. unfold dirent in H. rewrite !fmap_app in H. apply bytes_at_app in H as [H1 H]. apply bytes_at_app in H as [H2 H3]. split.
  - unfold w16. unfold enc16 in H1. cbn in H1 |- *. destruct H1 as (A & B & _). rewrite A, B. split; [|split; [|done]]; f_equal; unfold s8; rewrite ?Zplus_mod_idemp_l; done.
  - cbn [length fmap list_fmap enc16] in *. rewrite length_fmap in H3. change (Z.of_nat 2) with 2 in *.
    assert (E : s8 <$> e.2 = e.2). { clear -Hc. induction Hc as [|c l Hc H IH]; [done|]. cbn. rewrite IH. f_equal. apply s8_small. lia. }
    rewrite E in H2. split.
    + apply bytes_at_app. split; [done|]. destruct (14 - length e.2)%nat eqn:Ek; [lia|]. cbn in H3. destruct H3 as [H3 _]. by split.
    + eapply Forall_impl; [exact Hc|]. cbn. unfold is_char, EOS. lia.
Qed.

Lemma entry_nr_Ok v m p : bytes_at m p (w16 v) → 0 <= v < 65536 → ld16 p m = Ok (v, m).
Proof.
  intros (B0 & B1 & _) Hv. unfold ld16. rewrite (st_bind_eq _ _ _ _ _ (ld_Ok _ _ _ B0)), (st_bind_eq _ _ _ _ _ (ld_Ok _ _ _ B1)), !u8_s8. unfold mret, st_ret, u8. do 2 f_equal.
  pose proof (Z.div_mod v 256 ltac:(lia)). rewrite (Z.mod_small (v / 256)); [lia|]. split; [apply Z.div_pos; lia|apply Z.div_lt_upper_bound; lia].
Qed.

Section listing.
Context {W : Type} `{System W} `{Stats W} `{!Screen (W := W)} (fuel : nat) (buf cwd : Z).

Lemma print_name pre x m w v w1 : Forall (λ c, c ≠ 37) pre → Z.of_nat (length (pre ++ x)) < 1024 → sys (Write STDOUT_FILENO (pre ++ x)) w = (v, w1) →
  printf (pre ++ [37; 115]) [AStr x] (Process m w) = Ok ((), Process m w1).
Proof.
  intros Hp Hl E. unfold printf, text_of, vsprintf. replace (S (length (pre ++ [37; 115]))) with (length pre + 3)%nat by (rewrite length_app; cbn; lia).
  rewrite plain_text by done. rewrite string_text. cbn [format_loop app].
  unfold lift_st, mbind, st_bind, mret, res_ret, res_bind. rewrite (proj2 (Z.ltb_lt _ 2048)) by lia. cbn. rewrite (proj2 (Z.ltb_lt _ 1024)) by lia. unfold invoke. cbn. by rewrite E.
Qed.

Definition spaced (l : list (list Z)) : list Z := mjoin ((λ x, 32 :: x) <$> l).
Lemma with_blanks_cons x l : with_blanks (x :: l) = x ++ spaced l.
Proof.
  revert x. induction l as [|y l IH]; intros x; [done|]. change (with_blanks (x :: y :: l)) with (x ++ [32] ++ with_blanks (y :: l)). rewrite IH. done.
Qed.

Lemma on_memory_Ok {A} (f : KString.M A) a m w : f m = Ok (a, m) → on_memory (W := W) f (Process m w) = Ok (a, Process m w).
Proof. intros E. unfold on_memory. cbn [memory]. by rewrite E. Qed.

Lemma names_cons e l : names (e :: l) = if visible e then e.2 :: names l else names l.
Proof. unfold names. cbn [List.filter]. by destruct (visible e). Qed.

Lemma dirent_loop_Ok dir m l : (14 <= fuel)%nat → ∀ first p w, bytes_at m p (s8 <$> mjoin (dirent <$> l)) → Forall good_entry l →
  ∃ w', dirent_loop fuel buf (length l) dir false first p (Process m w) = Ok ((), Process m w') ∧ seen w' = seen w ++ (if first then with_blanks (names l) else spaced (names l)).
Proof.
  intros Hf. induction l as [|e l IH]; intros first p w H3 Hl; [exists w; split; [done|]; destruct first; by rewrite app_nil_r|]. apply Forall_cons in Hl as [He Hl].
  change (mjoin (dirent <$> e :: l)) with (dirent e ++ mjoin (dirent <$> l)) in H3. rewrite fmap_app in H3. apply bytes_at_app in H3 as [Ha Hb]. rewrite length_fmap, length_dirent in Hb by done.
  destruct (dirent_bytes m p e He Ha) as [Hw Hs]. cbn [length dirent_loop]. rewrite (st_bind_eq _ _ _ _ _ (on_memory_Ok _ _ m w (load_string_Ok m e.2 fuel (p + 2) Hs ltac:(destruct He as [_ [_ ?]]; lia)))). 
  rewrite names_cons. unfold visible. change (p + sizeof_dirent) with (p + Z.of_nat 16). destruct (bool_decide (e.2 = chars ".") || bool_decide (e.2 = chars "..")); cbn [negb andb]; [by apply IH|].
  rewrite (st_bind_eq _ _ _ _ _ (on_memory_Ok _ _ m w (entry_nr_Ok e.1 m p Hw (proj1 He)))). destruct (e.1 =? 0); cbn [negb]; [by apply IH|].
  assert (Hn : Z.of_nat (length e.2) <= 13) by (destruct He as [_ [_ ?]]; lia). destruct first.
  - destruct (sees w e.2) as (v & w1 & E1 & S1). rewrite (st_bind_eq _ _ _ _ _ (print_name [] e.2 m w v w1 ltac:(done) ltac:(cbn; lia) E1)). destruct (IH false (p + Z.of_nat 16) w1 Hb Hl) as (w2 & E2 & S2).
    exists w2. split; [exact E2|]. rewrite S2, S1, <- app_assoc. f_equal. symmetry. apply with_blanks_cons.
  - destruct (sees w ([32] ++ e.2)) as (v & w1 & E1 & S1). rewrite (st_bind_eq _ _ _ _ _ (print_name [32] e.2 m w v w1 ltac:(by repeat constructor) ltac:(cbn; lia) E1)). destruct (IH false (p + Z.of_nat 16) w1 Hb Hl) as (w2 & E2 & S2).
    exists w2. split; [exact E2|]. rewrite S2, S1, <- app_assoc. done.
Qed.
End listing.

(** [ls] of a directory shows the names of the entries it has read, without the removed ones and the
    two that stand for the directory itself and the one above, and a line feed.  One read gives at
    most 64 entries: what stands behind them is not shown. *)
Theorem ls_shows_names {W} `{System W} `{Stats W} `{!Screen (W := W)} fuel buf cwd prog dir l m w w0 w1 w2 fd v :
  sys (Open dir O_RDONLY 0) w = (fd, w0) → sys_read fd BUF_LEN w0 = (Z.of_nat (16 * length l), mjoin (dirent <$> l), w1) → sys (Close fd) w1 = (v, w2) →
  dir ≠ chars "-l" → head dir ≠ Some 45 → Forall good_entry l → (length l <= 64)%nat → room m buf 1024 → (14 <= fuel)%nat →
  ∃ m' w', ls fuel buf cwd [prog; dir] (Process m w) = Ok (Some 0, Process m' w') ∧ seen w' = seen w2 ++ with_blanks (names l) ++ [10].
Proof.
  intros Eo Er Ec Hd Hh Hl Hn Hr Hf. assert (Hj : length (mjoin (dirent <$> l)) = (16 * length l)%nat).
  { clear -Hl. induction Hl as [|e l He Hl IH]; [done|]. change (mjoin (dirent <$> e :: l)) with (dirent e ++ mjoin (dirent <$> l)). rewrite length_app, length_dirent, IH by done. cbn [length]. lia. }
  set (image := mjoin (dirent <$> l)) in *. set (m' := KString.write buf image m).
  assert (Hb : bytes_at m' buf (s8 <$> image)) by (unfold m'; rewrite <- write_s8; apply write_bytes, Forall_fmap, Forall_forall; intros; apply s8_char).
  destruct (dirent_loop_Ok fuel buf dir m' l Hf true buf w2 Hb Hl) as (w3 & E3 & S3). destruct (sees w3 [10]) as (v4 & w4 & E4 & S4). exists m', w4. split; [|by rewrite S4, S3, <- app_assoc].
  unfold ls. cbn [drop existsb forallb]. rewrite bool_decide_false by done. cbn [orb andb]. rewrite st_ret_l. cbn [list_dirs app]. rewrite ?st_bind_assoc. unfold list_dir. rewrite bool_decide_false by done.
  eapply st_step; [eapply st_step; [unfold invoke; cbn [world]; by rewrite Eo|]; cbv beta|].
  { eapply st_step; [unfold read, set_world; cbn [world memory]; rewrite Er; rewrite copy_out_Ok by (apply (room_le _ _ _ _ Hr); lia); reflexivity|]. cbv beta.
    eapply st_step; [unfold invoke; cbn [world]; by rewrite Ec|]. cbv beta. rewrite (proj2 (Z.ltb_ge _ _)) by lia. unfold set_world. cbn [memory].
    replace (Z.to_nat (Z.of_nat (16 * length l) / sizeof_dirent)) with (length l).
    2: { unfold sizeof_dirent. rewrite Nat2Z.inj_mul, Z.mul_comm, Z.div_mul by done. by rewrite Nat2Z.id. }
    fold m'. st_go E3. cbn [negb]. exact (print_plain [10] m' w3 v4 w4 ltac:(by repeat constructor) ltac:(done) E4). }
  reflexivity.
Qed.

(** ** Witness and examples *)

#[export] Instance file_stats : Stats (list Z * list Z) := {| sys_stat := λ _ _, Some (StatBuf 33188 1 0 0 5 0) |}.
Definition small_dir : list (Z * list Z) := [(1, chars "."); (1, chars ".."); (4, chars "ab"); (0, chars "gone"); (5, chars "c")].
Definition dir_bytes (l : list (Z * list Z)) : list Z := mjoin (dirent <$> l).

Lemma small_dir_good : Forall good_entry small_dir.
Proof. apply (bool_decide_unpack _). vm_compute. exact I. Qed.

Lemma ls_shows_names_witness : ∃ m' w', ls 20 100 2000 [chars "ls"; chars "/d"] (Process (blank 100 1024) (dir_bytes small_dir, [])) = Ok (Some 0, Process m' w') ∧ w'.2 = chars "ab c" ++ [10].
Proof.
  destruct (ls_shows_names 20 100 2000 (chars "ls") (chars "/d") small_dir (blank 100 1024) (dir_bytes small_dir, []) (dir_bytes small_dir, []) ([], []) ([], []) 3 0) as (m' & w' & E & S).
  - reflexivity.
  - reflexivity.
  - reflexivity.
  - discriminate.
  - discriminate.
  - exact small_dir_good.
  - cbn. lia.
  - exact (blank_room 100 1024).
  - lia.
  - exists m', w'. split; [exact E|exact S].
Defined.

(** What the screen shows. *)
Definition shown_by (args : list (list Z)) (l : list (Z * list Z)) : list Z :=
  match ls 20 100 2000 (chars "ls" :: args) (Process (blank 100 1024) (dir_bytes l, [])) with Ok (_, s) => (world s).2 | Stop _ => [] end.

Example long_listing : shown_by [chars "-l"; chars "/d"] small_dir =
  chars "-rwxr-xr-x  1    0    0    5 1970-01-02 00:00:00 ab" ++ [10] ++ chars "-rwxr-xr-x  1    0    0    5 1970-01-02 00:00:00 c" ++ [10].
Proof. vm_compute. reflexivity. Qed.

(** The time of the entry is written over the first entries: it is shown in place of the name of an
    entry that stands first. *)
Example first_entry_overwritten : shown_by [chars "-l"; chars "/d"] [(4, chars "ab")] =
  chars "-rwxr-xr-x  1    0    0    5 1970-01-02 00:00:00 70-01-02 00:00:00" ++ [10].
Proof. vm_compute. reflexivity. Qed.
