(* ===== verification/Diag.v ===== *)
(** * Messages (src/lib/print.c, debug.c, src/kernel/assert.c, src/lib/assert.c)

    A message is formatted into a buffer of the kernel and written to a device; the machine behind
    the device table is the memory and what the drivers keep.  A failed assertion prints and
    hangs. *)

From Stdlib Require Import String.
From stdpp Require Import gmap.
From S2P Require Import Prelude Console Vsprintf Device Inode Files Args KString User.

Section diag.
Context {E : Type}.
Abbreviation PM := (DM (D := mem * E)).

(** The buffers of print.c (2048 bytes), debug.c and assert.c (1024 bytes each). *)
Context (print_buf debug_buf panic_buf : Z).

Definition on_bytes {A} (m : KString.M A) : PM A := on_machine (λ s, '(a, c) ← m s.1; Ok (a, (c, s.2))).

(** [vsprintf] into a buffer: the text, then its number of characters. *)
Definition print_into (buf : Z) (fmt : list Z) (args : list User.arg) : PM Z :=
  '(text, cnt, _) ← lift_st (text_of fmt args);
  on_bytes (copy_out buf (text ++ [EOS]));;
  mret cnt.

Definition find_or_panic (sub : Z) : PM Z := s ← get_st; match device_find sub 0 s with Some i => mret i | None => stop_st Panic end.

Definition printk (fmt : list Z) (args : list User.arg) : PM Z :=
  on_bytes (memset print_buf 0 2048);;
  cnt ← print_into print_buf fmt args;
  i ← find_or_panic DEV_CONSOLE;
  d ← at_slot i;
  device_write (dev d) print_buf cnt 0 0;;
  mret cnt.

(** [debug_output_device] is found once: the state of the variable comes and goes. *)
Definition DEV_SERIAL : Z := 3.
Definition debugk (output : option Z) (file : list Z) (line : Z) (fmt : list Z) (args : list User.arg) : PM (option Z) :=
  i ← (match output with Some i => mret i | None => find_or_panic DEV_SERIAL end);
  d ← at_slot i;
  cnt ← print_into debug_buf (chars "[DEBUG] [%s:%d]: ") [AStr file; AInt (u32 line)];
  device_write (dev d) debug_buf cnt 0 0;;
  cnt ← print_into debug_buf fmt args;
  device_write (dev d) debug_buf cnt 0 0;;
  mret (Some i).

(** Both end in [spin], which never returns. *)
Definition spin (nm : list Z) : PM unit := printk (chars "spinning in %s ..." ++ [10]) [AStr nm];; stop_st NoFuel.
Definition assertion_failure (exp file : list Z) (base line : Z) : PM unit :=
  printk (chars "[assert] -->assert failed!!!" ++ [10] ++ chars "--> assert(%s) " ++ [10] ++ chars "--> file: %s " ++ [10] ++ chars "--> base: 0x%x " ++ [10] ++ chars "--> line: %d " ++ [10])
    [AStr exp; AStr file; AInt (u32 base); AInt (u32 line)];;
  spin (chars "assertion_failure()").
Fixpoint text_at (fuel : nat) (p : Z) : KString.M (list Z) :=
  match fuel with O => stop_st NoFuel | S fuel => c ← ld p; if c =? EOS then mret [] else l ← text_at fuel (p + 1); mret (c :: l) end.
Definition panic (fmt : list Z) (args : list User.arg) : PM unit :=
  print_into panic_buf fmt args;;
  s ← on_bytes (text_at 2048 panic_buf);
  printk (chars "[panic] --> %s " ++ [10]) [AStr s];;
  spin (chars "panic()").
End diag.

Lemma text_length fmt args text cnt cs : text_of fmt args = Ok (text, cnt, cs) → cnt = Z.of_nat (length text) ∧ cnt < 2048.
Proof.
  unfold text_of, vsprintf. destruct (format_loop _ _ _ _ _ _ _ _ _) as [[out counts]|]; [|done]. cbn. destruct (Z.ltb_spec (Z.of_nat (length out)) 2048); [|done]. cbn. intros [= -> <- _]. done.
Qed.

(** ** Messages on the console *)

(** What the console's entry of the device table does: the characters at [buf] are written. *)
Fixpoint load_chars (n : nat) (p : Z) : KString.M (list Z) := match n with O => mret [] | S n => c ← ld p; l ← load_chars n (p + 1); mret (c :: l) end.
Definition console_fn : rw_fn (D := mem * Console.world) := λ _ buf count _ _ s,
  '(l, c) ← load_chars (Z.to_nat count) buf s.1; '(r, w) ← console_write l s.2; Ok (r, (c, w)).

Lemma load_chars_Ok m l : ∀ p, bytes_at m p l → load_chars (length l) p m = Ok (l, m).
Proof. induction l as [|c l IH]; intros p H; [done|]. destruct H as [Hc H]. cbn [load_chars length]. by rewrite (st_bind_eq _ _ _ _ _ (ld_Ok _ _ _ Hc)), (st_bind_eq _ _ _ _ _ (IH _ H)). Qed.

Section console.
Context (table : list (device_t (mem * Console.world))).
Abbreviation kernel := (Devices (mem * Console.world)).

Lemma on_bytes_Ok {A} (f : KString.M A) a m m' (w : Console.world) : f m = Ok (a, m') → on_bytes f (Device.Devices table (m, w)) = Ok (a, Device.Devices table (m', w)).
Proof. intros Hf. unfold on_bytes, on_machine. cbn [machine fst snd]. by rewrite Hf. Qed.

(** The console's device: in the place that [device_find] answers and under its own number. *)
Definition console_at (i : Z) (d : device_t (mem * Console.world)) : Prop :=
  find_loop table 0 0 DEV_CONSOLE 0 = Some i ∧ 0 <= i < DEVICE_NR ∧ table !! Z.to_nat i = Some d ∧ dev d = i ∧ type d = DEV_CHAR ∧ Device.write d = Some console_fn.

(** A message that fits into the buffer reaches the console character by character, and is answered
    with its length; the console stays in order, and the memory changes in the buffer only. *)
Theorem printk_reaches_console i d print_buf m w fmt args text cnt cs :
  console_at i d → text_of fmt args = Ok (text, cnt, cs) → text ≠ [] → print_buf ≠ 0 → room m print_buf 2048 → good (con w) →
  ∃ m' w', printk print_buf fmt args (Device.Devices table (m, w)) = Ok (cnt, Device.Devices table (m', w')) ∧
    console_write (s8 <$> text) w = Ok (s32 (cnt + 1), w') ∧ good (con w') ∧ touched (range print_buf 2048) m m'.
Proof.
  intros (Hf & Hi & Hd & Hdev & Hty & Hw) Ht Hne Hp Hr Hg. destruct (text_length _ _ _ _ _ Ht) as [Hc Hlt]. destruct (console_write_Ok w (s8 <$> text) Hg) as (w' & Ew & Hg' & _).
  rewrite length_fmap, <- Hc in Ew. set (m1 := KString.write print_buf (replicate 2048 0) m). assert (T1 : touched (range print_buf 2048) m m1) by (apply (touched_write print_buf (replicate 2048 0) m)).
  assert (R1 : room m1 print_buf 2048) by (by apply room_write). assert (Hl : (length (text ++ [EOS]) <= 2048)%nat) by (rewrite length_app; cbn; lia).
  set (m2 := KString.write print_buf (text ++ [EOS]) m1). assert (T2 : touched (range print_buf 2048) m1 m2).
  { eapply touched_incl; [apply touched_write|]. unfold range. lia. }
  assert (B : bytes_at m2 print_buf (s8 <$> text)).
  { assert (bytes_at m2 print_buf (s8 <$> (text ++ [EOS]))) as B by (unfold m2; rewrite <- write_s8; apply write_bytes, Forall_fmap, Forall_forall; intros; apply s8_char). rewrite fmap_app in B. by apply bytes_at_app in B as [B _]. }
  exists m2, w'. split; [|split; [done|split; [done|by eapply touched_trans; [exact T1|exact T2|..]]]]. unfold printk.
  st_go (on_bytes_Ok (memset print_buf 0 2048) () m m1 w (memset_spec m print_buf 0 2048 Hr)). unfold print_into.
  eapply st_step; [eapply st_step; [unfold lift_st; rewrite Ht; reflexivity|]; cbv beta iota; eapply st_step; [apply (on_bytes_Ok _ () m1 m2 w), copy_out_Ok; by apply (room_le _ _ _ _ R1)|]; reflexivity|]. cbv beta.
  assert (F : find_or_panic DEV_CONSOLE (Device.Devices table (m2, w)) = Ok (i, Device.Devices table (m2, w))).
  { unfold find_or_panic. eapply st_step; [reflexivity|]. cbv beta. unfold device_find. cbn [device_list]. by rewrite Hf. }
  st_go F. assert (A : at_slot i (Device.Devices table (m2, w)) = Ok (d, Device.Devices table (m2, w))) by (unfold at_slot; cbn [device_list]; by rewrite (proj2 (zget_Ok table i d) (conj (proj1 Hi) Hd))).
  st_go A. unfold device_write. rewrite (proj2 (Z.eqb_neq _ _) Hp), (proj2 (Z.eqb_neq cnt 0)) by (destruct text; [done|cbn in Hc; lia]). cbn [orb]. rewrite Hdev.
  assert (G : device_get i (Device.Devices table (m2, w)) = Ok (d, Device.Devices table (m2, w))).
  { unfold device_get. eapply st_step; [unfold sassert; rewrite (proj2 (Z.ltb_lt _ _) (proj2 Hi)); reflexivity|]. cbv beta. st_go A. eapply st_step; [unfold sassert; rewrite Hty; reflexivity|]. reflexivity. }
  eapply st_step; [eapply st_step; [exact G|]; cbv beta; rewrite Hw; unfold on_machine; cbn [machine]; unfold console_fn; cbn [fst snd]|].
  { assert (Z.to_nat cnt = length (s8 <$> text)) as -> by (rewrite length_fmap; lia). rewrite (load_chars_Ok m2 _ print_buf B). cbn [mbind res_bind]. rewrite Ew. reflexivity. }
  reflexivity.
Qed.
End console.

(** ** A message too long for its buffer *)

Lemma copy_out_stops m l : ∀ p n, (n < length l)%nat → room m p n → m !! (p + Z.of_nat n) = None → copy_out p l m = Stop OutOfBounds.
Proof.
  revert m. induction l as [|c l IH]; intros m p n Hn Hr Hm; [cbn in Hn; lia|]. cbn [copy_out]. destruct n as [|n].
  - unfold mbind, st_bind, st. rewrite Z.add_0_r in Hm. by rewrite Hm.
  - apply room_S in Hr as [Hp Hr]. rewrite (st_bind_eq _ _ _ _ _ (st_Ok _ _ c Hp)). apply (IH _ _ n); [cbn in Hn; lia|by apply (room_write _ _ _ p [c])|]. rewrite lookup_insert_ne by lia. rewrite <- Hm. f_equal. lia.
Qed.

(** The buffers of [panic] and [debugk] have 1024 bytes, but [vsprintf] checks for 2048, and afterwards:
    a message of 1024 characters and more is written past the end. *)
Theorem panic_overflows {E} (table : list (device_t (mem * E))) print_buf panic_buf m e fmt args text cnt cs :
  text_of fmt args = Ok (text, cnt, cs) → 1024 <= cnt → room m panic_buf 1024 → m !! (panic_buf + 1024) = None →
  panic print_buf panic_buf fmt args (Device.Devices table (m, e)) = Stop OutOfBounds.
Proof.
  intros Ht Hc Hr Hm. destruct (text_length _ _ _ _ _ Ht) as [-> _]. unfold panic.
  assert (P : print_into panic_buf fmt args (Device.Devices table (m, e)) = Stop OutOfBounds).
  { unfold print_into. eapply st_step; [unfold lift_st; rewrite Ht; reflexivity|]. cbv beta iota. unfold mbind at 1, st_bind at 1. unfold on_bytes, on_machine. cbn [machine fst snd].
    rewrite (copy_out_stops m _ panic_buf 1024); [done|rewrite length_app; cbn; lia|done|exact Hm]. }
  unfold mbind at 1, st_bind at 1. by rewrite P.
Qed.

(** ** Witnesses *)

Definition console_only : list (device_t (mem * Console.world)) := [Device [] 0 0 0 0 0 [] DIRECT_UP None None None; Device (chars "console") DEV_CHAR DEV_CONSOLE 1 0 0 [] DIRECT_UP None None (Some console_fn)].

Lemma printk_reaches_console_witness : ∃ m' w', printk 100 (chars "task %d") [AInt 7] (Device.Devices console_only (blank 100 2048, booted)) = Ok (6, Device.Devices console_only (m', w')) ∧ good (con w').
Proof.
  destruct (printk_reaches_console console_only 1 (Device (chars "console") DEV_CHAR DEV_CONSOLE 1 0 0 [] DIRECT_UP None None (Some console_fn)) 100 (blank 100 2048) booted (chars "task %d") [AInt 7] (chars "task 7") 6 []) as (m' & w' & E & _ & G & _).
  - split; [reflexivity|]. split; [unfold DEVICE_NR; lia|]. repeat split.
  - vm_compute. reflexivity.
  - discriminate.
  - discriminate.
  - exact (blank_room 100 2048).
  - exact booted_good.
  - exists m', w'. split; [exact E|exact G].
Defined.

Lemma panic_overflows_witness : panic 5000 100 (replicate 1100 65) [] (Device.Devices console_only (blank 100 1024, booted)) = Stop OutOfBounds.
Proof.
  apply (panic_overflows console_only 5000 100 (blank 100 1024) booted (replicate 1100 65) [] (replicate 1100 65) 1100 []).
  - vm_compute. reflexivity.
  - lia.
  - exact (blank_room 100 1024).
  - vm_compute. reflexivity.
Defined.
